(* ===== verification/_CoqProject ===== *)
-Q . S2P
Prelude.v
Params.v
CList.v
BitMap.v
Mips.v
Machine.v
Interrupt.v
Threads.v
Synch.v
SynchList.v
Disk.v
FileHdr.v
SynchDisk.v
Directory.v
Replacement.v
Pager.v
OpenFile.v
FileSys.v
AddrSpace.v
Process.v
Join.v
Syscall.v
Network.v
Console.v
Kernel.v
Lifecycle.v
Calls.v
Isolation.v
VmSpace.v
VmCreate.v
Coff.v
FsTest.v
ThreadTest.v
BarrierTest.v
Interp.v
InterpMachine.v
Disasm.v
Listing.v
OutMain.v
Startup.v
SysDep.v
TimingTest.v
Debugger.v
NetTest.v
