(* ===== verification/Prelude.v ===== *)
(** * A verification library for the Nachos kernel of this repository

    Nachos is an instructional operating system: a simulated MIPS machine with its
    interrupts and devices (src/machine), a thread kernel (src/threads), user programs
    (src/userprog), a file system (src/filesys), virtual memory (src/vm) and a network
    (src/network), with tools that make, list and run executables (src/bin). Simulator and kernel are one C++ program: the simulated clock advances
    when the kernel enables interrupts or when a user instruction has been executed, and
    the devices call back into the kernel through the pending interrupts.

    ** Conventions

    The definitions follow the C++ code function by function and keep its names, with the
    class as a prefix where two classes share a name ([BitMap_Find], [Directory_Find]). A
    function that can fail returns an [outcome]: [Ok], a failed [ASSERT], undefined
    behaviour (an access outside an array or through a pointer to nothing), or the end of
    the fuel. Objects are records and mutation is state passing; the memory that holds
    list cells and thread objects is a finite map from addresses, so that aliasing is
    visible. [int] is [Z] with [s32] and [u32] written where the code can wrap; the
    program is built with [g++ -m32] for a little endian host. A value that the code
    reads before it is set is an argument called [garbage], over which the theorems
    quantify.

    ** Files

    - Prelude.v: outcomes, machine integers, arrays, memory images, automation.
    - Params.v: the constants of machine.h, disk.h and stats.h.
    - CList.v (threads/list.cc): the linked list with cells on a heap. [List_simulation]:
      every sequence of operations returns what an abstract list of keyed items returns;
      [List_SortedInsert_stable], [List_delete_frees].
    - BitMap.v (userprog/bitmap.cc): the bitmap on 32-bit words, its refinement to a set of
      bits, and the interface [BitAllocator] with its laws, which is all that the clients
      (file headers, process and page tables) use.
    - Mips.v (machine/mipssim.h, Decode and Mult of mipssim.cc): the tables are total
      ([Decode_total]) and the shift-and-add multiplication is the 64-bit product
      ([Mult_correct]).
    - Machine.v (machine.cc, translate.cc, OneInstruction of mipssim.cc): registers, main
      memory, page table and TLB. [OneInstruction_safe]: every instruction on a well-formed
      machine ends in a well-formed machine or in a trap, and the few undefined cases are
      named; [Translate_correct], [WriteMem_ReadMem], [add_sub_overflow], and the
      divergence of OR, SRL and SRLV from the architecture ([or_srl_divergence]).
    - Interrupt.v (interrupt.cc, stats.cc, timer.cc): the clock, the pending interrupts and
      the handlers. [HandlerContract] says what a handler must keep, and the timer's handler
      is an instance. [OneTick_fires_due], [Idle_advances], [Timer_slices].
    - Threads.v (thread.cc, scheduler.cc): thread objects, the ready list, [Fork], [Yield],
      [Sleep], [Finish] and the context switch. [scheduler_invariant],
      [Yield_round_robin], [context_switch_restores], [Finish_destroys], and the leak
      [Finish_leaks].
    - Synch.v (synch.cc): semaphores, locks, conditions, barriers. The theorems on
      semaphores and locks are invariants of step relations in which all threads and the
      rest of the kernel interleave: [semaphore_counts], [semaphore_no_lost_wakeup],
      [lock_mutual_exclusion], [lock_no_lost_wakeup]; [Wait_atomic],
      [signal_broadcast_fifo], [Barrier_block_correct].
    - SynchList.v (synchlist.cc): a list with a lock and a condition. [SynchList_fifo].
    - Disk.v (disk.cc): the disk with its track buffer. [disk_read_write], [disk_latency],
      [disk_one_request].
    - FileHdr.v (filehdr.cc, IndirectPointerBlock.cc): where the sectors of a file are.
      [Allocate_correct] (with what happens when only the data fits), [ByteToSector_correct], [WriteBack_FetchFrom],
      [Deallocate_small]; and what the code does where it leaves its specification:
      [Allocate_counts_data_only], [ByteToSector_large], [Deallocate_large],
      [ExtendFile_direct].
    - SynchDisk.v (synchdisk.cc): the disk behind its lock and its semaphore.
      [SynchDisk_refines]: what the file layers see is a list of sectors.
    - Directory.v (directory.cc): [Directory_refines], the directory is a finite map from
      names cut to nine characters; [Add_small_table].
    - Replacement.v (fifo.cc, lru.cc, randomReplacement.cc): the interface [Replacement] and
      its laws; [FIFO_queue], [LRU_order], [Random_in_range].
    - Pager.v (vmManager.cc, swapManager.cc, memoryManager.cc): paging over any
      [Replacement] and any [BitAllocator]. [getPhysicalPage_coherent]: no page changes its
      contents when pages move between frames and swap; [getPage_fresh],
      [copy_from_swap], [clearPage_frees].
    - OpenFile.v (openfile.cc, and the parts of bitmap.cc and filehdr.cc that use files):
      [OpenFile_refines_array], a file is an array of bytes; [WriteAt_grows],
      [BitMap_file_roundtrip], [Write_Seek_Read]; where the code leaves its specification,
      [WriteAt_append_overwrites] and [WriteAt_padding_unread].
    - FileSys.v (filesys.cc, and FetchFrom and WriteBack of directory.cc): an invariant
      [fs_ok] that ties directory, free map and headers on disk together, and
      [FileSystem_format], [Create_correct], [Remove_correct], [Create_Remove_roundtrip],
      [Create_write_read].
    - AddrSpace.v (addrspace.cc, memoryManager.cc): [AddrSpace_loads],
      [CopyAddrSpace_correct], [AddrSpace_delete_frees], [Translate_agrees] (the kernel and
      the hardware translate alike), [start_machine_ok]; and [ReadFile_unaligned].
    - Process.v (processManager.cc, pcb.cc, sysOpenFile.cc): process identifiers and tables
      of open files. [open_table_refines], [getPID_unique]; [closeFile_deletes],
      [closeFile_twice].
    - Join.v (join and clearPID of processManager.cc): [exit_wakes_joiners],
      [join_after_exit].
    - Syscall.v (exception.cc): the system calls on files and on the console.
      [Read_call_correct], [Write_call_correct], [write_close_open_read], [Open_creates],
      [Open_no_slot], [transfers_terminate]; [console_write], [getString_pages].
    - Network.v (network.cc, post.cc): packets, mail boxes and the post office.
      [mail_roundtrip], [poll_keeps_waiting], [Send_never_busy].
    - Console.v (console.cc): [console_input_order], [console_output].
    - Kernel.v (exception.cc, StartProcess of progtest.cc): the whole system as the kernel
      sees it, [ExceptionHandler], and the system calls that create, end and switch
      processes. A call that gives up the CPU ends at the switch; what the thread has left
      to do is its pending work, and [continue] does it.
    - Lifecycle.v: the invariant [os_ok] of that system (frames, identifiers, threads and
      control blocks of processes are apart; who waits is asleep) and that Fork, Exec, Exit,
      Join and Yield keep it. A thread that waits for the lock of a process remembers the
      object, since the identifier may meanwhile be given away with a new lock.
    - Calls.v: the calls from the registers of the caller to its return.
      [Fork_call_correct], [fork_returns_twice], [Exec_call_correct], [Exec_call_missing],
      [Exit_call_correct], [Join_call_correct], [handler_otherwise].
    - Isolation.v: [user_isolation], no program can change the memory of another one by its
      instructions; [console_read_escapes], but it can make the kernel do so.
    - VmSpace.v (the branches for [VM] of addrspace.cc, translate.cc and exception.cc): page
      tables that name pages of swap, page faults, and the simulation of memories by paging.
    - VmCreate.v: creating, copying and deleting such spaces. [paging_refines_memory]: the
      loads and stores of several programs, interleaved, return what they return when each
      has an array of its own; [VM_AddrSpace_loads], [VM_fork_copies], [VM_delete_frees]; and
      where the kernel's own accesses leave this, [kernel_write_lost] and
      [fault_duplicates].
    - Coff.v (bin/coff2noff.c, bin/coff2flat.c): the tools that make executables.
      [coff2noff_correct], [converted_program_loads] (from the object file to the memory of
      the program), [coff2noff_rejects], [coff2flat_correct]; [sbss_test_inverted].
    - FsTest.v (filesys/fstest.cc): [Copy_Print]; [performance_test_overwrites].
    - ThreadTest.v (SimpleThread of threads/threadtest.cc): the interface [Mutex], with locks
      and semaphores as instances, and threads that increment a shared variable.
      [simple_threads_total]; [lost_updates] without synchronization.
    - BarrierTest.v (threads/threadtest.cc): the barrier after that loop, on the same kernel,
      and the test of condition variables. [final_values]: every thread prints the same final
      value; [conditions_test_stuck]: in the test of conditions none does.
    - TimingTest.v (the measurements of threads/threadtest.cc): [measured_work], the loops
      end, and the one without switches does half the work of the one with them.
    - NetTest.v (network/nettest.cc): two machines that run [MailTest] against each other.
      [mail_test]: under every schedule and whatever packets are lost nothing fails and only the
      right messages are printed, and both finish when the network loses none.
    - Interp.v (bin/execute.c, system.c, instr.h, encode.h, int.h): the stand-alone MIPS
      interpreter, over an interface [HostOS] of the host's calls and their numbers.
      [arguments_passed], [ilog2_bits]; where it leaves the architecture,
      [mult_high_wrong], [ori_extends], [lwl_mask]; and [ninth_argument].
    - InterpMachine.v: [interpreter_follows_machine], the interpreter and the simulated machine
      of Machine.v execute programs alike, where [comparable] says on which instructions
      the two sources agree.
    - Disasm.v (bin/d.c, opstrings.c; the printing of instructions in mipssim.cc):
      [listing_line], [listing_shows_target], [same_names]; [listed_operands].
    - Listing.v and OutMain.v (bin/out.c; the loop of disasm.c): the listing of an object file, with the
      system's symbol tables as a parameter [ObjFormat]. [program_listed], [column_right],
      [load_in_bounds]; [strings_overrun], [long_symbol].
    - Startup.v (threads/main.cc, system.cc, utility.cc): [command_line], what the options
      mean in each build; [list_option_clash], [threads_no_commands]; [objects_deleted] and
      [vm_after_filesystem] on the global objects.
    - SysDep.v (machine/sysdep.cc, the stubs of filesys.h and openfile.h): the host's calls are
      the interface [Unix], and [UnixFiles] states their documented behaviour on files, of which
      [posix] is an instance. [stub_file_refines], [stub_roundtrip].
    - Debugger.v (Debugger and DumpState of machine.cc, DumpState of interrupt.cc, Print of
      stats.cc): [debugger_commands], [dump_unambiguous].

    The layers meet in their theorems: Disk.v is the device below SynchDisk.v, whose list
    of sectors is the disk of FileHdr.v, OpenFile.v and FileSys.v; AddrSpace.v loads
    programs through OpenFile.v; Syscall.v composes FileSys.v, OpenFile.v, Process.v and
    AddrSpace.v; Synch.v is above Threads.v, and Join.v and SynchList.v are above Synch.v;
    Kernel.v puts Machine.v, Threads.v, AddrSpace.v, Join.v and Syscall.v together, in the
    build without [VM]; VmSpace.v puts AddrSpace.v, Machine.v, Pager.v and a policy of
    Replacement.v together, in the build with it. NetTest.v runs two stations of Network.v;
    SysDep.v shows that the files of Pager.v are those of the host; InterpMachine.v relates
    the interpreter to Machine.v, and Disasm.v relates the disassembler to both.

    Each file has the code first, then the invariant and the lemmas, then the properties,
    each with a witness on concrete data.

    ** Loops and fuel

    A loop whose bound the code knows before it starts is a [Fixpoint] on that number of
    iterations. Where the bound depends on the state the definition has fuel, and the
    theorem that the loop ends is part of the property: [List] loops get one more than the
    number of cells on the heap, [due_loop] one more than the number of pending interrupts,
    [Allocate_loop] and [ExtendFile_loop] one more than the number of sectors, the loops
    that transfer data in pieces one more than the number of bytes, since every piece has
    at least one byte ([transfers_terminate]). The fuel of [WriteAt] is the depth to which
    it calls itself: to grow a file it writes the free map, which is another file; one
    level is enough inside a file and two when it grows, and the theorems state that.
    The interpreter and the machine run for a number of instructions that is an argument; the
    loops of TimingTest.v and [disasm] get one more than the number of rounds, and [cv_run] of
    BarrierTest.v, which runs until the machine idles, more than the operations of all threads.
    Loops that sleep ([P], [Acquire]) are one definition per iteration, and the step
    relations say who runs in between.

    ** Waiting

    Synch.v models semaphores, locks and conditions with their queues of threads. The
    components above it whose theorems are about one caller (SynchDisk.v, Process.v,
    Network.v) use what Synch.v shows of them: a lock is free or held, a semaphore is its
    value, and a call that would wait returns [Blocks]. A system call on a file and the loading
    of a program are one step of Kernel.v: the switches to other threads while the disk works
    are those of SynchDisk.v, and the theorems on these calls are about a kernel in which no
    other thread uses the file system meanwhile.

    ** Memory that is not initialized

    What [new] returns is a member of the class [Fresh], of which the laws [FreshLaws]
    state only the sizes and the ranges of the types. [getString] stores one character past
    the block it allocated, which is defined only when the allocator rounds the size up:
    its argument [slack] says by how much. Nothing documents that it does; the properties of the
    calls with a name state what happens in either case.

    ** What is not modelled

    [SWITCH] and [ThreadRoot] are assembly: their effect is the transfer of control to the
    place that a thread recorded when it gave up the CPU. The system calls below sysdep.cc
    and the ld library, from which bin/main.c and bin/disasm.c load a program, are not part of
    the repository; the former are parameters. [DEBUG] output and the [Print] functions of
    file headers, directories and bitmaps in the file system, the tracing output and the unused statistics
    of bin/execute.c, and in threadtest.cc the routines that read the clock are left out, and so are the user programs under src/test. *)

From stdpp Require Import prelude list numbers gmap.

Open Scope Z_scope.

(** ** Outcomes of C++ code

    [Ok a] is a normal return.  [AssertFail] is a failed [ASSERT]
    (threads/utility.h calls [Abort()]).  [Undef] is a step whose behaviour the
    C++ language leaves undefined, such as an access outside an array or through
    a [NULL] pointer.  [NoFuel] is a loop whose iteration bound ran out; the
    theorems show it never is the result. *)

Inductive outcome (A : Type) : Type :=
| Ok (a : A)
| AssertFail
| Undef
| NoFuel.

Arguments Ok {A} a.
Arguments AssertFail {A}.
Arguments Undef {A}.
Arguments NoFuel {A}.

#[export] Instance outcome_ret : MRet outcome := fun A a => Ok a.
#[export] Instance outcome_bind : MBind outcome :=
  fun A B f x =>
    match x with
    | Ok a => f a
    | AssertFail => AssertFail
    | Undef => Undef
    | NoFuel => NoFuel
    end.
#[export] Instance outcome_fmap : FMap outcome :=
  fun A B f x =>
    match x with
    | Ok a => Ok (f a)
    | AssertFail => AssertFail
    | Undef => Undef
    | NoFuel => NoFuel
    end.

#[export] Instance outcome_eq_dec {A} `{EqDecision A} : EqDecision (outcome A).
Proof. solve_decision. Defined.

(** What a call does that may wait for another thread or for an interrupt. *)
Inductive answer (A : Type) := Returns (a : A) | Blocks.
Arguments Returns {A} a.
Arguments Blocks {A}.

(** The macro [ASSERT] of threads/utility.h. *)
Definition ASSERT (condition : bool) : outcome unit :=
  if condition then Ok () else AssertFail.

(** Reading through a possibly [NULL] pointer or slot. *)
Definition deref {A} (o : option A) : outcome A :=
  match o with Some a => Ok a | None => Undef end.

Lemma bind_ok {A B} (x : outcome A) (f : A -> outcome B) (b : B) :
  x ≫= f = Ok b -> exists a, x = Ok a /\ f a = Ok b.
Proof. destruct x; simpl; try done. eauto. Qed.

Lemma ASSERT_ok (c : bool) (u : unit) : ASSERT c = Ok u -> c = true.
Proof. by destruct c. Qed.

Lemma ASSERT_true (c : bool) : c = true -> ASSERT c = Ok ().
Proof. by intros ->. Qed.

(** [ensures asrt undef P x]: [x] returns a value with [P], or it is a failed
    assertion and [asrt] holds, or it is undefined behaviour and [undef] holds. It
    never runs out of fuel. *)
Definition ensures {A} (asrt undef : Prop) (P : A -> Prop) (x : outcome A) : Prop :=
  match x with
  | Ok a => P a
  | AssertFail => asrt
  | Undef => undef
  | NoFuel => False
  end.

Lemma ensures_bind {A B} asrt undef (P : A -> Prop) (Q : B -> Prop) x f :
  ensures asrt undef P x -> (forall a, x = Ok a -> P a -> ensures asrt undef Q (f a)) ->
  ensures asrt undef Q (x ≫= f).
Proof. destruct x; simpl; auto. Qed.

Lemma ensures_mono {A} (asrt undef asrt' undef' : Prop) (P Q : A -> Prop) x :
  ensures asrt undef P x -> (asrt -> asrt') -> (undef -> undef') -> (forall a, P a -> Q a) ->
  ensures asrt' undef' Q x.
Proof. destruct x; simpl; auto. Qed.

Lemma ensures_ok {A} asrt undef (P : A -> Prop) x a :
  ensures asrt undef P x -> x = Ok a -> P a.
Proof. by intros H ->. Qed.

Lemma ensures_total {A} (P : A -> Prop) x :
  ensures False False P x -> exists a, x = Ok a /\ P a.
Proof. destruct x; simpl; eauto; done. Qed.

Lemma ensures_assert {B} asrt undef (Q : B -> Prop) c k :
  (c = false -> asrt) -> (c = true -> ensures asrt undef Q k) ->
  ensures asrt undef Q (ASSERT c;; k).
Proof. destruct c; simpl; auto. Qed.

(** Linear arithmetic with [/] and [mod] by constants. *)
Ltac dlia := Z.to_euclidean_division_equations; lia.

(** ** 32-bit machine integers

    The build is [g++ -m32]: [int] and [unsigned int] have 32 bits, and signed
    arithmetic that overflows wraps (the MIPS simulator relies on it). *)

Definition two32 : Z := 4294967296.
Definition two31 : Z := 2147483648.

(** Conversion to [unsigned int]. *)
Definition u32 (z : Z) : Z := z `mod` two32.

(** Conversion to [int] (two's complement). *)
Definition s32 (z : Z) : Z := (z + two31) `mod` two32 - two31.

Definition is_u32 (z : Z) : Prop := 0 <= z < two32.
Definition is_s32 (z : Z) : Prop := - two31 <= z < two31.

(** [a / b] and [a % b] of C on [int]: truncation towards zero. *)
Definition cdiv (a b : Z) : Z := Z.quot a b.
Definition cmod (a b : Z) : Z := Z.rem a b.

(** The macros [divRoundDown] and [divRoundUp] of threads/utility.h. *)
Definition divRoundDown (n s : Z) : Z := cdiv n s.
Definition divRoundUp (n s : Z) : Z :=
  cdiv n s + (if 0 <? cmod n s then 1 else 0).

Lemma u32_range (z : Z) : is_u32 (u32 z).
Proof. unfold is_u32, u32, two32. dlia. Qed.

Lemma s32_range (z : Z) : is_s32 (s32 z).
Proof. unfold is_s32, s32, two31, two32. dlia. Qed.

Lemma u32_small (z : Z) : is_u32 z -> u32 z = z.
Proof. unfold is_u32, u32. apply Z.mod_small. Qed.

Lemma s32_small (z : Z) : is_s32 z -> s32 z = z.
Proof. unfold is_s32, s32, two31, two32. dlia. Qed.

Lemma u32_s32 (z : Z) : u32 (s32 z) = u32 z.
Proof. unfold u32, s32, two31, two32. dlia. Qed.

Lemma s32_u32 (z : Z) : s32 (u32 z) = s32 z.
Proof. unfold u32, s32, two31, two32. dlia. Qed.

Lemma s32_cong (a b : Z) : u32 a = u32 b -> s32 a = s32 b.
Proof. intros H. by rewrite <- (s32_u32 a), H, s32_u32. Qed.

Lemma u32_cong (a b : Z) : s32 a = s32 b -> u32 a = u32 b.
Proof. intros H. by rewrite <- (u32_s32 a), H, u32_s32. Qed.

Lemma cdiv_nonneg (a b : Z) : 0 <= a -> 0 < b -> cdiv a b = a `div` b.
Proof. intros. unfold cdiv. apply Z.quot_div_nonneg; lia. Qed.

Lemma cmod_nonneg (a b : Z) : 0 <= a -> 0 < b -> cmod a b = a `mod` b.
Proof. intros. unfold cmod. apply Z.rem_mod_nonneg; lia. Qed.

(** [divRoundUp] is the least number of [s]-sized pieces that hold [n]. *)
Lemma divRoundUp_bounds (n s : Z) :
  0 <= n -> 0 < s -> n <= divRoundUp n s * s < n + s.
Proof.
  intros Hn Hs. unfold divRoundUp. rewrite cdiv_nonneg, cmod_nonneg by lia.
  pose proof (Z.div_mod n s ltac:(lia)). pose proof (Z.mod_pos_bound n s ltac:(lia)).
  destruct (Z.ltb_spec 0 (n `mod` s)); nia.
Qed.

Lemma divRoundUp_nonneg (n s : Z) : 0 <= n -> 0 < s -> 0 <= divRoundUp n s.
Proof. intros. pose proof (divRoundUp_bounds n s). nia. Qed.

(** ** Arrays

    A C++ array is a list; an index outside it is undefined behaviour. *)

Definition arr_get {A} (l : list A) (i : Z) : outcome A :=
  if i <? 0 then Undef else deref (l !! Z.to_nat i).

Definition arr_set {A} (l : list A) (i : Z) (x : A) : outcome (list A) :=
  if (i <? 0) || (Z.of_nat (length l) <=? i) then Undef
  else Ok (<[Z.to_nat i := x]> l).

Lemma arr_get_ok {A} (l : list A) (i : Z) (x : A) :
  arr_get l i = Ok x <-> 0 <= i /\ l !! Z.to_nat i = Some x.
Proof.
  unfold arr_get. destruct (Z.ltb_spec i 0); [split; [done|lia]|].
  destruct (l !! Z.to_nat i); simpl; split; [intros [= ->]|intros [_ [= ->]]| |intros [_ ?]]; done.
Qed.

Lemma arr_get_in {A} (l : list A) (i : Z) :
  0 <= i < Z.of_nat (length l) -> exists x, arr_get l i = Ok x.
Proof.
  intros Hi. destruct (lookup_lt_is_Some_2 l (Z.to_nat i)) as [x Hx]; [lia|].
  exists x. apply arr_get_ok. split; [lia|done].
Qed.

Lemma arr_get_out {A} (l : list A) (i : Z) :
  i < 0 \/ Z.of_nat (length l) <= i -> arr_get l i = Undef.
Proof.
  intros Hi. unfold arr_get. destruct (Z.ltb_spec i 0); [done|].
  rewrite lookup_ge_None_2 by lia. done.
Qed.

Lemma arr_set_in {A} (l : list A) (i : Z) (x : A) :
  0 <= i < Z.of_nat (length l) -> arr_set l i x = Ok (<[Z.to_nat i := x]> l).
Proof.
  intros Hi. unfold arr_set.
  destruct (Z.ltb_spec i 0), (Z.leb_spec (Z.of_nat (length l)) i); simpl; (lia || done).
Qed.

Lemma arr_set_out {A} (l : list A) (i : Z) (x : A) :
  i < 0 \/ Z.of_nat (length l) <= i -> arr_set l i x = Undef.
Proof.
  intros Hi. unfold arr_set.
  destruct (Z.ltb_spec i 0), (Z.leb_spec (Z.of_nat (length l)) i); simpl; (lia || done).
Qed.

Lemma arr_set_ok {A} (l l' : list A) (i : Z) (x : A) :
  arr_set l i x = Ok l' <->
  0 <= i < Z.of_nat (length l) /\ l' = <[Z.to_nat i := x]> l.
Proof.
  split.
  - unfold arr_set. destruct (Z.ltb_spec i 0), (Z.leb_spec (Z.of_nat (length l)) i);
      simpl; intros Heq; simplify_eq; (lia || split; [lia|done]).
  - intros [Hi ->]. by apply arr_set_in.
Qed.

(** ** Memory images

    The host is little endian (HOST_i386): an [int] or [unsigned int] is stored as
    four bytes, lowest first. Bytes are integers in 0..255. *)

Definition is_byte (b : Z) : Prop := 0 <= b < 256.

Definition word_bytes (w : Z) : list Z :=
  [w `mod` 256; (w `div` 256) `mod` 256; (w `div` 65536) `mod` 256;
   (w `div` 16777216) `mod` 256].

Definition bytes_word (b0 b1 b2 b3 : Z) : Z :=
  b0 + 256 * b1 + 65536 * b2 + 16777216 * b3.

Fixpoint words_to_bytes (ws : list Z) : list Z :=
  match ws with [] => [] | w :: ws => word_bytes w ++ words_to_bytes ws end.

(** The first [n] words of a byte sequence. *)
Fixpoint bytes_to_words (n : nat) (bs : list Z) : list Z :=
  match n, bs with
  | S n, b0 :: b1 :: b2 :: b3 :: bs => bytes_word b0 b1 b2 b3 :: bytes_to_words n bs
  | _, _ => []
  end.

Lemma word_bytes_word (w : Z) :
  bytes_word (w `mod` 256) ((w `div` 256) `mod` 256) ((w `div` 65536) `mod` 256)
    ((w `div` 16777216) `mod` 256) = u32 w.
Proof. unfold bytes_word, u32, two32. dlia. Qed.

Lemma word_bytes_byte (w : Z) : Forall is_byte (word_bytes w).
Proof. unfold word_bytes, is_byte. repeat constructor; dlia. Qed.

Lemma words_to_bytes_length ws : length (words_to_bytes ws) = (4 * length ws)%nat.
Proof. induction ws as [|w ws IH]; simpl; lia. Qed.

Lemma words_to_bytes_byte ws : Forall is_byte (words_to_bytes ws).
Proof.
  induction ws as [|w ws IH]; [constructor|]. apply Forall_app. auto using word_bytes_byte.
Qed.

Lemma words_to_bytes_app ws1 ws2 :
  words_to_bytes (ws1 ++ ws2) = words_to_bytes ws1 ++ words_to_bytes ws2.
Proof. induction ws1 as [|w ws1 IH]; simpl; [done|]. by rewrite IH. Qed.

(** Reading back the words that were stored. *)
Lemma bytes_words_round_trip ws rest :
  bytes_to_words (length ws) (words_to_bytes ws ++ rest) = map u32 ws.
Proof. induction ws as [|w ws IH]; simpl; [done|]. by rewrite IH, word_bytes_word. Qed.

Lemma map_u32_id ws : Forall is_u32 ws -> map u32 ws = ws.
Proof. induction 1 as [|w ws Hw _ IH]; simpl; [done|]. by rewrite IH, u32_small. Qed.

(** [bcopy(data, mem + offset, n)] with [n] bytes of data. *)
Definition put_bytes (mem : list Z) (offset : Z) (data : list Z) : outcome (list Z) :=
  if (offset <? 0) || (Z.of_nat (length mem) <? offset + Z.of_nat (length data)) then Undef
  else Ok (take (Z.to_nat offset) mem ++ data ++ drop (Z.to_nat offset + length data) mem).

(** [bcopy(mem + offset, buffer, n)]: the [n] bytes. A negative [n] is a huge size. *)
Definition get_bytes (mem : list Z) (offset n : Z) : outcome (list Z) :=
  if (offset <? 0) || (n <? 0) || (Z.of_nat (length mem) <? offset + n) then Undef
  else Ok (take (Z.to_nat n) (drop (Z.to_nat offset) mem)).

Definition splice (mem : list Z) (off : nat) (data : list Z) : list Z :=
  take off mem ++ data ++ drop (off + length data) mem.

Lemma put_bytes_in mem offset data :
  0 <= offset -> offset + Z.of_nat (length data) <= Z.of_nat (length mem) ->
  put_bytes mem offset data = Ok (splice mem (Z.to_nat offset) data).
Proof.
  intros Ho Hl. unfold put_bytes. destruct (Z.ltb_spec offset 0); [lia|].
  destruct (Z.ltb_spec (Z.of_nat (length mem)) (offset + Z.of_nat (length data))); [lia|]. done.
Qed.

Lemma get_bytes_in mem offset n :
  0 <= offset -> 0 <= n -> offset + n <= Z.of_nat (length mem) ->
  get_bytes mem offset n = Ok (take (Z.to_nat n) (drop (Z.to_nat offset) mem)).
Proof.
  intros Ho Hn Hl. unfold get_bytes. destruct (Z.ltb_spec offset 0), (Z.ltb_spec n 0); try lia. simpl.
  destruct (Z.ltb_spec (Z.of_nat (length mem)) (offset + n)); [lia|]. done.
Qed.

Lemma splice_length mem off data : (off + length data <= length mem)%nat -> length (splice mem off data) = length mem.
Proof. intros Hl. unfold splice. rewrite !length_app, length_take, length_drop. lia. Qed.

Lemma splice_lookup mem off data i : (off + length data <= length mem)%nat ->
  splice mem off data !! i =
  if decide (off <= i < off + length data)%nat then data !! (i - off)%nat else mem !! i.
Proof.
  intros Hl. unfold splice. case_decide as Hi.
  - rewrite lookup_app_r by (rewrite length_take; lia). rewrite length_take, lookup_app_l by lia. f_equal. lia.
  - destruct (decide (i < off)%nat) as [Hlt|Hge].
    + rewrite lookup_app_l by (rewrite length_take; lia). by apply lookup_take_lt.
    + rewrite lookup_app_r by (rewrite length_take; lia). rewrite length_take, lookup_app_r by lia.
      rewrite lookup_drop. f_equal. lia.
Qed.

Lemma splice_nil mem off : splice mem off [] = mem.
Proof. unfold splice. simpl. by rewrite Nat.add_0_r, take_drop. Qed.

(** Reading back the range that was written. *)
Lemma splice_read mem off data : (off + length data <= length mem)%nat ->
  take (length data) (drop off (splice mem off data)) = data.
Proof.
  intros Hl. unfold splice. rewrite drop_app_length' by (rewrite length_take; lia).
  by rewrite take_app_length.
Qed.

(** ** Pages of byte arrays

    A page has [PageSize] bytes, 128. *)

Definition page (l : list Z) (i : nat) : list Z := take 128 (drop (128 * i) l).

(** [l] with the [i]-th page replaced. *)
Definition put_page (l : list Z) (i : nat) (data : list Z) : list Z :=
  take (128 * i) l ++ data ++ drop (128 * i + 128) l.

Lemma page_lookup l i k : (k < 128)%nat -> page l i !! k = l !! (128 * i + k)%nat.
Proof. intros Hk. unfold page. rewrite lookup_take_lt by done. by rewrite lookup_drop. Qed.

Lemma page_length l i : (128 * i + 128 <= length l)%nat -> length (page l i) = 128%nat.
Proof. intros Hl. unfold page. rewrite length_take, length_drop. lia. Qed.

Section put_page.
Context (l data : list Z) (i : nat) (Hd : length data = 128%nat) (Hl : (128 * i + 128 <= length l)%nat).

Lemma put_page_length : length (put_page l i data) = length l.
Proof. unfold put_page. rewrite !length_app, length_take, length_drop. lia. Qed.

Lemma put_page_same : page (put_page l i data) i = data.
Proof.
  unfold page, put_page. rewrite drop_app_length' by (rewrite length_take; lia).
  by rewrite take_app_length'.
Qed.

Lemma put_page_other j : j <> i -> page (put_page l i data) j = page l j.
Proof.
  intros Hj. apply list_eq. intros k. destruct (decide (k < 128)%nat) as [Hk|Hk].
  - rewrite !page_lookup by done. unfold put_page. destruct (decide (j < i)%nat) as [Hji|Hji].
    + rewrite lookup_app_l by (rewrite length_take; nia). apply lookup_take_lt. nia.
    + rewrite lookup_app_r by (rewrite length_take; nia). rewrite length_take.
      rewrite lookup_app_r by nia. rewrite lookup_drop. f_equal. nia.
  - unfold page. rewrite !lookup_ge_None_2; [done|..]; rewrite length_take; lia.
Qed.
End put_page.

(** ** Lists *)

(** Lists of pieces of equal length. *)
Definition pieces (n : nat) (ls : list (list Z)) : Prop := Forall (fun l => length l = n) ls.

Lemma pieces_length n ls : pieces n ls -> length (concat ls) = (n * length ls)%nat.
Proof. induction 1 as [|l ls Hl _ IH]; simpl; [lia|]. rewrite length_app, Hl, IH. lia. Qed.

Lemma pieces_take n ls : forall k, pieces n ls -> take (n * k) (concat ls) = concat (take k ls).
Proof.
  induction ls as [|l ls IH]; intros k Hp; [simpl; by rewrite !take_nil|].
  apply Forall_cons in Hp as [Hl Hp]. destruct k as [|k]; [by rewrite Nat.mul_0_r|]. simpl.
  rewrite take_app, Hl, take_ge by lia. replace (n * S k - n)%nat with (n * k)%nat by lia. by rewrite IH.
Qed.

Lemma pieces_drop n ls : forall k, pieces n ls -> drop (n * k) (concat ls) = concat (drop k ls).
Proof.
  induction ls as [|l ls IH]; intros k Hp; [simpl; by rewrite !drop_nil|].
  apply Forall_cons in Hp as [Hl Hp]. destruct k as [|k]; [by rewrite Nat.mul_0_r|]. simpl.
  rewrite drop_app, Hl, drop_ge by lia. replace (n * S k - n)%nat with (n * k)%nat by lia. by rewrite IH.
Qed.

Lemma filter_all {A} (P : A -> Prop) `{!forall x, Decision (P x)} (l : list A) :
  Forall P l -> filter P l = l.
Proof. induction 1 as [|x l Hx _ IH]; [done|]. by rewrite filter_cons_True, IH. Qed.

Lemma filter_none {A} (P : A -> Prop) `{!forall x, Decision (P x)} (l : list A) :
  Forall (fun x => ~ P x) l -> filter P l = [].
Proof. induction 1 as [|x l Hx _ IH]; [done|]. by rewrite filter_cons_False. Qed.

(** ** Termination *)

(** The computation does not run out of fuel. *)
Definition halts {A} (o : outcome A) : Prop := o <> NoFuel.

Lemma halts_bind {A B} (x : outcome A) (f : A -> outcome B) :
  halts x -> (forall a, halts (f a)) -> halts (x ≫= f).
Proof. intros Hx Hf. destruct x; try done. apply Hf. Qed.

Lemma halts_ok {A} (a : A) : halts (Ok a).
Proof. done. Qed.
Lemma halts_undef {A} : halts (@Undef A).
Proof. done. Qed.
Lemma halts_assert c : halts (ASSERT c).
Proof. by destruct c. Qed.
Lemma halts_deref {A} (o : option A) : halts (deref o).
Proof. by destruct o. Qed.
Lemma halts_get {A} (l : list A) i : halts (arr_get l i).
Proof. unfold arr_get. case_match; [done|]. apply halts_deref. Qed.
Lemma halts_set {A} (l : list A) i x : halts (arr_set l i x).
Proof. unfold arr_set. by case_match. Qed.
Lemma halts_put_bytes mem o data : halts (put_bytes mem o data).
Proof. unfold put_bytes. by case_match. Qed.
Lemma halts_get_bytes mem o n : halts (get_bytes mem o n).
Proof. unfold get_bytes. by case_match. Qed.

(** ** Automation *)

Create HintDb halting.
#[export] Hint Resolve halts_ok halts_undef halts_assert halts_deref halts_get halts_set halts_put_bytes
  halts_get_bytes : halting.

(** Shows that a computation without loops halts: splits it at its binds, conditionals and
    matches. *)
Ltac halting :=
  repeat first
    [ solve [auto with halting]
    | apply halts_bind; [|intros ?]
    | match goal with |- halts (match ?x with _ => _ end) => destruct x end ].

Create HintDb nachos.
#[export] Hint Resolve u32_range s32_range divRoundUp_nonneg : nachos.
Create Rewrite HintDb nachos_rw.
#[export] Hint Rewrite @length_insert @length_replicate @length_app @length_take
  @length_drop @length_fmap : nachos_rw.

(** Decomposes hypotheses of the form [x ← e; k = Ok r] and [ASSERT c = Ok u]. *)
Ltac ok_inv :=
  repeat match goal with
  | H : _ ≫= _ = Ok _ |- _ =>
      let a := fresh "v" in let H1 := fresh "Hok" in
      apply bind_ok in H; destruct H as (a & H1 & H)
  | H : ASSERT _ = Ok ?u |- _ => apply ASSERT_ok in H; try destruct u
  | H : Ok _ = Ok _ |- _ => injection H as H; try subst
  | H : AssertFail = Ok _ |- _ => discriminate H
  | H : Undef = Ok _ |- _ => discriminate H
  | H : NoFuel = Ok _ |- _ => discriminate H
  end.

(** Case analysis on the boolean comparisons of the goal. *)
Ltac cmp_cases :=
  repeat match goal with
  | |- context [Z.ltb ?a ?b] => destruct (Z.ltb_spec a b)
  | |- context [Z.leb ?a ?b] => destruct (Z.leb_spec a b)
  | |- context [Z.eqb ?a ?b] => destruct (Z.eqb_spec a b)
  end.

(** Closed range goals on concrete lists of words or bytes. *)
Ltac forall_lia :=
  repeat first [apply Forall_nil_2 | apply Forall_cons_2];
  unfold is_u32, is_s32, is_byte, two31, two32; lia.
