(* ===== verification/CList.v ===== *)
(** * threads/list.cc: singly linked lists of items with a sort key

    The concrete model is the code: [ListElement] cells in a heap, a list header
    with the [first] and [last] pointers, and one definition per member function.
    The abstract model is a Rocq list of (key, item) pairs, front first.
    [repr] relates the two, and the last theorem of the file is the simulation:
    any sequence of operations returns what the abstract list returns, and only
    touches cells of its own list. The scheduler, the synchronization objects and
    the interrupt simulation use the abstract operations. *)

From stdpp Require Import prelude list gmap sorting.
From S2P Require Import Prelude.

Open Scope Z_scope.

(** ** The abstract list *)

Abbreviation queue A := (list (Z * A)).

Definition q_append {A} (x : A) (q : queue A) : queue A := q ++ [(0, x)].
Definition q_prepend {A} (x : A) (q : queue A) : queue A := (0, x) :: q.

(** An element goes in front of the first one with a larger key. *)
Fixpoint q_sorted_insert {A} (x : A) (k : Z) (q : queue A) : queue A :=
  match q with
  | [] => [(k, x)]
  | (k', y) :: q' =>
      if k <? k' then (k, x) :: q else (k', y) :: q_sorted_insert x k q'
  end.

Definition q_remove {A} (q : queue A) : option (Z * A) * queue A :=
  match q with
  | [] => (None, [])
  | x :: q' => (Some x, q')
  end.

(** ** The code *)

(** [void *] items are addresses; [NULL] is 0. *)
Definition NULL : Z := 0.

Record ListElement := mkElement {
  le_next : option positive;
  le_key : Z;
  le_item : Z }.

Definition set_next (e : ListElement) (n : option positive) : ListElement :=
  mkElement n (le_key e) (le_item e).

Abbreviation heap := (gmap positive ListElement).

Record NList := mkList { l_first : option positive; l_last : option positive }.

#[local] Arguments fresh : simpl never.

(** [new ListElement(itemPtr, sortKey)]: a cell that is not in use. *)
Definition new_ListElement (h : heap) (itemPtr sortKey : Z) : positive * heap :=
  let e := fresh (dom h) in (e, <[e := mkElement None sortKey itemPtr]> h).

Definition List_new : NList := mkList None None.

Definition List_IsEmpty (l : NList) : bool :=
  match l_first l with None => true | Some _ => false end.

Definition List_Append (h : heap) (l : NList) (item : Z) : outcome (heap * NList) :=
  let '(element, h) := new_ListElement h item 0 in
  if List_IsEmpty l then Ok (h, mkList (Some element) (Some element))
  else
    lastp ← deref (l_last l);
    lastc ← deref (h !! lastp);
    Ok (<[lastp := set_next lastc (Some element)]> h,
        mkList (l_first l) (Some element)).

Definition List_Prepend (h : heap) (l : NList) (item : Z) : outcome (heap * NList) :=
  let '(element, h) := new_ListElement h item 0 in
  if List_IsEmpty l then Ok (h, mkList (Some element) (Some element))
  else
    c ← deref (h !! element);
    Ok (<[element := set_next c (l_first l)]> h, mkList (Some element) (l_last l)).

(** The [for] loop of [SortedInsert]. *)
Fixpoint SortedInsert_loop (fuel : nat) (h : heap) (l : NList)
    (ptr element : positive) (sortKey : Z) : outcome (heap * NList) :=
  match fuel with
  | O => NoFuel
  | S fuel =>
      p ← deref (h !! ptr);
      match le_next p with
      | None =>
          lastp ← deref (l_last l);
          lastc ← deref (h !! lastp);
          Ok (<[lastp := set_next lastc (Some element)]> h,
              mkList (l_first l) (Some element))
      | Some nx =>
          n ← deref (h !! nx);
          if sortKey <? le_key n then
            c ← deref (h !! element);
            let h := <[element := set_next c (Some nx)]> h in
            p ← deref (h !! ptr);
            Ok (<[ptr := set_next p (Some element)]> h, l)
          else SortedInsert_loop fuel h l nx element sortKey
      end
  end.

Definition List_SortedInsert (h : heap) (l : NList) (item sortKey : Z)
    : outcome (heap * NList) :=
  let '(element, h) := new_ListElement h item sortKey in
  match l_first l with
  | None => Ok (h, mkList (Some element) (Some element))
  | Some f =>
      fc ← deref (h !! f);
      if sortKey <? le_key fc then
        c ← deref (h !! element);
        Ok (<[element := set_next c (Some f)]> h, mkList (Some element) (l_last l))
      else SortedInsert_loop (S (size h)) h l f element sortKey
  end.

(** Returns the removed item ([NULL] on an empty list) and what is stored through
    [keyPtr] ([None] when nothing is: an empty list or a [NULL] [keyPtr]). *)
Definition List_SortedRemove (h : heap) (l : NList) (keyPtr : bool)
    : outcome (heap * NList * (Z * option Z)) :=
  match l_first l with
  | None => Ok (h, l, (NULL, None))
  | Some element =>
      ec ← deref (h !! element);
      let thing := le_item ec in
      let l' := if decide (l_first l = l_last l) then mkList None None
                else mkList (le_next ec) (l_last l) in
      Ok (delete element h, l', (thing, if keyPtr then Some (le_key ec) else None))
  end.

Definition List_Remove (h : heap) (l : NList) : outcome (heap * NList * Z) :=
  '(h, l, (thing, _)) ← List_SortedRemove h l false;
  Ok (h, l, thing).

(** [~List]: [while (Remove() != NULL) ;] *)
Fixpoint List_delete_loop (fuel : nat) (h : heap) (l : NList) : outcome (heap * NList) :=
  match fuel with
  | O => NoFuel
  | S fuel =>
      '(h, l, thing) ← List_Remove h l;
      if thing =? NULL then Ok (h, l) else List_delete_loop fuel h l
  end.

Definition List_delete (h : heap) (l : NList) : outcome (heap * NList) :=
  List_delete_loop (S (size h)) h l.

(** [Mapcar]: [func] is a function pointer; it acts on some state [S]. *)
Fixpoint Mapcar_loop {S} (func : Z -> S -> outcome S) (fuel : nat) (h : heap)
    (ptr : option positive) (s : S) : outcome S :=
  match ptr with
  | None => Ok s
  | Some p =>
      match fuel with
      | O => NoFuel
      | Datatypes.S fuel =>
          c ← deref (h !! p);
          s ← func (le_item c) s;
          Mapcar_loop func fuel h (le_next c) s
      end
  end.

Definition List_Mapcar {S} (func : Z -> S -> outcome S) (h : heap) (l : NList) (s : S)
    : outcome S :=
  Mapcar_loop func (size h) h (l_first l) s.

(** ** The representation relation *)

Definition hd_or (ps : list positive) (tl : option positive) : option positive :=
  match ps with [] => tl | p :: _ => Some p end.

(** The cells [ps] hold the pairs [xs] in order; the last one points to [tl]. *)
Fixpoint chain (h : heap) (ps : list positive) (xs : queue Z) (tl : option positive)
    : Prop :=
  match ps, xs with
  | [], [] => True
  | p :: ps, (k, x) :: xs =>
      h !! p = Some (mkElement (hd_or ps tl) k x) /\ chain h ps xs tl
  | _, _ => False
  end.

Definition repr (h : heap) (l : NList) (ps : list positive) (xs : queue Z) : Prop :=
  NoDup ps /\ chain h ps xs None /\ l_first l = head ps /\ l_last l = last ps.

(** What an operation on the list with cells [ps] may do to the heap: the other
    cells stay as they are, and the cells it has afterwards were its own or free. *)
Definition framed (h h' : heap) (ps ps' : list positive) : Prop :=
  (forall q, is_Some (h !! q) -> q ∉ ps -> h' !! q = h !! q) /\
  (forall q, q ∈ ps' -> q ∈ ps \/ h !! q = None).

Lemma chain_length h ps xs tl : chain h ps xs tl -> length ps = length xs.
Proof.
  revert xs; induction ps as [|p ps IH]; intros [|[k x] xs]; simpl; try done.
  intros [_ H]. by rewrite (IH _ H).
Qed.

Lemma chain_app h ps1 ps2 xs1 xs2 tl :
  length ps1 = length xs1 ->
  chain h (ps1 ++ ps2) (xs1 ++ xs2) tl <->
  chain h ps1 xs1 (hd_or ps2 tl) /\ chain h ps2 xs2 tl.
Proof.
  revert xs1; induction ps1 as [|p ps1 IH]; intros [|[k x] xs1] Hlen; simpl in *;
    try done; [tauto|].
  rewrite IH by lia. destruct ps1; simpl; tauto.
Qed.

Lemma chain_split h ps1 ps2 xs tl :
  chain h (ps1 ++ ps2) xs tl ->
  exists xs1 xs2, xs = xs1 ++ xs2 /\ length ps1 = length xs1 /\
    chain h ps1 xs1 (hd_or ps2 tl) /\ chain h ps2 xs2 tl.
Proof.
  intros Hc. pose proof (chain_length _ _ _ _ Hc) as Hlen. rewrite length_app in Hlen.
  exists (take (length ps1) xs), (drop (length ps1) xs).
  rewrite <- (take_drop (length ps1) xs) in Hc.
  assert (length ps1 = length (take (length ps1) xs)) as Hl by (rewrite length_take; lia).
  apply chain_app in Hc; [|done]. by rewrite take_drop.
Qed.

Lemma chain_snoc h ps p xs tl :
  chain h (ps ++ [p]) xs tl ->
  exists ys k x, xs = ys ++ [(k, x)] /\ length ps = length ys /\
    chain h ps ys (Some p) /\ h !! p = Some (mkElement tl k x).
Proof.
  intros (xs1 & xs2 & -> & Hlen & Hc1 & Hc2)%chain_split.
  destruct xs2 as [|[k x] [|]]; simpl in Hc2; try tauto.
  exists xs1, k, x. tauto.
Qed.

Lemma chain_is_Some h ps xs tl p : chain h ps xs tl -> p ∈ ps -> is_Some (h !! p).
Proof.
  revert xs; induction ps as [|q ps IH]; intros [|[k x] xs]; simpl; try done.
  - by rewrite elem_of_nil.
  - intros [Hq Hc]. rewrite elem_of_cons. intros [->|Hp]; [by eexists|by eapply IH].
Qed.

Lemma chain_frame h h' ps xs tl :
  (forall q, q ∈ ps -> h' !! q = h !! q) -> chain h ps xs tl -> chain h' ps xs tl.
Proof.
  revert xs; induction ps as [|p ps IH]; intros [|[k x] xs] Hf; simpl; try done.
  intros [Hp Hc]. split.
  - rewrite Hf; [done|by left].
  - apply IH; [|done]. intros q Hq. apply Hf. by right.
Qed.

Lemma chain_insert_notin h p c ps xs tl :
  p ∉ ps -> chain h ps xs tl -> chain (<[p := c]> h) ps xs tl.
Proof.
  intros Hp. apply chain_frame. intros q Hq. apply lookup_insert_ne. by intros ->.
Qed.

Lemma chain_delete_notin h p ps xs tl :
  p ∉ ps -> chain h ps xs tl -> chain (delete p h) ps xs tl.
Proof.
  intros Hp. apply chain_frame. intros q Hq. apply lookup_delete_ne. by intros ->.
Qed.

(** A list whose cells another operation does not own keeps its contents. *)
Lemma repr_frame h h' ps ps' l2 ps2 xs2 :
  framed h h' ps ps' -> ps ## ps2 -> repr h l2 ps2 xs2 ->
  repr h' l2 ps2 xs2 /\ ps' ## ps2.
Proof.
  intros [Hout Hin] Hdisj (Hnd & Hc & Hf & Hl). split.
  - split; [done|]. split; [|done]. eapply chain_frame; [|done].
    intros q Hq. apply Hout; [by eapply chain_is_Some|]. intros Hq'. by apply (Hdisj q).
  - intros q Hq Hq2. destruct (Hin q Hq) as [Hq'|Hnone]; [by apply (Hdisj q)|].
    destruct (chain_is_Some _ _ _ _ _ Hc Hq2) as [? Heq]. congruence.
Qed.

(** All cells of a list are in the heap, so the heap bounds its length. *)
Lemma repr_size h l ps xs : repr h l ps xs -> (length ps <= size h)%nat.
Proof.
  intros (Hnd & Hc & _). rewrite <- (size_dom (D := gset positive)).
  rewrite <- (size_list_to_set (C := gset positive) ps Hnd).
  apply subseteq_size. intros q Hq. apply elem_of_list_to_set in Hq.
  apply elem_of_dom. by eapply chain_is_Some.
Qed.

Lemma fresh_notin (h : heap) ps xs tl : chain h ps xs tl -> fresh (dom h) ∉ ps.
Proof.
  intros Hc Hin. eapply chain_is_Some in Hc as [c Hc]; [|done].
  apply (is_fresh (dom h)). apply elem_of_dom. by eexists.
Qed.

Lemma fresh_None (h : heap) : h !! fresh (dom h) = None.
Proof. apply not_elem_of_dom, is_fresh. Qed.

#[export] Hint Resolve chain_insert_notin chain_delete_notin fresh_notin fresh_None : nachos.

Lemma framed_refl h ps : framed h h ps ps.
Proof. split; [done|by left]. Qed.

(** ** Each member function implements its abstract operation *)

Lemma framed_insert h c d p ps ps' :
  let e := fresh (dom h) in
  (p = e \/ p ∈ ps) -> (forall q, q ∈ ps' -> q ∈ ps \/ q = e) ->
  framed h (<[p := d]> (<[e := c]> h)) ps ps'.
Proof.
  intros e Hp Hps'. split.
  - intros q [x Hq] Hnotin.
    assert (q ≠ e) by (pose proof (fresh_None h); unfold e; congruence).
    rewrite lookup_insert_ne by (destruct Hp as [->| ]; congruence).
    by rewrite lookup_insert_ne.
  - intros q Hq. destruct (Hps' q Hq) as [?| ->]; [by left|right; apply fresh_None].
Qed.

(** Linking a fresh cell [e] behind the last cell. *)
Lemma repr_snoc h f lastp ps xs k x :
  let e := fresh (dom h) in
  let h1 := <[e := mkElement None k x]> h in
  repr h (mkList f (Some lastp)) ps xs ->
  exists lastc, h1 !! lastp = Some lastc /\
    repr (<[lastp := set_next lastc (Some e)]> h1) (mkList f (Some e))
      (ps ++ [e]) (xs ++ [(k, x)]) /\
    framed h (<[lastp := set_next lastc (Some e)]> h1) ps (ps ++ [e]).
Proof.
  intros e h1 (Hnd & Hc & Hf & Hl). simpl in *.
  pose proof (fresh_notin _ _ _ _ Hc) as He. fold e in He.
  symmetry in Hl. apply last_Some in Hl as [ps0 ->].
  apply chain_snoc in Hc as (xs0 & ky & y & -> & Hlen & Hc0 & Hlast).
  apply NoDup_app in Hnd as (Hnd0 & Hdisj & _).
  assert (lastp ∉ ps0) as Hlp0 by (intros Hin; apply (Hdisj lastp Hin), list_elem_of_singleton; done).
  rewrite not_elem_of_app, not_elem_of_cons in He. destruct He as [He0 [Hne _]].
  exists (mkElement None ky y). split; [unfold h1; by rewrite lookup_insert_ne|]. split.
  - split; [|split; [|split]].
    + rewrite <- app_assoc. apply NoDup_app. split; [done|]. split.
      * intros q Hq. rewrite elem_of_app, !list_elem_of_singleton. intros [->| ->]; done.
      * apply NoDup_cons. rewrite list_elem_of_singleton. split; [done|]. apply NoDup_singleton.
    + rewrite <- !app_assoc. apply chain_app; [lia|]. split.
      * unfold h1. eauto with nachos.
      * simpl. rewrite lookup_insert_eq. unfold h1. rewrite lookup_insert_ne, lookup_insert_eq by done.
        done.
    + simpl. rewrite Hf. by destruct ps0.
    + simpl. by rewrite last_snoc.
  - apply framed_insert; [right; apply elem_of_app; right; by left|].
    intros q. rewrite (elem_of_app (ps0 ++ [lastp])), list_elem_of_singleton. tauto.
Qed.

(** Linking a fresh cell in front of the list. *)
Lemma repr_cons h l ps xs k x :
  let e := fresh (dom h) in
  repr h l ps xs ->
  repr (<[e := mkElement (l_first l) k x]> h)
    (mkList (Some e) (match l_first l with None => Some e | Some _ => l_last l end))
    (e :: ps) ((k, x) :: xs).
Proof.
  intros e (Hnd & Hc & Hf & Hl).
  pose proof (fresh_notin _ _ _ _ Hc) as He. fold e in He.
  split; [by apply NoDup_cons|]. split; [|split; [done|]].
  - simpl. rewrite lookup_insert_eq, Hf. split; [by destruct ps|by apply chain_insert_notin].
  - rewrite Hf. simpl. destruct ps as [|p ps]; [done|]. simpl. rewrite Hl. by destruct ps.
Qed.

Lemma framed_cons h c ps :
  framed h (<[fresh (dom h) := c]> h) ps (fresh (dom h) :: ps).
Proof.
  rewrite <- (insert_insert_eq h (fresh (dom h)) c c).
  apply framed_insert; [by left|]. intros q. rewrite elem_of_cons. tauto.
Qed.

Lemma List_Append_refines h l ps xs x :
  repr h l ps xs ->
  exists h' l' ps', List_Append h l x = Ok (h', l') /\
    repr h' l' ps' (q_append x xs) /\ framed h h' ps ps'.
Proof.
  intros Hr. pose proof Hr as (_ & Hc & Hf & Hl).
  unfold List_Append, new_ListElement, List_IsEmpty, q_append.
  destruct l as [f la]; simpl in *. destruct f as [f|].
  - destruct la as [lastp|]; [|symmetry in Hl; apply last_None in Hl; by subst].
    destruct (repr_snoc _ _ _ _ _ 0 x Hr) as (c & Hlook & Hr' & Hfr). simpl in *.
    rewrite Hlook. simpl. eauto 10.
  - destruct ps; [|done]. destruct xs; [|done].
    eexists _, _, [_]. split; [done|]. split; [apply (repr_cons _ _ _ _ 0 x Hr)|].
    apply framed_cons.
Qed.

Lemma List_Prepend_refines h l ps xs x :
  repr h l ps xs ->
  exists h' l' ps', List_Prepend h l x = Ok (h', l') /\
    repr h' l' ps' (q_prepend x xs) /\ framed h h' ps ps'.
Proof.
  intros Hr. pose proof (repr_cons _ _ _ _ 0 x Hr) as Hr'. simpl in Hr'.
  unfold List_Prepend, new_ListElement, List_IsEmpty, q_prepend.
  destruct (l_first l) as [f|] eqn:Hf.
  - rewrite lookup_insert_eq. simpl. rewrite insert_insert_eq.
    eexists _, _, _. split; [done|]. split; [done|]. apply framed_cons.
  - eexists _, _, _. split; [done|]. split; [done|]. apply framed_cons.
Qed.

Lemma q_sorted_insert_skip (xs1 xs2 : queue Z) x k :
  Forall (fun y => y.1 <= k) xs1 ->
  q_sorted_insert x k (xs1 ++ xs2) = xs1 ++ q_sorted_insert x k xs2.
Proof.
  induction 1 as [|[k1 y] xs1 Hle _ IH]; simpl in *; [done|].
  destruct (Z.ltb_spec k k1); [lia|]. by rewrite IH.
Qed.

Lemma NoDup_insert_mid (ps1 ps2 : list positive) e :
  NoDup (ps1 ++ ps2) -> e ∉ ps1 ++ ps2 -> NoDup (ps1 ++ e :: ps2).
Proof. intros. rewrite <- Permutation_middle. by apply NoDup_cons. Qed.

(** Linking the fresh cell [e] between [ptr] and [nx]. *)
Lemma repr_mid h l ps1 ptr nx ps2 xs k x :
  let e := fresh (dom h) in
  let h1 := <[e := mkElement (Some nx) k x]> h in
  repr h l ((ps1 ++ [ptr]) ++ nx :: ps2) xs ->
  exists p xs1 xs2, h1 !! ptr = Some p /\ xs = xs1 ++ xs2 /\
    length xs1 = length (ps1 ++ [ptr]) /\
    repr (<[ptr := set_next p (Some e)]> h1) l
      ((ps1 ++ [ptr]) ++ e :: nx :: ps2) (xs1 ++ (k, x) :: xs2).
Proof.
  intros e h1 (Hnd & Hc & Hf & Hl).
  pose proof (fresh_notin _ _ _ _ Hc) as He. fold e in He.
  pose proof Hnd as Hnd'. apply NoDup_app in Hnd' as (Hnd1 & Hdisj & _).
  apply NoDup_app in Hnd1 as (_ & Hptr & _).
  assert (ptr ∉ ps1) as Hp1 by (intros Hin; apply (Hptr ptr Hin); by left).
  assert (ptr ∉ nx :: ps2) as Hp2 by (apply Hdisj, elem_of_app; right; by left).
  assert (ptr ≠ e) as Hpe by (intros ->; apply He; rewrite !elem_of_app; left; right; by left).
  rewrite !not_elem_of_app in He. destruct He as [[He1 _] He2].
  apply chain_split in Hc as (xs1 & xs2 & -> & Hlen & Hc1 & Hc2).
  apply chain_snoc in Hc1 as (ys & kp & xp & -> & Hlen1 & Hc0 & Hlook). simpl in Hlook.
  exists (mkElement (Some nx) kp xp), (ys ++ [(kp, xp)]), xs2.
  unfold h1. rewrite lookup_insert_ne, Hlook by done.
  split; [done|]. split; [done|]. split; [done|].
  split; [|split; [|split]].
  - apply NoDup_insert_mid; [done|]. rewrite !not_elem_of_app. split_and!; try done. by rewrite list_elem_of_singleton.
  - apply chain_app; [done|]. split.
    + apply chain_app; [done|]. split; [by apply chain_insert_notin, chain_insert_notin|]. simpl.
      by rewrite lookup_insert_eq.
    + split; [by rewrite lookup_insert_ne, lookup_insert_eq|].
      by apply chain_insert_notin, chain_insert_notin.
  - rewrite Hf. by destruct ps1.
  - rewrite Hl. by rewrite !last_app_cons, (last_cons_cons e).
Qed.

Lemma repr_lookup_mid h l ps1 ptr ps2 xs :
  repr h l (ps1 ++ ptr :: ps2) xs ->
  exists xs1 kp xp xs2, xs = xs1 ++ (kp, xp) :: xs2 /\ length ps1 = length xs1 /\
    h !! ptr = Some (mkElement (hd_or ps2 None) kp xp) /\ chain h ps2 xs2 None.
Proof.
  intros (_ & Hc & _). apply chain_split in Hc as (xs1 & xs2 & -> & Hlen & _ & Hc).
  destruct xs2 as [|[kp xp] xs2]; [done|]. destruct Hc as [Hp Hc]. eauto 10.
Qed.

Lemma SortedInsert_loop_refines h l ps2 : forall ps1 ptr xs1 xs2 k x fuel,
  let e := fresh (dom h) in
  repr h l (ps1 ++ ptr :: ps2) (xs1 ++ xs2) ->
  length xs1 = S (length ps1) -> Forall (fun y => y.1 <= k) xs1 ->
  (length ps2 < fuel)%nat ->
  exists h' l' ps',
    SortedInsert_loop fuel (<[e := mkElement None k x]> h) l ptr e k = Ok (h', l') /\
    repr h' l' ps' (q_sorted_insert x k (xs1 ++ xs2)) /\
    framed h h' (ps1 ++ ptr :: ps2) ps'.
Proof.
  induction ps2 as [|nx ps2 IH]; intros ps1 ptr xs1 xs2 k x [|fuel] e Hr Hlen Hle Hfuel;
    try (simpl in Hfuel; lia); subst e.
  - pose proof Hr as (_ & Hc & Hf & Hl). rewrite last_snoc in Hl.
    pose proof (chain_length _ _ _ _ Hc) as Hlc. rewrite !length_app in Hlc. simpl in Hlc.
    destruct xs2; [|simpl in Hlc; lia]. rewrite app_nil_r in *.
    destruct l as [f la]. simpl in Hl. subst la.
    destruct (repr_snoc _ _ _ _ _ k x Hr) as (c & Hlook & Hr' & Hfr). simpl in *.
    destruct (repr_lookup_mid _ _ _ _ _ _ Hr) as (_ & kp & xp & _ & _ & _ & Hptr & _).
    rewrite Hlook. simpl.
    rewrite lookup_insert_ne, Hptr in Hlook by (intros <-; by rewrite fresh_None in Hptr).
    injection Hlook as <-. simpl. eexists _, _, _. split; [done|].
    rewrite <- (app_nil_r xs1), q_sorted_insert_skip by done. simpl. done.
  - assert (ps1 ++ ptr :: nx :: ps2 = (ps1 ++ [ptr]) ++ nx :: ps2) as Heq
      by (by rewrite <- app_assoc).
    destruct (repr_lookup_mid _ _ _ _ _ _ Hr) as (_ & kp & xp & _ & _ & _ & Hptr & _).
    rewrite Heq in Hr.
    destruct (repr_lookup_mid _ _ _ _ _ _ Hr) as (ys & kn & xn & ys2 & Hys & Hleny & Hnx & _).
    apply app_inj_1 in Hys as [-> ->]; [|rewrite length_app in Hleny; simpl in *; lia].
    assert (forall q c, h !! q = Some c ->
      (<[fresh (dom h) := mkElement None k x]> h) !! q = Some c) as Hold.
    { intros q c Hq. rewrite lookup_insert_ne; [done|]. intros <-.
      by rewrite fresh_None in Hq. }
    simpl. rewrite (Hold _ _ Hptr). simpl. rewrite (Hold _ _ Hnx). simpl.
    rewrite q_sorted_insert_skip by done. simpl. destruct (Z.ltb_spec k kn) as [Hlt|Hge].
    + rewrite lookup_insert_eq. simpl.
      change (set_next (mkElement None k x) (Some nx)) with (mkElement (Some nx) k x).
      rewrite insert_insert_eq.
      destruct (repr_mid _ _ _ _ _ _ _ k x Hr) as (p & zs1 & zs2 & Hlk & Hzs & Hlz & Hr').
      apply app_inj_1 in Hzs as [<- <-]; [|lia].
      rewrite Hlk. simpl. eexists _, _, _. split; [done|].
      split; [exact Hr'|]. rewrite Heq.
      apply framed_insert; [right; rewrite !elem_of_app; left; right; by left|].
      intros q. rewrite !elem_of_app, (elem_of_cons _ _ (fresh (dom h))). tauto.
    + rewrite (cons_middle (kn, xn)), (app_assoc ys) in Hr.
      destruct (IH (ps1 ++ [ptr]) nx (ys ++ [(kn, xn)]) ys2 k x fuel Hr) as (h' & l' & ps' & Hrun & Hr' & Hfr).
      * rewrite !length_app in *. simpl in *. lia.
      * apply Forall_app. split; [done|]. by constructor.
      * simpl in Hfuel. lia.
      * eexists _, _, _. split; [exact Hrun|]. rewrite Heq. split; [|done].
        rewrite q_sorted_insert_skip in Hr'; [by rewrite <- app_assoc in Hr'|].
        apply Forall_app. split; [done|]. by constructor.
Qed.

Lemma List_SortedInsert_refines h l ps xs x k :
  repr h l ps xs ->
  exists h' l' ps', List_SortedInsert h l x k = Ok (h', l') /\
    repr h' l' ps' (q_sorted_insert x k xs) /\ framed h h' ps ps'.
Proof.
  intros Hr. pose proof (repr_cons _ _ _ _ k x Hr) as Hr'. simpl in Hr'.
  pose proof (repr_size _ _ _ _ Hr) as Hsize.
  unfold List_SortedInsert, new_ListElement. destruct (l_first l) as [f|] eqn:Hf.
  - pose proof Hr as (_ & _ & Hf' & _). rewrite Hf in Hf'.
    destruct ps as [|p ps]; [done|]. injection Hf' as <-.
    destruct (repr_lookup_mid h l [] f ps xs Hr) as (xs1 & kf & xf & xs2 & -> & Hl1 & Hlk & _).
    destruct xs1; [|done]. simpl in Hr, Hr', Hsize, Hlk. simpl app.
    assert ((<[fresh (dom h) := mkElement None k x]> h) !! f = h !! f) as Hold
      by (apply lookup_insert_ne; pose proof (fresh_None h); congruence).
    rewrite Hold, Hlk. cbn [deref mbind outcome_bind le_key q_sorted_insert].
    destruct (Z.ltb_spec k kf).
    + rewrite lookup_insert_eq. simpl. rewrite insert_insert_eq.
      eexists _, _, _. split; [done|]. split; [exact Hr'|]. apply framed_cons.
    + destruct (SortedInsert_loop_refines h l ps [] f [(kf, xf)] xs2 k x
        (S (size (<[fresh (dom h) := mkElement None k x]> h))) Hr) as (h' & l' & ps' & Hrun & Hr2 & Hfr).
      * done.
      * by constructor.
      * rewrite map_size_insert_None by apply fresh_None. simpl in Hsize. lia.
      * eexists _, _, _. split; [exact Hrun|]. split; [|done].
        cbn [app q_sorted_insert] in Hr2. destruct (Z.ltb_spec k kf); [lia|done].
  - pose proof Hr as (_ & Hc & Hf' & _). rewrite Hf in Hf'. destruct ps; [|done].
    destruct xs; [|done]. eexists _, _, [_]. split; [done|]. split; [exact Hr'|]. apply framed_cons.
Qed.

(** The value [SortedRemove] returns, given the element that was removed. *)
Definition removed_value (keyPtr : bool) (o : option (Z * Z)) : Z * option Z :=
  match o with
  | None => (NULL, None)
  | Some (k, x) => (x, if keyPtr then Some k else None)
  end.

(** The heap after the cell at the front of [ps] is freed. *)
Definition free_head (h : heap) (ps : list positive) : heap :=
  match ps with [] => h | p :: _ => delete p h end.

Lemma framed_free_head h ps : framed h (free_head h ps) ps (tail ps).
Proof.
  destruct ps as [|p ps]; [apply framed_refl|]. split; [|intros q Hq; left; by right].
  intros q _ Hq. apply lookup_delete_ne. rewrite not_elem_of_cons in Hq. by destruct Hq.
Qed.

Lemma List_SortedRemove_refines h l ps xs kp :
  repr h l ps xs ->
  exists l', List_SortedRemove h l kp =
      Ok (free_head h ps, l', removed_value kp (q_remove xs).1) /\
    repr (free_head h ps) l' (tail ps) (q_remove xs).2.
Proof.
  intros Hr. pose proof Hr as (Hnd & Hc & Hf & Hl). unfold List_SortedRemove.
  destruct ps as [|p ps], xs as [|[k x] xs]; try done; simpl in Hf; rewrite Hf; [by eauto|].
  destruct Hc as [Hp Hc]. rewrite Hp. simpl. eexists _. split; [done|].
  apply NoDup_cons in Hnd as [Hnin Hnd].
  split; [done|]. split; [by auto with nachos|]. rewrite Hl.
  destruct ps as [|p2 ps]; simpl; [by rewrite decide_True|].
  rewrite decide_False; [done|]. intros Heq. symmetry in Heq.
  change (last (p2 :: ps) = Some p) in Heq. apply Hnin. by apply last_Some_elem_of.
Qed.

Lemma List_Remove_refines h l ps xs :
  repr h l ps xs ->
  exists l', List_Remove h l =
      Ok (free_head h ps, l', (removed_value false (q_remove xs).1).1) /\
    repr (free_head h ps) l' (tail ps) (q_remove xs).2.
Proof.
  intros (l' & Hrun & Hr)%(List_SortedRemove_refines _ _ _ _ false).
  exists l'. unfold List_Remove. rewrite Hrun. simpl.
  by destruct (removed_value false (q_remove xs).1).
Qed.

Lemma framed_trans h1 h2 h3 ps1 ps2 ps3 :
  framed h1 h2 ps1 ps2 -> framed h2 h3 ps2 ps3 -> framed h1 h3 ps1 ps3.
Proof.
  intros [Ho1 Hi1] [Ho2 Hi2]. split.
  - intros q Hq Hn. rewrite <- (Ho1 q Hq Hn). apply Ho2; [by rewrite Ho1|].
    intros Hq2. destruct (Hi1 q Hq2) as [?|Hnone]; [done|]. by rewrite Hnone in Hq; destruct Hq.
  - intros q Hq3. destruct (Hi2 q Hq3) as [Hq2|Hnone]; [by apply Hi1|].
    destruct (decide (q ∈ ps1)); [by left|]. right.
    destruct (h1 !! q) as [c|] eqn:Hq; [|done].
    rewrite Ho1 in Hnone; [congruence|by rewrite Hq|done].
Qed.

Lemma List_delete_loop_refines xs : forall h l ps fuel,
  repr h l ps xs -> Forall (fun y => y.2 <> NULL) xs -> (length xs < fuel)%nat ->
  List_delete_loop fuel h l = Ok (foldl (fun h p => delete p h) h ps, List_new).
Proof.
  induction xs as [|[k x] xs IH]; intros h l ps [|fuel] Hr Hnn Hfuel; simpl in Hfuel; try lia;
    destruct (List_Remove_refines _ _ _ _ Hr) as (l' & Hrun & Hr');
    pose proof Hr as (_ & Hc & _); destruct ps as [|p ps]; try done; simpl in *;
    rewrite Hrun; simpl.
  - destruct Hr' as (_ & _ & Hf & Hl). destruct l'. simpl in *. by subst.
  - inversion_clear Hnn as [|? ? Hx Hxs]. simpl in Hx.
    destruct (Z.eqb_spec x NULL); [done|]. apply IH; [done..|lia].
Qed.

Lemma foldl_delete_lookup (ps : list positive) (h : heap) q :
  foldl (fun h p => delete p h) h ps !! q = if decide (q ∈ ps) then None else h !! q.
Proof.
  revert h. induction ps as [|p ps IH]; intros h; simpl; [done|]. rewrite IH.
  destruct (decide (p = q)) as [->|Hne].
  - rewrite lookup_delete_eq. rewrite (decide_True (P := q ∈ q :: ps)) by by left. by case_decide.
  - rewrite lookup_delete_ne by done. destruct (decide (q ∈ ps)).
    + rewrite decide_True; [done|by right].
    + rewrite decide_False; [done|]. by rewrite elem_of_cons; intros [->|].
Qed.

(** [Mapcar] applies [func] to the items from front to back. *)
Lemma Mapcar_loop_refines {S} (func : Z -> S -> outcome S) h xs : forall ps fuel s,
  chain h ps xs None -> (length ps <= fuel)%nat ->
  Mapcar_loop func fuel h (head ps) s =
  foldl (fun acc y => acc ≫= func y.2) (Ok s) xs.
Proof.
  assert (forall ys (o : outcome S), (forall s, o <> Ok s) ->
    foldl (fun acc (y : Z * Z) => acc ≫= func y.2) o ys = o) as Hstuck.
  { induction ys as [|y ys IHys]; intros o Ho; simpl; [done|].
    rewrite IHys; destruct o; simpl; congruence. }
  induction xs as [|[k x] xs IH]; intros [|p ps] fuel s Hc Hlen; try done; [by destruct fuel|].
  destruct fuel as [|fuel]; simpl in Hlen; [lia|]. destruct Hc as [Hp Hc].
  simpl. rewrite Hp. simpl. destruct (func x s) as [s'| | |] eqn:Hf; simpl;
    try (by rewrite Hstuck).
  rewrite <- (IH ps fuel s' Hc) by lia. by destruct ps.
Qed.

(** ** Sequences of operations *)

Inductive list_op :=
| OpAppend (x : Z)
| OpPrepend (x : Z)
| OpSortedInsert (x k : Z)
| OpSortedRemove (keyPtr : bool).

Definition exec_op (h : heap) (l : NList) (o : list_op)
    : outcome (heap * NList * option (Z * option Z)) :=
  match o with
  | OpAppend x => '(h, l) ← List_Append h l x; Ok (h, l, None)
  | OpPrepend x => '(h, l) ← List_Prepend h l x; Ok (h, l, None)
  | OpSortedInsert x k => '(h, l) ← List_SortedInsert h l x k; Ok (h, l, None)
  | OpSortedRemove kp => '(h, l, v) ← List_SortedRemove h l kp; Ok (h, l, Some v)
  end.

Definition spec_op (q : queue Z) (o : list_op) : queue Z * option (Z * option Z) :=
  match o with
  | OpAppend x => (q_append x q, None)
  | OpPrepend x => (q_prepend x q, None)
  | OpSortedInsert x k => (q_sorted_insert x k q, None)
  | OpSortedRemove kp => ((q_remove q).2, Some (removed_value kp (q_remove q).1))
  end.

Fixpoint exec_ops (h : heap) (l : NList) (os : list list_op)
    : outcome (heap * NList * list (option (Z * option Z))) :=
  match os with
  | [] => Ok (h, l, [])
  | o :: os =>
      '(h, l, v) ← exec_op h l o;
      '(h, l, vs) ← exec_ops h l os;
      Ok (h, l, v :: vs)
  end.

Fixpoint spec_ops (q : queue Z) (os : list list_op) : queue Z * list (option (Z * option Z)) :=
  match os with
  | [] => (q, [])
  | o :: os =>
      let '(q, v) := spec_op q o in
      let '(q, vs) := spec_ops q os in (q, v :: vs)
  end.

Lemma exec_op_refines h l ps xs o :
  repr h l ps xs ->
  exists h' l' ps', exec_op h l o = Ok (h', l', (spec_op xs o).2) /\
    repr h' l' ps' (spec_op xs o).1 /\ framed h h' ps ps'.
Proof.
  intros Hr. destruct o as [x|x|x k|kp]; simpl.
  - destruct (List_Append_refines _ _ _ _ x Hr) as (h' & l' & ps' & -> & ?). eauto.
  - destruct (List_Prepend_refines _ _ _ _ x Hr) as (h' & l' & ps' & -> & ?). eauto.
  - destruct (List_SortedInsert_refines _ _ _ _ x k Hr) as (h' & l' & ps' & -> & ?). eauto.
  - destruct (List_SortedRemove_refines _ _ _ _ kp Hr) as (l' & -> & ?).
    eauto 10 using framed_free_head.
Qed.

Lemma exec_ops_refines os : forall h l ps xs,
  repr h l ps xs ->
  exists h' l' ps', exec_ops h l os = Ok (h', l', (spec_ops xs os).2) /\
    repr h' l' ps' (spec_ops xs os).1 /\ framed h h' ps ps'.
Proof.
  induction os as [|o os IH]; intros h l ps xs Hr; simpl; [eauto 10 using framed_refl|].
  destruct (exec_op_refines _ _ _ _ o Hr) as (h1 & l1 & ps1 & -> & Hr1 & Hf1).
  destruct (IH _ _ _ _ Hr1) as (h2 & l2 & ps2 & Hrun & Hr2 & Hf2). simpl. rewrite Hrun. simpl.
  destruct (spec_op xs o) as [q v]; simpl in *. destruct (spec_ops q os) as [q2 vs]; simpl in *.
  eauto 10 using framed_trans.
Qed.

(** C20. Any sequence of [Append], [Prepend], [SortedInsert] and [SortedRemove] on a
    well-formed linked list runs to the end, without a bad pointer and within the
    loop bound, returns exactly what the same sequence on an abstract list returns,
    and leaves every other list in the heap unchanged. *)
Theorem List_simulation (os : list list_op) h l ps xs l2 ps2 xs2 :
  repr h l ps xs -> repr h l2 ps2 xs2 -> ps ## ps2 ->
  exists h' l' ps', exec_ops h l os = Ok (h', l', (spec_ops xs os).2) /\
    repr h' l' ps' (spec_ops xs os).1 /\ repr h' l2 ps2 xs2 /\ ps' ## ps2.
Proof.
  intros Hr Hr2 Hd. destruct (exec_ops_refines os _ _ _ _ Hr) as (h' & l' & ps' & Hrun & Hr' & Hf).
  exists h', l', ps'. split; [done|]. split; [done|]. by eapply repr_frame.
Qed.

Lemma repr_new (h : heap) : repr h List_new [] [].
Proof. repeat split. apply NoDup_nil_2. Qed.

(** Two lists in one heap: [[5]] and the list the operations act on. *)
Lemma List_simulation_witness :
  exists h' l', exec_ops {[1%positive := mkElement None 0 5]} List_new
      [OpSortedInsert 7 3; OpAppend 8; OpSortedInsert 9 2; OpSortedRemove true]
    = Ok (h', l', [None; None; None; Some (9, Some 2)]).
Proof.
  destruct (List_simulation [OpSortedInsert 7 3; OpAppend 8; OpSortedInsert 9 2; OpSortedRemove true]
    {[1%positive := mkElement None 0 5]} List_new [] [] (mkList (Some 1%positive) (Some 1%positive))
    [1%positive] [(0, 5)]) as (h' & l' & ps' & Hrun & _).
  - apply repr_new.
  - split; [apply NoDup_singleton|]. by repeat split.
  - set_solver.
  - exists h', l'. exact Hrun.
Defined.

(** ** Sorted lists *)

Definition key_le {A} (x y : Z * A) : Prop := x.1 <= y.1.

Lemma q_sorted_insert_stable {A} (q : queue A) x k :
  StronglySorted key_le q ->
  q_sorted_insert x k q = filter (fun y => y.1 <= k) q ++ (k, x) :: filter (fun y => k < y.1) q.
Proof.
  induction 1 as [|[k' y] q Hs IH Hall]; simpl; [done|]. rewrite !filter_cons. simpl.
  destruct (Z.ltb_spec k k').
  - rewrite (decide_False (P := k' <= k)), (decide_True (P := k < k')) by lia.
    rewrite filter_none, filter_all; [done|..];
      (eapply Forall_impl; [exact Hall|]; unfold key_le; simpl; lia).
  - rewrite (decide_True (P := k' <= k)), (decide_False (P := k < k')) by lia. simpl. by rewrite IH.
Qed.

Lemma q_sorted_insert_elem {A} (q : queue A) x k y :
  y ∈ q_sorted_insert x k q <-> y = (k, x) \/ y ∈ q.
Proof.
  induction q as [|[k' z] q IH]; simpl; [by rewrite list_elem_of_singleton, elem_of_nil; tauto|].
  destruct (k <? k'); rewrite !elem_of_cons; [tauto|]. rewrite IH. tauto.
Qed.

Lemma q_sorted_insert_sorted {A} (q : queue A) x k :
  StronglySorted key_le q -> StronglySorted key_le (q_sorted_insert x k q).
Proof.
  induction 1 as [|[k' y] q Hs IH Hall]; simpl; [by repeat constructor|].
  destruct (Z.ltb_spec k k').
  - constructor; [by constructor|]. constructor; [unfold key_le; simpl; lia|].
    eapply Forall_impl; [exact Hall|]. unfold key_le. simpl. lia.
  - constructor; [done|]. apply Forall_forall. intros z [->|Hz]%q_sorted_insert_elem.
    + unfold key_le. simpl. lia.
    + by eapply Forall_forall in Hall.
Qed.

Lemma q_sorted_insert_length {A} (q : queue A) x k :
  length (q_sorted_insert x k q) = S (length q).
Proof. induction q as [|[k' y] q IH]; simpl; [done|]. destruct (k <? k'); simpl; lia. Qed.

(** On a list sorted by key, [SortedInsert] keeps the list sorted and puts the
    new element behind every element with the same key (first come, first served),
    and changes nothing else. *)
Theorem List_SortedInsert_stable h l ps xs x k :
  repr h l ps xs -> StronglySorted key_le xs ->
  exists h' l' ps' ys, List_SortedInsert h l x k = Ok (h', l') /\ repr h' l' ps' ys /\
    ys = filter (fun y => y.1 <= k) xs ++ (k, x) :: filter (fun y => k < y.1) xs /\
    StronglySorted key_le ys.
Proof.
  intros Hr Hs. destruct (List_SortedInsert_refines _ _ _ _ x k Hr) as (h' & l' & ps' & Hrun & Hr' & _).
  exists h', l', ps', (q_sorted_insert x k xs). split; [done|]. split; [done|].
  split; [by apply q_sorted_insert_stable|by apply q_sorted_insert_sorted].
Qed.

Lemma List_SortedInsert_stable_witness :
  exists h' l' ps', List_SortedInsert {[1%positive := mkElement None 4 5]}
      (mkList (Some 1%positive) (Some 1%positive)) 6 4 = Ok (h', l') /\
    repr h' l' ps' [(4, 5); (4, 6)].
Proof.
  destruct (List_SortedInsert_stable {[1%positive := mkElement None 4 5]}
    (mkList (Some 1%positive) (Some 1%positive)) [1%positive] [(4, 5)] 6 4)
    as (h' & l' & ps' & ys & Hrun & Hr & -> & _).
  - split; [apply NoDup_singleton|]. by repeat split.
  - repeat constructor.
  - exists h', l', ps'. split; [exact Hrun|exact Hr].
Defined.

(** Deleting a list of non-[NULL] items terminates, frees exactly its cells and
    leaves the header empty. *)
Theorem List_delete_frees h l ps xs :
  repr h l ps xs -> Forall (fun y => y.2 <> NULL) xs ->
  exists h', List_delete h l = Ok (h', List_new) /\
    forall q, h' !! q = if decide (q ∈ ps) then None else h !! q.
Proof.
  intros Hr Hnn. unfold List_delete. pose proof (repr_size _ _ _ _ Hr) as Hsize.
  pose proof Hr as (_ & Hc & _). apply chain_length in Hc.
  rewrite (List_delete_loop_refines xs h l ps) by (done || lia).
  eexists _. split; [done|]. apply foldl_delete_lookup.
Qed.

Lemma List_delete_frees_witness :
  exists h', List_delete {[1%positive := mkElement None 4 5]}
      (mkList (Some 1%positive) (Some 1%positive)) = Ok (h', List_new) /\ h' !! 1%positive = None.
Proof.
  destruct (List_delete_frees {[1%positive := mkElement None 4 5]}
    (mkList (Some 1%positive) (Some 1%positive)) [1%positive] [(4, 5)]) as (h' & Hrun & Hl).
  - split; [apply NoDup_singleton|]. by repeat split.
  - by repeat constructor.
  - exists h'. split; [exact Hrun|]. rewrite Hl. reflexivity.
Defined.

Lemma List_Mapcar_foldl {S} (func : Z -> S -> outcome S) h l ps xs s :
  repr h l ps xs ->
  List_Mapcar func h l s = foldl (fun acc y => acc ≫= func y.2) (Ok s) xs.
Proof.
  intros Hr. pose proof (repr_size _ _ _ _ Hr). destruct Hr as (_ & Hc & Hf & _).
  unfold List_Mapcar. rewrite Hf. by apply Mapcar_loop_refines.
Qed.
