(* ===== verification/BitMap.v ===== *)
(** * userprog/bitmap.cc: arrays of bits over 32-bit words

    [BitMap] is the class: [numBits], [numWords] and the word array [map]. Each
    member function is a definition; [1 << k] is computed as an [int] and then
    converted, as in the source. [bm_bit] is the abstract view, one boolean per
    bit. [BitAllocator] is the interface the disk and page managers use; the
    instance at the end of the file discharges its laws. *)

From stdpp Require Import prelude list numbers.
From S2P Require Import Prelude.

Open Scope Z_scope.

Definition BitsInByte : Z := 8.
Definition BitsInWord : Z := 32.

Record BitMap := mkBitMap {
  numBits : Z;
  numWords : Z;
  bm_map : list Z }.

Definition set_map (bm : BitMap) (m : list Z) : BitMap :=
  mkBitMap (numBits bm) (numWords bm) m.

(** [1 << (which % BitsInWord)], an [int]. *)
Definition bit_mask (which : Z) : Z := s32 (Z.shiftl 1 (cmod which BitsInWord)).

Definition in_range (bm : BitMap) (which : Z) : bool :=
  (0 <=? which) && (which <? numBits bm).

Definition BitMap_Mark (bm : BitMap) (which : Z) : outcome BitMap :=
  ASSERT (in_range bm which);;
  w ← arr_get (bm_map bm) (cdiv which BitsInWord);
  m ← arr_set (bm_map bm) (cdiv which BitsInWord) (Z.lor w (u32 (bit_mask which)));
  Ok (set_map bm m).

Definition BitMap_Clear (bm : BitMap) (which : Z) : outcome BitMap :=
  ASSERT (in_range bm which);;
  w ← arr_get (bm_map bm) (cdiv which BitsInWord);
  m ← arr_set (bm_map bm) (cdiv which BitsInWord)
        (Z.land w (u32 (Z.lnot (bit_mask which))));
  Ok (set_map bm m).

Definition BitMap_Test (bm : BitMap) (which : Z) : outcome bool :=
  ASSERT (in_range bm which);;
  w ← arr_get (bm_map bm) (cdiv which BitsInWord);
  Ok (negb (Z.land w (u32 (bit_mask which)) =? 0)).

(** The loop [for (i = 0; i < numBits; i++) Clear(i);] from index [i]. *)
Fixpoint clear_loop (n : nat) (i : Z) (bm : BitMap) : outcome BitMap :=
  match n with
  | O => Ok bm
  | S n => bm ← BitMap_Clear bm i; clear_loop n (i + 1) bm
  end.

(** The constructor; [garbage] is what the allocated words hold. *)
Definition BitMap_new (nitems : Z) (garbage : list Z) : outcome BitMap :=
  clear_loop (Z.to_nat nitems) 0
    (mkBitMap nitems (divRoundUp nitems BitsInWord) garbage).

Fixpoint Find_loop (n : nat) (i : Z) (bm : BitMap) : outcome (Z * BitMap) :=
  match n with
  | O => Ok (-1, bm)
  | S n =>
      t ← BitMap_Test bm i;
      if negb t then bm ← BitMap_Mark bm i; Ok (i, bm)
      else Find_loop n (i + 1) bm
  end.

Definition BitMap_Find (bm : BitMap) : outcome (Z * BitMap) :=
  Find_loop (Z.to_nat (numBits bm)) 0 bm.

Fixpoint NumClear_loop (n : nat) (i : Z) (count : Z) (bm : BitMap) : outcome Z :=
  match n with
  | O => Ok count
  | S n =>
      t ← BitMap_Test bm i;
      NumClear_loop n (i + 1) (if negb t then count + 1 else count) bm
  end.

Definition BitMap_NumClear (bm : BitMap) : outcome Z :=
  NumClear_loop (Z.to_nat (numBits bm)) 0 0 bm.

(** [Print] shows the numbers of the bits that are set. *)
Fixpoint Print_loop (n : nat) (i : Z) (bm : BitMap) : outcome (list Z) :=
  match n with
  | O => Ok ([] : list Z)
  | S n =>
      t ← BitMap_Test bm i;
      r ← Print_loop n (i + 1) bm;
      Ok (if (t : bool) then i :: r else r)
  end.

Definition BitMap_Print (bm : BitMap) : outcome (list Z) :=
  Print_loop (Z.to_nat (numBits bm)) 0 bm.

(** ** The abstract view *)

Definition bm_bit (bm : BitMap) (i : Z) : bool :=
  match bm_map bm !! Z.to_nat (i `div` 32) with
  | Some w => Z.testbit w (i `mod` 32)
  | None => false
  end.

Definition bm_wf (bm : BitMap) : Prop :=
  0 <= numBits bm /\ numWords bm = divRoundUp (numBits bm) BitsInWord /\
  Z.of_nat (length (bm_map bm)) = numWords bm /\ Forall is_u32 (bm_map bm).

(** The clear bits among [i, i+1, ..., i+n-1], counted. *)
Fixpoint count_clear (f : Z -> bool) (n : nat) (i : Z) : Z :=
  match n with
  | O => 0
  | S n => (if f i then 0 else 1) + count_clear f n (i + 1)
  end.

(** ** Words *)

Lemma bit_mask_u32 k : 0 <= k < 32 -> u32 (s32 (Z.shiftl 1 k)) = 2 ^ k.
Proof.
  intros Hk. rewrite u32_s32, Z.shiftl_1_l. apply u32_small. unfold is_u32, two32.
  split; [apply Z.pow_nonneg; lia|]. change 4294967296 with (2 ^ 32). apply Z.pow_lt_mono_r; lia.
Qed.

Lemma testbit_pow2 k j : 0 <= k -> Z.testbit (2 ^ k) j = bool_decide (k = j).
Proof.
  intros Hk. destruct (decide (k = j)) as [->|Hne].
  - rewrite bool_decide_eq_true_2 by done. by apply Z.pow2_bits_true.
  - rewrite bool_decide_eq_false_2 by done. by apply Z.pow2_bits_false.
Qed.

Lemma u32_testbit z j : 0 <= j < 32 -> Z.testbit (u32 z) j = Z.testbit z j.
Proof. intros. unfold u32. change two32 with (2 ^ 32). by rewrite Z.mod_pow2_bits_low by lia. Qed.

Lemma lnot_mask_testbit k j : 0 <= k < 32 -> 0 <= j < 32 ->
  Z.testbit (u32 (Z.lnot (s32 (Z.shiftl 1 k)))) j = negb (bool_decide (k = j)).
Proof.
  intros Hk Hj. rewrite u32_testbit, Z.lnot_spec by lia. f_equal.
  rewrite <- (u32_testbit (s32 _)), bit_mask_u32 by lia. apply testbit_pow2; lia.
Qed.

Lemma is_u32_spec w : is_u32 w <-> 0 <= w /\ forall j, 32 <= j -> Z.testbit w j = false.
Proof.
  unfold is_u32. change two32 with (2 ^ 32). split.
  - intros [H0 H1]. split; [done|]. intros j Hj.
    rewrite <- (Z.mod_small w (2 ^ 32)) by lia. apply Z.mod_pow2_bits_high; lia.
  - intros [H0 Hb]. split; [done|]. destruct (Z.lt_ge_cases w (2 ^ 32)) as [?|Hge]; [done|].
    pose proof (Z.log2_le_pow2 w 32 ltac:(lia)) as Hlog. apply Hlog in Hge.
    pose proof (Z.bit_log2 w ltac:(lia)) as Hbit. by rewrite Hb in Hbit.
Qed.

Lemma lor_u32 a b : is_u32 a -> is_u32 b -> is_u32 (Z.lor a b).
Proof.
  rewrite !is_u32_spec. intros [Ha Ha'] [Hb Hb']. split; [by apply Z.lor_nonneg|].
  intros j Hj. by rewrite Z.lor_spec, Ha', Hb'.
Qed.

Lemma land_u32 a b : is_u32 a -> is_u32 b -> is_u32 (Z.land a b).
Proof.
  rewrite !is_u32_spec. intros [Ha Ha'] [Hb Hb']. split; [apply Z.land_nonneg; by left|].
  intros j Hj. by rewrite Z.land_spec, Ha', Hb'.
Qed.

#[export] Hint Resolve lor_u32 land_u32 : nachos.

(** ** Single bits *)

(** The word index and the bit index of a bit in range. *)
Lemma bm_index bm i : bm_wf bm -> 0 <= i < numBits bm ->
  cdiv i BitsInWord = i `div` 32 /\ cmod i BitsInWord = i `mod` 32 /\
  0 <= i `div` 32 < Z.of_nat (length (bm_map bm)) /\ 0 <= i `mod` 32 < 32.
Proof.
  intros (Hn & Hw & Hlen & _) Hi. unfold BitsInWord in *. rewrite cdiv_nonneg, cmod_nonneg by lia.
  split; [done|]. split; [done|]. pose proof (divRoundUp_bounds (numBits bm) 32). dlia.
Qed.

Lemma in_range_true bm i : 0 <= i < numBits bm -> in_range bm i = true.
Proof. intros. unfold in_range. cmp_cases; lia || done. Qed.

Lemma in_range_false bm i : ~ (0 <= i < numBits bm) -> in_range bm i = false.
Proof. intros. unfold in_range. cmp_cases; lia || done. Qed.

Lemma bm_word bm i : bm_wf bm -> 0 <= i < numBits bm ->
  exists w, arr_get (bm_map bm) (cdiv i BitsInWord) = Ok w /\
    bm_map bm !! Z.to_nat (i `div` 32) = Some w /\ is_u32 w.
Proof.
  intros Hwf Hi. destruct (bm_index _ _ Hwf Hi) as (-> & _ & Hd & _).
  destruct (arr_get_in (bm_map bm) (i `div` 32)) as [w Hw]; [done|].
  exists w. split; [done|]. apply arr_get_ok in Hw as [_ Hw]. split; [done|].
  destruct Hwf as (_ & _ & _ & Hall). by eapply Forall_lookup_1.
Qed.

(** Replacing the word that holds bit [i]. *)
Lemma bm_set_word bm i w' : bm_wf bm -> 0 <= i < numBits bm -> is_u32 w' ->
  exists m, arr_set (bm_map bm) (cdiv i BitsInWord) w' = Ok m /\ bm_wf (set_map bm m) /\
    forall j, 0 <= j -> bm_bit (set_map bm m) j =
      if decide (j `div` 32 = i `div` 32) then Z.testbit w' (j `mod` 32) else bm_bit bm j.
Proof.
  intros Hwf Hi Hw'. destruct (bm_index _ _ Hwf Hi) as (-> & _ & Hd & _).
  rewrite arr_set_in by done. eexists _. split; [done|]. split.
  - destruct Hwf as (Hn & Hw & Hlen & Hall). unfold bm_wf. simpl. rewrite length_insert.
    split_and!; try done. by apply Forall_insert.
  - intros j Hj. unfold bm_bit, set_map. simpl. case_decide as Heq.
    + rewrite Heq, list_lookup_insert_eq by lia. done.
    + rewrite list_lookup_insert_ne; [done|]. dlia.
Qed.

Lemma BitMap_Test_bit bm i : bm_wf bm -> 0 <= i < numBits bm ->
  BitMap_Test bm i = Ok (bm_bit bm i).
Proof.
  intros Hwf Hi. unfold BitMap_Test, bm_bit, bit_mask. rewrite in_range_true by done. simpl.
  destruct (bm_word _ _ Hwf Hi) as (w & -> & -> & Hw). simpl.
  destruct (bm_index _ _ Hwf Hi) as (_ & -> & _ & Hm). f_equal.
  rewrite bit_mask_u32 by done. destruct (Z.testbit w (i `mod` 32)) eqn:Ht.
  - apply negb_true_iff, Z.eqb_neq. intros Hz. apply (f_equal (fun z => Z.testbit z (i `mod` 32))) in Hz.
    rewrite Z.land_spec, Ht, testbit_pow2, bool_decide_eq_true_2, Z.bits_0 in Hz by (done || lia). done.
  - apply negb_false_iff, Z.eqb_eq. apply Z.bits_inj'. intros j Hj.
    rewrite Z.land_spec, testbit_pow2, Z.bits_0 by lia.
    case_bool_decide; subst; [by rewrite Ht|by rewrite andb_false_r].
Qed.

Lemma same_word_bit i j : 0 <= i -> 0 <= j -> j `div` 32 = i `div` 32 ->
  bool_decide (i `mod` 32 = j `mod` 32) = bool_decide (i = j).
Proof. intros. apply bool_decide_ext. dlia. Qed.

Lemma BitMap_Mark_bit bm i : bm_wf bm -> 0 <= i < numBits bm ->
  exists bm', BitMap_Mark bm i = Ok bm' /\ bm_wf bm' /\ numBits bm' = numBits bm /\
    forall j, 0 <= j -> bm_bit bm' j = bool_decide (i = j) || bm_bit bm j.
Proof.
  intros Hwf Hi. unfold BitMap_Mark, bit_mask. rewrite in_range_true by done. simpl.
  destruct (bm_word _ _ Hwf Hi) as (w & -> & Hlook & Hw). simpl.
  destruct (bm_index _ _ Hwf Hi) as (_ & -> & _ & Hm).
  destruct (bm_set_word bm i (Z.lor w (u32 (s32 (Z.shiftl 1 (i `mod` 32)))))) as (m & -> & Hwf' & Hbit);
    [done..|by auto with nachos|]. simpl.
  eexists _. split; [done|]. split; [done|]. split; [done|]. intros j Hj. rewrite Hbit by done.
  case_decide as Heq.
  - rewrite Z.lor_spec, bit_mask_u32, testbit_pow2, same_word_bit by (done || lia).
    unfold bm_bit. rewrite Heq, Hlook. apply orb_comm.
  - rewrite bool_decide_eq_false_2; [done|]. by intros ->.
Qed.

Lemma BitMap_Clear_bit bm i : bm_wf bm -> 0 <= i < numBits bm ->
  exists bm', BitMap_Clear bm i = Ok bm' /\ bm_wf bm' /\ numBits bm' = numBits bm /\
    forall j, 0 <= j -> bm_bit bm' j = negb (bool_decide (i = j)) && bm_bit bm j.
Proof.
  intros Hwf Hi. unfold BitMap_Clear, bit_mask. rewrite in_range_true by done. simpl.
  destruct (bm_word _ _ Hwf Hi) as (w & -> & Hlook & Hw). simpl.
  destruct (bm_index _ _ Hwf Hi) as (_ & -> & _ & Hm).
  destruct (bm_set_word bm i (Z.land w (u32 (Z.lnot (s32 (Z.shiftl 1 (i `mod` 32))))))) as (m & -> & Hwf' & Hbit);
    [done..|by auto with nachos|]. simpl.
  eexists _. split; [done|]. split; [done|]. split; [done|]. intros j Hj. rewrite Hbit by done.
  case_decide as Heq.
  - rewrite Z.land_spec, lnot_mask_testbit, same_word_bit by (done || dlia).
    unfold bm_bit. rewrite Heq, Hlook. apply andb_comm.
  - rewrite bool_decide_eq_false_2; [done|]. by intros ->.
Qed.

(** Out of range, every single-bit operation fails its assertion. *)
Lemma BitMap_out_of_range bm i : ~ (0 <= i < numBits bm) ->
  BitMap_Mark bm i = AssertFail /\ BitMap_Clear bm i = AssertFail /\
  BitMap_Test bm i = AssertFail.
Proof.
  intros Hi. unfold BitMap_Mark, BitMap_Clear, BitMap_Test. by rewrite in_range_false.
Qed.

(** ** Counting *)

Lemma count_clear_bounds f n i : 0 <= count_clear f n i <= Z.of_nat n.
Proof. revert i. induction n as [|n IH]; intros i; simpl; [lia|]. specialize (IH (i + 1)). destruct (f i); lia. Qed.

Lemma count_clear_ext f g n : forall i,
  (forall j, i <= j < i + Z.of_nat n -> f j = g j) -> count_clear f n i = count_clear g n i.
Proof.
  induction n as [|n IH]; intros i H; simpl; [done|]. rewrite H by lia. f_equal. apply IH.
  intros j Hj. apply H. lia.
Qed.

Lemma count_clear_zero f n : forall i,
  count_clear f n i = 0 <-> forall j, i <= j < i + Z.of_nat n -> f j = true.
Proof.
  induction n as [|n IH]; intros i; simpl; [split; [intros _ j Hj; lia|done]|].
  pose proof (count_clear_bounds f n (i + 1)). split.
  - destruct (f i) eqn:Hf; [|lia]. intros H0 j Hj. destruct (decide (j = i)) as [->|]; [done|].
    apply (proj1 (IH (i + 1))); lia.
  - intros H0. rewrite (H0 i) by lia. apply IH. intros j Hj. apply H0. lia.
Qed.

(** Setting one clear bit lowers the count by one. *)
Lemma count_clear_mark f g k n : forall i,
  i <= k < i + Z.of_nat n -> f k = false ->
  (forall j, i <= j < i + Z.of_nat n -> g j = bool_decide (k = j) || f j) ->
  count_clear g n i = count_clear f n i - 1.
Proof.
  induction n as [|n IH]; intros i Hk Hf Hg; simpl; [lia|].
  rewrite (Hg i) by lia. destruct (decide (k = i)) as [->|Hne].
  - rewrite bool_decide_eq_true_2, Hf by done. simpl.
    rewrite (count_clear_ext g f); [lia|]. intros j Hj. rewrite Hg by lia.
    rewrite bool_decide_eq_false_2 by lia. done.
  - rewrite bool_decide_eq_false_2 by done. simpl.
    rewrite (IH (i + 1)) by (try lia; try done; intros j Hj; apply Hg; lia). destruct (f i); lia.
Qed.

(** ** Loops *)

Lemma clear_loop_bits n : forall i bm,
  bm_wf bm -> 0 <= i -> i + Z.of_nat n <= numBits bm ->
  exists bm', clear_loop n i bm = Ok bm' /\ bm_wf bm' /\ numBits bm' = numBits bm /\
    forall j, 0 <= j -> bm_bit bm' j = negb (bool_decide (i <= j < i + Z.of_nat n)) && bm_bit bm j.
Proof.
  induction n as [|n IH]; intros i bm Hwf Hi Hn; simpl.
  - exists bm. split_and!; try done. intros j Hj. by rewrite bool_decide_eq_false_2 by lia.
  - destruct (BitMap_Clear_bit bm i Hwf) as (bm1 & -> & Hwf1 & Hnb & Hbit); [lia|]. simpl.
    destruct (IH (i + 1) bm1 Hwf1) as (bm2 & -> & Hwf2 & Hnb2 & Hbit2); [lia..|].
    exists bm2. split_and!; try done; [congruence|]. intros j Hj. rewrite Hbit2, Hbit by done.
    destruct (decide (i <= j < i + Z.of_nat (S n))) as [Hin|Hout].
    + rewrite (bool_decide_eq_true_2 (i <= j < i + Z.of_nat (S n))) by done.
      destruct (decide (i = j)); [rewrite (bool_decide_eq_true_2 (i = j)) by done; by rewrite andb_false_r|].
      by rewrite bool_decide_eq_true_2 by lia.
    + rewrite !bool_decide_eq_false_2 by lia. done.
Qed.

Lemma Find_loop_bits n : forall i bm,
  bm_wf bm -> 0 <= i -> i + Z.of_nat n <= numBits bm ->
  (exists k bm', Find_loop n i bm = Ok (k, bm') /\ bm_wf bm' /\ numBits bm' = numBits bm /\
    i <= k < i + Z.of_nat n /\ bm_bit bm k = false /\
    (forall j, i <= j < k -> bm_bit bm j = true) /\
    forall j, 0 <= j -> bm_bit bm' j = bool_decide (k = j) || bm_bit bm j) \/
  (Find_loop n i bm = Ok (-1, bm) /\ forall j, i <= j < i + Z.of_nat n -> bm_bit bm j = true).
Proof.
  induction n as [|n IH]; intros i bm Hwf Hi Hn; simpl; [right; split; [done|lia]|].
  rewrite BitMap_Test_bit by (done || lia). simpl. destruct (bm_bit bm i) eqn:Hb; simpl.
  - destruct (IH (i + 1) bm Hwf) as [(k & bm' & Hf & Hwf' & Hnb & Hk & Hkf & Hbelow & Hbit)|[Hf Hall]];
      [lia..| |].
    + left. exists k, bm'. split_and!; try done; [lia..|]. intros j Hj.
      destruct (decide (j = i)) as [->|]; [done|]. apply Hbelow; lia.
    + right. split; [done|]. intros j Hj. destruct (decide (j = i)) as [->|]; [done|]. apply Hall; lia.
  - left. destruct (BitMap_Mark_bit bm i Hwf) as (bm' & -> & Hwf' & Hnb & Hbit); [lia|].
    exists i, bm'. split_and!; try done; lia.
Qed.

Lemma NumClear_loop_count n : forall i c bm,
  bm_wf bm -> 0 <= i -> i + Z.of_nat n <= numBits bm ->
  NumClear_loop n i c bm = Ok (c + count_clear (bm_bit bm) n i).
Proof.
  induction n as [|n IH]; intros i c bm Hwf Hi Hn; simpl; [by rewrite Z.add_0_r|].
  rewrite BitMap_Test_bit by (done || lia). simpl. rewrite IH by (done || lia).
  f_equal. destruct (bm_bit bm i); simpl; lia.
Qed.

(** The number of clear bits of a bitmap. *)
Definition bm_free (bm : BitMap) : Z := count_clear (bm_bit bm) (Z.to_nat (numBits bm)) 0.

Lemma BitMap_NumClear_free bm : bm_wf bm -> BitMap_NumClear bm = Ok (bm_free bm).
Proof.
  intros Hwf. pose proof Hwf as [Hn _]. unfold BitMap_NumClear.
  rewrite NumClear_loop_count by (done || lia). done.
Qed.

Lemma BitMap_Find_cases bm : bm_wf bm ->
  (exists k bm', BitMap_Find bm = Ok (k, bm') /\ bm_wf bm' /\ numBits bm' = numBits bm /\
    0 <= k < numBits bm /\ bm_bit bm k = false /\
    (forall j, 0 <= j < k -> bm_bit bm j = true) /\
    forall j, 0 <= j -> bm_bit bm' j = bool_decide (k = j) || bm_bit bm j) \/
  (BitMap_Find bm = Ok (-1, bm) /\ forall j, 0 <= j < numBits bm -> bm_bit bm j = true).
Proof.
  intros Hwf. pose proof Hwf as [Hn _]. unfold BitMap_Find.
  pose proof (Find_loop_bits (Z.to_nat (numBits bm)) 0 bm Hwf) as H.
  rewrite Z2Nat.id, Z.add_0_l in H by done. apply H; lia.
Qed.

(** ** The interface to the disk and page managers

    [ba_used] is the abstract state. The clients' proofs use only these laws. *)

Class BitAllocator (M : Type) := {
  ba_size : M -> Z;
  ba_inv : M -> Prop;
  ba_used : M -> Z -> bool;
  ba_mark : M -> Z -> outcome M;
  ba_clear : M -> Z -> outcome M;
  ba_test : M -> Z -> outcome bool;
  ba_find : M -> outcome (Z * M);
  ba_numClear : M -> outcome Z }.

(** The number of free elements. *)
Definition ba_free {M} `{BitAllocator M} (m : M) : Z :=
  count_clear (ba_used m) (Z.to_nat (ba_size m)) 0.

Class BitAllocatorLaws (M : Type) `{BitAllocator M} := {
  ba_size_nonneg m : ba_inv m -> 0 <= ba_size m;
  ba_test_ok m i : ba_inv m -> 0 <= i < ba_size m -> ba_test m i = Ok (ba_used m i);
  ba_mark_ok m i : ba_inv m -> 0 <= i < ba_size m ->
    exists m', ba_mark m i = Ok m' /\ ba_inv m' /\ ba_size m' = ba_size m /\
      forall j, 0 <= j -> ba_used m' j = bool_decide (i = j) || ba_used m j;
  ba_clear_ok m i : ba_inv m -> 0 <= i < ba_size m ->
    exists m', ba_clear m i = Ok m' /\ ba_inv m' /\ ba_size m' = ba_size m /\
      forall j, 0 <= j -> ba_used m' j = negb (bool_decide (i = j)) && ba_used m j;
  ba_find_ok m : ba_inv m ->
    (exists k m', ba_find m = Ok (k, m') /\ ba_inv m' /\ ba_size m' = ba_size m /\
      0 <= k < ba_size m /\ ba_used m k = false /\
      (forall j, 0 <= j < k -> ba_used m j = true) /\
      forall j, 0 <= j -> ba_used m' j = bool_decide (k = j) || ba_used m j) \/
    (ba_find m = Ok (-1, m) /\ forall j, 0 <= j < ba_size m -> ba_used m j = true);
  ba_numClear_ok m : ba_inv m -> ba_numClear m = Ok (ba_free m);
  ba_clear_out m i : ~ (0 <= i < ba_size m) -> ba_clear m i = AssertFail;
  ba_test_out m i : ~ (0 <= i < ba_size m) -> ba_test m i = AssertFail }.

#[export] Instance BitMap_allocator : BitAllocator BitMap := {
  ba_size := numBits;
  ba_inv := bm_wf;
  ba_used := bm_bit;
  ba_mark := BitMap_Mark;
  ba_clear := BitMap_Clear;
  ba_test := BitMap_Test;
  ba_find := BitMap_Find;
  ba_numClear := BitMap_NumClear }.

#[export] Instance BitMap_allocator_laws : BitAllocatorLaws BitMap.
Proof.
  split; simpl.
  - intros m [Hn _]. exact Hn.
  - apply BitMap_Test_bit.
  - apply BitMap_Mark_bit.
  - apply BitMap_Clear_bit.
  - apply BitMap_Find_cases.
  - apply BitMap_NumClear_free.
  - intros m i Hi. by apply BitMap_out_of_range.
  - intros m i Hi. by apply BitMap_out_of_range.
Qed.

Section allocator_facts.
Context {M : Type} `{BitAllocatorLaws M}.
Implicit Types m : M.

Lemma ba_free_nonneg m : 0 <= ba_free m.
Proof. apply count_clear_bounds. Qed.

(** [Find] takes one element off the free ones, when there is one. *)
Lemma ba_find_free m : ba_inv m -> 0 < ba_free m ->
  exists k m', ba_find m = Ok (k, m') /\ ba_inv m' /\ ba_size m' = ba_size m /\
    0 <= k < ba_size m /\ ba_used m k = false /\ ba_free m' = ba_free m - 1 /\
    (forall j, 0 <= j < k -> ba_used m j = true) /\
    forall j, 0 <= j -> ba_used m' j = bool_decide (k = j) || ba_used m j.
Proof.
  intros Hinv Hfree. pose proof (ba_size_nonneg m Hinv).
  destruct (ba_find_ok m Hinv) as [(k & m' & Hf & Hinv' & Hsz & Hk & Hku & Hbelow & Hu)|[_ Hall]].
  - exists k, m'. split_and!; try done; try lia. unfold ba_free. rewrite Hsz.
    apply (count_clear_mark _ _ k); [lia|done|]. intros j Hj. apply Hu. lia.
  - unfold ba_free in Hfree. rewrite (proj2 (count_clear_zero _ _ _)) in Hfree; [lia|].
    intros j Hj. apply Hall. lia.
Qed.

Lemma ba_find_none m : ba_inv m -> ba_free m = 0 -> ba_find m = Ok (-1, m).
Proof.
  intros Hinv Hfree. pose proof (ba_size_nonneg m Hinv).
  destruct (ba_find_ok m Hinv) as [(k & m' & _ & _ & _ & Hk & Hku & _)|[Hf _]]; [|done].
  rewrite (proj1 (count_clear_zero _ _ _) Hfree) in Hku; [done|lia].
Qed.

End allocator_facts.

(** ** Properties *)

(** Whatever the words of a new bitmap hold, the constructor returns a
    well-formed bitmap of [nitems] bits, all of them clear, and [NumClear] counts
    [nitems]. *)
Theorem BitMap_new_clear nitems garbage :
  0 <= nitems -> Z.of_nat (length garbage) = divRoundUp nitems BitsInWord ->
  Forall is_u32 garbage ->
  exists bm, BitMap_new nitems garbage = Ok bm /\ bm_wf bm /\ numBits bm = nitems /\
    (forall j, 0 <= j < nitems -> BitMap_Test bm j = Ok false) /\
    BitMap_NumClear bm = Ok nitems.
Proof.
  intros Hn Hlen Hall. unfold BitMap_new.
  destruct (clear_loop_bits (Z.to_nat nitems) 0
    (mkBitMap nitems (divRoundUp nitems BitsInWord) garbage)) as (bm & -> & Hwf & Hnb & Hbit);
    [done|done|simpl; lia|].
  simpl in Hnb. exists bm. split_and!; try done.
  - intros j Hj. rewrite BitMap_Test_bit, Hbit by (done || lia). by rewrite bool_decide_eq_true_2 by lia.
  - rewrite BitMap_NumClear_free by done. unfold bm_free. f_equal. rewrite Hnb.
    rewrite (count_clear_ext _ (fun _ => false)).
    + clear -Hn. enough (forall n i, count_clear (fun _ => false) n i = Z.of_nat n) as -> by lia.
      induction n as [|n IH]; intros i; simpl; [done|]. rewrite IH. lia.
    + intros j Hj. rewrite Hbit by lia. by rewrite bool_decide_eq_true_2 by lia.
Qed.

Lemma BitMap_new_clear_witness :
  exists bm, BitMap_new 40 [4294967295; 7] = Ok bm /\ BitMap_NumClear bm = Ok 40.
Proof.
  destruct (BitMap_new_clear 40 [4294967295; 7]) as (bm & Hrun & _ & _ & _ & Hc);
    [lia|reflexivity|forall_lia|].
  exists bm. split; [exact Hrun|exact Hc].
Defined.

(** [Mark], [Clear] and [Test] act on exactly the bit they are given: each one
    returns, keeps the bitmap well formed and leaves every other bit alone; with a
    bit number outside the bitmap each one fails its assertion instead. *)
Theorem BitMap_bits_correct bm i :
  bm_wf bm ->
  if decide (0 <= i < numBits bm) then
    BitMap_Test bm i = Ok (bm_bit bm i) /\
    (exists bm', BitMap_Mark bm i = Ok bm' /\ bm_wf bm' /\ numBits bm' = numBits bm /\
      bm_bit bm' i = true /\ forall j, 0 <= j -> j <> i -> bm_bit bm' j = bm_bit bm j) /\
    (exists bm', BitMap_Clear bm i = Ok bm' /\ bm_wf bm' /\ numBits bm' = numBits bm /\
      bm_bit bm' i = false /\ forall j, 0 <= j -> j <> i -> bm_bit bm' j = bm_bit bm j)
  else BitMap_Test bm i = AssertFail /\ BitMap_Mark bm i = AssertFail /\
       BitMap_Clear bm i = AssertFail.
Proof.
  intros Hwf. case_decide as Hi.
  - destruct (BitMap_Mark_bit bm i Hwf Hi) as (m & Hm & Hwfm & Hnm & Hbm).
    destruct (BitMap_Clear_bit bm i Hwf Hi) as (c & Hc & Hwfc & Hnc & Hbc).
    split; [by apply BitMap_Test_bit|]. split; [exists m|exists c]; split_and!; try done;
      rewrite ?Hbm, ?Hbc, ?bool_decide_eq_true_2 by (done || lia); try done;
      intros j Hj Hne; rewrite ?Hbm, ?Hbc, bool_decide_eq_false_2 by done; done.
  - by destruct (BitMap_out_of_range bm i Hi) as (-> & -> & ->).
Qed.

Lemma BitMap_bits_correct_witness :
  bm_wf (mkBitMap 40 2 [5; 0]) /\ BitMap_Test (mkBitMap 40 2 [5; 0]) 2 = Ok true.
Proof.
  assert (bm_wf (mkBitMap 40 2 [5; 0])) as Hwf
    by (split; [simpl; lia|]; split; [reflexivity|]; split; [reflexivity|]; forall_lia).
  split; [exact Hwf|]. exact (proj1 (BitMap_bits_correct (mkBitMap 40 2 [5; 0]) 2 Hwf)).
Defined.

(** [Find] returns the smallest clear bit and sets it, so that [NumClear] falls
    by exactly one; it returns -1, without a change, exactly when [NumClear] is 0. *)
Theorem BitMap_Find_smallest bm :
  bm_wf bm ->
  exists n k bm', BitMap_NumClear bm = Ok n /\ BitMap_Find bm = Ok (k, bm') /\ bm_wf bm' /\
    if decide (n = 0) then k = -1 /\ bm' = bm
    else 0 <= k < numBits bm /\ BitMap_Test bm k = Ok false /\
      (forall j, 0 <= j < k -> BitMap_Test bm j = Ok true) /\
      BitMap_Test bm' k = Ok true /\
      (forall j, 0 <= j -> j <> k -> bm_bit bm' j = bm_bit bm j) /\
      BitMap_NumClear bm' = Ok (n - 1).
Proof.
  intros Hwf. exists (bm_free bm). rewrite BitMap_NumClear_free by done.
  pose proof (ba_free_nonneg bm) as Hnn. change (ba_free bm) with (bm_free bm) in Hnn.
  case_decide as Hz.
  - exists (-1), bm. split; [done|]. split; [exact (ba_find_none bm Hwf Hz)|]. done.
  - destruct (ba_find_free bm) as (k & bm' & Hf & Hwf' & Hsz & Hk & Hku & Hfree & Hbelow & Hu);
      [done|change (ba_free bm) with (bm_free bm); lia|].
    simpl in *. exists k, bm'. split_and!; try done; try lia.
    + by rewrite BitMap_Test_bit, Hku.
    + intros j Hj. rewrite BitMap_Test_bit by (done || lia). by rewrite Hbelow.
    + rewrite BitMap_Test_bit, Hu by (done || lia). by rewrite bool_decide_eq_true_2.
    + intros j Hj Hne. rewrite Hu by done. by rewrite bool_decide_eq_false_2 by done.
    + rewrite BitMap_NumClear_free by done. by f_equal.
Qed.

Lemma BitMap_Find_smallest_witness :
  exists bm', BitMap_Find (mkBitMap 40 2 [7; 0]) = Ok (3, bm') /\ BitMap_NumClear bm' = Ok 36.
Proof.
  destruct (BitMap_Find_smallest (mkBitMap 40 2 [7; 0])) as (n & k & bm' & Hn & Hf & _ & Hif).
  - split; [simpl; lia|]. split; [reflexivity|]. split; [reflexivity|]. forall_lia.
  - assert (n = 37) as -> by (vm_compute in Hn; congruence).
    assert (k = 3) as -> by (vm_compute in Hf; congruence).
    exists bm'. split; [exact Hf|]. apply Hif.
Defined.
