(* ===== verification/Mips.v ===== *)
(** * machine/mipssim.h and the arithmetic of machine/mipssim.cc

    The opcode numbers and decoding tables, [Instruction::Decode], and [Mult], the
    shift-and-add multiplication with its early exit. *)

From stdpp Require Import prelude list numbers.
From S2P Require Import Prelude.

Open Scope Z_scope.

(** ** Tables *)

(** The opcodes of mipssim.h, and the two markers [SPECIAL] and [BCOND]. *)
Inductive opcode :=
| OP_ADD | OP_ADDI | OP_ADDIU | OP_ADDU | OP_AND | OP_ANDI | OP_BEQ | OP_BGEZ
| OP_BGEZAL | OP_BGTZ | OP_BLEZ | OP_BLTZ | OP_BLTZAL | OP_BNE | OP_DIV | OP_DIVU
| OP_J | OP_JAL | OP_JALR | OP_JR | OP_LB | OP_LBU | OP_LH | OP_LHU | OP_LUI
| OP_LW | OP_LWL | OP_LWR | OP_MFHI | OP_MFLO | OP_MTHI | OP_MTLO | OP_MULT
| OP_MULTU | OP_NOR | OP_OR | OP_ORI | OP_RFE | OP_SB | OP_SH | OP_SLL | OP_SLLV
| OP_SLT | OP_SLTI | OP_SLTIU | OP_SLTU | OP_SRA | OP_SRAV | OP_SRL | OP_SRLV
| OP_SUB | OP_SUBU | OP_SW | OP_SWL | OP_SWR | OP_XOR | OP_XORI | OP_SYSCALL
| OP_UNIMP | OP_RES | SPECIAL | BCOND.

#[export] Instance opcode_eq_dec : EqDecision opcode.
Proof. solve_decision. Defined.

Inductive format := IFMT | JFMT | RFMT.

Definition opTable : list (opcode * format) :=
  [(SPECIAL, RFMT); (BCOND, IFMT); (OP_J, JFMT); (OP_JAL, JFMT);
   (OP_BEQ, IFMT); (OP_BNE, IFMT); (OP_BLEZ, IFMT); (OP_BGTZ, IFMT);
   (OP_ADDI, IFMT); (OP_ADDIU, IFMT); (OP_SLTI, IFMT); (OP_SLTIU, IFMT);
   (OP_ANDI, IFMT); (OP_ORI, IFMT); (OP_XORI, IFMT); (OP_LUI, IFMT);
   (OP_UNIMP, IFMT); (OP_UNIMP, IFMT); (OP_UNIMP, IFMT); (OP_UNIMP, IFMT);
   (OP_RES, IFMT); (OP_RES, IFMT); (OP_RES, IFMT); (OP_RES, IFMT);
   (OP_RES, IFMT); (OP_RES, IFMT); (OP_RES, IFMT); (OP_RES, IFMT);
   (OP_RES, IFMT); (OP_RES, IFMT); (OP_RES, IFMT); (OP_RES, IFMT);
   (OP_LB, IFMT); (OP_LH, IFMT); (OP_LWL, IFMT); (OP_LW, IFMT);
   (OP_LBU, IFMT); (OP_LHU, IFMT); (OP_LWR, IFMT); (OP_RES, IFMT);
   (OP_SB, IFMT); (OP_SH, IFMT); (OP_SWL, IFMT); (OP_SW, IFMT);
   (OP_RES, IFMT); (OP_RES, IFMT); (OP_SWR, IFMT); (OP_RES, IFMT);
   (OP_UNIMP, IFMT); (OP_UNIMP, IFMT); (OP_UNIMP, IFMT); (OP_UNIMP, IFMT);
   (OP_RES, IFMT); (OP_RES, IFMT); (OP_RES, IFMT); (OP_RES, IFMT);
   (OP_UNIMP, IFMT); (OP_UNIMP, IFMT); (OP_UNIMP, IFMT); (OP_UNIMP, IFMT);
   (OP_RES, IFMT); (OP_RES, IFMT); (OP_RES, IFMT); (OP_RES, IFMT)].

Definition specialTable : list opcode :=
  [OP_SLL; OP_RES; OP_SRL; OP_SRA; OP_SLLV; OP_RES; OP_SRLV; OP_SRAV;
   OP_JR; OP_JALR; OP_RES; OP_RES; OP_SYSCALL; OP_UNIMP; OP_RES; OP_RES;
   OP_MFHI; OP_MTHI; OP_MFLO; OP_MTLO; OP_RES; OP_RES; OP_RES; OP_RES;
   OP_MULT; OP_MULTU; OP_DIV; OP_DIVU; OP_RES; OP_RES; OP_RES; OP_RES;
   OP_ADD; OP_ADDU; OP_SUB; OP_SUBU; OP_AND; OP_OR; OP_XOR; OP_NOR;
   OP_RES; OP_RES; OP_SLT; OP_SLTU; OP_RES; OP_RES; OP_RES; OP_RES;
   OP_RES; OP_RES; OP_RES; OP_RES; OP_RES; OP_RES; OP_RES; OP_RES;
   OP_RES; OP_RES; OP_RES; OP_RES; OP_RES; OP_RES; OP_RES; OP_RES].

(** ** Decoding *)

Record Instruction := mkInstruction {
  i_value : Z;
  opCode : opcode;
  i_rs : Z;
  i_rt : Z;
  i_rd : Z;
  i_extra : Z }.

(** [Instruction::Decode] on the [unsigned int] [value]. *)
Definition Decode (value : Z) : outcome Instruction :=
  let rs := Z.land (Z.shiftr value 21) 0x1f in
  let rt := Z.land (Z.shiftr value 16) 0x1f in
  let rd := Z.land (Z.shiftr value 11) 0x1f in
  '(op, fmt) ← arr_get opTable (Z.land (Z.shiftr value 26) 0x3f);
  let extra :=
    match fmt with
    | IFMT =>
        let e := Z.land value 0xffff in
        if Z.land e 0x8000 =? 0 then e else s32 (Z.lor e 0xffff0000)
    | RFMT => Z.land (Z.shiftr value 6) 0x1f
    | JFMT => Z.land value 0x3ffffff
    end in
  op ← match op with
       | SPECIAL => arr_get specialTable (Z.land value 0x3f)
       | BCOND =>
           let i := Z.land value 0x1f0000 in
           Ok (if i =? 0 then OP_BLTZ
               else if i =? 0x10000 then OP_BGEZ
               else if i =? 0x100000 then OP_BLTZAL
               else if i =? 0x110000 then OP_BGEZAL
               else OP_UNIMP)
       | op => Ok op
       end;
  Ok (mkInstruction value op rs rt rd extra).

(** ** Multiplication *)

(** The [for] loop of [Mult], with [n] iterations left; [a] is an [int], the other
    four words are [unsigned int]. Returns [(hi, lo)]. *)
Fixpoint Mult_loop (n : nat) (a bLo bHi lo hi : Z) : Z * Z :=
  match n with
  | O => (hi, lo)
  | S n =>
      let next lo hi :=
        let bHi := u32 (Z.shiftl bHi 1) in
        let bHi := if Z.land bLo 0x80000000 =? 0 then bHi else Z.lor bHi 1 in
        let bLo := u32 (Z.shiftl bLo 1) in
        Mult_loop n (Z.shiftr a 1) bLo bHi lo hi in
      if Z.land a 1 =? 0 then next lo hi
      else
        let lo := u32 (lo + bLo) in
        let hi := if lo <? bLo then u32 (hi + 1) else hi in
        let hi := u32 (hi + bHi) in
        if Z.land (u32 a) 0xfffffffe =? 0 then (hi, lo) else next lo hi
  end.

(** [Mult(a, b, signedArith, &hi, &lo)]. *)
Definition Mult (a b : Z) (signedArith : bool) : Z * Z :=
  if (a =? 0) || (b =? 0) then (0, 0)
  else
    let negative := signedArith && xorb (a <? 0) (b <? 0) in
    let a := if signedArith && (a <? 0) then s32 (- a) else a in
    let b := if signedArith && (b <? 0) then s32 (- b) else b in
    let '(hi, lo) := Mult_loop 32 a (u32 b) 0 0 0 in
    let '(hi, lo) :=
      if negative then
        let hi := u32 (Z.lnot hi) in
        let lo := u32 (Z.lnot lo) in
        let lo := u32 (lo + 1) in
        let hi := if lo =? 0 then u32 (hi + 1) else hi in (hi, lo)
      else (hi, lo) in
    (s32 hi, s32 lo).

(** ** Lemmas *)

Lemma land_mask_range z m n : 0 <= n -> m = Z.ones n -> 0 <= Z.land z m < 2 ^ n.
Proof. intros Hn ->. rewrite Z.land_ones by done. apply Z.mod_pos_bound. by apply Z.pow_pos_nonneg. Qed.

(** The opcodes that [Decode] can produce: all but [OP_RFE] and the markers. *)
Definition decodable (op : opcode) : bool :=
  match op with OP_RFE | SPECIAL | BCOND => false | _ => true end.

Definition instr_ok (i : Instruction) : Prop :=
  0 <= i_rs i < 32 /\ 0 <= i_rt i < 32 /\ 0 <= i_rd i < 32 /\ is_s32 (i_extra i) /\
  decodable (opCode i) = true /\
  (match opCode i with OP_SLL | OP_SRA | OP_SRL => 0 <= i_extra i < 32 | _ => True end).

Lemma arr_get_forall {A} (P : A -> Prop) (l : list A) i :
  Forall P l -> 0 <= i < Z.of_nat (length l) -> exists x, arr_get l i = Ok x /\ P x.
Proof.
  intros Hall Hi. destruct (arr_get_in l i Hi) as [x Hx]. exists x. split; [done|].
  apply arr_get_ok in Hx as [_ Hx]. by eapply Forall_lookup_1.
Qed.

(** The [format] of the table is the one the opcode needs. *)
Definition table_entry_ok (e : opcode * format) : bool :=
  match e with
  | (SPECIAL, RFMT) => true
  | (SPECIAL, _) | (OP_SLL, _) | (OP_SRA, _) | (OP_SRL, _) | (OP_RFE, _) => false
  | _ => true
  end.

Lemma opTable_ok : Forall (fun e => table_entry_ok e = true) opTable.
Proof. by repeat constructor. Qed.

Lemma specialTable_ok : Forall (fun op => decodable op = true) specialTable.
Proof. by repeat constructor. Qed.

Lemma Decode_ok value : is_u32 value -> exists i, Decode value = Ok i /\ instr_ok i.
Proof.
  intros Hv. unfold Decode.
  pose proof (land_mask_range (Z.shiftr value 21) 0x1f 5 ltac:(lia) eq_refl) as Hrs.
  pose proof (land_mask_range (Z.shiftr value 16) 0x1f 5 ltac:(lia) eq_refl) as Hrt.
  pose proof (land_mask_range (Z.shiftr value 11) 0x1f 5 ltac:(lia) eq_refl) as Hrd.
  pose proof (land_mask_range (Z.shiftr value 6) 0x1f 5 ltac:(lia) eq_refl) as Hsh.
  pose proof (land_mask_range value 0xffff 16 ltac:(lia) eq_refl) as Himm.
  pose proof (land_mask_range value 0x3ffffff 26 ltac:(lia) eq_refl) as Htg.
  destruct (arr_get_forall _ opTable (Z.land (Z.shiftr value 26) 0x3f) opTable_ok) as ([op fmt] & -> & He);
    [apply (land_mask_range _ _ 6); done|]. simpl mbind.
  set (extra := match fmt with IFMT => _ | JFMT => _ | RFMT => _ end).
  assert (is_s32 extra /\ (fmt = RFMT -> 0 <= extra < 32)) as [Hex Hexr].
  { unfold extra. destruct fmt; [destruct (_ =? 0)|..]; split; try discriminate;
      try apply s32_range; unfold is_s32, two31; lia. }
  destruct (arr_get_forall _ specialTable (Z.land value 0x3f) specialTable_ok) as (sop & Hsop & Hd);
    [apply (land_mask_range _ _ 6); done|].
  assert (exists op', match op with
       | SPECIAL => arr_get specialTable (Z.land value 0x3f)
       | BCOND =>
           Ok (if Z.land value 0x1f0000 =? 0 then OP_BLTZ
               else if Z.land value 0x1f0000 =? 0x10000 then OP_BGEZ
               else if Z.land value 0x1f0000 =? 0x100000 then OP_BLTZAL
               else if Z.land value 0x1f0000 =? 0x110000 then OP_BGEZAL
               else OP_UNIMP)
       | op => Ok op
       end = Ok op' /\ decodable op' = true /\
       (match op' with OP_SLL | OP_SRA | OP_SRL => fmt = RFMT | _ => True end)) as (op' & -> & Hd' & Hf').
  { destruct op; try discriminate He; try (eexists; split; [reflexivity|]; split; [reflexivity|exact I]).
    - exists sop. split; [done|]. split; [done|]. destruct fmt; try discriminate He. by destruct sop.
    - eexists. split; [reflexivity|]. by repeat case_match. }
  simpl. eexists. split; [done|]. unfold instr_ok. simpl. split_and!; try done; try lia.
  destruct op'; auto.
Qed.

(** *** Mult *)

(** A 64-bit value from its two words. *)
Definition dword (hi lo : Z) : Z := hi * two32 + lo.

(** A mask that keeps the bits of a word from [n] on. *)
Lemma land_high_mask b m n :
  is_u32 b -> 0 <= n -> Z.lor m (Z.ones n) = Z.ones 32 -> Z.land m (Z.ones n) = 0 ->
  Z.land b m = b - b `mod` 2 ^ n.
Proof.
  intros Hb Hn Hor Hand. rewrite <- Z.land_ones by done.
  assert (Z.land b (Z.ones 32) = b) as Hb32
    by (rewrite Z.land_ones by lia; by apply Z.mod_small).
  rewrite <- Hor, Z.land_lor_distr_r in Hb32.
  pose proof (Z.add_lor_land (Z.land b m) (Z.land b (Z.ones n))) as Hadd.
  assert (Z.land (Z.land b m) (Z.land b (Z.ones n)) = 0) as Hz.
  { rewrite Z.land_assoc, (Z.land_comm (Z.land b m) b), Z.land_assoc, <- Z.land_assoc, Hand.
    apply Z.land_0_r. }
  lia.
Qed.

Lemma testbit31_spec b : is_u32 b -> (Z.land b 0x80000000 =? 0) = (b <? two31).
Proof.
  intros Hb. rewrite (land_high_mask b _ 31) by done. unfold is_u32, two32, two31 in *.
  change (2 ^ 31) with 2147483648.
  destruct (Z.eqb_spec (b - b `mod` 2147483648) 0), (Z.ltb_spec b 2147483648); try done; dlia.
Qed.

Lemma land1_spec a : (Z.land a 1 =? 0) = (a `mod` 2 =? 0).
Proof. change 1 with (Z.ones 1) at 1. by rewrite Z.land_ones by lia. Qed.

Lemma land_fffffffe_spec a : is_u32 a -> Z.land a 0xfffffffe = a - a `mod` 2.
Proof. intros Ha. by rewrite (land_high_mask a _ 1). Qed.

Lemma lor_even_1 z : Z.lor (z * 2) 1 = z * 2 + 1.
Proof.
  pose proof (Z.add_lor_land (z * 2) 1) as H. change 1 with (Z.ones 1) in H at 2.
  rewrite Z.land_ones in H by lia. change (2 ^ 1) with 2 in H. rewrite Z.mod_mul in H by done. lia.
Qed.

(** Shifting the multiplicand left by one bit. *)
Lemma dword_shift bHi bLo :
  is_u32 bHi -> is_u32 bLo -> 2 * dword bHi bLo < two32 * two32 ->
  let bHi' := if Z.land bLo 0x80000000 =? 0 then u32 (Z.shiftl bHi 1)
              else Z.lor (u32 (Z.shiftl bHi 1)) 1 in
  let bLo' := u32 (Z.shiftl bLo 1) in
  is_u32 bHi' /\ is_u32 bLo' /\ dword bHi' bLo' = 2 * dword bHi bLo.
Proof.
  intros Hh Hl Hlt. rewrite testbit31_spec by done.
  rewrite !Z.shiftl_mul_pow2 by lia. change (2 ^ 1) with 2.
  unfold dword, is_u32, u32, two32, two31 in *.
  rewrite (Z.mod_small (bHi * 2)) by lia.
  rewrite lor_even_1.
  destruct (Z.ltb_spec bLo 2147483648); dlia.
Qed.

(** Adding the multiplicand into the product. *)
Lemma dword_add hi lo bHi bLo :
  is_u32 hi -> is_u32 lo -> is_u32 bHi -> is_u32 bLo ->
  dword hi lo + dword bHi bLo < two32 * two32 ->
  let lo' := u32 (lo + bLo) in
  let hi' := u32 ((if lo' <? bLo then u32 (hi + 1) else hi) + bHi) in
  is_u32 hi' /\ is_u32 lo' /\ dword hi' lo' = dword hi lo + dword bHi bLo.
Proof.
  unfold dword, is_u32, u32, two32. intros Hhi Hlo Hbh Hbl Hlt. simpl.
  destruct (Z.ltb_spec ((lo + bLo) `mod` 4294967296) bLo); dlia.
Qed.

Lemma Mult_loop_product n : forall a bLo bHi lo hi,
  (n <= 32)%nat -> is_u32 bLo -> is_u32 bHi -> is_u32 lo -> is_u32 hi ->
  dword bHi bLo * 2 ^ Z.of_nat n < two32 * two32 ->
  dword hi lo + (a `mod` 2 ^ Z.of_nat n) * dword bHi bLo < two32 * two32 ->
  let '(hi', lo') := Mult_loop n a bLo bHi lo hi in
  is_u32 hi' /\ is_u32 lo' /\
  dword hi' lo' = dword hi lo + (a `mod` 2 ^ Z.of_nat n) * dword bHi bLo.
Proof.
  induction n as [|n IH]; intros a bLo bHi lo hi Hn HbL HbH Hlo Hhi Hq Hp.
  - simpl. rewrite Z.mod_1_r. split_and!; try done. lia.
  - assert (0 <= dword bHi bLo) as Hq0 by (unfold dword, is_u32, two32 in *; lia).
    rewrite Nat2Z.inj_succ, Z.pow_succ_r in Hq, Hp |- * by lia.
    pose proof (Z.pow_pos_nonneg 2 (Z.of_nat n) ltac:(lia) ltac:(lia)) as Hpow.
    rewrite Z.rem_mul_r in Hp |- * by lia.
    pose proof (Z.mod_pos_bound (a `div` 2) (2 ^ Z.of_nat n) Hpow) as Hr.
    destruct (dword_shift bHi bLo) as (HbH' & HbL' & Hdw); [done..|nia|].
    cbn [Mult_loop]. rewrite land1_spec.
    assert (Z.shiftr a 1 = a `div` 2) as -> by (by rewrite Z.shiftr_div_pow2).
    destruct (Z.eqb_spec (a `mod` 2) 0) as [He|Ho].
    + set (bHi' := if Z.land bLo 0x80000000 =? 0 then _ else _) in *.
      specialize (IH (a `div` 2) (u32 (Z.shiftl bLo 1)) bHi' lo hi).
      destruct (Mult_loop _ _ _ _ _ _) as [hi' lo'].
      rewrite Hdw in IH. destruct IH as (H1 & H2 & H3); try done; [lia|nia|nia|].
      split_and!; try done. rewrite H3, He. nia.
    + assert (a `mod` 2 = 1) as Ha by dlia. rewrite Ha in Hp |- *.
      destruct (dword_add hi lo bHi bLo) as (Hhi' & Hlo' & Hsum); [done..|nia|].
      rewrite land_fffffffe_spec by apply u32_range.
      set (lo' := u32 (lo + bLo)) in *. 
      set (hi' := u32 ((if lo' <? bLo then u32 (hi + 1) else hi) + bHi)) in *.
      destruct (Z.eqb_spec (u32 a - u32 a `mod` 2) 0) as [Hz|Hnz].
      * split_and!; try done. rewrite Hsum.
        assert ((a `div` 2) `mod` 2 ^ Z.of_nat n = 0) as ->; [|lia].
        assert (a `div` 2 = (a `div` two32) * 2 ^ (31 - Z.of_nat n) * 2 ^ Z.of_nat n) as ->.
        { rewrite <- Z.mul_assoc, <- Z.pow_add_r by lia.
          replace (31 - Z.of_nat n + Z.of_nat n) with 31 by lia.
          unfold u32, two32 in *. change (2 ^ 31) with 2147483648. dlia. }
        apply Z.mod_mul. lia.
      * set (bHi' := if Z.land bLo 0x80000000 =? 0 then _ else _) in *.
        specialize (IH (a `div` 2) (u32 (Z.shiftl bLo 1)) bHi' lo' hi').
        destruct (Mult_loop _ _ _ _ _ _) as [hi2 lo2].
        rewrite Hdw, Hsum in IH. destruct IH as (H1 & H2 & H3); try done; [lia|nia|nia|].
        split_and!; try done. rewrite H3. nia.
Qed.

#[global] Arguments Mult_loop : simpl never.

(** The multiplication loop on the full multiplier. *)
Lemma Mult_loop_full a b : is_s32 a ->
  let '(hi, lo) := Mult_loop 32 a (u32 b) 0 0 0 in
  is_u32 hi /\ is_u32 lo /\ dword hi lo = u32 a * u32 b.
Proof.
  intros Ha. pose proof (u32_range a) as HA. pose proof (u32_range b) as HB.
  pose proof (Mult_loop_product 32 a (u32 b) 0 0 0) as H.
  destruct (Mult_loop _ _ _ _ _ _) as [hi lo].
  change (2 ^ Z.of_nat 32) with two32 in H. fold (u32 a) in H.
  unfold dword in *. simpl in H. unfold is_u32, two32 in *.
  destruct H as (H1 & H2 & H3); try lia; try nia; try done.
Qed.

(** The magnitude that enters the loop. *)
Lemma u32_magnitude a : is_s32 a -> u32 (if a <? 0 then s32 (- a) else a) = Z.abs a.
Proof.
  unfold is_s32, two31. intros Ha. destruct (Z.ltb_spec a 0).
  - rewrite u32_s32. unfold u32, two32. dlia.
  - unfold u32, two32. dlia.
Qed.

(** The two's complement of a double word, as the code computes it. *)
Lemma dword_negate hi lo :
  is_u32 hi -> is_u32 lo -> 0 < dword hi lo ->
  let lo' := u32 (u32 (Z.lnot lo) + 1) in
  let hi' := if lo' =? 0 then u32 (u32 (Z.lnot hi) + 1) else u32 (Z.lnot hi) in
  is_u32 hi' /\ is_u32 lo' /\ dword hi' lo' = two32 * two32 - dword hi lo.
Proof.
  unfold is_u32, dword, u32, two32, Z.lnot. intros Hh Hl Hpos. simpl.
  destruct (Z.eqb_spec ((Z.pred (- lo) `mod` 4294967296 + 1) `mod` 4294967296) 0); dlia.
Qed.

Lemma abs_product a b :
  a * b = if xorb (a <? 0) (b <? 0) then - (Z.abs a * Z.abs b) else Z.abs a * Z.abs b.
Proof.
  destruct (Z.ltb_spec a 0), (Z.ltb_spec b 0); simpl;
    rewrite ?(Z.abs_neq a), ?(Z.abs_eq a), ?(Z.abs_neq b), ?(Z.abs_eq b) by lia; ring.
Qed.

(** The product in [hi] and [lo]. *)
Lemma Mult_product a b (signedArith : bool) :
  is_s32 a -> is_s32 b ->
  let '(hi, lo) := Mult a b signedArith in
  is_s32 hi /\ is_s32 lo /\
  if signedArith then dword hi (u32 lo) = a * b
  else dword (u32 hi) (u32 lo) = u32 a * u32 b.
Proof.
  intros Ha Hb. unfold Mult. destruct (Z.eqb_spec a 0) as [->|Ha0]; simpl.
  { split_and!; [split; by vm_compute..|]. by destruct signedArith. }
  destruct (Z.eqb_spec b 0) as [->|Hb0]; simpl.
  { split_and!; [split; by vm_compute..|]. rewrite !Z.mul_0_r. by destruct signedArith. }
  destruct signedArith; simpl.
  - pose proof (u32_magnitude a Ha) as Hma. pose proof (u32_magnitude b Hb) as Hmb.
    set (a' := if a <? 0 then s32 (- a) else a) in *. set (b' := if b <? 0 then s32 (- b) else b) in *.
    assert (is_s32 a') as Ha' by (unfold a'; destruct (a <? 0); auto with nachos).
    pose proof (Mult_loop_full a' b' Ha') as Hloop. destruct (Mult_loop _ _ _ _ _ _) as [hi lo].
    destruct Hloop as (Hhi & Hlo & Hprod). rewrite Hma, Hmb in Hprod.
    assert (Z.abs a * Z.abs b <= two31 * two31) as Hbound
      by (unfold is_s32, two31 in *; apply Z.mul_le_mono_nonneg; lia).
    assert (0 < Z.abs a * Z.abs b) as Hpos by (apply Z.mul_pos_pos; lia).
    rewrite (abs_product a b). clear Hma Hmb. generalize dependent (Z.abs a * Z.abs b).
    intros N Hprod HN Hpos.
    destruct (dword_negate hi lo Hhi Hlo ltac:(lia)) as (Hnhi & Hnlo & Hneg). simpl in *.
    rewrite Hprod in Hneg. clear Ha' Ha Hb Ha0 Hb0.
    set (lo' := u32 (u32 (Z.lnot lo) + 1)) in *.
    set (hi' := if lo' =? 0 then u32 (u32 (Z.lnot hi) + 1) else u32 (Z.lnot hi)) in *.
    clearbody hi' lo'. destruct (xorb (a <? 0) (b <? 0));
      (split; [apply s32_range|]; split; [apply s32_range|]); rewrite u32_s32, u32_small by done;
      unfold dword, s32, is_u32, two31, two32 in *; clear a b a' b'; dlia.
  - pose proof (Mult_loop_full a b Ha) as Hloop. destruct (Mult_loop _ _ _ _ _ _) as [hi lo].
    destruct Hloop as (Hhi & Hlo & Hprod).
    split; [apply s32_range|]. split; [apply s32_range|].
    by rewrite !u32_s32, (u32_small hi), (u32_small lo).
Qed.

(** C40. [Mult] leaves the exact 64-bit product in the two registers: the signed
    product of the operands with [signedArith], the product of their unsigned
    readings without. *)
Theorem Mult_correct a b (signedArith : bool) :
  is_s32 a -> is_s32 b ->
  let '(hi, lo) := Mult a b signedArith in
  is_s32 hi /\ is_s32 lo /\
  if signedArith then dword hi (u32 lo) = a * b
  else dword (u32 hi) (u32 lo) = u32 a * u32 b.
Proof. apply Mult_product. Qed.

Lemma Mult_correct_witness :
  Mult (-2147483648) (-2147483648) true = (1073741824, 0) /\
  dword 1073741824 (u32 0) = -2147483648 * -2147483648.
Proof.
  assert (Mult (-2147483648) (-2147483648) true = (1073741824, 0)) as Hrun
    by (vm_compute; reflexivity).
  split; [exact Hrun|].
  pose proof (Mult_correct (-2147483648) (-2147483648) true) as Hc. rewrite Hrun in Hc.
  apply Hc; split; (done || reflexivity).
Defined.

(** Every 32-bit word decodes, without reading outside the tables, to register
    numbers below 32, an immediate that fits an [int], a shift amount below 32 for
    the shift instructions, and an opcode that is neither a table marker nor
    [OP_RFE], the one opcode that the interpreter has no case for. *)
Theorem Decode_total value :
  exists i, Decode (u32 value) = Ok i /\ instr_ok i.
Proof. apply Decode_ok, u32_range. Qed.
