(* ===== verification/Machine.v ===== *)
(** * machine/machine.cc, translate.cc and the interpreter of mipssim.cc

    The simulated CPU: registers, main memory and the page table or TLB.
    [Translate], [ReadMem], [WriteMem] and [OneInstruction] are the member
    functions. Where the code calls [RaiseException] and returns, the model returns
    [Trap]: the machine as [ExceptionHandler] finds it, with the exception. *)

From stdpp Require Import prelude list numbers.
From S2P Require Import Prelude Params Mips.

Open Scope Z_scope.

Inductive ExceptionType :=
| NoException | SyscallException | PageFaultException | ReadOnlyException
| BusErrorException | AddressErrorException | OverflowException | IllegalInstrException.

#[export] Instance ExceptionType_eq_dec : EqDecision ExceptionType.
Proof. solve_decision. Defined.

Record TranslationEntry := mkEntry {
  virtualPage : Z;
  physicalPage : Z;
  valid : bool;
  readOnly : bool;
  use : bool;
  dirty : bool }.

Record Machine := mkMachine {
  mainMemory : list Z;
  registers : list Z;
  tlb : option (list TranslationEntry);
  pageTable : option (list TranslationEntry);
  pageTableSize : Z }.

Definition with_registers (m : Machine) (r : list Z) : Machine :=
  mkMachine (mainMemory m) r (tlb m) (pageTable m) (pageTableSize m).
Definition with_memory (m : Machine) (b : list Z) : Machine :=
  mkMachine b (registers m) (tlb m) (pageTable m) (pageTableSize m).
Definition with_tlb (m : Machine) (t : list TranslationEntry) : Machine :=
  mkMachine (mainMemory m) (registers m) (Some t) (pageTable m) (pageTableSize m).
Definition with_pageTable (m : Machine) (t : list TranslationEntry) : Machine :=
  mkMachine (mainMemory m) (registers m) (tlb m) (Some t) (pageTableSize m).

(** [Machine::Machine] without a TLB: everything zero. *)
Definition Machine_new : Machine :=
  mkMachine (replicate (Z.to_nat MemorySize) 0) (replicate (Z.to_nat NumTotalRegs) 0)
    None None 0.

Definition ReadRegister (m : Machine) (num : Z) : outcome Z :=
  ASSERT ((0 <=? num) && (num <? NumTotalRegs));;
  arr_get (registers m) num.

Definition WriteRegister (m : Machine) (num value : Z) : outcome Machine :=
  ASSERT ((0 <=? num) && (num <? NumTotalRegs));;
  r ← arr_set (registers m) num value;
  Ok (with_registers m r).

(** [registers[i]] and [registers[i] = v] inside the simulator. *)
Definition getR (m : Machine) (i : Z) : outcome Z := arr_get (registers m) i.
Definition setR (m : Machine) (i v : Z) : outcome Machine :=
  r ← arr_set (registers m) i v;
  Ok (with_registers m r).

Definition DelayedLoad (m : Machine) (nextReg nextValue : Z) : outcome Machine :=
  target ← getR m LoadReg;
  v ← getR m LoadValueReg;
  m ← setR m target v;
  m ← setR m LoadReg nextReg;
  m ← setR m LoadValueReg nextValue;
  setR m 0 0.

(** The part of [RaiseException] before the kernel's handler runs. *)
Definition RaiseException (m : Machine) (badVAddr : Z) : outcome Machine :=
  m ← setR m BadVAddrReg badVAddr;
  DelayedLoad m 0 0.

(** ** Address translation *)

(** The part of a page table entry that the hardware does not write. *)
Definition mapping (e : TranslationEntry) : Z * Z * bool * bool := (virtualPage e, physicalPage e, valid e, readOnly e).

(** Does [virtAddr] break the alignment that [size] needs? *)
Definition misaligned (virtAddr size : Z) : bool :=
  ((size =? 4) && negb (Z.land virtAddr 0x3 =? 0)) ||
  ((size =? 2) && negb (Z.land virtAddr 0x1 =? 0)).

(** The first valid TLB entry for [vpn]. The constructor allocates [TLBSize] entries and nothing
    replaces the array, so that the loop to [TLBSize] ends with the list. *)
Fixpoint tlb_find (t : list TranslationEntry) (vpn : Z) (i : Z)
    : option (Z * TranslationEntry) :=
  match t with
  | [] => None
  | e :: t =>
      if valid e && (u32 (virtualPage e) =? vpn) then Some (i, e)
      else tlb_find t vpn (i + 1)
  end.

(** The entry that maps [vpn]: its index in the table, or the exception. *)
Definition find_entry (m : Machine) (vpn : Z)
    : outcome (ExceptionType + Z * TranslationEntry) :=
  match tlb m, pageTable m with
  | None, Some pt =>
      if pageTableSize m <=? vpn then Ok (inl AddressErrorException)
      else
        e ← arr_get pt vpn;
        if negb (valid e) then Ok (inl PageFaultException) else Ok (inr (vpn, e))
  | Some t, None =>
      match tlb_find t vpn 0 with
      | None => Ok (inl PageFaultException)
      | Some (i, e) => Ok (inr (i, e))
      end
  | _, _ => AssertFail
  end.

(** Stores the entry back into the table it came from. *)
Definition store_entry (m : Machine) (i : Z) (e : TranslationEntry) : outcome Machine :=
  match tlb m, pageTable m with
  | None, Some pt => pt ← arr_set pt i e; Ok (with_pageTable m pt)
  | Some t, None => t ← arr_set t i e; Ok (with_tlb m t)
  | _, _ => AssertFail
  end.

(** [Machine::Translate] of the builds without [VM]: the exception, or the physical
    address; the use and dirty bits change on success only. *)
Definition Translate (m : Machine) (virtAddr size : Z) (writing : bool)
    : outcome (Machine * (ExceptionType + Z)) :=
  if misaligned virtAddr size then Ok (m, inl AddressErrorException)
  else
    let vpn := u32 virtAddr `div` PageSize in
    let offset := u32 virtAddr `mod` PageSize in
    found ← find_entry m vpn;
    match found with
    | inl exc => Ok (m, inl exc)
    | inr (i, entry) =>
        if readOnly entry && writing then Ok (m, inl ReadOnlyException)
        else
          let pageFrame := u32 (physicalPage entry) in
          if NumPhysPages <=? pageFrame then Ok (m, inl BusErrorException)
          else
            m ← store_entry m i
                  (mkEntry (virtualPage entry) (physicalPage entry) (valid entry)
                     (readOnly entry) true (if writing then true else dirty entry));
            let physAddr := s32 (pageFrame * PageSize + offset) in
            ASSERT ((0 <=? physAddr) && (physAddr + size <=? MemorySize));;
            Ok (m, inr physAddr)
    end.

(** ** Memory access *)

(** A memory access, or an instruction, ends normally or in a trap. *)
Inductive result (A : Type) :=
| Done (m : Machine) (a : A)
| Trap (m : Machine) (which : ExceptionType) (badVAddr : Z).
Arguments Done {A} m a.
Arguments Trap {A} m which badVAddr.

(** A byte read through a [char], which is signed on the host. *)
Definition s8 (b : Z) : Z := if 128 <=? b then b - 256 else b.

Definition ReadMem (m : Machine) (addr size : Z) : outcome (result Z) :=
  '(m, t) ← Translate m addr size false;
  match t with
  | inl exc => m ← RaiseException m addr; Ok (Trap m exc addr)
  | inr pa =>
      if size =? 1 then
        b ← arr_get (mainMemory m) pa;
        Ok (Done m (s8 b))
      else if size =? 2 then
        b0 ← arr_get (mainMemory m) pa;
        b1 ← arr_get (mainMemory m) (pa + 1);
        Ok (Done m (bytes_word b0 b1 0 0))
      else if size =? 4 then
        b0 ← arr_get (mainMemory m) pa;
        b1 ← arr_get (mainMemory m) (pa + 1);
        b2 ← arr_get (mainMemory m) (pa + 2);
        b3 ← arr_get (mainMemory m) (pa + 3);
        Ok (Done m (s32 (bytes_word b0 b1 b2 b3)))
      else AssertFail
  end.

(** Stores bytes at consecutive addresses. *)
Fixpoint store_bytes (mem : list Z) (pa : Z) (bs : list Z) : outcome (list Z) :=
  match bs with
  | [] => Ok mem
  | b :: bs => mem ← arr_set mem pa b; store_bytes mem (pa + 1) bs
  end.

Definition WriteMem (m : Machine) (addr size value : Z) : outcome (result unit) :=
  '(m, t) ← Translate m addr size true;
  match t with
  | inl exc => m ← RaiseException m addr; Ok (Trap m exc addr)
  | inr pa =>
      bs ← (if size =? 1 then Ok [Z.land value 0xff]
            else if size =? 2 then Ok (take 2 (word_bytes (Z.land value 0xffff)))
            else if size =? 4 then Ok (word_bytes (u32 value))
            else AssertFail);
      mem ← store_bytes (mainMemory m) pa bs;
      Ok (Done (with_memory m mem) ())
  end.

(** ** The interpreter *)

Definition SIGN_BIT : Z := 0x80000000.
Definition IndexToAddr (x : Z) : Z := s32 (Z.shiftl x 2).

(** [z & SIGN_BIT] as a condition. *)
Definition sign_bit (z : Z) : bool := negb (Z.land (u32 z) SIGN_BIT =? 0).

(** The locals that the cases of the [switch] leave for the end of
    [OneInstruction]. *)
Record after := mkAfter { pcAfter : Z; nextLoadReg : Z; nextLoadValue : Z }.

Definition trap {A} (m : Machine) (which : ExceptionType) (badVAddr : Z)
    : outcome (result A) :=
  m ← RaiseException m badVAddr; Ok (Trap m which badVAddr).

(** Continues with the value of a memory access unless it trapped. *)
Definition on_done {A B} (r : outcome (result A)) (k : Machine -> A -> outcome (result B))
    : outcome (result B) :=
  r ← r;
  match r with
  | Done m a => k m a
  | Trap m which bad => Ok (Trap m which bad)
  end.

(** [registers[dst] = v] and nothing else. *)
Definition set_and_go (m : Machine) (dst v pc : Z) : outcome (result after) :=
  m ← setR m dst v; Ok (Done m (mkAfter pc 0 0)).

(** A conditional branch relative to [NextPCReg]. *)
Definition branch_if (c : bool) (m : Machine) (next extra pc : Z) : outcome (result after) :=
  Ok (Done m (mkAfter (if c then s32 (next + IndexToAddr extra) else pc) 0 0)).

(** The [switch] of [OneInstruction], in the order of the source and in four parts;
    [next] is [registers[NextPCReg]]. *)
Definition exec_ADD_to_DIVU (m : Machine) (i : Instruction) (next : Z) : outcome (result after) :=
  let pc := s32 (next + 4) in
  let rs := i_rs i in let rt := i_rt i in let rd := i_rd i in let extra := i_extra i in
  match opCode i with
  | OP_ADD =>
      a ← getR m rs; b ← getR m rt;
      let sum := s32 (a + b) in
      if negb (sign_bit (Z.lxor a b)) && sign_bit (Z.lxor a sum)
      then trap m OverflowException 0
      else set_and_go m rd sum pc
  | OP_ADDI =>
      a ← getR m rs;
      let sum := s32 (a + extra) in
      if negb (sign_bit (Z.lxor a extra)) && sign_bit (Z.lxor extra sum)
      then trap m OverflowException 0
      else set_and_go m rt sum pc
  | OP_ADDIU => a ← getR m rs; set_and_go m rt (s32 (a + extra)) pc
  | OP_ADDU => a ← getR m rs; b ← getR m rt; set_and_go m rd (s32 (a + b)) pc
  | OP_AND => a ← getR m rs; b ← getR m rt; set_and_go m rd (Z.land a b) pc
  | OP_ANDI => a ← getR m rs; set_and_go m rt (Z.land a (Z.land extra 0xffff)) pc
  | OP_BEQ => a ← getR m rs; b ← getR m rt; branch_if (a =? b) m next extra pc
  | OP_BGEZAL =>
      m ← setR m RetAddrReg (s32 (next + 4));
      a ← getR m rs; branch_if (negb (sign_bit a)) m next extra pc
  | OP_BGEZ => a ← getR m rs; branch_if (negb (sign_bit a)) m next extra pc
  | OP_BGTZ => a ← getR m rs; branch_if (0 <? a) m next extra pc
  | OP_BLEZ => a ← getR m rs; branch_if (a <=? 0) m next extra pc
  | OP_BLTZAL =>
      m ← setR m RetAddrReg (s32 (next + 4));
      a ← getR m rs; branch_if (sign_bit a) m next extra pc
  | OP_BLTZ => a ← getR m rs; branch_if (sign_bit a) m next extra pc
  | OP_BNE => a ← getR m rs; b ← getR m rt; branch_if (negb (a =? b)) m next extra pc
  | OP_DIV =>
      b ← getR m rt;
      if b =? 0 then
        m ← setR m LoReg 0; m ← setR m HiReg 0; Ok (Done m (mkAfter pc 0 0))
      else
        a ← getR m rs;
        (* INT_MIN / -1 is undefined: the host's division instruction traps *)
        if (a =? - two31) && (b =? -1) then Undef
        else
          m ← setR m LoReg (cdiv a b);
          m ← setR m HiReg (cmod a b);
          Ok (Done m (mkAfter pc 0 0))
  | OP_DIVU =>
      a ← getR m rs; b ← getR m rt;
      if u32 b =? 0 then
        m ← setR m LoReg 0; m ← setR m HiReg 0; Ok (Done m (mkAfter pc 0 0))
      else
        m ← setR m LoReg (s32 (u32 a `div` u32 b));
        m ← setR m HiReg (s32 (u32 a `mod` u32 b));
        Ok (Done m (mkAfter pc 0 0))
  | _ => AssertFail
  end.

Definition exec_JAL_to_LWR (m : Machine) (i : Instruction) (next : Z) : outcome (result after) :=
  let pc := s32 (next + 4) in
  let rs := i_rs i in let rt := i_rt i in let rd := i_rd i in let extra := i_extra i in
  match opCode i with
  | OP_JAL =>
      m ← setR m RetAddrReg (s32 (next + 4));
      Ok (Done m (mkAfter (s32 (Z.lor (Z.land (u32 pc) 0xf0000000) (u32 (IndexToAddr extra)))) 0 0))
  | OP_J =>
      Ok (Done m (mkAfter (s32 (Z.lor (Z.land (u32 pc) 0xf0000000) (u32 (IndexToAddr extra)))) 0 0))
  | OP_JALR =>
      m ← setR m rd (s32 (next + 4));
      a ← getR m rs; Ok (Done m (mkAfter a 0 0))
  | OP_JR => a ← getR m rs; Ok (Done m (mkAfter a 0 0))
  | OP_LB | OP_LBU =>
      a ← getR m rs;
      on_done (ReadMem m (s32 (a + extra)) 1) (fun m value =>
        let value :=
          if negb (Z.land value 0x80 =? 0) && bool_decide (opCode i = OP_LB)
          then s32 (Z.lor (u32 value) 0xffffff00) else Z.land value 0xff in
        Ok (Done m (mkAfter pc rt value)))
  | OP_LH | OP_LHU =>
      a ← getR m rs;
      let tmp := s32 (a + extra) in
      if negb (Z.land tmp 0x1 =? 0) then trap m AddressErrorException tmp
      else
        on_done (ReadMem m tmp 2) (fun m value =>
          let value :=
            if negb (Z.land value 0x8000 =? 0) && bool_decide (opCode i = OP_LH)
            then s32 (Z.lor (u32 value) 0xffff0000) else Z.land value 0xffff in
          Ok (Done m (mkAfter pc rt value)))
  | OP_LUI => set_and_go m rt (s32 (Z.shiftl extra 16)) pc
  | OP_LW =>
      a ← getR m rs;
      let tmp := s32 (a + extra) in
      if negb (Z.land tmp 0x3 =? 0) then trap m AddressErrorException tmp
      else on_done (ReadMem m tmp 4) (fun m value => Ok (Done m (mkAfter pc rt value)))
  | OP_LWL =>
      (* the assertion leaves case 0 of the inner switch only *)
      a ← getR m rs;
      let tmp := s32 (a + extra) in
      ASSERT (Z.land tmp 0x3 =? 0);;
      on_done (ReadMem m tmp 4) (fun m value => Ok (Done m (mkAfter pc rt value)))
  | OP_LWR =>
      a ← getR m rs;
      let tmp := s32 (a + extra) in
      ASSERT (Z.land tmp 0x3 =? 0);;
      on_done (ReadMem m tmp 4) (fun m value =>
        lr ← getR m LoadReg;
        old ← (if lr =? rt then getR m LoadValueReg else getR m rt);
        Ok (Done m (mkAfter pc rt
          (s32 (Z.lor (Z.land (u32 old) 0xffffff00) (Z.land (Z.shiftr value 24) 0xff))))))
  | _ => AssertFail
  end.

Definition exec_MFHI_to_SLTU (m : Machine) (i : Instruction) (next : Z) : outcome (result after) :=
  let pc := s32 (next + 4) in
  let rs := i_rs i in let rt := i_rt i in let rd := i_rd i in let extra := i_extra i in
  match opCode i with
  | OP_MFHI => a ← getR m HiReg; set_and_go m rd a pc
  | OP_MFLO => a ← getR m LoReg; set_and_go m rd a pc
  | OP_MTHI => a ← getR m rs; set_and_go m HiReg a pc
  | OP_MTLO => a ← getR m rs; set_and_go m LoReg a pc
  | OP_MULT =>
      a ← getR m rs; b ← getR m rt;
      m ← setR m HiReg (Mult a b true).1; m ← setR m LoReg (Mult a b true).2;
      Ok (Done m (mkAfter pc 0 0))
  | OP_MULTU =>
      a ← getR m rs; b ← getR m rt;
      m ← setR m HiReg (Mult a b false).1; m ← setR m LoReg (Mult a b false).2;
      Ok (Done m (mkAfter pc 0 0))
  | OP_NOR => a ← getR m rs; b ← getR m rt; set_and_go m rd (Z.lnot (Z.lor a b)) pc
  | OP_OR => a ← getR m rs; b ← getR m rs; set_and_go m rd (Z.lor a b) pc
  | OP_ORI => a ← getR m rs; set_and_go m rt (Z.lor a (Z.land extra 0xffff)) pc
  | OP_SB =>
      a ← getR m rs; v ← getR m rt;
      on_done (WriteMem m (s32 (a + extra)) 1 v) (fun m _ => Ok (Done m (mkAfter pc 0 0)))
  | OP_SH =>
      a ← getR m rs; v ← getR m rt;
      on_done (WriteMem m (s32 (a + extra)) 2 v) (fun m _ => Ok (Done m (mkAfter pc 0 0)))
  | OP_SLL => a ← getR m rt; set_and_go m rd (s32 (Z.shiftl a extra)) pc
  | OP_SLLV =>
      a ← getR m rt; s ← getR m rs;
      set_and_go m rd (s32 (Z.shiftl a (Z.land s 0x1f))) pc
  | OP_SLT =>
      a ← getR m rs; b ← getR m rt; set_and_go m rd (if a <? b then 1 else 0) pc
  | OP_SLTI => a ← getR m rs; set_and_go m rt (if a <? extra then 1 else 0) pc
  | OP_SLTIU =>
      a ← getR m rs; set_and_go m rt (if u32 a <? u32 extra then 1 else 0) pc
  | OP_SLTU =>
      a ← getR m rs; b ← getR m rt;
      set_and_go m rd (if u32 a <? u32 b then 1 else 0) pc
  | _ => AssertFail
  end.

Definition exec_SRA_to_end (m : Machine) (i : Instruction) (next : Z) : outcome (result after) :=
  let pc := s32 (next + 4) in
  let rs := i_rs i in let rt := i_rt i in let rd := i_rd i in let extra := i_extra i in
  match opCode i with
  | OP_SRA => a ← getR m rt; set_and_go m rd (Z.shiftr a extra) pc
  | OP_SRAV =>
      a ← getR m rt; s ← getR m rs; set_and_go m rd (Z.shiftr a (Z.land s 0x1f)) pc
  | OP_SRL => tmp ← getR m rt; set_and_go m rd (Z.shiftr tmp extra) pc
  | OP_SRLV =>
      tmp ← getR m rt; s ← getR m rs; set_and_go m rd (Z.shiftr tmp (Z.land s 0x1f)) pc
  | OP_SUB =>
      a ← getR m rs; b ← getR m rt;
      let diff := s32 (a - b) in
      if sign_bit (Z.lxor a b) && sign_bit (Z.lxor a diff)
      then trap m OverflowException 0
      else set_and_go m rd diff pc
  | OP_SUBU => a ← getR m rs; b ← getR m rt; set_and_go m rd (s32 (a - b)) pc
  | OP_SW =>
      a ← getR m rs; v ← getR m rt;
      on_done (WriteMem m (s32 (a + extra)) 4 v) (fun m _ => Ok (Done m (mkAfter pc 0 0)))
  | OP_SWL =>
      a ← getR m rs;
      let tmp := s32 (a + extra) in
      ASSERT (Z.land tmp 0x3 =? 0);;
      on_done (ReadMem m (Z.land tmp (Z.lnot 0x3)) 4) (fun m _ =>
        value ← getR m rt;
        on_done (WriteMem m (Z.land tmp (Z.lnot 0x3)) 4 value)
          (fun m _ => Ok (Done m (mkAfter pc 0 0))))
  | OP_SWR =>
      a ← getR m rs;
      let tmp := s32 (a + extra) in
      ASSERT (Z.land tmp 0x3 =? 0);;
      on_done (ReadMem m (Z.land tmp (Z.lnot 0x3)) 4) (fun m value =>
        v ← getR m rt;
        on_done (WriteMem m (Z.land tmp (Z.lnot 0x3)) 4
                   (s32 (Z.lor (Z.land value 0xffffff) (u32 (Z.shiftl v 24)))))
          (fun m _ => Ok (Done m (mkAfter pc 0 0))))
  | OP_SYSCALL => trap m SyscallException 0
  | OP_XOR => a ← getR m rs; b ← getR m rt; set_and_go m rd (Z.lxor a b) pc
  | OP_XORI => a ← getR m rs; set_and_go m rt (Z.lxor a (Z.land extra 0xffff)) pc
  | OP_RES | OP_UNIMP => trap m IllegalInstrException 0
  | _ => AssertFail
  end.

(** The whole [switch]. *)
Definition exec_instr (m : Machine) (i : Instruction) (next : Z) : outcome (result after) :=
  match opCode i with
  | OP_ADD | OP_ADDI | OP_ADDIU | OP_ADDU | OP_AND | OP_ANDI | OP_BEQ | OP_BGEZAL
  | OP_BGEZ | OP_BGTZ | OP_BLEZ | OP_BLTZAL | OP_BLTZ | OP_BNE | OP_DIV | OP_DIVU
  =>
      exec_ADD_to_DIVU m i next
  | OP_JAL | OP_J | OP_JALR | OP_JR | OP_LB | OP_LBU | OP_LH | OP_LHU | OP_LUI | OP_LW
  | OP_LWL | OP_LWR
  =>
      exec_JAL_to_LWR m i next
  | OP_MFHI | OP_MFLO | OP_MTHI | OP_MTLO | OP_MULT | OP_MULTU | OP_NOR | OP_OR | OP_ORI
  | OP_SB | OP_SH | OP_SLL | OP_SLLV | OP_SLT | OP_SLTI | OP_SLTIU | OP_SLTU
  =>
      exec_MFHI_to_SLTU m i next
  | _ => exec_SRA_to_end m i next
  end.

(** The end of [OneInstruction]: the pending load and the program counters. *)
Definition finish_instruction (m : Machine) (a : after) : outcome Machine :=
  m ← DelayedLoad m (nextLoadReg a) (nextLoadValue a);
  pc ← getR m PCReg;
  m ← setR m PrevPCReg pc;
  next ← getR m NextPCReg;
  m ← setR m PCReg next;
  setR m NextPCReg (pcAfter a).

Definition OneInstruction (m : Machine) : outcome (result unit) :=
  pc ← getR m PCReg;
  on_done (ReadMem m pc 4) (fun m raw =>
    i ← Decode (u32 raw);
    next ← getR m NextPCReg;
    on_done (exec_instr m i next) (fun m a =>
      m ← finish_instruction m a;
      Ok (Done m ()))).

(** ** Well-formed machines *)

Definition tables_ok (m : Machine) : Prop :=
  match tlb m, pageTable m with
  | None, Some pt => Z.of_nat (length pt) = pageTableSize m
  | Some _, None => True
  | _, _ => False
  end.

(** What holds in the middle of an instruction ... *)
Record machine_wf (m : Machine) : Prop := {
  wf_mem_length : length (mainMemory m) = Z.to_nat MemorySize;
  wf_mem_bytes : Forall is_byte (mainMemory m);
  wf_reg_length : length (registers m) = Z.to_nat NumTotalRegs;
  wf_reg_range : Forall is_s32 (registers m);
  wf_load : exists r, registers m !! Z.to_nat LoadReg = Some r /\ 0 <= r < 32;
  wf_tables : tables_ok m }.

(** ... and between instructions: register 0 reads as zero. *)
Definition machine_ok (m : Machine) : Prop :=
  machine_wf m /\ registers m !! 0%nat = Some 0.

(** ** Bit operations stay in 32 bits *)

Lemma is_s32_shiftr z : is_s32 z <-> Z.shiftr z 31 = 0 \/ Z.shiftr z 31 = -1.
Proof.
  rewrite Z.shiftr_div_pow2 by lia. change (2 ^ 31) with 2147483648.
  unfold is_s32, two31. split; dlia.
Qed.

Lemma is_s32_land a b : is_s32 a -> is_s32 b -> is_s32 (Z.land a b).
Proof. rewrite !is_s32_shiftr, Z.shiftr_land. intros [-> | ->] [-> | ->]; auto. Qed.

Lemma is_s32_lor a b : is_s32 a -> is_s32 b -> is_s32 (Z.lor a b).
Proof. rewrite !is_s32_shiftr, Z.shiftr_lor. intros [-> | ->] [-> | ->]; auto. Qed.

Lemma is_s32_lxor a b : is_s32 a -> is_s32 b -> is_s32 (Z.lxor a b).
Proof. rewrite !is_s32_shiftr, Z.shiftr_lxor. intros [-> | ->] [-> | ->]; auto. Qed.

Lemma is_s32_lnot a : is_s32 a -> is_s32 (Z.lnot a).
Proof. unfold is_s32, two31, Z.lnot. lia. Qed.

Lemma is_s32_srl a n : 0 <= n -> is_s32 a -> is_s32 (Z.shiftr a n).
Proof.
  intros Hn. unfold is_s32, two31. rewrite Z.shiftr_div_pow2 by done.
  pose proof (Z.pow_pos_nonneg 2 n ltac:(lia) Hn) as Hp. intros Ha. split.
  - apply Z.div_le_lower_bound; nia.
  - apply Z.div_lt_upper_bound; nia.
Qed.

Lemma is_s32_small a : 0 <= a < two31 -> is_s32 a.
Proof. unfold is_s32, two31. lia. Qed.

Lemma is_s32_if (c : bool) a b : is_s32 a -> is_s32 b -> is_s32 (if c then a else b).
Proof. by destruct c. Qed.

Lemma is_s32_low a m n : 0 <= n < 31 -> m = Z.ones n -> is_s32 (Z.land a m).
Proof.
  intros Hn Hm. pose proof (land_mask_range a m n ltac:(lia) Hm).
  pose proof (Z.pow_lt_mono_r 2 n 31 ltac:(lia) ltac:(lia) ltac:(lia)).
  apply is_s32_small. change (2 ^ 31) with two31 in *. lia.
Qed.

#[export] Hint Resolve is_s32_land is_s32_lor is_s32_lxor is_s32_lnot is_s32_if : nachos.

(** ** Register access *)

(** The program counters of [m'] are those of [m]. *)
Definition keeps_pc (m m' : Machine) : Prop :=
  registers m' !! Z.to_nat PCReg = registers m !! Z.to_nat PCReg /\
  registers m' !! Z.to_nat NextPCReg = registers m !! Z.to_nat NextPCReg.

(** A goal about a register after writes to other registers. *)
Ltac other_regs :=
  unfold PCReg, NextPCReg, PrevPCReg, BadVAddrReg, LoadReg, LoadValueReg, HiReg, LoReg,
    RetAddrReg in *; subst; simpl in *;
  repeat match goal with
  | H : context [<[_ := _]> _ !! _] |- _ => rewrite list_lookup_insert_ne in H by lia
  end;
  rewrite ?list_lookup_insert_ne by lia; congruence.

Ltac keeps_tac := unfold keeps_pc in *; intuition other_regs.

Section register_rules.
Context (asrt undef : Prop).

Lemma ensures_getR {B} (Q : B -> Prop) m i k :
  machine_wf m -> 0 <= i < 40 ->
  (forall v, getR m i = Ok v -> is_s32 v -> ensures asrt undef Q (k v)) ->
  ensures asrt undef Q (getR m i ≫= k).
Proof.
  intros Hm Hi Hk. destruct (arr_get_forall is_s32 (registers m) i) as (v & Hv & Hr).
  - apply Hm.
  - rewrite (wf_reg_length m Hm). unfold NumTotalRegs. lia.
  - unfold getR in *. rewrite Hv in *. simpl. auto.
Qed.

(** A register write keeps the machine well formed. *)
Lemma setR_wf m i v :
  machine_wf m -> 0 <= i < 40 -> is_s32 v -> (i = LoadReg -> 0 <= v < 32) ->
  setR m i v = Ok (with_registers m (<[Z.to_nat i := v]> (registers m))) /\
  machine_wf (with_registers m (<[Z.to_nat i := v]> (registers m))).
Proof.
  intros Hm Hi Hv Hload. pose proof (wf_reg_length m Hm) as Hlen. unfold setR.
  rewrite arr_set_in by (rewrite Hlen; unfold NumTotalRegs; lia). split; [done|].
  destruct Hm as [? ? _ Hr (r & Hl & Hlr) Ht]. constructor; simpl; try done.
  - by rewrite length_insert.
  - by apply Forall_insert.
  - destruct (decide (i = LoadReg)) as [->|Hne].
    + exists v. rewrite list_lookup_insert_eq; [auto|]. rewrite Hlen. vm_compute. lia.
    + exists r. rewrite list_lookup_insert_ne; [auto|]. unfold LoadReg in *. lia.
Qed.

Lemma ensures_setR {B} (Q : B -> Prop) m i v k :
  machine_wf m -> 0 <= i < 40 -> is_s32 v -> (i = LoadReg -> 0 <= v < 32) ->
  (forall m', machine_wf m' -> m' = with_registers m (<[Z.to_nat i := v]> (registers m)) ->
     ensures asrt undef Q (k m')) ->
  ensures asrt undef Q (setR m i v ≫= k).
Proof.
  intros Hm Hi Hv Hload Hk. destruct (setR_wf m i v) as [-> Hwf]; [done..|].
  simpl. by apply Hk.
Qed.

(** The pending load of the previous instruction. *)
Lemma DelayedLoad_ok m nextReg nextValue :
  machine_wf m -> 0 <= nextReg < 32 -> is_s32 nextValue ->
  ensures asrt undef (fun m' => machine_ok m' /\ keeps_pc m m' /\
      registers m' !! Z.to_nat BadVAddrReg = registers m !! Z.to_nat BadVAddrReg)
    (DelayedLoad m nextReg nextValue).
Proof.
  intros Hm Hn Hv. unfold DelayedLoad.
  destruct (wf_load m Hm) as (r & Hl & Hr).
  apply ensures_getR; [done|done|]. intros target Htarget _.
  assert (target = r) as ->.
  { apply arr_get_ok in Htarget as [_ Ht]. congruence. }
  apply ensures_getR; [done|done|]. intros v _ Hv0.
  apply ensures_setR; [done|lia|done|unfold LoadReg; lia|]. intros m1 Hm1 E1.
  apply ensures_setR; [done|done|apply is_s32_small; unfold two31; lia|done|]. intros m2 Hm2 E2.
  apply ensures_setR; [done|done|done|done|]. intros m3 Hm3 E3.
  destruct (setR_wf m3 0 0) as [-> Hwf]; [done|done|by split|done|].
  split; [|split; [keeps_tac|other_regs]].
  split; [done|]. simpl. apply list_lookup_insert_eq. rewrite (wf_reg_length m3 Hm3). vm_compute. lia.
Qed.

Lemma RaiseException_ok m bad :
  machine_wf m -> is_s32 bad ->
  ensures asrt undef (fun m' => machine_ok m' /\ keeps_pc m m' /\
      registers m' !! Z.to_nat BadVAddrReg = Some bad)
    (RaiseException m bad).
Proof.
  intros Hm Hb. unfold RaiseException. apply ensures_setR; [done|done|done|done|].
  intros m' Hm' E. eapply ensures_mono; [apply DelayedLoad_ok; [done|lia|by split]|done|done|].
  intros m2 (Hok & Hk & Hbad). split; [done|]. split; [keeps_tac|]. rewrite Hbad, E. simpl.
  apply list_lookup_insert_eq. rewrite (wf_reg_length m Hm). vm_compute. lia.
Qed.

(** The result of an access or of an instruction that started in [m0]. A trap
    leaves the program counters as they were, so that the kernel can restart the
    instruction, and the bad address in its register. *)
Definition result_ok {A} (m0 : Machine) (P : Machine -> A -> Prop) (r : result A) : Prop :=
  match r with
  | Done m a => machine_wf m /\ keeps_pc m0 m /\ P m a
  | Trap m which bad =>
      machine_ok m /\ keeps_pc m0 m /\ which <> NoException /\
      registers m !! Z.to_nat BadVAddrReg = Some bad
  end.

Lemma trap_ok {A} (P : Machine -> A -> Prop) m0 m which bad :
  machine_wf m -> keeps_pc m0 m -> which <> NoException -> is_s32 bad ->
  ensures asrt undef (result_ok m0 P) (trap m which bad).
Proof.
  intros Hm Hk Hw Hb. unfold trap. eapply ensures_bind; [by apply RaiseException_ok|].
  intros m' _ (Hok & Hk' & Hbad). simpl. split_and!; [done| |done|done]. keeps_tac.
Qed.

Lemma on_done_ok {A B} m0 (P : Machine -> A -> Prop) (Q : Machine -> B -> Prop) r k :
  ensures asrt undef (result_ok m0 P) r ->
  (forall m a, machine_wf m -> keeps_pc m0 m -> P m a ->
     ensures asrt undef (result_ok m0 Q) (k m a)) ->
  ensures asrt undef (result_ok m0 Q) (on_done r k).
Proof.
  intros Hr Hk. unfold on_done. eapply ensures_bind; [exact Hr|].
  intros [m a|m which bad] _ Hok; simpl in *; [|done].
  destruct Hok as (? & ? & ?). auto.
Qed.
End register_rules.

(** ** Translation *)

Lemma tlb_find_some t vpn : forall k i e,
  tlb_find t vpn k = Some (i, e) ->
  exists n, i = k + Z.of_nat n /\ t !! n = Some e /\ valid e = true /\
    u32 (virtualPage e) = vpn /\
    forall e', valid e' = true -> u32 (virtualPage e') = vpn ->
      tlb_find (<[n := e']> t) vpn k = Some (i, e').
Proof.
  induction t as [|e0 t IH]; intros k i e; simpl; [done|].
  destruct (valid e0 && (u32 (virtualPage e0) =? vpn)) eqn:Hc.
  - intros [= <- <-]. apply andb_true_iff in Hc as [Hv Hp%Z.eqb_eq].
    exists 0%nat. split_and!; [lia|done..|]. intros e' Hv' Hp'. simpl.
    by rewrite Hv', Hp', Z.eqb_refl.
  - intros (n & -> & Hn & Hv & Hp & Hi)%IH. exists (S n). split_and!; [lia|done..|].
    intros e' Hv' Hp'. simpl. rewrite Hc. auto.
Qed.

(** The entry that [find_entry] returns can be stored back, and is found again. *)
Lemma find_entry_store m vpn i e :
  tables_ok m -> find_entry m vpn = Ok (inr (i, e)) ->
  valid e = true /\
  forall e', valid e' = true -> virtualPage e' = virtualPage e ->
    exists m', store_entry m i e' = Ok m' /\ tables_ok m' /\
      mainMemory m' = mainMemory m /\ registers m' = registers m /\
      find_entry m' vpn = Ok (inr (i, e')).
Proof.
  unfold tables_ok, find_entry, store_entry.
  destruct (tlb m) as [t|] eqn:Ht, (pageTable m) as [pt|] eqn:Hpt; try done.
  - intros _. destruct (tlb_find t vpn 0) as [[i' e0]|] eqn:Hf; [|done]. intros [= -> ->].
    destruct (tlb_find_some _ _ _ _ _ Hf) as (n & Hi & Hn & Hv & Hp & Hagain).
    split; [done|]. intros e' Hv' Hp'. pose proof (lookup_lt_Some _ _ _ Hn).
    rewrite arr_set_in by lia. eexists. split; [done|]. unfold with_tlb. simpl.
    rewrite Hpt. replace (Z.to_nat i) with n by lia. rewrite Hagain by congruence. done.
  - intros Hlen. destruct (Z.leb_spec (pageTableSize m) vpn); [done|].
    destruct (arr_get pt vpn) as [e0| | |] eqn:Hg; try done. simpl.
    destruct (valid e0) eqn:Hv; [|done]. intros [= -> ->]. split; [done|].
    intros e' Hv' Hp'. apply arr_get_ok in Hg as [Hi Hg].
    pose proof (lookup_lt_Some _ _ _ Hg).
    rewrite arr_set_in by lia. eexists. split; [done|]. simpl. rewrite Ht, length_insert.
    split_and!; [done..|]. destruct (Z.leb_spec (pageTableSize m) i); [lia|].
    unfold arr_get. destruct (Z.ltb_spec i 0); [lia|].
    rewrite list_lookup_insert_eq by lia. simpl. by rewrite Hv'.
Qed.

Lemma find_entry_ensures m vpn :
  tables_ok m -> 0 <= vpn ->
  ensures False False (fun r => match r with inl e => e <> NoException | inr _ => True end)
    (find_entry m vpn).
Proof.
  unfold tables_ok, find_entry. destruct (tlb m), (pageTable m) as [pt|]; try done.
  - intros _ _. destruct (tlb_find _ _ _) as [[]|]; done.
  - intros Hlen Hv. destruct (Z.leb_spec (pageTableSize m) vpn); [done|].
    destruct (arr_get_in pt vpn) as [e ->]; [lia|]. simpl. by destruct (valid e).
Qed.

Definition access_size (size : Z) : Prop := size = 1 \/ size = 2 \/ size = 4.

Lemma aligned_offset va size :
  access_size size -> misaligned va size = false ->
  exists k, u32 va `mod` PageSize = k * size /\ 0 <= k * size <= PageSize - size.
Proof.
  unfold misaligned, PageSize, SectorSize, u32, two32.
  change 0x3 with (Z.ones 2). change 0x1 with (Z.ones 1). rewrite !Z.land_ones by lia.
  change (2 ^ 2) with 4. change (2 ^ 1) with 2.
  intros [-> | [-> | ->]] Hc; simpl in Hc; [exists (va `mod` 128) | exists ((va `mod` 128) `div` 2) |
    exists ((va `mod` 128) `div` 4)].
  - dlia.
  - destruct (Z.eqb_spec (va `mod` 2) 0); [dlia|done].
  - destruct (Z.eqb_spec (va `mod` 4) 0); [dlia|done].
Qed.

(** The entry after a successful access. *)
Definition touch (e : TranslationEntry) (writing : bool) : TranslationEntry :=
  mkEntry (virtualPage e) (physicalPage e) (valid e) (readOnly e) true
    (if writing then true else dirty e).

(** What [Translate] returns when it succeeds. *)
Record translated (m : Machine) (va size : Z) (writing : bool) (m' : Machine) (pa : Z) : Prop := {
  tr_wf : machine_wf m';
  tr_mem : mainMemory m' = mainMemory m;
  tr_regs : registers m' = registers m;
  tr_low : 0 <= pa;
  tr_high : pa + size <= MemorySize;
  tr_aligned : misaligned va size = false;
  tr_entry : exists i e,
    find_entry m (u32 va `div` PageSize) = Ok (inr (i, e)) /\
    find_entry m' (u32 va `div` PageSize) = Ok (inr (i, touch e writing)) /\
    store_entry m i (touch e writing) = Ok m' /\
    readOnly e && writing = false /\ u32 (physicalPage e) < NumPhysPages /\
    pa = u32 (physicalPage e) * PageSize + u32 va `mod` PageSize }.

Lemma machine_wf_tables m m' :
  machine_wf m -> tables_ok m' -> mainMemory m' = mainMemory m -> registers m' = registers m ->
  machine_wf m'.
Proof. intros [] Ht Hmem Hr. constructor; by rewrite ?Hmem, ?Hr. Qed.

Lemma Translate_ensures m va size writing :
  machine_wf m -> access_size size ->
  ensures False False (fun r : Machine * (ExceptionType + Z) =>
    match r.2 with
    | inl e => r.1 = m /\ e <> NoException
    | inr pa => translated m va size writing r.1 pa
    end) (Translate m va size writing).
Proof.
  intros Hm Hsize. unfold Translate. destruct (misaligned va size) eqn:Hal; [done|].
  destruct (aligned_offset va size Hsize Hal) as (k & Hk & Hkb).
  eapply ensures_bind; [apply find_entry_ensures; [apply Hm|]|].
  { unfold PageSize, SectorSize, u32, two32. dlia. }
  intros [exc|[i e]] Hf Hexc; [done|]. clear Hexc.
  destruct (readOnly e && writing) eqn:Hro; [done|].
  destruct (Z.leb_spec NumPhysPages (u32 (physicalPage e))) as [|Hfr]; [done|].
  destruct (find_entry_store m _ i e (wf_tables m Hm) Hf) as [Hv Hst].
  destruct (Hst (touch e writing)) as (m' & Hs & Ht & Hmem & Hreg & Hf'); [done..|].
  unfold touch in Hs at 1. rewrite Hs. simpl.
  assert (0 <= u32 (physicalPage e)) by apply u32_range. rewrite Hk.
  unfold PageSize, SectorSize, NumPhysPages in *.
  assert (1 <= size) by (unfold access_size in Hsize; lia).
  rewrite s32_small by (unfold is_s32, two31; lia).
  apply ensures_assert.
  - unfold MemorySize, PageSize, SectorSize, NumPhysPages. cmp_cases; try done; lia.
  - intros Hc. simpl. split; try done.
    + by eapply machine_wf_tables.
    + lia.
    + unfold MemorySize, PageSize, SectorSize, NumPhysPages. lia.
    + exists i, e. unfold PageSize, SectorSize, NumPhysPages. rewrite Hk. done.
Qed.

(** A translation that succeeded for a write succeeds again, at the same address. *)
Lemma Translate_again m va size m' pa mem writing :
  access_size size -> translated m va size true m' pa ->
  length mem = length (mainMemory m') -> Forall is_byte mem ->
  exists m'', Translate (with_memory m' mem) va size writing = Ok (m'', inr pa) /\
    mainMemory m'' = mem.
Proof.
  intros Hsize Htr Hlen Hb. destruct (tr_entry _ _ _ _ _ _ Htr) as (i & e & _ & Hf & _ & Hro & Hfr & Hpa).
  assert (machine_wf (with_memory m' mem)) as Hwf.
  { destruct (tr_wf _ _ _ _ _ _ Htr). constructor; simpl; try done. congruence. }
  assert (readOnly e = false) as Hre by (by destruct (readOnly e)).
  pose proof (Translate_ensures (with_memory m' mem) va size writing Hwf Hsize) as Hens.
  apply ensures_total in Hens as ([m'' t] & Heq & Hpost). rewrite Heq. simpl in Hpost.
  destruct t as [exc|pa'].
  - exfalso. unfold Translate in Heq. rewrite (tr_aligned _ _ _ _ _ _ Htr) in Heq.
    change (find_entry (with_memory m' mem)) with (find_entry m') in Heq. rewrite Hf in Heq.
    simpl in Heq. rewrite Hre in Heq. simpl in Heq.
    destruct (Z.leb_spec NumPhysPages (u32 (physicalPage e))); [lia|]. by ok_inv.
  - destruct (tr_entry _ _ _ _ _ _ Hpost) as (i' & e' & Hf' & _ & _ & _ & _ & Hpa').
    change (find_entry (with_memory m' mem)) with (find_entry m') in Hf'.
    rewrite Hf in Hf'. injection Hf' as <- <-. simpl in Hpa'. exists m''.
    rewrite Hpa, Hpa'. split; [done|]. apply (tr_mem _ _ _ _ _ _ Hpost).
Qed.

(** ** Memory access *)

Lemma store_bytes_ok bs : forall mem pa,
  0 <= pa -> pa + Z.of_nat (length bs) <= Z.of_nat (length mem) ->
  Forall is_byte mem -> Forall is_byte bs ->
  exists mem', store_bytes mem pa bs = Ok mem' /\ length mem' = length mem /\
    Forall is_byte mem' /\
    (forall j b, bs !! j = Some b -> mem' !! (Z.to_nat pa + j)%nat = Some b) /\
    (forall i, (i < Z.to_nat pa)%nat \/ (Z.to_nat pa + length bs <= i)%nat ->
       mem' !! i = mem !! i).
Proof.
  induction bs as [|b bs IH]; intros mem pa Hpa Hle Hmem Hbs; simpl in *.
  { exists mem. split_and!; done. }
  inversion Hbs; subst. rewrite arr_set_in by lia. simpl.
  destruct (IH (<[Z.to_nat pa:=b]> mem) (pa + 1)) as (mem' & -> & Hl & Hb & Hin & Hout);
    [lia|rewrite length_insert; lia|by apply Forall_insert|done|].
  rewrite length_insert in Hl. exists mem'. split_and!; try done.
  - intros [|j] b' Hj; simpl in Hj.
    + injection Hj as <-. rewrite Hout by lia. rewrite Nat.add_0_r.
      apply list_lookup_insert_eq. lia.
    + replace (Z.to_nat pa + S j)%nat with (Z.to_nat (pa + 1) + j)%nat by lia. auto.
  - intros i Hi. rewrite Hout by lia. apply list_lookup_insert_ne. lia.
Qed.

Lemma ensures_get_byte {B} (Q : B -> Prop) asrt undef mem pa k :
  Forall is_byte mem -> 0 <= pa < Z.of_nat (length mem) ->
  (forall b, is_byte b -> ensures asrt undef Q (k b)) ->
  ensures asrt undef Q (arr_get mem pa ≫= k).
Proof.
  intros Hm Hpa Hk. destruct (arr_get_forall _ mem pa Hm Hpa) as (b & -> & Hb). simpl. auto.
Qed.

Lemma ReadMem_ensures asrt undef m0 m addr size :
  machine_wf m -> keeps_pc m0 m -> access_size size -> is_s32 addr ->
  ensures asrt undef (result_ok m0 (fun m' v => is_s32 v /\ registers m' = registers m))
    (ReadMem m addr size).
Proof.
  intros Hm Hk Hsize Ha. unfold ReadMem.
  pose proof (Translate_ensures m addr size false Hm Hsize) as Ht.
  eapply ensures_bind; [eapply ensures_mono; [exact Ht|done|done|intros ? H; exact H]|].
  intros [m1 [exc|pa]] _ Hpost; simpl in Hpost.
  - destruct Hpost as [-> He]. by apply trap_ok.
  - destruct Hpost as [Hwf Hmem Hregs Hlo Hhi _ _].
    assert (keeps_pc m0 m1) by (unfold keeps_pc; by rewrite Hregs).
    pose proof (wf_mem_bytes m1 Hwf) as Hb. pose proof (wf_mem_length m1 Hwf) as Hl.
    unfold MemorySize in *. simpl in Hl, Hhi.
    destruct Hsize as [-> | [-> | ->]]; simpl;
      repeat (apply ensures_get_byte; [done|lia|intros ? ?]); simpl;
      (split_and!; [done|done| |done]).
    + unfold s8, is_s32, is_byte, two31 in *. destruct (Z.leb_spec 128 b); lia.
    + unfold bytes_word, is_s32, is_byte, two31 in *. lia.
    + apply s32_range.
Qed.

(** The bytes that [WriteMem] stores. *)
Definition value_bytes (size value : Z) : list Z :=
  if size =? 1 then [Z.land value 0xff]
  else if size =? 2 then take 2 (word_bytes (Z.land value 0xffff))
  else word_bytes (u32 value).

Lemma value_bytes_ok size value :
  access_size size ->
  Forall is_byte (value_bytes size value) /\ Z.of_nat (length (value_bytes size value)) = size.
Proof.
  intros [-> | [-> | ->]]; unfold value_bytes; simpl; (split; [|done]).
  - apply Forall_singleton. by apply (land_mask_range value 0xff 8).
  - unfold is_byte. repeat apply Forall_cons_2; [dlia|dlia|apply Forall_nil_2].
  - apply word_bytes_byte.
Qed.

(** [WriteMem] after a successful translation. *)
Lemma WriteMem_translated m addr size value m1 pa :
  access_size size -> Translate m addr size true = Ok (m1, inr pa) ->
  translated m addr size true m1 pa ->
  exists mem', WriteMem m addr size value = Ok (Done (with_memory m1 mem') ()) /\
    store_bytes (mainMemory m1) pa (value_bytes size value) = Ok mem' /\
    length mem' = length (mainMemory m1) /\ Forall is_byte mem' /\
    (forall j b, value_bytes size value !! j = Some b -> mem' !! (Z.to_nat pa + j)%nat = Some b) /\
    (forall i, (i < Z.to_nat pa)%nat \/ (Z.to_nat pa + Z.to_nat size <= i)%nat ->
       mem' !! i = mainMemory m1 !! i).
Proof.
  intros Hsize Heq [Hwf Hmem Hregs Hlo Hhi _ _]. destruct (value_bytes_ok size value Hsize) as [Hb Hl].
  destruct (store_bytes_ok (value_bytes size value) (mainMemory m1) pa)
    as (mem' & Hst & Hlen & Hb' & Hin & Hout); [done| |apply Hwf|done|].
  { rewrite (wf_mem_length m1 Hwf). unfold MemorySize in *. simpl in *. lia. }
  exists mem'. split_and!; try done.
  - unfold WriteMem. rewrite Heq. simpl. unfold value_bytes in Hst.
    destruct Hsize as [-> | [-> | ->]]; simpl in *; by rewrite Hst.
  - intros i Hi. apply Hout. lia.
Qed.

Lemma WriteMem_ensures asrt undef m0 m addr size value :
  machine_wf m -> keeps_pc m0 m -> access_size size -> is_s32 addr ->
  ensures asrt undef (result_ok m0 (fun m' _ => registers m' = registers m))
    (WriteMem m addr size value).
Proof.
  intros Hm Hk Hsize Ha. pose proof (Translate_ensures m addr size true Hm Hsize) as Ht.
  apply ensures_total in Ht as ([m1 [exc|pa]] & Heq & Hpost); simpl in Hpost.
  - destruct Hpost as [-> He]. unfold WriteMem. rewrite Heq. simpl. by apply trap_ok.
  - destruct (WriteMem_translated m addr size value m1 pa Hsize Heq Hpost)
      as (mem' & -> & _ & Hlen & Hb & _). simpl. pose proof (tr_regs _ _ _ _ _ _ Hpost) as Hregs.
    split_and!; [|unfold keeps_pc; simpl; by rewrite Hregs|done].
    destruct (tr_wf _ _ _ _ _ _ Hpost). constructor; simpl; try done. congruence.
Qed.

(** What a read of [size] bytes returns after [value] was stored. *)
Definition narrow (size value : Z) : Z :=
  if size =? 1 then s8 (value `mod` 256) else if size =? 2 then value `mod` 65536 else s32 value.

Lemma arr_get_nat {A} (l : list A) n x i :
  l !! n = Some x -> 0 <= i -> Z.to_nat i = n -> arr_get l i = Ok x.
Proof. intros Hx Hi <-. by apply arr_get_ok. Qed.

Ltac read_byte Hin n :=
  match goal with
  | |- context [arr_get ?l ?i] => rewrite (arr_get_nat l _ _ i (Hin n _ eq_refl)) by lia
  end; simpl.

(** Reading back the stored bytes. *)
Lemma ReadMem_bytes m addr size value m1 pa :
  access_size size -> 0 <= pa -> Translate m addr size false = Ok (m1, inr pa) ->
  (forall j b, value_bytes size value !! j = Some b -> mainMemory m1 !! (Z.to_nat pa + j)%nat = Some b) ->
  ReadMem m addr size = Ok (Done m1 (narrow size value)).
Proof.
  intros Hsize Hpa Heq Hin. unfold ReadMem. rewrite Heq. simpl. unfold value_bytes in Hin.
  destruct Hsize as [-> | [-> | ->]]; simpl in *.
  - read_byte Hin 0%nat. unfold narrow. simpl.
    change 0xff with (Z.ones 8). by rewrite Z.land_ones by lia.
  - read_byte Hin 0%nat.
    read_byte Hin 1%nat. unfold narrow, bytes_word. simpl.
    change 0xffff with (Z.ones 16). rewrite Z.land_ones by lia. change (2 ^ 16) with 65536.
    do 2 f_equal. dlia.
  - read_byte Hin 0%nat.
    read_byte Hin 1%nat.
    read_byte Hin 2%nat.
    read_byte Hin 3%nat. unfold narrow. simpl.
    rewrite word_bytes_word, u32_small by apply u32_range. by rewrite s32_u32.
Qed.

(** ** The interpreter *)

(** [ASSERT((tmp & 0x3) == 0)] of the unaligned loads and stores fails. *)
Definition unaligned_partial (m : Machine) (i : Instruction) : Prop :=
  (opCode i = OP_LWL \/ opCode i = OP_LWR \/ opCode i = OP_SWL \/ opCode i = OP_SWR) /\
  exists a, getR m (i_rs i) = Ok a /\ Z.land (s32 (a + i_extra i)) 0x3 <> 0.

(** [DIV] of the smallest integer by -1, which C++ leaves undefined. *)
Definition div_overflow (m : Machine) (i : Instruction) : Prop :=
  opCode i = OP_DIV /\ getR m (i_rs i) = Ok (- two31) /\ getR m (i_rt i) = Ok (-1).

Definition after_ok (_ : Machine) (a : after) : Prop :=
  is_s32 (pcAfter a) /\ 0 <= nextLoadReg a < 32 /\ is_s32 (nextLoadValue a).

Lemma Mult_range a b s : is_s32 (Mult a b s).1 /\ is_s32 (Mult a b s).2.
Proof.
  unfold Mult. destruct ((a =? 0) || (b =? 0)); [by split|].
  destruct (Mult_loop _ _ _ _ _ _) as [hi lo].
  destruct (s && xorb _ _); split; apply s32_range.
Qed.

Lemma cdiv_range a b : is_s32 a -> ~ (a = - two31 /\ b = -1) -> b <> 0 -> is_s32 (cdiv a b).
Proof.
  unfold is_s32, cdiv, two31. intros Ha Hb Hz.
  pose proof (Z.quot_abs a b Hz) as Habs. 
  assert (Z.abs a ÷ Z.abs b <= Z.abs a) by (apply Z.quot_le_upper_bound; nia).
  destruct (decide (Z.abs b = 1)) as [H1|H1].
  - assert (b = 1 \/ b = -1) as [-> | ->] by lia.
    + rewrite Z.quot_1_r. lia.
    + change (-1) with (- (1)). rewrite Z.quot_opp_r, Z.quot_1_r by lia. lia.
  - assert (Z.abs a ÷ Z.abs b < 2147483648); [|lia].
    apply Z.quot_lt_upper_bound; nia.
Qed.

Lemma cmod_range a b : is_s32 a -> is_s32 b -> is_s32 (cmod a b).
Proof.
  unfold is_s32, cmod, two31. intros Ha Hb. destruct (decide (b = 0)) as [->|Hz].
  - by destruct a.
  - pose proof (Z.rem_bound_abs a b Hz). lia.
Qed.

Lemma is_s32_u32_div a b : is_s32 (s32 (u32 a `div` u32 b)).
Proof. apply s32_range. Qed.

(** Range goals of the cases below. *)
Ltac range_tac :=
  repeat match goal with
  | |- _ => assumption
  | |- is_s32 (s32 _) => apply s32_range
  | |- is_s32 (Mult _ _ _).1 => apply Mult_range
  | |- is_s32 (Mult _ _ _).2 => apply Mult_range
  | |- is_s32 (Z.land _ 0xff) => apply (is_s32_low _ 0xff 8); [lia|reflexivity]
  | |- is_s32 (Z.land _ 0xffff) => apply (is_s32_low _ 0xffff 16); [lia|reflexivity]
  | |- is_s32 (Z.shiftr _ (Z.land _ 0x1f)) =>
      apply is_s32_srl; [apply (land_mask_range _ 0x1f 5 ltac:(lia) eq_refl)|]
  | |- is_s32 (Z.shiftr _ _) => apply is_s32_srl; [lia|]
  | |- is_s32 (Z.land _ _) => apply is_s32_land
  | |- is_s32 (Z.lor _ _) => apply is_s32_lor
  | |- is_s32 (Z.lxor _ _) => apply is_s32_lxor
  | |- is_s32 (Z.lnot _) => apply is_s32_lnot
  | |- is_s32 (if _ then _ else _) => apply is_s32_if
  | |- is_s32 (cdiv _ _) => apply cdiv_range
  | |- is_s32 (cmod _ _) => apply cmod_range
  | |- is_s32 _ => split; unfold two31; reflexivity || discriminate || lia
  end.

Ltac exec_step :=
  match goal with
  | |- ensures _ _ _ (getR _ _ ≫= _) =>
      apply ensures_getR; [assumption|first [lia | done]|]; intros
  | |- ensures _ _ _ (setR _ _ _ ≫= _) =>
      apply ensures_setR; [assumption|first [lia | done]|range_tac|first [done | unfold LoadReg; lia]|];
      intros
  | |- ensures _ _ _ (set_and_go _ _ _ _) => unfold set_and_go
  | |- ensures _ _ _ (branch_if _ _ _ _ _) => unfold branch_if
  | |- ensures _ _ _ (trap _ _ _) => apply trap_ok; [assumption|keeps_tac|done|range_tac]
  | |- ensures _ _ _ (on_done (ReadMem _ _ _) _) =>
      eapply on_done_ok;
      [apply ReadMem_ensures; [assumption|keeps_tac|unfold access_size; lia|range_tac]|];
      intros ? ? ? ? [? ?]
  | |- ensures _ _ _ (on_done (WriteMem _ _ _ _) _) =>
      eapply on_done_ok;
      [apply WriteMem_ensures; [assumption|keeps_tac|unfold access_size; lia|range_tac]|];
      intros ? [] ? ? ?
  | |- ensures _ _ _ (ASSERT _;; _) => apply ensures_assert; [|intros _]
  | |- ensures _ _ _ (if ?c then _ else _) => destruct c eqn:?
  | |- ensures _ _ _ (Ok (Done _ _)) => simpl; split; [assumption|]; split; [keeps_tac|]; split; simpl; [range_tac|split; [lia|range_tac]]
  end.

Ltac unfold_exec Hop :=
  unfold exec_instr, exec_ADD_to_DIVU, exec_JAL_to_LWR, exec_MFHI_to_SLTU, exec_SRA_to_end;
  rewrite Hop; cbv zeta.

Lemma exec_instr_ensures m i next :
  machine_wf m -> instr_ok i -> is_s32 next ->
  ensures (unaligned_partial m i) (div_overflow m i) (result_ok m after_ok) (exec_instr m i next).
Proof.
  intros Hm (Hrs & Hrt & Hrd & Hex & Hdec & Hshift) Hnext. unfold exec_instr, exec_ADD_to_DIVU, exec_JAL_to_LWR, exec_MFHI_to_SLTU,
    exec_SRA_to_end, RetAddrReg, HiReg, LoReg.
  destruct (opCode i) eqn:Hop; simpl in Hdec; try discriminate Hdec; cbv zeta.
  all: repeat exec_step.
  - apply andb_true_iff in Heqb0 as [->%Z.eqb_eq ->%Z.eqb_eq]. by split.
  - intros [-> ->]. discriminate.
  - by apply Z.eqb_neq.
  - intros Hu%Z.eqb_neq. split; eauto.
  - intros Hu%Z.eqb_neq. split; eauto.
  - destruct (_ =? _); repeat exec_step.
  - intros Hu%Z.eqb_neq. split; eauto.
  - intros Hu%Z.eqb_neq. split; eauto 6.
Qed.

(** The instruction that [OneInstruction] fetches, and the machine after the fetch. *)
Definition fetched (m m1 : Machine) (i : Instruction) : Prop :=
  exists pc raw, getR m PCReg = Ok pc /\ ReadMem m pc 4 = Ok (Done m1 raw) /\
    Decode (u32 raw) = Ok i.

Lemma finish_instruction_ok asrt undef m a pc next :
  machine_wf m -> after_ok m a ->
  registers m !! Z.to_nat PCReg = Some pc -> registers m !! Z.to_nat NextPCReg = Some next ->
  ensures asrt undef (fun m' => machine_ok m' /\
      registers m' !! Z.to_nat PrevPCReg = Some pc /\
      registers m' !! Z.to_nat PCReg = Some next /\
      registers m' !! Z.to_nat NextPCReg = Some (pcAfter a)) (finish_instruction m a).
Proof.
  intros Hm (Hpc & Hreg & Hval) Epc Enext. unfold finish_instruction.
  eapply ensures_bind; [by apply DelayedLoad_ok|]. intros m1 _ ([Hm1 H0] & [Hk1 Hk2] & _).
  rewrite <- Hk1 in Epc. rewrite <- Hk2 in Enext. pose proof (wf_reg_length m1 Hm1) as Hlen.
  change (Z.to_nat NumTotalRegs) with 40%nat in Hlen.
  apply ensures_getR; [done|done|]. intros v Hv Hvr. apply arr_get_ok in Hv as [_ Hv].
  apply ensures_setR; [done|done|done|done|]. intros m2 Hm2 E2.
  apply ensures_getR; [done|done|]. intros v' Hv' Hvr'. apply arr_get_ok in Hv' as [_ Hv'].
  apply ensures_setR; [done|done|done|done|]. intros m3 Hm3 E3.
  destruct (setR_wf m3 NextPCReg (pcAfter a)) as [-> Hwf]; [done..|]. simpl.
  unfold PCReg, NextPCReg, PrevPCReg in *. subst m3 m2. simpl in *.
  rewrite list_lookup_insert_ne in Hv' by lia.
  split_and!; [split; [done|]|..]; simpl;
    repeat first [rewrite list_lookup_insert_eq by (rewrite ?length_insert; lia)
                 |rewrite list_lookup_insert_ne by lia]; congruence.
Qed.

(** C6. One user instruction on a well-formed machine, whatever its bits are: the
    simulator never reads or writes outside main memory, the registers or the page
    table, and it terminates in a well-formed machine in which register 0 is zero.
    If the instruction completes the program counters have advanced by one. If it
    traps, they are unchanged, so that the kernel can restart it, and the bad
    address is in its register. The only instructions that stop the simulator
    itself are the partial loads and stores at unaligned addresses, which fail an
    assertion, and the division of the smallest integer by -1. *)
Theorem OneInstruction_safe m :
  machine_ok m ->
  ensures (exists m1 i, fetched m m1 i /\ unaligned_partial m1 i)
    (exists m1 i, fetched m m1 i /\ div_overflow m1 i)
    (fun r => match r with
     | Done m' _ =>
         machine_ok m' /\
         registers m' !! Z.to_nat PrevPCReg = registers m !! Z.to_nat PCReg /\
         registers m' !! Z.to_nat PCReg = registers m !! Z.to_nat NextPCReg
     | Trap m' which bad =>
         machine_ok m' /\ keeps_pc m m' /\ which <> NoException /\
         registers m' !! Z.to_nat BadVAddrReg = Some bad
     end) (OneInstruction m).
Proof.
  intros [Hm H0]. unfold OneInstruction. apply ensures_getR; [done|done|]. intros pc Hpc Hpcr.
  assert (keeps_pc m m) as Hkm by done. unfold on_done at 1.
  eapply ensures_bind; [apply (ReadMem_ensures _ _ m m pc 4); [done|done|by right; right|done]|].
  intros [m1 raw|m1 which bad] Hread Hres; simpl in Hres; [|done].
  destruct Hres as (Hm1 & Hk1 & _ & Hregs).
  destruct (Decode_ok (u32 raw) (u32_range raw)) as (i & Hdec & Hi). rewrite Hdec. simpl.
  assert (fetched m m1 i) as Hfet by (by exists pc, raw).
  apply ensures_getR; [done|done|]. intros next Hnext Hnextr. unfold on_done.
  eapply ensures_bind.
  { eapply ensures_mono; [by apply (exec_instr_ensures m1 i next)|eauto|eauto|intros r Hr; exact Hr]. }
  intros [m2 a|m2 which bad] _ Hres; simpl in Hres.
  - destruct Hres as (Hm2 & Hk2 & Ha). apply arr_get_ok in Hnext as [_ Hnext].
    apply arr_get_ok in Hpc as [_ Hpc].
    assert (keeps_pc m m2) as [K1 K2] by keeps_tac.
    assert (registers m2 !! Z.to_nat NextPCReg = Some next) as Hn2 by (destruct Hk2; congruence).
    eapply ensures_bind; [apply (finish_instruction_ok _ _ m2 a pc next); congruence|].
    intros m3 _ (Hok & ? & ? & ?). simpl. split; [done|]. split; congruence.
  - destruct Hres as (Hok & Hk2 & ?). simpl. split_and!; try apply Hok; [keeps_tac|apply H|apply H].
Qed.

(** A machine with one mapped page, page 0 in frame 1, that holds the given bytes. *)
Definition demo_machine (code : list Z) : Machine :=
  mkMachine (replicate 128 0 ++ code ++ replicate (3968 - length code) 0)
    (<[Z.to_nat NextPCReg := 4]> (replicate 40 0)) None
    (Some [mkEntry 0 1 true false false false]) 1.

Lemma demo_machine_ok code :
  Forall is_byte code -> (length code <= 3968)%nat -> machine_ok (demo_machine code).
Proof.
  intros Hc Hl. split; [|done].
  constructor; unfold demo_machine; cbn [mainMemory registers]; try done.
  - rewrite !length_app, !length_replicate. change (Z.to_nat MemorySize) with 4096%nat. lia.
  - repeat apply Forall_app_2; [|done|]; apply Forall_replicate; by split.
  - apply Forall_insert; [apply Forall_replicate|]; by split.
  - exists 0. split; [done|lia].
Qed.

(** [addi r1, r0, 5] *)
Lemma OneInstruction_safe_witness :
  machine_ok (demo_machine [5; 0; 1; 32]) /\
  exists m', OneInstruction (demo_machine [5; 0; 1; 32]) = Ok (Done m' ()) /\
    getR m' 1 = Ok 5 /\ machine_ok m' /\ registers m' !! Z.to_nat PCReg = Some 4.
Proof.
  assert (machine_ok (demo_machine [5; 0; 1; 32])) as Hok
    by (apply demo_machine_ok; [repeat constructor; lia|simpl; lia]).
  split; [exact Hok|].
  pose proof (OneInstruction_safe _ Hok) as Hs.
  assert (match OneInstruction (demo_machine [5; 0; 1; 32]) with
          | Ok (Done m' _) => bool_decide (getR m' 1 = Ok 5)
          | _ => false
          end = true) as Hrun by (vm_compute; reflexivity).
  destruct (OneInstruction _) as [[m' []|m' w b]| | |]; try discriminate Hrun.
  exists m'. split; [reflexivity|]. split; [exact (bool_decide_eq_true_1 _ Hrun)|].
  destruct Hs as (Hm' & _ & Hpc). split; [exact Hm'|]. exact Hpc.
Defined.

(** C21. [Translate] with a well-formed table: it either reports an exception and
    changes nothing, or it returns the physical address that the table gives for the
    page, frame number times page size plus offset. Then the whole access lies in
    main memory (the assertion at the end of the function never fails), the entry is
    valid, may be written if the access is a write, and has been marked used, and
    dirty by a write; nothing else in the machine has changed. *)
Theorem Translate_correct m va size writing :
  machine_wf m -> access_size size ->
  exists m' t, Translate m va size writing = Ok (m', t) /\
  match t with
  | inl e => m' = m /\ e <> NoException
  | inr pa =>
      0 <= pa /\ pa + size <= MemorySize /\ machine_wf m' /\
      mainMemory m' = mainMemory m /\ registers m' = registers m /\
      exists i e, find_entry m (u32 va `div` PageSize) = Ok (inr (i, e)) /\
        valid e = true /\ readOnly e && writing = false /\
        pa = u32 (physicalPage e) * PageSize + u32 va `mod` PageSize /\
        store_entry m i (touch e writing) = Ok m'
  end.
Proof.
  intros Hm Hs. pose proof (Translate_ensures m va size writing Hm Hs) as Ht.
  apply ensures_total in Ht as ([m' t] & Heq & Hpost). exists m', t. split; [done|].
  simpl in Hpost. destruct t as [e|pa]; [done|]. destruct Hpost as [Hwf ? ? ? ? _ He].
  destruct He as (i & e & Hf & _ & Hst & Hro & _ & Hpa). split_and!; try done.
  exists i, e. split_and!; try done. by destruct (find_entry_store m _ i e (wf_tables m Hm) Hf).
Qed.

Lemma Translate_correct_witness :
  exists m', Translate (demo_machine []) 44 4 true = Ok (m', inr 172) /\ 172 + 4 <= MemorySize.
Proof.
  destruct (Translate_correct (demo_machine []) 44 4 true) as (m' & t & Heq & Hpost).
  - apply demo_machine_ok; [constructor|simpl; lia].
  - right; right; reflexivity.
  - exists m'. vm_compute in Heq. injection Heq as Hm Ht. subst t. split.
    + vm_compute. by rewrite Hm.
    + apply Hpost.
Defined.

(** Memory behaves like memory: after a successful [WriteMem], [ReadMem] of the
    same address and size returns the stored value narrowed to that size (a byte
    comes back with the sign of the host's [char]), and every byte of main memory
    outside the written range is unchanged. *)
Theorem WriteMem_ReadMem m addr size value m' :
  machine_wf m -> access_size size -> WriteMem m addr size value = Ok (Done m' ()) ->
  (exists m'', ReadMem m' addr size = Ok (Done m'' (narrow size value)) /\
     mainMemory m'' = mainMemory m') /\
  exists m1 pa, Translate m addr size true = Ok (m1, inr pa) /\
    forall j, (j < Z.to_nat pa \/ Z.to_nat pa + Z.to_nat size <= j)%nat ->
      mainMemory m' !! j = mainMemory m !! j.
Proof.
  intros Hm Hsize Hw. pose proof (Translate_ensures m addr size true Hm Hsize) as Ht.
  apply ensures_total in Ht as ([m1 t] & Heq & Hpost); simpl in Hpost. destruct t as [exc|pa].
  { unfold WriteMem in Hw. rewrite Heq in Hw. simpl in Hw. by ok_inv. }
  destruct (WriteMem_translated m addr size value m1 pa Hsize Heq Hpost)
    as (mem' & Hw' & _ & Hlen & Hb & Hin & Hout). rewrite Hw in Hw'. injection Hw' as ->.
  split.
  - destruct (Translate_again m addr size m1 pa mem' false) as (m2 & Ht2 & Hmem); [done..|].
    exists m2. split; [|done]. apply (ReadMem_bytes _ _ _ _ _ pa); try done.
    + apply (tr_low _ _ _ _ _ _ Hpost).
    + by rewrite Hmem.
  - exists m1, pa. split; [done|]. intros j Hj. simpl. rewrite Hout by done.
    by rewrite (tr_mem _ _ _ _ _ _ Hpost).
Qed.

Lemma WriteMem_ReadMem_witness :
  exists m' m'', WriteMem (demo_machine []) 3 1 (-1) = Ok (Done m' ()) /\
    ReadMem m' 3 1 = Ok (Done m'' (-1)).
Proof.
  assert (exists m', WriteMem (demo_machine []) 3 1 (-1) = Ok (Done m' ())) as [m' Hw]
    by (eexists; vm_compute; reflexivity).
  destruct (WriteMem_ReadMem (demo_machine []) 3 1 (-1) m') as [(m'' & Hr & _) _].
  - apply demo_machine_ok; [constructor|simpl; lia].
  - left; reflexivity.
  - exact Hw.
  - exists m', m''. split; [exact Hw|]. rewrite Hr. reflexivity.
Defined.

(** ** Overflow detection *)

Lemma sign_bit_neg z : is_s32 z -> sign_bit z = (z <? 0).
Proof.
  intros Hz. unfold sign_bit, SIGN_BIT. rewrite testbit31_spec by apply u32_range.
  unfold is_s32, u32, two31, two32 in *.
  destruct (Z.ltb_spec (z `mod` 4294967296) 2147483648), (Z.ltb_spec z 0); simpl; try done; dlia.
Qed.

Lemma lxor_neg a b : (Z.lxor a b <? 0) = xorb (a <? 0) (b <? 0).
Proof.
  pose proof (Z.lxor_nonneg a b). destruct (Z.ltb_spec (Z.lxor a b) 0), (Z.ltb_spec a 0), (Z.ltb_spec b 0);
    simpl; try done; lia.
Qed.

(** The architecture's checked arithmetic: trap unless the exact result fits. *)
Definition checked (m : Machine) (dst exact next : Z) : outcome (result after) :=
  if (- two31 <=? exact) && (exact <? two31) then set_and_go m dst exact (s32 (next + 4))
  else trap m OverflowException 0.

Lemma add_overflow_test a b :
  is_s32 a -> is_s32 b ->
  negb (xorb (a <? 0) (b <? 0)) && xorb (a <? 0) (s32 (a + b) <? 0) =
    negb ((- two31 <=? a + b) && (a + b <? two31)) /\
  (is_s32 (a + b) -> s32 (a + b) = a + b).
Proof.
  intros Ha Hb. split; [|apply s32_small]. unfold is_s32, s32, two31, two32 in *.
  cmp_cases; simpl; try done; dlia.
Qed.

Lemma sub_overflow_test a b :
  is_s32 a -> is_s32 b ->
  xorb (a <? 0) (b <? 0) && xorb (a <? 0) (s32 (a - b) <? 0) =
    negb ((- two31 <=? a - b) && (a - b <? two31)).
Proof.
  intros Ha Hb. unfold is_s32, s32, two31, two32 in *. cmp_cases; simpl; try done; dlia.
Qed.

Lemma checked_eq m dst exact next :
  (if negb ((- two31 <=? exact) && (exact <? two31)) then trap m OverflowException 0
   else set_and_go m dst (s32 exact) (s32 (next + 4))) = checked m dst exact next.
Proof.
  unfold checked. destruct (Z.leb_spec (- two31) exact), (Z.ltb_spec exact two31); simpl; try done.
  by rewrite s32_small by done.
Qed.

(** The signed additions and the subtraction trap exactly on overflow: [ADD] and
    [SUB] with operands [a] and [b], and [ADDI] with [a] and the immediate, raise
    [OverflowException] when the mathematical result does not fit 32 bits, and
    otherwise put that very result into the destination register. *)
Theorem add_sub_overflow m i next a b :
  is_s32 a -> is_s32 b -> is_s32 (i_extra i) ->
  getR m (i_rs i) = Ok a -> getR m (i_rt i) = Ok b ->
  (opCode i = OP_ADD -> exec_instr m i next = checked m (i_rd i) (a + b) next) /\
  (opCode i = OP_ADDI -> exec_instr m i next = checked m (i_rt i) (a + i_extra i) next) /\
  (opCode i = OP_SUB -> exec_instr m i next = checked m (i_rd i) (a - b) next).
Proof.
  intros Hra Hrb Hre Ha Hb. split_and!; intros Hop; unfold_exec Hop;
    rewrite Ha; cbn [mbind outcome_bind]; rewrite ?Hb; cbn [mbind outcome_bind];
    rewrite !sign_bit_neg by auto using is_s32_lxor, s32_range; rewrite !lxor_neg, <- checked_eq.
  - by rewrite (proj1 (add_overflow_test a b Hra Hrb)).
  - rewrite (xorb_comm (a <? 0) (i_extra i <? 0)), (Z.add_comm a).
    by rewrite (proj1 (add_overflow_test (i_extra i) a Hre Hra)).
  - by rewrite (sub_overflow_test a b Hra Hrb).
Qed.

Lemma add_sub_overflow_witness :
  let m := with_registers Machine_new (<[4%nat := two31 - 1]> (replicate 40 1)) in
  let i := mkInstruction 0 OP_ADD 4 5 6 0 in
  exec_instr m i 8 = trap m OverflowException 0.
Proof.
  intros m i. destruct (add_sub_overflow m i 8 (two31 - 1) 1) as [Hadd _].
  - split; vm_compute; congruence.
  - split; vm_compute; congruence.
  - split; vm_compute; congruence.
  - vm_compute. reflexivity.
  - vm_compute. reflexivity.
  - rewrite Hadd by reflexivity. reflexivity.
Defined.

(** Two instructions differ from the architecture they simulate. [OR] combines
    its first operand with itself, so it copies register [rs]; and the logical right
    shifts [SRL] and [SRLV] shift an [int], so they copy the sign bit, exactly as
    [SRA] and [SRAV] do. *)
Theorem or_srl_divergence m i next a b :
  getR m (i_rs i) = Ok a -> getR m (i_rt i) = Ok b ->
  (opCode i = OP_OR -> exec_instr m i next = set_and_go m (i_rd i) a (s32 (next + 4))) /\
  (opCode i = OP_SRL \/ opCode i = OP_SRA -> 0 <= i_extra i ->
     exec_instr m i next =
       set_and_go m (i_rd i) (b `div` 2 ^ i_extra i) (s32 (next + 4))) /\
  (opCode i = OP_SRLV \/ opCode i = OP_SRAV ->
     exec_instr m i next =
       set_and_go m (i_rd i) (b `div` 2 ^ (a `mod` 32)) (s32 (next + 4))).
Proof.
  intros Ha Hb. split_and!.
  - intros Hop. unfold_exec Hop. rewrite Ha. cbn [mbind outcome_bind].
    by rewrite Z.lor_diag.
  - intros [Hop|Hop] Hge; unfold_exec Hop; rewrite Hb;
      cbn [mbind outcome_bind]; by rewrite Z.shiftr_div_pow2.
  - assert (Z.land a 0x1f = a `mod` 32) as Hl by (change 0x1f with (Z.ones 5); by rewrite Z.land_ones).
    pose proof (Z.mod_pos_bound a 32 ltac:(lia)).
    intros [Hop|Hop]; unfold_exec Hop; rewrite Hb; cbn [mbind outcome_bind];
      rewrite Ha; cbn [mbind outcome_bind]; rewrite Hl; by rewrite Z.shiftr_div_pow2 by lia.
Qed.

Lemma or_srl_divergence_witness :
  let m := with_registers Machine_new (<[5%nat := -8]> (replicate 40 1)) in
  exec_instr m (mkInstruction 0 OP_SRL 4 5 6 1) 8 = set_and_go m 6 (-4) 12 /\
  exec_instr m (mkInstruction 0 OP_OR 4 5 6 0) 8 = set_and_go m 6 1 12.
Proof.
  intros m.
  destruct (or_srl_divergence m (mkInstruction 0 OP_SRL 4 5 6 1) 8 1 (-8)) as (_ & Hsrl & _);
    [vm_compute; reflexivity..|].
  destruct (or_srl_divergence m (mkInstruction 0 OP_OR 4 5 6 0) 8 1 (-8)) as (Hor & _);
    [vm_compute; reflexivity..|].
  split.
  - rewrite Hsrl; [reflexivity|left; reflexivity|vm_compute; congruence].
  - rewrite Hor; reflexivity.
Defined.
