(* ===== verification/Interrupt.v ===== *)
(** * machine/interrupt.cc, stats.cc and timer.cc: simulated time and interrupts

    The state is the [Interrupt] object (its pending list is the abstract list of
    CList.v), the statistics, the simulated CPU and whatever the devices keep (type
    [D]). An interrupt handler is a function pointer in the source, so [call] is a
    parameter: [call handler arg] runs it. [HandlerContract] is the interface that
    the hardware simulators promise: a handler schedules later interrupts and sets
    flags, but it neither enables interrupts nor moves the clock. The timer of
    timer.cc is an instance. *)

From stdpp Require Import prelude list numbers sorting.
From S2P Require Import Prelude Params CList Mips Machine.

Open Scope Z_scope.

Inductive IntStatus := IntOff | IntOn.
Inductive MachineStatus := IdleMode | SystemMode | UserMode.
Inductive IntType :=
| TimerInt | DiskInt | ConsoleWriteInt | ConsoleReadInt | NetworkSendInt | NetworkRecvInt.

#[export] Instance IntStatus_eq_dec : EqDecision IntStatus.
Proof. solve_decision. Defined.
#[export] Instance MachineStatus_eq_dec : EqDecision MachineStatus.
Proof. solve_decision. Defined.
#[export] Instance IntType_eq_dec : EqDecision IntType.
Proof. solve_decision. Defined.

Record PendingInterrupt := mkPending {
  p_handler : Z;
  p_arg : Z;
  p_when : Z;
  p_type : IntType }.

Record Statistics := mkStatistics {
  totalTicks : Z;
  idleTicks : Z;
  systemTicks : Z;
  userTicks : Z;
  numDiskReads : Z;
  numDiskWrites : Z;
  numConsoleCharsRead : Z;
  numConsoleCharsWritten : Z;
  numPageFaults : Z;
  numPacketsSent : Z;
  numPacketsRecvd : Z }.

Definition Statistics_new : Statistics := mkStatistics 0 0 0 0 0 0 0 0 0 0 0.

Definition with_ticks (s : Statistics) (total idle system user : Z) : Statistics :=
  mkStatistics total idle system user (numDiskReads s) (numDiskWrites s)
    (numConsoleCharsRead s) (numConsoleCharsWritten s) (numPageFaults s)
    (numPacketsSent s) (numPacketsRecvd s).

Record Interrupt := mkInterrupt {
  level : IntStatus;
  pending : queue PendingInterrupt;
  inHandler : bool;
  yieldOnReturn : bool;
  status : MachineStatus }.

(** The constructor. *)
Definition Interrupt_new : Interrupt := mkInterrupt IntOff [] false false SystemMode.

Record world (D : Type) := mkWorld {
  w_int : Interrupt;
  w_stats : Statistics;
  w_machine : option Machine;
  w_dev : D }.
Arguments mkWorld {D} _ _ _ _.
Arguments w_int {D} _.
Arguments w_stats {D} _.
Arguments w_machine {D} _.
Arguments w_dev {D} _.

Section setters.
Context {D : Type} (w : world D).

Definition with_level (l : IntStatus) : world D :=
  mkWorld (mkInterrupt l (pending (w_int w)) (inHandler (w_int w)) (yieldOnReturn (w_int w))
    (status (w_int w))) (w_stats w) (w_machine w) (w_dev w).
Definition with_pending (q : queue PendingInterrupt) : world D :=
  mkWorld (mkInterrupt (level (w_int w)) q (inHandler (w_int w)) (yieldOnReturn (w_int w))
    (status (w_int w))) (w_stats w) (w_machine w) (w_dev w).
Definition with_inHandler (b : bool) : world D :=
  mkWorld (mkInterrupt (level (w_int w)) (pending (w_int w)) b (yieldOnReturn (w_int w))
    (status (w_int w))) (w_stats w) (w_machine w) (w_dev w).
Definition with_yieldOnReturn (b : bool) : world D :=
  mkWorld (mkInterrupt (level (w_int w)) (pending (w_int w)) (inHandler (w_int w)) b
    (status (w_int w))) (w_stats w) (w_machine w) (w_dev w).
Definition setStatus (s : MachineStatus) : world D :=
  mkWorld (mkInterrupt (level (w_int w)) (pending (w_int w)) (inHandler (w_int w))
    (yieldOnReturn (w_int w)) s) (w_stats w) (w_machine w) (w_dev w).
Definition with_stats (s : Statistics) : world D :=
  mkWorld (w_int w) s (w_machine w) (w_dev w).
Definition with_machine (m : option Machine) : world D :=
  mkWorld (w_int w) (w_stats w) m (w_dev w).
Definition with_dev (d : D) : world D :=
  mkWorld (w_int w) (w_stats w) (w_machine w) d.
End setters.

Definition now {D} (w : world D) : Z := totalTicks (w_stats w).

Definition Schedule {D} (w : world D) (handler arg fromNow : Z) (type : IntType)
    : outcome (world D) :=
  let when := s32 (now w + fromNow) in
  let toOccur := mkPending handler arg when type in
  ASSERT (0 <? fromNow);;
  Ok (with_pending w (q_sorted_insert toOccur when (pending (w_int w)))).

Definition ChangeLevel {D} (w : world D) (old new : IntStatus) : world D := with_level w new.

Definition YieldOnReturn {D} (w : world D) : outcome (world D) :=
  ASSERT (inHandler (w_int w));;
  Ok (with_yieldOnReturn w true).

(** ** Handlers, ticks and idling *)

Section kernel.
Context {D : Type}.
(** [( *handler)(arg)] and [currentThread->Yield()]. *)
Context (call : Z -> Z -> world D -> outcome (world D)).
Context (Yield : world D -> outcome (world D)).

(** [CheckIfDue] once the interrupt is taken off the list and is due. *)
Definition invoke (w : world D) (toOccur : PendingInterrupt) (when : Z)
    : outcome (bool * world D) :=
  let old := status (w_int w) in
  if bool_decide (old = IdleMode) && bool_decide (p_type toOccur = TimerInt) &&
     match pending (w_int w) with [] => true | _ => false end
  then Ok (false, with_pending w (q_sorted_insert toOccur when (pending (w_int w))))
  else
    m ← (match w_machine w with
         | None => Ok None
         | Some m => m ← DelayedLoad m 0 0; Ok (Some m)
         end);
    w ← call (p_handler toOccur) (p_arg toOccur)
          (setStatus (with_inHandler (with_machine w m) true) SystemMode);
    Ok (true, with_inHandler (setStatus w old) false).

Definition CheckIfDue (w : world D) (advanceClock : bool) : outcome (bool * world D) :=
  ASSERT (bool_decide (level (w_int w) = IntOff));;
  match q_remove (pending (w_int w)) with
  | (None, _) => Ok (false, w)
  | (Some (when, toOccur), rest) =>
      let w := with_pending w rest in
      let s := w_stats w in
      if advanceClock && (now w <? when) then
        invoke (with_stats w
                  (with_ticks s when (s32 (idleTicks s + s32 (when - totalTicks s)))
                     (systemTicks s) (userTicks s))) toOccur when
      else if now w <? when then
        Ok (false, with_pending w (q_sorted_insert toOccur when rest))
      else invoke w toOccur when
  end.

(** [while (CheckIfDue(FALSE)) ;] *)
Fixpoint due_loop (fuel : nat) (w : world D) : outcome (world D) :=
  match fuel with
  | O => NoFuel
  | S fuel =>
      '(fired, w) ← CheckIfDue w false;
      if (fired : bool) then due_loop fuel w else Ok w
  end.

Definition run_due (w : world D) : outcome (world D) :=
  due_loop (S (length (pending (w_int w)))) w.

Definition advance_tick (w : world D) : world D :=
  let s := w_stats w in
  if bool_decide (status (w_int w) = SystemMode) then
    with_stats w (with_ticks s (s32 (totalTicks s + SystemTick)) (idleTicks s)
                    (s32 (systemTicks s + SystemTick)) (userTicks s))
  else
    with_stats w (with_ticks s (s32 (totalTicks s + UserTick)) (idleTicks s)
                    (systemTicks s) (s32 (userTicks s + UserTick))).

Definition OneTick (w : world D) : outcome (world D) :=
  let old := status (w_int w) in
  w ← run_due (ChangeLevel (advance_tick w) IntOn IntOff);
  let w := ChangeLevel w IntOff IntOn in
  if yieldOnReturn (w_int w) then
    w ← Yield (setStatus (with_yieldOnReturn w false) SystemMode);
    Ok (setStatus w old)
  else Ok w.

(** Returns the old level. *)
Definition SetLevel (w : world D) (new : IntStatus) : outcome (IntStatus * world D) :=
  let old := level (w_int w) in
  ASSERT (bool_decide (new = IntOff) || negb (inHandler (w_int w)));;
  let w := ChangeLevel w old new in
  w ← (if bool_decide (new = IntOn) && bool_decide (old = IntOff) then OneTick w else Ok w);
  Ok (old, w).

Definition Enable (w : world D) : outcome (world D) :=
  '(_, w) ← SetLevel w IntOn;
  Ok w.

(** [Idle]: the state to go on with, or [None] when the machine halts. *)
Definition Idle (w : world D) : outcome (option (world D)) :=
  '(fired, w) ← CheckIfDue (setStatus w IdleMode) true;
  if (fired : bool) then
    w ← run_due w;
    Ok (Some (setStatus (with_yieldOnReturn w false) SystemMode))
  else Ok None.
End kernel.

(** ** machine/timer.cc and the handler of threads/system.cc *)

Record Timer := mkTimer { randomize : bool; t_arg : Z }.

Section timer.
Context {D : Type}.
(** The next value of [Random()], and the address of [TimerHandler]. *)
Context (Random : world D -> Z) (TimerHandlerPtr : Z).

Definition TimeOfNextInterrupt (t : Timer) (w : world D) : Z :=
  if randomize t then 1 + cmod (Random w) (TimerTicks * 2) else TimerTicks.

(** The constructor schedules the first interrupt. *)
Definition Timer_new (this : Z) (t : Timer) (w : world D) : outcome (world D) :=
  Schedule w TimerHandlerPtr this (TimeOfNextInterrupt t w) TimerInt.

Definition TimerExpired (handler : Z -> world D -> outcome (world D)) (this : Z) (t : Timer)
    (w : world D) : outcome (world D) :=
  w ← Schedule w TimerHandlerPtr this (TimeOfNextInterrupt t w) TimerInt;
  handler (t_arg t) w.

Definition TimerInterruptHandler (dummy : Z) (w : world D) : outcome (world D) :=
  if bool_decide (status (w_int w) = IdleMode) then Ok w else YieldOnReturn w.
End timer.

(** ** Invariants and the handler contract *)

Definition ticks {D} (w : world D) : Z * Z * Z * Z :=
  (totalTicks (w_stats w), idleTicks (w_stats w), systemTicks (w_stats w),
   userTicks (w_stats w)).

Lemma ticks_now {D} (w w' : world D) : ticks w' = ticks w -> now w' = now w.
Proof. unfold ticks, now. by intros [= ? _ _ _]. Qed.

Definition machine_inv {D} (w : world D) : Prop :=
  match w_machine w with None => True | Some m => machine_wf m end.

(** The pending interrupts that are due at time [t]. *)
Definition due (t : Z) (q : queue PendingInterrupt) : queue PendingInterrupt :=
  filter (fun x => x.1 <= t) q.

(** The pending list is sorted by time, and an entry's key is its time. *)
Definition queue_ok (q : queue PendingInterrupt) : Prop :=
  StronglySorted key_le q /\ Forall (fun x => x.1 = p_when x.2 /\ is_s32 x.1) q.

Record time_ok {D} (w : world D) : Prop := {
  to_queue : queue_ok (pending (w_int w));
  to_now : is_s32 (now w);
  to_machine : machine_inv w }.

(** Entries added to a list, each at its place. *)
Fixpoint insert_all (news : list PendingInterrupt) (q : queue PendingInterrupt)
    : queue PendingInterrupt :=
  match news with
  | [] => q
  | x :: news => insert_all news (q_sorted_insert x (p_when x) q)
  end.

(** What an interrupt handler may do. [bound] is the longest delay it schedules. *)
Class HandlerContract {D} (call : Z -> Z -> world D -> outcome (world D)) (bound : Z) := {
  bound_nonneg : 0 <= bound;
  call_ok f a w :
    level (w_int w) = IntOff -> inHandler (w_int w) = true -> status (w_int w) = SystemMode ->
    time_ok w -> now w + bound < two31 ->
    exists w' news, call f a w = Ok w' /\
      level (w_int w') = IntOff /\ ticks w' = ticks w /\ machine_inv w' /\
      Forall (fun x => now w < p_when x <= now w + bound) news /\
      pending (w_int w') = insert_all news (pending (w_int w)) }.

Lemma queue_ok_insert x q :
  queue_ok q -> is_s32 (p_when x) -> queue_ok (q_sorted_insert x (p_when x) q).
Proof.
  intros [Hs Hk] Hx. split; [by apply q_sorted_insert_sorted|].
  apply Forall_forall. intros y Hy. apply q_sorted_insert_elem in Hy as [->|Hy]; [done|].
  by eapply Forall_forall in Hk.
Qed.

Lemma queue_ok_tail x q : queue_ok (x :: q) -> queue_ok q.
Proof. intros [Hs Hk]. inversion Hs; inversion Hk; subst. by split. Qed.

Lemma due_insert t x k q : t < k -> due t (q_sorted_insert x k q) = due t q.
Proof.
  intros Hk. unfold due. induction q as [|[k' y] q IH]; simpl.
  - rewrite filter_cons_False; [done|]. simpl. lia.
  - destruct (Z.ltb_spec k k').
    + rewrite filter_cons_False by (simpl; lia). done.
    + rewrite !filter_cons, IH. done.
Qed.

Lemma due_nil_head t k x q : queue_ok ((k, x) :: q) -> t < k -> due t ((k, x) :: q) = [].
Proof.
  intros [Hs _] Hk. inversion Hs as [|? ? _ Hall]; subst. apply filter_none.
  constructor; simpl; [lia|]. eapply Forall_impl; [exact Hall|]. unfold key_le. simpl. lia.
Qed.

Lemma insert_all_ok t news : forall q,
  queue_ok q -> Forall (fun x => t < p_when x /\ is_s32 (p_when x)) news ->
  queue_ok (insert_all news q) /\ due t (insert_all news q) = due t q.
Proof.
  induction news as [|x news IH]; intros q Hq Hn; simpl; [done|].
  inversion Hn as [|? ? [Ht Hr] Hn']; subst.
  destruct (IH (q_sorted_insert x (p_when x) q)) as [H1 H2]; [by apply queue_ok_insert|done|].
  split; [done|]. rewrite H2. by apply due_insert.
Qed.

Lemma invoke_machine (mo : option Machine) :
  match mo with None => True | Some m => machine_wf m end ->
  exists mo', match mo with
    | None => Ok None
    | Some m => m ← DelayedLoad m 0 0; Ok (Some m)
    end = Ok mo' /\ match mo' with None => True | Some m => machine_wf m end.
Proof.
  destruct mo as [m|]; intros Hm; [|by exists None].
  destruct (ensures_total _ _ (DelayedLoad_ok False False m 0 0 Hm ltac:(lia) ltac:(by split)))
    as (m' & -> & [Hm' _] & _). exists (Some m'). by split.
Qed.

(** The clock is the sum of its three shares (modulo the width of an [int]). *)
Definition balanced {D} (w : world D) : Prop :=
  u32 (totalTicks (w_stats w)) =
  u32 (idleTicks (w_stats w) + systemTicks (w_stats w) + userTicks (w_stats w)).

Lemma ticks_balanced {D} (w w' : world D) : ticks w' = ticks w -> balanced w -> balanced w'.
Proof. unfold ticks, balanced. intros [= -> -> -> ->]. done. Qed.

Lemma advance_tick_ok {D} (w : world D) :
  time_ok w -> now w + SystemTick < two31 ->
  time_ok (advance_tick w) /\
  now (advance_tick w) =
    now w + (if bool_decide (status (w_int w) = SystemMode) then SystemTick else UserTick) /\
  (balanced w -> balanced (advance_tick w)).
Proof.
  intros [Hq Hn Hm] Hb. unfold advance_tick, balanced, now, SystemTick, UserTick in *.
  unfold is_s32 in Hn.
  destruct (bool_decide _); simpl; (split_and!; [constructor; simpl; try done|..]);
    try (apply s32_range); try (apply s32_small; unfold is_s32, two31 in *; lia);
    unfold u32, s32, two31, two32; intros; dlia.
Qed.

Section kernel_proofs.
Context {D : Type} (call : Z -> Z -> world D -> outcome (world D)).
Context (Yield : world D -> outcome (world D)) (bound : Z).
Context `{!HandlerContract call bound}.

(** A lone timer interrupt does not keep an idle machine running. *)
Definition lone_timer (w : world D) (toOccur : PendingInterrupt) : bool :=
  bool_decide (status (w_int w) = IdleMode) && bool_decide (p_type toOccur = TimerInt) &&
  match pending (w_int w) with [] => true | _ => false end.

(** What running the handler of a due interrupt does. *)
Record invoked (w w' : world D) : Prop := {
  inv_time : time_ok w';
  inv_level : level (w_int w') = IntOff;
  inv_handler : inHandler (w_int w') = false;
  inv_status : status (w_int w') = status (w_int w);
  inv_ticks : ticks w' = ticks w;
  inv_due : due (now w) (pending (w_int w')) = due (now w) (pending (w_int w)) }.

Lemma invoke_ok w p when :
  time_ok w -> level (w_int w) = IntOff -> now w + bound < two31 -> lone_timer w p = false ->
  exists w', invoke call w p when = Ok (true, w') /\ invoked w w'.
Proof.
  intros [Hq Hn Hm] Hl Hb Hlone. unfold invoke. fold (lone_timer w p). rewrite Hlone.
  destruct (invoke_machine (w_machine w) Hm) as (mo & -> & Hmo). simpl.
  set (w1 := setStatus (with_inHandler (with_machine w mo) true) SystemMode).
  destruct (call_ok (call := call) (bound := bound) (p_handler p) (p_arg p) w1)
    as (w' & news & -> & Hl' & Ht & Hm' & Hnews & Hp); try done.
  simpl. eexists. split; [done|].
  assert (now w' = now w) as Hnow by (by apply ticks_now in Ht).
  destruct (insert_all_ok (now w) news (pending (w_int w)) Hq) as [Hq' Hdue].
  { eapply Forall_impl; [exact Hnews|]. unfold w1, is_s32 in *. simpl.
    change (now _) with (now w). intros x Hx. unfold is_s32. lia. }
  change (pending (w_int w1)) with (pending (w_int w)) in Hp.
  constructor; simpl; try done; [|by rewrite Hp].
  constructor; simpl; [by rewrite Hp|by rewrite <- Hnow in Hn|done].
Qed.

(** [CheckIfDue(FALSE)]: the three outcomes. *)
Lemma CheckIfDue_none w :
  time_ok w -> level (w_int w) = IntOff -> due (now w) (pending (w_int w)) = [] ->
  exists w', CheckIfDue call w false = Ok (false, w') /\ time_ok w' /\
    w_stats w' = w_stats w /\ w_machine w' = w_machine w /\ w_dev w' = w_dev w /\
    pending (w_int w') ≡ₚ pending (w_int w) /\
    level (w_int w') = IntOff /\ inHandler (w_int w') = inHandler (w_int w) /\
    yieldOnReturn (w_int w') = yieldOnReturn (w_int w) /\
    status (w_int w') = status (w_int w).
Proof.
  intros [Hq Hn Hm] Hl Hd. unfold CheckIfDue. rewrite Hl. simpl.
  destruct (pending (w_int w)) as [|[k p] q] eqn:Hp; simpl.
  { exists w. split_and!; try done; [|by rewrite Hp]. constructor; [by rewrite Hp|done..]. }
  change (now (with_pending w q)) with (now w).
  destruct (Z.ltb_spec (now w) k) as [Hlt|Hle].
  2:{ unfold due in Hd. rewrite filter_cons_True in Hd by (simpl; lia). discriminate. }
  eexists. split; [done|]. simpl.
  assert (k = p_when p /\ is_s32 k) as [-> Hr] by (destruct Hq as [_ Hk]; by inversion Hk).
  split_and!; try done.
  - constructor; simpl; try done. apply queue_ok_insert; [by eapply queue_ok_tail|done].
  - rewrite q_sorted_insert_stable by (eapply queue_ok_tail; exact Hq).
    rewrite <- Permutation_middle. constructor. symmetry.
    rewrite <- (filter_app_complement (fun y : Z * PendingInterrupt => y.1 <= p_when p) q) at 1.
    f_equiv. apply reflexive_eq. apply list_filter_iff. intros x. simpl. lia.
Qed.

Lemma CheckIfDue_fires w k p q :
  time_ok w -> level (w_int w) = IntOff -> now w + bound < two31 ->
  pending (w_int w) = (k, p) :: q -> k <= now w -> lone_timer (with_pending w q) p = false ->
  exists w', CheckIfDue call w false = Ok (true, w') /\ invoked (with_pending w q) w'.
Proof.
  intros [Hq Hn Hm] Hl Hb Hp Hk Hlone. unfold CheckIfDue. rewrite Hl, Hp. simpl.
  change (now (with_pending w q)) with (now w).
  destruct (Z.ltb_spec (now w) k); [lia|]. apply invoke_ok; try done.
  rewrite Hp in Hq. constructor; simpl; try done. by eapply queue_ok_tail.
Qed.

(** An idle machine whose only interrupt is the timer. *)
Definition only_timer (w : world D) : Prop :=
  status (w_int w) = IdleMode /\
  exists k p, pending (w_int w) = [(k, p)] /\ p_type p = TimerInt.

#[export] Instance only_timer_dec w : Decision (only_timer w).
Proof.
  unfold only_timer. destruct (decide (status (w_int w) = IdleMode)); [|right; by intros [? _]].
  destruct (pending (w_int w)) as [|[k p] [|]]; try (right; by intros (_ & ? & ? & ? & _)).
  destruct (decide (p_type p = TimerInt)); [left; eauto|right].
  by intros (_ & ? & ? & [= <- <-] & ?).
Defined.

Lemma lone_timer_true w k p q :
  pending (w_int w) = (k, p) :: q -> lone_timer (with_pending w q) p = true ->
  only_timer w /\ q = [].
Proof.
  unfold lone_timer, only_timer. intros Hp Hl. simpl in Hl. destruct q; [|by rewrite andb_false_r in Hl].
  rewrite andb_true_r in Hl. apply andb_true_iff in Hl as [H1%bool_decide_eq_true H2%bool_decide_eq_true].
  split; [|done]. eauto.
Qed.

Lemma CheckIfDue_only_timer w :
  level (w_int w) = IntOff -> only_timer w ->
  exists w', CheckIfDue call w false = Ok (false, w') /\ w' = w.
Proof.
  intros Hl (Hs & k & p & Hp & Ht). unfold CheckIfDue. rewrite Hl, Hp. simpl.
  exists w. split; [|done]. unfold invoke. simpl. rewrite Hs, Ht. simpl.
  destruct (now _ <? k); do 2 f_equal; unfold with_pending; simpl; rewrite <- Hp;
    by destruct w as [[] ? ? ?].
Qed.

(** [fires w l w']: the interrupts [l] are taken off the list, and their handlers
    run, one after the other. *)
Inductive fires : world D -> list PendingInterrupt -> world D -> Prop :=
| fires_nil w : fires w [] w
| fires_cons w k p q w1 l w2 :
    pending (w_int w) = (k, p) :: q -> CheckIfDue call w false = Ok (true, w1) ->
    fires w1 l w2 -> fires w (p :: l) w2.

Record settled (w w' : world D) : Prop := {
  set_time : time_ok w';
  set_level : level (w_int w') = IntOff;
  set_status : status (w_int w') = status (w_int w);
  set_ticks : ticks w' = ticks w }.

Lemma due_loop_ok n : forall w,
  time_ok w -> level (w_int w) = IntOff -> now w + bound < two31 ->
  (length (due (now w) (pending (w_int w))) < n)%nat ->
  exists l rest w1 w', fires w l w1 /\ CheckIfDue call w1 false = Ok (false, w') /\
    due_loop call n w = Ok w' /\ settled w w' /\
    map snd (due (now w) (pending (w_int w))) = l ++ rest /\
    (rest = [] /\ due (now w) (pending (w_int w')) = [] \/ only_timer w').
Proof.
  induction n as [|n IH]; intros w Hw Hl Hb Hlen; [lia|]. cbn [due_loop].
  destruct (decide (only_timer w)) as [Hot|Hot].
  { destruct (CheckIfDue_only_timer w Hl Hot) as (w' & Hc & ->). rewrite Hc. simpl.
    exists [], (map snd (due (now w) (pending (w_int w)))), w, w.
    split_and!; try done; [constructor|by right]. }
  destruct (due (now w) (pending (w_int w))) as [|x d] eqn:Hd.
  { destruct (CheckIfDue_none w Hw Hl Hd) as (w' & Hc & Ht' & Hst & Hm & Hdv & Hperm & Hl' & _ & _ & Hs).
    rewrite Hc. simpl. exists [], [], w, w'. split_and!; try done; [constructor|..].
    - constructor; try done. unfold ticks. by rewrite Hst.
    - left. split; [done|]. unfold due in *. apply filter_none. rewrite Hperm.
      apply Forall_forall. intros y Hy Hle. apply (elem_of_nil y). rewrite <- Hd.
      apply list_elem_of_filter. by split. }
  destruct (pending (w_int w)) as [|[k p] q] eqn:Hp; [discriminate Hd|].
  assert (queue_ok ((k, p) :: q)) as Hq by (rewrite <- Hp; apply Hw).
  destruct (Z.ltb_spec (now w) k) as [Hlt|Hle]; [by rewrite due_nil_head in Hd|].
  assert (lone_timer (with_pending w q) p = false) as Hlone.
  { destruct (lone_timer _ _) eqn:E; [|done]. by destruct (lone_timer_true w k p q Hp E). }
  destruct (CheckIfDue_fires w k p q) as (w1 & Hc & Hinv); try done.
  rewrite Hc. simpl.
  assert (due (now w) ((k, p) :: q) = (k, p) :: due (now w) q) as Hd2
    by (unfold due; by rewrite filter_cons_True by (simpl; lia)).
  rewrite Hd2 in Hd. injection Hd as <- <-.
  destruct Hinv as [Ht1 Hl1 _ Hs1 Htk1 Hd1].
  assert (now w1 = now w) as Hnow by (by apply ticks_now in Htk1).
  change (now (with_pending w q)) with (now w) in Hd1. simpl in Hd1.
  destruct (IH w1) as (l & rest & w2 & w' & Hf & Hc' & Hloop & Hset & Hmap & Hend);
    [done..|by rewrite Hnow|rewrite Hnow, Hd1; simpl in Hlen; lia|].
  rewrite Hnow in Hmap, Hend. rewrite Hd1 in Hmap. exists (p :: l), rest, w2, w'. split_and!; try done.
  - by econstructor.
  - destruct Hset as [? ? Hss Hts]. constructor; try done; [by rewrite Hss, Hs1|].
    by rewrite Hts, Htk1.
  - simpl. by rewrite Hmap.
Qed.

Lemma run_due_ok w :
  time_ok w -> level (w_int w) = IntOff -> now w + bound < two31 ->
  exists l rest w1 w', fires w l w1 /\ CheckIfDue call w1 false = Ok (false, w') /\
    run_due call w = Ok w' /\ settled w w' /\
    map snd (due (now w) (pending (w_int w))) = l ++ rest /\
    (rest = [] /\ due (now w) (pending (w_int w')) = [] \/ only_timer w').
Proof.
  intros. apply due_loop_ok; try done. unfold due. pose proof (length_filter (fun x : Z * PendingInterrupt => x.1 <= now w) (pending (w_int w))). lia.
Qed.

(** A tick of the clock: time advances by the cost of the current mode, then
    the handlers of exactly the interrupts that are due run, in the order of the
    pending list and one at a time; the loop stops, and afterwards no pending
    interrupt is due. Handlers leave the mode as it was, the pending list stays
    sorted, and the clock stays the sum of idle, system and user time. Interrupts
    are on again at the end, and the thread yields if a handler asked for it. *)
Theorem OneTick_fires_due w :
  time_ok w -> balanced w -> status (w_int w) <> IdleMode ->
  now w + SystemTick + bound < two31 ->
  let w0 := ChangeLevel (advance_tick w) IntOn IntOff in
  exists w1 w2,
    fires w0 (map snd (due (now w0) (pending (w_int w)))) w1 /\
    CheckIfDue call w1 false = Ok (false, w2) /\
    due (now w2) (pending (w_int w2)) = [] /\ time_ok w2 /\ balanced w2 /\
    now w2 = now w + (if bool_decide (status (w_int w) = SystemMode) then SystemTick else UserTick) /\
    status (w_int w2) = status (w_int w) /\
    OneTick call Yield w =
      let w3 := ChangeLevel w2 IntOff IntOn in
      if yieldOnReturn (w_int w3) then
        w4 ← Yield (setStatus (with_yieldOnReturn w3 false) SystemMode);
        Ok (setStatus w4 (status (w_int w)))
      else Ok w3.
Proof.
  intros Hw Hbal Hst Hb w0. pose proof bound_nonneg as Hbn.
  destruct (advance_tick_ok w Hw) as (Ht & Hnow & Hbal'); [lia|].
  assert (now w0 <= now w + SystemTick) as Hle.
  { change (now w0) with (now (advance_tick w)). rewrite Hnow. unfold SystemTick, UserTick.
    destruct (bool_decide _); lia. }
  assert (status (w_int w0) = status (w_int w)) as Hs0
    by (unfold w0, advance_tick; by destruct (bool_decide _)).
  assert (pending (w_int w0) = pending (w_int w)) as Hp0
    by (unfold w0, advance_tick; by destruct (bool_decide _)).
  destruct (run_due_ok w0) as (l & rest & w1 & w2 & Hf & Hc & Hrun & Hset & Hmap & Hend);
    [by destruct Ht|done|lia|]. destruct Hset as [Ht2 Hl2 Hs2 Htk2].
  assert (now w2 = now w0) as Hn2 by (by apply ticks_now).
  destruct Hend as [[-> Hd]|[Hidle _]]; [|congruence].
  rewrite app_nil_r, Hp0 in Hmap. exists w1, w2. rewrite Hmap. split_and!; try done.
  - by rewrite Hn2.
  - apply (ticks_balanced w0 w2 Htk2). exact (Hbal' Hbal).
  - rewrite Hn2. exact Hnow.
  - congruence.
  - unfold OneTick. fold w0. by rewrite Hrun.
Qed.

(** The clock of an idle machine whose next interrupt, now taken off the list, is
    for time [k]. *)
Definition idle_clock (w : world D) (k : Z) (q : queue PendingInterrupt) : world D :=
  let s := w_stats w in
  if now w <? k
  then with_stats (with_pending (setStatus w IdleMode) q)
         (with_ticks s k (s32 (idleTicks s + s32 (k - totalTicks s)))
            (systemTicks s) (userTicks s))
  else with_pending (setStatus w IdleMode) q.

Lemma idle_clock_ok w k p q :
  time_ok w -> balanced w -> level (w_int w) = IntOff -> pending (w_int w) = (k, p) :: q ->
  CheckIfDue call (setStatus w IdleMode) true = invoke call (idle_clock w k q) p k /\
  now (idle_clock w k q) = Z.max k (now w) /\ time_ok (idle_clock w k q) /\
  balanced (idle_clock w k q) /\ status (w_int (idle_clock w k q)) = IdleMode /\
  level (w_int (idle_clock w k q)) = IntOff /\ pending (w_int (idle_clock w k q)) = q.
Proof.
  clear Yield. intros [Hq Hn Hm] Hbal Hl Hp. unfold idle_clock.
  rewrite Hp in Hq. pose proof (queue_ok_tail _ _ Hq) as Hqt.
  destruct Hq as [_ Hk]. inversion Hk as [|? ? [Hkw Hkr] _]; subst; simpl in *.
  unfold CheckIfDue. simpl. rewrite Hp, Hl. simpl.
  change (now (with_pending (setStatus w IdleMode) q)) with (now w).
  destruct (Z.ltb_spec (now w) k); simpl; (split_and!; try done); try by constructor.
  - unfold now at 1. simpl. lia.
  - unfold balanced in *. simpl. unfold u32, s32, two31, two32 in *. dlia.
  - change (now _) with (now w) at 1. lia.
Qed.

(** An idle machine: with nothing pending, or nothing but the timer, it halts;
    otherwise the clock jumps to the next interrupt (if that is not already due),
    the difference is counted as idle time, at least that interrupt's handler runs,
    and the kernel goes on in system mode with no interrupt due, a lone timer
    interrupt apart, and no yield pending. *)
Theorem Idle_advances w :
  time_ok w -> balanced w -> level (w_int w) = IntOff ->
  match pending (w_int w) with
  | [] => Idle call w = Ok None
  | (k, p) :: q =>
      if bool_decide (q = []) && bool_decide (p_type p = TimerInt) then Idle call w = Ok None
      else
        Z.max k (now w) + bound < two31 ->
        exists w', Idle call w = Ok (Some w') /\ time_ok w' /\ balanced w' /\
          now w' = Z.max k (now w) /\ status (w_int w') = SystemMode /\
          yieldOnReturn (w_int w') = false /\
          (due (now w') (pending (w_int w')) = [] \/
           exists k' p', pending (w_int w') = [(k', p')] /\ p_type p' = TimerInt)
  end.
Proof.
  intros Hw Hbal Hl. unfold Idle.
  destruct (pending (w_int w)) as [|[k p] q] eqn:Hp.
  { unfold CheckIfDue. simpl. by rewrite Hl, Hp. }
  destruct (bool_decide (q = []) && bool_decide (p_type p = TimerInt)) eqn:Hlone.
  { apply andb_true_iff in Hlone as [->%bool_decide_eq_true Hty%bool_decide_eq_true].
    unfold CheckIfDue. simpl. rewrite Hp, Hl. simpl. unfold invoke. simpl.
    rewrite Hty. by destruct (now _ <? k). }
  intros Hb. pose proof bound_nonneg as Hbn.
  destruct (idle_clock_ok w k p q) as (Hcheck & Hnq & Htq & Hbq & Hsq & Hlq & Hpq); [done..|].
  set (wq := idle_clock w k q) in *.
  destruct (invoke_ok wq p k) as (w1 & Hinv & Hpost); [done|done|lia| |].
  { unfold lone_timer. rewrite Hsq, Hpq. simpl. by destruct q; rewrite ?andb_true_r, ?andb_false_r. }
  rewrite Hcheck, Hinv. simpl. destruct Hpost as [Ht1 Hl1 _ Hs1 Htk1 _].
  pose proof (ticks_now _ _ Htk1) as Hn1.
  destruct (run_due_ok w1) as (l & rest & w2 & w3 & _ & _ & Hrun & [Ht3 Hl3 Hs3 Htk3] & _ & Hend);
    [done|done|lia|].
  pose proof (ticks_now _ _ Htk3) as Hn3. rewrite Hrun. simpl. eexists. split; [done|].
  split_and!; try done.
  - by destruct Ht3.
  - apply (ticks_balanced wq); [|done]. rewrite <- Htk1, <- Htk3. done.
  - change (now _) with (now w3) at 1. lia.
  - change (now (setStatus _ _)) with (now w3). rewrite Hn3. simpl.
    destruct Hend as [[_ Hd]|[_ Hot]]; auto.
Qed.
End kernel_proofs.

Section timer_proofs.
Context {D : Type} (Random : world D -> Z) (TimerHandlerPtr : Z).
(** [rand()] returns a number between 0 and [RAND_MAX]. *)
Hypothesis Random_nonneg : forall w, 0 <= Random w.

Lemma TimeOfNextInterrupt_range t w : 0 < TimeOfNextInterrupt Random t w <= 2 * TimerTicks.
Proof.
  unfold TimeOfNextInterrupt, TimerTicks. pose proof (Random_nonneg w).
  destruct (randomize t); [|lia]. rewrite cmod_nonneg by lia. dlia.
Qed.

(** The timer device with the handler that the kernel installs, as a handler: every
    call re-arms the timer and asks for a context switch. *)
Lemma TimerExpired_ok this t w :
  is_s32 (now w) -> now w + 2 * TimerTicks < two31 ->
  inHandler (w_int w) = true -> status (w_int w) = SystemMode ->
  exists when, now w < when <= now w + 2 * TimerTicks /\
    when = now w + TimeOfNextInterrupt Random t w /\
    TimerExpired Random TimerHandlerPtr TimerInterruptHandler this t w =
      Ok (with_yieldOnReturn (with_pending w
            (q_sorted_insert (mkPending TimerHandlerPtr this when TimerInt) when
               (pending (w_int w)))) true).
Proof.
  intros Hn Hb Hh Hs. pose proof (TimeOfNextInterrupt_range t w) as Hr.
  exists (now w + TimeOfNextInterrupt Random t w). split; [lia|]. split; [done|].
  unfold TimerExpired, Schedule, is_s32 in *. rewrite (ASSERT_true (_ <? _)) by (apply Z.ltb_lt; lia).
  rewrite s32_small by (unfold is_s32, TimerTicks in *; lia). simpl.
  unfold TimerInterruptHandler, YieldOnReturn. simpl. by rewrite Hs, Hh.
Qed.

#[export] Instance Timer_contract t :
  HandlerContract (fun f this => TimerExpired Random TimerHandlerPtr TimerInterruptHandler this t)
    (2 * TimerTicks).
Proof.
  split; [done|]. intros f this w Hl Hh Hs [Hq Hn Hm] Hb.
  destruct (TimerExpired_ok this t w Hn Hb Hh Hs) as (when & Hw & _ & Heq).
  eexists _, [mkPending TimerHandlerPtr this when TimerInt]. rewrite Heq.
  split_and!; try done. by apply Forall_singleton.
Qed.

Lemma timer_run_due t this k w :
  time_ok w -> level (w_int w) = IntOff -> status (w_int w) <> IdleMode -> w_machine w = None ->
  pending (w_int w) = [(k, mkPending TimerHandlerPtr this k TimerInt)] ->
  now w + 2 * TimerTicks < two31 ->
  exists w2 k',
    run_due (fun f a => TimerExpired Random TimerHandlerPtr TimerInterruptHandler a t) w = Ok w2 /\
    pending (w_int w2) = [(k', mkPending TimerHandlerPtr this k' TimerInt)] /\
    if k <=? now w
    then now w < k' <= now w + 2 * TimerTicks /\ yieldOnReturn (w_int w2) = true
    else k' = k /\ yieldOnReturn (w_int w2) = yieldOnReturn (w_int w).
Proof.
  intros [Hq Hn Hm] Hl Hs Hmach Hp Hb. unfold run_due. rewrite Hp. cbn [length due_loop].
  destruct (Z.leb_spec k (now w)) as [Hdue|Hlater].
  - set (w1 := setStatus (with_inHandler (with_machine (with_pending w []) None) true) SystemMode).
    destruct (TimerExpired_ok this t w1) as (when & Hwhen & _ & Hexp); [done..|].
    change (now w1) with (now w) in Hwhen. unfold CheckIfDue at 2. rewrite Hp, Hl. simpl.
    change (now (with_pending w [])) with (now w). destruct (Z.ltb_spec (now w) k); [lia|].
    unfold invoke. simpl. rewrite bool_decide_eq_false_2 by done. simpl. rewrite Hmach. simpl.
    fold w1. rewrite Hexp. simpl. unfold CheckIfDue. simpl. rewrite Hl. simpl.
    destruct (Z.ltb_spec (now w) when); [|lia]. unfold now at 1. simpl. fold (now w).
    rewrite (proj2 (Z.ltb_lt _ _)) by lia. simpl. eexists _, when. split; [done|]. split; done.
  - unfold CheckIfDue. rewrite Hp, Hl. simpl. change (now (with_pending w [])) with (now w).
    rewrite (proj2 (Z.ltb_lt _ _)) by lia. simpl. by eexists _, k.
Qed.

(** Time slicing: while the timer is the only device, exactly one timer
    interrupt is pending. A tick that reaches its time re-arms the timer for a
    moment at most [2 * TimerTicks] later and asks the interrupted thread to yield;
    a tick that does not reach it changes neither. *)
Theorem Timer_slices Yield t this k w :
  time_ok w -> status (w_int w) <> IdleMode -> w_machine w = None ->
  pending (w_int w) = [(k, mkPending TimerHandlerPtr this k TimerInt)] ->
  now w + SystemTick + 2 * TimerTicks < two31 ->
  let device := fun f a => TimerExpired Random TimerHandlerPtr TimerInterruptHandler a t in
  let w0 := ChangeLevel (advance_tick w) IntOn IntOff in
  exists w2 k',
    run_due device w0 = Ok w2 /\
    pending (w_int w2) = [(k', mkPending TimerHandlerPtr this k' TimerInt)] /\
    OneTick device Yield w =
      (let w3 := ChangeLevel w2 IntOff IntOn in
       if yieldOnReturn (w_int w3) then
         w4 ← Yield (setStatus (with_yieldOnReturn w3 false) SystemMode);
         Ok (setStatus w4 (status (w_int w)))
       else Ok w3) /\
    if k <=? now w0
    then now w0 < k' <= now w0 + 2 * TimerTicks /\ yieldOnReturn (w_int w2) = true
    else k' = k /\ yieldOnReturn (w_int w2) = yieldOnReturn (w_int w).
Proof.
  intros Hw Hst Hmach Hp Hb device w0.
  destruct (advance_tick_ok w Hw) as (Ht & Hnow & _); [unfold TimerTicks in *; lia|].
  assert (now w0 <= now w + SystemTick) as Hle.
  { change (now w0) with (now (advance_tick w)). rewrite Hnow. unfold SystemTick, UserTick.
    destruct (bool_decide _); lia. }
  assert (w_machine w0 = None /\ status (w_int w0) = status (w_int w) /\
          pending (w_int w0) = pending (w_int w) /\
          yieldOnReturn (w_int w0) = yieldOnReturn (w_int w)) as (Hm0 & Hs0 & Hp0 & Hy0)
    by (unfold w0, advance_tick; destruct (bool_decide _); simpl; by rewrite Hmach).
  destruct (timer_run_due t this k w0) as (w2 & k' & Hrun & Hp2 & Hk);
    [by destruct Ht|done|by rewrite Hs0|done|by rewrite Hp0|lia|].
  exists w2, k'. fold device in Hrun. unfold OneTick. fold w0. rewrite Hrun, <- Hy0. done.
Qed.
End timer_proofs.

(** ** Witnesses: a machine whose only device is a random timer *)

Definition demo_random (w : world unit) : Z := 7.
Definition demo_timer (f a : Z) : world unit -> outcome (world unit) :=
  TimerExpired demo_random 1 TimerInterruptHandler a (mkTimer true 0).
Definition demo_world (st : MachineStatus) (q : queue PendingInterrupt) : world unit :=
  mkWorld (mkInterrupt IntOff q false false st) Statistics_new None ().

#[export] Instance demo_timer_contract : HandlerContract demo_timer (2 * TimerTicks).
Proof. apply (Timer_contract demo_random 1). intros w. vm_compute. congruence. Qed.

Lemma demo_world_ok st k :
  is_s32 k -> time_ok (demo_world st [(k, mkPending 1 0 k TimerInt)]) /\
    balanced (demo_world st [(k, mkPending 1 0 k TimerInt)]).
Proof.
  intros Hk. split; [|done]. constructor; [|by split|done].
  split; [|by apply Forall_singleton].
  constructor; [apply SSorted_nil|apply Forall_nil_2].
Qed.

Lemma OneTick_fires_due_witness :
  let w := demo_world SystemMode [(5, mkPending 1 0 5 TimerInt)] in
  exists w1 w2,
    fires demo_timer (ChangeLevel (advance_tick w) IntOn IntOff) [mkPending 1 0 5 TimerInt] w1 /\
    CheckIfDue demo_timer w1 false = Ok (false, w2) /\ now w2 = 10.
Proof.
  intros w. destruct (demo_world_ok SystemMode 5) as [Ht Hb]; [split; vm_compute; congruence|].
  destruct (OneTick_fires_due demo_timer Ok (2 * TimerTicks) w Ht Hb)
    as (w1 & w2 & Hf & Hc & _ & _ & _ & Hn & _).
  - vm_compute. congruence.
  - vm_compute. reflexivity.
  - exists w1, w2. split; [exact Hf|]. split; [exact Hc|]. rewrite Hn. reflexivity.
Defined.

Lemma Idle_advances_witness :
  let w := demo_world SystemMode [(5, mkPending 1 0 5 DiskInt); (9, mkPending 1 0 9 TimerInt)] in
  exists w', Idle demo_timer w = Ok (Some w') /\ now w' = 5.
Proof.
  intros w. destruct (Idle_advances demo_timer (2 * TimerTicks) w) as (w' & Hi & _ & _ & Hn & _).
  - constructor; [|split; vm_compute; congruence|exact I].
    split; [|repeat constructor; vm_compute; congruence].
    repeat constructor; vm_compute; congruence.
  - vm_compute. reflexivity.
  - reflexivity.
  - vm_compute. reflexivity.
  - exists w'. split; [exact Hi|]. rewrite Hn. reflexivity.
Defined.

Lemma Timer_slices_witness :
  let w := demo_world UserMode [(1, mkPending 1 0 1 TimerInt)] in
  exists w2 k', run_due demo_timer (ChangeLevel (advance_tick w) IntOn IntOff) = Ok w2 /\
    pending (w_int w2) = [(k', mkPending 1 0 k' TimerInt)] /\ 1 < k' <= 201.
Proof.
  intros w. destruct (demo_world_ok UserMode 1) as [Ht _]; [split; vm_compute; congruence|].
  destruct (Timer_slices demo_random 1 (fun _ => ltac:(vm_compute; congruence)) Ok
              (mkTimer true 0) 0 1 w Ht) as (w2 & k' & Hr & Hp & _ & Hk & _).
  - vm_compute. congruence.
  - reflexivity.
  - reflexivity.
  - vm_compute. reflexivity.
  - exists w2, k'. split; [exact Hr|]. split; [exact Hp|]. exact Hk.
Defined.
