(* ===== verification/Threads.v ===== *)
(** * threads/thread.cc and threads/scheduler.cc: threads and the dispatcher

    [kstate] is the kernel's view of its threads: the thread objects, the ready list
    (the abstract list of CList.v), the globals [currentThread] and
    [threadToBeDestroyed], the interrupt level, and the part of the simulated CPU
    that belongs to the running user program (its registers, and which address space
    the page table pointer points to).

    [SWITCH] (switch.s) saves the stack and the host registers of the old thread and
    loads those of the new one. Its effect is a transfer of control: the new thread
    goes on where it called [SWITCH], or at [ThreadRoot] when it has never run.
    [t_frame] records that place, so [Run] below is the code up to [SWITCH] executed
    by the old thread followed by the code that the new thread executes before it
    returns to its own business. The clock is in Interrupt.v; here [SetLevel] only
    sets the level. *)

From stdpp Require Import prelude numbers gmap list.
From S2P Require Import Prelude Params CList Interrupt.

Open Scope Z_scope.

Inductive ThreadStatus := JUST_CREATED | RUNNING | READY | BLOCKED.

#[export] Instance ThreadStatus_eq_dec : EqDecision ThreadStatus.
Proof. solve_decision. Defined.

(** Where a thread that is not running will go on. *)
Inductive frame :=
| AtThreadRoot                       (* it has never run *)
| InYield (oldLevel : IntStatus)     (* after [Run] in [Thread::Yield] *)
| InSleep.                           (* after [Run] in [Thread::Sleep] *)

#[export] Instance frame_eq_dec : EqDecision frame.
Proof. solve_decision. Defined.

Definition STACK_FENCEPOST : Z := 0xdeadbeef.

Record Thread := mkThread {
  t_status : ThreadStatus;
  t_stack : option Z;          (* the word at the end of the stack, [NULL] without one *)
  t_frame : frame;
  userRegisters : list Z;
  space : option positive }.

Record kstate := mkKernel {
  threads : gmap positive Thread;
  readyList : queue positive;
  currentThread : positive;
  threadToBeDestroyed : option positive;
  k_level : IntStatus;
  k_registers : list Z;
  k_pageTable : option positive }.

Definition with_threads (k : kstate) (t : gmap positive Thread) : kstate :=
  mkKernel t (readyList k) (currentThread k) (threadToBeDestroyed k) (k_level k)
    (k_registers k) (k_pageTable k).
Definition with_readyList (k : kstate) (q : queue positive) : kstate :=
  mkKernel (threads k) q (currentThread k) (threadToBeDestroyed k) (k_level k)
    (k_registers k) (k_pageTable k).
Definition with_currentThread (k : kstate) (t : positive) : kstate :=
  mkKernel (threads k) (readyList k) t (threadToBeDestroyed k) (k_level k)
    (k_registers k) (k_pageTable k).
Definition with_destroyed (k : kstate) (t : option positive) : kstate :=
  mkKernel (threads k) (readyList k) (currentThread k) t (k_level k)
    (k_registers k) (k_pageTable k).
Definition with_klevel (k : kstate) (l : IntStatus) : kstate :=
  mkKernel (threads k) (readyList k) (currentThread k) (threadToBeDestroyed k) l
    (k_registers k) (k_pageTable k).
Definition with_cpu (k : kstate) (regs : list Z) (pt : option positive) : kstate :=
  mkKernel (threads k) (readyList k) (currentThread k) (threadToBeDestroyed k) (k_level k)
    regs pt.

Definition set_status (t : Thread) (s : ThreadStatus) : Thread :=
  mkThread s (t_stack t) (t_frame t) (userRegisters t) (space t).
Definition set_frame (t : Thread) (f : frame) : Thread :=
  mkThread (t_status t) (t_stack t) f (userRegisters t) (space t).
Definition set_registers (t : Thread) (r : list Z) : Thread :=
  mkThread (t_status t) (t_stack t) (t_frame t) r (space t).

(** Updates the thread object at an address. *)
Definition update_thread (k : kstate) (t : positive) (f : Thread -> Thread) : outcome kstate :=
  th ← deref (threads k !! t);
  Ok (with_threads k (<[t := f th]> (threads k))).

(** [new Thread(name)]; [garbage] is what [userRegisters] holds. *)
Definition Thread_new (k : kstate) (garbage : list Z) : positive * kstate :=
  let t := fresh (dom (threads k)) in
  (t, with_threads k (<[t := mkThread JUST_CREATED None AtThreadRoot garbage None]> (threads k))).

(** [delete thread] *)
Definition Thread_delete (k : kstate) (t : positive) : outcome kstate :=
  _ ← deref (threads k !! t);
  ASSERT (bool_decide (t <> currentThread k));;
  Ok (with_threads k (delete t (threads k))).

Definition CheckOverflow (t : Thread) : outcome unit :=
  match t_stack t with
  | None => Ok ()
  | Some w => ASSERT (w =? STACK_FENCEPOST)
  end.

(** [SaveUserState] and [RestoreUserState] copy all the registers of the machine. *)
Definition SaveUserState (k : kstate) (t : positive) : outcome kstate :=
  update_thread k t (fun th => set_registers th (k_registers k)).
Definition RestoreUserState (k : kstate) (t : positive) : outcome kstate :=
  th ← deref (threads k !! t);
  Ok (with_cpu k (userRegisters th) (k_pageTable k)).

(** [AddrSpace::RestoreState]: the machine's page table is that of the space. *)
Definition RestoreState (k : kstate) (s : positive) : kstate :=
  with_cpu k (k_registers k) (Some s).

(** ** The scheduler *)

Definition ReadyToRun (k : kstate) (thread : positive) : outcome kstate :=
  k ← update_thread k thread (fun t => set_status t READY);
  Ok (with_readyList k (q_append thread (readyList k))).

Definition FindNextToRun (k : kstate) : option positive * kstate :=
  let '(x, q) := q_remove (readyList k) in
  (snd <$> x, with_readyList k q).

(** The rest of [Run], executed by the thread that [SWITCH] returned to. *)
Definition Run_after (k : kstate) : outcome kstate :=
  k ← match threadToBeDestroyed k with
      | None => Ok k
      | Some d => k ← Thread_delete k d; Ok (with_destroyed k None)
      end;
  th ← deref (threads k !! currentThread k);
  match space th with
  | None => Ok k
  | Some s => k ← RestoreUserState k (currentThread k); Ok (RestoreState k s)
  end.

(** Where [SWITCH] lands. [ThreadRoot] enables interrupts and calls the procedure of
    the thread; it does not execute the rest of [Run]. *)
Definition resume (k : kstate) : outcome kstate :=
  th ← deref (threads k !! currentThread k);
  match t_frame th with
  | AtThreadRoot => Ok (with_klevel k IntOn)
  | InYield old => k ← Run_after k; Ok (with_klevel k old)
  | InSleep => Run_after k
  end.

(** [Run(nextThread)], called from the place [f]. *)
Definition Run (k : kstate) (nextThread : positive) (f : frame) : outcome kstate :=
  let oldThread := currentThread k in
  th ← deref (threads k !! oldThread);
  k ← (match space th with None => Ok k | Some _ => SaveUserState k oldThread end);
  CheckOverflow th;;
  k ← update_thread k oldThread (fun t => set_frame t f);
  k ← update_thread (with_currentThread k nextThread) nextThread (fun t => set_status t RUNNING);
  resume k.

(** ** Thread operations *)

(** [StackAllocate]: a stack with the fencepost, and a start at [ThreadRoot]. *)
Definition StackAllocate (t : Thread) : Thread :=
  mkThread (t_status t) (Some STACK_FENCEPOST) AtThreadRoot (userRegisters t) (space t).

Definition Fork (k : kstate) (thread : positive) : outcome kstate :=
  k ← update_thread k thread StackAllocate;
  let oldLevel := k_level k in
  k ← ReadyToRun (with_klevel k IntOff) thread;
  Ok (with_klevel k oldLevel).

Definition Yield (k : kstate) : outcome kstate :=
  let oldLevel := k_level k in
  let this := currentThread k in
  let k := with_klevel k IntOff in
  match FindNextToRun k with
  | (Some nextThread, k) => k ← ReadyToRun k this; Run k nextThread (InYield oldLevel)
  | (None, k) => Ok (with_klevel k oldLevel)
  end.

(** The loop of [Sleep], until a thread is found: [false] when the machine idles. *)
Definition Sleep_dispatch (k : kstate) : outcome (bool * kstate) :=
  match FindNextToRun k with
  | (Some nextThread, k) => k ← Run k nextThread InSleep; Ok (true, k)
  | (None, k) => Ok (false, k)
  end.

Definition Sleep (k : kstate) : outcome (bool * kstate) :=
  ASSERT (bool_decide (k_level k = IntOff));;
  k ← update_thread k (currentThread k) (fun t => set_status t BLOCKED);
  Sleep_dispatch k.

Definition Finish (k : kstate) : outcome (bool * kstate) :=
  let k := with_klevel k IntOff in
  Sleep (with_destroyed k (Some (currentThread k))).

(** ** The invariant *)

Definition status_of (k : kstate) (t : positive) : option ThreadStatus :=
  t_status <$> threads k !! t.

Definition fence_ok (t : Thread) : Prop :=
  match t_stack t with None => True | Some w => w = STACK_FENCEPOST end.

(** The scheduling state, with the threads' statuses as a function: the ready list
    holds the [READY] threads, each once; only the current thread is [RUNNING]
    (it is [BLOCKED], or [READY] again, while it idles in [Sleep]); a thread that
    waits for its destruction is blocked. *)
Record sched_ok (st : positive -> option ThreadStatus) (ready : list positive)
    (cur : positive) (dead : option positive) : Prop := {
  so_current : exists s, st cur = Some s /\ s <> JUST_CREATED;
  so_running t : st t = Some RUNNING -> t = cur;
  so_ready t : t ∈ ready <-> st t = Some READY;
  so_nodup : NoDup ready;
  so_dead d : dead = Some d -> st d = Some BLOCKED }.

Definition kernel_ok (k : kstate) : Prop :=
  sched_ok (status_of k) (readyList k).*2 (currentThread k) (threadToBeDestroyed k) /\
  map_Forall (fun _ => fence_ok) (threads k).

(** [thread] may be put on the ready list: it is new, or it is blocked and not finished. *)
Definition wakeable (k : kstate) (thread : positive) : Prop :=
  (status_of k thread = Some JUST_CREATED \/ status_of k thread = Some BLOCKED) /\
  threadToBeDestroyed k <> Some thread.

(** A function changed at one place. *)
Definition upd (st : positive -> option ThreadStatus) (t : positive) (s : option ThreadStatus) :=
  fun t' => if decide (t' = t) then s else st t'.

Lemma upd_eq st t s : upd st t s t = s.
Proof. unfold upd. by rewrite decide_True. Qed.
Lemma upd_ne st t s t' : t' <> t -> upd st t s t' = st t'.
Proof. intros. unfold upd. by rewrite decide_False. Qed.

Lemma sched_ok_ext st st' ready cur dead :
  (forall t, st t = st' t) -> sched_ok st ready cur dead -> sched_ok st' ready cur dead.
Proof.
  intros He [H1 H2 H3 H4 H5]. constructor; [| | |done|].
  - by rewrite <- He.
  - intros t. rewrite <- He. apply H2.
  - intros t. by rewrite <- He.
  - intros d Hd. rewrite <- He. by apply H5.
Qed.

(** Putting a thread on the ready list. *)
Lemma sched_ok_wake st ready cur dead t :
  sched_ok st ready cur dead -> st t <> Some READY ->
  dead <> Some t -> sched_ok (upd st t (Some READY)) (ready ++ [t]) cur dead.
Proof.
  intros [Hc Hr Hq Hn Hd] Ht Hdt. constructor.
  - unfold upd. destruct (decide (cur = t)); [by exists READY|done].
  - intros t'. unfold upd. destruct (decide (t' = t)); [done|apply Hr].
  - intros t'. rewrite elem_of_app, list_elem_of_singleton. unfold upd.
    destruct (decide (t' = t)) as [->|]; [by split; auto|]. rewrite Hq. split; [|auto].
    by intros [?|?].
  - apply NoDup_app. split; [done|]. split; [|apply NoDup_singleton].
    intros x Hx ->%list_elem_of_singleton. by apply Hq in Hx.
  - intros d ->. rewrite upd_ne; [by apply Hd|congruence].
Qed.

(** The current thread blocks. *)
Lemma sched_ok_block st ready cur dead :
  sched_ok st ready cur dead -> st cur = Some RUNNING ->
  sched_ok (upd st cur (Some BLOCKED)) ready cur dead.
Proof.
  intros [Hc Hr Hq Hn Hd] Hrun. constructor; [|..|done|].
  - rewrite upd_eq. by exists BLOCKED.
  - intros t. unfold upd. destruct (decide (t = cur)); [done|]. apply Hr.
  - intros t. unfold upd. destruct (decide (t = cur)) as [->|]; [|apply Hq].
    rewrite Hq, Hrun. by split.
  - intros d He. unfold upd. destruct (decide (d = cur)); [done|]. by apply Hd.
Qed.

(** The head of the ready list gets the CPU. *)
Lemma sched_ok_run st ready cur dead next :
  sched_ok st (next :: ready) cur dead -> st cur <> Some RUNNING ->
  sched_ok (upd st next (Some RUNNING)) ready next dead.
Proof.
  intros [Hc Hr Hq Hn Hd] Hcur. apply NoDup_cons in Hn as [Hnin Hn].
  assert (st next = Some READY) as Hnext by (apply Hq, elem_of_cons; auto). constructor; [|..|done|].
  - rewrite upd_eq. by exists RUNNING.
  - intros t. unfold upd. destruct (decide (t = next)); [done|]. intros Ht.
    pose proof (Hr t Ht). congruence.
  - intros t. unfold upd. destruct (decide (t = next)) as [->|]; [by split|].
    rewrite <- Hq, elem_of_cons. split; [auto|]. by intros [?|?].
  - intros d He. pose proof (Hd d He). unfold upd. destruct (decide (d = next)); [congruence|done].
Qed.

(** The finished thread is deleted. *)
Lemma sched_ok_delete st ready cur d :
  sched_ok st ready cur (Some d) -> st cur = Some RUNNING ->
  sched_ok (upd st d None) ready cur None.
Proof.
  intros [Hc Hr Hq Hn Hd] Hrun. pose proof (Hd d eq_refl) as Hdb. constructor; [|..|done|done].
  - rewrite upd_ne by congruence. by exists RUNNING.
  - intros t. unfold upd. destruct (decide (t = d)); [done|]. apply Hr.
  - intros t. unfold upd. destruct (decide (t = d)) as [->|]; [|apply Hq]. rewrite Hq, Hdb. by split.
Qed.

(** Marking the current thread for destruction. *)
Lemma sched_ok_finish st ready cur dead :
  sched_ok st ready cur dead -> st cur = Some BLOCKED -> sched_ok st ready cur (Some cur).
Proof. intros [Hc Hr Hq Hn Hd] Hb. constructor; try done. by intros d [= <-]. Qed.

Lemma status_insert k t th t' :
  status_of (with_threads k (<[t := th]> (threads k))) t' = upd (status_of k) t (Some (t_status th)) t'.
Proof.
  unfold status_of, upd. simpl. destruct (decide (t' = t)) as [->|Hne].
  - by rewrite lookup_insert_eq.
  - by rewrite lookup_insert_ne by done.
Qed.

Lemma status_delete k t t' :
  status_of (with_threads k (delete t (threads k))) t' = upd (status_of k) t None t'.
Proof.
  unfold status_of, upd. simpl. destruct (decide (t' = t)) as [->|Hne].
  - by rewrite lookup_delete_eq.
  - by rewrite lookup_delete_ne by done.
Qed.

Lemma status_some k t s : status_of k t = Some s -> exists th, threads k !! t = Some th /\ t_status th = s.
Proof. unfold status_of. destruct (threads k !! t); simpl; [|done]. intros [= <-]. eauto. Qed.

Lemma lookup_status k t th : threads k !! t = Some th -> status_of k t = Some (t_status th).
Proof. unfold status_of. by intros ->. Qed.

Lemma q_append_snd {A} (x : A) (q : queue A) : (q_append x q).*2 = q.*2 ++ [x].
Proof. unfold q_append. by rewrite fmap_app. Qed.

Lemma fence_keep th th' : t_stack th' = t_stack th -> fence_ok th -> fence_ok th'.
Proof. unfold fence_ok. by intros ->. Qed.

Lemma fence_at (m : gmap positive Thread) t th :
  map_Forall (fun _ => fence_ok) m -> m !! t = Some th -> fence_ok th.
Proof. intros Hm Ht. exact (Hm t th Ht). Qed.

(** The other fields that scheduling operations leave alone. *)
Definition same_cpu (k k' : kstate) : Prop :=
  k_registers k' = k_registers k /\ k_pageTable k' = k_pageTable k.

(** A thread object apart from its status. *)
Definition ignore_status (th : Thread) : Thread := set_status th READY.

(** Putting a thread on the ready list. *)
Lemma ReadyToRun_ok k thread s :
  kernel_ok k -> status_of k thread = Some s -> s <> READY -> threadToBeDestroyed k <> Some thread ->
  exists k', ReadyToRun k thread = Ok k' /\ kernel_ok k' /\
    (readyList k').*2 = (readyList k).*2 ++ [thread] /\ currentThread k' = currentThread k /\
    threadToBeDestroyed k' = threadToBeDestroyed k /\ k_level k' = k_level k /\ same_cpu k k' /\
    (forall t, status_of k' t = upd (status_of k) thread (Some READY) t) /\
    (forall t, ignore_status <$> threads k' !! t = ignore_status <$> threads k !! t).
Proof.
  intros [Hk Hf] Hst Hs Hd. destruct (status_some _ _ _ Hst) as (th & Hth & Hths).
  unfold ReadyToRun, update_thread. rewrite Hth. simpl. eexists. split; [done|].
  assert (forall t, upd (status_of k) thread (Some READY) t = status_of
     (with_threads k (<[thread := set_status th READY]> (threads k))) t) as Hst'
    by (intros t; by rewrite status_insert).
  split_and!; try done; simpl.
  - split; simpl.
    + rewrite q_append_snd. eapply sched_ok_ext; [exact Hst'|].
      apply sched_ok_wake; [done|congruence|done].
    + apply map_Forall_insert_2; [|done]. exact (Hf thread th Hth).
  - by rewrite q_append_snd.
  - intros t. destruct (decide (t = thread)) as [->|]; [|by rewrite lookup_insert_ne by done].
    rewrite lookup_insert_eq, Hth. done.
Qed.

Definition never_ran (th : Thread) : bool := bool_decide (t_frame th = AtThreadRoot).

(** The end of [Run]: the finished thread is deleted and the user state restored. *)
Lemma Run_after_ok k th :
  kernel_ok k -> threads k !! currentThread k = Some th -> t_status th = RUNNING ->
  exists k1, Run_after k = Ok k1 /\ kernel_ok k1 /\
    currentThread k1 = currentThread k /\ readyList k1 = readyList k /\
    (forall t, threads k1 !! t = if bool_decide (threadToBeDestroyed k = Some t) then None else threads k !! t) /\
    threadToBeDestroyed k1 = None /\ k_level k1 = k_level k /\
    (k_registers k1, k_pageTable k1) =
      match space th with
      | Some s => (userRegisters th, Some s)
      | None => (k_registers k, k_pageTable k)
      end.
Proof.
  intros [Hk Hf] Hth Hrun. pose proof (lookup_status _ _ _ Hth) as Hst. rewrite Hrun in Hst.
  assert (exists k1, match threadToBeDestroyed k with
      | None => Ok k
      | Some d => k ← Thread_delete k d; Ok (with_destroyed k None)
      end = Ok k1 /\ kernel_ok k1 /\ currentThread k1 = currentThread k /\ readyList k1 = readyList k /\
      (forall t, threads k1 !! t = if bool_decide (threadToBeDestroyed k = Some t) then None else threads k !! t) /\
      threadToBeDestroyed k1 = None /\ k_level k1 = k_level k /\ same_cpu k k1)
    as (k1 & Hdel & Hk1 & Hc & Hq & Ht & Hd & Hl & Hcpu).
  { destruct (threadToBeDestroyed k) as [d|] eqn:Hd; [|exists k; rewrite Hd; split_and!; try done; split; by rewrite ?Hd].
    assert (d <> currentThread k) as Hne by (intros ->; pose proof (so_dead _ _ _ _ Hk _ eq_refl); congruence).
    destruct (status_some _ _ _ (so_dead _ _ _ _ Hk _ eq_refl)) as (dth & Hdth & _).
    unfold Thread_delete. rewrite Hdth. cbn [deref mbind outcome_bind].
    rewrite bool_decide_eq_true_2 by done. simpl. eexists. split; [done|].
    split_and!; try done; simpl.
    - split; simpl; [|by apply map_Forall_delete].
      eapply sched_ok_ext; [intros t; symmetry; apply status_delete|]. by apply sched_ok_delete.
    - intros t. destruct (decide (t = d)) as [->|Hdt].
      + by rewrite lookup_delete_eq, bool_decide_eq_true_2.
      + rewrite lookup_delete_ne by done. rewrite bool_decide_eq_false_2; [done|congruence]. }
  assert (threads k1 !! currentThread k = Some th) as Hth1.
  { rewrite Ht, bool_decide_eq_false_2; [done|]. intros Hd'. pose proof (so_dead _ _ _ _ Hk _ Hd'). congruence. }
  unfold Run_after. rewrite Hdel. simpl. rewrite Hc, Hth1. simpl. destruct Hcpu as [Hr Hp].
  destruct (space th) as [sp|]; [|exists k1; split_and!; try done; by rewrite Hr, Hp].
  unfold RestoreUserState. rewrite Hth1. simpl. eexists. split; [done|]. by split_and!.
Qed.

(** What the thread that gets the CPU does before it goes on with its own code. A
    thread that starts at [ThreadRoot] skips the end of [Run]. *)
Lemma resume_ok k th :
  kernel_ok k -> threads k !! currentThread k = Some th -> t_status th = RUNNING ->
  exists k', resume k = Ok k' /\ kernel_ok k' /\
    currentThread k' = currentThread k /\ readyList k' = readyList k /\
    (forall t, threads k' !! t =
       if negb (never_ran th) && bool_decide (threadToBeDestroyed k = Some t) then None
       else threads k !! t) /\
    threadToBeDestroyed k' = (if never_ran th then threadToBeDestroyed k else None) /\
    (k_registers k', k_pageTable k') =
      (if never_ran th then (k_registers k, k_pageTable k)
       else match space th with
            | Some s => (userRegisters th, Some s)
            | None => (k_registers k, k_pageTable k)
            end) /\
    k_level k' = match t_frame th with AtThreadRoot => IntOn | InYield old => old | InSleep => k_level k end.
Proof.
  intros Hk Hth Hrun.
  destruct (Run_after_ok k th Hk Hth Hrun) as (k1 & Hra & Hk1 & Hc & Hq & Ht & Hd & Hl & Hcpu).
  unfold resume, never_ran. rewrite Hth. simpl.
  destruct (t_frame th) as [|old|]; simpl.
  - eexists. split; [done|]. by split_and!.
  - rewrite Hra. simpl. eexists. split; [done|]. by split_and!.
  - exists k1. by split_and!.
Qed.

(** The thread object of the old thread when it has called [SWITCH]. *)
Definition saved (k : kstate) (th : Thread) (f : frame) : Thread :=
  set_frame (match space th with None => th | Some _ => set_registers th (k_registers k) end) f.

(** The thread objects at the [SWITCH]. *)
Definition at_switch (k : kstate) (oth nth : Thread) (next : positive) (f : frame) : kstate :=
  with_threads (with_currentThread k next)
    (<[next := set_status (if decide (next = currentThread k) then saved k oth f else nth) RUNNING]>
       (<[currentThread k := saved k oth f]> (threads k))).

Lemma Run_eq k oth nth next f :
  threads k !! currentThread k = Some oth -> threads k !! next = Some nth -> fence_ok oth ->
  Run k next f = resume (at_switch k oth nth next f).
Proof.
  intros Ho Hn Hf. unfold Run, at_switch, saved, SaveUserState, update_thread. rewrite Ho. simpl.
  assert (CheckOverflow oth = Ok ()) as Hck.
  { unfold CheckOverflow, fence_ok in *. destruct (t_stack oth); [|done]. subst. done. }
  rewrite Hck. destruct (space oth); simpl; rewrite ?Ho; simpl;
    rewrite ?lookup_insert_eq; simpl; rewrite ?insert_insert_eq;
    (destruct (decide (next = currentThread k)) as [->|Hne];
     [rewrite lookup_insert_eq | rewrite lookup_insert_ne, Hn by done]; done).
Qed.

Lemma saved_status k th f : t_status (saved k th f) = t_status th.
Proof. unfold saved. by destruct (space th). Qed.

Lemma saved_stack k th f : t_stack (saved k th f) = t_stack th.
Proof. unfold saved. by destruct (space th). Qed.

(** [next] before it runs: its own object, or the saved one when it is the thread
    that idled. *)
Definition incoming (k : kstate) (oth nth : Thread) (next : positive) (f : frame) : Thread :=
  if decide (next = currentThread k) then saved k oth f else nth.

Lemma at_switch_status k oth nth next f t :
  threads k !! currentThread k = Some oth ->
  status_of (at_switch k oth nth next f) t = upd (status_of k) next (Some RUNNING) t.
Proof.
  intros Ho. unfold at_switch, status_of, upd. simpl.
  destruct (decide (t = next)) as [->|Hne]; [by rewrite lookup_insert_eq|].
  rewrite lookup_insert_ne by done. destruct (decide (t = currentThread k)) as [->|Hne'].
  - rewrite lookup_insert_eq, Ho.
    change (Some (t_status (saved k oth f)) = Some (t_status oth)). by rewrite saved_status.
  - by rewrite lookup_insert_ne by done.
Qed.

Lemma Run_ok k z next f oth nth :
  kernel_ok (with_readyList k ((z, next) :: readyList k)) ->
  status_of k (currentThread k) <> Some RUNNING ->
  threads k !! currentThread k = Some oth -> threads k !! next = Some nth ->
  let inc := incoming k oth nth next f in
  exists k', Run k next f = Ok k' /\ kernel_ok k' /\ currentThread k' = next /\
    readyList k' = readyList k /\
    (forall t, threads k' !! t =
       if negb (never_ran inc) && bool_decide (threadToBeDestroyed k = Some t) then None
       else threads (at_switch k oth nth next f) !! t) /\
    threadToBeDestroyed k' = (if never_ran inc then threadToBeDestroyed k else None) /\
    (k_registers k', k_pageTable k') =
      (if never_ran inc then (k_registers k, k_pageTable k)
       else match space inc with
            | Some s => (userRegisters inc, Some s)
            | None => (k_registers k, k_pageTable k)
            end) /\
    k_level k' = match t_frame inc with AtThreadRoot => IntOn | InYield old => old | InSleep => k_level k end.
Proof.
  intros [Hk Hf] Hcur Ho Hn inc. rewrite (Run_eq k oth nth) by (done || exact (fence_at _ _ _ Hf Ho)).
  set (s := at_switch k oth nth next f).
  assert (threads s !! next = Some (set_status inc RUNNING)) as Hnext
    by (unfold s, at_switch, inc, incoming; simpl; by rewrite lookup_insert_eq).
  assert (kernel_ok s) as Hs.
  { split.
    - eapply sched_ok_ext; [intros t; symmetry; by apply at_switch_status|]. simpl.
      eapply sched_ok_run; [exact Hk|exact Hcur].
    - unfold s, at_switch. simpl. repeat apply map_Forall_insert_2; [| |done].
      + simpl. destruct (decide _); [eapply fence_keep; [apply saved_stack|]|];
          [exact (fence_at _ _ _ Hf Ho)|exact (fence_at _ _ _ Hf Hn)].
      + eapply fence_keep; [apply saved_stack|]. exact (fence_at _ _ _ Hf Ho). }
  destruct (resume_ok s (set_status inc RUNNING)) as (k' & Hr & Hk' & Hc & Hq & Ht & Hd & Hcpu & Hl);
    [done|done|done|].
  exists k'. by split_and!.
Qed.

Lemma FindNextToRun_cons k z next q :
  readyList k = (z, next) :: q -> FindNextToRun k = (Some next, with_readyList k q).
Proof. unfold FindNextToRun. by intros ->. Qed.

Lemma FindNextToRun_nil k : readyList k = [] -> FindNextToRun k = (None, with_readyList k []).
Proof. unfold FindNextToRun. by intros ->. Qed.

Lemma kernel_ok_level k l : kernel_ok k -> kernel_ok (with_klevel k l).
Proof. done. Qed.

Lemma kernel_ok_next k z next q :
  kernel_ok k -> readyList k = (z, next) :: q ->
  exists nth, threads k !! next = Some nth /\ t_status nth = READY.
Proof.
  intros [Hk _] Hq. apply status_some. apply (so_ready _ _ _ _ Hk). rewrite Hq. simpl. set_solver.
Qed.

Lemma Fork_ok k t :
  kernel_ok k -> status_of k t = Some JUST_CREATED ->
  exists k', Fork k t = Ok k' /\ kernel_ok k' /\ (readyList k').*2 = (readyList k).*2 ++ [t] /\
    currentThread k' = currentThread k /\ k_level k' = k_level k /\
    threadToBeDestroyed k' = threadToBeDestroyed k /\
    (forall t', status_of k' t' = upd (status_of k) t (Some READY) t') /\
    (forall t', t' <> t -> ignore_status <$> threads k' !! t' = ignore_status <$> threads k !! t').
Proof.
  intros [Hk Hf] Hst. destruct (status_some _ _ _ Hst) as (th & Hth & Hs).
  unfold Fork, update_thread. rewrite Hth. simpl.
  set (k1 := with_klevel (with_threads k (<[t:=StackAllocate th]> (threads k))) IntOff).
  assert (forall t', status_of k1 t' = status_of k t') as Hst1.
  { intros t'. unfold k1. change (status_of (with_klevel ?k _)) with (status_of k).
    rewrite status_insert. unfold upd. destruct (decide (t' = t)) as [->|]; [|done].
    simpl. by rewrite Hst, Hs. }
  destruct (ReadyToRun_ok k1 t JUST_CREATED) as (k' & Hr & Hk' & Hq & Hc & Hd & Hl & _ & Hst' & Hig).
  - split; [|by apply map_Forall_insert_2]. by eapply sched_ok_ext; [intros t'; symmetry; apply Hst1|].
  - by rewrite Hst1.
  - done.
  - intros Hd. pose proof (so_dead _ _ _ _ Hk _ Hd). congruence.
  - rewrite Hr. simpl. eexists. split; [done|]. split_and!; try done.
    + intros t'. change (status_of (with_klevel ?k _)) with (status_of k). rewrite Hst'.
      unfold upd. by rewrite Hst1.
    + intros t' Hne. simpl. rewrite Hig. unfold k1. simpl. by rewrite lookup_insert_ne.
Qed.

(** [Yield] with another thread ready: the next one runs and this one goes to the end. *)
Lemma Yield_ok k z next q th nth :
  kernel_ok k -> threads k !! currentThread k = Some th -> t_status th = RUNNING ->
  readyList k = (z, next) :: q -> threads k !! next = Some nth ->
  exists k', Yield k = Ok k' /\ kernel_ok k' /\ currentThread k' = next /\
    (readyList k').*2 = q.*2 ++ [currentThread k] /\
    threads k' !! currentThread k =
      Some (saved k (set_status th READY) (InYield (k_level k))) /\
    (forall t, t <> currentThread k -> t <> next ->
       threads k' !! t = if negb (never_ran nth) && bool_decide (threadToBeDestroyed k = Some t)
                         then None else threads k !! t) /\
    threads k' !! next = Some (set_status nth RUNNING) /\
    threadToBeDestroyed k' = (if never_ran nth then threadToBeDestroyed k else None) /\
    (k_registers k', k_pageTable k') =
      (if never_ran nth then (k_registers k, k_pageTable k)
       else match space nth with
            | Some s => (userRegisters nth, Some s)
            | None => (k_registers k, k_pageTable k)
            end) /\
    k_level k' = match t_frame nth with AtThreadRoot => IntOn | InYield old => old | InSleep => IntOff end.
Proof.
  intros Hk Hth Hrun Hq Hnth. pose proof Hk as [Hs Hf]. pose proof (lookup_status _ _ _ Hth) as Hst.
  rewrite Hrun in Hst. set (cur := currentThread k) in *.
  assert (status_of k next = Some READY) as Hnext
    by (apply (so_ready _ _ _ _ Hs); rewrite Hq; simpl; set_solver).
  assert (next <> cur) as Hne by congruence.
  assert (forall t s, status_of k t = Some s -> s <> BLOCKED -> threadToBeDestroyed k <> Some t) as Hdead
    by (intros t s Hts Hsb Hd; pose proof (so_dead _ _ _ _ Hs _ Hd); congruence).
  unfold Yield. fold cur. rewrite (FindNextToRun_cons _ z next q) by done.
  unfold ReadyToRun, update_thread. simpl. rewrite Hth. simpl.
  set (k1 := with_readyList _ _).
  assert (kernel_ok (with_readyList k1 ((z, next) :: readyList k1))) as Hk1.
  { split.
    - eapply sched_ok_ext; [intros t; symmetry; exact (status_insert k cur (set_status th READY) t)|].
      simpl. rewrite q_append_snd. change (next :: q.*2 ++ [cur]) with ((next :: q.*2) ++ [cur]).
      rewrite Hq in Hs. apply sched_ok_wake; [done|fold cur; congruence|].
      intros Hd. pose proof (so_dead _ _ _ _ Hs _ Hd). congruence.
    - simpl. apply map_Forall_insert_2; [|done]. exact (fence_at _ _ _ Hf Hth). }
  destruct (Run_ok k1 z next (InYield (k_level k)) (set_status th READY) nth Hk1)
    as (k' & Hr & Hk' & Hc & Hq' & Ht & Hd & Hcpu & Hl).
  - change (status_of k1 cur <> Some RUNNING). unfold status_of. simpl. by rewrite lookup_insert_eq.
  - simpl. fold cur. by rewrite lookup_insert_eq.
  - simpl. fold cur. by rewrite lookup_insert_ne.
  - assert (incoming k1 (set_status th READY) nth next (InYield (k_level k)) = nth) as Hinc
      by (unfold incoming; by rewrite decide_False).
    rewrite Hinc in *. exists k'. split; [done|]. split_and!; try done.
    + rewrite Hq'. unfold k1. simpl. by rewrite q_append_snd.
    + rewrite Ht, (bool_decide_eq_false_2 (_ = Some cur)), andb_false_r by (by eapply Hdead).
      unfold at_switch. simpl. fold cur. by rewrite lookup_insert_ne, lookup_insert_eq.
    + intros t Ht1 Ht2. rewrite Ht. unfold at_switch. simpl. fold cur.
      by rewrite !lookup_insert_ne.
    + rewrite Ht, (bool_decide_eq_false_2 (_ = Some next)), andb_false_r by (by eapply Hdead).
      unfold at_switch. simpl. fold cur. rewrite lookup_insert_eq. by rewrite decide_False.
Qed.

(** Blocking the current thread. *)
Lemma block_ok k th :
  kernel_ok k -> threads k !! currentThread k = Some th -> t_status th = RUNNING ->
  let k1 := with_threads k (<[currentThread k := set_status th BLOCKED]> (threads k)) in
  update_thread k (currentThread k) (fun t => set_status t BLOCKED) = Ok k1 /\ kernel_ok k1 /\
  status_of k1 (currentThread k) = Some BLOCKED.
Proof.
  intros [Hs Hf] Hth Hrun k1. pose proof (lookup_status _ _ _ Hth) as Hst. rewrite Hrun in Hst.
  unfold update_thread. rewrite Hth. split; [done|]. split; [split|].
  - eapply sched_ok_ext; [intros t; symmetry; apply status_insert|]. by apply sched_ok_block.
  - apply map_Forall_insert_2; [|done]. exact (fence_at _ _ _ Hf Hth).
  - unfold k1. rewrite status_insert. apply upd_eq.
Qed.

Lemma Sleep_dispatch_ok k :
  kernel_ok k -> status_of k (currentThread k) <> Some RUNNING ->
  exists b k', Sleep_dispatch k = Ok (b, k') /\ kernel_ok k' /\
    match readyList k with
    | [] => b = false /\ k' = k
    | (z, next) :: q =>
        b = true /\ currentThread k' = next /\ readyList k' = q /\
        status_of k' next = Some RUNNING
    end.
Proof.
  intros Hk Hcur. unfold Sleep_dispatch. destruct (readyList k) as [|[z next] q] eqn:Hq.
  { rewrite FindNextToRun_nil by done. exists false, k. split; [|done].
    destruct k; simpl in *. by subst. }
  rewrite (FindNextToRun_cons _ z next q) by done.
  destruct (kernel_ok_next k z next q Hk Hq) as (nth & Hn & _).
  destruct (so_current _ _ _ _ (proj1 Hk)) as (s & Hs & _).
  destruct (status_some _ _ _ Hs) as (oth & Ho & _).
  destruct (Run_ok (with_readyList k q) z next InSleep oth nth) as (k' & Hr & Hk' & Hc & Hq' & Ht & _);
    [|done..|].
  { simpl. rewrite <- Hq. by destruct k. }
  rewrite Hr. exists true, k'. split; [done|]. split_and!; try done.
  destruct (so_current _ _ _ _ (proj1 Hk')) as (s' & Hs' & _). rewrite Hc in Hs'.
  destruct (status_some _ _ _ Hs') as (th' & Hth' & _). rewrite (lookup_status _ _ _ Hth').
  rewrite Ht in Hth'. destruct (_ && _); [done|]. unfold at_switch in Hth'. simpl in Hth'.
  rewrite lookup_insert_eq in Hth'. by injection Hth' as <-.
Qed.

Lemma Sleep_ok k th :
  kernel_ok k -> threads k !! currentThread k = Some th -> t_status th = RUNNING ->
  k_level k = IntOff ->
  exists b k', Sleep k = Ok (b, k') /\ kernel_ok k' /\
    match readyList k with
    | [] => b = false /\ status_of k' (currentThread k) = Some BLOCKED /\
            currentThread k' = currentThread k
    | (z, next) :: q =>
        b = true /\ currentThread k' = next /\ readyList k' = q /\
        status_of k' next = Some RUNNING
    end.
Proof.
  intros Hk Hth Hrun Hl. destruct (block_ok k th Hk Hth Hrun) as (Hup & Hk1 & Hb).
  unfold Sleep. rewrite Hl, Hup. simpl.
  destruct (Sleep_dispatch_ok _ Hk1) as (b & k' & Hd & Hk' & Hcase); [simpl; congruence|].
  rewrite Hd. exists b, k'. split; [done|]. split; [done|]. simpl in Hcase.
  destruct (readyList k) as [|[z next] q]; [|done]. by destruct Hcase as [-> ->].
Qed.

(** [Finish]: the thread is deleted at once when the next thread returns from its own
    [SWITCH]; a thread that starts at [ThreadRoot] leaves it for later. *)
Lemma Finish_ok k th :
  kernel_ok k -> threads k !! currentThread k = Some th -> t_status th = RUNNING ->
  exists b k', Finish k = Ok (b, k') /\ kernel_ok k' /\
    match readyList k with
    | [] => b = false
    | (z, next) :: q =>
        b = true /\ currentThread k' = next /\ readyList k' = q /\
        exists nth, threads k !! next = Some nth /\ threads k' !! next = Some (set_status nth RUNNING) /\
          (forall t, t <> currentThread k -> t <> next -> threads k' !! t = threads k !! t) /\
          if never_ran nth
          then threadToBeDestroyed k' = Some (currentThread k) /\
               status_of k' (currentThread k) = Some BLOCKED
          else threadToBeDestroyed k' = None /\ threads k' !! currentThread k = None
    end.
Proof.
  intros Hk Hth Hrun. set (cur := currentThread k) in *.
  destruct (block_ok k th Hk Hth Hrun) as (_ & Hk1 & Hb).
  unfold Finish, Sleep, update_thread. simpl. fold cur. rewrite Hth. simpl. fold cur.
  set (k1 := with_threads _ _).
  assert (kernel_ok k1) as Hk1'.
  { destruct Hk1 as [Hs1 Hf1]. split; [|done]. by eapply sched_ok_finish. }
  assert (status_of k1 cur = Some BLOCKED) as Hb1 by exact Hb.
  destruct (readyList k) as [|[z next] q] eqn:Hq.
  { destruct (Sleep_dispatch_ok k1 Hk1') as (b & k' & Hd & Hk' & Hcase); [simpl; fold cur; congruence|].
    change (readyList k1) with (readyList k) in Hcase. rewrite Hq in Hcase. rewrite Hd.
    destruct Hcase as [-> ->]. by exists false, k1. }
  destruct (kernel_ok_next k z next q Hk Hq) as (nth & Hn & Hnr).
  assert (next <> cur) as Hne by (intros ->; fold cur in Hn; congruence).
  unfold Sleep_dispatch. rewrite (FindNextToRun_cons k1 z next q) by done.
  destruct (Run_ok (with_readyList k1 q) z next InSleep (set_status th BLOCKED) nth)
    as (k' & Hr & Hk' & Hc & Hq' & Ht & Hd & _).
  - change (kernel_ok (with_readyList k1 ((z, next) :: q))). rewrite <- Hq. exact Hk1'.
  - change (status_of k1 cur <> Some RUNNING). congruence.
  - simpl. fold cur. by rewrite lookup_insert_eq.
  - simpl. fold cur. by rewrite lookup_insert_ne.
  - rewrite Hr. exists true, k'. split; [done|]. split; [done|]. split_and!; try done.
    exists nth. split; [done|].
    assert (incoming (with_readyList k1 q) (set_status th BLOCKED) nth next InSleep = nth) as Hinc
      by (unfold incoming; by rewrite decide_False).
    rewrite Hinc in *. simpl in Ht. fold cur in Ht. split_and!.
    + rewrite Ht, (bool_decide_eq_false_2 (Some cur = Some next)), andb_false_r by congruence.
      rewrite lookup_insert_eq. by rewrite decide_False.
    + intros t Ht1 Ht2. rewrite Ht, (bool_decide_eq_false_2 (Some cur = Some t)), andb_false_r by congruence.
      by rewrite !lookup_insert_ne.
    + destruct (never_ran nth) eqn:Hfr; (split; [exact Hd|]).
      * unfold status_of. rewrite Ht. simpl. rewrite lookup_insert_ne, lookup_insert_eq by done.
        unfold saved. by destruct (space (set_status th BLOCKED)).
      * rewrite Ht. by rewrite bool_decide_eq_true_2.
Qed.

(** ** Effects, as the synchronization objects see them *)

Definition frame_of (k : kstate) (t : positive) : option frame := t_frame <$> threads k !! t.

(** What a switch from the current thread, which goes on at [f], to [next] does to
    every thread other than the one that waits for its destruction. *)
Record switch_effect (k k' : kstate) (next : positive) (f : frame) : Prop := {
  se_ok : kernel_ok k';
  se_current : currentThread k' = next;
  se_status t : threadToBeDestroyed k <> Some t ->
    status_of k' t = upd (status_of k) next (Some RUNNING) t;
  se_frame t : threadToBeDestroyed k <> Some t ->
    frame_of k' t = if decide (t = currentThread k) then Some f else frame_of k t;
  se_dead d : threadToBeDestroyed k' = Some d -> threadToBeDestroyed k = Some d;
  se_level : k_level k' =
    match frame_of k' next with Some InSleep => k_level k | Some (InYield old) => old | _ => IntOn end }.

Lemma Run_effect k z next f :
  kernel_ok (with_readyList k ((z, next) :: readyList k)) ->
  status_of k (currentThread k) <> Some RUNNING ->
  exists k', Run k next f = Ok k' /\ switch_effect k k' next f /\ readyList k' = readyList k.
Proof.
  intros Hk Hcur. pose proof (proj1 Hk) as Hs.
  assert (status_of k next = Some READY) as Hnext
    by (apply (so_ready _ _ _ _ Hs); simpl; set_solver).
  destruct (status_some _ _ _ Hnext) as (nth & Hn & _).
  destruct (so_current _ _ _ _ Hs) as (s & Hsc & _).
  destruct (status_some _ _ _ Hsc) as (oth & Ho & _). simpl in Ho.
  assert (forall t, threadToBeDestroyed k = Some t -> status_of k t = Some BLOCKED) as Hdead
    by (intros t Hd; exact (so_dead _ _ _ _ Hs t Hd)).
  assert (threadToBeDestroyed k <> Some next) as Hnd by (intros Hd; apply Hdead in Hd; congruence).
  destruct (Run_ok k z next f oth nth Hk Hcur Ho Hn) as (k' & Hr & Hk' & Hc & Hq & Ht & Hd & _ & Hl).
  assert (forall t, threadToBeDestroyed k <> Some t ->
    threads k' !! t = threads (at_switch k oth nth next f) !! t) as Hlook.
  { intros t Htd. rewrite Ht, (bool_decide_eq_false_2 _ Htd). by rewrite andb_false_r. }
  assert (forall t, threadToBeDestroyed k <> Some t ->
    frame_of k' t = if decide (t = currentThread k) then Some f else frame_of k t) as Hframe.
  { intros t Htd. unfold frame_of. rewrite Hlook by done. unfold at_switch, saved. simpl.
    destruct (decide (t = next)) as [->|Hne]; [rewrite lookup_insert_eq|rewrite lookup_insert_ne by done].
    - destruct (decide (next = currentThread k)) as [->|]; [by destruct (space oth)|]. by rewrite Hn.
    - destruct (decide (t = currentThread k)) as [->|]; [by rewrite lookup_insert_eq|].
      by rewrite lookup_insert_ne. }
  exists k'. split; [done|]. split; [|done]. constructor; try done.
  - intros t Htd. rewrite <- (at_switch_status k oth nth next f) by done.
    unfold status_of. by rewrite Hlook.
  - intros d. rewrite Hd. by destruct (never_ran _).
  - rewrite Hl, Hframe by done. unfold incoming.
    destruct (decide (next = currentThread k)) as [->|]; [done|]. unfold frame_of. rewrite Hn. simpl.
    by destruct (t_frame nth).
Qed.

(** The current thread is blocked and enters the loop of [Sleep]. *)
Record blocked (k k1 : kstate) : Prop := {
  bl_ok : kernel_ok k1;
  bl_status t : status_of k1 t = upd (status_of k) (currentThread k) (Some BLOCKED) t;
  bl_frame t : frame_of k1 t = frame_of k t;
  bl_current : currentThread k1 = currentThread k;
  bl_level : k_level k1 = IntOff;
  bl_ready : readyList k1 = readyList k }.

Lemma blocked_frame k th t :
  threads k !! currentThread k = Some th ->
  t_frame <$> <[currentThread k := set_status th BLOCKED]> (threads k) !! t = frame_of k t.
Proof.
  intros Hth. unfold frame_of. destruct (decide (t = currentThread k)) as [->|].
  - by rewrite lookup_insert_eq, Hth.
  - by rewrite lookup_insert_ne.
Qed.

(** [Sleep] of the running thread. *)
Lemma Sleep_effect k :
  kernel_ok k -> status_of k (currentThread k) = Some RUNNING -> k_level k = IntOff ->
  exists k1, Sleep k = Sleep_dispatch k1 /\ blocked k k1 /\
    threadToBeDestroyed k1 = threadToBeDestroyed k.
Proof.
  intros Hk Hst Hl. destruct (status_some _ _ _ Hst) as (th & Hth & Hrun).
  destruct (block_ok k th Hk Hth Hrun) as (Hup & Hk1 & Hb).
  unfold Sleep. rewrite Hl, Hup. simpl. eexists. split; [done|]. split; [|done].
  constructor; try done; [apply status_insert|]. intros t. by apply blocked_frame.
Qed.

(** [Finish] of the running thread: it is marked as well. *)
Lemma Finish_effect k :
  kernel_ok k -> status_of k (currentThread k) = Some RUNNING ->
  exists k1, Finish k = Sleep_dispatch k1 /\ blocked k k1 /\
    threadToBeDestroyed k1 = Some (currentThread k).
Proof.
  intros Hk Hst. destruct (status_some _ _ _ Hst) as (th & Hth & Hrun).
  destruct (block_ok k th Hk Hth Hrun) as (_ & [Hs1 Hf1] & Hb).
  unfold Finish, Sleep, update_thread. simpl. rewrite Hth. simpl. eexists. split; [done|]. split; [|done].
  constructor; try done; [|apply (status_insert k)|intros t; by apply blocked_frame].
  split; [|done]. by eapply sched_ok_finish.
Qed.

(** The loop of [Sleep] after an interrupt. *)
Lemma Sleep_dispatch_effect k :
  kernel_ok k -> status_of k (currentThread k) <> Some RUNNING ->
  exists b k', Sleep_dispatch k = Ok (b, k') /\
    (if (b : bool) then exists z next q, readyList k = (z, next) :: q /\
       switch_effect k k' next InSleep /\ readyList k' = q
     else k' = k /\ readyList k = []).
Proof.
  intros Hk Hcur. unfold Sleep_dispatch. destruct (readyList k) as [|[z next] q] eqn:Hq.
  - rewrite FindNextToRun_nil by done. exists false, k. split; [|done]. rewrite <- Hq. by destruct k.
  - rewrite (FindNextToRun_cons k z next q) by done.
    destruct (Run_effect (with_readyList k q) z next InSleep) as (k' & Hr & He & Hq'); [|done|].
    { change (kernel_ok (with_readyList k ((z, next) :: q))). rewrite <- Hq. by destruct k. }
    rewrite Hr. exists true, k'. split; [done|]. exists z, next, q. split; [done|]. split; [|done].
    by destruct He.
Qed.

(** [Yield] of the running thread. *)
Lemma Yield_effect k :
  kernel_ok k -> status_of k (currentThread k) = Some RUNNING ->
  exists k', Yield k = Ok k' /\
    ((k' = k /\ readyList k = []) \/
     exists k1 z next q, readyList k = (z, next) :: q /\
       (forall t, status_of k1 t = upd (status_of k) (currentThread k) (Some READY) t) /\
       (forall t, frame_of k1 t = frame_of k t) /\
       currentThread k1 = currentThread k /\ threadToBeDestroyed k1 = threadToBeDestroyed k /\
       k_level k1 = IntOff /\ switch_effect k1 k' next (InYield (k_level k)) /\
       (readyList k').*2 = q.*2 ++ [currentThread k]).
Proof.
  intros Hk Hst. unfold Yield. destruct (readyList k) as [|[z next] q] eqn:Hq.
  { rewrite FindNextToRun_nil by done. eexists. split; [done|]. left. split; [|done].
    rewrite <- Hq. by destruct k. }
  rewrite (FindNextToRun_cons _ z next q) by done. simpl.
  set (k0 := with_klevel k IntOff).
  assert (threadToBeDestroyed k <> Some (currentThread k)) as Hnd
    by (intros Hd; pose proof (so_dead _ _ _ _ (proj1 Hk) _ Hd); congruence).
  destruct (ReadyToRun_ok k0 (currentThread k) RUNNING) as (kr & Hrr & Hkr & Hqr & Hcr & Hdr & Hlr & _ & Hsr & Hir);
    [done..|].
  assert (ReadyToRun (with_readyList k0 q) (currentThread k) =
          Ok (with_readyList kr (q_append (currentThread k) q))) as Heq.
  { unfold ReadyToRun, update_thread in *. simpl in *. destruct (threads k !! currentThread k); [|done].
    simpl in *. injection Hrr as <-. done. }
  change (with_readyList (with_klevel k IntOff) q) with (with_readyList k0 q). rewrite Heq. simpl.
  set (k1 := with_readyList kr (q_append (currentThread k) q)).
  destruct (Run_effect k1 z next (InYield (k_level k))) as (k' & Hr & He & Hq').
  - destruct Hkr as [Hskr Hfkr]. split; [|done]. simpl. rewrite q_append_snd.
    change (next :: q.*2 ++ [currentThread k]) with ((next :: q.*2) ++ [currentThread k]).
    rewrite Hqr in Hskr. simpl in Hskr. rewrite Hq in Hskr. exact Hskr.
  - change (status_of kr (currentThread kr) <> Some RUNNING). rewrite Hcr, Hsr. simpl. by rewrite upd_eq.
  - rewrite Hr. exists k'. split; [done|]. right. exists k1, z, next, q. split_and!; try done.
    + intros t. specialize (Hir t). unfold frame_of. simpl in *.
      destruct (threads kr !! t), (threads k !! t); simpl in Hir; try discriminate Hir; [|done].
      injection Hir as _ Hfr _ _. simpl. by rewrite Hfr.
    + rewrite Hq'. unfold k1. simpl. by rewrite q_append_snd.
Qed.

(** C2. The dispatcher's state stays consistent: from any state in which the ready
    list holds exactly the ready threads, waking a blocked thread, [Fork] of a new
    thread, [Yield], [Sleep] and [Finish] of the running thread, and the loop of
    [Sleep], succeed (no assertion fails, and no thread object is used after its
    deletion) and lead to such a state again. *)
Theorem scheduler_invariant k :
  kernel_ok k ->
  (forall t, wakeable k t -> exists k', ReadyToRun k t = Ok k' /\ kernel_ok k') /\
  (forall t, status_of k t = Some JUST_CREATED -> exists k', Fork k t = Ok k' /\ kernel_ok k') /\
  (status_of k (currentThread k) = Some RUNNING ->
     (exists k', Yield k = Ok k' /\ kernel_ok k') /\
     (k_level k = IntOff -> exists b k', Sleep k = Ok (b, k') /\ kernel_ok k') /\
     (exists b k', Finish k = Ok (b, k') /\ kernel_ok k')) /\
  (status_of k (currentThread k) <> Some RUNNING ->
     exists b k', Sleep_dispatch k = Ok (b, k') /\ kernel_ok k').
Proof.
  intros Hk. split_and!.
  - intros t [Hst Hd]. assert (exists s, status_of k t = Some s /\ s <> READY) as (s & Hs & Hne)
      by (destruct Hst; eauto).
    destruct (ReadyToRun_ok k t s) as (k' & ? & ? & _); eauto.
  - intros t Ht. destruct (Fork_ok k t) as (k' & ? & ? & _); eauto.
  - intros Hst. destruct (status_some _ _ _ Hst) as (th & Hth & Hrun). split_and!.
    + destruct (readyList k) as [|[z next] q] eqn:Hq.
      * unfold Yield. rewrite FindNextToRun_nil by done. eexists. split; [done|].
        destruct k; simpl in *. by subst.
      * destruct (kernel_ok_next k z next q Hk Hq) as (nth & Hn & _).
        destruct (Yield_ok k z next q th nth) as (k' & ? & ? & _); eauto.
    + intros Hl. destruct (Sleep_ok k th) as (b & k' & ? & ? & _); eauto.
    + destruct (Finish_ok k th) as (b & k' & ? & ? & _); eauto.
  - intros Hne. destruct (Sleep_dispatch_ok k) as (b & k' & ? & ? & _); eauto.
Qed.

(** A kernel with the main thread and two forked threads that have not run. *)
Definition main_thread : Thread := mkThread RUNNING None InSleep [] None.
Definition boot : kstate :=
  mkKernel {[ 1%positive := main_thread ]} [] 1 None IntOn [] None.
Definition demo_kernel : kstate :=
  mkKernel
    (<[3%positive := mkThread READY (Some STACK_FENCEPOST) AtThreadRoot [] (Some 7%positive)]>
       (<[2%positive := mkThread READY (Some STACK_FENCEPOST) AtThreadRoot [] None]>
          {[ 1%positive := main_thread ]}))
    [(0, 2%positive); (0, 3%positive)] 1 None IntOff [11; 12] None.

Lemma boot_ok : kernel_ok boot.
Proof.
  split; [|by apply map_Forall_singleton].
  assert (forall t s, status_of boot t = Some s -> t = 1%positive /\ s = RUNNING) as Hst.
  { intros t s. unfold status_of, boot. simpl. destruct (decide (t = 1%positive)) as [->|].
    - rewrite lookup_singleton_eq. by intros [= <-].
    - by rewrite lookup_singleton_ne. }
  constructor; simpl; [by exists RUNNING| | |constructor|done].
  - intros t Ht. by apply Hst in Ht as [-> _].
  - intros t. rewrite elem_of_nil. split; [done|]. by intros [_ ?]%Hst.
Qed.

Lemma demo_kernel_ok : kernel_ok demo_kernel.
Proof.
  assert (forall t, status_of demo_kernel t =
    upd (upd (upd (fun _ => None) 1 (Some RUNNING)) 2 (Some READY)) 3 (Some READY) t)%positive as Hst.
  { intros t. unfold status_of, demo_kernel, upd. simpl.
    repeat (destruct (decide (t = _)) as [->|]; [by vm_compute|rewrite ?lookup_insert_ne by done]).
    by rewrite lookup_singleton_ne. }
  split; [|repeat apply map_Forall_insert_2; try done; apply map_Forall_empty].
  eapply sched_ok_ext; [intros t; symmetry; apply Hst|]. unfold upd. constructor; simpl.
  - by exists RUNNING.
  - intros t. by repeat case_decide.
  - intros t. rewrite !elem_of_cons, elem_of_nil. repeat case_decide; subst; intuition congruence.
  - apply NoDup_cons. split; [|apply NoDup_singleton]. by rewrite list_elem_of_singleton.
  - done.
Qed.

Lemma scheduler_invariant_witness :
  kernel_ok demo_kernel /\ exists k', Yield demo_kernel = Ok k' /\ kernel_ok k' /\ currentThread k' = 2%positive.
Proof.
  split; [exact demo_kernel_ok|].
  destruct (scheduler_invariant demo_kernel demo_kernel_ok) as (_ & _ & Hrun & _).
  destruct Hrun as [(k' & Hy & Hk') _]; [reflexivity|]. exists k'.
  split; [exact Hy|]. split; [exact Hk'|]. vm_compute in Hy. injection Hy as <-. reflexivity.
Defined.

(** [n] calls of [Yield], each by whichever thread is running. *)
Fixpoint yields (n : nat) (k : kstate) : outcome kstate :=
  match n with
  | O => Ok k
  | S n => k ← Yield k; yields n k
  end.

Lemma yields_rotate l1 : forall k t l2,
  kernel_ok k -> status_of k (currentThread k) = Some RUNNING ->
  (readyList k).*2 = l1 ++ t :: l2 ->
  exists k', yields (S (length l1)) k = Ok k' /\ kernel_ok k' /\ currentThread k' = t /\
    status_of k' t = Some RUNNING /\ (readyList k').*2 = l2 ++ currentThread k :: l1.
Proof.
  induction l1 as [|x l1 IH]; intros k t l2 Hk Hst Hq; simpl in Hq;
    destruct (readyList k) as [|[z next] q] eqn:Hr; try discriminate Hq; injection Hq as -> Hq;
    destruct (status_some _ _ _ Hst) as (th & Hth & Hrun);
    destruct (kernel_ok_next k z _ q Hk Hr) as (nth & Hn & _);
    destruct (Yield_ok k z _ q th nth Hk Hth Hrun Hr Hn) as (k1 & Hy & Hk1 & Hc & Hq1 & _ & _ & Hn1 & _);
    cbn [yields length]; rewrite Hy; cbn [mbind outcome_bind];
    assert (status_of k1 (currentThread k1) = Some RUNNING) as Hst1
      by (rewrite Hc, (lookup_status _ _ _ Hn1); done).
  - exists k1. split_and!; try done; [by rewrite <- Hc|].
    rewrite Hq1. exact (f_equal (.++ [currentThread k]) Hq).
  - destruct (IH k1 t (l2 ++ [currentThread k])) as (k' & Hy' & Hk' & Hc' & Hs' & Hq'); try done.
    { rewrite Hq1. etransitivity; [exact (f_equal (.++ [currentThread k]) Hq)|]. by rewrite <- app_assoc. }
    exists k'. split_and!; try done. rewrite Hq', Hc. by rewrite <- app_assoc.
Qed.

(** Round robin: if the running threads do nothing but yield, the thread at
    position [length l1] of the ready list runs after exactly that many yields plus
    one, and the ready list has been rotated past it. So every ready thread gets the
    CPU within as many yields as there are ready threads. *)
Theorem Yield_round_robin k t l1 l2 :
  kernel_ok k -> status_of k (currentThread k) = Some RUNNING ->
  (readyList k).*2 = l1 ++ t :: l2 ->
  exists k', yields (S (length l1)) k = Ok k' /\ kernel_ok k' /\ currentThread k' = t /\
    status_of k' t = Some RUNNING /\ (readyList k').*2 = l2 ++ currentThread k :: l1.
Proof. apply yields_rotate. Qed.

Lemma Yield_round_robin_witness :
  exists k', yields 2 demo_kernel = Ok k' /\ currentThread k' = 3%positive /\
    (readyList k').*2 = [1; 2]%positive.
Proof.
  destruct (Yield_round_robin demo_kernel 3 [2%positive] [] demo_kernel_ok)
    as (k' & Hy & _ & Hc & _ & Hq).
  - reflexivity.
  - reflexivity.
  - exists k'. split; [exact Hy|]. split; [exact Hc|]. exact Hq.
Defined.

(** A context switch keeps the user program's state: when a thread that runs in
    an address space yields, and later gets the CPU back with its thread object
    untouched, then whatever the other threads have done to the CPU meanwhile, its
    registers, its page table and the interrupt level are those it yielded with. *)
Theorem context_switch_restores k k1 k2 th sp z next q nth :
  kernel_ok k -> threads k !! currentThread k = Some th -> t_status th = RUNNING ->
  space th = Some sp -> readyList k = (z, next) :: q -> threads k !! next = Some nth ->
  Yield k = Ok k1 ->
  kernel_ok k2 -> currentThread k2 = currentThread k -> status_of k2 (currentThread k) = Some RUNNING ->
  ignore_status <$> threads k2 !! currentThread k = ignore_status <$> threads k1 !! currentThread k ->
  exists k3, resume k2 = Ok k3 /\ kernel_ok k3 /\
    k_registers k3 = k_registers k /\ k_pageTable k3 = Some sp /\ k_level k3 = k_level k.
Proof.
  intros Hk Hth Hrun Hsp Hq Hn Hy Hk2 Hc2 Hst2 Hsame.
  destruct (Yield_ok k z next q th nth Hk Hth Hrun Hq Hn) as (k1' & Hy' & _ & _ & _ & Hold & _).
  rewrite Hy in Hy'. injection Hy' as <-. rewrite Hold in Hsame.
  destruct (status_some _ _ _ Hst2) as (th2 & Hth2 & Hrun2). rewrite Hth2 in Hsame.
  simpl in Hsame. unfold saved, ignore_status, set_status in Hsame. simpl in Hsame. rewrite Hsp in Hsame.
  injection Hsame as Hstk Hfr Hregs Hspace.
  rewrite <- Hc2 in Hth2.
  destruct (resume_ok k2 th2 Hk2 Hth2 Hrun2) as (k3 & Hr & Hk3 & _ & _ & _ & _ & Hcpu & Hl).
  exists k3. unfold never_ran in Hcpu. rewrite Hfr in Hcpu, Hl. rewrite Hspace in Hcpu. simpl in Hcpu.
  injection Hcpu as -> ->. split_and!; done.
Qed.

(** Two threads of address spaces that take turns. *)
Definition turn_kernel : kstate :=
  mkKernel
    (<[2%positive := mkThread READY (Some STACK_FENCEPOST) InSleep [21; 22] (Some 8%positive)]>
       {[ 1%positive := mkThread RUNNING None InSleep [] (Some 7%positive) ]})
    [(0, 2%positive)] 1 None IntOn [11; 12] (Some 7%positive).

Lemma turn_kernel_ok : kernel_ok turn_kernel.
Proof.
  assert (forall t, status_of turn_kernel t =
    upd (upd (fun _ => None) 1 (Some RUNNING)) 2 (Some READY) t)%positive as Hst.
  { intros t. unfold status_of, turn_kernel, upd. simpl.
    repeat (destruct (decide (t = _)) as [->|]; [by vm_compute|rewrite ?lookup_insert_ne by done]).
    by rewrite lookup_singleton_ne. }
  split; [|repeat apply map_Forall_insert_2; try done; apply map_Forall_empty].
  eapply sched_ok_ext; [intros t; symmetry; apply Hst|]. unfold upd. constructor; simpl.
  - by exists RUNNING.
  - intros t. by repeat case_decide.
  - intros t. rewrite list_elem_of_singleton. repeat case_decide; subst; intuition congruence.
  - apply NoDup_singleton.
  - done.
Qed.

(** The state in which thread 1 gets the CPU back, with other values in the CPU. *)
Definition turn_back : kstate :=
  mkKernel
    (<[2%positive := mkThread READY (Some STACK_FENCEPOST) (InYield IntOff) [98; 99] (Some 8%positive)]>
       {[ 1%positive := mkThread RUNNING None (InYield IntOn) [11; 12] (Some 7%positive) ]})
    [(0, 2%positive)] 1 None IntOff [98; 99] (Some 8%positive).

Lemma turn_back_ok : kernel_ok turn_back.
Proof.
  destruct turn_kernel_ok as [Hs _].
  split; [|repeat apply map_Forall_insert_2; try done; apply map_Forall_empty].
  eapply sched_ok_ext; [|exact Hs]. intros t. unfold status_of, turn_kernel, turn_back. simpl.
  destruct (decide (t = 2%positive)) as [->|]; [done|]. rewrite !lookup_insert_ne by done.
  destruct (decide (t = 1%positive)) as [->|]; [done|]. by rewrite !lookup_singleton_ne.
Qed.

Lemma context_switch_restores_witness :
  exists k1 k3, Yield turn_kernel = Ok k1 /\ k_registers k1 = [21; 22] /\
    resume turn_back = Ok k3 /\ k_registers k3 = [11; 12] /\ k_pageTable k3 = Some 7%positive.
Proof.
  assert (exists k1, Yield turn_kernel = Ok k1 /\ k_registers k1 = [21; 22] /\
    threads k1 !! 1%positive = Some (mkThread READY None (InYield IntOn) [11; 12] (Some 7%positive)))
    as (k1 & Hy & Hr & Hold) by (eexists; vm_compute; split_and!; reflexivity).
  destruct (context_switch_restores turn_kernel k1 turn_back
              (mkThread RUNNING None InSleep [] (Some 7%positive)) 7 0 2 []
              (mkThread READY (Some STACK_FENCEPOST) InSleep [21; 22] (Some 8%positive)))
    as (k3 & Hres & _ & Hregs & Hpt & _); try exact turn_kernel_ok; try exact turn_back_ok; try reflexivity.
  - exact Hy.
  - simpl currentThread. rewrite Hold. reflexivity.
  - exists k1, k3. split; [exact Hy|]. split; [exact Hr|]. split; [exact Hres|].
    split; [rewrite Hregs; reflexivity|exact Hpt].
Defined.

(** The object of a finished thread is deleted right away when the thread that
    runs next has run before. *)
Theorem Finish_destroys k th z next q nth :
  kernel_ok k -> threads k !! currentThread k = Some th -> t_status th = RUNNING ->
  readyList k = (z, next) :: q -> threads k !! next = Some nth -> t_frame nth <> AtThreadRoot ->
  exists k', Finish k = Ok (true, k') /\ kernel_ok k' /\ currentThread k' = next /\
    threads k' !! currentThread k = None /\ threadToBeDestroyed k' = None.
Proof.
  intros Hk Hth Hrun Hq Hn Hfr.
  destruct (Finish_ok k th Hk Hth Hrun) as (b & k' & Hf & Hk' & Hcase). rewrite Hq in Hcase.
  destruct Hcase as (-> & Hc & _ & nth' & Hn' & _ & _ & Hd). rewrite Hn in Hn'. injection Hn' as <-.
  unfold never_ran in Hd. rewrite bool_decide_eq_false_2 in Hd by done. destruct Hd as [Hd Hnone].
  by exists k'.
Qed.

Lemma Finish_destroys_witness :
  exists k', Finish turn_kernel = Ok (true, k') /\ threads k' !! 1%positive = None.
Proof.
  destruct (Finish_destroys turn_kernel (mkThread RUNNING None InSleep [] (Some 7%positive)) 0 2 []
              (mkThread READY (Some STACK_FENCEPOST) InSleep [21; 22] (Some 8%positive)) turn_kernel_ok)
    as (k' & Hf & _ & _ & Hnone & _); try reflexivity; [discriminate|].
  exists k'. split; [exact Hf|]. exact Hnone.
Defined.

(** Finished threads can leak: a thread that starts at [ThreadRoot] does not
    execute the end of [Run], so a thread that finishes in favour of a fresh one stays
    allocated, and if the fresh one also finishes in favour of a fresh one, the
    variable [threadToBeDestroyed] is overwritten: the first thread stays allocated
    and blocked, and nothing refers to it any more. *)
Theorem Finish_leaks k th z1 n1 z2 n2 q nth1 nth2 :
  kernel_ok k -> threads k !! currentThread k = Some th -> t_status th = RUNNING ->
  readyList k = (z1, n1) :: (z2, n2) :: q ->
  threads k !! n1 = Some nth1 -> t_frame nth1 = AtThreadRoot ->
  threads k !! n2 = Some nth2 -> t_frame nth2 = AtThreadRoot ->
  exists k1 k2, Finish k = Ok (true, k1) /\ Finish k1 = Ok (true, k2) /\ kernel_ok k2 /\
    currentThread k2 = n2 /\ threadToBeDestroyed k2 = Some n1 /\
    status_of k2 (currentThread k) = Some BLOCKED /\ ~ (currentThread k ∈ (readyList k2).*2) /\
    n1 <> currentThread k.
Proof.
  intros Hk Hth Hrun Hq Hn1 Hf1 Hn2 Hf2. set (cur := currentThread k) in *.
  assert (status_of k n1 = Some READY /\ status_of k n2 = Some READY /\ n1 <> n2) as (Hr1 & Hr2 & Hne).
  { destruct Hk as [Hs _]. pose proof (so_nodup _ _ _ _ Hs) as Hnd. rewrite Hq in Hnd. simpl in Hnd.
    split_and!; [apply (so_ready _ _ _ _ Hs); rewrite Hq; simpl; set_solver..|].
    apply NoDup_cons in Hnd as [Hnin _]. set_solver. }
  assert (status_of k cur = Some RUNNING) as Hrc by (by rewrite (lookup_status _ _ _ Hth), Hrun).
  destruct (Finish_ok k th Hk Hth Hrun) as (b & k1 & Hfin & Hk1 & Hcase). rewrite Hq in Hcase.
  destruct Hcase as (-> & Hc1 & Hq1 & nth' & Hn' & Hcur1 & Hrest & Hd). rewrite Hn1 in Hn'.
  injection Hn' as <-. fold cur in Hrest, Hd.
  unfold never_ran in Hd. rewrite Hf1, bool_decide_eq_true_2 in Hd by done. destruct Hd as [Hd1 Hb1].
  assert (threads k1 !! n2 = Some nth2) as Hn2' by (rewrite Hrest; congruence).
  rewrite <- Hc1 in Hcur1.
  destruct (Finish_ok k1 _ Hk1 Hcur1 eq_refl) as (b & k2 & Hfin2 & Hk2 & Hcase). rewrite Hq1 in Hcase.
  destruct Hcase as (-> & Hc2 & Hq2 & nth' & Hn' & _ & Hrest2 & Hd). rewrite Hn2' in Hn'.
  injection Hn' as <-. unfold never_ran in Hd. rewrite Hf2, bool_decide_eq_true_2 in Hd by done.
  destruct Hd as [Hd2 _]. rewrite Hc1 in Hd2, Hrest2.
  assert (status_of k2 cur = Some BLOCKED) as Hb2
    by (unfold status_of in *; rewrite Hrest2 by congruence; exact Hb1).
  exists k1, k2. split_and!; try done; [|congruence].
  intros Hin. apply (so_ready _ _ _ _ (proj1 Hk2)) in Hin. congruence.
Qed.

Lemma Finish_leaks_witness :
  exists k1 k2, Finish demo_kernel = Ok (true, k1) /\ Finish k1 = Ok (true, k2) /\
    status_of k2 1 = Some BLOCKED /\ threadToBeDestroyed k2 = Some 2%positive.
Proof.
  destruct (Finish_leaks demo_kernel main_thread 0 2 0 3 []
              (mkThread READY (Some STACK_FENCEPOST) AtThreadRoot [] None)
              (mkThread READY (Some STACK_FENCEPOST) AtThreadRoot [] (Some 7%positive)) demo_kernel_ok)
    as (k1 & k2 & Hf1 & Hf2 & _ & _ & Hd & Hb & _); try reflexivity.
  exists k1, k2. split; [exact Hf1|]. split; [exact Hf2|]. split; [exact Hb|exact Hd].
Defined.
