(* ===== verification/Synch.v ===== *)
(** * threads/synch.cc: semaphores, locks, conditions and barriers

    Interrupts are off while a synchronization routine runs, so it is atomic except
    where it calls [Sleep]. Each routine is therefore a definition per atomic part: a
    loop that tests and sleeps is one definition for an iteration, which says whether
    the routine is done. The theorems are about the step relations of a semaphore and
    of a lock: the running thread starts or goes on with a routine, or anything else
    happens in the kernel ([env_step]): other threads yield, sleep, finish, are forked
    or woken, and the machine idles. *)

From stdpp Require Import prelude numbers gmap list relations.
From S2P Require Import Prelude Params CList Interrupt Threads.

Open Scope Z_scope.

(** ** The code *)

Record Semaphore := mkSem { s_value : Z; s_queue : queue positive }.

Definition Semaphore_new (initialValue : Z) : Semaphore := mkSem initialValue [].

(** An iteration of the loop of [P]; [true] when [P] is done. *)
Definition Semaphore_P_loop (k : kstate) (s : Semaphore) : outcome (bool * kstate * Semaphore) :=
  if s_value s =? 0 then
    let s := mkSem (s_value s) (q_append (currentThread k) (s_queue s)) in
    '(_, k) ← Sleep k;
    Ok (false, k, s)
  else Ok (true, k, mkSem (s32 (s_value s - 1)) (s_queue s)).

(** [scheduler->ReadyToRun(thread)] if a thread was taken off the queue. *)
Definition wake (k : kstate) (x : option (Z * positive)) : outcome kstate :=
  match x with None => Ok k | Some (_, thread) => ReadyToRun k thread end.

Definition Semaphore_V (k : kstate) (s : Semaphore) : outcome (kstate * Semaphore) :=
  let oldLevel := k_level k in
  let '(thread, q) := q_remove (s_queue s) in
  k ← wake (with_klevel k IntOff) thread;
  Ok (with_klevel k oldLevel, mkSem (s32 (s_value s + 1)) q).

Record Lock := mkLock { locked : bool; owner : option positive; lk_queue : queue positive }.

(** The constructor leaves [owner] as it finds it. *)
Definition Lock_new (garbage : option positive) : Lock := mkLock false garbage [].

Definition isHeldByCurrentThread (k : kstate) (l : Lock) : bool :=
  bool_decide (owner l = Some (currentThread k)).

(** An iteration of the loop of [Acquire]; [true] when the lock is acquired. *)
Definition Lock_Acquire_loop (k : kstate) (l : Lock) : outcome (bool * kstate * Lock) :=
  if locked l && negb (isHeldByCurrentThread k l) then
    let l := mkLock (locked l) (owner l) (q_append (currentThread k) (lk_queue l)) in
    '(_, k) ← Sleep k;
    Ok (false, k, l)
  else Ok (true, k, mkLock true (Some (currentThread k)) (lk_queue l)).

Definition Lock_Release (k : kstate) (l : Lock) : outcome (kstate * Lock) :=
  if negb (isHeldByCurrentThread k l) then Ok (k, l)
  else
    let oldLevel := k_level k in
    let '(thread, q) := q_remove (lk_queue l) in
    k ← wake (with_klevel k IntOff) thread;
    Ok (with_klevel k oldLevel, mkLock false None q).

(** A condition is its queue. *)
Abbreviation Condition := (queue positive).
Definition Condition_new : Condition := [].

(** [Wait] up to [Sleep]: [None] when the caller does not hold the lock. *)
Definition Condition_Wait (k : kstate) (c : Condition) (conditionLock : Lock)
    : outcome (option (kstate * Condition * Lock)) :=
  if negb (isHeldByCurrentThread k conditionLock) then Ok None
  else
    '(k, conditionLock) ← Lock_Release (with_klevel k IntOff) conditionLock;
    let c := q_append (currentThread k) c in
    '(_, k) ← Sleep k;
    Ok (Some (k, c, conditionLock)).

Definition Condition_Signal (k : kstate) (c : Condition) (conditionLock : Lock)
    : outcome (kstate * Condition) :=
  if negb (isHeldByCurrentThread k conditionLock) then Ok (k, c)
  else
    match c with
    | [] => Ok (k, c)
    | _ =>
        let oldLevel := k_level k in
        let '(thread, c) := q_remove c in
        k ← wake (with_klevel k IntOff) thread;
        Ok (with_klevel k oldLevel, c)
    end.

(** The loop of [Broadcast]. *)
Fixpoint wake_all (k : kstate) (c : queue positive) : outcome kstate :=
  match c with
  | [] => Ok k
  | x :: c => k ← wake k (Some x); wake_all k c
  end.

Definition Condition_Broadcast (k : kstate) (c : Condition) (conditionLock : Lock)
    : outcome (kstate * Condition) :=
  if negb (isHeldByCurrentThread k conditionLock) then Ok (k, c)
  else k ← wake_all k c; Ok (k, []).

Record Barrier := mkBarrier { b_queue : queue positive; blockUntil : Z; blockCount : Z }.

Definition Barrier_new (n : Z) : Barrier := mkBarrier [] n 0.

(** [while (blockCount > 0)]: one removal per count. *)
Fixpoint release_loop (n : nat) (k : kstate) (q : queue positive)
    : outcome (kstate * queue positive) :=
  match n with
  | O => Ok (k, q)
  | S n =>
      let '(thread, q) := q_remove q in
      k ← wake k thread;
      release_loop n k q
  end.

(** [block] up to [Sleep]; [true] when the caller goes on at once. *)
Definition Barrier_block (k : kstate) (b : Barrier) : outcome (bool * kstate * Barrier) :=
  let oldLevel := k_level k in
  let k := with_klevel k IntOff in
  let count := s32 (blockCount b + 1) in
  if blockUntil b <=? count then
    '(k, q) ← release_loop (Z.to_nat count) k (b_queue b);
    Ok (true, with_klevel k oldLevel, mkBarrier q (blockUntil b) (Z.min count 0))
  else
    let b := mkBarrier (q_append (currentThread k) (b_queue b)) (blockUntil b) count in
    '(_, k) ← Sleep k;
    Ok (false, k, b).

(** ** Threads that wait *)

(** [inOp] maps each thread that is inside a routine of the object, asleep or woken,
    to the interrupt level that it will restore at the end; [q] is the object's
    queue. A queued thread is blocked; a thread of [inOp] that is not queued has been
    woken: it is ready, or it is the running thread. *)
Record waiters_ok (k : kstate) (q : queue positive) (inOp : gmap positive IntStatus) : Prop := {
  wo_nodup : NoDup q.*2;
  wo_queued t : t ∈ q.*2 -> status_of k t = Some BLOCKED /\ t ∈ dom inOp;
  wo_woken t : t ∈ dom inOp -> t ∈ q.*2 \/ status_of k t = Some READY \/
               (t = currentThread k /\ status_of k t = Some RUNNING);
  wo_frame t : t ∈ dom inOp -> t <> currentThread k -> frame_of k t = Some InSleep;
  wo_level : currentThread k ∈ dom inOp -> k_level k = IntOff;
  wo_dead t : t ∈ dom inOp -> threadToBeDestroyed k <> Some t }.

(** Interrupts are off while the machine idles. *)
Definition idle_off (k : kstate) : Prop :=
  status_of k (currentThread k) <> Some RUNNING -> k_level k = IntOff.

Lemma waiters_switch k k' next f q inOp :
  waiters_ok k q inOp -> status_of k (currentThread k) <> Some RUNNING ->
  status_of k next = Some READY -> k_level k = IntOff ->
  (currentThread k ∈ dom inOp -> f = InSleep) -> threadToBeDestroyed k <> Some next ->
  switch_effect k k' next f -> waiters_ok k' q inOp /\ idle_off k'.
Proof.
  intros [Hnd Hq Hw Hf Hl Hd] Hcur Hnext Hlev Hfin Hnd' [Hk' Hc Hst Hfr Hdd Hlv].
  assert (status_of k' next = Some RUNNING) as Hrun by (rewrite Hst by done; apply upd_eq).
  split; [|unfold idle_off; congruence]. constructor; try done.
  - intros t Ht. destruct (Hq t Ht) as [Hb Hin]. split; [|done].
    rewrite Hst, upd_ne by (auto || congruence). done.
  - intros t Ht. rewrite Hst by auto. unfold upd.
    destruct (decide (t = next)) as [->|]; [by right; right|].
    destruct (Hw t Ht) as [?|[?|[-> ?]]]; [auto..|congruence].
  - intros t Ht Hne. rewrite Hfr by auto. destruct (decide (t = currentThread k)) as [->|Hnc].
    + by rewrite Hfin.
    + by apply Hf.
  - rewrite Hc. intros Hin. rewrite Hlv, Hfr by done.
    destruct (decide (next = currentThread k)) as [->|Hnc]; [by rewrite Hfin|].
    by rewrite (Hf next Hin Hnc).
  - intros t Ht Htd. apply (Hd t Ht). by apply Hdd.
Qed.

Lemma frame_ignore k k' :
  (forall t, ignore_status <$> threads k' !! t = ignore_status <$> threads k !! t) ->
  forall t, frame_of k' t = frame_of k t.
Proof.
  intros H t. specialize (H t). unfold frame_of.
  destruct (threads k' !! t), (threads k !! t); simpl in *; try discriminate H; [|done].
  injection H as _ Hf _ _. by rewrite Hf.
Qed.

Lemma head_ready k z next q :
  kernel_ok k -> readyList k = (z, next) :: q -> status_of k next = Some READY.
Proof. intros Hk Hq. apply (so_ready _ _ _ _ (proj1 Hk)). rewrite Hq. simpl. set_solver. Qed.

Lemma not_dead k t s :
  kernel_ok k -> status_of k t = Some s -> s <> BLOCKED -> threadToBeDestroyed k <> Some t.
Proof. intros Hk Ht Hs Hd. pose proof (so_dead _ _ _ _ (proj1 Hk) t Hd). congruence. Qed.

(** The loop of [Sleep]. *)
Lemma dispatch_step k b k' q inOp :
  kernel_ok k -> status_of k (currentThread k) <> Some RUNNING -> k_level k = IntOff ->
  waiters_ok k q inOp -> Sleep_dispatch k = Ok (b, k') ->
  kernel_ok k' /\ idle_off k' /\ waiters_ok k' q inOp.
Proof.
  intros Hk Hcur Hl Hw Hs.
  destruct (Sleep_dispatch_effect k Hk Hcur) as (b' & k'' & Hs' & Hcase).
  rewrite Hs in Hs'. injection Hs' as <- <-. destruct b.
  - destruct Hcase as (z & next & q' & Hq' & He & _). pose proof (head_ready _ _ _ _ Hk Hq') as Hn.
    destruct (waiters_switch k k' next InSleep q inOp) as [? ?]; try done.
    { by apply (not_dead k next READY). }
    split; [apply He|done].
  - destruct Hcase as [-> _]. split; [done|]. split; [by intros _|done].
Qed.

Lemma woken_status k q inOp t : waiters_ok k q inOp -> t ∈ dom inOp -> is_Some (status_of k t).
Proof.
  intros Hw Ht. destruct (wo_woken _ _ _ Hw t Ht) as [Hq|[->|[_ ->]]]; try by eexists.
  destruct (wo_queued _ _ _ Hw t Hq) as [-> _]. by eexists.
Qed.

(** [Sleep] inside a routine, after the thread has put itself on the queue. *)
Lemma waiters_sleep k q inOp old :
  kernel_ok k -> waiters_ok k q inOp -> status_of k (currentThread k) = Some RUNNING ->
  k_level k = IntOff ->
  exists b k', Sleep k = Ok (b, k') /\ kernel_ok k' /\ idle_off k' /\
    waiters_ok k' (q_append (currentThread k) q) (<[currentThread k := old]> inOp).
Proof.
  intros Hk [Hnd Hq Hw Hf Hl Hd] Hrun Hlev.
  destruct (Sleep_effect k Hk Hrun Hlev) as (k1 & Hs & [Hk1 Hst1 Hfr1 Hc1 Hl1 Hr1] & Hd1).
  assert (waiters_ok k1 (q_append (currentThread k) q) (<[currentThread k := old]> inOp)) as Hw1.
  { constructor.
    - rewrite q_append_snd. apply NoDup_app. split; [done|]. split; [|apply NoDup_singleton].
      intros x Hx ->%list_elem_of_singleton. destruct (Hq _ Hx). congruence.
    - intros t. rewrite q_append_snd, elem_of_app, list_elem_of_singleton, dom_insert_L, Hst1.
      intros [Ht| ->]; [|rewrite upd_eq; set_solver].
      destruct (Hq t Ht) as [Hb Hin]. split; [|set_solver].
      unfold upd. by destruct (decide _).
    - intros t. rewrite dom_insert_L, q_append_snd, Hst1, Hc1. intros Ht.
      destruct (decide (t = currentThread k)) as [->|Hne]; [left; set_solver|].
      rewrite upd_ne by done. destruct (Hw t) as [?|[?|[? ?]]]; [set_solver|left; set_solver|auto|done].
    - intros t. rewrite dom_insert_L, Hc1, Hfr1. intros Ht Hne. apply Hf; set_solver.
    - done.
    - intros t. rewrite dom_insert_L, Hd1. intros Ht.
      destruct (decide (t = currentThread k)) as [->|]; [by apply (not_dead k _ RUNNING)|]. apply Hd. set_solver. }
  assert (status_of k1 (currentThread k1) <> Some RUNNING) as Hb1 by (rewrite Hst1, Hc1, upd_eq; done).
  destruct (Sleep_dispatch_effect k1 Hk1 Hb1) as (b & k' & Hs' & _).
  exists b, k'. split; [by rewrite Hs|]. by apply (dispatch_step k1 b).
Qed.

(** Waking the first thread of the queue. *)
Lemma waiters_wake k z t q inOp :
  kernel_ok k -> idle_off k -> waiters_ok k ((z, t) :: q) inOp ->
  exists k', ReadyToRun k t = Ok k' /\ kernel_ok k' /\ waiters_ok k' q inOp /\ idle_off k' /\
    currentThread k' = currentThread k /\ k_level k' = k_level k /\
    (status_of k (currentThread k) = Some RUNNING <-> status_of k' (currentThread k) = Some RUNNING).
Proof.
  intros Hk Hi [Hnd Hq Hw Hf Hl Hd]. simpl in Hnd. apply NoDup_cons in Hnd as [Hnin Hnd].
  destruct (Hq t) as [Hb Hin]; [simpl; set_solver|].
  destruct (ReadyToRun_ok k t BLOCKED) as (k' & Hr & Hk' & _ & Hc & Hdd & Hlv & _ & Hst & Hig); [done..|auto|].
  pose proof (frame_ignore k k' Hig) as Hfr.
  exists k'. split_and!; try done.
  - constructor; try done.
    + intros t' Ht'. destruct (Hq t') as [Hb' Hin']; [simpl; set_solver|]. split; [|done].
      rewrite Hst, upd_ne; [done|]. intros ->. done.
    + intros t' Ht'. rewrite Hst, Hc. unfold upd. destruct (decide (t' = t)) as [->|]; [by right; left|].
      destruct (Hw t' Ht') as [H|H]; [|auto]. simpl in H. apply elem_of_cons in H as [?|?]; [done|auto].
    + intros t' Ht'. rewrite Hc, Hfr. auto.
    + rewrite Hc, Hlv. auto.
    + intros t' Ht'. rewrite Hdd. auto.
  - unfold idle_off in *. rewrite Hc, Hlv, Hst. unfold upd. destruct (decide _) as [He|]; [|done].
    intros _. apply Hi. rewrite He, Hb. done.
  - rewrite Hst. unfold upd. destruct (decide _) as [->|]; [|done]. rewrite Hb. by split.
Qed.

(** The thread is done with the routine and restores its level. *)
Lemma waiters_leave k q inOp old :
  kernel_ok k -> waiters_ok k q inOp -> status_of k (currentThread k) = Some RUNNING ->
  waiters_ok (with_klevel k old) q (delete (currentThread k) inOp) /\ idle_off (with_klevel k old).
Proof.
  intros Hk [Hnd Hq Hw Hf Hl Hd] Hrun. split; [|unfold idle_off; simpl; by intros []].
  constructor; simpl; try done.
  - intros t Ht. destruct (Hq t Ht) as [Hb Hin]. split; [done|]. rewrite dom_delete_L.
    assert (t <> currentThread k) by congruence. set_solver.
  - intros t. rewrite dom_delete_L. intros Ht. apply Hw. set_solver.
  - intros t. rewrite dom_delete_L. intros Ht. apply Hf. set_solver.
  - rewrite dom_delete_L. set_solver.
  - intros t. rewrite dom_delete_L. intros Ht. apply Hd. set_solver.
Qed.

(** ** The rest of the kernel *)

(** A step of the kernel that is not a step of the object: [inOp] are the threads
    inside the object's routines. *)
Inductive env_step (inOp : gmap positive IntStatus) (k : kstate) : kstate -> Prop :=
| env_yield k' :
    status_of k (currentThread k) = Some RUNNING -> currentThread k ∉ dom inOp ->
    Yield k = Ok k' -> env_step inOp k k'
| env_sleep b k' :
    (* on another object *)
    status_of k (currentThread k) = Some RUNNING -> currentThread k ∉ dom inOp ->
    k_level k = IntOff -> Sleep k = Ok (b, k') -> env_step inOp k k'
| env_wake t k' :
    (* a thread that waits for another object *)
    wakeable k t -> t ∉ dom inOp -> ReadyToRun k t = Ok k' -> env_step inOp k k'
| env_finish b k' :
    status_of k (currentThread k) = Some RUNNING -> currentThread k ∉ dom inOp ->
    Finish k = Ok (b, k') -> env_step inOp k k'
| env_new garbage : env_step inOp k (Thread_new k garbage).2
| env_fork t k' :
    status_of k t = Some JUST_CREATED -> Fork k t = Ok k' -> env_step inOp k k'
| env_idle b k' :
    (* [interrupt->Idle()] returns in the loop of [Sleep] *)
    status_of k (currentThread k) <> Some RUNNING -> Sleep_dispatch k = Ok (b, k') ->
    env_step inOp k k'
| env_level l :
    status_of k (currentThread k) = Some RUNNING -> currentThread k ∉ dom inOp ->
    env_step inOp k (with_klevel k l)
| env_cpu regs pt : env_step inOp k (with_cpu k regs pt).

(** Statuses may change for threads outside [inOp], and the current thread stays. *)
Lemma waiters_same k k' q inOp :
  waiters_ok k q inOp -> currentThread k' = currentThread k ->
  (forall t, t ∈ dom inOp -> status_of k' t = status_of k t) ->
  (forall t, t ∈ dom inOp -> frame_of k' t = frame_of k t) ->
  (currentThread k ∈ dom inOp -> k_level k' = k_level k) ->
  (forall t, t ∈ dom inOp -> threadToBeDestroyed k' <> Some t) -> waiters_ok k' q inOp.
Proof.
  intros [Hnd Hq Hw Hf Hl Hd] Hc Hst Hfr Hlv Hdd. constructor; try done.
  - intros t Ht. destruct (Hq t Ht). by rewrite Hst.
  - intros t Ht. rewrite Hst, Hc by done. auto.
  - intros t Ht Hne. rewrite Hfr by done. apply Hf; [done|congruence].
  - rewrite Hc. intros Hin. rewrite Hlv; auto.
Qed.

Lemma kernel_ok_new k garbage : kernel_ok k -> kernel_ok (Thread_new k garbage).2.
Proof.
  intros [[Hc Hr Hq Hn Hd] Hf]. unfold Thread_new. set (t := fresh (dom (threads k))).
  assert (status_of k t = None) as Hnone.
  { unfold status_of. rewrite (proj1 (not_elem_of_dom (threads k) t)); [done|]. apply is_fresh. }
  split; [|by apply map_Forall_insert_2].
  eapply sched_ok_ext; [intros t'; symmetry; apply status_insert|]. simpl. constructor; [|..|done|].
  - destruct Hc as (s & Hs & Hne). exists s. rewrite upd_ne by congruence. done.
  - intros t'. unfold upd. destruct (decide _); [done|auto].
  - intros t'. rewrite Hq. unfold upd. destruct (decide (t' = t)) as [->|]; [|done]. rewrite Hnone. by split.
  - intros d Hdd. rewrite upd_ne; [auto|]. intros ->. pose proof (Hd _ Hdd). congruence.
Qed.

(** Each kind of step keeps the kernel, the level of an idle machine, and the threads
    inside the object's routines as they must be. *)
Section environment.
Context (inOp : gmap positive IntStatus) (k : kstate) (q : queue positive).
Hypothesis Hk : kernel_ok k.
Hypothesis Hi : idle_off k.
Hypothesis Hw : waiters_ok k q inOp.

Definition env_ok (k' : kstate) : Prop := kernel_ok k' /\ idle_off k' /\ waiters_ok k' q inOp.

Lemma upd_outside t s t' : t ∉ dom inOp -> t' ∈ dom inOp -> upd (status_of k) t s t' = status_of k t'.
Proof. intros Ht Ht'. apply upd_ne. congruence. Qed.

Lemma env_yield_ok k' :
  status_of k (currentThread k) = Some RUNNING -> currentThread k ∉ dom inOp -> Yield k = Ok k' -> env_ok k'.
Proof.
  intros Hrun Hnin Hy. destruct (Yield_effect k Hk Hrun) as (k'' & Hy' & Hcase). rewrite Hy in Hy'. injection Hy' as <-.
  destruct Hcase as [[-> _]|(k1 & z & next & q' & Hq' & Hst & Hfr & Hc & Hd & Hl & He & _)]; [by split_and!|].
  pose proof (head_ready _ _ _ _ Hk Hq') as Hn.
  assert (waiters_ok k1 q inOp) as Hw1.
  { apply (waiters_same k); try done; [intros; rewrite Hst; by apply upd_outside|intros t Ht; rewrite Hd; by apply Hw]. }
  destruct (waiters_switch k1 k' next (InYield (k_level k)) q inOp) as [? ?]; try done.
  - rewrite Hc, Hst, upd_eq. done.
  - rewrite Hst, upd_ne; [done|congruence].
  - by rewrite Hc.
  - rewrite Hd. by apply (not_dead k next READY).
  - split; [apply He|done].
Qed.

(** [Sleep] and [Finish] block the current thread and dispatch another one. *)
Lemma env_block_ok k1 b k' :
  currentThread k ∉ dom inOp -> blocked k k1 ->
  (forall t, t ∈ dom inOp -> threadToBeDestroyed k1 <> Some t) ->
  Sleep_dispatch k1 = Ok (b, k') -> env_ok k'.
Proof.
  intros Hnin [Hk1 Hst Hfr Hc Hl1 _] Hd Hs. apply (dispatch_step k1 b); try done; [by rewrite Hc, Hst, upd_eq|].
  apply (waiters_same k); try done. intros. rewrite Hst. by apply upd_outside.
Qed.

(** A thread outside becomes ready. *)
Lemma env_ready_ok t k' :
  kernel_ok k' -> t ∉ dom inOp -> status_of k t <> Some RUNNING ->
  currentThread k' = currentThread k -> k_level k' = k_level k ->
  threadToBeDestroyed k' = threadToBeDestroyed k ->
  (forall t', status_of k' t' = upd (status_of k) t (Some READY) t') ->
  (forall t', t' <> t -> frame_of k' t' = frame_of k t') -> env_ok k'.
Proof.
  intros Hk' Hnin Hnr Hc Hl Hd Hst Hfr. split; [done|]. split.
  - unfold idle_off in *. rewrite Hc, Hl, Hst. unfold upd. destruct (decide _) as [He|]; [|done].
    intros _. apply Hi. congruence.
  - apply (waiters_same k); try done; [intros; rewrite Hst; by apply upd_outside| |].
    + intros t' Ht'. apply Hfr. congruence.
    + intros t' Ht'. rewrite Hd. by apply Hw.
Qed.

Lemma env_wake_ok t k' : wakeable k t -> t ∉ dom inOp -> ReadyToRun k t = Ok k' -> env_ok k'.
Proof.
  intros [Hst Hnd] Hnin Hr.
  assert (exists s, status_of k t = Some s /\ s <> READY /\ s <> RUNNING)
    as (s & Hs & Hne & Hnr) by (destruct Hst; eauto).
  destruct (ReadyToRun_ok k t s) as (k'' & Hr' & Hk' & _ & Hc & Hd & Hl & _ & Hst' & Hig); try done.
  rewrite Hr in Hr'. injection Hr' as <-. apply (env_ready_ok t); try done; [congruence|].
  intros t' _. by apply frame_ignore.
Qed.

Lemma env_new_ok garbage : env_ok (Thread_new k garbage).2.
Proof.
  split; [by apply kernel_ok_new|].
  assert (forall t, is_Some (status_of k t) ->
    threads (Thread_new k garbage).2 !! t = threads k !! t) as Hsame.
  { intros t Ht. unfold Thread_new. simpl. rewrite lookup_insert_ne; [done|]. intros <-.
    unfold status_of in Ht. rewrite (proj1 (not_elem_of_dom (threads k) _)) in Ht; [|apply is_fresh].
    by destruct Ht. }
  assert (forall t, is_Some (status_of k t) -> status_of (Thread_new k garbage).2 t = status_of k t) as Hst
    by (intros t Ht; unfold status_of at 1; by rewrite Hsame).
  split.
  - unfold idle_off in *. simpl currentThread. rewrite Hst; [done|].
    destruct (so_current _ _ _ _ (proj1 Hk)) as (s & -> & _). by eexists.
  - apply (waiters_same k); try done; [| |by apply Hw];
      intros t Ht; [apply Hst|unfold frame_of; rewrite Hsame; [done|]]; by eapply woken_status.
Qed.

Lemma env_fork_ok t k' : status_of k t = Some JUST_CREATED -> Fork k t = Ok k' -> env_ok k'.
Proof.
  intros Ht Hf. destruct (Fork_ok k t Hk Ht) as (k'' & Hf' & Hk' & _ & Hc & Hl & Hd & Hst & Hig).
  rewrite Hf in Hf'. injection Hf' as <-. apply (env_ready_ok t); try done; [|congruence|].
  - intros Hin. destruct (wo_woken _ _ _ Hw t Hin) as [Hq|[?|[_ ?]]]; try congruence.
    destruct (wo_queued _ _ _ Hw t Hq). congruence.
  - intros t' Ht'. specialize (Hig t' Ht'). unfold frame_of.
    destruct (threads k' !! t'), (threads k !! t'); simpl in *; try discriminate Hig; [|done].
    injection Hig as _ Hfr _ _. by rewrite Hfr.
Qed.
End environment.

Lemma env_step_ok inOp k k' q :
  kernel_ok k -> idle_off k -> waiters_ok k q inOp -> env_step inOp k k' ->
  kernel_ok k' /\ idle_off k' /\ waiters_ok k' q inOp.
Proof.
  intros Hk Hi Hw Hstep.
  destruct Hstep as [k' Hrun Hnin Hy|b k' Hrun Hnin Hl Hs|t k' Hwk Hnin Hr|b k' Hrun Hnin Hf|garbage
    |t k' Ht Hf|b k' Hcur Hs|l Hrun Hnin|regs pt].
  - by apply (env_yield_ok inOp k q).
  - destruct (Sleep_effect k Hk Hrun Hl) as (k1 & Heq & Hb & Hd). rewrite Heq in Hs.
    apply (env_block_ok inOp k q Hw k1 b); try done. intros t Ht. rewrite Hd. by apply Hw.
  - by apply (env_wake_ok inOp k q Hk Hi Hw t).
  - destruct (Finish_effect k Hk Hrun) as (k1 & Heq & Hb & Hd). rewrite Heq in Hf.
    apply (env_block_ok inOp k q Hw k1 b); try done. intros t Ht. rewrite Hd. congruence.
  - by apply env_new_ok.
  - by apply (env_fork_ok inOp k q Hk Hi Hw t).
  - apply (dispatch_step k b); auto.
  - split; [done|]. split; [by intros []|]. apply (waiters_same k); try done. apply Hw.
  - split; [done|]. split; [done|]. apply (waiters_same k); try done. apply Hw.
Qed.

(** ** Semaphores *)

(** The kernel with one semaphore; [sy_in] are the threads inside [P], and [sy_p] and
    [sy_v] count the calls of [P] that have returned and the calls of [V]. *)
Record sem_sys := mkSemSys {
  sy_k : kstate;
  sy_s : Semaphore;
  sy_in : gmap positive IntStatus;
  sy_p : Z;
  sy_v : Z }.

Inductive sem_step : sem_sys -> sem_sys -> Prop :=
| sem_P_done k s inP p v k' s' :
    (* [P] by the running thread, which does not have to wait *)
    status_of k (currentThread k) = Some RUNNING -> currentThread k ∉ dom inP ->
    Semaphore_P_loop (with_klevel k IntOff) s = Ok (true, k', s') ->
    sem_step (mkSemSys k s inP p v) (mkSemSys (with_klevel k' (k_level k)) s' inP (p + 1) v)
| sem_P_wait k s inP p v k' s' :
    status_of k (currentThread k) = Some RUNNING -> currentThread k ∉ dom inP ->
    Semaphore_P_loop (with_klevel k IntOff) s = Ok (false, k', s') ->
    sem_step (mkSemSys k s inP p v)
      (mkSemSys k' s' (<[currentThread k := k_level k]> inP) p v)
| sem_P_again_done k s inP p v k' s' old :
    (* the running thread returns from [Sleep] inside [P] and tests again *)
    status_of k (currentThread k) = Some RUNNING -> inP !! currentThread k = Some old ->
    Semaphore_P_loop k s = Ok (true, k', s') ->
    sem_step (mkSemSys k s inP p v)
      (mkSemSys (with_klevel k' old) s' (delete (currentThread k) inP) (p + 1) v)
| sem_P_again_wait k s inP p v k' s' old :
    status_of k (currentThread k) = Some RUNNING -> inP !! currentThread k = Some old ->
    Semaphore_P_loop k s = Ok (false, k', s') ->
    sem_step (mkSemSys k s inP p v) (mkSemSys k' s' inP p v)
| sem_V k s inP p v k' s' :
    (* [V], by the running thread or by an interrupt handler *)
    Semaphore_V k s = Ok (k', s') ->
    sem_step (mkSemSys k s inP p v) (mkSemSys k' s' inP p (v + 1))
| sem_env k k' s inP p v :
    env_step inP k k' -> sem_step (mkSemSys k s inP p v) (mkSemSys k' s inP p v).

(** The threads inside a routine that are not queued: they have been woken. *)
Definition woken (inOp : gmap positive IntStatus) (q : queue positive) : Z :=
  Z.of_nat (size inOp) - Z.of_nat (length q).

Record sem_inv (init : Z) (y : sem_sys) : Prop := {
  si_kernel : kernel_ok (sy_k y);
  si_idle : idle_off (sy_k y);
  si_waiters : waiters_ok (sy_k y) (s_queue (sy_s y)) (sy_in y);
  si_value : 0 <= s_value (sy_s y);
  si_count : s_value (sy_s y) + sy_p y = init + sy_v y;
  si_p : 0 <= sy_p y;
  si_wakeup : s_queue (sy_s y) <> [] -> s_value (sy_s y) <= woken (sy_in y) (s_queue (sy_s y)) }.

Lemma idle_off_level k l : status_of k (currentThread k) = Some RUNNING -> idle_off (with_klevel k l).
Proof. intros Hr Hn. by destruct Hn. Qed.

Lemma waiters_level k q inOp l :
  waiters_ok k q inOp -> (currentThread k ∈ dom inOp -> l = IntOff) ->
  waiters_ok (with_klevel k l) q inOp.
Proof. intros [Hnd Hq Hw Hf Hl Hd] Hn. by constructor. Qed.

(** [wake] between [SetLevel(IntOff)] and [SetLevel(oldLevel)]. *)
Lemma wake_ok k q inOp :
  kernel_ok k -> idle_off k -> waiters_ok k q inOp ->
  exists k', wake (with_klevel k IntOff) (q_remove q).1 = Ok k' /\
    kernel_ok (with_klevel k' (k_level k)) /\ idle_off (with_klevel k' (k_level k)) /\
    waiters_ok (with_klevel k' (k_level k)) (q_remove q).2 inOp /\
    currentThread k' = currentThread k.
Proof.
  intros Hk Hi Hw. destruct q as [|[z t] q]; simpl.
  - exists (with_klevel k IntOff). split_and!; try done. by apply waiters_level; [apply waiters_level|apply Hw].
  - destruct (waiters_wake (with_klevel k IntOff) z t q inOp)
      as (k' & Hr & Hk' & Hw' & Hi' & Hc' & Hl' & Hst'); [done|done|by apply waiters_level|].
    exists k'. split_and!; try done.
    + intros Hn. apply Hi. intros Hrun. apply Hn. simpl. rewrite Hc'. by apply Hst'.
    + apply waiters_level; [done|]. rewrite Hc'. apply Hw.
Qed.

Lemma P_loop_ok k s inP old :
  kernel_ok k -> waiters_ok k (s_queue s) inP -> status_of k (currentThread k) = Some RUNNING ->
  k_level k = IntOff -> 0 <= s_value s < two31 ->
  (s_value s = 0 /\ exists k', Semaphore_P_loop k s = Ok (false, k', mkSem 0 (q_append (currentThread k) (s_queue s))) /\
     kernel_ok k' /\ idle_off k' /\
     waiters_ok k' (q_append (currentThread k) (s_queue s)) (<[currentThread k := old]> inP)) \/
  (0 < s_value s /\ Semaphore_P_loop k s = Ok (true, k, mkSem (s_value s - 1) (s_queue s))).
Proof.
  intros Hk Hw Hrun Hl Hv. unfold Semaphore_P_loop. destruct (Z.eqb_spec (s_value s) 0) as [Hz|Hz].
  - left. split; [done|].
    destruct (waiters_sleep k (s_queue s) inP old Hk Hw Hrun Hl) as (b & k' & Hs & Hk' & Hi' & Hw').
    rewrite Hs, Hz. simpl. by exists k'.
  - right. split; [lia|]. rewrite s32_small; [done|]. unfold is_s32, two31 in *. lia.
Qed.

Lemma q_append_length {A} (x : A) (q : queue A) : length (q_append x q) = S (length q).
Proof. unfold q_append. rewrite length_app. simpl. lia. Qed.

Lemma queued_in k q inOp : waiters_ok k q inOp -> Z.of_nat (length q) <= Z.of_nat (size inOp).
Proof.
  intros Hw. rewrite <- (length_fmap snd), <- (size_list_to_set (C := gset positive)) by apply Hw.
  rewrite <- size_dom. apply Nat2Z.inj_le, subseteq_size.
  intros t Ht%elem_of_list_to_set. by apply (wo_queued _ _ _ Hw).
Qed.

Lemma sem_step_ok init y y' :
  sem_inv init y -> sem_step y y' -> init + sy_v y < two31 -> init + sy_v y' < two31 ->
  sem_inv init y'.
Proof.
  intros [Hk Hi Hw Hv Hc Hp Hu] Hstep Hb Hb'.
  destruct Hstep as [k s inP p v k' s' Hrun Hnin Hl|k s inP p v k' s' Hrun Hnin Hl
    |k s inP p v k' s' old Hrun Hin Hl|k s inP p v k' s' old Hrun Hin Hl|k s inP p v k' s' HV
    |k k' s inP p v Henv]; simpl in *.
  - destruct (P_loop_ok (with_klevel k IntOff) s inP IntOff) as [(_ & ? & Hf & _)|(Hpos & Hl')];
      [done|by apply waiters_level|done|done|lia|by rewrite Hl in Hf|].
    rewrite Hl in Hl'. injection Hl' as -> ->. constructor; simpl; try done; try lia.
    + apply waiters_level; [by apply waiters_level|]. by intros ?%Hnin.
    + intros Hq. specialize (Hu Hq). lia.
  - destruct (P_loop_ok (with_klevel k IntOff) s inP (k_level k)) as [(Hz & k0 & Hl' & Hk' & Hi' & Hw')|(_ & Hf)];
      [done|by apply waiters_level|done|done|lia| |by rewrite Hl in Hf].
    rewrite Hl in Hl'. injection Hl' as -> ->. constructor; simpl; try done; try lia.
    intros _. pose proof (queued_in _ _ _ Hw') as Hle. simpl in Hle. unfold woken. lia.
  - assert (currentThread k ∈ dom inP) as Hdom by (by apply elem_of_dom_2 in Hin).
    assert (k_level k = IntOff) as Hlev by (by apply Hw).
    destruct (P_loop_ok k s inP IntOff) as [(_ & ? & Hf & _)|(Hpos & Hl')];
      [done..|lia|by rewrite Hl in Hf|].
    rewrite Hl in Hl'. injection Hl' as -> ->.
    destruct (waiters_leave k _ _ old Hk Hw Hrun) as [Hw' Hi'].
    constructor; simpl; try done; try lia. intros Hq. specialize (Hu Hq). unfold woken in *.
    rewrite map_size_delete_Some by (by eexists). 
    assert (size inP <> 0%nat) by (intros Hz; apply map_size_empty_inv in Hz; subst; by rewrite lookup_empty in Hin).
    lia.
  - assert (currentThread k ∈ dom inP) as Hdom by (by apply elem_of_dom_2 in Hin).
    assert (k_level k = IntOff) as Hlev by (by apply Hw).
    destruct (P_loop_ok k s inP old) as [(Hz & k0 & Hl' & Hk' & Hi' & Hw')|(_ & Hf)];
      [done..|lia| |by rewrite Hl in Hf].
    rewrite Hl in Hl'. injection Hl' as -> ->. rewrite insert_id in Hw' by done.
    constructor; simpl; try done; try lia.
    intros _. pose proof (queued_in _ _ _ Hw') as Hle. unfold woken. lia.
  - destruct (wake_ok k (s_queue s) inP Hk Hi Hw) as (k0 & Hwk & Hk' & Hi' & Hw' & _).
    unfold Semaphore_V in HV. destruct (q_remove (s_queue s)) as [x q] eqn:Hq. simpl in *.
    rewrite Hwk in HV. simpl in HV. injection HV as <- <-. simpl.
    rewrite s32_small in * by (unfold is_s32, two31 in *; lia).
    constructor; simpl; try done; try lia.
    destruct (s_queue s) as [|y0 q0]; simpl in Hq; injection Hq as <- <-; [done|].
    intros Hne. specialize (Hu ltac:(done)). unfold woken in *. simpl in *. lia.
  - destruct (env_step_ok _ _ _ _ Hk Hi Hw Henv) as (Hk' & Hi' & Hw'). by constructor.
Qed.

Definition sem_start (k : kstate) (init : Z) : sem_sys := mkSemSys k (Semaphore_new init) ∅ 0 0.

Lemma sem_step_v y y' : sem_step y y' -> sy_v y <= sy_v y'.
Proof. destruct 1; simpl; lia. Qed.

Lemma waiters_start k : waiters_ok k [] ∅.
Proof. constructor; try set_solver. constructor. Qed.

Lemma sem_reachable k init y :
  kernel_ok k -> idle_off k -> 0 <= init -> rtc sem_step (sem_start k init) y ->
  init + sy_v y < two31 -> sem_inv init y.
Proof.
  intros Hk Hi Hinit Hr.
  apply (rtc_ind_r (R := sem_step) (fun y => init + sy_v y < two31 -> sem_inv init y) (sem_start k init)); [| |exact Hr].
  - intros _. constructor; simpl; try done; try lia. apply waiters_start.
  - intros y1 y2 _ Hstep IH Hb. pose proof (sem_step_v _ _ Hstep). apply (sem_step_ok init y1); [|done|lia|done].
    apply IH. lia.
Qed.

Lemma woken_exists k q inOp :
  waiters_ok k q inOp -> 0 < woken inOp q ->
  exists t, t ∈ dom inOp /\ ~ (t ∈ q.*2) /\
    (status_of k t = Some READY \/ (t = currentThread k /\ status_of k t = Some RUNNING)).
Proof.
  intros Hw Hpos. destruct (set_choose_or_empty (dom inOp ∖ list_to_set q.*2 : gset positive)) as [[t Ht]|He].
  - apply elem_of_difference in Ht as [Hin Hnq%not_elem_of_list_to_set]. exists t. split; [done|].
    split; [done|]. destruct (wo_woken _ _ _ Hw t Hin); [done|auto].
  - exfalso. assert (dom inOp ⊆ (list_to_set q.*2 : gset positive)) as Hsub.
    { intros t Ht. destruct (decide (t ∈ (list_to_set q.*2 : gset positive))) as [|Hn]; [done|].
      exfalso. apply (not_elem_of_empty (C := gset positive) t). rewrite <- He.
      by apply elem_of_difference. }
    apply subseteq_size in Hsub. rewrite size_dom, size_list_to_set, length_fmap in Hsub by apply Hw.
    unfold woken in Hpos. lia.
Qed.

(** C34. A semaphore counts: however the kernel schedules its threads and whoever
    calls [P] and [V], the value is never negative and equals the initial value plus
    the calls of [V] minus the calls of [P] that have returned; so no more calls of
    [P] return than the initial value and the calls of [V] allow. In every reachable
    state [V] succeeds, and so does the next part of [P] of the running thread. *)
Theorem semaphore_counts k init y :
  kernel_ok k -> idle_off k -> 0 <= init -> rtc sem_step (sem_start k init) y ->
  init + sy_v y < two31 ->
  0 <= s_value (sy_s y) /\ s_value (sy_s y) = init + sy_v y - sy_p y /\ sy_p y <= init + sy_v y /\
  (exists k' s', Semaphore_V (sy_k y) (sy_s y) = Ok (k', s')) /\
  (status_of (sy_k y) (currentThread (sy_k y)) = Some RUNNING ->
   exists b k' s', Semaphore_P_loop (with_klevel (sy_k y) IntOff) (sy_s y) = Ok (b, k', s')).
Proof.
  intros Hk Hi Hinit Hr Hb. destruct (sem_reachable k init y Hk Hi Hinit Hr Hb) as [Hk' Hi' Hw Hv Hc Hp Hu].
  split_and!; try lia.
  - destruct (wake_ok _ _ _ Hk' Hi' Hw) as (k0 & Hwk & _). unfold Semaphore_V.
    destruct (q_remove (s_queue (sy_s y))) as [x q]. simpl in Hwk. rewrite Hwk. simpl. eauto.
  - intros Hrun. destruct (P_loop_ok (with_klevel (sy_k y) IntOff) (sy_s y) (sy_in y) IntOff)
      as [(_ & k0 & Hl & _)|(_ & Hl)]; try done; [by apply waiters_level|lia|eauto..].
Qed.

Lemma semaphore_counts_witness :
  let y := mkSemSys (with_klevel boot IntOn) (mkSem 0 []) ∅ 1 0 in
  rtc sem_step (sem_start boot 1) y /\ s_value (sy_s y) = 1 + sy_v y - sy_p y.
Proof.
  intros y. assert (rtc sem_step (sem_start boot 1) y) as Hr.
  { apply rtc_once. apply (sem_P_done boot (Semaphore_new 1) ∅ 0 0 (with_klevel boot IntOff)).
    - reflexivity.
    - rewrite dom_empty_L. apply not_elem_of_empty.
    - reflexivity. }
  split; [exact Hr|].
  destruct (semaphore_counts boot 1 y boot_ok) as (_ & Hv & _).
  - intros Hn. exfalso. apply Hn. reflexivity.
  - lia.
  - exact Hr.
  - vm_compute. reflexivity.
  - exact Hv.
Defined.

(** C23. No wake-up is lost: whenever threads are queued in [P] although the value is
    positive, at least as many threads as the value have been woken and are on the
    ready list or running, about to test the value again; none of them is queued. In
    particular there is one. *)
Theorem semaphore_no_lost_wakeup k init y :
  kernel_ok k -> idle_off k -> 0 <= init -> rtc sem_step (sem_start k init) y ->
  init + sy_v y < two31 -> s_queue (sy_s y) <> [] -> 0 < s_value (sy_s y) ->
  s_value (sy_s y) <= woken (sy_in y) (s_queue (sy_s y)) /\
  exists t, t ∈ dom (sy_in y) /\ ~ (t ∈ (s_queue (sy_s y)).*2) /\
    (status_of (sy_k y) t = Some READY \/
     (t = currentThread (sy_k y) /\ status_of (sy_k y) t = Some RUNNING)).
Proof.
  intros Hk Hi Hinit Hr Hb Hq Hpos. destruct (sem_reachable k init y Hk Hi Hinit Hr Hb) as [_ _ Hw _ _ _ Hu].
  specialize (Hu Hq). split; [done|]. apply woken_exists; [done|lia].
Qed.

(** Threads 1 and 2 of [demo_kernel] wait in [P], and thread 3 calls [V]. *)
Definition demo_P (ks : kstate * Semaphore) : kstate * Semaphore :=
  match Semaphore_P_loop (with_klevel ks.1 IntOff) ks.2 with
  | Ok (_, k, s) => (k, s)
  | _ => ks
  end.
Definition demo_V (ks : kstate * Semaphore) : kstate * Semaphore :=
  match Semaphore_V ks.1 ks.2 with
  | Ok (k, s) => (k, s)
  | _ => ks
  end.
Definition demo_wait1 : kstate * Semaphore := demo_P (demo_kernel, Semaphore_new 0).
Definition demo_wait2 : kstate * Semaphore := demo_P demo_wait1.
Definition demo_signalled : sem_sys :=
  mkSemSys (demo_V demo_wait2).1 (demo_V demo_wait2).2
    (<[2%positive := IntOn]> (<[1%positive := IntOff]> ∅)) 0 1.

Lemma demo_signalled_reachable : rtc sem_step (sem_start demo_kernel 0) demo_signalled.
Proof.
  eapply rtc_l.
  { apply (sem_P_wait demo_kernel (Semaphore_new 0) ∅ 0 0 demo_wait1.1 demo_wait1.2);
      [reflexivity|set_solver|vm_compute; reflexivity]. }
  eapply rtc_l.
  { apply (sem_P_wait demo_wait1.1 demo_wait1.2 _ 0 0 demo_wait2.1 demo_wait2.2);
      [vm_compute; reflexivity| |vm_compute; reflexivity].
    change (currentThread demo_wait1.1) with 2%positive. set_solver. }
  eapply rtc_l; [|apply rtc_refl].
  apply (sem_V demo_wait2.1 demo_wait2.2 _ 0 0). vm_compute. reflexivity.
Qed.

Lemma semaphore_no_lost_wakeup_witness :
  s_queue (sy_s demo_signalled) = [(0, 2%positive)] /\ s_value (sy_s demo_signalled) = 1 /\ exists t, t ∈ dom (sy_in demo_signalled) /\ ~ (t ∈ (s_queue (sy_s demo_signalled)).*2).
Proof.
  split; [vm_compute; reflexivity|]. split; [vm_compute; reflexivity|].
  destruct (semaphore_no_lost_wakeup demo_kernel 0 demo_signalled demo_kernel_ok)
    as (_ & t & Hin & Hnq & _).
  - intros _. reflexivity.
  - lia.
  - exact demo_signalled_reachable.
  - vm_compute. reflexivity.
  - vm_compute. congruence.
  - vm_compute. reflexivity.
  - exists t. split; [exact Hin|exact Hnq].
Defined.

(** ** Locks *)

(** The kernel with one lock; [ls_in] are the threads inside [Acquire], and [ls_cs]
    those that have returned from [Acquire] and have not released the lock since. *)
Record lock_sys := mkLockSys {
  ls_k : kstate;
  ls_l : Lock;
  ls_in : gmap positive IntStatus;
  ls_cs : gset positive }.

Inductive lock_step : lock_sys -> lock_sys -> Prop :=
| lock_acquired k l inA cs k' l' :
    status_of k (currentThread k) = Some RUNNING -> currentThread k ∉ dom inA ->
    Lock_Acquire_loop (with_klevel k IntOff) l = Ok (true, k', l') ->
    lock_step (mkLockSys k l inA cs)
      (mkLockSys (with_klevel k' (k_level k)) l' inA ({[currentThread k]} ∪ cs))
| lock_wait k l inA cs k' l' :
    status_of k (currentThread k) = Some RUNNING -> currentThread k ∉ dom inA ->
    Lock_Acquire_loop (with_klevel k IntOff) l = Ok (false, k', l') ->
    lock_step (mkLockSys k l inA cs) (mkLockSys k' l' (<[currentThread k := k_level k]> inA) cs)
| lock_again_acquired k l inA cs k' l' old :
    status_of k (currentThread k) = Some RUNNING -> inA !! currentThread k = Some old ->
    Lock_Acquire_loop k l = Ok (true, k', l') ->
    lock_step (mkLockSys k l inA cs)
      (mkLockSys (with_klevel k' old) l' (delete (currentThread k) inA) ({[currentThread k]} ∪ cs))
| lock_again_wait k l inA cs k' l' old :
    status_of k (currentThread k) = Some RUNNING -> inA !! currentThread k = Some old ->
    Lock_Acquire_loop k l = Ok (false, k', l') ->
    lock_step (mkLockSys k l inA cs) (mkLockSys k' l' inA cs)
| lock_release k l inA cs k' l' :
    (* by any running thread: a thread that does not hold the lock changes nothing *)
    status_of k (currentThread k) = Some RUNNING -> currentThread k ∉ dom inA ->
    Lock_Release k l = Ok (k', l') ->
    lock_step (mkLockSys k l inA cs) (mkLockSys k' l' inA (cs ∖ {[currentThread k]}))
| lock_env k k' l inA cs :
    env_step inA k k' -> lock_step (mkLockSys k l inA cs) (mkLockSys k' l inA cs).

Record lock_inv (y : lock_sys) : Prop := {
  li_kernel : kernel_ok (ls_k y);
  li_idle : idle_off (ls_k y);
  li_waiters : waiters_ok (ls_k y) (lk_queue (ls_l y)) (ls_in y);
  li_locked : locked (ls_l y) = true -> exists t, owner (ls_l y) = Some t /\ ls_cs y = {[t]};
  li_free : locked (ls_l y) = false -> ls_cs y = ∅;
  li_wakeup : lk_queue (ls_l y) <> [] -> locked (ls_l y) = false ->
              1 <= woken (ls_in y) (lk_queue (ls_l y)) }.

Lemma Acquire_loop_ok k l inA old :
  kernel_ok k -> waiters_ok k (lk_queue l) inA -> status_of k (currentThread k) = Some RUNNING ->
  k_level k = IntOff ->
  (locked l = true /\ owner l <> Some (currentThread k) /\
   exists k', Lock_Acquire_loop k l =
       Ok (false, k', mkLock true (owner l) (q_append (currentThread k) (lk_queue l))) /\
     kernel_ok k' /\ idle_off k' /\
     waiters_ok k' (q_append (currentThread k) (lk_queue l)) (<[currentThread k := old]> inA)) \/
  ((locked l = false \/ owner l = Some (currentThread k)) /\
   Lock_Acquire_loop k l = Ok (true, k, mkLock true (Some (currentThread k)) (lk_queue l))).
Proof.
  intros Hk Hw Hrun Hl. unfold Lock_Acquire_loop, isHeldByCurrentThread.
  destruct (locked l); simpl; [|by right; auto].
  destruct (bool_decide _) eqn:Ho; simpl; [apply bool_decide_eq_true in Ho; by right; auto|].
  apply bool_decide_eq_false in Ho. left. split; [done|]. split; [done|].
  destruct (waiters_sleep k (lk_queue l) inA old Hk Hw Hrun Hl) as (b & k' & Hs & Hk' & Hi' & Hw').
  rewrite Hs. simpl. by exists k'.
Qed.

Lemma Release_ok k l inA :
  kernel_ok k -> idle_off k -> waiters_ok k (lk_queue l) inA ->
  (owner l <> Some (currentThread k) /\ Lock_Release k l = Ok (k, l)) \/
  (owner l = Some (currentThread k) /\
   exists k', Lock_Release k l = Ok (k', mkLock false None (q_remove (lk_queue l)).2) /\
     kernel_ok k' /\ idle_off k' /\ waiters_ok k' (q_remove (lk_queue l)).2 inA).
Proof.
  intros Hk Hi Hw. unfold Lock_Release, isHeldByCurrentThread.
  destruct (bool_decide _) eqn:Ho; simpl.
  - apply bool_decide_eq_true in Ho. right. split; [done|].
    destruct (wake_ok k (lk_queue l) inA Hk Hi Hw) as (k0 & Hwk & Hk' & Hi' & Hw' & _).
    destruct (q_remove (lk_queue l)) as [x q]. simpl in *. rewrite Hwk. simpl. eexists. by split_and!.
  - apply bool_decide_eq_false in Ho. by left.
Qed.

(** A lock that has just been acquired by the current thread. *)
Lemma lock_cs_acquired l cs t :
  (locked l = true -> exists o, owner l = Some o /\ cs = {[o]}) -> (locked l = false -> cs = ∅) ->
  locked l = false \/ owner l = Some t -> ({[t]} ∪ cs : gset positive) = {[t]}.
Proof.
  intros Hl Hf Ht. destruct (locked l).
  - destruct (Hl eq_refl) as (o & Ho & ->). destruct Ht as [|Ht]; [done|].
    assert (o = t) as -> by congruence. set_solver.
  - rewrite Hf by done. set_solver.
Qed.

Lemma lock_step_ok y y' : lock_inv y -> lock_step y y' -> lock_inv y'.
Proof.
  intros [Hk Hi Hw Hl Hf Hu] Hstep.
  destruct Hstep as [k l inA cs k' l' Hrun Hnin Ha|k l inA cs k' l' Hrun Hnin Ha
    |k l inA cs k' l' old Hrun Hin Ha|k l inA cs k' l' old Hrun Hin Ha|k l inA cs k' l' Hrun Hnin Hr
    |k k' l inA cs Henv]; simpl in *.
  - destruct (Acquire_loop_ok (with_klevel k IntOff) l inA IntOff) as [(_ & _ & ? & He & _)|(Hc & He)];
      [done|by apply waiters_level|done|done|by rewrite Ha in He|].
    rewrite Ha in He. injection He as -> ->. constructor; simpl; try done.
    + apply waiters_level; [by apply waiters_level|]. by intros ?%Hnin.
    + intros _. exists (currentThread k). split; [done|]. by eapply lock_cs_acquired.
  - destruct (Acquire_loop_ok (with_klevel k IntOff) l inA (k_level k))
      as [(Hlk & _ & k0 & He & Hk' & Hi' & Hw')|(_ & He)];
      [done|by apply waiters_level|done|done| |by rewrite Ha in He].
    rewrite Ha in He. injection He as -> ->. constructor; simpl; try done. auto.
  - assert (currentThread k ∈ dom inA) as Hdom by (by apply elem_of_dom_2 in Hin).
    destruct (Acquire_loop_ok k l inA IntOff) as [(_ & _ & ? & He & _)|(Hc & He)];
      [done..|by apply Hw|by rewrite Ha in He|].
    rewrite Ha in He. injection He as -> ->.
    destruct (waiters_leave k _ _ old Hk Hw Hrun) as [Hw' Hi']. constructor; simpl; try done.
    intros _. exists (currentThread k). split; [done|]. by eapply lock_cs_acquired.
  - assert (currentThread k ∈ dom inA) as Hdom by (by apply elem_of_dom_2 in Hin).
    destruct (Acquire_loop_ok k l inA old) as [(Hlk & _ & k0 & He & Hk' & Hi' & Hw')|(_ & He)];
      [done..|by apply Hw| |by rewrite Ha in He].
    rewrite Ha in He. injection He as -> ->. rewrite insert_id in Hw' by done.
    constructor; simpl; try done. auto.
  - destruct (Release_ok k l inA Hk Hi Hw) as [(Ho & He)|(Ho & k0 & He & Hk' & Hi' & Hw')];
      rewrite Hr in He; injection He as -> ->.
    + constructor; simpl; try done.
      * intros Hlk. destruct (Hl Hlk) as (t & Ht & ->). exists t. split; [done|]. set_solver.
      * intros Hlk. rewrite Hf by done. set_solver.
    + constructor; simpl; try done.
      * intros _. destruct (locked l); [|rewrite Hf by done; set_solver].
        destruct (Hl eq_refl) as (t & Ht & ->). assert (t = currentThread k) as -> by congruence. set_solver.
      * intros Hq _. destruct (lk_queue l) as [|x q]; [done|]. simpl in *.
        pose proof (queued_in _ _ _ Hw) as Hle. unfold woken. simpl in Hle. lia.
  - destruct (env_step_ok _ _ _ _ Hk Hi Hw Henv) as (Hk' & Hi' & Hw'). by constructor.
Qed.

Definition lock_start (k : kstate) (garbage : option positive) : lock_sys :=
  mkLockSys k (Lock_new garbage) ∅ ∅.

Lemma lock_reachable k garbage y :
  kernel_ok k -> idle_off k -> rtc lock_step (lock_start k garbage) y -> lock_inv y.
Proof.
  intros Hk Hi Hr. apply (rtc_ind_r (R := lock_step) lock_inv (lock_start k garbage)); [| |exact Hr].
  - constructor; simpl; try done. apply waiters_start.
  - intros y1 y2 _ Hs IH. by eapply lock_step_ok.
Qed.

(** C1. Mutual exclusion: however the kernel schedules its threads, whoever calls
    [Acquire] and [Release], and whatever the uninitialised [owner] holds at first, at
    most one thread is between a return of [Acquire] and its next [Release], namely
    the owner of the lock, and only while the lock is locked. *)
Theorem lock_mutual_exclusion k garbage y t1 t2 :
  kernel_ok k -> idle_off k -> rtc lock_step (lock_start k garbage) y ->
  t1 ∈ ls_cs y -> t2 ∈ ls_cs y ->
  t1 = t2 /\ locked (ls_l y) = true /\ owner (ls_l y) = Some t1.
Proof.
  intros Hk Hi Hr H1 H2. destruct (lock_reachable k garbage y Hk Hi Hr) as [_ _ _ Hl Hf _].
  destruct (locked (ls_l y)); [|rewrite Hf in H1 by done; set_solver].
  destruct (Hl eq_refl) as (t & Ho & Hcs). rewrite Hcs in H1, H2.
  apply elem_of_singleton in H1, H2. subst. done.
Qed.

(** C24. A free lock with waiters has woken one: it is ready or running, and about to
    test the lock again. *)
Theorem lock_no_lost_wakeup k garbage y :
  kernel_ok k -> idle_off k -> rtc lock_step (lock_start k garbage) y ->
  lk_queue (ls_l y) <> [] -> locked (ls_l y) = false ->
  exists t, t ∈ dom (ls_in y) /\ ~ (t ∈ (lk_queue (ls_l y)).*2) /\
    (status_of (ls_k y) t = Some READY \/
     (t = currentThread (ls_k y) /\ status_of (ls_k y) t = Some RUNNING)).
Proof.
  intros Hk Hi Hr Hq Hlk. destruct (lock_reachable k garbage y Hk Hi Hr) as [_ _ Hw _ _ Hu].
  apply woken_exists; [done|]. specialize (Hu Hq Hlk). lia.
Qed.

(** Thread 1 of [demo_kernel] takes the lock and yields; threads 2 and 3 wait for it;
    thread 1 releases it. *)
Definition demo_acquire (kl : kstate * Lock) : kstate * Lock :=
  match Lock_Acquire_loop (with_klevel kl.1 IntOff) kl.2 with
  | Ok (_, k, l) => (k, l)
  | _ => kl
  end.
Definition demo_held : kstate * Lock := demo_acquire (demo_kernel, Lock_new None).
Definition demo_yielded : kstate := match Yield demo_held.1 with Ok k => k | _ => demo_held.1 end.
Definition demo_lock2 : kstate * Lock := demo_acquire (demo_yielded, demo_held.2).
Definition demo_lock3 : kstate * Lock := demo_acquire demo_lock2.
Definition demo_in : gmap positive IntStatus := <[3%positive := IntOn]> (<[2%positive := IntOn]> ∅).
Definition demo_freed : kstate * Lock :=
  match Lock_Release demo_lock3.1 demo_lock3.2 with Ok kl => kl | _ => demo_lock3 end.

Lemma demo_held_reachable :
  rtc lock_step (lock_start demo_kernel None)
    (mkLockSys (with_klevel demo_held.1 IntOff) demo_held.2 ∅ ({[1%positive]} ∪ ∅)).
Proof.
  apply rtc_once. apply (lock_acquired demo_kernel (Lock_new None) ∅ ∅ demo_held.1 demo_held.2);
    [reflexivity|set_solver|vm_compute; reflexivity].
Qed.

Lemma demo_freed_reachable :
  rtc lock_step (lock_start demo_kernel None)
    (mkLockSys demo_freed.1 demo_freed.2 demo_in (({[1%positive]} ∪ ∅) ∖ {[1%positive]})).
Proof.
  etransitivity; [exact demo_held_reachable|].
  eapply rtc_l; [apply lock_env, (env_yield _ _ demo_yielded);
                 [vm_compute; reflexivity|set_solver|vm_compute; reflexivity]|].
  eapply rtc_l.
  { apply (lock_wait demo_yielded demo_held.2 ∅ _ demo_lock2.1 demo_lock2.2);
      [vm_compute; reflexivity|set_solver|vm_compute; reflexivity]. }
  eapply rtc_l.
  { apply (lock_wait demo_lock2.1 demo_lock2.2 _ _ demo_lock3.1 demo_lock3.2);
      [vm_compute; reflexivity| |vm_compute; reflexivity].
    change (currentThread demo_lock2.1) with 3%positive. change (currentThread demo_yielded) with 2%positive.
    set_solver. }
  apply rtc_once. apply (lock_release demo_lock3.1 demo_lock3.2 demo_in);
    [vm_compute; reflexivity| |vm_compute; reflexivity].
  change (currentThread demo_lock3.1) with 1%positive. unfold demo_in. set_solver.
Qed.

Lemma lock_mutual_exclusion_witness :
  locked demo_held.2 = true /\ owner demo_held.2 = Some 1%positive.
Proof.
  destruct (lock_mutual_exclusion demo_kernel None
              (mkLockSys (with_klevel demo_held.1 IntOff) demo_held.2 ∅ ({[1%positive]} ∪ ∅)) 1 1 demo_kernel_ok)
    as (_ & Hl & Ho).
  - intros _. reflexivity.
  - exact demo_held_reachable.
  - simpl. set_solver.
  - simpl. set_solver.
  - split; [exact Hl|exact Ho].
Defined.

Lemma lock_no_lost_wakeup_witness :
  lk_queue demo_freed.2 = [(0, 3%positive)] /\ locked demo_freed.2 = false /\
  exists t, t ∈ dom demo_in /\ ~ (t ∈ (lk_queue demo_freed.2).*2).
Proof.
  split; [vm_compute; reflexivity|]. split; [vm_compute; reflexivity|].
  destruct (lock_no_lost_wakeup demo_kernel None
              (mkLockSys demo_freed.1 demo_freed.2 demo_in (({[1%positive]} ∪ ∅) ∖ {[1%positive]}))
              demo_kernel_ok) as (t & Hin & Hnq & _).
  - intros _. reflexivity.
  - exact demo_freed_reachable.
  - vm_compute. congruence.
  - vm_compute. reflexivity.
  - exists t. split; [exact Hin|exact Hnq].
Defined.

(** ** Conditions *)

(** Threads that wait in a queue and can be woken. *)
Definition queued_ok (k : kstate) (q : queue positive) : Prop :=
  NoDup q.*2 /\ forall t, t ∈ q.*2 -> status_of k t = Some BLOCKED /\ threadToBeDestroyed k <> Some t.

Lemma queued_wake k z t q :
  kernel_ok k -> queued_ok k ((z, t) :: q) ->
  exists k', ReadyToRun k t = Ok k' /\ kernel_ok k' /\ queued_ok k' q /\
    (readyList k').*2 = (readyList k).*2 ++ [t] /\ currentThread k' = currentThread k /\
    k_level k' = k_level k /\ threadToBeDestroyed k' = threadToBeDestroyed k /\
    (forall t', t' <> t -> status_of k' t' = status_of k t').
Proof.
  intros Hk [Hnd Hq]. simpl in Hnd. apply NoDup_cons in Hnd as [Hnin Hnd].
  destruct (Hq t) as [Hb Hd]; [simpl; set_solver|].
  destruct (ReadyToRun_ok k t BLOCKED) as (k' & Hr & Hk' & Hrl & Hc & Hdd & Hl & _ & Hst & _); try done.
  exists k'. split_and!; try done.
  - split; [done|]. intros t' Ht'. destruct (Hq t') as [Hb' Hd']; [simpl; set_solver|].
    rewrite Hdd. split; [|done]. rewrite Hst, upd_ne; [done|]. by intros ->.
  - intros t' Ht'. by rewrite Hst, upd_ne.
Qed.

Lemma wake_all_ok q : forall k,
  kernel_ok k -> queued_ok k q ->
  exists k', wake_all k q = Ok k' /\ kernel_ok k' /\ (readyList k').*2 = (readyList k).*2 ++ q.*2 /\
    currentThread k' = currentThread k /\ k_level k' = k_level k.
Proof.
  induction q as [|[z t] q IH]; intros k Hk Hq; cbn [wake_all wake].
  { exists k. rewrite app_nil_r. done. }
  destruct (queued_wake k z t q Hk Hq) as (k1 & Hr & Hk1 & Hq1 & Hrl & Hc & Hl & _). rewrite Hr.
  destruct (IH k1 Hk1 Hq1) as (k' & Hw & Hk' & Hrl' & Hc' & Hl'). exists k'.
  simpl. rewrite Hw. split_and!; try done; [|congruence..]. rewrite Hrl', Hrl. by rewrite <- app_assoc.
Qed.

(** [Broadcast] by the holder of the lock wakes every waiter, in the order in
    which they began to wait, and leaves the condition without waiters; [Signal] wakes
    the one that has waited longest. A thread that does not hold the lock changes
    nothing with either. *)
Theorem signal_broadcast_fifo k c conditionLock :
  kernel_ok k -> queued_ok k c ->
  (owner conditionLock <> Some (currentThread k) ->
     Condition_Broadcast k c conditionLock = Ok (k, c) /\ Condition_Signal k c conditionLock = Ok (k, c)) /\
  (owner conditionLock = Some (currentThread k) ->
     (exists k', Condition_Broadcast k c conditionLock = Ok (k', []) /\ kernel_ok k' /\
        (readyList k').*2 = (readyList k).*2 ++ c.*2 /\ currentThread k' = currentThread k) /\
     (exists k', Condition_Signal k c conditionLock = Ok (k', (q_remove c).2) /\ kernel_ok k' /\
        (readyList k').*2 = (readyList k).*2 ++ take 1 c.*2 /\ currentThread k' = currentThread k)).
Proof.
  intros Hk Hq. unfold Condition_Broadcast, Condition_Signal, isHeldByCurrentThread. split; intros Ho.
  { by rewrite !bool_decide_eq_false_2 by done. }
  rewrite !bool_decide_eq_true_2 by done. simpl. split.
  - destruct (wake_all_ok c k Hk Hq) as (k' & -> & Hk' & Hrl & Hc & _). exists k'. by split_and!.
  - destruct c as [|[z t] c]; simpl.
    { exists k. rewrite app_nil_r. by split_and!. }
    destruct (queued_wake (with_klevel k IntOff) z t c Hk Hq) as (k1 & Hr & Hk1 & _ & Hrl & Hc & _).
    rewrite Hr. simpl. eexists. split; [done|]. by split_and!.
Qed.

(** Thread 1 of [demo_kernel] holds the lock while thread 4 waits on the condition. *)
Definition demo_waiting : kstate :=
  mkKernel (<[4%positive := mkThread BLOCKED None InSleep [] None]> {[ 1%positive := main_thread ]})
    [] 1 None IntOff [] None.

Lemma demo_waiting_ok : kernel_ok demo_waiting /\ queued_ok demo_waiting [(0, 4%positive)].
Proof.
  assert (forall t, status_of demo_waiting t =
    upd (upd (fun _ => None) 1 (Some RUNNING)) 4 (Some BLOCKED) t)%positive as Hst.
  { intros t. unfold status_of, demo_waiting, upd. simpl.
    repeat (destruct (decide (t = _)) as [->|]; [by vm_compute|rewrite ?lookup_insert_ne by done]).
    by rewrite lookup_singleton_ne. }
  split; [split|split].
  - eapply sched_ok_ext; [intros t; symmetry; apply Hst|]. unfold upd. constructor; simpl; try done.
    + by exists RUNNING.
    + intros t. by repeat case_decide.
    + intros t. rewrite elem_of_nil. repeat case_decide; by split.
    + constructor.
  - by repeat apply map_Forall_insert_2.
  - apply NoDup_singleton.
  - intros t Ht. simpl in Ht. apply list_elem_of_singleton in Ht as ->. by rewrite Hst.
Qed.

Lemma signal_broadcast_fifo_witness :
  exists k', Condition_Broadcast demo_waiting [(0, 4%positive)] (mkLock true (Some 1%positive) []) = Ok (k', []) /\
    (readyList k').*2 = [4%positive].
Proof.
  destruct (signal_broadcast_fifo demo_waiting [(0, 4%positive)] (mkLock true (Some 1%positive) [])
              (proj1 demo_waiting_ok) (proj2 demo_waiting_ok)) as [_ Hheld].
  destruct (Hheld eq_refl) as [(k' & Hb & _ & Hr & _) _].
  exists k'. split; [exact Hb|exact Hr].
Defined.

(** Going to sleep after joining a queue of waiting threads. *)
Lemma queued_sleep k q :
  kernel_ok k -> queued_ok k q -> status_of k (currentThread k) = Some RUNNING -> k_level k = IntOff ->
  exists b k', Sleep k = Ok (b, k') /\ kernel_ok k' /\ queued_ok k' (q_append (currentThread k) q).
Proof.
  intros Hk [Hnd Hq] Hrun Hl.
  destruct (Sleep_effect k Hk Hrun Hl) as (k1 & Heq & [Hk1 Hst Hfr Hc Hl1 Hr] & Hd).
  assert (status_of k1 (currentThread k1) = Some BLOCKED) as Hb by (rewrite Hst, Hc; apply upd_eq).
  assert (queued_ok k1 (q_append (currentThread k) q)) as [Hnd1 Hq1].
  { split; rewrite q_append_snd.
    - apply NoDup_app. split; [done|]. split; [|apply NoDup_singleton].
      intros x Hx ->%list_elem_of_singleton. destruct (Hq _ Hx). congruence.
    - intros t. rewrite elem_of_app, list_elem_of_singleton, Hst, Hd. intros [Ht| ->].
      + destruct (Hq t Ht). split; [|done]. unfold upd. by destruct (decide _).
      + rewrite upd_eq. split; [done|]. by apply (not_dead k _ RUNNING). }
  destruct (Sleep_dispatch_effect k1 Hk1) as (b & k' & Hs & Hcase); [congruence|].
  exists b, k'. split; [by rewrite Heq|]. destruct b; [|by destruct Hcase as [-> _]].
  destruct Hcase as (z & next & q' & Hq' & [Hk' Hc' Hst' _ Hd' _] & _).
  pose proof (head_ready _ _ _ _ Hk1 Hq') as Hn.
  split; [done|]. split; [done|]. intros t Ht. destruct (Hq1 t Ht) as [Htb Htd].
  rewrite Hst', upd_ne by (done || congruence). split; [done|]. by intros ?%Hd'.
Qed.

(** The holder of a lock releases it, while the queue [c] of other threads waits. *)
Lemma Release_effect k c l :
  kernel_ok k -> queued_ok k (lk_queue l ++ c) -> owner l = Some (currentThread k) ->
  exists k', Lock_Release k l = Ok (k', mkLock false None (q_remove (lk_queue l)).2) /\ kernel_ok k' /\
    queued_ok k' ((q_remove (lk_queue l)).2 ++ c) /\ (readyList k').*2 = (readyList k).*2 ++ take 1 (lk_queue l).*2 /\
    currentThread k' = currentThread k /\ k_level k' = k_level k /\
    (forall t, t ∉ (lk_queue l).*2 -> status_of k' t = status_of k t).
Proof.
  intros Hk Hq Ho. unfold Lock_Release, isHeldByCurrentThread. rewrite bool_decide_eq_true_2 by done. cbn [negb].
  destruct (lk_queue l) as [|[z t] lq]; simpl.
  { exists k. rewrite app_nil_r. by destruct k. }
  destruct (queued_wake (with_klevel k IntOff) z t (lq ++ c) Hk Hq) as (k1 & Hw & Hk1 & Hq1 & Hrl & Hc & _ & _ & Hst).
  rewrite Hw. simpl. eexists. split; [done|]. split_and!; try done.
  intros t' Ht'. etransitivity; [apply Hst|done]. set_solver.
Qed.

(** The threads of the queue [r] stay where they are. *)
Lemma Wait_effect k c l r :
  kernel_ok k -> queued_ok k (lk_queue l ++ r) -> status_of k (currentThread k) = Some RUNNING ->
  owner l = Some (currentThread k) ->
  exists k', Condition_Wait k c l =
      Ok (Some (k', q_append (currentThread k) c, mkLock false None (q_remove (lk_queue l)).2)) /\
    kernel_ok k' /\ queued_ok k' (q_append (currentThread k) ((q_remove (lk_queue l)).2 ++ r)).
Proof.
  intros Hk Hq Hrun Ho. unfold Condition_Wait, isHeldByCurrentThread. rewrite bool_decide_eq_true_2 by done. cbn [negb].
  destruct (Release_effect (with_klevel k IntOff) r l Hk Hq Ho) as (k1 & -> & Hk1 & Hq1 & _ & Hc1 & Hl1 & Hst).
  assert (status_of k1 (currentThread k1) = Some RUNNING) as Hr1.
  { rewrite Hc1. change (currentThread (with_klevel k IntOff)) with (currentThread k). rewrite Hst; [done|]. intros Hin.
    destruct (proj2 Hq (currentThread k)) as [Hb _]; [rewrite fmap_app; set_solver|congruence]. }
  simpl. destruct (queued_sleep k1 _ Hk1 Hq1 Hr1 Hl1) as (b & k' & -> & Hk' & Hq'). simpl. rewrite Hc1 in Hq' |- *.
  exists k'. by split_and!.
Qed.

(** [Wait] releases the lock and goes to sleep in one step: when another thread
    can next run, the lock is free, the first thread that waited for it has been
    woken, and the caller is blocked on the condition's queue, where a later [Signal]
    or [Broadcast] finds it. Without the lock, [Wait] does nothing. *)
Theorem Wait_atomic k c l :
  kernel_ok k -> queued_ok k (lk_queue l ++ c) -> status_of k (currentThread k) = Some RUNNING ->
  (owner l <> Some (currentThread k) -> Condition_Wait k c l = Ok None) /\
  (owner l = Some (currentThread k) ->
   exists k', Condition_Wait k c l =
       Ok (Some (k', q_append (currentThread k) c, mkLock false None (q_remove (lk_queue l)).2)) /\
     kernel_ok k' /\
     queued_ok k' (q_append (currentThread k) ((q_remove (lk_queue l)).2 ++ c))).
Proof.
  intros Hk Hq Hrun. split; intros Ho; [|by apply Wait_effect].
  unfold Condition_Wait, isHeldByCurrentThread. by rewrite bool_decide_eq_false_2.
Qed.

Lemma Wait_atomic_witness :
  exists k', Condition_Wait demo_waiting [] (mkLock true (Some 1%positive) [(0, 4%positive)]) =
      Ok (Some (k', [(0, 1%positive)], mkLock false None [])) /\ kernel_ok k'.
Proof.
  destruct (Wait_atomic demo_waiting [] (mkLock true (Some 1%positive) [(0, 4%positive)])
              (proj1 demo_waiting_ok) (proj2 demo_waiting_ok) eq_refl) as [_ Hheld].
  destruct (Hheld eq_refl) as (k' & Hw & Hk' & _). exists k'. split; [exact Hw|exact Hk'].
Defined.

(** ** Barriers *)

Record barrier_ok (k : kstate) (b : Barrier) : Prop := {
  bo_queue : queued_ok k (b_queue b);
  bo_count : blockCount b = Z.of_nat (length (b_queue b));
  bo_below : 0 <= blockCount b < blockUntil b;
  bo_until : blockUntil b < two31 }.

Lemma release_loop_ok q : forall k,
  kernel_ok k -> queued_ok k q ->
  exists k', release_loop (S (length q)) k q = Ok (k', []) /\ kernel_ok k' /\
    (readyList k').*2 = (readyList k).*2 ++ q.*2 /\ currentThread k' = currentThread k /\
    (forall t, t ∉ q.*2 -> status_of k' t = status_of k t).
Proof.
  induction q as [|[z t] q IH]; intros k Hk Hq; cbn [release_loop length q_remove wake].
  { exists k. simpl. rewrite app_nil_r. done. }
  destruct (queued_wake k z t q Hk Hq) as (k1 & Hr & Hk1 & Hq1 & Hrl & Hc & _ & _ & Hst). rewrite Hr.
  destruct (IH k1 Hk1 Hq1) as (k' & Hw & Hk' & Hrl' & Hc' & Hst'). exists k'.
  cbn [release_loop] in Hw. cbn [mbind outcome_bind]. rewrite Hw.
  split_and!; try done; [by rewrite Hrl', Hrl, <- app_assoc|congruence|].
  intros t' Ht'. simpl in Ht'. rewrite Hst', Hst by set_solver. done.
Qed.

(** A barrier for [n] threads: the first [n - 1] callers of [block] sleep; the
    next one puts all of them on the ready list, in the order of their arrival, goes
    on itself, and leaves the barrier empty, ready for the next [n] threads. *)
Theorem Barrier_block_correct k b :
  kernel_ok k -> barrier_ok k b -> status_of k (currentThread k) = Some RUNNING ->
  if blockCount b + 1 =? blockUntil b then
    exists k', Barrier_block k b = Ok (true, k', mkBarrier [] (blockUntil b) 0) /\ kernel_ok k' /\
      barrier_ok k' (mkBarrier [] (blockUntil b) 0) /\
      (readyList k').*2 = (readyList k).*2 ++ (b_queue b).*2 /\
      currentThread k' = currentThread k /\ status_of k' (currentThread k) = Some RUNNING
  else
    exists k' b', Barrier_block k b = Ok (false, k', b') /\ kernel_ok k' /\ barrier_ok k' b' /\
      (b_queue b').*2 = (b_queue b).*2 ++ [currentThread k] /\ blockCount b' = blockCount b + 1 /\
      status_of k' (currentThread k) = Some BLOCKED.
Proof.
  intros Hk [Hq Hc Hb Hu] Hrun. unfold Barrier_block.
  rewrite s32_small by (unfold is_s32, two31 in *; lia).
  destruct (Z.eqb_spec (blockCount b + 1) (blockUntil b)) as [He|Hne].
  - destruct (Z.leb_spec (blockUntil b) (blockCount b + 1)); [|lia].
    replace (Z.to_nat (blockCount b + 1)) with (S (length (b_queue b))) by lia.
    destruct (release_loop_ok (b_queue b) (with_klevel k IntOff) Hk Hq) as (k' & Hr & Hk' & Hrl & Hc' & Hst).
    rewrite Hr. simpl. rewrite Z.min_r by lia. eexists. split_and!; try done.
    + constructor; simpl; [split; [constructor|set_solver]|done|lia|done].
    + change (status_of k' (currentThread k) = Some RUNNING). rewrite Hst; [done|].
      intros Hin. destruct (proj2 Hq _ Hin). congruence.
  - destruct (Z.leb_spec (blockUntil b) (blockCount b + 1)); [lia|].
    destruct (queued_sleep (with_klevel k IntOff) (b_queue b) Hk Hq Hrun eq_refl) as (b0 & k' & Hs & Hk' & Hq').
    simpl in *. rewrite Hs. simpl. eexists _, _. split; [done|]. split; [done|]. split_and!; simpl.
    + constructor; simpl; [done| |lia|done]. rewrite q_append_length. lia.
    + by rewrite q_append_snd.
    + done.
    + apply (proj2 Hq'). rewrite q_append_snd. set_solver.
Qed.

Lemma Barrier_block_correct_witness :
  exists k', Barrier_block demo_waiting (mkBarrier [(0, 4%positive)] 2 1) =
      Ok (true, k', mkBarrier [] 2 0) /\ (readyList k').*2 = [4%positive].
Proof.
  destruct (Barrier_block_correct demo_waiting (mkBarrier [(0, 4%positive)] 2 1))
    as (k' & Hb & _ & _ & Hr & _).
  - exact (proj1 demo_waiting_ok).
  - constructor; [exact (proj2 demo_waiting_ok)|reflexivity|split; vm_compute; congruence|vm_compute; reflexivity].
  - reflexivity.
  - exists k'. split; [exact Hb|exact Hr].
Defined.
