(* ===== verification/SynchList.v ===== *)
(** * threads/synchlist.cc: lists that threads share

    A list with a lock and a condition on which threads wait for an item. The routines
    begin with [Acquire] (Synch.v); what follows is a definition per part that runs
    without giving up the CPU: the rest of [Append] and of [Mapcar], and one iteration of
    the loop of [Remove], which ends in [Wait] when the list is empty. The list is the
    abstract one that CList.v shows threads/list.cc to implement. *)

From stdpp Require Import prelude numbers gmap list.
From S2P Require Import Prelude Params CList Interrupt Threads Synch.

Open Scope Z_scope.

Record SynchList := mkSynchList { sl_list : queue Z; sl_lock : Lock; sl_empty : queue positive }.

(** [garbage] is the uninitialized owner of the lock. *)
Definition SynchList_new (garbage : option positive) : SynchList := mkSynchList [] (Lock_new garbage) Condition_new.

Definition SynchList_Append (k : kstate) (sl : SynchList) (item : Z) : outcome (kstate * SynchList) :=
  let list := q_append item (sl_list sl) in
  '(k, c) ← Condition_Signal k (sl_empty sl) (sl_lock sl);
  '(k, l) ← Lock_Release k (sl_lock sl);
  Ok (k, mkSynchList list l c).

(** An iteration: the item when there is one, otherwise the caller sleeps. *)
Definition SynchList_Remove (k : kstate) (sl : SynchList) : outcome (option Z * kstate * SynchList) :=
  match q_remove (sl_list sl) with
  | (None, _) =>
      r ← Condition_Wait k (sl_empty sl) (sl_lock sl);
      match r with
      | None => Ok (None, k, sl)
      | Some (k, c, l) => Ok (None, k, mkSynchList (sl_list sl) l c)
      end
  | (Some (_, item), list) =>
      ASSERT (negb (item =? NULL));;
      '(k, l) ← Lock_Release k (sl_lock sl);
      Ok (Some item, k, mkSynchList list l (sl_empty sl))
  end.

(** The arguments that [func] is called with, in order. *)
Definition SynchList_Mapcar (k : kstate) (sl : SynchList) : outcome (list Z * kstate * SynchList) :=
  '(k, l) ← Lock_Release k (sl_lock sl);
  Ok ((sl_list sl).*2, k, mkSynchList (sl_list sl) l (sl_empty sl)).

(** ** Invariant *)

(** The running thread is in a routine of the list and holds its lock; the threads that
    wait for the lock or for an item are blocked. *)
Record holding (k : kstate) (sl : SynchList) : Prop := {
  ho_kernel : kernel_ok k;
  ho_queues : queued_ok k (lk_queue (sl_lock sl) ++ sl_empty sl);
  ho_running : status_of k (currentThread k) = Some RUNNING;
  ho_owner : owner (sl_lock sl) = Some (currentThread k);
  ho_items : Forall (fun x => x <> NULL) (sl_list sl).*2 }.

Lemma queued_perm k q q' : q ≡ₚ q' -> queued_ok k q -> queued_ok k q'.
Proof.
  intros Hp [Hnd Hq]. split; [by rewrite <- Hp|]. intros t Ht. apply Hq. by rewrite Hp.
Qed.

(** ** Properties *)

(** What a thread does that holds the lock. [Append] puts the item at the end, makes the
    thread ready that has waited longest for an item, if there is one, and then the one
    that has waited longest for the lock, which is free afterwards. [Remove] of a list with
    items returns the first one and releases the lock. [Remove] of an empty list lets the
    caller sleep among those that wait for an item, with the lock free, in one step. In
    every case the kernel stays well formed and the threads that still wait are blocked. *)
Theorem SynchList_fifo k sl item :
  holding k sl -> item <> NULL ->
  let lq := lk_queue (sl_lock sl) in
  let lq' := (q_remove lq).2 in
  let free := mkLock false None lq' in
  (exists k', SynchList_Append k sl item =
       Ok (k', mkSynchList (q_append item (sl_list sl)) free (q_remove (sl_empty sl)).2) /\
     kernel_ok k' /\ queued_ok k' (lq' ++ (q_remove (sl_empty sl)).2) /\ currentThread k' = currentThread k /\
     (readyList k').*2 = (readyList k).*2 ++ take 1 (sl_empty sl).*2 ++ take 1 lq.*2) /\
  (forall z x rest, sl_list sl = (z, x) :: rest ->
     exists k', SynchList_Remove k sl = Ok (Some x, k', mkSynchList rest free (sl_empty sl)) /\
       kernel_ok k' /\ queued_ok k' (lq' ++ sl_empty sl) /\ currentThread k' = currentThread k /\
       (readyList k').*2 = (readyList k).*2 ++ take 1 lq.*2) /\
  (sl_list sl = [] ->
     exists k', SynchList_Remove k sl = Ok (None, k', mkSynchList [] free (q_append (currentThread k) (sl_empty sl))) /\
       kernel_ok k' /\ queued_ok k' (lq' ++ q_append (currentThread k) (sl_empty sl))).
Proof.
  intros [Hk Hq Hrun Ho Hit] Hne lq lq' free. split_and!.
  - unfold SynchList_Append, Condition_Signal, isHeldByCurrentThread. rewrite bool_decide_eq_true_2 by done. cbn [negb].
    destruct (sl_empty sl) as [|[z t] c]; cbn [mbind outcome_bind q_remove snd take fmap list_fmap].
    + destruct (Release_effect k [] (sl_lock sl) Hk Hq Ho) as (k' & -> & Hk' & Hq' & Hr & Hc & _). exists k'. by split_and!.
    + assert (queued_ok k ((z, t) :: lq ++ c)) as Hq1
        by (eapply queued_perm; [|exact Hq]; unfold lq; by rewrite Permutation_middle).
      destruct (queued_wake (with_klevel k IntOff) z t (lq ++ c) Hk Hq1) as (k1 & Hw & Hk1 & Hq1' & Hr1 & Hc1 & _).
      cbn [wake]. rewrite Hw. cbn [mbind outcome_bind].
      destruct (Release_effect (with_klevel k1 (k_level k)) c (sl_lock sl)) as (k' & -> & Hk' & Hq' & Hr & Hc & _); try done.
      { by rewrite Ho; simpl; rewrite Hc1. }
      exists k'. split; [done|]. split_and!; try done; [by rewrite Hc; simpl; rewrite Hc1|].
      rewrite Hr. simpl. rewrite Hr1. simpl. by rewrite <- app_assoc.
  - intros z x rest Hl. unfold SynchList_Remove. rewrite Hl. cbn [q_remove]. rewrite Hl in Hit.
    apply Forall_cons in Hit as [Hx _]. rewrite ASSERT_true by (destruct (Z.eqb_spec x NULL); done).
    cbn [mbind outcome_bind].
    destruct (Release_effect k (sl_empty sl) (sl_lock sl) Hk Hq Ho) as (k' & -> & Hk' & Hq' & Hr & Hc & _). exists k'. by split_and!.
  - intros Hl. unfold SynchList_Remove. rewrite Hl. cbn [q_remove].
    destruct (Wait_effect k (sl_empty sl) (sl_lock sl) (sl_empty sl) Hk Hq Hrun Ho) as (k' & -> & Hk' & Hq'). exists k'. split; [done|].
    split; [done|]. unfold q_append in *. by rewrite app_assoc.
Qed.

Lemma SynchList_fifo_witness :
  exists k', SynchList_Append demo_waiting (mkSynchList [(0, 70)] (mkLock true (Some 1%positive) []) [(0, 4%positive)]) 71 =
      Ok (k', mkSynchList [(0, 70); (0, 71)] (mkLock false None []) []) /\ (readyList k').*2 = [4%positive].
Proof.
  destruct (SynchList_fifo demo_waiting (mkSynchList [(0, 70)] (mkLock true (Some 1%positive) []) [(0, 4%positive)]) 71)
    as [(k' & Hrun & _ & _ & _ & Hr) _].
  - split; [exact (proj1 demo_waiting_ok)|exact (proj2 demo_waiting_ok)|reflexivity|reflexivity|].
    repeat constructor. discriminate.
  - discriminate.
  - exists k'. split; [exact Hrun|exact Hr].
Defined.
