(* ===== verification/Disk.v ===== *)
(** * machine/disk.cc: the simulated disk

    The disk's data is a UNIX file, here the list of its bytes: the magic number and
    then the sectors. A request moves the data at once and schedules the interrupt
    that reports its completion; the delay models the seek, the rotation and the
    track buffer. The state of Interrupt.v carries the disk as its device state. *)

From stdpp Require Import prelude numbers list.
From S2P Require Import Prelude Params CList Interrupt.

Open Scope Z_scope.

Definition MagicNumber : Z := 0x456789ab.
Definition MagicSize : Z := 4.
Definition DiskSize : Z := MagicSize + NumSectors * SectorSize.

Record Disk := mkDisk {
  d_file : list Z;       (* the UNIX file *)
  d_active : bool;
  lastSector : Z;
  bufferInit : Z }.

(** [Lseek] and [Read], and [Lseek] and [WriteFile], inside a file of this size. *)
Definition file_read (f : list Z) (offset n : Z) : outcome (list Z) :=
  if (offset <? 0) || (Z.of_nat (length f) <? offset + n) then Undef
  else Ok (take (Z.to_nat n) (drop (Z.to_nat offset) f)).

Definition file_write (f : list Z) (offset : Z) (data : list Z) : outcome (list Z) :=
  if (offset <? 0) || (Z.of_nat (length f) <? offset + Z.of_nat (length data)) then Undef
  else Ok (take (Z.to_nat offset) f ++ data ++ drop (Z.to_nat offset + length data) f).

(** The constructor: [existing] is the file if there is one. *)
Definition Disk_new (existing : option (list Z)) : outcome Disk :=
  f ← match existing with
      | Some f =>
          magic ← file_read f 0 MagicSize;
          ASSERT (bool_decide (bytes_to_words 1 magic = [MagicNumber]));; Ok f
      | None => Ok (word_bytes MagicNumber ++ replicate (Z.to_nat (NumSectors * SectorSize)) 0)
      end;
  Ok (mkDisk f false 0 0).

Definition with_lastSector (d : Disk) (sector init : Z) : Disk :=
  mkDisk (d_file d) (d_active d) sector init.
Definition with_active (d : Disk) (f : list Z) (a : bool) : Disk :=
  mkDisk f a (lastSector d) (bufferInit d).

(** Returns the seek time and the rotation to the next sector boundary. *)
Definition TimeToSeek (w : world Disk) (newSector : Z) : Z * Z :=
  let newTrack := cdiv newSector SectorsPerTrack in
  let oldTrack := cdiv (lastSector (w_dev w)) SectorsPerTrack in
  let seek := s32 (Z.abs (newTrack - oldTrack) * SeekTime) in
  let over := cmod (s32 (now w + seek)) RotationTime in
  (seek, if 0 <? over then RotationTime - over else 0).

Definition ModuloDiff (to from : Z) : Z :=
  let toOffset := cmod to SectorsPerTrack in
  let fromOffset := cmod from SectorsPerTrack in
  cmod ((toOffset - fromOffset) + SectorsPerTrack) SectorsPerTrack.

Definition ComputeLatency (w : world Disk) (newSector : Z) (writing : bool) : Z :=
  let '(seek, rotation) := TimeToSeek w newSector in
  let timeAfter := s32 (now w + seek + rotation) in
  if negb writing && (seek =? 0) &&
     (ModuloDiff newSector (cdiv (bufferInit (w_dev w)) RotationTime) <?
        cdiv (s32 (timeAfter - bufferInit (w_dev w))) RotationTime)
  then RotationTime
  else
    let rotation := s32 (rotation + ModuloDiff newSector (cdiv timeAfter RotationTime) * RotationTime) in
    s32 (seek + rotation + RotationTime).

Definition UpdateLast (w : world Disk) (newSector : Z) : world Disk :=
  let '(seek, rotate) := TimeToSeek w newSector in
  let init := if negb (seek =? 0) then s32 (now w + seek + rotate) else bufferInit (w_dev w) in
  with_dev w (with_lastSector (w_dev w) newSector init).

Definition count_read (s : Statistics) : Statistics :=
  mkStatistics (totalTicks s) (idleTicks s) (systemTicks s) (userTicks s)
    (s32 (numDiskReads s + 1)) (numDiskWrites s) (numConsoleCharsRead s)
    (numConsoleCharsWritten s) (numPageFaults s) (numPacketsSent s) (numPacketsRecvd s).
Definition count_write (s : Statistics) : Statistics :=
  mkStatistics (totalTicks s) (idleTicks s) (systemTicks s) (userTicks s)
    (numDiskReads s) (s32 (numDiskWrites s + 1)) (numConsoleCharsRead s)
    (numConsoleCharsWritten s) (numPageFaults s) (numPacketsSent s) (numPacketsRecvd s).

Section disk.
(** The addresses of [DiskDone] and of the disk object. *)
Context (DiskDonePtr this : Z).

Definition valid_sector (sectorNumber : Z) : bool :=
  (0 <=? sectorNumber) && (sectorNumber <? NumSectors).

(** Returns the sector's data. *)
Definition ReadRequest (w : world Disk) (sectorNumber : Z) : outcome (list Z * world Disk) :=
  let ticks := ComputeLatency w sectorNumber false in
  ASSERT (negb (d_active (w_dev w)));;
  ASSERT (valid_sector sectorNumber);;
  data ← file_read (d_file (w_dev w)) (SectorSize * sectorNumber + MagicSize) SectorSize;
  let w := with_dev w (with_active (w_dev w) (d_file (w_dev w)) true) in
  let w := UpdateLast w sectorNumber in
  let w := with_stats w (count_read (w_stats w)) in
  w ← Schedule w DiskDonePtr this ticks DiskInt;
  Ok (data, w).

Definition WriteRequest (w : world Disk) (sectorNumber : Z) (data : list Z) : outcome (world Disk) :=
  let ticks := ComputeLatency w sectorNumber true in
  ASSERT (negb (d_active (w_dev w)));;
  ASSERT (valid_sector sectorNumber);;
  f ← file_write (d_file (w_dev w)) (SectorSize * sectorNumber + MagicSize) data;
  let w := with_dev w (with_active (w_dev w) f true) in
  let w := UpdateLast w sectorNumber in
  let w := with_stats w (count_write (w_stats w)) in
  Schedule w DiskDonePtr this ticks DiskInt.

(** [handler] is the kernel's procedure, called when a request is complete. *)
Definition HandleInterrupt (handler : world Disk -> outcome (world Disk)) (w : world Disk)
    : outcome (world Disk) :=
  handler (with_dev w (with_active (w_dev w) (d_file (w_dev w)) false)).
End disk.

(** ** Lemmas *)

Definition disk_ok (d : Disk) : Prop :=
  Z.of_nat (length (d_file d)) = DiskSize /\ Forall is_byte (d_file d) /\
  0 <= lastSector d < NumSectors.

(** The longest a request takes: a seek over all tracks and a full rotation. *)
Definition MaxLatency : Z := (NumTracks - 1) * SeekTime + (SectorsPerTrack + 1) * RotationTime.

(** The clock is far from its end. *)
Definition clock_ok (w : world Disk) : Prop := 0 <= now w /\ now w + MaxLatency < two31.

Lemma valid_sector_spec s : valid_sector s = true <-> 0 <= s < NumSectors.
Proof. unfold valid_sector. rewrite andb_true_iff, Z.leb_le, Z.ltb_lt. done. Qed.

Lemma ModuloDiff_spec to from :
  0 <= to -> 0 <= from -> ModuloDiff to from = (to - from) `mod` SectorsPerTrack.
Proof.
  intros Ht Hf. unfold ModuloDiff, SectorsPerTrack.
  rewrite (cmod_nonneg to), (cmod_nonneg from) by lia. rewrite cmod_nonneg by dlia. dlia.
Qed.

Lemma TimeToSeek_spec w s :
  clock_ok w -> 0 <= lastSector (w_dev w) < NumSectors -> 0 <= s < NumSectors ->
  exists seek rotation, TimeToSeek w s = (seek, rotation) /\
    seek = Z.abs (s `div` SectorsPerTrack - lastSector (w_dev w) `div` SectorsPerTrack) * SeekTime /\
    0 <= seek <= (NumTracks - 1) * SeekTime /\ 0 <= rotation < RotationTime /\
    (now w + seek + rotation) `mod` RotationTime = 0.
Proof.
  unfold clock_ok, MaxLatency, TimeToSeek, SeekTime, RotationTime, NumSectors, SectorsPerTrack, NumTracks.
  intros [Hn Hb] Hl Hs. rewrite !cdiv_nonneg by lia.
  assert (0 <= Z.abs (s `div` 32 - lastSector (w_dev w) `div` 32) <= 31) as Hd by dlia.
  rewrite (s32_small (_ * 500)) by (unfold is_s32, two31; lia).
  rewrite s32_small by (unfold is_s32, two31 in *; lia).
  generalize dependent (Z.abs (s `div` 32 - lastSector (w_dev w) `div` 32)). intros d Hd.
  rewrite cmod_nonneg by lia. eexists _, _. split; [done|]. split; [done|].
  destruct (Z.ltb_spec 0 ((now w + d * 500) `mod` 500)); dlia.
Qed.

(** The delay of a request. *)
Lemma ComputeLatency_spec w s writing :
  clock_ok w -> 0 <= lastSector (w_dev w) < NumSectors -> 0 <= s < NumSectors ->
  let l := ComputeLatency w s writing in
  RotationTime <= l <= MaxLatency /\
  (writing = false /\ l = RotationTime \/
   (now w + l - RotationTime) `mod` RotationTime = 0 /\
   ((now w + l - RotationTime) `div` RotationTime) `mod` SectorsPerTrack = s `mod` SectorsPerTrack).
Proof.
  intros Hc Hl Hs. destruct (TimeToSeek_spec w s Hc Hl Hs) as (seek & rot & Ht & _ & Hseek & Hrot & Hmod).
  destruct Hc as [Hn Hb]. unfold ComputeLatency. rewrite Ht.
  unfold MaxLatency, SeekTime, RotationTime, NumSectors, SectorsPerTrack, NumTracks in *.
  destruct (negb writing && _ && _) eqn:Hbuf.
  { destruct writing; [discriminate Hbuf|]. split; [lia|]. by left. }
  rewrite (s32_small (now w + seek + rot)) by (unfold is_s32, two31 in *; lia).
  rewrite cdiv_nonneg by lia. rewrite ModuloDiff_spec by dlia. unfold SectorsPerTrack.
  assert (0 <= (s - (now w + seek + rot) `div` 500) `mod` 32 < 32) as Hd by dlia.
  rewrite (s32_small (rot + _)) by (unfold is_s32, two31 in *; lia).
  rewrite s32_small by (unfold is_s32, two31 in *; lia).
  split; [lia|]. right. clear Ht. set (t := now w + seek + rot) in *.
  replace (now w + (seek + (rot + (s - t `div` 500) `mod` 32 * 500) + 500) - 500)
    with (t + (s - t `div` 500) `mod` 32 * 500) by lia.
  generalize dependent t. intros t Hmod Hd. dlia.
Qed.

Lemma file_read_in f off n :
  0 <= off -> 0 <= n -> off + n <= Z.of_nat (length f) ->
  file_read f off n = Ok (take (Z.to_nat n) (drop (Z.to_nat off) f)).
Proof.
  intros. unfold file_read.
  destruct (Z.ltb_spec off 0), (Z.ltb_spec (Z.of_nat (length f)) (off + n)); simpl; (lia || done).
Qed.

(** Reading back what was written, and reading elsewhere. *)
Lemma file_write_read f off data :
  0 <= off -> off + Z.of_nat (length data) <= Z.of_nat (length f) ->
  exists f', file_write f off data = Ok f' /\ length f' = length f /\
    file_read f' off (Z.of_nat (length data)) = Ok data /\
    (forall o n, 0 <= o -> 0 <= n -> o + n <= off \/ off + Z.of_nat (length data) <= o ->
       o + n <= Z.of_nat (length f) -> file_read f' o n = file_read f o n).
Proof.
  intros Ho Hl. unfold file_write.
  destruct (Z.ltb_spec off 0), (Z.ltb_spec (Z.of_nat (length f)) (off + Z.of_nat (length data))); simpl; try lia.
  eexists. split; [done|].
  assert (length (take (Z.to_nat off) f ++ data ++ drop (Z.to_nat off + length data) f) = length f) as Hlen
    by (rewrite !length_app, length_take, length_drop; lia).
  split; [done|]. split.
  - rewrite file_read_in by lia. f_equal. rewrite Nat2Z.id.
    rewrite drop_app_length' by (rewrite length_take; lia). by rewrite take_app_length.
  - intros o n Ho' Hn Hout Hin. rewrite !file_read_in by lia. f_equal.
    apply list_eq. intros i. destruct (decide (i < Z.to_nat n)%nat) as [Hi|Hi].
    2:{ rewrite !lookup_take_ge by lia. done. }
    rewrite !lookup_take_lt, !lookup_drop by lia. destruct Hout as [Hout|Hout].
    + rewrite lookup_app_l by (rewrite length_take; lia). by rewrite lookup_take_lt by lia.
    + rewrite lookup_app_r by (rewrite length_take; lia). rewrite length_take.
      rewrite lookup_app_r by lia. rewrite lookup_drop. f_equal. lia.
Qed.

Lemma Schedule_ok {D} (w : world D) handler arg fromNow type :
  0 < fromNow -> 0 <= now w -> now w + fromNow < two31 ->
  Schedule w handler arg fromNow type =
    Ok (with_pending w (q_sorted_insert (mkPending handler arg (now w + fromNow) type)
                          (now w + fromNow) (pending (w_int w)))).
Proof.
  intros Hf Hn Hb. unfold Schedule. rewrite ASSERT_true by (by apply Z.ltb_lt). simpl.
  rewrite s32_small; [done|]. unfold is_s32, two31 in *. lia.
Qed.

Lemma sector_offset s : 0 <= s < NumSectors ->
  0 <= SectorSize * s + MagicSize /\ SectorSize * s + MagicSize + SectorSize <= DiskSize.
Proof. unfold DiskSize, NumSectors, SectorSize, SectorsPerTrack, NumTracks, MagicSize. lia. Qed.

(** The disk after a request for sector [s], with the file [f]. *)
Definition requested (w : world Disk) (s : Z) (f : list Z) : world Disk :=
  UpdateLast (with_dev w (with_active (w_dev w) f true)) s.

Lemma requested_dev w s f :
  d_file (w_dev (requested w s f)) = f /\ d_active (w_dev (requested w s f)) = true /\
  lastSector (w_dev (requested w s f)) = s /\ now (requested w s f) = now w /\
  w_int (requested w s f) = w_int w.
Proof. unfold requested, UpdateLast. by destruct (TimeToSeek _ _). Qed.

Section disk_proofs.
Context (DiskDonePtr this : Z).

(** The pending list after a request. *)
Definition with_completion (w : world Disk) (l : Z) : queue PendingInterrupt :=
  q_sorted_insert (mkPending DiskDonePtr this (now w + l) DiskInt) (now w + l) (pending (w_int w)).

Lemma ReadRequest_ok w s :
  disk_ok (w_dev w) -> clock_ok w -> d_active (w_dev w) = false -> 0 <= s < NumSectors ->
  exists data w', ReadRequest DiskDonePtr this w s = Ok (data, w') /\
    file_read (d_file (w_dev w)) (SectorSize * s + MagicSize) SectorSize = Ok data /\
    disk_ok (w_dev w') /\ d_file (w_dev w') = d_file (w_dev w) /\ d_active (w_dev w') = true /\
    pending (w_int w') = with_completion w (ComputeLatency w s false) /\
    numDiskReads (w_stats w') = s32 (numDiskReads (w_stats w) + 1).
Proof.
  intros (Hlen & Hb & Hlast) Hc Hact Hs.
  destruct (ComputeLatency_spec w s false Hc Hlast Hs) as [Hl _].
  destruct (sector_offset s Hs) as [Ho1 Ho2].
  unfold ReadRequest. rewrite Hact. simpl. rewrite (ASSERT_true _ (proj2 (valid_sector_spec s) Hs)). simpl.
  rewrite file_read_in by (unfold SectorSize in *; lia). simpl. fold (requested w s (d_file (w_dev w))).
  destruct (requested_dev w s (d_file (w_dev w))) as (Hf & Ha & Hls & Hn & Hint).
  destruct Hc as [Hn0 Hb0]. unfold RotationTime in Hl.
  set (w2 := with_stats _ _).
  assert (now w2 = now w) as Hn2 by (rewrite <- Hn; done).
  assert (w_int w2 = w_int w) as Hint2 by (rewrite <- Hint; done).
  rewrite (Schedule_ok w2 DiskDonePtr this (ComputeLatency w s false) DiskInt) by lia. simpl. eexists _, _.
  split; [done|]. split; [done|]. simpl. split_and!; try done.
Qed.

Lemma WriteRequest_ok w s data :
  disk_ok (w_dev w) -> clock_ok w -> d_active (w_dev w) = false -> 0 <= s < NumSectors ->
  Z.of_nat (length data) = SectorSize -> Forall is_byte data ->
  exists f w', WriteRequest DiskDonePtr this w s data = Ok w' /\
    file_write (d_file (w_dev w)) (SectorSize * s + MagicSize) data = Ok f /\
    disk_ok (w_dev w') /\ d_file (w_dev w') = f /\ d_active (w_dev w') = true /\
    pending (w_int w') = with_completion w (ComputeLatency w s true) /\
    numDiskWrites (w_stats w') = s32 (numDiskWrites (w_stats w) + 1).
Proof.
  intros (Hlen & Hb & Hlast) Hc Hact Hs Hd Hbd.
  destruct (ComputeLatency_spec w s true Hc Hlast Hs) as [Hl _].
  destruct (sector_offset s Hs) as [Ho1 Ho2].
  destruct (file_write_read (d_file (w_dev w)) (SectorSize * s + MagicSize) data) as (f & Hw & Hlf & _);
    [lia|lia|].
  assert (Forall is_byte f) as Hbf.
  { unfold file_write in Hw. destruct (_ || _); [done|]. injection Hw as <-.
    repeat apply Forall_app_2; [by apply Forall_take|done|by apply Forall_drop]. }
  unfold WriteRequest. rewrite Hact. simpl. rewrite (ASSERT_true _ (proj2 (valid_sector_spec s) Hs)). simpl.
  rewrite Hw. simpl. fold (requested w s f).
  destruct (requested_dev w s f) as (Hf & Ha & Hls & Hn & Hint).
  destruct Hc as [Hn0 Hb0]. unfold RotationTime in Hl.
  set (w2 := with_stats _ _).
  assert (now w2 = now w) as Hn2 by (rewrite <- Hn; done).
  assert (w_int w2 = w_int w) as Hint2 by (rewrite <- Hint; done).
  rewrite (Schedule_ok w2 DiskDonePtr this (ComputeLatency w s true) DiskInt) by lia. eexists f, _.
  split; [done|]. split; [done|]. simpl. split_and!; try done.
  unfold disk_ok. simpl. by rewrite Hlf.
Qed.

(** The delay of a request is between one sector's rotation and [MaxLatency], so
    the assertion of [Schedule] holds; and unless a read is served from the track
    buffer, the transfer ends exactly when the requested sector has passed under the
    head, on a sector boundary. *)
Theorem disk_latency w s writing :
  clock_ok w -> disk_ok (w_dev w) -> 0 <= s < NumSectors ->
  let l := ComputeLatency w s writing in
  RotationTime <= l <= MaxLatency /\
  (writing = true \/ l <> RotationTime ->
   (now w + l - RotationTime) `mod` RotationTime = 0 /\
   ((now w + l - RotationTime) `div` RotationTime) `mod` SectorsPerTrack = s `mod` SectorsPerTrack).
Proof.
  intros Hc (_ & _ & Hl) Hs l. destruct (ComputeLatency_spec w s writing Hc Hl Hs) as [Hr Hcase].
  split; [done|]. intros Hne. destruct Hcase as [[-> Hl']|Hcase]; [|done].
  by destruct Hne.
Qed.

(** The disk is a disk: a sector written by [WriteRequest] is what a later
    [ReadRequest] of that sector returns, and a read of any other sector returns what
    it held before, as long as requests are made one at a time. *)
Theorem disk_read_write w s data w1 w2 s2 :
  disk_ok (w_dev w) -> clock_ok w -> d_active (w_dev w) = false -> 0 <= s < NumSectors ->
  Z.of_nat (length data) = SectorSize -> Forall is_byte data ->
  WriteRequest DiskDonePtr this w s data = Ok w1 ->
  disk_ok (w_dev w2) -> clock_ok w2 -> d_active (w_dev w2) = false ->
  d_file (w_dev w2) = d_file (w_dev w1) -> 0 <= s2 < NumSectors ->
  exists out w3, ReadRequest DiskDonePtr this w2 s2 = Ok (out, w3) /\
    if s2 =? s then out = data
    else file_read (d_file (w_dev w)) (SectorSize * s2 + MagicSize) SectorSize = Ok out.
Proof.
  intros Hd Hc Ha Hs Hl Hb Hw Hd2 Hc2 Ha2 Hf2 Hs2.
  destruct (WriteRequest_ok w s data Hd Hc Ha Hs Hl Hb) as (f & w1' & Hw' & Hwr & _ & Hf1 & _).
  rewrite Hw in Hw'. injection Hw' as <-.
  destruct (ReadRequest_ok w2 s2 Hd2 Hc2 Ha2 Hs2) as (out & w3 & Hr & Hfr & _).
  exists out, w3. split; [done|]. rewrite Hf2, Hf1 in Hfr.
  destruct (sector_offset s Hs) as [Ho1 Ho2]. destruct (sector_offset s2 Hs2) as [Ho3 Ho4].
  destruct Hd as (Hlen & _).
  destruct (file_write_read (d_file (w_dev w)) (SectorSize * s + MagicSize) data)
    as (f' & Hwr' & _ & Hback & Helse); [lia|lia|]. rewrite Hwr in Hwr'. injection Hwr' as <-.
  destruct (Z.eqb_spec s2 s) as [->|Hne].
  - rewrite Hl in Hback. rewrite Hfr in Hback. by injection Hback.
  - rewrite <- Hfr. symmetry. apply Helse; unfold SectorSize in *; lia.
Qed.

(** One request at a time: a request marks the disk busy and schedules exactly
    one completion interrupt, [ComputeLatency] ticks ahead; while the disk is busy
    another request fails its assertion; the interrupt makes the disk free again. *)
Theorem disk_one_request w s :
  disk_ok (w_dev w) -> clock_ok w -> d_active (w_dev w) = false -> 0 <= s < NumSectors ->
  exists data w', ReadRequest DiskDonePtr this w s = Ok (data, w') /\ disk_ok (w_dev w') /\
    pending (w_int w') = with_completion w (ComputeLatency w s false) /\
    (forall s' data', ReadRequest DiskDonePtr this w' s' = AssertFail /\
                      WriteRequest DiskDonePtr this w' s' data' = AssertFail) /\
    (exists w3, HandleInterrupt Ok w' = Ok w3 /\ d_active (w_dev w3) = false /\
       d_file (w_dev w3) = d_file (w_dev w)).
Proof.
  intros Hd Hc Ha Hs.
  destruct (ReadRequest_ok w s Hd Hc Ha Hs) as (data & w' & Hr & _ & Hd' & Hf' & Ha' & Hp & _).
  exists data, w'. split_and!; try done.
  - intros s' data'. unfold ReadRequest, WriteRequest. by rewrite Ha'.
  - by eexists.
Qed.
End disk_proofs.

(** ** Witnesses *)

Definition demo_disk : Disk :=
  mkDisk (word_bytes MagicNumber ++ replicate (Z.to_nat (NumSectors * SectorSize)) 0) false 40 0.
Definition demo_disk_world : world Disk :=
  mkWorld Interrupt_new (mkStatistics 1234 0 1234 0 0 0 0 0 0 0 0) None demo_disk.

Lemma demo_disk_ok : disk_ok demo_disk.
Proof.
  unfold disk_ok, demo_disk. cbn [d_file lastSector]. split; [|split].
  - rewrite length_app, length_replicate. unfold DiskSize, MagicSize, NumSectors, SectorSize, SectorsPerTrack, NumTracks.
    cbn [length word_bytes]. lia.
  - apply Forall_app. split; [apply word_bytes_byte|]. apply Forall_replicate. by split.
  - unfold NumSectors, SectorsPerTrack, NumTracks. lia.
Qed.

Lemma demo_clock_ok : clock_ok demo_disk_world.
Proof. by split. Qed.

Lemma disk_latency_witness :
  let l := ComputeLatency demo_disk_world 70 true in
  (1234 + l - 500) `mod` 500 = 0 /\ ((1234 + l - 500) `div` 500) `mod` 32 = 70 `mod` 32.
Proof.
  destruct (disk_latency demo_disk_world 70 true demo_clock_ok demo_disk_ok) as [_ Hl].
  - split; vm_compute; congruence.
  - exact (Hl (or_introl eq_refl)).
Defined.

Lemma disk_one_request_witness :
  exists data w', ReadRequest 1 2 demo_disk_world 3 = Ok (data, w') /\
    ReadRequest 1 2 w' 4 = AssertFail.
Proof.
  destruct (disk_one_request 1 2 demo_disk_world 3 demo_disk_ok demo_clock_ok eq_refl)
    as (data & w' & Hr & _ & _ & Hbusy & _).
  - split; vm_compute; congruence.
  - exists data, w'. split; [exact Hr|]. exact (proj1 (Hbusy 4 [])).
Defined.

Lemma disk_read_write_witness :
  exists w1 w3, WriteRequest 1 2 demo_disk_world 5 (replicate 128 9) = Ok w1 /\
    ReadRequest 1 2 (with_dev w1 (with_active (w_dev w1) (d_file (w_dev w1)) false)) 5 =
      Ok (replicate 128 9, w3).
Proof.
  destruct (WriteRequest_ok 1 2 demo_disk_world 5 (replicate 128 9) demo_disk_ok demo_clock_ok eq_refl)
    as (f & w1 & Hw & Hf & Hd1 & Hfile & _ & _ & _);
    [split; vm_compute; congruence|reflexivity|apply Forall_replicate; split; vm_compute; congruence|].
  assert (now w1 = 1234) as Hnow.
  { assert (match WriteRequest 1 2 demo_disk_world 5 (replicate 128 9) with
            | Ok w => now w =? 1234
            | _ => false
            end = true) as Hrun by (vm_compute; reflexivity).
    rewrite Hw in Hrun. by apply Z.eqb_eq. }
  destruct (disk_read_write 1 2 demo_disk_world 5 (replicate 128 9) w1
              (with_dev w1 (with_active (w_dev w1) (d_file (w_dev w1)) false)) 5)
    as (out & w3 & Hr & Hout).
  - exact demo_disk_ok.
  - exact demo_clock_ok.
  - reflexivity.
  - split; vm_compute; congruence.
  - reflexivity.
  - apply Forall_replicate; split; vm_compute; congruence.
  - exact Hw.
  - exact Hd1.
  - unfold clock_ok, now in *. simpl. rewrite Hnow. split; vm_compute; congruence.
  - reflexivity.
  - reflexivity.
  - split; vm_compute; congruence.
  - simpl in Hout. subst out. exists w1, w3. split; [exact Hw|exact Hr].
Defined.
