(* ===== verification/FileHdr.v ===== *)
(** * filesys/filehdr.cc and filesys/IndirectPointerBlock.cc: where a file's data is

    The build is the one with [FILESYS]: four direct sectors and 26 indirect pointer
    blocks of 31 sectors each. [FileHeader] and [IndirectPointerBlock] are the
    objects. The free map is any allocator of the interface of BitMap.v. A pointer to
    a block is an [option]: [None] is a pointer that no [new] has set, and using it is
    undefined. The disk is the list of its sectors. *)

From stdpp Require Import prelude numbers list.
From S2P Require Import Prelude Params BitMap.

Open Scope Z_scope.

Definition FreeMapSector : Z := 0.
Definition DirectorySector : Z := 1.
Definition NumDirect : Z := 4.
Definition NumInDirect : Z := (SectorSize - (2 * 4 + NumDirect * 4)) / 4.
Definition MaxIndirectPointers : Z := (SectorSize - 4) / 4.
Definition PointersPerIndirect : Z := (SectorSize - 4) / 4.
Definition HdrSize : Z := 4 * 2 + 4 * NumDirect + 4 * NumInDirect.
Definition MaxFileSize : Z := (NumDirect + NumInDirect * MaxIndirectPointers) * SectorSize.

(** ** Indirect pointer blocks *)

Record IndirectPointerBlock := mkBlock { ib_num : Z; ib_data : list Z }.

Definition IndirectPointerBlock_new : IndirectPointerBlock :=
  mkBlock 0 (replicate (Z.to_nat MaxIndirectPointers) 0).

Definition PutSector (b : IndirectPointerBlock) (sector : Z) : outcome IndirectPointerBlock :=
  d ← arr_set (ib_data b) (ib_num b) sector;
  Ok (mkBlock (s32 (ib_num b + 1)) d).

Definition Block_ByteToSector (b : IndirectPointerBlock) (sector : Z) : outcome Z :=
  arr_get (ib_data b) (cdiv sector SectorSize).

(** [for (i = 0; i < numSectors; i++) bitMap->Clear(dataSectors[numSectors]);] *)
Fixpoint Block_Deallocate_loop {M} `{BitAllocator M} (n : nat) (b : IndirectPointerBlock) (bitMap : M)
    : outcome M :=
  match n with
  | O => Ok bitMap
  | S n =>
      s ← arr_get (ib_data b) (ib_num b);
      bitMap ← ba_clear bitMap s;
      Block_Deallocate_loop n b bitMap
  end.

Definition Block_Deallocate {M} `{BitAllocator M} (b : IndirectPointerBlock) (bitMap : M)
    : outcome (IndirectPointerBlock * M) :=
  bitMap ← Block_Deallocate_loop (Z.to_nat (ib_num b)) b bitMap;
  Ok (mkBlock 0 (ib_data b), bitMap).

(** ** File headers *)

Record FileHeader := mkHeader {
  numBytes : Z;
  numSectors : Z;
  dataSectors : list Z;
  indirectSector : list Z;
  indirectPointers : list (option IndirectPointerBlock) }.

Definition set_data (h : FileHeader) (d : list Z) : FileHeader :=
  mkHeader (numBytes h) (numSectors h) d (indirectSector h) (indirectPointers h).
Definition set_indirect (h : FileHeader) (s : list Z) (p : list (option IndirectPointerBlock))
    : FileHeader :=
  mkHeader (numBytes h) (numSectors h) (dataSectors h) s p.
Definition set_numSectors (h : FileHeader) (n : Z) : FileHeader :=
  mkHeader (numBytes h) n (dataSectors h) (indirectSector h) (indirectPointers h).

Section allocation.
Context {M : Type} `{BitAllocator M}.

(** [n] times: find a sector and put it into the block. *)
Fixpoint put_loop (n : nat) (b : IndirectPointerBlock) (freeMap : M)
    : outcome (IndirectPointerBlock * M) :=
  match n with
  | O => Ok (b, freeMap)
  | S n =>
      '(newSec, freeMap) ← ba_find freeMap;
      b ← PutSector b newSec;
      put_loop n b freeMap
  end.

(** The [while] loop of [Allocate]. *)
Fixpoint Allocate_loop (fuel : nat) (h : FileHeader) (freeMap : M) (i sectorsToAllocate : Z)
    : outcome (FileHeader * M) :=
  match fuel with
  | O => NoFuel
  | S fuel =>
      if sectorsToAllocate <=? 0 then Ok (h, freeMap)
      else if i <? NumDirect then
        '(s, freeMap) ← ba_find freeMap;
        d ← arr_set (dataSectors h) i s;
        Allocate_loop fuel (set_data h d) freeMap (i + 1) (sectorsToAllocate - 1)
      else
        (* [new IndirectPointerBlock] and its sector *)
        p ← arr_set (indirectPointers h) (i - NumDirect) (Some IndirectPointerBlock_new);
        '(s, freeMap) ← ba_find freeMap;
        ss ← arr_set (indirectSector h) (i - NumDirect) s;
        let n := if MaxIndirectPointers <? sectorsToAllocate then MaxIndirectPointers
                 else sectorsToAllocate in
        '(b, freeMap) ← put_loop (Z.to_nat n) IndirectPointerBlock_new freeMap;
        p ← arr_set p (i - NumDirect) (Some b);
        Allocate_loop fuel (set_indirect h ss p) freeMap (i + 1) (sectorsToAllocate - n)
  end.

Definition Allocate (h : FileHeader) (freeMap : M) (fileSize : Z) : outcome (bool * FileHeader * M) :=
  if MaxFileSize <? u32 fileSize then Ok (false, h, freeMap)
  else
    let n := divRoundUp fileSize SectorSize in
    let h := mkHeader fileSize n (dataSectors h) (indirectSector h) (indirectPointers h) in
    free ← ba_numClear freeMap;
    if free <? n then Ok (false, h, freeMap)
    else
      '(h, freeMap) ← Allocate_loop (S (Z.to_nat n)) h freeMap 0 n;
      Ok (true, h, freeMap).

(** The first loop of [Deallocate]. *)
Fixpoint Deallocate_direct (n : nat) (i : Z) (h : FileHeader) (freeMap : M) : outcome M :=
  match n with
  | O => Ok freeMap
  | S n =>
      freeMap ← (if numSectors h <? NumDirect then
                   s ← arr_get (dataSectors h) i;
                   t ← ba_test freeMap s;
                   ASSERT t;;
                   ba_clear freeMap s
                 else Ok freeMap);
      Deallocate_direct n (i + 1) h freeMap
  end.

(** The loop over the indirect blocks. *)
Fixpoint Deallocate_indirect (n : nat) (i : Z) (h : FileHeader) (freeMap : M)
    : outcome (FileHeader * M) :=
  match n with
  | O => Ok (h, freeMap)
  | S n =>
      p ← arr_get (indirectPointers h) i;
      b ← deref p;
      '(b, freeMap) ← Block_Deallocate b freeMap;
      p ← arr_set (indirectPointers h) i (Some b);
      s ← arr_get (indirectSector h) i;
      freeMap ← ba_clear freeMap s;
      Deallocate_indirect n (i + 1) (set_indirect h (indirectSector h) p) freeMap
  end.

Definition Deallocate (h : FileHeader) (freeMap : M) : outcome (FileHeader * M) :=
  freeMap ← Deallocate_direct (Z.to_nat (numSectors h)) 0 h freeMap;
  if NumDirect <? numSectors h then
    let secs := numSectors h - NumDirect in
    let indirects := divRoundUp secs PointersPerIndirect in
    Deallocate_indirect (Z.to_nat indirects) 0 h freeMap
  else Ok (h, freeMap).

(** The [while] loop of [ExtendFile]; [i] stays what it was before the loop. *)
Fixpoint ExtendFile_loop (fuel : nat) (h : FileHeader) (freeMap : M) (i sectorsToAllocate : Z)
    : outcome (FileHeader * M) :=
  match fuel with
  | O => NoFuel
  | S fuel =>
      if sectorsToAllocate <=? 0 then Ok (h, freeMap)
      else if i <? NumDirect then
        '(s, freeMap) ← ba_find freeMap;
        d ← arr_set (dataSectors h) i s;
        ExtendFile_loop fuel (set_numSectors (set_data h d) (numSectors h + 1)) freeMap i
          (sectorsToAllocate - 1)
      else
        p ← arr_set (indirectPointers h) (i - NumDirect) (Some IndirectPointerBlock_new);
        let n := if MaxIndirectPointers <? sectorsToAllocate then MaxIndirectPointers
                 else sectorsToAllocate in
        '(b, freeMap) ← put_loop (Z.to_nat n) IndirectPointerBlock_new freeMap;
        p ← arr_set p (i - NumDirect) (Some b);
        ExtendFile_loop fuel
          (set_numSectors (set_indirect h (indirectSector h) p) (numSectors h + n)) freeMap i
          (sectorsToAllocate - n)
  end.

(** [ExtendFile] with the free map that it fetches from its file and writes back. *)
Definition ExtendFile (h : FileHeader) (freeMap : M) (sectors : Z) : outcome (bool * FileHeader * M) :=
  let sectorsToAllocate := sectors - numSectors h in
  if sectorsToAllocate <=? 0 then Ok (false, h, freeMap)
  else
    free ← ba_numClear freeMap;
    if free <? sectorsToAllocate then Ok (false, h, freeMap)
    else
      '(h, freeMap) ← ExtendFile_loop (S (Z.to_nat sectorsToAllocate)) h freeMap (numSectors h)
                        sectorsToAllocate;
      Ok (true, h, freeMap).
End allocation.

Definition ByteToSector (h : FileHeader) (offset : Z) : outcome Z :=
  let sector := cdiv offset SectorSize in
  if sector <? NumDirect then arr_get (dataSectors h) sector
  else
    let relSec := s32 (u32 (numSectors h - NumDirect) / PointersPerIndirect) in
    let newOff := s32 (offset - SectorSize * NumDirect) in
    p ← arr_get (indirectPointers h) relSec;
    b ← deref p;
    Block_ByteToSector b newOff.

Definition FileLength (h : FileHeader) : Z := numBytes h.
Definition setNumBytes (h : FileHeader) (newBytes : Z) : FileHeader :=
  mkHeader newBytes (numSectors h) (dataSectors h) (indirectSector h) (indirectPointers h).

(** ** Headers on disk *)

(** [synchDisk->ReadSector] and [WriteSector] on the sectors of the disk; the disk asserts that the
    sector exists. *)
Definition on_disk (disk : list (list Z)) (sector : Z) : bool := (0 <=? sector) && (sector <? Z.of_nat (length disk)).
Definition ReadSector (disk : list (list Z)) (sector : Z) : outcome (list Z) :=
  ASSERT (on_disk disk sector);; arr_get disk sector.
Definition WriteSector (disk : list (list Z)) (sector : Z) (data : list Z) : outcome (list (list Z)) :=
  ASSERT (on_disk disk sector);; arr_set disk sector data.

Lemma ReadSector_in disk sector bytes : 0 <= sector -> disk !! Z.to_nat sector = Some bytes -> ReadSector disk sector = Ok bytes.
Proof.
  intros Hs Hd. unfold ReadSector. pose proof (lookup_lt_Some _ _ _ Hd). rewrite ASSERT_true by (unfold on_disk; lia).
  cbn [mbind outcome_bind]. by apply arr_get_ok.
Qed.
Lemma WriteSector_in disk sector data : 0 <= sector < Z.of_nat (length disk) -> WriteSector disk sector data = Ok (<[Z.to_nat sector := data]> disk).
Proof. intros Hs. unfold WriteSector. rewrite ASSERT_true by (unfold on_disk; lia). cbn [mbind outcome_bind]. by apply arr_set_in. Qed.
Lemma WriteSector_out disk sector data : sector < 0 \/ Z.of_nat (length disk) <= sector -> WriteSector disk sector data = AssertFail.
Proof. intros Hs. unfold WriteSector, ASSERT. assert (on_disk disk sector = false) as -> by (unfold on_disk; lia). done. Qed.

(** The memory image of the first [HdrSize] bytes of a header, and of a block. *)
Definition header_words (h : FileHeader) : list Z :=
  numBytes h :: numSectors h :: dataSectors h ++ indirectSector h.
Definition block_words (b : IndirectPointerBlock) : list Z := ib_num b :: ib_data b.

Definition Block_WriteBack (b : IndirectPointerBlock) (disk : list (list Z)) (sector : Z)
    : outcome (list (list Z)) :=
  WriteSector disk sector (words_to_bytes (block_words b)).

Definition Block_FetchFrom (disk : list (list Z)) (sector : Z) : outcome IndirectPointerBlock :=
  bytes ← ReadSector disk sector;
  match map s32 (bytes_to_words 32 bytes) with
  | n :: d => Ok (mkBlock n d)
  | [] => Undef
  end.

Fixpoint WriteBack_loop (n : nat) (i : Z) (h : FileHeader) (disk : list (list Z))
    : outcome (list (list Z)) :=
  match n with
  | O => Ok disk
  | S n =>
      s ← arr_get (indirectSector h) i;
      disk ← (if negb (s =? 0) then
                p ← arr_get (indirectPointers h) i;
                b ← deref p;
                Block_WriteBack b disk s
              else Ok disk);
      WriteBack_loop n (i + 1) h disk
  end.

(** The number of indirect blocks of a file of [n] sectors. *)
Definition indirects (n : Z) : Z := divRoundUp (n - NumDirect) PointersPerIndirect.

Definition WriteBack (h : FileHeader) (disk : list (list Z)) (sector : Z) : outcome (list (list Z)) :=
  disk ← WriteSector disk sector (words_to_bytes (header_words h));
  if NumDirect <? numSectors h then WriteBack_loop (Z.to_nat (indirects (numSectors h))) 0 h disk
  else Ok disk.

Fixpoint FetchFrom_loop (n : nat) (i : Z) (h : FileHeader) (disk : list (list Z)) : outcome FileHeader :=
  match n with
  | O => Ok h
  | S n =>
      s ← arr_get (indirectSector h) i;
      h ← (if negb (s =? 0) then
             b ← Block_FetchFrom disk s;
             p ← arr_set (indirectPointers h) i (Some b);
             Ok (set_indirect h (indirectSector h) p)
           else Ok h);
      FetchFrom_loop n (i + 1) h disk
  end.

(** [h] is the object that is overwritten: its pointers stay. *)
Definition FetchFrom (h : FileHeader) (disk : list (list Z)) (sector : Z) : outcome FileHeader :=
  bytes ← ReadSector disk sector;
  match map s32 (bytes_to_words 32 bytes) with
  | nb :: ns :: ws =>
      let h := mkHeader nb ns (take (Z.to_nat NumDirect) ws)
                 (take (Z.to_nat NumInDirect) (drop (Z.to_nat NumDirect) ws)) (indirectPointers h) in
      if NumDirect <? numSectors h then FetchFrom_loop (Z.to_nat (indirects (numSectors h))) 0 h disk
      else Ok h
  | _ => Undef
  end.

(** ** What has been allocated *)

Section allocation_proofs.
Context {M : Type} `{BitAllocatorLaws M}.
Implicit Types m : M.

(** [m] is [m0] with the elements of [got], which were free, taken. *)
Record allocated (m0 m : M) (got : list Z) : Prop := {
  al_inv : ba_inv m;
  al_size : ba_size m = ba_size m0;
  al_nodup : NoDup got;
  al_got s : s ∈ got -> 0 <= s < ba_size m0 /\ ba_used m0 s = false;
  al_used j : 0 <= j -> ba_used m j = bool_decide (j ∈ got) || ba_used m0 j;
  al_free : ba_free m = ba_free m0 - Z.of_nat (length got) }.

Lemma allocated_nil m : ba_inv m -> allocated m m [].
Proof.
  intros Hm. constructor.
  - done.
  - done.
  - apply NoDup_nil_2.
  - intros s Hs. by apply not_elem_of_nil in Hs.
  - intros j Hj. by rewrite (bool_decide_eq_false_2 _ (not_elem_of_nil j)).
  - simpl. lia.
Qed.

(** One more [Find]. *)
Lemma allocated_find m0 m got :
  allocated m0 m got -> 0 < ba_free m ->
  exists s m', ba_find m = Ok (s, m') /\ allocated m0 m' (got ++ [s]) /\ 0 <= s < ba_size m0.
Proof.
  intros [Hinv Hsz Hnd Hgot Hused Hfree] Hpos.
  destruct (ba_find_free m Hinv Hpos) as (s & m' & Hf & Hinv' & Hsz' & Hs & Hfs & Hfree' & _ & Hu).
  assert ((s ∉ got) /\ ba_used m0 s = false) as [Hnin Hs0].
  { rewrite Hused in Hfs by lia. apply orb_false_iff in Hfs as [Hn%bool_decide_eq_false Hs0]. done. }
  exists s, m'. split; [done|]. split; [|lia]. constructor; try done; try lia.
  - apply NoDup_app. split; [done|]. split; [|apply NoDup_singleton].
    by intros x Hx ->%list_elem_of_singleton.
  - intros x [Hx| ->%list_elem_of_singleton]%elem_of_app; [by apply Hgot|]. split; [lia|done].
  - intros j Hj. rewrite Hu, Hused by done.
    destruct (decide (j = s)) as [->|Hne].
    + rewrite (bool_decide_eq_true_2 (s = s)) by done. rewrite (bool_decide_eq_true_2 (s ∈ got ++ [s])); [done|].
      apply elem_of_app. right. by apply list_elem_of_singleton.
    + rewrite (bool_decide_eq_false_2 (s = j)) by congruence. simpl. f_equal.
      apply bool_decide_ext. rewrite elem_of_app, list_elem_of_singleton. naive_solver.
  - rewrite length_app. simpl. lia.
Qed.

Lemma allocated_perm m0 m got got' : got ≡ₚ got' -> allocated m0 m got -> allocated m0 m got'.
Proof.
  intros Hp [Hinv Hsz Hnd Hgot Hused Hfree]. constructor; try done.
  - by rewrite <- Hp.
  - intros s. rewrite <- Hp. apply Hgot.
  - intros j Hj. rewrite Hused by done. f_equal. apply bool_decide_ext. by rewrite Hp.
  - by rewrite <- Hp.
Qed.

(** What a sequence of [Find]s has returned: sectors that were free, and -1 once there are none. *)
Definition taken (m0 m : M) (got : list Z) : Prop :=
  exists real k, got ≡ₚ real ++ replicate k (-1) /\ allocated m0 m real /\ (k = 0%nat \/ ba_free m = 0).

Lemma taken_nil m : ba_inv m -> taken m m [].
Proof. intros Hm. exists [], 0%nat. split; [done|]. split; [by apply allocated_nil|by left]. Qed.

Lemma taken_perm m0 m got got' : got ≡ₚ got' -> taken m0 m got -> taken m0 m got'.
Proof. intros Hp (real & k & Hr & H1). exists real, k. by rewrite <- Hp. Qed.

Lemma taken_find m0 m got : taken m0 m got -> exists s m', ba_find m = Ok (s, m') /\ taken m0 m' (got ++ [s]).
Proof.
  intros (real & k & Hp & Hal & Hk). pose proof (ba_free_nonneg m) as Hnn. destruct (decide (ba_free m = 0)) as [Hz|Hnz].
  - exists (-1), m. split; [apply ba_find_none; [apply Hal|done]|]. exists real, (S k). split; [|split; [done|by right]].
    rewrite Hp, <- app_assoc. f_equiv. rewrite replicate_S_end. done.
  - destruct Hk as [->|]; [|done]. destruct (allocated_find m0 m real Hal) as (s & m' & Hf & Hal' & _); [lia|].
    exists s, m'. split; [done|]. exists (real ++ [s]), 0%nat. simpl. rewrite app_nil_r. split; [|split; [done|by left]].
    by rewrite Hp, app_nil_r.
Qed.

(** With enough free sectors all are real; otherwise those that are missing are -1, and none is left. *)
Lemma taken_enough m0 m got : taken m0 m got -> Z.of_nat (length got) <= ba_free m0 -> allocated m0 m got.
Proof.
  intros (real & k & Hp & Hal & Hk) Hle. pose proof (al_free _ _ _ Hal) as Hf. rewrite Hp, length_app, length_replicate in Hle.
  assert (k = 0%nat) as -> by (destruct Hk as [|Hz]; [done|lia]). rewrite app_nil_r in Hp. by apply (allocated_perm m0 m real).
Qed.

Lemma taken_short m0 m got : taken m0 m got -> ba_free m0 < Z.of_nat (length got) ->
  exists real, got ≡ₚ real ++ replicate (Z.to_nat (Z.of_nat (length got) - ba_free m0)) (-1) /\ allocated m0 m real /\ ba_free m = 0.
Proof.
  intros (real & k & Hp & Hal & Hk) Hlt. pose proof (al_free _ _ _ Hal) as Hf. exists real. pose proof Hlt as Hlt'.
  rewrite Hp, length_app, length_replicate in Hlt'. pose proof (ba_free_nonneg m).
  assert (ba_free m = 0) as Hz by (destruct Hk as [->|]; [lia|done]). split_and!; try done.
  replace (Z.to_nat _) with k; [done|]. rewrite Hp, length_app, length_replicate. lia.
Qed.

(** A block that holds the sectors [ds]. *)
Definition block_holds (b : IndirectPointerBlock) (ds : list Z) : Prop :=
  ib_num b = Z.of_nat (length ds) /\ Z.of_nat (length ds) <= MaxIndirectPointers /\
  ib_data b = ds ++ replicate (Z.to_nat MaxIndirectPointers - length ds) 0.

Lemma block_new_holds : block_holds IndirectPointerBlock_new [].
Proof. done. Qed.

Lemma PutSector_holds b ds s :
  block_holds b ds -> Z.of_nat (length ds) < MaxIndirectPointers ->
  exists b', PutSector b s = Ok b' /\ block_holds b' (ds ++ [s]).
Proof.
  intros (Hn & Hle & Hd) Hlt. unfold PutSector, block_holds in *.
  assert (Z.to_nat MaxIndirectPointers = 31%nat) as Hmax by done. rewrite Hmax in *.
  change MaxIndirectPointers with 31 in *.
  rewrite arr_set_in by (rewrite Hd, length_app, length_replicate; lia). cbn [mbind outcome_bind].
  eexists. split; [done|]. cbn [ib_num ib_data]. rewrite length_app. cbn [length]. split_and!; [|lia|].
  - rewrite Hn, s32_small by (unfold is_s32, two31; lia). lia.
  - rewrite Hd, Hn, Nat2Z.id. rewrite insert_app_r_alt by lia. rewrite Nat.sub_diag.
    replace (31 - length ds)%nat with (S (31 - (length ds + 1)))%nat by lia.
    cbn [replicate]. by rewrite <- app_assoc.
Qed.

(** Filling a block. *)
Lemma put_loop_ok m0 n : forall b ds m got,
  taken m0 m got -> block_holds b ds ->
  Z.of_nat (length ds) + Z.of_nat n <= MaxIndirectPointers ->
  exists b' m' news, put_loop n b m = Ok (b', m') /\ length news = n /\
    block_holds b' (ds ++ news) /\ taken m0 m' (got ++ news).
Proof.
  induction n as [|n IH]; intros b ds m got Hal Hb Hle; simpl.
  { exists b, m, []. rewrite !app_nil_r. done. }
  destruct (taken_find m0 m got Hal) as (s & m1 & Hf & Hal1). rewrite Hf. simpl.
  destruct (PutSector_holds b ds s Hb) as (b1 & Hp & Hb1); [lia|]. rewrite Hp. simpl.
  destruct (IH b1 (ds ++ [s]) m1 (got ++ [s])) as (b' & m' & news & Hl & Hlen & Hb' & Hal');
    [done|done|rewrite length_app; simpl; lia|].
  exists b', m', (s :: news). rewrite Hl, <- !app_assoc in *. simpl in *. by rewrite Hlen.
Qed.

(** The blocks that [n] sectors beyond the direct ones need. *)
Definition blocks (n : Z) : Z := divRoundUp n PointersPerIndirect.

Lemma blocks_zero : blocks 0 = 0.
Proof. done. Qed.

Lemma blocks_step n : 0 < n -> blocks n = 1 + blocks (if 31 <? n then n - 31 else 0).
Proof.
  intros Hn. pose proof (divRoundUp_bounds n 31 ltac:(lia) ltac:(lia)).
  unfold blocks. change PointersPerIndirect with 31. destruct (Z.ltb_spec 31 n).
  - pose proof (divRoundUp_bounds (n - 31) 31 ltac:(lia) ltac:(lia)). lia.
  - change (divRoundUp 0 31) with 0. lia.
Qed.

Lemma blocks_nonneg n : 0 <= n -> 0 <= blocks n.
Proof. intros. apply divRoundUp_nonneg; [done|]. done. Qed.

(** [take], [insert] and [drop] around the element that an iteration sets. *)
Lemma take_insert_drop {A} (l : list A) b k x rest :
  (b < length l)%nat ->
  take (S b) (<[b := x]> l) ++ rest ++ drop (S b + k) (<[b := x]> l) =
  take b l ++ (x :: rest) ++ drop (b + S k) l.
Proof.
  intros Hb. rewrite (take_S_r _ b x) by (by apply list_lookup_insert_eq).
  rewrite take_insert_ge by lia. rewrite drop_insert_lt by lia.
  rewrite <- app_assoc. simpl. replace (S (b + k)) with (b + S k)%nat by lia. done.
Qed.

Definition hdr_shape (h : FileHeader) : Prop :=
  length (dataSectors h) = 4%nat /\ length (indirectSector h) = 26%nat /\
  length (indirectPointers h) = 26%nat.

(** What the loop has set from block [b] on: [secs] are the sectors of the new blocks
    and [data] the sectors they hold. *)
Record filled (h h' : FileHeader) (b : nat) (todo : Z) (secs : list Z) (data : list (list Z)) : Prop := {
  fi_blks : exists blks, Forall2 block_holds blks data /\
    h' = set_indirect h (take b (indirectSector h) ++ secs ++ drop (b + length secs) (indirectSector h))
           (take b (indirectPointers h) ++ (Some <$> blks) ++ drop (b + length blks) (indirectPointers h));
  fi_secs : Z.of_nat (length secs) = blocks todo;
  fi_data : length data = length secs;
  fi_todo : Z.of_nat (length (concat data)) = todo;
  fi_full j d : data !! j = Some d -> Z.of_nat (length d) = Z.min 31 (todo - 31 * Z.of_nat j) }.

Lemma filled_nil h b : filled h h b 0 [] [].
Proof.
  constructor; try done. exists []. split; [constructor|]. destruct h. unfold set_indirect. simpl.
  rewrite Nat.add_0_r. f_equal; by rewrite take_drop.
Qed.

Lemma indirect_phase m0 fuel : forall todo b h m got,
  0 <= todo -> Z.of_nat b + blocks todo <= 26 -> (Z.to_nat (blocks todo) < fuel)%nat ->
  taken m0 m got -> hdr_shape h ->
  exists h' m' secs data, Allocate_loop fuel h m (4 + Z.of_nat b) todo = Ok (h', m') /\
    filled h h' b todo secs data /\ taken m0 m' (got ++ (secs ++ concat data)).
Proof.
  induction fuel as [|fuel IH]; intros todo b h m got Ht Hb Hf Hal (Hd & Hs & Hp); [lia|].
  cbn [Allocate_loop]. destruct (Z.leb_spec todo 0) as [Hz|Hpos].
  { assert (todo = 0) as -> by lia. exists h, m, [], []. split; [done|]. rewrite app_nil_r.
    split; [apply filled_nil|done]. }
  destruct (Z.ltb_spec (4 + Z.of_nat b) NumDirect) as [Hlt|_]; [unfold NumDirect in Hlt; lia|].
  pose proof (blocks_step todo Hpos) as Hbs. change MaxIndirectPointers with 31.
  set (n := if 31 <? todo then 31 else todo).
  assert (n = Z.min 31 todo /\ (if 31 <? todo then todo - 31 else 0) = todo - n) as [Hn Hrest]
    by (unfold n; destruct (Z.ltb_spec 31 todo); lia).
  rewrite Hrest in Hbs. pose proof (blocks_nonneg (todo - n) ltac:(lia)) as Hbn.
  replace (4 + Z.of_nat b - NumDirect) with (Z.of_nat b) by (unfold NumDirect; lia).
  rewrite (arr_set_in (indirectPointers h)) by lia. cbn [mbind outcome_bind].
  destruct (taken_find m0 m got Hal) as (s & m1 & Hfind & Hal1).
  rewrite Hfind. cbn [mbind outcome_bind]. rewrite (arr_set_in (indirectSector h)) by lia. cbn [mbind outcome_bind].
  destruct (put_loop_ok m0 (Z.to_nat n) IndirectPointerBlock_new [] m1 (got ++ [s]))
    as (blk & m2 & news & Hput & Hnews & Hblk & Hal2); [done|done|change MaxIndirectPointers with 31; simpl; lia|].
  rewrite Hput. cbn [mbind outcome_bind]. rewrite arr_set_in by (rewrite length_insert; lia).
  cbn [mbind outcome_bind]. rewrite Nat2Z.id, list_insert_insert_eq.
  replace (4 + Z.of_nat b + 1) with (4 + Z.of_nat (S b)) by lia.
  destruct (IH (todo - n) (S b)
    (set_indirect h (<[b := s]> (indirectSector h)) (<[b := Some blk]> (indirectPointers h))) m2
    ((got ++ [s]) ++ news)) as (h' & m' & secs & data & Hloop & [(blks & Hholds & Heq) Hl1 Hl2 Hl3 Hfull] & Hal');
    [lia|lia|lia|done|by unfold hdr_shape; simpl; rewrite !length_insert|].
  exists h', m', (s :: secs), (news :: data). split; [done|]. split.
  - constructor; [| |simpl; lia|simpl; rewrite length_app; lia|].
    + exists (blk :: blks). split; [by constructor|]. rewrite Heq.
      unfold set_indirect. cbn [numBytes numSectors dataSectors indirectSector indirectPointers length].
      rewrite fmap_cons. f_equal; apply take_insert_drop; lia.
    + simpl. lia.
    + intros [|j] d; simpl.
      * intros [= <-]. lia.
      * intros Hj. rewrite (Hfull j d Hj). apply lookup_lt_Some in Hj.
        assert (todo - n <> 0) by (intros Hz; rewrite Hz in Hl1; change (blocks 0) with 0 in Hl1; lia). lia.
  - eapply taken_perm; [|exact Hal']. rewrite <- !app_assoc. apply Permutation_app_head. simpl.
    constructor. rewrite !app_assoc. apply Permutation_app_tail, Permutation_app_comm.
Qed.

(** The iterations that fill direct pointers. *)
Lemma direct_phase m0 k : forall fuel todo i h m got,
  (i + k <= 4)%nat -> Z.of_nat k <= todo -> taken m0 m got -> hdr_shape h ->
  exists m' news, length news = k%nat /\ taken m0 m' (got ++ news) /\
    Allocate_loop (k + fuel)%nat h m (Z.of_nat i) todo =
    Allocate_loop fuel
      (set_data h (take i (dataSectors h) ++ news ++ drop (i + k) (dataSectors h))) m'
      (Z.of_nat (i + k)) (todo - Z.of_nat k).
Proof.
  induction k as [|k IH]; intros fuel todo i h m got Hi Hk Hal (Hd & Hs & Hp).
  { exists m, []. rewrite app_nil_r, Nat.add_0_r, Z.sub_0_r. split; [done|]. split; [done|].
    simpl. by destruct h; unfold set_data; simpl; rewrite take_drop. }
  cbn [Allocate_loop Nat.add]. destruct (Z.leb_spec todo 0); [lia|].
  destruct (Z.ltb_spec (Z.of_nat i) NumDirect) as [_|Hge]; [|unfold NumDirect in Hge; lia].
  destruct (taken_find m0 m got Hal) as (s & m1 & Hfind & Hal1).
  rewrite Hfind. cbn [mbind outcome_bind]. rewrite arr_set_in by lia. cbn [mbind outcome_bind].
  rewrite Nat2Z.id.
  replace (Z.of_nat i + 1) with (Z.of_nat (S i)) by lia.
  destruct (IH fuel (todo - 1) (S i) (set_data h (<[i := s]> (dataSectors h))) m1 (got ++ [s]))
    as (m' & news & Hlen & Hal' & Hloop);
    [lia|lia|done|by unfold hdr_shape; simpl; rewrite length_insert|].
  exists m', (s :: news). split; [by simpl; rewrite Hlen|]. rewrite <- app_assoc in Hal'. split; [done|].
  rewrite Hloop. unfold set_data. cbn [numBytes numSectors dataSectors indirectSector indirectPointers].
  rewrite take_insert_drop by lia. f_equal; lia.
Qed.
End allocation_proofs.

(** The data of a file of [n] sectors is in the direct sectors [direct] and in the
    blocks at the sectors [secs], which hold [data]. *)
Record laid_out (h : FileHeader) (direct secs : list Z) (data : list (list Z)) : Prop := {
  lo_shape : hdr_shape h;
  lo_direct : take (length direct) (dataSectors h) = direct;
  lo_secs : take (length secs) (indirectSector h) = secs;
  lo_blks : exists blks, Forall2 block_holds blks data /\
    take (length secs) (indirectPointers h) = Some <$> blks;
  lo_ndirect : Z.of_nat (length direct) = Z.min 4 (numSectors h);
  lo_nsecs : Z.of_nat (length secs) = blocks (Z.max 0 (numSectors h - 4));
  lo_ndata : length data = length secs;
  lo_total : Z.of_nat (length (concat data)) = Z.max 0 (numSectors h - 4);
  lo_full j d : data !! j = Some d ->
    Z.of_nat (length d) = Z.min 31 (numSectors h - 4 - 31 * Z.of_nat j) }.

(** The sectors that a file of [n] sectors takes from the free map. *)
Definition sectors_needed (n : Z) : Z := n + blocks (Z.max 0 (n - 4)).

(** Filling the blocks from the first one on lays the file out. *)
Lemma filled_laid_out h h' direct secs data :
  hdr_shape h -> filled h h' 0 (Z.max 0 (numSectors h - 4)) secs data -> numSectors h <= 810 ->
  Z.of_nat (length direct) = Z.min 4 (numSectors h) ->
  take (length direct) (dataSectors h) = direct -> laid_out h' direct secs data.
Proof.
  intros (Hd & Hs & Hp) [(blks & Hblks & ->) Hns Hnd Htot Hfull] Hle Hlen Htake.
  pose proof (Forall2_length _ _ _ Hblks) as Hlb.
  assert (length secs <= 26)%nat.
  { pose proof (divRoundUp_bounds (Z.max 0 (numSectors h - 4)) 31 ltac:(lia) ltac:(lia)) as Hb.
    change (divRoundUp _ 31) with (blocks (Z.max 0 (numSectors h - 4))) in Hb. lia. }
  constructor; try done.
  - unfold hdr_shape. simpl. rewrite !length_app, !length_drop, length_fmap. lia.
  - simpl. by rewrite take_app_length.
  - exists blks. split; [done|]. simpl. rewrite take_app_length' by (rewrite length_fmap; lia). done.
  - intros j d Hj. rewrite (Hfull j d Hj). simpl. apply lookup_lt_Some in Hj.
    assert (Z.max 0 (numSectors h - 4) <> 0); [|lia].
    intros Hz. rewrite Hz in Hns. change (blocks 0) with 0 in Hns. lia.
Qed.

Section header_facts.
Context {M : Type} `{BitAllocatorLaws M}.
Implicit Types m : M.

Lemma blocks_le n : 0 <= n -> blocks n <= n.
Proof.
  intros Hn. unfold blocks. change PointersPerIndirect with 31.
  pose proof (divRoundUp_bounds n 31 Hn ltac:(lia)). lia.
Qed.

(** The two phases of [Allocate]'s loop together. *)
Lemma Allocate_loop_ok h m :
  ba_inv m -> hdr_shape h -> 0 <= numSectors h <= 810 ->
  exists h' m' direct secs data,
    Allocate_loop (S (Z.to_nat (numSectors h))) h m 0 (numSectors h) = Ok (h', m') /\
    laid_out h' direct secs data /\ taken m m' (direct ++ secs ++ concat data) /\
    numBytes h' = numBytes h /\ numSectors h' = numSectors h.
Proof.
  intros Hinv Hsh Hn. set (n := numSectors h) in *.
  set (t := Z.max 0 (n - 4)) in *. set (k := Z.to_nat (Z.min 4 n)).
  pose proof (blocks_le t ltac:(lia)) as Hbt. pose proof (blocks_nonneg t ltac:(lia)) as Hb0.
  pose proof (divRoundUp_bounds t 31 ltac:(lia) ltac:(lia)) as Hb31. change (divRoundUp t 31) with (blocks t) in Hb31.
  destruct (direct_phase m k (S (Z.to_nat n) - k)%nat n 0 h m []) as (m1 & direct & Hlen & Hal & Hloop);
    [lia|lia|by apply taken_nil|done|].
  replace (k + (S (Z.to_nat n) - k))%nat with (S (Z.to_nat n)) in Hloop by lia.
  change (Z.of_nat 0) with 0 in Hloop. rewrite Hloop. clear Hloop.
  set (hd := set_data h _) in *. cbn [Nat.add app] in *.
  assert (hdr_shape hd) as Hsd.
  { destruct Hsh as (Hd & Hs & Hp). unfold hdr_shape, hd. simpl. rewrite length_app, length_drop. lia. }
  assert (exists h' m' secs data,
    Allocate_loop (S (Z.to_nat n) - k) hd m1 (Z.of_nat k) (n - Z.of_nat k) = Ok (h', m') /\
    filled hd h' 0 t secs data /\ taken m m' (direct ++ (secs ++ concat data)))
    as (h' & m' & secs & data & Hloop & Hfill & Hal').
  { destruct (decide (n < 4)) as [Hlt|Hge].
    - exists hd, m1, [], []. replace (n - Z.of_nat k) with 0 by lia. replace t with 0 by lia.
      replace (S (Z.to_nat n) - k)%nat with 1%nat by lia. split; [done|]. rewrite app_nil_r.
      split; [by apply filled_nil|done].
    - replace (Z.of_nat k) with (4 + Z.of_nat 0) by lia. replace (n - (4 + Z.of_nat 0)) with t by lia.
      apply indirect_phase; try done; lia. }
  exists h', m', direct, secs, data. split; [done|]. split; [|split; [done|]].
  - apply (filled_laid_out hd); try done.
    + subst hd. simpl. fold n. lia.
    + subst hd. simpl. fold n. lia.
    + subst hd. simpl. by rewrite take_app_length.
  - destruct Hfill as [(blks & _ & ->)]. done.
Qed.
End header_facts.

(** The [k]-th sector of the [j]-th block. *)
Lemma concat_lookup_block (data : list (list Z)) : forall j d k s,
  (forall i d, (i < j)%nat -> data !! i = Some d -> length d = 31%nat) ->
  data !! j = Some d -> d !! k = Some s -> concat data !! (31 * j + k)%nat = Some s.
Proof.
  induction data as [|d0 data IH]; intros j d k s Hfull Hj Hk; [done|].
  destruct j as [|j]; simpl in Hj.
  - injection Hj as ->. simpl. by apply lookup_app_l_Some.
  - change (concat (d0 :: data)) with (d0 ++ concat data).
    assert (length d0 = 31%nat) as Hl by (apply (Hfull 0%nat); [lia|done]).
    rewrite lookup_app_r by lia.
    replace (31 * S j + k - length d0)%nat with (31 * j + k)%nat by lia.
    apply (IH j d); [|done|done]. intros i d' Hi Hd'. apply (Hfull (S i)); [lia|done].
Qed.

(** The number of blocks that [WriteBack] and [FetchFrom] go through. *)
Lemma lo_indirects h direct secs data (A : Type) (f : nat -> A) :
  laid_out h direct secs data ->
  (if NumDirect <? numSectors h then f (Z.to_nat (indirects (numSectors h))) else f 0%nat) = f (length secs).
Proof.
  intros Hlo. pose proof (lo_nsecs _ _ _ _ Hlo) as Hns. unfold indirects. change NumDirect with 4.
  fold (blocks (numSectors h - 4)). destruct (Z.ltb_spec 4 (numSectors h)).
  - rewrite Z.max_r in Hns by lia. f_equal. lia.
  - rewrite Z.max_l, blocks_zero in Hns by lia. f_equal. lia.
Qed.

(** A layout depends only on the pointers to the blocks of the file. *)
Lemma laid_out_pointers h direct secs data blks p :
  laid_out h direct secs data -> Forall2 block_holds blks data -> length p = 26%nat ->
  take (length secs) p = Some <$> blks ->
  laid_out (mkHeader (numBytes h) (numSectors h) (dataSectors h) (indirectSector h) p) direct secs data.
Proof.
  intros [(Hd & Hs & _) ? ? _ ? ? ? ? ?] Hb Hp Ht. constructor; try done. by exists blks.
Qed.

Section layout_facts.
Context (h : FileHeader) (direct secs : list Z) (data : list (list Z)).
Hypothesis Hlo : laid_out h direct secs data.

Lemma lo_lookup_block j : (j < length secs)%nat ->
  exists b d, indirectPointers h !! j = Some (Some b) /\ data !! j = Some d /\ block_holds b d.
Proof.
  intros Hj. destruct (lo_blks _ _ _ _ Hlo) as (blks & Hblks & Htake).
  destruct (lookup_lt_is_Some_2 data j) as [d Hd]; [rewrite (lo_ndata _ _ _ _ Hlo); lia|].
  destruct (Forall2_lookup_r _ _ _ _ _ Hblks Hd) as (b & Hb & Hholds).
  exists b, d. split; [|done]. rewrite <- (lookup_take_lt _ (length secs)) by done.
  by rewrite Htake, list_lookup_fmap, Hb.
Qed.

Lemma lo_sector_lookup k s : secs !! k = Some s -> indirectSector h !! k = Some s.
Proof. intros Hk. rewrite <- (lo_secs _ _ _ _ Hlo) in Hk. by apply lookup_take_Some in Hk as [Hk _]. Qed.

Lemma lo_pointers : exists blks, Forall2 block_holds blks data /\ length blks = length secs /\
  (length secs <= 26)%nat /\
  forall k b, blks !! k = Some b -> indirectPointers h !! k = Some (Some b).
Proof.
  destruct (lo_blks _ _ _ _ Hlo) as (blks & Hblks & Htake). exists blks. split; [done|]. split.
  { rewrite (Forall2_length _ _ _ Hblks). apply (lo_ndata _ _ _ _ Hlo). }
  split.
  - pose proof (f_equal length (lo_secs _ _ _ _ Hlo)) as Hl. rewrite length_take in Hl.
    destruct (lo_shape _ _ _ _ Hlo) as (_ & Hls & _). lia.
  - intros k b Hk. assert ((Some <$> blks) !! k = Some (Some b)) as Hk' by (by rewrite list_lookup_fmap, Hk).
    rewrite <- Htake in Hk'. by apply lookup_take_Some in Hk' as [Hk' _].
Qed.

(** [concat data] is cut into pieces of 31. *)
Lemma lo_concat j d k s :
  data !! j = Some d -> d !! k = Some s -> concat data !! (31 * j + k)%nat = Some s.
Proof.
  intros Hj. apply concat_lookup_block; [|done]. intros i d' Hi Hd'.
  apply (lo_full _ _ _ _ Hlo) in Hd'. apply lookup_lt_Some in Hj.
  pose proof (lo_ndata _ _ _ _ Hlo) as Hnd. pose proof (lo_nsecs _ _ _ _ Hlo) as Hns.
  pose proof (divRoundUp_bounds (Z.max 0 (numSectors h - 4)) 31 ltac:(lia) ltac:(lia)) as Hb.
  change (divRoundUp _ 31) with (blocks (Z.max 0 (numSectors h - 4))) in Hb. lia.
Qed.

(** What [ByteToSector] reads beyond the direct sectors: entry [offset / 128 - 4] of
    block [(numSectors - 4) / 31]. *)
Lemma ByteToSector_indirect offset :
  512 <= offset < two31 -> 4 < numSectors h <= 810 ->
  ByteToSector h offset =
  (p ← arr_get (indirectPointers h) ((numSectors h - 4) `div` 31);
   b ← deref p; arr_get (ib_data b) (offset `div` 128 - 4)).
Proof.
  unfold two31. intros Ho Hn. unfold ByteToSector, Block_ByteToSector. change SectorSize with 128.
  change NumDirect with 4. change PointersPerIndirect with 31. rewrite cdiv_nonneg by lia.
  destruct (Z.ltb_spec (offset `div` 128) 4) as [Hlt|_]; [dlia|].
  rewrite u32_small by (unfold is_u32, two32; lia).
  rewrite (s32_small ((numSectors h - 4) `div` 31)) by (unfold is_s32, two31; dlia).
  rewrite s32_small by (unfold is_s32, two31; lia). rewrite cdiv_nonneg by lia.
  replace ((offset - 128 * 4) `div` 128) with (offset `div` 128 - 4) by dlia. done.
Qed.

Lemma block_holds_get b d i : block_holds b d -> 0 <= i < Z.of_nat (length d) ->
  exists s, d !! Z.to_nat i = Some s /\ arr_get (ib_data b) i = Ok s.
Proof.
  intros (_ & _ & Hd) Hi. destruct (lookup_lt_is_Some_2 d (Z.to_nat i)) as [s Hs]; [lia|].
  exists s. split; [done|]. apply arr_get_ok. split; [lia|]. rewrite Hd. by apply lookup_app_l_Some.
Qed.

Lemma lo_direct_get i : 0 <= i < Z.of_nat (length direct) ->
  exists s, direct !! Z.to_nat i = Some s /\ arr_get (dataSectors h) i = Ok s.
Proof.
  intros Hi. destruct (lookup_lt_is_Some_2 direct (Z.to_nat i)) as [s Hs]; [lia|].
  exists s. split; [done|]. apply arr_get_ok. split; [lia|].
  rewrite <- (lo_direct _ _ _ _ Hlo), lookup_take_lt in Hs by lia. done.
Qed.
End layout_facts.

(** The lookup for the direct sectors and the first block. *)
Lemma ByteToSector_ok h direct secs data offset :
  laid_out h direct secs data -> numSectors h <= 810 -> 0 <= offset < 128 * numSectors h ->
  offset < 512 \/ numSectors h < 35 ->
  exists s, (direct ++ concat data) !! Z.to_nat (offset `div` SectorSize) = Some s /\
    ByteToSector h offset = Ok s.
Proof.
  intros Hlo Hn Ho Hcase. change SectorSize with 128. pose proof (lo_ndirect _ _ _ _ Hlo) as Hnd.
  destruct (decide (offset < 512)) as [Hlt|Hge].
  - destruct (lo_direct_get h direct secs data Hlo (offset `div` 128)) as (s & Hs & Hget); [dlia|].
    exists s. split; [by apply lookup_app_l_Some|]. unfold ByteToSector. change SectorSize with 128.
    rewrite cdiv_nonneg by lia. change NumDirect with 4. destruct (Z.ltb_spec (offset `div` 128) 4); [done|dlia].
  - rewrite ByteToSector_indirect by (unfold two31; lia). replace ((numSectors h - 4) `div` 31) with 0 by dlia.
    pose proof (lo_nsecs _ _ _ _ Hlo) as Hns. rewrite blocks_step in Hns by lia.
    destruct (Z.ltb_spec 31 (Z.max 0 (numSectors h - 4))); [lia|]. rewrite blocks_zero in Hns.
    destruct (lo_lookup_block h direct secs data Hlo 0) as (b & d & Hb & Hd & Hholds); [lia|].
    pose proof (lo_full _ _ _ _ Hlo 0 d Hd) as Hlen.
    destruct (block_holds_get b d (offset `div` 128 - 4)) as (s & Hs & Hget); [done|dlia|].
    exists s. split.
    + rewrite lookup_app_r by dlia. apply (lo_concat _ _ _ _ Hlo 0 d _ s Hd) in Hs. rewrite <- Hs. f_equal. dlia.
    + rewrite (proj2 (arr_get_ok _ _ (Some b))) by done. done.
Qed.

(** [m'] is [m0] with the elements of [l] free. *)
Definition freed {M} `{BitAllocator M} (m0 m' : M) (l : list Z) : Prop :=
  ba_inv m' /\ ba_size m' = ba_size m0 /\
  forall j, 0 <= j -> ba_used m' j = negb (bool_decide (j ∈ l)) && ba_used m0 j.

Section deallocation.
Context {M : Type} `{BitAllocatorLaws M}.
Implicit Types m : M.

Lemma freed_nil m : ba_inv m -> freed m m [].
Proof.
  intros Hinv. split; [done|]. split; [done|]. intros j _.
  by rewrite (bool_decide_eq_false_2 _ (not_elem_of_nil j)).
Qed.

Lemma freed_clear m0 m l s :
  freed m0 m l -> 0 <= s < ba_size m0 -> exists m', ba_clear m s = Ok m' /\ freed m0 m' (l ++ [s]).
Proof.
  intros (Hinv & Hsz & Hu) Hs. destruct (ba_clear_ok m s) as (m' & Hc & Hinv' & Hsz' & Hu'); [done|lia|].
  exists m'. split; [done|]. split; [done|]. split; [lia|]. intros j Hj. rewrite Hu', Hu, andb_assoc by done.
  f_equal. rewrite <- negb_orb. f_equal. apply eq_true_iff_eq.
  rewrite orb_true_iff, !bool_decide_eq_true, elem_of_app, list_elem_of_singleton. naive_solver.
Qed.

(** The loop over the direct sectors, for a file with fewer than four. *)
Lemma Deallocate_direct_frees h m0 rest : forall i m done,
  numSectors h < 4 -> freed m0 m done ->
  (forall k s, rest !! k = Some s -> dataSectors h !! (i + k)%nat = Some s) ->
  NoDup (done ++ rest) -> (forall s, s ∈ rest -> 0 <= s < ba_size m0 /\ ba_used m0 s = true) ->
  exists m', Deallocate_direct (length rest) (Z.of_nat i) h m = Ok m' /\ freed m0 m' (done ++ rest).
Proof.
  induction rest as [|s rest IH]; intros i m dn Hn Hf Hget Hnd Hs; simpl.
  { exists m. rewrite app_nil_r. done. }
  destruct (Hs s) as [Hrange Hused]; [by left|].
  change NumDirect with 4. destruct (Z.ltb_spec (numSectors h) 4) as [_|]; [|lia].
  assert (arr_get (dataSectors h) (Z.of_nat i) = Ok s) as ->.
  { apply arr_get_ok. rewrite Nat2Z.id. split; [lia|]. specialize (Hget 0%nat s eq_refl).
    by rewrite Nat.add_0_r in Hget. }
  pose proof Hf as (Hinv & Hsz & Hu). cbn [mbind outcome_bind]. rewrite ba_test_ok by (done || lia).
  cbn [mbind outcome_bind]. rewrite Hu, Hused by lia. rewrite bool_decide_eq_false_2.
  2:{ intros Hin. apply NoDup_app in Hnd as (_ & Hdis & _). apply (Hdis s Hin). by left. }
  cbn [negb andb ASSERT mbind outcome_bind]. destruct (freed_clear m0 m dn s Hf Hrange) as (m1 & Hc & Hf1).
  rewrite Hc. cbn [mbind outcome_bind]. replace (Z.of_nat i + 1) with (Z.of_nat (S i)) by lia.
  destruct (IH (S i) m1 (dn ++ [s])) as (m' & Hl & Hf'); try done.
  - intros k x Hk. specialize (Hget (S k) x Hk). by replace (S i + k)%nat with (i + S k)%nat by lia.
  - by rewrite <- app_assoc.
  - intros x Hx. apply Hs. by right.
  - exists m'. rewrite <- app_assoc in Hf'. done.
Qed.

(** For four sectors or more that loop does nothing. *)
Lemma Deallocate_direct_nothing h n : forall i m,
  4 <= numSectors h -> Deallocate_direct n i h m = Ok m.
Proof.
  induction n as [|n IH]; intros i m Hn; simpl; [done|]. change NumDirect with 4.
  destruct (Z.ltb_spec (numSectors h) 4); [lia|]. by apply IH.
Qed.

(** Freeing a block clears the bit of the first entry that is not in use, when there is
    one, once per entry in use. *)
Lemma Block_Deallocate_loop_clears b v m0 n : forall m,
  arr_get (ib_data b) (ib_num b) = Ok v -> 0 <= v < ba_size m0 -> freed m0 m [v] ->
  exists m', Block_Deallocate_loop n b m = Ok m' /\ freed m0 m' [v].
Proof.
  induction n as [|n IH]; intros m Hg Hv Hf; simpl; [by eexists|]. rewrite Hg. simpl.
  destruct (freed_clear m0 m [v] v Hf Hv) as (m1 & -> & (Hi & Hs & Hu)). simpl. apply IH; [done|done|].
  split; [done|]. split; [done|]. intros j Hj. rewrite Hu by done. do 2 f_equal.
  apply bool_decide_ext. rewrite elem_of_app, list_elem_of_singleton. tauto.
Qed.

Lemma Block_Deallocate_partial b d m :
  ba_inv m -> 0 < ba_size m -> block_holds b d -> 0 < Z.of_nat (length d) < 31 ->
  exists b' m', Block_Deallocate b m = Ok (b', m') /\ freed m m' [0].
Proof.
  intros Hinv Hsz (Hn & Hle & Hd) Hlen. unfold Block_Deallocate.
  assert (arr_get (ib_data b) (ib_num b) = Ok 0) as Hg.
  { apply arr_get_ok. rewrite Hn, Nat2Z.id, Hd. split; [lia|].
    change (Z.to_nat MaxIndirectPointers) with 31%nat.
    rewrite lookup_app_r, Nat.sub_diag by lia. apply lookup_replicate. split; [done|lia]. }
  rewrite Hn, Nat2Z.id. destruct (length d) as [|n] eqn:Hl; [lia|]. cbn [Block_Deallocate_loop].
  rewrite Hg. cbn [mbind outcome_bind].
  destruct (freed_clear m m [] 0 (freed_nil m Hinv)) as (m1 & -> & Hf); [lia|]. cbn [mbind outcome_bind app] in *.
  destruct (Block_Deallocate_loop_clears b 0 m n m1 Hg) as (m' & -> & Hf'); [lia|done|]. by eexists _, m'.
Qed.
End deallocation.

(** ** Headers that are written and read back *)

Lemma stored_words ws : Forall is_s32 ws -> length ws = 32%nat ->
  map s32 (bytes_to_words 32 (words_to_bytes ws)) = ws.
Proof.
  intros Hr <-. rewrite <- (app_nil_r (words_to_bytes ws)), bytes_words_round_trip, map_map.
  induction Hr as [|w ws Hw _ IH]; simpl; [done|]. by rewrite IH, s32_u32, s32_small.
Qed.

Lemma block_words_length b d : block_holds b d -> length (block_words b) = 32%nat.
Proof.
  intros (_ & Hle & Hd). unfold block_words. simpl. rewrite Hd, length_app, length_replicate.
  change (Z.to_nat MaxIndirectPointers) with 31%nat. change MaxIndirectPointers with 31 in Hle. lia.
Qed.

Lemma block_words_range b d : block_holds b d -> Forall is_s32 d -> Forall is_s32 (block_words b).
Proof.
  intros (Hn & Hle & Hd) Hr. change MaxIndirectPointers with 31 in *. unfold block_words. constructor.
  - rewrite Hn. unfold is_s32, two31. lia.
  - rewrite Hd. apply Forall_app. split; [done|]. apply Forall_replicate. unfold is_s32, two31. lia.
Qed.

Lemma Block_round_trip b d disk s :
  block_holds b d -> Forall is_s32 d -> 0 <= s ->
  disk !! Z.to_nat s = Some (words_to_bytes (block_words b)) -> Block_FetchFrom disk s = Ok b.
Proof.
  intros Hb Hr Hs Hd. unfold Block_FetchFrom. rewrite (ReadSector_in _ _ _ Hs Hd).
  cbn [mbind outcome_bind]. rewrite stored_words by eauto using block_words_range, block_words_length.
  unfold block_words. by destruct b.
Qed.

(** Sectors that a block can be written to. *)
Definition block_sectors (disk : list (list Z)) (secs : list Z) : Prop :=
  NoDup secs /\ Forall (fun s => 0 < s < Z.of_nat (length disk)) secs.

(** The loop of [WriteBack] stores the blocks from the [i]-th on. *)
Lemma WriteBack_loop_ok h secs : forall blks i disk,
  length secs = length blks -> block_sectors disk secs ->
  (forall k s, secs !! k = Some s -> indirectSector h !! (i + k)%nat = Some s) ->
  (forall k b, blks !! k = Some b -> indirectPointers h !! (i + k)%nat = Some (Some b)) ->
  exists disk', WriteBack_loop (length secs) (Z.of_nat i) h disk = Ok disk' /\
    length disk' = length disk /\
    (forall k s b, secs !! k = Some s -> blks !! k = Some b ->
       disk' !! Z.to_nat s = Some (words_to_bytes (block_words b))) /\
    (forall j, 0 <= j -> ~ (j ∈ secs) -> disk' !! Z.to_nat j = disk !! Z.to_nat j).
Proof.
  induction secs as [|s secs IH]; intros blks i disk Hlen (Hnd & Hrange) Hs Hb; simpl.
  { by exists disk. }
  destruct blks as [|b blks]; [done|].
  apply NoDup_cons in Hnd as [Hnin Hnd]. apply Forall_cons in Hrange as [Hsr Hrange].
  pose proof (Hs 0%nat s eq_refl) as Hs0. pose proof (Hb 0%nat b eq_refl) as Hb0. rewrite Nat.add_0_r in Hs0, Hb0.
  rewrite (proj2 (arr_get_ok _ (Z.of_nat i) s)) by (rewrite Nat2Z.id; split; [lia|done]). cbn [mbind outcome_bind].
  destruct (Z.eqb_spec s 0); [lia|]. cbn [negb].
  rewrite (proj2 (arr_get_ok _ (Z.of_nat i) (Some b))) by (rewrite Nat2Z.id; split; [lia|done]).
  cbn [mbind outcome_bind deref]. unfold Block_WriteBack. rewrite WriteSector_in by lia.
  cbn [mbind outcome_bind]. replace (Z.of_nat i + 1) with (Z.of_nat (S i)) by lia.
  set (disk1 := <[_ := _]> disk).
  destruct (IH blks (S i) disk1) as (disk' & Hl & Hlen' & Hblk & Hother).
  - simpl in Hlen. lia.
  - unfold disk1. split; [done|]. by rewrite length_insert.
  - intros k x Hk. specialize (Hs (S k) x Hk). by replace (S i + k)%nat with (i + S k)%nat by lia.
  - intros k x Hk. specialize (Hb (S k) x Hk). by replace (S i + k)%nat with (i + S k)%nat by lia.
  - exists disk'. split; [done|]. unfold disk1 in *. rewrite length_insert in Hlen'. split; [done|]. split.
    + intros [|k] x y Hx Hy; simpl in Hx, Hy; [|by apply (Hblk k)]. simplify_eq.
      rewrite Hother by (done || lia). apply list_lookup_insert_eq. lia.
    + intros j Hj Hnj. rewrite Hother by set_solver. apply list_lookup_insert_ne. set_solver by lia.
Qed.

(** The loop of [FetchFrom] sets the pointers from the [i]-th on. *)
Lemma FetchFrom_loop_ok disk secs : forall blks data i h,
  length secs = length blks -> Forall2 block_holds blks data -> Forall (Forall is_s32) data ->
  Forall (fun s => 0 < s) secs -> (i + length secs <= length (indirectPointers h))%nat ->
  (forall k s, secs !! k = Some s -> indirectSector h !! (i + k)%nat = Some s) ->
  (forall k s b, secs !! k = Some s -> blks !! k = Some b ->
       disk !! Z.to_nat s = Some (words_to_bytes (block_words b))) ->
  FetchFrom_loop (length secs) (Z.of_nat i) h disk =
  Ok (set_indirect h (indirectSector h)
        (take i (indirectPointers h) ++ (Some <$> blks) ++ drop (i + length blks) (indirectPointers h))).
Proof.
  induction secs as [|s secs IH]; intros blks data i h Hlen Hbd Hr Hpos Hle Hs Hd;
    destruct blks as [|b blks]; try done; simpl.
  { rewrite Nat.add_0_r, take_drop. by destruct h. }
  apply Forall2_cons_inv_l in Hbd as (d & data' & Hbd0 & Hbd & ->). apply Forall_cons in Hr as [Hr0 Hr].
  apply Forall_cons in Hpos as [Hp0 Hpos]. simpl in Hlen, Hle.
  pose proof (Hs 0%nat s eq_refl) as Hs0. rewrite Nat.add_0_r in Hs0.
  rewrite (proj2 (arr_get_ok _ (Z.of_nat i) s)) by (rewrite Nat2Z.id; split; [lia|done]). cbn [mbind outcome_bind].
  destruct (Z.eqb_spec s 0); [lia|]. cbn [negb].
  rewrite (Block_round_trip b d disk s) by (done || lia || by apply (Hd 0%nat)). cbn [mbind outcome_bind].
  rewrite arr_set_in by lia. cbn [mbind outcome_bind]. rewrite Nat2Z.id.
  replace (Z.of_nat i + 1) with (Z.of_nat (S i)) by lia.
  rewrite (IH blks data') ; try done.
  - f_equal. unfold set_indirect. cbn [numBytes numSectors dataSectors indirectSector indirectPointers].
    f_equal. apply (take_insert_drop _ i (length blks) (Some b) (Some <$> blks)). lia.
  - lia.
  - simpl. rewrite length_insert. lia.
  - intros k x Hk. specialize (Hs (S k) x Hk). by replace (S i + k)%nat with (i + S k)%nat by lia.
  - intros k x y Hx Hy. by apply (Hd (S k)).
Qed.

(** One iteration of the loop of [ExtendFile] below four sectors. *)
Lemma ExtendFile_step {M} `{BitAllocator M} fuel h (m : M) i t s m1 :
  hdr_shape h -> 0 <= i < 4 -> 0 < t -> ba_find m = Ok (s, m1) ->
  ExtendFile_loop (S fuel) h m i t =
  ExtendFile_loop fuel
    (set_numSectors (set_data h (<[Z.to_nat i := s]> (dataSectors h))) (numSectors h + 1)) m1 i (t - 1).
Proof.
  intros (Hd & Hs & Hp) Hi Ht Hfind. cbn [ExtendFile_loop]. destruct (Z.leb_spec t 0); [lia|].
  change NumDirect with 4. destruct (Z.ltb_spec i 4) as [_|]; [|lia]. rewrite Hfind. cbn [mbind outcome_bind].
  rewrite arr_set_in by lia. done.
Qed.

(** The loop of [ExtendFile] when it starts below four sectors. *)
Lemma ExtendFile_loop_ok {M} `{BitAllocatorLaws M} (m0 : M) k : forall h m got i,
  hdr_shape h -> 0 <= i < 4 -> allocated m0 m got -> Z.of_nat (S k) <= ba_free m ->
  exists m' news l, ExtendFile_loop (S (S k)) h m i (Z.of_nat (S k)) =
    Ok (mkHeader (numBytes h) (numSectors h + Z.of_nat (S k)) (<[Z.to_nat i := l]> (dataSectors h))
          (indirectSector h) (indirectPointers h), m') /\
    length news = k /\ allocated m0 m' (got ++ news ++ [l]).
Proof.
  induction k as [|k IH]; intros h m got i Hsh Hi Hal Hfree;
    (destruct (allocated_find m0 m got Hal) as (s & m1 & Hfind & Hal1 & _); [lia|]);
    rewrite (ExtendFile_step _ h m i _ s m1) by (done || lia).
  - exists m1, [], s. done.
  - pose proof (al_free _ _ _ Hal) as Hf. pose proof (al_free _ _ _ Hal1) as Hf1. rewrite length_app in Hf1.
    simpl length in Hf1.
    destruct (IH (set_numSectors (set_data h (<[Z.to_nat i := s]> (dataSectors h))) (numSectors h + 1)) m1
      (got ++ [s]) i) as (m' & news & l & Hl & Hlen & Hal'); [|done|done|lia|].
    { destruct Hsh as (Hd & Hs & Hp). unfold hdr_shape. simpl. by rewrite length_insert. }
    exists m', (s :: news), l. rewrite <- app_assoc in Hal'. split; [|by simpl; rewrite Hlen].
    replace (Z.of_nat (S (S k)) - 1) with (Z.of_nat (S k)) by lia. rewrite Hl.
    cbn [numBytes numSectors dataSectors indirectSector indirectPointers set_numSectors set_data]. rewrite list_insert_insert_eq. do 3 f_equal. lia.
Qed.

(** Extending a file within its direct sectors. *)
Lemma ExtendFile_ok {M} `{BitAllocatorLaws M} (m : M) h sectors :
  ba_inv m -> hdr_shape h -> 0 <= numSectors h < 4 -> numSectors h < sectors ->
  sectors - numSectors h <= ba_free m ->
  exists m' news l, allocated m m' (news ++ [l]) /\ numSectors h + Z.of_nat (length news) + 1 = sectors /\
    ExtendFile h m sectors =
    Ok (true, mkHeader (numBytes h) sectors (<[Z.to_nat (numSectors h) := l]> (dataSectors h))
                (indirectSector h) (indirectPointers h), m').
Proof.
  intros Hinv Hsh Hn Hlt Hfree. unfold ExtendFile. destruct (Z.leb_spec (sectors - numSectors h) 0); [lia|].
  rewrite ba_numClear_ok by done. cbn [mbind outcome_bind].
  destruct (Z.ltb_spec (ba_free m) (sectors - numSectors h)); [lia|].
  set (k := Z.to_nat (sectors - numSectors h - 1)).
  replace (sectors - numSectors h) with (Z.of_nat (S k)) by lia. rewrite Nat2Z.id.
  destruct (ExtendFile_loop_ok m k h m [] (numSectors h)) as (m' & news & l & Hl & Hlen & Hal);
    [done|done|by apply allocated_nil|lia|].
  exists m', news, l. split; [done|]. split; [lia|]. rewrite Hl. cbn [mbind outcome_bind].
  do 3 f_equal. f_equal. lia.
Qed.

Lemma laid_out_needed h direct secs data : laid_out h direct secs data -> 0 <= numSectors h ->
  Z.of_nat (length (direct ++ secs ++ concat data)) = sectors_needed (numSectors h).
Proof. intros [_ _ _ _ Hd Hs _ Ht _] Hn. rewrite !length_app. unfold sectors_needed. lia. Qed.

(** Allocating a header, when it can be and when it cannot. *)
Lemma Allocate_takes {M} `{BitAllocatorLaws M} (m : M) h fileSize :
  ba_inv m -> hdr_shape h -> 0 <= fileSize <= MaxFileSize ->
  let n := divRoundUp fileSize SectorSize in
  n <= ba_free m ->
  exists h' m' direct secs data, Allocate h m fileSize = Ok (true, h', m') /\
    laid_out h' direct secs data /\ taken m m' (direct ++ secs ++ concat data) /\
    numBytes h' = fileSize /\ numSectors h' = n /\ Z.of_nat (length (direct ++ secs ++ concat data)) = sectors_needed n.
Proof.
  intros Hinv Hsh Hsz n Hfree. change SectorSize with 128 in n. unfold Allocate. change MaxFileSize with 103680 in *.
  change SectorSize with 128. fold n. rewrite ba_numClear_ok by done. cbn [mbind outcome_bind].
  rewrite u32_small by (unfold is_u32, two32; lia). destruct (Z.ltb_spec 103680 fileSize); [lia|].
  pose proof (divRoundUp_bounds fileSize 128 ltac:(lia) ltac:(lia)) as Hn. fold n in Hn.
  destruct (Z.ltb_spec (ba_free m) n) as [Hlt|_]; [lia|].
  destruct (Allocate_loop_ok (mkHeader fileSize n (dataSectors h) (indirectSector h) (indirectPointers h)) m)
    as (h' & m' & direct & secs & data & Hl & Hlay & Hal & Hnb & Hns); try done; [simpl; lia|].
  cbn [numSectors] in Hl. rewrite Hl. cbn [mbind outcome_bind numBytes numSectors] in *. exists h', m', direct, secs, data.
  split_and!; try done. rewrite (laid_out_needed h') by (done || lia). by rewrite Hns.
Qed.

Lemma Allocate_refuses {M} `{BitAllocatorLaws M} (m : M) h fileSize :
  ba_inv m -> is_s32 fileSize -> ~ (0 <= fileSize <= MaxFileSize /\ divRoundUp fileSize SectorSize <= ba_free m) ->
  exists h', Allocate h m fileSize = Ok (false, h', m).
Proof.
  intros Hinv Hfs Hnot. unfold Allocate. change MaxFileSize with 103680 in *. rewrite ba_numClear_ok by done. cbn [mbind outcome_bind].
  destruct (Z.ltb_spec 103680 (u32 fileSize)) as [_|Hle]; [by eexists|].
  assert (0 <= fileSize <= 103680) by (unfold u32, is_s32, two31, two32 in *; dlia).
  destruct (Z.ltb_spec (ba_free m) (divRoundUp fileSize SectorSize)); [by eexists|]. lia.
Qed.

Lemma Allocate_ok {M} `{BitAllocatorLaws M} (m : M) h fileSize :
  ba_inv m -> hdr_shape h -> 0 <= fileSize <= MaxFileSize ->
  let n := divRoundUp fileSize SectorSize in
  sectors_needed n <= ba_free m ->
  exists h' m' direct secs data, Allocate h m fileSize = Ok (true, h', m') /\
    laid_out h' direct secs data /\ allocated m m' (direct ++ secs ++ concat data) /\
    numBytes h' = fileSize /\ numSectors h' = n.
Proof.
  intros Hinv Hsh Hsz n Hneed. assert (0 <= n) as Hn by (apply divRoundUp_nonneg; [lia|done]).
  pose proof (blocks_nonneg (Z.max 0 (n - 4)) ltac:(lia)) as Hb.
  destruct (Allocate_takes m h fileSize Hinv Hsh Hsz) as (h' & m' & direct & secs & data & Hrun & Hlo & Ht & Hnb & Hns & Hlen);
    [unfold sectors_needed in Hneed; fold n; lia|].
  exists h', m', direct, secs, data. split_and!; try done. apply taken_enough; [done|]. rewrite Hlen. done.
Qed.

(** The header [h] is on disk, with its blocks. *)
Record stored_at (disk : list (list Z)) (sector : Z) (h : FileHeader) (direct secs : list Z) (data : list (list Z))
    : Prop := {
  st_layout : laid_out h direct secs data;
  st_words : Forall is_s32 (header_words h);
  st_data : Forall (Forall is_s32) data;
  st_pos : 0 <= sector /\ Forall (fun s => 0 < s) secs;
  st_header : disk !! Z.to_nat sector = Some (words_to_bytes (header_words h));
  st_blocks : exists blks, Forall2 block_holds blks data /\
    forall k s b, secs !! k = Some s -> blks !! k = Some b ->
      disk !! Z.to_nat s = Some (words_to_bytes (block_words b)) }.

Lemma WriteBack_stores h direct secs data disk sector :
  laid_out h direct secs data -> block_sectors disk (sector :: secs) ->
  Forall is_s32 (header_words h) -> Forall (Forall is_s32) data ->
  exists disk', WriteBack h disk sector = Ok disk' /\ stored_at disk' sector h direct secs data /\
    length disk' = length disk /\
    (forall j, 0 <= j -> ~ (j ∈ sector :: secs) -> disk' !! Z.to_nat j = disk !! Z.to_nat j) /\
    (forall s, s ∈ sector :: secs -> exists ws, length ws = 32%nat /\ disk' !! Z.to_nat s = Some (words_to_bytes ws)).
Proof.
  intros Hlo ([Hnin Hnd]%NoDup_cons & [Hsr Hrange]%Forall_cons) Hw Hdw.
  destruct (lo_shape _ _ _ _ Hlo) as (Hld & Hls & Hlp).
  destruct (lo_pointers _ _ _ _ Hlo) as (blks & Hblks & Hlb & Hle & Hptr).
  pose proof (lo_sector_lookup _ _ _ _ Hlo) as Hsec.
  destruct (WriteBack_loop_ok h secs blks 0 (<[Z.to_nat sector := words_to_bytes (header_words h)]> disk))
    as (disk' & Hwl & Hlen & Hblk & Hother); [lia|split; [done|by rewrite length_insert]|done|done|].
  assert (disk' !! Z.to_nat sector = Some (words_to_bytes (header_words h))) as Hhd.
  { rewrite Hother by (done || lia). apply list_lookup_insert_eq. lia. }
  exists disk'. split; [|split; [|split; [|split]]].
  - unfold WriteBack. rewrite WriteSector_in by lia. cbn [mbind outcome_bind].
    etransitivity; [|exact Hwl].
    exact (lo_indirects _ _ _ _ _ (fun n => WriteBack_loop n 0 h _) Hlo).
  - split; try done; [|by exists blks]. split; [lia|]. eapply Forall_impl; [exact Hrange|]. simpl. lia.
  - by rewrite Hlen, length_insert.
  - intros j Hj Hnj. rewrite Hother by set_solver. apply list_lookup_insert_ne. set_solver by lia.
  - intros s [->|(k & Hk)%list_elem_of_lookup]%elem_of_cons.
    + exists (header_words h). split; [unfold header_words; simpl; rewrite length_app; lia|done].
    + destruct (lookup_lt_is_Some_2 blks k) as [b Hb]; [apply lookup_lt_Some in Hk; lia|].
      destruct (Forall2_lookup_l _ _ _ _ _ Hblks Hb) as (d & _ & Hbd).
      exists (block_words b). split; [by apply (block_words_length b d)|]. by apply (Hblk k).
Qed.

(** A block without a sector cannot be written. *)
Lemma WriteBack_loop_missing h secs : forall blks i disk,
  length secs = length blks -> Forall (fun s => s = -1 \/ 0 < s < Z.of_nat (length disk)) secs -> -1 ∈ secs ->
  (forall k s, secs !! k = Some s -> indirectSector h !! (i + k)%nat = Some s) ->
  (forall k b, blks !! k = Some b -> indirectPointers h !! (i + k)%nat = Some (Some b)) ->
  WriteBack_loop (length secs) (Z.of_nat i) h disk = AssertFail.
Proof.
  induction secs as [|s secs IH]; intros blks i disk Hlen Hr Hin Hs Hb; [by apply elem_of_nil in Hin|].
  destruct blks as [|b blks]; [done|]. apply Forall_cons in Hr as [Hsr Hr].
  pose proof (Hs 0%nat s eq_refl) as Hs0. pose proof (Hb 0%nat b eq_refl) as Hb0. rewrite Nat.add_0_r in Hs0, Hb0.
  cbn [WriteBack_loop length]. rewrite (proj2 (arr_get_ok _ (Z.of_nat i) s)) by (rewrite Nat2Z.id; split; [lia|done]). cbn [mbind outcome_bind].
  destruct (Z.eqb_spec s 0); [lia|]. cbn [negb].
  rewrite (proj2 (arr_get_ok _ (Z.of_nat i) (Some b))) by (rewrite Nat2Z.id; split; [lia|done]).
  cbn [mbind outcome_bind deref]. unfold Block_WriteBack. destruct (decide (s = -1)) as [->|Hne]; [by rewrite WriteSector_out by lia|].
  rewrite WriteSector_in by lia. cbn [mbind outcome_bind]. replace (Z.of_nat i + 1) with (Z.of_nat (S i)) by lia.
  apply (IH blks); [simpl in Hlen; lia|by rewrite length_insert|set_solver|..].
  - intros k x Hk. specialize (Hs (S k) x Hk). by replace (S i + k)%nat with (i + S k)%nat by lia.
  - intros k x Hk. specialize (Hb (S k) x Hk). by replace (S i + k)%nat with (i + S k)%nat by lia.
Qed.

Lemma WriteBack_missing h direct secs data disk sector :
  laid_out h direct secs data -> 0 <= sector < Z.of_nat (length disk) ->
  Forall (fun s => s = -1 \/ 0 < s < Z.of_nat (length disk)) secs -> -1 ∈ secs -> WriteBack h disk sector = AssertFail.
Proof.
  intros Hlo Hs Hr Hin. destruct (lo_pointers _ _ _ _ Hlo) as (blks & Hblks & Hlb & Hle & Hptr).
  pose proof (lo_sector_lookup _ _ _ _ Hlo) as Hsec. unfold WriteBack. rewrite WriteSector_in by done. cbn [mbind outcome_bind].
  etransitivity; [exact (lo_indirects _ _ _ _ _ (fun n => WriteBack_loop n 0 h _) Hlo)|].
  apply (WriteBack_loop_missing h secs blks 0); [done|by rewrite length_insert|done..].
Qed.

Lemma FetchFrom_stored h h0 direct secs data disk sector :
  stored_at disk sector h direct secs data -> hdr_shape h0 ->
  exists h1, FetchFrom h0 disk sector = Ok h1 /\ header_words h1 = header_words h /\ laid_out h1 direct secs data /\
    numBytes h1 = numBytes h /\ numSectors h1 = numSectors h.
Proof.
  intros [Hlo Hw Hdw [Hs0 Hpos] Hhd (blks & Hblks & Hblk)] (_ & _ & Hp0).
  destruct (lo_shape _ _ _ _ Hlo) as (Hld & Hls & Hlp).
  assert (length blks = length secs) as Hlb.
  { rewrite (Forall2_length _ _ _ Hblks). apply (lo_ndata _ _ _ _ Hlo). }
  destruct (lo_pointers _ _ _ _ Hlo) as (_ & _ & _ & Hle & _).
  pose proof (lo_sector_lookup _ _ _ _ Hlo) as Hsec.
  set (h1 := mkHeader (numBytes h) (numSectors h) (dataSectors h) (indirectSector h) (indirectPointers h0)).
  pose proof (FetchFrom_loop_ok disk secs blks data 0 h1) as Hfl.
  eexists. split; [|split; [|split; [|split]]].
  - unfold FetchFrom. rewrite (ReadSector_in disk sector _ Hs0 Hhd).
    cbn [mbind outcome_bind].
    rewrite stored_words by (done || (unfold header_words; simpl; rewrite length_app; lia)).
    unfold header_words. cbn [numSectors].
    change (Z.to_nat NumDirect) with 4%nat. change (Z.to_nat NumInDirect) with 26%nat.
    rewrite (take_app_length' _ _ 4), (drop_app_length' _ _ 4), (take_ge (indirectSector h)) by lia. fold h1.
    change (numSectors h) with (numSectors h1).
    etransitivity;
      [exact (lo_indirects h direct secs data _ (fun n => FetchFrom_loop n 0 h1 disk) Hlo)|].
    apply Hfl; try done; simpl; lia.
  - done.
  - apply (laid_out_pointers h direct secs data blks); try done.
    + simpl. rewrite length_app, length_drop, length_fmap. lia.
    + simpl. apply take_app_length'. rewrite length_fmap. lia.
  - done.
  - done.
Qed.

(** ** Sector numbers are integers of the machine *)

Section words.
Context {M : Type} `{BitAllocatorLaws M}.

Lemma ba_find_s32 (m : M) s m' : ba_inv m -> ba_size m <= 1024 -> ba_find m = Ok (s, m') ->
  ba_inv m' /\ ba_size m' = ba_size m /\ is_s32 s.
Proof.
  intros Hinv Hsz Hf. unfold is_s32, two31.
  destruct (ba_find_ok m Hinv) as [(k & m1 & Hk & ? & ? & ? & _)|[Hk _]]; rewrite Hf in Hk; simplify_eq;
    split_and!; (done || lia).
Qed.

Lemma put_loop_inv n : forall b (m : M) b' m', ba_inv m -> ba_size m <= 1024 -> put_loop n b m = Ok (b', m') ->
  ba_inv m' /\ ba_size m' = ba_size m.
Proof.
  induction n as [|n IH]; intros b m b' m' Hinv Hsz Hrun; cbn [put_loop] in Hrun; [by simplify_eq|].
  apply bind_ok in Hrun as ([s m1] & Hf & (b1 & _ & Hrun)%bind_ok).
  destruct (ba_find_s32 m s m1 Hinv Hsz Hf) as (Hinv1 & Hsz1 & _). rewrite <- Hsz1. apply (IH b1 m1 b' m'); (done || lia).
Qed.

Definition entries_s32 (h : FileHeader) : Prop := Forall is_s32 (dataSectors h) /\ Forall is_s32 (indirectSector h).

Lemma Allocate_loop_s32 fuel : forall h (m : M) i t h' m',
  ba_inv m -> ba_size m <= 1024 -> entries_s32 h -> Allocate_loop fuel h m i t = Ok (h', m') -> entries_s32 h'.
Proof.
  induction fuel as [|fuel IH]; intros h m i t h' m' Hinv Hsz [Hd Hi] Hrun; [done|]. cbn [Allocate_loop] in Hrun.
  destruct (t <=? 0); [by simplify_eq|]. destruct (i <? NumDirect).
  - apply bind_ok in Hrun as ([s m1] & Hf & (d & [_ ->]%arr_set_ok & Hrun)%bind_ok).
    destruct (ba_find_s32 m s m1 Hinv Hsz Hf) as (Hinv1 & Hsz1 & Hs).
    apply (IH _ m1 _ _ _ _ Hinv1) in Hrun; [done|lia|]. split; [by apply Forall_insert|done].
  - apply bind_ok in Hrun as (p & _ & ([s m1] & Hf & (ss & [_ ->]%arr_set_ok & Hrun)%bind_ok)%bind_ok).
    destruct (ba_find_s32 m s m1 Hinv Hsz Hf) as (Hinv1 & Hsz1 & Hs).
    apply bind_ok in Hrun as ([b m2] & Hput & (p' & _ & Hrun)%bind_ok).
    apply put_loop_inv in Hput as [Hinv2 Hsz2]; [|done|lia].
    apply (IH _ m2 _ _ _ _ Hinv2) in Hrun; [done|lia|]. split; [done|by apply Forall_insert].
Qed.

Lemma Allocate_s32 h (m : M) fileSize h' m' :
  ba_inv m -> ba_size m <= 1024 -> entries_s32 h -> Allocate h m fileSize = Ok (true, h', m') -> entries_s32 h'.
Proof.
  intros Hinv Hsz Hh Hrun. unfold Allocate in Hrun. destruct (MaxFileSize <? u32 fileSize); [done|].
  apply bind_ok in Hrun as (free & _ & Hrun). destruct (free <? _); [done|].
  apply bind_ok in Hrun as ([h1 m1] & Hl & Hrun). simplify_eq.
  by apply (Allocate_loop_s32 _ _ _ _ _ _ _ Hinv Hsz) in Hl.
Qed.
End words.

(** ** Concrete headers *)

Definition blank_header : FileHeader :=
  mkHeader 0 0 (replicate 4 0) (replicate 26 0) (replicate 26 None).
Definition demo_map (w : Z) : BitMap := mkBitMap 64 2 [w; 0].

Lemma demo_map_wf w : is_u32 w -> bm_wf (demo_map w).
Proof. intros Hw. split; [done|]. split; [done|]. split; [done|]. apply Forall_cons. split; [done|]. forall_lia. Qed.

(** Six sectors: four direct ones, and two in the block at sector 14. *)
Definition header6 : FileHeader :=
  mkHeader 700 6 [10; 11; 12; 13] (14 :: replicate 25 0)
    (Some (mkBlock 2 ([15; 16] ++ replicate 29 0)) :: replicate 25 None).

Lemma header6_laid_out : laid_out header6 [10; 11; 12; 13] [14] [[15; 16]].
Proof.
  constructor; try done.
  - exists [mkBlock 2 ([15; 16] ++ replicate 29 0)]. split; [|done]. by repeat constructor.
  - intros [|[|j]] d Hd; simpl in Hd; [by injection Hd as <-|done|done].
Qed.

(** 36 sectors: the block at sector 6 is full and the one at 38 has one sector. *)
Definition header36 : FileHeader :=
  mkHeader 4608 36 [2; 3; 4; 5] (6 :: 38 :: replicate 24 0)
    (Some (mkBlock 31 (seqZ 7 31)) :: Some (mkBlock 1 (39 :: replicate 30 0)) :: replicate 24 None).

Lemma header36_laid_out : laid_out header36 [2; 3; 4; 5] [6; 38] [seqZ 7 31; [39]].
Proof.
  constructor; try done.
  - exists [mkBlock 31 (seqZ 7 31); mkBlock 1 (39 :: replicate 30 0)]. split; [|done]. by repeat constructor.
  - intros [|[|j]] d Hd; simpl in Hd; [by injection Hd as <-|by injection Hd as <-|done].
Qed.

(** Two sectors. *)
Definition header2 : FileHeader :=
  mkHeader 200 2 [4; 6; 0; 0] (replicate 26 0) (replicate 26 None).

Lemma header2_laid_out : laid_out header2 [4; 6] [] [].
Proof. constructor; try done. by exists []. Qed.

(** ** Properties *)

(** C19. [Allocate] for a file of any size. A size that is negative or too large, or that has more data
    sectors than are free, gives FALSE and the map is as before. Otherwise it returns TRUE, and the
    header records the size and lays the file out. With enough free sectors for the data and the
    indirect blocks, the sectors of the layout are all different, were free and are now taken, and no
    other sector of the map changes. With enough for the data only, the code still returns TRUE: all free
    sectors are taken, each for one place of the layout, and the places that are left hold -1. *)
Theorem Allocate_correct {M} `{BitAllocatorLaws M} (m : M) h fileSize :
  ba_inv m -> hdr_shape h -> is_s32 fileSize ->
  let n := divRoundUp fileSize SectorSize in
  (0 <= fileSize <= MaxFileSize -> n <= ba_free m ->
   exists h' m' direct secs data, Allocate h m fileSize = Ok (true, h', m') /\
     laid_out h' direct secs data /\ numBytes h' = fileSize /\ numSectors h' = n /\
     (if sectors_needed n <=? ba_free m then allocated m m' (direct ++ secs ++ concat data)
      else exists real, direct ++ secs ++ concat data ≡ₚ real ++ replicate (Z.to_nat (sectors_needed n - ba_free m)) (-1) /\
        allocated m m' real /\ ba_free m' = 0)) /\
  (~ (0 <= fileSize <= MaxFileSize /\ n <= ba_free m) ->
   exists h', Allocate h m fileSize = Ok (false, h', m)).
Proof.
  intros Hinv Hsh Hs n. split; [|by apply Allocate_refuses].
  intros Hsz Hfree. destruct (Allocate_takes m h fileSize Hinv Hsh Hsz Hfree) as (h' & m' & direct & secs & data & Hrun & Hlo & Ht & Hnb & Hns & Hlen).
  fold n in Hlen, Hns. exists h', m', direct, secs, data. split_and!; try done. destruct (Z.leb_spec (sectors_needed n) (ba_free m)) as [Hle|Hlt].
  - apply taken_enough; [done|]. by rewrite Hlen.
  - destruct (taken_short _ _ _ Ht) as (real & Hp & Hal & Hz); [by rewrite Hlen|]. rewrite Hlen in Hp. by exists real.
Qed.

Lemma Allocate_correct_witness :
  exists h' m' direct secs data, Allocate blank_header (demo_map 3) 700 = Ok (true, h', m') /\
    laid_out h' direct secs data /\ numSectors h' = 6.
Proof.
  destruct (Allocate_correct (demo_map 3) blank_header 700) as [Hok _].
  - apply demo_map_wf. unfold is_u32, two32. lia.
  - repeat split; reflexivity.
  - unfold is_s32, two31. lia.
  - destruct Hok as (h' & m' & direct & secs & data & Hrun & Hlay & _ & Hn & _).
    + unfold MaxFileSize. vm_compute. split; discriminate.
    + vm_compute. discriminate.
    + exists h', m', direct, secs, data. split; [exact Hrun|]. split; [exact Hlay|]. exact Hn.
Defined.

(** [Allocate] compares the free sectors with the data sectors only. With five
    free sectors a file of five sectors is accepted although its indirect block needs a
    sixth: it returns TRUE and the block holds -1, the failure value of [Find], as the
    sector of the file's last part. *)
Theorem Allocate_counts_data_only :
  exists h' m' b, Allocate blank_header (mkBitMap 8 1 [7]) 640 = Ok (true, h', m') /\
    indirectPointers h' !! 0%nat = Some (Some b) /\ ib_num b = 1 /\ ByteToSector h' 512 = Ok (-1).
Proof.
  destruct (Allocate blank_header (mkBitMap 8 1 [7]) 640) as [[[r h'] m']| | |] eqn:Hrun;
    vm_compute in Hrun; try discriminate Hrun.
  injection Hrun as <- <- <-. eexists _, _, _. split; [reflexivity|]. split; [reflexivity|].
  split; reflexivity.
Qed.

(** For a file whose data fits the direct sectors and one block that is not full
    (fewer than 35 sectors), and for the first four sectors of any file,
    [ByteToSector] gives the sector of the layout that holds the byte. *)
Theorem ByteToSector_correct h direct secs data offset :
  laid_out h direct secs data -> numSectors h <= 810 -> 0 <= offset < 128 * numSectors h ->
  offset < 512 \/ numSectors h < 35 ->
  exists s, (direct ++ concat data) !! Z.to_nat (offset `div` SectorSize) = Some s /\
    ByteToSector h offset = Ok s.
Proof. apply ByteToSector_ok. Qed.

Lemma ByteToSector_correct_witness :
  ByteToSector header6 640 = Ok 16 /\ ByteToSector header6 300 = Ok 12.
Proof.
  split.
  - destruct (ByteToSector_correct header6 [10; 11; 12; 13] [14] [[15; 16]] 640) as (s & Hs & ->);
      [exact header6_laid_out|simpl; lia|simpl; lia|right; simpl; lia|]. injection Hs as <-. reflexivity.
  - destruct (ByteToSector_correct header6 [10; 11; 12; 13] [14] [[15; 16]] 300) as (s & Hs & ->);
      [exact header6_laid_out|simpl; lia|simpl; lia|left; lia|]. injection Hs as <-. reflexivity.
Defined.

(** For larger files the block is chosen by the number of sectors of the file and
    not by the offset: the first byte after the direct sectors is looked up in the last
    block, and the answer is a sector that holds another part of the file. *)
Theorem ByteToSector_large h direct secs data :
  laid_out h direct secs data -> NoDup (concat data) -> 35 < numSectors h <= 810 ->
  (numSectors h - 4) `mod` 31 <> 0 ->
  exists s s', ByteToSector h 512 = Ok s /\ (direct ++ concat data) !! 4%nat = Some s' /\ s <> s'.
Proof.
  intros Hlo Hnd Hn Hmod. set (r := (numSectors h - 4) `div` 31).
  pose proof (lo_nsecs _ _ _ _ Hlo) as Hns.
  pose proof (divRoundUp_bounds (Z.max 0 (numSectors h - 4)) 31 ltac:(lia) ltac:(lia)) as Hbb.
  change (divRoundUp _ 31) with (blocks (Z.max 0 (numSectors h - 4))) in Hbb.
  assert (1 <= r < Z.of_nat (length secs)) as Hr by (unfold r; dlia).
  destruct (lo_lookup_block h direct secs data Hlo (Z.to_nat r)) as (b & d & Hb & Hd & Hholds); [lia|].
  destruct (lo_lookup_block h direct secs data Hlo 0) as (b0 & d0 & _ & Hd0 & _); [lia|].
  pose proof (lo_full _ _ _ _ Hlo _ d Hd) as Hlen. pose proof (lo_full _ _ _ _ Hlo _ d0 Hd0) as Hlen0.
  destruct (block_holds_get b d 0) as (s & Hs & Hget); [done|unfold r in *; dlia|].
  destruct (lookup_lt_is_Some_2 d0 0) as [s' Hs']; [lia|].
  apply (lo_concat _ _ _ _ Hlo _ d _ s Hd) in Hs. apply (lo_concat _ _ _ _ Hlo _ d0 _ s' Hd0) in Hs'.
  exists s, s'. split_and!.
  - rewrite ByteToSector_indirect by (unfold two31; lia). fold r.
    rewrite (proj2 (arr_get_ok _ r (Some b))) by (split; [lia|done]). done.
  - pose proof (lo_ndirect _ _ _ _ Hlo). rewrite lookup_app_r by lia. rewrite <- Hs'. f_equal. lia.
  - intros ->. pose proof (NoDup_lookup _ _ _ _ Hnd Hs Hs'). lia.
Qed.

Lemma ByteToSector_large_witness :
  exists s s', ByteToSector header36 512 = Ok s /\
    ([2; 3; 4; 5] ++ concat [seqZ 7 31; [39]]) !! 4%nat = Some s' /\ s <> s'.
Proof.
  apply (ByteToSector_large header36 [2; 3; 4; 5] [6; 38] [seqZ 7 31; [39]]).
  - exact header36_laid_out.
  - apply (bool_decide_unpack _). vm_compute. exact I.
  - simpl. lia.
  - vm_compute. discriminate.
Defined.

(** [Deallocate] of a file with fewer than four sectors clears the bits of all its
    sectors and no other. *)
Theorem Deallocate_small {M} `{BitAllocatorLaws M} (m : M) h direct :
  laid_out h direct [] [] -> ba_inv m -> 0 <= numSectors h < 4 -> NoDup direct ->
  (forall s, s ∈ direct -> 0 <= s < ba_size m /\ ba_used m s = true) ->
  exists m', Deallocate h m = Ok (h, m') /\ freed m m' direct.
Proof.
  intros Hlo Hinv Hn Hnd Hs. pose proof (lo_ndirect _ _ _ _ Hlo) as Hlen.
  destruct (Deallocate_direct_frees h m direct 0 m []) as (m' & Hl & Hf).
  - lia.
  - by apply freed_nil.
  - intros k s Hk. rewrite <- (lo_direct _ _ _ _ Hlo) in Hk. by apply lookup_take_Some in Hk as [Hk _].
  - done.
  - done.
  - exists m'. unfold Deallocate. change NumDirect with 4. replace (Z.to_nat (numSectors h)) with (length direct) by lia.
    change (Z.of_nat 0) with 0 in Hl. rewrite Hl. cbn [mbind outcome_bind].
    destruct (Z.ltb_spec 4 (numSectors h)); [lia|]. done.
Qed.

Lemma Deallocate_small_witness :
  exists m', Deallocate header2 (demo_map 95) = Ok (header2, m') /\ freed (demo_map 95) m' [4; 6].
Proof.
  apply (Deallocate_small (demo_map 95) header2 [4; 6]).
  - exact header2_laid_out.
  - apply demo_map_wf. unfold is_u32, two32. lia.
  - simpl. lia.
  - apply (bool_decide_unpack _). vm_compute. exact I.
  - intros s [->|[->| []%not_elem_of_nil]%elem_of_cons]%elem_of_cons; (split; [simpl; lia|reflexivity]).
Defined.

(** [Deallocate] of any larger file does not free its data. With exactly four
    sectors the map does not change. With 5 to 34 it clears the bit of the indirect
    block's own sector and bit 0, which is the sector of the free map's header, and no
    data sector. With 35 or more it reads past the end of the first block. *)
Theorem Deallocate_large {M} `{BitAllocatorLaws M} (m : M) h direct secs data :
  laid_out h direct secs data -> ba_inv m -> 0 < ba_size m -> numSectors h <= 810 ->
  (forall s, s ∈ secs -> 0 <= s < ba_size m) ->
  (numSectors h = 4 -> Deallocate h m = Ok (h, m)) /\
  (4 < numSectors h < 35 ->
   exists h' m', Deallocate h m = Ok (h', m') /\ freed m m' (FreeMapSector :: secs)) /\
  (35 <= numSectors h -> Deallocate h m = Undef).
Proof.
  intros Hlo Hinv Hsz Hmax Hs. unfold Deallocate. change NumDirect with 4. split_and!.
  - intros Hn. rewrite Deallocate_direct_nothing by lia. cbn [mbind outcome_bind]. by rewrite Hn.
  - intros Hn. rewrite Deallocate_direct_nothing by lia. cbn [mbind outcome_bind].
    destruct (Z.ltb_spec 4 (numSectors h)) as [_|]; [|lia].
    pose proof (lo_nsecs _ _ _ _ Hlo) as Hns. replace (Z.max 0 (numSectors h - 4)) with (numSectors h - 4) in Hns by lia.
    rewrite blocks_step in Hns by lia. destruct (Z.ltb_spec 31 (numSectors h - 4)); [lia|].
    rewrite blocks_zero in Hns. destruct (lo_lookup_block h direct secs data Hlo 0) as (b & d & Hb & Hd & Hholds); [lia|].
    pose proof (lo_full _ _ _ _ Hlo 0 d Hd) as Hlen. destruct secs as [|s [|? ?]]; simpl in Hns; try lia.
    pose proof (lo_secs _ _ _ _ Hlo) as Hsec. destruct (lo_shape _ _ _ _ Hlo) as (_ & Hls & Hlp).
    destruct (indirectSector h) as [|s0 ss] eqn:Hss; [done|]. simpl in Hsec. injection Hsec as ->.
    fold (blocks (numSectors h - 4)). rewrite blocks_step by lia.
    destruct (Z.ltb_spec 31 (numSectors h - 4)); [lia|]. rewrite blocks_zero.
    change (Z.to_nat (1 + 0)) with 1%nat. cbn [Deallocate_indirect].
    rewrite (proj2 (arr_get_ok _ 0 (Some b))) by done. cbn [mbind outcome_bind deref].
    destruct (Block_Deallocate_partial b d m) as (b' & m1 & -> & Hf); [done|done|done|lia|]. cbn [mbind outcome_bind].
    rewrite arr_set_in by lia. cbn [mbind outcome_bind]. rewrite Hss. unfold arr_get at 1. simpl.
    destruct (freed_clear m m1 [0] s Hf) as (m2 & -> & Hf2); [apply Hs; by left|]. simpl. by eexists _, m2.
  - intros Hn. rewrite Deallocate_direct_nothing by lia. cbn [mbind outcome_bind].
    destruct (Z.ltb_spec 4 (numSectors h)) as [_|]; [|lia].
    fold (blocks (numSectors h - 4)). rewrite blocks_step by lia. pose proof (blocks_nonneg (numSectors h - 35)).
    pose proof (lo_nsecs _ _ _ _ Hlo) as Hns. replace (Z.max 0 (numSectors h - 4)) with (numSectors h - 4) in Hns by lia.
    rewrite blocks_step in Hns by lia.
    set (q := blocks (if _ <? _ then _ else _)) in *.
    assert (0 <= q) by (subst q; destruct (Z.ltb_spec 31 (numSectors h - 4)); apply blocks_nonneg; lia).
    destruct (lo_lookup_block h direct secs data Hlo 0) as (b & d & Hb & Hd & (Hbn & _ & Hbd)); [lia|].
    pose proof (lo_full _ _ _ _ Hlo 0 d Hd) as Hlen.
    replace (Z.to_nat (1 + q)) with (S (Z.to_nat q)) by lia. cbn [Deallocate_indirect].
    rewrite (proj2 (arr_get_ok _ 0 (Some b))) by done. cbn [mbind outcome_bind deref].
    unfold Block_Deallocate. replace (Z.to_nat (ib_num b)) with 31%nat by lia. cbn [Block_Deallocate_loop].
    rewrite (arr_get_out (ib_data b) (ib_num b)); [done|]. right. rewrite Hbd, length_app, length_replicate.
    change (Z.to_nat MaxIndirectPointers) with 31%nat. lia.
Qed.

Lemma Deallocate_large_witness :
  exists h' m', Deallocate header6 (demo_map 131075) = Ok (h', m') /\
    freed (demo_map 131075) m' [FreeMapSector; 14].
Proof.
  destruct (Deallocate_large (demo_map 131075) header6 [10; 11; 12; 13] [14] [[15; 16]]) as (_ & Hmid & _).
  - exact header6_laid_out.
  - apply demo_map_wf. unfold is_u32, two32. lia.
  - simpl. lia.
  - simpl. lia.
  - intros s ->%list_elem_of_singleton. simpl. lia.
  - apply Hmid. simpl. lia.
Defined.

(** A header that is written to disk and fetched into another object has the same
    size, the same sectors and the same layout, and the write touches only the header's
    sector and those of its blocks. *)
Theorem WriteBack_FetchFrom h h0 direct secs data disk sector :
  laid_out h direct secs data -> hdr_shape h0 -> block_sectors disk (sector :: secs) ->
  Forall is_s32 (header_words h) -> Forall (Forall is_s32) data ->
  exists disk' h1, WriteBack h disk sector = Ok disk' /\ FetchFrom h0 disk' sector = Ok h1 /\
    header_words h1 = header_words h /\ laid_out h1 direct secs data /\
    forall j, 0 <= j -> ~ (j ∈ sector :: secs) -> disk' !! Z.to_nat j = disk !! Z.to_nat j.
Proof.
  intros Hlo Hsh Hbs Hw Hdw.
  destruct (WriteBack_stores h direct secs data disk sector) as (disk' & Hwr & Hst & _ & Ho & _); try done.
  destruct (FetchFrom_stored _ h0 _ _ _ _ _ Hst Hsh) as (h1 & Hf & Hhw & Hl & _). by exists disk', h1.
Qed.

Lemma WriteBack_FetchFrom_witness :
  exists disk' h1, WriteBack header6 (replicate 32 []) 2 = Ok disk' /\
    FetchFrom blank_header disk' 2 = Ok h1 /\ laid_out h1 [10; 11; 12; 13] [14] [[15; 16]].
Proof.
  destruct (WriteBack_FetchFrom header6 blank_header [10; 11; 12; 13] [14] [[15; 16]] (replicate 32 []) 2)
    as (disk' & h1 & Hw & Hf & _ & Hlay & _).
  - exact header6_laid_out.
  - repeat split; reflexivity.
  - split; [apply (bool_decide_unpack _); vm_compute; exact I|]. apply (bool_decide_unpack _). vm_compute. exact I.
  - unfold is_s32, two31. apply (bool_decide_unpack _). vm_compute. exact I.
  - repeat constructor; unfold two31; lia.
  - exists disk', h1. split; [exact Hw|]. split; [exact Hf|exact Hlay].
Defined.

(** [ExtendFile] from fewer than four sectors. It takes the sectors it was asked
    for and counts them all, but each one goes into the same entry, since [i] is never
    advanced: only the last sector found stays in the header. With one sector more this
    is what the caller wants; with two or more, sectors are taken that nothing refers
    to. *)
Theorem ExtendFile_direct {M} `{BitAllocatorLaws M} (m : M) h sectors :
  ba_inv m -> hdr_shape h -> 0 <= numSectors h < 4 -> numSectors h < sectors ->
  sectors - numSectors h <= ba_free m ->
  exists m' news l, allocated m m' (news ++ [l]) /\ numSectors h + Z.of_nat (length news) + 1 = sectors /\
    ExtendFile h m sectors =
    Ok (true, mkHeader (numBytes h) sectors (<[Z.to_nat (numSectors h) := l]> (dataSectors h))
                (indirectSector h) (indirectPointers h), m').
Proof. apply ExtendFile_ok. Qed.

Lemma ExtendFile_direct_witness :
  exists m' news l, allocated (demo_map 95) m' (news ++ [l]) /\ 2 + Z.of_nat (length news) + 1 = 4 /\
    ExtendFile header2 (demo_map 95) 4 =
    Ok (true, mkHeader 200 4 (<[2%nat := l]> [4; 6; 0; 0]) (replicate 26 0) (replicate 26 None), m').
Proof.
  apply (ExtendFile_direct (demo_map 95) header2 4).
  - apply demo_map_wf. unfold is_u32, two32. lia.
  - repeat split; reflexivity.
  - simpl. lia.
  - simpl. lia.
  - vm_compute. discriminate.
Defined.
