(* ===== verification/SynchDisk.v ===== *)
(** * filesys/synchdisk.cc: the disk behind a lock and a semaphore

    A request is made to the device and the caller waits on a semaphore until the interrupt
    that reports its completion; a lock keeps requests apart. [ReadSector] and [WriteSector]
    are a definition for the part before the wait and one for the part after it; the lock
    is held or free and the semaphore is its value, as Synch.v justifies. The theorem says
    that the whole is the disk that the file layers use: a list of sectors. *)

From stdpp Require Import prelude numbers list.
From S2P Require Import Prelude Params CList Interrupt Disk FileHdr.

Open Scope Z_scope.

Record SynchDisk := mkSynch { sd_world : world Disk; sd_lock : bool; sd_semaphore : Z }.

Section synchdisk.
(** The addresses of [DiskDone] and of the disk object. *)
Context (DiskDonePtr this : Z).

(** [existing] is the UNIX file if there is one. *)
Definition SynchDisk_new {D} (w : world D) (existing : option (list Z)) : outcome SynchDisk :=
  disk ← Disk_new existing;
  Ok (mkSynch (mkWorld (w_int w) (w_stats w) (w_machine w) disk) false 0).

(** [Acquire] and [ReadRequest]; the data is in the caller's buffer. *)
Definition ReadSector_begin (sd : SynchDisk) (sectorNumber : Z) : outcome (answer (list Z * SynchDisk)) :=
  if sd_lock sd then Ok Blocks
  else
    '(data, w) ← ReadRequest DiskDonePtr this (sd_world sd) sectorNumber;
    Ok (Returns (data, mkSynch w true (sd_semaphore sd))).

Definition WriteSector_begin (sd : SynchDisk) (sectorNumber : Z) (data : list Z) : outcome (answer SynchDisk) :=
  if sd_lock sd then Ok Blocks
  else
    w ← WriteRequest DiskDonePtr this (sd_world sd) sectorNumber data;
    Ok (Returns (mkSynch w true (sd_semaphore sd))).

(** [semaphore->P()] and [Release] *)
Definition Sector_end (sd : SynchDisk) : answer SynchDisk :=
  if sd_semaphore sd =? 0 then Blocks
  else Returns (mkSynch (sd_world sd) false (sd_semaphore sd - 1)).

Definition RequestDone (sd : SynchDisk) : SynchDisk :=
  mkSynch (sd_world sd) (sd_lock sd) (sd_semaphore sd + 1).

(** The interrupt: [HandleInterrupt] of the disk calls [DiskRequestDone]. *)
Definition DiskRequestDone (sd : SynchDisk) : outcome SynchDisk :=
  w ← HandleInterrupt Ok (sd_world sd);
  Ok (RequestDone (mkSynch w (sd_lock sd) (sd_semaphore sd))).
End synchdisk.

(** ** The sectors of the file *)

Definition sector_of (f : list Z) (i : nat) : list Z := take 128 (drop (128 * i + 4) f).
Definition sectors (f : list Z) : list (list Z) := sector_of f <$> seq 0 1024.

Lemma sectors_lookup f s : 0 <= s < NumSectors -> sectors f !! Z.to_nat s = Some (sector_of f (Z.to_nat s)).
Proof.
  intros Hs. change NumSectors with 1024 in Hs. unfold sectors. rewrite list_lookup_fmap, lookup_seq_lt by lia. done.
Qed.

Lemma file_read_sector f s : Z.of_nat (length f) = DiskSize -> 0 <= s < NumSectors ->
  file_read f (SectorSize * s + MagicSize) SectorSize = Ok (sector_of f (Z.to_nat s)).
Proof.
  intros Hl Hs. destruct (sector_offset s Hs) as [Ho1 Ho2]. rewrite file_read_in by (unfold SectorSize in *; lia).
  unfold sector_of. change SectorSize with 128. change MagicSize with 4. do 3 f_equal; lia.
Qed.

Lemma file_write_sector f s data f' :
  Z.of_nat (length f) = DiskSize -> 0 <= s < NumSectors -> Z.of_nat (length data) = SectorSize ->
  file_write f (SectorSize * s + MagicSize) data = Ok f' -> sectors f' = <[Z.to_nat s := data]> (sectors f).
Proof.
  intros Hl Hs Hd Hw. destruct (sector_offset s Hs) as [Ho1 Ho2].
  destruct (file_write_read f (SectorSize * s + MagicSize) data) as (f1 & Hw1 & Hl1 & Hback & Helse); [lia|lia|].
  rewrite Hw in Hw1. injection Hw1 as <-. rewrite Hd in Hback. apply list_eq. intros i.
  destruct (decide (i < 1024)%nat) as [Hi|Hi].
  - assert (0 <= Z.of_nat i < NumSectors) as Hir by (change NumSectors with 1024; lia).
    pose proof (sectors_lookup f' _ Hir) as Hf'. pose proof (sectors_lookup f _ Hir) as Hf. rewrite Nat2Z.id in Hf, Hf'.
    pose proof (file_read_sector f' (Z.of_nat i) ltac:(lia) Hir) as Hr'.
    pose proof (file_read_sector f (Z.of_nat i) Hl Hir) as Hr. rewrite Nat2Z.id in Hr, Hr'.
    destruct (decide (i = Z.to_nat s)) as [->|Hne].
    + rewrite Z2Nat.id in Hr' by lia. rewrite list_lookup_insert_eq by (unfold sectors; rewrite length_fmap, length_seq; lia).
      rewrite Hf'. congruence.
    + rewrite list_lookup_insert_ne by done. rewrite Hf, Hf'.
      rewrite Helse in Hr' by (destruct (sector_offset _ Hir); unfold SectorSize, MagicSize in *; lia). congruence.
  - rewrite !lookup_ge_None_2; [done| |]; rewrite ?length_insert; unfold sectors; rewrite length_fmap, length_seq; lia.
Qed.

(** No request is under way. *)
Record idle (sd : SynchDisk) : Prop := {
  id_disk : disk_ok (w_dev (sd_world sd));
  id_active : d_active (w_dev (sd_world sd)) = false;
  id_lock : sd_lock sd = false;
  id_semaphore : sd_semaphore sd = 0 }.

(** The sectors that the device holds. *)
Definition contents (sd : SynchDisk) : list (list Z) := sectors (d_file (w_dev (sd_world sd))).

(** The wait of a caller: it ends after the interrupt and not before, and until then the
    lock keeps other callers out. *)
Definition completes (done_ this : Z) (sd1 : SynchDisk) (disk : list (list Z)) : Prop :=
  Sector_end sd1 = Blocks /\
  (forall s data, ReadSector_begin done_ this sd1 s = Ok Blocks /\ WriteSector_begin done_ this sd1 s data = Ok Blocks) /\
  exists sd2 sd3, DiskRequestDone sd1 = Ok sd2 /\ Sector_end sd2 = Returns sd3 /\ idle sd3 /\ contents sd3 = disk.

Lemma request_completes done_ this w : disk_ok (w_dev w) -> completes done_ this (mkSynch w true 0) (sectors (d_file (w_dev w))).
Proof. intros Hd. split; [done|]. split; [done|]. eexists _, _. split; [done|]. split; [done|]. split; [|done]. by split. Qed.

(** ** Properties *)

(** C25. [SynchDisk] is a list of sectors. With no request under way, [ReadSector] of a sector
    of the disk begins with the data that the list has there and [WriteSector] changes
    the list at that place only, as the operations do that the file system is modelled
    with; the caller waits until the disk's interrupt, other callers wait for the lock
    meanwhile, and then the call returns with no request under way. *)
Theorem SynchDisk_refines done_ this sd s data :
  idle sd -> clock_ok (sd_world sd) -> 0 <= s < NumSectors -> Z.of_nat (length data) = SectorSize -> Forall is_byte data ->
  (exists out sd1, ReadSector_begin done_ this sd s = Ok (Returns (out, sd1)) /\
     ReadSector (contents sd) s = Ok out /\ completes done_ this sd1 (contents sd)) /\
  (exists sd1 disk', WriteSector_begin done_ this sd s data = Ok (Returns sd1) /\
     WriteSector (contents sd) s data = Ok disk' /\ completes done_ this sd1 disk').
Proof.
  intros [Hd Ha Hl Hse] Hc Hs Hlen Hb. unfold ReadSector_begin, WriteSector_begin. rewrite Hl, Hse. split.
  - destruct (ReadRequest_ok done_ this (sd_world sd) s Hd Hc Ha Hs) as (out & w & -> & Hr & Hd' & Hf & _).
    cbn [mbind outcome_bind]. eexists _, _. split; [done|]. split.
    + unfold contents. apply ReadSector_in; [lia|]. rewrite sectors_lookup by done.
      rewrite file_read_sector in Hr by (apply Hd || done). congruence.
    + unfold contents. rewrite <- Hf. by apply request_completes.
  - destruct (WriteRequest_ok done_ this (sd_world sd) s data Hd Hc Ha Hs Hlen Hb) as (f & w & -> & Hw & Hd' & Hf & _).
    cbn [mbind outcome_bind]. eexists _, _. split; [done|]. split.
    + unfold contents. rewrite WriteSector_in; [done|]. unfold sectors. rewrite length_fmap, length_seq.
      change NumSectors with 1024 in Hs. lia.
    + rewrite <- (file_write_sector _ s data f) by (done || apply Hd). rewrite <- Hf. by apply request_completes.
Qed.

Lemma SynchDisk_refines_witness :
  let sd := mkSynch demo_disk_world false 0 in
  exists sd1 sd2 sd3, WriteSector_begin 1 2 sd 7 (replicate 128 5) = Ok (Returns sd1) /\ DiskRequestDone sd1 = Ok sd2 /\
    Sector_end sd2 = Returns sd3 /\ contents sd3 !! 7%nat = Some (replicate 128 5).
Proof.
  intros sd. destruct (SynchDisk_refines 1 2 sd 7 (replicate 128 5)) as [_ (sd1 & disk' & H1 & Hw & _ & _ & sd2 & sd3 & H2 & H3 & _ & Hc)].
  - split; [exact demo_disk_ok|reflexivity|reflexivity|reflexivity].
  - exact demo_clock_ok.
  - split; vm_compute; congruence.
  - reflexivity.
  - apply Forall_replicate. split; vm_compute; congruence.
  - exists sd1, sd2, sd3. split; [exact H1|]. split; [exact H2|]. split; [exact H3|]. rewrite Hc.
    unfold WriteSector in Hw. apply bind_ok in Hw as (? & _ & Hw). apply arr_set_ok in Hw as [_ ->]. apply list_lookup_insert_eq.
    unfold contents, sectors. rewrite length_fmap, length_seq. vm_compute. repeat constructor.
Defined.
