(* ===== verification/Directory.v ===== *)
(** * filesys/directory.cc: the table of file names

    [Directory] is the object with its table of entries. A name in an entry is an array
    of ten characters; a name that is passed in is its characters without the closing
    NUL. The refinement theorem says that the directory is a finite map from names, cut
    to nine characters, to header sectors. Reading and writing the table on disk is in
    FileSys.v. *)

From stdpp Require Import prelude numbers gmap list.
From S2P Require Import Prelude Params.

Open Scope Z_scope.

Definition FileNameMaxLen : nat := 9.

(** ** C strings *)

(** The characters before the first NUL. *)
Fixpoint cstr (mem : list Z) : list Z :=
  match mem with
  | [] => []
  | c :: mem => if c =? 0 then [] else c :: cstr mem
  end.

(** [!strncmp(a, b, n)]; undefined when it would read past either array. *)
Fixpoint str_equal (n : nat) (a b : list Z) : outcome bool :=
  match n with
  | O => Ok true
  | S n =>
      match a, b with
      | x :: a, y :: b =>
          if negb (x =? y) then Ok false
          else if x =? 0 then Ok true
          else str_equal n a b
      | _, _ => Undef
      end
  end.

(** [strncpy(dst, src, n)]: the rest of the [n] characters is filled with NULs. *)
Definition strncpy (dst src : list Z) (n : nat) : list Z :=
  let s := take n (cstr src) in
  s ++ replicate (n - length s) 0 ++ drop n dst.

(** ** The code *)

Record DirectoryEntry := mkEntry { inUse : bool; e_sector : Z; e_name : list Z }.

Record Directory := mkDir { tableSize : Z; table : list DirectoryEntry }.

Fixpoint Directory_init_loop (n : nat) (i : Z) (t : list DirectoryEntry) : outcome (list DirectoryEntry) :=
  match n with
  | O => Ok t
  | S n =>
      e ← arr_get t i;
      t ← arr_set t i (mkEntry false (e_sector e) (e_name e));
      Directory_init_loop n (i + 1) t
  end.

(** [garbage] is what the new table holds. *)
Definition Directory_new (size : Z) (garbage : list DirectoryEntry) : outcome Directory :=
  t ← Directory_init_loop (Z.to_nat size) 0 garbage;
  Ok (mkDir size t).

Fixpoint FindIndex_loop (n : nat) (i : Z) (d : Directory) (name : list Z) : outcome Z :=
  match n with
  | O => Ok (-1)
  | S n =>
      e ← arr_get (table d) i;
      eq ← (if inUse e then str_equal FileNameMaxLen (e_name e) (name ++ [0]) else Ok false);
      if eq : bool then Ok i else FindIndex_loop n (i + 1) d name
  end.

Definition FindIndex (d : Directory) (name : list Z) : outcome Z :=
  FindIndex_loop (Z.to_nat (tableSize d)) 0 d name.

Definition Directory_Find (d : Directory) (name : list Z) : outcome Z :=
  i ← FindIndex d name;
  if negb (i =? -1) then e ← arr_get (table d) i; Ok (e_sector e)
  else Ok (-1).

(** The first entry that is not in use, from [i] on. *)
Fixpoint free_loop (n : nat) (i : Z) (t : list DirectoryEntry) : outcome (option Z) :=
  match n with
  | O => Ok None
  | S n =>
      e ← arr_get t i;
      if negb (inUse e) then Ok (Some i) else free_loop n (i + 1) t
  end.

(** The assignments that fill an entry. *)
Definition fill_entry (t : list DirectoryEntry) (i : Z) (name : list Z) (newSector : Z)
    : outcome (list DirectoryEntry) :=
  e ← arr_get t i;
  arr_set t i (mkEntry true newSector (strncpy (e_name e) (name ++ [0]) FileNameMaxLen)).

(** The loop that copies the old entries into the new table. *)
Fixpoint copy_loop (n : nat) (i : Z) (oldTableSize : Z) (old new : list DirectoryEntry)
    : outcome (list DirectoryEntry) :=
  match n with
  | O => Ok new
  | S n =>
      e' ← arr_get new i;
      new ← (if i <? oldTableSize then
               e ← arr_get old i;
               arr_set new i (mkEntry (inUse e) (e_sector e)
                                (strncpy (e_name e') (e_name e) (FileNameMaxLen + 1)))
             else arr_set new i (mkEntry false (e_sector e') (e_name e')));
      copy_loop n (i + 1) oldTableSize old new
  end.

(** [new DirectoryEntry] after [bzero]. *)
Definition zero_entry : DirectoryEntry := mkEntry false 0 (replicate (FileNameMaxLen + 1) 0).

(** [(int)(oldTableSize * 1.5)] is exact below 2^30 entries, which a directory file, at most
    103680 bytes long, does not have. *)
Definition Directory_Add (d : Directory) (name : list Z) (newSector : Z) : outcome (bool * Directory) :=
  i ← FindIndex d name;
  if negb (i =? -1) then Ok (false, d)
  else
    slot ← free_loop (Z.to_nat (tableSize d)) 0 (table d);
    match slot with
    | Some i => t ← fill_entry (table d) i name newSector; Ok (true, mkDir (tableSize d) t)
    | None =>
        (* no space: the table grows *)
        let oldTableSize := tableSize d in
        let size := cdiv (oldTableSize * 3) 2 in
        t ← copy_loop (Z.to_nat size) 0 oldTableSize (table d) (replicate (Z.to_nat size) zero_entry);
        e ← arr_get t oldTableSize;
        if negb (inUse e) then
          t ← fill_entry t oldTableSize name newSector; Ok (true, mkDir size t)
        else Ok (false, mkDir size t)
    end.

Definition Directory_Remove (d : Directory) (name : list Z) : outcome (bool * Directory) :=
  i ← FindIndex d name;
  if i =? -1 then Ok (false, d)
  else
    e ← arr_get (table d) i;
    t ← arr_set (table d) i (mkEntry false (e_sector e) (e_name e));
    Ok (true, mkDir (tableSize d) t).

(** The names that [List] prints. *)
Definition Directory_List (d : Directory) : list (list Z) :=
  omap (fun e => if inUse e then Some (cstr (e_name e)) else None) (table d).

(** ** The abstract directory *)

(** The part of a name that counts. *)
Definition key (mem : list Z) : list Z := take FileNameMaxLen (cstr mem).

Definition entry (e : DirectoryEntry) : option (list Z * Z) :=
  if inUse e then Some (key (e_name e), e_sector e) else None.

Definition entries (t : list DirectoryEntry) : list (list Z * Z) := omap entry t.

Definition dir_map (d : Directory) : gmap (list Z) Z := list_to_map (entries (table d)).

Record dir_ok (d : Directory) : Prop := {
  do_size : tableSize d = Z.of_nat (length (table d));
  do_names : Forall (fun e => length (e_name e) = 10%nat) (table d);
  do_unique : NoDup (entries (table d)).*1 }.

(** ** Strings *)

Lemma cstr_no_nul name : Forall (fun c => c <> 0) name -> cstr (name ++ [0]) = name.
Proof.
  induction 1 as [|c name Hc _ IH]; simpl; [done|]. destruct (Z.eqb_spec c 0); [done|]. by rewrite IH.
Qed.

(** A comparison of [n] characters stays inside [mem]. *)
Definition readable (n : nat) (mem : list Z) : Prop := (n <= length mem)%nat \/ 0 ∈ mem.

Lemma readable_cons n c mem : c <> 0 -> readable (S n) (c :: mem) -> readable n mem.
Proof.
  unfold readable. simpl. intros Hc [?|[?|?]%elem_of_cons]; [left; lia|congruence|by right].
Qed.

Lemma str_equal_ok n : forall a b, readable n a -> readable n b ->
  str_equal n a b = Ok (bool_decide (take n (cstr a) = take n (cstr b))).
Proof.
  induction n as [|n IH]; intros a b Ha Hb; simpl; [done|].
  destruct a as [|x a]; [destruct Ha as [Ha|Ha]; [simpl in Ha; lia|by apply not_elem_of_nil in Ha]|].
  destruct b as [|y b]; [destruct Hb as [Hb|Hb]; [simpl in Hb; lia|by apply not_elem_of_nil in Hb]|]. simpl.
  destruct (Z.eqb_spec x y) as [->|Hxy]; simpl.
  - destruct (Z.eqb_spec y 0) as [->|Hy]; [by rewrite bool_decide_eq_true_2|].
    rewrite IH by eauto using readable_cons. f_equal. apply bool_decide_ext.
    cbn [take]. split; congruence.
  - rewrite bool_decide_eq_false_2; [done|].
    destruct (Z.eqb_spec x 0), (Z.eqb_spec y 0); simpl; congruence.
Qed.

Lemma cstr_app_nz l r : Forall (fun c => c <> 0) l -> cstr (l ++ r) = l ++ cstr r.
Proof. induction 1 as [|c l Hc _ IH]; simpl; [done|]. destruct (Z.eqb_spec c 0); [done|]. by rewrite IH. Qed.

Lemma cstr_nz mem : Forall (fun c => c <> 0) (cstr mem).
Proof. induction mem as [|c mem IH]; simpl; [constructor|]. destruct (Z.eqb_spec c 0); by constructor. Qed.

Lemma strncpy_prefix dst src n : take n (cstr (strncpy dst src n)) = take n (cstr src).
Proof.
  unfold strncpy. rewrite cstr_app_nz by apply Forall_take, cstr_nz.
  destruct (decide (length (cstr src) < n)%nat) as [Hlt|Hge].
  - rewrite (take_ge (cstr src)) by lia. destruct (n - length (cstr src))%nat eqn:Hn; [lia|]. simpl.
    rewrite app_nil_r. by rewrite take_ge by lia.
  - rewrite take_app_le by (rewrite length_take; lia). by rewrite take_take, Nat.min_id.
Qed.

Lemma strncpy_length dst src n : (n <= length dst)%nat -> length (strncpy dst src n) = length dst.
Proof.
  intros Hn. unfold strncpy. rewrite !length_app, length_replicate, length_drop, length_take. lia.
Qed.

(** ** Entries *)

Lemma entries_cons e t : entries (e :: t) = option_list (entry e) ++ entries t.
Proof. unfold entries. simpl. by destruct (entry e). Qed.

Lemma entries_app t1 t2 : entries (t1 ++ t2) = entries t1 ++ entries t2.
Proof. apply omap_app. Qed.

Lemma entries_split t i e :
  t !! i = Some e -> entries t = entries (take i t) ++ option_list (entry e) ++ entries (drop (S i) t).
Proof.
  intros He. rewrite <- (take_drop_middle t i e He) at 1. by rewrite entries_app, entries_cons.
Qed.

Lemma entries_insert t i e e' :
  t !! i = Some e ->
  entries (<[i := e']> t) = entries (take i t) ++ option_list (entry e') ++ entries (drop (S i) t).
Proof.
  intros He. apply lookup_lt_Some in He as Hlt.
  rewrite (entries_split _ i e') by (by apply list_lookup_insert_eq).
  by rewrite take_insert_ge, drop_insert_lt by lia.
Qed.

(** A free entry that is filled. *)
Lemma entries_fill t i e k s e' :
  t !! i = Some e -> inUse e = false -> entry e' = Some (k, s) ->
  entries (<[i := e']> t) ≡ₚ (k, s) :: entries t.
Proof.
  intros He Hf He'. rewrite (entries_insert t i e e' He), He', (entries_split t i e He).
  unfold entry. rewrite Hf. simpl. by rewrite Permutation_middle.
Qed.

(** An entry in use that is freed. *)
Lemma entries_free t i e e' :
  t !! i = Some e -> inUse e = true -> inUse e' = false ->
  entries t ≡ₚ (key (e_name e), e_sector e) :: entries (<[i := e']> t).
Proof.
  intros He Hu Hf. rewrite (entries_insert t i e e' He), (entries_split t i e He).
  unfold entry. rewrite Hu, Hf. simpl. by rewrite Permutation_middle.
Qed.

Lemma entries_elem t k s :
  (k, s) ∈ entries t <-> exists i e, t !! i = Some e /\ inUse e = true /\ key (e_name e) = k /\ e_sector e = s.
Proof.
  unfold entries. rewrite list_elem_of_omap. split.
  - intros (e & Hin & He). apply list_elem_of_lookup in Hin as [i Hi]. exists i, e. unfold entry in He.
    destruct (inUse e); naive_solver.
  - intros (i & e & Hi & Hu & <- & <-). exists e. split; [by eapply list_elem_of_lookup_2|]. unfold entry. by rewrite Hu.
Qed.

Section directory.
Context (d : Directory) (Hok : dir_ok d).

Lemma dir_lookup k s :
  dir_map d !! k = Some s <->
  exists i e, table d !! i = Some e /\ inUse e = true /\ key (e_name e) = k /\ e_sector e = s.
Proof. unfold dir_map. rewrite <- elem_of_list_to_map by apply Hok. apply entries_elem. Qed.

Lemma table_get i e : table d !! i = Some e -> arr_get (table d) (Z.of_nat i) = Ok e.
Proof. intros He. apply arr_get_ok. rewrite Nat2Z.id. split; [lia|done]. Qed.

Lemma FindIndex_loop_spec name n : Forall (fun c => c <> 0) name -> forall i,
  (i + n = length (table d))%nat ->
  (exists j e, FindIndex_loop n (Z.of_nat i) d name = Ok (Z.of_nat j) /\ table d !! j = Some e /\
     inUse e = true /\ key (e_name e) = take FileNameMaxLen name) \/
  (FindIndex_loop n (Z.of_nat i) d name = Ok (-1) /\
   forall j e, (i <= j)%nat -> table d !! j = Some e -> inUse e = true ->
     key (e_name e) <> take FileNameMaxLen name).
Proof.
  intros Hname. induction n as [|n IH]; intros i Hi; cbn [FindIndex_loop].
  { right. split; [done|]. intros j e Hj He. apply lookup_lt_Some in He. lia. }
  destruct (lookup_lt_is_Some_2 (table d) i) as [e He]; [lia|]. rewrite (table_get i e He). cbn [mbind outcome_bind].
  assert ((if inUse e then str_equal FileNameMaxLen (e_name e) (name ++ [0]) else Ok false) =
    Ok (inUse e && bool_decide (key (e_name e) = take FileNameMaxLen name))) as ->.
  { destruct (inUse e); [|done]. rewrite str_equal_ok; [unfold key; by rewrite cstr_no_nul| |].
    - left. pose proof (Forall_lookup_1 _ _ _ _ (do_names _ Hok) He) as Hl. simpl in Hl. rewrite Hl.
      unfold FileNameMaxLen. lia.
    - right. apply elem_of_app. right. by apply list_elem_of_singleton. }
  cbn [mbind outcome_bind]. replace (Z.of_nat i + 1) with (Z.of_nat (S i)) by lia.
  destruct (inUse e && bool_decide (key (e_name e) = take FileNameMaxLen name)) eqn:Hm.
  - left. apply andb_true_iff in Hm as [Hu Hk%bool_decide_eq_true]. by exists i, e.
  - destruct (IH (S i)) as [?|[Hn Hrest]]; [lia|by left|]. right. split; [done|].
    intros j e' Hj He' Hu. destruct (decide (j = i)) as [->|]; [|apply (Hrest j); [lia|done|done]].
    simplify_eq. rewrite Hu in Hm. by apply bool_decide_eq_false in Hm.
Qed.

(** What [FindIndex] returns, in terms of the abstract directory. *)
Lemma FindIndex_spec name : Forall (fun c => c <> 0) name ->
  (exists j e, FindIndex d name = Ok (Z.of_nat j) /\ table d !! j = Some e /\ inUse e = true /\
     key (e_name e) = take FileNameMaxLen name /\
     dir_map d !! take FileNameMaxLen name = Some (e_sector e)) \/
  (FindIndex d name = Ok (-1) /\ dir_map d !! take FileNameMaxLen name = None).
Proof.
  intros Hname. unfold FindIndex. rewrite (do_size _ Hok), Nat2Z.id. change 0 with (Z.of_nat 0).
  destruct (FindIndex_loop_spec name (length (table d)) Hname 0) as [(j & e & Hf & He & Hu & Hk)|[Hf Hnone]]; [lia|..].
  - left. exists j, e. split_and!; try done. apply dir_lookup. by exists j, e.
  - right. split; [done|]. apply eq_None_not_Some. intros [s (j & e & He & Hu & Hk & _)%dir_lookup].
    apply (Hnone j e); [lia|done..].
Qed.

Lemma free_loop_spec n : forall i, (i + n = length (table d))%nat ->
  (exists j e, free_loop n (Z.of_nat i) (table d) = Ok (Some (Z.of_nat j)) /\ table d !! j = Some e /\
     inUse e = false) \/
  (free_loop n (Z.of_nat i) (table d) = Ok None).
Proof.
  induction n as [|n IH]; intros i Hi; cbn [free_loop]; [by right|].
  destruct (lookup_lt_is_Some_2 (table d) i) as [e He]; [lia|]. rewrite (table_get i e He). cbn [mbind outcome_bind].
  destruct (inUse e) eqn:Hu; cbn [negb]; [|by left; exists i, e].
  replace (Z.of_nat i + 1) with (Z.of_nat (S i)) by lia. apply IH. lia.
Qed.
End directory.

(** ** Growing the table *)

Definition copied (e : DirectoryEntry) : DirectoryEntry :=
  mkEntry (inUse e) (e_sector e) (strncpy (e_name zero_entry) (e_name e) (FileNameMaxLen + 1)).

Lemma copied_entry e : entry (copied e) = entry e.
Proof.
  unfold entry, copied. simpl. destruct (inUse e); [|done]. do 2 f_equal. unfold key.
  assert (forall l : list Z, take 9 l = take 9 (take 10 l)) as Ht by (intros l; by rewrite take_take).
  change FileNameMaxLen with 9%nat. change (9 + 1)%nat with 10%nat.
  by rewrite Ht, strncpy_prefix, <- Ht.
Qed.

(** The iterations that copy. *)
Lemma copy_loop_copies rest : forall n k pre news,
  length news = length pre ->
  copy_loop (length rest + n) (Z.of_nat (length pre)) (Z.of_nat (length (pre ++ rest))) (pre ++ rest)
    (news ++ replicate (length rest + k) zero_entry) =
  copy_loop n (Z.of_nat (length (pre ++ rest))) (Z.of_nat (length (pre ++ rest))) (pre ++ rest)
    (news ++ (copied <$> rest) ++ replicate k zero_entry).
Proof.
  induction rest as [|e rest IH]; intros n k pre news Hlen; [by rewrite app_nil_r|].
  cbn [length Nat.add copy_loop replicate].
  rewrite (proj2 (arr_get_ok (news ++ _) _ zero_entry)) by (split; [lia|]; rewrite Nat2Z.id, <- Hlen; by apply list_lookup_middle).
  cbn [mbind outcome_bind]. rewrite length_app. cbn [length].
  destruct (Z.ltb_spec (Z.of_nat (length pre)) (Z.of_nat (length pre + S (length rest)))) as [_|]; [|lia].
  rewrite (proj2 (arr_get_ok (pre ++ e :: rest) _ e)) by (split; [lia|]; rewrite Nat2Z.id; by apply list_lookup_middle).
  cbn [mbind outcome_bind]. rewrite arr_set_in by (rewrite length_app; simpl; lia). cbn [mbind outcome_bind].
  rewrite Nat2Z.id, <- Hlen, insert_app_r_alt, Nat.sub_diag by lia. cbn [insert list_insert].
  fold (copied e). specialize (IH n k (pre ++ [e]) (news ++ [copied e])).
  rewrite !length_app, <- !app_assoc in IH. cbn [length app] in IH.
  replace (Z.of_nat (length news) + 1) with (Z.of_nat (length pre + 1)) by lia.
  replace (length news + S (length rest))%nat with (length pre + 1 + length rest)%nat by lia.
  rewrite IH by lia. rewrite fmap_cons. done.
Qed.

(** The iterations that only mark new entries as free. *)
Lemma copy_loop_clears old n : forall i pre,
  (length old <= i)%nat -> length pre = i ->
  copy_loop n (Z.of_nat i) (Z.of_nat (length old)) old (pre ++ replicate n zero_entry) =
  Ok (pre ++ replicate n zero_entry).
Proof.
  induction n as [|n IH]; intros i pre Hi Hlen; [done|]. cbn [copy_loop replicate].
  rewrite (proj2 (arr_get_ok (pre ++ _) _ zero_entry)) by (split; [lia|]; rewrite Nat2Z.id, <- Hlen; by apply list_lookup_middle).
  cbn [mbind outcome_bind]. destruct (Z.ltb_spec (Z.of_nat i) (Z.of_nat (length old))); [lia|].
  rewrite arr_set_in by (rewrite length_app; simpl; lia). cbn [mbind outcome_bind].
  rewrite Nat2Z.id, <- Hlen, insert_app_r_alt, Nat.sub_diag by lia. cbn [insert list_insert].
  change (mkEntry false (e_sector zero_entry) (e_name zero_entry)) with zero_entry.
  specialize (IH (S i) (pre ++ [zero_entry])). rewrite <- app_assoc in IH. cbn [app] in IH.
  replace (Z.of_nat (length pre) + 1) with (Z.of_nat (S i)) by lia. apply IH; [lia|].
  rewrite length_app. simpl. lia.
Qed.

(** A table of two entries or more gets at least one more. *)
Lemma grow_size n : (2 <= n)%nat ->
  exists extra, cdiv (Z.of_nat n * 3) 2 = Z.of_nat (n + extra) /\ (0 < extra)%nat.
Proof.
  intros Hn. exists (Nat.div2 n). rewrite cdiv_nonneg by lia. rewrite Nat.div2_div.
  pose proof (Nat.div_mod_eq n 2). pose proof (Nat.mod_upper_bound n 2). dlia.
Qed.

Lemma copy_loop_ok old extra :
  copy_loop (length old + extra) 0 (Z.of_nat (length old)) old
    (replicate (length old + extra) zero_entry) = Ok ((copied <$> old) ++ replicate extra zero_entry).
Proof.
  pose proof (copy_loop_copies old extra extra [] [] eq_refl) as Hc. simpl in Hc.
  change (Z.of_nat 0) with 0 in Hc. rewrite Hc.
  apply copy_loop_clears; [lia|]. by rewrite length_fmap.
Qed.

Lemma entries_grown old extra :
  entries ((copied <$> old) ++ replicate extra zero_entry) = entries old.
Proof.
  rewrite entries_app. assert (entries (replicate extra zero_entry) = []) as ->.
  { induction extra as [|n IH]; [done|]. cbn [replicate]. by rewrite entries_cons, IH. }
  rewrite app_nil_r. induction old as [|e old IH]; [done|].
  by rewrite fmap_cons, !entries_cons, copied_entry, IH.
Qed.

(** Filling a free entry adds the name to the map. *)
Lemma fill_entry_ok t i e name s :
  t !! i = Some e -> inUse e = false -> Forall (fun e => length (e_name e) = 10%nat) t ->
  NoDup (entries t).*1 -> Forall (fun c => c <> 0) name ->
  (list_to_map (entries t) : gmap (list Z) Z) !! take FileNameMaxLen name = None ->
  exists t', fill_entry t (Z.of_nat i) name s = Ok t' /\ length t' = length t /\
    dir_ok (mkDir (Z.of_nat (length t)) t') /\
    dir_map (mkDir (Z.of_nat (length t)) t') = <[take FileNameMaxLen name := s]> (list_to_map (entries t)).
Proof.
  intros He Hf Hlen Hnd Hname Hnone. unfold fill_entry.
  rewrite (proj2 (arr_get_ok _ _ e)) by (split; [lia|]; by rewrite Nat2Z.id). cbn [mbind outcome_bind].
  apply lookup_lt_Some in He as Hlt. rewrite arr_set_in by lia. rewrite Nat2Z.id.
  set (e' := mkEntry true s _). eexists. split; [done|]. split; [apply length_insert|].
  pose proof (Forall_lookup_1 _ _ _ _ Hlen He) as Hle. simpl in Hle.
  assert (entry e' = Some (take FileNameMaxLen name, s)) as He'.
  { unfold entry, e'. simpl. unfold key. by rewrite strncpy_prefix, cstr_no_nul. }
  pose proof (entries_fill t i e _ _ e' He Hf He') as Hp.
  assert (NoDup (entries (<[i := e']> t)).*1) as Hnd'.
  { rewrite Hp. simpl. apply NoDup_cons. split; [|done]. by apply not_elem_of_list_to_map. }
  split.
  - constructor; simpl; [by rewrite length_insert| |done]. apply Forall_insert; [done|].
    unfold e'. simpl. rewrite strncpy_length; [done|]. unfold FileNameMaxLen. lia.
  - unfold dir_map. simpl. by rewrite (list_to_map_proper _ _ Hnd' Hp).
Qed.

(** ** The operations on the abstract directory *)

Section operations.
Context (d : Directory) (Hok : dir_ok d) (name : list Z) (Hname : Forall (fun c => c <> 0) name).
#[local] Abbreviation k := (take FileNameMaxLen name).

Lemma Find_spec : Directory_Find d name = Ok (default (-1) (dir_map d !! k)).
Proof.
  unfold Directory_Find. destruct (FindIndex_spec d Hok name Hname) as [(j & e & -> & He & _ & _ & ->)|[-> ->]];
    [|done]. cbn [mbind outcome_bind]. destruct (Z.eqb_spec (Z.of_nat j) (-1)); [lia|]. cbn [negb].
  by rewrite (table_get d j e He).
Qed.

Lemma Remove_spec :
  exists d', Directory_Remove d name = Ok (bool_decide (dir_map d !! k <> None), d') /\ dir_ok d' /\
    tableSize d' = tableSize d /\ dir_map d' = delete k (dir_map d).
Proof.
  unfold Directory_Remove.
  destruct (FindIndex_spec d Hok name Hname) as [(j & e & -> & He & Hu & Hk & Hl)|[-> Hl]]; cbn [mbind outcome_bind].
  2:{ exists d. rewrite Hl, bool_decide_eq_false_2 by (intros Hx; by apply Hx).
      split_and!; try done. by rewrite delete_id. }
  destruct (Z.eqb_spec (Z.of_nat j) (-1)); [lia|]. rewrite (table_get d j e He). cbn [mbind outcome_bind].
  apply lookup_lt_Some in He as Hlt. rewrite arr_set_in by lia. cbn [mbind outcome_bind]. rewrite Nat2Z.id.
  set (e' := mkEntry false _ _). eexists. rewrite Hl, bool_decide_eq_true_2 by done. split; [done|].
  pose proof (entries_free (table d) j e e' He Hu eq_refl) as Hp. rewrite Hk in Hp.
  pose proof (do_unique _ Hok) as Hnd. pose proof Hnd as Hnd0. rewrite Hp in Hnd. simpl in Hnd.
  apply NoDup_cons in Hnd as [Hnin Hnd]. split; [|split; [done|]].
  - constructor; simpl; [by rewrite length_insert, (do_size _ Hok)| |done].
    apply Forall_insert; [apply (do_names _ Hok)|]. exact (Forall_lookup_1 _ _ _ _ (do_names _ Hok) He).
  - unfold dir_map. simpl. rewrite (list_to_map_proper _ _ Hnd0 Hp). simpl. rewrite delete_insert_id; [done|].
    by apply not_elem_of_list_to_map.
Qed.

Lemma Add_spec newSector : 2 <= tableSize d ->
  exists d', Directory_Add d name newSector = Ok (bool_decide (dir_map d !! k = None), d') /\ dir_ok d' /\
    tableSize d <= tableSize d' /\
    dir_map d' = (if decide (dir_map d !! k = None) then <[k := newSector]> (dir_map d) else dir_map d).
Proof.
  intros Hsz. pose proof (do_size _ Hok) as Hlen. unfold Directory_Add.
  destruct (FindIndex_spec d Hok name Hname) as [(j & e & -> & He & Hu & Hk & Hl)|[-> Hl]];
    cbn [mbind outcome_bind]; rewrite Hl.
  { destruct (Z.eqb_spec (Z.of_nat j) (-1)); [lia|]. cbn [negb]. exists d. by split_and!. }
  change (negb (-1 =? -1)) with false. cbv iota.
  rewrite bool_decide_eq_true_2, decide_True by done. rewrite Hlen, Nat2Z.id.
  destruct (free_loop_spec d (length (table d)) 0) as [(j & e & Hf & He & Hu)|Hf]; [lia|..];
    change (Z.of_nat 0) with 0 in Hf; rewrite Hf; cbn [mbind outcome_bind].
  - destruct (fill_entry_ok (table d) j e name newSector) as (t' & -> & _ & Hok' & Hmap);
      try done; [apply (do_names _ Hok)|apply (do_unique _ Hok)|]. cbn [mbind outcome_bind].
    eexists. split; [done|]. split; [done|]. split; [done|]. done.
  - destruct (grow_size (length (table d))) as (extra & Hsize & Hpos); [lia|].
    rewrite Hsize, Nat2Z.id, copy_loop_ok. cbn [mbind outcome_bind].
    set (t := (copied <$> table d) ++ replicate extra zero_entry).
    assert (t !! length (table d) = Some zero_entry) as Hz.
    { subst t. rewrite lookup_app_r by (by rewrite length_fmap). rewrite length_fmap, Nat.sub_diag.
      apply lookup_replicate. split; [done|lia]. }
    rewrite (proj2 (arr_get_ok _ _ zero_entry)) by (split; [lia|]; by rewrite Nat2Z.id). cbn [mbind outcome_bind].
    change (negb (inUse zero_entry)) with true. cbv iota.
    destruct (fill_entry_ok t (length (table d)) zero_entry name newSector) as (t' & -> & _ & Hok' & Hmap); try done.
    + subst t. apply Forall_app. split; [|by apply Forall_replicate]. apply Forall_fmap, Forall_true. intros e.
      simpl. by rewrite strncpy_length.
    + unfold t. rewrite entries_grown. apply (do_unique _ Hok).
    + unfold t. by rewrite entries_grown.
    + assert (length t = (length (table d) + extra)%nat) as Hlt.
      { subst t. by rewrite length_app, length_fmap, length_replicate. }
      rewrite Hlt in Hok', Hmap. cbn [mbind outcome_bind]. eexists. split; [done|]. split; [done|].
      split; [simpl; lia|]. rewrite Hmap. unfold t. by rewrite entries_grown.
Qed.
End operations.

(** ** Properties *)

(** C22. A directory of at least two entries is a finite map from file names, cut to nine
    characters, to header sectors. [Find] looks a name up and gives -1 for one that is
    not there; [Add] refuses a name that is there and otherwise adds it, growing a full
    table; [Remove] deletes a name, and refuses one that is not there. All of them
    return and keep the directory well formed. *)
Theorem Directory_refines d name newSector :
  dir_ok d -> Forall (fun c => c <> 0) name -> 2 <= tableSize d ->
  let k := take FileNameMaxLen name in
  Directory_Find d name = Ok (default (-1) (dir_map d !! k)) /\
  (exists d', Directory_Add d name newSector = Ok (bool_decide (dir_map d !! k = None), d') /\ dir_ok d' /\
     tableSize d <= tableSize d' /\
     dir_map d' = (if decide (dir_map d !! k = None) then <[k := newSector]> (dir_map d) else dir_map d)) /\
  (exists d', Directory_Remove d name = Ok (bool_decide (dir_map d !! k <> None), d') /\ dir_ok d' /\
     tableSize d' = tableSize d /\ dir_map d' = delete k (dir_map d)).
Proof.
  intros Hok Hname Hsz k. subst k.
  split; [by apply Find_spec|]. split; [by apply Add_spec|by apply Remove_spec].
Qed.

(** A directory of two entries, both in use. *)
Definition demo_dir : Directory :=
  mkDir 2 [mkEntry true 5 (strncpy (replicate 10 7) [97; 0] 9); mkEntry true 6 (strncpy (replicate 10 0) [98; 0] 9)].

Lemma demo_dir_ok : dir_ok demo_dir.
Proof. constructor; [done|by repeat constructor|]. apply (bool_decide_unpack _). by vm_compute. Qed.

Lemma Directory_refines_witness :
  exists d', Directory_Add demo_dir [99] 9 = Ok (true, d') /\ dir_ok d' /\
    dir_map d' = <[[99] := 9]> (dir_map demo_dir).
Proof.
  destruct (Directory_refines demo_dir [99] 9) as (_ & (d' & Hadd & Hok' & _ & Hmap) & _).
  - exact demo_dir_ok.
  - repeat constructor; lia.
  - simpl. lia.
  - exists d'. split; [exact Hadd|]. split; [exact Hok'|exact Hmap].
Defined.

(** A table of one entry, or of none, does not grow when it is multiplied by 1.5:
    adding a new name to such a directory when it is full reads past the end of its
    table. *)
Theorem Add_small_table d name newSector :
  dir_ok d -> Forall (fun c => c <> 0) name -> tableSize d < 2 ->
  Forall (fun e => inUse e = true) (table d) -> dir_map d !! take FileNameMaxLen name = None ->
  Directory_Add d name newSector = Undef.
Proof.
  intros Hok Hname Hsz Huse Hnone. pose proof (do_size _ Hok) as Hlen. unfold Directory_Add.
  destruct (FindIndex_spec d Hok name Hname) as [(j & e & _ & _ & _ & _ & Hl)|[-> _]]; [congruence|].
  change (negb (-1 =? -1)) with false. cbn [mbind outcome_bind].
  destruct d as [sz [|e [|e2 t]]]; simpl in Hlen, Hsz, Huse; subst sz; [done| |lia].
  apply Forall_cons in Huse as [Hu _]. destruct e as [u es en]. simpl in Hu. subst u. done.
Qed.

Lemma Add_small_table_witness :
  Directory_Add (mkDir 1 [mkEntry true 5 (97 :: replicate 9 0)]) [98] 7 = Undef.
Proof.
  apply (Add_small_table (mkDir 1 [mkEntry true 5 (97 :: replicate 9 0)]) [98] 7).
  - constructor; [reflexivity|repeat constructor|]. apply (bool_decide_unpack _). vm_compute. exact I.
  - repeat constructor; lia.
  - simpl. lia.
  - repeat constructor.
  - vm_compute. reflexivity.
Defined.
