(* ===== verification/Replacement.v ===== *)
(** * vm/fifo.cc, vm/lru.cc, vm/randomReplacement.cc: which page is replaced

    [Replacement] is the interface [IReplacement] of vm/iReplacement.h and
    [ReplacementLaws] what the pager needs of it: when all frames are in use, the victim
    is a frame of the machine. The three policies keep an array of [NumPhysPages] frame
    numbers with -1 for the empty places; three of their operations have the same code
    in all of them and are defined once. *)

From stdpp Require Import prelude numbers list.
From S2P Require Import Prelude Params.

Open Scope Z_scope.

(** ** The code that the policies share *)

Definition empty_queue : list Z := replicate (Z.to_nat NumPhysPages) (-1).

(** The constructors' loop. *)
Fixpoint init_loop (n : nat) (i : Z) (queue : list Z) : outcome (list Z) :=
  match n with
  | O => Ok queue
  | S n => queue ← arr_set queue i (-1); init_loop n (i + 1) queue
  end.

(** [for (i = 0; i < NumPhysPages; i++) if (queue[i] == p) break;], from [i] on. *)
Fixpoint search_loop (n : nat) (i p : Z) (queue : list Z) : outcome Z :=
  match n with
  | O => Ok i
  | S n => q ← arr_get queue i; if q =? p then Ok i else search_loop n (i + 1) p queue
  end.

Definition search (p : Z) (queue : list Z) : outcome Z :=
  search_loop (Z.to_nat NumPhysPages) 0 p queue.

Definition queue_pageUsed (queue : list Z) (pPage : Z) : outcome (list Z) :=
  i ← search (-1) queue;
  if i <? NumPhysPages then arr_set queue i pPage else Ok queue.

Fixpoint rotate_loop (n : nat) (i : Z) (queue : list Z) : outcome (list Z) :=
  match n with
  | O => Ok queue
  | S n =>
      q ← arr_get queue i;
      queue ← arr_set queue (i - 1) q;
      rotate_loop n (i + 1) queue
  end.

Definition queue_getReplacement (queue : list Z) : outcome (Z * list Z) :=
  page ← arr_get queue 0;
  queue ← rotate_loop (Z.to_nat (NumPhysPages - 1)) 1 queue;
  queue ← arr_set queue (NumPhysPages - 1) page;
  Ok (page, queue).

(** [for (; i < NumPhysPages - 1; i++) { if (queue[i] == -1) break; queue[i] = queue[i+1]; }] *)
Fixpoint shift_loop (n : nat) (i : Z) (queue : list Z) : outcome (Z * list Z) :=
  match n with
  | O => Ok (i, queue)
  | S n =>
      if NumPhysPages - 1 <=? i then Ok (i, queue)
      else
        q ← arr_get queue i;
        if q =? -1 then Ok (i, queue)
        else
          q' ← arr_get queue (i + 1);
          queue ← arr_set queue i q';
          shift_loop n (i + 1) queue
  end.

Definition queue_clearPage (queue : list Z) (pPage : Z) : outcome (list Z) :=
  i ← search pPage queue;
  '(i, queue) ← shift_loop (Z.to_nat NumPhysPages) i queue;
  arr_set queue i (-1).

(** ** FIFO *)

Definition FIFO_new (garbage : list Z) : outcome (list Z) := init_loop (Z.to_nat NumPhysPages) 0 garbage.
Definition FIFO_pageUsed (queue : list Z) (pPage : Z) : outcome (list Z) := queue_pageUsed queue pPage.
Definition FIFO_getReplacement (queue : list Z) : outcome (Z * list Z) := queue_getReplacement queue.
Definition FIFO_clearPage (queue : list Z) (pPage : Z) : outcome (list Z) := queue_clearPage queue pPage.
Definition FIFO_markPage (queue : list Z) (pPage : Z) : outcome (list Z) := Ok queue.

(** ** LRU *)

Definition LRU_new (garbage : list Z) : outcome (list Z) := init_loop (Z.to_nat NumPhysPages) 0 garbage.
Definition LRU_pageUsed (queue : list Z) (pPage : Z) : outcome (list Z) := queue_pageUsed queue pPage.
Definition LRU_getReplacement (queue : list Z) : outcome (Z * list Z) := queue_getReplacement queue.
Definition LRU_clearPage (queue : list Z) (pPage : Z) : outcome (list Z) := queue_clearPage queue pPage.

(** A page that is not in the queue leaves [i] at [NumPhysPages]: the last assignment is
    then outside the array. *)
Definition LRU_markPage (queue : list Z) (pPage : Z) : outcome (list Z) :=
  i ← search pPage queue;
  '(i, queue) ← shift_loop (Z.to_nat NumPhysPages) i queue;
  arr_set queue i pPage.

(** ** Random replacement *)

Record RandomReplacement := mkRandom { r_queue : list Z; randoms : list Z; randIdx : Z }.

(** [a >> b] on [int] is arithmetic on the host; [a << b] wraps. *)
Definition sar (a b : Z) : Z := Z.shiftr a b.
Definition shl (a b : Z) : Z := s32 (Z.shiftl a b).

Fixpoint initializeRandom_loop (n : nat) (i : Z) (r : list Z) : outcome (list Z) :=
  match n with
  | O => Ok r
  | S n =>
      x ← arr_get r (i - 1);
      r ← arr_set r i (s32 (0x6c078965 * Z.lxor x (sar x 30) + 1));
      initializeRandom_loop n (i + 1) r
  end.

Definition initializeRandom (r : list Z) (seed : Z) : outcome (list Z) :=
  r ← arr_set r 0 seed;
  initializeRandom_loop 623 1 r.

(** The constructor does not set [randIdx]. *)
Definition Random_new (garbage : RandomReplacement) (time : Z) : outcome RandomReplacement :=
  r ← initializeRandom (randoms garbage) time;
  q ← init_loop (Z.to_nat NumPhysPages) 0 (r_queue garbage);
  Ok (mkRandom q r (randIdx garbage)).

Fixpoint generateRandoms_loop (n : nat) (i : Z) (r : list Z) : outcome (list Z) :=
  match n with
  | O => Ok r
  | S n =>
      x ← arr_get r i;
      y ← arr_get r (cmod (i + 1) 624);
      z ← arr_get r (cmod (i + 397) 624);
      let j := s32 (sar x 31 + sar y 1) in
      r ← arr_set r i (Z.lxor z (sar j 1));
      r ← (if negb (cmod j 2 =? 0) then
             x ← arr_get r i; arr_set r i (s32 (Z.lxor (u32 x) 0x9908b0df))
           else Ok r);
      generateRandoms_loop n (i + 1) r
  end.

Definition generateRandoms (r : list Z) : outcome (list Z) := generateRandoms_loop 624 0 r.

(** The tempering of [getRand]; the masks are unsigned, so those lines compute on
    [unsigned int]. *)
Definition temper (rand : Z) : Z :=
  let rand := Z.lxor rand (sar rand 11) in
  let rand := s32 (Z.lxor (u32 rand) (Z.land (u32 (shl rand 7)) 0x9d2c5680)) in
  let rand := s32 (Z.lxor (u32 rand) (Z.land (u32 (shl rand 15)) 0xefc60000)) in
  Z.lxor rand (sar rand 18).

Definition getRand (p : RandomReplacement) : outcome (Z * RandomReplacement) :=
  r ← (if randIdx p =? 0 then generateRandoms (randoms p) else Ok (randoms p));
  x ← arr_get r (randIdx p);
  Ok (temper x, mkRandom (r_queue p) r (cmod (randIdx p + 1) 624)).

Definition Random_pageUsed (p : RandomReplacement) (pPage : Z) : outcome RandomReplacement :=
  q ← queue_pageUsed (r_queue p) pPage; Ok (mkRandom q (randoms p) (randIdx p)).

Definition Random_getReplacement (p : RandomReplacement) : outcome (Z * RandomReplacement) :=
  '(rand, p) ← getRand p;
  Ok (cmod rand NumPhysPages, p).

Definition Random_clearPage (p : RandomReplacement) (pPage : Z) : outcome RandomReplacement :=
  i ← search pPage (r_queue p);
  q ← arr_set (r_queue p) i (-1);
  Ok (mkRandom q (randoms p) (randIdx p)).

Definition Random_markPage (p : RandomReplacement) (pPage : Z) : outcome RandomReplacement := Ok p.

(** ** The interface *)

Class Replacement (P : Type) := {
  rp_pageUsed : P -> Z -> outcome P;
  rp_getReplacement : P -> outcome (Z * P);
  rp_clearPage : P -> Z -> outcome P;
  rp_markPage : P -> Z -> outcome P }.

(** What the pager relies on. [rp_tracks p ps]: the policy knows that the frames [ps],
    in any order, are in use. *)
Class ReplacementLaws (P : Type) `{Replacement P} := {
  rp_tracks : P -> list Z -> Prop;
  rp_tracks_perm p ps ps' : ps ≡ₚ ps' -> rp_tracks p ps -> rp_tracks p ps';
  rp_used p ps v : rp_tracks p ps -> ~ (v ∈ ps) -> 0 <= v < NumPhysPages -> (length ps < 32)%nat ->
    exists p', rp_pageUsed p v = Ok p' /\ rp_tracks p' (v :: ps);
  rp_victim p ps : rp_tracks p ps -> ps ≡ₚ seqZ 0 32 ->
    exists v p', rp_getReplacement p = Ok (v, p') /\ 0 <= v < NumPhysPages /\ rp_tracks p' ps;
  rp_clear p ps v : rp_tracks p (v :: ps) ->
    exists p', rp_clearPage p v = Ok p' /\ rp_tracks p' ps;
  rp_mark p ps v : rp_tracks p ps -> v ∈ ps ->
    exists p', rp_markPage p v = Ok p' /\ rp_tracks p' ps }.

(** ** Arrays and lists of pages *)

(** The array holds the pages [ps], oldest first. *)
Record holds (queue ps : list Z) : Prop := {
  h_queue : queue = ps ++ replicate (32 - length ps) (-1);
  h_len : (length ps <= 32)%nat;
  h_nodup : NoDup ps;
  h_pages : ~ (-1 ∈ ps) }.

Lemma holds_length queue ps : holds queue ps -> length queue = 32%nat.
Proof. intros [-> Hl _ _]. rewrite length_app, length_replicate. lia. Qed.

Lemma init_loop_ok n : forall i (pre post : list Z), length pre = i -> length post = n ->
  init_loop n (Z.of_nat i) (pre ++ post) = Ok (pre ++ replicate n (-1)).
Proof.
  induction n as [|n IH]; intros i pre post Hi Hp; destruct post as [|x post]; try done; cbn [init_loop].
  rewrite arr_set_in by (rewrite length_app; simpl; lia). cbn [mbind outcome_bind].
  rewrite Nat2Z.id, <- Hi, insert_app_r_alt, Nat.sub_diag by lia. cbn [insert list_insert replicate].
  specialize (IH (S i) (pre ++ [-1]) post). rewrite <- !app_assoc in IH. cbn [app] in IH.
  replace (Z.of_nat (length pre) + 1) with (Z.of_nat (S i)) by lia. apply IH; [|simpl in Hp; lia].
  rewrite length_app. simpl. lia.
Qed.

Lemma search_loop_found n p : forall done pre post,
  ~ (p ∈ pre) -> (length pre < n)%nat ->
  search_loop n (Z.of_nat (length done)) p (done ++ pre ++ p :: post) = Ok (Z.of_nat (length (done ++ pre))).
Proof.
  induction n as [|n IH]; intros dn pre post Hp Hn; [lia|]. cbn [search_loop].
  destruct pre as [|x pre].
  - rewrite (proj2 (arr_get_ok _ _ p)) by (split; [lia|]; rewrite Nat2Z.id; by apply list_lookup_middle).
    cbn [mbind outcome_bind]. rewrite Z.eqb_refl, app_nil_r. done.
  - rewrite (proj2 (arr_get_ok _ _ x)) by (split; [lia|]; rewrite Nat2Z.id; by apply list_lookup_middle).
    cbn [mbind outcome_bind]. apply not_elem_of_cons in Hp as [Hne Hp]. destruct (Z.eqb_spec x p); [congruence|].
    specialize (IH (dn ++ [x]) pre post Hp). rewrite !length_app, <- !app_assoc in IH. cbn [app length] in IH.
    replace (Z.of_nat (length dn) + 1) with (Z.of_nat (length dn + 1)) by lia.
    cbn [app]. rewrite IH by (simpl in Hn; lia). rewrite length_app. simpl. do 2 f_equal. lia.
Qed.

Lemma search_loop_absent n p : forall i queue,
  ~ (p ∈ queue) -> (i + n = length queue)%nat ->
  search_loop n (Z.of_nat i) p queue = Ok (Z.of_nat (i + n)).
Proof.
  induction n as [|n IH]; intros i queue Hp Hlen; cbn [search_loop]; [by rewrite Nat.add_0_r|].
  destruct (lookup_lt_is_Some_2 queue i) as [x Hx]; [lia|].
  rewrite (proj2 (arr_get_ok _ _ x)) by (split; [lia|]; by rewrite Nat2Z.id). cbn [mbind outcome_bind].
  destruct (Z.eqb_spec x p) as [->|]; [by apply list_elem_of_lookup_2 in Hx|].
  replace (Z.of_nat i + 1) with (Z.of_nat (S i)) by lia. rewrite IH by (done || lia). do 2 f_equal. lia.
Qed.

Lemma search_found p pre post :
  ~ (p ∈ pre) -> length (pre ++ p :: post) = 32%nat ->
  search p (pre ++ p :: post) = Ok (Z.of_nat (length pre)).
Proof.
  intros Hp Hl. unfold search. rewrite length_app in Hl. simpl in Hl. change 0 with (Z.of_nat (@length Z [])).
  change (Z.to_nat NumPhysPages) with 32%nat. apply (search_loop_found 32 p [] pre post Hp). lia.
Qed.

Lemma search_absent p queue : ~ (p ∈ queue) -> length queue = 32%nat -> search p queue = Ok 32.
Proof.
  intros Hp Hl. unfold search. change 0 with (Z.of_nat 0). change (Z.to_nat NumPhysPages) with 32%nat.
  rewrite (search_loop_absent 32 p 0 queue Hp) by lia. done.
Qed.

Lemma rotate_loop_ok rest : forall pre x, exists z,
  rotate_loop (length rest) (Z.of_nat (S (length pre))) (pre ++ x :: rest) = Ok (pre ++ rest ++ [z]).
Proof.
  induction rest as [|y rest IH]; intros pre x; [by exists x|]. cbn [rotate_loop length].
  rewrite (proj2 (arr_get_ok _ _ y)).
  2:{ split; [lia|]. rewrite Nat2Z.id, lookup_app_r by lia. by replace (S (length pre) - length pre)%nat with 1%nat by lia. }
  cbn [mbind outcome_bind]. replace (Z.of_nat (S (length pre)) - 1) with (Z.of_nat (length pre)) by lia.
  rewrite arr_set_in by (rewrite length_app; simpl; lia). cbn [mbind outcome_bind].
  rewrite Nat2Z.id, insert_app_r_alt, Nat.sub_diag by lia. cbn [insert list_insert].
  destruct (IH (pre ++ [y]) y) as [z Hz]. rewrite length_app, <- !app_assoc in Hz. cbn [app length] in Hz.
  exists z. cbn [app]. replace (Z.of_nat (S (length pre)) + 1) with (Z.of_nat (S (length pre + 1))) by lia. done.
Qed.

Lemma shift_get (pre : list Z) x y rest :
  arr_get (pre ++ x :: y :: rest) (Z.of_nat (length pre) + 1) = Ok y.
Proof.
  apply arr_get_ok. split; [lia|]. replace (Z.to_nat (Z.of_nat (length pre) + 1)) with (length pre + 1)%nat by lia.
  rewrite lookup_app_r by lia. by replace (length pre + 1 - length pre)%nat with 1%nat by lia.
Qed.

(** The loop stops at an empty place. *)
Lemma shift_stop n i queue : (0 < n)%nat -> queue !! i = Some (-1) ->
  shift_loop n (Z.of_nat i) queue = Ok (Z.of_nat i, queue).
Proof.
  intros Hn Hi. destruct n as [|n]; [lia|]. cbn [shift_loop].
  destruct (Z.leb_spec (NumPhysPages - 1) (Z.of_nat i)); [done|].
  by rewrite (proj2 (arr_get_ok _ (Z.of_nat i) (-1))) by (split; [lia|]; by rewrite Nat2Z.id).
Qed.

(** Exchanging two neighbours. *)
Lemma insert_swap (queue : list Z) k x z : queue !! S k = Some z ->
  <[S k := x]> (<[k := z]> queue) ≡ₚ <[k := x]> queue.
Proof.
  intros Hz. apply lookup_lt_Some in Hz as Hlt. destruct (lookup_lt_is_Some_2 queue k) as [y Hy]; [lia|].
  rewrite <- (take_drop_middle queue k y Hy). rewrite (drop_S queue z (S k) Hz).
  assert (length (take k queue) = k) as Hl by (rewrite length_take; lia).
  rewrite !insert_app_r_alt by (rewrite Hl; lia). rewrite Hl, Nat.sub_diag.
  replace (S k - k)%nat with 1%nat by lia. cbn [insert list_insert].
  apply Permutation_app_head. constructor.
Qed.

(** Shifting to the end of a full array. *)
Lemma shift_loop_full rest : forall n pre x,
  ~ (-1 ∈ x :: rest) -> length (pre ++ x :: rest) = 32%nat -> (length rest < n)%nat ->
  exists z, shift_loop n (Z.of_nat (length pre)) (pre ++ x :: rest) = Ok (31, pre ++ rest ++ [z]).
Proof.
  induction rest as [|y rest IH]; intros n pre x Hx Hl Hn; (destruct n as [|n]; [lia|]);
    rewrite length_app in Hl; simpl in Hl; cbn [shift_loop]; change (NumPhysPages - 1) with 31.
  - destruct (Z.leb_spec 31 (Z.of_nat (length pre))); [|lia]. exists x. do 2 f_equal. lia.
  - destruct (Z.leb_spec 31 (Z.of_nat (length pre))); [lia|].
    rewrite (proj2 (arr_get_ok _ (Z.of_nat (length pre)) x)) by (split; [lia|]; rewrite Nat2Z.id; by apply list_lookup_middle).
    cbn [mbind outcome_bind]. apply not_elem_of_cons in Hx as [Hne Hx]. destruct (Z.eqb_spec x (-1)); [congruence|].
    rewrite (shift_get pre x y rest). cbn [mbind outcome_bind].
    rewrite arr_set_in by (rewrite length_app; simpl; lia). cbn [mbind outcome_bind].
    rewrite Nat2Z.id, insert_app_r_alt, Nat.sub_diag by lia. cbn [insert list_insert].
    destruct (IH n (pre ++ [y]) y Hx) as [z Hz]; [rewrite !length_app; simpl; lia|simpl in Hn; lia|].
    rewrite length_app, <- !app_assoc in Hz. cbn [app length] in Hz.
    exists z. replace (Z.of_nat (length pre) + 1) with (Z.of_nat (length pre + 1)) by lia. done.
Qed.

(** Shifting up to the first empty place. *)
Lemma shift_loop_partial rest : forall n pre x tl,
  ~ (-1 ∈ x :: rest) -> length (pre ++ x :: rest ++ -1 :: tl) = 32%nat -> (S (length rest) < n)%nat ->
  shift_loop n (Z.of_nat (length pre)) (pre ++ x :: rest ++ -1 :: tl) =
  Ok (Z.of_nat (length pre + S (length rest)), pre ++ rest ++ -1 :: -1 :: tl).
Proof.
  induction rest as [|y rest IH]; intros n pre x tl Hx Hl Hn; (destruct n as [|n]; [lia|]);
    rewrite length_app in Hl; simpl in Hl; rewrite ?length_app in Hl; simpl in Hl;
    cbn [shift_loop app]; change (NumPhysPages - 1) with 31;
    (destruct (Z.leb_spec 31 (Z.of_nat (length pre))); [lia|]);
    rewrite (proj2 (arr_get_ok _ (Z.of_nat (length pre)) x)) by (split; [lia|]; rewrite Nat2Z.id; by apply list_lookup_middle);
    cbn [mbind outcome_bind]; apply not_elem_of_cons in Hx as [Hne Hx];
    (destruct (Z.eqb_spec x (-1)); [congruence|]);
    rewrite shift_get; cbn [mbind outcome_bind];
    rewrite arr_set_in by (rewrite length_app; simpl; lia); cbn [mbind outcome_bind];
    rewrite Nat2Z.id, insert_app_r_alt, Nat.sub_diag by lia; cbn [insert list_insert];
    replace (Z.of_nat (length pre) + 1) with (Z.of_nat (length pre + 1)) by lia.
  - apply (shift_stop n (length pre + 1) (pre ++ -1 :: -1 :: tl)); [lia|].
    rewrite lookup_app_r by lia. by replace (length pre + 1 - length pre)%nat with 1%nat by lia.
  - specialize (IH n (pre ++ [y]) y tl Hx). rewrite !length_app, <- !app_assoc in IH. cbn [app length] in IH.
    rewrite length_app in IH. simpl in IH. rewrite IH by (simpl in *; lia). do 3 f_equal. simpl. lia.
Qed.

(** ** The operations on the list of pages *)

Lemma empties_cons n : (0 < n)%nat -> replicate n (-1) = -1 :: replicate (n - 1) (-1).
Proof. intros Hn. destruct n as [|n]; [lia|]. simpl. by rewrite Nat.sub_0_r. Qed.

Lemma insert_middle (pre post : list Z) x y i :
  i = length pre -> arr_set (pre ++ x :: post) (Z.of_nat i) y = Ok (pre ++ y :: post).
Proof.
  intros ->. rewrite arr_set_in by (rewrite length_app; simpl; lia).
  by rewrite Nat2Z.id, insert_app_r_alt, Nat.sub_diag by lia.
Qed.

Lemma pageUsed_holds queue ps p :
  holds queue ps -> ~ (p ∈ ps) -> p <> -1 ->
  exists queue', queue_pageUsed queue p = Ok queue' /\
    holds queue' (if decide (length ps < 32)%nat then ps ++ [p] else ps).
Proof.
  intros Hh Hp Hne. pose proof Hh as [-> Hl Hnd Hpg]. pose proof (holds_length _ _ Hh) as Hlen.
  unfold queue_pageUsed. case_decide as Hlt.
  - rewrite (empties_cons (32 - length ps)) in * by lia. rewrite search_found by done. cbn [mbind outcome_bind].
    change NumPhysPages with 32. destruct (Z.ltb_spec (Z.of_nat (length ps)) 32); [|lia].
    rewrite insert_middle by done. eexists. split; [done|]. constructor.
    + rewrite length_app, <- app_assoc. simpl. by replace (32 - length ps - 1)%nat with (32 - (length ps + 1))%nat by lia.
    + rewrite length_app. simpl. lia.
    + apply NoDup_app. split; [done|]. split; [|apply NoDup_singleton]. by intros x Hx ->%list_elem_of_singleton.
    + rewrite elem_of_app, list_elem_of_singleton. intros [?|?]; [done|congruence].
  - assert (length ps = 32%nat) as Hf by lia. rewrite Hf in *. rewrite app_nil_r in *.
    rewrite search_absent by done. by eexists.
Qed.

Lemma getReplacement_rotates v rest : length rest = 31%nat ->
  queue_getReplacement (v :: rest) = Ok (v, rest ++ [v]).
Proof.
  intros Hl. unfold queue_getReplacement. change (arr_get (v :: rest) 0) with (Ok v). cbn [mbind outcome_bind].
  change (Z.to_nat (NumPhysPages - 1)) with 31%nat. rewrite <- Hl.
  destruct (rotate_loop_ok rest [] v) as [z Hz]. cbn [app length] in Hz. change (Z.of_nat 1) with 1 in Hz. rewrite Hz.
  cbn [mbind outcome_bind]. change (NumPhysPages - 1) with (Z.of_nat 31). by rewrite insert_middle by lia.
Qed.

Lemma getReplacement_holds queue v ps :
  holds queue (v :: ps) -> length (v :: ps) = 32%nat ->
  exists queue', queue_getReplacement queue = Ok (v, queue') /\ holds queue' (ps ++ [v]).
Proof.
  intros [-> _ Hnd Hpg] Hl. simpl in Hl. cbn [length]. rewrite Hl. cbn [Nat.sub replicate]. rewrite app_nil_r.
  rewrite getReplacement_rotates by lia. eexists. split; [done|]. apply NoDup_cons in Hnd as [Hv Hnd].
  apply not_elem_of_cons in Hpg as [Hv1 Hpg]. constructor.
  - rewrite length_app. simpl. replace (32 - (length ps + 1))%nat with 0%nat by lia. by rewrite app_nil_r.
  - rewrite length_app. simpl. lia.
  - apply NoDup_app. split; [done|]. split; [|apply NoDup_singleton]. by intros x Hx ->%list_elem_of_singleton.
  - rewrite elem_of_app, list_elem_of_singleton. intros [?|?]; [done|congruence].
Qed.

Section removal.
Context (queue pre post : list Z) (p : Z) (Hh : holds queue (pre ++ p :: post)).

Lemma removal_facts : ~ (p ∈ pre) /\ ~ (p ∈ post) /\ NoDup (pre ++ post) /\ ~ (-1 ∈ pre ++ post) /\ p <> -1.
Proof.
  destruct Hh as [_ _ Hnd Hpg]. rewrite <- Permutation_middle in Hnd, Hpg.
  apply NoDup_cons in Hnd as [Hp Hnd]. apply not_elem_of_cons in Hpg as [Hne Hpg].
  rewrite elem_of_app in Hp. split_and!; [tauto|tauto|done|done|by intros ->].
Qed.

(** Where the two loops of [clearPage] and [markPage] end. *)
Lemma search_shift :
  search p queue = Ok (Z.of_nat (length pre)) /\
  (length (pre ++ p :: post) = 32%nat ->
   exists z, shift_loop 32 (Z.of_nat (length pre)) queue = Ok (31, (pre ++ post) ++ [z])) /\
  ((length (pre ++ p :: post) < 32)%nat ->
   shift_loop 32 (Z.of_nat (length pre)) queue =
   Ok (Z.of_nat (length (pre ++ p :: post)),
       (pre ++ post) ++ -1 :: -1 :: replicate (31 - length (pre ++ p :: post)) (-1))).
Proof.
  destruct removal_facts as (Hp1 & _ & _ & Hm & Hpm). pose proof (holds_length _ _ Hh) as Hlen.
  destruct Hh as [Hq Hl _ _]. rewrite Hq in *.
  assert (~ (-1 ∈ p :: post)) as Hm'.
  { intros [?|?]%elem_of_cons; [congruence|]. apply Hm, elem_of_app. by right. }
  split; [|split].
  - rewrite <- app_assoc in *. by apply search_found.
  - intros Hf. rewrite Hf in *. cbn [Nat.sub replicate] in *. rewrite app_nil_r in *.
    destruct (shift_loop_full post 32 pre p Hm' Hf) as [z Hz]; [rewrite length_app in Hf; simpl in Hf; lia|].
    exists z. by rewrite <- app_assoc.
  - intros Hlt. rewrite (empties_cons (32 - length (pre ++ p :: post))) in * by lia.
    rewrite <- app_assoc in *. cbn [app] in *.
    rewrite shift_loop_partial; [|done|done|rewrite length_app in Hlt; simpl in Hlt; lia].
    rewrite <- app_assoc. rewrite length_app. cbn [length].
    by replace (32 - (length pre + S (length post)) - 1)%nat with (31 - (length pre + S (length post)))%nat by lia.
Qed.

Lemma clearPage_holds :
  exists queue', queue_clearPage queue p = Ok queue' /\ holds queue' (pre ++ post).
Proof.
  destruct search_shift as (Hs & Hfull & Hpart). destruct removal_facts as (_ & _ & Hnd & Hm & _).
  pose proof (h_len _ _ Hh) as Hl. unfold queue_clearPage. rewrite Hs. cbn [mbind outcome_bind].
  change (Z.to_nat NumPhysPages) with 32%nat. rewrite !length_app in *. cbn [length] in *.
  destruct (decide (length pre + S (length post) = 32)%nat) as [Hf|Hf].
  - destruct (Hfull Hf) as [z ->]. cbn [mbind outcome_bind]. change 31 with (Z.of_nat 31).
    rewrite insert_middle by (rewrite length_app; lia). eexists. split; [done|]. constructor; try done.
    + rewrite length_app. by replace (32 - (length pre + length post))%nat with 1%nat by lia.
    + rewrite length_app. lia.
  - rewrite Hpart by lia. cbn [mbind outcome_bind].
    change (-1 :: -1 :: ?l) with ([-1] ++ -1 :: l). rewrite app_assoc.
    rewrite insert_middle by (rewrite !length_app; simpl; lia). eexists. split; [done|]. constructor; try done.
    + rewrite <- app_assoc, length_app. f_equal. rewrite (empties_cons (32 - (length pre + length post))) by lia.
      rewrite (empties_cons (32 - (length pre + length post) - 1)) by lia. simpl. do 3 f_equal. lia.
    + rewrite length_app. lia.
Qed.

(** With all frames in use, [markPage] moves the page to the end. *)
Lemma markPage_full : length (pre ++ p :: post) = 32%nat ->
  exists queue', LRU_markPage queue p = Ok queue' /\ holds queue' ((pre ++ post) ++ [p]).
Proof.
  intros Hf. destruct search_shift as (Hs & Hfull & _). destruct removal_facts as (Hp1 & Hp2 & Hnd & Hm & Hne).
  unfold LRU_markPage. rewrite Hs. cbn [mbind outcome_bind]. change (Z.to_nat NumPhysPages) with 32%nat.
  destruct (Hfull Hf) as [z ->]. cbn [mbind outcome_bind]. change 31 with (Z.of_nat 31).
  rewrite length_app in Hf. simpl in Hf. rewrite insert_middle by (rewrite length_app; lia).
  eexists. split; [done|]. constructor.
  - rewrite !length_app. simpl. replace (32 - (length pre + length post + 1))%nat with 0%nat by lia. by rewrite app_nil_r.
  - rewrite !length_app. simpl. lia.
  - apply NoDup_app. split; [done|]. split; [|apply NoDup_singleton].
    intros x Hx ->%list_elem_of_singleton. apply elem_of_app in Hx. tauto.
  - rewrite elem_of_app, list_elem_of_singleton. intros [?|?]; [done|congruence].
Qed.

(** Otherwise it leaves an empty place before the page. *)
Lemma markPage_partial : (length (pre ++ p :: post) < 32)%nat ->
  LRU_markPage queue p =
  Ok ((pre ++ post) ++ -1 :: p :: replicate (31 - length (pre ++ p :: post)) (-1)).
Proof.
  intros Hf. destruct search_shift as (Hs & _ & Hpart). unfold LRU_markPage. rewrite Hs. cbn [mbind outcome_bind].
  change (Z.to_nat NumPhysPages) with 32%nat. rewrite (Hpart Hf). cbn [mbind outcome_bind].
  rewrite length_app in *. cbn [length] in *.
  change (-1 :: -1 :: ?l) with ([-1] ++ -1 :: l). rewrite app_assoc.
  rewrite insert_middle by (rewrite !length_app; simpl; lia). by rewrite <- app_assoc.
Qed.
End removal.

(** ** The random numbers *)

(** Folding a word with its own arithmetic shift clears the sign. *)
Lemma fold_nonneg x k : 0 <= Z.lxor x (sar x k).
Proof. unfold sar. apply Z.lxor_nonneg. rewrite Z.shiftr_nonneg. tauto. Qed.

Lemma temper_nonneg rand : 0 <= temper rand.
Proof. unfold temper. cbv zeta. apply fold_nonneg. Qed.

Lemma generateRandoms_loop_ok n : forall i r, length r = 624%nat -> (i + n = 624)%nat ->
  exists r', generateRandoms_loop n (Z.of_nat i) r = Ok r' /\ length r' = 624%nat.
Proof.
  induction n as [|n IH]; intros i r Hr Hi; cbn [generateRandoms_loop]; [by exists r|].
  rewrite !cmod_nonneg by lia.
  destruct (arr_get_in r (Z.of_nat i)) as [x ->]; [lia|]. cbn [mbind outcome_bind].
  destruct (arr_get_in r ((Z.of_nat i + 1) `mod` 624)) as [y ->]; [dlia|]. cbn [mbind outcome_bind].
  destruct (arr_get_in r ((Z.of_nat i + 397) `mod` 624)) as [z ->]; [dlia|]. cbn [mbind outcome_bind].
  rewrite arr_set_in by lia. cbn [mbind outcome_bind]. set (r1 := <[_ := _]> r).
  assert (length r1 = 624%nat) as Hr1 by (unfold r1; by rewrite length_insert).
  replace (Z.of_nat i + 1) with (Z.of_nat (S i)) by lia.
  destruct (negb _); cbn [mbind outcome_bind]; [|apply IH; [done|lia]].
  destruct (arr_get_in r1 (Z.of_nat i)) as [x1 ->]; [lia|]. cbn [mbind outcome_bind].
  rewrite arr_set_in by lia. cbn [mbind outcome_bind]. apply IH; [by rewrite length_insert|lia].
Qed.

(** The generator's index and table. *)
Definition random_ok (p : RandomReplacement) : Prop :=
  length (randoms p) = 624%nat /\ 0 <= randIdx p < 624.

Lemma getRand_ok p : random_ok p ->
  exists x p', getRand p = Ok (x, p') /\ 0 <= x /\ random_ok p' /\ r_queue p' = r_queue p.
Proof.
  intros [Hl Hi]. unfold getRand.
  assert (exists r, (if randIdx p =? 0 then generateRandoms (randoms p) else Ok (randoms p)) = Ok r /\
    length r = 624%nat) as (r & -> & Hr).
  { destruct (randIdx p =? 0); [|by eexists]. by apply (generateRandoms_loop_ok 624 0). }
  cbn [mbind outcome_bind]. destruct (arr_get_in r (randIdx p)) as [x ->]; [lia|]. cbn [mbind outcome_bind].
  eexists _, _. split; [done|]. split; [apply temper_nonneg|]. split; [|done].
  split; [done|]. simpl. rewrite cmod_nonneg by lia. dlia.
Qed.

(** ** The policies as implementations of the interface *)

Definition FIFO_policy : Replacement (list Z) :=
  {| rp_pageUsed := FIFO_pageUsed; rp_getReplacement := FIFO_getReplacement;
     rp_clearPage := FIFO_clearPage; rp_markPage := FIFO_markPage |}.
Definition LRU_policy : Replacement (list Z) :=
  {| rp_pageUsed := LRU_pageUsed; rp_getReplacement := LRU_getReplacement;
     rp_clearPage := LRU_clearPage; rp_markPage := LRU_markPage |}.
#[export] Instance Random_policy : Replacement RandomReplacement :=
  {| rp_pageUsed := Random_pageUsed; rp_getReplacement := Random_getReplacement;
     rp_clearPage := Random_clearPage; rp_markPage := Random_markPage |}.

(** The array holds the frames [ps] somewhere. This is weaker than [holds]: LRU's
    [markPage] can leave empty places between pages. *)
Record tracks (queue ps : list Z) : Prop := {
  tr_perm : queue ≡ₚ ps ++ replicate (32 - length ps) (-1);
  tr_len : (length ps <= 32)%nat;
  tr_pages : ~ (-1 ∈ ps) }.

Lemma tracks_length queue ps : tracks queue ps -> length queue = 32%nat.
Proof. intros [Hp Hl _]. rewrite Hp, length_app, length_replicate. lia. Qed.

Lemma tracks_perm queue ps ps' : ps ≡ₚ ps' -> tracks queue ps -> tracks queue ps'.
Proof.
  intros Hp [H1 H2 H3]. pose proof (Permutation_length Hp) as Hl.
  constructor; [by rewrite H1, Hl, Hp|by rewrite <- Hl|by rewrite <- Hp].
Qed.

(** The first place of a value, and the array with another value there. *)
Lemma first_place x queue : x ∈ queue -> length queue = 32%nat ->
  exists pre post, queue = pre ++ x :: post /\ search x queue = Ok (Z.of_nat (length pre)).
Proof.
  intros Hx Hl. apply list_elem_of_split_l in Hx as (pre & post & -> & Hnin).
  exists pre, post. split; [done|]. by apply search_found.
Qed.

Lemma tracks_used queue ps v : tracks queue ps -> ~ (v ∈ ps) -> 0 <= v < NumPhysPages -> (length ps < 32)%nat ->
  exists queue', queue_pageUsed queue v = Ok queue' /\ tracks queue' (v :: ps).
Proof.
  intros Ht Hv Hr Hlt. pose proof (tracks_length _ _ Ht) as Hlen. destruct Ht as [Hp Hl Hm].
  rewrite (empties_cons (32 - length ps)) in Hp by lia.
  destruct (first_place (-1) queue) as (pre & post & -> & Hs); [|done|].
  { rewrite Hp. apply elem_of_app. right. by left. }
  unfold queue_pageUsed. rewrite Hs. cbn [mbind outcome_bind]. change NumPhysPages with 32 in *.
  rewrite length_app in Hlen. simpl in Hlen. destruct (Z.ltb_spec (Z.of_nat (length pre)) 32); [|lia].
  rewrite insert_middle by done. eexists. split; [done|]. constructor.
  - rewrite <- !Permutation_middle in Hp. apply Permutation_cons_inv in Hp. rewrite <- Permutation_middle, Hp.
    simpl. by replace (32 - length ps - 1)%nat with (31 - length ps)%nat by lia.
  - simpl. lia.
  - intros [?|?]%elem_of_cons; [lia|done].
Qed.

Lemma tracks_victim queue ps : tracks queue ps -> ps ≡ₚ seqZ 0 32 ->
  exists v queue', queue_getReplacement queue = Ok (v, queue') /\ 0 <= v < NumPhysPages /\ tracks queue' ps.
Proof.
  intros Ht Hp. pose proof (tracks_length _ _ Ht) as Hlen. pose proof (Permutation_length Hp) as Hl.
  rewrite length_seqZ in Hl. destruct queue as [|v rest]; [done|].
  exists v, (rest ++ [v]). split; [apply getReplacement_rotates; simpl in Hlen; lia|].
  destruct Ht as [Hq H2 H3]. split; [|constructor; [|done|done]].
  - assert (v ∈ v :: rest) as Hv by (by left). rewrite Hq, Hl in Hv. cbn [Nat.sub] in Hv.
    change (Z.to_nat 32) with 32%nat in Hv. cbn [Nat.sub replicate] in Hv. rewrite app_nil_r, Hp in Hv.
    apply elem_of_seqZ in Hv. change NumPhysPages with 32. lia.
  - rewrite <- Hq. symmetry. apply Permutation_cons_append.
Qed.

(** The shift moves the place at which it starts to where it ends. *)
Lemma shift_loop_moves n : forall k queue,
  length queue = 32%nat -> (k < 32)%nat -> (32 <= n + k)%nat ->
  exists j queue', shift_loop n (Z.of_nat k) queue = Ok (Z.of_nat j, queue') /\
    length queue' = 32%nat /\ (j < 32)%nat /\ forall x, <[j := x]> queue' ≡ₚ <[k := x]> queue.
Proof.
  induction n as [|n IH]; intros k queue Hl Hk Hn; [lia|]. cbn [shift_loop]. change (NumPhysPages - 1) with 31.
  destruct (Z.leb_spec 31 (Z.of_nat k)); [by exists k, queue|].
  destruct (lookup_lt_is_Some_2 queue k) as [y Hy]; [lia|].
  rewrite (proj2 (arr_get_ok _ (Z.of_nat k) y)) by (split; [lia|]; by rewrite Nat2Z.id). cbn [mbind outcome_bind].
  destruct (y =? -1); [by exists k, queue|].
  destruct (lookup_lt_is_Some_2 queue (S k)) as [z Hz]; [lia|].
  replace (Z.of_nat k + 1) with (Z.of_nat (S k)) by lia.
  rewrite (proj2 (arr_get_ok _ (Z.of_nat (S k)) z)) by (split; [lia|]; by rewrite Nat2Z.id). cbn [mbind outcome_bind].
  rewrite arr_set_in by lia. cbn [mbind outcome_bind]. rewrite Nat2Z.id.
  destruct (IH (S k) (<[k := z]> queue)) as (j & q' & Hq & Hl' & Hj & Hp); [by rewrite length_insert|lia|lia|].
  exists j, q'. split_and!; try done. intros x. rewrite Hp. by apply insert_swap.
Qed.

(** Replacing [v] by [x] and shifting. *)
Lemma tracks_shift queue ps v x : tracks queue (v :: ps) ->
  exists i j queue1, search v queue = Ok i /\
    shift_loop (Z.to_nat NumPhysPages) i queue = Ok (Z.of_nat j, queue1) /\
    arr_set queue1 (Z.of_nat j) x = Ok (<[j := x]> queue1) /\
    <[j := x]> queue1 ≡ₚ x :: ps ++ replicate (31 - length ps) (-1).
Proof.
  intros Ht. pose proof (tracks_length _ _ Ht) as Hlen. destruct Ht as [Hp Hl Hm].
  destruct (first_place v queue) as (pre & post & -> & Hs); [|done|].
  { rewrite Hp. by left. }
  rewrite length_app in Hlen. simpl in Hlen. change (Z.to_nat NumPhysPages) with 32%nat.
  destruct (shift_loop_moves 32 (length pre) (pre ++ v :: post)) as (j & q' & Hq & Hl' & Hj & Hmv);
    [rewrite length_app; simpl; lia|lia|lia|].
  exists (Z.of_nat (length pre)), j, q'. split_and!; try done.
  - rewrite arr_set_in by lia. by rewrite Nat2Z.id.
  - rewrite Hmv, insert_app_r_alt, Nat.sub_diag by lia. cbn [insert list_insert].
    rewrite <- Permutation_middle in Hp |- *. simpl in Hp. apply Permutation_cons_inv in Hp. by rewrite Hp.
Qed.

Lemma tracks_clear queue ps v : tracks queue (v :: ps) ->
  exists queue', queue_clearPage queue v = Ok queue' /\ tracks queue' ps.
Proof.
  intros Ht. destruct (tracks_shift queue ps v (-1) Ht) as (i & j & q1 & Hs & Hsh & Hset & Hp).
  unfold queue_clearPage. rewrite Hs. cbn [mbind outcome_bind]. rewrite Hsh. cbn [mbind outcome_bind]. rewrite Hset.
  eexists. split; [done|]. destruct Ht as [_ Hl Hm]. simpl in Hl. apply not_elem_of_cons in Hm as [_ Hm].
  constructor; [|lia|done]. rewrite Hp, (empties_cons (32 - length ps)) by lia. rewrite Permutation_middle.
  by replace (32 - length ps - 1)%nat with (31 - length ps)%nat by lia.
Qed.

Lemma tracks_mark queue ps v : tracks queue ps -> v ∈ ps ->
  exists queue', LRU_markPage queue v = Ok queue' /\ tracks queue' ps.
Proof.
  intros Ht Hin. apply list_elem_of_split in Hin as (pre & post & Hps).
  assert (ps ≡ₚ v :: pre ++ post) as Hpp by (rewrite Hps; symmetry; apply Permutation_middle).
  apply (tracks_perm _ _ _ Hpp) in Ht.
  destruct (tracks_shift queue (pre ++ post) v v Ht) as (i & j & q1 & Hs & Hsh & Hset & Hp).
  unfold LRU_markPage. rewrite Hs. cbn [mbind outcome_bind]. rewrite Hsh. cbn [mbind outcome_bind]. rewrite Hset.
  eexists. split; [done|]. apply (tracks_perm _ (v :: pre ++ post)); [by rewrite Hpp|]. destruct Ht as [_ Hl Hm].
  constructor; [|done|done]. by rewrite Hp.
Qed.

Lemma FIFO_mark_tracks queue ps (v : Z) : tracks queue ps -> v ∈ ps ->
  exists queue', FIFO_markPage queue v = Ok queue' /\ tracks queue' ps.
Proof. intros Ht _. by exists queue. Qed.

Definition FIFO_laws : @ReplacementLaws (list Z) FIFO_policy :=
  @Build_ReplacementLaws (list Z) FIFO_policy tracks tracks_perm tracks_used tracks_victim tracks_clear
    FIFO_mark_tracks.
Definition LRU_laws : @ReplacementLaws (list Z) LRU_policy :=
  @Build_ReplacementLaws (list Z) LRU_policy tracks tracks_perm tracks_used tracks_victim tracks_clear
    tracks_mark.

(** Random replacement keeps the same array, although it does not use it. *)
Definition random_tracks (p : RandomReplacement) (ps : list Z) : Prop :=
  random_ok p /\ tracks (r_queue p) ps.

Lemma Random_victim p : random_ok p ->
  exists v p', Random_getReplacement p = Ok (v, p') /\ 0 <= v < NumPhysPages /\ random_ok p' /\
    r_queue p' = r_queue p.
Proof.
  intros Hp. destruct (getRand_ok p Hp) as (x & p' & Hr & Hx & Hp' & Hq). exists (cmod x NumPhysPages), p'.
  unfold Random_getReplacement. rewrite Hr. split; [done|]. split; [|done].
  change NumPhysPages with 32. rewrite cmod_nonneg by lia. dlia.
Qed.

#[export] Instance Random_laws : ReplacementLaws RandomReplacement.
Proof.
  refine (@Build_ReplacementLaws RandomReplacement Random_policy random_tracks _ _ _ _ _).
  - intros p ps ps' Hp [Ho Ht]. split; [done|]. by apply (tracks_perm _ ps).
  - intros p ps v [Ho Ht] Hv Hr Hl. destruct (tracks_used _ _ _ Ht Hv Hr Hl) as (q & Hq & Ht').
    simpl. unfold Random_pageUsed. rewrite Hq. by eexists.
  - intros p ps [Ho Ht] Hp. destruct (Random_victim p Ho) as (v & p' & Hv & Hr & Ho' & Hq).
    exists v, p'. split; [done|]. split; [done|]. split; [done|]. by rewrite Hq.
  - intros p ps v [Ho Ht]. pose proof (tracks_length _ _ Ht) as Hlen. destruct Ht as [Hp Hl Hm].
    destruct (first_place v (r_queue p)) as (pre & post & Hq & Hs); [rewrite Hp; by left|done|].
    simpl. unfold Random_clearPage. rewrite Hs. cbn [mbind outcome_bind]. rewrite Hq, insert_middle by done.
    eexists. split; [done|]. split; [done|]. simpl in *. apply not_elem_of_cons in Hm as [_ Hm].
    constructor; [|lia|done]. rewrite (empties_cons (32 - length ps)) by lia. rewrite Hq in Hp.
    rewrite <- Permutation_middle in Hp |- *. apply Permutation_cons_inv in Hp. rewrite Hp.
    rewrite Permutation_middle. by replace (32 - length ps - 1)%nat with (31 - length ps)%nat by lia.
  - intros p ps v [Ho Ht] _. by exists p.
Defined.

(** ** Properties *)

(** FIFO replacement is a queue of the pages in use, whatever the array held before
    the constructor: a new page goes to the end; with all frames in use the victim is
    the page that came first, and its frame, which gets a new page, goes to the end; a
    page that is cleared leaves the queue, and clearing a page that is not in it writes
    past the array; marking a page changes nothing. *)
Theorem FIFO_queue queue ps :
  holds queue ps ->
  (forall garbage, length garbage = 32%nat -> exists q, FIFO_new garbage = Ok q /\ holds q []) /\
  (forall p, ~ (p ∈ ps) -> p <> -1 -> exists q, FIFO_pageUsed queue p = Ok q /\
     holds q (if decide (length ps < 32)%nat then ps ++ [p] else ps)) /\
  (forall v rest, ps = v :: rest -> length ps = 32%nat ->
     exists q, FIFO_getReplacement queue = Ok (v, q) /\ holds q (rest ++ [v])) /\
  (forall pre p post, ps = pre ++ p :: post ->
     exists q, FIFO_clearPage queue p = Ok q /\ holds q (pre ++ post)) /\
  (forall p, ~ (p ∈ ps) -> p <> -1 -> FIFO_clearPage queue p = Undef) /\
  (forall p, FIFO_markPage queue p = Ok queue).
Proof.
  intros Hh. split_and!.
  - intros g Hg. eexists. split; [apply (init_loop_ok 32 0 [] g); [done|done]|]. constructor; try done.
    + simpl. lia.
    + apply NoDup_nil_2.
    + apply not_elem_of_nil.
  - intros p. by apply pageUsed_holds.
  - intros v rest -> Hl. by apply getReplacement_holds.
  - intros pre p post ->. by apply clearPage_holds.
  - intros p Hp Hne. unfold FIFO_clearPage, queue_clearPage. pose proof (holds_length _ _ Hh) as Hl.
    rewrite search_absent; [|rewrite (h_queue _ _ Hh), elem_of_app|done]; [|intros [?|[? _]%elem_of_replicate]; congruence].
    cbn. apply arr_set_out. lia.
  - done.
Qed.

Lemma three_pages : holds ([4; 7; 2] ++ replicate 29 (-1)) [4; 7; 2].
Proof. constructor; [done|simpl; lia|..]; apply (bool_decide_unpack _); by vm_compute. Qed.

Lemma FIFO_queue_witness :
  exists q, FIFO_clearPage ([4; 7; 2] ++ replicate 29 (-1)) 7 = Ok q /\ holds q [4; 2].
Proof.
  destruct (FIFO_queue ([4; 7; 2] ++ replicate 29 (-1)) [4; 7; 2]) as (_ & _ & _ & Hclear & _).
  - exact three_pages.
  - apply (Hclear [4] 7 [2]). reflexivity.
Defined.

(** With all frames in use, LRU's [markPage] moves a page behind all others, and the
    next victim is the first page of the order of last use. Before that, the page is put
    one place too far: a page that is loaded next takes the empty place before it and is
    replaced first, although it was used later. *)
Theorem LRU_order queue pre p post :
  holds queue (pre ++ p :: post) ->
  (length (pre ++ p :: post) = 32%nat ->
   exists q, LRU_markPage queue p = Ok q /\ holds q ((pre ++ post) ++ [p]) /\
     exists v rest q', (pre ++ post) ++ [p] = v :: rest /\ LRU_getReplacement q = Ok (v, q') /\
       holds q' (rest ++ [v])) /\
  ((length (pre ++ p :: post) < 32)%nat ->
   forall n, ~ (n ∈ pre ++ p :: post) -> n <> -1 ->
   exists q q', LRU_markPage queue p = Ok q /\ LRU_pageUsed q n = Ok q' /\ holds q' ((pre ++ post) ++ [n; p])).
Proof.
  intros Hh. split.
  - intros Hf. destruct (markPage_full queue pre post p Hh Hf) as (q & Hm & Hq). exists q. split; [done|]. split; [done|].
    destruct ((pre ++ post) ++ [p]) as [|v rest] eqn:He; [by apply app_eq_nil in He as [_ ?]|].
    destruct (getReplacement_holds q v rest Hq) as (q' & Hg & Hh'); [|by exists v, rest, q'].
    rewrite <- He. rewrite !length_app in *. simpl in *. lia.
  - intros Hlt n Hn Hne. destruct (removal_facts queue pre post p Hh) as (Hp1 & Hp2 & Hnd & Hm & Hpm).
    eexists _, _. split; [by apply markPage_partial|]. unfold LRU_pageUsed, queue_pageUsed.
    rewrite length_app in *. simpl in Hlt. cbn [length].
    rewrite search_found; [|done|rewrite !length_app; cbn [length]; rewrite length_replicate; lia].
    cbn [mbind outcome_bind]. change NumPhysPages with 32.
    destruct (Z.ltb_spec (Z.of_nat (length (pre ++ post))) 32) as [_|Hge]; [|rewrite length_app in Hge; lia].
    rewrite insert_middle by done. split; [done|]. constructor.
    + rewrite <- (app_assoc (pre ++ post) [n; p]). rewrite !length_app. cbn [length app]. do 4 f_equal. lia.
    + rewrite !length_app. simpl. lia.
    + apply NoDup_app. split; [done|]. rewrite elem_of_app, elem_of_cons in Hn. split.
      * intros x Hx [->| ->%list_elem_of_singleton]%elem_of_cons; rewrite elem_of_app in Hx; tauto.
      * apply NoDup_cons. split; [|apply NoDup_singleton]. rewrite list_elem_of_singleton. tauto.
    + rewrite elem_of_app, elem_of_cons, list_elem_of_singleton. intros [?|[?|?]]; [done|congruence|congruence].
Qed.

Lemma LRU_order_witness :
  exists q q', LRU_markPage ([4; 7; 2] ++ replicate 29 (-1)) 7 = Ok q /\ LRU_pageUsed q 9 = Ok q' /\
    holds q' [4; 2; 9; 7].
Proof.
  destruct (LRU_order ([4; 7; 2] ++ replicate 29 (-1)) [4] 7 [2]) as [_ Hpart].
  - exact three_pages.
  - apply Hpart; [simpl; lia| |lia]. apply (bool_decide_unpack _). vm_compute. exact I.
Defined.

(** Random replacement always chooses a frame of the machine, since the last step of
    the generator clears the sign of the number, and the generator stays usable. This
    needs an index into its table, which the constructor does not set: with any other
    value the table is read outside its bounds. *)
Theorem Random_in_range p :
  length (randoms p) = 624%nat ->
  (0 <= randIdx p < 624 -> exists v p', Random_getReplacement p = Ok (v, p') /\ 0 <= v < NumPhysPages /\
     length (randoms p') = 624%nat /\ 0 <= randIdx p' < 624) /\
  (~ (0 <= randIdx p < 624) -> Random_getReplacement p = Undef).
Proof.
  intros Hl. split.
  - intros Hi. destruct (Random_victim p) as (v & p' & Hv & Hr & Hp' & _); [by split|]. by exists v, p'.
  - intros Hi. unfold Random_getReplacement, getRand. destruct (Z.eqb_spec (randIdx p) 0); [lia|].
    cbn [mbind outcome_bind]. rewrite arr_get_out by lia. done.
Qed.

Lemma Random_in_range_witness :
  exists v p', Random_getReplacement (mkRandom empty_queue (replicate 624 (-5)) 3) = Ok (v, p') /\
    0 <= v < NumPhysPages.
Proof.
  destruct (Random_in_range (mkRandom empty_queue (replicate 624 (-5)) 3)) as [Hin _].
  - reflexivity.
  - destruct Hin as (v & p' & Hv & Hr & _); [simpl; lia|]. exists v, p'. split; [exact Hv|exact Hr].
Defined.
