(* ===== verification/Pager.v ===== *)
(** * vm/vmManager.cc, vm/swapManager.cc and userprog/memoryManager.cc: the pager

    [vm] is the state of the pager with what it shares with the rest of the system: main
    memory, the swap file, the global buffer [diskBuffer], the page table entries that
    [activePages] points to, and the bitmaps of the frames and of the swap pages. In a
    page table entry of this build [physicalPage] is the number of a swap page. The
    replacement policy is any implementation of the interface of Replacement.v and the
    bitmaps are any allocator of the interface of BitMap.v.

    The swap file is a UNIX file (the build uses the stub file system): a write past its
    end extends it, and a read past its end is short. *)

From stdpp Require Import prelude numbers gmap list.
From S2P Require Import Prelude Params BitMap Machine Replacement.

Open Scope Z_scope.

Definition SWAP_SIZE : Z := 512.

(** ** UNIX files and memory *)

(** [ReadAt(buffer, n, position)]: what [buffer] holds afterwards. *)
Definition file_ReadAt (f buffer : list Z) (n position : Z) : outcome (list Z) :=
  ASSERT (0 <=? position);;
  let data := take (Z.to_nat n) (drop (Z.to_nat position) f) in
  if Z.of_nat (length buffer) <? n then Undef
  else Ok (data ++ drop (length data) buffer).

(** [WriteAt(data, n, position)] with [n] bytes of data. *)
Definition file_WriteAt (f data : list Z) (position : Z) : outcome (list Z) :=
  ASSERT (0 <=? position);;
  let pos := Z.to_nat position in
  Ok (take pos f ++ replicate (pos - length f) 0 ++ data ++ drop (pos + length data) f).

Definition zero_page : list Z := replicate (Z.to_nat PageSize) 0.

(** ** The state *)

Section pager.
Context {M P : Type} `{BitAllocator M} `{Replacement P}.

Record vm := mkVm {
  mainMemory : list Z;
  swapFile : list Z;
  diskBuffer : list Z;
  entries : gmap positive TranslationEntry;
  memMgr : M;
  swapMap : M;
  policy : P;
  activePageMap : list Z;
  activePages : list (option positive) }.

Definition with_memory (v : vm) (m : list Z) : vm :=
  mkVm m (swapFile v) (diskBuffer v) (entries v) (memMgr v) (swapMap v) (policy v) (activePageMap v) (activePages v).
Definition with_swapFile (v : vm) (f : list Z) : vm :=
  mkVm (mainMemory v) f (diskBuffer v) (entries v) (memMgr v) (swapMap v) (policy v) (activePageMap v) (activePages v).
Definition with_diskBuffer (v : vm) (b : list Z) : vm :=
  mkVm (mainMemory v) (swapFile v) b (entries v) (memMgr v) (swapMap v) (policy v) (activePageMap v) (activePages v).
Definition with_entries (v : vm) (e : gmap positive TranslationEntry) : vm :=
  mkVm (mainMemory v) (swapFile v) (diskBuffer v) e (memMgr v) (swapMap v) (policy v) (activePageMap v) (activePages v).
Definition with_memMgr (v : vm) (m : M) : vm :=
  mkVm (mainMemory v) (swapFile v) (diskBuffer v) (entries v) m (swapMap v) (policy v) (activePageMap v) (activePages v).
Definition with_swapMap (v : vm) (m : M) : vm :=
  mkVm (mainMemory v) (swapFile v) (diskBuffer v) (entries v) (memMgr v) m (policy v) (activePageMap v) (activePages v).
Definition with_policy (v : vm) (p : P) : vm :=
  mkVm (mainMemory v) (swapFile v) (diskBuffer v) (entries v) (memMgr v) (swapMap v) p (activePageMap v) (activePages v).
Definition with_active (v : vm) (m : list Z) (p : list (option positive)) : vm :=
  mkVm (mainMemory v) (swapFile v) (diskBuffer v) (entries v) (memMgr v) (swapMap v) (policy v) m p.

(** ** userprog/memoryManager.cc *)

Definition MemoryManager_getPage (v : vm) : outcome (Z * vm) :=
  '(page, m) ← ba_find (memMgr v); Ok (page, with_memMgr v m).
Definition MemoryManager_clearPage (v : vm) (i : Z) : outcome vm :=
  m ← ba_clear (memMgr v) i; Ok (with_memMgr v m).
Definition MemoryManager_getFreePageCount (v : vm) : outcome Z := ba_numClear (memMgr v).

(** ** vm/swapManager.cc *)

Definition SwapManager_allocPage (v : vm) : outcome (Z * vm) :=
  '(page, m) ← ba_find (swapMap v);
  ASSERT (0 <=? page);;
  let v := with_diskBuffer (with_swapMap v m) zero_page in
  f ← file_WriteAt (swapFile v) (diskBuffer v) (page * PageSize);
  Ok (page, with_swapFile v f).

Definition SwapManager_writePage (v : vm) (sPage : Z) (data : list Z) (offset : Z) : outcome vm :=
  f ← file_WriteAt (swapFile v) data (sPage * PageSize + offset);
  Ok (with_swapFile v f).

Definition SwapManager_swap (v : vm) (pPageNum sPageNum : Z) : outcome vm :=
  b ← file_ReadAt (swapFile v) (diskBuffer v) PageSize (sPageNum * PageSize);
  let v := with_diskBuffer v b in
  m ← put_bytes (mainMemory v) (pPageNum * PageSize) (diskBuffer v);
  Ok (with_memory v m).

Definition SwapManager_copy (v : vm) (fromPage toPage : Z) : outcome vm :=
  b ← file_ReadAt (swapFile v) (diskBuffer v) PageSize (fromPage * PageSize);
  let v := with_diskBuffer v b in
  f ← file_WriteAt (swapFile v) (diskBuffer v) (toPage * PageSize);
  Ok (with_swapFile v f).

Definition SwapManager_clearPage (v : vm) (sPage : Z) : outcome vm :=
  let v := with_diskBuffer v zero_page in
  f ← file_WriteAt (swapFile v) (diskBuffer v) (sPage * PageSize);
  m ← ba_clear (swapMap v) sPage;
  Ok (with_swapMap (with_swapFile v f) m).

Definition SwapManager_getFreePageCount (v : vm) : outcome Z := ba_numClear (swapMap v).

(** ** vm/vmManager.cc *)

Definition VMManager_getPage (v : vm) : outcome (Z * vm) := SwapManager_allocPage v.

Definition VMManager_writePage (v : vm) (pPage : Z) (data : list Z) (offset : Z) : outcome vm :=
  SwapManager_writePage v pPage data offset.

(** The victim's bits are reset and it is written to swap when it is dirty. *)
Definition evict (v : vm) (pPage : Z) : outcome vm :=
  o ← arr_get (activePages v) pPage;
  old ← deref o;
  e ← deref (entries v !! old);
  let e := mkEntry (virtualPage e) (physicalPage e) (valid e) (readOnly e) false (dirty e) in
  let v := with_entries v (<[old := e]> (entries v)) in
  if dirty e then
    let e := mkEntry (virtualPage e) (physicalPage e) (valid e) (readOnly e) (use e) false in
    let v := with_entries v (<[old := e]> (entries v)) in
    b ← get_bytes (mainMemory v) (pPage * PageSize) PageSize;
    let v := with_diskBuffer v b in
    s ← arr_get (activePageMap v) pPage;
    SwapManager_writePage v s (diskBuffer v) 0
  else Ok v.

(** [newPage] is the address of a page table entry. *)
Definition VMManager_swap (v : vm) (newPage : positive) : outcome (Z * vm) :=
  e ← deref (entries v !! newPage);
  let sPage := physicalPage e in
  free ← MemoryManager_getFreePageCount v;
  '(pPage, v) ← (if 0 <? free then
                   '(pPage, v) ← MemoryManager_getPage v;
                   p ← rp_pageUsed (policy v) pPage;
                   Ok (pPage, with_policy v p)
                 else
                   '(pPage, p) ← rp_getReplacement (policy v);
                   v ← evict (with_policy v p) pPage;
                   Ok (pPage, v));
  v ← SwapManager_swap v pPage sPage;
  m ← arr_set (activePageMap v) pPage sPage;
  a ← arr_set (activePages v) pPage (Some newPage);
  Ok (pPage, with_active v m a).

Definition VMManager_copy (v : vm) (fromPage toPage : Z) : outcome vm := SwapManager_copy v fromPage toPage.

(** The loops that look for a swap page among the frames use the same code as the
    policies. *)
Definition VMManager_getPhysicalPage (v : vm) (page : positive) : outcome (Z * vm) :=
  e ← deref (entries v !! page);
  i ← search (physicalPage e) (activePageMap v);
  if i <? NumPhysPages then Ok (i, v) else VMManager_swap v page.

Definition VMManager_clearPage (v : vm) (sPage : Z) : outcome vm :=
  pPage ← search sPage (activePageMap v);
  v ← (if pPage <? NumPhysPages then
         m ← arr_set (activePageMap v) pPage (-1);
         a ← arr_set (activePages v) pPage None;
         Ok (with_active v m a)
       else Ok v);
  v ← MemoryManager_clearPage v pPage;
  v ← SwapManager_clearPage v sPage;
  p ← rp_clearPage (policy v) pPage;
  Ok (with_policy v p).

Definition VMManager_getFreePageCount (v : vm) : outcome Z := SwapManager_getFreePageCount v.

Definition VMManager_markPage (v : vm) (pPage : Z) : outcome vm :=
  p ← rp_markPage (policy v) pPage; Ok (with_policy v p).
End pager.
Arguments vm : clear implicits.

(** ** Pages of the swap file *)

Lemma file_ReadAt_page f buffer s :
  length buffer = 128%nat -> 0 <= s -> 128 * (s + 1) <= Z.of_nat (length f) ->
  file_ReadAt f buffer PageSize (s * PageSize) = Ok (page f (Z.to_nat s)).
Proof.
  intros Hb Hs Hf. change PageSize with 128. unfold file_ReadAt. rewrite ASSERT_true by lia. cbn [mbind outcome_bind].
  destruct (Z.ltb_spec (Z.of_nat (length buffer)) 128); [lia|].
  replace (Z.to_nat (s * 128)) with (128 * Z.to_nat s)%nat by lia. change (Z.to_nat 128) with 128%nat.
  fold (page f (Z.to_nat s)). rewrite page_length by lia. rewrite drop_ge by lia. by rewrite app_nil_r.
Qed.

Lemma file_WriteAt_page f data s :
  length data = 128%nat -> 0 <= s -> 128 * (s + 1) <= Z.of_nat (length f) ->
  file_WriteAt f data (s * PageSize) = Ok (put_page f (Z.to_nat s) data).
Proof.
  intros Hd Hs Hf. change PageSize with 128. unfold file_WriteAt. rewrite ASSERT_true by lia. cbn [mbind outcome_bind].
  replace (Z.to_nat (s * 128)) with (128 * Z.to_nat s)%nat by lia.
  replace (128 * Z.to_nat s - length f)%nat with 0%nat by lia. rewrite Hd. done.
Qed.

(** A file that is extended with zeros up to the end of a page. *)
Definition padded (f : list Z) (s : nat) : list Z := f ++ replicate (128 * s + 128 - length f) 0.

Lemma padded_length f s : length (padded f s) = Nat.max (length f) (128 * s + 128).
Proof. unfold padded. rewrite length_app, length_replicate. lia. Qed.

Lemma padded_page f s j : (128 * j + 128 <= length f)%nat -> page (padded f s) j = page f j.
Proof.
  intros Hj. unfold page, padded. rewrite drop_app_le by lia. apply take_app_le. rewrite length_drop. lia.
Qed.

(** Writing a page anywhere. *)
Lemma file_WriteAt_any f data s :
  length data = 128%nat -> 0 <= s ->
  file_WriteAt f data (s * PageSize) = Ok (put_page (padded f (Z.to_nat s)) (Z.to_nat s) data).
Proof.
  intros Hd Hs. change PageSize with 128. unfold file_WriteAt. rewrite ASSERT_true by lia. cbn [mbind outcome_bind].
  replace (Z.to_nat (s * 128)) with (128 * Z.to_nat s)%nat by lia. rewrite Hd.
  unfold put_page, padded. generalize (Z.to_nat s) as n. intros n. f_equal.
  rewrite take_app, drop_app, take_replicate, drop_replicate, <- app_assoc. do 2 f_equal.
  - f_equal. lia.
  - do 2 f_equal. replace (128 * n + 128 - length f - (128 * n + 128 - length f))%nat with 0%nat by lia.
    by rewrite app_nil_r.
Qed.

Lemma put_bytes_page mem data i :
  length data = 128%nat -> (128 * i + 128 <= length mem)%nat ->
  put_bytes mem (Z.of_nat i * PageSize) data = Ok (put_page mem i data).
Proof.
  intros Hd Hm. change PageSize with 128. unfold put_bytes. rewrite Hd.
  destruct (Z.ltb_spec (Z.of_nat i * 128) 0); [lia|].
  destruct (Z.ltb_spec (Z.of_nat (length mem)) (Z.of_nat i * 128 + Z.of_nat 128)); [lia|]. cbn [orb].
  by replace (Z.to_nat (Z.of_nat i * 128)) with (128 * i)%nat by lia.
Qed.

Lemma get_bytes_page mem i :
  (128 * i + 128 <= length mem)%nat -> get_bytes mem (Z.of_nat i * PageSize) PageSize = Ok (page mem i).
Proof.
  intros Hm. change PageSize with 128. unfold get_bytes.
  destruct (Z.ltb_spec (Z.of_nat i * 128) 0); [lia|].
  destruct (Z.ltb_spec (Z.of_nat (length mem)) (Z.of_nat i * 128 + 128)); [lia|]. cbn [orb].
  by replace (Z.to_nat (Z.of_nat i * 128)) with (128 * i)%nat by lia.
Qed.

(** ** The invariant *)

Section coherence.
Context {M P : Type} `{BitAllocatorLaws M} `{ReplacementLaws P}.
Implicit Types v : vm M P.

Definition frame v (i : nat) : list Z := page (mainMemory v) i.
Definition swapped v (s : Z) : list Z := page (swapFile v) (Z.to_nat s).

(** The swap page [s] exists. *)
Definition on_swap v (s : Z) : Prop := 0 <= s /\ 128 * (s + 1) <= Z.of_nat (length (swapFile v)).

(** What the swap page [s] holds for its owner: the frame it is loaded in, or swap. *)
Definition contents v (s : Z) : list Z :=
  match list_find (fun x => x = s) (activePageMap v) with
  | Some (i, _) => frame v i
  | None => swapped v s
  end.

(** Main memory, swap and the tables agree. *)
Record core_ok v : Prop := {
  co_mem : length (mainMemory v) = 4096%nat;
  co_buf : length (diskBuffer v) = 128%nat;
  co_map : length (activePageMap v) = 32%nat;
  co_act : length (activePages v) = 32%nat;
  co_inj i j s : activePageMap v !! i = Some s -> activePageMap v !! j = Some s -> s <> -1 -> i = j;
  co_active i s : activePageMap v !! i = Some s -> s <> -1 ->
    on_swap v s /\ exists ptr e, activePages v !! i = Some (Some ptr) /\ entries v !! ptr = Some e /\
      physicalPage e = s /\ (dirty e = false -> frame v i = swapped v s) }.

(** The frames that hold a page. *)
Definition used_frames (m : list Z) : list Z := filter (fun i => m !! Z.to_nat i <> Some (-1)) (seqZ 0 32).

(** The bitmap of the frames and the policy agree with the tables. *)
Record alloc_ok v : Prop := {
  ao_inv : ba_inv (memMgr v);
  ao_size : ba_size (memMgr v) = 32;
  ao_used i s : activePageMap v !! i = Some s -> ba_used (memMgr v) (Z.of_nat i) = bool_decide (s <> -1);
  ao_policy : rp_tracks (policy v) (used_frames (activePageMap v)) }.

Lemma contents_frame v i s : core_ok v -> activePageMap v !! i = Some s -> s <> -1 -> contents v s = frame v i.
Proof.
  intros Hc Hi Hs. unfold contents.
  destruct (list_find (fun x => x = s) (activePageMap v)) as [[j x]|] eqn:Hf.
  - apply list_find_Some in Hf as (Hj & -> & _). by rewrite (co_inj _ Hc i j s).
  - apply list_find_None in Hf. by eapply (Forall_lookup_1 _ _ _ _ Hf) in Hi.
Qed.

Lemma contents_swapped v s : ~ (s ∈ activePageMap v) -> contents v s = swapped v s.
Proof.
  intros Hs. unfold contents.
  destruct (list_find (fun x => x = s) (activePageMap v)) as [[j x]|] eqn:Hf; [|done].
  apply list_find_Some in Hf as (Hj & -> & _). by apply list_elem_of_lookup_2 in Hj.
Qed.

(** ** Loading a page *)

(** The state after the swap page [s] was loaded into frame [i] for the entry [ptr]. *)
Definition loaded v (i : nat) (s : Z) (ptr : positive) : vm M P :=
  mkVm (put_page (mainMemory v) i (swapped v s)) (swapFile v) (swapped v s) (entries v) (memMgr v) (swapMap v)
    (policy v) (<[i := s]> (activePageMap v)) (<[i := Some ptr]> (activePages v)).

Section loading.
Context (v : vm M P) (i : nat) (s : Z) (ptr : positive) (e : TranslationEntry).
Hypothesis Hc : core_ok v.
Hypothesis Hi : (i < 32)%nat.
Hypothesis Hs : on_swap v s.
Hypothesis Hnew : ~ (s ∈ activePageMap v).
Hypothesis He : entries v !! ptr = Some e.
Hypothesis Hes : physicalPage e = s.
(** The frame may be overwritten. *)
Hypothesis Hclean : forall s0, activePageMap v !! i = Some s0 -> s0 <> -1 -> frame v i = swapped v s0.

Lemma swapped_length : length (swapped v s) = 128%nat.
Proof. destruct Hs as [Hs0 Hs1]. apply page_length. lia. Qed.

Lemma load_run :
  SwapManager_swap v (Z.of_nat i) s =
  Ok (with_memory (with_diskBuffer v (swapped v s)) (put_page (mainMemory v) i (swapped v s))).
Proof.
  destruct Hs as [Hs0 Hs1]. unfold SwapManager_swap. rewrite file_ReadAt_page by (done || apply Hc).
  cbn [mbind outcome_bind mainMemory diskBuffer with_diskBuffer]. fold (swapped v s).
  rewrite put_bytes_page; [done|apply swapped_length|]. rewrite (co_mem _ Hc). lia.
Qed.

Lemma loaded_frame : frame (loaded v i s ptr) i = swapped v s.
Proof. unfold frame. simpl. apply put_page_same; [apply swapped_length|]. rewrite (co_mem _ Hc). lia. Qed.

Lemma loaded_frame_other j : j <> i -> frame (loaded v i s ptr) j = frame v j.
Proof. intros Hj. unfold frame. simpl. apply put_page_other; [apply swapped_length| |done]. rewrite (co_mem _ Hc). lia. Qed.

Lemma loaded_map j s' : activePageMap (loaded v i s ptr) !! j = Some s' ->
  (j = i /\ s' = s) \/ (j <> i /\ activePageMap v !! j = Some s').
Proof.
  simpl. destruct (decide (j = i)) as [->|Hj].
  - rewrite list_lookup_insert_eq by (rewrite (co_map _ Hc); lia). intros [= <-]. by left.
  - rewrite list_lookup_insert_ne by done. by right.
Qed.

Lemma loaded_core : core_ok (loaded v i s ptr).
Proof.
  destruct Hc as [Hm Hb Hmap Hact Hinj Hactive]. constructor; simpl; try (by rewrite ?length_insert).
  - rewrite put_page_length; [done|apply swapped_length|rewrite Hm; lia].
  - apply swapped_length.
  - intros j j' s' [[-> ->]|[Hj Hj']]%loaded_map [[-> Hq1]|[Hq2 Hq3]]%loaded_map Hne; try done.
    + by apply list_elem_of_lookup_2 in Hq3.
    + subst s'. by apply list_elem_of_lookup_2 in Hj'.
    + by apply (Hinj _ _ s').
  - intros j s' [[-> ->]|[Hj Hj']]%loaded_map Hne.
    + split; [done|]. exists ptr, e. rewrite list_lookup_insert_eq by lia. split_and!; try done.
      intros _. apply loaded_frame.
    + destruct (Hactive j s' Hj' Hne) as (Ho & ptr' & e' & Hp & He' & Hpp & Hd). split; [done|].
      exists ptr', e'. rewrite list_lookup_insert_ne by done. rewrite loaded_frame_other by done. done.
Qed.

(** Every page of swap keeps what it holds. *)
Lemma loaded_contents s' : on_swap v s' -> contents (loaded v i s ptr) s' = contents v s'.
Proof.
  intros [Hs' _]. pose proof loaded_core as Hlc.
  destruct (decide (s' = s)) as [->|Hne].
  - rewrite (contents_swapped v s Hnew), <- loaded_frame. apply contents_frame; [done| |lia].
    simpl. apply list_lookup_insert_eq. rewrite (co_map _ Hc). lia.
  - destruct (decide (s' ∈ activePageMap v)) as [[j Hj]%list_elem_of_lookup|Hnin].
    + rewrite (contents_frame v j s' Hc Hj) by lia. destruct (decide (j = i)) as [->|Hji].
      * rewrite contents_swapped; [by rewrite (Hclean s' Hj) by lia|].
        intros [j [[_ ?]|[Hji Hj']]%loaded_map]%list_elem_of_lookup; [done|].
        apply Hji, (co_inj _ Hc j i s'); [done|done|lia].
      * rewrite <- (loaded_frame_other j Hji). apply contents_frame; [done| |lia].
        simpl. by rewrite list_lookup_insert_ne.
    + rewrite (contents_swapped v s' Hnin), (contents_swapped (loaded v i s ptr)); [done|].
      intros [j [[_ ?]|[_ Hj]]%loaded_map]%list_elem_of_lookup; [done|].
      by apply list_elem_of_lookup_2 in Hj.
Qed.
End loading.

(** ** Evicting a page *)

Definition cleaned (e : TranslationEntry) : TranslationEntry :=
  mkEntry (virtualPage e) (physicalPage e) (valid e) (readOnly e) false false.

(** The state after the page [s] in frame [i], of the entry [old], was evicted. *)
Definition evicted v (i : nat) (s : Z) (old : positive) (e : TranslationEntry) : vm M P :=
  mkVm (mainMemory v) (if dirty e then put_page (swapFile v) (Z.to_nat s) (frame v i) else swapFile v)
    (if dirty e then frame v i else diskBuffer v) (<[old := cleaned e]> (entries v)) (memMgr v) (swapMap v)
    (policy v) (activePageMap v) (activePages v).

Section eviction.
Context (v : vm M P) (i : nat) (s : Z) (old : positive) (e : TranslationEntry).
Hypothesis Hc : core_ok v.
Hypothesis Hi : activePageMap v !! i = Some s.
Hypothesis Hs : s <> -1.
Hypothesis Hold : activePages v !! i = Some (Some old).
Hypothesis He : entries v !! old = Some e.
Hypothesis Hes : physicalPage e = s.
Hypothesis Hclean : dirty e = false -> frame v i = swapped v s.

Lemma evict_bounds : (i < 32)%nat /\ on_swap v s /\ length (frame v i) = 128%nat.
Proof.
  apply lookup_lt_Some in Hi as Hlt. rewrite (co_map _ Hc) in Hlt.
  destruct (co_active _ Hc i s Hi Hs) as [Ho _]. split_and!; [done|done|].
  apply page_length. rewrite (co_mem _ Hc). lia.
Qed.

Lemma evict_run : evict v (Z.of_nat i) = Ok (evicted v i s old e).
Proof.
  destruct evict_bounds as (Hlt & [Hs0 Hs1] & Hfl). unfold evict.
  rewrite (proj2 (arr_get_ok _ _ (Some old))) by (split; [lia|]; by rewrite Nat2Z.id).
  cbn [mbind outcome_bind deref]. rewrite He. cbn [mbind outcome_bind deref dirty]. unfold evicted.
  destruct (dirty e) eqn:Hd; [|unfold cleaned, with_entries; do 3 f_equal].
  cbn [mainMemory with_entries]. rewrite get_bytes_page by (rewrite (co_mem _ Hc); lia). cbn [mbind outcome_bind].
  cbn [activePageMap with_diskBuffer with_entries].
  rewrite (proj2 (arr_get_ok _ _ s)) by (split; [lia|]; by rewrite Nat2Z.id). cbn [mbind outcome_bind].
  unfold SwapManager_writePage. cbn [swapFile diskBuffer with_diskBuffer with_entries]. rewrite Z.add_0_r.
  rewrite file_WriteAt_page by done. cbn [mbind outcome_bind]. unfold with_swapFile. simpl.
  by rewrite insert_insert_eq.
Qed.

Lemma evicted_swap_length : length (swapFile (evicted v i s old e)) = length (swapFile v).
Proof.
  destruct evict_bounds as (_ & [Hs0 Hs1] & Hfl). simpl. destruct (dirty e); [|done].
  apply put_page_length; [done|lia].
Qed.

(** The page is on swap now, and other pages are as before. *)
Lemma evicted_swapped : swapped (evicted v i s old e) s = frame v i.
Proof.
  destruct evict_bounds as (_ & [Hs0 Hs1] & Hfl). unfold swapped. simpl.
  destruct (dirty e) eqn:Hd; [apply put_page_same; [done|lia]|]. symmetry. by apply Hclean.
Qed.

Lemma evicted_swapped_other s' : 0 <= s' -> s' <> s -> swapped (evicted v i s old e) s' = swapped v s'.
Proof.
  intros Hs' Hne. destruct evict_bounds as (_ & [Hs0 Hs1] & Hfl). unfold swapped. simpl.
  destruct (dirty e); [|done]. apply put_page_other; [done|lia|lia].
Qed.

Lemma evicted_core : core_ok (evicted v i s old e).
Proof.
  destruct evict_bounds as (Hlt & _ & Hfl). pose proof evicted_swap_length as Hsl.
  pose proof Hc as [Hm Hb Hmap Hact Hinj Hactive]. constructor; try done.
  - simpl. by destruct (dirty e).
  - intros j s' Hj Hne. simpl in Hj. destruct (Hactive j s' Hj Hne) as ([Ho1 Ho2] & ptr & e' & Hp & He' & Hpp & Hd).
    split; [split; [done|by rewrite Hsl]|]. exists ptr. destruct (decide (ptr = old)) as [->|Hptr].
    + exists (cleaned e). simpl. rewrite lookup_insert_eq. split_and!; try done; [congruence|]. intros _.
      assert (s' = s) as -> by congruence. assert (j = i) as -> by (by apply (Hinj j i s)).
      by rewrite evicted_swapped.
    + exists e'. simpl. rewrite lookup_insert_ne by done. split_and!; try done. intros Hde.
      rewrite evicted_swapped_other; [by apply Hd|done|]. intros ->.
      assert (j = i) as -> by (by apply (Hinj j i s)). congruence.
Qed.

Lemma evicted_contents s' : on_swap v s' -> contents (evicted v i s old e) s' = contents v s'.
Proof.
  intros [Hs' _]. destruct (decide (s' ∈ activePageMap v)) as [[j Hj]%list_elem_of_lookup|Hnin].
  - rewrite (contents_frame v j s' Hc Hj) by lia. apply (contents_frame (evicted v i s old e) j s'); [|done|lia].
    apply evicted_core.
  - rewrite (contents_swapped v s' Hnin), (contents_swapped (evicted v i s old e)) by done.
    apply evicted_swapped_other; [done|]. intros ->. by apply list_elem_of_lookup_2 in Hi.
Qed.
End eviction.

(** ** The frames in use *)

Lemma elem_of_used_frames m x : x ∈ used_frames m <-> 0 <= x < 32 /\ m !! Z.to_nat x <> Some (-1).
Proof. unfold used_frames. rewrite list_elem_of_filter, elem_of_seqZ. split; intros [? ?]; split; auto; lia. Qed.

Lemma used_frames_nodup m : NoDup (used_frames m).
Proof. apply NoDup_filter, NoDup_seqZ. Qed.

Lemma used_frames_load m i s : (i < 32)%nat -> length m = 32%nat -> m !! i = Some (-1) -> s <> -1 ->
  used_frames (<[i := s]> m) ≡ₚ Z.of_nat i :: used_frames m.
Proof.
  intros Hi Hl Hm Hs. apply NoDup_Permutation; [apply used_frames_nodup| |].
  - apply NoDup_cons. split; [|apply used_frames_nodup]. rewrite elem_of_used_frames, Nat2Z.id. tauto.
  - intros x. rewrite elem_of_cons, !elem_of_used_frames. destruct (decide (x = Z.of_nat i)) as [->|Hx].
    + rewrite Nat2Z.id, list_lookup_insert_eq by lia. split; [by left|]. intros _. split; [lia|congruence].
    + split; [intros [Hr Hn]; right|intros [?|[Hr Hn]]; [done|]]; (split; [done|]);
        rewrite list_lookup_insert_ne in * by lia; done.
Qed.

Lemma used_frames_reload m i s : (i < 32)%nat -> length m = 32%nat -> m !! i <> Some (-1) -> s <> -1 ->
  used_frames (<[i := s]> m) ≡ₚ used_frames m.
Proof.
  intros Hi Hl Hm Hs. apply NoDup_Permutation; [apply used_frames_nodup..|].
  intros x. rewrite !elem_of_used_frames. destruct (decide (x = Z.of_nat i)) as [->|Hx].
  - rewrite Nat2Z.id, list_lookup_insert_eq by lia. split; intros [? _]; split; try done; congruence.
  - split; intros [Hr Hn]; (split; [done|]); rewrite list_lookup_insert_ne in * by lia; done.
Qed.

Lemma used_frames_all m : (forall i, (i < 32)%nat -> m !! i <> Some (-1)) -> used_frames m ≡ₚ seqZ 0 32.
Proof.
  intros Hall. unfold used_frames. rewrite filter_all; [done|]. apply Forall_forall. intros x [Hx1 Hx2]%elem_of_seqZ.
  apply Hall. lia.
Qed.

Lemma used_frames_short m i : (i < 32)%nat -> m !! i = Some (-1) -> (length (used_frames m) < 32)%nat.
Proof.
  intros Hi Hm. assert (Z.of_nat i :: used_frames m ⊆+ seqZ 0 32) as Hsub.
  { apply NoDup_submseteq.
    - apply NoDup_cons. split; [|apply used_frames_nodup]. rewrite elem_of_used_frames, Nat2Z.id. tauto.
    - intros x [->|[Hx _]%elem_of_used_frames]%elem_of_cons; apply elem_of_seqZ; lia. }
  apply submseteq_length in Hsub. rewrite length_seqZ in Hsub. simpl in Hsub. lia.
Qed.

(** ** Swapping *)

Lemma elem_of_insert (l : list Z) i x y : y ∈ <[i := x]> l -> y = x \/ y ∈ l.
Proof.
  intros [j Hj]%list_elem_of_lookup. apply list_lookup_insert_Some in Hj as [(_ & <- & _)|[_ Hj]]; [by left|right].
  by eapply list_elem_of_lookup_2.
Qed.

(** [v'] serves the page [s] from frame [i], and no page of swap has changed for its
    owner. *)
Record served v v' (s : Z) (i : nat) : Prop := {
  sv_core : core_ok v';
  sv_alloc : alloc_ok v';
  sv_map : activePageMap v' !! i = Some s;
  sv_frame : frame v' i = contents v s;
  sv_swap : length (swapFile v') = length (swapFile v);
  sv_swapMap : swapMap v' = swapMap v;
  sv_entries : mapping <$> entries v' = mapping <$> entries v;
  sv_resident s' : s' ∈ activePageMap v' -> s' = s \/ s' ∈ activePageMap v;
  sv_contents s' : on_swap v s' -> contents v' s' = contents v s' }.

Lemma core_ok_ext v m p : core_ok v -> core_ok (with_policy (with_memMgr v m) p).
Proof. intros [Hm Hb Hmap Hact Hinj Hactive]. by constructor. Qed.

(** The end of [VMManager_swap], with the frame chosen. *)
Lemma swap_finish v i s ptr :
  core_ok v -> (i < 32)%nat -> on_swap v s ->
  (v ← SwapManager_swap v (Z.of_nat i) s;
   m ← arr_set (activePageMap v) (Z.of_nat i) s;
   a ← arr_set (activePages v) (Z.of_nat i) (Some ptr);
   Ok (Z.of_nat i, with_active v m a)) = Ok (Z.of_nat i, loaded v i s ptr).
Proof.
  intros Hc Hi Hs. rewrite load_run by done. cbn [mbind outcome_bind activePageMap activePages with_memory with_diskBuffer].
  rewrite (arr_set_in (activePageMap v)) by (rewrite (co_map _ Hc); lia). cbn [mbind outcome_bind].
  rewrite (arr_set_in (activePages v)) by (rewrite (co_act _ Hc); lia). cbn [mbind outcome_bind].
  by rewrite Nat2Z.id.
Qed.

Section swapping.
Context (v : vm M P) (ptr : positive) (e : TranslationEntry).
Hypothesis Hc : core_ok v.
Hypothesis Ha : alloc_ok v.
Hypothesis He : entries v !! ptr = Some e.
Hypothesis Hs : on_swap v (physicalPage e).
Hypothesis Hnew : ~ (physicalPage e ∈ activePageMap v).

Lemma swap_into_free : 0 < ba_free (memMgr v) ->
  exists i v', VMManager_swap v ptr = Ok (Z.of_nat i, v') /\ served v v' (physicalPage e) i.
Proof.
  intros Hfree. unfold VMManager_swap, MemoryManager_getFreePageCount, MemoryManager_getPage.
  rewrite He. cbn [mbind outcome_bind deref]. rewrite ba_numClear_ok by apply Ha. cbn [mbind outcome_bind].
  destruct (Z.ltb_spec 0 (ba_free (memMgr v))) as [_|]; [|lia].
  destruct (ba_find_free (memMgr v)) as (k & m & -> & Hinv & Hsz & Hk & Hku & _ & _ & Hu); [apply Ha|done|].
  rewrite (ao_size _ Ha) in Hk. assert (exists i, k = Z.of_nat i) as [i ->] by (exists (Z.to_nat k); lia).
  cbn [mbind outcome_bind policy with_memMgr].
  destruct (lookup_lt_is_Some_2 (activePageMap v) i) as [s0 Hs0]; [rewrite (co_map _ Hc); lia|].
  assert (s0 = -1) as ->.
  { rewrite (ao_used _ Ha i s0 Hs0) in Hku. apply bool_decide_eq_false in Hku. by apply dec_stable. }
  destruct (rp_used (policy v) (used_frames (activePageMap v)) (Z.of_nat i)) as (p & -> & Hp).
  - apply Ha.
  - rewrite elem_of_used_frames, Nat2Z.id. tauto.
  - change NumPhysPages with 32. lia.
  - apply (used_frames_short _ i); [lia|done].
  - cbn [mbind outcome_bind]. set (v1 := with_policy (with_memMgr v m) p).
    assert (core_ok v1) as Hc1 by (by apply core_ok_ext). destruct Hs as [Hs1 Hs2].
    rewrite swap_finish by (done || lia). exists i, (loaded v1 i (physicalPage e) ptr). split; [done|].
    assert (forall s0, activePageMap v1 !! i = Some s0 -> s0 <> -1 -> frame v1 i = swapped v1 s0) as Hcl
      by (intros s0 Hs0' Hne; change (activePageMap v1) with (activePageMap v) in Hs0'; congruence).
    constructor.
    + apply (loaded_core v1 i (physicalPage e) ptr e); try done. lia.
    + constructor; simpl; [done|by rewrite Hsz, (ao_size _ Ha)| |].
      * intros j s' Hj. rewrite Hu by lia. destruct (decide (j = i)) as [->|Hji].
        -- rewrite list_lookup_insert_eq in Hj by (rewrite (co_map _ Hc); lia). injection Hj as <-.
           by rewrite !bool_decide_eq_true_2 by (done || lia).
        -- rewrite list_lookup_insert_ne in Hj by done. rewrite bool_decide_eq_false_2 by lia. by apply (ao_used _ Ha).
      * eapply rp_tracks_perm; [|exact Hp]. symmetry. apply used_frames_load; [lia|apply Hc|done|lia].
    + simpl. apply list_lookup_insert_eq. rewrite (co_map _ Hc). lia.
    + rewrite loaded_frame by (done || lia). by rewrite contents_swapped.
    + done.
    + done.
    + done.
    + apply elem_of_insert.
    + intros s' Ho. apply (loaded_contents v1 i (physicalPage e) ptr e); try done. lia.
Qed.

Lemma swap_with_victim : ba_free (memMgr v) = 0 ->
  exists i v', VMManager_swap v ptr = Ok (Z.of_nat i, v') /\ served v v' (physicalPage e) i.
Proof.
  intros Hfree. unfold VMManager_swap, MemoryManager_getFreePageCount.
  rewrite He. cbn [mbind outcome_bind deref]. rewrite ba_numClear_ok by apply Ha. cbn [mbind outcome_bind].
  rewrite Hfree. cbn [Z.ltb Z.compare].
  assert (forall j, (j < 32)%nat -> activePageMap v !! j <> Some (-1)) as Hall.
  { intros j Hj Hm. pose proof (ao_used _ Ha j (-1) Hm) as Hu. unfold ba_free in Hfree.
    rewrite (ao_size _ Ha) in Hfree. rewrite (proj1 (count_clear_zero _ _ _) Hfree) in Hu; [done|lia]. }
  destruct (rp_victim (policy v) (used_frames (activePageMap v))) as (k & p & -> & Hk & Hp);
    [apply Ha|by apply used_frames_all|]. change NumPhysPages with 32 in Hk.
  assert (exists i, k = Z.of_nat i) as [i ->] by (exists (Z.to_nat k); lia). cbn [mbind outcome_bind].
  destruct (lookup_lt_is_Some_2 (activePageMap v) i) as [s0 Hs0]; [rewrite (co_map _ Hc); lia|].
  assert (s0 <> -1) as Hne by (intros ->; apply (Hall i); [lia|done]).
  set (v0 := with_policy v p). assert (core_ok v0) as Hc0 by (destruct Hc; by constructor).
  destruct (co_active _ Hc0 i s0 Hs0 Hne) as (_ & old & eo & Hold & Heo & Hpo & Hd).
  rewrite (evict_run v0 i s0 old eo) by done. cbn [mbind outcome_bind].
  set (v1 := evicted v0 i s0 old eo). assert (core_ok v1) as Hc1 by (by apply evicted_core).
  assert (on_swap v1 (physicalPage e)) as Hs1.
  { unfold on_swap, v1. by rewrite (evicted_swap_length v0 i s0 old eo) by done. }
  rewrite swap_finish by (done || lia). exists i, (loaded v1 i (physicalPage e) ptr). split; [done|].
  assert (entries v1 !! ptr = Some e) as He1.
  { simpl. rewrite lookup_insert_ne; [done|]. intros ->. apply Hnew. apply list_elem_of_lookup_2 in Hs0.
    change (entries v0) with (entries v) in Heo. by replace (physicalPage e) with s0 by congruence. }
  assert (forall s1, activePageMap v1 !! i = Some s1 -> s1 <> -1 -> frame v1 i = swapped v1 s1) as Hcl.
  { intros s1 Hs1' _. assert (s1 = s0) as -> by (simpl in Hs1'; congruence).
    unfold v1. by rewrite evicted_swapped. }
  assert (forall s', on_swap v s' -> contents v1 s' = contents v s') as Hcont.
  { intros s' Ho. apply (evicted_contents v0 i s0 old eo); done. }
  constructor.
  - apply (loaded_core v1 i (physicalPage e) ptr e); try done. lia.
  - destruct Hs as [Hs2 Hs3]. constructor; simpl; [apply Ha|apply Ha| |].
    + intros j s' Hj. destruct (decide (j = i)) as [->|Hji].
      * rewrite list_lookup_insert_eq in Hj by (rewrite (co_map _ Hc); lia). injection Hj as <-.
        rewrite (ao_used _ Ha i s0 Hs0). by rewrite !bool_decide_eq_true_2 by (done || lia).
      * rewrite list_lookup_insert_ne in Hj by done. by apply (ao_used _ Ha).
    + eapply rp_tracks_perm; [|exact Hp]. symmetry. apply used_frames_reload; [lia|apply Hc|apply Hall; lia|lia].
  - simpl. apply list_lookup_insert_eq. rewrite (co_map _ Hc). lia.
  - rewrite loaded_frame by (done || lia). rewrite <- (contents_swapped v1) by done. by apply Hcont.
  - simpl. by apply (evicted_swap_length v0 i s0 old eo).
  - done.
  - simpl. rewrite fmap_insert. apply insert_id. rewrite lookup_fmap. change (entries v) with (entries v0). by rewrite Heo.
  - apply elem_of_insert.
  - intros s' Ho. rewrite (loaded_contents v1 i (physicalPage e) ptr e); try done; [by apply Hcont|lia|].
    unfold on_swap, v1. by rewrite (evicted_swap_length v0 i s0 old eo) by done.
Qed.

Lemma swap_serves : exists i v', VMManager_swap v ptr = Ok (Z.of_nat i, v') /\ served v v' (physicalPage e) i.
Proof.
  pose proof (ba_free_nonneg (memMgr v)).
  destruct (decide (ba_free (memMgr v) = 0)); [by apply swap_with_victim|by apply swap_into_free; lia].
Qed.
End swapping.

(** ** The other operations *)

(** The bitmap of the swap pages covers the resident ones. *)
Record swap_ok v : Prop := {
  so_inv : ba_inv (swapMap v);
  so_size : ba_size (swapMap v) = SWAP_SIZE;
  so_resident s : s ∈ activePageMap v -> s <> -1 -> s < SWAP_SIZE /\ ba_used (swapMap v) s = true }.

(** [v'] has a new swap file that agrees with the old one on the resident pages that are
    clean; the tables are the same. *)
Lemma core_ok_swapFile v f b m :
  core_ok v -> length b = 128%nat -> (length (swapFile v) <= length f)%nat ->
  (forall s, s ∈ activePageMap v -> s <> -1 -> page f (Z.to_nat s) = swapped v s) ->
  core_ok (with_swapFile (with_diskBuffer (with_swapMap v m) b) f).
Proof.
  intros [Hm Hb Hmap Hact Hinj Hactive] Hlb Hlf Hp. constructor; try done.
  intros i s Hi Hs. destruct (Hactive i s Hi Hs) as ([Ho1 Ho2] & ptr & e & Hptr & He & Hes & Hd).
  split; [split; [done|simpl; lia]|]. exists ptr, e. split_and!; try done. intros Hde.
  unfold swapped. simpl. rewrite Hp; [by apply Hd| |done]. by apply list_elem_of_lookup_2 in Hi.
Qed.

(** Writing the page [s], which is not resident, into the swap file. *)
Definition swap_written v (m : M) (s : Z) (data : list Z) : vm M P :=
  with_swapFile (with_diskBuffer (with_swapMap v m) data)
    (put_page (padded (swapFile v) (Z.to_nat s)) (Z.to_nat s) data).

Section writing.
Context (v : vm M P) (m : M) (s : Z) (data : list Z).
Hypothesis Hc : core_ok v.
Hypothesis Hs : 0 <= s.
Hypothesis Hd : length data = 128%nat.
Hypothesis Hnin : ~ (s ∈ activePageMap v).

Lemma swap_written_length : (length (swapFile v) <= length (swapFile (swap_written v m s data)))%nat /\
  on_swap (swap_written v m s data) s.
Proof.
  unfold on_swap. simpl. rewrite put_page_length by (done || rewrite padded_length; lia).
  rewrite padded_length. lia.
Qed.

Lemma swap_written_other s' : on_swap v s' -> s' <> s -> swapped (swap_written v m s data) s' = swapped v s'.
Proof.
  intros [Hs0 Hs1] Hne. unfold swapped. simpl.
  rewrite put_page_other by (done || lia || rewrite padded_length; lia). apply padded_page. lia.
Qed.

Lemma swap_written_core : core_ok (swap_written v m s data).
Proof.
  apply core_ok_swapFile; [done|done|apply swap_written_length|].
  intros s' Hin Hne. apply list_elem_of_lookup in Hin as Hl. destruct Hl as [i Hi].
  destruct (co_active _ Hc i s' Hi Hne) as [Ho _]. apply (swap_written_other s' Ho). congruence.
Qed.

Lemma swap_written_contents :
  contents (swap_written v m s data) s = data /\
  forall s', on_swap v s' -> s' <> s -> contents (swap_written v m s data) s' = contents v s'.
Proof.
  split.
  - rewrite contents_swapped by done. unfold swapped. simpl. apply put_page_same; [done|]. rewrite padded_length. lia.
  - intros s' Ho Hne. destruct (decide (s' ∈ activePageMap v)) as [[j Hj]%list_elem_of_lookup|Hn].
    + destruct Ho as [Ho1 _]. rewrite (contents_frame v j s' Hc Hj) by lia.
      apply (contents_frame (swap_written v m s data) j s'); [apply swap_written_core|done|lia].
    + rewrite (contents_swapped v s' Hn), (contents_swapped (swap_written v m s data)) by done.
      by apply swap_written_other.
Qed.
End writing.
End coherence.

(** ** Serving a page *)

Lemma getPhysicalPage_serves {M P} `{BitAllocatorLaws M} `{ReplacementLaws P} (v : vm M P) ptr e :
  core_ok v -> alloc_ok v -> entries v !! ptr = Some e -> on_swap v (physicalPage e) ->
  exists i v', VMManager_getPhysicalPage v ptr = Ok (Z.of_nat i, v') /\ (i < 32)%nat /\
    served v v' (physicalPage e) i.
Proof.
  intros Hc Ha He Hs. unfold VMManager_getPhysicalPage. rewrite He. cbn [mbind outcome_bind deref].
  pose proof (co_map _ Hc) as Hmap. destruct Hs as [Hs0 Hs1].
  destruct (decide (physicalPage e ∈ activePageMap v)) as [Hin|Hnin].
  - destruct (first_place _ _ Hin Hmap) as (pre & post & Hq & Hsr). rewrite Hsr. cbn [mbind outcome_bind].
    assert (length pre < 32)%nat by (rewrite Hq, length_app in Hmap; simpl in Hmap; lia).
    assert (activePageMap v !! length pre = Some (physicalPage e)) as Hi by (rewrite Hq; by apply list_lookup_middle).
    change NumPhysPages with 32. destruct (Z.ltb_spec (Z.of_nat (length pre)) 32); [|lia].
    exists (length pre), v. split; [done|]. split; [done|]. constructor; try done; [|by right].
    symmetry. apply contents_frame; [done|done|lia].
  - rewrite (search_absent _ _ Hnin Hmap). cbn [mbind outcome_bind]. change (32 <? NumPhysPages) with false. cbv iota.
    destruct (swap_serves v ptr e Hc Ha He ltac:(done) Hnin) as (i & v' & Hrun & Hsv).
    exists i, v'. split; [done|]. split; [|done]. pose proof (sv_map _ _ _ _ Hsv) as Hi.
    apply lookup_lt_Some in Hi. by rewrite (co_map _ (sv_core _ _ _ _ Hsv)) in Hi.
Qed.

(** ** Dropping a resident page *)

Section dropping.
Context {M P : Type} `{BitAllocatorLaws M} `{ReplacementLaws P}.
Context (v : vm M P) (i : nat) (s : Z).
Hypothesis Hc : core_ok v.
Hypothesis Hi : activePageMap v !! i = Some s.
Hypothesis Hs : s <> -1.

Definition dropped (m : M) : vm M P :=
  with_memMgr (with_active v (<[i := -1]> (activePageMap v)) (<[i := None]> (activePages v))) m.

Lemma dropped_bound : (i < 32)%nat.
Proof. apply lookup_lt_Some in Hi. by rewrite (co_map _ Hc) in Hi. Qed.

Lemma dropped_lookup m j s' : activePageMap (dropped m) !! j = Some s' -> s' <> -1 ->
  j <> i /\ activePageMap v !! j = Some s'.
Proof.
  pose proof dropped_bound as Hlt. simpl. destruct (decide (j = i)) as [->|Hji].
  - rewrite list_lookup_insert_eq by (rewrite (co_map _ Hc); lia). by intros [= <-].
  - rewrite list_lookup_insert_ne by done. done.
Qed.

Lemma dropped_core m : core_ok (dropped m).
Proof.
  pose proof Hc as [Hm Hb Hmap Hact Hinj Hactive]. constructor; simpl; try (by rewrite ?length_insert).
  - intros j j' s' Hj Hj' Hne. apply (dropped_lookup m) in Hj as [_ Hj]; [|done]. apply (dropped_lookup m) in Hj' as [_ Hj']; [|done].
    by apply (Hinj j j' s').
  - intros j s' Hj Hne. apply (dropped_lookup m) in Hj as [Hji Hj]; [|done].
    rewrite list_lookup_insert_ne by done. by apply Hactive.
Qed.

Lemma dropped_nin m : ~ (s ∈ activePageMap (dropped m)).
Proof.
  intros [j Hj]%list_elem_of_lookup. apply (dropped_lookup m) in Hj as [Hji Hj]; [|done].
  by apply Hji, (co_inj _ Hc j i s).
Qed.

Lemma dropped_contents m s' : on_swap v s' -> s' <> s -> contents (dropped m) s' = contents v s'.
Proof.
  intros [Hs' _] Hne. destruct (decide (s' ∈ activePageMap v)) as [[j Hj]%list_elem_of_lookup|Hnin].
  - rewrite (contents_frame v j s' Hc Hj) by lia.
    apply (contents_frame (dropped m) j s'); [apply dropped_core| |lia].
    simpl. rewrite list_lookup_insert_ne; [done|]. congruence.
  - rewrite (contents_swapped v s' Hnin), (contents_swapped (dropped m)); [done|].
    intros [j Hj]%list_elem_of_lookup. apply (dropped_lookup m) in Hj as [_ Hj]; [|lia]. by apply list_elem_of_lookup_2 in Hj.
Qed.

Lemma dropped_frames : used_frames (activePageMap v) ≡ₚ Z.of_nat i :: used_frames (<[i := -1]> (activePageMap v)).
Proof.
  pose proof dropped_bound as Hlt. pose proof (co_map _ Hc) as Hl.
  rewrite <- (used_frames_load _ i s); [|done|by rewrite length_insert|apply list_lookup_insert_eq; lia|done].
  by rewrite list_insert_insert_eq, list_insert_id.
Qed.
End dropping.

(** [clearPage] of the page [s] in frame [i]. *)
Record cleared {M P} `{BitAllocatorLaws M} `{ReplacementLaws P} (v v' : vm M P) (s : Z) (i : nat) : Prop := {
  cl_core : core_ok v';
  cl_alloc : alloc_ok v';
  cl_swap : swap_ok v';
  cl_entries : entries v' = entries v;
  cl_active : activePageMap v' = <[i := -1]> (activePageMap v);
  cl_frame : ba_used (memMgr v') (Z.of_nat i) = false;
  cl_bits j : 0 <= j -> ba_used (swapMap v') j = negb (bool_decide (s = j)) && ba_used (swapMap v) j;
  cl_size : ba_inv (swapMap v') /\ ba_size (swapMap v') = ba_size (swapMap v);
  cl_on s' : on_swap v s' -> on_swap v' s';
  cl_zero : contents v' s = zero_page;
  cl_contents s' : on_swap v s' -> s' <> s -> contents v' s' = contents v s' }.

Lemma clearPage_drops {M P} `{BitAllocatorLaws M} `{ReplacementLaws P} (v : vm M P) s i :
  core_ok v -> alloc_ok v -> swap_ok v -> 0 <= s < SWAP_SIZE -> activePageMap v !! i = Some s ->
  exists v', VMManager_clearPage v s = Ok v' /\ cleared v v' s i.
Proof.
  intros Hc Ha [Hinv Hsz Hres] Hs Hi. unfold VMManager_clearPage, MemoryManager_clearPage. pose proof (co_map _ Hc) as Hmap.
  pose proof (dropped_bound v i s Hc Hi) as Hlt.
  destruct (first_place s (activePageMap v)) as (pre & post & Hq & Hsr); [by eapply list_elem_of_lookup_2|done|].
  assert (length pre = i) as Hpre.
  { apply (co_inj _ Hc _ _ s); [rewrite Hq; by apply list_lookup_middle|done|lia]. }
  rewrite Hsr, Hpre. cbn [mbind outcome_bind]. change NumPhysPages with 32.
  destruct (Z.ltb_spec (Z.of_nat i) 32); [|lia].
  rewrite (arr_set_in (activePageMap v)) by (rewrite Hmap; lia). cbn [mbind outcome_bind].
  rewrite (arr_set_in (activePages v)) by (rewrite (co_act _ Hc); lia). cbn [mbind outcome_bind]. rewrite Nat2Z.id.
  cbn [memMgr with_active].
  destruct (ba_clear_ok (memMgr v) (Z.of_nat i)) as (m & -> & Hm1 & Hm2 & Hm3); [apply Ha|rewrite (ao_size _ Ha); lia|].
  cbn [mbind outcome_bind]. fold (dropped v i m). unfold SwapManager_clearPage.
  assert (length zero_page = 128%nat) as Hz by done.
  cbn [swapFile diskBuffer swapMap with_diskBuffer dropped with_memMgr with_active].
  rewrite file_WriteAt_any by (done || lia). cbn [mbind outcome_bind].
  destruct (ba_clear_ok (swapMap v) s) as (sm & -> & Hs1 & Hs2 & Hs3); [done|lia|]. cbn [mbind outcome_bind policy].
  destruct (rp_clear (policy v) (used_frames (<[i := -1]> (activePageMap v))) (Z.of_nat i)) as (p & Hp & Hpt).
  { eapply rp_tracks_perm; [by apply (dropped_frames v i s); [..|lia]|apply Ha]. }
  cbn [with_swapMap with_swapFile with_diskBuffer dropped with_memMgr with_active policy]. rewrite Hp. cbn [mbind outcome_bind].
  pose proof (dropped_core v i s Hc Hi m) as Hdc.
  assert (~ (s ∈ activePageMap (dropped v i m))) as Hdn by (apply (dropped_nin v i s); [done|done|lia]).
  pose proof (swap_written_core (dropped v i m) sm s zero_page Hdc ltac:(lia) Hz Hdn) as Hwc.
  destruct (swap_written_contents (dropped v i m) sm s zero_page Hdc ltac:(lia) Hz Hdn) as [Hw1 Hw2].
  exists (with_policy (swap_written (dropped v i m) sm s zero_page) p). split; [done|].
  assert (core_ok (with_policy (swap_written (dropped v i m) sm s zero_page) p)) as Hcore by (by destruct Hwc).
  destruct (swap_written_length (dropped v i m) sm s zero_page ltac:(lia) Hz) as [Hlen _].
  split; try done.
  - constructor; simpl; [done|by rewrite Hm2, (ao_size _ Ha)| |done].
    intros j s' Hj. rewrite Hm3 by lia. destruct (decide (j = i)) as [->|Hji].
    + rewrite list_lookup_insert_eq in Hj by lia. injection Hj as <-. by rewrite bool_decide_eq_true_2.
    + rewrite list_lookup_insert_ne in Hj by done. rewrite bool_decide_eq_false_2 by lia. by apply (ao_used _ Ha).
  - constructor; simpl; [done|congruence|]. intros s' Hin Hne. assert (s' <> s) as Hss by (intros ->; by apply Hdn).
    apply elem_of_insert in Hin as [->|Hin]; [done|]. destruct (Hres s' Hin Hne) as [Hlt' Hus]. split; [done|].
    apply list_elem_of_lookup in Hin as [j Hj]. destruct (co_active _ Hc j s' Hj Hne) as [[? _] _].
    rewrite Hs3 by lia. rewrite bool_decide_eq_false_2 by congruence. done.
  - simpl. rewrite Hm3 by lia. by rewrite bool_decide_eq_true_2.
  - intros s' [Ho1 Ho2]. split; [done|]. simpl in Hlen |- *. lia.
  - intros s' Ho Hne. rewrite <- (dropped_contents v i s Hc Hi m s' Ho Hne). by apply Hw2.
Qed.

(** ** A concrete pager *)

(** Two pages on swap, none of them resident. *)
Definition demo_entry : TranslationEntry := mkEntry 0 1 false false false false.
Definition demo_vm : vm BitMap RandomReplacement :=
  mkVm (replicate 4096 7) (replicate 256 5) (replicate 128 0) (<[1%positive := demo_entry]> ∅)
    (mkBitMap 32 1 [0]) (mkBitMap 512 16 (3 :: replicate 15 0)) (mkRandom empty_queue (replicate 624 1) 0)
    empty_queue (replicate 32 None).

Lemma empty_queue_lookup i s : empty_queue !! i = Some s -> s = -1.
Proof. by intros [-> _]%lookup_replicate. Qed.

Lemma demo_core : core_ok demo_vm.
Proof. constructor; try done; intros i; [intros j|]; intros s Hi%empty_queue_lookup; by intros. Qed.

Lemma demo_swap_ok : swap_ok demo_vm.
Proof.
  constructor; [|done|].
  - split; [done|]. split; [done|]. split; [done|]. apply Forall_cons. split; [by split|]. by apply Forall_replicate.
  - intros s [i Hi%empty_queue_lookup]%list_elem_of_lookup. done.
Qed.

Lemma demo_alloc : alloc_ok demo_vm.
Proof.
  constructor.
  - split; [done|]. split; [done|]. split; [done|]. forall_lia.
  - done.
  - intros i s Hi. assert (i < 32)%nat as Hlt by (exact (lookup_lt_Some _ _ _ Hi)).
    apply empty_queue_lookup in Hi as ->. change (bool_decide (-1 <> -1)) with false.
    unfold ba_used. cbn [BitMap_allocator demo_vm memMgr]. unfold bm_bit. cbn [bm_map].
    rewrite Z.div_small by lia. apply Z.testbit_0_l.
  - split; [by split|]. constructor; [reflexivity|vm_compute; lia|]. vm_compute. apply (not_elem_of_nil (A := Z)).
Qed.

(** ** Properties *)

(** Demand paging is transparent. [getPhysicalPage] of the entry of a swap page
    returns a frame that holds that page's contents, swapping it in when no frame does,
    into a free frame or in the place of the policy's victim, which is written to swap
    when it is dirty. No page of swap changes its contents by this, and the tables, the
    bitmap of frames and the policy stay consistent. *)
Theorem getPhysicalPage_coherent {M P} `{BitAllocatorLaws M} `{ReplacementLaws P} (v : vm M P) ptr e :
  core_ok v -> alloc_ok v -> entries v !! ptr = Some e -> on_swap v (physicalPage e) ->
  exists i v', VMManager_getPhysicalPage v ptr = Ok (Z.of_nat i, v') /\ (i < 32)%nat /\
    served v v' (physicalPage e) i.
Proof. apply getPhysicalPage_serves. Qed.

Lemma getPhysicalPage_coherent_witness :
  exists i v', VMManager_getPhysicalPage demo_vm 1%positive = Ok (Z.of_nat i, v') /\ (i < 32)%nat /\
    served demo_vm v' 1 i.
Proof.
  apply (getPhysicalPage_coherent demo_vm 1%positive demo_entry).
  - exact demo_core.
  - exact demo_alloc.
  - reflexivity.
  - split; vm_compute; discriminate.
Defined.

(** [getPage] takes a swap page that was free and fills it with zeros; it changes no
    other page, and it fails its assertion when swap is full. *)
Theorem getPage_fresh {M P} `{BitAllocatorLaws M} `{ReplacementLaws P} (v : vm M P) :
  core_ok v -> swap_ok v ->
  (0 < ba_free (swapMap v) -> exists s v', VMManager_getPage v = Ok (s, v') /\ core_ok v' /\ swap_ok v' /\
     0 <= s < SWAP_SIZE /\ ba_used (swapMap v) s = false /\ ba_used (swapMap v') s = true /\
     on_swap v' s /\ contents v' s = zero_page /\
     forall s', on_swap v s' -> s' <> s -> contents v' s' = contents v s') /\
  (ba_free (swapMap v) = 0 -> VMManager_getPage v = AssertFail).
Proof.
  intros Hc [Hinv Hsz Hres]. unfold VMManager_getPage, SwapManager_allocPage. split.
  - intros Hfree. destruct (ba_find_free (swapMap v) Hinv Hfree) as (s & m & -> & Hinv' & Hsz' & Hs & Hfs & _ & _ & Hu).
    cbn [mbind outcome_bind]. rewrite ASSERT_true by lia. cbn [mbind outcome_bind swapFile diskBuffer with_diskBuffer with_swapMap].
    assert (length zero_page = 128%nat) as Hz by done.
    rewrite file_WriteAt_any by (done || lia). cbn [mbind outcome_bind].
    assert (~ (s ∈ activePageMap v)) as Hnin.
    { intros Hin. destruct (Hres s Hin) as [_ Hus]; [lia|]. congruence. }
    exists s, (swap_written v m s zero_page). split; [done|]. rewrite Hsz in *.
    destruct (swap_written_contents v m s zero_page Hc) as [Hcs Hco]; [lia|done|done|].
    split_and!; try done; try lia; try apply (swap_written_core v m s zero_page); try done; try lia.
    + constructor; simpl; [done|congruence|]. intros s' Hin Hne. destruct (Hres s' Hin Hne) as [Hlt Hus]. split; [done|].
      apply list_elem_of_lookup in Hin as [i Hi]. destruct (co_active _ Hc i s' Hi Hne) as [[Ho _] _].
      rewrite Hu by done. by rewrite Hus, orb_true_r.
    + simpl. rewrite Hu by lia. by rewrite bool_decide_eq_true_2.
    + apply (swap_written_length v m s zero_page); [lia|done].
  - intros Hfree. by rewrite ba_find_none.
Qed.

Lemma getPage_fresh_witness :
  exists s v', VMManager_getPage demo_vm = Ok (s, v') /\ on_swap v' s /\ contents v' s = zero_page.
Proof.
  destruct (getPage_fresh demo_vm) as [Hok _].
  - exact demo_core.
  - exact demo_swap_ok.
  - destruct Hok as (s & v' & Hrun & _ & _ & _ & _ & _ & Ho & Hz & _); [vm_compute; reflexivity|].
    exists s, v'. split; [exact Hrun|]. split; [exact Ho|exact Hz].
Defined.

(** [copy], which a fork uses for every page of the parent, copies the parent's page
    as it is on swap. This is the page's contents when the page is not resident or its
    frame agrees with swap; changes of a dirty resident page are not in the copy. *)
Theorem copy_from_swap {M P} `{BitAllocatorLaws M} `{ReplacementLaws P} (v : vm M P) from to :
  core_ok v -> on_swap v from -> 0 <= to -> ~ (to ∈ activePageMap v) -> to <> from ->
  exists v', VMManager_copy v from to = Ok v' /\ core_ok v' /\
    contents v' to = swapped v from /\
    (forall s', on_swap v s' -> s' <> to -> contents v' s' = contents v s') /\
    (forall i, activePageMap v !! i = Some from -> frame v i <> swapped v from -> contents v' to <> contents v' from) /\
    (~ (from ∈ activePageMap v) -> contents v' to = contents v' from).
Proof.
  intros Hc Hf Hto Hnin Hne. unfold VMManager_copy, SwapManager_copy.
  rewrite file_ReadAt_page by (apply Hf || apply Hc). cbn [mbind outcome_bind swapFile diskBuffer with_diskBuffer].
  fold (swapped v from). assert (length (swapped v from) = 128%nat) as Hl
    by (destruct Hf; apply page_length; lia).
  rewrite file_WriteAt_any by done. cbn [mbind outcome_bind].
  destruct (swap_written_contents v (swapMap v) to (swapped v from) Hc Hto Hl Hnin) as [Hcs Hco].
  eexists. split; [done|]. change (with_swapFile _ _) with (swap_written v (swapMap v) to (swapped v from)).
  assert (contents (swap_written v (swapMap v) to (swapped v from)) from = contents v from) as Hcf
    by (apply Hco; [done|congruence]).
  split_and!; try done.
  - by apply swap_written_core.
  - intros i Hi Hd. rewrite Hcs, Hcf. rewrite (contents_frame v i from Hc Hi); [congruence|]. destruct Hf. lia.
  - intros Hn. by rewrite Hcs, Hcf, contents_swapped.
Qed.

Lemma copy_from_swap_witness :
  exists v', VMManager_copy demo_vm 1 0 = Ok v' /\ contents v' 0 = contents v' 1.
Proof.
  destruct (copy_from_swap demo_vm 1 0) as (v' & Hrun & _ & _ & _ & _ & Hsame).
  - exact demo_core.
  - split; vm_compute; discriminate.
  - lia.
  - apply (bool_decide_unpack _). vm_compute. exact I.
  - lia.
  - exists v'. split; [exact Hrun|]. apply Hsame. apply (bool_decide_unpack _). vm_compute. exact I.
Defined.

(** [clearPage] of a resident page frees its frame and its swap page, which is zeroed,
    and changes no other page. Of a page that is not resident it clears bit
    [NumPhysPages] of the frames' bitmap, whose assertion fails: the kernel stops. *)
Theorem clearPage_frees {M P} `{BitAllocatorLaws M} `{ReplacementLaws P} (v : vm M P) s :
  core_ok v -> alloc_ok v -> swap_ok v -> 0 <= s < SWAP_SIZE ->
  (forall i, activePageMap v !! i = Some s ->
   exists v', VMManager_clearPage v s = Ok v' /\ core_ok v' /\ alloc_ok v' /\
     ba_used (memMgr v') (Z.of_nat i) = false /\ ba_used (swapMap v') s = false /\ contents v' s = zero_page /\
     forall s', on_swap v s' -> s' <> s -> contents v' s' = contents v s') /\
  (~ (s ∈ activePageMap v) -> VMManager_clearPage v s = AssertFail).
Proof.
  intros Hc Ha Hsw Hs. split.
  - intros i Hi. destruct (clearPage_drops v s i Hc Ha Hsw Hs Hi) as (v' & Hrun & [C1 C2 C3 C4 C5 C6 C7 C8 C9 C10 C11]).
    exists v'. split_and!; try done. rewrite C7 by lia. by rewrite bool_decide_eq_true_2.
  - intros Hnin. unfold VMManager_clearPage, MemoryManager_clearPage. rewrite (search_absent s _ Hnin (co_map _ Hc)). cbn [mbind outcome_bind].
    change (32 <? NumPhysPages) with false. cbn [mbind outcome_bind]. rewrite ba_clear_out; [done|]. rewrite (ao_size _ Ha). lia.
Qed.

Lemma clearPage_frees_witness : VMManager_clearPage demo_vm 1 = AssertFail.
Proof.
  destruct (clearPage_frees demo_vm 1) as [_ Hout].
  - exact demo_core.
  - exact demo_alloc.
  - exact demo_swap_ok.
  - unfold SWAP_SIZE. lia.
  - apply Hout. apply (bool_decide_unpack _). vm_compute. exact I.
Defined.
