(* ===== verification/OpenFile.v ===== *)
(** * filesys/openfile.cc: reading and writing files, and the files of the file system

    [OpenFile] is the object with its header in memory. The disk is the list of its
    sectors, each a list of [SectorSize] bytes. The build is the one with [FILESYS].
    Memory that [new] returns has arbitrary contents: they are the members of [Fresh],
    and the theorems hold for all of them. The theorems about a file are about the
    concatenation of the sectors that [ByteToSector] gives: reading is a slice of it and
    writing a splice into it. [BitMap::FetchFrom], [BitMap::WriteBack] and those of
    [Directory] are here too, since they are operations on open files. *)

From stdpp Require Import prelude numbers list gmap.
From S2P Require Import Prelude Params BitMap FileHdr Directory.

Open Scope Z_scope.

(** ** Memory that has just been allocated *)

Class Fresh := {
  fresh_bytes : nat -> list Z;           (* [new char[n]] *)
  fresh_words : nat -> list Z;           (* [new unsigned int[n]] *)
  fresh_header : FileHeader;             (* [new FileHeader] *)
  fresh_entries : nat -> list DirectoryEntry;  (* [new DirectoryEntry[n]] *)
  entry_pad : Z -> list Z;               (* the padding bytes of a structure *) }.

Class FreshLaws `{Fresh} := {
  fresh_bytes_length n : length (fresh_bytes n) = n;
  fresh_words_length n : length (fresh_words n) = n;
  fresh_words_range n : Forall is_u32 (fresh_words n);
  fresh_header_shape : hdr_shape fresh_header;
  fresh_header_words : entries_s32 fresh_header;
  fresh_entries_length n : length (fresh_entries n) = n;
  fresh_entries_names n : Forall (fun e => length (e_name e) = 10%nat) (fresh_entries n);
  fresh_entries_sectors n : Forall (fun e => is_s32 (e_sector e)) (fresh_entries n);
  entry_pad_length n : 0 <= n -> length (entry_pad n) = Z.to_nat n }.

(** [new char[n]]: a negative size is undefined. *)
Definition new_bytes `{Fresh} (n : Z) : outcome (list Z) :=
  if n <? 0 then Undef else Ok (fresh_bytes (Z.to_nat n)).

(** ** Open files *)

Record OpenFile := mkFile { hdr : FileHeader; seekPosition : Z; hdrSector : Z }.

Definition set_hdr (f : OpenFile) (h : FileHeader) : OpenFile := mkFile h (seekPosition f) (hdrSector f).

Section openfile.
Context `{Fresh}.
Implicit Types (f : OpenFile) (disk : list (list Z)).

Definition OpenFile_new (disk : list (list Z)) (sector : Z) : outcome OpenFile :=
  hdr ← FetchFrom fresh_header disk sector;
  Ok (mkFile hdr 0 sector).

Definition Seek (f : OpenFile) (position : Z) : OpenFile := mkFile (hdr f) position (hdrSector f).

Definition Length (f : OpenFile) : Z := FileLength (hdr f).

(** [for (i = firstSector; i <= lastSector; i++) synchDisk->ReadSector(...)] *)
Fixpoint read_sectors (n : nat) (i firstSector : Z) (h : FileHeader) (disk : list (list Z)) (buf : list Z)
    : outcome (list Z) :=
  match n with
  | O => Ok buf
  | S n =>
      s ← ByteToSector h (s32 (i * SectorSize));
      data ← ReadSector disk s;
      buf ← put_bytes buf ((i - firstSector) * SectorSize) data;
      read_sectors n (i + 1) firstSector h disk buf
  end.

(** The value returned and the bytes copied to [into]. *)
Definition ReadAt (f : OpenFile) (disk : list (list Z)) (numBytes position : Z) : outcome (Z * list Z) :=
  let fileLength := FileLength (hdr f) in
  if (numBytes <=? 0) || (fileLength <=? position) then Ok (0, [])
  else
    let firstSector := divRoundDown position SectorSize in
    let lastSector := divRoundDown (s32 (position + numBytes - 1)) SectorSize in
    let numSectors := 1 + lastSector - firstSector in
    buf ← new_bytes (numSectors * SectorSize);
    buf ← read_sectors (Z.to_nat numSectors) firstSector firstSector (hdr f) disk buf;
    data ← get_bytes buf (position - firstSector * SectorSize) numBytes;
    Ok (numBytes, data).

Definition Read (f : OpenFile) (disk : list (list Z)) (numBytes : Z) : outcome (Z * list Z * OpenFile) :=
  '(result, data) ← ReadAt f disk numBytes (seekPosition f);
  Ok (result, data, mkFile (hdr f) (s32 (seekPosition f + result)) (hdrSector f)).

(** [for (i = firstSector; i <= lastSector; i++) synchDisk->WriteSector(...)] *)
Fixpoint write_sectors (n : nat) (i firstSector : Z) (h : FileHeader) (disk : list (list Z)) (buf : list Z)
    : outcome (list (list Z)) :=
  match n with
  | O => Ok disk
  | S n =>
      s ← ByteToSector h (s32 (i * SectorSize));
      data ← get_bytes buf ((i - firstSector) * SectorSize) SectorSize;
      disk ← WriteSector disk s data;
      write_sectors n (i + 1) firstSector h disk buf
  end.

(** The part that the three cases of [WriteAt] have in common, from the two flags on:
    the partial sectors are read into [buf], the bytes are copied in and the sectors are
    written. *)
Definition write_through (f : OpenFile) (disk : list (list Z)) (from : list Z)
    (numBytes position firstSector lastSector : Z) (buf : list Z) : outcome (list (list Z)) :=
  let firstAligned := position =? firstSector * SectorSize in
  let lastAligned := s32 (position + numBytes) =? s32 ((lastSector + 1) * SectorSize) in
  buf ← (if negb firstAligned then
           '(_, data) ← ReadAt f disk SectorSize (s32 (firstSector * SectorSize));
           put_bytes buf 0 data
         else Ok buf);
  buf ← (if negb lastAligned && (negb (firstSector =? lastSector) || firstAligned) then
           '(_, data) ← ReadAt f disk SectorSize (s32 (lastSector * SectorSize));
           put_bytes buf ((lastSector - firstSector) * SectorSize) data
         else Ok buf);
  data ← get_bytes from 0 numBytes;
  buf ← put_bytes buf (position - firstSector * SectorSize) data;
  write_sectors (Z.to_nat (1 + lastSector - firstSector)) firstSector firstSector (hdr f) disk buf.

(** The length of the file up to the end of its last sector. *)
Definition padded (fileLength : Z) : Z :=
  if negb (cmod fileLength SectorSize =? 0) then
    s32 (fileLength + (SectorSize - cmod fileLength SectorSize))
  else fileLength.

(** ** Bitmaps in files *)

Definition BitMap_FetchFrom (bm : BitMap) (file : OpenFile) (disk : list (list Z)) : outcome BitMap :=
  '(_, data) ← ReadAt file disk (numWords bm * 4) 0;
  bytes ← put_bytes (words_to_bytes (bm_map bm)) 0 data;
  Ok (set_map bm (bytes_to_words (length (bm_map bm)) bytes)).

(** [new BitMap(NumSectors)] *)
Definition BitMap_create (nitems : Z) : outcome BitMap :=
  BitMap_new nitems (fresh_words (Z.to_nat (divRoundUp nitems BitsInWord))).

(** ** Writing

    [ExtendFile] of filehdr.cc opens the file of the free map and writes the map back,
    which is another [WriteAt], the argument [write]. *)

Definition ExtendFile_on_disk
    (write : OpenFile -> list (list Z) -> list Z -> Z -> Z -> outcome (Z * OpenFile * list (list Z)))
    (h : FileHeader) (disk : list (list Z)) (sectors : Z) : outcome (bool * FileHeader * list (list Z)) :=
  if sectors - FileHdr.numSectors h <=? 0 then Ok (false, h, disk)
  else
    freeMapFile ← OpenFile_new disk FreeMapSector;
    freeMap ← BitMap_create NumSectors;
    freeMap ← BitMap_FetchFrom freeMap freeMapFile disk;
    '(r, h, freeMap) ← ExtendFile h freeMap sectors;
    if r : bool then
      (* [freeMap->WriteBack(freeMapFile)] *)
      '(_, _, disk) ← write freeMapFile disk (words_to_bytes (bm_map freeMap)) (numWords freeMap * 4) 0;
      Ok (true, h, disk)
    else Ok (false, h, disk).

(** Cases 2 and 3 of [WriteAt], which differ in [start] and in the new length. The
    result of [ExtendFile] is compared with -1, which a [bool] never is. *)
Definition extend_and_write
    (extend : FileHeader -> list (list Z) -> Z -> outcome (bool * FileHeader * list (list Z)))
    (f : OpenFile) (disk : list (list Z)) (from : list Z) (numBytes position start newBytes : Z)
    : outcome (Z * OpenFile * list (list Z)) :=
  let firstSector := divRoundDown start SectorSize in
  let lastSector := divRoundDown (s32 (position + numBytes - 1)) SectorSize in
  let numSectors := 1 + lastSector - firstSector in
  '(_, h, disk) ← extend (hdr f) disk numSectors;
  let f := set_hdr f h in
  buf ← (if numSectors * SectorSize <? 0 then Undef
         else Ok (replicate (Z.to_nat (numSectors * SectorSize)) 0));
  disk ← write_through f disk from numBytes position firstSector lastSector buf;
  let h := setNumBytes (hdr f) newBytes in
  disk ← WriteBack h disk (hdrSector f);
  Ok (numBytes, set_hdr f h, disk).

(** [fuel] bounds the nesting of [WriteAt] in itself, through [ExtendFile]. *)
Fixpoint WriteAt (fuel : nat) (f : OpenFile) (disk : list (list Z)) (from : list Z) (numBytes position : Z)
    : outcome (Z * OpenFile * list (list Z)) :=
  match fuel with
  | O => NoFuel
  | S fuel =>
      let fileLength := padded (FileLength (hdr f)) in
      _ ← ByteToSector (hdr f) 0;
      if s32 (position + numBytes) <=? fileLength then
        let firstSector := divRoundDown position SectorSize in
        let lastSector := divRoundDown (s32 (position + numBytes - 1)) SectorSize in
        buf ← new_bytes ((1 + lastSector - firstSector) * SectorSize);
        disk ← write_through f disk from numBytes position firstSector lastSector buf;
        Ok (numBytes, f, disk)
      else
        let extend := ExtendFile_on_disk (WriteAt fuel) in
        if position <? fileLength then
          extend_and_write extend f disk from numBytes position position (s32 (numBytes + position))
        else
          extend_and_write extend f disk from numBytes position fileLength (s32 (numBytes + fileLength))
  end.

Definition Write (fuel : nat) (f : OpenFile) (disk : list (list Z)) (from : list Z) (numBytes : Z)
    : outcome (Z * OpenFile * list (list Z)) :=
  '(result, f, disk) ← WriteAt fuel f disk from numBytes (seekPosition f);
  Ok (result, mkFile (hdr f) (s32 (seekPosition f + result)) (hdrSector f), disk).

Definition BitMap_WriteBack (fuel : nat) (bm : BitMap) (file : OpenFile) (disk : list (list Z))
    : outcome (OpenFile * list (list Z)) :=
  '(_, file, disk) ← WriteAt fuel file disk (words_to_bytes (bm_map bm)) (numWords bm * 4) 0;
  Ok (file, disk).
End openfile.

(** ** The bytes of a file *)

Definition sector_data (disk : list (list Z)) (s : Z) : list Z := default [] (disk !! Z.to_nat s).

(** The contents of the sectors [ss], one after the other. *)
Definition file_bytes (disk : list (list Z)) (ss : list Z) : list Z := concat (sector_data disk <$> ss).

Definition disk_ok (disk : list (list Z)) : Prop := pieces 128 disk.

(** [ByteToSector] finds the data of the file in the sectors [ss]. *)
Record mapped (h : FileHeader) (disk : list (list Z)) (ss : list Z) : Prop := {
  mp_sector k s : ss !! k = Some s -> ByteToSector h (128 * Z.of_nat k) = Ok s;
  mp_range : Forall (fun s => 0 <= s < Z.of_nat (length disk)) ss;
  mp_size : 128 * Z.of_nat (length ss) < two31 }.

Lemma mapped_length h disk disk' ss : length disk' = length disk -> mapped h disk ss -> mapped h disk' ss.
Proof. intros Hl [Hs Hr Hn]. split; [done| |done]. by rewrite Hl. Qed.

Lemma mapped_laid_out h disk direct secs data :
  laid_out h direct secs data -> 0 <= FileHdr.numSectors h < 35 ->
  Forall (fun s => 0 <= s < Z.of_nat (length disk)) (direct ++ concat data) ->
  mapped h disk (direct ++ concat data).
Proof.
  intros Hlo Hn Hr. assert (Z.of_nat (length (direct ++ concat data)) = FileHdr.numSectors h) as Hl.
  { rewrite length_app. pose proof (lo_ndirect _ _ _ _ Hlo). pose proof (lo_total _ _ _ _ Hlo). lia. }
  split; [|done|unfold two31; lia]. intros k s Hk. apply lookup_lt_Some in Hk as Hlt.
  destruct (ByteToSector_ok h direct secs data (128 * Z.of_nat k)) as (s' & Hs' & ->); try done; try lia.
  change SectorSize with 128 in Hs'. rewrite Z.mul_comm, Z.div_mul, Nat2Z.id in Hs' by lia. congruence.
Qed.

Section contents.
Context (h : FileHeader) (disk : list (list Z)) (ss : list Z).
Hypotheses (Hmap : mapped h disk ss) (Hdisk : disk_ok disk).

Lemma sector_data_length s : 0 <= s < Z.of_nat (length disk) ->
  length (sector_data disk s) = 128%nat /\ ReadSector disk s = Ok (sector_data disk s).
Proof.
  intros Hs. destruct (lookup_lt_is_Some_2 disk (Z.to_nat s)) as [d Hd]; [lia|].
  unfold sector_data. rewrite Hd. split; [exact (Forall_lookup_1 _ _ _ _ Hdisk Hd)|].
  apply ReadSector_in; [lia|done].
Qed.

Lemma file_pieces : pieces 128 (sector_data disk <$> ss).
Proof.
  apply Forall_fmap. eapply Forall_impl; [exact (mp_range _ _ _ Hmap)|]. intros s Hs.
  by apply sector_data_length.
Qed.

Lemma file_bytes_length : length (file_bytes disk ss) = (128 * length ss)%nat.
Proof. unfold file_bytes. rewrite (pieces_length 128) by apply file_pieces. by rewrite length_fmap. Qed.

(** The [n] sectors from the [i]-th on are a slice of the file. *)
Lemma file_window i n : concat (sector_data disk <$> take n (drop i ss)) =
  take (128 * n) (drop (128 * i) (file_bytes disk ss)).
Proof.
  unfold file_bytes. rewrite (pieces_drop 128) by apply file_pieces.
  rewrite (pieces_take 128) by (apply Forall_drop, file_pieces). by rewrite fmap_take, fmap_drop.
Qed.

(** One step of the loops over the sectors of the file. *)
Lemma mapped_sector i : (i < length ss)%nat ->
  exists s, ss !! i = Some s /\ 0 <= s < Z.of_nat (length disk) /\
    ByteToSector h (s32 (Z.of_nat i * SectorSize)) = Ok s.
Proof.
  intros Hi. destruct (lookup_lt_is_Some_2 ss i Hi) as [s Hs]. exists s. split; [done|].
  split; [exact (Forall_lookup_1 _ _ _ _ (mp_range _ _ _ Hmap) Hs)|]. change SectorSize with 128.
  pose proof (mp_size _ _ _ Hmap). rewrite s32_small by (unfold is_s32, two31 in *; lia).
  rewrite Z.mul_comm. by apply (mp_sector _ _ _ Hmap).
Qed.

Lemma read_sectors_ok n : forall i first pre rest,
  (first <= i)%nat -> (i + n <= length ss)%nat ->
  length pre = (128 * (i - first))%nat -> length rest = (128 * n)%nat ->
  read_sectors n (Z.of_nat i) (Z.of_nat first) h disk (pre ++ rest) =
  Ok (pre ++ concat (sector_data disk <$> take n (drop i ss))).
Proof.
  induction n as [|n IH]; intros i first pre rest Hfi Hin Hpre Hrest; simpl.
  { by apply nil_length_inv in Hrest as ->. }
  destruct (mapped_sector i) as (s & Hs & Hr & ->); [lia|]. cbn [mbind outcome_bind].
  destruct (sector_data_length s Hr) as [Hlen ->]. cbn [mbind outcome_bind]. change SectorSize with 128.
  rewrite put_bytes_in by (rewrite ?length_app; lia). cbn [mbind outcome_bind].
  replace (Z.to_nat ((Z.of_nat i - Z.of_nat first) * 128)) with (length pre) by lia.
  unfold splice. rewrite take_app_length, drop_app_add, Hlen, app_assoc.
  replace (Z.of_nat i + 1) with (Z.of_nat (S i)) by lia.
  rewrite IH by (rewrite ?length_app, ?length_drop; lia).
  rewrite (drop_S _ _ _ Hs). by rewrite <- app_assoc.
Qed.
End contents.

(** A slice of a slice. *)
Lemma slice_slice {A} (l : list A) a b n : (a + n <= b)%nat -> take n (drop a (take b l)) = take n (drop a l).
Proof. intros Hb. rewrite !take_drop_commute, take_take. f_equal. f_equal. lia. Qed.

(** What is written to the sectors of the file, from the [i]-th on. *)
Lemma write_sectors_ok h ss n : forall i first disk buf,
  mapped h disk ss -> disk_ok disk -> NoDup ss -> (first <= i)%nat -> (i + n <= length ss)%nat ->
  length buf = (128 * (i - first + n))%nat ->
  exists disk', write_sectors n (Z.of_nat i) (Z.of_nat first) h disk buf = Ok disk' /\
    length disk' = length disk /\ disk_ok disk' /\
    (forall k s, ss !! k = Some s -> disk' !! Z.to_nat s =
       if decide (i <= k < i + n)%nat then Some (take 128 (drop (128 * (k - first)) buf))
       else disk !! Z.to_nat s) /\
    (forall s, 0 <= s -> ~ (s ∈ ss) -> disk' !! Z.to_nat s = disk !! Z.to_nat s).
Proof.
  induction n as [|n IH]; intros i first disk buf Hm Hd Hnd Hfi Hin Hlen; simpl.
  { exists disk. split_and!; try done. intros k s Hk. rewrite decide_False by lia. done. }
  destruct (mapped_sector h disk ss Hm i) as (s & Hs & Hr & ->); [lia|]. cbn [mbind outcome_bind].
  change SectorSize with 128. rewrite get_bytes_in by lia. cbn [mbind outcome_bind].
  rewrite WriteSector_in by done. cbn [mbind outcome_bind].
  replace (Z.to_nat ((Z.of_nat i - Z.of_nat first) * 128)) with (128 * (i - first))%nat by lia.
  set (piece := take (Z.to_nat 128) _). set (disk1 := <[_ := piece]> disk).
  assert (length disk1 = length disk) as Hl1 by (unfold disk1; by rewrite length_insert).
  replace (Z.of_nat i + 1) with (Z.of_nat (S i)) by lia.
  destruct (IH (S i) first disk1 buf) as (disk' & -> & Hl & Hok & Hin' & Hout); try done; try lia.
  { by apply (mapped_length h disk). }
  { apply Forall_insert; [done|]. unfold piece. rewrite length_take, length_drop. lia. }
  exists disk'. split; [done|]. split; [lia|]. split; [done|]. split.
  - intros k t Hk. rewrite (Hin' k t Hk). destruct (decide (k = i)) as [->|Hne].
    + rewrite decide_False, decide_True by lia. assert (t = s) as -> by congruence.
      unfold disk1. rewrite list_lookup_insert_eq by lia. done.
    + assert (Z.to_nat s <> Z.to_nat t) as Hst.
      { intros Heq. apply Hne. apply (NoDup_lookup ss _ _ t Hnd Hk).
        pose proof (Forall_lookup_1 _ _ _ _ (mp_range _ _ _ Hm) Hk). simpl in *. rewrite Hs. f_equal. lia. }
      destruct (decide (S i <= k < S i + n)%nat); [by rewrite decide_True by lia|].
      rewrite decide_False by lia. unfold disk1. by rewrite list_lookup_insert_ne.
  - intros t Ht Hnin. rewrite Hout by done. unfold disk1. apply list_lookup_insert_ne.
    intros Heq. apply Hnin. assert (s = t) as <- by lia. by eapply list_elem_of_lookup_2.
Qed.

(** A byte of a list of equal pieces. *)
Lemma pieces_lookup n ls : forall i, (0 < n)%nat -> pieces n ls ->
  concat ls !! i = (ls !! (i / n)%nat ≫= fun l => l !! (i mod n)%nat).
Proof.
  induction ls as [|l ls IH]; intros i Hn Hp; [done|]. apply Forall_cons in Hp as [Hl Hp].
  change (concat (l :: ls)) with (l ++ concat ls). destruct (decide (i < n)%nat) as [Hi|Hi].
  - rewrite Nat.div_small, Nat.mod_small by done. simpl. by rewrite lookup_app_l by lia.
  - rewrite lookup_app_r by lia. rewrite IH by done. rewrite Hl.
    pose proof (Nat.div_add (i - n) 1 n ltac:(lia)) as Hq. pose proof (Nat.Div0.mod_add (i - n) 1 n) as Hm.
    replace (i - n + 1 * n)%nat with i in Hq, Hm by lia. rewrite Hq, Hm, Nat.add_comm. done.
Qed.

(** The file after its sectors [first], ..., [first + n - 1] became [buf]. *)
Lemma file_bytes_write h disk disk' ss first n buf :
  mapped h disk ss -> disk_ok disk -> length disk' = length disk -> disk_ok disk' ->
  (first + n <= length ss)%nat -> length buf = (128 * n)%nat ->
  (forall k s, ss !! k = Some s -> disk' !! Z.to_nat s =
     if decide (first <= k < first + n)%nat then Some (take 128 (drop (128 * (k - first)) buf))
     else disk !! Z.to_nat s) ->
  file_bytes disk' ss = splice (file_bytes disk ss) (128 * first) buf.
Proof.
  intros Hm Hd Hl Hd' Hin Hlen Hk. pose proof (mapped_length h disk disk' ss Hl Hm) as Hm'.
  pose proof (file_bytes_length h disk ss Hm Hd) as Hfl.
  apply list_eq. intros i. rewrite splice_lookup by lia. unfold file_bytes.
  rewrite !(pieces_lookup 128) by (try lia; by eapply file_pieces). rewrite !list_lookup_fmap.
  destruct (ss !! (i / 128)%nat) as [s|] eqn:Hs; cbn [fmap option_fmap option_map mbind option_bind].
  2:{ apply lookup_ge_None in Hs. rewrite decide_False; [done|]. intros Hi.
      pose proof (Nat.div_mod_eq i 128). lia. }
  unfold sector_data. rewrite (Hk _ _ Hs). pose proof (Nat.div_mod_eq i 128) as Hdm.
  pose proof (Nat.mod_upper_bound i 128 ltac:(lia)) as Hmb.
  destruct (decide (128 * first <= i < 128 * first + length buf)%nat) as [Hi|Hi].
  - rewrite decide_True by lia. cbn [default from_option id]. rewrite lookup_take_lt, lookup_drop by done. f_equal. lia.
  - rewrite decide_False by lia. done.
Qed.

(** A buffer whose partial first and last sectors were read from [W], with the data
    copied in, is [W] with the data copied in. *)
Lemma merge_sectors W buf b1 b2 off data cnt :
  length W = (128 * cnt)%nat -> length buf = (128 * cnt)%nat -> (off < 128)%nat ->
  (128 * (cnt - 1) < off + length data <= 128 * cnt)%nat ->
  b1 = (if decide (off = 0%nat) then buf else splice buf 0 (take 128 W)) ->
  b2 = (if decide ((off + length data)%nat <> (128 * cnt)%nat /\ (cnt <> 1%nat \/ off = 0%nat))
        then splice b1 (128 * (cnt - 1)) (take 128 (drop (128 * (cnt - 1)) W)) else b1) ->
  splice b2 off data = splice W off data.
Proof.
  intros HW Hbuf Hoff Hlast -> ->.
  assert (length (take 128 W) = 128%nat) as H1 by (rewrite length_take; lia).
  assert (length (take 128 (drop (128 * (cnt - 1)) W)) = 128%nat) as H2
    by (rewrite length_take, length_drop; lia).
  set (b1 := if decide (off = 0%nat) then _ else _).
  assert (length b1 = (128 * cnt)%nat) as Hb1 by (unfold b1; case_decide; rewrite ?splice_length; lia).
  set (b2 := if decide (_ /\ _) then _ else _).
  assert (length b2 = (128 * cnt)%nat) as Hb2 by (unfold b2; case_decide; rewrite ?splice_length; lia).
  apply list_eq. intros i. rewrite !splice_lookup by lia.
  destruct (decide (off <= i < off + length data)%nat) as [|Hi]; [done|].
  destruct (decide (i < length W)%nat) as [HiW|]; [|by rewrite !lookup_ge_None_2 by lia].
  unfold b2. case_decide as Hc2.
  - rewrite splice_lookup, H2 by lia. case_decide as Hc3.
    + rewrite lookup_take_lt, lookup_drop by lia. f_equal. lia.
    + unfold b1. rewrite decide_False by lia. rewrite splice_lookup, decide_True by lia.
      rewrite lookup_take_lt by lia. f_equal. lia.
  - unfold b1. rewrite decide_False by lia. rewrite splice_lookup, decide_True by lia.
    rewrite lookup_take_lt by lia. f_equal. lia.
Qed.

(** Splicing in what is there already. *)
Lemma splice_same b1 buf p p' n :
  (p + n <= length b1)%nat -> length b1 = length buf ->
  (forall i, (p <= i < p + n)%nat -> b1 !! i = buf !! i) ->
  length (take n (drop p buf)) = n -> splice b1 p' [] = splice b1 p (take n (drop p buf)).
Proof.
  intros Hl Hlb Heq Hn. unfold splice at 1. rewrite Nat.add_0_r. simpl. rewrite take_drop.
  apply list_eq. intros i. rewrite splice_lookup by lia. rewrite Hn. case_decide as Hi; [|done].
  rewrite lookup_take_lt, lookup_drop by lia. rewrite Heq by lia. f_equal. lia.
Qed.

Section operations.
Context `{FreshLaws}.

Lemma ReadAt_ok f disk ss numBytes position :
  mapped (hdr f) disk ss -> disk_ok disk -> 0 <= position < FileLength (hdr f) -> 0 < numBytes ->
  position + numBytes <= 128 * Z.of_nat (length ss) ->
  ReadAt f disk numBytes position =
  Ok (numBytes, take (Z.to_nat numBytes) (drop (Z.to_nat position) (file_bytes disk ss))).
Proof.
  intros Hm Hd Hp Hn Hin. pose proof (mp_size _ _ _ Hm) as Hsz. unfold ReadAt.
  destruct (Z.leb_spec numBytes 0), (Z.leb_spec (FileLength (hdr f)) position); try lia. cbn [orb].
  unfold divRoundDown. rewrite s32_small by (unfold is_s32, two31 in *; lia). change SectorSize with 128.
  rewrite !cdiv_nonneg by lia. set (a := position `div` 128). set (b := (position + numBytes - 1) `div` 128).
  assert (0 <= a <= b) as Hab by (unfold a, b; dlia).
  assert (b < Z.of_nat (length ss)) as Hb by (unfold b; dlia).
  unfold new_bytes. destruct (Z.ltb_spec ((1 + b - a) * 128) 0); [lia|]. cbn [mbind outcome_bind].
  pose proof (read_sectors_ok (hdr f) disk ss Hm Hd (Z.to_nat (1 + b - a)) (Z.to_nat a) (Z.to_nat a) []
    (fresh_bytes (Z.to_nat ((1 + b - a) * 128)))) as Hrs. rewrite Z2Nat.id in Hrs by lia. simpl in Hrs.
  rewrite Hrs by (rewrite ?fresh_bytes_length; simpl; lia). cbn [mbind outcome_bind].
  rewrite (file_window (hdr f)) by done.
  pose proof (file_bytes_length (hdr f) disk ss Hm Hd) as Hfl.
  rewrite get_bytes_in by (rewrite ?length_take, ?length_drop; unfold a, b in *; dlia). cbn [mbind outcome_bind].
  do 2 f_equal. rewrite slice_slice by (unfold a, b in *; dlia). rewrite drop_drop. f_equal. f_equal.
  unfold a in *. dlia.
Qed.

Lemma ReadAt_nothing f disk numBytes position :
  numBytes <= 0 \/ FileLength (hdr f) <= position -> ReadAt f disk numBytes position = Ok (0, []).
Proof.
  intros Hc. unfold ReadAt. destruct (Z.leb_spec numBytes 0), (Z.leb_spec (FileLength (hdr f)) position);
    simpl; (done || lia).
Qed.

(** [disk'] is [disk] with only the sectors [ss] changed. *)
Definition changes (disk disk' : list (list Z)) (ss : list Z) : Prop :=
  length disk' = length disk /\ disk_ok disk' /\
  forall s, 0 <= s -> ~ (s ∈ ss) -> disk' !! Z.to_nat s = disk !! Z.to_nat s.

(** The common part of the cases of [WriteAt]: [W] is what the sectors from [a] to [b]
    are meant to hold before the data is copied in. *)
Lemma write_through_ok f disk ss from numBytes position a b buf W :
  let cnt := Z.to_nat (1 + b - a) in
  let off := Z.to_nat (position - a * 128) in
  mapped (hdr f) disk ss -> disk_ok disk -> NoDup ss -> 0 < numBytes <= Z.of_nat (length from) ->
  0 <= a <= b -> b < Z.of_nat (length ss) -> a * 128 <= position < (a + 1) * 128 ->
  b * 128 < position + numBytes <= (b + 1) * 128 ->
  length W = (128 * cnt)%nat -> length buf = (128 * cnt)%nat ->
  (position <> a * 128 -> exists x, ReadAt f disk 128 (a * 128) = Ok (x, take 128 W)) ->
  (position + numBytes <> (b + 1) * 128 -> a <> b \/ position = a * 128 ->
   exists x d, ReadAt f disk 128 (b * 128) = Ok (x, d) /\
     (d = take 128 (drop (128 * (cnt - 1)) W) \/
      d = [] /\ take 128 (drop (128 * (cnt - 1)) W) = take 128 (drop (128 * (cnt - 1)) buf))) ->
  exists disk', write_through f disk from numBytes position a b buf = Ok disk' /\ changes disk disk' ss /\
    file_bytes disk' ss =
    splice (file_bytes disk ss) (128 * Z.to_nat a) (splice W off (take (Z.to_nat numBytes) from)).
Proof.
  intros cnt off Hm Hd Hnd Hn Hab Hb Hp Hl HW Hbuf Hfirst Hlast. pose proof (mp_size _ _ _ Hm) as Hsz.
  unfold write_through. change SectorSize with 128. unfold two31 in Hsz.
  rewrite !(s32_small (_ * 128)), !s32_small by (unfold is_s32, two31; lia).
  set (data := take (Z.to_nat numBytes) from).
  assert (length data = Z.to_nat numBytes) as Hdl by (unfold data; rewrite length_take; lia).
  set (b1 := if decide (off = 0%nat) then buf else splice buf 0 (take 128 W)).
  assert (length b1 = (128 * cnt)%nat) as Hb1
    by (unfold b1; case_decide; rewrite ?splice_length; rewrite ?length_take; lia).
  set (P := (off + length data)%nat <> (128 * cnt)%nat /\ (cnt <> 1%nat \/ off = 0%nat)).
  set (b2 := if decide P then splice b1 (128 * (cnt - 1)) (take 128 (drop (128 * (cnt - 1)) W)) else b1).
  assert (length b2 = (128 * cnt)%nat) as Hb2.
  { unfold b2. case_decide; [|done]. rewrite splice_length; rewrite ?length_take, ?length_drop; lia. }
  eassert ((if negb (position =? a * 128) then _ else Ok buf) = Ok b1) as ->.
  { unfold b1. destruct (Z.eqb_spec position (a * 128)) as [Heq|Hne]; cbn [negb].
    - by rewrite decide_True by lia.
    - rewrite decide_False by lia. destruct (Hfirst Hne) as [x ->]. cbn [mbind outcome_bind].
      rewrite put_bytes_in by (rewrite ?length_take; lia). done. }
  cbn [mbind outcome_bind].
  eassert ((if negb (position + numBytes =? _) && _ then _ else Ok b1) = Ok b2) as ->.
  { unfold b2. destruct (Z.eqb_spec (position + numBytes) ((b + 1) * 128)) as [Heq|Hne]; cbn [negb andb].
    - rewrite decide_False; [done|]. unfold P. lia.
    - destruct (decide (a <> b \/ position = a * 128)) as [Hc|Hc].
      + rewrite decide_True by (unfold P; lia).
        assert (negb (a =? b) || (position =? a * 128) = true) as -> by lia.
        destruct (Hlast Hne Hc) as (x & d & -> & [->|[-> Heq]]); cbn [mbind outcome_bind].
        * rewrite put_bytes_in by (rewrite ?length_take, ?length_drop; lia). do 2 f_equal. lia.
        * rewrite put_bytes_in by (simpl; lia). f_equal. rewrite Heq.
          apply (splice_same b1 buf); [lia|lia| |by rewrite length_take, length_drop; lia].
          intros i Hi. unfold b1. case_decide; [done|]. rewrite splice_lookup, decide_False; [done|..];
            rewrite length_take; lia.
      + rewrite decide_False by (unfold P; lia).
        by assert (negb (a =? b) || (position =? a * 128) = false) as -> by lia. }
  cbn [mbind outcome_bind]. rewrite get_bytes_in by lia. cbn [mbind outcome_bind].
  change (drop (Z.to_nat 0) from) with from. fold data. rewrite put_bytes_in by lia. cbn [mbind outcome_bind].
  fold off. rewrite (merge_sectors W buf b1 b2 off data cnt) by (done || lia).
  fold cnt. pose proof (write_sectors_ok (hdr f) ss cnt (Z.to_nat a) (Z.to_nat a) disk (splice W off data)) as Hws.
  rewrite Z2Nat.id in Hws by lia.
  destruct Hws as (disk' & -> & Hlen & Hok & Hin & Hout); try done; try (rewrite ?splice_length; lia).
  exists disk'. split; [done|]. split; [done|].
  apply (file_bytes_write (hdr f) disk disk' ss _ cnt); try done; rewrite ?splice_length; lia.
Qed.

(** The sectors of the open file [f] are [ss]. *)
Record file_on (f : OpenFile) (disk : list (list Z)) (ss : list Z) : Prop := {
  fo_mapped : mapped (hdr f) disk ss;
  fo_nodup : NoDup ss;
  fo_length : 0 <= FileLength (hdr f);
  fo_sectors : Z.of_nat (length ss) = divRoundUp (FileLength (hdr f)) SectorSize }.

Lemma fo_bounds f disk ss : file_on f disk ss ->
  FileLength (hdr f) <= 128 * Z.of_nat (length ss) < FileLength (hdr f) + 128 /\
  128 * Z.of_nat (length ss) < two31.
Proof.
  intros [Hm _ Hl Hs]. pose proof (divRoundUp_bounds (FileLength (hdr f)) 128 Hl ltac:(lia)).
  change SectorSize with 128 in Hs. pose proof (mp_size _ _ _ Hm). lia.
Qed.

Lemma padded_ok L : 0 <= L -> divRoundUp L 128 * 128 < two31 -> padded L = divRoundUp L 128 * 128.
Proof.
  intros HL Hb. unfold padded, divRoundUp in *. change SectorSize with 128.
  rewrite !cmod_nonneg, !cdiv_nonneg in * by lia. unfold two31 in *.
  destruct (Z.eqb_spec (L `mod` 128) 0) as [Hz|Hz], (Z.ltb_spec 0 (L `mod` 128)); cbn [negb];
    rewrite ?s32_small by (unfold is_s32, two31; dlia); dlia.
Qed.

Lemma fo_padded f disk ss : file_on f disk ss -> padded (FileLength (hdr f)) = 128 * Z.of_nat (length ss).
Proof.
  intros Hf. pose proof (fo_bounds _ _ _ Hf) as [_ Hb]. destruct Hf as [_ _ Hl Hs].
  change SectorSize with 128 in Hs. rewrite padded_ok; lia.
Qed.

(** Writing into a window of the file. *)
Lemma splice_window F a n off data :
  (a + n <= length F)%nat -> (off + length data <= n)%nat ->
  splice F a (splice (take n (drop a F)) off data) = splice F (a + off) data.
Proof.
  intros Hn Ho. assert (length (take n (drop a F)) = n) as Hl by (rewrite length_take, length_drop; lia).
  assert (length (splice (take n (drop a F)) off data) = n) as Hls by (rewrite splice_length; lia).
  apply list_eq. intros i. rewrite !splice_lookup by lia. rewrite Hls.
  destruct (decide (a <= i < a + n)%nat).
  - destruct (decide (off <= i - a < off + length data)%nat).
    + rewrite decide_True by lia. f_equal. lia.
    + rewrite decide_False, lookup_take_lt, lookup_drop by lia. f_equal. lia.
  - by rewrite decide_False by lia.
Qed.

(** A sector of the file that is read whole. *)
Lemma ReadAt_sector f disk ss i : file_on f disk ss -> disk_ok disk -> 0 <= i < Z.of_nat (length ss) ->
  ReadAt f disk 128 (i * 128) = Ok (128, take 128 (drop (128 * Z.to_nat i) (file_bytes disk ss))).
Proof.
  intros Hf Hd Hi. pose proof (fo_bounds _ _ _ Hf) as [Hb _]. pose proof (fo_mapped _ _ _ Hf).
  rewrite (ReadAt_ok f disk ss) by (done || lia). do 4 f_equal. lia.
Qed.

(** Case 1 of [WriteAt]. *)
Lemma WriteAt_inside fuel f disk ss from numBytes position :
  file_on f disk ss -> disk_ok disk -> 0 < numBytes <= Z.of_nat (length from) -> 0 <= position ->
  position + numBytes <= 128 * Z.of_nat (length ss) ->
  exists disk', WriteAt (S fuel) f disk from numBytes position = Ok (numBytes, f, disk') /\
    changes disk disk' ss /\
    file_bytes disk' ss = splice (file_bytes disk ss) (Z.to_nat position) (take (Z.to_nat numBytes) from).
Proof.
  intros Hf Hd Hn Hp Hin. pose proof (fo_bounds _ _ _ Hf) as [Hb Hsz]. pose proof (fo_mapped _ _ _ Hf) as Hm.
  cbn [WriteAt]. rewrite (fo_padded _ _ _ Hf). unfold two31 in Hsz.
  destruct (mapped_sector (hdr f) disk ss Hm 0) as (s0 & _ & _ & Hs0); [lia|].
  change (s32 (Z.of_nat 0 * SectorSize)) with 0 in Hs0. rewrite Hs0. cbn [mbind outcome_bind].
  rewrite !s32_small by (unfold is_s32, two31; lia).
  destruct (Z.leb_spec (position + numBytes) (128 * Z.of_nat (length ss))); [|lia].
  unfold divRoundDown. change SectorSize with 128. rewrite !cdiv_nonneg by lia.
  set (a := position `div` 128). set (b := (position + numBytes - 1) `div` 128).
  assert (0 <= a <= b) as Hab by (unfold a, b; dlia).
  assert (b < Z.of_nat (length ss)) as Hbl by (unfold b; dlia).
  unfold new_bytes. destruct (Z.ltb_spec ((1 + b - a) * 128) 0); [lia|]. cbn [mbind outcome_bind].
  pose proof (file_bytes_length (hdr f) disk ss Hm Hd) as Hfl.
  set (cnt := Z.to_nat (1 + b - a)). set (F := file_bytes disk ss) in *.
  destruct (write_through_ok f disk ss from numBytes position a b
    (fresh_bytes (Z.to_nat ((1 + b - a) * 128))) (take (128 * cnt) (drop (128 * Z.to_nat a) F)))
    as (disk' & -> & Hch & Hfb); try done; try (unfold a, b; dlia).
  - by apply fo_nodup in Hf.
  - rewrite length_take, length_drop. lia.
  - rewrite fresh_bytes_length. lia.
  - intros _. exists 128. rewrite (ReadAt_sector f disk ss) by (done || lia). rewrite take_take.
    do 3 f_equal. lia.
  - intros _ _. exists 128. eexists. rewrite (ReadAt_sector f disk ss) by (done || lia).
    split; [done|]. left. fold cnt. fold F. rewrite slice_slice by lia. rewrite drop_drop. do 2 f_equal. lia.
  - cbn [mbind outcome_bind]. exists disk'. split; [done|]. split; [done|]. rewrite Hfb.
    rewrite splice_window; rewrite ?length_take; [f_equal; unfold a; dlia|lia|unfold cnt, a, b; dlia].
Qed.

Lemma file_on_changes f disk disk' ss ss' : changes disk disk' ss' -> file_on f disk ss -> file_on f disk' ss.
Proof. intros (Hl & _) [Hm ? ? ?]. split; try done. by apply (mapped_length _ disk). Qed.

(** ** Small headers on disk *)

(** The sector holds the header [h] of a file that has direct sectors only. *)
Record header_at (disk : list (list Z)) (sector : Z) (h : FileHeader) : Prop := {
  ha_sector : 0 <= sector;
  ha_bytes : disk !! Z.to_nat sector = Some (words_to_bytes (header_words h));
  ha_shape : hdr_shape h;
  ha_words : Forall is_s32 (header_words h);
  ha_small : FileHdr.numSectors h <= 4 }.

(** [h] with the pointers that an object fetched from disk keeps. *)
Definition fetched (h : FileHeader) : FileHeader :=
  mkHeader (FileHdr.numBytes h) (FileHdr.numSectors h) (dataSectors h) (indirectSector h)
    (indirectPointers fresh_header).

Lemma header_words_length h : hdr_shape h -> length (header_words h) = 32%nat.
Proof. intros (Hd & Hi & _). unfold header_words. simpl. rewrite length_app. lia. Qed.

Lemma header_bytes_length h : hdr_shape h -> length (words_to_bytes (header_words h)) = 128%nat.
Proof. intros Hs. by rewrite words_to_bytes_length, header_words_length. Qed.

Lemma FetchFrom_small disk sector h : header_at disk sector h ->
  FetchFrom fresh_header disk sector = Ok (fetched h).
Proof.
  intros [Hs Hb (Hd & Hi & _) Hw Hn]. unfold FetchFrom.
  rewrite (ReadSector_in disk sector _ Hs Hb). cbn [mbind outcome_bind].
  rewrite stored_words by (done || (unfold header_words; simpl; rewrite length_app; lia)).
  unfold header_words. cbn [FileHdr.numSectors].
  change (Z.to_nat NumDirect) with 4%nat. change (Z.to_nat NumInDirect) with 26%nat.
  rewrite (take_app_length' _ _ 4), (drop_app_length' _ _ 4), (take_ge (indirectSector h)) by lia.
  change NumDirect with 4. by destruct (Z.ltb_spec 4 (FileHdr.numSectors h)); [lia|].
Qed.

Lemma OpenFile_new_small disk sector h : header_at disk sector h ->
  OpenFile_new disk sector = Ok (mkFile (fetched h) 0 sector).
Proof. intros Hh. unfold OpenFile_new. by rewrite (FetchFrom_small disk sector h). Qed.

Lemma WriteBack_small h disk sector :
  hdr_shape h -> Forall is_s32 (header_words h) -> FileHdr.numSectors h <= 4 ->
  0 <= sector < Z.of_nat (length disk) -> disk_ok disk ->
  exists disk', WriteBack h disk sector = Ok disk' /\ changes disk disk' [sector] /\ header_at disk' sector h.
Proof.
  intros Hsh Hw Hn Hs Hd. unfold WriteBack. rewrite WriteSector_in by done. cbn [mbind outcome_bind].
  change NumDirect with 4. destruct (Z.ltb_spec 4 (FileHdr.numSectors h)); [lia|]. eexists. split; [done|]. split.
  - split; [by rewrite length_insert|]. split.
    + apply Forall_insert; [done|]. by apply header_bytes_length.
    + intros t Ht Hnin. apply list_lookup_insert_ne. set_solver by lia.
  - split; try done; [lia|]. apply list_lookup_insert_eq. lia.
Qed.

Lemma header_at_changes disk disk' ss sector h :
  changes disk disk' ss -> ~ (sector ∈ ss) -> header_at disk sector h -> header_at disk' sector h.
Proof. intros (_ & _ & Ho) Hnin [Hs Hb ? ? ?]. split; try done. by rewrite Ho. Qed.

Lemma changes_weaken disk disk' ss ss' : (forall s, s ∈ ss -> s ∈ ss') -> changes disk disk' ss -> changes disk disk' ss'.
Proof. intros Hin (? & ? & Ho). split_and!; try done. intros s Hs Hnin. apply Ho; [done|]. auto. Qed.

Lemma changes_trans d1 d2 d3 ss : changes d1 d2 ss -> changes d2 d3 ss -> changes d1 d3 ss.
Proof.
  intros (Hl & _ & Ho) (Hl' & Hok & Ho'). split_and!; [congruence|done|]. intros s Hs Hnin. by rewrite Ho', Ho.
Qed.

Lemma file_bytes_changes disk disk' ss ss' :
  changes disk disk' ss' -> Forall (fun s => 0 <= s) ss -> (forall s, s ∈ ss -> ~ (s ∈ ss')) ->
  file_bytes disk' ss = file_bytes disk ss.
Proof.
  intros (_ & _ & Ho) Hr Hdisj. unfold file_bytes. f_equal. apply list_fmap_ext. intros i s Hs.
  unfold sector_data. rewrite Ho; [done|exact (Forall_lookup_1 _ _ _ _ Hr Hs)|].
  apply Hdisj. by eapply list_elem_of_lookup_2.
Qed.

(** The sectors of a small header are mapped. *)
Lemma mapped_direct h disk ss :
  (length ss <= 4)%nat -> take (length ss) (dataSectors h) = ss ->
  Forall (fun s => 0 <= s < Z.of_nat (length disk)) ss -> mapped h disk ss.
Proof.
  intros Hl Ht Hr. split; [|done|unfold two31; lia]. intros k s Hk. apply lookup_lt_Some in Hk as Hlt.
  unfold ByteToSector. change SectorSize with 128. rewrite cdiv_nonneg by lia.
  rewrite Z.mul_comm, Z.div_mul by lia. change NumDirect with 4. destruct (Z.ltb_spec (Z.of_nat k) 4); [|lia].
  apply arr_get_ok. split; [lia|]. rewrite Nat2Z.id. rewrite <- Ht in Hk.
  by apply lookup_take_Some in Hk as [Hk _].
Qed.

(** ** Bitmaps in files *)

(** The file holds the words of [bm] at its start. *)
Definition bitmap_in (disk : list (list Z)) (ss : list Z) (bm : BitMap) : Prop :=
  take (4 * length (bm_map bm)) (file_bytes disk ss) = words_to_bytes (bm_map bm).

Lemma BitMap_FetchFrom_ok bm0 bm f disk ss :
  file_on f disk ss -> disk_ok disk -> bm_wf bm0 -> bm_wf bm -> numBits bm0 = numBits bm -> 0 < numBits bm ->
  4 * numWords bm <= 128 * Z.of_nat (length ss) -> bitmap_in disk ss bm ->
  BitMap_FetchFrom bm0 f disk = Ok bm.
Proof.
  intros Hf Hd (_ & Hw0 & Hl0 & _) (_ & Hw & Hl & Hr) Hnb Hpos Hfit Hin.
  pose proof (fo_bounds _ _ _ Hf) as [Hb _]. pose proof (fo_mapped _ _ _ Hf).
  pose proof (divRoundUp_bounds (numBits bm) 32 ltac:(lia) ltac:(lia)) as Hdr.
  change BitsInWord with 32 in *. rewrite Hnb in Hw0. unfold BitMap_FetchFrom.
  rewrite (ReadAt_ok f disk ss) by (done || lia). cbn [mbind outcome_bind].
  replace (Z.to_nat (numWords bm0 * 4)) with (4 * length (bm_map bm))%nat by lia. cbn [drop Z.to_nat].
  unfold bitmap_in in Hin. change (drop (Z.to_nat 0) ?l) with l. rewrite Hin.
  rewrite put_bytes_in by (rewrite ?words_to_bytes_length; lia). cbn [mbind outcome_bind].
  unfold splice. cbn [Z.to_nat take app]. rewrite drop_ge by (rewrite !words_to_bytes_length; lia).
  replace (length (bm_map bm0)) with (length (bm_map bm)) by lia.
  change (take (Z.to_nat 0) ?l ++ ?r) with r. rewrite bytes_words_round_trip, map_u32_id by done. unfold set_map. destruct bm0, bm. simpl in *. congruence.
Qed.

Lemma WriteAt_bitmap fuel bm f disk ss :
  file_on f disk ss -> disk_ok disk -> bm_wf bm -> 0 < numBits bm -> 4 * numWords bm <= 128 * Z.of_nat (length ss) ->
  exists disk', WriteAt (S fuel) f disk (words_to_bytes (bm_map bm)) (numWords bm * 4) 0 =
      Ok (numWords bm * 4, f, disk') /\ changes disk disk' ss /\ bitmap_in disk' ss bm.
Proof.
  intros Hf Hd (_ & Hw & Hl & _) Hpos Hfit.
  pose proof (divRoundUp_bounds (numBits bm) 32 ltac:(lia) ltac:(lia)) as Hdr. change BitsInWord with 32 in *.
  pose proof (words_to_bytes_length (bm_map bm)) as Hlw.
  destruct (WriteAt_inside fuel f disk ss (words_to_bytes (bm_map bm)) (numWords bm * 4) 0)
    as (disk' & -> & Hch & Hfb); try done; try lia.
  exists disk'. split; [done|]. split; [done|]. unfold bitmap_in. rewrite Hfb.
  rewrite (take_ge (words_to_bytes _)) by lia.
  rewrite <- Hlw. apply (splice_read _ 0). rewrite (file_bytes_length (hdr f)) by (done || apply (fo_mapped _ _ _ Hf)).
  lia.
Qed.

Lemma BitMap_create_ok nitems : 0 <= nitems ->
  exists bm, BitMap_create nitems = Ok bm /\ bm_wf bm /\ numBits bm = nitems /\
    forall j, 0 <= j < nitems -> bm_bit bm j = false.
Proof.
  intros Hn. destruct (BitMap_new_clear nitems (fresh_words (Z.to_nat (divRoundUp nitems BitsInWord))))
    as (bm & Hnew & Hwf & Hnb & Ht & _); [done| |apply fresh_words_range|].
  - rewrite fresh_words_length, Z2Nat.id; [done|]. apply divRoundUp_nonneg; [done|]. unfold BitsInWord. lia.
  - exists bm. split_and!; try done. intros j Hj. specialize (Ht j Hj).
    rewrite BitMap_Test_bit in Ht by (done || lia). congruence.
Qed.

(** ** The file of the free map *)

(** The free map [bm] is in the sector [fms], the only one of the file whose header is in
    the sector [FreeMapSector]. *)
Record free_map_on (disk : list (list Z)) (fms : Z) (bm : BitMap) : Prop := {
  fm_header : exists h, header_at disk FreeMapSector h /\ FileHdr.numBytes h = 128 /\
    FileHdr.numSectors h = 1 /\ take 1 (dataSectors h) = [fms];
  fm_sector : 0 <= fms < 1024;
  fm_other : fms <> FreeMapSector;
  fm_wf : bm_wf bm;
  fm_bits : numBits bm = 1024;
  fm_words : bitmap_in disk [fms] bm }.

Lemma free_map_opens disk fms bm :
  free_map_on disk fms bm -> disk_ok disk -> length disk = 1024%nat ->
  exists f, OpenFile_new disk FreeMapSector = Ok f /\ file_on f disk [fms] /\ FileLength (hdr f) = 128.
Proof.
  intros [(h & Hh & Hb & Hn & Ht) Hs Hne Hwf Hbits Hin] Hd Hl. eexists. split; [by apply OpenFile_new_small|].
  split; [|done]. split; cbn [hdr].
  - apply mapped_direct; [simpl; lia|done|]. repeat constructor; simpl; lia.
  - apply NoDup_singleton.
  - unfold FileLength, fetched. simpl. lia.
  - unfold FileLength, fetched. simpl. by rewrite Hb.
Qed.

Lemma bitmap_words bm : bm_wf bm -> numBits bm = 1024 -> numWords bm = 32.
Proof. intros (_ & -> & _) ->. done. Qed.

(** Fetching the free map from its file, into any bitmap of its size. *)
Lemma free_map_fetch f bm0 disk fms bm :
  file_on f disk [fms] -> free_map_on disk fms bm -> disk_ok disk -> bm_wf bm0 -> numBits bm0 = 1024 ->
  BitMap_FetchFrom bm0 f disk = Ok bm.
Proof.
  intros Hf Hfm Hd Hwf0 Hb0. pose proof Hfm as [_ _ _ Hwf Hb Hin]. pose proof (bitmap_words bm Hwf Hb).
  apply (BitMap_FetchFrom_ok bm0 bm f disk [fms]); try done; simpl; lia.
Qed.

(** Writing another free map back. *)
Lemma free_map_store fuel f disk fms bm bm' :
  file_on f disk [fms] -> free_map_on disk fms bm -> disk_ok disk -> bm_wf bm' -> numBits bm' = 1024 ->
  exists disk', WriteAt (S fuel) f disk (words_to_bytes (bm_map bm')) (numWords bm' * 4) 0 =
      Ok (numWords bm' * 4, f, disk') /\ changes disk disk' [fms] /\ free_map_on disk' fms bm'.
Proof.
  intros Hf [(h & Hh & Hrest) Hs Hne _ _ _] Hd Hwf Hb. pose proof (bitmap_words bm' Hwf Hb).
  destruct (WriteAt_bitmap fuel bm' f disk [fms]) as (disk' & -> & Hch & Hin); try done; try (simpl; lia).
  exists disk'. split; [done|]. split; [done|]. split; try done. exists h. split; [|done].
  apply (header_at_changes disk disk' [fms]); try done. rewrite list_elem_of_singleton. congruence.
Qed.

(** One more direct sector. *)
Lemma ExtendFile_one fuel h disk fms bm :
  free_map_on disk fms bm -> disk_ok disk -> length disk = 1024%nat -> hdr_shape h ->
  0 <= FileHdr.numSectors h < 4 -> 0 < ba_free bm ->
  exists s bm' disk', allocated bm bm' [s] /\ changes disk disk' [fms] /\ free_map_on disk' fms bm' /\
    ExtendFile_on_disk (WriteAt (S fuel)) h disk (FileHdr.numSectors h + 1) =
    Ok (true, mkHeader (FileHdr.numBytes h) (FileHdr.numSectors h + 1)
                (<[Z.to_nat (FileHdr.numSectors h) := s]> (dataSectors h)) (indirectSector h)
                (indirectPointers h), disk').
Proof.
  intros Hfm Hd Hl Hsh Hn Hfree. unfold ExtendFile_on_disk.
  destruct (Z.leb_spec (FileHdr.numSectors h + 1 - FileHdr.numSectors h) 0); [lia|].
  destruct (free_map_opens disk fms bm) as (f & -> & Hf & _); try done. cbn [mbind outcome_bind].
  destruct (BitMap_create_ok NumSectors) as (bm0 & -> & Hwf0 & Hb0 & _); [done|]. cbn [mbind outcome_bind].
  rewrite (free_map_fetch f bm0 disk fms bm) by done. cbn [mbind outcome_bind].
  pose proof (fm_wf _ _ _ Hfm) as Hwf.
  destruct (ExtendFile_ok bm h (FileHdr.numSectors h + 1)) as (bm' & news & s & Hal & Hlen & ->);
    try done; try lia. cbn [mbind outcome_bind].
  assert (news = []) as -> by (apply nil_length_inv; lia). simpl in Hal.
  pose proof (al_size _ _ _ Hal) as Hsz. simpl in Hsz.
  destruct (free_map_store fuel f disk fms bm bm') as (disk' & -> & Hch & Hfm'); try done.
  { apply (al_inv _ _ _ Hal). } { rewrite Hsz. apply (fm_bits _ _ _ Hfm). }
  cbn [mbind outcome_bind]. exists s, bm', disk'. done.
Qed.

Lemma free_map_changes disk disk' l fms bm :
  changes disk disk' l -> ~ (fms ∈ l) -> ~ (FreeMapSector ∈ l) ->
  free_map_on disk fms bm -> free_map_on disk' fms bm.
Proof.
  intros Hch Hf H0' [(h & Hh & Hrest) Hs ? ? ? Hin]. split; try done.
  - exists h. split; [|done]. by apply (header_at_changes disk disk' l).
  - unfold bitmap_in. rewrite (file_bytes_changes disk disk' _ l); try done.
    + repeat constructor. lia.
    + intros s ->%list_elem_of_singleton. done.
Qed.

(** A file with direct sectors only, and all of them on record. *)
Record small_file (f : OpenFile) (disk : list (list Z)) (ss : list Z) : Prop := {
  sf_file : file_on f disk ss;
  sf_shape : hdr_shape (hdr f);
  sf_words : Forall is_s32 (header_words (hdr f));
  sf_count : FileHdr.numSectors (hdr f) = Z.of_nat (length ss);
  sf_direct : take (length ss) (dataSectors (hdr f)) = ss;
  sf_header : 0 <= hdrSector f < Z.of_nat (length disk);
  sf_apart : ~ (hdrSector f ∈ ss) }.

(** The file has one more sector. *)
Lemma mapped_extend f disk disk' ss s :
  small_file f disk ss -> length disk' = length disk -> (length ss < 4)%nat -> 0 <= s < Z.of_nat (length disk) ->
  let h := mkHeader (FileHdr.numBytes (hdr f)) (FileHdr.numSectors (hdr f) + 1)
             (<[Z.to_nat (FileHdr.numSectors (hdr f)) := s]> (dataSectors (hdr f)))
             (indirectSector (hdr f)) (indirectPointers (hdr f)) in
  hdr_shape h /\ take (length (ss ++ [s])) (dataSectors h) = ss ++ [s] /\
  mapped h disk' (ss ++ [s]) /\ mapped h disk' ss.
Proof.
  intros [[Hm _ _ _] (Hd & Hi & Hp) _ Hc Ht _ _] Hl Hlt Hs h.
  assert (take (length (ss ++ [s])) (dataSectors h) = ss ++ [s]) as Htake.
  { unfold h. cbn [dataSectors]. rewrite Hc, Nat2Z.id, length_app. simpl.
    rewrite Nat.add_1_r, (take_S_r _ _ s) by (apply list_lookup_insert_eq; lia).
    rewrite take_insert_ge by lia. by rewrite Ht. }
  split; [unfold hdr_shape, h; cbn [dataSectors indirectSector indirectPointers]; by rewrite length_insert|].
  split; [done|]. pose proof (mp_range _ _ _ Hm) as Hr. split; apply mapped_direct; rewrite ?Hl; try done.
  - rewrite length_app. simpl. lia.
  - apply Forall_app. split; [done|]. repeat constructor; lia.
  - lia.
  - apply (f_equal (take (length ss))) in Htake. rewrite take_take, length_app in Htake.
    rewrite Nat.min_l in Htake by lia. by rewrite take_app_length in Htake.
Qed.

(** Writing to a file that has just got the sector [s] and has not changed its length. *)
Lemma write_new_sector f disk ss s from numBytes position :
  let k := Z.of_nat (length ss) in
  file_on f disk ss -> mapped (hdr f) disk (ss ++ [s]) -> NoDup (ss ++ [s]) -> disk_ok disk ->
  k <= 1 -> 0 <= position < 128 -> (k = 0 -> position = 0) ->
  0 < numBytes <= Z.of_nat (length from) -> 128 * k < position + numBytes <= 128 * (k + 1) ->
  exists disk', write_through f disk from numBytes position 0 k (replicate (Z.to_nat ((k + 1) * 128)) 0) = Ok disk' /\
    changes disk disk' (ss ++ [s]) /\
    take (Z.to_nat (position + numBytes)) (file_bytes disk' (ss ++ [s])) =
    take (Z.to_nat position) (file_bytes disk ss) ++ take (Z.to_nat numBytes) from.
Proof.
  intros k Hf Hm Hnd Hd Hk Hp Hp0 Hn Hend. pose proof (fo_bounds _ _ _ Hf) as [Hb _].
  set (F := file_bytes disk ss). set (W := F ++ replicate 128 0).
  assert (length F = (128 * length ss)%nat) as HF
    by (apply (file_bytes_length (hdr f)); [apply (fo_mapped _ _ _ Hf)|done]).
  assert (length W = (128 * (length ss + 1))%nat) as HW
    by (unfold W; rewrite length_app, length_replicate; lia).
  assert (length (file_bytes disk (ss ++ [s])) = length W) as HF'
    by (rewrite (file_bytes_length (hdr f)), length_app by done; simpl; lia).
  destruct (write_through_ok f disk (ss ++ [s]) from numBytes position 0 k
    (replicate (Z.to_nat ((k + 1) * 128)) 0) W) as (disk' & Hw & Hch & Hfb); try done; try lia.
  - rewrite length_app. simpl. lia.
  - rewrite length_replicate. lia.
  - intros Hne. exists 128. rewrite (ReadAt_sector f disk ss) by (done || lia).
    change (128 * Z.to_nat 0)%nat with 0%nat. do 2 f_equal. fold F. unfold W. rewrite take_app_le by lia. done.
  - intros _ _. exists 0, []. split; [apply ReadAt_nothing; lia|]. right. split; [done|].
    replace (128 * (Z.to_nat (1 + k - 0) - 1))%nat with (length F) by lia.
    unfold W. rewrite drop_app_length, drop_replicate, !take_replicate. f_equal. lia.
  - exists disk'. split; [done|]. split; [done|]. rewrite Hfb.
    change (128 * Z.to_nat 0)%nat with 0%nat.
    set (data := take (Z.to_nat numBytes) from).
    assert (length data = Z.to_nat numBytes) as Hdl by (unfold data; rewrite length_take; lia).
    replace (Z.to_nat (position - 0 * 128)) with (Z.to_nat position) by lia.
    assert (length (splice W (Z.to_nat position) data) = length W) as Hsl by (rewrite splice_length; lia).
    unfold splice at 1. rewrite drop_ge, app_nil_r by lia. change (take 0 ?l ++ ?r) with r. unfold splice.
    rewrite app_assoc, take_app_length'.
    + unfold W. by rewrite take_app_le by lia.
    + rewrite length_app, length_take, Hdl. lia.
Qed.

Lemma mapped_setNumBytes h disk ss n : mapped h disk ss -> mapped (setNumBytes h n) disk ss.
Proof. intros [Hs Hr Hz]. by split. Qed.

Lemma header_words_extend h n s l :
  Forall is_s32 (header_words h) -> is_s32 n -> is_s32 (FileHdr.numSectors h + 1) -> is_s32 s ->
  Forall is_s32 (header_words (setNumBytes
    (mkHeader (FileHdr.numBytes h) (FileHdr.numSectors h + 1)
       (<[Z.to_nat l := s]> (dataSectors h)) (indirectSector h) (indirectPointers h)) n)).
Proof.
  unfold header_words. simpl. intros [_ [_ [Hd Hi]%Forall_app]%Forall_cons]%Forall_cons Hn Hc Hs.
  repeat apply Forall_cons_2; try done. apply Forall_app. split; [|done]. by apply Forall_insert.
Qed.

(** Cases 2 and 3 of [WriteAt] when the request starts in the first sector and needs one
    sector more than the file has. *)
Lemma extend_and_write_ok fuel f disk ss fms bm from numBytes position start :
  let k := Z.of_nat (length ss) in
  small_file f disk ss -> disk_ok disk -> length disk = 1024%nat -> free_map_on disk fms bm -> 0 < ba_free bm ->
  (forall s, s ∈ [FreeMapSector; fms; hdrSector f] ++ ss -> bm_bit bm s = true) ->
  ~ (fms ∈ ss) -> ~ (FreeMapSector ∈ ss) -> hdrSector f <> fms -> hdrSector f <> FreeMapSector ->
  k <= 1 -> 0 <= start < 128 -> 0 <= position < 128 -> (k = 0 -> position = 0) ->
  0 < numBytes <= Z.of_nat (length from) -> 128 * k < position + numBytes <= 128 * (k + 1) ->
  exists s f' disk' bm',
    extend_and_write (ExtendFile_on_disk (WriteAt (S fuel))) f disk from numBytes position start
      (position + numBytes) = Ok (numBytes, f', disk') /\
    small_file f' disk' (ss ++ [s]) /\ hdrSector f' = hdrSector f /\ seekPosition f' = seekPosition f /\
    FileLength (hdr f') = position + numBytes /\
    header_at disk' (hdrSector f) (hdr f') /\
    take (Z.to_nat (position + numBytes)) (file_bytes disk' (ss ++ [s])) =
      take (Z.to_nat position) (file_bytes disk ss) ++ take (Z.to_nat numBytes) from /\
    allocated bm bm' [s] /\ free_map_on disk' fms bm' /\
    changes disk disk' ([fms; hdrSector f; s] ++ ss).
Proof.
  intros k Hsf Hd Hl Hfm Hfree Hused Hfss H0ss Hhf Hh0 Hk Hstart Hp Hp0 Hn Hend.
  pose proof Hsf as [Hf Hsh Hw Hc Ht Hhs Hha]. fold k in Hc.
  destruct (ExtendFile_one fuel (hdr f) disk fms bm) as (s & bm' & disk1 & Hal & Hch1 & Hfm1 & Hext);
    try done; try lia.
  assert (0 <= s < 1024 /\ bm_bit bm s = false) as [Hs Hsfree].
  { destruct (al_got _ _ _ Hal s) as [Hr Hu]; [by apply list_elem_of_singleton|]. simpl in Hr.
    rewrite (fm_bits _ _ _ Hfm) in Hr. done. }
  assert (~ (s ∈ [FreeMapSector; fms; hdrSector f] ++ ss)) as Hsnew by (intros Hin%Hused; congruence).
  destruct (mapped_extend f disk disk1 ss s) as (Hsh1 & Ht1 & Hm1 & Hm1'); try done; try lia; try apply Hch1.
  unfold extend_and_write, divRoundDown. change SectorSize with 128.
  rewrite s32_small by (unfold is_s32, two31; lia). rewrite !cdiv_nonneg by lia.
  replace (start `div` 128) with 0 by dlia. replace ((position + numBytes - 1) `div` 128) with k by dlia.
  replace (1 + k - 0) with (FileHdr.numSectors (hdr f) + 1) by lia. rewrite Hext. cbn [mbind outcome_bind].
  set (h1 := mkHeader (FileHdr.numBytes (hdr f)) _ _ _ _) in *.
  destruct (Z.ltb_spec ((FileHdr.numSectors (hdr f) + 1) * 128) 0); [lia|]. cbn [mbind outcome_bind].
  assert (file_on (set_hdr f h1) disk1 ss) as Hf1 by (by destruct Hf; split).
  assert (NoDup (ss ++ [s])) as Hnd1.
  { apply NoDup_app. split; [apply (fo_nodup _ _ _ Hf)|]. split; [|apply NoDup_singleton]. set_solver. }
  rewrite Hc. pose proof (write_new_sector (set_hdr f h1) disk1 ss s from numBytes position) as Hwn. fold k in Hwn.
  destruct Hwn as (disk2 & -> & Hch2 & Hbytes); try done; [apply Hch1|]. cbn [mbind outcome_bind].
  set (h2 := setNumBytes _ _). destruct (WriteBack_small h2 disk2 (hdrSector f)) as (disk3 & Hwb & Hch3 & Hha3).
  { done. } { apply header_words_extend; [done|unfold is_s32, two31; lia..]. } { unfold h2, h1. simpl. lia. } { destruct Hch1, Hch2. lia. } { apply Hch2. }
  cbn [hdrSector set_hdr] in Hwb |- *. rewrite Hwb. cbn [mbind outcome_bind].
  exists s, (set_hdr (set_hdr f h1) h2), disk3, bm'. split; [done|].
  assert (changes disk disk3 ([fms; hdrSector f; s] ++ ss)) as Hch.
  { apply (changes_trans _ disk1); [by apply (changes_weaken _ _ [fms]); [set_solver|]|].
    apply (changes_trans _ disk2); [apply (changes_weaken _ _ (ss ++ [s])); [set_solver|done]|].
    apply (changes_weaken _ _ [hdrSector f]); [set_solver|done]. }
  assert (0 <= fms) by (pose proof (fm_sector _ _ _ Hfm); lia).
  assert (Forall (fun t => 0 <= t) ss) as Hssr.
  { eapply Forall_impl; [exact (mp_range _ _ _ (fo_mapped _ _ _ Hf))|]. simpl. lia. }
  assert (file_bytes disk1 ss = file_bytes disk ss) as Hb1 by (apply (file_bytes_changes _ _ _ [fms]); set_solver).
  assert (file_bytes disk3 (ss ++ [s]) = file_bytes disk2 (ss ++ [s])) as Hb3.
  { apply (file_bytes_changes _ _ _ [hdrSector f]); [done| |set_solver].
    apply Forall_app. split; [done|]. repeat constructor; lia. }
  assert (length disk3 = length disk) as Hl3 by (by destruct Hch).
  split_and!; try done; try (by rewrite Hb3, Hbytes, Hb1).
  - split; try done.
    + split; try done.
      * apply (mapped_setNumBytes h1), (mapped_length _ disk1); [|done]. destruct Hch1. lia.
      * unfold FileLength. simpl. lia.
      * unfold FileLength. simpl. rewrite length_app. simpl. change SectorSize with 128.
        pose proof (divRoundUp_bounds (position + numBytes) 128 ltac:(lia) ltac:(lia)). lia.
    + apply Hha3.
    + simpl. rewrite length_app. simpl. lia.
    + simpl. lia.
    + simpl. set_solver.
  - apply (free_map_changes disk2 disk3 [hdrSector f]); try done; [set_solver..|].
    apply (free_map_changes disk1 disk2 (ss ++ [s])); try done; set_solver.
Qed.
End operations.

(** ** Memory that holds zeros, and concrete disks *)

Definition zero_fresh : Fresh := {|
  fresh_bytes n := replicate n 0;
  fresh_words n := replicate n 0;
  fresh_header := blank_header;
  fresh_entries n := replicate n zero_entry;
  entry_pad n := replicate (Z.to_nat n) 0 |}.

Lemma zero_fresh_laws : FreshLaws (H := zero_fresh).
Proof.
  split; simpl; intros.
  - apply length_replicate.
  - apply length_replicate.
  - apply Forall_replicate. unfold is_u32, two32. lia.
  - by split.
  - split; apply Forall_replicate; unfold is_s32, two31; lia.
  - apply length_replicate.
  - by apply Forall_replicate.
  - apply Forall_replicate. unfold is_s32, two31. simpl. lia.
  - apply length_replicate.
Qed.

(** A disk of zeros but for the given sectors. *)
Definition demo_disk (n : nat) (ds : list (nat * list Z)) : list (list Z) :=
  foldr (fun '(i, d) disk => <[i := d]> disk) (replicate n (replicate 128 0)) ds.

Lemma demo_sectors_ok n ds : Forall (fun '(i, d) => length d = 128%nat) ds ->
  disk_ok (demo_disk n ds) /\ length (demo_disk n ds) = n.
Proof.
  induction 1 as [|[i d] ds Hd _ [IHok IHl]]; simpl.
  - split; [|apply length_replicate]. by apply Forall_replicate.
  - rewrite length_insert. split; [|done]. by apply Forall_insert.
Qed.

Definition small_header (bytes sectors : Z) (ds : list Z) : FileHeader :=
  mkHeader bytes sectors ds (replicate 26 0) (replicate 26 None).

(** A file of 200 bytes in the sectors 5 and 3 of a disk of eight. *)
Definition demo_file : OpenFile := mkFile (small_header 200 2 [5; 3; 0; 0]) 0 4.
Definition demo_disk8 : list (list Z) := demo_disk 8 [(5%nat, replicate 128 7); (3%nat, replicate 128 9)].

Lemma demo_file_on : file_on demo_file demo_disk8 [5; 3] /\ disk_ok demo_disk8.
Proof.
  destruct (demo_sectors_ok 8 [(5%nat, replicate 128 7); (3%nat, replicate 128 9)]) as [Hok Hl];
    [by repeat constructor|]. fold demo_disk8 in Hok, Hl. split; [|done]. split; try done.
  - apply mapped_direct; [simpl; lia|done|]. rewrite Hl. repeat constructor; simpl; lia.
  - apply (bool_decide_unpack _). vm_compute. exact I.
Qed.

(** ** Properties *)

(** C7. The open file is an array of bytes: its sectors one after the other. [ReadAt] of a
    range within the sectors of the file, starting before its end, gives that slice;
    starting at or after the end, or for no bytes, it gives nothing. [WriteAt] of a range
    within the sectors returns, leaves the header as it is, replaces that slice and no
    byte outside it, and touches no sector of another file. *)
Theorem OpenFile_refines_array `{FreshLaws} fuel f disk ss from numBytes position :
  file_on f disk ss -> disk_ok disk -> 0 <= position ->
  let F := file_bytes disk ss in
  (numBytes <= 0 \/ FileLength (hdr f) <= position -> ReadAt f disk numBytes position = Ok (0, [])) /\
  (0 < numBytes -> position + numBytes <= Z.of_nat (length F) ->
   (position < FileLength (hdr f) ->
    ReadAt f disk numBytes position = Ok (numBytes, take (Z.to_nat numBytes) (drop (Z.to_nat position) F))) /\
   (numBytes <= Z.of_nat (length from) ->
    exists disk', WriteAt (S fuel) f disk from numBytes position = Ok (numBytes, f, disk') /\
      file_on f disk' ss /\ disk_ok disk' /\ length (file_bytes disk' ss) = length F /\
      (forall i, file_bytes disk' ss !! i =
         if decide (Z.to_nat position <= i < Z.to_nat position + Z.to_nat numBytes)%nat
         then from !! (i - Z.to_nat position)%nat else F !! i) /\
      (forall s, 0 <= s -> ~ (s ∈ ss) -> disk' !! Z.to_nat s = disk !! Z.to_nat s))).
Proof.
  intros Hf Hd Hp F. pose proof (fo_mapped _ _ _ Hf) as Hm.
  assert (length F = (128 * length ss)%nat) as HF by (by apply (file_bytes_length (hdr f))).
  split; [apply ReadAt_nothing|]. intros Hn Hin. split.
  { intros Hlt. apply ReadAt_ok; try done; lia. }
  intros Hfrom. destruct (WriteAt_inside fuel f disk ss from numBytes position) as (disk' & Hw & Hch & Hfb);
    try done; try lia. fold F in Hfb.
  assert (length (take (Z.to_nat numBytes) from) = Z.to_nat numBytes) as Hlt by (rewrite length_take; lia).
  exists disk'. split; [done|]. split; [by apply (file_on_changes f disk disk' ss ss)|].
  split; [apply Hch|]. split; [rewrite Hfb; apply splice_length; lia|]. split; [|apply Hch].
  intros i. rewrite Hfb, splice_lookup, Hlt by lia. case_decide; [|done]. apply lookup_take_lt. lia.
Qed.

Lemma OpenFile_refines_array_witness :
  exists disk', WriteAt (H := zero_fresh) 1 demo_file demo_disk8 [1; 2; 3; 4] 4 126 = Ok (4, demo_file, disk') /\
    file_bytes disk' [5; 3] !! 129%nat = Some 4.
Proof.
  destruct demo_file_on as [Hf Hd].
  destruct (OpenFile_refines_array (H := zero_fresh) (H0 := zero_fresh_laws) 0 demo_file demo_disk8 [5; 3]
    [1; 2; 3; 4] 4 126) as [_ Hops]; [exact Hf|exact Hd|lia|].
  destruct Hops as [_ Hw]; [lia|vm_compute; discriminate|].
  destruct Hw as (disk' & Hrun & _ & _ & _ & Hbytes & _); [simpl; lia|].
  exists disk'. split; [exact Hrun|]. rewrite Hbytes. reflexivity.
Defined.

(** A bitmap that is written to a file it fits into and fetched back, into any bitmap of
    the same number of bits, is the one that was written. *)
Theorem BitMap_file_roundtrip `{FreshLaws} fuel f disk ss bm bm0 :
  file_on f disk ss -> disk_ok disk -> bm_wf bm -> bm_wf bm0 -> numBits bm0 = numBits bm ->
  0 < numBits bm <= 8 * 128 * Z.of_nat (length ss) -> numBits bm `mod` 32 = 0 ->
  exists disk', BitMap_WriteBack (S fuel) bm f disk = Ok (f, disk') /\
    BitMap_FetchFrom bm0 f disk' = Ok bm /\ changes disk disk' ss.
Proof.
  intros Hf Hd Hwf Hwf0 Hnb Hpos Hmod.
  assert (4 * numWords bm <= 128 * Z.of_nat (length ss)) as Hfit.
  { destruct Hwf as (_ & -> & _). change BitsInWord with 32. unfold divRoundUp.
    rewrite cdiv_nonneg, cmod_nonneg, Hmod by lia. simpl. dlia. }
  destruct (WriteAt_bitmap fuel bm f disk ss) as (disk' & Hw & Hch & Hin); try done; [lia|].
  exists disk'. unfold BitMap_WriteBack. rewrite Hw. split; [done|]. split; [|done].
  apply (BitMap_FetchFrom_ok bm0 bm f disk' ss); try done; [|apply Hch|lia].
  by apply (file_on_changes f disk disk' ss ss).
Qed.

Lemma BitMap_file_roundtrip_witness :
  exists disk', BitMap_WriteBack (H := zero_fresh) 1 (demo_map 77) demo_file demo_disk8 = Ok (demo_file, disk') /\
    BitMap_FetchFrom (H := zero_fresh) (demo_map 0) demo_file disk' = Ok (demo_map 77).
Proof.
  destruct demo_file_on as [Hf Hd].
  destruct (BitMap_file_roundtrip (H := zero_fresh) (H0 := zero_fresh_laws) 0 demo_file demo_disk8 [5; 3]
    (demo_map 77) (demo_map 0)) as (disk' & Hw & Hr & _).
  - exact Hf.
  - exact Hd.
  - apply demo_map_wf. unfold is_u32, two32. lia.
  - apply demo_map_wf. unfold is_u32, two32. lia.
  - reflexivity.
  - simpl. lia.
  - reflexivity.
  - exists disk'. split; [exact Hw|exact Hr].
Defined.

(** Growing a file of no sector or of one. A request that starts in the first sector (at
    its beginning, for an empty file) and ends in the sector after the last one takes one
    free sector, records it in the free map on disk, in the header in memory and in the
    header on disk, sets the length to the end of the request, and stores the data after
    what was there before. The nested write of the free map needs one level of fuel. *)
Theorem WriteAt_grows `{FreshLaws} fuel f disk ss fms bm from numBytes position :
  let k := Z.of_nat (length ss) in
  small_file f disk ss -> disk_ok disk -> length disk = 1024%nat -> free_map_on disk fms bm -> 0 < ba_free bm ->
  (forall s, s ∈ [FreeMapSector; fms; hdrSector f] ++ ss -> bm_bit bm s = true) ->
  NoDup ([FreeMapSector; fms; hdrSector f] ++ ss) ->
  k <= 1 -> 0 <= position < 128 -> (k = 0 -> position = 0) ->
  0 < numBytes <= Z.of_nat (length from) -> 128 * k < position + numBytes <= 128 * (k + 1) ->
  exists s f' disk' bm',
    WriteAt (S (S fuel)) f disk from numBytes position = Ok (numBytes, f', disk') /\
    small_file f' disk' (ss ++ [s]) /\ hdrSector f' = hdrSector f /\ seekPosition f' = seekPosition f /\
    FileLength (hdr f') = position + numBytes /\
    header_at disk' (hdrSector f) (hdr f') /\
    take (Z.to_nat (position + numBytes)) (file_bytes disk' (ss ++ [s])) =
      take (Z.to_nat position) (file_bytes disk ss) ++ take (Z.to_nat numBytes) from /\
    allocated bm bm' [s] /\ free_map_on disk' fms bm' /\
    changes disk disk' ([fms; hdrSector f; s] ++ ss).
Proof.
  intros k Hsf Hd Hl Hfm Hfree Hused Hnd Hk Hp Hp0 Hn Hend. pose proof (sf_file _ _ _ Hsf) as Hf.
  cbn [app] in Hnd. rewrite !NoDup_cons in Hnd. destruct Hnd as (Hn1 & Hn2 & Hn3 & _).
  pose proof (extend_and_write_ok fuel f disk ss fms bm from numBytes position) as Hew. fold k in Hew.
  assert (exists x, ByteToSector (hdr f) 0 = Ok x) as [x Hx].
  { destruct (sf_shape _ _ _ Hsf) as (Hds & _). apply (arr_get_in (dataSectors (hdr f)) 0). lia. }
  remember (S fuel) as fuel1. cbn [WriteAt]. rewrite Hx, (fo_padded _ _ _ Hf). cbn [mbind outcome_bind]. fold k.
  rewrite !s32_small by (unfold is_s32, two31; lia).
  destruct (Z.leb_spec (position + numBytes) (128 * k)); [lia|]. replace (numBytes + position) with (position + numBytes) by lia.
  destruct (Z.ltb_spec position (128 * k)).
  - subst fuel1. apply Hew; try done; set_solver.
  - replace (numBytes + 128 * k) with (position + numBytes) by lia. subst fuel1. apply Hew; try done; try lia; set_solver.
Qed.

(** A disk of 1024 sectors with the free map in sector 2 and a file of 100 bytes, in
    sector 4, with its header in sector 3. *)
Definition demo_free : BitMap := mkBitMap 1024 32 (31 :: replicate 31 0).
Definition map_header : FileHeader := small_header 128 1 [2; 0; 0; 0].
Definition demo_file1 : OpenFile := mkFile (small_header 100 1 [4; 0; 0; 0]) 0 3.
Definition demo_disk_fs : list (list Z) :=
  demo_disk 1024 [(0%nat, words_to_bytes (header_words map_header));
                  (2%nat, words_to_bytes (bm_map demo_free)); (4%nat, replicate 128 7)].

Lemma demo_disk_fs_ok : disk_ok demo_disk_fs /\ length demo_disk_fs = 1024%nat.
Proof. apply demo_sectors_ok. by repeat constructor. Qed.

Lemma demo_free_map_on : free_map_on demo_disk_fs 2 demo_free.
Proof.
  split; try done.
  - exists map_header. split; [|done]. split; try done. apply (bool_decide_unpack _). vm_compute. exact I.
  - split; [done|]. split; [done|]. split; [done|]. apply (bool_decide_unpack _). vm_compute. exact I.
Qed.

Lemma demo_file1_small : small_file demo_file1 demo_disk_fs [4].
Proof.
  destruct demo_disk_fs_ok as [_ Hl]. split; try done.
  - split; try done; [|apply NoDup_singleton]. apply mapped_direct; [simpl; lia|done|].
    rewrite Hl. repeat constructor; simpl; lia.
  - apply (bool_decide_unpack _). vm_compute. exact I.
  - simpl. intros Hin%list_elem_of_singleton. done.
Qed.

Lemma WriteAt_grows_witness :
  exists s f' disk' bm', WriteAt (H := zero_fresh) 2 demo_file1 demo_disk_fs (replicate 60 1) 60 90 = Ok (60, f', disk') /\
    small_file f' disk' [4; s] /\ FileLength (hdr f') = 150 /\ allocated demo_free bm' [s] /\ free_map_on disk' 2 bm'.
Proof.
  destruct demo_disk_fs_ok as [Hd Hl].
  destruct (WriteAt_grows (H := zero_fresh) (H0 := zero_fresh_laws) 0 demo_file1 demo_disk_fs [4] 2 demo_free
    (replicate 60 1) 60 90) as (s & f' & disk' & bm' & Hw & Hsf & _ & _ & Hlen & _ & _ & Hal & Hfm & _).
  - exact demo_file1_small.
  - exact Hd.
  - exact Hl.
  - exact demo_free_map_on.
  - vm_compute. reflexivity.
  - apply (proj1 (Forall_forall (fun s => bm_bit demo_free s = true) _)). repeat constructor.
  - apply (bool_decide_unpack _). vm_compute. exact I.
  - simpl. lia.
  - lia.
  - simpl. lia.
  - simpl. lia.
  - simpl. lia.
  - exists s, f', disk', bm'. split; [exact Hw|]. split; [exact Hsf|]. split; [exact Hlen|]. split; [exact Hal|exact Hfm].
Defined.

(** Writing the beginning of one sector that is past the end of the file. *)
Lemma write_through_past_end `{FreshLaws} f disk from numBytes k z :
  0 <= k < 1000 -> 0 < numBytes <= 128 -> Z.of_nat (length from) = numBytes -> FileLength (hdr f) <= 128 * k ->
  ByteToSector (hdr f) (k * 128) = Ok z -> 0 <= z < Z.of_nat (length disk) ->
  write_through f disk from numBytes (128 * k) k k (replicate 128 0) =
  Ok (<[Z.to_nat z := from ++ replicate (Z.to_nat (128 - numBytes)) 0]> disk).
Proof.
  intros Hk Hn Hfrom Hlen Hz Hzr. unfold write_through. change SectorSize with 128.
  rewrite !s32_small by (unfold is_s32, two31; lia). destruct (Z.eqb_spec (128 * k) (k * 128)); [|lia].
  rewrite Z.eqb_refl. cbn [negb orb]. rewrite andb_true_r. cbn [mbind outcome_bind].
  rewrite ReadAt_nothing by lia. rewrite Z.sub_diag. change (0 * 128) with 0.
  eassert ((if negb (128 * k + numBytes =? (k + 1) * 128) then _ else Ok (replicate 128 0)) =
    Ok (replicate 128 0)) as ->.
  { destruct (128 * k + numBytes =? (k + 1) * 128); cbn [negb]; [done|]. reflexivity. }
  cbn [mbind outcome_bind]. rewrite get_bytes_in by lia. change (drop (Z.to_nat 0) from) with from.
  rewrite take_ge by lia. cbn [mbind outcome_bind].
  rewrite put_bytes_in by (rewrite ?length_replicate; lia). cbn [mbind outcome_bind].
  replace (Z.to_nat (128 * k - k * 128)) with 0%nat by lia. unfold splice. rewrite drop_replicate.
  change (take 0 ?l ++ ?r) with r. replace (1 + k - k) with 1 by lia. change (Z.to_nat 1) with 1%nat.
  cbn [write_sectors]. rewrite s32_small by (unfold is_s32, two31; change SectorSize with 128; lia).
  change SectorSize with 128. rewrite Hz. cbn [mbind outcome_bind].
  rewrite get_bytes_in by (rewrite ?length_app, ?length_replicate; lia). rewrite Z.sub_diag. change (0 * 128) with 0.
  change (drop (Z.to_nat 0) ?l) with l. cbn [mbind outcome_bind].
  rewrite WriteSector_in by lia. cbn [mbind outcome_bind]. do 2 f_equal.
  rewrite take_ge by (rewrite length_app, length_replicate; lia). do 2 f_equal. lia.
Qed.

(** Appending at the end of the last sector of a file that has one to three sectors.
    [WriteAt] passes the number of sectors that the request touches, which is one, to
    [ExtendFile], which takes it as the new size of the file and does nothing. No sector
    is taken: the data goes to the sector whose number happens to be in the next entry of
    the header, which is 0 in a header that was cleared before it was allocated, so that
    the header of the free map is overwritten. The file keeps its number of sectors and
    its length is set all the same. *)
Theorem WriteAt_append_overwrites `{FreshLaws} fuel f disk ss from numBytes z :
  let k := Z.of_nat (length ss) in
  small_file f disk ss -> disk_ok disk -> 1 <= k <= 3 -> 0 < numBytes <= 128 ->
  Z.of_nat (length from) = numBytes -> dataSectors (hdr f) !! length ss = Some z ->
  0 <= z < Z.of_nat (length disk) ->
  let h' := setNumBytes (hdr f) (128 * k + numBytes) in
  WriteAt (S fuel) f disk from numBytes (128 * k) =
  Ok (numBytes, set_hdr f h',
      <[Z.to_nat (hdrSector f) := words_to_bytes (header_words h')]>
        (<[Z.to_nat z := from ++ replicate (Z.to_nat (128 - numBytes)) 0]> disk)).
Proof.
  intros k Hsf Hd Hk Hn Hfrom Hz Hzr h'. pose proof (sf_file _ _ _ Hsf) as Hf.
  pose proof (fo_bounds _ _ _ Hf) as [Hb _]. pose proof (sf_header _ _ _ Hsf) as Hhs.
  destruct (sf_shape _ _ _ Hsf) as (Hds & _). pose proof (sf_count _ _ _ Hsf) as Hc. fold k in Hc, Hb.
  destruct (arr_get_in (dataSectors (hdr f)) 0) as [x Hx]; [lia|].
  cbn [WriteAt]. change (ByteToSector (hdr f) 0) with (arr_get (dataSectors (hdr f)) 0).
  rewrite Hx, (fo_padded _ _ _ Hf). cbn [mbind outcome_bind]. fold k.
  rewrite !s32_small by (unfold is_s32, two31; lia).
  destruct (Z.leb_spec (128 * k + numBytes) (128 * k)); [lia|]. destruct (Z.ltb_spec (128 * k) (128 * k)); [lia|].
  unfold extend_and_write, divRoundDown. change SectorSize with 128.
  rewrite !s32_small by (unfold is_s32, two31; lia). rewrite !cdiv_nonneg by lia.
  replace ((128 * k) `div` 128) with k by dlia. replace ((128 * k + numBytes - 1) `div` 128) with k by dlia.
  replace (1 + k - k) with 1 by lia. unfold ExtendFile_on_disk.
  destruct (Z.leb_spec (1 - FileHdr.numSectors (hdr f)) 0); [|lia]. cbn [mbind outcome_bind].
  change (1 * 128 <? 0) with false. cbn [mbind outcome_bind]. change (Z.to_nat (1 * 128)) with 128%nat.
  rewrite (write_through_past_end _ disk from numBytes k z); try done; try (cbn [hdr set_hdr]; lia).
  2:{ unfold ByteToSector. change SectorSize with 128. cbn [hdr set_hdr]. rewrite cdiv_nonneg, Z.div_mul by lia.
      change NumDirect with 4. destruct (Z.ltb_spec k 4); [|lia]. apply arr_get_ok. split; [lia|].
      unfold k. by rewrite Nat2Z.id. }
  cbn [mbind outcome_bind hdr set_hdr hdrSector]. unfold WriteBack.
  rewrite WriteSector_in by (rewrite length_insert; lia). cbn [mbind outcome_bind setNumBytes FileHdr.numSectors].
  change NumDirect with 4. destruct (Z.ltb_spec 4 (FileHdr.numSectors (hdr f))); [lia|].
  unfold h'. by rewrite (Z.add_comm numBytes).
Qed.

Lemma WriteAt_append_overwrites_witness :
  exists f' disk', WriteAt (H := zero_fresh) 1 demo_file1 demo_disk_fs (replicate 10 1) 10 128 = Ok (10, f', disk') /\
    take 10 (sector_data disk' FreeMapSector) = replicate 10 1 /\ FileHdr.numSectors (hdr f') = 1.
Proof.
  destruct demo_disk_fs_ok as [Hd Hl].
  pose proof (WriteAt_append_overwrites (H := zero_fresh) (H0 := zero_fresh_laws) 0 demo_file1 demo_disk_fs [4]
    (replicate 10 1) 10 0) as Hw.
  eexists _, _. split; [apply Hw|].
  - exact demo_file1_small.
  - exact Hd.
  - simpl. lia.
  - lia.
  - reflexivity.
  - reflexivity.
  - rewrite Hl. lia.
  - split; [vm_compute; reflexivity|reflexivity].
Defined.

Lemma file_on_same_header `{Fresh} f f' disk ss : hdr f' = hdr f -> file_on f disk ss -> file_on f' disk ss.
Proof. intros Heq [? ? ? ?]. by split; rewrite ?Heq. Qed.

(** The interface with the implicit position: after [Seek], a [Write] within the sectors of
    the file stores the bytes and moves the position past them, and after another [Seek]
    to the same place [Read] returns those bytes and moves the position in the same way. *)
Theorem Write_Seek_Read `{FreshLaws} fuel f disk ss from n p :
  file_on f disk ss -> disk_ok disk -> 0 < n -> Z.of_nat (length from) = n ->
  0 <= p < FileLength (hdr f) -> p + n <= 128 * Z.of_nat (length ss) ->
  exists f1 disk1 f2, Write (S fuel) (Seek f p) disk from n = Ok (n, f1, disk1) /\ seekPosition f1 = p + n /\
    Read (Seek f1 p) disk1 n = Ok (n, from, f2) /\ seekPosition f2 = p + n /\
    hdr f2 = hdr f /\ hdrSector f2 = hdrSector f.
Proof.
  intros Hf Hd Hn Hl Hp Hin. pose proof (fo_bounds _ _ _ Hf) as [_ Hsz]. unfold two31 in Hsz.
  assert (file_on (Seek f p) disk ss) as Hf1 by (by apply (file_on_same_header f)).
  destruct (WriteAt_inside fuel (Seek f p) disk ss from n p) as (disk1 & Hw & Hch & Hfb); try done; try lia.
  pose proof (file_on_changes _ _ _ _ _ Hch Hf1) as Hf1'.
  unfold Write, Read. cbn [seekPosition Seek]. rewrite Hw. cbn [mbind outcome_bind].
  eexists _, disk1, _. split; [done|]. cbn [seekPosition Seek]. rewrite (s32_small (p + n)) by (unfold is_s32, two31; lia).
  split; [done|]. cbn [seekPosition Seek hdr hdrSector].
  rewrite (ReadAt_ok _ disk1 ss); try done; [|apply (file_on_same_header (Seek f p)), Hf1'; done|apply Hch].
  cbn [mbind outcome_bind]. rewrite Hfb, (take_ge from) by lia.
  replace (Z.to_nat n) with (length from) by lia. rewrite splice_read.
  - split; [done|]. cbn [seekPosition hdr hdrSector]. by rewrite s32_small by (unfold is_s32, two31; lia).
  - rewrite (file_bytes_length (hdr f)) by (done || apply (fo_mapped _ _ _ Hf)). lia.
Qed.

Lemma Write_Seek_Read_witness :
  exists f1 disk1 f2, Write (H := zero_fresh) 1 (Seek demo_file 100) demo_disk8 (seqZ 0 50) 50 = Ok (50, f1, disk1) /\
    Read (H := zero_fresh) (Seek f1 100) disk1 50 = Ok (50, seqZ 0 50, f2).
Proof.
  destruct demo_file_on as [Hf Hd].
  destruct (Write_Seek_Read (H := zero_fresh) (H0 := zero_fresh_laws) 0 demo_file demo_disk8 [5; 3] (seqZ 0 50) 50 100)
    as (f1 & disk1 & f2 & Hw & _ & Hr & _).
  - exact Hf.
  - exact Hd.
  - lia.
  - reflexivity.
  - simpl. lia.
  - simpl. lia.
  - exists f1, disk1, f2. split; [exact Hw|exact Hr].
Defined.

(** Writing into the padding. [WriteAt] takes the length of the file up to the end of its
    last sector, so that a request after the end of the file but within this sector counts
    as inside: the bytes are stored and the whole request is reported as written, but the
    length is not changed, and [ReadAt] of the same place finds the end of the file. *)
Theorem WriteAt_padding_unread `{FreshLaws} fuel f disk ss from n pos :
  file_on f disk ss -> disk_ok disk -> FileLength (hdr f) <= pos -> 0 < n <= Z.of_nat (length from) ->
  pos + n <= 128 * Z.of_nat (length ss) ->
  exists disk', WriteAt (S fuel) f disk from n pos = Ok (n, f, disk') /\
    take (Z.to_nat n) (drop (Z.to_nat pos) (file_bytes disk' ss)) = take (Z.to_nat n) from /\
    ReadAt f disk' n pos = Ok (0, []).
Proof.
  intros Hf Hd Hpos Hn Hin. pose proof (fo_length _ _ _ Hf) as Hl0.
  destruct (WriteAt_inside fuel f disk ss from n pos) as (disk' & Hw & Hch & Hfb); try (done || lia).
  exists disk'. split; [done|]. split; [|apply ReadAt_nothing; by right]. rewrite Hfb.
  assert (length (take (Z.to_nat n) from) = Z.to_nat n) as Hl by (rewrite length_take; lia).
  rewrite <- Hl at 1. apply splice_read.
  rewrite (file_bytes_length (hdr f)) by (done || apply (fo_mapped _ _ _ Hf)). lia.
Qed.

Lemma WriteAt_padding_unread_witness :
  exists disk', WriteAt (H := zero_fresh) 1 demo_file demo_disk8 [1; 2; 3] 3 220 = Ok (3, demo_file, disk') /\
    ReadAt (H := zero_fresh) demo_file disk' 3 220 = Ok (0, []).
Proof.
  destruct demo_file_on as [Hf Hd].
  destruct (WriteAt_padding_unread (H := zero_fresh) (H0 := zero_fresh_laws) 0 demo_file demo_disk8 [5; 3] [1; 2; 3] 3 220)
    as (disk' & Hw & _ & Hr).
  - exact Hf.
  - exact Hd.
  - vm_compute. discriminate.
  - simpl. lia.
  - simpl. lia.
  - exists disk'. split; [exact Hw|exact Hr].
Defined.
