(* ===== verification/FileSys.v ===== *)
(** * filesys/filesys.cc: the file system

    [FileSystem] is the object with its two open files, the free map and the directory.
    Every operation fetches the directory, and the free map if it needs it, from these
    files, works on the objects in memory, and writes them back when all went well.
    [Directory::FetchFrom] and [Directory::WriteBack] are here too: an entry takes 20
    bytes on disk (one for [inUse], three of padding, four for [sector], ten for [name],
    two of padding). The theorems are about a directory that fits into one sector, that is
    six entries; beyond it the directory grows as in OpenFile.v. *)

From stdpp Require Import prelude numbers list gmap.
From S2P Require Import Prelude Params BitMap FileHdr Directory OpenFile.

Open Scope Z_scope.

Definition FreeMapFileSize : Z := NumSectors / BitsInByte.
Definition NumDirEntries : Z := 4.
Definition sizeof_DirectoryEntry : Z := 20.
Definition DirectoryFileSize : Z := sizeof_DirectoryEntry * NumDirEntries.

Record FileSystem := mkFS { freeMapFile : OpenFile; directoryFile : OpenFile }.

Section filesys.
Context `{Fresh}.

(** ** The directory on disk *)

Definition entry_bytes (e : DirectoryEntry) : list Z :=
  [Z.b2z (inUse e)] ++ entry_pad 3 ++ word_bytes (e_sector e) ++ e_name e ++ entry_pad 2.

Definition table_bytes (t : list DirectoryEntry) : list Z := concat (entry_bytes <$> t).

(** The entry in 20 bytes. *)
Definition bytes_entry (bs : list Z) : DirectoryEntry :=
  mkEntry (negb (default 0 (bs !! 0%nat) =? 0))
    (s32 (default 0 (head (bytes_to_words 1 (drop 4 bs)))))
    (take 10 (drop 8 bs)).

Fixpoint bytes_table (n : nat) (bs : list Z) : list DirectoryEntry :=
  match n with
  | O => []
  | S n => bytes_entry (take 20 bs) :: bytes_table n (drop 20 bs)
  end.

Definition Directory_FetchFrom (d : Directory) (file : OpenFile) (disk : list (list Z)) : outcome Directory :=
  '(_, data) ← ReadAt file disk 4 0;
  bytes ← put_bytes (word_bytes (tableSize d)) 0 data;
  let tableSize := s32 (default 0 (head (bytes_to_words 1 bytes))) in
  if tableSize <? 0 then Undef
  else
    d ← Directory_new tableSize (fresh_entries (Z.to_nat tableSize));
    '(_, data) ← ReadAt file disk (s32 (tableSize * sizeof_DirectoryEntry)) 4;
    bytes ← put_bytes (table_bytes (table d)) 0 data;
    Ok (mkDir tableSize (bytes_table (length (table d)) bytes)).

Definition Directory_WriteBack (fuel : nat) (d : Directory) (file : OpenFile) (disk : list (list Z))
    : outcome (OpenFile * list (list Z)) :=
  '(_, file, disk) ← WriteAt fuel file disk (word_bytes (tableSize d)) 4 0;
  '(_, file, disk) ← WriteAt fuel file disk (table_bytes (table d))
                       (s32 (tableSize d * sizeof_DirectoryEntry)) 4;
  Ok (file, disk).

(** [new Directory(NumDirEntries)] *)
Definition Directory_create : outcome Directory :=
  Directory_new NumDirEntries (fresh_entries (Z.to_nat NumDirEntries)).

(** ** The operations *)

Definition FileSystem_new (fuel : nat) (format : bool) (disk : list (list Z))
    : outcome (FileSystem * list (list Z)) :=
  if format then
    freeMap ← BitMap_create NumSectors;
    directory ← Directory_create;
    freeMap ← BitMap_Mark freeMap FreeMapSector;
    freeMap ← BitMap_Mark freeMap DirectorySector;
    '(ok, mapHdr, freeMap) ← Allocate fresh_header freeMap FreeMapFileSize;
    ASSERT ok;;
    '(ok, dirHdr, freeMap) ← Allocate fresh_header freeMap DirectoryFileSize;
    ASSERT ok;;
    disk ← WriteBack mapHdr disk FreeMapSector;
    disk ← WriteBack dirHdr disk DirectorySector;
    freeMapFile ← OpenFile_new disk FreeMapSector;
    directoryFile ← OpenFile_new disk DirectorySector;
    '(freeMapFile, disk) ← BitMap_WriteBack fuel freeMap freeMapFile disk;
    '(directoryFile, disk) ← Directory_WriteBack fuel directory directoryFile disk;
    Ok (mkFS freeMapFile directoryFile, disk)
  else
    freeMapFile ← OpenFile_new disk FreeMapSector;
    directoryFile ← OpenFile_new disk DirectorySector;
    Ok (mkFS freeMapFile directoryFile, disk).

(** The header is cleared with [bzero] before it is allocated. *)
Definition Create (fuel : nat) (fs : FileSystem) (disk : list (list Z)) (name : list Z) (initialSize : Z)
    : outcome (bool * FileSystem * list (list Z)) :=
  directory ← Directory_create;
  directory ← Directory_FetchFrom directory (directoryFile fs) disk;
  _ ← FetchFrom fresh_header disk DirectorySector;
  found ← Directory_Find directory name;
  if negb (found =? -1) then Ok (false, fs, disk)
  else
    freeMap ← BitMap_create NumSectors;
    freeMap ← BitMap_FetchFrom freeMap (freeMapFile fs) disk;
    '(sector, freeMap) ← BitMap_Find freeMap;
    if sector =? -1 then Ok (false, fs, disk)
    else
      '(added, directory) ← Directory_Add directory name sector;
      if negb added then Ok (false, fs, disk)
      else
        '(ok, hdr, freeMap) ← Allocate blank_header freeMap initialSize;
        if negb ok then Ok (false, fs, disk)
        else
          '(freeMapFile, disk) ← BitMap_WriteBack fuel freeMap (freeMapFile fs) disk;
          disk ← WriteBack hdr disk sector;
          '(directoryFile, disk) ← Directory_WriteBack fuel directory (directoryFile fs) disk;
          _ ← FetchFrom fresh_header disk DirectorySector;
          Ok (true, mkFS freeMapFile directoryFile, disk).

Definition Open (fs : FileSystem) (disk : list (list Z)) (name : list Z) : outcome (option OpenFile) :=
  directory ← Directory_create;
  directory ← Directory_FetchFrom directory (directoryFile fs) disk;
  sector ← Directory_Find directory name;
  if 0 <=? sector then openFile ← OpenFile_new disk sector; Ok (Some openFile)
  else Ok None.

Definition Remove (fuel : nat) (fs : FileSystem) (disk : list (list Z)) (name : list Z)
    : outcome (bool * FileSystem * list (list Z)) :=
  directory ← Directory_create;
  directory ← Directory_FetchFrom directory (directoryFile fs) disk;
  sector ← Directory_Find directory name;
  if sector =? -1 then Ok (false, fs, disk)
  else
    fileHdr ← FetchFrom fresh_header disk sector;
    freeMap ← BitMap_create NumSectors;
    freeMap ← BitMap_FetchFrom freeMap (freeMapFile fs) disk;
    '(_, freeMap) ← Deallocate fileHdr freeMap;
    freeMap ← BitMap_Clear freeMap sector;
    '(_, directory) ← Directory_Remove directory name;
    '(freeMapFile, disk) ← BitMap_WriteBack fuel freeMap (freeMapFile fs) disk;
    '(directoryFile, disk) ← Directory_WriteBack fuel directory (directoryFile fs) disk;
    Ok (true, mkFS freeMapFile directoryFile, disk).

(** The names that [List] prints. *)
Definition FileSystem_List (fs : FileSystem) (disk : list (list Z)) : outcome (list (list Z)) :=
  directory ← Directory_create;
  directory ← Directory_FetchFrom directory (directoryFile fs) disk;
  Ok (Directory_List directory).
End filesys.

(** ** The table on disk *)

(** An entry that can be stored. *)
Definition entry_ok (e : DirectoryEntry) : Prop := length (e_name e) = 10%nat /\ is_s32 (e_sector e).

Section table.
Context `{FreshLaws}.

Lemma entry_bytes_length e : length (e_name e) = 10%nat -> length (entry_bytes e) = 20%nat.
Proof.
  intros Hn. unfold entry_bytes. rewrite !length_app, !entry_pad_length, Hn by lia. done.
Qed.

Lemma bytes_entry_bytes e : entry_ok e -> bytes_entry (entry_bytes e) = e.
Proof.
  intros [Hn Hs]. pose proof (entry_pad_length 3 ltac:(lia)) as H3. pose proof (entry_pad_length 2 ltac:(lia)) as H2.
  unfold bytes_entry, entry_bytes. destruct (entry_pad 3) as [|p1 [|p2 [|p3 [|]]]]; try done.
  cbn [app lookup list_lookup default from_option id drop bytes_to_words word_bytes head].
  rewrite word_bytes_word, drop_0, s32_u32, s32_small by done. rewrite (take_app_length' _ _ 10) by done.
  destruct e as [u s n]. simpl. by destruct u.
Qed.

Lemma table_bytes_length t : Forall entry_ok t -> length (table_bytes t) = (20 * length t)%nat.
Proof.
  unfold table_bytes. induction 1 as [|e t He _ IH]; [done|]. cbn [fmap list_fmap concat].
  rewrite length_app, entry_bytes_length, IH by apply He. simpl. lia.
Qed.

Lemma bytes_table_bytes t rest : Forall entry_ok t -> bytes_table (length t) (table_bytes t ++ rest) = t.
Proof.
  unfold table_bytes. induction 1 as [|e t He _ IH]; [done|]. cbn [fmap list_fmap concat length bytes_table].
  pose proof (entry_bytes_length e (proj1 He)) as Hl. rewrite <- app_assoc.
  rewrite (take_app_length' _ _ 20), (drop_app_length' _ _ 20) by done.
  by rewrite bytes_entry_bytes, IH.
Qed.

(** The constructor's loop. *)
Lemma Directory_init_loop_ok t : forall pre,
  Directory_init_loop (length t) (Z.of_nat (length pre)) (pre ++ t) =
  Ok (pre ++ ((fun e => mkEntry false (e_sector e) (e_name e)) <$> t)).
Proof.
  induction t as [|e t IH]; intros pre; [done|]. cbn [Directory_init_loop length].
  rewrite (proj2 (arr_get_ok (pre ++ e :: t) (Z.of_nat (length pre)) e))
    by (rewrite Nat2Z.id; split; [lia|by apply list_lookup_middle]). cbn [mbind outcome_bind].
  rewrite arr_set_in by (rewrite length_app; simpl; lia). cbn [mbind outcome_bind].
  rewrite Nat2Z.id, insert_app_r_alt, Nat.sub_diag by done. cbn [insert list_insert].
  specialize (IH (pre ++ [mkEntry false (e_sector e) (e_name e)])). rewrite <- !app_assoc, length_app in IH.
  cbn [app length] in IH. replace (Z.of_nat (length pre) + 1) with (Z.of_nat (length pre + 1)) by lia. exact IH.
Qed.

Lemma Directory_new_ok size : 0 <= size ->
  exists d, Directory_new size (fresh_entries (Z.to_nat size)) = Ok d /\ tableSize d = size /\
    length (table d) = Z.to_nat size /\ Forall (fun e => length (e_name e) = 10%nat /\ inUse e = false) (table d) /\
    (e_sector <$> table d) = e_sector <$> fresh_entries (Z.to_nat size).
Proof.
  intros Hs. unfold Directory_new. pose proof (Directory_init_loop_ok (fresh_entries (Z.to_nat size)) []) as Hl.
  simpl in Hl. change (Z.of_nat 0) with 0 in Hl. rewrite fresh_entries_length in Hl. rewrite Hl.
  cbn [mbind outcome_bind]. eexists. split; [done|]. cbn [tableSize table]. split; [done|].
  split; [by rewrite length_fmap, fresh_entries_length|]. split.
  - apply Forall_fmap. eapply Forall_impl; [apply fresh_entries_names|]. done.
  - rewrite <- list_fmap_compose. done.
Qed.

(** A directory that can be stored in one sector. *)
Record dir_stored (d : Directory) : Prop := {
  ds_ok : dir_ok d;
  ds_entries : Forall entry_ok (table d);
  ds_size : 2 <= tableSize d <= 6 }.

Definition dir_image (d : Directory) : list Z := word_bytes (tableSize d) ++ table_bytes (table d).

Lemma dir_image_length d : dir_stored d -> length (dir_image d) = (4 + 20 * length (table d))%nat.
Proof. intros [_ He _]. unfold dir_image. by rewrite length_app, table_bytes_length. Qed.

(** The sectors hold the directory at their beginning. *)
Definition dir_in (disk : list (list Z)) (ss : list Z) (d : Directory) : Prop :=
  take (length (dir_image d)) (file_bytes disk ss) = dir_image d.

Lemma dir_in_parts disk ss d : dir_stored d -> dir_in disk ss d ->
  take 4 (file_bytes disk ss) = word_bytes (tableSize d) /\
  take (20 * length (table d)) (drop 4 (file_bytes disk ss)) = table_bytes (table d).
Proof.
  intros Hds Hin. pose proof (dir_image_length d Hds) as Hl. unfold dir_in in Hin. rewrite Hl in Hin. split.
  - apply (f_equal (take 4)) in Hin. rewrite take_take in Hin. exact Hin.
  - apply (f_equal (drop 4)) in Hin. rewrite <- take_drop_commute in Hin. exact Hin.
Qed.

Lemma Directory_FetchFrom_ok d0 d f disk ds :
  file_on f disk [ds] -> disk_ok disk -> 4 < FileLength (hdr f) -> dir_stored d -> dir_in disk [ds] d ->
  Directory_FetchFrom d0 f disk = Ok d.
Proof.
  intros Hf Hd Hlen Hds Hin. pose proof (fo_mapped _ _ _ Hf) as Hm. destruct (dir_in_parts _ _ _ Hds Hin) as [H4 Ht].
  pose proof Hds as [Hok He Hsz]. pose proof (do_size _ Hok) as Hts. unfold Directory_FetchFrom.
  rewrite (ReadAt_ok f disk [ds]) by (done || simpl; lia). cbn [mbind outcome_bind].
  change (drop (Z.to_nat 0) ?l) with l. change (Z.to_nat 4) with 4%nat. rewrite H4.
  rewrite put_bytes_in by (unfold word_bytes; simpl; lia). cbn [mbind outcome_bind].
  assert (s32 (default 0 (head (bytes_to_words 1 (splice (word_bytes (tableSize d0)) (Z.to_nat 0)
    (word_bytes (tableSize d)))))) = tableSize d) as ->.
  { unfold splice. change (take (Z.to_nat 0) ?l ++ ?r) with r. unfold word_bytes. cbn [app bytes_to_words head default from_option id].
    rewrite word_bytes_word, s32_u32, s32_small; [done|]. unfold is_s32, two31. lia. }
  destruct (Z.ltb_spec (tableSize d) 0); [lia|].
  destruct (Directory_new_ok (tableSize d)) as (d1 & -> & Hts1 & Hl1 & Hn1 & _); [lia|]. cbn [mbind outcome_bind].
  unfold sizeof_DirectoryEntry. rewrite s32_small by (unfold is_s32, two31; lia).
  rewrite (ReadAt_ok f disk [ds]) by (done || simpl; lia). cbn [mbind outcome_bind].
  replace (Z.to_nat (tableSize d * 20)) with (20 * length (table d))%nat by lia. change (Z.to_nat 4) with 4%nat.
  rewrite Ht. assert (length (table_bytes (table d1)) = (20 * length (table d))%nat) as Hlb.
  { unfold table_bytes. rewrite (pieces_length 20), length_fmap; [lia|]. apply Forall_fmap.
    eapply Forall_impl; [exact Hn1|]. intros e [Hn _]. by apply entry_bytes_length. }
  pose proof (table_bytes_length _ He) as Hlt. rewrite put_bytes_in by lia. cbn [mbind outcome_bind].
  unfold splice. rewrite drop_ge by lia. change (take (Z.to_nat 0) ?l ++ ?r) with r.
  replace (length (table d1)) with (length (table d)) by lia. rewrite bytes_table_bytes by done.
  by destruct d.
Qed.

Lemma Directory_WriteBack_ok fuel d f disk ds :
  file_on f disk [ds] -> disk_ok disk -> dir_stored d ->
  exists disk', Directory_WriteBack (S fuel) d f disk = Ok (f, disk') /\ changes disk disk' [ds] /\ dir_in disk' [ds] d.
Proof.
  intros Hf Hd Hds. pose proof Hds as [Hok He Hsz]. pose proof (do_size _ Hok) as Hts.
  pose proof (table_bytes_length _ He) as Hlt. unfold Directory_WriteBack.
  destruct (WriteAt_inside fuel f disk [ds] (word_bytes (tableSize d)) 4 0) as (disk1 & -> & Hch1 & Hfb1);
    try done; try (simpl; lia). cbn [mbind outcome_bind].
  pose proof (file_on_changes f disk disk1 [ds] [ds] Hch1 Hf) as Hf1.
  unfold sizeof_DirectoryEntry. rewrite s32_small by (unfold is_s32, two31; lia).
  destruct (WriteAt_inside fuel f disk1 [ds] (table_bytes (table d)) (tableSize d * 20) 4)
    as (disk2 & -> & Hch2 & Hfb2); try done; try (simpl; lia); [apply Hch1|]. cbn [mbind outcome_bind].
  exists disk2. split; [done|]. split; [by apply (changes_trans _ disk1)|].
  unfold dir_in. rewrite Hfb2, Hfb1. rewrite (take_ge (word_bytes _)) by done.
  rewrite (take_ge (table_bytes _)) by lia. unfold splice. change (take (Z.to_nat 0) ?l ++ ?r) with r.
  change (Z.to_nat 4) with (length (word_bytes (tableSize d))). rewrite take_app_length, app_assoc.
  change (word_bytes (tableSize d) ++ table_bytes (table d)) with (dir_image d). apply take_app_length.
Qed.
End table.

(** ** Directories that stay within a sector *)

Lemma free_loop_none t n : forall i, free_loop n (Z.of_nat i) t = Ok None ->
  forall j e, (i <= j < i + n)%nat -> t !! j = Some e -> inUse e = true.
Proof.
  induction n as [|n IH]; intros i Hrun j e Hj He; [lia|]. cbn [free_loop] in Hrun.
  apply bind_ok in Hrun as (e0 & Hget%arr_get_ok & Hrun). rewrite Nat2Z.id in Hget. destruct Hget as [_ Hget].
  destruct (inUse e0) eqn:Hu; cbn [negb] in Hrun; [|done].
  destruct (decide (j = i)) as [->|Hne]; [congruence|]. replace (Z.of_nat i + 1) with (Z.of_nat (S i)) in Hrun by lia.
  apply (IH (S i) Hrun j e); [lia|done].
Qed.

Lemma fill_entry_sectors (P : Z -> Prop) t i name s t' :
  fill_entry t i name s = Ok t' -> Forall (fun e => P (e_sector e)) t -> P s ->
  Forall (fun e => P (e_sector e)) t'.
Proof.
  unfold fill_entry. intros (e & _ & Hset)%bind_ok Hall Hs. apply arr_set_ok in Hset as [_ ->].
  by apply Forall_insert.
Qed.

(** A directory with a free entry, or of at most four, stays within six entries. *)
Lemma Add_stored d name s r d' :
  dir_stored d -> is_s32 s -> Exists (fun e => inUse e = false) (table d) \/ tableSize d <= 4 ->
  Directory_Add d name s = Ok (r, d') -> dir_ok d' -> tableSize d <= tableSize d' -> dir_stored d'.
Proof.
  intros [Hok He Hsz] Hs Hroom Hadd Hok' Hle. pose proof (do_size _ Hok) as Hts.
  assert (Forall (fun e => is_s32 (e_sector e)) (table d)) as Hr by (eapply Forall_impl; [exact He|]; by intros e []).
  enough (Forall (fun e => is_s32 (e_sector e)) (table d') /\ tableSize d' <= 6) as [Hr' Hsz'].
  { split; [done| |lia]. pose proof (do_names _ Hok') as Hn. rewrite Forall_forall in *. intros e Hin.
    split; [by apply Hn|by apply Hr']. }
  unfold Directory_Add in Hadd. apply bind_ok in Hadd as (i & _ & Hadd).
  destruct (negb (i =? -1)); [injection Hadd as _ <-; split; [done|lia]|].
  apply bind_ok in Hadd as (slot & Hslot & Hadd). destruct slot as [j|].
  - apply bind_ok in Hadd as (t & Hfill & Hadd). injection Hadd as _ <-. cbn [table tableSize]. split; [|lia].
    by apply (fill_entry_sectors _ _ _ _ _ _ Hfill).
  - destruct Hroom as [Hex|Hsmall].
    { apply Exists_exists in Hex as (e & (j & Hj)%list_elem_of_lookup & Hu). rewrite Hts, Nat2Z.id in Hslot.
      apply (free_loop_none _ _ 0) with (j := j) (e := e) in Hslot; [congruence| |done].
      apply lookup_lt_Some in Hj. lia. }
    destruct (grow_size (length (table d))) as (extra & Hg & _); [lia|].
    rewrite Hts in Hadd at 1 2 3. rewrite Hg, Nat2Z.id, copy_loop_ok in Hadd. cbn [mbind outcome_bind] in Hadd.
    set (t := (copied <$> table d) ++ replicate extra zero_entry) in Hadd.
    assert (Forall (fun e => is_s32 (e_sector e)) t) as Ht.
    { apply Forall_app. split; [by apply Forall_fmap|]. apply Forall_replicate. unfold is_s32, two31. simpl. lia. }
    assert (cdiv (tableSize d * 3) 2 <= 6) as Hb by (rewrite cdiv_nonneg; dlia).
    apply bind_ok in Hadd as (e & _ & Hadd). destruct (inUse e); cbn [negb] in Hadd.
    + injection Hadd as _ <-. cbn [table tableSize]. split; [done|exact Hb].
    + apply bind_ok in Hadd as (t' & Hfill & Hadd). injection Hadd as _ <-. cbn [table tableSize]. split; [|exact Hb].
      by apply (fill_entry_sectors _ _ _ _ _ _ Hfill).
Qed.

Lemma Remove_stored d name r d' :
  dir_stored d -> Directory_Remove d name = Ok (r, d') -> dir_ok d' -> tableSize d' = tableSize d -> dir_stored d'.
Proof.
  intros [Hok He Hsz] Hrem Hok' Hts'. split; [done| |lia]. unfold Directory_Remove in Hrem.
  apply bind_ok in Hrem as (i & _ & Hrem). destruct (i =? -1); [by injection Hrem as _ <-|].
  apply bind_ok in Hrem as (e & [_ Hget]%arr_get_ok & (t & [_ ->]%arr_set_ok & Hrem)%bind_ok).
  injection Hrem as _ <-. cbn [table]. apply Forall_insert; [done|].
  exact (Forall_lookup_1 _ _ _ _ He Hget).
Qed.

(** ** The state of the file system *)

(** The sectors of the file system itself: the two headers, the free map and the
    directory. *)
Definition system_sectors (fms ds : Z) : list Z := [FreeMapSector; DirectorySector; fms; ds].

(** The disk holds the free map [bm] and the directory [d], which the two open files of
    [fs] give access to. *)
Record fs_ok (fs : FileSystem) (disk : list (list Z)) (fms ds : Z) (bm : BitMap) (d : Directory)
    `{Fresh} : Prop := {
  fk_disk : disk_ok disk;
  fk_size : length disk = 1024%nat;
  fk_map : free_map_on disk fms bm;
  fk_mapFile : file_on (freeMapFile fs) disk [fms];
  fk_dirFile : file_on (directoryFile fs) disk [ds];
  fk_dirLength : 4 < FileLength (hdr (directoryFile fs));
  fk_dirHeader : exists h, header_at disk DirectorySector h;
  fk_dir : dir_stored d;
  fk_dirIn : dir_in disk [ds] d;
  fk_apart : NoDup (system_sectors fms ds);
  fk_used s : s ∈ system_sectors fms ds -> bm_bit bm s = true;
  fk_files k s : dir_map d !! k = Some s ->
    0 <= s < 1024 /\ bm_bit bm s = true /\ ~ (s ∈ system_sectors fms ds) }.

(** The laws of two allocations one after the other. *)
Lemma allocated_trans (m m1 m2 : BitMap) g1 g2 : allocated m m1 g1 -> allocated m1 m2 g2 -> allocated m m2 (g1 ++ g2).
Proof.
  intros [Hi1 Hs1 Hn1 Hg1 Hu1 Hf1] [Hi2 Hs2 Hn2 Hg2 Hu2 Hf2]. split; [done|congruence|..].
  - apply NoDup_app. split_and!; try done. intros x Hx1 Hx2. destruct (Hg1 x Hx1) as [Hr _].
    destruct (Hg2 x Hx2) as [_ Hx]. rewrite Hu1, bool_decide_eq_true_2 in Hx by (done || lia). done.
  - intros x [Hx|Hx]%elem_of_app; [by apply Hg1|]. destruct (Hg2 x Hx) as [Hr Hx']. rewrite Hs1 in Hr.
    rewrite Hu1 in Hx' by lia. apply orb_false_iff in Hx' as [_ Hx']. done.
  - intros j Hj. rewrite Hu2, Hu1 by done. rewrite orb_assoc. f_equal.
    destruct (decide (j ∈ g1)), (decide (j ∈ g2));
      rewrite ?(bool_decide_eq_true_2 (j ∈ g1)), ?(bool_decide_eq_true_2 (j ∈ g2)),
        ?(bool_decide_eq_false_2 (j ∈ g1)), ?(bool_decide_eq_false_2 (j ∈ g2)) by done; symmetry;
      (apply bool_decide_eq_true_2 || apply bool_decide_eq_false_2); set_solver.
  - rewrite length_app. lia.
Qed.

(** Of a part of what was found that has no -1, every element is real and there once. *)
Lemma taken_real (l1 l2 l3 real : list Z) k : l1 ++ l2 ++ l3 ≡ₚ real ++ replicate k (-1) -> NoDup real -> ~ (-1 ∈ l2) ->
  NoDup l2 /\ forall x, x ∈ l2 -> x ∈ real.
Proof.
  intros Hp Hnd Hn. assert (forall x, x ∈ l2 -> x ∈ real) as Hin.
  { intros x Hx. assert (x ∈ l1 ++ l2 ++ l3) as Hl by set_solver. rewrite Hp in Hl. apply elem_of_app in Hl as [|Hl]; [done|].
    apply elem_of_replicate in Hl as [-> _]. done. }
  split; [|done]. set (P := fun x : Z => x <> -1). assert (filter P l2 = l2) as Hf.
  { clear -Hn. induction l2 as [|x l IH]; [done|]. rewrite filter_cons_True by (unfold P; set_solver). f_equal. apply IH. set_solver. }
  assert (filter P (l1 ++ l2 ++ l3) ≡ₚ filter P (real ++ replicate k (-1))) as Hp' by (by rewrite Hp).
  rewrite !filter_app in Hp'. assert (filter P (replicate k (-1)) = []) as Hz.
  { clear. induction k as [|k IH]; [done|]. cbn [replicate]. rewrite filter_cons_False by (unfold P; tauto). done. }
  rewrite Hz, app_nil_r, Hf in Hp'. assert (NoDup (filter P l1 ++ l2 ++ filter P l3)) as Hall by (rewrite Hp'; by apply NoDup_filter).
  apply NoDup_app in Hall as (_ & _ & Hall). by apply NoDup_app in Hall as (? & _).
Qed.

Section filesystem.
Context `{FreshLaws}.
Context (fs : FileSystem) (disk : list (list Z)) (fms ds : Z) (bm : BitMap) (d : Directory).
Hypothesis Hfs : fs_ok fs disk fms ds bm d.

(** What every operation begins with. *)
Lemma fetch_directory {A} (k : Directory -> outcome A) :
  (directory ← Directory_create; directory ← Directory_FetchFrom directory (directoryFile fs) disk; k directory) = k d.
Proof.
  destruct Hfs. unfold Directory_create. destruct (Directory_new_ok NumDirEntries) as (d0 & -> & _); [done|].
  cbn [mbind outcome_bind]. by rewrite (Directory_FetchFrom_ok d0 d _ _ ds).
Qed.

Lemma fetch_free_map {A} (k : BitMap -> outcome A) :
  (freeMap ← BitMap_create NumSectors; freeMap ← BitMap_FetchFrom freeMap (freeMapFile fs) disk; k freeMap) = k bm.
Proof.
  destruct Hfs. destruct (BitMap_create_ok NumSectors) as (bm0 & -> & Hwf0 & Hb0 & _); [done|].
  cbn [mbind outcome_bind]. by rewrite (free_map_fetch _ bm0 disk fms bm).
Qed.

Lemma fetch_dirHdr {A} (k : outcome A) : (_ ← FetchFrom fresh_header disk DirectorySector; k) = k.
Proof. destruct (fk_dirHeader _ _ _ _ _ _ Hfs) as [h Hh]. by rewrite (FetchFrom_small _ _ h). Qed.

(** Storing the free map and the directory, when the sectors [l] have changed between. *)
Lemma fs_store fuel disk1 l bm' d' :
  changes disk disk1 l -> ~ (DirectorySector ∈ l) -> free_map_on disk1 fms bm' ->
  dir_stored d' -> (forall s, s ∈ system_sectors fms ds -> bm_bit bm' s = true) ->
  (forall k s, dir_map d' !! k = Some s -> 0 <= s < 1024 /\ bm_bit bm' s = true /\ ~ (s ∈ system_sectors fms ds)) ->
  exists disk', Directory_WriteBack (S fuel) d' (directoryFile fs) disk1 = Ok (directoryFile fs, disk') /\
    changes disk1 disk' [ds] /\ fs_ok fs disk' fms ds bm' d'.
Proof.
  intros Hch Hdisj Hfm Hds' Hused' Hfiles'. destruct Hfs as [Hd Hl Hm Hmf Hdf Hdl [dh Hdh] Hds Hdi Hap Hu Hfl].
  pose proof (file_on_changes _ _ _ _ _ Hch Hdf) as Hdf1.
  destruct (Directory_WriteBack_ok fuel d' (directoryFile fs) disk1 ds) as (disk2 & -> & Hch2 & Hdi2);
    try done; [apply Hch|].
  exists disk2. split; [done|]. split; [done|]. unfold system_sectors in *.
  pose proof (file_on_changes _ _ _ _ _ Hch Hmf) as Hmf1.
  pose proof Hap as (Ha0 & (Ha1 & (Ha2 & _)%NoDup_cons)%NoDup_cons)%NoDup_cons.
  split; try done.
  - apply Hch2.
  - destruct Hch as [? _], Hch2 as [? _]. congruence.
  - apply (free_map_changes disk1 disk2 [ds]); try done; set_solver.
  - by apply (file_on_changes _ disk1 disk2 _ [ds]).
  - by apply (file_on_changes _ disk1 disk2 _ [ds]).
  - exists dh. apply (header_at_changes disk1 disk2 [ds]); [done|set_solver|].
    by apply (header_at_changes disk disk1 l).
Qed.

(** Sectors that were free are in range, are not the file system's and do not hold a
    header. *)
Lemma allocated_new bm' got x : allocated bm bm' got -> x ∈ got ->
  0 < x < 1024 /\ bm_bit bm x = false /\ ~ (x ∈ system_sectors fms ds).
Proof.
  intros Hal Hx. destruct (al_got _ _ _ Hal x Hx) as [Hr Hf]. simpl in Hr, Hf.
  rewrite (fm_bits _ _ _ (fk_map _ _ _ _ _ _ Hfs)) in Hr.
  assert (~ (x ∈ system_sectors fms ds)) as Hn by (intros Hin; apply (fk_used _ _ _ _ _ _ Hfs) in Hin; congruence).
  split; [|done]. assert (x <> 0); [|lia]. intros ->. apply Hn. left.
Qed.

Lemma allocated_keeps bm' got x : allocated bm bm' got -> 0 <= x -> bm_bit bm x = true -> bm_bit bm' x = true.
Proof. intros Hal Hx Hb. pose proof (al_used _ _ _ Hal x Hx) as Hu. simpl in Hu. by rewrite Hu, Hb, orb_true_r. Qed.

(** The sector numbers of a header that was allocated in the file system. *)
Lemma allocated_header h0 h bm1 bm' size direct secs data :
  Allocate h0 bm1 size = Ok (true, h, bm') -> entries_s32 h0 -> bm_wf bm1 -> numBits bm1 = 1024 ->
  0 <= size <= MaxFileSize -> FileHdr.numBytes h = size ->
  FileHdr.numSectors h = divRoundUp size SectorSize ->
  taken bm1 bm' (direct ++ secs ++ concat data) ->
  Forall is_s32 (header_words h) /\ Forall (Forall is_s32) data.
Proof.
  intros Hrun Hh0 Hwf Hb Hsz Hnb Hns (real & k & Hp & Hal & _). change MaxFileSize with 103680 in Hsz.
  pose proof (divRoundUp_bounds size 128 ltac:(lia) ltac:(lia)) as Hd. change SectorSize with 128 in Hns. split.
  - destruct (Allocate_s32 h0 bm1 size h bm') as [Hds Hi]; try done; [simpl; lia|].
    unfold header_words. apply Forall_cons. split; [unfold is_s32, two31; lia|]. apply Forall_cons.
    split; [unfold is_s32, two31; lia|]. by apply Forall_app.
  - apply Forall_forall. intros l Hl. apply Forall_forall. intros x Hx.
    assert (x ∈ direct ++ secs ++ concat data) as Hin.
    { apply elem_of_app. right. apply elem_of_app. right. apply list_elem_of_In, in_concat.
      exists l. by rewrite <- !list_elem_of_In. }
    rewrite Hp in Hin. apply elem_of_app in Hin as [Hin|Hin].
    + destruct (al_got _ _ _ Hal x Hin) as [Hr _]. simpl in Hr. unfold is_s32, two31. lia.
    + apply elem_of_replicate in Hin as [-> _]. unfold is_s32, two31. lia.
Qed.

Lemma WriteBack_changes h direct secs data disk1 sector :
  laid_out h direct secs data -> block_sectors disk1 (sector :: secs) -> disk_ok disk1 ->
  Forall is_s32 (header_words h) -> Forall (Forall is_s32) data ->
  exists disk', WriteBack h disk1 sector = Ok disk' /\ stored_at disk' sector h direct secs data /\
    changes disk1 disk' (sector :: secs).
Proof.
  intros Hlo Hbs Hd Hw Hdw.
  destruct (WriteBack_stores h direct secs data disk1 sector) as (disk' & Hwr & Hst & Hl & Ho & Hs); try done.
  exists disk'. split; [done|]. split; [done|]. split; [done|]. split; [|done].
  apply Forall_lookup. intros i x Hx. destruct (decide (Z.of_nat i ∈ sector :: secs)) as [Hin|Hnin].
  - destruct (Hs _ Hin) as (ws & Hlw & Hi). rewrite Nat2Z.id in Hi.
    assert (x = words_to_bytes ws) as -> by congruence. rewrite words_to_bytes_length. lia.
  - specialize (Ho (Z.of_nat i) ltac:(lia) Hnin). rewrite Nat2Z.id in Ho. rewrite Ho in Hx.
    exact (Forall_lookup_1 _ _ _ _ Hd Hx).
Qed.

Lemma stored_at_changes disk1 disk' l sector h direct secs data :
  changes disk1 disk' l -> (forall s, s ∈ sector :: secs -> ~ (s ∈ l)) ->
  stored_at disk1 sector h direct secs data -> stored_at disk' sector h direct secs data.
Proof.
  intros (_ & _ & Ho) Hdisj [Hlo Hw Hdw [Hs0 Hpos] Hh (blks & Hb & Hblk)]. split; try done.
  - rewrite Ho; [done|done|]. apply Hdisj. left.
  - exists blks. split; [done|]. intros k s b Hk Hkb. rewrite Ho; [by apply (Hblk k)| |].
    + pose proof (Forall_lookup_1 _ _ _ _ Hpos Hk). simpl in *. lia.
    + apply Hdisj. right. by eapply list_elem_of_lookup_2.
Qed.

Section one_name.
Context (name : list Z) (Hname : Forall (fun c => c <> 0) name).
#[local] Abbreviation k := (take FileNameMaxLen name).

Lemma found_sector s : dir_map d !! k = Some s -> Directory_Find d name = Ok s /\ 0 <= s.
Proof.
  intros Hk. rewrite Find_spec by (done || apply (ds_ok _ (fk_dir _ _ _ _ _ _ Hfs))). rewrite Hk. split; [done|].
  destruct (fk_files _ _ _ _ _ _ Hfs _ _ Hk). lia.
Qed.

Lemma not_found : dir_map d !! k = None -> Directory_Find d name = Ok (-1).
Proof.
  intros Hk. rewrite Find_spec by (done || apply (ds_ok _ (fk_dir _ _ _ _ _ _ Hfs))). by rewrite Hk.
Qed.

Lemma Create_exists fuel size : dir_map d !! k <> None -> Create fuel fs disk name size = Ok (false, fs, disk).
Proof.
  intros Hk. destruct (dir_map d !! k) as [s|] eqn:Hs; [|done]. destruct (found_sector s Hs) as [Hf Hp].
  unfold Create. etransitivity; [apply fetch_directory|]. etransitivity; [apply fetch_dirHdr|].
  rewrite Hf. cbn [mbind outcome_bind]. by destruct (Z.eqb_spec s (-1)); [lia|].
Qed.

Lemma Create_no_space fuel size :
  is_s32 size -> dir_map d !! k = None ->
  ~ (0 <= size <= MaxFileSize /\ 1 + divRoundUp size SectorSize <= ba_free bm) ->
  Create fuel fs disk name size = Ok (false, fs, disk).
Proof.
  intros Hsz Hk Hno. pose proof (fm_wf _ _ _ (fk_map _ _ _ _ _ _ Hfs)) as Hwf.
  unfold Create. etransitivity; [apply fetch_directory|]. etransitivity; [apply fetch_dirHdr|].
  rewrite not_found by done. cbn [mbind outcome_bind]. change (negb (-1 =? -1)) with false. cbv iota.
  etransitivity; [apply fetch_free_map|]. pose proof (ba_free_nonneg bm) as Hnn.
  destruct (decide (ba_free bm = 0)) as [Hz|Hnz].
  { pose proof (ba_find_none bm Hwf Hz) as Hf. cbn [ba_find BitMap_allocator] in Hf. by rewrite Hf. }
  destruct (allocated_find bm bm []) as (sec & bm1 & Hf & Hal & Hr); [by apply allocated_nil|lia|].
  cbn [ba_find BitMap_allocator] in Hf. rewrite Hf. cbn [mbind outcome_bind].
  destruct (Z.eqb_spec sec (-1)); [done|].
  destruct (Add_spec d (ds_ok _ (fk_dir _ _ _ _ _ _ Hfs)) name Hname sec) as (d' & -> & _);
    [apply (ds_size _ (fk_dir _ _ _ _ _ _ Hfs))|].
  cbn [mbind outcome_bind]. rewrite bool_decide_eq_true_2 by done. cbn [negb].
  pose proof (al_free _ _ _ Hal) as Hfree. simpl in Hfree.
  destruct (Allocate_refuses bm1 blank_header size) as [h' Hrun]; [apply (al_inv _ _ _ Hal)|done|lia|]. by rewrite Hrun.
Qed.

(** What a successful [Create] leaves: [real] are the sectors that the file has. *)
Definition created_with (size : Z) (disk' : list (list Z)) (bm' : BitMap) (d' : Directory) (sec : Z) (h : FileHeader)
    (direct secs : list Z) (data : list (list Z)) (real : list Z) : Prop :=
  fs_ok fs disk' fms ds bm' d' /\ dir_map d' = <[k := sec]> (dir_map d) /\
  allocated bm bm' (sec :: real) /\ stored_at disk' sec h direct secs data /\
  FileHdr.numBytes h = size /\ FileHdr.numSectors h = divRoundUp size SectorSize /\
  changes disk disk' ([fms; ds; sec] ++ secs).

(** The same where every place of the layout has a sector. *)
Definition created (size : Z) (disk' : list (list Z)) (bm' : BitMap) (d' : Directory) (sec : Z) : Prop :=
  exists h direct secs data, created_with size disk' bm' d' sec h direct secs data (direct ++ secs ++ concat data).

(** The objects in memory after the allocations of [Create]: places of the layout for which
    there is no free sector left hold -1. *)
Lemma Create_in_memory size :
  dir_map d !! k = None -> Exists (fun e => inUse e = false) (table d) \/ tableSize d <= 4 ->
  0 <= size <= MaxFileSize -> 1 + divRoundUp size SectorSize <= ba_free bm ->
  exists sec bm1 d' h bm' direct secs data real,
    BitMap_Find bm = Ok (sec, bm1) /\ sec <> -1 /\ Directory_Add d name sec = Ok (true, d') /\
    Allocate blank_header bm1 size = Ok (true, h, bm') /\
    dir_stored d' /\ dir_map d' = <[k := sec]> (dir_map d) /\
    direct ++ secs ++ concat data ≡ₚ
      real ++ replicate (Z.to_nat (1 + sectors_needed (divRoundUp size SectorSize) - ba_free bm)) (-1) /\
    allocated bm bm' (sec :: real) /\ laid_out h direct secs data /\
    FileHdr.numBytes h = size /\ FileHdr.numSectors h = divRoundUp size SectorSize /\
    Forall is_s32 (header_words h) /\ Forall (Forall is_s32) data.
Proof.
  intros Hk Hroom Hsz Hfree. pose proof (fk_map _ _ _ _ _ _ Hfs) as Hm. pose proof (fm_wf _ _ _ Hm) as Hwf.
  pose proof (fk_dir _ _ _ _ _ _ Hfs) as Hds. pose proof (fm_bits _ _ _ Hm) as Hbits.
  assert (0 <= divRoundUp size SectorSize) as Hsn by (apply divRoundUp_nonneg; [lia|done]).
  destruct (allocated_find bm bm []) as (sec & bm1 & Hf & Hal & Hr); [by apply allocated_nil|lia|]. simpl in Hal.
  pose proof (al_free _ _ _ Hal) as Hfr. pose proof (al_size _ _ _ Hal) as Hs1. simpl in Hfr, Hs1, Hr.
  destruct (Add_spec d (ds_ok _ Hds) name Hname sec) as (d' & Hadd & Hok' & Hle & Hmap); [apply (ds_size _ Hds)|].
  rewrite bool_decide_eq_true_2 in Hadd by done. rewrite decide_True in Hmap by done.
  destruct (Allocate_takes bm1 blank_header size) as (h & bm' & direct & secs & data & Hrun & Hlo & Ht & Hnb & Hns & Hlen);
    [apply (al_inv _ _ _ Hal)|done|done|lia|].
  destruct (allocated_header blank_header h bm1 bm' size direct secs data) as [Hw Hdw]; try done;
    [split; apply Forall_replicate; unfold is_s32, two31; lia|apply (al_inv _ _ _ Hal)|congruence|].
  assert (exists real, direct ++ secs ++ concat data ≡ₚ real ++ replicate (Z.to_nat (1 + sectors_needed (divRoundUp size SectorSize) - ba_free bm)) (-1) /\
    allocated bm1 bm' real) as (real & Hp & Hal').
  { destruct (Z.le_gt_cases (sectors_needed (divRoundUp size SectorSize)) (ba_free bm1)) as [Hen|Hsh].
    - exists (direct ++ secs ++ concat data). replace (Z.to_nat _) with 0%nat by lia. split; [by rewrite app_nil_r|]. apply taken_enough; [done|by rewrite Hlen].
    - destruct (taken_short _ _ _ Ht) as (real & Hp & Hal' & _); [by rewrite Hlen|]. exists real. split; [|done]. rewrite Hp, Hlen. do 3 f_equiv. lia. }
  exists sec, bm1, d', h, bm', direct, secs, data, real. split_and!; try done; try lia.
  - apply (Add_stored d name sec true d'); try done. unfold is_s32, two31. lia.
  - by apply (allocated_trans bm bm1 bm' [sec]).
Qed.

(** The run of [Create], given what each step returns. *)
Lemma Create_run fuel size sec bm1 d' h bm' disk1 disk2 disk3 :
  dir_map d !! k = None -> BitMap_Find bm = Ok (sec, bm1) -> sec <> -1 -> Directory_Add d name sec = Ok (true, d') ->
  Allocate blank_header bm1 size = Ok (true, h, bm') ->
  BitMap_WriteBack fuel bm' (freeMapFile fs) disk = Ok (freeMapFile fs, disk1) -> WriteBack h disk1 sec = Ok disk2 ->
  Directory_WriteBack fuel d' (directoryFile fs) disk2 = Ok (directoryFile fs, disk3) ->
  (exists h, header_at disk3 DirectorySector h) -> Create fuel fs disk name size = Ok (true, fs, disk3).
Proof.
  intros Hk Hfind Hsec Hadd Hall Hw1 Hw2 Hw3 [h3 Hh3].
  unfold Create. etransitivity; [apply fetch_directory|]. etransitivity; [apply fetch_dirHdr|].
  rewrite not_found by done. cbn [mbind outcome_bind]. change (negb (-1 =? -1)) with false. cbv iota.
  etransitivity; [apply fetch_free_map|]. rewrite Hfind. cbn [mbind outcome_bind].
  destruct (Z.eqb_spec sec (-1)); [done|]. rewrite Hadd. cbn [mbind outcome_bind negb].
  rewrite Hall. cbn [mbind outcome_bind negb]. rewrite Hw1. cbn [mbind outcome_bind].
  rewrite Hw2. cbn [mbind outcome_bind]. rewrite Hw3. cbn [mbind outcome_bind].
  rewrite (FetchFrom_small _ _ h3) by done. cbn [mbind outcome_bind]. by destruct fs.
Qed.

(** The new free map still has the sectors of the file system and of the headers. *)
Lemma allocated_files bm' d' sec got :
  allocated bm bm' (sec :: got) -> dir_map d' = <[k := sec]> (dir_map d) ->
  (forall s, s ∈ system_sectors fms ds -> bm_bit bm' s = true) /\
  (forall k s, dir_map d' !! k = Some s -> 0 <= s < 1024 /\ bm_bit bm' s = true /\ ~ (s ∈ system_sectors fms ds)).
Proof.
  intros Hal Hmap. split.
  - intros x Hx. apply (allocated_keeps bm' _ x Hal); [|by apply Hfs].
    pose proof (fm_sector _ _ _ (fk_map _ _ _ _ _ _ Hfs)).
    pose proof (mp_range _ _ _ (fo_mapped _ _ _ (fk_dirFile _ _ _ _ _ _ Hfs))) as Hr.
    apply Forall_cons in Hr as [Hr _]. unfold system_sectors, FreeMapSector, DirectorySector in Hx. set_solver by lia.
  - intros k' x. rewrite Hmap. intros [[_ <-]|[_ Hx]]%lookup_insert_Some.
    + destruct (allocated_new bm' _ sec Hal) as (Hr & _ & Hn); [left|]. split; [lia|]. split; [|done].
      pose proof (al_used _ _ _ Hal sec ltac:(lia)) as Hu. simpl in Hu. rewrite Hu, bool_decide_eq_true_2; [done|left].
    + destruct (fk_files _ _ _ _ _ _ Hfs _ _ Hx) as (Hr & Hb & Hn). split; [done|]. split; [|done].
      apply (allocated_keeps bm' _ x Hal); [lia|done].
Qed.

(** Storing the free map and a new header. *)
Lemma store_header fuel bm' sec h direct secs data got :
  allocated bm bm' (sec :: got) -> NoDup secs -> (forall x, x ∈ secs -> x ∈ got) -> laid_out h direct secs data ->
  Forall is_s32 (header_words h) -> Forall (Forall is_s32) data ->
  exists disk1 disk2, BitMap_WriteBack (S fuel) bm' (freeMapFile fs) disk = Ok (freeMapFile fs, disk1) /\
    WriteBack h disk1 sec = Ok disk2 /\ stored_at disk2 sec h direct secs data /\
    free_map_on disk2 fms bm' /\ changes disk disk2 (fms :: sec :: secs) /\
    (forall x, x ∈ sec :: secs -> ~ (x ∈ system_sectors fms ds)).
Proof.
  intros Hal Hns Hgot Hlo Hw Hdw. pose proof (fk_map _ _ _ _ _ _ Hfs) as Hm.
  assert (forall x, x ∈ sec :: secs -> x ∈ sec :: got) as Hsub by set_solver.
  pose proof (fun x Hx => allocated_new bm' _ x Hal (Hsub x Hx)) as Hnew.
  assert (forall x, x ∈ sec :: secs -> ~ (x ∈ system_sectors fms ds)) as Hapart by (intros x Hx; by apply Hnew).
  destruct (free_map_store fuel (freeMapFile fs) disk fms bm bm') as (disk1 & Hw1 & Hch1 & Hfm1);
    [apply Hfs|done|apply Hfs|apply (al_inv _ _ _ Hal)| |].
  { pose proof (al_size _ _ _ Hal) as Hsize. simpl in Hsize. rewrite Hsize. apply (fm_bits _ _ _ Hm). }
  destruct (WriteBack_changes h direct secs data disk1 sec) as (disk2 & Hw2 & Hst2 & Hch2); try done.
  { split.
    - pose proof (al_nodup _ _ _ Hal) as Hnd. apply NoDup_cons in Hnd as [Hn1 _]. apply NoDup_cons. split; [set_solver|done].
    - apply Forall_forall. intros x Hx. destruct Hch1 as [-> _]. rewrite (fk_size _ _ _ _ _ _ Hfs).
      destruct (Hnew x Hx) as [Hr _]. lia. }
  { apply Hch1. }
  exists disk1, disk2. unfold BitMap_WriteBack. rewrite Hw1. split_and!; try done.
  - apply (free_map_changes disk1 disk2 (sec :: secs)); try done; intros Hin; apply (Hapart _ Hin); set_solver.
  - apply (changes_trans _ disk1); [apply (changes_weaken _ _ [fms]); [set_solver|done]|].
    apply (changes_weaken _ _ (sec :: secs)); [set_solver|done].
Qed.

(** A block of the layout has no sector: it cannot be written. *)
Lemma Create_run_fails fuel size sec bm1 d' h bm' disk1 :
  dir_map d !! k = None -> BitMap_Find bm = Ok (sec, bm1) -> sec <> -1 -> Directory_Add d name sec = Ok (true, d') ->
  Allocate blank_header bm1 size = Ok (true, h, bm') ->
  BitMap_WriteBack fuel bm' (freeMapFile fs) disk = Ok (freeMapFile fs, disk1) -> WriteBack h disk1 sec = AssertFail ->
  Create fuel fs disk name size = AssertFail.
Proof.
  intros Hk Hfind Hsec Hadd Hall Hw1 Hw2.
  unfold Create. etransitivity; [apply fetch_directory|]. etransitivity; [apply fetch_dirHdr|].
  rewrite not_found by done. cbn [mbind outcome_bind]. change (negb (-1 =? -1)) with false. cbv iota.
  etransitivity; [apply fetch_free_map|]. rewrite Hfind. cbn [mbind outcome_bind].
  destruct (Z.eqb_spec sec (-1)); [done|]. rewrite Hadd. cbn [mbind outcome_bind negb].
  rewrite Hall. cbn [mbind outcome_bind negb]. rewrite Hw1. cbn [mbind outcome_bind]. by rewrite Hw2.
Qed.

Lemma Create_outcome fuel size :
  dir_map d !! k = None -> Exists (fun e => inUse e = false) (table d) \/ tableSize d <= 4 ->
  0 <= size <= MaxFileSize -> 1 + divRoundUp size SectorSize <= ba_free bm ->
  exists sec h direct secs data real,
    laid_out h direct secs data /\ FileHdr.numSectors h = divRoundUp size SectorSize /\
    direct ++ secs ++ concat data ≡ₚ
      real ++ replicate (Z.to_nat (1 + sectors_needed (divRoundUp size SectorSize) - ba_free bm)) (-1) /\
    (forall x, x ∈ real -> 0 < x < 1024) /\
    (-1 ∈ secs -> Create (S fuel) fs disk name size = AssertFail) /\
    (~ (-1 ∈ secs) -> exists disk' bm' d', Create (S fuel) fs disk name size = Ok (true, fs, disk') /\
       created_with size disk' bm' d' sec h direct secs data real).
Proof.
  intros Hk Hroom Hsz Hfree.
  destruct (Create_in_memory size Hk Hroom Hsz Hfree) as (sec & bm1 & d' & h & bm' & direct & secs & data & real &
    Hfind & Hsec & Hadd & Hall & Hds' & Hmap & Hp & Hal & Hlo & Hnb & Hns & Hw & Hdw).
  exists sec, h, direct, secs, data, real. split; [done|]. split; [done|]. split; [done|].
  pose proof (fk_map _ _ _ _ _ _ Hfs) as Hm. pose proof (al_nodup _ _ _ Hal) as [_ Hndr]%NoDup_cons. split; [|split].
  - intros x Hx. destruct (allocated_new bm' _ x Hal) as (? & _); [by right|done].
  - intros Hin. destruct (free_map_store fuel (freeMapFile fs) disk fms bm bm') as (disk1 & Hw1 & Hch1 & _);
      [apply Hfs|done|apply Hfs|apply (al_inv _ _ _ Hal)| |].
    { pose proof (al_size _ _ _ Hal) as Hsize. simpl in Hsize. rewrite Hsize. apply (fm_bits _ _ _ Hm). }
    apply (Create_run_fails (S fuel) size sec bm1 d' h bm' disk1); try done; [unfold BitMap_WriteBack; by rewrite Hw1|].
    assert (length disk1 = 1024%nat) as Hl1 by (destruct Hch1 as [-> _]; apply Hfs).
    apply (WriteBack_missing h direct secs data); [done|rewrite Hl1; destruct (allocated_new bm' _ sec Hal) as (? & _); [left|lia]| |done].
    apply Forall_forall. intros x Hx. rewrite Hl1. assert (x ∈ direct ++ secs ++ concat data) as Hx' by set_solver.
    rewrite Hp in Hx'. apply elem_of_app in Hx' as [Hx'|Hx'].
    + right. destruct (allocated_new bm' _ x Hal) as (? & _); [by right|lia].
    + left. by apply elem_of_replicate in Hx' as [-> _].
  - intros Hin. destruct (taken_real direct secs (concat data) real _ Hp Hndr Hin) as [Hnd2 Hgot].
    destruct (store_header fuel bm' sec h direct secs data real Hal Hnd2 Hgot Hlo Hw Hdw)
      as (disk1 & disk2 & Hw1 & Hw2 & Hst2 & Hfm2 & Hch12 & Hapart).
    destruct (allocated_files bm' d' sec _ Hal Hmap) as [Hsys Hfiles].
    pose proof (fk_apart _ _ _ _ _ _ Hfs) as [_ [Ha1 _]%NoDup_cons]%NoDup_cons.
    destruct (fs_store fuel disk2 (fms :: sec :: secs) bm' d') as (disk3 & Hw3 & Hch3 & Hfs3); try done.
    { intros [Heq|Hin']%elem_of_cons; [set_solver|]. apply (Hapart _ Hin'). right. left. }
    exists disk3, bm', d'. split.
    + apply (Create_run (S fuel) size sec bm1 d' h bm' disk1 disk2 disk3); try done. apply (fk_dirHeader _ _ _ _ _ _ Hfs3).
    + split_and!; try done.
      * apply (stored_at_changes disk2 disk3 [ds]); try done. intros x Hx ->%list_elem_of_singleton.
        apply (Hapart ds Hx). unfold system_sectors. set_solver.
      * apply (changes_trans _ disk2); [apply (changes_weaken _ _ (fms :: sec :: secs)); [set_solver|done]|].
        apply (changes_weaken _ _ [ds]); [set_solver|done].
Qed.

Lemma Create_succeeds fuel size :
  dir_map d !! k = None -> Exists (fun e => inUse e = false) (table d) \/ tableSize d <= 4 ->
  0 <= size <= MaxFileSize -> 1 + sectors_needed (divRoundUp size SectorSize) <= ba_free bm ->
  exists disk' bm' d' sec, Create (S fuel) fs disk name size = Ok (true, fs, disk') /\ created size disk' bm' d' sec.
Proof.
  intros Hk Hroom Hsz Hfree. assert (0 <= divRoundUp size SectorSize) by (apply divRoundUp_nonneg; [lia|done]).
  pose proof (blocks_nonneg (Z.max 0 (divRoundUp size SectorSize - 4)) ltac:(lia)) as Hb0.
  destruct (Create_outcome fuel size Hk Hroom Hsz) as (sec & h & direct & secs & data & real & Hlo & Hns & Hp & Hrange & _ & Hok); [unfold sectors_needed in Hfree; lia|].
  replace (Z.to_nat _) with 0%nat in Hp by lia. rewrite app_nil_r in Hp.
  destruct Hok as (disk' & bm' & d' & Hrun & Hcr).
  - intros Hin. assert (-1 ∈ real) as Hr by (rewrite <- Hp; set_solver). apply Hrange in Hr. lia.
  - exists disk', bm', d', sec. split; [done|]. exists h, direct, secs, data.
    destruct Hcr as (? & ? & Hal & ? & ? & ? & ?). split_and!; try done. by apply (allocated_perm _ _ (sec :: real)); [rewrite Hp|].
Qed.

(** Opening a file that is in the directory. *)
Lemma Open_stored sec h direct secs data :
  dir_map d !! k = Some sec -> stored_at disk sec h direct secs data ->
  exists f, Open fs disk name = Ok (Some f) /\ hdrSector f = sec /\ seekPosition f = 0 /\
    FileLength (hdr f) = FileHdr.numBytes h /\ laid_out (hdr f) direct secs data /\
    FileHdr.numSectors (hdr f) = FileHdr.numSectors h.
Proof.
  intros Hk Hst. destruct (found_sector sec Hk) as [Hf Hs0].
  destruct (FetchFrom_stored h fresh_header direct secs data disk sec Hst fresh_header_shape)
    as (h1 & Hfetch & _ & Hlo & Hnb & Hns).
  assert (Open fs disk name = (openFile ← OpenFile_new disk sec; Ok (Some openFile))) as ->.
  { unfold Open. etransitivity; [apply fetch_directory|]. rewrite Hf. cbn [mbind outcome_bind].
    by destruct (Z.leb_spec 0 sec); [|lia]. }
  unfold OpenFile_new. rewrite Hfetch. cbn [mbind outcome_bind]. by eexists.
Qed.

Lemma Open_missing : dir_map d !! k = None -> Open fs disk name = Ok None.
Proof.
  intros Hk. unfold Open. etransitivity; [apply fetch_directory|]. by rewrite not_found.
Qed.

Lemma Remove_missing fuel : dir_map d !! k = None -> Remove fuel fs disk name = Ok (false, fs, disk).
Proof.
  intros Hk. unfold Remove. etransitivity; [apply fetch_directory|]. by rewrite not_found.
Qed.

(** The free map after the sectors [l] were given back. *)
Lemma freed_files bm' d' l :
  freed bm bm' l -> dir_map d' = delete k (dir_map d) ->
  (forall x, x ∈ l -> ~ (x ∈ system_sectors fms ds)) ->
  (forall k' s, k' <> k -> dir_map d !! k' = Some s -> ~ (s ∈ l)) ->
  (forall s, s ∈ system_sectors fms ds -> bm_bit bm' s = true) /\
  (forall k s, dir_map d' !! k = Some s -> 0 <= s < 1024 /\ bm_bit bm' s = true /\ ~ (s ∈ system_sectors fms ds)).
Proof.
  intros (_ & _ & Hu) Hmap Hsys Hother. simpl in Hu. split.
  - intros x Hx. rewrite Hu.
    + rewrite bool_decide_eq_false_2 by (intros Hin; by apply (Hsys x)). by apply Hfs.
    + pose proof (fm_sector _ _ _ (fk_map _ _ _ _ _ _ Hfs)).
      pose proof (mp_range _ _ _ (fo_mapped _ _ _ (fk_dirFile _ _ _ _ _ _ Hfs))) as Hr.
      apply Forall_cons in Hr as [Hr _]. unfold system_sectors, FreeMapSector, DirectorySector in Hx. set_solver by lia.
  - intros k' x. rewrite Hmap. intros [Hne Hx]%lookup_delete_Some.
    destruct (fk_files _ _ _ _ _ _ Hfs _ _ Hx) as (Hr & Hb & Hn). split; [done|]. split; [|done].
    rewrite Hu by lia. rewrite bool_decide_eq_false_2; [by rewrite Hb|]. apply (Hother k'); [congruence|done].
Qed.

Lemma Remove_succeeds fuel sec h direct :
  dir_map d !! k = Some sec -> stored_at disk sec h direct [] [] -> 0 <= FileHdr.numSectors h < 4 -> NoDup direct ->
  (forall x, x ∈ direct -> 0 <= x < 1024 /\ bm_bit bm x = true /\ ~ (x ∈ system_sectors fms ds)) ->
  (forall k' s, k' <> k -> dir_map d !! k' = Some s -> ~ (s ∈ direct ++ [sec])) ->
  exists disk' bm' d', Remove (S fuel) fs disk name = Ok (true, fs, disk') /\ fs_ok fs disk' fms ds bm' d' /\
    dir_map d' = delete k (dir_map d) /\ freed bm bm' (direct ++ [sec]) /\ changes disk disk' [fms; ds].
Proof.
  intros Hk Hst Hn Hnd Hdirect Hother. pose proof (fk_map _ _ _ _ _ _ Hfs) as Hm. pose proof (fm_wf _ _ _ Hm) as Hwf.
  pose proof (fm_bits _ _ _ Hm) as Hbits. pose proof (fk_dir _ _ _ _ _ _ Hfs) as Hds.
  destruct (found_sector sec Hk) as [Hf Hs0]. destruct (fk_files _ _ _ _ _ _ Hfs _ _ Hk) as (Hsr & _ & Hsn).
  destruct (FetchFrom_stored h fresh_header direct [] [] disk sec Hst fresh_header_shape)
    as (h1 & Hfetch & _ & Hlo & _ & Hns).
  destruct (Deallocate_small bm h1 direct) as (bm1 & Hde & Hfr1); try done; [by rewrite Hns| |].
  { intros x Hx. destruct (Hdirect x Hx) as (Hr & Hu & _). simpl. rewrite Hbits. done. }
  destruct (freed_clear bm bm1 direct sec Hfr1) as (bm' & Hcl & Hfr); [simpl; lia|].
  destruct (Remove_spec d (ds_ok _ Hds) name Hname) as (d' & Hrem & Hok' & Hts & Hmap).
  pose proof (Remove_stored d name _ d' Hds Hrem Hok' Hts) as Hds'.
  destruct (freed_files bm' d' (direct ++ [sec]) Hfr Hmap) as [Hsys Hfiles];
    [intros x [Hx| ->%list_elem_of_singleton]%elem_of_app; [by apply Hdirect|done]|done|].
  destruct Hfr as (Hinv & Hsize & Hu) eqn:Heq. simpl in Hinv, Hsize.
  destruct (free_map_store fuel (freeMapFile fs) disk fms bm bm') as (disk1 & Hw1 & Hch1 & Hfm1);
    [apply Hfs|done|apply Hfs|done|congruence|].
  pose proof (fk_apart _ _ _ _ _ _ Hfs) as [_ [Ha1 _]%NoDup_cons]%NoDup_cons.
  destruct (fs_store fuel disk1 [fms] bm' d') as (disk2 & Hw2 & Hch2 & Hfs2); try done; [set_solver|].
  exists disk2, bm', d'. split_and!; try done.
  - unfold Remove. etransitivity; [apply fetch_directory|]. rewrite Hf. cbn [mbind outcome_bind].
    destruct (Z.eqb_spec sec (-1)); [lia|]. rewrite Hfetch. cbn [mbind outcome_bind].
    etransitivity; [apply fetch_free_map|]. rewrite Hde. cbn [mbind outcome_bind].
    cbn [ba_clear BitMap_allocator] in Hcl. rewrite Hcl. cbn [mbind outcome_bind]. rewrite Hrem. cbn [mbind outcome_bind].
    unfold BitMap_WriteBack. rewrite Hw1. cbn [mbind outcome_bind]. rewrite Hw2. cbn [mbind outcome_bind]. by destruct fs.
  - apply (changes_trans _ disk1); [apply (changes_weaken _ _ [fms]); [set_solver|done]|].
    apply (changes_weaken _ _ [ds]); [set_solver|done].
Qed.
End one_name.
End filesystem.

(** ** Formatting *)

Section format.
Context `{FreshLaws}.

Lemma mark_allocated (m : BitMap) i : bm_wf m -> 0 <= i < numBits m -> bm_bit m i = false ->
  exists m', BitMap_Mark m i = Ok m' /\ allocated m m' [i].
Proof.
  intros Hwf Hi Hb. destruct (BitMap_Mark_bit m i Hwf Hi) as (m' & Hm & Hwf' & Hn & Hu). exists m'. split; [done|].
  split; try done.
  - apply NoDup_singleton.
  - intros s ->%list_elem_of_singleton. done.
  - intros j Hj. simpl. rewrite Hu by done. f_equal. apply bool_decide_ext. rewrite list_elem_of_singleton. naive_solver.
  - simpl. unfold ba_free. simpl. rewrite Hn. apply (count_clear_mark _ _ i); [lia|done|].
    intros j Hj. apply Hu. lia.
Qed.

(** A header for a file of one sector. *)
Lemma allocate_one (m : BitMap) size : bm_wf m -> numBits m = 1024 -> 0 < ba_free m -> 0 < size <= 128 ->
  exists h m' s, Allocate fresh_header m size = Ok (true, h, m') /\ allocated m m' [s] /\ hdr_shape h /\
    Forall is_s32 (header_words h) /\ FileHdr.numBytes h = size /\ FileHdr.numSectors h = 1 /\
    take 1 (dataSectors h) = [s].
Proof.
  intros Hwf Hn Hfree Hsz. assert (divRoundUp size SectorSize = 1) as Hone.
  { pose proof (divRoundUp_bounds size 128 ltac:(lia) ltac:(lia)). change SectorSize with 128. lia. }
  destruct (Allocate_ok m fresh_header size) as (h & m' & direct & secs & data & Hrun & Hlo & Hal & Hnb & Hns);
    [done|apply fresh_header_shape|change MaxFileSize with 103680; lia|rewrite Hone; change (sectors_needed 1) with 1; lia|]. rewrite Hone in Hns.
  pose proof (lo_ndirect _ _ _ _ Hlo) as Hd. pose proof (lo_nsecs _ _ _ _ Hlo) as Hs. rewrite Hns in Hd, Hs.
  change (blocks (Z.max 0 (1 - 4))) with 0 in Hs. destruct secs; [|simpl in Hs; lia].
  pose proof (lo_ndata _ _ _ _ Hlo) as Hda. destruct data; [|done]. simpl in Hal. rewrite app_nil_r in Hal.
  destruct direct as [|s [|? ?]]; simpl in Hd; try lia.
  destruct (allocated_header fresh_header h m m' size [s] [] []) as [Hw _]; try done.
  { apply fresh_header_words. } { change MaxFileSize with 103680. lia. } { by rewrite Hone. }
  { exists [s], 0%nat. split_and!; try done. by left. }
  exists h, m', s. split_and!; try done; [apply (lo_shape _ _ _ _ Hlo)|apply (lo_direct _ _ _ _ Hlo)].
Qed.

Lemma open_one disk sector h s : header_at disk sector h -> length disk = 1024%nat -> FileHdr.numSectors h = 1 ->
  take 1 (dataSectors h) = [s] -> 0 < FileHdr.numBytes h <= 128 -> 0 <= s < 1024 ->
  exists f, OpenFile_new disk sector = Ok f /\ file_on f disk [s] /\ FileLength (hdr f) = FileHdr.numBytes h.
Proof.
  intros Hh Hl Hn Ht Hsz Hs. eexists. split; [by apply OpenFile_new_small|]. split; [|done]. split; cbn [hdr].
  - apply mapped_direct; [simpl; lia|done|]. repeat constructor; simpl; lia.
  - apply NoDup_singleton.
  - unfold FileLength. simpl. lia.
  - unfold FileLength. simpl. change SectorSize with 128.
    pose proof (divRoundUp_bounds (FileHdr.numBytes h) 128 ltac:(lia) ltac:(lia)). lia.
Qed.

(** The free map and the two headers of a new file system. *)
Lemma format_in_memory : exists bm0 bm1 bm2 bm3 bm4 mapHdr dirHdr fms ds,
  BitMap_create NumSectors = Ok bm0 /\ BitMap_Mark bm0 FreeMapSector = Ok bm1 /\
  BitMap_Mark bm1 DirectorySector = Ok bm2 /\ Allocate fresh_header bm2 FreeMapFileSize = Ok (true, mapHdr, bm3) /\
  Allocate fresh_header bm3 DirectoryFileSize = Ok (true, dirHdr, bm4) /\
  bm_wf bm4 /\ numBits bm4 = 1024 /\ ba_free bm4 = 1020 /\ NoDup (system_sectors fms ds) /\ 0 <= fms < 1024 /\ 0 <= ds < 1024 /\
  (forall j, 0 <= j < 1024 -> bm_bit bm4 j = bool_decide (j ∈ system_sectors fms ds)) /\
  hdr_shape mapHdr /\ Forall is_s32 (header_words mapHdr) /\ FileHdr.numBytes mapHdr = 128 /\
  FileHdr.numSectors mapHdr = 1 /\ take 1 (dataSectors mapHdr) = [fms] /\
  hdr_shape dirHdr /\ Forall is_s32 (header_words dirHdr) /\ FileHdr.numBytes dirHdr = 80 /\
  FileHdr.numSectors dirHdr = 1 /\ take 1 (dataSectors dirHdr) = [ds].
Proof.
  destruct (BitMap_create_ok NumSectors) as (bm0 & Hc & Hwf0 & Hn0 & Hb0); [done|]. change NumSectors with 1024 in *.
  assert (ba_free bm0 = 1024) as Hf0.
  { unfold ba_free. simpl. rewrite Hn0, (count_clear_ext _ (fun _ => false)); [reflexivity|]. intros j Hj. apply Hb0. lia. }
  destruct (mark_allocated bm0 0) as (bm1 & Hm1 & Hal1); [done|lia|apply Hb0; lia|].
  destruct (mark_allocated bm1 1) as (bm2 & Hm2 & Hal2).
  { apply (al_inv _ _ _ Hal1). } { pose proof (al_size _ _ _ Hal1) as Hs. simpl in Hs. lia. }
  { pose proof (al_used _ _ _ Hal1 1 ltac:(lia)) as Hu. simpl in Hu. rewrite Hu, Hb0 by lia. reflexivity. }
  pose proof (allocated_trans _ _ _ _ _ Hal1 Hal2) as Hal. simpl in Hal.
  pose proof (al_size _ _ _ Hal) as Hs2. pose proof (al_free _ _ _ Hal) as Hf2. simpl in Hs2, Hf2.
  destruct (allocate_one bm2 128) as (mh & bm3 & fms & Hr3 & Hal3 & Hmsh & Hmw & Hmb & Hmn & Hmt);
    [apply (al_inv _ _ _ Hal)|lia|lia|lia|].
  pose proof (allocated_trans _ _ _ _ _ Hal Hal3) as Hal'. simpl in Hal'.
  pose proof (al_size _ _ _ Hal') as Hs3. pose proof (al_free _ _ _ Hal') as Hf3. simpl in Hs3, Hf3.
  destruct (allocate_one bm3 80) as (dh & bm4 & ds & Hr4 & Hal4 & Hdsh & Hdw & Hdb & Hdn & Hdt);
    [apply (al_inv _ _ _ Hal')|lia|lia|lia|].
  pose proof (allocated_trans _ _ _ _ _ Hal' Hal4) as Hall. simpl in Hall.
  exists bm0, bm1, bm2, bm3, bm4, mh, dh, fms, ds. pose proof (al_got _ _ _ Hall) as Hgot. simpl in Hgot.
  split_and!; try done; try (apply (al_inv _ _ _ Hall)); try (apply (al_nodup _ _ _ Hall));
    try (destruct (Hgot fms) as [? _]; [set_solver|lia]); try (destruct (Hgot ds) as [? _]; [set_solver|lia]).
  - pose proof (al_size _ _ _ Hall) as Hs. simpl in Hs. lia.
  - pose proof (al_free _ _ _ Hall) as Hf. simpl in Hf. lia.
  - intros j Hj. pose proof (al_used _ _ _ Hall j ltac:(lia)) as Hu. simpl in Hu. by rewrite Hu, Hb0, orb_false_r.
Qed.

(** A directory in which no entry is in use. *)
Lemma empty_directory d : Forall (fun e => inUse e = false) (table d) -> entries (table d) = [].
Proof.
  unfold entries. induction 1 as [|e t He _ IH]; [done|]. simpl. unfold entry at 1. by rewrite He.
Qed.

Lemma Directory_create_ok : exists d, Directory_create = Ok d /\ dir_stored d /\ tableSize d = 4 /\ dir_map d = ∅ /\
  Forall (fun e => inUse e = false) (table d).
Proof.
  unfold Directory_create. destruct (Directory_new_ok NumDirEntries) as (d & -> & Hts & Hl & Hn & Hsec); [done|].
  exists d. change NumDirEntries with 4 in *. change (Z.to_nat 4) with 4%nat in *.
  assert (Forall (fun e => length (e_name e) = 10%nat) (table d)) as Hnames by (eapply Forall_impl; [exact Hn|]; naive_solver).
  assert (Forall (fun e => inUse e = false) (table d)) as Hfree by (eapply Forall_impl; [exact Hn|]; naive_solver).
  pose proof (empty_directory d Hfree) as He.
  assert (Forall is_s32 (e_sector <$> table d)) as Hs by (rewrite Hsec; apply Forall_fmap, fresh_entries_sectors).
  apply (proj1 (Forall_fmap e_sector _ _)) in Hs. split_and!; try done.
  - split; [split; [by rewrite Hts, Hl|done|]|apply Forall_forall; intros e Hin; split; [exact (proj1 (Forall_forall _ _) Hnames e Hin)|exact (proj1 (Forall_forall _ _) Hs e Hin)]|lia]. rewrite He. apply NoDup_nil_2.
  - unfold dir_map. by rewrite He.
Qed.

(** The headers on disk. *)
Lemma format_headers disk h0 h1 : length disk = 1024%nat -> disk_ok disk ->
  hdr_shape h0 -> Forall is_s32 (header_words h0) -> FileHdr.numSectors h0 = 1 ->
  hdr_shape h1 -> Forall is_s32 (header_words h1) -> FileHdr.numSectors h1 = 1 ->
  exists disk1 disk2, WriteBack h0 disk FreeMapSector = Ok disk1 /\ WriteBack h1 disk1 DirectorySector = Ok disk2 /\
    disk_ok disk2 /\ length disk2 = 1024%nat /\ header_at disk2 FreeMapSector h0 /\ header_at disk2 DirectorySector h1.
Proof.
  intros Hl Hd Hs0 Hw0 Hn0 Hs1 Hw1 Hn1.
  destruct (WriteBack_small h0 disk FreeMapSector) as (disk1 & -> & Hch1 & Hh1); try done; [lia|unfold FreeMapSector; lia|].
  destruct Hch1 as (Hl1 & Hd1 & _).
  destruct (WriteBack_small h1 disk1 DirectorySector) as (disk2 & Hr & Hch2 & Hh2);
    try done; [lia|unfold DirectorySector; lia|].
  exists disk1, disk2. pose proof Hch2 as (Hl2 & Hd2 & _). split_and!; try done; [lia|].
  apply (header_at_changes disk1 disk2 [DirectorySector]); try done. by intros Hin%list_elem_of_singleton.
Qed.

Lemma format_succeeds fuel disk : length disk = 1024%nat -> disk_ok disk ->
  exists fs disk' fms ds bm d, FileSystem_new (S fuel) true disk = Ok (fs, disk') /\ fs_ok fs disk' fms ds bm d /\
    dir_map d = ∅ /\ tableSize d = 4 /\ ba_free bm = 1020 /\
    forall j, 0 <= j < 1024 -> bm_bit bm j = bool_decide (j ∈ system_sectors fms ds).
Proof.
  intros Hl Hd. destruct format_in_memory as (bm0 & bm1 & bm2 & bm3 & bm & mh & dh & fms & ds & Hc & Hm1 & Hm2 & Ha1 &
    Ha2 & Hwf & Hbits & Hfree & Hnd & Hfr & Hdr & Hused & Hmsh & Hmw & Hmb & Hmn & Hmt & Hdsh & Hdw & Hdb & Hdn & Hdt).
  destruct Directory_create_ok as (d & Hdc & Hds & Hts & Hempty & _).
  destruct (format_headers disk mh dh) as (disk1 & disk2 & Hw1 & Hw2 & Hd2 & Hl2 & Hmh & Hdh); try done.
  destruct (open_one disk2 FreeMapSector mh fms) as (mf & Hof & Hmf & _); try done; [lia|].
  destruct (open_one disk2 DirectorySector dh ds) as (df & Hof' & Hdf & Hdl); try done; [lia|].
  pose proof (bitmap_words bm Hwf Hbits) as Hwords.
  destruct (WriteAt_bitmap fuel bm mf disk2 [fms]) as (disk3 & Hw3 & Hch3 & Hin3); try done; try (simpl; lia).
  pose proof (file_on_changes df disk2 disk3 [ds] [fms] Hch3 Hdf) as Hdf3.
  destruct (Directory_WriteBack_ok fuel d df disk3 ds) as (disk4 & Hw4 & Hch4 & Hin4); try done; [apply Hch3|].
  exists (mkFS mf df), disk4, fms, ds, bm, d. split; [|split; [|done]].
  - unfold FileSystem_new. rewrite Hc. cbn [mbind outcome_bind]. rewrite Hdc. cbn [mbind outcome_bind].
    rewrite Hm1. cbn [mbind outcome_bind]. rewrite Hm2. cbn [mbind outcome_bind]. rewrite Ha1. cbn [mbind outcome_bind ASSERT].
    rewrite Ha2. cbn [mbind outcome_bind ASSERT]. rewrite Hw1. cbn [mbind outcome_bind]. rewrite Hw2. cbn [mbind outcome_bind].
    rewrite Hof. cbn [mbind outcome_bind]. rewrite Hof'. cbn [mbind outcome_bind]. unfold BitMap_WriteBack. rewrite Hw3.
    cbn [mbind outcome_bind]. by rewrite Hw4.
  - pose proof Hnd as (Ha & (Hb & (Hcc & _)%NoDup_cons)%NoDup_cons)%NoDup_cons.
    assert (changes disk2 disk4 [fms; ds]) as Hch.
    { apply (changes_trans _ disk3); [apply (changes_weaken _ _ [fms])|apply (changes_weaken _ _ [ds])]; (done || set_solver). }
    assert (length disk4 = 1024%nat) as Hl4 by (destruct Hch; lia).
    split; cbn [freeMapFile directoryFile]; try done.
    + apply Hch.
    + apply (free_map_changes disk3 disk4 [ds]); [done|set_solver|set_solver|]. split; try done; [|set_solver].
      exists mh. split; [|done]. apply (header_at_changes disk2 disk3 [fms]); [done|set_solver|done].
    + by apply (file_on_changes mf disk2 disk4 _ [fms; ds]).
    + by apply (file_on_changes df disk2 disk4 _ [fms; ds]).
    + rewrite Hdl. lia.
    + exists dh. apply (header_at_changes disk2 disk4 [fms; ds]); [done|set_solver|done].
    + intros s Hs. rewrite Hused, bool_decide_eq_true_2; [done|done|].
      unfold system_sectors, FreeMapSector, DirectorySector in Hs. set_solver by lia.
    + intros k s. rewrite Hempty. done.
Qed.
End format.

(** ** Files and the file system *)

Section lifecycle.
Context `{FreshLaws}.

(** The file system does not depend on the sectors of files. *)
Lemma fs_ok_data fs disk disk' l fms ds bm d :
  fs_ok fs disk fms ds bm d -> changes disk disk' l -> (forall s, s ∈ l -> ~ (s ∈ system_sectors fms ds)) ->
  fs_ok fs disk' fms ds bm d.
Proof.
  intros [Hd Hl Hm Hmf Hdf Hdl [dh Hdh] Hds Hdi Hap Hu Hfl] Hch Hdisj. unfold system_sectors in *.
  pose proof (mp_range _ _ _ (fo_mapped _ _ _ Hdf)) as [Hdr _]%Forall_cons.
  split; try done.
  - apply Hch.
  - destruct Hch; congruence.
  - apply (free_map_changes disk disk' l); try done; set_solver.
  - by apply (file_on_changes _ disk disk' _ l).
  - by apply (file_on_changes _ disk disk' _ l).
  - exists dh. apply (header_at_changes disk disk' l); [done|set_solver|done].
  - unfold dir_in. rewrite (file_bytes_changes disk disk' _ l); [done|done| |].
    + repeat constructor. lia.
    + intros s ->%list_elem_of_singleton Hin. apply (Hdisj ds Hin). set_solver.
Qed.

(** The data sectors of a file whose header is in the file system. *)
Lemma opened_file f disk (bm bm' : BitMap) sec direct secs data :
  laid_out (hdr f) direct secs data -> allocated bm bm' (sec :: direct ++ secs ++ concat data) ->
  numBits bm = 1024 -> length disk = 1024%nat -> 0 <= FileLength (hdr f) ->
  FileHdr.numSectors (hdr f) = divRoundUp (FileLength (hdr f)) SectorSize -> FileHdr.numSectors (hdr f) < 35 ->
  file_on f disk (direct ++ concat data).
Proof.
  intros Hlo Hal Hbits Hl Hlen Hns Hlt.
  assert (0 <= FileHdr.numSectors (hdr f)) by (rewrite Hns; by apply divRoundUp_nonneg).
  split; try done.
  - apply (mapped_laid_out _ _ _ secs); [done|lia|]. apply Forall_forall. intros x Hx.
    destruct (al_got _ _ _ Hal x) as [Hr _]; [set_solver|]. simpl in Hr. lia.
  - pose proof (al_nodup _ _ _ Hal) as [_ Hnd]%NoDup_cons. apply NoDup_app in Hnd as (Hn1 & Hd & Hn2).
    apply NoDup_app in Hn2 as (_ & _ & Hn2). apply NoDup_app. split_and!; try done.
    intros x Hx Hx'. apply (Hd x Hx). set_solver.
  - rewrite length_app. pose proof (lo_ndirect _ _ _ _ Hlo). pose proof (lo_total _ _ _ _ Hlo). lia.
Qed.

(** A small file that was just created has what [Remove] asks for. *)
Lemma created_removable fs disk fms ds bm d name size disk' bm' d' sec :
  fs_ok fs disk fms ds bm d -> dir_map d !! take FileNameMaxLen name = None ->
  created fs disk fms ds bm d name size disk' bm' d' sec -> 0 <= size -> divRoundUp size SectorSize < 4 ->
  exists h direct, fs_ok fs disk' fms ds bm' d' /\ dir_map d' = <[take FileNameMaxLen name := sec]> (dir_map d) /\
    allocated bm bm' (sec :: direct) /\
    stored_at disk' sec h direct [] [] /\ 0 <= FileHdr.numSectors h < 4 /\ NoDup direct /\
    (forall x, x ∈ direct -> 0 <= x < 1024 /\ bm_bit bm' x = true /\ ~ (x ∈ system_sectors fms ds)) /\
    (forall k' s, k' <> take FileNameMaxLen name -> dir_map d' !! k' = Some s -> ~ (s ∈ direct ++ [sec])).
Proof.
  intros Hfs Hk (h & direct & secs & data & Hfs' & Hmap & Hal & Hst & Hnb & Hns & _) Hsz Hn.
  assert (0 <= divRoundUp size SectorSize) by (by apply divRoundUp_nonneg).
  pose proof (st_layout _ _ _ _ _ _ Hst) as Hlo. pose proof (lo_nsecs _ _ _ _ Hlo) as Hs.
  rewrite Z.max_l, blocks_zero in Hs by lia. destruct secs; [|simpl in Hs; lia].
  pose proof (lo_ndata _ _ _ _ Hlo) as Hda. destruct data; [|done]. simpl in Hal. rewrite app_nil_r in Hal.
  pose proof (al_nodup _ _ _ Hal) as [_ Hnd]%NoDup_cons.
  exists h, direct. split_and!; try done; try lia.
  - intros x Hx. assert (x ∈ sec :: direct) as Hin by (by right).
    destruct (allocated_new fs disk fms ds bm d Hfs bm' _ x Hal Hin) as (Hr & _ & Hns'). split; [lia|]. split; [|done].
    pose proof (al_used _ _ _ Hal x ltac:(lia)) as Hu. simpl in Hu. by rewrite Hu, bool_decide_eq_true_2.
  - intros k' s Hne. rewrite Hmap, lookup_insert_ne by done. intros Hs' Hin.
    destruct (fk_files _ _ _ _ _ _ Hfs _ _ Hs') as (_ & Hb & _).
    destruct (al_got _ _ _ Hal s) as [_ Hfree]; [set_solver|]. simpl in Hfree. congruence.
Qed.

(** Opening a file that was created with fewer than 35 sectors. *)
Lemma open_created fs disk fms ds (bm bm0 : BitMap) d name sec h direct secs data :
  fs_ok fs disk fms ds bm d -> Forall (fun c => c <> 0) name -> dir_map d !! take FileNameMaxLen name = Some sec ->
  stored_at disk sec h direct secs data -> allocated bm0 bm (sec :: direct ++ secs ++ concat data) ->
  0 <= FileHdr.numBytes h -> FileHdr.numSectors h = divRoundUp (FileHdr.numBytes h) SectorSize ->
  FileHdr.numSectors h < 35 ->
  exists f, Open fs disk name = Ok (Some f) /\ FileLength (hdr f) = FileHdr.numBytes h /\
    file_on f disk (direct ++ concat data).
Proof.
  intros Hfs Hname Hk Hst Hal Hnb Hns Hlt.
  destruct (Open_stored fs disk fms ds bm d Hfs name Hname sec h direct secs data Hk Hst)
    as (f & Hop & _ & _ & Hlen & Hlo & Hn).
  exists f. split; [done|]. split; [done|]. apply (opened_file f disk bm0 bm sec direct secs data); try done.
  - pose proof (al_size _ _ _ Hal) as Hs. simpl in Hs. rewrite <- Hs. apply (fm_bits _ _ _ (fk_map _ _ _ _ _ _ Hfs)).
  - apply (fk_size _ _ _ _ _ _ Hfs).
  - by rewrite Hlen.
  - by rewrite Hn, Hlen.
  - by rewrite Hn.
Qed.

(** The header and the blocks of a file are apart from its data. *)
Lemma header_apart (bm0 bm : BitMap) sec direct secs data s :
  allocated bm0 bm (sec :: direct ++ secs ++ concat data) -> s ∈ sec :: secs -> ~ (s ∈ direct ++ concat data).
Proof.
  intros Hal Hs. pose proof (al_nodup _ _ _ Hal) as [Hn Hnd]%NoDup_cons. apply NoDup_app in Hnd as (_ & Hd & Hnd).
  apply NoDup_app in Hnd as (_ & Hd' & _). set_solver.
Qed.

(** A file is opened at its start. *)
Lemma Open_start fs disk name f : Open fs disk name = Ok (Some f) -> seekPosition f = 0.
Proof.
  unfold Open, OpenFile_new. intros Hop. repeat (apply bind_ok in Hop as (? & _ & Hop)).
  destruct (0 <=? _); [|done]. apply bind_ok in Hop as (? & (? & _ & [= <-])%bind_ok & [= <-]). done.
Qed.

(** [Create] and [Open]: the file [f] has the sectors [ss]. Whatever is written to these, the file
    system stays in order and the file can be opened again. *)
Lemma create_open fuel fs disk fms ds bm d name size :
  fs_ok fs disk fms ds bm d -> Forall (fun c => c <> 0) name ->
  Exists (fun e => inUse e = false) (table d) \/ tableSize d <= 4 -> dir_map d !! take FileNameMaxLen name = None ->
  0 <= size <= 34 * 128 -> 1 + sectors_needed (divRoundUp size SectorSize) <= ba_free bm ->
  exists disk1 f ss bm' d', Create (S fuel) fs disk name size = Ok (true, fs, disk1) /\ fs_ok fs disk1 fms ds bm' d' /\
    Open fs disk1 name = Ok (Some f) /\ FileLength (hdr f) = size /\ file_on f disk1 ss /\
    forall disk2, changes disk1 disk2 ss -> fs_ok fs disk2 fms ds bm' d' /\
      exists f2, Open fs disk2 name = Ok (Some f2) /\ FileLength (hdr f2) = size /\ file_on f2 disk2 ss.
Proof.
  intros Hfs Hname Hroom Hk Hsz Hfree.
  pose proof (divRoundUp_bounds size 128 ltac:(lia) ltac:(lia)) as Hdr. change SectorSize with 128 in Hfree.
  destruct (Create_succeeds fs disk fms ds bm d Hfs name Hname fuel size)
    as (disk1 & bm' & d' & sec & Hrun & h & direct & secs & data & Hfs1 & Hmap & Hal & Hst & Hnb & Hns & _); try done.
  { change MaxFileSize with 103680. lia. }
  assert (dir_map d' !! take FileNameMaxLen name = Some sec) as Hk' by (by rewrite Hmap, lookup_insert_eq).
  assert (FileHdr.numSectors h < 35) as Hlt by (rewrite Hns; change SectorSize with 128; lia).
  rewrite <- Hnb in Hns. assert (0 <= FileHdr.numBytes h) as Hnn by lia.
  destruct (open_created fs disk1 fms ds bm' bm d' name sec h direct secs data) as (f & Hop & Hlen & Hf); try done.
  exists disk1, f, (direct ++ concat data), bm', d'. split_and!; try done; [congruence|]. intros disk2 Hch.
  assert (fs_ok fs disk2 fms ds bm' d') as Hfs2.
  { apply (fs_ok_data fs disk1 disk2 (direct ++ concat data)); try done. intros s Hs.
    apply (allocated_new fs disk fms ds bm d Hfs bm' _ s Hal). set_solver. }
  assert (stored_at disk2 sec h direct secs data) as Hst2.
  { apply (stored_at_changes disk1 disk2 (direct ++ concat data)); try done. intros s. by apply (header_apart bm bm'). }
  destruct (open_created fs disk2 fms ds bm' bm d' name sec h direct secs data) as (f2 & Hop2 & Hlen2 & Hf2); try done.
  split; [done|]. exists f2. split_and!; try done. congruence.
Qed.

(** What [Open] finds after [Create], and the sectors [Create] leaves alone. *)
Lemma created_found fs disk fms ds bm d name : Forall (fun c => c <> 0) name ->
  forall size disk' bm' d' sec h direct secs data real,
  created_with fs disk fms ds bm d name size disk' bm' d' sec h direct secs data real -> (forall x, x ∈ secs -> x ∈ real) ->
  (forall s, 0 <= s -> bm_bit bm s = true -> s <> fms -> s <> ds -> disk' !! Z.to_nat s = disk !! Z.to_nat s) /\
  exists f, Open fs disk' name = Ok (Some f) /\ FileLength (hdr f) = size /\ laid_out (hdr f) direct secs data.
Proof.
  intros Hname size disk' bm' d' sec h direct secs data real (Hfs' & Hmap & Hal & Hst & Hnb & Hns & Hch) Hsub. split.
  - intros s Hs Hused Hf Hd. apply Hch; [done|]. intros Hin.
    assert (s ∈ sec :: real) as Hgot by set_solver.
    destruct (al_got _ _ _ Hal s Hgot) as [_ Hfree']. simpl in Hfree'. congruence.
  - destruct (Open_stored fs disk' fms ds bm' d' Hfs' name Hname sec h direct secs data)
      as (f & Hopen & _ & _ & Hlen & Hlo & _); [by rewrite Hmap, lookup_insert_eq|done|].
    exists f. by rewrite Hlen.
Qed.

End lifecycle.

(** ** Properties *)

(** C31. Formatting. Whatever the 1024 sectors of the disk and fresh memory hold, the
    constructor returns, and the disk holds an empty directory of four entries and a free
    map in which exactly four different sectors are taken: the two headers, the free map's
    own sector and the directory's. *)
Theorem FileSystem_format `{FreshLaws} fuel disk :
  length disk = 1024%nat -> disk_ok disk ->
  exists fs disk' fms ds bm d, FileSystem_new (S fuel) true disk = Ok (fs, disk') /\ fs_ok fs disk' fms ds bm d /\
    dir_map d = ∅ /\ tableSize d = 4 /\ ba_free bm = 1020 /\
    forall j, 0 <= j < 1024 -> bm_bit bm j = bool_decide (j ∈ system_sectors fms ds).
Proof. apply format_succeeds. Qed.

Lemma FileSystem_format_witness :
  exists fs disk' fms ds bm d, FileSystem_new (H := zero_fresh) 1 true (demo_disk 1024 []) = Ok (fs, disk') /\
    fs_ok (H := zero_fresh) fs disk' fms ds bm d /\ dir_map d = ∅.
Proof.
  destruct (demo_sectors_ok 1024 []) as [Hd Hl]; [constructor|].
  destruct (FileSystem_format (H := zero_fresh) (H0 := zero_fresh_laws) 0 (demo_disk 1024 []) Hl Hd)
    as (fs & disk' & fms & ds & bm & d & Hrun & Hok & He & _).
  exists fs, disk', fms, ds, bm, d. split; [exact Hrun|]. split; [exact Hok|exact He].
Defined.

(** C9. [Create] on a file system whose directory has a free entry or at most four entries (a
    full table of that size grows, it does not make [Create] fail). A name that is taken, a
    size that a header cannot describe and a size for whose data there are too few free
    sectors give FALSE, and nothing on disk changes. With sectors for the header, the data
    and the indirect blocks it gives TRUE: the name is added to the directory with a header
    in a sector that was free, the data sectors are all different and were free, the file
    system is in order, no other sector that was in use changes but those of the free map and
    the directory, and [Open] finds the file with its size. In between, with sectors for the
    header and the data but not for the indirect blocks, which [Allocate] does not count, the
    layout has -1 in the places for which no sector is left: where one of these is an indirect
    block, [Create] ends in a failed assertion; otherwise it gives TRUE, and the file that
    [Open] finds has -1 among its data sectors. *)
Theorem Create_correct `{FreshLaws} fuel fs disk fms ds bm d name size :
  fs_ok fs disk fms ds bm d -> Forall (fun c => c <> 0) name -> is_s32 size ->
  Exists (fun e => inUse e = false) (table d) \/ tableSize d <= 4 ->
  let k := take FileNameMaxLen name in
  let n := divRoundUp size SectorSize in
  (dir_map d !! k <> None \/ ~ (0 <= size <= MaxFileSize /\ 1 + n <= ba_free bm) ->
   Create (S fuel) fs disk name size = Ok (false, fs, disk)) /\
  (dir_map d !! k = None -> 0 <= size <= MaxFileSize -> 1 + sectors_needed n <= ba_free bm ->
   exists disk' bm' d' sec direct secs data f,
     Create (S fuel) fs disk name size = Ok (true, fs, disk') /\ fs_ok fs disk' fms ds bm' d' /\
     dir_map d' = <[k := sec]> (dir_map d) /\ allocated bm bm' (sec :: direct ++ secs ++ concat data) /\
     (forall s, 0 <= s -> bm_bit bm s = true -> s <> fms -> s <> ds -> disk' !! Z.to_nat s = disk !! Z.to_nat s) /\
     Open fs disk' name = Ok (Some f) /\ FileLength (hdr f) = size /\ laid_out (hdr f) direct secs data) /\
  (dir_map d !! k = None -> 0 <= size <= MaxFileSize -> 1 + n <= ba_free bm < 1 + sectors_needed n ->
   exists sec direct secs data real,
     direct ++ secs ++ concat data ≡ₚ real ++ replicate (Z.to_nat (1 + sectors_needed n - ba_free bm)) (-1) /\
     (-1 ∈ secs -> Create (S fuel) fs disk name size = AssertFail) /\
     (~ (-1 ∈ secs) -> -1 ∈ direct ++ concat data /\ exists disk' bm' d' f,
        Create (S fuel) fs disk name size = Ok (true, fs, disk') /\ fs_ok fs disk' fms ds bm' d' /\
        dir_map d' = <[k := sec]> (dir_map d) /\ allocated bm bm' (sec :: real) /\
        (forall s, 0 <= s -> bm_bit bm s = true -> s <> fms -> s <> ds -> disk' !! Z.to_nat s = disk !! Z.to_nat s) /\
        Open fs disk' name = Ok (Some f) /\ FileLength (hdr f) = size /\ laid_out (hdr f) direct secs data)).
Proof.
  intros Hfs Hname Hs32 Hroom k n. split; [|split].
  - intros Hbad. destruct (decide (dir_map d !! k = None)) as [Hk|Hk].
    + destruct Hbad as [|Hno]; [done|]. by apply (Create_no_space fs disk fms ds bm d).
    + by apply (Create_exists fs disk fms ds bm d).
  - intros Hk Hsz Hfree. destruct (Create_succeeds fs disk fms ds bm d Hfs name Hname fuel size)
      as (disk' & bm' & d' & sec & Hrun & h & direct & secs & data & Hcr); try done.
    destruct (created_found fs disk fms ds bm d name Hname size disk' bm' d' sec h direct secs data _ Hcr) as (Hkeep & f & Hf); [set_solver|].
    destruct Hcr as (Hfs' & Hmap & Hal & _). by exists disk', bm', d', sec, direct, secs, data, f.
  - intros Hk Hsz [Hen Hsh]. destruct (Create_outcome fs disk fms ds bm d Hfs name Hname fuel size Hk Hroom Hsz Hen)
      as (sec & h & direct & secs & data & real & _ & _ & Hp & _ & Hfail & Hok). exists sec, direct, secs, data, real.
    split; [done|]. split; [done|]. intros Hin. destruct (Hok Hin) as (disk' & bm' & d' & Hrun & Hcr).
    assert (-1 ∈ direct ++ concat data) as Hgap.
    { assert (-1 ∈ direct ++ secs ++ concat data); [|set_solver].
      rewrite Hp. apply elem_of_app. right. apply elem_of_replicate. split; [done|]. unfold n in Hsh. lia. }
    split; [done|]. pose proof (al_nodup _ _ _ (proj1 (proj2 (proj2 Hcr)))) as [_ Hndr]%NoDup_cons.
    destruct (taken_real direct secs (concat data) real _ Hp Hndr Hin) as [_ Hgot].
    destruct (created_found fs disk fms ds bm d name Hname size disk' bm' d' sec h direct secs data _ Hcr Hgot) as (Hkeep & f & Hf).
    destruct Hcr as (Hfs' & Hmap & Hal & _). by exists disk', bm', d', f.
Qed.

(** A formatted disk. *)
Lemma formatted : exists fs disk fms ds bm d,
  FileSystem_new (H := zero_fresh) 1 true (demo_disk 1024 []) = Ok (fs, disk) /\
  fs_ok (H := zero_fresh) fs disk fms ds bm d /\ dir_map d = ∅ /\ tableSize d = 4 /\ ba_free bm = 1020.
Proof.
  destruct (demo_sectors_ok 1024 []) as [Hd Hl]; [constructor|].
  destruct (format_succeeds (H := zero_fresh) (H0 := zero_fresh_laws) 0 (demo_disk 1024 []) Hl Hd)
    as (fs & disk' & fms & ds & bm & d & Hrun & Hok & He & Ht & Hf & _).
  exists fs, disk', fms, ds, bm, d. split; [exact Hrun|]. split; [exact Hok|]. split; [exact He|]. split; [exact Ht|exact Hf].
Qed.

Lemma Create_correct_witness :
  exists fs disk disk' f, FileSystem_new (H := zero_fresh) 1 true (demo_disk 1024 []) = Ok (fs, disk) /\
    Create (H := zero_fresh) 1 fs disk [97] 700 = Ok (true, fs, disk') /\
    Open (H := zero_fresh) fs disk' [97] = Ok (Some f) /\ FileLength (hdr f) = 700.
Proof.
  destruct formatted as (fs & disk & fms & ds & bm & d & Hrun & Hok & He & Ht & Hf).
  destruct (Create_correct (H := zero_fresh) (H0 := zero_fresh_laws) 0 fs disk fms ds bm d [97] 700) as [_ [Hc _]].
  - exact Hok.
  - repeat constructor. lia.
  - unfold is_s32, two31. lia.
  - right. rewrite Ht. lia.
  - destruct Hc as (disk' & bm' & d' & sec & direct & secs & data & f & Hrun' & _ & _ & _ & _ & Hop & Hlen & _).
    + rewrite He. reflexivity.
    + vm_compute. split; discriminate.
    + rewrite Hf. vm_compute. discriminate.
    + exists fs, disk, disk', f. split; [exact Hrun|]. split; [exact Hrun'|]. split; [exact Hop|exact Hlen].
Defined.

(** [Remove] of a name that is not there gives FALSE and changes nothing. For a file of
    fewer than four sectors whose sectors are its own, it gives TRUE: the name is gone from
    the directory, exactly the header's sector and the data sectors are free again, the
    file system is in order and only the sectors of the free map and of the directory are
    written; afterwards [Open] does not find the name. *)
Theorem Remove_correct `{FreshLaws} fuel fs disk fms ds bm d name :
  fs_ok fs disk fms ds bm d -> Forall (fun c => c <> 0) name ->
  let k := take FileNameMaxLen name in
  (dir_map d !! k = None -> Remove (S fuel) fs disk name = Ok (false, fs, disk)) /\
  (forall sec h direct, dir_map d !! k = Some sec -> stored_at disk sec h direct [] [] ->
   0 <= FileHdr.numSectors h < 4 -> NoDup direct ->
   (forall x, x ∈ direct -> 0 <= x < 1024 /\ bm_bit bm x = true /\ ~ (x ∈ system_sectors fms ds)) ->
   (forall k' s, k' <> k -> dir_map d !! k' = Some s -> ~ (s ∈ direct ++ [sec])) ->
   exists disk' bm' d', Remove (S fuel) fs disk name = Ok (true, fs, disk') /\ fs_ok fs disk' fms ds bm' d' /\
     dir_map d' = delete k (dir_map d) /\ freed bm bm' (direct ++ [sec]) /\ changes disk disk' [fms; ds] /\
     Open fs disk' name = Ok None).
Proof.
  intros Hfs Hname k. split; [by apply (Remove_missing fs disk fms ds bm d)|].
  intros sec h direct Hk Hst Hn Hnd Hdir Hother.
  destruct (Remove_succeeds fs disk fms ds bm d Hfs name Hname fuel sec h direct)
    as (disk' & bm' & d' & Hrun & Hfs' & Hmap & Hfr & Hch); try done.
  exists disk', bm', d'. split_and!; try done.
  apply (Open_missing fs disk' fms ds bm' d'); try done. rewrite Hmap. apply lookup_delete_eq.
Qed.

Lemma Remove_correct_witness :
  exists fs disk disk' bm' bm'' direct sec,
    Create (H := zero_fresh) 1 fs disk [97; 98] 200 = Ok (true, fs, disk') /\
    (exists disk'', Remove (H := zero_fresh) 1 fs disk' [97; 98] = Ok (true, fs, disk'')) /\
    freed bm' bm'' (direct ++ [sec]).
Proof.
  destruct formatted as (fs & disk & fms & ds & bm & d & _ & Hok & He & Ht & Hf).
  pose proof zero_fresh_laws as Hzl.
  assert (Forall (fun c => c <> 0) [97; 98]) as Hname by (repeat constructor; lia).
  destruct (Create_succeeds (H := zero_fresh) fs disk fms ds bm d Hok [97; 98] Hname 0 200)
    as (disk' & bm' & d' & sec & Hrun & Hcr).
  { rewrite He. reflexivity. } { right. rewrite Ht. lia. } { vm_compute. split; discriminate. }
  { rewrite Hf. vm_compute. discriminate. }
  destruct (created_removable (H := zero_fresh) fs disk fms ds bm d [97; 98] 200 disk' bm' d' sec)
    as (h & direct & Hfs' & Hmap & _ & Hst & Hn & Hnd & Hdir & Hother);
    [exact Hok|rewrite He; reflexivity|exact Hcr|lia|reflexivity|].
  destruct (Remove_correct (H := zero_fresh) (H0 := zero_fresh_laws) 0 fs disk' fms ds bm' d' [97; 98])
    as [_ Hrem]; [exact Hfs'|exact Hname|].
  destruct (Hrem sec h direct) as (disk'' & bm'' & d'' & Hrun' & _ & _ & Hfr & _);
    [rewrite Hmap; apply lookup_insert_eq|exact Hst|exact Hn|exact Hnd|exact Hdir|exact Hother|].
  exists fs, disk, disk', bm', bm'', direct, sec. split; [exact Hrun|]. split; [exists disk''; exact Hrun'|exact Hfr].
Defined.

(** Creating a file of fewer than four sectors and removing it again leaves the directory
    and the free map as they were. *)
Theorem Create_Remove_roundtrip `{FreshLaws} fuel fs disk fms ds bm d name size :
  fs_ok fs disk fms ds bm d -> Forall (fun c => c <> 0) name ->
  Exists (fun e => inUse e = false) (table d) \/ tableSize d <= 4 ->
  dir_map d !! take FileNameMaxLen name = None -> 0 <= size <= 384 ->
  1 + divRoundUp size SectorSize <= ba_free bm ->
  exists disk1 disk2 bm2 d2, Create (S fuel) fs disk name size = Ok (true, fs, disk1) /\
    Remove (S fuel) fs disk1 name = Ok (true, fs, disk2) /\ fs_ok fs disk2 fms ds bm2 d2 /\
    dir_map d2 = dir_map d /\ (forall j, 0 <= j -> bm_bit bm2 j = bm_bit bm j).
Proof.
  intros Hfs Hname Hroom Hk Hsz Hfree.
  pose proof (divRoundUp_bounds size 128 ltac:(lia) ltac:(lia)) as Hdr. change SectorSize with 128 in *.
  destruct (Create_succeeds fs disk fms ds bm d Hfs name Hname fuel size) as (disk1 & bm1 & d1 & sec & Hrun & Hcr); try done.
  { change MaxFileSize with 103680. lia. }
  { change SectorSize with 128. unfold sectors_needed. rewrite Z.max_l, blocks_zero by lia. lia. }
  destruct (created_removable fs disk fms ds bm d name size disk1 bm1 d1 sec)
    as (h & direct & Hfs1 & Hmap & Hal & Hst & Hn & Hnd & Hdir & Hother);
    try done; [lia|change SectorSize with 128; lia|].
  destruct (Remove_succeeds fs disk1 fms ds bm1 d1 Hfs1 name Hname fuel sec h direct)
    as (disk2 & bm2 & d2 & Hrun2 & Hfs2 & Hmap2 & (_ & _ & Hu2) & _); try done; [by rewrite Hmap, lookup_insert_eq|].
  exists disk1, disk2, bm2, d2. split_and!; try done.
  - rewrite Hmap2, Hmap. by rewrite delete_insert_id.
  - intros j Hj. pose proof (al_used _ _ _ Hal j Hj) as Hu1. simpl in Hu1, Hu2. rewrite Hu2, Hu1 by done.
    destruct (decide (j ∈ sec :: direct)) as [Hin|Hnin].
    + rewrite (bool_decide_eq_true_2 (j ∈ direct ++ [sec])) by set_solver.
      destruct (al_got _ _ _ Hal j Hin) as [_ Hb]. simpl in Hb. by rewrite Hb.
    + rewrite (bool_decide_eq_false_2 (j ∈ direct ++ [sec])) by set_solver.
      by rewrite (bool_decide_eq_false_2 (j ∈ sec :: direct)).
Qed.

Lemma Create_Remove_roundtrip_witness :
  exists fs disk disk1 disk2, Create (H := zero_fresh) 1 fs disk [97] 300 = Ok (true, fs, disk1) /\
    Remove (H := zero_fresh) 1 fs disk1 [97] = Ok (true, fs, disk2).
Proof.
  destruct formatted as (fs & disk & fms & ds & bm & d & _ & Hok & He & Ht & Hf).
  destruct (Create_Remove_roundtrip (H := zero_fresh) (H0 := zero_fresh_laws) 0 fs disk fms ds bm d [97] 300)
    as (disk1 & disk2 & bm2 & d2 & Hc & Hr & _).
  - exact Hok.
  - repeat constructor. lia.
  - right. rewrite Ht. lia.
  - rewrite He. reflexivity.
  - lia.
  - rewrite Hf. vm_compute. discriminate.
  - exists fs, disk, disk1, disk2. split; [exact Hc|exact Hr].
Defined.

(** The life of a file of fewer than 35 sectors: [Create] with its size, [Open], one
    [WriteAt] of the whole contents, and after another [Open] a [ReadAt] that returns
    them. The file system is in order at the end. *)
Theorem Create_write_read `{FreshLaws} fuel fs disk fms ds bm d name contents :
  fs_ok fs disk fms ds bm d -> Forall (fun c => c <> 0) name ->
  Exists (fun e => inUse e = false) (table d) \/ tableSize d <= 4 ->
  dir_map d !! take FileNameMaxLen name = None ->
  let size := Z.of_nat (length contents) in
  0 < size <= 34 * 128 -> 1 + sectors_needed (divRoundUp size SectorSize) <= ba_free bm ->
  exists disk1 f1 disk2 f2 bm' d',
    Create (S fuel) fs disk name size = Ok (true, fs, disk1) /\ Open fs disk1 name = Ok (Some f1) /\
    WriteAt (S fuel) f1 disk1 contents size 0 = Ok (size, f1, disk2) /\ Open fs disk2 name = Ok (Some f2) /\
    ReadAt f2 disk2 size 0 = Ok (size, contents) /\ fs_ok fs disk2 fms ds bm' d'.
Proof.
  intros Hfs Hname Hroom Hk size Hsz Hfree.
  destruct (create_open fuel fs disk fms ds bm d name size) as (disk1 & f1 & ss & bm' & d' & Hrun & Hfs1 & Hop1 & Hlen1 & Hf1 & Hlater); try done; [lia|].
  pose proof (fo_bounds _ _ _ Hf1) as [Hb1 _]. rewrite Hlen1 in Hb1. pose proof (fk_disk _ _ _ _ _ _ Hfs1) as Hd1.
  destruct (WriteAt_inside fuel f1 disk1 ss contents size 0) as (disk2 & Hw & Hch2 & Hfb); try done; try lia.
  destruct (Hlater disk2 Hch2) as (Hfs2 & f2 & Hop2 & Hlen2 & Hf2).
  exists disk1, f1, disk2, f2, bm', d'. split_and!; try done.
  rewrite (ReadAt_ok f2 disk2 ss) by (apply (fo_mapped _ _ _ Hf2) || apply Hch2 || (rewrite ?Hlen2; lia)).
  rewrite Hfb, (take_ge contents) by lia. do 2 f_equal. replace (Z.to_nat size) with (length contents) by lia.
  apply (splice_read _ 0). rewrite (file_bytes_length (hdr f1)) by (done || apply (fo_mapped _ _ _ Hf1)). lia.
Qed.

Lemma Create_write_read_witness :
  exists fs disk disk1 f1 disk2 f2,
    Create (H := zero_fresh) 1 fs disk [97] 600 = Ok (true, fs, disk1) /\
    WriteAt (H := zero_fresh) 1 f1 disk1 (replicate 600 7) 600 0 = Ok (600, f1, disk2) /\
    Open (H := zero_fresh) fs disk2 [97] = Ok (Some f2) /\
    ReadAt (H := zero_fresh) f2 disk2 600 0 = Ok (600, replicate 600 7).
Proof.
  destruct formatted as (fs & disk & fms & ds & bm & d & _ & Hok & He & Ht & Hf).
  destruct (Create_write_read (H := zero_fresh) (H0 := zero_fresh_laws) 0 fs disk fms ds bm d [97] (replicate 600 7))
    as (disk1 & f1 & disk2 & f2 & bm' & d' & Hc & _ & Hw & Ho & Hr & _).
  - exact Hok.
  - repeat constructor. lia.
  - right. rewrite Ht. lia.
  - rewrite He. reflexivity.
  - split; [reflexivity|]. vm_compute. discriminate.
  - rewrite Hf. vm_compute. discriminate.
  - exists fs, disk, disk1, f1, disk2, f2. split; [exact Hc|]. split; [exact Hw|]. split; [exact Ho|exact Hr].
Defined.
