(* ===== verification/AddrSpace.v ===== *)
(** * userprog/addrspace.cc and userprog/memoryManager.cc: address spaces

    The build is the one without [VM] and with [FILESYS]: a page table entry holds a frame
    of main memory, and programs are loaded from Nachos files. [umem] is what address
    spaces share: main memory, the bitmap of the frames and the global [diskBuffer]. The
    process identifier and the [PCB], which the constructor also creates, are in
    Process.v. The theorems see an address space as the sequence of its bytes, the frames
    of its pages one after the other. *)

From stdpp Require Import prelude numbers list.
From S2P Require Import Prelude Params BitMap Machine FileHdr OpenFile.

Open Scope Z_scope.

Definition UserStackSize : Z := 1024.
Definition NOFFMAGIC : Z := 0xbadfad.

Record Segment := mkSegment { seg_virtualAddr : Z; seg_inFileAddr : Z; seg_size : Z }.
Record NoffHeader := mkNoff { noffMagic : Z; noff_code : Segment; noff_initData : Segment; noff_uninitData : Segment }.

Record AddrSpace := mkSpace { sp_numPages : Z; sp_pageTable : list TranslationEntry }.

(** [WordToHost] on a little endian host. *)
Definition WordToHost (word : Z) : Z := u32 word.

Definition SwapSegment (s : Segment) : Segment :=
  mkSegment (s32 (WordToHost (seg_virtualAddr s))) (s32 (WordToHost (seg_inFileAddr s))) (s32 (WordToHost (seg_size s))).

Definition SwapHeader (n : NoffHeader) : NoffHeader :=
  mkNoff (s32 (WordToHost (noffMagic n))) (SwapSegment (noff_code n)) (SwapSegment (noff_initData n))
    (SwapSegment (noff_uninitData n)).

(** The header in memory is ten integers. *)
Definition noff_of_words (ws : list Z) : option NoffHeader :=
  match ws with
  | [m; cv; cf; cs; dv; df; ds; uv; uf; us] =>
      Some (mkNoff m (mkSegment cv cf cs) (mkSegment dv df ds) (mkSegment uv uf us))
  | _ => None
  end.

Section addrspace.
Context {M : Type} `{BitAllocator M} `{Fresh}.

Record umem := mkUmem { u_memory : list Z; u_frames : M; u_diskBuffer : list Z }.

Definition set_memory (u : umem) (m : list Z) : umem := mkUmem m (u_frames u) (u_diskBuffer u).
Definition set_frames (u : umem) (m : M) : umem := mkUmem (u_memory u) m (u_diskBuffer u).
Definition set_buffer (u : umem) (b : list Z) : umem := mkUmem (u_memory u) (u_frames u) b.

(** ** userprog/memoryManager.cc *)

Definition memMgr_getPage (u : umem) : outcome (Z * umem) :=
  '(i, m) ← ba_find (u_frames u); Ok (i, set_frames u m).
Definition memMgr_clearPage (u : umem) (i : Z) : outcome umem :=
  m ← ba_clear (u_frames u) i; Ok (set_frames u m).
Definition memMgr_getFreePageCount (u : umem) : outcome Z := ba_numClear (u_frames u).

(** ** userprog/addrspace.cc *)

(** [None] is the result FALSE; the comparison of [vPageNum] is unsigned. *)
Definition AddrSpace_Translate (sp : AddrSpace) (virtAddr : Z) : outcome (option Z) :=
  let vPageNum := cdiv virtAddr PageSize in
  let offset := cmod virtAddr PageSize in
  if sp_numPages sp <=? u32 vPageNum then Ok None
  else
    e ← arr_get (sp_pageTable sp) vPageNum;
    Ok (Some (s32 (physicalPage e * PageSize + offset))).

(** The loop of [ReadFile]; [copySize] keeps its value from one iteration to the next. *)
Fixpoint ReadFile_loop (fuel : nat) (sp : AddrSpace) (file : OpenFile) (disk : list (list Z)) (u : umem)
    (copySize vAddr size fileAddr : Z) : outcome (Z * umem) :=
  match fuel with
  | O => NoFuel
  | S fuel =>
      if size <=? 0 then Ok (1, u)
      else
        let copySize := if size <? PageSize then size else copySize in
        '(_, data) ← ReadAt file disk copySize fileAddr;
        b ← put_bytes (u_diskBuffer u) 0 data;
        let u := set_buffer u b in
        t ← AddrSpace_Translate sp vAddr;
        match t with
        | None => Ok (-1, u)
        | Some pAddr =>
            bytes ← get_bytes (u_diskBuffer u) 0 copySize;
            m ← put_bytes (u_memory u) pAddr bytes;
            ReadFile_loop fuel sp file disk (set_memory u m) copySize (s32 (vAddr + copySize))
              (size - copySize) (s32 (fileAddr + copySize))
        end
  end.

Definition ReadFile (sp : AddrSpace) (file : OpenFile) (disk : list (list Z)) (u : umem) (vAddr size fileAddr : Z)
    : outcome (Z * umem) :=
  ReadFile_loop (S (Z.to_nat size)) sp file disk u PageSize vAddr size fileAddr.

(** [for (i = 0; i < numPages; i++)]: a frame and an entry for each page. *)
Fixpoint new_pages (n : nat) (i : Z) (u : umem) : outcome (list TranslationEntry * umem) :=
  match n with
  | O => Ok ([], u)
  | S n =>
      '(pageNum, u) ← memMgr_getPage u;
      ASSERT (0 <=? pageNum);;
      '(t, u) ← new_pages n (i + 1) u;
      Ok (mkEntry i pageNum true false false false :: t, u)
  end.

Definition load_segment (sp : AddrSpace) (file : OpenFile) (disk : list (list Z)) (u : umem) (s : Segment)
    : outcome umem :=
  if 0 <? seg_size s then
    '(_, u) ← ReadFile sp file disk u (seg_virtualAddr s) (seg_size s) (seg_inFileAddr s);
    Ok u
  else Ok u.

(** The constructor, but for the [PCB]. *)
Definition AddrSpace_new (executable : OpenFile) (disk : list (list Z)) (u : umem) : outcome (AddrSpace * umem) :=
  '(_, data) ← ReadAt executable disk 40 0;
  bytes ← put_bytes (fresh_bytes 40) 0 data;
  noffH ← deref (noff_of_words (map s32 (bytes_to_words 10 bytes)));
  let noffH := if negb (noffMagic noffH =? NOFFMAGIC) && (WordToHost (noffMagic noffH) =? NOFFMAGIC)
               then SwapHeader noffH else noffH in
  ASSERT (noffMagic noffH =? NOFFMAGIC);;
  let size := u32 (seg_size (noff_code noffH) + seg_size (noff_initData noffH) + seg_size (noff_uninitData noffH)
                   + UserStackSize) in
  let numPages := divRoundUp size PageSize in
  free ← memMgr_getFreePageCount u;
  ASSERT (numPages <=? u32 free);;
  '(t, u) ← new_pages (Z.to_nat numPages) 0 u;
  let sp := mkSpace numPages t in
  u ← load_segment sp executable disk u (noff_code noffH);
  u ← load_segment sp executable disk u (noff_initData noffH);
  Ok (sp, u).

(** The destructor, but for the [PCB]. *)
Fixpoint clear_pages (t : list TranslationEntry) (u : umem) : outcome umem :=
  match t with
  | [] => Ok u
  | e :: t => u ← memMgr_clearPage u (physicalPage e); clear_pages t u
  end.

Definition AddrSpace_delete (sp : AddrSpace) (u : umem) : outcome umem :=
  clear_pages (take (Z.to_nat (sp_numPages sp)) (sp_pageTable sp)) u.

Fixpoint copy_pages (n : nat) (i : Z) (src : list TranslationEntry) (u : umem)
    : outcome (list TranslationEntry * umem) :=
  match n with
  | O => Ok ([], u)
  | S n =>
      '(pageNum, u) ← memMgr_getPage u;
      ASSERT (0 <=? pageNum);;
      e ← arr_get src i;
      data ← get_bytes (u_memory u) (physicalPage e * PageSize) PageSize;
      m ← put_bytes (u_memory u) (pageNum * PageSize) data;
      '(t, u) ← copy_pages n (i + 1) src (set_memory u m);
      Ok (mkEntry i pageNum true false false false :: t, u)
  end.

Definition CopyAddrSpace (sp : AddrSpace) (u : umem) : outcome (AddrSpace * umem) :=
  '(t, u) ← copy_pages (Z.to_nat (sp_numPages sp)) 0 (sp_pageTable sp) u;
  Ok (mkSpace (sp_numPages sp) t, u).
End addrspace.
Arguments umem : clear implicits.

Fixpoint zero_registers (n : nat) (i : Z) (m : Machine) : outcome Machine :=
  match n with
  | O => Ok m
  | S n => m ← WriteRegister m i 0; zero_registers n (i + 1) m
  end.

Definition InitRegisters (sp : AddrSpace) (m : Machine) : outcome Machine :=
  m ← zero_registers (Z.to_nat NumTotalRegs) 0 m;
  m ← WriteRegister m PCReg 0;
  m ← WriteRegister m NextPCReg 4;
  WriteRegister m StackReg (s32 (sp_numPages sp * PageSize - 16)).

Definition AddrSpace_RestoreState (sp : AddrSpace) (m : Machine) : Machine :=
  mkMachine (mainMemory m) (registers m) (tlb m) (Some (sp_pageTable sp)) (sp_numPages sp).

(** ** The bytes of an address space *)

Definition frame_bytes (mem : list Z) (f : Z) : list Z := page mem (Z.to_nat f).

Definition space_bytes (mem : list Z) (frames : list Z) : list Z := concat (frame_bytes mem <$> frames).

(** The pages of the space are in the frames [frames]. *)
Record space_on (sp : AddrSpace) (frames : list Z) : Prop := {
  so_pages : sp_numPages sp = Z.of_nat (length frames);
  so_table : physicalPage <$> sp_pageTable sp = frames;
  so_valid : Forall (fun e => valid e = true /\ readOnly e = false) (sp_pageTable sp);
  so_range : Forall (fun f => 0 <= f < 32) frames;
  so_nodup : NoDup frames }.

Definition memory_ok (mem : list Z) : Prop := length mem = Z.to_nat MemorySize.

Section bytes.
Context (mem : list Z) (frames : list Z).
Hypotheses (Hmem : memory_ok mem) (Hrange : Forall (fun f => 0 <= f < 32) frames).

Lemma space_pieces : pieces 128 (frame_bytes mem <$> frames).
Proof.
  apply Forall_fmap. eapply Forall_impl; [exact Hrange|]. intros f Hf. simpl in Hf. unfold memory_ok in Hmem.
  change (Z.to_nat MemorySize) with 4096%nat in Hmem. apply page_length. lia.
Qed.

Lemma space_bytes_length : length (space_bytes mem frames) = (128 * length frames)%nat.
Proof. unfold space_bytes. rewrite (pieces_length 128) by apply space_pieces. by rewrite length_fmap. Qed.

Lemma space_bytes_lookup i : space_bytes mem frames !! i =
  (frames !! (i / 128)%nat ≫= fun f => mem !! (128 * Z.to_nat f + i mod 128)%nat).
Proof.
  unfold space_bytes. rewrite (pieces_lookup 128) by (lia || apply space_pieces). rewrite list_lookup_fmap.
  destruct (frames !! (i / 128)%nat) as [f|]; [|done]. cbn [fmap option_fmap option_map mbind option_bind].
  apply page_lookup. apply Nat.mod_upper_bound. lia.
Qed.
End bytes.

(** Storing within a page of the space changes that part of the space and no other
    frame. *)
Lemma space_store mem frames k f o data :
  memory_ok mem -> Forall (fun f => 0 <= f < 32) frames -> NoDup frames -> frames !! k = Some f ->
  (o + length data <= 128)%nat ->
  let mem' := splice mem (128 * Z.to_nat f + o) data in
  memory_ok mem' /\ space_bytes mem' frames = splice (space_bytes mem frames) (128 * k + o) data /\
  forall g, 0 <= g < 32 -> g <> f -> frame_bytes mem' g = frame_bytes mem g.
Proof.
  intros Hmem Hr Hnd Hk Ho mem'. pose proof (Forall_lookup_1 _ _ _ _ Hr Hk) as Hf. simpl in Hf.
  pose proof Hmem as Hl. unfold memory_ok in Hl. change (Z.to_nat MemorySize) with 4096%nat in Hl.
  assert (memory_ok mem') as Hmem' by (unfold memory_ok, mem'; rewrite splice_length; (done || lia)).
  pose proof (lookup_lt_Some _ _ _ Hk) as Hlt. split; [done|]. split.
  - apply list_eq. intros i. rewrite splice_lookup by (rewrite space_bytes_length by done; lia).
    rewrite !space_bytes_lookup by done. pose proof (Nat.div_mod_eq i 128) as Hdm.
    pose proof (Nat.mod_upper_bound i 128 ltac:(lia)) as Hmb.
    destruct (frames !! (i / 128)%nat) as [g|] eqn:Hg; cbn [mbind option_bind].
    + pose proof (Forall_lookup_1 _ _ _ _ Hr Hg) as Hgr. simpl in Hgr. unfold mem'. rewrite splice_lookup by lia.
      destruct (decide (i / 128 = k)%nat) as [Heq|Hne].
      * assert (g = f) as -> by congruence. rewrite <- Heq.
        destruct (decide (128 * Z.to_nat f + o <= 128 * Z.to_nat f + i mod 128 < 128 * Z.to_nat f + o + length data)%nat).
        -- rewrite decide_True by lia. f_equal. lia.
        -- rewrite decide_False by lia. done.
      * assert (Z.to_nat g <> Z.to_nat f) as Hgf.
        { intros Heq. apply Hne. apply (NoDup_lookup frames _ _ f Hnd); [|done]. rewrite Hg. f_equal. lia. }
        rewrite !decide_False by lia. done.
    + apply lookup_ge_None in Hg. rewrite decide_False by lia. done.
  - intros g Hg Hne. unfold frame_bytes. apply list_eq. intros j.
    destruct (decide (j < 128)%nat) as [Hj|Hj].
    + rewrite !page_lookup by done. unfold mem'. rewrite splice_lookup by lia. by rewrite decide_False by lia.
    + rewrite !lookup_ge_None_2; [done|rewrite page_length; lia|rewrite page_length; [lia|]].
      unfold mem'. rewrite splice_length; lia.
Qed.

Lemma splice_app V a d1 d2 : (a + length d1 + length d2 <= length V)%nat ->
  splice (splice V a d1) (a + length d1) d2 = splice V a (d1 ++ d2).
Proof.
  intros Hl. apply list_eq. intros i. rewrite !splice_lookup by (rewrite ?splice_length, ?length_app; lia).
  rewrite length_app. destruct (decide (a + length d1 <= i < a + length d1 + length d2)%nat).
  - rewrite decide_True by lia. rewrite lookup_app_r by lia. f_equal. lia.
  - destruct (decide (a <= i < a + length d1)%nat).
    + rewrite decide_True by lia. by rewrite lookup_app_l by lia.
    + by rewrite decide_False by lia.
Qed.

(** Copying [n] bytes in two pieces of [c] and [n - c]. *)
Lemma splice_pieces V F a b n c :
  0 <= a -> 0 <= b -> 0 <= c <= n -> b + n <= Z.of_nat (length F) -> a + n <= Z.of_nat (length V) ->
  splice (splice V (Z.to_nat a) (take (Z.to_nat c) (drop (Z.to_nat b) F))) (Z.to_nat (a + c))
    (take (Z.to_nat (n - c)) (drop (Z.to_nat (b + c)) F)) =
  splice V (Z.to_nat a) (take (Z.to_nat n) (drop (Z.to_nat b) F)).
Proof.
  intros Ha Hb Hc HF HV. set (d1 := take (Z.to_nat c) (drop (Z.to_nat b) F)).
  assert (length d1 = Z.to_nat c) as Hd1 by (unfold d1; rewrite length_take, length_drop; lia).
  replace (Z.to_nat (a + c)) with (Z.to_nat a + length d1)%nat by lia.
  rewrite splice_app by (rewrite length_take, length_drop; lia).
  f_equal. replace (Z.to_nat n) with (Z.to_nat c + Z.to_nat (n - c))%nat by lia.
  rewrite <- take_take_drop, drop_drop. unfold d1. do 3 f_equal. lia.
Qed.

(** ** Translation *)

Lemma so_length sp frames : space_on sp frames -> (length frames <= 32)%nat.
Proof.
  intros [_ _ _ Hr Hnd]. change 32%nat with (length (seqZ 0 32)). apply submseteq_length, NoDup_submseteq; [done|].
  intros f Hf. apply elem_of_seqZ. rewrite Forall_forall in Hr. specialize (Hr f Hf). lia.
Qed.

Lemma Translate_in sp frames va : space_on sp frames -> 0 <= va < 128 * Z.of_nat (length frames) ->
  exists f, frames !! Z.to_nat (va `div` 128) = Some f /\ 0 <= f < 32 /\
    AddrSpace_Translate sp va = Ok (Some (128 * f + va `mod` 128)).
Proof.
  intros Hsp Hva. pose proof Hsp as [Hp Ht _ Hr _]. destruct (lookup_lt_is_Some_2 frames (Z.to_nat (va `div` 128))) as [f Hf]; [dlia|].
  pose proof (Forall_lookup_1 _ _ _ _ Hr Hf) as Hfr. simpl in Hfr. exists f. split; [done|]. split; [done|].
  pose proof (Forall_lookup_1 _ _ _ _ Hr Hf). rewrite <- Ht in Hf. rewrite list_lookup_fmap in Hf.
  destruct (sp_pageTable sp !! Z.to_nat (va `div` 128)) as [e|] eqn:He; [|done]. injection Hf as Hf.
  assert (Z.of_nat (length frames) <= 32) as Hlen.
  { pose proof (so_length sp frames Hsp). lia. }
  unfold AddrSpace_Translate. change PageSize with 128. rewrite cdiv_nonneg, cmod_nonneg by lia.
  rewrite u32_small by (unfold is_u32, two32; dlia). destruct (Z.leb_spec (sp_numPages sp) (va `div` 128)); [dlia|].
  rewrite (proj2 (arr_get_ok _ _ e)) by (split; [dlia|done]). cbn [mbind outcome_bind]. rewrite Hf.
  rewrite s32_small by (unfold is_s32, two31; dlia). do 2 f_equal. dlia.
Qed.

(** ** Loading from a file *)

Section load.
Context {M : Type} `{BitAllocator M} `{FreshLaws}.
Implicit Types u : umem M.

(** One iteration of [ReadFile] that stays within a page: [c] bytes to offset [o] of page [k]. *)
Lemma ReadFile_chunk sp frames file disk ss u va c fa :
  space_on sp frames -> memory_ok (u_memory u) -> length (u_diskBuffer u) = 128%nat ->
  file_on file disk ss -> disk_ok disk -> 0 <= fa -> 0 < c <= 128 -> fa + c <= FileLength (hdr file) ->
  0 <= va -> va `mod` 128 + c <= 128 -> va + c <= 128 * Z.of_nat (length frames) ->
  let data := take (Z.to_nat c) (drop (Z.to_nat fa) (file_bytes disk ss)) in
  exists buffer mem' pa, length buffer = 128%nat /\ length data = Z.to_nat c /\
    ReadAt file disk c fa = Ok (c, data) /\ put_bytes (u_diskBuffer u) 0 data = Ok buffer /\
    AddrSpace_Translate sp va = Ok (Some pa) /\ get_bytes buffer 0 c = Ok data /\
    put_bytes (u_memory u) pa data = Ok mem' /\ memory_ok mem' /\
    space_bytes mem' frames = splice (space_bytes (u_memory u) frames) (Z.to_nat va) data /\
    forall g, 0 <= g < 32 -> ~ (g ∈ frames) -> frame_bytes mem' g = frame_bytes (u_memory u) g.
Proof.
  intros Hsp Hmem Hbuf Hf Hd Hfa Hc Hlen Hva Hpage Hin data. pose proof (fo_bounds _ _ _ Hf) as [Hb _].
  pose proof (fo_mapped _ _ _ Hf) as Hm. pose proof (file_bytes_length (hdr file) disk ss Hm Hd) as Hfl.
  assert (length data = Z.to_nat c) as Hdl by (unfold data; rewrite length_take, length_drop; lia).
  destruct (Translate_in sp frames va Hsp) as (f & Hk & Hfr & Ht); [lia|].
  destruct (space_store (u_memory u) frames (Z.to_nat (va `div` 128)) f (Z.to_nat (va `mod` 128)) data)
    as (Hmem' & Hsb & Hother); try done; [apply Hsp|apply Hsp|dlia|].
  exists (splice (u_diskBuffer u) 0 data). eexists _, _.
  split; [by rewrite splice_length by lia|]. split; [done|].
  split; [apply ReadAt_ok; (done || lia)|]. split; [apply put_bytes_in; lia|]. split; [exact Ht|].
  split. { rewrite get_bytes_in by (rewrite ?splice_length; lia). f_equal. change (Z.to_nat 0) with 0%nat.
           rewrite <- Hdl at 1. apply (splice_read (u_diskBuffer u) 0 data). lia. }
  unfold memory_ok in Hmem. change (Z.to_nat MemorySize) with 4096%nat in Hmem.
  split. { apply put_bytes_in; dlia. }
  replace (Z.to_nat (128 * f + va `mod` 128)) with (128 * Z.to_nat f + Z.to_nat (va `mod` 128))%nat by dlia.
  split; [done|]. split; [rewrite Hsb; f_equal; dlia|].
  intros g Hg Hnin. apply Hother; [done|]. intros ->. apply Hnin. by eapply list_elem_of_lookup_2.
Qed.

(** [ReadFile] to the beginning of a page. *)
Lemma ReadFile_loop_ok sp frames file disk ss fuel : forall u va size fa,
  space_on sp frames -> memory_ok (u_memory u) -> length (u_diskBuffer u) = 128%nat ->
  file_on file disk ss -> disk_ok disk -> 0 <= fa -> 0 <= size < Z.of_nat fuel -> fa + size <= FileLength (hdr file) ->
  0 <= va -> va `mod` 128 = 0 -> va + size <= 128 * Z.of_nat (length frames) ->
  exists u', ReadFile_loop fuel sp file disk u PageSize va size fa = Ok (1, u') /\
    memory_ok (u_memory u') /\ length (u_diskBuffer u') = 128%nat /\ u_frames u' = u_frames u /\
    space_bytes (u_memory u') frames =
      splice (space_bytes (u_memory u) frames) (Z.to_nat va)
        (take (Z.to_nat size) (drop (Z.to_nat fa) (file_bytes disk ss))) /\
    forall g, 0 <= g < 32 -> ~ (g ∈ frames) -> frame_bytes (u_memory u') g = frame_bytes (u_memory u) g.
Proof.
  induction fuel as [|fuel IH]; intros u va size fa Hsp Hmem Hbuf Hf Hd Hfa Hsz Hlen Hva Hal Hin; [lia|].
  pose proof (fo_bounds _ _ _ Hf) as [Hb Hsz31]. unfold two31 in Hsz31. pose proof (so_length _ _ Hsp) as Hl32.
  cbn [ReadFile_loop]. destruct (Z.leb_spec size 0) as [Hz|Hpos].
  { exists u. assert (size = 0) as -> by lia. cbn [Z.to_nat take]. split_and!; try done.
    change (take (Z.to_nat 0) ?l) with (@nil Z). by rewrite splice_nil. }
  change PageSize with 128 in *. set (c := if size <? 128 then size else 128).
  assert (0 < c <= 128 /\ c <= size /\ (c = size \/ c = 128)) as (Hc & Hcs & Hcase)
    by (unfold c; destruct (Z.ltb_spec size 128); lia).
  destruct (ReadFile_chunk sp frames file disk ss u va c fa) as (buffer & mem' & pa & Hbl & Hdl & Hr & Hpb & Ht & Hgb & Hpm
    & Hmem' & Hsb & Hother); try done; try lia.
  rewrite Hr. cbn [mbind outcome_bind]. rewrite Hpb. cbn [mbind outcome_bind]. rewrite Ht. cbn [mbind outcome_bind].
  cbn [u_diskBuffer set_buffer]. rewrite Hgb. cbn [mbind outcome_bind u_memory set_buffer]. rewrite Hpm. cbn [mbind outcome_bind].
  rewrite !s32_small by (unfold is_s32, two31; lia). set (u1 := set_memory (set_buffer u buffer) mem').
  set (d1 := take (Z.to_nat c) (drop (Z.to_nat fa) (file_bytes disk ss))) in *.
  pose proof (file_bytes_length (hdr file) disk ss (fo_mapped _ _ _ Hf) Hd) as Hfl.
  destruct (decide (size = c)) as [Heq|Hne].
  { replace (size - c) with 0 by lia. destruct fuel; [lia|]. cbn [ReadFile_loop]. change (0 <=? 0) with true. cbv iota.
    exists u1. rewrite Heq. by split_and!. }
  assert (c = 128) as Hc128 by lia.
  destruct (IH u1 (va + c) (size - c) (fa + c)) as (u' & Hrun & Hm' & Hb' & Hfr' & Hsb' & Ho');
    try done; try lia; [dlia|].
  exists u'. split; [by rewrite Hc128 in Hrun |- *|]. split; [done|]. split; [done|]. split; [done|]. split.
  - rewrite Hsb'. cbn [u1 u_memory set_memory]. rewrite Hsb.
    apply splice_pieces; rewrite ?space_bytes_length by (done || apply Hsp); lia.
  - intros g Hg Hnin. rewrite Ho' by done. cbn [u1 u_memory set_memory]. by apply Hother.
Qed.
End load.

(** ** Frames *)

Section frames.
Context {M : Type} `{BitAllocatorLaws M}.
Implicit Types u : umem M.

(** The entries that the constructor makes for the frames [fs], from page [i] on. *)
Definition entries_for (i : Z) (fs : list Z) : list TranslationEntry :=
  imap (fun k f => mkEntry (i + Z.of_nat k) f true false false false) fs.

Lemma entries_for_cons i f fs :
  entries_for i (f :: fs) = mkEntry i f true false false false :: entries_for (i + 1) fs.
Proof.
  unfold entries_for. rewrite imap_cons. f_equal; [f_equal; lia|]. apply imap_ext. intros k x _. simpl. f_equal. lia.
Qed.

Lemma entries_for_frames i fs : physicalPage <$> entries_for i fs = fs.
Proof. revert i. induction fs as [|f fs IH]; intros i; [done|]. rewrite entries_for_cons, fmap_cons, IH. done. Qed.

Lemma entries_for_valid i fs : Forall (fun e => valid e = true /\ readOnly e = false) (entries_for i fs).
Proof. revert i. induction fs as [|f fs IH]; intros i; [constructor|]. rewrite entries_for_cons. by constructor. Qed.

Lemma new_pages_ok (m0 : M) n : forall i u got,
  allocated m0 (u_frames u) got -> Z.of_nat n <= ba_free (u_frames u) ->
  exists m' fs, new_pages n i u = Ok (entries_for i fs, set_frames u m') /\ length fs = n /\
    allocated m0 m' (got ++ fs).
Proof.
  induction n as [|n IH]; intros i u got Hal Hfree; cbn [new_pages].
  { exists (u_frames u), []. rewrite app_nil_r. split_and!; try done. by destruct u. }
  destruct (allocated_find m0 (u_frames u) got Hal) as (f & m1 & Hf & Hal1 & Hr); [lia|].
  unfold memMgr_getPage. rewrite Hf. cbn [mbind outcome_bind]. rewrite ASSERT_true by lia. cbn [mbind outcome_bind].
  pose proof (al_free _ _ _ Hal) as Hf0. pose proof (al_free _ _ _ Hal1) as Hf1. rewrite length_app in Hf1. simpl in Hf1.
  destruct (IH (i + 1) (set_frames u m1) (got ++ [f])) as (m' & fs & -> & Hl & Hal'); [done|simpl; lia|].
  cbn [mbind outcome_bind]. exists m', (f :: fs). rewrite <- app_assoc in Hal'.
  split; [by rewrite entries_for_cons|]. split; [simpl; lia|done].
Qed.

Lemma allocated_fresh (m0 m : M) got f : allocated m0 m got -> f ∈ got -> ba_used m0 f = false.
Proof. intros Hal Hf. by apply (al_got _ _ _ Hal). Qed.

(** One page of [CopyAddrSpace]. *)
Lemma copy_one mem p f : memory_ok mem -> 0 <= p < 32 -> 0 <= f < 32 -> p <> f ->
  exists mem', get_bytes mem (p * PageSize) PageSize = Ok (frame_bytes mem p) /\
    put_bytes mem (f * PageSize) (frame_bytes mem p) = Ok mem' /\ memory_ok mem' /\
    frame_bytes mem' f = frame_bytes mem p /\
    forall g, 0 <= g -> g <> f -> frame_bytes mem' g = frame_bytes mem g.
Proof.
  intros Hm Hp Hf Hne. change PageSize with 128. unfold memory_ok in *. change (Z.to_nat MemorySize) with 4096%nat in *.
  assert (length (frame_bytes mem p) = 128%nat) as Hl by (apply page_length; lia).
  rewrite get_bytes_in by lia. rewrite put_bytes_in by lia.
  replace (Z.to_nat (f * 128)) with (128 * Z.to_nat f)%nat by lia.
  eexists. split.
  { unfold frame_bytes, page. change (Z.to_nat 128) with 128%nat. do 3 f_equal. lia. }
  split; [done|]. assert (splice mem (128 * Z.to_nat f) (frame_bytes mem p) = put_page mem (Z.to_nat f) (frame_bytes mem p)) as ->.
  { unfold splice, put_page. by rewrite Hl. }
  split; [rewrite put_page_length; (done || lia)|]. split; [apply put_page_same; (done || lia)|].
  intros g Hg Hgf. unfold frame_bytes at 1. rewrite put_page_other; (done || lia).
Qed.

Lemma space_bytes_ext mem mem' fs : (forall f, f ∈ fs -> frame_bytes mem' f = frame_bytes mem f) ->
  space_bytes mem' fs = space_bytes mem fs.
Proof.
  intros Hf. unfold space_bytes. f_equal. apply list_fmap_ext. intros i f Hi. apply Hf. by eapply list_elem_of_lookup_2.
Qed.

Lemma copy_pages_ok (m0 : M) src pf n : forall i u got,
  physicalPage <$> src = pf -> (i + n)%nat = length pf -> Forall (fun p => 0 <= p < 32) pf ->
  (forall p, p ∈ pf -> ba_used m0 p = true) -> ba_size m0 = 32 -> memory_ok (u_memory u) ->
  allocated m0 (u_frames u) got -> Z.of_nat n <= ba_free (u_frames u) ->
  exists u' fs, copy_pages n (Z.of_nat i) src u = Ok (entries_for (Z.of_nat i) fs, u') /\ length fs = n /\
    allocated m0 (u_frames u') (got ++ fs) /\ u_diskBuffer u' = u_diskBuffer u /\ memory_ok (u_memory u') /\
    space_bytes (u_memory u') fs = space_bytes (u_memory u) (drop i pf) /\
    forall g, 0 <= g -> ~ (g ∈ fs) -> frame_bytes (u_memory u') g = frame_bytes (u_memory u) g.
Proof.
  induction n as [|n IH]; intros i u got Hsrc Hlen Hr Hused Hsz Hmem Hal Hfree; cbn [copy_pages].
  { exists u, []. rewrite app_nil_r, drop_ge by lia. by split_and!. }
  destruct (allocated_find m0 (u_frames u) got Hal) as (f & m1 & Hf & Hal1 & Hfr); [lia|]. rewrite Hsz in Hfr.
  destruct (lookup_lt_is_Some_2 pf i) as [p Hp]; [lia|]. pose proof (Forall_lookup_1 _ _ _ _ Hr Hp) as Hpr. simpl in Hpr.
  assert (src !! i <> None) as Hsrci by (intros Hn; rewrite <- Hsrc, list_lookup_fmap, Hn in Hp; done).
  destruct (src !! i) as [e|] eqn:He; [|done].
  assert (physicalPage e = p) as Hep by (rewrite <- Hsrc, list_lookup_fmap, He in Hp; by injection Hp).
  assert (ba_used m0 f = false) as Hff by (apply (allocated_fresh _ _ _ _ Hal1); set_solver).
  assert (forall q, q ∈ pf -> q <> f) as Hpf by (intros q Hq ->; apply Hused in Hq; congruence).
  destruct (copy_one (u_memory u) p f) as (mem' & Hg & Hput & Hmem' & Hsame & Hother);
    [done|lia|lia|apply Hpf; by eapply list_elem_of_lookup_2|].
  unfold memMgr_getPage. rewrite Hf. cbn [mbind outcome_bind]. rewrite ASSERT_true by lia. cbn [mbind outcome_bind].
  rewrite (proj2 (arr_get_ok src _ e)) by (rewrite Nat2Z.id; split; [lia|done]). cbn [mbind outcome_bind u_memory set_frames].
  rewrite Hep, Hg. cbn [mbind outcome_bind]. rewrite Hput. cbn [mbind outcome_bind].
  pose proof (al_free _ _ _ Hal) as Hf0. pose proof (al_free _ _ _ Hal1) as Hf1. rewrite length_app in Hf1. simpl in Hf1.
  replace (Z.of_nat i + 1) with (Z.of_nat (S i)) by lia.
  destruct (IH (S i) (set_memory (set_frames u m1) mem') (got ++ [f])) as (u' & fs & -> & Hl & Hal' & Hb & Hm' & Hsp & Ho);
    try done; [lia|simpl; lia|].
  cbn [mbind outcome_bind]. exists u', (f :: fs). rewrite <- app_assoc in Hal'. cbn [u_memory set_memory] in Hsp, Ho.
  assert (~ (f ∈ fs)) as Hnin.
  { pose proof (al_nodup _ _ _ Hal') as (_ & _ & Hnd)%NoDup_app. by apply NoDup_cons in Hnd as [Hnd _]. }
  split_and!; try done; try (simpl; lia).
  - rewrite entries_for_cons. do 4 f_equal. lia.
  - rewrite (drop_S _ _ _ Hp). unfold space_bytes in *. cbn [fmap list_fmap concat]. rewrite Ho, Hsame by (done || lia).
    f_equal. rewrite Hsp. f_equal. apply list_fmap_ext. intros j q Hq. rewrite lookup_drop in Hq.
    apply Hother; [pose proof (Forall_lookup_1 _ _ _ _ Hr Hq); simpl in *; lia|].
    apply Hpf. by eapply list_elem_of_lookup_2.
  - intros g Hg0 Hgn. rewrite Ho by set_solver. apply Hother; [done|]. set_solver.
Qed.

Lemma clear_pages_ok (m0 : M) t : forall u l,
  freed m0 (u_frames u) l -> Forall (fun e => 0 <= physicalPage e < ba_size m0) t ->
  exists m', clear_pages t u = Ok (set_frames u m') /\ freed m0 m' (l ++ (physicalPage <$> t)).
Proof.
  induction t as [|e t IH]; intros u l Hf Hr; cbn [clear_pages].
  { exists (u_frames u). rewrite app_nil_r. split; [by destruct u|done]. }
  apply Forall_cons in Hr as [He Hr]. unfold memMgr_clearPage.
  destruct (freed_clear m0 (u_frames u) l (physicalPage e)) as (m1 & -> & Hf1); [done|done|]. cbn [mbind outcome_bind].
  destruct (IH (set_frames u m1) (l ++ [physicalPage e])) as (m' & -> & Hf'); try done.
  exists m'. split; [done|]. rewrite <- app_assoc in Hf'. done.
Qed.
End frames.

(** A segment that can be loaded: it starts at a page and lies in the space and in the file. *)
Definition loadable (s : Segment) (file : OpenFile) (pages : Z) : Prop :=
  0 <= seg_size s /\ 0 <= seg_virtualAddr s /\ seg_virtualAddr s `mod` PageSize = 0 /\
  seg_virtualAddr s + seg_size s <= PageSize * pages /\
  0 <= seg_inFileAddr s /\ seg_inFileAddr s + seg_size s <= FileLength (hdr file).

(** The bytes of a segment in its file. *)
Definition segment_bytes (s : Segment) (F : list Z) : list Z :=
  take (Z.to_nat (seg_size s)) (drop (Z.to_nat (seg_inFileAddr s)) F).

Section construction.
Context {M : Type} `{BitAllocatorLaws M} `{FreshLaws}.
Implicit Types u : umem M.

Lemma load_segment_ok sp frames file disk ss u s :
  space_on sp frames -> memory_ok (u_memory u) -> length (u_diskBuffer u) = 128%nat ->
  file_on file disk ss -> disk_ok disk -> loadable s file (Z.of_nat (length frames)) ->
  exists u', load_segment sp file disk u s = Ok u' /\
    memory_ok (u_memory u') /\ length (u_diskBuffer u') = 128%nat /\ u_frames u' = u_frames u /\
    space_bytes (u_memory u') frames =
      splice (space_bytes (u_memory u) frames) (Z.to_nat (seg_virtualAddr s)) (segment_bytes s (file_bytes disk ss)) /\
    forall g, 0 <= g < 32 -> ~ (g ∈ frames) -> frame_bytes (u_memory u') g = frame_bytes (u_memory u) g.
Proof.
  intros Hsp Hmem Hbuf Hf Hd (Hsz & Hva & Hal & Hin & Hfa & Hfl). change PageSize with 128 in *. unfold load_segment.
  destruct (Z.ltb_spec 0 (seg_size s)).
  - unfold ReadFile. destruct (ReadFile_loop_ok sp frames file disk ss (S (Z.to_nat (seg_size s))) u (seg_virtualAddr s)
      (seg_size s) (seg_inFileAddr s)) as (u' & -> & Hrest); try done; try lia.
    cbn [mbind outcome_bind]. by exists u'.
  - exists u. unfold segment_bytes. replace (seg_size s) with 0 by lia. change (take (Z.to_nat 0) ?l) with (@nil Z).
    by rewrite splice_nil.
Qed.

(** The header of an executable. *)
Lemma noff_header_ok exe disk ss ws n :
  file_on exe disk ss -> disk_ok disk -> 40 <= FileLength (hdr exe) -> Forall is_s32 ws ->
  noff_of_words ws = Some n -> take 40 (file_bytes disk ss) = words_to_bytes ws ->
  exists bytes, ReadAt exe disk 40 0 = Ok (40, words_to_bytes ws) /\
    put_bytes (fresh_bytes 40) 0 (words_to_bytes ws) = Ok bytes /\
    noff_of_words (map s32 (bytes_to_words 10 bytes)) = Some n.
Proof.
  intros Hf Hd Hlen Hr Hn Hw. pose proof (fo_bounds _ _ _ Hf) as [Hb _]. pose proof (fo_mapped _ _ _ Hf) as Hm.
  assert (length ws = 10%nat) as Hl.
  { unfold noff_of_words in Hn. repeat (destruct ws as [|? ws]; try done). }
  pose proof (words_to_bytes_length ws) as Hlw. rewrite Hl in Hlw.
  rewrite (ReadAt_ok exe disk ss) by (done || lia). change (drop (Z.to_nat 0) ?l) with l.
  change (Z.to_nat 40) with 40%nat. rewrite Hw. rewrite put_bytes_in by (rewrite ?fresh_bytes_length; lia).
  eexists. split; [done|]. split; [done|]. unfold splice. change (take (Z.to_nat 0) ?l ++ ?r) with r.
  rewrite <- Hl, bytes_words_round_trip, map_map.
  assert (map (fun x => s32 (u32 x)) ws = ws) as ->; [|done].
  clear -Hr. induction Hr as [|w ws Hw _ IH]; simpl; [done|]. by rewrite IH, s32_u32, s32_small.
Qed.

Lemma AddrSpace_new_ok exe disk ss u ws n :
  file_on exe disk ss -> disk_ok disk -> 40 <= FileLength (hdr exe) -> Forall is_s32 ws ->
  noff_of_words ws = Some n -> take 40 (file_bytes disk ss) = words_to_bytes ws -> noffMagic n = NOFFMAGIC ->
  memory_ok (u_memory u) -> length (u_diskBuffer u) = 128%nat -> ba_inv (u_frames u) -> ba_size (u_frames u) = 32 ->
  let np := divRoundUp (u32 (seg_size (noff_code n) + seg_size (noff_initData n) + seg_size (noff_uninitData n)
                             + UserStackSize)) PageSize in
  np <= ba_free (u_frames u) -> loadable (noff_code n) exe np -> loadable (noff_initData n) exe np ->
  let F := file_bytes disk ss in
  exists sp u' fs, AddrSpace_new exe disk u = Ok (sp, u') /\ space_on sp fs /\ Z.of_nat (length fs) = np /\
    sp_pageTable sp = entries_for 0 fs /\ allocated (u_frames u) (u_frames u') fs /\ memory_ok (u_memory u') /\
    length (u_diskBuffer u') = 128%nat /\
    space_bytes (u_memory u') fs =
      splice (splice (space_bytes (u_memory u) fs) (Z.to_nat (seg_virtualAddr (noff_code n))) (segment_bytes (noff_code n) F))
        (Z.to_nat (seg_virtualAddr (noff_initData n))) (segment_bytes (noff_initData n) F) /\
    forall g, 0 <= g < 32 -> ~ (g ∈ fs) -> frame_bytes (u_memory u') g = frame_bytes (u_memory u) g.
Proof.
  intros Hf Hd Hlen Hr Hn Hw Hmagic Hmem Hbuf Hinv Hsz np Hfree Hlc Hli F.
  assert (0 <= np) as Hnp by (apply divRoundUp_nonneg; [apply u32_range|done]).
  assert (ba_free (u_frames u) <= 32) as Hfmax.
  { unfold ba_free. rewrite Hsz. apply (count_clear_bounds _ 32). }
  destruct (noff_header_ok exe disk ss ws n) as (bytes & Hread & Hput & Hnoff); try done.
  unfold AddrSpace_new. rewrite Hread. cbn [mbind outcome_bind]. rewrite Hput. cbn [mbind outcome_bind].
  rewrite Hnoff. cbn [deref mbind outcome_bind]. rewrite Hmagic, Z.eqb_refl. cbn [negb andb]. rewrite Hmagic.
  rewrite Z.eqb_refl. cbn [ASSERT mbind outcome_bind]. unfold memMgr_getFreePageCount. rewrite ba_numClear_ok by done.
  cbn [mbind outcome_bind]. fold np. rewrite u32_small by (unfold is_u32, two32; pose proof (ba_free_nonneg (u_frames u)); lia).
  rewrite ASSERT_true by lia. cbn [mbind outcome_bind].
  destruct (new_pages_ok (u_frames u) (Z.to_nat np) 0 u []) as (m' & fs & -> & Hl & Hal);
    [by apply allocated_nil|lia|]. cbn [mbind outcome_bind]. simpl in Hal.
  assert (space_on (mkSpace np (entries_for 0 fs)) fs) as Hsp.
  { split; cbn [sp_numPages sp_pageTable]; [lia|apply entries_for_frames|apply entries_for_valid| |apply (al_nodup _ _ _ Hal)].
    apply Forall_forall. intros f Hfin. destruct (al_got _ _ _ Hal f Hfin) as [Hfr _]. lia. }
  assert (Z.of_nat (length fs) = np) as Hlfs by lia. rewrite <- Hlfs in Hlc, Hli.
  destruct (load_segment_ok _ fs exe disk ss (set_frames u m') (noff_code n) Hsp) as (u1 & -> & Hm1 & Hb1 & Hf1 & Hs1 & Ho1);
    try done. cbn [mbind outcome_bind].
  destruct (load_segment_ok _ fs exe disk ss u1 (noff_initData n) Hsp) as (u2 & -> & Hm2 & Hb2 & Hf2 & Hs2 & Ho2);
    try done. cbn [mbind outcome_bind].
  exists (mkSpace np (entries_for 0 fs)), u2, fs. split_and!; try done.
  - rewrite Hf2, Hf1. done.
  - rewrite Hs2, Hs1. done.
  - intros g Hg Hnin. rewrite Ho2, Ho1 by done. done.
Qed.
End construction.

(** ** An executable *)

(** Code of eight bytes at address 0; with the stack the program needs nine pages. *)
Definition demo_noff : list Z := [NOFFMAGIC; 0; 40; 8; 0; 0; 0; 0; 0; 0].
Definition demo_exe : OpenFile := mkFile (small_header 48 1 [5; 0; 0; 0]) 0 4.
Definition demo_exe_disk : list (list Z) :=
  demo_disk 8 [(5%nat, words_to_bytes demo_noff ++ [11; 12; 13; 14; 15; 16; 17; 18] ++ replicate 80 0)].

Lemma demo_exe_on : file_on demo_exe demo_exe_disk [5] /\ disk_ok demo_exe_disk.
Proof.
  destruct (demo_sectors_ok 8 [(5%nat, words_to_bytes demo_noff ++ [11; 12; 13; 14; 15; 16; 17; 18] ++ replicate 80 0)])
    as [Hok Hl]; [by repeat constructor|]. fold demo_exe_disk in Hok, Hl. split; [|done]. split; try done.
  - apply mapped_direct; [simpl; lia|done|]. rewrite Hl. repeat constructor; simpl; lia.
  - apply NoDup_singleton.
Qed.

(** Main memory with the frames 0 and 2 in use. *)
Definition demo_umem : umem BitMap :=
  mkUmem (replicate (Z.to_nat MemorySize) 0) (mkBitMap 32 1 [5]) (replicate 128 0).

Lemma demo_frames_wf : bm_wf (mkBitMap 32 1 [5]).
Proof. split; [done|]. split; [done|]. split; [done|]. forall_lia. Qed.

(** A space whose three pages are in the frames 0, 2 and 5. *)
Definition demo_space : AddrSpace := mkSpace 3 (entries_for 0 [0; 2; 5]).

Lemma demo_space_on : space_on demo_space [0; 2; 5].
Proof.
  split; try done.
  - apply entries_for_valid.
  - repeat constructor; lia.
  - apply (bool_decide_unpack _). vm_compute. exact I.
Qed.

(** ** Properties *)

(** Creating an address space from an executable whose segments start at pages and lie in
    the space and in the file, when there are enough free frames: the constructor returns
    a space of the right number of pages in frames that are all different and were free,
    and takes exactly these. Every page is valid and writable. The bytes of the space are
    what the frames held with the code and then the initialized data of the file copied
    to their virtual addresses, and no other frame of main memory changes. *)
Theorem AddrSpace_loads {M} `{BitAllocatorLaws M} `{FreshLaws} exe disk ss (u : umem M) ws n :
  file_on exe disk ss -> disk_ok disk -> 40 <= FileLength (hdr exe) -> Forall is_s32 ws ->
  noff_of_words ws = Some n -> take 40 (file_bytes disk ss) = words_to_bytes ws -> noffMagic n = NOFFMAGIC ->
  memory_ok (u_memory u) -> length (u_diskBuffer u) = 128%nat -> ba_inv (u_frames u) -> ba_size (u_frames u) = 32 ->
  let np := divRoundUp (u32 (seg_size (noff_code n) + seg_size (noff_initData n) + seg_size (noff_uninitData n)
                             + UserStackSize)) PageSize in
  np <= ba_free (u_frames u) -> loadable (noff_code n) exe np -> loadable (noff_initData n) exe np ->
  let F := file_bytes disk ss in
  exists sp u' fs, AddrSpace_new exe disk u = Ok (sp, u') /\ space_on sp fs /\ Z.of_nat (length fs) = np /\
    sp_pageTable sp = entries_for 0 fs /\ allocated (u_frames u) (u_frames u') fs /\ memory_ok (u_memory u') /\
    length (u_diskBuffer u') = 128%nat /\
    space_bytes (u_memory u') fs =
      splice (splice (space_bytes (u_memory u) fs) (Z.to_nat (seg_virtualAddr (noff_code n))) (segment_bytes (noff_code n) F))
        (Z.to_nat (seg_virtualAddr (noff_initData n))) (segment_bytes (noff_initData n) F) /\
    forall g, 0 <= g < 32 -> ~ (g ∈ fs) -> frame_bytes (u_memory u') g = frame_bytes (u_memory u) g.
Proof. apply AddrSpace_new_ok. Qed.

Lemma AddrSpace_loads_witness :
  exists sp u' fs, AddrSpace_new (H0 := zero_fresh) demo_exe demo_exe_disk demo_umem = Ok (sp, u') /\
    space_on sp fs /\ Z.of_nat (length fs) = 9 /\ allocated (u_frames demo_umem) (u_frames u') fs.
Proof.
  destruct demo_exe_on as [Hf Hd].
  destruct (AddrSpace_loads (H1 := zero_fresh) (H2 := zero_fresh_laws) demo_exe demo_exe_disk [5] demo_umem demo_noff
    (mkNoff NOFFMAGIC (mkSegment 0 40 8) (mkSegment 0 0 0) (mkSegment 0 0 0)))
    as (sp & u' & fs & Hrun & Hsp & Hl & _ & Hal & _).
  - exact Hf.
  - exact Hd.
  - simpl. lia.
  - apply (bool_decide_unpack _). vm_compute. exact I.
  - reflexivity.
  - vm_compute. reflexivity.
  - reflexivity.
  - vm_compute. reflexivity.
  - reflexivity.
  - exact demo_frames_wf.
  - reflexivity.
  - vm_compute. discriminate.
  - vm_compute. repeat split; discriminate.
  - vm_compute. repeat split; discriminate.
  - exists sp, u', fs. split; [exact Hrun|]. split; [exact Hsp|]. split; [exact Hl|exact Hal].
Defined.

(** Fork's copy of an address space, when there are enough free frames: the copy has as
    many pages, in frames that were free and are none of the parent's, and it holds the
    same bytes; the parent's bytes and all other frames are unchanged. *)
Theorem CopyAddrSpace_correct {M} `{BitAllocatorLaws M} (u : umem M) sp frames :
  space_on sp frames -> ba_inv (u_frames u) -> ba_size (u_frames u) = 32 -> memory_ok (u_memory u) ->
  (forall f, f ∈ frames -> ba_used (u_frames u) f = true) -> sp_numPages sp <= ba_free (u_frames u) ->
  exists sp' u' frames', CopyAddrSpace sp u = Ok (sp', u') /\ space_on sp' frames' /\
    sp_numPages sp' = sp_numPages sp /\ allocated (u_frames u) (u_frames u') frames' /\
    (forall f, f ∈ frames' -> ~ (f ∈ frames)) /\ memory_ok (u_memory u') /\ u_diskBuffer u' = u_diskBuffer u /\
    space_bytes (u_memory u') frames' = space_bytes (u_memory u) frames /\
    space_bytes (u_memory u') frames = space_bytes (u_memory u) frames /\
    forall g, 0 <= g -> ~ (g ∈ frames') -> frame_bytes (u_memory u') g = frame_bytes (u_memory u) g.
Proof.
  intros Hsp Hinv Hsz Hmem Hused Hfree. pose proof Hsp as [Hp Ht Hv Hr Hnd].
  destruct (copy_pages_ok (u_frames u) (sp_pageTable sp) frames (length frames) 0 u [])
    as (u' & fs & Hrun & Hl & Hal & Hbuf & Hm & Hsame & Hother); try done; [by apply allocated_nil|lia|].
  simpl in Hal. change (Z.of_nat 0) with 0 in Hrun. unfold CopyAddrSpace. rewrite Hp, Nat2Z.id, Hrun. cbn [mbind outcome_bind].
  assert (forall f, f ∈ fs -> ~ (f ∈ frames)) as Hdisj.
  { intros f Hf Hf'. apply Hused in Hf'. pose proof (allocated_fresh _ _ _ _ Hal Hf). congruence. }
  eexists _, u', fs. split; [done|]. split_and!; try done.
  - split; cbn [sp_numPages sp_pageTable]; [lia|apply entries_for_frames|apply entries_for_valid| |apply (al_nodup _ _ _ Hal)].
    apply Forall_forall. intros f Hf. destruct (al_got _ _ _ Hal f Hf) as [Hfr _]. lia.
  - apply space_bytes_ext. intros f Hf. apply Hother; [|intros Hin; by apply (Hdisj f)].
    rewrite Forall_forall in Hr. specialize (Hr f Hf). lia.
Qed.

Lemma CopyAddrSpace_correct_witness :
  exists sp' u' frames', CopyAddrSpace (mkSpace 2 (entries_for 0 [0; 2])) demo_umem = Ok (sp', u') /\
    space_on sp' frames' /\ allocated (u_frames demo_umem) (u_frames u') frames'.
Proof.
  destruct (CopyAddrSpace_correct demo_umem (mkSpace 2 (entries_for 0 [0; 2])) [0; 2])
    as (sp' & u' & frames' & Hrun & Hsp & _ & Hal & _).
  - split; [reflexivity|reflexivity|apply entries_for_valid|repeat constructor; lia|].
    apply (bool_decide_unpack _). vm_compute. exact I.
  - exact demo_frames_wf.
  - reflexivity.
  - vm_compute. reflexivity.
  - intros f [->|[->| []%not_elem_of_nil]%elem_of_cons]%elem_of_cons; reflexivity.
  - vm_compute. discriminate.
  - exists sp', u', frames'. split; [exact Hrun|]. split; [exact Hsp|exact Hal].
Defined.

Lemma WriteRegister_in m i v : length (registers m) = 40%nat -> 0 <= i < 40 ->
  WriteRegister m i v = Ok (with_registers m (<[Z.to_nat i := v]> (registers m))).
Proof.
  intros Hl Hi. unfold WriteRegister. change NumTotalRegs with 40. rewrite ASSERT_true by lia. cbn [mbind outcome_bind].
  by rewrite arr_set_in by lia.
Qed.

Lemma zero_registers_ok n : forall i m, (i + n = 40)%nat -> length (registers m) = 40%nat ->
  zero_registers n (Z.of_nat i) m = Ok (with_registers m (take i (registers m) ++ replicate n 0)).
Proof.
  induction n as [|n IH]; intros i m Hi Hl; cbn [zero_registers].
  { rewrite take_ge, app_nil_r by lia. by destruct m. }
  rewrite WriteRegister_in by lia. cbn [mbind outcome_bind]. replace (Z.of_nat i + 1) with (Z.of_nat (S i)) by lia.
  rewrite IH by (try lia; by simpl; rewrite length_insert). do 2 f_equal. cbn [registers with_registers].
  rewrite Nat2Z.id, (take_S_r _ _ 0) by (apply list_lookup_insert_eq; lia). rewrite take_insert_ge by lia.
  by rewrite <- app_assoc.
Qed.

(** Starting a program: with the page table loaded and the registers initialized the
    machine is well formed, so that its first instruction is defined; the program counter
    is 0, the next one 4, and the stack pointer is 16 bytes below the end of the space. *)
Theorem start_machine_ok sp frames m :
  space_on sp frames -> 1 <= sp_numPages sp -> memory_ok (mainMemory m) -> Forall is_byte (mainMemory m) ->
  length (registers m) = 40%nat -> tlb m = None ->
  exists m', InitRegisters sp (AddrSpace_RestoreState sp m) = Ok m' /\ machine_ok m' /\
    mainMemory m' = mainMemory m /\ pageTable m' = Some (sp_pageTable sp) /\
    ReadRegister m' PCReg = Ok 0 /\ ReadRegister m' NextPCReg = Ok 4 /\
    ReadRegister m' StackReg = Ok (PageSize * sp_numPages sp - 16).
Proof.
  intros Hsp Hn Hmem Hb Hl Ht. pose proof (so_length _ _ Hsp) as H32. pose proof (so_pages _ _ Hsp) as Hp.
  set (m1 := AddrSpace_RestoreState sp m). unfold InitRegisters.
  pose proof (zero_registers_ok 40 0 m1 eq_refl Hl) as Hz. change (Z.of_nat 0) with 0 in Hz.
  change (Z.to_nat NumTotalRegs) with 40%nat. rewrite Hz. cbn [mbind outcome_bind].
  change (take 0 ?l ++ ?r) with r. rewrite WriteRegister_in by (done || (unfold PCReg; lia)). cbn [mbind outcome_bind].
  rewrite WriteRegister_in by (done || (unfold NextPCReg; lia)). cbn [mbind outcome_bind].
  change PageSize with 128. rewrite s32_small by (unfold is_s32, two31; lia).
  replace (sp_numPages sp * 128 - 16) with (128 * sp_numPages sp - 16) by lia. set (v := 128 * sp_numPages sp - 16).
  rewrite WriteRegister_in by (done || (unfold StackReg; lia)). eexists. split; [done|].
  cbn [registers with_registers mainMemory pageTable m1 AddrSpace_RestoreState].
  assert (is_s32 v) as Hv by (unfold is_s32, two31, v; lia).
  split; [|by split_and!]. split; [|done]. split; cbn [registers with_registers mainMemory]; try done.
  - repeat apply Forall_insert; try done; try (unfold is_s32, two31; lia). apply Forall_replicate. unfold is_s32, two31. lia.
  - exists 0. split; [done|lia].
  - unfold tables_ok. cbn [tlb pageTable pageTableSize m1 with_registers AddrSpace_RestoreState]. rewrite Ht, Hp.
    by rewrite <- (so_table _ _ Hsp), length_fmap.
Qed.

Lemma start_machine_ok_witness :
  exists m', InitRegisters demo_space (AddrSpace_RestoreState demo_space Machine_new) = Ok m' /\ machine_ok m' /\
    ReadRegister m' StackReg = Ok 368.
Proof.
  destruct (start_machine_ok demo_space [0; 2; 5] Machine_new) as (m' & Hrun & Hok & _ & _ & _ & _ & Hs).
  - exact demo_space_on.
  - simpl. lia.
  - vm_compute. reflexivity.
  - apply Forall_replicate. unfold is_byte. lia.
  - reflexivity.
  - reflexivity.
  - exists m'. split; [exact Hrun|]. split; [exact Hok|exact Hs].
Defined.

(** The kernel's translation of a user address and the one of the simulated hardware
    agree: for an address of the space both give the same physical address, and for one
    at or after its end, or below -127, the kernel's fails and the hardware reports an
    address error. *)
Theorem Translate_agrees sp frames m va writing :
  space_on sp frames -> tlb m = None -> is_s32 va ->
  let m1 := AddrSpace_RestoreState sp m in
  (0 <= va < PageSize * sp_numPages sp ->
   exists pa m2, AddrSpace_Translate sp va = Ok (Some pa) /\ Translate m1 va 1 writing = Ok (m2, inr pa) /\
     0 <= pa < MemorySize) /\
  (PageSize * sp_numPages sp <= va \/ va <= - PageSize ->
   AddrSpace_Translate sp va = Ok None /\ Translate m1 va 1 writing = Ok (m1, inl AddressErrorException)).
Proof.
  intros Hsp Ht Hva m1. pose proof (so_length _ _ Hsp) as H32. pose proof (so_pages _ _ Hsp) as Hp.
  unfold is_s32, two31 in Hva. change PageSize with 128 in *. split.
  - intros Hin. destruct (Translate_in sp frames va Hsp) as (f & Hf & Hfr & Htr); [lia|].
    rewrite <- (so_table _ _ Hsp), list_lookup_fmap in Hf.
    destruct (sp_pageTable sp !! Z.to_nat (va `div` 128)) as [e|] eqn:He; [|done]. injection Hf as Hf.
    pose proof (Forall_lookup_1 _ _ _ _ (so_valid _ _ Hsp) He) as [Hv Hro].
    assert (length (sp_pageTable sp) = length frames) as Hlt by (rewrite <- (so_table _ _ Hsp); by rewrite length_fmap).
    eexists _, _. split; [exact Htr|]. split; [|change MemorySize with 4096; dlia].
    unfold Translate. change (misaligned va 1) with false. cbv iota. unfold find_entry, store_entry.
    cbn [m1 tlb pageTable pageTableSize AddrSpace_RestoreState]. rewrite Ht. change PageSize with 128.
    rewrite u32_small by (unfold is_u32, two32; lia).
    destruct (Z.leb_spec (sp_numPages sp) (va `div` 128)); [dlia|].
    rewrite (proj2 (arr_get_ok (sp_pageTable sp) _ e)) by (split; [dlia|done]). cbn [mbind outcome_bind].
    rewrite Hv. cbn [negb mbind outcome_bind]. rewrite Hro. cbn [andb]. rewrite Hf.
    rewrite u32_small by (unfold is_u32, two32; lia). change NumPhysPages with 32.
    destruct (Z.leb_spec 32 f); [lia|]. rewrite arr_set_in by dlia. cbn [mbind outcome_bind].
    rewrite s32_small by (unfold is_s32, two31; dlia). change MemorySize with 4096.
    rewrite ASSERT_true by dlia. cbn [mbind outcome_bind]. do 3 f_equal. lia.
  - intros Hout. split.
    + unfold AddrSpace_Translate, cdiv. change PageSize with 128.
      assert (sp_numPages sp <= u32 (va ÷ 128)) as Hle; [|by destruct (Z.leb_spec (sp_numPages sp) (u32 (va ÷ 128))); [|lia]].
      unfold u32, two32. dlia.
    + unfold Translate. change (misaligned va 1) with false. cbv iota. unfold find_entry.
      cbn [m1 tlb pageTable pageTableSize AddrSpace_RestoreState]. rewrite Ht. change PageSize with 128.
      assert (sp_numPages sp <= u32 va `div` 128) as Hle by (unfold u32, two32; dlia).
      by destruct (Z.leb_spec (sp_numPages sp) (u32 va `div` 128)); [|lia].
Qed.

Lemma Translate_agrees_witness :
  exists pa m2, AddrSpace_Translate demo_space 300 = Ok (Some pa) /\
    Translate (AddrSpace_RestoreState demo_space Machine_new) 300 1 true = Ok (m2, inr pa) /\ pa = 684.
Proof.
  destruct (Translate_agrees demo_space [0; 2; 5] Machine_new 300 true) as [Hin _].
  - exact demo_space_on.
  - reflexivity.
  - unfold is_s32, two31. lia.
  - destruct Hin as (pa & m2 & H1 & H2 & _); [vm_compute; split; [discriminate|reflexivity]|].
    exists pa, m2. split; [exact H1|]. split; [exact H2|]. vm_compute in H1. congruence.
Defined.

(** Deleting an address space gives back exactly its frames. *)
Theorem AddrSpace_delete_frees {M} `{BitAllocatorLaws M} (u : umem M) sp frames :
  space_on sp frames -> ba_inv (u_frames u) -> ba_size (u_frames u) = 32 ->
  exists u', AddrSpace_delete sp u = Ok u' /\ freed (u_frames u) (u_frames u') frames /\
    u_memory u' = u_memory u /\ u_diskBuffer u' = u_diskBuffer u.
Proof.
  intros [Hp Ht _ Hr _] Hinv Hsz. unfold AddrSpace_delete.
  assert (length (sp_pageTable sp) = length frames) as Hl by (rewrite <- Ht; by rewrite length_fmap).
  rewrite take_ge by lia. destruct (clear_pages_ok (u_frames u) (sp_pageTable sp) u []) as (m' & -> & Hf).
  - by apply freed_nil.
  - rewrite Hsz, <- Ht in *. by apply Forall_fmap in Hr.
  - simpl in Hf. rewrite Ht in Hf. by eexists.
Qed.

Lemma AddrSpace_delete_frees_witness :
  exists u', AddrSpace_delete (mkSpace 2 (entries_for 0 [0; 2])) demo_umem = Ok u' /\
    freed (u_frames demo_umem) (u_frames u') [0; 2].
Proof.
  destruct (AddrSpace_delete_frees demo_umem (mkSpace 2 (entries_for 0 [0; 2])) [0; 2]) as (u' & Hrun & Hf & _).
  - split; [reflexivity|reflexivity|apply entries_for_valid|repeat constructor; lia|].
    apply (bool_decide_unpack _). vm_compute. exact I.
  - exact demo_frames_wf.
  - reflexivity.
  - exists u'. split; [exact Hrun|exact Hf].
Defined.

(** Loading a page-sized piece to an address [o] bytes into page [k]. It is copied in one
    piece to the frame of the page, and its last [o] bytes land at the beginning of the
    next frame of main memory, whichever page or process that belongs to, and not in the
    next page of the space. *)
Theorem ReadFile_unaligned {M} `{FreshLaws} (u : umem M) sp frames file disk ss k f o fa :
  space_on sp frames -> memory_ok (u_memory u) -> length (u_diskBuffer u) = 128%nat ->
  file_on file disk ss -> disk_ok disk -> 0 <= fa -> fa + 128 <= FileLength (hdr file) ->
  frames !! k = Some f -> f < 31 -> (0 < o < 128)%nat ->
  let data := take 128 (drop (Z.to_nat fa) (file_bytes disk ss)) in
  exists u', ReadFile sp file disk u (128 * Z.of_nat k + Z.of_nat o) 128 fa = Ok (1, u') /\
    u_memory u' = splice (u_memory u) (128 * Z.to_nat f + o) data /\
    take o (frame_bytes (u_memory u') (f + 1)) = drop (128 - o) data.
Proof.
  intros Hsp Hmem Hbuf Hf Hd Hfa Hlen Hk Hf31 Ho data. pose proof (fo_bounds _ _ _ Hf) as [Hb Hsz].
  pose proof (so_length _ _ Hsp) as H32. pose proof (lookup_lt_Some _ _ _ Hk) as Hlt. unfold two31 in Hsz.
  pose proof (file_bytes_length (hdr file) disk ss (fo_mapped _ _ _ Hf) Hd) as Hfl.
  assert (length data = 128%nat) as Hdl by (unfold data; rewrite length_take, length_drop; lia).
  destruct (Translate_in sp frames (128 * Z.of_nat k + Z.of_nat o) Hsp) as (f' & Hk' & Hfr & Ht); [lia|].
  replace (Z.to_nat ((128 * Z.of_nat k + Z.of_nat o) `div` 128)) with k in Hk' by dlia.
  assert (f' = f) as -> by congruence. unfold memory_ok in Hmem. change (Z.to_nat MemorySize) with 4096%nat in Hmem.
  replace ((128 * Z.of_nat k + Z.of_nat o) `mod` 128) with (Z.of_nat o) in Ht by dlia.
  assert (exists n, Z.to_nat 128 = S n) as [n Hfuel] by (by exists 127%nat).
  unfold ReadFile. rewrite Hfuel. cbn [ReadFile_loop]. clear Hfuel. change PageSize with 128.
  change (128 <=? 0) with false. change (128 <? 128) with false. cbv iota.
  rewrite (ReadAt_ok file disk ss 128 fa) by (done || apply (fo_mapped _ _ _ Hf) || lia). cbn [mbind outcome_bind].
  change (Z.to_nat 128) with 128%nat. fold data. rewrite put_bytes_in by lia. cbn [mbind outcome_bind]. rewrite Ht.
  cbn [mbind outcome_bind u_diskBuffer set_buffer u_memory]. rewrite get_bytes_in by (rewrite ?splice_length; lia).
  change (Z.to_nat 128) with 128%nat. change (Z.to_nat 0) with 0%nat.
  assert (take 128 (drop 0 (splice (u_diskBuffer u) 0 data)) = data) as ->
    by (rewrite <- Hdl at 1; apply (splice_read (u_diskBuffer u) 0 data); lia).
  cbn [mbind outcome_bind]. rewrite put_bytes_in by lia. cbn [mbind outcome_bind].
  eexists. split; [done|]. cbn [u_memory set_memory].
  replace (Z.to_nat (128 * f + Z.of_nat o)) with (128 * Z.to_nat f + o)%nat by lia. split; [done|].
  apply list_eq. intros j. destruct (decide (j < o)%nat) as [Hj|Hj].
  - rewrite lookup_take_lt, lookup_drop by done. unfold frame_bytes. rewrite page_lookup, splice_lookup by lia.
    rewrite decide_True by lia. f_equal. lia.
  - rewrite !lookup_ge_None_2; [done|rewrite length_drop; lia|rewrite length_take; lia].
Qed.

Lemma ReadFile_unaligned_witness :
  exists u', ReadFile (H0 := zero_fresh) demo_space demo_file demo_disk8 demo_umem 100 128 0 = Ok (1, u') /\
    take 100 (frame_bytes (u_memory u') 1) = replicate 100 7.
Proof.
  destruct demo_file_on as [Hf Hd].
  destruct (ReadFile_unaligned (H := zero_fresh) (H0 := zero_fresh_laws) demo_umem demo_space
    [0; 2; 5] demo_file demo_disk8 [5; 3] 0 0 100 0) as (u' & Hrun & _ & Ht).
  - exact demo_space_on.
  - vm_compute. reflexivity.
  - reflexivity.
  - exact Hf.
  - exact Hd.
  - lia.
  - simpl. lia.
  - reflexivity.
  - lia.
  - lia.
  - exists u'. split; [exact Hrun|]. etransitivity; [exact Ht|]. vm_compute. reflexivity.
Defined.
