(* ===== verification/Process.v ===== *)
(** * userprog/processManager.cc, pcb.cc, sysOpenFile.cc, userOpenFile.cc: process tables

    [ProcessManager] holds the process identifiers and the table of open files of the
    system, [PCB] the table of one process. The tables hold pointers: [sysFiles] and
    [userFiles] are the objects that exist, and using a pointer to a deleted object is
    undefined. An array of pointers that [new] returned is not initialized.

    Locks are held or free: an [Acquire] of a lock that is held blocks the caller. The
    waiting of [join] and the broadcast of [clearPID] are in Join.v. *)

From stdpp Require Import prelude numbers list gmap.
From S2P Require Import Prelude Params BitMap FileHdr Directory OpenFile.

Open Scope Z_scope.

Definition MAX_PROCS : Z := 10.
Definition SYS_MAX_OPEN_FILES : Z := 20.
Definition MAX_OPEN_FILES : Z := 20.
Definition CIN : Z := 0.
Definition COUT : Z := 1.

Inductive ptr := Uninit | Null | Ptr (p : positive).

#[export] Instance ptr_eq_dec : EqDecision ptr.
Proof. solve_decision. Defined.

Record SysOpenFile := mkSys { sf_openFile : option positive; sf_fd : Z; sf_fileName : list Z; sf_numUsers : Z }.
Record UserOpenFile := mkUser { uf_fileName : list Z; uf_sysOpenFile : positive; uf_position : Z; uf_fd : Z }.

Definition SysOpenFile_new (file : option positive) (fname : list Z) (id : Z) : SysOpenFile := mkSys file id fname 1.

Record ProcessManager := mkPM {
  pm_bitmap : BitMap;
  pcbTable : list ptr;
  conditionTable : list bool;           (* created by [getPID] *)
  lockTable : list bool;
  fsLock : list bool;                   (* held *)
  returnStatus : list Z;
  sysOpenFileTable : list ptr;
  sysOpenFileMap : BitMap;
  sysFiles : gmap positive SysOpenFile }.

Record PCB := mkPCB { PID : Z; parentPID : Z; p_thread : positive; openFileTable : list ptr; openFileMap : BitMap }.

Section process.
Context `{Fresh}.

(** ** userprog/processManager.cc *)

Definition ProcessManager_new (garbage : list Z) : outcome ProcessManager :=
  bitmap ← BitMap_create MAX_PROCS;
  sysOpenFileMap ← BitMap_create SYS_MAX_OPEN_FILES;
  sysOpenFileMap ← BitMap_Mark sysOpenFileMap CIN;
  sysOpenFileMap ← BitMap_Mark sysOpenFileMap COUT;
  Ok (mkPM bitmap (replicate (Z.to_nat MAX_PROCS) Uninit) (replicate (Z.to_nat MAX_PROCS) false)
        (replicate (Z.to_nat MAX_PROCS) false) (replicate (Z.to_nat SYS_MAX_OPEN_FILES) false) garbage
        (replicate (Z.to_nat SYS_MAX_OPEN_FILES) Uninit) sysOpenFileMap ∅).

Definition getPID (pm : ProcessManager) : outcome (Z * ProcessManager) :=
  '(pid, bitmap) ← BitMap_Find (pm_bitmap pm);
  conditions ← arr_set (conditionTable pm) pid true;
  locks ← arr_set (lockTable pm) pid true;
  Ok (pid, mkPM bitmap (pcbTable pm) conditions locks (fsLock pm) (returnStatus pm) (sysOpenFileTable pm)
             (sysOpenFileMap pm) (sysFiles pm)).

Definition getFreePIDCount (pm : ProcessManager) : outcome Z := BitMap_NumClear (pm_bitmap pm).

Definition storePCB (pm : ProcessManager) (pid : Z) (p : positive) : outcome ProcessManager :=
  t ← arr_set (pcbTable pm) pid (Ptr p);
  Ok (mkPM (pm_bitmap pm) t (conditionTable pm) (lockTable pm) (fsLock pm) (returnStatus pm) (sysOpenFileTable pm)
        (sysOpenFileMap pm) (sysFiles pm)).

Definition setExitStatus (pm : ProcessManager) (pid exitStatus : Z) : outcome ProcessManager :=
  r ← arr_set (returnStatus pm) pid exitStatus;
  Ok (mkPM (pm_bitmap pm) (pcbTable pm) (conditionTable pm) (lockTable pm) (fsLock pm) r (sysOpenFileTable pm)
        (sysOpenFileMap pm) (sysFiles pm)).

(** The part of the object that the file operations change. *)
Definition set_sys (pm : ProcessManager) (t : list ptr) (m : BitMap) (h : gmap positive SysOpenFile) : ProcessManager :=
  mkPM (pm_bitmap pm) (pcbTable pm) (conditionTable pm) (lockTable pm) (fsLock pm) (returnStatus pm) t m h.
Definition set_fsLock (pm : ProcessManager) (l : list bool) : ProcessManager :=
  mkPM (pm_bitmap pm) (pcbTable pm) (conditionTable pm) (lockTable pm) l (returnStatus pm) (sysOpenFileTable pm)
    (sysOpenFileMap pm) (sysFiles pm).

(** The object that an entry of the system table points to. *)
Definition sys_entry (pm : ProcessManager) (i : Z) : outcome SysOpenFile :=
  e ← arr_get (sysOpenFileTable pm) i;
  match e with
  | Ptr p => deref (sysFiles pm !! p)
  | _ => Undef
  end.

(** [strcmp(a, b) == 0] on strings that are given without their NULs. *)
Definition strcmp_equal (a b : list Z) : bool := bool_decide (a = b).

Fixpoint getFD_loop (n : nat) (i : Z) (pm : ProcessManager) (name : list Z) : outcome Z :=
  match n with
  | O => Ok (-1)
  | S n =>
      t ← BitMap_Test (sysOpenFileMap pm) i;
      found ← (if t : bool then s ← sys_entry pm i; Ok (strcmp_equal (sf_fileName s) name) else Ok false);
      if found : bool then Ok i else getFD_loop n (i + 1) pm name
  end.

Definition getFD (pm : ProcessManager) (name : list Z) : outcome Z :=
  getFD_loop (Z.to_nat (SYS_MAX_OPEN_FILES - 2)) 2 pm name.

(** [new SysOpenFile(openFile, fileName, fd)], stored in the table. *)
Definition store_new (pm : ProcessManager) (openFile : option positive) (fileName : list Z) (fd : Z) (m : BitMap)
    : outcome (positive * ProcessManager) :=
  let p := fresh (dom (sysFiles pm)) in
  t ← arr_set (sysOpenFileTable pm) fd (Ptr p);
  Ok (p, set_sys pm t m (<[p := SysOpenFile_new openFile fileName fd]> (sysFiles pm))).

(** [getOpenFile(fileName, openFile)]: the entry, or [Null]. *)
Definition getOpenFile (pm : ProcessManager) (fileName : list Z) (openFile : option positive)
    : outcome (ptr * ProcessManager) :=
  fd ← getFD pm fileName;
  if negb (fd =? -1) then e ← arr_get (sysOpenFileTable pm) fd; Ok (e, pm)
  else
    '(fd, m) ← BitMap_Find (sysOpenFileMap pm);
    if fd =? -1 then Ok (Null, pm)
    else '(p, pm) ← store_new pm openFile fileName fd m; Ok (Ptr p, pm).

(** [getOpenFile(fd)] *)
Definition getOpenFile_fd (pm : ProcessManager) (fd : Z) : outcome ptr :=
  t ← BitMap_Test (sysOpenFileMap pm) fd;
  if t : bool then arr_get (sysOpenFileTable pm) fd else Ok Null.

Definition createNewSysFile (pm : ProcessManager) (openFile : option positive) (fileName : list Z)
    : outcome (positive * ProcessManager) :=
  '(index, m) ← BitMap_Find (sysOpenFileMap pm);
  store_new pm openFile fileName index m.

Definition closeFile (pm : ProcessManager) (fd : Z) : outcome (answer ProcessManager) :=
  held ← arr_get (fsLock pm) fd;
  if held : bool then Ok Blocks
  else
    locks ← arr_set (fsLock pm) fd true;
    let pm := set_fsLock pm locks in
    e ← arr_get (sysOpenFileTable pm) fd;
    match e with
    | Uninit => Undef
    | Null => Ok (Returns pm)
    | Ptr p =>
        s ← deref (sysFiles pm !! p);
        let s := mkSys (sf_openFile s) (sf_fd s) (sf_fileName s) (s32 (sf_numUsers s - 1)) in
        pm ← (if sf_numUsers s =? 0 then
                t ← arr_set (sysOpenFileTable pm) fd Null;
                m ← BitMap_Clear (sysOpenFileMap pm) fd;
                Ok (set_sys pm t m (delete p (sysFiles pm)))
              else Ok (set_sys pm (sysOpenFileTable pm) (sysOpenFileMap pm) (<[p := s]> (sysFiles pm))));
        locks ← arr_set (fsLock pm) fd false;
        Ok (Returns (set_fsLock pm locks))
    end.

(** ** userprog/pcb.cc *)

Definition PCB_new (pid parentPid : Z) (t : positive) : outcome PCB :=
  m ← BitMap_create MAX_OPEN_FILES;
  Ok (mkPCB pid parentPid t (replicate (Z.to_nat MAX_OPEN_FILES) Uninit) m).

Definition set_files (pcb : PCB) (t : list ptr) (m : BitMap) : PCB :=
  mkPCB (PID pcb) (parentPID pcb) (p_thread pcb) t m.

(** [getOpenFile(name, file)] for the system entry [file], an object of the process
    manager; [users] are the entries of processes. *)
Definition PCB_getOpenFile (pcb : PCB) (users : gmap positive UserOpenFile) (name : list Z) (file : positive) (s : SysOpenFile)
    : outcome (ptr * PCB * gmap positive UserOpenFile) :=
  open ← BitMap_Test (openFileMap pcb) (sf_fd s);
  if open : bool then
    e ← arr_get (openFileTable pcb) (sf_fd s); Ok (e, pcb, users)
  else
    m ← BitMap_Mark (openFileMap pcb) (sf_fd s);
    let p := fresh (dom users) in
    t ← arr_set (openFileTable pcb) (sf_fd s) (Ptr p);
    Ok (Ptr p, set_files pcb t m, <[p := mkUser name file 0 (sf_fd s)]> users).

Definition PCB_getOpenFile_fd (pcb : PCB) (fd : Z) : outcome ptr :=
  t ← BitMap_Test (openFileMap pcb) fd;
  if t : bool then arr_get (openFileTable pcb) fd else Ok Null.

Definition addNewOpenFile (pcb : PCB) (file : UserOpenFile) : outcome (bool * PCB) :=
  t ← BitMap_Test (openFileMap pcb) (uf_fd file);
  if t : bool then Ok (false, pcb)
  else m ← BitMap_Mark (openFileMap pcb) (uf_fd file); Ok (true, set_files pcb (openFileTable pcb) m).

Definition PCB_closeFile (pcb : PCB) (users : gmap positive UserOpenFile) (fd : Z)
    : outcome (PCB * gmap positive UserOpenFile) :=
  m ← BitMap_Clear (openFileMap pcb) fd;
  e ← arr_get (openFileTable pcb) fd;
  users ← match e with
          | Uninit => Undef
          | Null => Ok users
          | Ptr p => _ ← deref (users !! p); Ok (delete p users)
          end;
  t ← arr_set (openFileTable pcb) fd Null;
  Ok (set_files pcb t m, users).
End process.

(** ** The table of open files as a map *)

(** The name of the file with descriptor [i]. *)
Definition fd_name (pm : ProcessManager) (i : Z) : option (list Z) :=
  if bm_bit (sysOpenFileMap pm) i then
    match sysOpenFileTable pm !! Z.to_nat i with
    | Some (Ptr p) => sf_fileName <$> sysFiles pm !! p
    | _ => None
    end
  else None.

Record sys_ok (pm : ProcessManager) : Prop := {
  sk_wf : bm_wf (sysOpenFileMap pm);
  sk_bits : numBits (sysOpenFileMap pm) = 20;
  sk_table : length (sysOpenFileTable pm) = 20%nat;
  sk_locks : fsLock pm = replicate 20 false;
  sk_std : bm_bit (sysOpenFileMap pm) 0 = true /\ bm_bit (sysOpenFileMap pm) 1 = true;
  sk_entry i : 2 <= i < 20 -> bm_bit (sysOpenFileMap pm) i = true ->
    exists p s, sysOpenFileTable pm !! Z.to_nat i = Some (Ptr p) /\ sysFiles pm !! p = Some s /\ sf_fd s = i;
  sk_unique i j name : 2 <= i < 20 -> 2 <= j < 20 -> fd_name pm i = Some name -> fd_name pm j = Some name -> i = j }.

Lemma fd_name_some pm i : sys_ok pm -> 2 <= i < 20 -> bm_bit (sysOpenFileMap pm) i = true ->
  exists p s, sysOpenFileTable pm !! Z.to_nat i = Some (Ptr p) /\ sysFiles pm !! p = Some s /\ sf_fd s = i /\
    sys_entry pm i = Ok s /\ fd_name pm i = Some (sf_fileName s).
Proof.
  intros Hok Hi Hb. destruct (sk_entry pm Hok i Hi Hb) as (p & s & Ht & Hs & Hfd). exists p, s. split_and!; try done.
  - unfold sys_entry. rewrite (proj2 (arr_get_ok _ i (Ptr p))) by (split; [lia|done]). simpl. by rewrite Hs.
  - unfold fd_name. by rewrite Hb, Ht, Hs.
Qed.

Lemma fd_name_bit pm i name : fd_name pm i = Some name -> bm_bit (sysOpenFileMap pm) i = true.
Proof. unfold fd_name. by destruct (bm_bit _ i). Qed.

(** The search finds the descriptor of the name. *)
Lemma getFD_loop_spec pm name n : sys_ok pm -> forall i, 2 <= i -> i + Z.of_nat n = 20 ->
  (exists j, i <= j < 20 /\ getFD_loop n i pm name = Ok j /\ fd_name pm j = Some name) \/
  (getFD_loop n i pm name = Ok (-1) /\ forall j, i <= j < 20 -> fd_name pm j <> Some name).
Proof.
  intros Hok. induction n as [|n IH]; intros i Hi Hin; cbn [getFD_loop]; [right; split; [done|lia]|].
  rewrite BitMap_Test_bit by (apply Hok || (rewrite (sk_bits _ Hok); lia)). cbn [mbind outcome_bind].
  destruct (IH (i + 1)) as [(j & Hj & Hrun & Hname)|[Hrun Hnone]]; [lia|lia|..];
    destruct (bm_bit (sysOpenFileMap pm) i) eqn:Hb; cbn [mbind outcome_bind].
  - destruct (fd_name_some pm i Hok) as (p & s & _ & _ & _ & -> & Hn); [lia|done|]. cbn [mbind outcome_bind].
    unfold strcmp_equal. case_bool_decide as Heq; [left; exists i; rewrite Hn, Heq; split_and!; (done || lia)|].
    left. exists j. split_and!; (done || lia).
  - left. exists j. split_and!; (done || lia).
  - destruct (fd_name_some pm i Hok) as (p & s & _ & _ & _ & -> & Hn); [lia|done|]. cbn [mbind outcome_bind].
    unfold strcmp_equal. case_bool_decide as Heq; [left; exists i; rewrite Hn, Heq; split_and!; (done || lia)|].
    right. split; [done|]. intros j Hj. destruct (decide (j = i)) as [->|Hne]; [rewrite Hn; congruence|apply Hnone; lia].
  - right. split; [done|]. intros j Hj. destruct (decide (j = i)) as [->|Hne]; [|apply Hnone; lia].
    unfold fd_name. by rewrite Hb.
Qed.

Lemma getFD_spec pm name : sys_ok pm ->
  (exists j, 2 <= j < 20 /\ getFD pm name = Ok j /\ fd_name pm j = Some name) \/
  (getFD pm name = Ok (-1) /\ forall j, 2 <= j < 20 -> fd_name pm j <> Some name).
Proof. intros Hok. apply (getFD_loop_spec pm name 18 Hok 2); lia. Qed.

(** A new entry for a name that is not open, at a descriptor that is free. *)
Lemma store_new_ok pm openFile name fd m' :
  sys_ok pm -> (forall j, 2 <= j < 20 -> fd_name pm j <> Some name) -> 2 <= fd < 20 ->
  bm_bit (sysOpenFileMap pm) fd = false -> bm_wf m' -> numBits m' = 20 ->
  (forall j, 0 <= j -> bm_bit m' j = bool_decide (fd = j) || bm_bit (sysOpenFileMap pm) j) ->
  exists p pm', store_new pm openFile name fd m' = Ok (p, pm') /\ sys_ok pm' /\
    sysFiles pm' !! p = Some (SysOpenFile_new openFile name fd) /\
    sysOpenFileTable pm' !! Z.to_nat fd = Some (Ptr p) /\
    (forall j, 2 <= j < 20 -> fd_name pm' j = if decide (j = fd) then Some name else fd_name pm j).
Proof.
  intros Hok Hnone Hfd Hfree Hwf Hbits Hu. pose proof (sk_table _ Hok) as Hl. unfold store_new.
  rewrite arr_set_in by lia. cbn [mbind outcome_bind]. set (p := fresh (dom (sysFiles pm))).
  assert (sysFiles pm !! p = None) as Hp by (apply not_elem_of_dom, is_fresh).
  set (pm' := set_sys _ _ _ _). exists p, pm'. split; [done|].
  assert (forall i q s, 2 <= i < 20 -> sysFiles pm !! q = Some s -> sysFiles pm' !! q = Some s) as Hkeep.
  { intros i q s _ Hq. unfold pm'. simpl. rewrite lookup_insert_ne by congruence. done. }
  assert (forall j, 2 <= j < 20 -> fd_name pm' j = if decide (j = fd) then Some name else fd_name pm j) as Hnames.
  { intros j Hj. unfold fd_name at 1. unfold pm' at 1 2. cbn [sysOpenFileMap sysOpenFileTable set_sys]. rewrite Hu by lia.
    case_decide as Heq.
    - subst j. rewrite bool_decide_eq_true_2 by done. simpl. rewrite list_lookup_insert_eq by lia.
      by rewrite lookup_insert_eq.
    - rewrite bool_decide_eq_false_2 by done. simpl. unfold fd_name. destruct (bm_bit (sysOpenFileMap pm) j) eqn:Hb; [|done].
      rewrite list_lookup_insert_ne by lia. destruct (sk_entry _ Hok j Hj Hb) as (q & s & -> & Hs & _).
      rewrite lookup_insert_ne by congruence. done. }
  split_and!; try done.
  - split; try done.
    + simpl. by rewrite length_insert.
    + apply Hok.
    + cbn [sysOpenFileMap pm' set_sys]. destruct (sk_std _ Hok) as [H0 H1].
      rewrite !Hu by lia. rewrite H0, H1, !orb_true_r. done.
    + intros i Hi. cbn [pm' sysOpenFileMap sysOpenFileTable sysFiles set_sys]. rewrite Hu by lia.
      intros Hb. destruct (decide (fd = i)) as [->|Hne].
      * exists p. eexists. rewrite list_lookup_insert_eq by lia. split; [done|]. by rewrite lookup_insert_eq.
      * rewrite bool_decide_eq_false_2 in Hb by done. destruct (sk_entry _ Hok i Hi Hb) as (q & s & Ht & Hs & Hf).
        exists q, s. rewrite list_lookup_insert_ne by lia. rewrite lookup_insert_ne by congruence. done.
    + intros i j nm Hi Hj. rewrite !Hnames by done. repeat case_decide; subst; try done.
      * intros [= ->] Hn. by apply Hnone in Hn.
      * intros Hn [= ->]. by apply Hnone in Hn.
      * by apply (sk_unique _ Hok).
  - unfold pm'. simpl. by rewrite lookup_insert_eq.
  - unfold pm'. simpl. by rewrite list_lookup_insert_eq by lia.
Qed.

(** A descriptor is taken when it has a name. *)
Lemma fd_name_taken pm i : sys_ok pm -> 2 <= i < 20 -> (bm_bit (sysOpenFileMap pm) i = true <-> fd_name pm i <> None).
Proof.
  intros Hok Hi. split.
  - intros Hb. destruct (fd_name_some pm i Hok Hi Hb) as (p & s & _ & _ & _ & _ & ->). done.
  - destruct (fd_name pm i) as [name|] eqn:Hn; [|done]. intros _. by apply fd_name_bit in Hn.
Qed.

(** The entry of a name that is open. *)
Lemma getOpenFile_open pm name f i : sys_ok pm -> 2 <= i < 20 -> fd_name pm i = Some name ->
  exists p s, getOpenFile pm name f = Ok (Ptr p, pm) /\ sysOpenFileTable pm !! Z.to_nat i = Some (Ptr p) /\
    sysFiles pm !! p = Some s /\ sf_fd s = i /\ sf_fileName s = name.
Proof.
  intros Hok Hi Hname. unfold getOpenFile.
  destruct (getFD_spec pm name Hok) as [(j & Hj & -> & Hn)|[_ Hno]]; [|by apply Hno in Hname].
  assert (j = i) as -> by (by apply (sk_unique _ Hok) with name). cbn [mbind outcome_bind].
  destruct (Z.eqb_spec i (-1)); [lia|]. cbn [negb].
  destruct (fd_name_some pm i Hok Hi (fd_name_bit _ _ _ Hname)) as (p & s & Ht & Hs & Hfd & _ & Hn').
  rewrite (proj2 (arr_get_ok _ i (Ptr p))) by (split; [lia|done]). exists p, s. split_and!; try done. congruence.
Qed.

(** A name that is not open gets an entry at the smallest free descriptor. *)
Lemma getOpenFile_new pm name f : sys_ok pm -> (forall j, 2 <= j < 20 -> fd_name pm j <> Some name) ->
  (exists i p pm', 2 <= i < 20 /\ bm_bit (sysOpenFileMap pm) i = false /\
     (forall j, 0 <= j < i -> bm_bit (sysOpenFileMap pm) j = true) /\
     getOpenFile pm name f = Ok (Ptr p, pm') /\ sys_ok pm' /\
     sysFiles pm' !! p = Some (SysOpenFile_new f name i) /\ sysOpenFileTable pm' !! Z.to_nat i = Some (Ptr p) /\
     (forall j, 2 <= j < 20 -> fd_name pm' j = if decide (j = i) then Some name else fd_name pm j)) \/
  ((forall j, 0 <= j < 20 -> bm_bit (sysOpenFileMap pm) j = true) /\ getOpenFile pm name f = Ok (Null, pm)).
Proof.
  intros Hok Hnone. pose proof (sk_bits _ Hok) as Hbits. unfold getOpenFile.
  destruct (getFD_spec pm name Hok) as [(j & Hj & _ & Hn)|[-> _]]; [by apply Hnone in Hn|].
  change (negb (-1 =? -1)) with false. cbn [mbind outcome_bind].
  destruct (BitMap_Find_cases (sysOpenFileMap pm) (sk_wf _ Hok))
    as [(k & m' & -> & Hwf & Hnb & Hk & Hfree & Hbelow & Hu)|[-> Hall]]; cbn [mbind outcome_bind].
  - left. assert (2 <= k) as Hk2.
    { destruct (sk_std _ Hok) as [H0 H1]. destruct (decide (k = 0)) as [->|]; [congruence|].
      destruct (decide (k = 1)) as [->|]; [congruence|lia]. }
    destruct (Z.eqb_spec k (-1)); [lia|].
    destruct (store_new_ok pm f name k m') as (p & pm' & -> & Hok' & Hs & Ht & Hnames); try done; try lia.
    exists k, p, pm'. split_and!; try done; lia.
  - right. change (-1 =? -1) with true. cbv iota. split; [|done]. intros j Hj. apply Hall. lia.
Qed.

(** The last user of an entry closes it. *)
Lemma closeFile_last pm fd p s :
  sys_ok pm -> 2 <= fd < 20 -> bm_bit (sysOpenFileMap pm) fd = true ->
  sysOpenFileTable pm !! Z.to_nat fd = Some (Ptr p) -> sysFiles pm !! p = Some s -> sf_fd s = fd -> sf_numUsers s = 1 ->
  exists pm', closeFile pm fd = Ok (Returns pm') /\ sys_ok pm' /\ sysFiles pm' !! p = None /\
    sysOpenFileTable pm' !! Z.to_nat fd = Some Null /\
    (forall j, 2 <= j < 20 -> fd_name pm' j = if decide (j = fd) then None else fd_name pm j).
Proof.
  intros Hok Hfd Hb Ht Hs Hsfd Hn. pose proof (sk_locks _ Hok) as Hlk. pose proof (sk_table _ Hok) as Hl. unfold closeFile.
  rewrite Hlk, (proj2 (arr_get_ok (replicate 20 false) fd false)) by (split; [lia|apply lookup_replicate; split; [done|lia]]).
  cbn [mbind outcome_bind]. rewrite arr_set_in by (rewrite length_replicate; lia). cbn [mbind outcome_bind].
  cbn [sysOpenFileTable set_fsLock]. rewrite (proj2 (arr_get_ok (sysOpenFileTable pm) fd (Ptr p))) by (split; [lia|done]).
  cbn [mbind outcome_bind sysFiles set_fsLock]. rewrite Hs. cbn [deref mbind outcome_bind]. rewrite Hn.
  change (sf_numUsers _ =? 0) with true. cbv iota. cbn [sysOpenFileTable sysOpenFileMap sysFiles set_fsLock].
  rewrite arr_set_in by lia. cbn [mbind outcome_bind].
  destruct (BitMap_Clear_bit (sysOpenFileMap pm) fd) as (m & -> & Hwf & Hbits & Hu);
    [apply Hok|rewrite (sk_bits _ Hok); lia|]. cbn [mbind outcome_bind fsLock set_sys set_fsLock].
  rewrite arr_set_in by (rewrite length_insert, length_replicate; lia). cbn [mbind outcome_bind].
  rewrite list_insert_insert_eq, (list_insert_id (replicate 20 false) (Z.to_nat fd) false) by (apply lookup_replicate; split; [done|lia]).
  set (pm' := set_fsLock _ _). exists pm'. split; [done|].
  assert (forall j q t, 2 <= j < 20 -> j <> fd -> sysOpenFileTable pm !! Z.to_nat j = Some (Ptr q) -> sysFiles pm !! q = Some t ->
    sf_fd t = j -> sysFiles pm' !! q = Some t) as Hkeep.
  { intros j q t Hj Hne _ Hq Htj. unfold pm'. simpl. rewrite lookup_delete_ne; [done|]. intros ->. congruence. }
  assert (forall j, 2 <= j < 20 -> fd_name pm' j = if decide (j = fd) then None else fd_name pm j) as Hnames.
  { intros j Hj. unfold fd_name at 1. unfold pm' at 1 2. cbn [sysOpenFileMap sysOpenFileTable set_sys set_fsLock]. rewrite Hu by lia.
    case_decide as Heq; [subst j; by rewrite bool_decide_eq_true_2|].
    rewrite bool_decide_eq_false_2 by congruence. simpl. unfold fd_name.
    destruct (bm_bit (sysOpenFileMap pm) j) eqn:Hbj; [|done]. rewrite list_lookup_insert_ne by lia.
    destruct (sk_entry _ Hok j Hj Hbj) as (q & t & Htj & Hq & Hf). rewrite Htj.
    pose proof (Hkeep j q t Hj Heq Htj Hq Hf) as Hk. simpl in Hk. by rewrite Hk, Hq. }
  split_and!; try done.
  - split; try done.
    + simpl. rewrite Hbits. apply Hok.
    + simpl. by rewrite length_insert.
    + cbn [sysOpenFileMap pm' set_sys set_fsLock]. destruct (sk_std _ Hok) as [H0 H1]. rewrite !Hu by lia.
      rewrite !bool_decide_eq_false_2 by lia. by rewrite H0, H1.
    + intros i Hi. cbn [pm' sysOpenFileMap sysOpenFileTable set_sys set_fsLock]. rewrite Hu by lia.
      intros [Hne%negb_true_iff%bool_decide_eq_false Hbi]%andb_true_iff.
      destruct (sk_entry _ Hok i Hi Hbi) as (q & t & Hti & Hq & Hf). exists q, t.
      rewrite list_lookup_insert_ne by lia. split; [done|]. split; [by apply (Hkeep i)|done].
    + intros i j nm Hi Hj. rewrite !Hnames by done. repeat case_decide; try done. by apply (sk_unique _ Hok).
  - unfold pm'. simpl. apply lookup_delete_eq.
  - unfold pm'. simpl. by rewrite list_lookup_insert_eq by lia.
Qed.

(** ** A table with one open file *)

Definition demo_pm (users : Z) (held : bool) : ProcessManager :=
  mkPM (mkBitMap 10 1 [3]) (replicate 10 Uninit) (replicate 10 false) (replicate 10 false)
    (<[2%nat := held]> (replicate 20 false)) (replicate 10 0)
    (<[2%nat := Ptr 1]> (replicate 20 Uninit)) (mkBitMap 20 1 [7])
    {[ 1%positive := mkSys (Some 1%positive) 2 [97; 98] users ]}.

Lemma demo_pm_ok users : sys_ok (demo_pm users false).
Proof.
  split; try done.
  - split; [done|]. split; [done|]. split; [done|]. forall_lia.
  - intros i Hi Hb. assert (i = 2) as ->.
    { destruct (decide (i = 2)) as [|Hne]; [done|]. exfalso.
      assert (forallb (fun j => negb (bm_bit (mkBitMap 20 1 [7]) j)) (seqZ 3 17) = true) as Hall by (vm_compute; reflexivity).
      rewrite forallb_forall in Hall. specialize (Hall i). rewrite <- list_elem_of_In, elem_of_seqZ in Hall.
      simpl in Hb. rewrite Hb in Hall. by discriminate Hall; lia. }
    by eexists _, _.
  - intros i j name Hi Hj Hni Hnj.
    assert (forallb (fun j => bool_decide (fd_name (demo_pm users false) j = None)) (seqZ 3 17) = true) as Hall
      by (vm_compute; reflexivity).
    rewrite forallb_forall in Hall. pose proof (Hall i) as Hi'. pose proof (Hall j) as Hj'.
    rewrite <- list_elem_of_In, elem_of_seqZ, Hni in Hi'. rewrite <- list_elem_of_In, elem_of_seqZ, Hnj in Hj'.
    destruct (decide (i = 2)), (decide (j = 2)); try lia; exfalso;
      [by discriminate Hj'; lia|by discriminate Hi'; lia|by discriminate Hi'; lia].
Qed.

(** ** Properties *)

(** The table of open files is a map from descriptors to names. [getOpenFile] of a name that
    is open gives the entry it has and changes nothing. For another name it makes a new
    entry at the smallest free descriptor, which is at least 2, and leaves the others
    alone; when all twenty are taken it gives NULL and changes nothing. The table stays
    well formed: descriptors in use have live entries and no name has two of them. *)
Theorem open_table_refines pm name f :
  sys_ok pm ->
  (forall i, 2 <= i < 20 -> fd_name pm i = Some name ->
   exists p s, getOpenFile pm name f = Ok (Ptr p, pm) /\ sysFiles pm !! p = Some s /\ sf_fd s = i /\ sf_fileName s = name) /\
  ((forall j, 2 <= j < 20 -> fd_name pm j <> Some name) ->
   (exists i p pm', 2 <= i < 20 /\ bm_bit (sysOpenFileMap pm) i = false /\
      (forall j, 0 <= j < i -> bm_bit (sysOpenFileMap pm) j = true) /\
      getOpenFile pm name f = Ok (Ptr p, pm') /\ sys_ok pm' /\
      sysFiles pm' !! p = Some (SysOpenFile_new f name i) /\
      (forall j, 2 <= j < 20 -> fd_name pm' j = if decide (j = i) then Some name else fd_name pm j)) \/
   ((forall j, 0 <= j < 20 -> bm_bit (sysOpenFileMap pm) j = true) /\ getOpenFile pm name f = Ok (Null, pm))).
Proof.
  intros Hok. split.
  - intros i Hi Hname. destruct (getOpenFile_open pm name f i Hok Hi Hname) as (p & s & Hrun & _ & Hs & Hfd & Hn).
    by exists p, s.
  - intros Hnone. destruct (getOpenFile_new pm name f Hok Hnone)
      as [(i & p & pm' & Hi & Hfree & Hbelow & Hrun & Hok' & Hs & _ & Hnames)|Hfull]; [left|by right].
    by exists i, p, pm'.
Qed.

Lemma open_table_refines_witness :
  exists p pm', getOpenFile (demo_pm 1 false) [120] None = Ok (Ptr p, pm') /\ fd_name pm' 3 = Some [120].
Proof.
  destruct (open_table_refines (demo_pm 1 false) [120] None) as [_ Hnew]; [exact (demo_pm_ok 1)|].
  destruct Hnew as [(i & p & pm' & Hi & Hfree & Hbelow & Hrun & _ & _ & Hn)|[Hall _]].
  - intros j Hj Hname. apply fd_name_bit in Hname as Hb.
    destruct (sk_entry _ (demo_pm_ok 1) j Hj Hb) as (p & s & Ht & Hs & Hfd).
    unfold fd_name in Hname. rewrite Hb, Ht, Hs in Hname. simpl in Hs. apply lookup_singleton_Some in Hs as [_ <-]. discriminate Hname.
  - exists p, pm'. split; [exact Hrun|]. assert (i = 3) as ->.
    { destruct (decide (i < 3)) as [Hlt|]; [|destruct (decide (3 < i)) as [Hgt|]; [|lia]].
      - assert (i = 2) as -> by lia. discriminate Hfree.
      - specialize (Hbelow 3). discriminate Hbelow. lia. }
    rewrite Hn by lia. reflexivity.
  - specialize (Hall 3). discriminate Hall. lia.
Defined.

(** Closing. When the count of users of an entry is 1 the entry is deleted, its descriptor
    is free again, and every other descriptor is as before. A second process that opens
    the same name gets the same entry and is not counted, so that the first close deletes
    it under the other process: the pointer that this one holds is dead. *)
Theorem closeFile_deletes pm fd name f :
  sys_ok pm -> 2 <= fd < 20 -> fd_name pm fd = Some name ->
  exists p s, sysOpenFileTable pm !! Z.to_nat fd = Some (Ptr p) /\ sysFiles pm !! p = Some s /\
    getOpenFile pm name f = Ok (Ptr p, pm) /\
    (sf_numUsers s = 1 ->
     exists pm', closeFile pm fd = Ok (Returns pm') /\ sys_ok pm' /\ sysFiles pm' !! p = None /\
       (forall j, 2 <= j < 20 -> fd_name pm' j = if decide (j = fd) then None else fd_name pm j)).
Proof.
  intros Hok Hfd Hname. pose proof (fd_name_bit _ _ _ Hname) as Hb.
  destruct (getOpenFile_open pm name f fd Hok Hfd Hname) as (p & s & Hrun & Ht & Hs & Hsfd & Hn).
  exists p, s. split; [done|]. split; [done|]. split; [done|]. intros Hone.
  destruct (closeFile_last pm fd p s) as (pm' & Hrun' & Hok' & Hdead & _ & Hnames); try done. by exists pm'.
Qed.

Lemma closeFile_deletes_witness :
  exists p pm', getOpenFile (demo_pm 1 false) [97; 98] None = Ok (Ptr p, demo_pm 1 false) /\
    closeFile (demo_pm 1 false) 2 = Ok (Returns pm') /\ sysFiles pm' !! p = None.
Proof.
  destruct (closeFile_deletes (demo_pm 1 false) 2 [97; 98] None) as (p & s & Ht & Hs & Hget & Hclose).
  - exact (demo_pm_ok 1).
  - lia.
  - reflexivity.
  - destruct Hclose as (pm' & Hrun & _ & Hdead & _).
    + simpl in Hs. apply lookup_singleton_Some in Hs as [_ <-]. reflexivity.
    + exists p, pm'. split; [exact Hget|]. split; [exact Hrun|exact Hdead].
Defined.

(** Closing a descriptor whose entry is NULL, as after an earlier close, returns without
    releasing the lock of the descriptor: every later close of it blocks. *)
Theorem closeFile_twice pm fd :
  0 <= fd -> fsLock pm !! Z.to_nat fd = Some false -> sysOpenFileTable pm !! Z.to_nat fd = Some Null ->
  exists pm', closeFile pm fd = Ok (Returns pm') /\ fsLock pm' !! Z.to_nat fd = Some true /\
    closeFile pm' fd = Ok Blocks.
Proof.
  intros Hfd Hl Ht. pose proof (lookup_lt_Some _ _ _ Hl) as Hlt. unfold closeFile at 1.
  rewrite (proj2 (arr_get_ok (fsLock pm) fd false)) by done. cbn [mbind outcome_bind].
  rewrite arr_set_in by lia. cbn [mbind outcome_bind sysOpenFileTable set_fsLock].
  rewrite (proj2 (arr_get_ok (sysOpenFileTable pm) fd Null)) by done. cbn [mbind outcome_bind].
  eexists. split; [done|]. cbn [fsLock set_fsLock]. rewrite list_lookup_insert_eq by lia. split; [done|].
  unfold closeFile. cbn [fsLock set_fsLock].
  rewrite (proj2 (arr_get_ok (<[_ := true]> (fsLock pm)) fd true)); [done|]. split; [done|]. by apply list_lookup_insert_eq.
Qed.

Lemma closeFile_twice_witness :
  exists pm1 pm2, closeFile (demo_pm 1 false) 2 = Ok (Returns pm1) /\ closeFile pm1 2 = Ok (Returns pm2) /\
    closeFile pm2 2 = Ok Blocks.
Proof.
  destruct (closeFile (demo_pm 1 false) 2) as [[pm1|]| | |] eqn:Hrun; try (vm_compute in Hrun; discriminate Hrun).
  exists pm1. destruct (closeFile_twice pm1 2) as (pm2 & H1 & _ & H2).
  - lia.
  - vm_compute in Hrun. injection Hrun as <-. reflexivity.
  - vm_compute in Hrun. injection Hrun as <-. reflexivity.
  - exists pm2. split; [reflexivity|]. split; [exact H1|exact H2].
Defined.

(** Process identifiers: [getPID] gives the smallest one that is not in use, takes it and
    creates its condition and its lock; with all ten in use it writes outside of its
    tables. *)
Theorem getPID_unique pm :
  bm_wf (pm_bitmap pm) -> numBits (pm_bitmap pm) = 10 ->
  length (conditionTable pm) = 10%nat -> length (lockTable pm) = 10%nat ->
  (exists pid pm', getPID pm = Ok (pid, pm') /\ 0 <= pid < 10 /\ bm_bit (pm_bitmap pm) pid = false /\
     (forall j, 0 <= j < pid -> bm_bit (pm_bitmap pm) j = true) /\
     (forall j, 0 <= j -> bm_bit (pm_bitmap pm') j = bool_decide (pid = j) || bm_bit (pm_bitmap pm) j) /\
     conditionTable pm' !! Z.to_nat pid = Some true /\ lockTable pm' !! Z.to_nat pid = Some true) \/
  ((forall j, 0 <= j < 10 -> bm_bit (pm_bitmap pm) j = true) /\ getPID pm = Undef).
Proof.
  intros Hwf Hn Hc Hlk. unfold getPID.
  destruct (BitMap_Find_cases (pm_bitmap pm) Hwf) as [(k & m' & -> & Hwf' & Hnb & Hk & Hfree & Hbelow & Hu)|[-> Hall]];
    cbn [mbind outcome_bind].
  - left. rewrite arr_set_in by lia. cbn [mbind outcome_bind]. rewrite arr_set_in by lia. cbn [mbind outcome_bind].
    eexists k, _. split; [done|]. cbn [pm_bitmap conditionTable lockTable].
    rewrite !list_lookup_insert_eq by lia. split_and!; try done; lia.
  - right. rewrite arr_set_out by lia. split; [|done]. intros j Hj. apply Hall. lia.
Qed.

Lemma getPID_unique_witness :
  exists pm', getPID (demo_pm 1 false) = Ok (2, pm').
Proof.
  destruct (getPID_unique (demo_pm 1 false)) as [(pid & pm' & Hrun & _)|[Hall _]].
  - split; [discriminate|]. split; [reflexivity|]. split; [reflexivity|]. forall_lia.
  - reflexivity.
  - reflexivity.
  - reflexivity.
  - exists pm'. assert (pid = 2) as -> by (vm_compute in Hrun; congruence). exact Hrun.
  - specialize (Hall 5). discriminate Hall. lia.
Defined.
