(* ===== verification/Join.v ===== *)
(** * userprog/processManager.cc: waiting for a process

    [join] waits on the condition of a process and [clearPID], which the destructor of the
    process's [PCB] calls, wakes all who wait. This is the part of [ProcessManager] that
    Process.v leaves out, with the conditions and locks of Synch.v. A routine that acquires
    a lock is a definition for an iteration of [Acquire] and one for what follows it. *)

From stdpp Require Import prelude numbers gmap list.
From S2P Require Import Prelude Params CList BitMap Interrupt Threads Synch FileHdr Directory OpenFile Process.

Open Scope Z_scope.

(** [None] is an entry that [getPID] has not set. *)
Record waits := mkWaits {
  wt_bitmap : BitMap;
  wt_pcbs : list ptr;
  wt_conditions : list (option (queue positive));
  wt_locks : list (option Lock);
  wt_status : list Z }.

Definition get_lock (w : waits) (pid : Z) : outcome Lock := l ← arr_get (wt_locks w) pid; deref l.
Definition get_condition (w : waits) (pid : Z) : outcome (queue positive) := c ← arr_get (wt_conditions w) pid; deref c.
Definition set_wait (w : waits) (pid : Z) (c : queue positive) (l : Lock) : waits :=
  mkWaits (wt_bitmap w) (wt_pcbs w) (<[Z.to_nat pid := Some c]> (wt_conditions w))
    (<[Z.to_nat pid := Some l]> (wt_locks w)) (wt_status w).

(** [lockTable[pid]->Acquire()], one iteration. *)
Definition acquire (k : kstate) (w : waits) (pid : Z) : outcome (bool * kstate * waits) :=
  l ← get_lock w pid;
  c ← get_condition w pid;
  '(done, k, l) ← Lock_Acquire_loop k l;
  Ok (done, k, set_wait w pid c l).

(** [join] after [Acquire]: the caller sleeps, or, when it does not hold the lock that is in the
    table now, [Wait] returns at once (false). *)
Definition join_wait (k : kstate) (w : waits) (pid : Z) : outcome (bool * kstate * waits) :=
  l ← get_lock w pid;
  c ← get_condition w pid;
  r ← Condition_Wait k c l;
  match r with
  | None => Ok (false, k, w)
  | Some (k, c, l) => Ok (true, k, set_wait w pid c l)
  end.

(** [join] after [Wait]: the result. *)
Definition join_end (k : kstate) (w : waits) (pid : Z) : outcome (Z * kstate * waits) :=
  l ← get_lock w pid;
  c ← get_condition w pid;
  '(k, l) ← Lock_Release k l;
  status ← arr_get (wt_status w) pid;
  Ok (status, k, set_wait w pid c l).

(** [clearPID] up to [Acquire]. *)
Definition clearPID_begin (w : waits) (pid : Z) : outcome waits :=
  m ← BitMap_Clear (wt_bitmap w) pid;
  Ok (mkWaits m (wt_pcbs w) (wt_conditions w) (wt_locks w) (wt_status w)).

(** [clearPID] after [Acquire]. *)
Definition clearPID_end (k : kstate) (w : waits) (pid : Z) : outcome (kstate * waits) :=
  l ← get_lock w pid;
  c ← get_condition w pid;
  '(k, c) ← Condition_Broadcast k c l;
  '(k, l) ← Lock_Release k l;
  let w := set_wait w pid c l in
  p ← arr_set (wt_pcbs w) pid Null;
  Ok (k, mkWaits (wt_bitmap w) p (wt_conditions w) (wt_locks w) (wt_status w)).

Definition exit_status (w : waits) (pid exitStatus : Z) : outcome waits :=
  r ← arr_set (wt_status w) pid exitStatus;
  Ok (mkWaits (wt_bitmap w) (wt_pcbs w) (wt_conditions w) (wt_locks w) r).

(** ** Invariant *)

Record waits_ok (w : waits) : Prop := {
  wo_wf : bm_wf (wt_bitmap w);
  wo_bits : numBits (wt_bitmap w) = 10;
  wo_sizes : length (wt_pcbs w) = 10%nat /\ length (wt_conditions w) = 10%nat /\ length (wt_locks w) = 10%nat /\
    length (wt_status w) = 10%nat }.

(** Process [pid] has the condition [c] and the lock [l]. *)
Definition at_pid (w : waits) (pid : Z) (c : queue positive) (l : Lock) : Prop :=
  0 <= pid < 10 /\ wt_conditions w !! Z.to_nat pid = Some (Some c) /\ wt_locks w !! Z.to_nat pid = Some (Some l).

Lemma at_pid_get w pid c l : at_pid w pid c l -> get_lock w pid = Ok l /\ get_condition w pid = Ok c.
Proof.
  intros (Hp & Hc & Hl). unfold get_lock, get_condition. rewrite (proj2 (arr_get_ok _ pid (Some l))) by (split; [lia|done]).
  by rewrite (proj2 (arr_get_ok _ pid (Some c))) by (split; [lia|done]).
Qed.

Lemma at_pid_set w pid c l c' l' : waits_ok w -> at_pid w pid c l -> at_pid (set_wait w pid c' l') pid c' l'.
Proof.
  intros Hw (Hp & _). destruct (wo_sizes _ Hw) as (_ & Hc & Hl & _). split; [done|]. simpl.
  by rewrite !list_lookup_insert_eq by lia.
Qed.

(** Waking one queue leaves the threads of another one blocked. *)
Lemma wake_all_queue q q' : forall k, kernel_ok k -> queued_ok k (q ++ q') ->
  exists k', wake_all k q = Ok k' /\ kernel_ok k' /\ queued_ok k' q' /\ (readyList k').*2 = (readyList k).*2 ++ q.*2 /\
    currentThread k' = currentThread k /\ (forall t, t ∉ q.*2 -> status_of k' t = status_of k t).
Proof.
  induction q as [|[z t] q IH]; intros k Hk Hq; cbn [wake_all wake].
  { exists k. rewrite app_nil_r. done. }
  destruct (queued_wake k z t (q ++ q') Hk Hq) as (k1 & -> & Hk1 & Hq1 & Hr1 & Hc1 & _ & _ & Hst1). cbn [mbind outcome_bind].
  destruct (IH k1 Hk1 Hq1) as (k' & Hw & Hk' & Hq' & Hr & Hc & Hst). exists k'. split_and!; try done; [|congruence|].
  - rewrite Hr, Hr1. by rewrite <- app_assoc.
  - intros t' Ht'. simpl in Ht'. apply not_elem_of_cons in Ht' as [Hne Hnin]. rewrite Hst by done. by apply Hst1.
Qed.

(** [clearPID] with the lock held; the threads of the queue [r] stay where they are. *)
Lemma clearPID_end_ok k w pid c l r :
  kernel_ok k -> waits_ok w -> at_pid w pid c l -> owner l = Some (currentThread k) ->
  queued_ok k (c ++ lk_queue l ++ r) ->
  exists k' w', clearPID_end k w pid = Ok (k', w') /\ kernel_ok k' /\ waits_ok w' /\
    wt_bitmap w' = wt_bitmap w /\ wt_status w' = wt_status w /\
    (readyList k').*2 = (readyList k).*2 ++ c.*2 ++ take 1 (lk_queue l).*2 /\
    at_pid w' pid [] (mkLock false None (q_remove (lk_queue l)).2) /\
    queued_ok k' ((q_remove (lk_queue l)).2 ++ r) /\ currentThread k' = currentThread k /\
    (forall t, t ∉ (c ++ lk_queue l).*2 -> status_of k' t = status_of k t) /\
    wt_pcbs w' = <[Z.to_nat pid := Null]> (wt_pcbs w) /\
    wt_conditions w' = <[Z.to_nat pid := Some []]> (wt_conditions w) /\
    wt_locks w' = <[Z.to_nat pid := Some (mkLock false None (q_remove (lk_queue l)).2)]> (wt_locks w).
Proof.
  intros Hk Hw Hat Ho Hq. pose proof Hw as [Hwf Hbits (Hs1 & Hs2 & Hs3 & Hs4)]. pose proof Hat as (Hp & _).
  unfold clearPID_end. destruct (at_pid_get w pid c l Hat) as [-> ->]. cbn [mbind outcome_bind].
  unfold Condition_Broadcast, isHeldByCurrentThread. rewrite bool_decide_eq_true_2 by done. cbn [negb].
  destruct (wake_all_queue c (lk_queue l ++ r) k Hk Hq) as (k1 & -> & Hk1 & Hq1 & Hr1 & Hc1 & Hst1).
  cbn [mbind outcome_bind].
  destruct (Release_effect k1 r l) as (k' & -> & Hk' & Hq' & Hr' & Hc' & _ & Hst'); [done|done|by rewrite Hc1|].
  cbn [mbind outcome_bind]. set (l' := mkLock false None _). rewrite arr_set_in by (simpl; lia). cbn [mbind outcome_bind].
  eexists k', _. split; [done|]. split; [done|]. split_and!; try done.
  - split; simpl; [done|done|]. by rewrite !length_insert.
  - rewrite Hr', Hr1. by rewrite <- app_assoc.
  - exact (at_pid_set w pid c l [] l' Hw Hat).
  - congruence.
  - intros t Ht. rewrite fmap_app in Ht. apply not_elem_of_app in Ht as [? ?]. rewrite Hst' by done. by apply Hst1.
Qed.

(** [join] returns the stored status. *)
Lemma join_end_ok j w pid c q s :
  at_pid w pid c (mkLock true (Some (currentThread j)) q) -> kernel_ok j -> queued_ok j q ->
  wt_status w !! Z.to_nat pid = Some s -> exists j' w', join_end j w pid = Ok (s, j', w').
Proof.
  intros Hat Hj Hq Hs. pose proof Hat as (Hp & _). unfold join_end. destruct (at_pid_get _ _ _ _ Hat) as [-> ->].
  cbn [mbind outcome_bind]. destruct (Release_effect j [] (mkLock true (Some (currentThread j)) q)) as (j' & -> & _);
    [done|by rewrite app_nil_r|done|]. cbn [mbind outcome_bind].
  rewrite (proj2 (arr_get_ok _ pid s)) by (split; [lia|done]). by eexists _, _.
Qed.

(** ** Properties *)

(** Exit and join. The thread of an exiting process stores the status, frees the process
    identifier and, with the process's lock, makes all threads ready that wait in [join]
    for it, in the order in which they began to wait, and releases the lock. When one of
    them has the lock again, [join] returns that status. *)
Theorem exit_wakes_joiners k w pid c l exitStatus :
  kernel_ok k -> waits_ok w -> at_pid w pid c l -> bm_bit (wt_bitmap w) pid = true ->
  owner l = Some (currentThread k) -> queued_ok k (c ++ lk_queue l) ->
  exists w1 w2 k' w', exit_status w pid exitStatus = Ok w1 /\ clearPID_begin w1 pid = Ok w2 /\
    clearPID_end k w2 pid = Ok (k', w') /\ kernel_ok k' /\ waits_ok w' /\ bm_bit (wt_bitmap w') pid = false /\
    (readyList k').*2 = (readyList k).*2 ++ c.*2 ++ take 1 (lk_queue l).*2 /\
    at_pid w' pid [] (mkLock false None (q_remove (lk_queue l)).2) /\
    (forall j w3 c3 q3, wt_status w3 = wt_status w' -> at_pid w3 pid c3 (mkLock true (Some (currentThread j)) q3) ->
       kernel_ok j -> queued_ok j q3 -> exists j' w4, join_end j w3 pid = Ok (exitStatus, j', w4)).
Proof.
  intros Hk [Hwf Hbits (Hs1 & Hs2 & Hs3 & Hs4)] Hat Hb Ho Hq. pose proof Hat as (Hp & _).
  set (st := <[Z.to_nat pid := exitStatus]> (wt_status w)).
  destruct (BitMap_Clear_bit (wt_bitmap w) pid Hwf) as (m & Hcl & Hwf' & Hnb & Hu); [lia|].
  set (w1 := mkWaits (wt_bitmap w) (wt_pcbs w) (wt_conditions w) (wt_locks w) st).
  set (w2 := mkWaits m (wt_pcbs w) (wt_conditions w) (wt_locks w) st).
  assert (waits_ok w2) as Hw2 by (split; [done|by simpl; rewrite Hnb|simpl; unfold st; by rewrite length_insert]).
  destruct (clearPID_end_ok k w2 pid c l [] Hk Hw2 Hat Ho) as (k' & w' & Hrun & Hk' & Hw' & Hbm & Hst & Hr & Hat' & _);
    [by rewrite app_nil_r|].
  exists w1, w2, k', w'. split_and!; try done.
  - unfold exit_status. by rewrite arr_set_in by lia.
  - unfold clearPID_begin. cbn [w1 wt_bitmap]. by rewrite Hcl.
  - rewrite Hbm. simpl. rewrite Hu by lia. by rewrite bool_decide_eq_true_2.
  - intros j w3 c3 q3 Hst3 Hat3 Hj Hq3. apply (join_end_ok j w3 pid c3 q3); try done.
    rewrite Hst3, Hst. apply list_lookup_insert_eq. lia.
Qed.

(** Thread 1 of [demo_waiting] exits as process 0, for which thread 4 waits. *)
Definition demo_waits (c : queue positive) (o : option positive) : waits :=
  mkWaits (mkBitMap 10 1 [1]) (replicate 10 Uninit) (<[0%nat := Some c]> (replicate 10 None))
    (<[0%nat := Some (mkLock (bool_decide (o <> None)) o [])]> (replicate 10 None)) (replicate 10 0).

Lemma demo_waits_ok c o : waits_ok (demo_waits c o).
Proof. split; [|done|done]. split; [done|]. split; [done|]. split; [done|]. forall_lia. Qed.

Lemma exit_wakes_joiners_witness :
  let w := demo_waits [(0, 4%positive)] (Some 1%positive) in
  exists w1 w2 k' w', exit_status w 0 42 = Ok w1 /\ clearPID_begin w1 0 = Ok w2 /\
    clearPID_end demo_waiting w2 0 = Ok (k', w') /\ (readyList k').*2 = [4%positive].
Proof.
  intros w. destruct (exit_wakes_joiners demo_waiting w 0 [(0, 4%positive)] (mkLock true (Some 1%positive) []) 42)
    as (w1 & w2 & k' & w' & H1 & H2 & H3 & _ & _ & _ & Hr & _).
  - exact (proj1 demo_waiting_ok).
  - apply demo_waits_ok.
  - split; [lia|]. split; reflexivity.
  - reflexivity.
  - reflexivity.
  - exact (proj2 demo_waiting_ok).
  - exists w1, w2, k', w'. split; [exact H1|]. split; [exact H2|]. split; [exact H3|exact Hr].
Defined.

(** Joining too late. [join] does not ask whether the process still runs: for a process
    that has exited, and whose identifier is free, the caller sleeps on a condition that
    nobody will signal. *)
Theorem join_after_exit k w pid l :
  kernel_ok k -> at_pid w pid [] l -> bm_bit (wt_bitmap w) pid = false -> owner l = Some (currentThread k) ->
  status_of k (currentThread k) = Some RUNNING -> queued_ok k (lk_queue l) ->
  exists k' w', join_wait k w pid = Ok (true, k', w') /\ status_of k' (currentThread k) = Some BLOCKED /\
    wt_conditions w' = <[Z.to_nat pid := Some [(0, currentThread k)]]> (wt_conditions w) /\
    bm_bit (wt_bitmap w') pid = false.
Proof.
  intros Hk Hat Hb Ho Hrun Hq. unfold join_wait. destruct (at_pid_get _ _ _ _ Hat) as [-> ->]. cbn [mbind outcome_bind].
  destruct (Wait_effect k [] l [] Hk) as (k' & -> & _ & Hq'); [by rewrite app_nil_r|done|done|].
  cbn [mbind outcome_bind]. eexists k', _. split; [done|]. split; [|done].
  apply (proj2 Hq'). unfold q_append. rewrite fmap_app. set_solver.
Qed.

Lemma join_after_exit_witness :
  let w := mkWaits (mkBitMap 10 1 [0]) (replicate 10 Uninit) (<[0%nat := Some []]> (replicate 10 None))
    (<[0%nat := Some (mkLock true (Some 1%positive) [])]> (replicate 10 None)) (replicate 10 0) in
  exists k' w', join_wait demo_waiting w 0 = Ok (true, k', w') /\ status_of k' 1%positive = Some BLOCKED.
Proof.
  intros w. destruct (join_after_exit demo_waiting w 0 (mkLock true (Some 1%positive) [])) as (k' & w' & Hrun & Hst & _).
  - exact (proj1 demo_waiting_ok).
  - split; [lia|]. split; reflexivity.
  - reflexivity.
  - reflexivity.
  - reflexivity.
  - split; [constructor|]. intros t Ht. apply elem_of_nil in Ht. contradiction.
  - exists k', w'. split; [exact Hrun|exact Hst].
Defined.
