(* ===== verification/Syscall.v ===== *)
(** * userprog/exception.cc: the system calls on files

    A system call of a user program that works on files or on the console: the name or the
    buffer is in the program's memory, the file is found through the tables of the process
    and of the system, and the data passes through [diskBuffer] in pieces that end at page
    boundaries. [ksys] is the part of the kernel that these calls use, seen by the process
    that makes the call. The interrupt level is a member of it; what a tick does when the
    level goes up again is in Interrupt.v. The calls that switch threads ([Exit], [Exec],
    [Fork], [Join], [Yield]) and the dispatch of [ExceptionHandler] are in Kernel.v. *)

From stdpp Require Import prelude numbers list gmap.
From S2P Require Import Prelude Params BitMap Mips Machine Interrupt FileHdr Directory OpenFile FileSys AddrSpace Process.

Open Scope Z_scope.

Definition ConsoleInput : Z := 0.
Definition ConsoleOutput : Z := 1.

Record ksys := mkKsys {
  ks_machine : Machine;
  ks_buffer : list Z;                          (* [diskBuffer] *)
  ks_space : AddrSpace;                        (* [currentThread->space] *)
  ks_pcb : PCB;                                (* [currentThread->space->pcb] *)
  ks_procMgr : ProcessManager;
  ks_users : gmap positive UserOpenFile;
  ks_files : gmap positive OpenFile;
  ks_fs : FileSystem;
  ks_disk : list (list Z);
  ks_level : IntStatus;
  ks_stdin : list Z;                           (* the characters that [getchar] has not read *)
  ks_stdout : list Z }.                        (* what was printed *)

Definition set_machine (k : ksys) (m : Machine) : ksys :=
  mkKsys m (ks_buffer k) (ks_space k) (ks_pcb k) (ks_procMgr k) (ks_users k) (ks_files k) (ks_fs k) (ks_disk k)
    (ks_level k) (ks_stdin k) (ks_stdout k).
Definition set_kbuffer (k : ksys) (b : list Z) : ksys :=
  mkKsys (ks_machine k) b (ks_space k) (ks_pcb k) (ks_procMgr k) (ks_users k) (ks_files k) (ks_fs k) (ks_disk k)
    (ks_level k) (ks_stdin k) (ks_stdout k).
Definition set_tables (k : ksys) (pcb : PCB) (pm : ProcessManager) (users : gmap positive UserOpenFile) : ksys :=
  mkKsys (ks_machine k) (ks_buffer k) (ks_space k) pcb pm users (ks_files k) (ks_fs k) (ks_disk k)
    (ks_level k) (ks_stdin k) (ks_stdout k).
Definition set_files_disk (k : ksys) (files : gmap positive OpenFile) (fs : FileSystem) (disk : list (list Z)) : ksys :=
  mkKsys (ks_machine k) (ks_buffer k) (ks_space k) (ks_pcb k) (ks_procMgr k) (ks_users k) files fs disk
    (ks_level k) (ks_stdin k) (ks_stdout k).
Definition set_klevel (k : ksys) (l : IntStatus) : ksys :=
  mkKsys (ks_machine k) (ks_buffer k) (ks_space k) (ks_pcb k) (ks_procMgr k) (ks_users k) (ks_files k) (ks_fs k)
    (ks_disk k) l (ks_stdin k) (ks_stdout k).
Definition set_stdio (k : ksys) (i o : list Z) : ksys :=
  mkKsys (ks_machine k) (ks_buffer k) (ks_space k) (ks_pcb k) (ks_procMgr k) (ks_users k) (ks_files k) (ks_fs k)
    (ks_disk k) (ks_level k) i o.

(** ** Program counters *)

Definition incrementPC (m : Machine) : outcome Machine :=
  pc ← getR m PCReg;
  m ← setR m PrevPCReg pc;
  next ← getR m NextPCReg;
  m ← setR m PCReg next;
  pc ← getR m PCReg;
  setR m NextPCReg (s32 (pc + 4)).

Definition decrementPC (m : Machine) : outcome Machine :=
  pc ← getR m PCReg;
  m ← setR m NextPCReg pc;
  prev ← getR m PrevPCReg;
  m ← setR m PCReg prev;
  setR m PrevPCReg 0.

Definition jumpPC (m : Machine) (newPC : Z) : outcome Machine :=
  m ← setR m PCReg newPC;
  setR m NextPCReg (s32 (newPC + 4)).

(** ** The program's memory *)

(** [Translate( vAddr, &pAddr )] with its result ignored: when it fails, [pAddr] is used
    uninitialized. *)
Definition phys (sp : AddrSpace) (vAddr : Z) : outcome Z :=
  t ← AddrSpace_Translate sp vAddr; deref t.

(** The characters up to the first NUL; without one they run out of main memory. *)
Fixpoint c_string (l : list Z) : outcome (list Z) :=
  match l with
  | [] => Undef
  | c :: l => if c =? 0 then Ok [] else s ← c_string l; Ok (c :: s)
  end.

Definition getMemFromVAddr (sp : AddrSpace) (mem : list Z) (vAddr size : Z) : outcome (list Z) :=
  pAddr ← phys sp vAddr;
  get_bytes mem pAddr size.

Definition putMemIntoVAddr (sp : AddrSpace) (mem : list Z) (data : list Z) (vAddr : Z) : outcome (list Z) :=
  pAddr ← phys sp vAddr;
  put_bytes mem pAddr data.

Definition putString (sp : AddrSpace) (mem : list Z) (str : list Z) (vAddr : Z) : outcome (list Z) :=
  pAddr ← phys sp vAddr;
  put_bytes mem pAddr (str ++ [0]).

(** The size of the next piece of a transfer. *)
Definition piece_size (vAddr size : Z) : Z :=
  let offset := cmod vAddr PageSize in
  let copySize := if size <? PageSize then size else PageSize in
  if PageSize <=? copySize + offset then PageSize - offset else copySize.

Section syscalls.
Context `{Fresh}.
(** [slack n] is how many bytes the block that [new char[n]] returns has after the [n]th. *)
Context (slack : Z -> Z).

(** [str[size] = '\0'] writes one byte past the array of [size] characters. *)
Definition getString (sp : AddrSpace) (mem : list Z) (vAddr : Z) : outcome (list Z) :=
  pAddr ← phys sp vAddr;
  str ← (if pAddr <? 0 then Undef else c_string (drop (Z.to_nat pAddr) mem));
  let size := Z.of_nat (length str) + 1 in
  if slack size <=? 0 then Undef else Ok str.

(** ** Create, Open, Close *)

Definition myCreate (fuel : nat) (k : ksys) (vAddr : Z) : outcome ksys :=
  let oldLevel := ks_level k in
  let k := set_klevel k IntOff in
  fileName ← getString (ks_space k) (mainMemory (ks_machine k)) vAddr;
  '(_, fs, disk) ← Create fuel (ks_fs k) (ks_disk k) fileName 0;
  Ok (set_klevel (set_files_disk k (ks_files k) fs disk) oldLevel).

(** [fileSystem->Open( fileName )]: the new object, or NULL. *)
Definition open_object (k : ksys) (fileName : list Z) : outcome (option positive * ksys) :=
  o ← Open (ks_fs k) (ks_disk k) fileName;
  match o with
  | None => Ok (None, k)
  | Some f =>
      let p := fresh (dom (ks_files k)) in
      Ok (Some p, set_files_disk k (<[p := f]> (ks_files k)) (ks_fs k) (ks_disk k))
  end.

(** The second half of [myOpen]: the entries in the tables of the system and of the
    process. Without a free entry it returns before the level is set back. *)
Definition open_entry (k : ksys) (oldLevel : IntStatus) (fileName : list Z) (file : option positive) : outcome ksys :=
  '(e, pm) ← getOpenFile (ks_procMgr k) fileName file;
  let k := set_tables k (ks_pcb k) pm (ks_users k) in
  match e with
  | Uninit => Undef
  | Null => Ok k
  | Ptr p =>
      s ← deref (sysFiles pm !! p);
      '(u, pcb, users) ← PCB_getOpenFile (ks_pcb k) (ks_users k) fileName p s;
      let k := set_tables k pcb (ks_procMgr k) users in
      m ← WriteRegister (ks_machine k) 2 (sf_fd s);
      (* the arguments of [DEBUG] *)
      _ ← (if u is Ptr q then deref (users !! q) else Undef);
      Ok (set_klevel (set_machine k m) oldLevel)
  end.

Definition myOpen (fuel : nat) (k : ksys) (vAddr : Z) : outcome ksys :=
  let oldLevel := ks_level k in
  let k := set_klevel k IntOff in
  fileName ← getString (ks_space k) (mainMemory (ks_machine k)) vAddr;
  '(file, k) ← open_object k fileName;
  '(file, k) ← (if file is Some _ then Ok (file, k)
                else k ← myCreate fuel k vAddr; open_object k fileName);
  open_entry k oldLevel fileName file.

Definition myClose (k : ksys) (fd : Z) : outcome (answer ksys) :=
  let oldLevel := ks_level k in
  let k := set_klevel k IntOff in
  '(pcb, users) ← PCB_closeFile (ks_pcb k) (ks_users k) fd;
  a ← closeFile (ks_procMgr k) fd;
  match a with
  | Blocks => Ok Blocks
  | Returns pm => Ok (Returns (set_klevel (set_tables k pcb pm users) oldLevel))
  end.

(** ** Read and Write *)

(** [getchar], [n] times; at the end of the input it returns [EOF], stored as a char. *)
Fixpoint getchars (n : nat) (stdin : list Z) : list Z * list Z :=
  match n with
  | O => ([], stdin)
  | S n =>
      let '(c, stdin) := match stdin with [] => (255, []) | c :: stdin => (c, stdin) end in
      let '(cs, stdin) := getchars n stdin in (c :: cs, stdin)
  end.

(** [file->sysOpenFile->openFile] *)
Definition file_object (k : ksys) (file : UserOpenFile) : outcome (positive * OpenFile) :=
  s ← deref (sysFiles (ks_procMgr k) !! uf_sysOpenFile file);
  p ← deref (sf_openFile s);
  f ← deref (ks_files k !! p);
  Ok (p, f).

(** [currentThread->space->pcb->getOpenFile( fd )], which the code uses without a check. *)
Definition user_file (k : ksys) (fd : Z) : outcome (positive * UserOpenFile) :=
  e ← PCB_getOpenFile_fd (ks_pcb k) fd;
  match e with
  | Ptr p => u ← deref (ks_users k !! p); Ok (p, u)
  | _ => Undef
  end.

Definition set_position (k : ksys) (p : positive) (u : UserOpenFile) (position : Z) : ksys :=
  set_tables k (ks_pcb k) (ks_procMgr k)
    (<[p := mkUser (uf_fileName u) (uf_sysOpenFile u) position (uf_fd u)]> (ks_users k)).

Definition zero_buffer : list Z := replicate (Z.to_nat PageSize) 0.

(** The loop of [myRead]: the bytes read in all, main memory and [diskBuffer]. *)
Fixpoint read_pieces (fuel : nat) (k : ksys) (file : UserOpenFile) (mem buffer : list Z)
    (vAddr size pos totNumRead : Z) : outcome (Z * list Z * list Z) :=
  match fuel with
  | O => NoFuel
  | S fuel =>
      if size <=? 0 then Ok (totNumRead, mem, buffer)
      else
        let copySize := piece_size vAddr size in
        '(_, f) ← file_object k file;
        '(numRead, data) ← ReadAt f (ks_disk k) copySize pos;
        buffer ← put_bytes zero_buffer 0 data;
        bytes ← get_bytes buffer 0 numRead;
        mem ← putMemIntoVAddr (ks_space k) mem bytes vAddr;
        read_pieces fuel k file mem buffer (s32 (vAddr + copySize)) (size - copySize) (s32 (pos + copySize))
          (s32 (totNumRead + numRead))
  end.

Definition myRead (k : ksys) (vAddr size fd : Z) : outcome ksys :=
  let oldLevel := ks_level k in
  let k := set_klevel k IntOff in
  let mem := mainMemory (ks_machine k) in
  k ← (if fd =? ConsoleInput then
         let '(cs, stdin) := getchars (Z.to_nat size) (ks_stdin k) in
         buffer ← put_bytes (ks_buffer k) 0 cs;
         bytes ← get_bytes buffer 0 (s32 (size + 1));
         mem ← putMemIntoVAddr (ks_space k) mem bytes vAddr;
         m ← WriteRegister (with_memory (ks_machine k) mem) 2 size;
         Ok (set_stdio (set_kbuffer (set_machine k m) buffer) stdin (ks_stdout k))
       else
         '(p, file) ← user_file k fd;
         '(tot, mem, buffer) ← read_pieces (S (Z.to_nat size)) k file mem (ks_buffer k) vAddr size
                                 (uf_position file) 0;
         let k := set_position k p file (s32 (uf_position file + tot)) in
         m ← WriteRegister (with_memory (ks_machine k) mem) 2 tot;
         Ok (set_kbuffer (set_machine k m) buffer));
  Ok (set_klevel k oldLevel).

(** The loop of [myWrite] for the console, which does not advance [vAddr]. *)
Fixpoint console_pieces (fuel : nat) (k : ksys) (vAddr size : Z) (buffer : list Z) : outcome (list Z) :=
  match fuel with
  | O => NoFuel
  | S fuel =>
      if size <=? 0 then Ok buffer
      else
        let copySize := piece_size vAddr size in
        bytes ← getMemFromVAddr (ks_space k) (mainMemory (ks_machine k)) vAddr copySize;
        console_pieces fuel k vAddr (size - copySize) (buffer ++ bytes)
  end.

(** The loop of [myWrite] for a file: the kernel afterwards and the position. *)
Fixpoint write_pieces (fuel wfuel : nat) (k : ksys) (file : UserOpenFile) (vAddr size pos : Z)
    : outcome (ksys * Z) :=
  match fuel with
  | O => NoFuel
  | S fuel =>
      if size <=? 0 then Ok (k, pos)
      else
        let copySize := piece_size vAddr size in
        bytes ← getMemFromVAddr (ks_space k) (mainMemory (ks_machine k)) vAddr copySize;
        buffer ← put_bytes zero_buffer 0 bytes;
        '(p, f) ← file_object k file;
        '(_, f, disk) ← WriteAt wfuel f (ks_disk k) buffer copySize pos;
        let k := set_files_disk (set_kbuffer k buffer) (<[p := f]> (ks_files k)) (ks_fs k) disk in
        write_pieces fuel wfuel k file (s32 (vAddr + copySize)) (size - copySize) (s32 (pos + copySize))
  end.

(** [wfuel] is the fuel of [WriteAt]. *)
Definition myWrite (wfuel : nat) (k : ksys) (vAddr size fd : Z) : outcome ksys :=
  let oldLevel := ks_level k in
  let k := set_klevel k IntOff in
  k ← (if fd =? ConsoleOutput then
         _ ← new_bytes (s32 (size + 1));
         buffer ← console_pieces (S (Z.to_nat size)) k vAddr size [];
         str ← c_string (buffer ++ [0]);
         Ok (set_stdio k (ks_stdin k) (ks_stdout k ++ str))
       else
         '(p, file) ← user_file k fd;
         '(k, pos) ← write_pieces (S (Z.to_nat size)) wfuel k file vAddr size (uf_position file);
         Ok (set_position k p file pos));
  Ok (set_klevel k oldLevel).
End syscalls.

(** ** Pieces *)

Lemma piece_size_bounds va size : 0 < size ->
  0 < piece_size va size <= 128 /\ piece_size va size <= size.
Proof.
  intros Hs. unfold piece_size. change PageSize with 128.
  pose proof (Z.rem_bound_abs va 128 ltac:(lia)) as Hm. fold (cmod va 128) in Hm.
  destruct (Z.ltb_spec size 128); match goal with |- context [?a <=? ?b] => destruct (Z.leb_spec a b) end; lia.
Qed.

Lemma piece_size_page va size : 0 < size -> 0 <= va -> va `mod` 128 + piece_size va size <= 128.
Proof.
  intros Hs Hva. unfold piece_size. change PageSize with 128. rewrite cmod_nonneg by lia.
  destruct (Z.ltb_spec size 128); match goal with |- context [?a <=? ?b] => destruct (Z.leb_spec a b) end; dlia.
Qed.

(** A range of the space that lies in a page is read from its frame. *)
Lemma space_fetch mem frames k f o n :
  memory_ok mem -> Forall (fun f => 0 <= f < 32) frames -> frames !! k = Some f -> (o + n <= 128)%nat ->
  take n (drop (128 * Z.to_nat f + o) mem) = take n (drop (128 * k + o) (space_bytes mem frames)).
Proof.
  intros Hmem Hr Hk Hon. apply list_eq. intros i.
  destruct (decide (i < n)%nat) as [Hi|Hi]; [|rewrite !lookup_take_ge by lia; done].
  rewrite !lookup_take_lt, !lookup_drop by lia. rewrite space_bytes_lookup by done.
  assert ((128 * k + o + i) / 128 = k)%nat as -> by (symmetry; apply (Nat.div_unique _ 128 k (o + i)); lia).
  assert ((128 * k + o + i) mod 128 = o + i)%nat as -> by (symmetry; apply (Nat.mod_unique _ 128 k (o + i)); lia).
  rewrite Hk. cbn [mbind option_bind]. f_equal. lia.
Qed.

Section memory.
Context (sp : AddrSpace) (frames : list Z) (Hsp : space_on sp frames).

Lemma getMem_ok mem va c :
  memory_ok mem -> 0 <= va -> 0 < c -> va `mod` 128 + c <= 128 -> va + c <= 128 * Z.of_nat (length frames) ->
  getMemFromVAddr sp mem va c = Ok (take (Z.to_nat c) (drop (Z.to_nat va) (space_bytes mem frames))).
Proof.
  intros Hmem Hva Hc Hpage Hin. destruct (Translate_in sp frames va Hsp) as (f & Hk & Hf & Ht); [lia|].
  unfold getMemFromVAddr, phys. rewrite Ht. cbn [mbind outcome_bind deref].
  pose proof Hmem as Hl. unfold memory_ok in Hl. change (Z.to_nat MemorySize) with 4096%nat in Hl.
  rewrite get_bytes_in by dlia. f_equal.
  replace (Z.to_nat (128 * f + va `mod` 128)) with (128 * Z.to_nat f + Z.to_nat (va `mod` 128))%nat by dlia.
  rewrite (space_fetch mem frames (Z.to_nat (va `div` 128)) f) by (done || apply Hsp || dlia).
  do 2 f_equal. dlia.
Qed.

Lemma putMem_nothing mem va : memory_ok mem -> 0 <= va < 128 * Z.of_nat (length frames) ->
  putMemIntoVAddr sp mem [] va = Ok mem.
Proof.
  intros Hmem Hva. destruct (Translate_in sp frames va Hsp) as (f & _ & Hf & Ht); [lia|].
  unfold putMemIntoVAddr, phys. rewrite Ht. cbn [mbind outcome_bind deref].
  unfold memory_ok in Hmem. change (Z.to_nat MemorySize) with 4096%nat in Hmem.
  rewrite put_bytes_in by (cbn [length]; dlia). by rewrite splice_nil.
Qed.
End memory.

(** ** The loops *)

Section loops.
Context `{FreshLaws}.
Context (k : ksys) (frames : list Z) (file : UserOpenFile) (q : positive) (f : OpenFile) (ss : list Z).
Hypotheses (Hsp : space_on (ks_space k) frames) (Hobj : file_object k file = Ok (q, f))
  (Hf : file_on f (ks_disk k) ss) (Hd : disk_ok (ks_disk k)).

(** Reading within the length of the file. *)
Lemma read_pieces_ok fuel : forall mem buffer va size pos tot,
  memory_ok mem -> 0 <= size < Z.of_nat fuel -> 0 <= va -> va + size <= 128 * Z.of_nat (length frames) ->
  0 <= pos -> pos + size <= FileLength (hdr f) -> 0 <= tot -> tot + size < two31 ->
  exists mem' buffer', read_pieces fuel k file mem buffer va size pos tot = Ok (tot + size, mem', buffer') /\
    memory_ok mem' /\
    space_bytes mem' frames = splice (space_bytes mem frames) (Z.to_nat va)
      (take (Z.to_nat size) (drop (Z.to_nat pos) (file_bytes (ks_disk k) ss))) /\
    forall g, 0 <= g < 32 -> ~ (g ∈ frames) -> frame_bytes mem' g = frame_bytes mem g.
Proof.
  pose proof (fo_bounds _ _ _ Hf) as [Hb Hb31]. pose proof (so_length _ _ Hsp) as Hl32.
  pose proof (file_bytes_length (hdr f) (ks_disk k) ss (fo_mapped _ _ _ Hf) Hd) as Hfl.
  induction fuel as [|fuel IH]; intros mem buffer va size pos tot Hmem Hsz Hva Hin Hpos Hlen Htot Ht31; [lia|].
  unfold two31 in *. cbn [read_pieces]. destruct (Z.leb_spec size 0) as [Hz|Hgt].
  { assert (size = 0) as -> by lia. exists mem, buffer. rewrite Z.add_0_r. split_and!; try done.
    change (take (Z.to_nat 0) ?l) with (@nil Z). by rewrite splice_nil. }
  destruct (piece_size_bounds va size Hgt) as [Hc Hcs]. pose proof (piece_size_page va size Hgt Hva) as Hpage.
  set (c := piece_size va size) in *. rewrite Hobj. cbn [mbind outcome_bind].
  destruct (ReadFile_chunk (ks_space k) frames f (ks_disk k) ss (mkUmem mem tt zero_buffer) va c pos)
    as (buf & mem1 & pa & Hbl & Hdl & Hr & Hpb & Ht & Hgb & Hpm & Hmem1 & Hsb & Hother); try done; try lia.
  cbn [u_memory u_diskBuffer] in *. rewrite Hr. cbn [mbind outcome_bind]. rewrite Hpb. cbn [mbind outcome_bind].
  rewrite Hgb. cbn [mbind outcome_bind]. unfold putMemIntoVAddr at 1, phys. rewrite Ht. cbn [mbind outcome_bind deref].
  rewrite Hpm. cbn [mbind outcome_bind]. rewrite !s32_small by (unfold is_s32, two31; lia).
  destruct (IH mem1 buf (va + c) (size - c) (pos + c) (tot + c)) as (mem' & buf' & Hrun & Hm' & Hs' & Ho');
    try done; try lia.
  exists mem', buf'. split; [rewrite Hrun; do 3 f_equal; lia|]. split; [done|]. split.
  - rewrite Hs', Hsb. apply splice_pieces; rewrite ?space_bytes_length by (done || apply Hsp); lia.
  - intros g Hg Hnin. rewrite Ho' by done. by apply Hother.
Qed.

(** Reading at the end of the file or after it. *)
Lemma read_pieces_end fuel : forall mem buffer va size pos tot,
  memory_ok mem -> 0 <= size < Z.of_nat fuel -> 0 <= va -> va + size <= 128 * Z.of_nat (length frames) ->
  FileLength (hdr f) <= pos -> pos + size < two31 -> is_s32 tot ->
  exists buffer', read_pieces fuel k file mem buffer va size pos tot = Ok (tot, mem, buffer').
Proof.
  pose proof (fo_length _ _ _ Hf) as Hl0. pose proof (so_length _ _ Hsp) as Hl32.
  induction fuel as [|fuel IH]; intros mem buffer va size pos tot Hmem Hsz Hva Hin Hpos Hp31 Htot; [lia|].
  unfold two31 in *. cbn [read_pieces]. destruct (Z.leb_spec size 0) as [Hz|Hgt]; [by exists buffer|].
  destruct (piece_size_bounds va size Hgt) as [Hc Hcs]. set (c := piece_size va size) in *.
  rewrite Hobj. cbn [mbind outcome_bind]. rewrite ReadAt_nothing by lia. cbn [mbind outcome_bind].
  rewrite put_bytes_in by (cbn [length]; lia). cbn [mbind outcome_bind].
  rewrite get_bytes_in by lia. cbn [mbind outcome_bind]. change (take (Z.to_nat 0) ?l) with (@nil Z).
  rewrite (putMem_nothing _ frames Hsp) by (done || lia). cbn [mbind outcome_bind].
  rewrite Z.add_0_r, (s32_small tot), !s32_small by (done || unfold is_s32, two31; lia).
  apply IH; (done || lia).
Qed.
End loops.

(** Writing within the sectors of the file. *)
Lemma write_pieces_ok `{FreshLaws} frames file q f ss wfuel fuel : forall k va size pos,
  space_on (ks_space k) frames -> file_object k file = Ok (q, f) ->
  file_on f (ks_disk k) ss -> disk_ok (ks_disk k) -> memory_ok (mainMemory (ks_machine k)) ->
  0 <= size < Z.of_nat fuel -> 0 <= va -> va + size <= 128 * Z.of_nat (length frames) ->
  0 <= pos -> pos + size <= 128 * Z.of_nat (length ss) ->
  exists buffer disk', write_pieces fuel (S wfuel) k file va size pos =
      Ok (set_files_disk (set_kbuffer k buffer) (ks_files k) (ks_fs k) disk', pos + size) /\
    changes (ks_disk k) disk' ss /\
    file_bytes disk' ss = splice (file_bytes (ks_disk k) ss) (Z.to_nat pos)
      (take (Z.to_nat size) (drop (Z.to_nat va) (space_bytes (mainMemory (ks_machine k)) frames))).
Proof.
  induction fuel as [|fuel IH]; intros k va size pos Hsp Hobj Hf Hd Hmem Hsz Hva Hin Hpos Hlen; [lia|].
  pose proof (fo_bounds _ _ _ Hf) as [Hb Hb31]. pose proof (so_length _ _ Hsp) as Hl32. unfold two31 in *.
  pose proof (file_bytes_length (hdr f) (ks_disk k) ss (fo_mapped _ _ _ Hf) Hd) as Hfl.
  cbn [write_pieces]. destruct (Z.leb_spec size 0) as [Hz|Hgt].
  { assert (size = 0) as -> by lia. exists (ks_buffer k), (ks_disk k). rewrite Z.add_0_r. destruct k. split_and!; try done.
    change (take (Z.to_nat 0) ?l) with (@nil Z). by rewrite splice_nil. }
  destruct (piece_size_bounds va size Hgt) as [Hc Hcs]. pose proof (piece_size_page va size Hgt Hva) as Hpage.
  set (c := piece_size va size) in *. set (V := space_bytes (mainMemory (ks_machine k)) frames).
  assert (length V = (128 * length frames)%nat) as HV by (apply space_bytes_length; (done || apply Hsp)).
  rewrite (getMem_ok _ frames Hsp) by (done || lia). cbn [mbind outcome_bind]. fold V.
  set (d1 := take (Z.to_nat c) (drop (Z.to_nat va) V)).
  assert (length d1 = Z.to_nat c) as Hd1 by (unfold d1; rewrite length_take, length_drop; lia).
  rewrite put_bytes_in by (rewrite ?Hd1; change (length zero_buffer) with 128%nat; lia). cbn [mbind outcome_bind].
  change (Z.to_nat 0) with 0%nat. set (buffer := splice zero_buffer 0 d1).
  assert (length buffer = 128%nat) as Hbl by (unfold buffer; rewrite splice_length; [done|change (length zero_buffer) with 128%nat; lia]).
  rewrite Hobj. cbn [mbind outcome_bind].
  destruct (WriteAt_inside wfuel f (ks_disk k) ss buffer c pos) as (disk1 & -> & Hch1 & Hfb1); try done; try lia.
  cbn [mbind outcome_bind]. rewrite !s32_small by (unfold is_s32, two31; lia).
  assert (take (Z.to_nat c) buffer = d1) as Htk.
  { rewrite <- Hd1. apply (splice_read zero_buffer 0 d1). change (length zero_buffer) with 128%nat. lia. }
  rewrite Htk in Hfb1.
  assert (ks_files k !! q = Some f) as Hq.
  { unfold file_object in Hobj. apply bind_ok in Hobj as (s & _ & (p & _ & (f0 & Hf0 & Heq)%bind_ok)%bind_ok).
    injection Heq as -> ->. by destruct (ks_files k !! q) as [x|]; [injection Hf0 as ->|]. }
  rewrite (insert_id (ks_files k) q f Hq).
  set (k1 := set_files_disk (set_kbuffer k buffer) (ks_files k) (ks_fs k) disk1).
  destruct (IH k1 (va + c) (size - c) (pos + c)) as (buf' & disk' & Hrun & Hch & Hfb);
    try done; try lia; [by apply (file_on_changes _ (ks_disk k) disk1 _ ss)|apply Hch1|].
  exists buf', disk'. split; [rewrite Hrun; unfold k1; do 2 f_equal; lia|]. split; [by apply (changes_trans _ disk1)|].
  rewrite Hfb. cbn [k1 set_files_disk set_kbuffer ks_disk ks_machine]. fold V. rewrite Hfb1.
  apply splice_pieces; lia.
Qed.

(** ** The calls on an open file *)

(** The process that calls: its space is in the frames [frames]. *)
Record caller_ok (k : ksys) (frames : list Z) : Prop := {
  co_space : space_on (ks_space k) frames;
  co_memory : memory_ok (mainMemory (ks_machine k));
  co_registers : length (registers (ks_machine k)) = 40%nat;
  co_disk : disk_ok (ks_disk k) }.

(** Descriptor [fd] of the process stands for the entry [u] at [p], and the open file [f] at
    [q], whose sectors are [ss]. *)
Record opened (k : ksys) (fd : Z) (p : positive) (u : UserOpenFile) (q : positive) (f : OpenFile) (ss : list Z)
    : Prop := {
  op_user : user_file k fd = Ok (p, u);
  op_file : file_object k u = Ok (q, f);
  op_on : file_on f (ks_disk k) ss }.

(** The bytes of the calling process. *)
Definition bytes_of (k : ksys) (frames : list Z) : list Z := space_bytes (mainMemory (ks_machine k)) frames.

(** The same kernel but for the memory and registers, [diskBuffer], the position of one
    descriptor and the disk. *)
Definition transferred (k : ksys) (m : Machine) (buffer : list Z) (p : positive) (u : UserOpenFile) (position : Z)
    (disk : list (list Z)) : ksys :=
  mkKsys m buffer (ks_space k) (ks_pcb k) (ks_procMgr k)
    (<[p := mkUser (uf_fileName u) (uf_sysOpenFile u) position (uf_fd u)]> (ks_users k))
    (ks_files k) (ks_fs k) disk (ks_level k) (ks_stdin k) (ks_stdout k).

Lemma WriteRegister_2 m v : length (registers m) = 40%nat ->
  WriteRegister m 2 v = Ok (with_registers m (<[2%nat := v]> (registers m))).
Proof. intros Hl. apply (WriteRegister_in m 2); (done || lia). Qed.

Lemma setR_in m i v : length (registers m) = 40%nat -> 0 <= i < 40 ->
  setR m i v = Ok (with_registers m (<[Z.to_nat i := v]> (registers m))).
Proof. intros Hl Hi. unfold setR. by rewrite arr_set_in by lia. Qed.

Lemma getR_in m i v : registers m !! Z.to_nat i = Some v -> 0 <= i -> getR m i = Ok v.
Proof. intros Hr Hi. by apply arr_get_ok. Qed.

Lemma incrementPC_ok m pc next :
  length (registers m) = 40%nat -> registers m !! 34%nat = Some pc -> registers m !! 35%nat = Some next ->
  incrementPC m =
  Ok (with_registers m (<[35%nat := s32 (next + 4)]> (<[34%nat := next]> (<[36%nat := pc]> (registers m))))).
Proof.
  intros Hl Hpc Hn. unfold incrementPC. rewrite (getR_in _ PCReg pc) by done. cbn [mbind outcome_bind].
  rewrite setR_in by (done || (unfold PrevPCReg; lia)). cbn [mbind outcome_bind].
  rewrite (getR_in _ NextPCReg next) by (done || (cbn [with_registers registers]; by rewrite list_lookup_insert_ne)). cbn [mbind outcome_bind].
  rewrite setR_in by (cbn [with_registers registers]; rewrite ?length_insert; done || (unfold PCReg; lia)).
  cbn [mbind outcome_bind].
  rewrite (getR_in _ PCReg next) by (done || (apply list_lookup_insert_eq; cbn [with_registers registers];
    rewrite length_insert, Hl; change (Z.to_nat PCReg) with 34%nat; lia)).
  cbn [mbind outcome_bind]. by rewrite setR_in by (cbn [with_registers registers]; rewrite ?length_insert; done || (unfold NextPCReg; lia)).
Qed.

Lemma decrementPC_ok m pc prev :
  length (registers m) = 40%nat -> registers m !! 34%nat = Some pc -> registers m !! 36%nat = Some prev ->
  decrementPC m = Ok (with_registers m (<[36%nat := 0]> (<[34%nat := prev]> (<[35%nat := pc]> (registers m))))).
Proof.
  intros Hl Hpc Hp. unfold decrementPC. rewrite (getR_in _ PCReg pc) by done. cbn [mbind outcome_bind].
  rewrite setR_in by (done || (unfold NextPCReg; lia)). cbn [mbind outcome_bind].
  rewrite (getR_in _ PrevPCReg prev) by (done || (cbn [with_registers registers]; by rewrite list_lookup_insert_ne)). cbn [mbind outcome_bind].
  rewrite setR_in by (cbn [with_registers registers]; rewrite ?length_insert; done || (unfold PCReg; lia)).
  cbn [mbind outcome_bind]. by rewrite setR_in by (cbn [with_registers registers]; rewrite ?length_insert; done || (unfold PrevPCReg; lia)).
Qed.

Section calls.
Context `{FreshLaws}.
Context (k : ksys) (frames : list Z) (fd : Z) (p : positive) (u : UserOpenFile) (q : positive) (f : OpenFile)
  (ss : list Z).
Hypotheses (Hk : caller_ok k frames) (Ho : opened k fd p u q f ss).

Lemma myRead_inside va size :
  fd <> ConsoleInput -> 0 <= va -> 0 <= size -> va + size <= 128 * Z.of_nat (length frames) ->
  0 <= uf_position u -> uf_position u + size <= FileLength (hdr f) ->
  exists m buffer, myRead k va size fd =
      Ok (transferred k m buffer p u (uf_position u + size) (ks_disk k)) /\
    memory_ok (mainMemory m) /\ registers m = <[2%nat := size]> (registers (ks_machine k)) /\
    space_bytes (mainMemory m) frames = splice (bytes_of k frames) (Z.to_nat va)
      (take (Z.to_nat size) (drop (Z.to_nat (uf_position u)) (file_bytes (ks_disk k) ss))) /\
    forall g, 0 <= g < 32 -> ~ (g ∈ frames) -> frame_bytes (mainMemory m) g = frame_bytes (mainMemory (ks_machine k)) g.
Proof.
  intros Hfd Hva Hsz Hin Hpos Hlen. destruct Hk as [Hsp Hmem Hreg Hd], Ho as [Hu Hobj Hf].
  pose proof (fo_bounds _ _ _ Hf) as [Hb Hb31]. unfold two31 in *.
  destruct (read_pieces_ok (set_klevel k IntOff) frames u q f ss Hsp Hobj Hf Hd (S (Z.to_nat size))
    (mainMemory (ks_machine k)) (ks_buffer k) va size (uf_position u) 0) as (mem' & buf & Hrun & Hm' & Hs' & Ho');
    try done; try (unfold two31; lia).
  unfold myRead. destruct (Z.eqb_spec fd ConsoleInput); [done|].
  change (user_file (set_klevel k IntOff) fd) with (user_file k fd). rewrite Hu. cbn [mbind outcome_bind].
  change (mainMemory (ks_machine (set_klevel k IntOff))) with (mainMemory (ks_machine k)).
  change (ks_buffer (set_klevel k IntOff)) with (ks_buffer k). rewrite Hrun. cbn [mbind outcome_bind].
  rewrite WriteRegister_2 by exact Hreg. cbn [mbind outcome_bind]. rewrite Z.add_0_l.
  rewrite s32_small by (unfold is_s32, two31; lia). by eexists _, buf.
Qed.

Lemma myRead_end va size :
  fd <> ConsoleInput -> 0 <= va -> 0 <= size -> va + size <= 128 * Z.of_nat (length frames) ->
  FileLength (hdr f) <= uf_position u -> uf_position u + size < two31 ->
  exists buffer, myRead k va size fd =
    Ok (transferred k (with_registers (ks_machine k) (<[2%nat := 0]> (registers (ks_machine k)))) buffer p u
          (uf_position u) (ks_disk k)).
Proof.
  intros Hfd Hva Hsz Hin Hpos Hlen. destruct Hk as [Hsp Hmem Hreg Hd], Ho as [Hu Hobj Hf].
  pose proof (fo_length _ _ _ Hf) as Hl0. unfold two31 in *.
  destruct (read_pieces_end (set_klevel k IntOff) frames u q f ss Hsp Hobj Hf (S (Z.to_nat size))
    (mainMemory (ks_machine k)) (ks_buffer k) va size (uf_position u) 0) as (buf & Hrun);
    try done; try (unfold is_s32, two31; lia).
  unfold myRead. destruct (Z.eqb_spec fd ConsoleInput); [done|].
  change (user_file (set_klevel k IntOff) fd) with (user_file k fd). rewrite Hu. cbn [mbind outcome_bind].
  change (mainMemory (ks_machine (set_klevel k IntOff))) with (mainMemory (ks_machine k)).
  change (ks_buffer (set_klevel k IntOff)) with (ks_buffer k). rewrite Hrun. cbn [mbind outcome_bind].
  rewrite WriteRegister_2 by exact Hreg. cbn [mbind outcome_bind]. rewrite Z.add_0_r.
  rewrite s32_small by (unfold is_s32, two31; lia). exists buf. by destruct k as [[] ? ? ? ? ? ? ? ? ? ? ?].
Qed.

Lemma myWrite_inside fuel va size :
  fd <> ConsoleOutput -> 0 <= va -> 0 <= size -> va + size <= 128 * Z.of_nat (length frames) ->
  0 <= uf_position u -> uf_position u + size <= 128 * Z.of_nat (length ss) ->
  exists buffer disk', myWrite (S fuel) k va size fd =
      Ok (transferred k (ks_machine k) buffer p u (uf_position u + size) disk') /\
    changes (ks_disk k) disk' ss /\
    file_bytes disk' ss = splice (file_bytes (ks_disk k) ss) (Z.to_nat (uf_position u))
      (take (Z.to_nat size) (drop (Z.to_nat va) (bytes_of k frames))).
Proof.
  intros Hfd Hva Hsz Hin Hpos Hlen. destruct Hk as [Hsp Hmem Hreg Hd], Ho as [Hu Hobj Hf].
  destruct (write_pieces_ok frames u q f ss fuel (S (Z.to_nat size)) (set_klevel k IntOff) va size (uf_position u))
    as (buf & disk' & Hrun & Hch & Hfb); try done; try lia.
  unfold myWrite. destruct (Z.eqb_spec fd ConsoleOutput); [done|].
  change (user_file (set_klevel k IntOff) fd) with (user_file k fd). rewrite Hu. cbn [mbind outcome_bind].
  rewrite Hrun. cbn [mbind outcome_bind]. by exists buf, disk'.
Qed.
End calls.

(** ** Names in the program's memory *)

Lemma c_string_app name rest : Forall (fun c => c <> 0) name -> c_string (name ++ 0 :: rest) = Ok name.
Proof.
  induction 1 as [|c l Hc _ IH]; [done|]. cbn [c_string app]. destruct (Z.eqb_spec c 0); [done|]. by rewrite IH.
Qed.

(** A string that lies in a page of the space. *)
Record string_at (V : list Z) (va : Z) (name : list Z) : Prop := {
  sa_chars : Forall (fun c => c <> 0) name;
  sa_bytes : take (length name + 1) (drop (Z.to_nat va) V) = name ++ [0];
  sa_page : 0 <= va /\ va `mod` 128 + Z.of_nat (length name) + 1 <= 128 }.

Lemma getString_reads slack sp frames mem va name :
  space_on sp frames -> memory_ok mem -> string_at (space_bytes mem frames) va name ->
  getString slack sp mem va = if slack (Z.of_nat (length name) + 1) <=? 0 then Undef else Ok name.
Proof.
  intros Hsp Hmem [Hn Hb [Hva Hpage]].
  assert (va < 128 * Z.of_nat (length frames)) as Hin.
  { apply (f_equal length) in Hb. rewrite length_take, length_drop, length_app in Hb. simpl in Hb.
    rewrite space_bytes_length in Hb by (done || apply Hsp). lia. }
  destruct (Translate_in sp frames va Hsp) as (f & Hk & Hf & Ht); [lia|].
  unfold getString, phys. rewrite Ht. cbn [mbind outcome_bind deref].
  destruct (Z.ltb_spec (128 * f + va `mod` 128) 0); [dlia|].
  replace (Z.to_nat (128 * f + va `mod` 128)) with (128 * Z.to_nat f + Z.to_nat (va `mod` 128))%nat by dlia.
  set (P := drop _ mem). assert (take (length name + 1) P = name ++ [0]) as HP.
  { rewrite <- Hb. unfold P.
    rewrite (space_fetch mem frames (Z.to_nat (va `div` 128)) f) by (done || apply Hsp || dlia). do 2 f_equal. dlia. }
  rewrite <- (take_drop (length name + 1) P), HP, <- app_assoc. change ([0] ++ ?l) with (0 :: l).
  by rewrite c_string_app by done.
Qed.

Lemma getString_ok slack sp frames mem va name :
  space_on sp frames -> memory_ok mem -> string_at (space_bytes mem frames) va name ->
  0 < slack (Z.of_nat (length name) + 1) -> getString slack sp mem va = Ok name.
Proof.
  intros Hsp Hmem Hs Hslack. rewrite (getString_reads slack sp frames mem va name) by done. by rewrite (proj2 (Z.leb_gt _ _)).
Qed.

(** The store behind the characters is past the block. *)
Lemma getString_overrun slack sp frames mem va name :
  space_on sp frames -> memory_ok mem -> string_at (space_bytes mem frames) va name ->
  slack (Z.of_nat (length name) + 1) <= 0 -> getString slack sp mem va = Undef.
Proof.
  intros Hsp Hmem Hs Hslack. rewrite (getString_reads slack sp frames mem va name) by done. by rewrite (proj2 (Z.leb_le _ _)).
Qed.

(** ** Open and Close *)

(** A file of fewer than 35 sectors in the file system: its name, its sectors and its
    length. *)
Definition file_here `{Fresh} (fs : FileSystem) (disk : list (list Z)) (name ss : list Z) (len : Z) : Prop :=
  exists fms ds (bm bm0 : BitMap) d sec h direct secs data,
    fs_ok fs disk fms ds bm d /\ dir_map d !! take FileNameMaxLen name = Some sec /\
    stored_at disk sec h direct secs data /\ allocated bm0 bm (sec :: direct ++ secs ++ concat data) /\
    FileHdr.numBytes h = len /\ 0 <= len /\ FileHdr.numSectors h = divRoundUp len SectorSize /\
    FileHdr.numSectors h < 35 /\ ss = direct ++ concat data /\
    forall s, s ∈ ss -> ~ (s ∈ system_sectors fms ds).

Lemma file_here_open `{FreshLaws} fs disk name ss len :
  file_here fs disk name ss len -> Forall (fun c => c <> 0) name ->
  exists f, Open fs disk name = Ok (Some f) /\ FileLength (hdr f) = len /\ file_on f disk ss.
Proof.
  intros (fms & ds & bm & bm0 & d & sec & h & direct & secs & data & Hfs & Hk & Hst & Hal & <- & Hl & Hns & Hlt & -> & _) Hn.
  by destruct (open_created fs disk fms ds bm bm0 d name sec h direct secs data) as (f & Hop & Hlen & Hf); try done; exists f.
Qed.

(** Writing the data of the file keeps it. *)
Lemma file_here_data `{FreshLaws} fs disk disk' name ss len :
  file_here fs disk name ss len -> changes disk disk' ss -> file_here fs disk' name ss len.
Proof.
  intros (fms & ds & bm & bm0 & d & sec & h & direct & secs & data & Hfs & Hk & Hst & Hal & Hnb & Hl & Hns & Hlt & -> & Hsys) Hch.
  exists fms, ds, bm, bm0, d, sec, h, direct, secs, data. split_and!; try done.
  - by apply (fs_ok_data fs disk disk' (direct ++ concat data)).
  - apply (stored_at_changes disk disk' (direct ++ concat data)); try done. intros s. by apply (header_apart bm0 bm).
Qed.

Lemma file_here_created `{FreshLaws} fs disk fms ds bm d name size disk' bm' d' sec :
  fs_ok fs disk fms ds bm d -> created fs disk fms ds bm d name size disk' bm' d' sec ->
  0 <= size -> divRoundUp size SectorSize < 35 -> exists ss, file_here fs disk' name ss size.
Proof.
  intros Hfs (h & direct & secs & data & Hfs' & Hmap & Hal & Hst & Hnb & Hns & _) Hsz Hlt.
  exists (direct ++ concat data), fms, ds, bm', bm, d', sec, h, direct, secs, data. split_and!; try done.
  - by rewrite Hmap, lookup_insert_eq.
  - by rewrite Hns.
  - intros s Hs. apply (allocated_new fs disk fms ds bm d Hfs bm' _ s Hal). set_solver.
Qed.

(** The tables of the system and of the calling process fit together. *)
Record process_ok (k : ksys) : Prop := {
  ps_sys : sys_ok (ks_procMgr k);
  ps_wf : bm_wf (openFileMap (ks_pcb k));
  ps_bits : numBits (openFileMap (ks_pcb k)) = 20;
  ps_table : length (openFileTable (ks_pcb k)) = 20%nat;
  ps_open i : 2 <= i < 20 -> bm_bit (openFileMap (ks_pcb k)) i = true -> fd_name (ks_procMgr k) i <> None }.

(** The calling process has [fd] open and is the only user of the file [name]. *)
Record sole_user (k : ksys) (fd : Z) (name : list Z) (p : positive) (u : UserOpenFile) : Prop := {
  su_fd : 2 <= fd < 20;
  su_sys : exists e s, sysOpenFileTable (ks_procMgr k) !! Z.to_nat fd = Some (Ptr e) /\
    sysFiles (ks_procMgr k) !! e = Some s /\ sf_fd s = fd /\ sf_numUsers s = 1;
  su_name : fd_name (ks_procMgr k) fd = Some name;
  su_bit : bm_bit (openFileMap (ks_pcb k)) fd = true;
  su_entry : openFileTable (ks_pcb k) !! Z.to_nat fd = Some (Ptr p);
  su_user : ks_users k !! p = Some u }.

Definition name_free (k : ksys) (name : list Z) : Prop := forall j, 2 <= j < 20 -> fd_name (ks_procMgr k) j <> Some name.
Definition slot_free (k : ksys) : Prop := exists i, 2 <= i < 20 /\ fd_name (ks_procMgr k) i = None.

(** What the calls on the tables leave alone. *)
Record same_rest (k k' : ksys) : Prop := {
  sr_memory : mainMemory (ks_machine k') = mainMemory (ks_machine k);
  sr_registers : forall i, i <> 2%nat -> registers (ks_machine k') !! i = registers (ks_machine k) !! i;
  sr_space : ks_space k' = ks_space k;
  sr_fs : ks_fs k' = ks_fs k;
  sr_disk : ks_disk k' = ks_disk k;
  sr_stdio : ks_stdin k' = ks_stdin k /\ ks_stdout k' = ks_stdout k }.

Lemma open_entry_new k lvl name q f :
  process_ok k -> length (registers (ks_machine k)) = 40%nat -> name_free k name -> slot_free k ->
  ks_files k !! q = Some f ->
  exists k' fd p u, open_entry k lvl name (Some q) = Ok k' /\ process_ok k' /\ sole_user k' fd name p u /\
    user_file k' fd = Ok (p, u) /\ file_object k' u = Ok (q, f) /\ uf_position u = 0 /\
    registers (ks_machine k') = <[2%nat := fd]> (registers (ks_machine k)) /\ ks_level k' = lvl /\
    same_rest k k' /\ ks_files k' = ks_files k /\
    (forall j, 2 <= j < 20 -> fd_name (ks_procMgr k') j = if decide (j = fd) then Some name else fd_name (ks_procMgr k) j).
Proof.
  intros [Hsys Hwf Hbits Htab Hop] Hreg Hnone (i0 & Hi0 & Hslot) Hq. unfold open_entry.
  destruct (getOpenFile_new (ks_procMgr k) name (Some q) Hsys Hnone)
    as [(fd & p & pm' & Hfd & Hfree & _ & -> & Hsys' & Hs & Ht & Hnames)|[Hall _]].
  2: { exfalso. apply (proj1 (fd_name_taken _ i0 Hsys Hi0)); [apply Hall; lia|done]. }
  cbn [mbind outcome_bind]. rewrite Hs. cbn [deref mbind outcome_bind]. unfold PCB_getOpenFile.
  cbn [set_tables ks_pcb ks_users ks_procMgr ks_machine SysOpenFile_new sf_fd].
  assert (bm_bit (openFileMap (ks_pcb k)) fd = false) as Hbit.
  { destruct (bm_bit (openFileMap (ks_pcb k)) fd) eqn:Hb; [|done]. apply Hop in Hb; [|done].
    apply (proj2 (fd_name_taken _ fd Hsys Hfd)) in Hb. congruence. }
  rewrite BitMap_Test_bit by (done || lia). cbn [mbind outcome_bind]. rewrite Hbit.
  destruct (BitMap_Mark_bit (openFileMap (ks_pcb k)) fd Hwf) as (m' & -> & Hwf' & Hnb' & Hu'); [lia|].
  cbn [mbind outcome_bind]. rewrite arr_set_in by lia. cbn [mbind outcome_bind].
  set (r := fresh (dom (ks_users k))). rewrite WriteRegister_2 by exact Hreg. cbn [mbind outcome_bind].
  rewrite lookup_insert_eq. cbn [deref mbind outcome_bind].
  set (k' := set_klevel _ _). set (u := mkUser name p 0 fd). exists k', fd, r, u.
  assert (bm_bit m' fd = true) as Hset by (rewrite Hu' by lia; by rewrite bool_decide_eq_true_2).
  assert (<[Z.to_nat fd := Ptr r]> (openFileTable (ks_pcb k)) !! Z.to_nat fd = Some (Ptr r)) as Hent
    by (apply list_lookup_insert_eq; lia).
  split; [done|]. split; [|split; [|split; [|split]]].
  - split; simpl; [done|done|congruence|by rewrite length_insert|]. intros i Hi. rewrite Hu', Hnames by lia.
    case_decide; [done|]. rewrite bool_decide_eq_false_2 by congruence. simpl. by apply Hop.
  - split; simpl; try done; [by exists p, (SysOpenFile_new (Some q) name fd)| |apply lookup_insert_eq].
    rewrite Hnames by done. by rewrite decide_True.
  - unfold user_file, PCB_getOpenFile_fd. simpl. rewrite BitMap_Test_bit by (done || lia). cbn [mbind outcome_bind].
    rewrite Hset, (proj2 (arr_get_ok _ fd (Ptr r))) by (split; [lia|done]). cbn [mbind outcome_bind].
    by rewrite lookup_insert_eq.
  - unfold file_object. simpl. rewrite Hs. cbn [deref mbind outcome_bind SysOpenFile_new sf_openFile]. by rewrite Hq.
  - split_and!; try done. split; try done. simpl. intros i Hi. by rewrite list_lookup_insert_ne.
Qed.

Section names.
Context `{FreshLaws} (slack : Z -> Z) (frames : list Z) (name : list Z) (va : Z).

(** The name of a call in the caller's memory. *)
Definition names (k : ksys) : Prop := caller_ok k frames /\ string_at (bytes_of k frames) va name.

Lemma myOpen_overrun k fuel : slack (Z.of_nat (length name) + 1) <= 0 -> names k -> myOpen slack fuel k va = Undef.
Proof.
  intros Hov [[Hsp Hmem _ _] Hs]. unfold myOpen. change (ks_space (set_klevel k IntOff)) with (ks_space k).
  change (ks_machine (set_klevel k IntOff)) with (ks_machine k). by rewrite (getString_overrun _ _ frames _ va name).
Qed.

Hypothesis Hslack : 0 < slack (Z.of_nat (length name) + 1).

Lemma names_string k : names k -> getString slack (ks_space k) (mainMemory (ks_machine k)) va = Ok name.
Proof. intros [[Hsp Hmem _ _] Hs]. by apply (getString_ok _ _ frames). Qed.

Lemma open_object_here k ss len : file_here (ks_fs k) (ks_disk k) name ss len -> Forall (fun c => c <> 0) name ->
  exists q f, open_object k name = Ok (Some q, set_files_disk k (<[q := f]> (ks_files k)) (ks_fs k) (ks_disk k)) /\
    FileLength (hdr f) = len /\ file_on f (ks_disk k) ss.
Proof.
  intros Hh Hn. destruct (file_here_open _ _ _ _ _ Hh Hn) as (f & Hop & Hlen & Hf). unfold open_object. rewrite Hop.
  cbn [mbind outcome_bind]. by eexists _, f.
Qed.

Lemma myCreate_ok fuel k r fs disk :
  getString slack (ks_space k) (mainMemory (ks_machine k)) va = Ok name ->
  Create fuel (ks_fs k) (ks_disk k) name 0 = Ok (r, fs, disk) ->
  myCreate slack fuel k va = Ok (set_files_disk k (ks_files k) fs disk).
Proof.
  intros Hstr Hcr. unfold myCreate. change (ks_space (set_klevel k IntOff)) with (ks_space k).
  change (ks_machine (set_klevel k IntOff)) with (ks_machine k). rewrite Hstr. cbn [mbind outcome_bind].
  change (Create fuel (ks_fs (set_klevel k IntOff)) (ks_disk (set_klevel k IntOff)) name 0)
    with (Create fuel (ks_fs k) (ks_disk k) name 0). by rewrite Hcr.
Qed.

(** What [Open] returns with: the descriptor in register 2, at position 0. *)
Definition opened_call (k k' : ksys) (fd : Z) (ss : list Z) (len : Z) : Prop :=
  exists p u q f, process_ok k' /\ sole_user k' fd name p u /\ opened k' fd p u q f ss /\
    FileLength (hdr f) = len /\ uf_position u = 0 /\
    registers (ks_machine k') = <[2%nat := fd]> (registers (ks_machine k)) /\ ks_level k' = ks_level k /\
    mainMemory (ks_machine k') = mainMemory (ks_machine k) /\ ks_space k' = ks_space k /\
    ks_fs k' = ks_fs k /\
    (forall j, 2 <= j < 20 -> fd_name (ks_procMgr k') j = if decide (j = fd) then Some name else fd_name (ks_procMgr k) j).

Lemma myOpen_here fuel k ss len :
  names k -> process_ok k -> file_here (ks_fs k) (ks_disk k) name ss len -> name_free k name -> slot_free k ->
  exists k' fd, myOpen slack fuel k va = Ok k' /\ opened_call k k' fd ss len /\ ks_disk k' = ks_disk k.
Proof.
  intros Hnm Hps Hh Hfree Hslot. pose proof (names_string k Hnm) as Hstr. destruct Hnm as [[Hsp Hmem Hreg Hd] Hsa].
  unfold myOpen. change (ks_space (set_klevel k IntOff)) with (ks_space k).
  change (ks_machine (set_klevel k IntOff)) with (ks_machine k). rewrite Hstr. cbn [mbind outcome_bind].
  destruct (open_object_here (set_klevel k IntOff) ss len Hh (sa_chars _ _ _ Hsa)) as (q & f & -> & Hlen & Hf).
  cbn [mbind outcome_bind]. set (k1 := set_files_disk _ _ _ _).
  destruct (open_entry_new k1 (ks_level k) name q f) as (k' & fd & p & u & Hrun & Hps' & Hsu & Huf & Hobj & Hpos & Hr &
    Hlv & Hsr & Hfl & Hnames); try done; [by destruct Hps|apply lookup_insert_eq|].
  destruct Hsr as [Hm _ Hs Hfs Hdk _]. exists k', fd. split; [done|]. split; [|done].
  exists p, u, q, f. split_and!; try done. split; try done. by rewrite Hdk.
Qed.

(** [Open] of a name that does not exist creates an empty file. *)
Lemma myOpen_new fuel k fms ds bm d :
  names k -> process_ok k -> fs_ok (ks_fs k) (ks_disk k) fms ds bm d ->
  dir_map d !! take FileNameMaxLen name = None ->
  Exists (fun e => inUse e = false) (table d) \/ tableSize d <= 4 -> 1 <= ba_free bm -> name_free k name -> slot_free k ->
  exists k' fd bm' d' sec, myOpen slack (S fuel) k va = Ok k' /\ opened_call k k' fd [] 0 /\
    created (ks_fs k) (ks_disk k) fms ds bm d name 0 (ks_disk k') bm' d' sec.
Proof.
  intros Hnm Hps Hfs Hk Hroom Hfr Hfree Hslot. pose proof (names_string k Hnm) as Hstr.
  destruct Hnm as [[Hsp Hmem Hreg Hd] Hsa]. pose proof (sa_chars _ _ _ Hsa) as Hch.
  destruct (Create_succeeds (ks_fs k) (ks_disk k) fms ds bm d Hfs name Hch fuel 0) as (disk' & bm' & d' & sec & Hcr & Hcreated);
    try done.
  destruct (file_here_created (ks_fs k) (ks_disk k) fms ds bm d name 0 disk' bm' d' sec) as (ss & Hh); try done.
  unfold myOpen. change (ks_space (set_klevel k IntOff)) with (ks_space k).
  change (ks_machine (set_klevel k IntOff)) with (ks_machine k). rewrite Hstr. cbn [mbind outcome_bind].
  assert (open_object (set_klevel k IntOff) name = Ok (None, set_klevel k IntOff)) as ->.
  { unfold open_object. cbn [set_klevel ks_fs ks_disk].
    by rewrite (Open_missing (ks_fs k) (ks_disk k) fms ds bm d Hfs name Hch Hk). }
  cbn [mbind outcome_bind]. rewrite (myCreate_ok (S fuel) (set_klevel k IntOff) true (ks_fs k) disk' Hstr Hcr).
  cbn [mbind outcome_bind]. set (k1 := set_files_disk _ _ _ _).
  destruct (open_object_here k1 ss 0 Hh Hch) as (q & f & -> & Hlen & Hf). cbn [mbind outcome_bind].
  set (k2 := set_files_disk _ _ _ _).
  destruct (open_entry_new k2 (ks_level k) name q f) as (k' & fd & p & u & Hrun & Hps' & Hsu & Huf & Hobj & Hpos & Hr &
    Hlv & Hsr & Hfl & Hnames); try done; [by destruct Hps|apply lookup_insert_eq|].
  destruct Hsr as [Hm _ Hs Hfs' Hdk _]. exists k', fd, bm', d', sec. split; [done|]. rewrite Hdk. split; [|done].
  assert (ss = []) as ->.
  { apply nil_length_inv. pose proof (fo_sectors _ _ _ Hf) as Hsec. rewrite Hlen in Hsec.
    change (divRoundUp 0 SectorSize) with 0 in Hsec. lia. }
  exists p, u, q, f. split_and!; try done. split; try done. by rewrite Hdk.
Qed.
End names.

(** The only user of a file closes it. *)
Lemma myClose_sole k fd name p u :
  process_ok k -> sole_user k fd name p u ->
  exists k', myClose k fd = Ok (Returns k') /\ process_ok k' /\ same_rest k k' /\ ks_level k' = ks_level k /\
    ks_machine k' = ks_machine k /\ ks_users k' = delete p (ks_users k) /\
    (forall j, 2 <= j < 20 -> fd_name (ks_procMgr k') j = if decide (j = fd) then None else fd_name (ks_procMgr k) j).
Proof.
  intros [Hsys Hwf Hbits Htab Hop] [Hfd (e & s & Ht & Hs & Hsfd & Hone) Hname Hbit Hent Hu].
  unfold myClose, PCB_closeFile. cbn [set_klevel ks_pcb ks_users ks_procMgr].
  destruct (BitMap_Clear_bit (openFileMap (ks_pcb k)) fd Hwf) as (m' & -> & Hwf' & Hnb' & Hu'); [lia|].
  cbn [mbind outcome_bind]. rewrite (proj2 (arr_get_ok _ fd (Ptr p))) by (split; [lia|done]). cbn [mbind outcome_bind].
  rewrite Hu. cbn [deref mbind outcome_bind]. rewrite arr_set_in by lia. cbn [mbind outcome_bind].
  destruct (closeFile_last (ks_procMgr k) fd e s) as (pm' & -> & Hsys' & _ & _ & Hnames); try done.
  { by apply fd_name_bit in Hname. }
  cbn [mbind outcome_bind]. eexists. split; [done|]. split_and!; try done.
  split; simpl; [done|done|congruence|by rewrite length_insert|]. intros i Hi. rewrite Hu', Hnames by lia.
  case_decide as Heq; [by rewrite bool_decide_eq_true_2|]. rewrite bool_decide_eq_false_2 by congruence. by apply Hop.
Qed.

(** ** The loops end *)

Lemma halts_new_bytes `{Fresh} n : halts (new_bytes n).
Proof. unfold new_bytes. halting. Qed.
Lemma halts_BitMap_Test bm i : halts (BitMap_Test bm i).
Proof. unfold BitMap_Test. halting. Qed.
Lemma halts_ByteToSector h o : halts (ByteToSector h o).
Proof. unfold ByteToSector, Block_ByteToSector. halting. Qed.
Lemma halts_Translate sp va : halts (AddrSpace_Translate sp va).
Proof. unfold AddrSpace_Translate. halting. Qed.
#[export] Hint Resolve halts_new_bytes halts_BitMap_Test halts_ByteToSector halts_Translate : halting.

Lemma halts_read_sectors n : forall i first h disk buf, halts (read_sectors n i first h disk buf).
Proof. induction n as [|n IH]; intros; cbn [read_sectors]; unfold ReadSector; halting. Qed.
#[export] Hint Resolve halts_read_sectors : halting.

Lemma halts_ReadAt `{Fresh} f disk n pos : halts (ReadAt f disk n pos).
Proof. unfold ReadAt. halting. Qed.
Lemma halts_c_string l : halts (c_string l).
Proof. induction l; cbn [c_string]; halting. Qed.
Lemma halts_putMem sp mem data va : halts (putMemIntoVAddr sp mem data va).
Proof. unfold putMemIntoVAddr, phys. halting. Qed.
Lemma halts_getMem sp mem va n : halts (getMemFromVAddr sp mem va n).
Proof. unfold getMemFromVAddr, phys. halting. Qed.
Lemma halts_user_file k fd : halts (user_file k fd).
Proof. unfold user_file, PCB_getOpenFile_fd. halting. Qed.
Lemma halts_file_object k u : halts (file_object k u).
Proof. unfold file_object. halting. Qed.
Lemma halts_WriteRegister m i v : halts (WriteRegister m i v).
Proof. unfold WriteRegister. halting. Qed.
#[export] Hint Resolve halts_ReadAt halts_c_string halts_putMem halts_getMem halts_user_file halts_file_object
  halts_WriteRegister : halting.

(** Every piece has a byte at least, whatever the address is. *)
Lemma halts_read_pieces `{Fresh} fuel : forall k u mem buffer va size pos tot, size < Z.of_nat fuel ->
  0 < Z.of_nat fuel -> halts (read_pieces fuel k u mem buffer va size pos tot).
Proof.
  induction fuel as [|fuel IH]; intros k u mem buffer va size pos tot Hs Hf; [lia|]. cbn [read_pieces].
  destruct (Z.leb_spec size 0) as [|Hgt]; [auto with halting|]. destruct (piece_size_bounds va size Hgt) as [Hc Hcs].
  halting. apply IH; lia.
Qed.

Lemma halts_console_pieces fuel : forall k va size buffer, size < Z.of_nat fuel ->
  0 < Z.of_nat fuel -> halts (console_pieces fuel k va size buffer).
Proof.
  induction fuel as [|fuel IH]; intros k va size buffer Hs Hf; [lia|]. cbn [console_pieces].
  destruct (Z.leb_spec size 0) as [|Hgt]; [auto with halting|]. destruct (piece_size_bounds va size Hgt) as [Hc Hcs].
  halting. apply IH; lia.
Qed.

Lemma halts_ReadFile_loop {M} `{Fresh} fuel : forall sp file disk (u : umem M) c va size fa, 0 < c ->
  size < Z.of_nat fuel -> 0 < Z.of_nat fuel -> halts (ReadFile_loop fuel sp file disk u c va size fa).
Proof.
  induction fuel as [|fuel IH]; intros sp file disk u c va size fa Hc Hs Hf; [lia|]. cbn [ReadFile_loop].
  destruct (Z.leb_spec size 0) as [|Hgt]; [auto with halting|].
  assert (0 < (if size <? PageSize then size else c)) by (destruct (size <? PageSize); lia).
  halting. apply IH; lia.
Qed.

(** ** A session *)

Lemma opened_caller `{Fresh} k k' frames name fd ss len : caller_ok k frames -> opened_call name k k' fd ss len ->
  disk_ok (ks_disk k') -> caller_ok k' frames.
Proof.
  intros [Hsp Hmem Hreg _] (p & u & q & f & _ & _ & _ & _ & _ & Hr & _ & Hm & Hs & _) Hd.
  split; [by rewrite Hs|by rewrite Hm|by rewrite Hr, length_insert|done].
Qed.

(** A transfer keeps the tables. *)
Lemma transferred_process k m buffer fd name p u position disk :
  process_ok k -> sole_user k fd name p u ->
  let k' := transferred k m buffer p u position disk in
  process_ok k' /\ exists u', sole_user k' fd name p u'.
Proof.
  intros [? ? ? ? ?] [? ? ? ? ? ?] k'. split; [by split|]. eexists. split; try done. apply lookup_insert_eq.
Qed.

(** After the file is closed everything is as before it was opened, but for the disk. *)
Lemma reopenable slack frames name va k k1 k3 fd ss len m buffer p u position disk :
  forall `{FreshLaws}, 0 < slack (Z.of_nat (length name) + 1) ->
  names frames name va k -> file_here (ks_fs k) (ks_disk k) name ss len -> name_free k name ->
  opened_call name k k1 fd ss len -> changes (ks_disk k) disk ss ->
  mainMemory m = mainMemory (ks_machine k1) -> length (registers m) = 40%nat ->
  same_rest (transferred k1 m buffer p u position disk) k3 -> ks_machine k3 = m ->
  (forall j, 2 <= j < 20 -> fd_name (ks_procMgr k3) j = if decide (j = fd) then None else fd_name (ks_procMgr k1) j) ->
  names frames name va k3 /\ file_here (ks_fs k3) (ks_disk k3) name ss len /\ name_free k3 name /\ slot_free k3.
Proof.
  intros HF HFL Hslack [[Hsp Hmem Hreg Hd] Hsa] Hh Hfree (p1 & u1 & q1 & f1 & _ & Hsu & _ & _ & _ & _ & _ & Hm1 & Hs1 & Hfs1 & Hn1)
    Hch Hm Hrl [_ _ Hs3 Hfs3 Hd3 _] Hm3 Hn3. cbn [transferred ks_space ks_fs ks_disk] in *.
  split_and!.
  - split; [split|].
    + by rewrite Hs3, Hs1.
    + by rewrite Hm3, Hm, Hm1.
    + by rewrite Hm3.
    + rewrite Hd3. apply Hch.
    + unfold bytes_of. by rewrite Hm3, Hm, Hm1.
  - rewrite Hfs3, Hd3, Hfs1. by apply (file_here_data _ (ks_disk k)).
  - intros j Hj. rewrite Hn3 by done. case_decide; [done|]. rewrite Hn1 by done. rewrite decide_False by done. by apply Hfree.
  - exists fd. split; [apply Hsu|]. rewrite Hn3 by apply Hsu. by rewrite decide_True.
Qed.

(** What was written at the beginning of the file is read there. *)
Lemma read_back f disk disk' ss V src n :
  file_on f disk ss -> disk_ok disk -> 0 <= src -> 0 <= n -> n <= 128 * Z.of_nat (length ss) -> src + n <= Z.of_nat (length V) ->
  file_bytes disk' ss = splice (file_bytes disk ss) (Z.to_nat 0) (take (Z.to_nat n) (drop (Z.to_nat src) V)) ->
  take (Z.to_nat n) (drop (Z.to_nat 0) (file_bytes disk' ss)) = take (Z.to_nat n) (drop (Z.to_nat src) V).
Proof.
  intros Hf Hd Hsrc Hn Hin HV ->. set (data := take (Z.to_nat n) (drop (Z.to_nat src) V)).
  assert (length data = Z.to_nat n) as Hdl by (unfold data; rewrite length_take, length_drop; lia).
  rewrite <- Hdl at 1. apply (splice_read _ 0).
  rewrite (file_bytes_length (hdr f)) by (done || apply (fo_mapped _ _ _ Hf)). lia.
Qed.

(** ** Printing *)

Section printing.
Context (k : ksys) (frames : list Z) (Hk : caller_ok k frames).

(** One piece: the buffer lies in a page. *)
Lemma console_pieces_page fuel va size buffer :
  0 <= va -> 0 < size -> va `mod` 128 + size <= 128 -> va + size <= 128 * Z.of_nat (length frames) -> (2 <= fuel)%nat ->
  console_pieces fuel k va size buffer =
  Ok (buffer ++ take (Z.to_nat size) (drop (Z.to_nat va) (bytes_of k frames))).
Proof.
  intros Hva Hs Hp Hin Hf. destruct fuel as [|[|fuel]]; [lia..|]. cbn [console_pieces].
  destruct (Z.leb_spec size 0); [lia|].
  assert (piece_size va size = size) as ->.
  { unfold piece_size. change PageSize with 128. rewrite cmod_nonneg by lia.
    destruct (Z.ltb_spec size 128); match goal with |- context [?a <=? ?b] => destruct (Z.leb_spec a b) end; dlia. }
  rewrite (getMem_ok _ frames (co_space _ _ Hk) _ va size (co_memory _ _ Hk)) by lia. cbn [mbind outcome_bind].
  by rewrite Z.sub_diag.
Qed.

(** Two pieces: both are read from [va]. *)
Lemma console_pieces_cross fuel va size :
  let c := 128 - va `mod` 128 in
  0 <= va -> c < size <= 2 * c -> va + c <= 128 * Z.of_nat (length frames) -> (3 <= fuel)%nat ->
  let T := take (Z.to_nat c) (drop (Z.to_nat va) (bytes_of k frames)) in
  console_pieces fuel k va size [] = Ok (T ++ take (Z.to_nat (size - c)) T).
Proof.
  intros c Hva Hs Hin Hf T. destruct fuel as [|fuel]; [lia|]. cbn [console_pieces].
  assert (0 < c <= 128) as Hc by (unfold c; dlia). destruct (Z.leb_spec size 0); [lia|].
  assert (piece_size va size = c) as ->.
  { unfold piece_size, c. change PageSize with 128. rewrite cmod_nonneg by lia.
    destruct (Z.ltb_spec size 128); match goal with |- context [?a <=? ?b] => destruct (Z.leb_spec a b) end; dlia. }
  rewrite (getMem_ok _ frames (co_space _ _ Hk) _ va c (co_memory _ _ Hk)) by (unfold c in *; lia).
  cbn [mbind outcome_bind]. rewrite console_pieces_page by (unfold c in Hs, Hin |- *; lia). cbn [app].
  unfold T. do 2 f_equal. rewrite take_take. f_equal. lia.
Qed.

Lemma myWrite_prints fuel va size str :
  0 <= size -> size + 1 < two31 -> Forall (fun c => c <> 0) str ->
  console_pieces (S (Z.to_nat size)) (set_klevel k IntOff) va size [] = Ok str ->
  forall `{Fresh}, myWrite fuel k va size ConsoleOutput = Ok (set_stdio k (ks_stdin k) (ks_stdout k ++ str)).
Proof.
  intros Hs H31 Hstr Hrun HF. unfold myWrite, two31 in *. change (ConsoleOutput =? ConsoleOutput) with true. cbv iota.
  rewrite s32_small by (unfold is_s32, two31; lia). unfold new_bytes. destruct (Z.ltb_spec (size + 1) 0); [lia|].
  cbn [mbind outcome_bind]. rewrite Hrun. cbn [mbind outcome_bind]. by rewrite c_string_app.
Qed.
End printing.

(** ** A process with a file *)

Definition demo_machine : Machine := mkMachine ([97; 98; 0] ++ replicate 4093 5) (replicate 40 0) None None 0.

(** The file [demo_file] is open as descriptor 2, at position 10. *)
Definition demo_open : ksys :=
  mkKsys demo_machine (replicate 128 0) demo_space
    (mkPCB 0 (-1) 1 (<[2%nat := Ptr 1]> (replicate 20 Uninit)) (mkBitMap 20 1 [4])) (demo_pm 1 false)
    {[ 1%positive := mkUser [97; 98] 1 10 2 ]} {[ 1%positive := demo_file ]} (mkFS demo_file demo_file) demo_disk8
    IntOn [] [].

(** No file is open. *)
Definition idle_pm : ProcessManager :=
  mkPM (mkBitMap 10 1 [1]) (replicate 10 Uninit) (replicate 10 false) (replicate 10 false) (replicate 20 false)
    (replicate 10 0) (replicate 20 Uninit) (mkBitMap 20 1 [3]) ∅.

Definition demo_idle (pm : ProcessManager) (fs : FileSystem) (disk : list (list Z)) : ksys :=
  mkKsys demo_machine (replicate 128 0) demo_space (mkPCB 0 (-1) 1 (replicate 20 Uninit) (mkBitMap 20 1 [0])) pm
    ∅ ∅ fs disk IntOn [] [].

Lemma demo_memory_ok : memory_ok (mainMemory demo_machine).
Proof. reflexivity. Qed.

Lemma demo_open_caller : caller_ok demo_open [0; 2; 5].
Proof. destruct demo_file_on as [_ Hd]. split; [exact demo_space_on|exact demo_memory_ok|reflexivity|exact Hd]. Qed.

Lemma demo_open_opened : opened demo_open 2 1 (mkUser [97; 98] 1 10 2) 1 demo_file [5; 3].
Proof. destruct demo_file_on as [Hf _]. split; [reflexivity|reflexivity|exact Hf]. Qed.

Lemma clear_bits i : 2 <= i < 20 -> bm_bit (mkBitMap 20 1 [3]) i = false /\ bm_bit (mkBitMap 20 1 [0]) i = false.
Proof.
  intros Hi. assert (forallb (fun j => negb (bm_bit (mkBitMap 20 1 [3]) j) && negb (bm_bit (mkBitMap 20 1 [0]) j)) (seqZ 2 18)
    = true) as Hall by (vm_compute; reflexivity).
  rewrite forallb_forall in Hall. specialize (Hall i). rewrite <- list_elem_of_In, elem_of_seqZ in Hall.
  apply andb_true_iff in Hall as [H1 H2]; [|lia]. by apply negb_true_iff in H1, H2.
Qed.

Lemma idle_pm_names i : 2 <= i < 20 -> fd_name idle_pm i = None.
Proof. intros Hi. unfold fd_name. cbn [idle_pm sysOpenFileMap]. by rewrite (proj1 (clear_bits i Hi)). Qed.

Lemma idle_pm_ok : sys_ok idle_pm.
Proof.
  split; try done.
  - split; [done|]. split; [done|]. split; [done|]. forall_lia.
  - intros i Hi Hb. cbn [idle_pm sysOpenFileMap] in Hb. rewrite (proj1 (clear_bits i Hi)) in Hb. done.
  - intros i j name Hi _ Hn. by rewrite idle_pm_names in Hn.
Qed.

Lemma demo_idle_process pm fs disk : sys_ok pm -> process_ok (demo_idle pm fs disk).
Proof.
  intros Hpm. split; [done| |done|done|].
  - split; [done|]. split; [done|]. split; [done|]. forall_lia.
  - intros i Hi Hb. cbn [demo_idle ks_pcb openFileMap] in Hb. rewrite (proj2 (clear_bits i Hi)) in Hb. done.
Qed.

Lemma demo_idle_names pm fs disk : disk_ok disk -> names [0; 2; 5] [97; 98] 0 (demo_idle pm fs disk).
Proof.
  intros Hd. split.
  - split; [exact demo_space_on|exact demo_memory_ok|reflexivity|exact Hd].
  - split; [repeat constructor; lia|vm_compute; reflexivity|]. vm_compute. split; discriminate.
Qed.

(** All descriptors are taken: [i] by the file of the name [[i]]. *)
Definition full_pm : ProcessManager :=
  mkPM (mkBitMap 10 1 [1]) (replicate 10 Uninit) (replicate 10 false) (replicate 10 false) (replicate 20 false)
    (replicate 10 0) (Uninit :: Uninit :: ((fun i => Ptr (Pos.of_nat i)) <$> seq 2 18)) (mkBitMap 20 1 [1048575])
    (list_to_map ((fun i => (Pos.of_nat i, mkSys None (Z.of_nat i) [Z.of_nat i] 1)) <$> seq 2 18)).

Lemma full_pm_entry i : 2 <= i < 20 -> exists p s, sysOpenFileTable full_pm !! Z.to_nat i = Some (Ptr p) /\
  sysFiles full_pm !! p = Some s /\ sf_fd s = i /\ fd_name full_pm i = Some [i].
Proof.
  intros Hi.
  assert (forallb (fun i => match sysOpenFileTable full_pm !! Z.to_nat i with
    | Some (Ptr p) => match sysFiles full_pm !! p with
                      | Some s => (sf_fd s =? i) && bool_decide (fd_name full_pm i = Some [i]) | None => false end
    | _ => false end) (seqZ 2 18) = true) as Hall by (vm_compute; reflexivity).
  rewrite forallb_forall in Hall. specialize (Hall i). rewrite <- list_elem_of_In, elem_of_seqZ in Hall.
  specialize (Hall ltac:(lia)). destruct (sysOpenFileTable full_pm !! Z.to_nat i) as [[| |p]|]; try done.
  destruct (sysFiles full_pm !! p) as [s|] eqn:Hs; [|done]. apply andb_true_iff in Hall as [Hfd Hn].
  exists p, s. split_and!; [done|done|lia|]. by apply bool_decide_eq_true_1 in Hn.
Qed.

Lemma full_pm_ok : sys_ok full_pm.
Proof.
  split; try done.
  - split; [done|]. split; [done|]. split; [done|]. forall_lia.
  - intros i Hi _. destruct (full_pm_entry i Hi) as (p & s & Ht & Hs & Hfd & _). by exists p, s.
  - intros i j name Hi Hj. destruct (full_pm_entry i Hi) as (_ & _ & _ & _ & _ & ->).
    destruct (full_pm_entry j Hj) as (_ & _ & _ & _ & _ & ->). congruence.
Qed.

(** The 15 bytes after every block are free. *)
Definition demo_slack (n : Z) : Z := 15.

(** ** Properties *)

(** C26. [Read] of [size] bytes into the caller's memory at [va], in pieces through the kernel's
    buffer, is one copy: within the length of the file the bytes from the position of
    the descriptor on are in the caller's address space, whichever frames its pages are in,
    the rest of main memory is unchanged, register 2 holds [size] and the position has
    advanced by it. At or after the end of the file nothing is read and 0 is returned. The
    interrupt level and all tables are as before. *)
Theorem Read_call_correct `{FreshLaws} k frames fd p u q f ss va size :
  caller_ok k frames -> opened k fd p u q f ss -> fd <> ConsoleInput ->
  0 <= va -> 0 <= size -> va + size <= 128 * Z.of_nat (length frames) ->
  0 <= uf_position u -> uf_position u + size < two31 ->
  (uf_position u + size <= FileLength (hdr f) ->
   exists m buffer, myRead k va size fd = Ok (transferred k m buffer p u (uf_position u + size) (ks_disk k)) /\
     registers m = <[2%nat := size]> (registers (ks_machine k)) /\
     space_bytes (mainMemory m) frames = splice (bytes_of k frames) (Z.to_nat va)
       (take (Z.to_nat size) (drop (Z.to_nat (uf_position u)) (file_bytes (ks_disk k) ss))) /\
     forall g, 0 <= g < 32 -> ~ (g ∈ frames) ->
       frame_bytes (mainMemory m) g = frame_bytes (mainMemory (ks_machine k)) g) /\
  (FileLength (hdr f) <= uf_position u ->
   exists buffer, myRead k va size fd =
     Ok (transferred k (with_registers (ks_machine k) (<[2%nat := 0]> (registers (ks_machine k)))) buffer p u
           (uf_position u) (ks_disk k))).
Proof.
  intros Hk Ho Hfd Hva Hsz Hin Hpos H31. split.
  - intros Hlen. destruct (myRead_inside k frames fd p u q f ss Hk Ho va size) as (m & b & Hrun & _ & Hr & Hs & Ho');
      try done. by exists m, b.
  - intros Hlen. by apply (myRead_end k frames fd p u q f ss).
Qed.

Lemma Read_call_correct_witness :
  exists m buffer k', myRead (H := zero_fresh) demo_open 100 60 2 = Ok k' /\
    k' = transferred demo_open m buffer 1 (mkUser [97; 98] 1 10 2) 70 demo_disk8 /\
    space_bytes (mainMemory m) [0; 2; 5] = splice (bytes_of demo_open [0; 2; 5]) 100 (replicate 60 7).
Proof.
  destruct (Read_call_correct (H := zero_fresh) (H0 := zero_fresh_laws) demo_open [0; 2; 5] 2 1
    (mkUser [97; 98] 1 10 2) 1 demo_file [5; 3] 100 60) as [Hin _].
  - exact demo_open_caller.
  - exact demo_open_opened.
  - discriminate.
  - lia.
  - lia.
  - simpl. lia.
  - simpl. lia.
  - simpl. unfold two31. lia.
  - destruct Hin as (m & buffer & Hrun & _ & Hs & _); [vm_compute; discriminate|].
    exists m, buffer. eexists. split; [exact Hrun|]. split; [reflexivity|]. rewrite Hs. f_equal.
Defined.

(** [Write] of [size] bytes from the caller's memory, within the sectors of the file: the
    bytes replace those of the file from the position of the descriptor on, nothing else of
    the file and of the disk changes, and the position advances. *)
Theorem Write_call_correct `{FreshLaws} fuel k frames fd p u q f ss va size :
  caller_ok k frames -> opened k fd p u q f ss -> fd <> ConsoleOutput ->
  0 <= va -> 0 <= size -> va + size <= 128 * Z.of_nat (length frames) ->
  0 <= uf_position u -> uf_position u + size <= 128 * Z.of_nat (length ss) ->
  exists buffer disk',
    myWrite (S fuel) k va size fd = Ok (transferred k (ks_machine k) buffer p u (uf_position u + size) disk') /\
    changes (ks_disk k) disk' ss /\
    file_bytes disk' ss = splice (file_bytes (ks_disk k) ss) (Z.to_nat (uf_position u))
      (take (Z.to_nat size) (drop (Z.to_nat va) (bytes_of k frames))).
Proof. intros. by eapply myWrite_inside. Qed.

Lemma Write_call_correct_witness :
  exists buffer disk', myWrite (H := zero_fresh) 1 demo_open 100 150 2 =
      Ok (transferred demo_open demo_machine buffer 1 (mkUser [97; 98] 1 10 2) 160 disk') /\
    file_bytes disk' [5; 3] = splice (file_bytes demo_disk8 [5; 3]) 10 (replicate 150 5).
Proof.
  destruct (Write_call_correct (H := zero_fresh) (H0 := zero_fresh_laws) 0 demo_open [0; 2; 5] 2 1
    (mkUser [97; 98] 1 10 2) 1 demo_file [5; 3] 100 150) as (buffer & disk' & Hrun & _ & Hs).
  - exact demo_open_caller.
  - exact demo_open_opened.
  - discriminate.
  - lia.
  - lia.
  - simpl. lia.
  - simpl. lia.
  - simpl. lia.
  - exists buffer, disk'. split; [exact Hrun|]. rewrite Hs. f_equal.
Defined.


(** A formatted disk with a file "ab" of 300 bytes. *)
Lemma demo_file_here : exists fs disk ss, disk_ok disk /\ file_here (H := zero_fresh) fs disk [97; 98] ss 300.
Proof.
  destruct formatted as (fs & disk & fms & ds & bm & d & _ & Hok & He & Ht & Hf). pose proof zero_fresh_laws as Hzl.
  assert (Forall (fun c => c <> 0) [97; 98]) as Hname by (repeat constructor; lia).
  destruct (Create_succeeds (H := zero_fresh) fs disk fms ds bm d Hok [97; 98] Hname 0 300)
    as (disk' & bm' & d' & sec & _ & Hcr).
  { rewrite He. reflexivity. } { right. rewrite Ht. lia. } { vm_compute. split; discriminate. }
  { rewrite Hf. vm_compute. discriminate. }
  destruct (file_here_created (H := zero_fresh) fs disk fms ds bm d [97; 98] 300 disk' bm' d' sec Hok Hcr)
    as (ss & Hh); [lia|reflexivity|].
  exists fs, disk', ss. split; [|exact Hh].
  destruct Hcr as (h & direct & secs & data & Hfs' & _). apply (fk_disk _ _ _ _ _ _ Hfs').
Qed.


(** [Open] of a name that is not in the directory creates an empty file of that name and
    opens it: the call returns with the smallest free descriptor's entry in both tables, at
    position 0 of a file without sectors, the descriptor in register 2, and the level as it
    was. On disk the name is added to the directory. *)
Theorem Open_creates `{FreshLaws} slack fuel k frames name va fms ds bm d :
  0 < slack (Z.of_nat (length name) + 1) -> names frames name va k -> process_ok k ->
  fs_ok (ks_fs k) (ks_disk k) fms ds bm d -> dir_map d !! take FileNameMaxLen name = None ->
  Exists (fun e => inUse e = false) (table d) \/ tableSize d <= 4 -> 1 <= ba_free bm -> name_free k name -> slot_free k ->
  exists k' fd bm' d' sec, myOpen slack (S fuel) k va = Ok k' /\ opened_call name k k' fd [] 0 /\
    fs_ok (ks_fs k') (ks_disk k') fms ds bm' d' /\ dir_map d' = <[take FileNameMaxLen name := sec]> (dir_map d).
Proof.
  intros Hslack Hnm Hps Hfs Hk Hroom Hfr Hfree Hslot.
  destruct (myOpen_new slack frames name va Hslack fuel k fms ds bm d) as (k' & fd & bm' & d' & sec & Hrun & Hoc & Hcr);
    try done.
  destruct Hcr as (h & direct & secs & data & Hfs' & Hmap & _).
  pose proof Hoc as (p & u & q & f & _ & _ & _ & _ & _ & _ & _ & _ & _ & Hfse & _).
  exists k', fd, bm', d', sec. rewrite Hfse. by split_and!.
Qed.

Lemma Open_creates_witness :
  exists k k' fd, myOpen (H := zero_fresh) demo_slack 1 k 0 = Ok k' /\ opened_call [97; 98] k k' fd [] 0.
Proof.
  destruct formatted as (fs & disk & fms & ds & bm & d & _ & Hok & He & Ht & Hf).
  destruct (Open_creates (H := zero_fresh) (H0 := zero_fresh_laws) demo_slack 0 (demo_idle idle_pm fs disk)
    [0; 2; 5] [97; 98] 0 fms ds bm d) as (k' & fd & bm' & d' & sec & Hrun & Hoc & _).
  - reflexivity.
  - apply demo_idle_names. apply (fk_disk _ _ _ _ _ _ Hok).
  - apply demo_idle_process. exact idle_pm_ok.
  - exact Hok.
  - rewrite He. reflexivity.
  - right. rewrite Ht. lia.
  - rewrite Hf. lia.
  - intros j Hj. simpl. rewrite idle_pm_names by exact Hj. discriminate.
  - exists 2. split; [lia|reflexivity].
  - eexists _, k', fd. split; [exact Hrun|exact Hoc].
Defined.

(** When every descriptor of the system is taken, [Open] of a file that is not open returns
    without setting the interrupt level back: interrupts stay disabled, and register 2
    keeps what it held, the number of the system call. *)
Theorem Open_no_slot `{FreshLaws} slack fuel k frames name va ss len :
  0 < slack (Z.of_nat (length name) + 1) -> names frames name va k -> sys_ok (ks_procMgr k) ->
  file_here (ks_fs k) (ks_disk k) name ss len -> name_free k name ->
  (forall j, 2 <= j < 20 -> fd_name (ks_procMgr k) j <> None) ->
  exists k', myOpen slack fuel k va = Ok k' /\ ks_level k' = IntOff /\ ks_machine k' = ks_machine k /\
    ks_procMgr k' = ks_procMgr k.
Proof.
  intros Hslack Hnm Hsys Hh Hfree Hfull. pose proof (names_string slack frames name va Hslack k Hnm) as Hstr.
  destruct Hnm as [_ Hsa]. unfold myOpen. change (ks_space (set_klevel k IntOff)) with (ks_space k).
  change (ks_machine (set_klevel k IntOff)) with (ks_machine k). rewrite Hstr. cbn [mbind outcome_bind].
  destruct (open_object_here name (set_klevel k IntOff) ss len Hh (sa_chars _ _ _ Hsa)) as (q & f & -> & _ & _).
  cbn [mbind outcome_bind]. unfold open_entry. cbn [set_files_disk set_klevel ks_procMgr].
  destruct (getOpenFile_new (ks_procMgr k) name (Some q) Hsys Hfree) as [(i & p & pm' & Hi & Hf & _)|[_ ->]].
  { apply (proj2 (fd_name_taken _ i Hsys Hi)) in Hfull; [congruence|done]. }
  cbn [mbind outcome_bind]. by eexists.
Qed.

Lemma Open_no_slot_witness :
  exists k k', ks_level k = IntOn /\ myOpen (H := zero_fresh) demo_slack 0 k 0 = Ok k' /\ ks_level k' = IntOff.
Proof.
  destruct demo_file_here as (fs & disk & ss & Hd & Hh).
  destruct (Open_no_slot (H := zero_fresh) (H0 := zero_fresh_laws) demo_slack 0 (demo_idle full_pm fs disk)
    [0; 2; 5] [97; 98] 0 ss 300) as (k' & Hrun & Hl & _).
  - reflexivity.
  - apply demo_idle_names. exact Hd.
  - exact full_pm_ok.
  - exact Hh.
  - intros j Hj. simpl. destruct (full_pm_entry j Hj) as (_ & _ & _ & _ & _ & ->). discriminate.
  - intros j Hj. simpl. destruct (full_pm_entry j Hj) as (_ & _ & _ & _ & _ & ->). discriminate.
  - eexists _, k'. split; [|split; [exact Hrun|exact Hl]]. reflexivity.
Defined.

(** C27. The loops that move data between files, the kernel's buffer and user memory end for
    every state of the kernel and all arguments, also those that the code does not check:
    every iteration moves a byte at least. With as many iterations as bytes the results of
    [Read], of [Write] to the console and of the loader's [ReadFile] are never for want of
    fuel. *)
Theorem transfers_terminate {M} `{Fresh} fuel k va size fd (u : umem M) sp file disk fa :
  myRead k va size fd <> NoFuel /\ myWrite fuel k va size ConsoleOutput <> NoFuel /\
  ReadFile sp file disk u va size fa <> NoFuel.
Proof.
  split_and!; fold (halts (myRead k va size fd)).
  - unfold myRead. destruct (fd =? ConsoleInput); [destruct (getchars _ _)|]; halting. apply halts_read_pieces; lia.
  - change (halts (myWrite fuel k va size ConsoleOutput)). unfold myWrite.
    change (ConsoleOutput =? ConsoleOutput) with true. cbv iota. halting. apply halts_console_pieces; lia.
  - change (halts (ReadFile sp file disk u va size fa)). unfold ReadFile. apply halts_ReadFile_loop; (done || lia).
Qed.

(** [Write] to the console. A buffer without NULs that lies in one page is printed. When
    it goes on in the next page, the loop does not advance the address: the part that lies
    in the first page is printed again instead of the rest. *)
Theorem console_write `{Fresh} fuel k frames va size :
  caller_ok k frames -> 0 <= va -> 0 < size -> size + 1 < two31 ->
  Forall (fun c => c <> 0) (bytes_of k frames) ->
  let c := 128 - va `mod` 128 in
  let data n := take (Z.to_nat n) (drop (Z.to_nat va) (bytes_of k frames)) in
  (size <= c -> va + size <= 128 * Z.of_nat (length frames) ->
   myWrite fuel k va size ConsoleOutput = Ok (set_stdio k (ks_stdin k) (ks_stdout k ++ data size))) /\
  (c < size <= 2 * c -> va + c <= 128 * Z.of_nat (length frames) ->
   myWrite fuel k va size ConsoleOutput =
   Ok (set_stdio k (ks_stdin k) (ks_stdout k ++ data c ++ take (Z.to_nat (size - c)) (data c)))).
Proof.
  intros Hk Hva Hs H31 Hnz c data.
  assert (caller_ok (set_klevel k IntOff) frames) as Hk' by (by destruct Hk).
  assert (forall n, Forall (fun c => c <> 0) (data n)) as Hdn by (intros n; apply Forall_take, Forall_drop, Hnz).
  split.
  - intros Hc Hin. apply myWrite_prints; try (done || lia).
    rewrite (console_pieces_page (set_klevel k IntOff) frames Hk') by (unfold c in Hc; lia). done.
  - intros Hc Hin. apply myWrite_prints; try (done || lia).
    + apply Forall_app. split; [done|]. by apply Forall_take.
    + assert (0 < c) by (unfold c; dlia). apply (console_pieces_cross (set_klevel k IntOff) frames Hk'); try done. lia.
Qed.

Lemma console_write_witness :
  let m := mkMachine (replicate 128 65 ++ replicate 3968 66) (replicate 40 0) None None 0 in
  let k := set_machine demo_open m in
  exists k', myWrite (H := zero_fresh) 1 k 126 4 ConsoleOutput = Ok k' /\ ks_stdout k' = [65; 65; 65; 65] /\
    take 4 (drop 126 (bytes_of k [0; 2; 5])) = [65; 65; 66; 66].
Proof.
  intros m k. destruct (console_write (H := zero_fresh) 1 k [0; 2; 5] 126 4) as [_ Hcross].
  - destruct demo_open_caller as [Hsp _ _ Hd]. split; [exact Hsp|reflexivity|reflexivity|exact Hd].
  - lia.
  - lia.
  - unfold two31. lia.
  - apply (bool_decide_unpack _). vm_compute. exact I.
  - eexists. split; [apply Hcross|].
    + vm_compute. split; [reflexivity|discriminate].
    + vm_compute. discriminate.
    + split; vm_compute; reflexivity.
Defined.

(** Names. A name that lies in one page of the caller is read as it is. A name that goes on
    in the next page is not: the kernel translates its first byte only, and reads on in the
    frame that follows in main memory, whatever page or process that belongs to. *)
Theorem getString_pages slack sp frames mem va name :
  space_on sp frames -> memory_ok mem -> 0 < slack (Z.of_nat (length name) + 1) ->
  Forall (fun c => c <> 0) name -> 0 <= va < 128 * Z.of_nat (length frames) ->
  (string_at (space_bytes mem frames) va name -> getString slack sp mem va = Ok name) /\
  (forall f rest, frames !! Z.to_nat (va `div` 128) = Some f ->
   drop (Z.to_nat (va `mod` 128)) (frame_bytes mem f) ++ frame_bytes mem (f + 1) = name ++ 0 :: rest -> f < 31 ->
   getString slack sp mem va = Ok name).
Proof.
  intros Hsp Hmem Hslack Hn Hva. split; [intros Hs; by apply (getString_ok _ _ frames)|].
  intros f rest Hk Hb Hf. destruct (Translate_in sp frames va Hsp Hva) as (f' & Hk' & Hf' & Ht).
  assert (f' = f) as -> by congruence. unfold getString, phys. rewrite Ht. cbn [mbind outcome_bind deref].
  destruct (Z.ltb_spec (128 * f + va `mod` 128) 0); [dlia|].
  assert (drop (Z.to_nat (128 * f + va `mod` 128)) mem =
    (name ++ 0 :: rest) ++ drop (Z.to_nat (128 * f + 256)) mem) as ->.
  { rewrite <- Hb. unfold frame_bytes, page. apply list_eq. intros i.
    unfold memory_ok in Hmem. change (Z.to_nat MemorySize) with 4096%nat in Hmem.
    rewrite skipn_firstn_comm, !drop_drop.
    assert (0 <= va `mod` 128 < 128) as Hm by dlia. set (o := Z.to_nat (va `mod` 128)).
    rewrite lookup_drop. destruct (decide (i < 128 - o)%nat).
    - rewrite !lookup_app_l by (rewrite ?length_app, !length_take, !length_drop; lia).
      rewrite lookup_take_lt, lookup_drop by lia. f_equal. lia.
    - destruct (decide (i < 256 - o)%nat).
      + rewrite lookup_app_l by (rewrite ?length_app, !length_take, !length_drop; lia).
        rewrite lookup_app_r, lookup_take_lt, lookup_drop by (rewrite ?length_take, ?length_drop; lia).
        rewrite length_take, length_drop. f_equal. lia.
      + rewrite lookup_app_r, lookup_drop by (rewrite ?length_app, !length_take, !length_drop; lia).
        rewrite length_app, !length_take, !length_drop. f_equal. lia. }
  rewrite <- app_assoc. cbn [app]. rewrite c_string_app by done. cbn [mbind outcome_bind].
  by destruct (Z.leb_spec (slack (Z.of_nat (length name) + 1)) 0); [lia|].
Qed.

Lemma getString_pages_witness :
  let mem := replicate 126 1 ++ [97; 98] ++ [99; 0] ++ replicate 126 1 ++ [100; 0] ++ replicate 3838 1 in
  getString demo_slack demo_space mem 126 = Ok [97; 98; 99] /\
  take 4 (drop 126 (space_bytes mem [0; 2; 5])) = [97; 98; 100; 0].
Proof.
  intros mem. split; [|vm_compute; reflexivity].
  destruct (getString_pages demo_slack demo_space [0; 2; 5] mem 126 [97; 98; 99]) as [_ Hnext].
  - exact demo_space_on.
  - reflexivity.
  - reflexivity.
  - repeat constructor; lia.
  - simpl. lia.
  - apply (Hnext 0 (replicate 126 1)).
    + reflexivity.
    + vm_compute. reflexivity.
    + lia.
Defined.

(** The program counters: [incrementPC] moves to the next instruction, and [decrementPC] after
    it goes back, so that a system call can be made again. *)
Theorem PC_roundtrip m pc next :
  length (registers m) = 40%nat -> registers m !! 34%nat = Some pc -> registers m !! 35%nat = Some next ->
  exists m1 m2, incrementPC m = Ok m1 /\ registers m1 !! 34%nat = Some next /\
    registers m1 !! 35%nat = Some (s32 (next + 4)) /\ registers m1 !! 36%nat = Some pc /\
    decrementPC m1 = Ok m2 /\ registers m2 = <[36%nat := 0]> (registers m).
Proof.
  intros Hl Hpc Hn. rewrite (incrementPC_ok m pc next) by done. set (r := registers m) in *. set (r1 := <[35%nat := _]> _).
  assert (length r1 = 40%nat) as Hl1 by (unfold r1; by rewrite !length_insert).
  assert (r1 !! 34%nat = Some next /\ r1 !! 35%nat = Some (s32 (next + 4)) /\ r1 !! 36%nat = Some pc) as (H34 & H35 & H36).
  { unfold r1. rewrite list_lookup_insert_eq, !(list_lookup_insert_ne _ 35), list_lookup_insert_eq,
      (list_lookup_insert_ne _ 34), list_lookup_insert_eq by (rewrite ?length_insert; lia). done. }
  eexists _, _. split; [done|]. split_and!; try done; [by apply (decrementPC_ok (with_registers m r1) next pc)|].
  cbn [with_registers registers]. unfold r1. apply list_eq. intros i.
  destruct (decide (i = 36%nat)) as [->|]; [by rewrite !list_lookup_insert_eq by (rewrite ?length_insert; lia)|].
  rewrite !(list_lookup_insert_ne _ 36) by done.
  destruct (decide (i = 34%nat)) as [->|]; [by rewrite list_lookup_insert_eq by (rewrite ?length_insert; lia)|].
  rewrite (list_lookup_insert_ne _ 34) by done.
  destruct (decide (i = 35%nat)) as [->|]; [by rewrite list_lookup_insert_eq by (rewrite ?length_insert; lia)|].
  by rewrite !(list_lookup_insert_ne _ 35), (list_lookup_insert_ne _ 34), (list_lookup_insert_ne _ 36).
Qed.
