(* ===== verification/Network.v ===== *)
(** * machine/network.cc and network/post.cc: packets and mail

    The network device sends and receives datagrams of [MaxWireSize] bytes; the socket
    behind it belongs to the host: what [Send] gives to it and what a poll finds in it are
    results and arguments of the definitions, and so is the draw that decides whether a
    packet is lost. The post office puts its own header in front of the data and sorts
    arriving messages into mail boxes. Its semaphores are their values and its lock is held
    or free, as Synch.v justifies; a routine is a definition per part that ends where the
    caller may wait, and [Blocks] says that it waits. *)

From stdpp Require Import prelude numbers list gmap.
From S2P Require Import Prelude Params CList Interrupt FileHdr Directory OpenFile.

Open Scope Z_scope.

(** ** Headers *)

(** [PacketHeader] and [MailHeader] have the same three words. *)
Record PacketHeader := mkPacket { pk_to : Z; pk_from : Z; pk_length : Z }.
Record MailHeader := mkMailHdr { mh_to : Z; mh_from : Z; mh_length : Z }.

Definition sizeof_header : Z := 12.
Definition MaxWireSize : Z := 64.
Definition MaxPacketSize : Z := MaxWireSize - sizeof_header.
Definition MaxMailSize : Z := MaxPacketSize - sizeof_header.

Definition packet_bytes (h : PacketHeader) : list Z := words_to_bytes [pk_to h; pk_from h; pk_length h].
Definition mail_bytes (h : MailHeader) : list Z := words_to_bytes [mh_to h; mh_from h; mh_length h].

(** The header at the beginning of a buffer: two [int] and an [unsigned]. *)
Definition bytes_packet (buffer : list Z) : outcome PacketHeader :=
  bytes ← get_bytes buffer 0 sizeof_header;
  match bytes_to_words 3 bytes with
  | [a; b; c] => Ok (mkPacket (s32 a) (s32 b) c)
  | _ => Undef
  end.
Definition bytes_mail (buffer : list Z) : outcome MailHeader :=
  p ← bytes_packet buffer; Ok (mkMailHdr (pk_to p) (pk_from p) (pk_length p)).

(** ** State *)

Record Network := mkNetwork { ident : Z; sendBusy : bool; inHdr : PacketHeader; inbox : list Z }.

Record Mail := mkMail { m_pktHdr : PacketHeader; m_mailHdr : MailHeader; m_data : list Z }.

Record PostOffice := mkPost {
  netAddr : Z;
  boxes : list (queue Mail);
  numBoxes : Z;
  messageAvailable : Z;
  messageSent : Z;
  sendLock : bool }.

(** The device and the post office of a machine. *)
Record station := mkStation { st_net : Network; st_post : PostOffice }.

Abbreviation net w := (st_net (w_dev w)).
Abbreviation post w := (st_post (w_dev w)).

Definition set_net (w : world station) (n : Network) : world station := with_dev w (mkStation n (post w)).
Definition set_post (w : world station) (p : PostOffice) : world station := with_dev w (mkStation (net w) p).
Definition set_boxes (p : PostOffice) (b : list (queue Mail)) : PostOffice :=
  mkPost (netAddr p) b (numBoxes p) (messageAvailable p) (messageSent p) (sendLock p).
Definition set_synch (p : PostOffice) (available sent : Z) (lock : bool) : PostOffice :=
  mkPost (netAddr p) (boxes p) (numBoxes p) available sent lock.

Definition count_sent (s : Statistics) : Statistics :=
  mkStatistics (totalTicks s) (idleTicks s) (systemTicks s) (userTicks s) (numDiskReads s) (numDiskWrites s)
    (numConsoleCharsRead s) (numConsoleCharsWritten s) (numPageFaults s) (s32 (numPacketsSent s + 1)) (numPacketsRecvd s).
Definition count_received (s : Statistics) : Statistics :=
  mkStatistics (totalTicks s) (idleTicks s) (systemTicks s) (userTicks s) (numDiskReads s) (numDiskWrites s)
    (numConsoleCharsRead s) (numConsoleCharsWritten s) (numPageFaults s) (numPacketsSent s) (s32 (numPacketsRecvd s + 1)).

Section network.
Context `{Fresh}.
(** The addresses of the two polling functions and of the object. *)
Context (NetworkReadPoll NetworkSendDone this : Z).

(** ** machine/network.cc *)

(** The constructor, with memory that is not initialized for the rest of [inHdr] and
    [inbox]. *)
Definition Network_new (w : world station) (addr : Z) (garbage : PacketHeader) : outcome (world station) :=
  let n := mkNetwork addr false (mkPacket (pk_to garbage) (pk_from garbage) 0) (fresh_bytes (Z.to_nat MaxPacketSize)) in
  Schedule (set_net w n) NetworkReadPoll this NetworkTime NetworkRecvInt.

(** [incoming] is the datagram that waits in the socket; the result says whether it was
    read. *)
Definition CheckPktAvail (readHandler : world station -> outcome (world station)) (w : world station)
    (incoming : option (list Z)) : outcome (bool * world station) :=
  w ← Schedule w NetworkReadPoll this NetworkTime NetworkRecvInt;
  if negb (pk_length (inHdr (net w)) =? 0) then Ok (false, w)
  else
    match incoming with
    | None => Ok (false, w)
    | Some wire =>
        buffer ← put_bytes (fresh_bytes (Z.to_nat MaxWireSize)) 0 wire;
        h ← bytes_packet buffer;
        ASSERT ((pk_to h =? ident (net w)) && (pk_length h <=? MaxPacketSize));;
        data ← get_bytes buffer sizeof_header (pk_length h);
        b ← put_bytes (inbox (net w)) 0 data;
        let w := set_net w (mkNetwork (ident (net w)) (sendBusy (net w)) h b) in
        w ← readHandler (with_stats w (count_received (w_stats w)));
        Ok (true, w)
    end.

Definition SendDone (writeHandler : world station -> outcome (world station)) (w : world station)
    : outcome (world station) :=
  let n := net w in
  let w := set_net w (mkNetwork (ident n) false (inHdr n) (inbox n)) in
  writeHandler (with_stats w (count_sent (w_stats w))).

(** The datagram and its address, if the packet is not [lost]. *)
Definition Network_Send (w : world station) (lost : bool) (h : PacketHeader) (data : list Z)
    : outcome (option (Z * list Z) * world station) :=
  ASSERT (negb (sendBusy (net w)) && (0 <? pk_length h) && (pk_length h <=? MaxPacketSize) &&
          (pk_from h =? ident (net w)));;
  w ← Schedule w NetworkSendDone this NetworkTime NetworkSendInt;
  if lost then Ok (None, w)
  else
    buffer ← put_bytes (fresh_bytes (Z.to_nat MaxWireSize)) 0 (packet_bytes h);
    bytes ← get_bytes data 0 (pk_length h);
    buffer ← put_bytes buffer sizeof_header bytes;
    Ok (Some (pk_to h, buffer), w).

(** The header, and the bytes that are copied to [data]. *)
Definition Network_Receive (w : world station) : outcome (PacketHeader * list Z * world station) :=
  let n := net w in
  let h := inHdr n in
  let w := set_net w (mkNetwork (ident n) (sendBusy n) (mkPacket (pk_to h) (pk_from h) 0) (inbox n)) in
  if negb (pk_length h =? 0) then bytes ← get_bytes (inbox n) 0 (pk_length h); Ok (h, bytes, w)
  else Ok (h, [], w).

(** ** network/post.cc *)

Definition Mail_new (pktH : PacketHeader) (mailH : MailHeader) (msgData : list Z) : outcome Mail :=
  ASSERT (mh_length mailH <=? MaxMailSize);;
  bytes ← get_bytes msgData 0 (mh_length mailH);
  data ← put_bytes (fresh_bytes (Z.to_nat MaxMailSize)) 0 bytes;
  Ok (mkMail pktH mailH data).

Definition MailBox_Put (box : queue Mail) (pktHdr : PacketHeader) (mailHdr : MailHeader) (data : list Z)
    : outcome (queue Mail) :=
  mail ← Mail_new pktHdr mailHdr data;
  Ok (q_append mail box).

(** The headers, the bytes that are copied to the caller, and the rest of the box. *)
Definition MailBox_Get (box : queue Mail) : outcome (answer (PacketHeader * MailHeader * list Z * queue Mail)) :=
  match q_remove box with
  | (None, _) => Ok Blocks
  | (Some (_, mail), box) =>
      bytes ← get_bytes (m_data mail) 0 (mh_length (m_mailHdr mail));
      Ok (Returns (m_pktHdr mail, m_mailHdr mail, bytes, box))
  end.

(** The constructor without the network and the thread. *)
Definition PostOffice_new (addr nBoxes : Z) : PostOffice :=
  mkPost addr (replicate (Z.to_nat nBoxes) []) nBoxes 0 0 false.

(** An iteration of [PostalDelivery], with its [buffer]. *)
Definition PostalDelivery_iter (w : world station) (buffer : list Z)
    : outcome (answer (list Z * world station)) :=
  let po := post w in
  if messageAvailable po =? 0 then Ok Blocks
  else
    let w := set_post w (set_synch po (messageAvailable po - 1) (messageSent po) (sendLock po)) in
    '(pktHdr, bytes, w) ← Network_Receive w;
    buffer ← put_bytes buffer 0 bytes;
    mailHdr ← bytes_mail buffer;
    let po := post w in
    ASSERT ((0 <=? mh_to mailHdr) && (mh_to mailHdr <? numBoxes po));;
    ASSERT (mh_length mailHdr <=? MaxMailSize);;
    box ← arr_get (boxes po) (mh_to mailHdr);
    box ← MailBox_Put box pktHdr mailHdr (drop (Z.to_nat sizeof_header) buffer);
    b ← arr_set (boxes po) (mh_to mailHdr) box;
    Ok (Returns (buffer, set_post w (set_boxes po b))).

(** [Send] up to [messageSent->P()]. *)
Definition PostOffice_Send (w : world station) (lost : bool) (pktHdr : PacketHeader) (mailHdr : MailHeader) (data : list Z)
    : outcome (answer (option (Z * list Z) * world station)) :=
  let po := post w in
  ASSERT (mh_length mailHdr <=? MaxMailSize);;
  ASSERT ((0 <=? mh_to mailHdr) && (mh_to mailHdr <? numBoxes po));;
  let pktHdr := mkPacket (pk_to pktHdr) (netAddr po) (u32 (mh_length mailHdr + sizeof_header)) in
  buffer ← put_bytes (fresh_bytes (Z.to_nat MaxPacketSize)) 0 (mail_bytes mailHdr);
  bytes ← get_bytes data 0 (mh_length mailHdr);
  buffer ← put_bytes buffer sizeof_header bytes;
  if sendLock po then Ok Blocks
  else
    let w := set_post w (set_synch po (messageAvailable po) (messageSent po) true) in
    '(out, w) ← Network_Send w lost pktHdr buffer;
    Ok (Returns (out, w)).

(** The rest of [Send]. *)
Definition PostOffice_Send_end (w : world station) : answer (world station) :=
  let po := post w in
  if messageSent po =? 0 then Blocks
  else Returns (set_post w (set_synch po (messageAvailable po) (messageSent po - 1) false)).

Definition PostOffice_Receive (w : world station) (box : Z)
    : outcome (answer (PacketHeader * MailHeader * list Z * world station)) :=
  let po := post w in
  ASSERT ((0 <=? box) && (box <? numBoxes po));;
  q ← arr_get (boxes po) box;
  a ← MailBox_Get q;
  match a with
  | Blocks => Ok Blocks
  | Returns (pktHdr, mailHdr, data, q) =>
      b ← arr_set (boxes po) box q;
      ASSERT (mh_length mailHdr <=? MaxMailSize);;
      Ok (Returns (pktHdr, mailHdr, data, set_post w (set_boxes po b)))
  end.

(** The two interrupt handlers. *)
Definition IncomingPacket (w : world station) : outcome (world station) :=
  let po := post w in
  Ok (set_post w (set_synch po (messageAvailable po + 1) (messageSent po) (sendLock po))).
Definition PacketSent (w : world station) : outcome (world station) :=
  let po := post w in
  Ok (set_post w (set_synch po (messageAvailable po) (messageSent po + 1) (sendLock po))).
End network.

(** ** Headers on the wire *)

Lemma packet_bytes_length h : length (packet_bytes h) = 12%nat.
Proof. apply words_to_bytes_length. Qed.
Lemma mail_bytes_length h : length (mail_bytes h) = 12%nat.
Proof. apply words_to_bytes_length. Qed.

Lemma bytes_packet_ok h rest : is_s32 (pk_to h) -> is_s32 (pk_from h) -> is_u32 (pk_length h) ->
  bytes_packet (packet_bytes h ++ rest) = Ok h.
Proof.
  intros Ht Hf Hl. unfold bytes_packet. pose proof (packet_bytes_length h) as Hlen.
  rewrite get_bytes_in by (rewrite ?length_app; change sizeof_header with 12; lia). cbn [mbind outcome_bind].
  change (Z.to_nat 0) with 0%nat. change (drop 0 ?l) with l. change (Z.to_nat sizeof_header) with 12%nat.
  rewrite take_app_length' by done. unfold packet_bytes.
  pose proof (bytes_words_round_trip [pk_to h; pk_from h; pk_length h] []) as Hr. rewrite app_nil_r in Hr.
  change (length [pk_to h; pk_from h; pk_length h]) with 3%nat in Hr. rewrite Hr. cbn [map].
  rewrite !s32_u32, !s32_small, u32_small by done. by destruct h.
Qed.

Lemma bytes_mail_ok h rest : is_s32 (mh_to h) -> is_s32 (mh_from h) -> is_u32 (mh_length h) ->
  bytes_mail (mail_bytes h ++ rest) = Ok h.
Proof.
  intros Ht Hf Hl. unfold bytes_mail. change (mail_bytes h) with (packet_bytes (mkPacket (mh_to h) (mh_from h) (mh_length h))).
  rewrite bytes_packet_ok by done. by destruct h.
Qed.

(** A buffer that starts with [a] and goes on with [b]. *)
Lemma put_two buf a b n : length a = n -> (n + length b <= length buf)%nat ->
  exists rest, put_bytes buf 0 a = Ok (splice buf 0 a) /\
    put_bytes (splice buf 0 a) (Z.of_nat n) b = Ok (a ++ b ++ rest) /\ length (a ++ b ++ rest) = length buf.
Proof.
  intros Hn Hl. exists (drop (n + length b) buf). rewrite !put_bytes_in by (rewrite ?splice_length; lia).
  change (Z.to_nat 0) with 0%nat. rewrite Nat2Z.id. split; [done|]. split.
  - f_equal. unfold splice. rewrite take_0. change ([] ++ ?l) with l. rewrite (take_app_length' _ _ n) by lia. do 2 f_equal.
    rewrite drop_app_ge by lia. rewrite drop_drop. f_equal. lia.
  - rewrite !length_app, length_drop. lia.
Qed.

Section mail.
Context `{FreshLaws}.
Context (pktHdr : PacketHeader) (mailHdr : MailHeader) (data : list Z) (from : Z).

(** A message that [Send] accepts. *)
Record sendable (boxes : Z) : Prop := {
  sd_to : is_s32 (pk_to pktHdr) /\ is_s32 from;
  sd_box : 0 <= mh_to mailHdr < boxes /\ boxes < two31;
  sd_from : is_s32 (mh_from mailHdr);
  sd_length : 0 <= mh_length mailHdr <= 40 /\ mh_length mailHdr <= Z.of_nat (length data) }.

Definition sent_header : PacketHeader := mkPacket (pk_to pktHdr) from (mh_length mailHdr + 12).
Definition payload : list Z := take (Z.to_nat (mh_length mailHdr)) data.

(** What a datagram with this message looks like. *)
Definition carries (wire : list Z) : Prop :=
  exists rest, wire = packet_bytes sent_header ++ mail_bytes mailHdr ++ payload ++ rest /\ length wire = 64%nat.

Lemma payload_length n : sendable n -> length payload = Z.to_nat (mh_length mailHdr).
Proof. intros [_ _ _ [Hl Hd]]. unfold payload. rewrite length_take. lia. Qed.

Lemma send_ok sdone this w n (lost : bool) :
  sendable n -> numBoxes (post w) = n -> netAddr (post w) = from -> ident (net w) = from ->
  sendBusy (net w) = false -> sendLock (post w) = false ->
  exists wire w', PostOffice_Send sdone this w lost pktHdr mailHdr data =
      Ok (Returns (if lost then None else Some (pk_to pktHdr, wire), w')) /\
    carries wire /\ net w' = net w /\ post w' = set_synch (post w) (messageAvailable (post w)) (messageSent (post w)) true.
Proof.
  intros Hs Hn Ha Hi Hb Hlk. pose proof (payload_length n Hs) as Hpl. pose proof Hs as [[Ht Hf] [Hbox Hbx] Hmf [Hl Hd]].
  unfold PostOffice_Send. change MaxMailSize with 40. rewrite !ASSERT_true by (rewrite ?Hn; lia). cbn [mbind outcome_bind].
  destruct (put_two (fresh_bytes (Z.to_nat MaxPacketSize)) (mail_bytes mailHdr) payload 12) as (r1 & Hp1 & Hp2 & Hlen1);
    [apply mail_bytes_length|rewrite fresh_bytes_length; change (Z.to_nat MaxPacketSize) with 52%nat; lia|].
  rewrite Hp1. cbn [mbind outcome_bind]. rewrite get_bytes_in by lia. cbn [mbind outcome_bind].
  change (Z.to_nat 0) with 0%nat. change (drop 0 ?l) with l. fold payload. change sizeof_header with (Z.of_nat 12).
  rewrite Hp2. cbn [mbind outcome_bind]. rewrite Hlk. rewrite u32_small by (unfold is_u32, two32; lia).
  set (buf := mail_bytes mailHdr ++ payload ++ r1) in *. rewrite fresh_bytes_length in Hlen1.
  change (Z.to_nat MaxPacketSize) with 52%nat in Hlen1.
  rewrite Ha. change (mkPacket (pk_to pktHdr) from (mh_length mailHdr + Z.of_nat 12)) with sent_header. unfold Network_Send.
  cbn [set_post with_dev w_dev st_net]. rewrite Hb, Hi. change MaxPacketSize with 52. cbn [sent_header pk_length pk_from].
  rewrite Z.eqb_refl. rewrite ASSERT_true by lia. cbn [mbind outcome_bind]. unfold Schedule at 1.
  rewrite ASSERT_true by done. cbn [mbind outcome_bind].
  set (bytes := take (Z.to_nat (mh_length mailHdr + 12)) buf).
  assert (bytes = mail_bytes mailHdr ++ payload) as Hbytes.
  { unfold bytes, buf. rewrite app_assoc. apply take_app_length'. rewrite length_app, mail_bytes_length, Hpl. lia. }
  destruct (put_two (fresh_bytes (Z.to_nat MaxWireSize)) (packet_bytes sent_header) bytes 12) as (r2 & Hq1 & Hq2 & Hlen2).
  { apply packet_bytes_length. }
  { rewrite fresh_bytes_length, Hbytes, length_app, mail_bytes_length, Hpl. change (Z.to_nat MaxWireSize) with 64%nat. lia. }
  match goal with |- context [if lost then Ok (None, ?w1) else _] => exists (packet_bytes sent_header ++ bytes ++ r2), w1 end. split.
  { destruct lost; [reflexivity|]. rewrite Hq1. cbn [mbind outcome_bind]. rewrite get_bytes_in by lia. cbn [mbind outcome_bind].
    change (Z.to_nat 0) with 0%nat. change (drop 0 buf) with buf. fold bytes. change sizeof_header with (Z.of_nat 12).
    rewrite Hq2. reflexivity. }
  split; [|done]. exists r2. split; [by rewrite Hbytes, <- app_assoc|]. rewrite Hlen2, fresh_bytes_length. done.
Qed.

(** The packet in the buffer of the device. *)
Record buffered (w : world station) : Prop := {
  bf_header : inHdr (net w) = sent_header;
  bf_data : take (Z.to_nat (mh_length mailHdr + 12)) (inbox (net w)) = mail_bytes mailHdr ++ payload;
  bf_length : length (inbox (net w)) = 52%nat }.

Lemma poll_ok poll this w wire n :
  sendable n -> carries wire -> ident (net w) = pk_to pktHdr -> pk_length (inHdr (net w)) = 0 ->
  length (inbox (net w)) = 52%nat ->
  exists w', CheckPktAvail poll this IncomingPacket w (Some wire) = Ok (true, w') /\ buffered w' /\
    ident (net w') = ident (net w) /\ sendBusy (net w') = sendBusy (net w) /\
    post w' = set_synch (post w) (messageAvailable (post w) + 1) (messageSent (post w)) (sendLock (post w)).
Proof.
  intros Hs (rest & Hw & Hwl) Hi Hl0 Hb. pose proof (payload_length n Hs) as Hpl.
  pose proof Hs as [[Ht Hf] _ Hmf [Hl Hd]]. unfold CheckPktAvail, Schedule. rewrite ASSERT_true by done.
  cbn [mbind outcome_bind with_pending w_dev]. rewrite Hl0. change (negb (0 =? 0)) with false. cbv iota.
  rewrite put_bytes_in by (rewrite ?fresh_bytes_length, ?Hwl; change (Z.to_nat MaxWireSize) with 64%nat; lia).
  cbn [mbind outcome_bind]. assert (splice (fresh_bytes (Z.to_nat MaxWireSize)) (Z.to_nat 0) wire = wire) as ->.
  { unfold splice. change (Z.to_nat 0) with 0%nat. rewrite take_0. change ([] ++ ?l) with l.
    rewrite drop_ge, app_nil_r by (rewrite fresh_bytes_length, Hwl; done). done. }
  assert (bytes_packet wire = Ok sent_header) as ->.
  { rewrite Hw. apply bytes_packet_ok; cbn [sent_header pk_to pk_from pk_length]; try done. unfold is_u32, two32. lia. }
  cbn [mbind outcome_bind sent_header pk_to pk_length]. change MaxPacketSize with 52. rewrite Hi, Z.eqb_refl.
  rewrite ASSERT_true by lia. cbn [mbind outcome_bind]. rewrite get_bytes_in by (change sizeof_header with 12; lia).
  cbn [mbind outcome_bind]. set (bytes := take _ _).
  assert (bytes = mail_bytes mailHdr ++ payload) as Hbytes.
  { unfold bytes. rewrite Hw, drop_app_length' by (rewrite packet_bytes_length; done). rewrite app_assoc.
    apply take_app_length'. rewrite length_app, mail_bytes_length, Hpl. lia. }
  assert (length bytes = Z.to_nat (mh_length mailHdr + 12)) as Hbl
    by (rewrite Hbytes, length_app, mail_bytes_length, Hpl; lia).
  rewrite put_bytes_in by lia. cbn [mbind outcome_bind]. eexists. split; [done|]. split; [|done].
  split; cbn [set_post set_net with_dev with_stats w_dev st_net inHdr inbox]; [done| |by rewrite splice_length by lia].
  rewrite <- Hbl, <- Hbytes. apply (splice_read _ 0). lia.
Qed.

Lemma deliver_ok w buffer n q :
  sendable n -> buffered w -> length buffer = 52%nat -> 0 < messageAvailable (post w) -> numBoxes (post w) = n ->
  boxes (post w) !! Z.to_nat (mh_to mailHdr) = Some q ->
  exists buffer' w' mail, PostalDelivery_iter w buffer = Ok (Returns (buffer', w')) /\ length buffer' = 52%nat /\
    m_pktHdr mail = sent_header /\ m_mailHdr mail = mailHdr /\ length (m_data mail) = 40%nat /\
    take (Z.to_nat (mh_length mailHdr)) (m_data mail) = payload /\
    boxes (post w') = <[Z.to_nat (mh_to mailHdr) := q_append mail q]> (boxes (post w)) /\
    numBoxes (post w') = n /\ messageAvailable (post w') = messageAvailable (post w) - 1 /\
    pk_length (inHdr (net w')) = 0 /\
    post w' = mkPost (netAddr (post w)) (boxes (post w')) n (messageAvailable (post w')) (messageSent (post w)) (sendLock (post w)) /\
    net w' = mkNetwork (ident (net w)) (sendBusy (net w)) (inHdr (net w')) (inbox (net w)).
Proof.
  intros Hs [Hh Hdata Hil] Hbuf Hav Hn Hq. pose proof (payload_length n Hs) as Hpl.
  pose proof Hs as [_ [Hbox Hb31] Hmf [Hl Hd]]. unfold two31 in *. pose proof (mail_bytes_length mailHdr) as Hml.
  unfold PostalDelivery_iter. destruct (Z.eqb_spec (messageAvailable (post w)) 0); [lia|].
  unfold Network_Receive. cbn [set_post with_dev w_dev st_net]. rewrite Hh. cbn [sent_header pk_length].
  destruct (Z.eqb_spec (mh_length mailHdr + 12) 0); [lia|]. cbn [negb]. rewrite get_bytes_in by lia.
  cbn [mbind outcome_bind]. change (Z.to_nat 0) with 0%nat. change (drop 0 ?l) with l. rewrite Hdata.
  rewrite put_bytes_in by (rewrite ?length_app; lia). cbn [mbind outcome_bind]. change (Z.to_nat 0) with 0%nat.
  set (buf := splice buffer 0 (mail_bytes mailHdr ++ payload)).
  assert (buf = mail_bytes mailHdr ++ payload ++ drop (length (mail_bytes mailHdr ++ payload)) buffer) as Hbufeq.
  { unfold buf, splice. rewrite take_0. change ([] ++ ?l) with l. by rewrite <- app_assoc. }
  assert (length buf = 52%nat) as Hbl by (unfold buf; rewrite splice_length; rewrite ?length_app; lia).
  assert (bytes_mail buf = Ok mailHdr) as ->
    by (rewrite Hbufeq; apply bytes_mail_ok; [unfold is_s32, two31; lia|done|unfold is_u32, two32; lia]).
  cbn [mbind outcome_bind set_net set_post set_synch with_dev w_dev st_post numBoxes boxes]. rewrite Hn.
  change MaxMailSize with 40. rewrite !ASSERT_true by lia. cbn [mbind outcome_bind].
  rewrite (proj2 (arr_get_ok _ (mh_to mailHdr) q)) by (split; [lia|done]). cbn [mbind outcome_bind].
  unfold MailBox_Put, Mail_new. change MaxMailSize with 40. rewrite ASSERT_true by lia. cbn [mbind outcome_bind].
  change (Z.to_nat sizeof_header) with 12%nat.
  rewrite get_bytes_in by (rewrite ?length_drop; lia). cbn [mbind outcome_bind]. change (Z.to_nat 0) with 0%nat.
  change (drop 0 ?l) with l.
  assert (take (Z.to_nat (mh_length mailHdr)) (drop 12 buf) = payload) as ->.
  { rewrite Hbufeq, drop_app_length' by done. apply take_app_length'. lia. }
  rewrite put_bytes_in by (rewrite ?fresh_bytes_length; change (Z.to_nat 40) with 40%nat; lia). cbn [mbind outcome_bind].
  pose proof (lookup_lt_Some _ _ _ Hq) as Hlt. rewrite arr_set_in by lia. cbn [mbind outcome_bind].
  eexists buf, _, (mkMail sent_header mailHdr (splice (fresh_bytes (Z.to_nat 40)) 0 payload)). split; [done|].
  cbn [m_pktHdr m_mailHdr m_data set_post set_boxes set_synch with_dev w_dev st_post st_net boxes numBoxes messageAvailable inHdr pk_length].
  split_and!; try done.
  - rewrite splice_length; rewrite fresh_bytes_length; change (Z.to_nat 40) with 40%nat; lia.
  - rewrite <- Hpl at 1. apply (splice_read _ 0). rewrite fresh_bytes_length. change (Z.to_nat 40) with 40%nat. lia.
  - by rewrite <- Hn.
Qed.

(** A thread that receives from a box gets its first message. *)
Lemma receive_ok w n mail q :
  sendable n -> numBoxes (post w) = n -> boxes (post w) !! Z.to_nat (mh_to mailHdr) = Some ((0, mail) :: q) ->
  m_pktHdr mail = sent_header -> m_mailHdr mail = mailHdr -> length (m_data mail) = 40%nat ->
  take (Z.to_nat (mh_length mailHdr)) (m_data mail) = payload ->
  exists w', PostOffice_Receive w (mh_to mailHdr) = Ok (Returns (sent_header, mailHdr, payload, w')) /\
    boxes (post w') = <[Z.to_nat (mh_to mailHdr) := q]> (boxes (post w)) /\ net w' = net w /\ post w' = set_boxes (post w) (boxes (post w')).
Proof.
  intros [_ [Hbox Hb31] Hmf [Hl Hd]] Hn Hq Hp Hm Hdl Hdata. unfold PostOffice_Receive. rewrite Hn.
  rewrite ASSERT_true by lia. cbn [mbind outcome_bind].
  rewrite (proj2 (arr_get_ok _ (mh_to mailHdr) ((0, mail) :: q))) by (split; [lia|done]). cbn [mbind outcome_bind].
  unfold MailBox_Get. cbn [q_remove]. rewrite Hm, get_bytes_in by lia. cbn [mbind outcome_bind].
  change (Z.to_nat 0) with 0%nat. change (drop 0 ?l) with l. rewrite Hdata, Hp.
  pose proof (lookup_lt_Some _ _ _ Hq) as Hlt. rewrite arr_set_in by lia. cbn [mbind outcome_bind].
  change MaxMailSize with 40. rewrite ASSERT_true by lia. cbn [mbind outcome_bind]. by eexists.
Qed.
End mail.

(** ** Two machines *)

Definition demo_station (addr : Z) : world station :=
  mkWorld Interrupt_new Statistics_new None
    (mkStation (mkNetwork addr false (mkPacket 0 0 0) (replicate 52 9)) (PostOffice_new addr 3)).

(** ** Properties *)

(** The way of a message. [Send] on one machine gives a datagram to the host, addressed to
    the other machine; when a poll of that machine finds it, the packet is taken over and
    the post office is told; the postal worker then puts the message at the end of the box
    that its header names, and the device is free for the next packet. A thread that
    receives from that box, when no other message was in it, gets the headers and exactly
    the bytes that were sent, and the box is empty again. *)
Theorem mail_roundtrip `{FreshLaws} poll sdone this this' wa wb pktHdr mailHdr data buffer n q :
  let to := Z.to_nat (mh_to mailHdr) in
  let header := sent_header pktHdr mailHdr (netAddr (post wa)) in
  let message := payload mailHdr data in
  sendable pktHdr mailHdr data (netAddr (post wa)) n ->
  numBoxes (post wa) = n -> ident (net wa) = netAddr (post wa) -> sendBusy (net wa) = false -> sendLock (post wa) = false ->
  numBoxes (post wb) = n -> ident (net wb) = pk_to pktHdr -> pk_length (inHdr (net wb)) = 0 ->
  length (inbox (net wb)) = 52%nat -> 0 <= messageAvailable (post wb) -> length buffer = 52%nat ->
  boxes (post wb) !! to = Some q ->
  exists wire wa' wb1 buffer' wb2 mail,
    PostOffice_Send sdone this wa false pktHdr mailHdr data = Ok (Returns (Some (pk_to pktHdr, wire), wa')) /\
    CheckPktAvail poll this' IncomingPacket wb (Some wire) = Ok (true, wb1) /\
    PostalDelivery_iter wb1 buffer = Ok (Returns (buffer', wb2)) /\
    boxes (post wb2) = <[to := q_append mail q]> (boxes (post wb)) /\
    messageAvailable (post wb2) = messageAvailable (post wb) /\ pk_length (inHdr (net wb2)) = 0 /\
    (q = [] -> exists wb3, PostOffice_Receive wb2 (mh_to mailHdr) = Ok (Returns (header, mailHdr, message, wb3)) /\
       boxes (post wb3) = boxes (post wb)).
Proof.
  intros to header message Hs Hna Hia Hba Hla Hnb Hib Hl0 Hil Hav Hbl Hq.
  destruct (send_ok pktHdr mailHdr data _ sdone this wa n false Hs) as (wire & wa' & Hsend & Hw & _); try done.
  destruct (poll_ok pktHdr mailHdr data _ poll this' wb wire n Hs Hw) as (wb1 & Hpoll & Hbf & _ & _ & Hpost); try done.
  destruct (deliver_ok pktHdr mailHdr data _ wb1 buffer n q Hs Hbf) as (buffer' & wb2 & mail & Hdel & _ & Hp & Hm & Hdl & Hd &
    Hbx & Hn2 & Hav2 & Hl2 & _ & _); try done; rewrite ?Hpost; try done; [simpl; lia|].
  rewrite Hpost in Hbx, Hav2. cbn [set_synch boxes messageAvailable] in Hbx, Hav2.
  exists wire, wa', wb1, buffer', wb2, mail. split_and!; try done; [lia|]. intros ->.
  assert (to < length (boxes (post wb)))%nat as Hlt by (by eapply lookup_lt_Some).
  destruct (receive_ok pktHdr mailHdr data _ wb2 n mail [] Hs) as (wb3 & Hrec & Hbx3 & _ & _); try done.
  { rewrite Hbx. by rewrite list_lookup_insert_eq by lia. }
  exists wb3. split; [done|]. rewrite Hbx3, Hbx, list_insert_insert_eq. by apply list_insert_id.
Qed.

Lemma mail_roundtrip_witness :
  exists wire wa' wb1 buffer' wb2 wb3,
    PostOffice_Send (H := zero_fresh) 1 0 (demo_station 0) false (mkPacket 1 0 0) (mkMailHdr 2 0 3) [65; 66; 67] =
      Ok (Returns (Some (1, wire), wa')) /\
    CheckPktAvail (H := zero_fresh) 2 0 IncomingPacket (demo_station 1) (Some wire) = Ok (true, wb1) /\
    PostalDelivery_iter (H := zero_fresh) wb1 (replicate 52 0) = Ok (Returns (buffer', wb2)) /\
    PostOffice_Receive wb2 2 = Ok (Returns (mkPacket 1 0 15, mkMailHdr 2 0 3, [65; 66; 67], wb3)).
Proof.
  destruct (mail_roundtrip (H := zero_fresh) (H0 := zero_fresh_laws) 2 1 0 0 (demo_station 0) (demo_station 1)
    (mkPacket 1 0 0) (mkMailHdr 2 0 3) [65; 66; 67] (replicate 52 0) 3 [])
    as (wire & wa' & wb1 & buffer' & wb2 & mail & H1 & H2 & H3 & _ & _ & _ & Hrec).
  - split; unfold is_s32, two31; simpl; lia.
  - reflexivity.
  - reflexivity.
  - reflexivity.
  - reflexivity.
  - reflexivity.
  - reflexivity.
  - reflexivity.
  - reflexivity.
  - simpl. lia.
  - reflexivity.
  - reflexivity.
  - destruct (Hrec eq_refl) as (wb3 & H4 & _). exists wire, wa', wb1, buffer', wb2, wb3.
    split; [exact H1|]. split; [exact H2|]. split; [exact H3|exact H4].
Defined.

(** The device has room for one packet. While it holds one, a poll leaves the next datagram
    in the socket, changes nothing else and arranges for another poll, so that the datagram
    is found when the packet has been received. *)
Theorem poll_keeps_waiting `{Fresh} poll this handler w wire :
  pk_length (inHdr (net w)) <> 0 ->
  exists w' h data w2, CheckPktAvail poll this handler w (Some wire) = Ok (false, w') /\ w_dev w' = w_dev w /\
    mkPending poll this (s32 (now w + 100)) NetworkRecvInt ∈ (pending (w_int w')).*2 /\
    (0 <= pk_length (inHdr (net w)) <= Z.of_nat (length (inbox (net w))) ->
     Network_Receive w' = Ok (h, data, w2) /\ h = inHdr (net w) /\ pk_length (inHdr (net w2)) = 0 /\
     data = take (Z.to_nat (pk_length h)) (inbox (net w))).
Proof.
  intros Hne. unfold CheckPktAvail, Schedule. rewrite ASSERT_true by done. cbn [mbind outcome_bind with_pending w_dev].
  destruct (Z.eqb_spec (pk_length (inHdr (net w))) 0); [done|]. cbn [negb].
  set (w' := with_pending w _). exists w', (inHdr (net w)), (take (Z.to_nat (pk_length (inHdr (net w)))) (inbox (net w))).
  eexists. split; [done|]. split; [done|]. split.
  - apply list_elem_of_fmap. eexists. split; [|apply q_sorted_insert_elem; left; reflexivity]. done.
  - intros Hl. unfold Network_Receive. cbn [w' with_pending w_dev].
    destruct (Z.eqb_spec (pk_length (inHdr (net w))) 0); [done|]. cbn [negb].
    rewrite get_bytes_in by lia. done.
Qed.

Lemma poll_keeps_waiting_witness :
  let w := set_net (demo_station 1) (mkNetwork 1 false (mkPacket 1 0 4) (replicate 52 9)) in
  exists w' h w2, CheckPktAvail (H := zero_fresh) 2 0 IncomingPacket w (Some (replicate 64 7)) = Ok (false, w') /\
    Network_Receive w' = Ok (h, [9; 9; 9; 9], w2).
Proof.
  intros w. destruct (poll_keeps_waiting (H := zero_fresh) 2 0 IncomingPacket w (replicate 64 7))
    as (w' & h & data & w2 & Hrun & _ & _ & Hrec).
  - discriminate.
  - destruct Hrec as (Hr & -> & _ & ->); [simpl; lia|]. exists w'. eexists _, w2. split; [exact Hrun|exact Hr].
Defined.

(** [Network::Send] asserts that no packet is being sent, but nothing sets [sendBusy]: a
    second packet is accepted before the interrupt for the first one, and both interrupts
    are scheduled for the same time. *)
Theorem Send_never_busy `{FreshLaws} sdone this w h data :
  sendBusy (net w) = false -> pk_from h = ident (net w) -> 0 < pk_length h <= 52 -> pk_length h <= Z.of_nat (length data) ->
  exists out w1 out' w2, Network_Send sdone this w false h data = Ok (Some out, w1) /\
    Network_Send sdone this w1 false h data = Ok (Some out', w2) /\ sendBusy (net w2) = false.
Proof.
  intros Hb Hf Hl Hd.
  assert (forall v, w_dev v = w_dev w -> exists out v', Network_Send sdone this v false h data = Ok (Some out, v') /\
    w_dev v' = w_dev w) as Hsend.
  { intros v Hv. unfold Network_Send. rewrite Hv, Hb, Hf, Z.eqb_refl. change MaxPacketSize with 52.
    rewrite ASSERT_true by lia. cbn [mbind outcome_bind]. unfold Schedule. rewrite ASSERT_true by done.
    cbn [mbind outcome_bind].
    destruct (put_two (fresh_bytes (Z.to_nat MaxWireSize)) (packet_bytes h) (take (Z.to_nat (pk_length h)) data) 12)
      as (r & Hp1 & Hp2 & _); [apply packet_bytes_length| |].
    { rewrite fresh_bytes_length, length_take. change (Z.to_nat MaxWireSize) with 64%nat. lia. }
    rewrite Hp1. cbn [mbind outcome_bind]. rewrite get_bytes_in by lia. cbn [mbind outcome_bind].
    change (Z.to_nat 0) with 0%nat. change (drop 0 data) with data. change sizeof_header with (Z.of_nat 12).
    rewrite Hp2. by eexists _, _. }
  destruct (Hsend w eq_refl) as (out & w1 & H1 & Hd1). destruct (Hsend w1 Hd1) as (out' & w2 & H2 & Hd2).
  exists out, w1, out', w2. rewrite Hd2. by split_and!.
Qed.

Lemma Send_never_busy_witness :
  exists out w1 out' w2, Network_Send (H := zero_fresh) 1 0 (demo_station 1) false (mkPacket 0 1 2) [5; 6] = Ok (Some out, w1) /\
    Network_Send (H := zero_fresh) 1 0 w1 false (mkPacket 0 1 2) [5; 6] = Ok (Some out', w2).
Proof.
  destruct (Send_never_busy (H := zero_fresh) (H0 := zero_fresh_laws) 1 0 (demo_station 1) (mkPacket 0 1 2) [5; 6])
    as (out & w1 & out' & w2 & H1 & H2 & _).
  - reflexivity.
  - reflexivity.
  - simpl. lia.
  - simpl. lia.
  - exists out, w1, out', w2. split; [exact H1|exact H2].
Defined.
