(* ===== verification/Console.v ===== *)
(** * machine/console.cc: the simulated console

    The device holds one character that has arrived and not been taken, and remembers
    whether a character is being printed. The keyboard and the display are files of the
    host: the characters that have been typed and not been read, and those that have been
    written. [char] is signed, so that [EOF], which means that no character is there, is
    the value -1. *)

From stdpp Require Import prelude numbers list.
From S2P Require Import Prelude Params CList Interrupt.

Open Scope Z_scope.

Definition EOF : Z := -1.

(** A byte as a [char]. *)
Definition char_of (b : Z) : Z := if b <? 128 then b else b - 256.

Record Console := mkConsole {
  putBusy : bool;
  incoming : Z;
  keyboard : list Z;
  display : list Z }.

Definition count_typed (s : Statistics) : Statistics :=
  mkStatistics (totalTicks s) (idleTicks s) (systemTicks s) (userTicks s) (numDiskReads s) (numDiskWrites s)
    (s32 (numConsoleCharsRead s + 1)) (numConsoleCharsWritten s) (numPageFaults s) (numPacketsSent s) (numPacketsRecvd s).
Definition count_shown (s : Statistics) : Statistics :=
  mkStatistics (totalTicks s) (idleTicks s) (systemTicks s) (userTicks s) (numDiskReads s) (numDiskWrites s)
    (numConsoleCharsRead s) (s32 (numConsoleCharsWritten s + 1)) (numPageFaults s) (numPacketsSent s) (numPacketsRecvd s).

Section console.
(** The addresses of the two polling functions and of the object. *)
Context (ConsoleReadPoll ConsoleWriteDone this : Z).

Definition Console_new (w : world Console) : outcome (world Console) :=
  let c := mkConsole false EOF (keyboard (w_dev w)) (display (w_dev w)) in
  Schedule (with_dev w c) ConsoleReadPoll this ConsoleTime ConsoleReadInt.

Definition CheckCharAvail (readHandler : world Console -> outcome (world Console)) (w : world Console)
    : outcome (world Console) :=
  w ← Schedule w ConsoleReadPoll this ConsoleTime ConsoleReadInt;
  let c := w_dev w in
  if negb (incoming c =? EOF) then Ok w
  else
    match keyboard c with
    | [] => Ok w
    | b :: typed =>
        let w := with_dev w (mkConsole (putBusy c) (char_of b) typed (display c)) in
        readHandler (with_stats w (count_typed (w_stats w)))
    end.

Definition WriteDone (writeHandler : world Console -> outcome (world Console)) (w : world Console)
    : outcome (world Console) :=
  let c := w_dev w in
  let w := with_dev w (mkConsole false (incoming c) (keyboard c) (display c)) in
  writeHandler (with_stats w (count_shown (w_stats w))).

Definition GetChar (w : world Console) : Z * world Console :=
  let c := w_dev w in
  (incoming c, with_dev w (mkConsole (putBusy c) EOF (keyboard c) (display c))).

Definition PutChar (w : world Console) (ch : Z) : outcome (world Console) :=
  let c := w_dev w in
  ASSERT (negb (putBusy c));;
  Schedule (with_dev w (mkConsole true (incoming c) (keyboard c) (display c ++ [ch])))
    ConsoleWriteDone this ConsoleTime ConsoleWriteInt.
End console.

(** ** Sequences of events *)

(** What can happen to the console: a key is pressed, the device polls, the kernel asks
    for a character. *)
Inductive event := Type_ (b : Z) | Poll | Get.

Section events.
Context (poll this : Z) (readHandler : world Console -> outcome (world Console)).
(** The kernel's handler does not touch the device. *)
Context (Hhandler : forall w, exists w', readHandler w = Ok w' /\ w_dev w' = w_dev w).

(** The characters that [GetChar] returned, without the [EOF]s, and the state. *)
Fixpoint run (es : list event) (w : world Console) : outcome (list Z * world Console) :=
  match es with
  | [] => Ok ([], w)
  | Type_ b :: es =>
      let c := w_dev w in
      run es (with_dev w (mkConsole (putBusy c) (incoming c) (keyboard c ++ [b]) (display c)))
  | Poll :: es => w ← CheckCharAvail poll this readHandler w; run es w
  | Get :: es =>
      let '(c, w) := GetChar w in
      '(cs, w) ← run es w;
      Ok (if c =? EOF then cs else c :: cs, w)
  end.

Definition typed (es : list event) : list Z :=
  omap (fun e => match e with Type_ b => Some b | _ => None end) es.

(** The characters that are in the device and in the keyboard. *)
Definition waiting (c : Console) : list Z :=
  (if incoming c =? EOF then [] else [incoming c]) ++ (char_of <$> keyboard c).

Definition plain (b : Z) : Prop := char_of b <> EOF.

Lemma poll_waiting w : Forall plain (keyboard (w_dev w)) ->
  exists w', CheckCharAvail poll this readHandler w = Ok w' /\ waiting (w_dev w') = waiting (w_dev w) /\
    Forall plain (keyboard (w_dev w')).
Proof using Hhandler.
  intros Hk. unfold CheckCharAvail, Schedule. rewrite ASSERT_true by done. cbn [mbind outcome_bind with_pending w_dev].
  destruct (Z.eqb_spec (incoming (w_dev w)) EOF) as [He|Hne]; cbn [negb]; [|by eexists].
  destruct (keyboard (w_dev w)) as [|b bs] eqn:Hkb; [eexists; split; [done|]; simpl; by rewrite Hkb|].
  apply Forall_cons in Hk as [Hb Hbs]. match goal with |- context [readHandler ?v] => destruct (Hhandler v) as (w' & -> & Hd) end.
  exists w'. split; [done|]. rewrite Hd. cbn [with_stats with_dev w_dev]. split; [|done].
  unfold waiting. cbn [incoming keyboard]. rewrite He, Hkb. change (EOF =? EOF) with true.
  by destruct (Z.eqb_spec (char_of b) EOF).
Qed.

Lemma run_order es : forall w, Forall plain (keyboard (w_dev w)) -> Forall plain (typed es) ->
  exists got w', run es w = Ok (got, w') /\ got ++ waiting (w_dev w') = waiting (w_dev w) ++ (char_of <$> typed es).
Proof using Hhandler.
  induction es as [|e es IH]; intros w Hk Ht; [exists [], w; split; [done|]; by rewrite app_nil_r|].
  destruct e as [b| |]; cbn [run].
  - apply Forall_cons in Ht as [Hb Ht].
    destruct (IH (with_dev w (mkConsole (putBusy (w_dev w)) (incoming (w_dev w)) (keyboard (w_dev w) ++ [b]) (display (w_dev w)))))
      as (got & w' & Hr & Heq); [by apply Forall_app; split; [|by constructor]|done|].
    exists got, w'. split; [done|]. rewrite Heq. unfold waiting. cbn [with_dev w_dev incoming keyboard].
    rewrite fmap_app, <- !app_assoc. done.
  - destruct (poll_waiting w Hk) as (w1 & -> & Hw & Hk1). cbn [mbind outcome_bind].
    destruct (IH w1 Hk1 Ht) as (got & w' & -> & Heq). exists got, w'. split; [done|]. by rewrite Heq, Hw.
  - unfold GetChar. set (w1 := with_dev w _).
    destruct (IH w1 Hk Ht) as (got & w' & -> & Heq). cbn [mbind outcome_bind]. eexists _, w'. split; [done|].
    unfold w1, waiting in Heq. cbn [with_dev w_dev incoming keyboard] in Heq. change (EOF =? EOF) with true in Heq.
    unfold waiting at 2. destruct (Z.eqb_spec (incoming (w_dev w)) EOF); cbn [app] in *; [done|]. f_equal. exact Heq.
Qed.
End events.

(** ** Properties *)

(** Input from the keyboard. In every sequence of key presses, polls of the device and
    calls of [GetChar], all of which return, the characters that [GetChar] has returned,
    followed by the one in the device and those still to be read, are the characters that
    were waiting at the beginning followed by those that were typed: none is lost, repeated
    or out of order. The byte 255 is excluded, which the device cannot tell from [EOF]. *)
Theorem console_input_order poll this readHandler es w :
  (forall v, exists v', readHandler v = Ok v' /\ w_dev v' = w_dev v) ->
  Forall plain (keyboard (w_dev w)) -> Forall plain (typed es) ->
  exists got w', run poll this readHandler es w = Ok (got, w') /\
    got ++ waiting (w_dev w') = waiting (w_dev w) ++ (char_of <$> typed es).
Proof. intros Hh Hk Ht. by apply run_order. Qed.

Definition demo_console : world Console :=
  mkWorld Interrupt_new Statistics_new None (mkConsole false EOF [] []).

Lemma console_input_order_witness :
  exists got w', run 1 0 (fun w => Ok w) [Type_ 97; Poll; Type_ 98; Get; Poll; Get; Get; Type_ 99] demo_console = Ok (got, w') /\
    got ++ waiting (w_dev w') = [97; 98; 99].
Proof.
  destruct (console_input_order 1 0 (fun w => Ok w) [Type_ 97; Poll; Type_ 98; Get; Poll; Get; Get; Type_ 99] demo_console)
    as (got & w' & Hr & Heq).
  - intros v. exists v. split; reflexivity.
  - constructor.
  - repeat constructor; discriminate.
  - exists got, w'. split; [exact Hr|exact Heq].
Defined.

(** Output. While a character is being printed another [PutChar] fails its assertion; after
    the interrupt it is accepted, and the characters appear on the display in the order of
    the calls. *)
Theorem console_output done_ this w c1 c2 :
  putBusy (w_dev w) = false ->
  exists w1 w2 w3, PutChar done_ this w c1 = Ok w1 /\ PutChar done_ this w1 c2 = AssertFail /\
    WriteDone (fun w => Ok w) w1 = Ok w2 /\ PutChar done_ this w2 c2 = Ok w3 /\
    display (w_dev w3) = display (w_dev w) ++ [c1; c2] /\
    mkPending done_ this (s32 (now w + 100)) ConsoleWriteInt ∈ (pending (w_int w1)).*2.
Proof.
  intros Hb. unfold PutChar at 1. rewrite Hb. cbn [negb]. rewrite ASSERT_true by done. cbn [mbind outcome_bind].
  unfold Schedule at 1. rewrite ASSERT_true by done. cbn [mbind outcome_bind]. set (w1 := with_pending _ _).
  eexists w1, _, _. split; [done|]. split; [done|]. split; [done|]. split; [done|]. split.
  - cbn [with_pending with_dev with_stats w1 w_dev display]. by rewrite <- app_assoc.
  - apply list_elem_of_fmap. eexists. split; [|apply q_sorted_insert_elem; left; reflexivity]. done.
Qed.

Lemma console_output_witness :
  exists w1 w2 w3, PutChar 1 0 demo_console 72 = Ok w1 /\ WriteDone (fun w => Ok w) w1 = Ok w2 /\
    PutChar 1 0 w2 105 = Ok w3 /\ display (w_dev w3) = [72; 105].
Proof.
  destruct (console_output 1 0 demo_console 72 105) as (w1 & w2 & w3 & H1 & _ & H2 & H3 & Hd & _).
  - reflexivity.
  - exists w1, w2, w3. split; [exact H1|]. split; [exact H2|]. split; [exact H3|exact Hd].
Defined.
