(* ===== verification/Kernel.v ===== *)
(** * userprog/exception.cc and userprog/progtest.cc: processes and the entry to the kernel

    [osys] is the whole system as the kernel sees it: threads, main memory, address spaces
    with their process control blocks, the process manager, the file system. A system call
    that switches threads is a definition up to the switch; what is left to do when the
    thread gets the CPU back is recorded as its [pending] work, and [continue] is that rest
    for the thread that has the CPU now. A thread without pending work is in user mode.
    The calls on files are those of Syscall.v, applied to the process that makes the call; they
    and the loading of a program run to their end, without the switches to other threads
    while the disk works, which SynchDisk.v models.

    The theorems about these definitions are in Lifecycle.v. *)

From stdpp Require Import prelude numbers list gmap.
From S2P Require Import Prelude Params CList BitMap Mips Machine Interrupt Threads Synch FileHdr Directory OpenFile.
From S2P Require Import FileSys AddrSpace Process Join Syscall.

Open Scope Z_scope.

Definition SC_Halt : Z := 0.
Definition SC_Exit : Z := 1.
Definition SC_Exec : Z := 2.
Definition SC_Join : Z := 3.
Definition SC_Create : Z := 4.
Definition SC_Open : Z := 5.
Definition SC_Read : Z := 6.
Definition SC_Write : Z := 7.
Definition SC_Close : Z := 8.
Definition SC_Fork : Z := 9.
Definition SC_Yield : Z := 10.

(** What a thread that gave up the CPU inside a system call does when it goes on. *)
Inductive pending :=
| ExecBridge                                   (* it starts in [execBridge] *)
| ForkBridge (newPC : Z)                       (* it starts in [forkBridge] *)
| EndExec                                      (* after [Yield] in [myExec] *)
| EndFork (newPID : Z) (oldLevel : IntStatus)  (* after [Yield] in [myFork] *)
| EndYield                                     (* after [Yield] in [ExceptionHandler] *)
| ExitAcquire (pid : Z) (lock : positive)                        (* in [Acquire] of [clearPID] *)
| JoinAcquire (pid : Z) (lock : positive) (oldLevel : IntStatus) (* in the first [Acquire] of [join] *)
| JoinWait (pid : Z) (lock : positive) (oldLevel : IntStatus)    (* in [Sleep] of [Wait] *)
| JoinAgain (pid : Z) (lock : positive) (oldLevel : IntStatus).  (* in [Acquire] of [Wait] *)

(** An address space object with the members that AddrSpace.v leaves out. *)
Record UserSpace := mkUS { us_space : AddrSpace; us_pcb : option positive }.

(** The identity of the locks. [getPID] replaces the lock of an identifier that is used again,
    while a thread may still be in [Acquire] of the old one: [lo_ids] says which object is in
    [lockTable], and [lo_detached] holds those that have been there. *)
Record lock_objects := mkObjects { lo_ids : gmap Z positive; lo_detached : gmap positive Lock }.

Record osys := mkOs {
  os_kernel : kstate;
  os_mem : umem BitMap;                              (* main memory, [memMgr], [diskBuffer] *)
  os_spaces : gmap positive UserSpace;
  os_pcbs : gmap positive PCB;
  os_procMgr : ProcessManager;
  os_conditions : list (option (queue positive));    (* the objects of [conditionTable] *)
  os_locks : list (option Lock);                     (* the objects of [lockTable] *)
  os_objects : lock_objects;
  os_pending : gmap positive pending;
  os_users : gmap positive UserOpenFile;
  os_files : gmap positive OpenFile;
  os_fs : FileSystem;
  os_disk : list (list Z);
  os_stdin : list Z;
  os_stdout : list Z }.

Definition os_set_kernel (o : osys) (k : kstate) : osys :=
  mkOs k (os_mem o) (os_spaces o) (os_pcbs o) (os_procMgr o) (os_conditions o) (os_locks o) (os_objects o) (os_pending o) (os_users o)
    (os_files o) (os_fs o) (os_disk o) (os_stdin o) (os_stdout o).
Definition os_set_mem (o : osys) (u : umem BitMap) : osys :=
  mkOs (os_kernel o) u (os_spaces o) (os_pcbs o) (os_procMgr o) (os_conditions o) (os_locks o) (os_objects o) (os_pending o) (os_users o)
    (os_files o) (os_fs o) (os_disk o) (os_stdin o) (os_stdout o).
Definition os_set_spaces (o : osys) (s : gmap positive UserSpace) : osys :=
  mkOs (os_kernel o) (os_mem o) s (os_pcbs o) (os_procMgr o) (os_conditions o) (os_locks o) (os_objects o) (os_pending o) (os_users o)
    (os_files o) (os_fs o) (os_disk o) (os_stdin o) (os_stdout o).
Definition os_set_pcbs (o : osys) (p : gmap positive PCB) : osys :=
  mkOs (os_kernel o) (os_mem o) (os_spaces o) p (os_procMgr o) (os_conditions o) (os_locks o) (os_objects o) (os_pending o) (os_users o)
    (os_files o) (os_fs o) (os_disk o) (os_stdin o) (os_stdout o).
Definition os_set_procMgr (o : osys) (pm : ProcessManager) (c : list (option (queue positive))) (l : list (option Lock))
    : osys :=
  mkOs (os_kernel o) (os_mem o) (os_spaces o) (os_pcbs o) pm c l (os_objects o) (os_pending o) (os_users o)
    (os_files o) (os_fs o) (os_disk o) (os_stdin o) (os_stdout o).
Definition os_set_objects (o : osys) (ob : lock_objects) : osys :=
  mkOs (os_kernel o) (os_mem o) (os_spaces o) (os_pcbs o) (os_procMgr o) (os_conditions o) (os_locks o) ob (os_pending o) (os_users o)
    (os_files o) (os_fs o) (os_disk o) (os_stdin o) (os_stdout o).
Definition os_set_pending (o : osys) (p : gmap positive pending) : osys :=
  mkOs (os_kernel o) (os_mem o) (os_spaces o) (os_pcbs o) (os_procMgr o) (os_conditions o) (os_locks o) (os_objects o) p (os_users o)
    (os_files o) (os_fs o) (os_disk o) (os_stdin o) (os_stdout o).

Definition set_space (th : Thread) (s : positive) : Thread :=
  mkThread (t_status th) (t_stack th) (t_frame th) (userRegisters th) (Some s).

Definition set_parent (pcb : PCB) (pid : Z) (t : positive) : PCB :=
  mkPCB (PID pcb) pid t (openFileTable pcb) (openFileMap pcb).

Definition current (o : osys) : positive := currentThread (os_kernel o).

Definition set_level (o : osys) (l : IntStatus) : osys := os_set_kernel o (with_klevel (os_kernel o) l).

Definition pend (o : osys) (t : positive) (p : pending) : osys := os_set_pending o (<[t := p]> (os_pending o)).

(** [currentThread->space] and [currentThread->space->pcb] *)
Definition current_space (o : osys) : outcome (positive * UserSpace) :=
  th ← deref (threads (os_kernel o) !! current o);
  s ← deref (space th);
  us ← deref (os_spaces o !! s);
  Ok (s, us).
Definition pcb_of (o : osys) (us : UserSpace) : outcome (positive * PCB) :=
  p ← deref (us_pcb us);
  pcb ← deref (os_pcbs o !! p);
  Ok (p, pcb).

(** The simulated machine: its page table is the one of the space that [RestoreState] was
    last called for. When that space has been deleted the kernel does not look at the page
    table any more, and [user_step] below is undefined. *)
Definition machine_of (o : osys) : Machine :=
  let k := os_kernel o in
  match k_pageTable k ≫= fun s => os_spaces o !! s with
  | None => mkMachine (u_memory (os_mem o)) (k_registers k) None None 0
  | Some us => mkMachine (u_memory (os_mem o)) (k_registers k) None (Some (sp_pageTable (us_space us)))
                 (sp_numPages (us_space us))
  end.

Definition put_machine (o : osys) (m : Machine) : osys :=
  let k := os_kernel o in
  let o := os_set_kernel o (with_cpu k (registers m) (k_pageTable k)) in
  let o := os_set_mem o (set_memory (os_mem o) (mainMemory m)) in
  match k_pageTable k, pageTable m with
  | Some s, Some t =>
      match os_spaces o !! s with
      | Some us => os_set_spaces o (<[s := mkUS (mkSpace (sp_numPages (us_space us)) t) (us_pcb us)]> (os_spaces o))
      | None => o
      end
  | _, _ => o
  end.

Definition on_machine (o : osys) (f : Machine -> outcome Machine) : outcome osys :=
  m ← f (machine_of o); Ok (put_machine o m).

(** ** Processes *)

Section kernel.
Context `{Fresh}.
(** What [userRegisters] of a new thread and [owner] of a new lock hold, and the room after
    a block that [new] returned (see [getString]). *)
Context (garbage : list Z) (garbage_owner : option positive) (slack : Z -> Z).

(** The part of the process manager that Join.v uses. *)
Definition waits_of (o : osys) : waits :=
  mkWaits (pm_bitmap (os_procMgr o)) (pcbTable (os_procMgr o)) (os_conditions o) (os_locks o) (returnStatus (os_procMgr o)).
Definition put_waits (o : osys) (w : waits) : osys :=
  let pm := os_procMgr o in
  os_set_procMgr o
    (mkPM (wt_bitmap w) (wt_pcbs w) (conditionTable pm) (lockTable pm) (fsLock pm) (wt_status w) (sysOpenFileTable pm)
       (sysOpenFileMap pm) (sysFiles pm)) (wt_conditions w) (wt_locks w).

(** Which lock [lockTable[pid]] points to. *)
Definition lock_id (o : osys) (pid : Z) : positive := default 1%positive (lo_ids (os_objects o) !! pid).

(** The lock of [pid] is replaced by a new object. *)
Definition new_lock_object (o : osys) (pid : Z) : lock_objects :=
  let ob := os_objects o in
  let detached := match os_locks o !! Z.to_nat pid with
                  | Some (Some l) => <[lock_id o pid := l]> (lo_detached ob)
                  | _ => lo_detached ob
                  end in
  let known : gset positive := {[1%positive]} ∪ list_to_set (map_to_list (lo_ids ob)).*2 ∪ dom detached in
  mkObjects (<[pid := fresh known]> (lo_ids ob)) detached.

(** [procMgr->getPID()], with the condition and the lock that it creates. *)
Definition os_getPID (o : osys) : outcome (Z * osys) :=
  '(pid, pm) ← getPID (os_procMgr o);
  c ← arr_set (os_conditions o) pid (Some []);
  l ← arr_set (os_locks o) pid (Some (Lock_new garbage_owner));
  Ok (pid, os_set_objects (os_set_procMgr o pm c l) (new_lock_object o pid)).

(** [new PCB( pid, parentPid, t )] and [storePCB] *)
Definition os_new_pcb (o : osys) (pid parentPid : Z) (t : positive) : outcome (positive * osys) :=
  pcb ← PCB_new pid parentPid t;
  let p := fresh (dom (os_pcbs o)) in
  let o := os_set_pcbs o (<[p := pcb]> (os_pcbs o)) in
  pm ← storePCB (os_procMgr o) pid p;
  Ok (p, os_set_procMgr o pm (os_conditions o) (os_locks o)).

(** [new AddrSpace( executable )] *)
Definition os_new_space (o : osys) (executable : OpenFile) : outcome (positive * osys) :=
  '(pid, o) ← os_getPID o;
  '(p, o) ← os_new_pcb o pid (-1) (current o);
  '(sp, u) ← AddrSpace_new executable (os_disk o) (os_mem o);
  let s := fresh (dom (os_spaces o)) in
  Ok (s, os_set_spaces (os_set_mem o u) (<[s := mkUS sp (Some p)]> (os_spaces o))).

(** [thread->Fork( bridge, arg )] *)
Definition os_Fork (o : osys) (t : positive) (bridge : pending) : outcome osys :=
  k ← Fork (os_kernel o) t;
  Ok (pend (os_set_kernel o k) t bridge).

(** [currentThread->Yield()], with what the caller does afterwards. *)
Definition os_Yield (o : osys) (rest : pending) : outcome osys :=
  let o := pend o (current o) rest in
  k ← Yield (os_kernel o);
  Ok (os_set_kernel o k).

(** ** Exit *)

(** An iteration of [Acquire] of the lock [lock], which is or has been the one of [pid]. *)
Definition acquire_object (o : osys) (k : kstate) (pid : Z) (lock : positive) : outcome (bool * kstate * osys) :=
  if decide (lock = lock_id o pid) then
    '(done, k, w) ← acquire k (waits_of o) pid;
    Ok (done, k, put_waits o w)
  else
    l ← deref (lo_detached (os_objects o) !! lock);
    '(done, k, l) ← Lock_Acquire_loop k l;
    Ok (done, k, os_set_objects o (mkObjects (lo_ids (os_objects o)) (<[lock := l]> (lo_detached (os_objects o))))).

(** [clearPID] from [Acquire] on, and [Finish]: the thread either waits for the lock or
    ends. After [Acquire] the tables are read again. *)
Definition exit_acquire (o : osys) (pid : Z) (lock : positive) : outcome osys :=
  let t := current o in
  '(done, k, o) ← acquire_object o (os_kernel o) pid lock;
  if done : bool then
    '(k, w) ← clearPID_end k (waits_of o) pid;
    '(_, k) ← Finish k;
    Ok (put_waits (os_set_kernel o k) w)
  else Ok (pend (os_set_kernel o k) t (ExitAcquire pid lock)).

(** The destructors of the space and of its control block: nothing uses the objects after
    the pages have been freed. *)
Definition myExit (o : osys) (exitStatus : Z) : outcome osys :=
  let o := set_level o IntOff in
  '(s, us) ← current_space o;
  '(p, pcb) ← pcb_of o us;
  w ← exit_status (waits_of o) (PID pcb) exitStatus;
  let o := put_waits o w in
  u ← AddrSpace_delete (us_space us) (os_mem o);
  let o := os_set_spaces (os_set_mem o u) (delete s (os_spaces o)) in
  w ← clearPID_begin (waits_of o) (PID pcb);
  let o := os_set_pcbs (put_waits o w) (delete p (os_pcbs o)) in
  exit_acquire o (PID pcb) (lock_id o (PID pcb)).

(** ** Exec *)

Definition myExec (o : osys) (vAddr : Z) : outcome osys :=
  let oldLevel := k_level (os_kernel o) in
  let o := set_level o IntOff in
  '(_, us) ← current_space o;
  '(_, pcb) ← pcb_of o us;
  file ← getString slack (us_space us) (u_memory (os_mem o)) vAddr;
  executable ← Open (os_fs o) (os_disk o) file;
  match executable with
  | None => on_machine o incrementPC
  | Some executable =>
      let '(t, k) := Thread_new (os_kernel o) garbage in
      '(s, o) ← os_new_space (os_set_kernel o k) executable;
      k ← update_thread (os_kernel o) t (fun th => set_space th s);
      let o := os_set_kernel o k in
      us' ← deref (os_spaces o !! s);
      '(p', pcb') ← pcb_of o us';
      let o := os_set_pcbs o (<[p' := set_parent pcb' (PID pcb) t]> (os_pcbs o)) in
      o ← os_Fork o t ExecBridge;
      o ← on_machine o (fun m => WriteRegister m 2 (PID pcb'));
      os_Yield (set_level o oldLevel) EndExec
  end.

Definition execBridge (o : osys) : outcome osys :=
  '(s, us) ← current_space o;
  o ← on_machine o (InitRegisters (us_space us));
  Ok (os_set_kernel o (RestoreState (os_kernel o) s)).

(** ** Fork *)

Definition myFork (o : osys) (newPC : Z) : outcome osys :=
  let oldLevel := k_level (os_kernel o) in
  let o := set_level o IntOff in
  let '(t, k) := Thread_new (os_kernel o) garbage in
  let s := fresh (dom (os_spaces o)) in
  k ← update_thread k t (fun th => set_space th s);
  let o := os_set_kernel o k in
  '(_, us) ← current_space o;
  '(_, pcb) ← pcb_of o us;
  '(sp, u) ← CopyAddrSpace (us_space us) (os_mem o);
  '(newPID, o) ← os_getPID (os_set_mem o u);
  '(p, o) ← os_new_pcb o newPID (PID pcb) t;
  let o := os_set_spaces o (<[s := mkUS sp (Some p)]> (os_spaces o)) in
  o ← os_Fork o t (ForkBridge newPC);
  os_Yield o (EndFork newPID oldLevel).

Definition forkBridge (o : osys) (newPC : Z) : outcome osys :=
  o ← execBridge o;
  on_machine o (fun m => jumpPC m newPC).

(** ** Join *)

(** [join] from [Release] on: the thread goes back to user mode. *)
Definition join_release (o : osys) (k : kstate) (pid : Z) : outcome osys :=
  '(_, k, w) ← join_end k (waits_of o) pid;
  on_machine (put_waits (os_set_kernel o k) w) incrementPC.

(** [join] from the second [Acquire] on. *)
Definition join_again (o : osys) (pid : Z) (lock : positive) (oldLevel : IntStatus) : outcome osys :=
  let t := current o in
  '(done, k, o) ← acquire_object o (with_klevel (os_kernel o) IntOff) pid lock;
  if done : bool then join_release o (with_klevel k oldLevel) pid
  else Ok (pend (os_set_kernel o k) t (JoinAgain pid lock oldLevel)).

(** [join] from the first [Acquire] on. *)
Definition join_acquire (o : osys) (pid : Z) (lock : positive) (oldLevel : IntStatus) : outcome osys :=
  let t := current o in
  '(done, k, o) ← acquire_object o (with_klevel (os_kernel o) IntOff) pid lock;
  if done : bool then
    '(sleeps, k, w) ← join_wait (with_klevel k oldLevel) (waits_of o) pid;
    if sleeps : bool then Ok (pend (put_waits (os_set_kernel o k) w) t (JoinWait pid (lock_id o pid) oldLevel))
    else join_release o k pid
  else Ok (pend (os_set_kernel o k) t (JoinAcquire pid lock oldLevel)).

(** ** Going on *)

(** The current thread does what it has left to do in the kernel. *)
Definition continue (o : osys) : outcome osys :=
  let o' := os_set_pending o (delete (current o) (os_pending o)) in
  match os_pending o !! current o with
  | None => Ok o
  | Some ExecBridge => execBridge o'
  | Some (ForkBridge newPC) => forkBridge o' newPC
  | Some EndExec | Some EndYield => on_machine o' incrementPC
  | Some (EndFork newPID oldLevel) =>
      o' ← on_machine o' (fun m => WriteRegister m 2 newPID);
      on_machine (set_level o' oldLevel) incrementPC
  | Some (ExitAcquire pid lock) => exit_acquire o' pid lock
  | Some (JoinAcquire pid lock oldLevel) => join_acquire o' pid lock oldLevel
  | Some (JoinWait pid lock oldLevel) => join_again (set_level o' oldLevel) pid lock oldLevel
  | Some (JoinAgain pid lock oldLevel) => join_again o' pid lock oldLevel
  end.

(** ** The calls on files, for the current process *)

Definition view (o : osys) : outcome ksys :=
  '(_, us) ← current_space o;
  '(_, pcb) ← pcb_of o us;
  Ok (mkKsys (machine_of o) (u_diskBuffer (os_mem o)) (us_space us) pcb (os_procMgr o) (os_users o) (os_files o) (os_fs o) (os_disk o)
        (k_level (os_kernel o)) (os_stdin o) (os_stdout o)).

Definition put_view (o : osys) (k : ksys) : outcome osys :=
  '(_, us) ← current_space o;
  '(p, _) ← pcb_of o us;
  let o := set_level (put_machine o (ks_machine k)) (ks_level k) in
  Ok (mkOs (os_kernel o) (set_buffer (os_mem o) (ks_buffer k)) (os_spaces o) (<[p := ks_pcb k]> (os_pcbs o))
        (ks_procMgr k) (os_conditions o) (os_locks o) (os_objects o) (os_pending o) (ks_users k) (ks_files k) (ks_fs k) (ks_disk k)
        (ks_stdin k) (ks_stdout k)).

Definition file_call (o : osys) (f : ksys -> outcome ksys) : outcome osys :=
  k ← view o; k ← f k;
  o ← put_view o k;
  on_machine o incrementPC.

(** ** ExceptionHandler *)

Definition myPageFaultHandler (o : osys) (vAddr : Z) : outcome osys :=
  let vPageNum := cdiv vAddr PageSize in
  '(_, us) ← current_space o;
  _ ← arr_get (sp_pageTable (us_space us)) vPageNum;
  Ok o.

(** How a call ends: the CPU goes on with some thread, the machine halts, or the caller waits
    for the lock of a file descriptor that nobody will release (see [closeFile]). *)
Inductive call_result := Goes (o : osys) | Halted | Stuck.

Definition close_call (o : osys) (fd : Z) : outcome call_result :=
  k ← view o;
  a ← myClose k fd;
  match a with
  | Blocks => Ok Stuck
  | Returns k => o ← put_view o k; o ← on_machine o incrementPC; Ok (Goes o)
  end.

(** The system call with number [type]; a number without a call does nothing. *)
Definition syscall (fuel : nat) (o : osys) (type arg1 arg2 arg3 : Z) : outcome call_result :=
  if type =? SC_Halt then Ok Halted
  else if type =? SC_Close then close_call o arg1
  else
    o ← (if type =? SC_Exit then myExit o arg1
         else if type =? SC_Exec then myExec o arg1
         else if type =? SC_Join then join_acquire o arg1 (lock_id o arg1) (k_level (os_kernel o))
         else if type =? SC_Create then file_call o (fun k => myCreate slack fuel k arg1)
         else if type =? SC_Open then file_call o (fun k => myOpen slack fuel k arg1)
         else if type =? SC_Read then file_call o (fun k => myRead k arg1 arg2 arg3)
         else if type =? SC_Write then file_call o (fun k => myWrite fuel k arg1 arg2 arg3)
         else if type =? SC_Fork then myFork o arg1
         else if type =? SC_Yield then os_Yield o EndYield
         else on_machine o incrementPC);
    Ok (Goes o).

Definition ExceptionHandler (fuel : nat) (o : osys) (which : ExceptionType) : outcome call_result :=
  let m := machine_of o in
  type ← ReadRegister m 2;
  arg1 ← ReadRegister m 4;
  arg2 ← ReadRegister m 5;
  arg3 ← ReadRegister m 6;
  '(_, us) ← current_space o;
  _ ← pcb_of o us;
  match which with
  | PageFaultException =>
      vAddr ← ReadRegister m BadVAddrReg;
      o ← myPageFaultHandler o vAddr;
      Ok (Goes o)
  | SyscallException => syscall fuel o type arg1 arg2 arg3
  | _ => AssertFail
  end.

(** An iteration of [Machine::Run], without the tick of the clock. *)
Definition user_step (fuel : nat) (o : osys) : outcome call_result :=
  _ ← (if k_pageTable (os_kernel o) is Some s then us ← deref (os_spaces o !! s); Ok (Some us) else Ok None);
  r ← OneInstruction (machine_of o);
  match r with
  | Done m _ => Ok (Goes (put_machine o m))
  | Trap m which _ => ExceptionHandler fuel (put_machine o m) which
  end.

(** [StartProcess]: the first program, up to [Run]. *)
Definition StartProcess (o : osys) (filename : list Z) : outcome osys :=
  executable ← Open (os_fs o) (os_disk o) filename;
  match executable with
  | None => Ok o
  | Some executable =>
      '(s, o) ← os_new_space o executable;
      k ← update_thread (os_kernel o) (current o) (fun th => set_space th s);
      execBridge (os_set_kernel o k)
  end.
End kernel.
