(* ===== verification/Lifecycle.v ===== *)
(** * Processes: the invariant of the system and the calls that create and end processes

    [os_ok] ties the parts of [osys] (Kernel.v) together: address spaces have frames of
    their own, processes have identifiers, threads and control blocks of their own, and
    whoever waits for a process is asleep. The calls keep it, and none of them touches the
    memory of a process other than the one that it creates. *)

From stdpp Require Import prelude numbers list gmap.
From S2P Require Import Prelude Params CList BitMap Mips Machine Interrupt Threads Synch SynchList FileHdr Directory.
From S2P Require Import OpenFile FileSys AddrSpace Process Join Syscall Kernel.

Open Scope Z_scope.

(** ** What thread operations keep *)

(** The address space of a thread. *)
Definition space_at (k : kstate) (t : positive) : option positive := threads k !! t ≫= space.

(** Registers are all there, in the machine and where they are saved. *)
Definition regs_ok (k : kstate) : Prop :=
  length (k_registers k) = 40%nat /\ map_Forall (fun _ th => length (userRegisters th) = 40%nat) (threads k).

(** The threads that are not waiting for their destruction keep their address spaces. *)
Record keeps (k k' : kstate) : Prop := {
  kp_space t s : threadToBeDestroyed k <> Some t -> space_at k t = Some s -> space_at k' t = Some s;
  kp_regs : regs_ok k -> regs_ok k' }.

(** The same, and the thread that waits for its destruction still waits. *)
Record keeps_all (k k' : kstate) : Prop := {
  ka_space t s : space_at k t = Some s -> space_at k' t = Some s;
  ka_regs : regs_ok k -> regs_ok k';
  ka_dead : threadToBeDestroyed k' = threadToBeDestroyed k;
  ka_current : currentThread k' = currentThread k;
  ka_cpu : same_cpu k k' }.

Lemma keeps_all_refl k : keeps_all k k.
Proof. by constructor. Qed.

Lemma keeps_all_level k l : keeps_all k (with_klevel k l).
Proof. by constructor. Qed.

Lemma keeps_all_trans k1 k2 k3 : keeps_all k1 k2 -> keeps_all k2 k3 -> keeps_all k1 k3.
Proof.
  intros [Hs1 Hr1 Hd1 Hc1 [Ha1 Hb1]] [Hs2 Hr2 Hd2 Hc2 [Ha2 Hb2]]. constructor; try congruence; auto.
  split; congruence.
Qed.

Lemma keeps_trans k1 k2 k3 : keeps_all k1 k2 -> keeps k2 k3 -> keeps k1 k3.
Proof.
  intros [Hs1 Hr1 Hd1 Hc1 _] [Hs2 Hr2]. split; [|auto].
  intros t s Hd Ht. apply Hs2; [by rewrite Hd1|]. by apply Hs1.
Qed.

Lemma update_keeps k t f k' :
  update_thread k t f = Ok k' -> (forall th, space (f th) = space th /\ userRegisters (f th) = userRegisters th) ->
  keeps_all k k'.
Proof.
  unfold update_thread. intros Hu Hf. ok_inv. unfold deref in Hok. destruct (threads k !! t) as [th|] eqn:Ht; [|done].
  injection Hok as <-. destruct (Hf th) as [Hsp Hur]. constructor; try done; [|].
  - intros t' s. unfold space_at. simpl. destruct (decide (t' = t)) as [->|Hne];
      [rewrite lookup_insert_eq, Ht; simpl; congruence|by rewrite lookup_insert_ne by done].
  - intros [Hk Hm]. split; [done|]. simpl. apply map_Forall_insert_2; [|done]. rewrite Hur. exact (Hm t th Ht).
Qed.

Lemma ReadyToRun_keeps k t k' : ReadyToRun k t = Ok k' -> keeps_all k k'.
Proof.
  unfold ReadyToRun. intros Hr. ok_inv. destruct (update_keeps _ _ _ _ Hok) as [? ? ? ? ?]; [done|]. by constructor.
Qed.

Lemma wake_keeps k x k' : wake k x = Ok k' -> keeps_all k k'.
Proof. destruct x as [[z t]|]; simpl; [apply ReadyToRun_keeps|]. intros [= ->]. apply keeps_all_refl. Qed.

Lemma wake_all_keeps c : forall k k', wake_all k c = Ok k' -> keeps_all k k'.
Proof.
  induction c as [|x c IH]; intros k k'; cbn [wake_all].
  - intros [= ->]. apply keeps_all_refl.
  - intros Hw. ok_inv. eapply keeps_all_trans; [by eapply wake_keeps|by apply IH].
Qed.

Lemma Release_keeps k l k' l' : Lock_Release k l = Ok (k', l') -> keeps_all k k'.
Proof.
  unfold Lock_Release. destruct (negb _); [intros [= -> ->]; apply keeps_all_refl|].
  destruct (q_remove (lk_queue l)) as [x q]. intros Hr. ok_inv.
  eapply keeps_all_trans; [apply keeps_all_level|]. eapply keeps_all_trans; [by eapply wake_keeps|apply keeps_all_level].
Qed.

Lemma Fork_keeps k t k' : Fork k t = Ok k' -> keeps_all k k'.
Proof.
  unfold Fork. intros Hf. ok_inv. eapply keeps_all_trans; [by eapply update_keeps|].
  eapply keeps_all_trans; [apply (keeps_all_level _ IntOff)|]. eapply keeps_all_trans; [by eapply ReadyToRun_keeps|].
  apply keeps_all_level.
Qed.

(** The end of [Run] deletes the thread that waits for it and loads the registers. *)
Lemma Run_after_keeps k k' : Run_after k = Ok k' -> keeps k k' /\ threadToBeDestroyed k' = None.
Proof.
  unfold Run_after. intros Hr. ok_inv.
  assert (keeps k v /\ threadToBeDestroyed v = None) as [Hk Hd].
  { destruct (threadToBeDestroyed k) as [d|] eqn:Ed; ok_inv; [|by split].
    unfold Thread_delete in Hok1. ok_inv. split; [|done]. split.
    - intros t s Ht. unfold space_at. simpl. rewrite lookup_delete_ne; [done|]. congruence.
    - intros [Hreg Hm]. split; [done|]. by apply map_Forall_delete. }
  destruct (space v0) as [s|]; ok_inv; [|done]. unfold RestoreUserState in Hok1. ok_inv. split; [|done].
  destruct Hk as [Hs Hregs]. split; [done|]. intros Hro. destruct (Hregs Hro) as [_ Hm]. split; [|done]. simpl.
  unfold deref in Hok2. destruct (threads v !! currentThread v) as [th|] eqn:Ht; [|done]. injection Hok2 as <-.
  exact (Hm _ _ Ht).
Qed.

Lemma resume_keeps k k' :
  resume k = Ok k' -> keeps k k' /\ (threadToBeDestroyed k' = threadToBeDestroyed k \/ threadToBeDestroyed k' = None).
Proof.
  unfold resume. intros Hr. ok_inv. destruct (t_frame v) as [|old|]; ok_inv.
  - split; [by constructor|by left].
  - destruct (Run_after_keeps _ _ Hok0) as [[? ?] ?]. split; [by constructor|by right].
  - destruct (Run_after_keeps _ _ Hr) as [? ?]. split; [done|by right].
Qed.

Lemma Run_keeps k next f k' :
  Run k next f = Ok k' -> keeps k k' /\ (threadToBeDestroyed k' = threadToBeDestroyed k \/ threadToBeDestroyed k' = None).
Proof.
  unfold Run. intros Hr. ok_inv.
  assert (keeps_all k v0) as Hk0.
  { destruct (space v); ok_inv; [|apply keeps_all_refl]. unfold SaveUserState, update_thread in Hok0. ok_inv.
    unfold deref in Hok4. destruct (threads k !! currentThread k) as [th|] eqn:Ht; [|done]. injection Hok4 as <-.
    constructor; try done.
    - intros t s. unfold space_at. simpl. destruct (decide (t = currentThread k)) as [->|];
        [rewrite lookup_insert_eq, Ht; done|by rewrite lookup_insert_ne by done].
    - intros [Hreg Hm]. split; [done|]. simpl. by apply map_Forall_insert_2. }
  assert (keeps_all v0 v2) as Hk2 by (by apply (update_keeps _ _ _ _ Hok2)). destruct (resume_keeps _ _ Hr) as [Hk4 Hd4].
  assert (keeps k v3) as Hk3.
  { eapply keeps_trans; [exact Hk0|]. eapply keeps_trans; [exact Hk2|].
    destruct (update_keeps _ _ _ _ Hok3) as [Hs Hg _ _ _]; [done|]. split; [intros t s _; exact (Hs t s)|exact Hg]. }
  assert (threadToBeDestroyed v3 = threadToBeDestroyed k) as Hd3.
  { destruct (update_keeps _ _ _ _ Hok3) as [_ _ -> _ _]; [done|]. simpl.
    by rewrite (ka_dead _ _ Hk2), (ka_dead _ _ Hk0). }
  split; [|by rewrite <- Hd3]. destruct Hk3 as [Hs3 Hr3], Hk4 as [Hs4 Hr4]. split; [|auto].
  intros t s Ht Hs. apply Hs4; [by rewrite Hd3|]. by apply Hs3.
Qed.

(** [Yield] takes turns: the next thread of the ready list, or the caller again. *)
Lemma Yield_keeps k k' : Yield k = Ok k' ->
  keeps k k' /\ (threadToBeDestroyed k' = threadToBeDestroyed k \/ threadToBeDestroyed k' = None).
Proof.
  unfold Yield, FindNextToRun. simpl. destruct (readyList k) as [|[z next] q]; simpl; intros Hy; ok_inv.
  - split; [by constructor|by left].
  - pose proof (ReadyToRun_keeps _ _ _ Hok) as Hr. destruct (Run_keeps _ _ _ _ Hy) as [Hk Hd].
    split; [|rewrite (ka_dead _ _ Hr) in Hd; exact Hd].
    apply (keeps_trans k (with_readyList (with_klevel k IntOff) q)); [by constructor|]. by eapply keeps_trans.
Qed.

Lemma switched_queued k k' next f q :
  switch_effect k k' next f -> status_of k next = Some READY -> queued_ok k q -> queued_ok k' q.
Proof.
  intros [_ _ Hst _ Hdead _] Hn [Hnd Hq]. split; [done|]. intros t Ht. destruct (Hq t Ht) as [Hb Hd].
  split; [|by intros ?%Hdead]. rewrite Hst by done. rewrite upd_ne; [done|]. congruence.
Qed.

Lemma Yield_turn k q :
  kernel_ok k -> status_of k (currentThread k) = Some RUNNING -> queued_ok k q ->
  exists k', Yield k = Ok k' /\ kernel_ok k' /\ queued_ok k' q /\ keeps k k' /\
    (threadToBeDestroyed k' = threadToBeDestroyed k \/ threadToBeDestroyed k' = None) /\
    currentThread k' :: (readyList k').*2 = (readyList k).*2 ++ [currentThread k].
Proof.
  intros Hk Hrun Hq. destruct (Yield_effect k Hk Hrun) as (k' & Hy & Hcase). exists k'. split; [done|].
  destruct (Yield_keeps k k' Hy) as [Hkp Hd].
  destruct Hcase as [[-> Hr]|(k1 & z & next & q1 & Hr & Hst1 & _ & Hc1 & Hd1 & _ & Hse & Hr')].
  - split_and!; try done. by rewrite Hr.
  - assert (status_of k next = Some READY) as Hn.
    { apply (so_ready _ _ _ _ (proj1 Hk)). rewrite Hr. simpl. apply elem_of_cons. auto. }
    split; [apply Hse|]. split; [|split; [done|split; [done|]]].
    + apply (switched_queued k1 k' next _ q Hse).
      * rewrite Hst1. unfold upd. by destruct (decide _).
      * destruct Hq as [Hnd Hb]. split; [done|]. intros t Ht. destruct (Hb t Ht) as [Hbt Hdt]. rewrite Hd1.
        split; [|done]. rewrite Hst1, upd_ne; [done|]. congruence.
    + rewrite (se_current _ _ _ _ Hse), Hr', Hr. done.
Qed.

(** [Finish] gives the CPU away for good. *)
Lemma Finish_keeps k b k' : Finish k = Ok (b, k') ->
  (forall t s, t <> currentThread k -> space_at k t = Some s -> space_at k' t = Some s) /\
  (regs_ok k -> regs_ok k') /\
  (threadToBeDestroyed k' = Some (currentThread k) \/ threadToBeDestroyed k' = None).
Proof.
  unfold Finish, Sleep, Sleep_dispatch. intros Hf. ok_inv.
  destruct (update_keeps _ _ _ _ Hok0) as [Hs Hg Hd Hc _]; [done|]. simpl in Hs, Hd, Hc.
  unfold FindNextToRun in Hf. destruct (readyList v0) as [|[z next] q]; simpl in Hf; ok_inv.
  - split; [intros t s _; apply Hs|]. split; [exact Hg|by left].
  - destruct (Run_keeps _ _ _ _ Hok1) as [[Hs' Hg'] Hd']. split; [|split; [intros Hro; apply Hg', Hg, Hro|]].
    + intros t s Ht Hsp. apply Hs'; [simpl; rewrite Hd; congruence|]. by apply Hs.
    + simpl in Hd'. rewrite Hd in Hd'. exact Hd'.
Qed.

Lemma Finish_turn k q :
  kernel_ok k -> status_of k (currentThread k) = Some RUNNING -> queued_ok k q ->
  exists b k', Finish k = Ok (b, k') /\ kernel_ok k' /\ queued_ok k' q /\
    (forall t s, t <> currentThread k -> space_at k t = Some s -> space_at k' t = Some s) /\
    (regs_ok k -> regs_ok k') /\
    (threadToBeDestroyed k' = Some (currentThread k) \/ threadToBeDestroyed k' = None) /\
    (if b : bool then currentThread k' :: (readyList k').*2 = (readyList k).*2 else readyList k = []).
Proof.
  intros Hk Hrun [Hnd Hq]. destruct (Finish_effect k Hk Hrun) as (k1 & Hf & [Hk1 Hst Hfr Hc Hl1 Hr] & Hd1).
  assert (status_of k1 (currentThread k1) = Some BLOCKED) as Hb by (rewrite Hst, Hc; apply upd_eq).
  assert (queued_ok k1 q) as Hq1.
  { split; [done|]. intros t Ht. destruct (Hq t Ht) as [Hbt _]. rewrite Hst, Hd1. split; [unfold upd; by destruct (decide _)|].
    intros [= <-]. congruence. }
  destruct (Sleep_dispatch_effect k1 Hk1) as (b & k' & Hrun' & Hcase); [congruence|]. rewrite <- Hf in Hrun'.
  destruct (Finish_keeps k b k' Hrun') as (Hs & Hg & Hd). exists b, k'. split; [done|].
  destruct b.
  - destruct Hcase as (z & next & q1 & Hr1 & Hse & Hq'). split; [apply Hse|]. split.
    + apply (switched_queued k1 k' next _ q Hse); [|done].
      apply (so_ready _ _ _ _ (proj1 Hk1)). rewrite Hr1. simpl. apply elem_of_cons. auto.
    + split_and!; try done. rewrite (se_current _ _ _ _ Hse), Hq'. rewrite Hr in Hr1. by rewrite Hr1.
  - destruct Hcase as [-> Hr1]. split_and!; try done. by rewrite <- Hr.
Qed.

(** [Sleep] gives the CPU away for a while. *)
Lemma Sleep_keeps k b k' : Sleep k = Ok (b, k') ->
  keeps k k' /\ (threadToBeDestroyed k' = threadToBeDestroyed k \/ threadToBeDestroyed k' = None).
Proof.
  unfold Sleep, Sleep_dispatch. intros Hf. ok_inv. pose proof (update_keeps _ _ _ _ Hok0) as Hu.
  specialize (Hu ltac:(done)). pose proof Hu as [_ _ Hd _ _].
  unfold FindNextToRun in Hf. destruct (readyList v0) as [|[z next] q]; simpl in Hf; ok_inv.
  - split; [|by left]. destruct Hu as [Hs Hg _ _ _]. split; [intros t s _; apply Hs|exact Hg].
  - destruct (Run_keeps _ _ _ _ Hok1) as [Hk Hd']. split; [|simpl in Hd'; by rewrite <- Hd].
    eapply keeps_trans; [exact Hu|]. destruct Hk as [? ?]. by constructor.
Qed.

Lemma Wait_keeps k c l k' c' l' : Condition_Wait k c l = Ok (Some (k', c', l')) ->
  keeps k k' /\ (threadToBeDestroyed k' = threadToBeDestroyed k \/ threadToBeDestroyed k' = None).
Proof.
  unfold Condition_Wait. destruct (negb _); [done|]. intros Hw. ok_inv. destruct v as [k1 l1]. ok_inv. destruct v as [b k2]. ok_inv.
  pose proof (Release_keeps _ _ _ _ Hok) as Hr. destruct (Sleep_keeps _ _ _ Hok0) as [Hk Hd].
  split; [|by rewrite (ka_dead _ _ Hr) in Hd]. eapply keeps_trans; [apply (keeps_all_level k IntOff)|]. by eapply keeps_trans.
Qed.

(** ** The invariant *)

Definition us_frames (us : UserSpace) : list Z := physicalPage <$> sp_pageTable (us_space us).

(** The threads that wait for the end of a process, or for the lock that goes with it. *)
Definition queues (c : list (option (queue positive))) (l : list (option Lock)) : queue positive :=
  concat (from_option id [] <$> c) ++ concat (from_option lk_queue [] <$> l).

(** Address space [s] belongs to the process with the control block [pcb] at [p]. *)
Record process (o : osys) (s : positive) (us : UserSpace) (p : positive) (pcb : PCB) : Prop := {
  pr_pcb : us_pcb us = Some p;
  pr_block : os_pcbs o !! p = Some pcb;
  pr_thread : space_at (os_kernel o) (p_thread pcb) = Some s;
  pr_alive : threadToBeDestroyed (os_kernel o) <> Some (p_thread pcb);
  pr_pid : 0 <= PID pcb < 10;
  pr_bit : bm_bit (pm_bitmap (os_procMgr o)) (PID pcb) = true;
  pr_stored : pcbTable (os_procMgr o) !! Z.to_nat (PID pcb) = Some (Ptr p);
  pr_frames : space_on (us_space us) (us_frames us);
  pr_used f : f ∈ us_frames us -> bm_bit (u_frames (os_mem o)) f = true }.

Record pids_ok (pm : ProcessManager) : Prop := {
  pi_wf : bm_wf (pm_bitmap pm);
  pi_size : numBits (pm_bitmap pm) = 10;
  pi_pcbs : length (pcbTable pm) = 10%nat;
  pi_created : length (conditionTable pm) = 10%nat /\ length (lockTable pm) = 10%nat;
  pi_status : length (returnStatus pm) = 10%nat }.

Record mem_ok (u : umem BitMap) : Prop := {
  mo_memory : memory_ok (u_memory u);
  mo_buffer : length (u_diskBuffer u) = 128%nat;
  mo_frames : bm_wf (u_frames u);
  mo_size : numBits (u_frames u) = 32 }.

Record os_ok (o : osys) : Prop := {
  oo_kernel : kernel_ok (os_kernel o);
  oo_regs : regs_ok (os_kernel o);
  oo_mem : mem_ok (os_mem o);
  oo_pids : pids_ok (os_procMgr o);
  oo_process s us : os_spaces o !! s = Some us -> exists p pcb, process o s us p pcb;
  oo_apart s s' us us' f : os_spaces o !! s = Some us -> os_spaces o !! s' = Some us' -> s <> s' ->
    f ∈ us_frames us -> ~ (f ∈ us_frames us');
  oo_tables : length (os_conditions o) = 10%nat /\ length (os_locks o) = 10%nat;
  oo_waits pid : 0 <= pid < 10 -> bm_bit (pm_bitmap (os_procMgr o)) pid = true ->
    exists c l, at_pid (waits_of o) pid c l;
  oo_queues : queued_ok (os_kernel o) (queues (os_conditions o) (os_locks o)) }.

(** The current thread is in user mode in the address space [s]. *)
Record running (o : osys) (s : positive) (us : UserSpace) (p : positive) (pcb : PCB) : Prop := {
  ru_space : os_spaces o !! s = Some us;
  ru_process : process o s us p pcb;
  ru_current : p_thread pcb = current o;
  ru_status : status_of (os_kernel o) (current o) = Some RUNNING;
  ru_table : k_pageTable (os_kernel o) = Some s }.

Lemma running_space o s us p pcb : running o s us p pcb -> current_space o = Ok (s, us).
Proof.
  intros [Hs [_ _ Ht _ _ _ _ _ _] Hc _ _]. rewrite Hc in Ht. unfold current_space, space_at in *.
  destruct (threads (os_kernel o) !! current o) as [th|]; [|done]. simpl in *. rewrite Ht. simpl. by rewrite Hs.
Qed.

Lemma pcb_of_at o us p pcb : us_pcb us = Some p -> os_pcbs o !! p = Some pcb -> pcb_of o us = Ok (p, pcb).
Proof. intros Hp Hb. unfold pcb_of. rewrite Hp. simpl. by rewrite Hb. Qed.

Lemma process_pcb o s us p pcb : process o s us p pcb -> pcb_of o us = Ok (p, pcb).
Proof. intros [Hp Hb _ _ _ _ _ _ _]. by apply pcb_of_at. Qed.

(** Two processes differ in everything. *)
Lemma processes_apart o s s' us us' p p' pcb pcb' :
  process o s us p pcb -> process o s' us' p' pcb' -> s <> s' ->
  p_thread pcb <> p_thread pcb' /\ p <> p' /\ PID pcb <> PID pcb'.
Proof.
  intros [_ Hb Ht _ _ _ Hst _ _] [_ Hb' Ht' _ _ _ Hst' _ _] Hne.
  assert (p_thread pcb <> p_thread pcb') as Hth by congruence. assert (p <> p') as Hp by congruence.
  split_and!; [done|done|]. intros Heq. rewrite Heq in Hst. congruence.
Qed.

Lemma queued_sub k q q' : q' ⊆+ q -> queued_ok k q -> queued_ok k q'.
Proof.
  intros Hs [Hnd Hq]. assert (q'.*2 ⊆+ q.*2) as Hs2 by (by apply fmap_submseteq). split.
  - apply submseteq_Permutation in Hs2 as [r Hr]. rewrite Hr in Hnd. by apply NoDup_app in Hnd as [? _].
  - intros t Ht. apply Hq. by eapply elem_of_submseteq.
Qed.

(** Changing one queue of a table. *)
Lemma concat_at {A B} (f : B -> list A) (l : list B) i x : l !! i = Some x ->
  exists r, concat (f <$> l) ≡ₚ f x ++ r /\ forall y, concat (f <$> <[i := y]> l) ≡ₚ f y ++ r.
Proof.
  intros Hi. pose proof (lookup_lt_Some _ _ _ Hi) as Hlt.
  exists (concat (f <$> take i l) ++ concat (f <$> drop (S i) l)). split.
  - rewrite <- (take_drop_middle l i x Hi) at 1. rewrite fmap_app, concat_app, fmap_cons. simpl.
    rewrite !app_assoc. f_equiv. apply Permutation_app_comm.
  - intros y. rewrite insert_take_drop by done. rewrite fmap_app, concat_app, fmap_cons. simpl.
    rewrite !app_assoc. f_equiv. apply Permutation_app_comm.
Qed.

(** ** A new process *)

(** A new thread in the address space [s] has been put on the ready list. *)
Record launched (k k' : kstate) (t s : positive) (q : queue positive) : Prop := {
  la_ok : kernel_ok k';
  la_regs : regs_ok k';
  la_queued : queued_ok k' q;
  la_space : space_at k' t = Some s;
  la_keeps t' s' : space_at k t' = Some s' -> space_at k' t' = Some s';
  la_dead : threadToBeDestroyed k' = threadToBeDestroyed k;
  la_alive : threadToBeDestroyed k <> Some t;
  la_current : currentThread k' = currentThread k;
  la_cpu : same_cpu k k';
  la_level : k_level k' = k_level k;
  la_ready : (readyList k').*2 = (readyList k).*2 ++ [t];
  la_status t' : t' <> t -> status_of k' t' = status_of k t';
  la_new : threads k !! t = None }.

Lemma launch_ok k garbage s q t k1 :
  kernel_ok k -> regs_ok k -> length garbage = 40%nat -> queued_ok k q -> Thread_new k garbage = (t, k1) ->
  exists k2 k3, update_thread k1 t (fun th => set_space th s) = Ok k2 /\ space_at k2 t = Some s /\
    (forall t' s', space_at k t' = Some s' -> space_at k2 t' = Some s') /\ Fork k2 t = Ok k3 /\ launched k k3 t s q.
Proof.
  intros Hk [Hreg Hm] Hg [Hnd Hq] Hnew. pose proof (kernel_ok_new k garbage Hk) as Hk1. unfold Thread_new in *.
  set (u := fresh (dom (threads k))) in *. injection Hnew as <- <-. simpl in Hk1.
  assert (threads k !! u = None) as Hnone by (apply not_elem_of_dom, is_fresh).
  assert (status_of k u = None) as Hst by (unfold status_of; by rewrite Hnone).
  assert (threadToBeDestroyed k <> Some u) as Hdead.
  { intros Hd. pose proof (so_dead _ _ _ _ (proj1 Hk) u Hd). congruence. }
  unfold update_thread. simpl. rewrite lookup_insert_eq. simpl. rewrite insert_insert_eq. cbn [set_space]. simpl.
  set (k2 := with_threads k (<[u := mkThread JUST_CREATED None AtThreadRoot garbage (Some s)]> (threads k))).
  assert (kernel_ok k2) as Hk2.
  { destruct Hk1 as [Hs1 Hf1]. split; [|by apply map_Forall_insert_2; [|apply Hk]].
    eapply sched_ok_ext; [|exact Hs1]. intros t'. unfold k2. by rewrite !status_insert. }
  assert (status_of k2 u = Some JUST_CREATED) as Hju by (unfold k2; rewrite status_insert; apply upd_eq).
  assert (forall t' s', space_at k t' = Some s' -> space_at k2 t' = Some s') as Hkeep.
  { intros t' s' Hs. unfold space_at in *. simpl. rewrite lookup_insert_ne; [done|]. intros <-. by rewrite Hnone in Hs. }
  assert (space_at k2 u = Some s) as Hsu by (unfold space_at; simpl; by rewrite lookup_insert_eq).
  assert (regs_ok k2) as Hr2 by (split; [done|]; simpl; by apply map_Forall_insert_2).
  destruct (Fork_ok k2 u Hk2 Hju) as (k3 & Hf & Hk3 & Hrl & Hc & Hl & Hd & Hst3 & _).
  pose proof (Fork_keeps k2 u k3 Hf) as [Hks Hkr _ _ [Hcpu1 Hcpu2]]. exists k2, k3. split_and!; try done.
  assert (forall t', t' <> u -> status_of k3 t' = status_of k t') as Hother.
  { intros t' Ht'. rewrite Hst3, upd_ne by done. unfold k2. rewrite status_insert. by rewrite upd_ne. }
  constructor; try done; auto.
  split; [done|]. intros t' Ht'. destruct (Hq t' Ht') as [Hb Hdt]. rewrite Hd. split; [|done].
  rewrite Hother; [done|]. intros ->. congruence.
Qed.

Section creation.
Context `{FreshLaws}.
Context (garbage_owner : option positive).

(** An identifier has been taken for the control block at [p]. *)
Record pid_taken (o : osys) (pid : Z) (p : positive) (pm : ProcessManager) (c : list (option (queue positive)))
    (l : list (option Lock)) : Prop := {
  pt_pid : 0 <= pid < 10;
  pt_free : bm_bit (pm_bitmap (os_procMgr o)) pid = false;
  pt_ok : pids_ok pm;
  pt_bits j : 0 <= j -> bm_bit (pm_bitmap pm) j = bool_decide (pid = j) || bm_bit (pm_bitmap (os_procMgr o)) j;
  pt_table : pcbTable pm = <[Z.to_nat pid := Ptr p]> (pcbTable (os_procMgr o));
  pt_conditions : c = <[Z.to_nat pid := Some []]> (os_conditions o);
  pt_locks : l = <[Z.to_nat pid := Some (Lock_new garbage_owner)]> (os_locks o) }.

Lemma new_pid_ok o parent t :
  pids_ok (os_procMgr o) -> length (os_conditions o) = 10%nat /\ length (os_locks o) = 10%nat ->
  0 < ba_free (pm_bitmap (os_procMgr o)) ->
  let p := fresh (dom (os_pcbs o)) in
  exists pid pcb pm0 pm c l, let ob := new_lock_object o pid in
    os_getPID garbage_owner o = Ok (pid, os_set_objects (os_set_procMgr o pm0 c l) ob) /\
    pid_taken o pid p pm c l /\ PID pcb = pid /\ parentPID pcb = parent /\ p_thread pcb = t /\
    os_new_pcb (os_set_objects (os_set_procMgr o pm0 c l) ob) pid parent t =
      Ok (p, os_set_objects (os_set_procMgr (os_set_pcbs o (<[p := pcb]> (os_pcbs o))) pm c l) ob).
Proof.
  intros [Hwf Hn Hp [Hc Hl] Hs] [Hcs Hls] Hfree p. unfold os_getPID, getPID.
  pose proof (ba_find_free (pm_bitmap (os_procMgr o))) as Hfind. specialize (Hfind Hwf Hfree).
  destruct Hfind as (pid & m' & Hfind & Hwf' & Hnb & Hk & Hf & _ & _ & Hu). simpl in Hfind, Hwf', Hnb, Hk, Hf, Hu.
  rewrite Hfind. rewrite Hn in Hk. cbn [mbind outcome_bind]. do 4 (rewrite arr_set_in by lia; cbn [mbind outcome_bind]).
  destruct (BitMap_create_ok MAX_OPEN_FILES) as (fm & Hfm & _); [done|].
  set (pm0 := mkPM m' _ _ _ _ _ _ _ _).
  set (pm := mkPM m' (<[Z.to_nat pid := Ptr p]> (pcbTable pm0)) (conditionTable pm0) (lockTable pm0) (fsLock pm0)
    (returnStatus pm0) (sysOpenFileTable pm0) (sysOpenFileMap pm0) (sysFiles pm0)).
  eexists pid, (mkPCB pid parent t (replicate 20 Uninit) fm), pm0, pm, _, _. split; [done|].
  split; [|split; [done|split; [done|split; [done|]]]].
  - assert (pids_ok pm) as Hpm by (split; simpl; rewrite ?length_insert; (done || congruence)). by split.
  - unfold os_new_pcb, PCB_new, storePCB. rewrite Hfm. cbn [mbind outcome_bind os_procMgr os_set_pcbs os_set_procMgr os_set_objects].
    rewrite arr_set_in by (simpl; lia). done.
Qed.

(** The threads of a kernel state go on as they were, and [t] runs in the space [s]. *)
Record extends (k k' : kstate) (t s : positive) (q : queue positive) : Prop := {
  ex_ok : kernel_ok k';
  ex_regs : regs_ok k';
  ex_queued : queued_ok k' q;
  ex_space : space_at k' t = Some s;
  ex_keeps t' s' : threadToBeDestroyed k <> Some t' -> space_at k t' = Some s' -> space_at k' t' = Some s';
  ex_dead d : threadToBeDestroyed k' = Some d -> threadToBeDestroyed k = Some d;
  ex_alive : threadToBeDestroyed k <> Some t }.

Lemma empties_sub c l i :
  queues (<[i := Some []]> c) (<[i := Some (Lock_new garbage_owner)]> l) ⊆+ queues c l.
Proof.
  unfold queues. apply submseteq_app.
  - destruct (c !! i) as [x|] eqn:Hi.
    + destruct (concat_at (from_option id []) c i x Hi) as (r & -> & Hr). rewrite Hr. simpl. apply submseteq_inserts_l. done.
    + rewrite list_insert_ge; [done|]. by apply lookup_ge_None.
  - destruct (l !! i) as [x|] eqn:Hi.
    + destruct (concat_at (from_option lk_queue []) l i x Hi) as (r & -> & Hr). rewrite Hr. simpl.
      apply submseteq_inserts_l. done.
    + rewrite list_insert_ge; [done|]. by apply lookup_ge_None.
Qed.

Lemma process_added o o' s sp p pcb pm frames :
  os_ok o -> extends (os_kernel o) (os_kernel o') (p_thread pcb) s (queues (os_conditions o) (os_locks o)) ->
  pid_taken o (PID pcb) p pm (os_conditions o') (os_locks o') -> os_procMgr o' = pm ->
  os_spaces o !! s = None -> os_spaces o' = <[s := mkUS sp (Some p)]> (os_spaces o) ->
  os_pcbs o !! p = None -> os_pcbs o' = <[p := pcb]> (os_pcbs o) ->
  mem_ok (os_mem o') -> space_on sp frames -> allocated (u_frames (os_mem o)) (u_frames (os_mem o')) frames ->
  os_ok o' /\ process o' s (mkUS sp (Some p)) p pcb /\
  forall s0 us0 p0 pcb0, process o s0 us0 p0 pcb0 -> process o' s0 us0 p0 pcb0.
Proof.
  intros [Hk Hrg Hm Hpi Hpr Hap [Htc Htl] Hwt Hqu] [Ek Er Eq Es Ekp Ed Ea]
    [Tp Tf Tok Tb Tt Tc Tl] Epm Hs Hspaces Hp Hpcbs Hm' Hsp Hal. subst pm.
  assert (us_frames (mkUS sp (Some p)) = frames) as Hfr by apply Hsp.
  assert (forall f, 0 <= f -> bm_bit (u_frames (os_mem o)) f = true -> bm_bit (u_frames (os_mem o')) f = true) as Hbits.
  { intros f Hf Hb. change (ba_used (u_frames (os_mem o')) f = true). rewrite (al_used _ _ _ Hal) by done. simpl.
    rewrite Hb. apply orb_true_r. }
  assert (process o' s (mkUS sp (Some p)) p pcb) as Hnew.
  { split; try done.
    - rewrite Hpcbs. apply lookup_insert_eq.
    - by intros ?%Ed.
    - rewrite Tb by lia. by rewrite bool_decide_eq_true_2.
    - rewrite Tt. apply list_lookup_insert_eq. rewrite (pi_pcbs _ Hpi). lia.
    - by rewrite Hfr.
    - rewrite Hfr. intros f Hf. change (ba_used (u_frames (os_mem o')) f = true).
      destruct (al_got _ _ _ Hal f Hf) as [Hr _]. rewrite (al_used _ _ _ Hal) by lia. by rewrite bool_decide_eq_true_2. }
  assert (forall s0 us0 p0 pcb0, process o s0 us0 p0 pcb0 -> process o' s0 us0 p0 pcb0) as Hold.
  { intros s0 us0 p0 pcb0 [Q1 Q2 Q3 Q4 Q5 Q6 Q7 Q8 Q9]. split; try done.
    - rewrite Hpcbs. rewrite lookup_insert_ne; [done|]. intros ->. congruence.
    - by apply Ekp.
    - by intros ?%Ed.
    - rewrite Tb by lia. by rewrite Q6, orb_true_r.
    - rewrite Tt. rewrite list_lookup_insert_ne; [done|]. intros He.
      assert (PID pcb = PID pcb0) by lia. congruence.
    - intros f Hf. apply Hbits; [|by apply Q9]. pose proof (so_range _ _ Q8) as Hr. rewrite Forall_forall in Hr.
      specialize (Hr f Hf). simpl in Hr. lia. }
  assert (forall s0 us0 f, os_spaces o !! s0 = Some us0 -> f ∈ us_frames us0 -> ~ (f ∈ frames)) as Hdis.
  { intros s0 us0 f H0' Hf Hin. destruct (Hpr s0 us0 H0') as (p0 & pcb0 & Hpr0).
    pose proof (pr_used _ _ _ _ _ Hpr0 f Hf) as Hu. destruct (al_got _ _ _ Hal f Hin) as [_ Hn]. simpl in Hn. congruence. }
  split; [|done]. split; try done.
  - rewrite Hspaces. intros s0 us0. destruct (decide (s0 = s)) as [->|Hne].
    + rewrite lookup_insert_eq. intros [= <-]. eauto.
    + rewrite lookup_insert_ne by done. intros Hs0. destruct (Hpr s0 us0 Hs0) as (p0 & pcb0 & Hp0). eauto.
  - rewrite Hspaces. intros s1 s2 us1 us2 f. destruct (decide (s1 = s)) as [->|H1], (decide (s2 = s)) as [->|H2]; [done|..].
    + rewrite lookup_insert_eq, lookup_insert_ne by done. intros [= <-] Hu2 _ Hf Hin. rewrite Hfr in Hf.
      by eapply (Hdis s2 us2 f).
    + rewrite lookup_insert_eq, lookup_insert_ne by done. intros Hu1 [= <-] _ Hf Hin. rewrite Hfr in Hin.
      by eapply (Hdis s1 us1 f).
    + rewrite !lookup_insert_ne by done. apply Hap.
  - rewrite Tc, Tl, !length_insert. done.
  - intros pid Hpid. rewrite Tb by lia. unfold at_pid. simpl. rewrite Tc, Tl.
    destruct (decide (pid = PID pcb)) as [->|Hne].
    + intros _. rewrite !list_lookup_insert_eq by lia. by eexists _, _.
    + rewrite bool_decide_eq_false_2 by done. simpl. intros Hb. rewrite !list_lookup_insert_ne by lia.
      destruct (Hwt pid Hpid Hb) as (c & l & Hat). by exists c, l.
  - rewrite Tc, Tl. eapply queued_sub; [apply empties_sub|done].
Qed.
End creation.

(** ** Fork *)

Lemma current_space_at o s us :
  space_at (os_kernel o) (current o) = Some s -> os_spaces o !! s = Some us -> current_space o = Ok (s, us).
Proof.
  intros Hsp Hs. unfold current_space, space_at in *.
  destruct (threads (os_kernel o) !! current o) as [th|]; [|done]. simpl in *. rewrite Hsp. simpl. by rewrite Hs.
Qed.

(** Processes that keep their frames keep their bytes. *)
Lemma others_keep o mem' (frames : list Z) :
  os_ok o -> (forall s us f, os_spaces o !! s = Some us -> f ∈ us_frames us -> ~ (f ∈ frames)) ->
  (forall g, 0 <= g < 32 -> ~ (g ∈ frames) -> frame_bytes mem' g = frame_bytes (u_memory (os_mem o)) g) ->
  forall s us, os_spaces o !! s = Some us ->
    space_bytes mem' (us_frames us) = space_bytes (u_memory (os_mem o)) (us_frames us).
Proof.
  intros Hok Hdis Hsame s us Hs. apply space_bytes_ext. intros f Hf. apply Hsame; [|by eapply Hdis].
  destruct (oo_process _ Hok s us Hs) as (p & pcb & Hp). pose proof (so_range _ _ (pr_frames _ _ _ _ _ Hp)) as Hr.
  rewrite Forall_forall in Hr. exact (Hr f Hf).
Qed.

Lemma new_frames_apart o u' frames :
  os_ok o -> allocated (u_frames (os_mem o)) (u_frames u') frames ->
  forall s us f, os_spaces o !! s = Some us -> f ∈ us_frames us -> ~ (f ∈ frames).
Proof.
  intros Hok Hal s us f Hs Hf Hin. destruct (oo_process _ Hok s us Hs) as (p & pcb & Hp).
  pose proof (pr_used _ _ _ _ _ Hp f Hf). destruct (al_got _ _ _ Hal f Hin) as [_ Hn]. simpl in Hn. congruence.
Qed.

(** Where a thread that yielded will go on, and with which registers. *)
Definition yielded (k : kstate) (t : positive) (regs : list Z) (level : IntStatus) : Prop :=
  exists th, threads k !! t = Some th /\ userRegisters th = regs /\ t_frame th = InYield level.

Lemma Yield_saves k k' s next q :
  kernel_ok k -> status_of k (currentThread k) = Some RUNNING -> space_at k (currentThread k) = Some s ->
  (readyList k).*2 = next :: q -> Yield k = Ok k' -> yielded k' (currentThread k) (k_registers k) (k_level k).
Proof.
  intros Hk Hrun Hsp Hr Hy. destruct (status_some _ _ _ Hrun) as (th & Hth & Hst).
  destruct (readyList k) as [|[z n] q'] eqn:Hrl; [done|]. destruct (kernel_ok_next k z n q' Hk Hrl) as (nth & Hn & _).
  destruct (Yield_ok k z n q' th nth Hk Hth Hst Hrl Hn) as (k1 & Hy1 & _ & _ & _ & Hsaved & _).
  rewrite Hy in Hy1. injection Hy1 as <-. exists (saved k (set_status th READY) (InYield (k_level k))). split; [done|].
  unfold saved, space_at in *. rewrite Hth in Hsp. simpl in *. by rewrite Hsp.
Qed.

Lemma Yield_runs k k' :
  kernel_ok k -> status_of k (currentThread k) = Some RUNNING -> Yield k = Ok k' ->
  status_of k' (currentThread k') = Some RUNNING.
Proof.
  intros Hk Hst Hy. destruct (Yield_effect _ Hk Hst) as (k1 & Hy1 & Hcase). rewrite Hy in Hy1. injection Hy1 as <-.
  destruct Hcase as [[-> _]|(k1 & z & next & q1 & Hr & _ & _ & _ & Hd1 & _ & Hse & _)]; [done|].
  rewrite (se_current _ _ _ _ Hse). rewrite (se_status _ _ _ _ Hse); [apply upd_eq|]. rewrite Hd1. intros Hdd.
  pose proof (so_dead _ _ _ _ (proj1 Hk) _ Hdd) as Hbl. assert (status_of k next = Some READY); [|congruence].
  apply (so_ready _ _ _ _ (proj1 Hk)). rewrite Hr. simpl. apply elem_of_cons. auto.
Qed.

(** After [Fork] the caller yields. *)
Lemma launched_yield k k3 t s s0 q :
  launched k k3 t s q -> status_of k (currentThread k) = Some RUNNING -> space_at k (currentThread k) = Some s0 ->
  exists k4, Yield k3 = Ok k4 /\ extends k k4 t s q /\
    currentThread k4 :: (readyList k4).*2 = (readyList k).*2 ++ [t; currentThread k] /\
    yielded k4 (currentThread k) (k_registers k3) (k_level k3) /\ status_of k4 (currentThread k4) = Some RUNNING.
Proof.
  intros [Lk Lr Lq Ls Lkp Ld La Lc _ Ll Lrd Lst Ln] Hrun Hsp.
  assert (currentThread k <> t) as Hne by (intros <-; unfold space_at in Hsp; by rewrite Ln in Hsp).
  assert (status_of k3 (currentThread k3) = Some RUNNING) as Hrun3 by (by rewrite Lc, Lst).
  destruct (Yield_turn k3 q Lk Hrun3 Lq) as (k4 & Hy & Hk4 & Hq4 & [Hkp Hkr] & Hd4 & Hturn).
  exists k4. split; [done|]. rewrite Hturn, Lrd, Lc, <- app_assoc. split; [|split; [done|split; [|by apply (Yield_runs k3)]]].
  - rewrite Ld in *. split; try done; auto. destruct Hd4 as [->| ->]; [done|by intros d ?].
  - rewrite <- Lc. destruct ((readyList k).*2 ++ [t]) as [|next q1] eqn:Hr; [by destruct ((readyList k).*2)|].
    apply (Yield_saves k3 k4 s0 next q1); [done|done|rewrite Lc; by apply Lkp|by rewrite Lrd|done].
Qed.

Lemma extends_level k l k' t s q : extends (with_klevel k l) k' t s q -> extends k k' t s q.
Proof. by intros [? ? ? ? ? ? ?]. Qed.

Lemma running_thread o s us p pcb : running o s us p pcb ->
  space_at (os_kernel o) (current o) = Some s.
Proof.
  intros [_ [_ _ Ht _ _ _ _ _ _] Hc _ _]. by rewrite Hc in Ht.
Qed.

Section fork.
Context `{FreshLaws} (garbage : list Z) (garbage_owner : option positive).
Hypothesis Hgarbage : length garbage = 40%nat.

(** A new process in the space [s]; the caller waits for its turn, to go on with [regs]. *)
Record forked (o o' : osys) (s : positive) (us : UserSpace) (p : positive) (pcb : PCB) (regs : list Z)
    (level : IntStatus) : Prop := {
  fk_ok : os_ok o';
  fk_new : os_spaces o !! s = None /\ os_spaces o' = <[s := us]> (os_spaces o);
  fk_process : process o' s us p pcb;
  fk_keeps s0 us0 p0 pcb0 : process o s0 us0 p0 pcb0 -> process o' s0 us0 p0 pcb0;
  fk_pid : bm_bit (pm_bitmap (os_procMgr o)) (PID pcb) = false;
  fk_others s0 us0 : os_spaces o !! s0 = Some us0 ->
    space_bytes (u_memory (os_mem o')) (us_frames us0) = space_bytes (u_memory (os_mem o)) (us_frames us0);
  fk_caller : yielded (os_kernel o') (current o) regs level;
  fk_running : status_of (os_kernel o') (current o') = Some RUNNING;
  fk_turn : current o' :: (readyList (os_kernel o')).*2 =
    (readyList (os_kernel o)).*2 ++ [p_thread pcb; current o] }.

Lemma myFork_ok o s us p pcb newPC :
  os_ok o -> running o s us p pcb -> sp_numPages (us_space us) <= ba_free (u_frames (os_mem o)) ->
  0 < ba_free (pm_bitmap (os_procMgr o)) ->
  exists o' s' us' p' pcb', myFork garbage garbage_owner o newPC = Ok o' /\
    forked o o' s' us' p' pcb' (k_registers (os_kernel o)) IntOff /\
    parentPID pcb' = PID pcb /\ sp_numPages (us_space us') = sp_numPages (us_space us) /\
    space_bytes (u_memory (os_mem o')) (us_frames us') = space_bytes (u_memory (os_mem o)) (us_frames us) /\
    os_pending o' = <[current o := EndFork (PID pcb') (k_level (os_kernel o))]>
                      (<[p_thread pcb' := ForkBridge newPC]> (os_pending o)).
Proof.
  intros Hok Hrun Hfree Hpid. pose proof Hok as [Hk Hrg Hm Hpi _ _ Htab _ Hqu]. pose proof Hm as [Hmm Hmb Hmf Hms].
  pose proof Hrun as [Hs Hp Hc Hst Hpt]. pose proof (running_thread _ _ _ _ _ Hrun) as Hsp.
  set (k0 := with_klevel (os_kernel o) IntOff).
  destruct (Thread_new k0 garbage) as [t k1] eqn:Hnew.
  destruct (launch_ok k0 garbage (fresh (dom (os_spaces o))) (queues (os_conditions o) (os_locks o)) t k1)
    as (k2 & k3 & Hup & Hst2 & Hkp2 & Hfk & Hla); try done.
  set (s' := fresh (dom (os_spaces o))) in *.
  assert (os_spaces o !! s' = None) as Hs' by (apply not_elem_of_dom, is_fresh).
  destruct (CopyAddrSpace_correct (os_mem o) (us_space us) (us_frames us))
    as (sp' & u' & frames' & Hcopy & Hsp' & Hnp & Hal & _ & Hmem' & Hbuf & Hcb & _ & Hsame);
    [apply Hp|done|done|done|intros f Hf; by apply (pr_used _ _ _ _ _ Hp)|done|].
  set (o2 := os_set_mem (os_set_kernel (set_level o IntOff) k2) u').
  destruct (new_pid_ok garbage_owner o2 (PID pcb) t) as (pid & pcb' & pm0 & pm & c & l & Hgp & Htk & Hpp & Hpa & Hpth & Hnp');
    [done|done|done|].
  destruct (launched_yield k0 k3 t s' s _ Hla) as (k4 & Hy & Hex & Hturn & Hsaved & Hrun4); [done|done|].
  destruct (la_cpu _ _ _ _ _ Hla) as [Hregs _].
  assert (currentThread k3 = currentThread (os_kernel o)) as Hc3 by apply (la_current _ _ _ _ _ Hla).
  assert (currentThread k2 = currentThread (os_kernel o)) as Hc2.
  { rewrite <- Hc3. symmetry. apply (ka_current _ _ (Fork_keeps _ _ _ Hfk)). }
  unfold myFork. change (os_kernel (set_level o IntOff)) with k0. rewrite Hnew.
  change (os_spaces (set_level o IntOff)) with (os_spaces o). fold s'. rewrite Hup. cbn [mbind outcome_bind].
  rewrite (current_space_at _ s us); [|unfold current; simpl; rewrite Hc2; by apply Hkp2|done]. cbn [mbind outcome_bind].
  unfold pcb_of. simpl. rewrite (pr_pcb _ _ _ _ _ Hp). simpl. rewrite (pr_block _ _ _ _ _ Hp). simpl. rewrite Hcopy. simpl.
  fold o2. rewrite Hgp. simpl. rewrite Hnp'. simpl. unfold os_Fork. simpl. rewrite Hfk. simpl. unfold os_Yield. simpl. rewrite Hy.
  simpl. eexists _, s', (mkUS sp' (Some _)), _, pcb'. split; [reflexivity|].
  set (o' := os_set_kernel _ k4).
  destruct (process_added garbage_owner o o' s' sp' (fresh (dom (os_pcbs o2))) pcb' pm frames') as (Hok' & Hpr' & Hkept);
    try done; [rewrite Hpth; by eapply extends_level|rewrite Hpp; by destruct Htk|apply not_elem_of_dom, is_fresh|
      change (mem_ok u'); by split; [|rewrite Hbuf|apply Hal|rewrite <- Hms; apply Hal]|].
  split; [|split_and!].
  - split; try done.
    + rewrite Hpp. apply (pt_free _ _ _ _ _ _ _ Htk).
    + apply (others_keep o (u_memory u') frames'); [done|by eapply new_frames_apart|]. intros g Hg. apply Hsame. lia.
    + rewrite Hregs, (la_level _ _ _ _ _ Hla) in Hsaved. exact Hsaved.
    + rewrite Hpth. exact Hturn.
  - done.
  - done.
  - unfold us_frames at 1. simpl. by rewrite (so_table _ _ Hsp').
  - subst pid. unfold o', pend, current. simpl. by rewrite Hc3, Hpth.
Qed.
End fork.

(** ** The machine of the running process *)

Definition set_registers_os (o : osys) (regs : list Z) : osys :=
  os_set_kernel o (with_cpu (os_kernel o) regs (k_pageTable (os_kernel o))).

Lemma machine_of_space o s us :
  k_pageTable (os_kernel o) = Some s -> os_spaces o !! s = Some us ->
  machine_of o = mkMachine (u_memory (os_mem o)) (k_registers (os_kernel o)) None
                   (Some (sp_pageTable (us_space us))) (sp_numPages (us_space us)).
Proof. intros Hp Hs. unfold machine_of. rewrite Hp. simpl. by rewrite Hs. Qed.

Lemma machine_of_parts o :
  registers (machine_of o) = k_registers (os_kernel o) /\ mainMemory (machine_of o) = u_memory (os_mem o).
Proof. unfold machine_of. by destruct (k_pageTable _ ≫= _). Qed.

(** A routine that changes registers only. *)
Lemma on_machine_regs o f regs :
  (forall m, registers m = k_registers (os_kernel o) -> f m = Ok (with_registers m regs)) ->
  on_machine o f = Ok (set_registers_os o regs).
Proof.
  intros Hf. destruct (machine_of_parts o) as [Hr Hm]. unfold on_machine. rewrite Hf by done. cbn [mbind outcome_bind].
  f_equal. unfold put_machine, set_registers_os. cbn [registers mainMemory with_registers]. rewrite Hm.
  destruct o as [k [m fr b] sps pcbs pm c l ob pe u fi fs d i ou]. unfold machine_of. simpl.
  destruct (k_pageTable k) as [s|]; simpl; [|done]. destruct (sps !! s) as [[[n t] q]|] eqn:Hs; simpl; [|done].
  by rewrite insert_id.
Qed.

Lemma launched_env k k3 t s q level regs pt :
  launched k k3 t s q -> length regs = 40%nat ->
  launched (with_klevel (with_cpu k regs pt) level) (with_klevel (with_cpu k3 regs pt) level) t s q.
Proof. intros [L1 [L2a L2b] L3 L4 L5 L6 L7 L8 L9 L10 L11 L12 L13] Hl. split; try done. Qed.

Lemma extends_env k level regs pt k' t s q :
  extends (with_klevel (with_cpu k regs pt) level) k' t s q -> extends k k' t s q.
Proof. by intros [? ? ? ? ? ? ?]. Qed.

(** ** Exec *)

(** The open file [exe] holds a program of [np] pages with the header [n]. *)
Record program (exe : OpenFile) (disk : list (list Z)) (ss ws : list Z) (n : NoffHeader) (np : Z) : Prop := {
  pg_on : file_on exe disk ss;
  pg_disk : disk_ok disk;
  pg_length : 40 <= FileLength (hdr exe);
  pg_words : Forall is_s32 ws;
  pg_header : noff_of_words ws = Some n;
  pg_bytes : take 40 (file_bytes disk ss) = words_to_bytes ws;
  pg_magic : noffMagic n = NOFFMAGIC;
  pg_pages : np = divRoundUp (u32 (seg_size (noff_code n) + seg_size (noff_initData n) + seg_size (noff_uninitData n)
                                   + UserStackSize)) PageSize;
  pg_code : loadable (noff_code n) exe np;
  pg_data : loadable (noff_initData n) exe np }.

(** What the loader makes of the memory [V] of a new space. *)
Definition loaded (n : NoffHeader) (F V : list Z) : list Z :=
  splice (splice V (Z.to_nat (seg_virtualAddr (noff_code n))) (segment_bytes (noff_code n) F))
    (Z.to_nat (seg_virtualAddr (noff_initData n))) (segment_bytes (noff_initData n) F).

Section exec.
Context `{FreshLaws} (garbage : list Z) (garbage_owner : option positive) (slack : Z -> Z).
Hypothesis Hgarbage : length garbage = 40%nat.

Lemma myExec_ok o s us p pcb va name exe ss ws n np :
  os_ok o -> running o s us p pcb -> 0 < slack (Z.of_nat (length name) + 1) ->
  string_at (space_bytes (u_memory (os_mem o)) (us_frames us)) va name ->
  Open (os_fs o) (os_disk o) name = Ok (Some exe) -> program exe (os_disk o) ss ws n np ->
  np <= ba_free (u_frames (os_mem o)) -> 0 < ba_free (pm_bitmap (os_procMgr o)) ->
  exists o' s' us' p' pcb', myExec garbage garbage_owner slack o va = Ok o' /\
    forked o o' s' us' p' pcb' (<[2%nat := PID pcb']> (k_registers (os_kernel o))) (k_level (os_kernel o)) /\
    parentPID pcb' = PID pcb /\ Z.of_nat (length (us_frames us')) = np /\
    space_bytes (u_memory (os_mem o')) (us_frames us') =
      loaded n (file_bytes (os_disk o) ss) (space_bytes (u_memory (os_mem o)) (us_frames us')) /\
    os_pending o' = <[current o := EndExec]> (<[p_thread pcb' := ExecBridge]> (os_pending o)).
Proof.
  intros Hok Hrun Hslack Hname Hopen [G1 G2 G3 G4 G5 G6 G7 G8 G9 G10] Hfree Hpid.
  pose proof Hok as [Hk Hrg Hm Hpi _ _ Htab _ Hqu]. pose proof Hm as [Hmm Hmb Hmf Hms].
  pose proof Hrun as [Hs Hp Hc Hst Hpt]. pose proof (running_thread _ _ _ _ _ Hrun) as Hsp. subst np.
  set (k0 := with_klevel (os_kernel o) IntOff).
  destruct (Thread_new k0 garbage) as [t k1] eqn:Hnew.
  set (s' := fresh (dom (os_spaces o))).
  destruct (launch_ok k0 garbage s' (queues (os_conditions o) (os_locks o)) t k1)
    as (k2 & k3 & Hup & Hst2 & Hkp2 & Hfk & Hla); try done.
  assert (os_spaces o !! s' = None) as Hs' by (apply not_elem_of_dom, is_fresh).
  assert (s' <> s) as Hne by (intros He; congruence).
  set (o1 := os_set_kernel (set_level o IntOff) k1).
  destruct (new_pid_ok garbage_owner o1 (-1) (current o1)) as (pid & pcb0 & pm0 & pm & c & l & Hgp & Htk & Hpp & _ & _ & Hnp');
    [done|done|done|].
  destruct (AddrSpace_new_ok exe (os_disk o) ss (os_mem o) ws n) as (sp' & u' & fs & Hload & Hsp' & Hlen & _ & Hal & Hmem' & Hbuf & Hbytes & Hsame);
    try done.
  set (p' := fresh (dom (os_pcbs o1))) in *.
  assert (os_pcbs o !! p' = None) as Hp' by (apply not_elem_of_dom, is_fresh).
  set (pcb' := set_parent pcb0 (PID pcb) t).
  set (regs := <[2%nat := pid]> (k_registers (os_kernel o))).
  destruct Hrg as [Hregl Hregm].
  assert (length regs = 40%nat) as Hrl by (unfold regs; by rewrite length_insert).
  pose proof (launched_env k0 k3 t s' _ (k_level (os_kernel o)) regs (k_pageTable (os_kernel o)) Hla Hrl) as Hla'.
  destruct (launched_yield _ _ t s' s _ Hla') as (k4 & Hy & Hex & Hturn & Hsaved & Hrun4); [done|done|].
  destruct (la_cpu _ _ _ _ _ Hla) as [Hcr Hcp]. simpl in Hcr, Hcp.
  pose proof (la_current _ _ _ _ _ Hla) as Hc3. simpl in Hc3.
  unfold myExec. rewrite (current_space_at _ s us) by done. cbn [mbind outcome_bind].
  rewrite (pcb_of_at _ us p pcb) by apply Hp. cbn [mbind outcome_bind].
  rewrite (getString_ok slack (us_space us) (us_frames us) _ va name) by (done || apply Hp). cbn [mbind outcome_bind].
  change (Open (os_fs (set_level o IntOff)) (os_disk (set_level o IntOff)) name) with (Open (os_fs o) (os_disk o) name).
  rewrite Hopen. cbn [mbind outcome_bind]. change (os_kernel (set_level o IntOff)) with k0. rewrite Hnew. unfold os_new_space. fold o1. rewrite Hgp. simpl. unfold current at 1. simpl.
  change (currentThread k1) with (current o1). rewrite Hnp'. simpl. rewrite Hload. simpl. fold s'. rewrite Hup. simpl.
  rewrite lookup_insert_eq. simpl. rewrite (pcb_of_at _ _ p' pcb0) by (done || apply lookup_insert_eq). simpl.
  unfold os_Fork. simpl.
  rewrite Hfk. simpl.
  rewrite (on_machine_regs _ _ regs).
  2: { intros m Hm2. simpl in Hm2. rewrite Hcr in Hm2. rewrite WriteRegister_2 by congruence. by rewrite Hm2, Hpp. }
  simpl. unfold os_Yield. simpl. unfold set_registers_os, set_level. simpl. rewrite Hcp, Hy. simpl.
  eexists _, s', (mkUS sp' (Some p')), p', pcb'. split; [reflexivity|]. rewrite insert_insert_eq. fold pcb'.
  set (o' := os_set_kernel _ k4).
  assert (p_thread pcb' = t /\ PID pcb' = pid) as [Hpth' Hpid'] by done.
  destruct (process_added garbage_owner o o' s' sp' p' pcb' pm fs) as (Hok' & Hpr' & Hkept); try done;
    [rewrite Hpth'; by eapply extends_level, extends_env|rewrite Hpid'; by destruct Htk|
     change (mem_ok u'); split; [done|done|apply Hal|rewrite <- Hms; apply Hal]|].
  assert (us_frames (mkUS sp' (Some p')) = fs) as Hfr by apply Hsp'.
  split; [|split_and!].
  - split; try done.
    + rewrite Hpid'. apply (pt_free _ _ _ _ _ _ _ Htk).
    + apply (others_keep o (u_memory u') fs); [done|by eapply new_frames_apart|]. intros g Hg. by apply Hsame.
    + rewrite Hpid'. exact Hsaved.
  - done.
  - by rewrite Hfr.
  - rewrite Hfr. exact Hbytes.
  - unfold o', pend, current. simpl. by rewrite Hc3.
Qed.
End exec.

(** ** Exit *)

Lemma clearPID_end_keeps k w pid k' w' : clearPID_end k w pid = Ok (k', w') -> keeps_all k k'.
Proof.
  unfold clearPID_end, Condition_Broadcast. intros Hc. ok_inv. destruct v1 as [k1 c1]. ok_inv. destruct v1 as [k2 l2]. ok_inv.
  eapply keeps_all_trans; [|by eapply Release_keeps]. destruct (negb _); ok_inv; [apply keeps_all_refl|].
  by eapply wake_all_keeps.
Qed.

(** The lock of a process is free, or the current thread holds it. *)
Definition lock_available (o : osys) (l : Lock) : Prop := locked l = false \/ owner l = Some (current o).

Lemma acquire_free k w pid c l :
  waits_ok w -> at_pid w pid c l -> locked l = false \/ owner l = Some (currentThread k) ->
  exists w', acquire k w pid = Ok (true, k, w') /\ w' = set_wait w pid c (mkLock true (Some (currentThread k)) (lk_queue l)).
Proof.
  intros Hw Hat Hl. eexists. split; [|done]. unfold acquire. destruct (at_pid_get _ _ _ _ Hat) as [-> ->]. simpl.
  unfold Lock_Acquire_loop, isHeldByCurrentThread. destruct Hl as [->|Ho]; [done|].
  rewrite (bool_decide_eq_true_2 _ Ho). simpl. by rewrite andb_false_r.
Qed.

(** The same for the lock of [pid] as an object. *)
Lemma acquire_current o k pid c l :
  waits_ok (waits_of o) -> at_pid (waits_of o) pid c l -> locked l = false \/ owner l = Some (currentThread k) ->
  acquire_object o k pid (lock_id o pid) =
    Ok (true, k, put_waits o (set_wait (waits_of o) pid c (mkLock true (Some (currentThread k)) (lk_queue l)))).
Proof.
  intros Hw Hat Hl. unfold acquire_object. rewrite decide_True by done.
  destruct (acquire_free k (waits_of o) pid c l Hw Hat Hl) as (w' & -> & ->). done.
Qed.

Lemma waits_of_put o w : waits_of (put_waits o w) = w.
Proof. by destruct w. Qed.

(** The queues of process [pid] and all the others. *)
Lemma queues_at w pid c l : at_pid w pid c l ->
  exists r, queues (wt_conditions w) (wt_locks w) ≡ₚ c ++ lk_queue l ++ r /\
    forall c' l', queues (<[Z.to_nat pid := Some c']> (wt_conditions w)) (<[Z.to_nat pid := Some l']> (wt_locks w))
                    ≡ₚ c' ++ lk_queue l' ++ r.
Proof.
  intros (Hp & Hc & Hl). destruct (concat_at (from_option id []) _ _ _ Hc) as (r1 & H1 & H1').
  destruct (concat_at (from_option lk_queue []) _ _ _ Hl) as (r2 & H2 & H2'). exists (r1 ++ r2). unfold queues.
  split; [rewrite H1, H2|intros c' l'; rewrite H1', H2']; simpl; rewrite <- !app_assoc; f_equiv; rewrite !app_assoc; f_equiv;
    apply Permutation_app_comm.
Qed.

Lemma waits_of_ok o : os_ok o -> waits_ok (waits_of o).
Proof. intros [_ _ _ [? ? ? ? ?] _ _ [? ?] _ _]. by split. Qed.

(** A process has ended: its frames and its identifier are free, its thread is over. *)
Lemma process_removed o o' s us p pcb c l r :
  os_ok o -> os_spaces o !! s = Some us -> process o s us p pcb -> at_pid (waits_of o) (PID pcb) c l ->
  queues (os_conditions o) (os_locks o) ≡ₚ c ++ lk_queue l ++ r ->
  kernel_ok (os_kernel o') -> regs_ok (os_kernel o') ->
  queued_ok (os_kernel o') (queues (os_conditions o') (os_locks o')) ->
  (forall t s0, t <> p_thread pcb -> space_at (os_kernel o) t = Some s0 -> space_at (os_kernel o') t = Some s0) ->
  (threadToBeDestroyed (os_kernel o') = Some (p_thread pcb) \/ threadToBeDestroyed (os_kernel o') = None) ->
  mem_ok (os_mem o') -> freed (u_frames (os_mem o)) (u_frames (os_mem o')) (us_frames us) ->
  os_spaces o' = delete s (os_spaces o) -> os_pcbs o' = delete p (os_pcbs o) -> pids_ok (os_procMgr o') ->
  (forall j, 0 <= j -> bm_bit (pm_bitmap (os_procMgr o')) j =
     negb (bool_decide (PID pcb = j)) && bm_bit (pm_bitmap (os_procMgr o)) j) ->
  pcbTable (os_procMgr o') = <[Z.to_nat (PID pcb) := Null]> (pcbTable (os_procMgr o)) ->
  os_conditions o' = <[Z.to_nat (PID pcb) := Some []]> (os_conditions o) ->
  os_locks o' = <[Z.to_nat (PID pcb) := Some (mkLock false None (q_remove (lk_queue l)).2)]> (os_locks o) ->
  os_ok o'.
Proof.
  intros [Hk Hrg Hm Hpi Hpr Hap [Htc Htl] Hwt Hqu] Hs Hp Hat Hq Hk' Hrg' Hq' Hkeep Hdead Hm' (_ & _ & Hfree) Hsp Hpc Hpi'
    Hbits Htab Hcond Hlock. simpl in Hfree. pose proof (pr_pid _ _ _ _ _ Hp) as Hpid.
  assert (forall s0 us0, os_spaces o' !! s0 = Some us0 -> s0 <> s /\ os_spaces o !! s0 = Some us0) as Hsub.
  { intros s0 us0. rewrite Hsp. intros [Hne ?]%lookup_delete_Some. split; [congruence|done]. }
  split; try done.
  - intros s0 us0 Hs0. destruct (Hsub s0 us0 Hs0) as [Hne Hold]. destruct (Hpr s0 us0 Hold) as (p0 & pcb0 & Hp0).
    destruct (processes_apart o s0 s us0 us p0 p pcb0 pcb Hp0 Hp Hne) as (Hth & Hpp & Hpd). exists p0, pcb0.
    destruct Hp0 as [Q1 Q2 Q3 Q4 Q5 Q6 Q7 Q8 Q9]. split; try done.
    + rewrite Hpc. by rewrite lookup_delete_ne.
    + by apply Hkeep.
    + destruct Hdead as [->| ->]; congruence.
    + rewrite Hbits by lia. rewrite bool_decide_eq_false_2 by congruence. done.
    + rewrite Htab. rewrite list_lookup_insert_ne by lia. done.
    + intros f Hf. pose proof (so_range _ _ Q8) as Hr. rewrite Forall_forall in Hr. specialize (Hr f Hf). simpl in Hr.
      rewrite Hfree by lia. rewrite bool_decide_eq_false_2 by (by apply (Hap s0 s us0 us)). by apply Q9.
  - intros s1 s2 us1 us2 f H1 H2 Hne. destruct (Hsub s1 us1 H1) as [_ H1'], (Hsub s2 us2 H2) as [_ H2']. by apply (Hap s1 s2).
  - rewrite Hcond, Hlock, !length_insert. done.
  - intros pid Hpr0. rewrite Hbits by lia. unfold at_pid. simpl. rewrite Hcond, Hlock.
    destruct (decide (PID pcb = pid)) as [<-|Hne]; [by rewrite bool_decide_eq_true_2|].
    rewrite bool_decide_eq_false_2 by done. simpl. intros Hb. rewrite !list_lookup_insert_ne by lia.
    destruct (Hwt pid Hpr0 Hb) as (c0 & l0 & Hat0). by exists c0, l0.
Qed.

(** What is left when the process has exited. *)
Record exited (o o' : osys) (s : positive) (us : UserSpace) (pcb : PCB) (status : Z) (woken : list positive) : Prop := {
  xt_ok : os_ok o';
  xt_spaces : os_spaces o' = delete s (os_spaces o);
  xt_frames : freed (u_frames (os_mem o)) (u_frames (os_mem o')) (us_frames us);
  xt_memory : u_memory (os_mem o') = u_memory (os_mem o);
  xt_pid : bm_bit (pm_bitmap (os_procMgr o')) (PID pcb) = false;
  xt_status : returnStatus (os_procMgr o') !! Z.to_nat (PID pcb) = Some status;
  xt_turn : match (readyList (os_kernel o)).*2 ++ woken with
            | [] => current o' = current o
            | next :: q => current o' = next /\ (readyList (os_kernel o')).*2 = q
            end }.

Lemma Finish_turn_cases k q :
  kernel_ok k -> status_of k (currentThread k) = Some RUNNING -> queued_ok k q ->
  exists b k', Finish k = Ok (b, k') /\ kernel_ok k' /\ queued_ok k' q /\
    (forall t s, t <> currentThread k -> space_at k t = Some s -> space_at k' t = Some s) /\ (regs_ok k -> regs_ok k') /\
    (threadToBeDestroyed k' = Some (currentThread k) \/ threadToBeDestroyed k' = None) /\
    match (readyList k).*2 with
    | [] => currentThread k' = currentThread k
    | next :: q => currentThread k' = next /\ (readyList k').*2 = q
    end.
Proof.
  intros Hk Hr Hq. destruct (Finish_turn k q Hk Hr Hq) as (b & k' & Hf & Hk' & Hq' & Hs & Hg & Hd & Ht).
  exists b, k'. split_and!; try done. destruct b.
  - by rewrite <- Ht.
  - rewrite Ht. simpl. destruct (Finish_effect k Hk Hr) as (k1 & Hf1 & [Hk1 Hst _ Hc _ Hrl] & _).
    rewrite Hf1 in Hf. unfold Sleep_dispatch in Hf. rewrite FindNextToRun_nil in Hf by congruence.
    injection Hf as <-. destruct k1; simpl in *; congruence.
Qed.

Lemma myExit_ok o s us p pcb c l status :
  os_ok o -> running o s us p pcb -> at_pid (waits_of o) (PID pcb) c l -> lock_available o l ->
  exists o', myExit o status = Ok o' /\ exited o o' s us pcb status (c.*2 ++ take 1 (lk_queue l).*2).
Proof.
  intros Hok Hrun Hat Hlock. pose proof Hok as [Hk Hrg Hm Hpi _ _ [Htc Htl] _ Hqu]. pose proof Hm as [Hmm Hmb Hmf Hms].
  pose proof Hrun as [Hs Hp Hc Hst Hpt]. pose proof (running_thread _ _ _ _ _ Hrun) as Hsp.
  pose proof (pr_pid _ _ _ _ _ Hp) as Hpid. set (pid := PID pcb) in *.
  destruct (queues_at _ _ _ _ Hat) as (r & Hq & Hq'). simpl in Hq, Hq'.
  destruct (AddrSpace_delete_frees (os_mem o) (us_space us) (us_frames us)) as (u' & Hdel & Hfree & Hmem & Hbuf);
    [apply Hp|done|done|].
  pose proof Hpi as [Pwf Psz Ppc [Pc Pl] Pst].
  destruct (BitMap_Clear_bit (pm_bitmap (os_procMgr o)) pid Pwf) as (bm & Hclr & Bwf & Bsz & Bbits); [lia|].
  set (k0 := with_klevel (os_kernel o) IntOff).
  set (stat := <[Z.to_nat pid := status]> (returnStatus (os_procMgr o))).
  set (w0 := mkWaits bm (pcbTable (os_procMgr o)) (os_conditions o) (os_locks o) stat).
  assert (waits_ok w0) as Hw0.
  { split; simpl; [done|congruence|]. unfold stat. by rewrite length_insert. }
  destruct (acquire_free k0 w0 pid c l Hw0 Hat Hlock) as (w1 & Hacq & Hw1).
  set (l1 := mkLock true (Some (currentThread k0)) (lk_queue l)) in *.
  assert (at_pid w1 pid c l1) as Hat1 by (rewrite Hw1; by eapply at_pid_set).
  assert (waits_ok w1) as Hw1ok.
  { rewrite Hw1. destruct Hw0 as [? ? (? & ? & ? & ?)]. split; simpl; [done|done|]. by rewrite !length_insert. }
  assert (queued_ok k0 (c ++ lk_queue l1 ++ r)) as Hqk by (by eapply queued_perm).
  destruct (clearPID_end_ok k0 w1 pid c l1 r Hk Hw1ok Hat1 eq_refl Hqk)
    as (k1 & w2 & Hend & Hk1 & Hw2 & Hbm & Hstat & Hready & Hat2 & Hq1 & Hc1 & Hst1 & Hpcbs & Hconds & Hlocks).
  pose proof (clearPID_end_keeps _ _ _ _ _ Hend) as [Ks Kr Kd _ _].
  assert (status_of k1 (currentThread k1) = Some RUNNING) as Hrun1.
  { rewrite Hc1, Hst1; [done|]. intros Hin. destruct Hqk as [_ Hb]. destruct (Hb (currentThread k0)) as [Hblk _].
    - rewrite fmap_app, elem_of_app in Hin. rewrite !fmap_app, !elem_of_app. simpl. tauto.
    - change (status_of k0 (currentThread k0)) with (status_of (os_kernel o) (current o)) in Hblk. congruence. }
  destruct (Finish_turn_cases k1 _ Hk1 Hrun1 Hq1) as (b & k2 & Hfin & Hk2 & Hq2 & Hs2 & Hg2 & Hd2 & Hturn).
  rewrite Hc1 in Hs2, Hd2, Hturn. simpl in Hready, Hd2, Hs2, Hturn.
  unfold myExit. rewrite (current_space_at _ s us) by done. cbn [mbind outcome_bind].
  rewrite (pcb_of_at _ us p pcb) by apply Hp. cbn [mbind outcome_bind]. fold pid.
  unfold exit_status. simpl. rewrite arr_set_in by lia. fold stat. simpl. rewrite Hdel. simpl.
  unfold clearPID_begin. simpl. rewrite Hclr. simpl. unfold exit_acquire.
  set (o0 := os_set_pcbs _ _). change (os_kernel o0) with k0. rewrite (acquire_current o0 k0 pid c l Hw0 Hat Hlock).
  change (waits_of o0) with w0. fold l1. rewrite <- Hw1. cbn [mbind outcome_bind]. rewrite waits_of_put, Hend. simpl. rewrite Hfin. simpl. eexists. split; [reflexivity|]. set (o' := put_waits _ _).
  rewrite Hw1 in Hpcbs, Hconds, Hlocks, Hbm, Hstat. simpl in Hpcbs, Hconds, Hlocks, Hbm, Hstat.
  rewrite list_insert_insert_eq in Hconds. rewrite list_insert_insert_eq in Hlocks.
  assert (os_ok o') as Hok'.
  { apply (process_removed o o' s us p pcb c l r); try done.
    - by apply Hg2, Kr.
    - change (queued_ok k2 (queues (wt_conditions w2) (wt_locks w2))). rewrite Hconds, Hlocks.
      eapply queued_perm; [symmetry; apply Hq'|]. done.
    - intros t s0 Ht Hsp0. apply Hs2; [rewrite Hc in Ht; exact Ht|]. by apply Ks.
    - change (threadToBeDestroyed k2 = Some (p_thread pcb) \/ threadToBeDestroyed k2 = None). rewrite Hc. done.
    - change (mem_ok u'). split; [by rewrite Hmem|by rewrite Hbuf|apply Hfree|]. rewrite <- Hms. apply Hfree.
    - change (pids_ok (os_procMgr o')). split; simpl; [by rewrite Hbm|rewrite Hbm; congruence| |done|].
      + rewrite Hpcbs. by rewrite length_insert.
      + rewrite Hstat. unfold stat. by rewrite length_insert.
    - intros j Hj. simpl. rewrite Hbm. by apply Bbits. }
  split; try done.
  - simpl. rewrite Hbm, Bbits by lia. by rewrite bool_decide_eq_true_2.
  - simpl. rewrite Hstat. apply list_lookup_insert_eq. lia.
  - rewrite Hready in Hturn. exact Hturn.
Qed.

(** ** Going on *)

(** A change of the registers, the interrupt level and the pending work. *)
Definition os_env (o : osys) (regs : list Z) (pt : option positive) (level : IntStatus) (pe : gmap positive pending) : osys :=
  os_set_pending (os_set_kernel o (with_klevel (with_cpu (os_kernel o) regs pt) level)) pe.

Lemma os_ok_env o regs pt level pe : os_ok o -> length regs = 40%nat -> os_ok (os_env o regs pt level pe).
Proof.
  intros [Hk [_ Hrg] Hm Hpi Hpr Hap Htab Hwt Hqu] Hl. split; try done.
  intros s us Hs. destruct (Hpr s us Hs) as (p & pcb & [? ? ? ? ? ? ? ? ?]). exists p, pcb. by split.
Qed.

Lemma os_ok_pending o pe : os_ok o -> os_ok (os_set_pending o pe).
Proof.
  intros [Hk Hrg Hm Hpi Hpr Hap Htab Hwt Hqu]. split; try done.
  intros s us Hs. destruct (Hpr s us Hs) as (p & pcb & [? ? ? ? ? ? ? ? ?]). exists p, pcb. by split.
Qed.

Lemma process_env o regs pt level pe s us p pcb :
  process o s us p pcb -> process (os_env o regs pt level pe) s us p pcb.
Proof. intros [? ? ? ? ? ? ? ? ?]. by split. Qed.

(** The registers with which a program starts. *)
Definition start_registers (sp : AddrSpace) : list Z :=
  <[29%nat := s32 (sp_numPages sp * PageSize - 16)]> (<[35%nat := 4]> (<[34%nat := 0]> (replicate 40 0))).

Lemma InitRegisters_regs sp m :
  length (registers m) = 40%nat -> InitRegisters sp m = Ok (with_registers m (start_registers sp)).
Proof.
  intros Hl. unfold InitRegisters. pose proof (zero_registers_ok 40 0 m eq_refl Hl) as Hz. change (Z.of_nat 0) with 0 in Hz.
  change (Z.to_nat NumTotalRegs) with 40%nat. rewrite Hz. cbn [mbind outcome_bind]. change (take 0 ?l ++ ?r) with r.
  rewrite WriteRegister_in by (done || (unfold PCReg; lia)). cbn [mbind outcome_bind].
  rewrite WriteRegister_in by (done || (unfold NextPCReg; lia)). cbn [mbind outcome_bind].
  rewrite WriteRegister_in by (done || (unfold StackReg; lia)). done.
Qed.

Lemma jumpPC_regs m pc : length (registers m) = 40%nat ->
  jumpPC m pc = Ok (with_registers m (<[35%nat := s32 (pc + 4)]> (<[34%nat := pc]> (registers m)))).
Proof.
  intros Hl. unfold jumpPC. rewrite setR_in by (done || (unfold PCReg; lia)). cbn [mbind outcome_bind].
  by rewrite setR_in by (simpl; rewrite ?length_insert; (done || (unfold NextPCReg; lia))).
Qed.

(** The registers after [incrementPC]. *)
Definition next_pc (regs : list Z) (pc next : Z) : list Z :=
  <[35%nat := s32 (next + 4)]> (<[34%nat := next]> (<[36%nat := pc]> regs)).

Lemma increment_os o pc next :
  length (k_registers (os_kernel o)) = 40%nat -> k_registers (os_kernel o) !! 34%nat = Some pc ->
  k_registers (os_kernel o) !! 35%nat = Some next ->
  on_machine o incrementPC = Ok (set_registers_os o (next_pc (k_registers (os_kernel o)) pc next)).
Proof.
  intros Hl Hpc Hn. apply on_machine_regs. intros m Hm. rewrite (incrementPC_ok m pc next) by congruence. by rewrite Hm.
Qed.

Section going_on.
Context (o : osys) (s : positive) (us : UserSpace) (p : positive) (pcb : PCB).
Hypothesis Hok : os_ok o.
Hypothesis Hs : os_spaces o !! s = Some us.
Hypothesis Hp : process o s us p pcb.
Hypothesis Hc : p_thread pcb = current o.
Hypothesis Hst : status_of (os_kernel o) (current o) = Some RUNNING.

Let rest := delete (current o) (os_pending o).
Let level := k_level (os_kernel o).

Lemma env_running regs pe l : length regs = 40%nat -> running (os_env o regs (Some s) l pe) s us p pcb.
Proof. intros Hl. split; try done. by apply process_env. Qed.

Lemma space_here : space_at (os_kernel o) (current o) = Some s.
Proof. rewrite <- Hc. apply Hp. Qed.

(** A new thread of [Exec]. *)
Lemma exec_starts : os_pending o !! current o = Some ExecBridge ->
  continue o = Ok (os_env o (start_registers (us_space us)) (Some s) level rest).
Proof.
  intros He. unfold continue. rewrite He. unfold execBridge.
  rewrite (current_space_at _ s us); [|exact space_here|done]. cbn [mbind outcome_bind].
  rewrite (on_machine_regs _ _ (start_registers (us_space us)))
    by (intros m Hm; apply InitRegisters_regs; rewrite Hm; apply (oo_regs _ Hok)). cbn [mbind outcome_bind].
  unfold rest, level, os_env, os_set_pending, os_set_kernel, set_registers_os, RestoreState, with_klevel, with_cpu. simpl. done.
Qed.

(** The child of a [Fork]. *)
Lemma fork_starts newPC : os_pending o !! current o = Some (ForkBridge newPC) ->
  continue o = Ok (os_env o (<[35%nat := s32 (newPC + 4)]> (<[34%nat := newPC]> (start_registers (us_space us))))
                     (Some s) level rest).
Proof.
  intros He. unfold continue. rewrite He. unfold forkBridge, execBridge.
  rewrite (current_space_at _ s us); [|exact space_here|done]. cbn [mbind outcome_bind].
  rewrite (on_machine_regs _ _ (start_registers (us_space us)))
    by (intros m Hm; apply InitRegisters_regs; rewrite Hm; apply (oo_regs _ Hok)). cbn [mbind outcome_bind].
  erewrite on_machine_regs; [|intros m Hm; simpl in Hm; rewrite jumpPC_regs by (by rewrite Hm); rewrite Hm; reflexivity].
  unfold rest, level, os_env, os_set_pending, os_set_kernel, set_registers_os, RestoreState, with_klevel, with_cpu. simpl. done.
Qed.

(** The parent of a [Fork]. *)
Lemma fork_returns newPID oldLevel pc next :
  os_pending o !! current o = Some (EndFork newPID oldLevel) -> k_pageTable (os_kernel o) = Some s ->
  k_registers (os_kernel o) !! 34%nat = Some pc -> k_registers (os_kernel o) !! 35%nat = Some next ->
  continue o = Ok (os_env o (next_pc (<[2%nat := newPID]> (k_registers (os_kernel o))) pc next) (Some s) oldLevel rest).
Proof.
  intros He Hpt Hpc Hn. destruct (oo_regs _ Hok) as [Hl _]. unfold continue. rewrite He.
  erewrite on_machine_regs; [|intros m Hm; simpl in Hm; rewrite WriteRegister_2 by (by rewrite Hm); rewrite Hm; reflexivity].
  cbn [mbind outcome_bind].
  rewrite (increment_os _ pc next); simpl; rewrite ?length_insert; rewrite ?list_lookup_insert_ne by lia; try done.
  rewrite <- Hpt. unfold rest, level, os_env, os_set_pending, os_set_kernel, set_registers_os, set_level, with_klevel, with_cpu.
  done.
Qed.
End going_on.

(** ** Join *)

(** The threads have gone on and the queues of process [pid] have changed. *)
Lemma os_ok_wait o k' pid c l c' l' r :
  os_ok o -> at_pid (waits_of o) pid c l -> queues (os_conditions o) (os_locks o) ≡ₚ c ++ lk_queue l ++ r ->
  kernel_ok k' -> keeps (os_kernel o) k' ->
  (threadToBeDestroyed k' = threadToBeDestroyed (os_kernel o) \/ threadToBeDestroyed k' = None) ->
  queued_ok k' (c' ++ lk_queue l' ++ r) ->
  os_ok (put_waits (os_set_kernel o k') (set_wait (waits_of o) pid c' l')).
Proof.
  intros [Hk Hrg Hm [P1 P2 P3 P4 P5] Hpr Hap [Htc Htl] Hwt Hqu] Hat Hq Hk' [Ks Kr] Hd Hq'. pose proof Hat as (Hp & Hc & Hl).
  simpl in Hc, Hl. split; simpl; try done; [by apply Kr|..].
  - intros s us Hs. destruct (Hpr s us Hs) as (p & pcb & [Q1 Q2 Q3 Q4 Q5 Q6 Q7 Q8 Q9]). exists p, pcb. split; try done.
    + by apply Ks.
    + simpl. destruct Hd as [->| ->]; done.
  - by rewrite !length_insert.
  - intros j Hj Hb. unfold at_pid. simpl. destruct (decide (j = pid)) as [->|Hne].
    + rewrite !list_lookup_insert_eq by lia. by eexists _, _.
    + rewrite !list_lookup_insert_ne by lia. destruct (Hwt j Hj Hb) as (c0 & l0 & Hat0). by exists c0, l0.
  - destruct (queues_at (waits_of o) pid c l Hat) as (r2 & Hq2 & Hq2'). simpl in Hq2, Hq2'.
    eapply queued_perm; [symmetry; apply Hq2'|]. eapply queued_perm; [|exact Hq']. do 2 f_equiv.
    rewrite Hq in Hq2. by do 2 apply Permutation_app_inv_l in Hq2.
Qed.

(** The call: the process sleeps among those that wait for [pid]. *)
Lemma join_ok o s us p pcb pid c l :
  os_ok o -> running o s us p pcb -> at_pid (waits_of o) pid c l -> lock_available o l ->
  let level := k_level (os_kernel o) in
  exists o', join_acquire o pid (lock_id o pid) level = Ok o' /\ os_ok o' /\ os_spaces o' = os_spaces o /\ os_mem o' = os_mem o /\
    at_pid (waits_of o') pid (q_append (current o) c) (mkLock false None (q_remove (lk_queue l)).2) /\
    status_of (os_kernel o') (current o) = Some BLOCKED /\
    os_pending o' = <[current o := JoinWait pid (lock_id o pid) level]> (os_pending o) /\
    lock_id o' pid = lock_id o pid.
Proof.
  intros Hok Hrun Hat Hav level. pose proof (waits_of_ok o Hok) as Hw.
  pose proof Hok as [Hk _ _ _ _ _ _ _ Hqu]. destruct (queues_at _ _ _ _ Hat) as (r & Hq & _). simpl in Hq.
  set (k0 := with_klevel (os_kernel o) IntOff).
  destruct (acquire_free k0 (waits_of o) pid c l Hw Hat Hav) as (w1 & Hacq & Hw1).
  set (l1 := mkLock true (Some (currentThread k0)) (lk_queue l)) in *.
  assert (at_pid w1 pid c l1) as Hat1 by (rewrite Hw1; by eapply at_pid_set).
  assert (with_klevel k0 level = os_kernel o) as Hk0 by (unfold k0, level; by destruct (os_kernel o)).
  destruct (Wait_effect (os_kernel o) c l1 (c ++ r) Hk) as (k' & Hwait & Hk' & Hq'); [|apply Hrun|done|].
  { eapply queued_perm; [|exact Hqu]. rewrite Hq. simpl. rewrite !app_assoc. f_equiv. apply Permutation_app_comm. }
  destruct (Wait_keeps _ _ _ _ _ _ Hwait) as [Hkp Hd]. set (l' := mkLock false None (q_remove (lk_queue l)).2).
  unfold join_acquire. fold k0. rewrite (acquire_current o k0 pid c l Hw Hat Hav). fold l1. rewrite <- Hw1.
  cbn [mbind outcome_bind]. rewrite waits_of_put, Hk0. unfold join_wait.
  destruct (at_pid_get _ _ _ _ Hat1) as [-> ->]. simpl. rewrite Hwait. simpl. eexists. split; [reflexivity|].
  assert (set_wait w1 pid (q_append (currentThread (os_kernel o)) c) l' =
          set_wait (waits_of o) pid (q_append (current o) c) l') as Hset.
  { rewrite Hw1. unfold set_wait. simpl. by rewrite !list_insert_insert_eq. }
  fold l'. rewrite Hset.
  assert (os_ok (put_waits (os_set_kernel o k') (set_wait (waits_of o) pid (q_append (current o) c) l'))) as Hok'.
  { apply (os_ok_wait o k' pid c l _ _ r); try done. eapply queued_perm; [|exact Hq']. simpl. unfold q_append.
    rewrite <- !app_assoc. rewrite (Permutation_app_swap_app _ c). f_equiv. rewrite app_assoc. apply Permutation_app_comm. }
  split; [|split_and!]; try done.
  - by apply os_ok_pending.
  - exact (at_pid_set _ _ _ _ (q_append (current o) c) l' Hw Hat).
  - simpl. apply (proj2 Hq'). unfold q_append. rewrite fmap_app. set_solver.
Qed.

Lemma keeps_all_keeps k k' : keeps_all k k' -> keeps k k'.
Proof. intros [Hs Hg _ _ _]. split; [intros t s _; apply Hs|done]. Qed.

(** [Release], whoever holds the lock. *)
Lemma Release_any k r l :
  kernel_ok k -> queued_ok k (lk_queue l ++ r) ->
  exists k' l', Lock_Release k l = Ok (k', l') /\ kernel_ok k' /\ queued_ok k' (lk_queue l' ++ r) /\
    currentThread k' = currentThread k /\ k_level k' = k_level k /\
    (forall t, t ∉ (lk_queue l).*2 -> status_of k' t = status_of k t).
Proof.
  intros Hk Hq. destruct (decide (owner l = Some (currentThread k))) as [Ho|Ho].
  - destruct (Release_effect k r l Hk Hq Ho) as (k' & Hrel & Hk' & Hq' & _ & Hc & Hlv & Hst). by eexists k', _.
  - exists k, l. unfold Lock_Release, isHeldByCurrentThread. by rewrite bool_decide_eq_false_2.
Qed.

(** The end of the call: the lock of the table is released if it is held, and the program goes on. *)
Lemma join_release_ok o s us p pcb pid c l level pc next :
  os_ok o -> running o s us p pcb -> at_pid (waits_of o) pid c l ->
  k_registers (os_kernel o) !! 34%nat = Some pc -> k_registers (os_kernel o) !! 35%nat = Some next ->
  exists o', join_release o (with_klevel (os_kernel o) level) pid = Ok o' /\ os_ok o' /\ running o' s us p pcb /\
    k_registers (os_kernel o') = next_pc (k_registers (os_kernel o)) pc next /\
    k_level (os_kernel o') = level /\ os_mem o' = os_mem o /\ os_pending o' = os_pending o.
Proof.
  intros Hok Hrun Hat Hpc Hn. pose proof (oo_regs _ Hok) as [Hl _]. pose proof Hrun as [Hs Hp Hc Hst Hpt].
  pose proof Hok as [Hk _ _ Hpi _ _ _ _ Hqu]. destruct (queues_at _ _ _ _ Hat) as (r & Hq & _). simpl in Hq.
  set (k1 := with_klevel (os_kernel o) level).
  destruct (Release_any k1 (c ++ r) l) as (k' & l' & Hrel & Hk' & Hq' & Hc' & Hlv & Hst'); [done|..].
  { eapply queued_perm; [|exact Hqu]. rewrite Hq. rewrite !app_assoc. f_equiv. apply Permutation_app_comm. }
  pose proof (Release_keeps _ _ _ _ Hrel) as Hkp. destruct (ka_cpu _ _ Hkp) as [Hcr Hcp].
  destruct (lookup_lt_is_Some_2 (returnStatus (os_procMgr o)) (Z.to_nat pid)) as [st Hstat].
  { rewrite (pi_status _ Hpi). destruct Hat as [? _]. lia. }
  unfold join_release, join_end. destruct (at_pid_get _ _ _ _ Hat) as [-> ->]. cbn [mbind outcome_bind]. rewrite Hrel. cbn [mbind outcome_bind].
  rewrite (proj2 (arr_get_ok _ pid st)) by (split; [by destruct Hat as [? _]; lia|done]). cbn [mbind outcome_bind].
  set (o1 := put_waits (os_set_kernel o k') (set_wait (waits_of o) pid c l')).
  assert (keeps_all (os_kernel o) k') as Hko by (destruct Hkp as [? ? ? ? [? ?]]; by split).
  assert (os_ok o1) as Hok1.
  { apply (os_ok_wait o k' pid c l c l' r); try done; [by apply keeps_all_keeps|left; apply Hko|].
    eapply queued_perm; [|exact Hq']. rewrite !app_assoc. f_equiv. apply Permutation_app_comm. }
  rewrite (increment_os o1 pc next) by (simpl; rewrite Hcr; done). eexists. split; [reflexivity|].
  change (k_registers (os_kernel o1)) with (k_registers k'). rewrite Hcr. simpl k_registers.
  assert (set_registers_os o1 (next_pc (k_registers (os_kernel o)) pc next) =
          os_env o1 (next_pc (k_registers (os_kernel o)) pc next) (Some s) level (os_pending o)) as ->.
  { unfold set_registers_os, os_env, os_set_pending, os_set_kernel, with_klevel, with_cpu. simpl. rewrite Hlv, Hcp. simpl.
    by rewrite Hpt. }
  assert (length (next_pc (k_registers (os_kernel o)) pc next) = 40%nat) as Hln by (unfold next_pc; by rewrite !length_insert).
  split; [by apply os_ok_env|]. split; [|by simpl].
  assert (currentThread k' = current o) as Hcur by (rewrite Hc'; done).
  split; try done; [|by simpl; rewrite Hc, <- Hcur| ].
  - apply process_env. destruct Hp as [Q1 Q2 Q3 Q4 Q5 Q6 Q7 Q8 Q9]. split; try done; [by apply (ka_space _ _ Hko)|].
    simpl. by rewrite (ka_dead _ _ Hko).
  - simpl. unfold current. simpl. rewrite Hcur. change (status_of (with_klevel (with_cpu k' _ _) _)) with (status_of k').
    rewrite Hst'; [done|]. intros Hin. destruct Hqu as [_ Hb]. destruct (Hb (current o)) as [Hblk _]; [|congruence].
    rewrite Hq, !fmap_app, !elem_of_app. auto.
Qed.

(** The lock [l] is the object [lock] for which a thread waits: the one in the table of locks
    at [pid], or one that was there before. *)
Definition captured (o : osys) (pid : Z) (lock : positive) (l : Lock) : Prop :=
  if decide (lock = lock_id o pid) then os_locks o !! Z.to_nat pid = Some (Some l)
  else lo_detached (os_objects o) !! lock = Some l.

(** A process in a state with the same threads, memory and tables. *)
Lemma process_same o o' s us p pcb :
  process o s us p pcb -> os_kernel o' = os_kernel o -> os_pcbs o' = os_pcbs o -> os_mem o' = os_mem o ->
  pm_bitmap (os_procMgr o') = pm_bitmap (os_procMgr o) -> pcbTable (os_procMgr o') = pcbTable (os_procMgr o) ->
  process o' s us p pcb.
Proof. intros [Q1 Q2 Q3 Q4 Q5 Q6 Q7 Q8 Q9] Ek Ep Em Eb Et. split; rewrite ?Ek, ?Ep, ?Em, ?Eb, ?Et; done. Qed.

(** [Acquire] of an object that is free, or that the thread holds. *)
Lemma acquire_captured o s us p pcb pid lock c l lc k :
  os_ok o -> running o s us p pcb -> at_pid (waits_of o) pid c l -> captured o pid lock lc -> lock_available o lc ->
  currentThread k = current o ->
  exists o1 l1, acquire_object o k pid lock = Ok (true, k, o1) /\ os_ok o1 /\ running o1 s us p pcb /\
    at_pid (waits_of o1) pid c l1 /\ os_kernel o1 = os_kernel o /\ os_mem o1 = os_mem o /\ os_pending o1 = os_pending o.
Proof.
  intros Hok Hrun Hat Hcap Hav Hk. unfold captured in Hcap. pose proof Hrun as [Hs Hp Hc Hst Hpt].
  pose proof Hok as [Kk Hrg Hm Hpi Hpr Hap Htab Hwt Hqu].
  destruct (decide (lock = lock_id o pid)) as [->|Hne].
  - assert (lc = l) as -> by (destruct Hat as (_ & _ & Hl); simpl in Hl; congruence).
    destruct (queues_at _ _ _ _ Hat) as (r & Hq & _). simpl in Hq.
    rewrite (acquire_current o k pid c l) by (done || by apply waits_of_ok || by rewrite Hk).
    set (l1 := mkLock true (Some (currentThread k)) (lk_queue l)).
    assert (os_ok (put_waits (os_set_kernel o (os_kernel o)) (set_wait (waits_of o) pid c l1))) as Hok1.
    { apply (os_ok_wait o (os_kernel o) pid c l c l1 r); try done; [by left|].
      by eapply queued_perm. }
    exists (put_waits o (set_wait (waits_of o) pid c l1)), l1. split; [done|].
    split; [by destruct o|]. split; [|split; [|done]].
    + split; try done. by apply (process_same o).
    + rewrite waits_of_put. apply (at_pid_set _ _ c l); [by apply waits_of_ok|done].
  - unfold acquire_object. rewrite decide_False by done. rewrite Hcap. cbn [mbind outcome_bind deref].
    assert (Lock_Acquire_loop k lc = Ok (true, k, mkLock true (Some (currentThread k)) (lk_queue lc))) as ->.
    { unfold Lock_Acquire_loop, isHeldByCurrentThread. destruct Hav as [->|Ho]; [done|].
      rewrite bool_decide_eq_true_2 by (by rewrite Hk). by rewrite andb_false_r. }
    cbn [mbind outcome_bind]. eexists _, l. split; [done|]. split_and!; try done.
    + split; try done. intros s0 us0 Hs0. destruct (Hpr s0 us0 Hs0) as (p0 & pcb0 & Hp0). exists p0, pcb0. by apply (process_same o).
    + split; try done. by apply (process_same o).
Qed.

(** When the lock for which it waits can be taken, the thread goes on behind the call. *)
Lemma join_again_ok o s us p pcb pid lock c l lc level pc next :
  os_ok o -> running o s us p pcb -> at_pid (waits_of o) pid c l -> captured o pid lock lc -> lock_available o lc ->
  k_registers (os_kernel o) !! 34%nat = Some pc -> k_registers (os_kernel o) !! 35%nat = Some next ->
  exists o', join_again o pid lock level = Ok o' /\ os_ok o' /\ running o' s us p pcb /\
    k_registers (os_kernel o') = next_pc (k_registers (os_kernel o)) pc next /\
    k_level (os_kernel o') = level /\ os_mem o' = os_mem o /\ os_pending o' = os_pending o.
Proof.
  intros Hok Hrun Hat Hcap Hav Hpc Hn.
  destruct (acquire_captured o s us p pcb pid lock c l lc (with_klevel (os_kernel o) IntOff))
    as (o1 & l1 & Hacq & Hok1 & Hrun1 & Hat1 & Hk1 & Hm1 & Hpe1); try done.
  destruct (join_release_ok o1 s us p pcb pid c l1 level pc next) as (o' & Hj & Hok' & Hrun' & Hr' & Hl' & Hm' & Hpe');
    try done; [by rewrite Hk1|by rewrite Hk1|].
  exists o'. split.
  - unfold join_again. rewrite Hacq. cbn [mbind outcome_bind]. rewrite Hk1 in Hj. exact Hj.
  - rewrite Hk1 in Hr'. split_and!; congruence || done.
Qed.

(** ** Yield *)

(** The threads have gone on, and nothing else has changed. *)
Lemma os_ok_kernel o k' :
  os_ok o -> kernel_ok k' -> keeps (os_kernel o) k' ->
  (threadToBeDestroyed k' = threadToBeDestroyed (os_kernel o) \/ threadToBeDestroyed k' = None) ->
  queued_ok k' (queues (os_conditions o) (os_locks o)) ->
  os_ok (os_set_kernel o k') /\ forall s us p pcb, process o s us p pcb -> process (os_set_kernel o k') s us p pcb.
Proof.
  intros [Hk Hrg Hm Hpi Hpr Hap Htab Hwt Hqu] Hk' [Ks Kr] Hd Hq'.
  assert (forall s us p pcb, process o s us p pcb -> process (os_set_kernel o k') s us p pcb) as Hproc.
  { intros s us p pcb [Q1 Q2 Q3 Q4 Q5 Q6 Q7 Q8 Q9]. split; try done; [by apply Ks|].
    simpl. destruct Hd as [->| ->]; done. }
  split; [|done]. split; try done; [by apply Kr|]. intros s us Hs. destruct (Hpr s us Hs) as (p & pcb & Hp). eauto.
Qed.

(** A thread that yielded gets the CPU with the registers that it had. *)
Lemma Yield_returns k k' next q s regs level :
  kernel_ok k -> status_of k (currentThread k) = Some RUNNING -> (readyList k).*2 = next :: q ->
  space_at k next = Some s -> yielded k next regs level -> Yield k = Ok k' ->
  k_registers k' = regs /\ k_pageTable k' = Some s /\ k_level k' = level.
Proof.
  intros Hk Hrun Hr Hsp (nth & Hn & Hregs & Hfr) Hy. destruct (status_some _ _ _ Hrun) as (th & Hth & Hst).
  destruct (readyList k) as [|[z n] q'] eqn:Hrl; [done|]. simpl in Hr. injection Hr as -> _.
  destruct (Yield_ok k z next q' th nth Hk Hth Hst Hrl Hn) as (k1 & Hy1 & _ & _ & _ & _ & _ & _ & _ & Hcpu & Hl).
  rewrite Hy in Hy1. injection Hy1 as <-. unfold space_at in Hsp. rewrite Hn in Hsp. simpl in Hsp.
  rewrite Hfr in Hl. rewrite Hsp in Hcpu. unfold never_ran in Hcpu. rewrite Hfr in Hcpu. injection Hcpu as -> ->. by rewrite Hregs.
Qed.

Lemma os_Yield_ok o s us p pcb rest :
  os_ok o -> running o s us p pcb ->
  exists k', Yield (os_kernel o) = Ok k' /\
    os_Yield o rest = Ok (pend (os_set_kernel o k') (current o) rest) /\
    os_ok (pend (os_set_kernel o k') (current o) rest) /\
    (forall s us p pcb, process o s us p pcb -> process (pend (os_set_kernel o k') (current o) rest) s us p pcb) /\
    currentThread k' :: (readyList k').*2 = (readyList (os_kernel o)).*2 ++ [current o] /\
    status_of k' (currentThread k') = Some RUNNING.
Proof.
  intros Hok Hrun. pose proof Hrun as [Hs Hp Hc Hst Hpt].
  destruct (Yield_turn (os_kernel o) _ (oo_kernel _ Hok) Hst (oo_queues _ Hok)) as (k' & Hy & Hk' & Hq' & Hkp & Hd & Hturn).
  destruct (os_ok_kernel o k' Hok Hk' Hkp Hd Hq') as [Hok' Hproc]. exists k'.
  split; [done|]. split; [unfold os_Yield; simpl; by rewrite Hy|]. split; [by apply os_ok_pending|].
  split; [|split; [done|]].
  - intros s0 us0 p0 pcb0 H0. destruct (Hproc _ _ _ _ H0) as [Q1 Q2 Q3 Q4 Q5 Q6 Q7 Q8 Q9]. by split.
  - by eapply Yield_runs; [apply Hok|..].
Qed.
