(* ===== verification/Calls.v ===== *)
(** * The system calls on processes, from the registers of the caller to its return

    The program puts the number of the call into register 2 and its arguments into the
    registers 4 to 6; [ExceptionHandler] (Kernel.v) takes them from there. The theorems
    follow Fork, Exec, Exit, Join and Yield from there on, on top of the invariant of
    Lifecycle.v. *)

From stdpp Require Import prelude numbers list gmap.
From S2P Require Import Prelude Params CList BitMap Mips Machine Interrupt Threads Synch FileHdr Directory.
From S2P Require Import OpenFile FileSys AddrSpace Process Join Syscall Kernel Lifecycle.

Open Scope Z_scope.

Section calls.
Context `{FreshLaws} (garbage : list Z) (garbage_owner : option positive) (slack : Z -> Z) (fuel : nat).

(** The program calls [type] with the first argument [arg1]. *)
Definition calls (o : osys) (type arg1 : Z) : Prop :=
  k_registers (os_kernel o) !! 2%nat = Some type /\ k_registers (os_kernel o) !! 4%nat = Some arg1.

Lemma ReadRegister_in m r v : 0 <= r < 40 -> registers m !! Z.to_nat r = Some v -> ReadRegister m r = Ok v.
Proof.
  intros Hr Hv. unfold ReadRegister, getR, NumTotalRegs. rewrite ASSERT_true by (apply andb_true_iff; lia). simpl.
  apply arr_get_ok. split; [lia|done].
Qed.

Lemma handler_reads o s us p pcb type arg1 which :
  os_ok o -> running o s us p pcb -> calls o type arg1 -> which <> PageFaultException ->
  exists arg2 arg3, ExceptionHandler garbage garbage_owner slack fuel o which =
    match which with
    | SyscallException => syscall garbage garbage_owner slack fuel o type arg1 arg2 arg3
    | _ => AssertFail
    end.
Proof.
  intros Hok Hrun [H2 H4] Hw. destruct (oo_regs _ Hok) as [Hl _]. destruct (machine_of_parts o) as [Hr _].
  destruct (lookup_lt_is_Some_2 (k_registers (os_kernel o)) 5) as [arg2 H5]; [lia|].
  destruct (lookup_lt_is_Some_2 (k_registers (os_kernel o)) 6) as [arg3 H6]; [lia|].
  exists arg2, arg3. unfold ExceptionHandler.
  rewrite (ReadRegister_in _ 2 type), (ReadRegister_in _ 4 arg1), (ReadRegister_in _ 5 arg2), (ReadRegister_in _ 6 arg3)
    by (lia || by rewrite Hr). cbn [mbind outcome_bind].
  rewrite (running_space _ _ _ _ _ Hrun). cbn [mbind outcome_bind]. rewrite (process_pcb _ _ _ _ _ (ru_process _ _ _ _ _ Hrun)).
  by destruct which.
Qed.

Lemma handler_calls o s us p pcb type arg1 :
  os_ok o -> running o s us p pcb -> calls o type arg1 ->
  exists arg2 arg3, ExceptionHandler garbage garbage_owner slack fuel o SyscallException =
    syscall garbage garbage_owner slack fuel o type arg1 arg2 arg3.
Proof. intros Hok Hrun Hcall. by apply (handler_reads o s us p pcb type arg1 SyscallException Hok Hrun Hcall). Qed.

(** The store of [getString] past its block, in an Exec call. *)
Lemma exec_overrun o s us p pcb va name a2 a3 :
  os_ok o -> running o s us p pcb -> string_at (space_bytes (u_memory (os_mem o)) (us_frames us)) va name ->
  slack (Z.of_nat (length name) + 1) <= 0 -> syscall garbage garbage_owner slack fuel o SC_Exec va a2 a3 = Undef.
Proof.
  intros Hok Hrun Hname Hov. pose proof Hrun as [Hs Hp Hc Hst Hpt]. unfold syscall. simpl. unfold myExec.
  rewrite (current_space_at _ s us) by (done || exact (running_thread _ _ _ _ _ Hrun)). cbn [mbind outcome_bind].
  rewrite (pcb_of_at _ us p pcb) by apply Hp. cbn [mbind outcome_bind].
  by rewrite (getString_overrun slack (us_space us) (us_frames us) _ va name) by (done || apply Hp || apply (oo_mem _ Hok)).
Qed.

(** A new thread, which has the CPU for the first time. *)
Lemma forked_first o o1 s us p pcb regs level :
  forked o o1 s us p pcb regs level -> readyList (os_kernel o) = [] ->
  p_thread pcb = current o1 /\ (readyList (os_kernel o1)).*2 = [current o] /\ os_spaces o1 !! s = Some us.
Proof.
  intros [_ [_ Hs] _ _ _ _ _ _ Ht] Hr. rewrite Hr in Ht. simpl in Ht. injection Ht as -> Hq. rewrite Hs. by rewrite lookup_insert_eq.
Qed.

(** When the new process gives up the CPU, the caller goes on where it was. *)
Lemma caller_back o o1 s us p pcb s' us' p' pcb' regs level regs' pe :
  os_ok o1 -> process o1 s us p pcb -> os_spaces o1 !! s = Some us -> p_thread pcb = current o ->
  running (os_env o1 regs' (Some s') level pe) s' us' p' pcb' -> length regs' = 40%nat ->
  (readyList (os_kernel o1)).*2 = [current o] ->
  forall l0, yielded (os_kernel o1) (current o) regs l0 ->
  exists o3, os_Yield (os_env o1 regs' (Some s') level pe) EndYield = Ok o3 /\ os_ok o3 /\ process o3 s us p pcb /\
    os_spaces o3 = os_spaces o1 /\ os_mem o3 = os_mem o1 /\ current o3 = current o /\
    status_of (os_kernel o3) (current o3) = Some RUNNING /\ k_registers (os_kernel o3) = regs /\
    k_pageTable (os_kernel o3) = Some s /\ os_pending o3 = <[current o1 := EndYield]> pe.
Proof.
  intros Hok1 Hp1 Hs1 Hth Hrun2 Hl Hr1 l0 Hyd. set (o2 := os_env o1 regs' (Some s') level pe) in *.
  assert (os_ok o2) as Hok2 by (by apply os_ok_env).
  destruct (os_Yield_ok o2 s' us' p' pcb' EndYield Hok2 Hrun2) as (k3 & Hy & Ho3 & Hok3 & Hkeep & Hturn & Hst3).
  change (readyList (os_kernel o2)) with (readyList (os_kernel o1)) in Hturn. rewrite Hr1 in Hturn. injection Hturn as Hc3 _.
  assert (space_at (os_kernel o2) (current o) = Some s) as Hsp by (rewrite <- Hth; apply Hp1).
  destruct (Yield_returns (os_kernel o2) k3 (current o) [] s regs l0) as (Hregs & Hpt & _); try done;
    [apply Hok2|apply Hrun2|].
  eexists. split; [exact Ho3|]. split; [done|]. split; [apply Hkeep; by apply process_env|]. by split_and!.
Qed.
End calls.

(** ** A system with two processes *)

(** Process 0 runs in the frames 0, 2 and 5; process 1 yielded, in the frame 7. A file of the
    name [ab] holds the program [demo_exe]. In the memory of process 0 this name is at address 0, and at
    the program counter are [ADDI r1, r0, 5] and [SB r1, 0(r4)]. *)
Definition demo_regs (type arg1 : Z) : list Z := <[35%nat := 104]> (<[34%nat := 100]> (<[4%nat := arg1]> (<[2%nat := type]> (replicate 40 0)))).

Definition demo_threads : gmap positive Thread :=
  <[2%positive := mkThread READY (Some STACK_FENCEPOST) (InYield IntOn) (replicate 40 9) (Some 2%positive)]>
    {[ 1%positive := mkThread RUNNING (Some STACK_FENCEPOST) AtThreadRoot (replicate 40 0) (Some 1%positive) ]}.

Definition demo_fs : FileSystem := mkFS (mkFile map_header 0 0) (mkFile (small_header 84 1 [6; 0; 0; 0]) 0 1).
Definition demo_dir_data : list Z :=
  word_bytes 4 ++ table_bytes (H := zero_fresh) (mkEntry true 4 ([97; 98] ++ replicate 8 0) :: replicate 3 zero_entry)
  ++ replicate 44 0.
Definition demo_program : list Z := words_to_bytes demo_noff ++ [11; 12; 13; 14; 15; 16; 17; 18] ++ replicate 80 0.
Definition demo_os_disk : list (list Z) :=
  demo_disk 8 [(6%nat, demo_dir_data); (5%nat, demo_program); (4%nat, words_to_bytes (header_words (hdr demo_exe)))].

Definition demo_us : UserSpace := mkUS demo_space (Some 1%positive).
Definition demo_pcb : PCB := mkPCB 0 (-1) 1 (replicate 20 Uninit) (mkBitMap 20 1 [0]).

(** [alone]: thread 2 is not ready but asleep, waiting for process 0. *)
Definition demo_os (alone : bool) (type arg1 : Z) : osys :=
  mkOs
    (mkKernel (if alone then <[2%positive := mkThread BLOCKED (Some STACK_FENCEPOST) InSleep (replicate 40 9) (Some 2%positive)]> demo_threads
               else demo_threads)
       (if alone then [] else [(0, 2%positive)]) 1 None IntOn (demo_regs type arg1) (Some 1%positive))
    (mkUmem ([97; 98; 0] ++ replicate 97 0 ++ [5; 0; 1; 32; 0; 0; 129; 160] ++ replicate 3988 0) (mkBitMap 32 1 [165])
       (replicate 128 0))
    (<[2%positive := mkUS (mkSpace 1 (entries_for 0 [7])) (Some 2%positive)]> {[ 1%positive := demo_us ]})
    (<[2%positive := mkPCB 1 0 2 (replicate 20 Uninit) (mkBitMap 20 1 [0])]> {[ 1%positive := demo_pcb ]})
    (mkPM (mkBitMap 10 1 [3]) (Ptr 1 :: Ptr 2 :: replicate 8 Uninit) (replicate 10 true) (replicate 10 true)
       (replicate 20 false) (replicate 10 0) (replicate 20 Uninit) (mkBitMap 20 1 [3]) ∅)
    (Some (if alone then [(0, 2%positive)] else []) :: Some [] :: replicate 8 None)
    (replicate 2 (Some (mkLock false None [])) ++ replicate 8 None)
    (mkObjects {[ 0 := 1%positive; 1 := 2%positive ]} ∅)
    (if alone then {[ 2%positive := JoinWait 0 1 IntOn ]} else {[ 2%positive := EndYield ]})
    ∅ ∅ demo_fs demo_os_disk [] [].

Lemma demo_os_kernel alone type arg1 : kernel_ok (os_kernel (demo_os alone type arg1)).
Proof.
  assert (forall t, status_of (os_kernel (demo_os alone type arg1)) t =
    upd (upd (fun _ => None) 1 (Some RUNNING)) 2 (Some (if alone then BLOCKED else READY)) t)%positive as Hst.
  { intros t. unfold status_of, upd. destruct alone; simpl; unfold demo_threads;
      repeat (destruct (decide (t = _)) as [->|]; [by vm_compute|rewrite ?lookup_insert_ne by done]);
      by rewrite lookup_singleton_ne. }
  split; [|destruct alone; repeat apply map_Forall_insert_2; try done; apply map_Forall_empty].
  eapply sched_ok_ext; [intros t; symmetry; apply Hst|]. unfold upd. split; simpl.
  - by exists RUNNING.
  - intros t. destruct alone; by repeat case_decide.
  - intros t. destruct alone; simpl; rewrite ?elem_of_cons, ?elem_of_nil; repeat case_decide; subst; intuition congruence.
  - destruct alone; [constructor|apply NoDup_singleton].
  - done.
Qed.

Lemma demo_os_process alone type arg1 s us : os_spaces (demo_os alone type arg1) !! s = Some us ->
  exists p pcb, process (demo_os alone type arg1) s us p pcb.
Proof.
  simpl. intros [[<- <-]|[_ [<- <-]%lookup_singleton_Some]]%lookup_insert_Some.
  - eexists 2%positive, _. split; try done; [by destruct alone| | ].
    + split; try done; [apply entries_for_valid|by repeat constructor|apply NoDup_singleton].
    + unfold us_frames. simpl. intros f ->%list_elem_of_singleton. reflexivity.
  - eexists 1%positive, demo_pcb. split; try done; [by destruct alone|exact demo_space_on|].
    unfold us_frames. simpl. intros f. rewrite !elem_of_cons, elem_of_nil. intros [-> |[-> |[-> |[]]]]; reflexivity.
Qed.

Lemma demo_os_ok alone type arg1 : os_ok (demo_os alone type arg1).
Proof.
  split.
  - apply demo_os_kernel.
  - split; [reflexivity|]. destruct alone; repeat apply map_Forall_insert_2; try done; apply map_Forall_empty.
  - split; [done|done| |done]. split; [done|]. split; [done|]. split; [done|]. forall_lia.
  - split; try done. split; [done|]. split; [done|]. split; [done|]. forall_lia.
  - apply demo_os_process.
  - simpl. intros s s' us us' f.
    intros [[<- <-]|[_ [<- <-]%lookup_singleton_Some]]%lookup_insert_Some
      [[<- <-]|[_ [<- <-]%lookup_singleton_Some]]%lookup_insert_Some; try done;
    unfold us_frames; simpl; intros _; rewrite !elem_of_cons, !elem_of_nil; lia.
  - done.
  - intros pid Hpid Hb. assert (pid = 0 \/ pid = 1) as [-> | ->].
    { assert (forallb (fun j => negb (bm_bit (mkBitMap 10 1 [3]) j)) (seqZ 2 8) = true) as Hall by (vm_compute; reflexivity).
      destruct (decide (pid < 2)); [lia|]. rewrite forallb_forall in Hall. specialize (Hall pid).
      rewrite <- list_elem_of_In, elem_of_seqZ in Hall. simpl in Hb. rewrite Hb in Hall. by specialize (Hall ltac:(lia)). }
    all: by eexists _, _; split.
  - destruct alone; simpl.
    + split; [apply NoDup_singleton|]. intros t. simpl. intros ->%list_elem_of_singleton. done.
    + split; [constructor|]. intros t. by rewrite elem_of_nil.
Qed.

Lemma demo_os_running alone type arg1 : running (demo_os alone type arg1) 1 demo_us 1 demo_pcb.
Proof.
  destruct (demo_os_process alone type arg1 1 demo_us) as (p & pcb & Hp); [by vm_compute|].
  pose proof (pr_pcb _ _ _ _ _ Hp) as E1. simpl in E1. injection E1 as <-.
  pose proof (pr_block _ _ _ _ _ Hp) as E2. simpl in E2. rewrite lookup_insert_ne, lookup_singleton_eq in E2 by done.
  injection E2 as <-. split; try done; by destruct alone.
Qed.

Lemma demo_os_calls alone type arg1 : calls (demo_os alone type arg1) type arg1.
Proof. by split. Qed.

Lemma demo_program_ok :
  Open (H := zero_fresh) demo_fs demo_os_disk [97; 98] = Ok (Some demo_exe) /\
  program demo_exe demo_os_disk [5] demo_noff (mkNoff NOFFMAGIC (mkSegment 0 40 8) (mkSegment 0 0 0) (mkSegment 0 0 0)) 9.
Proof.
  split; [vm_compute; reflexivity|].
  destruct (demo_sectors_ok 8 [(6%nat, demo_dir_data); (5%nat, demo_program); (4%nat, words_to_bytes (header_words (hdr demo_exe)))])
    as [Hok Hl]; [by repeat constructor|]. fold demo_os_disk in Hok, Hl.
  split; try done.
  - split; try done; [|apply NoDup_singleton]. apply mapped_direct; [simpl; lia|done|]. rewrite Hl. repeat constructor; simpl; lia.
  - apply (bool_decide_unpack _). vm_compute. exact I.
Qed.

(** ** Properties *)

(** C13. A Fork call with free frames and a free process identifier: the new process has a
    thread, an address space and an identifier of its own and the caller as its parent. Its
    memory is a copy of the caller's, in frames that no process has; no process loses a
    byte. Its thread is at the end of the ready list with the work to start at the address
    that was the argument, then comes the caller, with its registers saved and the work to
    return the identifier, and the CPU is with the first of them all. (The comment of
    syscall.h announces a thread in the same address space, and no result.) *)
Theorem Fork_call_correct `{FreshLaws} garbage garbage_owner slack fuel o s us p pcb newPC :
  length garbage = 40%nat -> os_ok o -> running o s us p pcb -> calls o SC_Fork newPC ->
  sp_numPages (us_space us) <= ba_free (u_frames (os_mem o)) -> 0 < ba_free (pm_bitmap (os_procMgr o)) ->
  exists o' s' us' p' pcb', ExceptionHandler garbage garbage_owner slack fuel o SyscallException = Ok (Goes o') /\
    forked o o' s' us' p' pcb' (k_registers (os_kernel o)) IntOff /\
    parentPID pcb' = PID pcb /\ sp_numPages (us_space us') = sp_numPages (us_space us) /\
    space_bytes (u_memory (os_mem o')) (us_frames us') = space_bytes (u_memory (os_mem o)) (us_frames us) /\
    os_pending o' = <[current o := EndFork (PID pcb') (k_level (os_kernel o))]>
                      (<[p_thread pcb' := ForkBridge newPC]> (os_pending o)).
Proof.
  intros Hg Hok Hrun Hcall Hfree Hpid.
  destruct (handler_calls garbage garbage_owner slack fuel o s us p pcb _ _ Hok Hrun Hcall) as (a2 & a3 & ->).
  destruct (myFork_ok garbage garbage_owner Hg o s us p pcb newPC Hok Hrun Hfree Hpid) as (o' & s' & us' & p' & pcb' & Hf & Hrest).
  exists o', s', us', p', pcb'. split; [|done]. unfold syscall. simpl. by rewrite Hf.
Qed.

Lemma Fork_call_correct_witness :
  let o := demo_os false SC_Fork 48 in
  exists o' s' us' p' pcb', ExceptionHandler (H := zero_fresh) (replicate 40 0) None demo_slack 0 o SyscallException = Ok (Goes o') /\
    forked o o' s' us' p' pcb' (demo_regs SC_Fork 48) IntOff /\ parentPID pcb' = 0.
Proof.
  intros o. destruct (Fork_call_correct (H := zero_fresh) (H0 := zero_fresh_laws) (replicate 40 0) None demo_slack 0 o 1 demo_us 1
    demo_pcb 48) as (o' & s' & us' & p' & pcb' & Hrun & Hf & Hp & _).
  - reflexivity.
  - apply demo_os_ok.
  - apply demo_os_running.
  - apply demo_os_calls.
  - vm_compute. discriminate.
  - reflexivity.
  - exists o', s', us', p', pcb'. split; [exact Hrun|]. split; [exact Hf|exact Hp].
Defined.

(** C4. Fork returns twice, when no other thread is ready and there are frames and an identifier
    for the new process. First the new process runs: it is in user mode in its own address
    space, a copy of the caller's and not, as syscall.h says, the same one, with the program counter
    at the argument of the call, the stack pointer at the end of the space and all other
    registers zero. When it yields, the caller is back in user mode in its own, unchanged
    address space, behind the call, with the identifier of the new process in register 2,
    its other registers and its interrupt level as before. *)
Theorem fork_returns_twice `{FreshLaws} garbage garbage_owner slack fuel o s us p pcb newPC pc next :
  length garbage = 40%nat -> os_ok o -> running o s us p pcb -> calls o SC_Fork newPC ->
  sp_numPages (us_space us) <= ba_free (u_frames (os_mem o)) -> 0 < ba_free (pm_bitmap (os_procMgr o)) ->
  readyList (os_kernel o) = [] ->
  k_registers (os_kernel o) !! 34%nat = Some pc -> k_registers (os_kernel o) !! 35%nat = Some next ->
  exists o1 o2 s' us' p' pcb',
    ExceptionHandler garbage garbage_owner slack fuel o SyscallException = Ok (Goes o1) /\ continue o1 = Ok o2 /\
    os_ok o2 /\ running o2 s' us' p' pcb' /\ s' <> s /\ PID pcb' <> PID pcb /\
    k_registers (os_kernel o2) = <[35%nat := s32 (newPC + 4)]> (<[34%nat := newPC]> (start_registers (us_space us'))) /\
    space_bytes (u_memory (os_mem o2)) (us_frames us') = space_bytes (u_memory (os_mem o)) (us_frames us) /\
    exists o3 o4, os_Yield o2 EndYield = Ok o3 /\ continue o3 = Ok o4 /\
      os_ok o4 /\ running o4 s us p pcb /\
      k_registers (os_kernel o4) = next_pc (<[2%nat := PID pcb']> (k_registers (os_kernel o))) pc next /\
      k_level (os_kernel o4) = k_level (os_kernel o) /\
      space_bytes (u_memory (os_mem o4)) (us_frames us) = space_bytes (u_memory (os_mem o)) (us_frames us).
Proof.
  intros Hg Hok Hrun Hcall Hfree Hpid Hready Hpc Hnext.
  destruct (handler_calls garbage garbage_owner slack fuel o s us p pcb _ _ Hok Hrun Hcall) as (a2 & a3 & ->).
  destruct (myFork_ok garbage garbage_owner Hg o s us p pcb newPC Hok Hrun Hfree Hpid)
    as (o1 & s' & us' & p' & pcb' & Hf & Hfk & _ & _ & Hbytes & Hpe).
  destruct (forked_first _ _ _ _ _ _ _ _ Hfk Hready) as (Hth' & Hr1 & Hs1').
  pose proof Hfk as [Hok1 [Hnew Hsp] Hp1' Hkeep Hpf Hothers Hyd Hst1 _]. pose proof Hrun as [Hs Hp Hc Hst Hpt].
  assert (s' <> s) as Hne by congruence.
  destruct (processes_apart _ _ _ _ _ _ _ _ _ Hp1' (Hkeep _ _ _ _ Hp) Hne) as (Htne & _ & Hpne).
  exists o1. eexists _, s', us', p', pcb'. split; [unfold syscall; simpl; by rewrite Hf|].
  assert (os_pending o1 !! current o1 = Some (ForkBridge newPC)) as Hpend.
  { rewrite Hpe, lookup_insert_ne by congruence. rewrite Hth'. apply lookup_insert_eq. }
  split; [by apply (fork_starts o1 s' us' p' pcb' Hok1 Hs1' Hp1' Hth')|].
  set (regs' := <[35%nat := _]> _). set (pe := delete _ _).
  assert (length regs' = 40%nat) as Hl by (unfold regs', start_registers; by rewrite !length_insert).
  pose proof (env_running o1 s' us' p' pcb' Hs1' Hp1' Hth' Hst1 regs' pe (k_level (os_kernel o1)) Hl) as Hrun2.
  split; [by apply os_ok_env|]. split_and!; try done.
  destruct (caller_back o o1 s us p pcb s' us' p' pcb' (k_registers (os_kernel o)) (k_level (os_kernel o1)) regs' pe)
    with (l0 := IntOff) as (o3 & Hy & Hok3 & Hp3 & Hs3 & Hm3 & Hc3 & Hst3 & Hregs3 & Hpt3 & Hpe3); try done;
    [by apply Hkeep|rewrite Hsp, lookup_insert_ne by done; done|].
  exists o3. eexists. split; [exact Hy|].
  assert (os_pending o3 !! current o3 = Some (EndFork (PID pcb') (k_level (os_kernel o)))) as Hpend3.
  { rewrite Hpe3, Hc3. rewrite lookup_insert_ne by congruence. unfold pe. rewrite lookup_delete_ne by congruence.
    rewrite Hpe. apply lookup_insert_eq. }
  assert (p_thread pcb = current o3) as Hth3 by congruence.
  split; [eapply (fork_returns o3 s pcb Hok3 Hth3); [exact Hpend3|done|by rewrite Hregs3|by rewrite Hregs3]|].
  assert (os_spaces o3 !! s = Some us) as Hs3' by (rewrite Hs3, Hsp, lookup_insert_ne by done; done).
  assert (length (next_pc (<[2%nat:=PID pcb']> (k_registers (os_kernel o3))) pc next) = 40%nat) as Hl3.
  { unfold next_pc. rewrite !length_insert. apply (oo_regs _ Hok3). }
  split; [by apply os_ok_env|]. split; [by apply env_running|]. rewrite Hregs3. split; [done|]. split; [done|].
  simpl. rewrite Hm3. by apply Hothers with s.
Qed.

Lemma fork_returns_twice_witness :
  let o := demo_os true SC_Fork 48 in
  exists o1 o2 s' us' p' pcb',
    ExceptionHandler (H := zero_fresh) (replicate 40 0) None demo_slack 0 o SyscallException = Ok (Goes o1) /\
    continue o1 = Ok o2 /\ running o2 s' us' p' pcb' /\
    exists o3 o4, os_Yield o2 EndYield = Ok o3 /\ continue o3 = Ok o4 /\ running o4 1 demo_us 1 demo_pcb /\
      k_registers (os_kernel o4) = next_pc (<[2%nat := PID pcb']> (demo_regs SC_Fork 48)) 100 104.
Proof.
  intros o. destruct (fork_returns_twice (H := zero_fresh) (H0 := zero_fresh_laws) (replicate 40 0) None demo_slack 0 o 1 demo_us 1
    demo_pcb 48 100 104) as (o1 & o2 & s' & us' & p' & pcb' & H1 & H2 & _ & H3 & _ & _ & _ & _ & o3 & o4 & H4 & H5 & _ & H6 & H7 & _).
  - reflexivity.
  - apply demo_os_ok.
  - apply demo_os_running.
  - apply demo_os_calls.
  - vm_compute. discriminate.
  - reflexivity.
  - reflexivity.
  - reflexivity.
  - reflexivity.
  - exists o1, o2, s', us', p', pcb'. split; [exact H1|]. split; [exact H2|]. split; [exact H3|].
    exists o3, o4. split; [exact H4|]. split; [exact H5|]. split; [exact H6|exact H7].
Defined.



(** An Exec call with the name of a file that does not exist creates nothing: the caller
    goes on behind the call. Register 2 still holds the number of the call, which is what
    the program gets as the identifier of the new process, and the interrupts stay off. *)
Theorem Exec_call_missing `{FreshLaws} garbage garbage_owner slack fuel o s us p pcb va name pc next :
  os_ok o -> running o s us p pcb -> calls o SC_Exec va ->
  0 < slack (Z.of_nat (length name) + 1) -> string_at (space_bytes (u_memory (os_mem o)) (us_frames us)) va name ->
  Open (os_fs o) (os_disk o) name = Ok None ->
  k_registers (os_kernel o) !! 34%nat = Some pc -> k_registers (os_kernel o) !! 35%nat = Some next ->
  exists o', ExceptionHandler garbage garbage_owner slack fuel o SyscallException = Ok (Goes o') /\
    o' = os_env o (next_pc (k_registers (os_kernel o)) pc next) (Some s) IntOff (os_pending o) /\
    os_ok o' /\ running o' s us p pcb /\ k_registers (os_kernel o') !! 2%nat = Some SC_Exec.
Proof.
  intros Hok Hrun Hcall Hsl Hname Hopen Hpc Hnext. pose proof Hrun as [Hs Hp Hc Hst Hpt].
  destruct (handler_calls garbage garbage_owner slack fuel o s us p pcb _ _ Hok Hrun Hcall) as (a2 & a3 & ->).
  destruct (oo_regs _ Hok) as [Hl _].
  assert (length (next_pc (k_registers (os_kernel o)) pc next) = 40%nat) as Hln by (unfold next_pc; by rewrite !length_insert).
  eexists. split; [|split; [reflexivity|]].
  - unfold syscall. simpl. unfold myExec. rewrite (current_space_at _ s us) by (done || exact (running_thread _ _ _ _ _ Hrun)).
    cbn [mbind outcome_bind]. rewrite (pcb_of_at _ us p pcb) by apply Hp. cbn [mbind outcome_bind].
    rewrite (getString_ok slack (us_space us) (us_frames us) _ va name) by (done || apply Hp || apply (oo_mem _ Hok)).
    cbn [mbind outcome_bind]. change (Open (os_fs (set_level o IntOff)) (os_disk (set_level o IntOff)) name)
      with (Open (os_fs o) (os_disk o) name). rewrite Hopen. cbn [mbind outcome_bind].
    rewrite (increment_os _ pc next) by done. cbn [mbind outcome_bind]. do 2 f_equal.
    unfold set_registers_os, os_env, os_set_pending, os_set_kernel, set_level, with_klevel, with_cpu. simpl. by rewrite Hpt.
  - split; [by apply os_ok_env|]. split; [by apply env_running|]. simpl. unfold next_pc.
    rewrite !list_lookup_insert_ne by lia. apply Hcall.
Qed.

Lemma Exec_call_missing_witness :
  let o := demo_os true SC_Exec 1 in
  exists o', ExceptionHandler (H := zero_fresh) (replicate 40 0) None demo_slack 0 o SyscallException = Ok (Goes o') /\
    running o' 1 demo_us 1 demo_pcb /\ k_registers (os_kernel o') !! 2%nat = Some SC_Exec.
Proof.
  intros o. destruct (Exec_call_missing (H := zero_fresh) (H0 := zero_fresh_laws) (replicate 40 0) None demo_slack 0 o 1 demo_us 1
    demo_pcb 1 [98] 100 104) as (o' & Hrun & _ & _ & Hr & H2).
  - apply demo_os_ok.
  - apply demo_os_running.
  - apply demo_os_calls.
  - reflexivity.
  - split; [repeat constructor; lia|vm_compute; reflexivity|]. vm_compute. split; discriminate.
  - vm_compute. reflexivity.
  - reflexivity.
  - reflexivity.
  - exists o'. split; [exact Hrun|]. split; [exact Hr|exact H2].
Defined.

(** C17. An Exit call, when nobody holds the lock of the process: its address space is gone and
    exactly its frames are free again, its identifier is free, its exit status is recorded,
    every other process keeps its memory, all who wait for it in Join are ready behind the
    threads that were, and the first of these has the CPU. *)
Theorem Exit_call_correct `{FreshLaws} garbage garbage_owner slack fuel o s us p pcb c l status :
  os_ok o -> running o s us p pcb -> calls o SC_Exit status ->
  at_pid (waits_of o) (PID pcb) c l -> lock_available o l ->
  exists o', ExceptionHandler garbage garbage_owner slack fuel o SyscallException = Ok (Goes o') /\
    exited o o' s us pcb status (c.*2 ++ take 1 (lk_queue l).*2).
Proof.
  intros Hok Hrun Hcall Hat Hav.
  destruct (handler_calls garbage garbage_owner slack fuel o s us p pcb _ _ Hok Hrun Hcall) as (a2 & a3 & ->).
  destruct (myExit_ok o s us p pcb c l status Hok Hrun Hat Hav) as (o' & Hx & Hex). exists o'. split; [|done].
  unfold syscall. simpl. by rewrite Hx.
Qed.

Lemma Exit_call_correct_witness :
  let o := demo_os true SC_Exit 42 in
  exists o', ExceptionHandler (H := zero_fresh) (replicate 40 0) None demo_slack 0 o SyscallException = Ok (Goes o') /\
    exited o o' 1 demo_us demo_pcb 42 [2%positive] /\ current o' = 2%positive.
Proof.
  intros o. destruct (Exit_call_correct (H := zero_fresh) (H0 := zero_fresh_laws) (replicate 40 0) None demo_slack 0 o 1 demo_us 1
    demo_pcb [(0, 2%positive)] (mkLock false None []) 42) as (o' & Hrun & Hx).
  - apply demo_os_ok.
  - apply demo_os_running.
  - apply demo_os_calls.
  - split; [simpl; lia|]. split; reflexivity.
  - left. reflexivity.
  - exists o'. split; [exact Hrun|]. split; [exact Hx|]. destruct Hx as [_ _ _ _ _ _ Ht]. exact (proj1 Ht).
Defined.

(** C18. A Join call with the identifier of a process whose lock is free puts the caller to
    sleep among those that wait for that process, changing neither memory nor address spaces.
    When the caller has the CPU and that lock is free again, it goes on in user mode behind
    the call with the interrupt level that it had, also when the identifier has been given
    to another process with a lock of its own in between; register 2 still holds the number
    of the call, and not the exit status that the other process left. *)
Theorem Join_call_correct `{FreshLaws} garbage garbage_owner slack fuel o s us p pcb pid c l :
  os_ok o -> running o s us p pcb -> calls o SC_Join pid -> at_pid (waits_of o) pid c l -> lock_available o l ->
  let level := k_level (os_kernel o) in
  (exists o', ExceptionHandler garbage garbage_owner slack fuel o SyscallException = Ok (Goes o') /\ os_ok o' /\
    os_spaces o' = os_spaces o /\ os_mem o' = os_mem o /\
    at_pid (waits_of o') pid (q_append (current o) c) (mkLock false None (q_remove (lk_queue l)).2) /\
    status_of (os_kernel o') (current o) = Some BLOCKED /\
    os_pending o' = <[current o := JoinWait pid (lock_id o pid) level]> (os_pending o)) /\
  forall o1 c1 l1 lc pc next,
    os_ok o1 -> running o1 s us p pcb -> os_pending o1 !! current o1 = Some (JoinWait pid (lock_id o pid) level) ->
    at_pid (waits_of o1) pid c1 l1 -> captured o1 pid (lock_id o pid) lc -> lock_available o1 lc -> k_registers (os_kernel o1) = k_registers (os_kernel o) ->
    k_registers (os_kernel o1) !! 34%nat = Some pc -> k_registers (os_kernel o1) !! 35%nat = Some next ->
    exists o2, continue o1 = Ok o2 /\ os_ok o2 /\ running o2 s us p pcb /\
      k_registers (os_kernel o2) = next_pc (k_registers (os_kernel o)) pc next /\
      k_registers (os_kernel o2) !! 2%nat = Some SC_Join /\ k_level (os_kernel o2) = level /\ os_mem o2 = os_mem o1.
Proof.
  intros Hok Hrun Hcall Hat Hav level. split.
  - destruct (handler_calls garbage garbage_owner slack fuel o s us p pcb _ _ Hok Hrun Hcall) as (a2 & a3 & ->).
    destruct (join_ok o s us p pcb pid c l Hok Hrun Hat Hav) as (o' & Hj & Hok' & Hs' & Hm' & Hat' & Hb' & Hpe' & _).
    exists o'. split; [|done]. unfold syscall. simpl. by rewrite Hj.
  - intros o1 c1 l1 lc pc next Hok1 Hrun1 Hpe Hat1 Hcap1 Hav1 Hregs Hpc Hnext. unfold continue. rewrite Hpe.
    set (pe := delete _ _). pose proof Hrun1 as [Hs1 Hp1 Hc1 Hst1 Hpt1]. destruct (oo_regs _ Hok1) as [Hl1 _].
    set (o1' := set_level (os_set_pending o1 pe) level).
    assert (o1' = os_env o1 (k_registers (os_kernel o1)) (Some s) level pe) as He.
    { unfold o1', set_level, os_env, os_set_pending, os_set_kernel, with_klevel, with_cpu. simpl. by rewrite Hpt1. }
    destruct (join_again_ok o1' s us p pcb pid (lock_id o pid) c1 l1 lc level pc next) as (o2 & Hj & Hok2 & Hrun2 & Hr2 & Hl2 & Hm2 & _);
      try done; [rewrite He; by apply os_ok_env|rewrite He; by apply env_running|].
    exists o2. split; [done|]. split_and!; try done.
    + rewrite Hr2. simpl. by rewrite Hregs.
    + rewrite Hr2. simpl. unfold next_pc. rewrite !list_lookup_insert_ne by lia. rewrite Hregs. apply Hcall.
Qed.

Lemma Join_call_correct_witness :
  let o := demo_os false SC_Join 1 in
  exists o', ExceptionHandler (H := zero_fresh) (replicate 40 0) None demo_slack 0 o SyscallException = Ok (Goes o') /\
    at_pid (waits_of o') 1 [(0, 1%positive)] (mkLock false None []) /\ status_of (os_kernel o') 1 = Some BLOCKED.
Proof.
  intros o. destruct (Join_call_correct (H := zero_fresh) (H0 := zero_fresh_laws) (replicate 40 0) None demo_slack 0 o 1 demo_us 1
    demo_pcb 1 [] (mkLock false None [])) as [(o' & Hrun & _ & _ & _ & Hat & Hb & _) _].
  - apply demo_os_ok.
  - apply demo_os_running.
  - apply demo_os_calls.
  - split; [simpl; lia|]. split; reflexivity.
  - left. reflexivity.
  - exists o'. split; [exact Hrun|]. split; [exact Hat|exact Hb].
Defined.

(** C28. What the handler does with everything else. Halt stops the machine. A system call
    with a number that stands for nothing only advances the program counter. Exceptions that
    are neither system calls nor page faults, such as an address error or an overflow, end
    the simulation: one program's error is the end of all. *)
Theorem handler_otherwise `{FreshLaws} garbage garbage_owner slack fuel o s us p pcb type arg1 pc next :
  os_ok o -> running o s us p pcb -> calls o type arg1 ->
  k_registers (os_kernel o) !! 34%nat = Some pc -> k_registers (os_kernel o) !! 35%nat = Some next ->
  let handler := ExceptionHandler garbage garbage_owner slack fuel o in
  (type = SC_Halt -> handler SyscallException = Ok Halted) /\
  (type < 0 \/ 10 < type -> exists o', handler SyscallException = Ok (Goes o') /\ os_ok o' /\ running o' s us p pcb /\
     o' = set_registers_os o (next_pc (k_registers (os_kernel o)) pc next)) /\
  (forall which, which <> SyscallException -> which <> PageFaultException -> handler which = AssertFail).
Proof.
  intros Hok Hrun Hcall Hpc Hnext handler. pose proof Hrun as [Hs Hp Hc Hst Hpt]. destruct (oo_regs _ Hok) as [Hl _].
  destruct (handler_calls garbage garbage_owner slack fuel o s us p pcb _ _ Hok Hrun Hcall) as (a2 & a3 & Hh).
  unfold handler. rewrite Hh. split; [|split].
  - by intros ->.
  - intros Ht. exists (set_registers_os o (next_pc (k_registers (os_kernel o)) pc next)).
    assert (length (next_pc (k_registers (os_kernel o)) pc next) = 40%nat) as Hln by (unfold next_pc; by rewrite !length_insert).
    assert (set_registers_os o (next_pc (k_registers (os_kernel o)) pc next) =
            os_env o (next_pc (k_registers (os_kernel o)) pc next) (Some s) (k_level (os_kernel o)) (os_pending o)) as Hreg.
    { unfold set_registers_os, os_env. rewrite Hpt. by destruct o. }
    split; [|rewrite Hreg; split; [by apply os_ok_env|split; [by apply env_running|done]]].
    unfold syscall, SC_Halt, SC_Close, SC_Exit, SC_Exec, SC_Join, SC_Create, SC_Open, SC_Read, SC_Write, SC_Fork, SC_Yield.
    rewrite !(proj2 (Z.eqb_neq type _)) by lia. rewrite (increment_os o pc next) by done. done.
  - intros which H1 H2. destruct (handler_reads garbage garbage_owner slack fuel o s us p pcb type arg1 which Hok Hrun Hcall H2)
      as (? & ? & ->). by destruct which.
Qed.

Lemma handler_otherwise_witness :
  let handler := ExceptionHandler (H := zero_fresh) (replicate 40 0) None demo_slack 0 (demo_os true 77 0) in
  (exists o', handler SyscallException = Ok (Goes o') /\ running o' 1 demo_us 1 demo_pcb) /\
  handler AddressErrorException = AssertFail.
Proof.
  intros handler. destruct (handler_otherwise (H := zero_fresh) (H0 := zero_fresh_laws) (replicate 40 0) None demo_slack 0
    (demo_os true 77 0) 1 demo_us 1 demo_pcb 77 0 100 104) as (_ & Ho & Hx).
  - apply demo_os_ok.
  - apply demo_os_running.
  - apply demo_os_calls.
  - reflexivity.
  - reflexivity.
  - split; [|apply Hx; discriminate]. destruct Ho as (o' & H1 & _ & H2 & _); [right; reflexivity|]. exists o'. split; [exact H1|exact H2].
Defined.
