(* ===== verification/Isolation.v ===== *)
(** * User programs stay in their address spaces

    Whatever its bits are, an instruction of a user program changes main memory only in the
    frames of the page table that the machine uses, and of that table only the use and dirty
    bits. With the invariant of Lifecycle.v, which keeps the frames of processes apart, no
    program can change the memory of another one: [user_isolation]. The kernel can be made to
    do it, with a system call: [console_read_escapes]. *)

From stdpp Require Import prelude numbers list gmap.
From S2P Require Import Prelude Params CList BitMap Mips Machine Interrupt Threads Synch FileHdr Directory.
From S2P Require Import OpenFile FileSys AddrSpace Process Join Syscall Kernel Lifecycle Calls.

Open Scope Z_scope.

(** ** What an instruction can change *)

Definition mappings (m : Machine) : option (list (Z * Z * bool * bool)) := option_map (map mapping) (pageTable m).

Definition table_frames (m : Machine) : list Z :=
  from_option (map (fun e => u32 (physicalPage e))) [] (pageTable m).

Record confined (m m' : Machine) : Prop := {
  cf_tlb : tlb m' = tlb m;
  cf_table : mappings m' = mappings m;
  cf_size : pageTableSize m' = pageTableSize m;
  cf_regs : length (registers m') = length (registers m);
  cf_length : length (mainMemory m') = length (mainMemory m);
  cf_memory i : tlb m = None -> ~ (Z.of_nat (i / 128) ∈ table_frames m) -> mainMemory m' !! i = mainMemory m !! i }.

Lemma table_frames_mapping m m' :
  mappings m' = mappings m -> table_frames m' = table_frames m.
Proof.
  unfold table_frames, mappings. destruct (pageTable m') as [t'|], (pageTable m) as [t|]; simpl; try done. intros [= He].
  apply (f_equal (map (fun x : Z * Z * bool * bool => u32 x.1.1.2))) in He. by rewrite !map_map in He.
Qed.

Lemma confined_refl m : confined m m.
Proof. by split. Qed.

Lemma confined_trans m1 m2 m3 : confined m1 m2 -> confined m2 m3 -> confined m1 m3.
Proof.
  intros [A1 A2 A3 A4 A5 A6] [B1 B2 B3 B4 B5 B6]. split; try congruence.
  intros i Ht Hi. rewrite B6; [by apply A6|congruence|]. by rewrite (table_frames_mapping m1 m2).
Qed.

(** Whatever the outcome, the machine is confined. *)
Definition machine_in {A} (r : result A) : Machine := match r with Done m _ | Trap m _ _ => m end.
Definition conf {A} (m0 : Machine) (x : outcome (result A)) : Prop := forall r, x = Ok r -> confined m0 (machine_in r).

Lemma setR_confined m i v m' : setR m i v = Ok m' -> confined m m'.
Proof.
  unfold setR. intros Hs. ok_inv. apply arr_set_ok in Hok as [_ ->]. split; try done. simpl. by rewrite length_insert.
Qed.

Lemma DelayedLoad_confined m r v m' : DelayedLoad m r v = Ok m' -> confined m m'.
Proof.
  unfold DelayedLoad. intros Hd. ok_inv.
  repeat (eapply confined_trans; [by eapply setR_confined|]). apply confined_refl.
Qed.

Lemma RaiseException_confined m a m' : RaiseException m a = Ok m' -> confined m m'.
Proof.
  unfold RaiseException. intros Hr. ok_inv. eapply confined_trans; [by eapply setR_confined|]. by eapply DelayedLoad_confined.
Qed.

Lemma map_insert_same {A B} (f : A -> B) (l : list A) i x y :
  l !! i = Some y -> f x = f y -> map f (<[i := x]> l) = map f l.
Proof.
  revert i. induction l as [|a l IH]; intros [|i] Hl Hf; simpl in *; try done; [congruence|]. f_equal. by apply IH.
Qed.

(** [Translate] touches an entry and returns an address within its frame. *)
Lemma Translate_confined m va size writing m' r :
  tlb m = None -> Translate m va size writing = Ok (m', r) ->
  confined m m' /\ mainMemory m' = mainMemory m /\
  forall pa, r = inr pa -> access_size size ->
    exists f off, f ∈ table_frames m /\ 0 <= f < 32 /\ pa = 128 * f + off /\ 0 <= off /\ off + size <= 128.
Proof.
  intros Etlb. unfold Translate. destruct (misaligned va size) eqn:Hal; [intros [= <- <-]; by split; [apply confined_refl|]|].
  intros Ht. ok_inv. destruct v as [exc|[i e]]; [ok_inv; by split; [apply confined_refl|]|].
  destruct (readOnly e && writing); [ok_inv; by split; [apply confined_refl|]|].
  destruct (Z.leb_spec NumPhysPages (u32 (physicalPage e))) as [|Hf]; [ok_inv; by split; [apply confined_refl|]|].
  ok_inv. unfold find_entry in Hok. unfold store_entry in Hok0.
  rewrite Etlb in Hok, Hok0. destruct (pageTable m) as [pt|] eqn:Ept; try done.
  destruct (Z.leb_spec (pageTableSize m) (u32 va `div` PageSize)); [done|]. ok_inv. destruct (negb (valid v0)); [done|]. injection Hok as <- <-.
  apply arr_get_ok in Hok3 as [H0 Hlk]. apply arr_set_ok in Hok2 as [_ ->]. split; [|split; [done|]].
  - split; try done. unfold mappings. rewrite Ept. simpl. f_equal. by eapply map_insert_same.
  - intros pa [= <-] Hsz. destruct (aligned_offset va size Hsz Hal) as (k & Hk & Hkb). rewrite Hk.
      exists (u32 (physicalPage v0)), (k * size). unfold table_frames. rewrite Ept. simpl. unfold PageSize, SectorSize, NumPhysPages in *.
      pose proof (u32_range (physicalPage v0)) as Hr. unfold is_u32 in Hr. split_and!; try lia.
    + apply list_elem_of_In, (in_map (fun e => u32 (physicalPage e)) pt v0), list_elem_of_In. by eapply list_elem_of_lookup_2.
    + rewrite s32_small; [lia|]. unfold is_s32, two31, access_size in *. lia.
Qed.

Lemma store_bytes_confined bs : forall mem pa mem', store_bytes mem pa bs = Ok mem' -> 0 <= pa ->
  length mem' = length mem /\
  forall i, (i < Z.to_nat pa)%nat \/ (Z.to_nat pa + length bs <= i)%nat -> mem' !! i = mem !! i.
Proof.
  induction bs as [|b bs IH]; intros mem pa mem' Hs Hpa; cbn [store_bytes] in Hs; ok_inv; [done|].
  apply arr_set_ok in Hok as [_ ->]. destruct (IH _ _ _ Hs) as [Hl Ho]; [lia|]. rewrite length_insert in Hl. split; [done|].
  intros i Hi. simpl in Hi. rewrite Ho by lia. by rewrite list_lookup_insert_ne by lia.
Qed.

Section confinement.
Context (m0 : Machine) (Htlb : tlb m0 = None).

Lemma confined_tlb m : confined m0 m -> tlb m = None.
Proof. intros [-> _ _ _ _ _]. done. Qed.

Lemma ReadMem_confined m addr size : confined m0 m -> conf m0 (ReadMem m addr size).
Proof.
  intros Hm r Hr. unfold ReadMem in Hr. ok_inv. destruct v as [m1 t].
  destruct (Translate_confined _ _ _ _ _ _ (confined_tlb m Hm) Hok) as [Hc _].
  pose proof (confined_trans _ _ _ Hm Hc) as Hm1.
  destruct t as [exc|pa].
  - ok_inv. simpl. eapply confined_trans; [exact Hm1|]. by eapply RaiseException_confined.
  - repeat match type of Hr with (if ?b then _ else _) = _ => destruct b end; ok_inv; done.
Qed.

Lemma WriteMem_confined m addr size value : access_size size -> confined m0 m -> conf m0 (WriteMem m addr size value).
Proof.
  intros Hsz Hm r Hr. unfold WriteMem in Hr. ok_inv. destruct v as [m1 t].
  destruct (Translate_confined _ _ _ _ _ _ (confined_tlb m Hm) Hok) as (Hc & Hmem & Hpa).
  pose proof (confined_trans _ _ _ Hm Hc) as Hm1.
  destruct t as [exc|pa]; ok_inv; simpl.
  - eapply confined_trans; [exact Hm1|]. by eapply RaiseException_confined.
  - destruct (Hpa pa eq_refl Hsz) as (f & off & Hin & Hf & -> & Hoff & Hend).
    destruct (store_bytes_confined _ _ _ _ Hok1) as [Hl Ho]; [lia|].
    assert (length v = Z.to_nat size) as Hv
      by (destruct Hsz as [-> |[-> | ->]]; simpl in Hok0; ok_inv; done).
    eapply confined_trans; [exact Hm1|]. split; try done. cbn [mainMemory with_memory]. intros i _ Hi. apply Ho.
    assert (i / 128 <> Z.to_nat f)%nat as Hne.
    { intros He. apply Hi. rewrite He, Z2Nat.id by lia. by rewrite (table_frames_mapping m m1) by apply Hc. }
    pose proof (Nat.div_mod_eq i 128). pose proof (Nat.mod_upper_bound i 128 ltac:(lia)). lia.
Qed.

(** The rules by which an instruction is taken apart. *)
Lemma conf_bind_getR {A} m i (k : Z -> outcome (result A)) : (forall v, conf m0 (k v)) -> conf m0 (getR m i ≫= k).
Proof. intros Hk r Hr. ok_inv. by eapply Hk. Qed.

Lemma conf_bind_setR {A} m i v (k : Machine -> outcome (result A)) :
  confined m0 m -> (forall m', confined m0 m' -> conf m0 (k m')) -> conf m0 (setR m i v ≫= k).
Proof.
  intros Hm Hk r Hr. ok_inv. eapply Hk; [|done]. eapply confined_trans; [exact Hm|]. by eapply setR_confined.
Qed.

Lemma conf_trap {A} m w b : confined m0 m -> conf m0 (trap (A := A) m w b).
Proof.
  intros Hm r Hr. unfold trap in Hr. ok_inv. simpl. eapply confined_trans; [exact Hm|]. by eapply RaiseException_confined.
Qed.

Lemma conf_on_done {A B} (x : outcome (result A)) (k : Machine -> A -> outcome (result B)) :
  conf m0 x -> (forall m a, confined m0 m -> conf m0 (k m a)) -> conf m0 (on_done x k).
Proof.
  intros Hx Hk r Hr. unfold on_done in Hr. ok_inv. specialize (Hx v Hok). destruct v as [m a|m w b]; simpl in Hx.
  - by eapply Hk.
  - ok_inv. done.
Qed.

Lemma conf_done {A} m (a : A) : confined m0 m -> conf m0 (Ok (Done m a)).
Proof. intros Hm r [= <-]. done. Qed.

Lemma conf_assert {A} c (x : outcome (result A)) : conf m0 x -> conf m0 (ASSERT c;; x).
Proof. destruct c; [done|]. by intros _ r. Qed.

Lemma conf_fail {A} : conf (A := A) m0 AssertFail /\ conf (A := A) m0 Undef.
Proof. by split; intros r. Qed.
End confinement.

(** Takes an instruction apart; the facts about memory accesses come from the lemmas above. *)
Ltac conf_step :=
  match goal with
  | |- conf _ (getR _ _ ≫= _) => apply conf_bind_getR; intros ?
  | |- conf _ (setR _ _ _ ≫= _) => apply conf_bind_setR; [assumption|intros ? ?]
  | |- conf _ (set_and_go _ _ _ _) => unfold set_and_go
  | |- conf _ (branch_if _ _ _ _ _) => unfold branch_if
  | |- conf _ (trap _ _ _) => apply conf_trap; assumption
  | |- conf _ (on_done (ReadMem _ _ _) _) => apply conf_on_done; [by apply ReadMem_confined|intros ? ? ?]
  | |- conf _ (on_done (WriteMem _ _ _ _) _) =>
      apply conf_on_done; [apply WriteMem_confined; [assumption|unfold access_size; lia|assumption]|intros ? ? ?]
  | |- conf _ (ASSERT _;; _) => apply conf_assert
  | |- conf _ (if ?c then _ else _) => destruct c
  | |- conf _ ((if ?c then _ else _) ≫= _) => destruct c
  | |- conf _ (Ok (Done _ _)) => apply conf_done; assumption
  | |- conf _ _ => apply conf_fail
  end.

Lemma exec_instr_confined m0 m i next : tlb m0 = None -> confined m0 m -> conf m0 (exec_instr m i next).
Proof.
  intros Htlb Hm. unfold exec_instr, exec_ADD_to_DIVU, exec_JAL_to_LWR, exec_MFHI_to_SLTU, exec_SRA_to_end.
  destruct (opCode i); cbv zeta; repeat conf_step.
Qed.

Lemma finish_confined m a m' : finish_instruction m a = Ok m' -> confined m m'.
Proof.
  unfold finish_instruction. intros Hf. ok_inv. eapply confined_trans; [by eapply DelayedLoad_confined|].
  repeat (eapply confined_trans; [by eapply setR_confined|]). apply confined_refl.
Qed.

Lemma OneInstruction_confined m : tlb m = None -> conf m (OneInstruction m).
Proof.
  intros Htlb. unfold OneInstruction. apply conf_bind_getR. intros pc.
  apply conf_on_done; [apply ReadMem_confined; [done|apply confined_refl]|]. intros m1 raw Hm1 r Hr. ok_inv.
  revert r Hr. apply conf_on_done; [by apply exec_instr_confined|]. intros m2 a Hm2 r Hr. ok_inv. simpl.
  eapply confined_trans; [exact Hm2|]. by eapply finish_confined.
Qed.

(** ** Processes *)

Lemma running_machine o s us p pcb : running o s us p pcb ->
  tlb (machine_of o) = None /\ table_frames (machine_of o) = us_frames us /\
  pageTable (machine_of o) = Some (sp_pageTable (us_space us)).
Proof.
  intros [Hs Hp _ _ Hpt]. rewrite (machine_of_space o s us Hpt Hs). split; [done|]. split; [|done].
  unfold table_frames, us_frames. simpl. pose proof (so_range _ _ (pr_frames _ _ _ _ _ Hp)) as Hr. unfold us_frames in Hr.
  apply Forall_fmap in Hr. induction Hr as [|e t He _ IH]; [done|]. simpl in *. rewrite IH. f_equal.
  apply u32_small. unfold is_u32, two32. lia.
Qed.

(** The table after an instruction maps the same pages. *)
Lemma same_mapping n t t' frames :
  map mapping t' = map mapping t -> space_on (mkSpace n t) frames -> space_on (mkSpace n t') frames.
Proof.
  intros He [H1 H2 H3 H4 H5]. simpl in *. split; simpl; try done.
  - rewrite <- H2. clear -He. revert t He. induction t' as [|e t' IH]; intros [|e0 t]; simpl; try done.
    intros [= _ Hp _ _ Ht]. rewrite Hp. f_equal. by apply IH.
  - clear -He H3. revert t He H3. induction t' as [|e t' IH]; intros [|e0 t]; simpl; try done.
    intros [= _ _ Hv Hr Ht] [[? ?] Hf]%Forall_cons. constructor; [split; congruence|by eapply IH].
Qed.

Lemma frame_bytes_ext mem mem' f :
  length mem' = length mem -> 0 <= f ->
  (forall i, (i / 128 = Z.to_nat f)%nat -> mem' !! i = mem !! i) -> frame_bytes mem' f = frame_bytes mem f.
Proof.
  intros Hl Hf Hi. unfold frame_bytes, page. apply list_eq. intros j.
  destruct (decide (j < 128)%nat) as [Hj|Hj].
  - rewrite !lookup_take_lt, !lookup_drop by lia. apply Hi. symmetry. apply (Nat.div_unique _ 128 _ j); lia.
  - rewrite !lookup_take_ge by lia. done.
Qed.

Lemma instruction_keeps o s us p pcb m :
  os_ok o -> running o s us p pcb -> confined (machine_of o) m ->
  let o' := put_machine o m in
  let us' := mkUS (mkSpace (sp_numPages (us_space us)) (from_option id [] (pageTable m))) (us_pcb us) in
  os_ok o' /\ running o' s us' p pcb /\ us_frames us' = us_frames us /\ os_spaces o' = <[s := us']> (os_spaces o) /\
  (forall f, 0 <= f -> ~ (f ∈ us_frames us) -> frame_bytes (u_memory (os_mem o')) f = frame_bytes (u_memory (os_mem o)) f).
Proof.
  intros Hok Hrun [C1 C2 C3 C4 C5 C6] o' us'. destruct (running_machine _ _ _ _ _ Hrun) as (Ht & Hfr & Htab).
  destruct (machine_of_parts o) as [Mr Mm]. pose proof Hrun as [Hs Hp Hc Hst Hpt].
  unfold mappings in C2. rewrite Htab in C2. destruct (pageTable m) as [t|] eqn:Em; [|done]. injection C2 as C2. simpl in us'.
  assert (o' = os_set_spaces (os_set_mem (set_registers_os o (registers m)) (set_memory (os_mem o) (mainMemory m)))
                 (<[s := us']> (os_spaces o))) as Ho'.
  { unfold o', put_machine, set_registers_os. rewrite Hpt, Em. simpl. by rewrite Hs. }
  rewrite Mr in C4. rewrite Mm in C5, C6.
  assert (space_on (us_space us') (us_frames us)) as Hsp'.
  { pose proof (pr_frames _ _ _ _ _ Hp) as Hf. destruct us as [[n t0] q]. by eapply same_mapping. }
  assert (us_frames us' = us_frames us) as Hfr' by apply Hsp'.
  assert (process o' s us' p pcb) as Hp'.
  { rewrite Ho'. destruct Hp as [Q1 Q2 Q3 Q4 Q5 Q6 Q7 Q8 Q9]. split; try done; by rewrite Hfr'. }
  split; [|split_and!].
  - destruct Hok as [Hk [Hr1 Hr2] [M1 M2 M3 M4] Hpi Hpr Hap Htb Hwt Hqu]. rewrite Ho'. split; try done.
    + split; [|done]. simpl. congruence.
    + split; try done. unfold memory_ok in *. simpl. congruence.
    + intros s0 us0. simpl. destruct (decide (s0 = s)) as [->|Hne].
      * rewrite lookup_insert_eq. intros [= <-]. rewrite <- Ho'. eauto.
      * rewrite lookup_insert_ne by done. intros Hs0. destruct (Hpr s0 us0 Hs0) as (p0 & pcb0 & [Q1 Q2 Q3 Q4 Q5 Q6 Q7 Q8 Q9]).
        exists p0, pcb0. by split.
    + assert (forall s1 u1, <[s := us']> (os_spaces o) !! s1 = Some u1 ->
                exists u2, os_spaces o !! s1 = Some u2 /\ us_frames u1 = us_frames u2) as Hsame.
      { intros s1 u1 [[<- <-]|[Hne H1]]%lookup_insert_Some; [by exists us|by exists u1]. }
      simpl. intros s1 s2 u1 u2 f H1 H2. destruct (Hsame _ _ H1) as (v1 & Hv1 & ->), (Hsame _ _ H2) as (v2 & Hv2 & ->).
      by apply (Hap s1 s2).
  - rewrite Ho'. split; try done; [simpl; apply lookup_insert_eq|by rewrite <- Ho'].
  - done.
  - by rewrite Ho'.
  - intros f Hf Hnin. rewrite Ho'. simpl. apply frame_bytes_ext; [done|done|]. intros i Hi. apply C6; [done|].
    rewrite Hfr, Hi, Z2Nat.id by lia. done.
Qed.

(** ** Runs of a program *)

(** The program executes an instruction without a trap. *)
Definition instruction (o o' : osys) : Prop :=
  exists m a, OneInstruction (machine_of o) = Ok (Done m a) /\ o' = put_machine o m.

(** What a program can do to the system by itself. *)
Record isolated (o o' : osys) (s : positive) (us us' : UserSpace) : Prop := {
  is_frames : us_frames us' = us_frames us;
  is_others s0 : s0 <> s -> os_spaces o' !! s0 = os_spaces o !! s0;
  is_memory f : 0 <= f -> ~ (f ∈ us_frames us) ->
    frame_bytes (u_memory (os_mem o')) f = frame_bytes (u_memory (os_mem o)) f;
  is_kernel : threads (os_kernel o') = threads (os_kernel o) /\ readyList (os_kernel o') = readyList (os_kernel o) /\
    currentThread (os_kernel o') = currentThread (os_kernel o);
  is_processes : os_pcbs o' = os_pcbs o /\ os_procMgr o' = os_procMgr o /\ os_pending o' = os_pending o;
  is_disk : os_disk o' = os_disk o }.

Lemma put_machine_kernel o m :
  threads (os_kernel (put_machine o m)) = threads (os_kernel o) /\ readyList (os_kernel (put_machine o m)) = readyList (os_kernel o) /\
  currentThread (os_kernel (put_machine o m)) = currentThread (os_kernel o) /\ os_pcbs (put_machine o m) = os_pcbs o /\
  os_procMgr (put_machine o m) = os_procMgr o /\ os_pending (put_machine o m) = os_pending o /\
  os_disk (put_machine o m) = os_disk o.
Proof. unfold put_machine. repeat (case_match; try done). Qed.

(** Any instruction, whether it traps or not. *)
Lemma instruction_isolated o s us p pcb r :
  os_ok o -> running o s us p pcb -> OneInstruction (machine_of o) = Ok r ->
  exists us', os_ok (put_machine o (machine_in r)) /\ running (put_machine o (machine_in r)) s us' p pcb /\
    isolated o (put_machine o (machine_in r)) s us us'.
Proof.
  intros Hok Hrun Hi. destruct (running_machine _ _ _ _ _ Hrun) as [Ht _].
  pose proof (OneInstruction_confined _ Ht r Hi) as Hc.
  destruct (instruction_keeps o s us p pcb (machine_in r) Hok Hrun Hc) as (Hok' & Hrun' & Hfr & Hsp & Hmem).
  destruct (put_machine_kernel o (machine_in r)) as (K1 & K2 & K3 & K4 & K5 & K6 & K7).
  eexists. split; [done|]. split; [exact Hrun'|]. split; try done. intros s0 Hne. rewrite Hsp. by apply lookup_insert_ne.
Qed.

Lemma isolated_trans o1 o2 o3 s us1 us2 us3 :
  isolated o1 o2 s us1 us2 -> isolated o2 o3 s us2 us3 -> isolated o1 o3 s us1 us3.
Proof.
  intros [A1 A2 A3 (A4 & A5 & A6) (A7 & A8 & A9) A10] [B1 B2 B3 (B4 & B5 & B6) (B7 & B8 & B9) B10].
  split; try congruence; [..|split_and!; congruence|split_and!; congruence].
  - intros s0 Hne. by rewrite B2, A2.
  - intros f Hf Hn. rewrite B3; [by apply A3|done|congruence].
Qed.

(** ** A buffer below address 0 *)

(** C [/] and [%] round toward zero: an address above -128 is in page 0, at a negative offset. *)
Lemma phys_negative sp f frames va :
  space_on sp (f :: frames) -> -128 < va < 0 -> phys sp va = Ok (128 * f + va).
Proof.
  intros [Hn Ht _ Hr _] Hva. unfold phys, AddrSpace_Translate, cdiv, cmod. change PageSize with 128.
  replace (Z.quot va 128) with 0 by (rewrite <- (Z.opp_involutive va), Z.quot_opp_l, Z.quot_small by lia; done).
  replace (Z.rem va 128) with va by (rewrite <- (Z.opp_involutive va), Z.rem_opp_l, Z.rem_small by lia; lia).
  change (u32 0) with 0. simpl in Hn. destruct (Z.leb_spec (sp_numPages sp) 0); [lia|].
  destruct (sp_pageTable sp) as [|e t]; [done|]. simpl in Ht. injection Ht as He _. rewrite <- He in Hr |- *. unfold arr_get.
  simpl. pose proof (Forall_inv Hr). simpl in *. rewrite s32_small by (unfold is_s32, two31; lia). f_equal. lia.
Qed.

Lemma putMem_negative sp f frames mem data va :
  space_on sp (f :: frames) -> memory_ok mem -> 1 <= f -> -128 < va < 0 -> va + Z.of_nat (length data) <= 0 ->
  exists mem', putMemIntoVAddr sp mem data va = Ok mem' /\
    frame_bytes mem' (f - 1) = splice (frame_bytes mem (f - 1)) (Z.to_nat (128 + va)) data /\
    forall g, 0 <= g < 32 -> g <> f - 1 -> frame_bytes mem' g = frame_bytes mem g.
Proof.
  intros Hsp Hmem Hf Hva Hd. pose proof (Forall_inv (so_range _ _ Hsp)) as Hfr. simpl in Hfr.
  destruct (space_store mem [f - 1] 0 (f - 1) (Z.to_nat (128 + va)) data) as (_ & Hs & Ho); try done;
    [by constructor; [lia|]|apply NoDup_singleton|lia|].
  unfold memory_ok in Hmem. change (Z.to_nat MemorySize) with 4096%nat in Hmem.
  eexists. split; [|split; [|exact Ho]].
  - unfold putMemIntoVAddr. rewrite (phys_negative sp f frames va Hsp Hva). cbn [mbind outcome_bind].
    rewrite put_bytes_in by lia. do 2 f_equal. lia.
  - unfold space_bytes in Hs. simpl in Hs. rewrite !app_nil_r in Hs. exact Hs.
Qed.

Lemma getchars_length n : forall stdin, length (getchars n stdin).1 = n.
Proof.
  induction n as [|n IH]; intros stdin; [done|]. simpl. destruct stdin as [|c stdin]; simpl;
    [specialize (IH [])|specialize (IH stdin)]; destruct (getchars n _); simpl in *; lia.
Qed.

(** ** Properties *)

(** C3. A user program cannot touch anybody else. In a system in which the invariant of
    processes holds, let a process execute any number of instructions, whatever they are, and
    then one more, which may trap. The invariant holds still and the process still runs in
    the same frames; the address spaces and the memory of all other processes, every frame
    that is not its own, the threads, the tables of the kernel and the disk are unchanged. *)
Theorem user_isolation o o1 s us p pcb r :
  os_ok o -> running o s us p pcb -> rtc instruction o o1 -> OneInstruction (machine_of o1) = Ok r ->
  let o' := put_machine o1 (machine_in r) in
  os_ok o' /\ exists us', running o' s us' p pcb /\ isolated o o' s us us' /\
    forall s0 us0, s0 <> s -> os_spaces o !! s0 = Some us0 -> os_spaces o' !! s0 = Some us0 /\
      space_bytes (u_memory (os_mem o')) (us_frames us0) = space_bytes (u_memory (os_mem o)) (us_frames us0).
Proof.
  intros Hok Hrun Hsteps Hlast.
  assert (exists us1, os_ok o1 /\ running o1 s us1 p pcb /\ isolated o o1 s us us1) as (us1 & Hok1 & Hrun1 & His1).
  { clear Hlast. revert us Hok Hrun. induction Hsteps as [o|o o2 o1 (m & a & Hi & ->) _ IH]; intros us Hok Hrun; [by exists us|].
    destruct (instruction_isolated o s us p pcb _ Hok Hrun Hi) as (us2 & Hok2 & Hrun2 & His2).
    destruct (IH us2 Hok2 Hrun2) as (us1 & Hok1 & Hrun1 & His1). exists us1. split_and!; try done. by eapply isolated_trans. }
  destruct (instruction_isolated o1 s us1 p pcb r Hok1 Hrun1 Hlast) as (us' & Hok' & Hrun' & His').
  intros o'. pose proof (isolated_trans _ _ _ _ _ _ _ His1 His') as His. split; [done|]. exists us'. split; [done|]. split; [done|].
  intros s0 us0 Hne Hs0. split; [by rewrite (is_others _ _ _ _ _ His)|]. apply space_bytes_ext. intros f Hf.
  destruct (oo_process _ Hok s0 us0 Hs0) as (p0 & pcb0 & Hp0).
  pose proof (so_range _ _ (pr_frames _ _ _ _ _ Hp0)) as Hr. rewrite Forall_forall in Hr. specialize (Hr f Hf). simpl in Hr.
  apply (is_memory _ _ _ _ _ His); [lia|]. apply (oo_apart _ Hok s0 s us0 us); [done|apply Hrun|done|done].
Qed.

Lemma user_isolation_witness :
  let o := demo_os false 0 0 in
  exists o1 r, instruction o o1 /\ OneInstruction (machine_of o1) = Ok r /\ os_ok (put_machine o1 (machine_in r)) /\
    space_bytes (u_memory (os_mem (put_machine o1 (machine_in r)))) [7] = space_bytes (u_memory (os_mem o)) [7].
Proof.
  intros o.
  assert (match OneInstruction (machine_of o) with
          | Ok (Done m _) => match OneInstruction (machine_of (put_machine o m)) with Ok _ => true | _ => false end
          | _ => false end = true) as Hrun by (vm_compute; reflexivity).
  destruct (OneInstruction (machine_of o)) as [[m a|m w b]| | |] eqn:H1; try discriminate Hrun.
  destruct (OneInstruction (machine_of (put_machine o m))) as [r| | |] eqn:H2; try discriminate Hrun.
  assert (instruction o (put_machine o m)) as Hi by (exists m, a; split; [exact H1|reflexivity]).
  destruct (user_isolation o (put_machine o m) 1 demo_us 1 demo_pcb r) as (Hok & us' & _ & _ & Hother).
  - apply demo_os_ok.
  - apply demo_os_running.
  - exact (rtc_once _ _ Hi).
  - exact H2.
  - exists (put_machine o m), r. split; [exact Hi|]. split; [exact H2|]. split; [exact Hok|].
    apply (Hother 2%positive (mkUS (mkSpace 1 (entries_for 0 [7])) (Some 2%positive))); [discriminate|vm_compute; reflexivity].
Defined.

(** A Read call from the console with a buffer that lies just below address 0 writes into
    the frame before the program's first one, whoever owns it: the characters and one byte
    more land at the end of that frame. *)
Theorem console_read_escapes `{Fresh} k f frames va size :
  caller_ok k (f :: frames) -> length (ks_buffer k) = 128%nat -> 1 <= f ->
  -128 < va < 0 -> 0 <= size -> va + size + 1 <= 0 ->
  exists k' b, myRead k va size ConsoleInput = Ok k' /\
    frame_bytes (mainMemory (ks_machine k')) (f - 1) =
      splice (frame_bytes (mainMemory (ks_machine k)) (f - 1)) (Z.to_nat (128 + va))
        ((getchars (Z.to_nat size) (ks_stdin k)).1 ++ [b]) /\
    forall g, 0 <= g < 32 -> g <> f - 1 ->
      frame_bytes (mainMemory (ks_machine k')) g = frame_bytes (mainMemory (ks_machine k)) g.
Proof.
  intros [Hsp Hmem Hreg _] Hbuf Hf Hva Hsz Hend. pose proof (getchars_length (Z.to_nat size) (ks_stdin k)) as Hcl.
  destruct (getchars (Z.to_nat size) (ks_stdin k)) as [cs stdin] eqn:Hget. simpl in Hcl.
  destruct (lookup_lt_is_Some_2 (ks_buffer k) (Z.to_nat size)) as [b Hb]; [lia|].
  set (buffer := splice (ks_buffer k) 0 cs).
  assert (take (Z.to_nat (size + 1)) buffer = cs ++ [b]) as Hbytes.
  { replace (Z.to_nat (size + 1)) with (S (Z.to_nat size)) by lia. rewrite (take_S_r _ _ b).
    - f_equal. rewrite <- Hcl. apply (splice_read (ks_buffer k) 0 cs). lia.
    - unfold buffer. rewrite splice_lookup by lia. by rewrite decide_False by lia. }
  destruct (putMem_negative (ks_space k) f frames (mainMemory (ks_machine k)) (cs ++ [b]) va Hsp Hmem Hf Hva)
    as (mem' & Hput & Hfr & Ho); [rewrite length_app; simpl; lia|].
  eexists _, b. split; [|split].
  - unfold myRead. change (ConsoleInput =? ConsoleInput) with true. cbv iota. simpl. rewrite Hget.
    rewrite put_bytes_in by (simpl; lia). cbn [mbind outcome_bind]. change (Z.to_nat 0) with 0%nat. fold buffer.
    rewrite s32_small by (unfold is_s32, two31; lia).
    rewrite get_bytes_in by (unfold buffer; rewrite ?splice_length; lia). cbn [mbind outcome_bind].
    change (drop (Z.to_nat 0) buffer) with buffer. rewrite Hbytes, Hput. cbn [mbind outcome_bind].
    rewrite WriteRegister_2 by done. reflexivity.
  - exact Hfr.
  - exact Ho.
Qed.

Lemma console_read_escapes_witness :
  let k := mkKsys demo_machine (replicate 128 0) (mkSpace 2 (entries_for 0 [2; 5])) demo_pcb idle_pm ∅ ∅ demo_fs demo_os_disk
             IntOn [65; 66] [] in
  exists k' b, myRead (H := zero_fresh) k (-3) 2 ConsoleInput = Ok k' /\
    frame_bytes (mainMemory (ks_machine k')) 1 = splice (frame_bytes (mainMemory demo_machine) 1) 125 [65; 66; b].
Proof.
  intros k. destruct (console_read_escapes (H := zero_fresh) k 2 [5] (-3) 2) as (k' & b & Hrun & Hf & _).
  - split; [|reflexivity|reflexivity|apply demo_sectors_ok; by repeat constructor].
    split; [reflexivity|reflexivity|apply entries_for_valid|repeat constructor; lia|].
    apply (bool_decide_unpack _). vm_compute. exact I.
  - reflexivity.
  - lia.
  - lia.
  - lia.
  - lia.
  - exists k', b. split; [exact Hrun|exact Hf].
Defined.
