(* ===== verification/VmSpace.v ===== *)
(** * The build with virtual memory: addrspace.cc, translate.cc and exception.cc with [VM]

    The page tables of this build name pages of the swap file; main memory is a cache of them
    that Pager.v manages. The pager keeps pointers to the entries of the page tables, so these
    are objects at addresses: a page table is a list of addresses. The executables are UNIX
    files, as in the build with the stub file system.

    [contents] of Pager.v says what a swap page holds for its owner; the memory of a program is
    the contents of its pages, one after the other. *)

From stdpp Require Import prelude numbers gmap list.
From S2P Require Import Prelude Params BitMap Mips Machine Replacement Pager OpenFile AddrSpace.

Open Scope Z_scope.

Record VmSpace := mkVmSpace { vs_numPages : Z; vs_table : list positive }.

Section vmspace.
Context {M P : Type} `{BitAllocator M} `{Replacement P} `{Fresh}.
Implicit Types v : vm M P.

(** A new page table entry. *)
Definition add_entry v (e : TranslationEntry) : positive * vm M P :=
  let p := fresh (dom (entries v)) in (p, with_entries v (<[p := e]> (entries v))).

(** ** userprog/addrspace.cc *)

(** [for( i = 0; i < numPages; i++ )]: a swap page and an entry for each page. *)
Fixpoint VM_new_pages (n : nat) (i : Z) v : outcome (list positive * vm M P) :=
  match n with
  | O => Ok ([], v)
  | S n =>
      '(pageNum, v) ← VMManager_getPage v;
      let '(p, v) := add_entry v (mkEntry i pageNum false false false false) in
      '(t, v) ← VM_new_pages n (i + 1) v;
      Ok (p :: t, v)
  end.

(** The entry of page [vPageNum]. *)
Definition entry_at v (sp : VmSpace) (vPageNum : Z) : outcome (positive * TranslationEntry) :=
  p ← arr_get (vs_table sp) vPageNum;
  e ← deref (entries v !! p);
  Ok (p, e).

Fixpoint VM_ReadFile_loop (fuel : nat) (sp : VmSpace) (file : list Z) v (copySize vAddr size fileAddr : Z)
    : outcome (Z * vm M P) :=
  match fuel with
  | O => NoFuel
  | S fuel =>
      if size <=? 0 then Ok (1, v)
      else
        let copySize := if size <? PageSize then size else copySize in
        let offset := cmod vAddr PageSize in
        let copySize := if PageSize <=? copySize + offset then PageSize - offset else copySize in
        b ← file_ReadAt file (diskBuffer v) copySize fileAddr;
        let v := with_diskBuffer v b in
        '(_, e) ← entry_at v sp (cdiv vAddr PageSize);
        data ← get_bytes (diskBuffer v) 0 copySize;
        v ← VMManager_writePage v (physicalPage e) data offset;
        VM_ReadFile_loop fuel sp file v copySize (s32 (vAddr + copySize)) (size - copySize) (s32 (fileAddr + copySize))
  end.

Definition VM_ReadFile (sp : VmSpace) (file : list Z) v (vAddr size fileAddr : Z) : outcome (Z * vm M P) :=
  VM_ReadFile_loop (S (Z.to_nat size)) sp file v PageSize vAddr size fileAddr.

Definition VM_load_segment (sp : VmSpace) (file : list Z) v (s : Segment) : outcome (vm M P) :=
  if 0 <? seg_size s then
    '(_, v) ← VM_ReadFile sp file v (seg_virtualAddr s) (seg_size s) (seg_inFileAddr s);
    Ok v
  else Ok v.

(** The constructor, but for the [PCB]. *)
Definition VM_AddrSpace_new (executable : list Z) v : outcome (VmSpace * vm M P) :=
  bytes ← file_ReadAt executable (fresh_bytes 40) 40 0;
  noffH ← deref (noff_of_words (map s32 (bytes_to_words 10 bytes)));
  let noffH := if negb (noffMagic noffH =? NOFFMAGIC) && (WordToHost (noffMagic noffH) =? NOFFMAGIC)
               then SwapHeader noffH else noffH in
  ASSERT (noffMagic noffH =? NOFFMAGIC);;
  let size := u32 (seg_size (noff_code noffH) + seg_size (noff_initData noffH) + seg_size (noff_uninitData noffH)
                   + UserStackSize) in
  let numPages := divRoundUp size PageSize in
  free ← VMManager_getFreePageCount v;
  ASSERT (numPages <=? u32 free);;
  '(t, v) ← VM_new_pages (Z.to_nat numPages) 0 v;
  let sp := mkVmSpace numPages t in
  v ← VM_load_segment sp executable v (noff_code noffH);
  v ← VM_load_segment sp executable v (noff_initData noffH);
  Ok (sp, v).

(** The destructor, but for the [PCB]; then the entries are gone. *)
Fixpoint VM_clear_pages (t : list positive) v : outcome (vm M P) :=
  match t with
  | [] => Ok v
  | p :: t =>
      '(_, v) ← VMManager_getPhysicalPage v p;
      e ← deref (entries v !! p);
      v ← VMManager_clearPage v (physicalPage e);
      VM_clear_pages t v
  end.

Definition VM_AddrSpace_delete (sp : VmSpace) v : outcome (vm M P) :=
  v ← VM_clear_pages (take (Z.to_nat (vs_numPages sp)) (vs_table sp)) v;
  Ok (with_entries v (foldr delete (entries v) (vs_table sp))).

Fixpoint VM_copy_pages (n : nat) (i : Z) (sp : VmSpace) v : outcome (list positive * vm M P) :=
  match n with
  | O => Ok ([], v)
  | S n =>
      '(pageNum, v) ← VMManager_getPage v;
      ASSERT (0 <=? pageNum);;
      '(_, e) ← entry_at v sp i;
      v ← VMManager_copy v (physicalPage e) pageNum;
      let '(p, v) := add_entry v (mkEntry i pageNum false false false false) in
      '(t, v) ← VM_copy_pages n (i + 1) sp v;
      Ok (p :: t, v)
  end.

Definition VM_CopyAddrSpace (sp : VmSpace) v : outcome (VmSpace * vm M P) :=
  '(t, v) ← VM_copy_pages (Z.to_nat (vs_numPages sp)) 0 sp v;
  Ok (mkVmSpace (vs_numPages sp) t, v).

(** The kernel's translation; [None] is the result FALSE. *)
Definition VM_AddrSpace_Translate v (sp : VmSpace) (virtAddr : Z) : outcome (option Z * vm M P) :=
  let vPageNum := cdiv virtAddr PageSize in
  let offset := cmod virtAddr PageSize in
  if vs_numPages sp <=? u32 vPageNum then Ok (None, v)
  else
    p ← arr_get (vs_table sp) vPageNum;
    '(pPageNum, v) ← VMManager_getPhysicalPage v p;
    Ok (Some (s32 (pPageNum * PageSize + offset)), v).

(** ** machine/translate.cc *)

(** [Machine::Translate] with the page table [sp]. [ASSERT( pageFrame >= 0 )] is about an
    unsigned number. *)
Definition VM_Translate v (sp : VmSpace) (virtAddr size : Z) (writing : bool)
    : outcome (vm M P * (ExceptionType + Z)) :=
  if misaligned virtAddr size then Ok (v, inl AddressErrorException)
  else
    let vpn := u32 virtAddr `div` PageSize in
    let offset := u32 virtAddr `mod` PageSize in
    if vs_numPages sp <=? vpn then Ok (v, inl AddressErrorException)
    else
      '(p, entry) ← entry_at v sp vpn;
      if negb (valid entry) then Ok (v, inl PageFaultException)
      else if readOnly entry && writing then Ok (v, inl ReadOnlyException)
      else
        '(pageFrame, v) ← VMManager_getPhysicalPage v p;
        v ← VMManager_markPage v pageFrame;
        if NumPhysPages <=? u32 pageFrame then Ok (v, inl BusErrorException)
        else
          entry ← deref (entries v !! p);
          let v := with_entries v (<[p := mkEntry (virtualPage entry) (physicalPage entry) (valid entry) (readOnly entry) true
                                            (if writing then true else dirty entry)]> (entries v)) in
          let physAddr := s32 (u32 pageFrame * PageSize + offset) in
          ASSERT ((0 <=? physAddr) && (physAddr + size <=? MemorySize));;
          Ok (v, inr physAddr).

(** The bytes that [ReadMem] and [WriteMem] move. *)
Definition load_value (mem : list Z) (pa size : Z) : outcome Z :=
  if size =? 1 then b ← arr_get mem pa; Ok (s8 b)
  else if size =? 2 then
    b0 ← arr_get mem pa; b1 ← arr_get mem (pa + 1); Ok (bytes_word b0 b1 0 0)
  else if size =? 4 then
    b0 ← arr_get mem pa; b1 ← arr_get mem (pa + 1); b2 ← arr_get mem (pa + 2); b3 ← arr_get mem (pa + 3);
    Ok (s32 (bytes_word b0 b1 b2 b3))
  else AssertFail.

Definition store_value (mem : list Z) (pa size value : Z) : outcome (list Z) :=
  bs ← (if size =? 1 then Ok [Z.land value 0xff]
        else if size =? 2 then Ok (take 2 (word_bytes (Z.land value 0xffff)))
        else if size =? 4 then Ok (word_bytes (u32 value))
        else AssertFail);
  store_bytes mem pa bs.

Definition VM_ReadMem v (sp : VmSpace) (addr size : Z) : outcome (vm M P * (ExceptionType + Z)) :=
  '(v, t) ← VM_Translate v sp addr size false;
  match t with
  | inl exc => Ok (v, inl exc)
  | inr pa => x ← load_value (mainMemory v) pa size; Ok (v, inr x)
  end.

Definition VM_WriteMem v (sp : VmSpace) (addr size value : Z) : outcome (vm M P * (ExceptionType + unit)) :=
  '(v, t) ← VM_Translate v sp addr size true;
  match t with
  | inl exc => Ok (v, inl exc)
  | inr pa => mem ← store_value (mainMemory v) pa size value; Ok (with_memory v mem, inr ())
  end.

(** ** userprog/exception.cc *)

Definition VM_PageFaultHandler v (sp : VmSpace) (vAddr : Z) : outcome (vm M P) :=
  '(p, _) ← entry_at v sp (cdiv vAddr PageSize);
  '(_, v) ← VMManager_swap v p;
  e ← deref (entries v !! p);
  Ok (with_entries v (<[p := mkEntry (virtualPage e) (physicalPage e) true (readOnly e) (use e) (dirty e)]> (entries v))).

(** An access of a program: after a page fault the handler runs and the instruction is
    executed again. *)
Definition VM_access {A} (access : vm M P -> outcome (vm M P * (ExceptionType + A))) v (sp : VmSpace) (addr : Z)
    : outcome (vm M P * (ExceptionType + A)) :=
  '(v, r) ← access v;
  match r with
  | inl PageFaultException => v ← VM_PageFaultHandler v sp addr; access v
  | _ => Ok (v, r)
  end.

Definition VM_load v (sp : VmSpace) (addr size : Z) : outcome (vm M P * (ExceptionType + Z)) :=
  VM_access (fun v => VM_ReadMem v sp addr size) v sp addr.
Definition VM_store v (sp : VmSpace) (addr size value : Z) : outcome (vm M P * (ExceptionType + unit)) :=
  VM_access (fun v => VM_WriteMem v sp addr size value) v sp addr.
End vmspace.

(** ** The invariant *)

Section refinement.
Context {M P : Type} `{BitAllocatorLaws M} `{ReplacementLaws P}.
Implicit Types v : vm M P.

(** Every entry has a page of swap of its own. *)
Record vm_ok v : Prop := {
  vo_core : core_ok v;
  vo_alloc : alloc_ok v;
  vo_swap : swap_ok v;
  vo_inj p p' e e' : entries v !! p = Some e -> entries v !! p' = Some e' -> physicalPage e = physicalPage e' -> p = p';
  vo_entry p e : entries v !! p = Some e ->
    0 <= physicalPage e < SWAP_SIZE /\ on_swap v (physicalPage e) /\ ba_used (swapMap v) (physicalPage e) = true /\
    readOnly e = false }.

(** A page that is not valid is not in main memory. *)
Definition lazy_ok v : Prop := forall p e, entries v !! p = Some e -> valid e = false -> ~ (physicalPage e ∈ activePageMap v).

(** The pages of the space [sp] are the swap pages [ss]. *)
Record maps v (sp : VmSpace) (ss : list Z) : Prop := {
  mp_size : vs_numPages sp = Z.of_nat (length (vs_table sp));
  mp_pages : Forall2 (fun p s => exists e, entries v !! p = Some e /\ physicalPage e = s) (vs_table sp) ss;
  mp_nodup : NoDup (vs_table sp) }.

(** The memory of a program. *)
Definition memory_of v (ss : list Z) : list Z := concat (contents v <$> ss).

Lemma maps_length v sp ss : maps v sp ss -> length ss = length (vs_table sp).
Proof. intros [_ Hp _]. symmetry. by eapply Forall2_length. Qed.

Lemma maps_at v sp ss k s : maps v sp ss -> ss !! k = Some s ->
  exists p e, vs_table sp !! k = Some p /\ entries v !! p = Some e /\ physicalPage e = s.
Proof.
  intros [_ Hp _] Hk. destruct (Forall2_lookup_r _ _ _ _ _ Hp Hk) as (p & Ht & e & He & Hs). by exists p, e.
Qed.

Lemma maps_nodup v sp ss : vm_ok v -> maps v sp ss -> NoDup ss.
Proof.
  intros Hv Hm. apply NoDup_alt. intros i j s Hi Hj. destruct (maps_at _ _ _ _ _ Hm Hi) as (p & e & Hp & He & <-).
  destruct (maps_at _ _ _ _ _ Hm Hj) as (p' & e' & Hp' & He' & Heq).
  apply (NoDup_lookup (vs_table sp) i j p (mp_nodup _ _ _ Hm) Hp). by rewrite (vo_inj _ Hv p p' e e').
Qed.

Lemma maps_on_swap v sp ss s : vm_ok v -> maps v sp ss -> s ∈ ss ->
  0 <= s < SWAP_SIZE /\ on_swap v s /\ ba_used (swapMap v) s = true.
Proof.
  intros Hv Hm [k Hk]%list_elem_of_lookup. destruct (maps_at _ _ _ _ _ Hm Hk) as (p & e & _ & He & <-).
  by destruct (vo_entry _ Hv p e He) as (? & ? & ? & _).
Qed.

(** Entries may change but for the part that names the page. *)
Lemma maps_mapping v v' sp ss :
  (physicalPage <$> entries v' = physicalPage <$> entries v) -> maps v sp ss -> maps v' sp ss.
Proof.
  intros He [Hs Hp Hn]. split; try done. eapply Forall2_impl; [exact Hp|]. intros p s (e & Hlk & <-).
  assert ((physicalPage <$> entries v') !! p = Some (physicalPage e)) as Hx by (rewrite He, lookup_fmap, Hlk; done).
  rewrite lookup_fmap in Hx. destruct (entries v' !! p) as [e'|]; [|done]. injection Hx as Hx. by exists e'.
Qed.

Lemma contents_length v s : core_ok v -> on_swap v s -> length (contents v s) = 128%nat.
Proof.
  intros Hc [Hs0 Hs1]. unfold contents. destruct (list_find _ _) as [[i x]|] eqn:Hf.
  - apply list_find_Some in Hf as (Hi & _). apply lookup_lt_Some in Hi. rewrite (co_map _ Hc) in Hi.
    apply page_length. rewrite (co_mem _ Hc). lia.
  - apply page_length. lia.
Qed.

Lemma memory_pieces v sp ss : vm_ok v -> maps v sp ss -> pieces 128 (contents v <$> ss).
Proof.
  intros Hv Hm. apply Forall_fmap, Forall_forall. intros s Hs. destruct (maps_on_swap v sp ss s Hv Hm Hs) as (_ & Ho & _).
  apply contents_length; [apply Hv|done].
Qed.

Lemma memory_length v sp ss : vm_ok v -> maps v sp ss -> length (memory_of v ss) = (128 * length ss)%nat.
Proof. intros Hv Hm. unfold memory_of. rewrite (pieces_length 128) by (by eapply memory_pieces). by rewrite length_fmap. Qed.

Lemma memory_ext v v' ss : (forall s, s ∈ ss -> contents v' s = contents v s) -> memory_of v' ss = memory_of v ss.
Proof. intros Hs. unfold memory_of. f_equal. apply list_fmap_ext. intros i s Hi. apply Hs. by eapply list_elem_of_lookup_2. Qed.

(** A byte of the program is a byte of one of its pages. *)
Lemma memory_lookup v sp ss k s o : vm_ok v -> maps v sp ss -> ss !! k = Some s -> (o < 128)%nat ->
  memory_of v ss !! (128 * k + o)%nat = contents v s !! o.
Proof.
  intros Hv Hm Hk Ho. unfold memory_of. rewrite (pieces_lookup 128) by (lia || by eapply memory_pieces).
  assert ((128 * k + o) / 128 = k)%nat as -> by (symmetry; apply (Nat.div_unique _ 128 k o); lia).
  assert ((128 * k + o) mod 128 = o)%nat as -> by (symmetry; apply (Nat.mod_unique _ 128 k o); lia).
  rewrite list_lookup_fmap, Hk. done.
Qed.

(** Changing bytes within a page. *)
Lemma memory_splice v v' sp ss k s o data :
  vm_ok v -> vm_ok v' -> maps v sp ss -> maps v' sp ss -> ss !! k = Some s -> (o + length data <= 128)%nat ->
  contents v' s = splice (contents v s) o data -> (forall s', on_swap v s' -> s' <> s -> contents v' s' = contents v s') ->
  memory_of v' ss = splice (memory_of v ss) (128 * k + o) data.
Proof.
  intros Hv Hv' Hm Hm' Hk Ho Hs Hother. pose proof (lookup_lt_Some _ _ _ Hk) as Hlt. apply list_eq. intros j.
  rewrite splice_lookup by (rewrite (memory_length v sp) by done; lia).
  destruct (decide (j < 128 * length ss)%nat) as [Hj|Hj].
  2: { rewrite decide_False by lia. rewrite !lookup_ge_None_2; [done| |]; erewrite memory_length; (done || lia). }
  pose proof (Nat.div_mod_eq j 128) as Hdm. pose proof (Nat.mod_upper_bound j 128 ltac:(lia)) as Hmb.
  destruct (lookup_lt_is_Some_2 ss (j / 128)) as [s1 Hs1]; [by apply Nat.Div0.div_lt_upper_bound|].
  rewrite Hdm. rewrite (memory_lookup v' sp ss _ s1) by done. rewrite (memory_lookup v sp ss _ s1) by done.
  destruct (maps_on_swap v sp ss s1 Hv Hm) as (_ & Hon1 & _); [by eapply list_elem_of_lookup_2|].
  destruct (decide (j / 128 = k)%nat) as [Heq|Hne].
  - assert (s1 = s) as -> by congruence. rewrite Hs. rewrite splice_lookup by (rewrite contents_length; [lia|apply Hv|done]).
    rewrite Heq. destruct (decide (o <= j mod 128 < o + length data)%nat).
    + rewrite decide_True by lia. f_equal. lia.
    + by rewrite decide_False by lia.
  - rewrite decide_False by lia. rewrite Hother; [done|done|]. intros ->.
    apply Hne. by apply (NoDup_lookup ss _ _ s (maps_nodup v sp ss Hv Hm)).
Qed.

(** ** Serving pages *)

Lemma mapping_at (m m' : gmap positive TranslationEntry) p e' : mapping <$> m' = mapping <$> m -> m' !! p = Some e' ->
  exists e, m !! p = Some e /\ mapping e' = mapping e.
Proof.
  intros He Hp. assert ((mapping <$> m) !! p = Some (mapping e')) as Hx by (rewrite <- He, lookup_fmap, Hp; done).
  rewrite lookup_fmap in Hx. destruct (m !! p) as [e|]; [|done]. injection Hx as ? ? ? ?. exists e. split; [done|].
  unfold mapping. congruence.
Qed.

Lemma mapping_physical (m m' : gmap positive TranslationEntry) :
  mapping <$> m' = mapping <$> m -> physicalPage <$> m' = physicalPage <$> m.
Proof.
  intros He. apply (f_equal (fmap (fun x : Z * Z * bool * bool => x.1.1.2))) in He.
  rewrite <- !map_fmap_compose in He. exact He.
Qed.

Lemma served_ok v v' p e i : vm_ok v -> entries v !! p = Some e -> served v v' (physicalPage e) i -> vm_ok v'.
Proof.
  intros [Hc Ha [Hs1 Hs2 Hs3] Hinj Hent] He Hsv. pose proof Hsv as [S1 S2 S3 S4 S5 S6 S7 S8 S9]. split; try done.
  - split; rewrite S6; try done. intros s [->|Hin]%S8 Hne; [|by apply Hs3]. destruct (Hent p e He) as (? & _ & ? & _). by split; [lia|].
  - intros p1 p2 e1 e2 L1 L2. destruct (mapping_at _ _ _ _ S7 L1) as (f1 & F1 & G1), (mapping_at _ _ _ _ S7 L2) as (f2 & F2 & G2).
    injection G1 as _ -> _ _. injection G2 as _ -> _ _. exact (Hinj p1 p2 f1 f2 F1 F2).
  - intros p1 e1 L1. destruct (mapping_at _ _ _ _ S7 L1) as (f1 & F1 & G1). injection G1 as _ -> _ ->.
    destruct (Hent p1 f1 F1) as (R1 & R2 & R3 & R4). unfold on_swap. rewrite S5, S6. by split; [|split].
Qed.

Lemma served_lazy v v' p e i :
  lazy_ok v -> vm_ok v -> entries v !! p = Some e -> valid e = true -> served v v' (physicalPage e) i -> lazy_ok v'.
Proof.
  intros Hl Hv He Hva Hsv p1 e1 L1 Hv1 Hin. destruct (mapping_at _ _ _ _ (sv_entries _ _ _ _ Hsv) L1) as (f1 & F1 & G1).
  injection G1 as _ G2 G3 _. destruct (sv_resident _ _ _ _ Hsv _ Hin) as [Heq|Hin'].
  - assert (p1 = p) as -> by (apply (vo_inj _ Hv p1 p f1 e F1 He); congruence). congruence.
  - apply (Hl p1 f1 F1); congruence.
Qed.

(** The frame that serves a page belongs to the entry of the page. *)
Lemma served_active v v' p e i : vm_ok v -> entries v !! p = Some e -> served v v' (physicalPage e) i ->
  activePages v' !! i = Some (Some p).
Proof.
  intros Hv He Hsv. destruct (vo_entry _ Hv p e He) as (R1 & _).
  destruct (co_active _ (sv_core _ _ _ _ Hsv) i _ (sv_map _ _ _ _ Hsv)) as (_ & p' & e' & Hp' & He' & Heq & _); [lia|].
  destruct (mapping_at _ _ _ _ (sv_entries _ _ _ _ Hsv) He') as (f & F & G). injection G as _ G _ _.
  rewrite Hp'. do 2 f_equal. apply (vo_inj _ Hv p' p f e F He). congruence.
Qed.

(** An entry changes, but not the page that it names; it may become dirty but not clean. *)
Lemma set_entry_ok v p e e' :
  vm_ok v -> entries v !! p = Some e -> physicalPage e' = physicalPage e -> readOnly e' = readOnly e ->
  (dirty e' = false -> dirty e = false) -> vm_ok (with_entries v (<[p := e']> (entries v))).
Proof.
  intros [[C1 C2 C3 C4 C5 C6] [A1 A2 A3 A4] [S1 S2 S3] Hinj Hent] He Hp Hr Hd.
  assert (forall q f, <[p := e']> (entries v) !! q = Some f ->
    exists f0, entries v !! q = Some f0 /\ physicalPage f = physicalPage f0 /\ readOnly f = readOnly f0) as Hold.
  { intros q f [[<- <-]|[_ Hq]]%lookup_insert_Some; [by exists e|by exists f]. }
  split; [split; try done|by split|by split|..].
  - intros i s Hi Hs. destruct (C6 i s Hi Hs) as (Ho & q & f & Hq & Hf & Hfs & Hcl). split; [done|].
    destruct (decide (q = p)) as [->|Hne].
    + exists p, e'. assert (f = e) as -> by congruence. simpl. rewrite lookup_insert_eq. split_and!; try done; [congruence|].
      intros Hd'. apply Hcl. by apply Hd.
    + exists q, f. simpl. rewrite lookup_insert_ne by done. by split_and!.
  - simpl. intros q1 q2 f1 f2 L1 L2. destruct (Hold q1 f1 L1) as (g1 & G1 & -> & _), (Hold q2 f2 L2) as (g2 & G2 & -> & _). exact (Hinj q1 q2 g1 g2 G1 G2).
  - simpl. intros q f Hq. destruct (Hold q f Hq) as (g & G & -> & ->). exact (Hent q g G).
Qed.

(** Storing into a frame whose entry is dirty. *)
Lemma frame_write v i s p e o data :
  core_ok v -> activePageMap v !! i = Some s -> 0 <= s -> activePages v !! i = Some (Some p) ->
  entries v !! p = Some e -> dirty e = true -> (o + length data <= 128)%nat ->
  let v' := with_memory v (splice (mainMemory v) (128 * i + o) data) in
  core_ok v' /\ contents v' s = splice (contents v s) o data /\
  forall s', on_swap v s' -> s' <> s -> contents v' s' = contents v s'.
Proof.
  intros Hc Hi Hs Hp He Hd Ho v'. pose proof Hc as [C1 C2 C3 C4 C5 C6].
  pose proof (lookup_lt_Some _ _ _ Hi) as Hlt. rewrite C3 in Hlt.
  assert (forall j, (j < 32)%nat -> j <> i -> frame v' j = frame v j) as Hother.
  { intros j Hj Hne. unfold frame. apply list_eq. intros x. destruct (decide (x < 128)%nat) as [Hx|Hx].
    - rewrite !page_lookup by done. simpl. rewrite splice_lookup by lia. rewrite decide_False by lia. done.
    - unfold page. rewrite !lookup_take_ge by lia. done. }
  assert (frame v' i = splice (frame v i) o data) as Hhere.
  { unfold frame. apply list_eq. intros x. rewrite splice_lookup by (rewrite page_length; lia).
    destruct (decide (x < 128)%nat) as [Hx|Hx].
    - rewrite !page_lookup by done. simpl. rewrite splice_lookup by lia.
      destruct (decide (o <= x < o + length data)%nat); [rewrite decide_True by lia; f_equal; lia|by rewrite decide_False by lia].
    - rewrite decide_False by lia. unfold page. rewrite !lookup_take_ge by lia. done. }
  assert (core_ok v') as Hc'.
  { split; try done; [simpl; rewrite splice_length; lia|].
    intros j t Hj Ht. destruct (C6 j t Hj Ht) as (Hon & q & f & Hq & Hf & Hfs & Hcl). split; [done|]. exists q, f. split_and!; try done.
    intros Hdf. destruct (decide (j = i)) as [->|Hne]; [congruence|]. rewrite Hother; [by apply Hcl| |done].
    apply lookup_lt_Some in Hj. simpl in Hj. by rewrite C3 in Hj. }
  split; [done|]. split.
  - rewrite (contents_frame v' i s Hc' Hi), (contents_frame v i s Hc Hi) by lia. done.
  - intros s' Hon Hne. destruct (decide (s' ∈ activePageMap v)) as [[j Hj]%list_elem_of_lookup|Hn].
    + destruct Hon. rewrite (contents_frame v' j s' Hc' Hj), (contents_frame v j s' Hc Hj) by lia.
      apply Hother; [apply lookup_lt_Some in Hj; by rewrite C3 in Hj|]. congruence.
    + by rewrite (contents_swapped v s' Hn), (contents_swapped v' s' Hn).
Qed.

(** ** Translation *)

(** [v'] serves the page of entry [p] from frame [i]; nothing has changed for the programs. *)
Record translates v v' (p : positive) (e : TranslationEntry) (i : nat) (writing : bool) : Prop := {
  ts_ok : vm_ok v';
  ts_frame : (i < 32)%nat;
  ts_map : activePageMap v' !! i = Some (physicalPage e);
  ts_active : activePages v' !! i = Some (Some p);
  ts_entry : exists e', entries v' !! p = Some e' /\ (writing = true -> dirty e' = true);
  ts_entries : mapping <$> entries v' = mapping <$> entries v;
  ts_lazy : lazy_ok v -> valid e = true -> lazy_ok v';
  ts_swapMap : swapMap v' = swapMap v;
  ts_contents s : on_swap v s -> on_swap v' s /\ contents v' s = contents v s }.

(** The policy is told of the use of a frame. *)
Lemma mark_ok v i s : vm_ok v -> activePageMap v !! i = Some s -> s <> -1 ->
  exists pol, VMManager_markPage v (Z.of_nat i) = Ok (with_policy v pol) /\ vm_ok (with_policy v pol).
Proof.
  intros [Hc [A1 A2 A3 A4] Hs Hinj Hent] Hi Hne. unfold VMManager_markPage.
  pose proof (lookup_lt_Some _ _ _ Hi) as Hlt. rewrite (co_map _ Hc) in Hlt.
  destruct (rp_mark (policy v) (used_frames (activePageMap v)) (Z.of_nat i) A4) as (pol & -> & Hpol).
  { apply elem_of_used_frames. rewrite Nat2Z.id. split; [lia|]. congruence. }
  exists pol. split; [done|]. split; try done; [by destruct Hc; split|by destruct Hs; split].
Qed.

Lemma page_in_use v p e i : vm_ok v -> entries v !! p = Some e ->
  forall v', served v v' (physicalPage e) i -> exists pol, VMManager_markPage v' (Z.of_nat i) = Ok (with_policy v' pol) /\
    vm_ok (with_policy v' pol) /\ exists e', entries v' !! p = Some e' /\ mapping e' = mapping e.
Proof.
  intros Hv He v' Hsv. destruct (vo_entry _ Hv p e He) as (R1 & _).
  destruct (mark_ok v' i (physicalPage e)) as (pol & Hm & Hok); [by eapply served_ok|apply Hsv|lia|].
  exists pol. split; [done|]. split; [done|].
  assert (mapping <$> entries v = mapping <$> entries v') as Hmap by (symmetry; apply Hsv).
  destruct (mapping_at _ _ p e Hmap He) as (e' & He' & Heq). by exists e'.
Qed.

Lemma VM_Translate_ok v sp va size writing p e :
  vm_ok v -> vs_numPages sp = Z.of_nat (length (vs_table sp)) -> access_size size -> misaligned va size = false ->
  vs_table sp !! Z.to_nat (u32 va `div` 128) = Some p -> entries v !! p = Some e -> valid e = true ->
  exists i v', VM_Translate v sp va size writing = Ok (v', inr (128 * Z.of_nat i + u32 va `mod` 128)) /\
    u32 va `mod` 128 + size <= 128 /\ translates v v' p e i writing.
Proof.
  intros Hv Hn Hsz Hal Ht He Hva. pose proof (u32_range va) as Hu. unfold is_u32 in Hu.
  pose proof (lookup_lt_Some _ _ _ Ht) as Hlt. destruct (vo_entry _ Hv p e He) as (R1 & R2 & R3 & R4).
  destruct (getPhysicalPage_serves v p e (vo_core _ Hv) (vo_alloc _ Hv) He R2) as (i & v1 & Hg & Hi & Hsv).
  destruct (page_in_use v p e i Hv He v1 Hsv) as (pol & Hmark & Hok2 & e1 & He1 & Hmap1).
  destruct (aligned_offset va size Hsz Hal) as (k & Hk & Hkb). change PageSize with 128 in *.
  set (off := u32 va `mod` 128) in *.
  set (e2 := mkEntry (virtualPage e1) (physicalPage e1) (valid e1) (readOnly e1) true (if writing then true else dirty e1)).
  exists i, (with_entries (with_policy v1 pol) (<[p := e2]> (entries v1))). split; [|split; [lia|]].
  - unfold VM_Translate. rewrite Hal. change PageSize with 128. fold off.
    assert (0 <= u32 va `div` 128) as Hd0 by (apply Z.div_pos; lia).
    destruct (Z.leb_spec (vs_numPages sp) (u32 va `div` 128)); [lia|]. unfold entry_at.
    rewrite (proj2 (arr_get_ok _ _ p)) by (split; [lia|done]). cbn [mbind outcome_bind]. rewrite He. cbn [mbind outcome_bind deref].
    rewrite Hva, R4. cbn [negb andb]. rewrite Hg. cbn [mbind outcome_bind]. rewrite Hmark. cbn [mbind outcome_bind].
    rewrite (u32_small (Z.of_nat i)) by (unfold is_u32, two32; lia). change NumPhysPages with 32.
    destruct (Z.leb_spec 32 (Z.of_nat i)); [lia|]. cbn [entries with_policy]. rewrite He1. cbn [mbind outcome_bind deref].
    fold e2. rewrite s32_small by (unfold is_s32, two31, access_size in *; lia).
    change MemorySize with 4096. rewrite ASSERT_true by (unfold access_size in *; lia).
    cbn [mbind outcome_bind]. do 3 f_equal. lia.
  - pose proof Hsv as [S1 S2 S3 S4 S5 S6 S7 S8 S9]. injection Hmap1 as M1 M2 M3 M4.
    assert (mapping <$> <[p := e2]> (entries v1) = mapping <$> entries v1) as Hme.
    { rewrite fmap_insert. apply insert_id. by rewrite lookup_fmap, He1. }
    split; try done.
    + apply (set_entry_ok (with_policy v1 pol) p e1 e2); try done. simpl. by destruct writing.
    + by apply (served_active v v1 p e i).
    + exists e2. simpl. rewrite lookup_insert_eq. split; [done|]. simpl. by intros ->.
    + simpl. by rewrite Hme.
    + intros Hl _. intros q f Hq Hf. simpl in Hq |- *.
      destruct (mapping_at (entries v1) _ q f Hme Hq) as (f0 & Hf0 & G). injection G as _ -> G _.
      apply (served_lazy v v1 p e i Hl Hv He Hva Hsv q f0 Hf0). congruence.
    + intros s Hon. split; [unfold on_swap; simpl; rewrite S5; exact Hon|]. exact (S9 s Hon).
Qed.

(** ** Accesses of a program *)

Lemma maps_small v sp ss : vm_ok v -> maps v sp ss -> (length ss <= 512)%nat.
Proof.
  intros Hv Hm. change 512%nat with (length (seqZ 0 512)). apply submseteq_length, NoDup_submseteq; [by eapply maps_nodup|].
  intros s Hs. apply elem_of_seqZ. destruct (maps_on_swap v sp ss s Hv Hm Hs) as (Hr & _). unfold SWAP_SIZE in Hr. lia.
Qed.

Lemma VM_PageFaultHandler_ok v sp ss va p e :
  vm_ok v -> lazy_ok v -> maps v sp ss -> 0 <= va -> vs_table sp !! Z.to_nat (va `div` 128) = Some p ->
  entries v !! p = Some e -> valid e = false ->
  exists v' e', VM_PageFaultHandler v sp va = Ok v' /\ vm_ok v' /\ lazy_ok v' /\ maps v' sp ss /\
    entries v' !! p = Some e' /\ valid e' = true /\ physicalPage e' = physicalPage e /\ swapMap v' = swapMap v /\
    (physicalPage <$> entries v' = physicalPage <$> entries v) /\
    forall s, on_swap v s -> on_swap v' s /\ contents v' s = contents v s.
Proof.
  intros Hv Hl Hm Hva Ht He Hval. destruct (vo_entry _ Hv p e He) as (R1 & R2 & R3 & R4).
  destruct (swap_serves v p e (vo_core _ Hv) (vo_alloc _ Hv) He R2 (Hl p e He Hval)) as (i & v1 & Hsw & Hsv).
  pose proof Hsv as [S1 S2 S3 S4 S5 S6 S7 S8 S9].
  destruct (mapping_at _ _ p e (eq_sym S7) He) as (e1 & He1 & Hmap1). injection Hmap1 as M1 M2 M3 M4.
  set (e2 := mkEntry (virtualPage e1) (physicalPage e1) true (readOnly e1) (use e1) (dirty e1)).
  exists (with_entries v1 (<[p := e2]> (entries v1))), e2.
  assert (physicalPage <$> <[p := e2]> (entries v1) = physicalPage <$> entries v) as Hphys.
  { rewrite <- (mapping_physical _ _ S7), fmap_insert. apply insert_id. by rewrite lookup_fmap, He1. }
  assert (vm_ok v1) as Hv1 by (by eapply served_ok).
  split; [|split_and!]; try done.
  - unfold VM_PageFaultHandler, entry_at. change PageSize with 128. rewrite cdiv_nonneg by lia.
    rewrite (proj2 (arr_get_ok _ _ p)) by (split; [apply Z.div_pos; lia|done]). cbn [mbind outcome_bind].
    rewrite He. cbn [mbind outcome_bind deref]. rewrite Hsw. cbn [mbind outcome_bind]. by rewrite He1.
  - by apply (set_entry_ok v1 p e1 e2).
  - intros q f. simpl. intros [[<- <-]|[Hne Hq]]%lookup_insert_Some; [done|]. intros Hf Hin.
    destruct (mapping_at _ _ _ _ S7 Hq) as (f0 & F0 & G). injection G as _ G1 G2 _.
    destruct (S8 _ Hin) as [Heq|Hin']; [|apply (Hl q f0 F0); congruence].
    apply Hne. symmetry. apply (vo_inj _ Hv q p f0 e F0 He). congruence.
  - by apply (maps_mapping v).
  - apply lookup_insert_eq.
  - intros s Hs. split; [unfold on_swap; simpl; rewrite S5; exact Hs|]. exact (S9 s Hs).
Qed.

(** Loading the same bytes gives the same value. *)
Lemma arr_get_same (l l' : list Z) i j : 0 <= i -> 0 <= j -> l !! Z.to_nat i = l' !! Z.to_nat j -> arr_get l i = arr_get l' j.
Proof.
  intros Hi Hj He. unfold arr_get. destruct (Z.ltb_spec i 0), (Z.ltb_spec j 0); try lia. by rewrite He.
Qed.

Lemma load_value_same (l l' : list Z) i j size : 0 <= i -> 0 <= j -> access_size size ->
  (forall x, (x < Z.to_nat size)%nat -> l !! (Z.to_nat i + x)%nat = l' !! (Z.to_nat j + x)%nat) ->
  load_value l i size = load_value l' j size.
Proof.
  intros Hi Hj Hsz Hx. assert (forall x, 0 <= x < size -> arr_get l (i + x) = arr_get l' (j + x)) as Hg.
  { intros x Hxs. apply arr_get_same; [lia|lia|]. replace (Z.to_nat (i + x)) with (Z.to_nat i + Z.to_nat x)%nat by lia.
    replace (Z.to_nat (j + x)) with (Z.to_nat j + Z.to_nat x)%nat by lia. apply Hx. lia. }
  pose proof (Hg 0) as Hg0. rewrite !Z.add_0_r in Hg0.
  unfold load_value. destruct Hsz as [-> |[-> | ->]]; cbn -[arr_get Z.add]; rewrite !Hg0, ?(Hg 1), ?(Hg 2), ?(Hg 3) by lia; done.
Qed.

Lemma load_value_ok (l : list Z) i size : 0 <= i -> access_size size -> i + size <= Z.of_nat (length l) ->
  exists x, load_value l i size = Ok x.
Proof.
  intros Hi Hsz Hl. assert (forall x, 0 <= x < size -> exists b, arr_get l (i + x) = Ok b) as Hg.
  { intros x Hx. destruct (lookup_lt_is_Some_2 l (Z.to_nat (i + x))) as [b Hb]; [lia|]. exists b. apply arr_get_ok. split; [lia|done]. }
  unfold load_value. destruct (Hg 0) as [b0 H0']; [unfold access_size in Hsz; lia|]. rewrite Z.add_0_r in H0'.
  destruct Hsz as [-> |[-> | ->]]; cbn -[arr_get Z.add]; rewrite H0'; cbn -[arr_get Z.add]; [by eexists|..].
  - destruct (Hg 1) as [b1 ->]; [lia|]. by eexists.
  - destruct (Hg 1) as [b1 ->]; [lia|]. cbn -[arr_get Z.add]. destruct (Hg 2) as [b2 ->]; [lia|]. cbn -[arr_get Z.add].
    destruct (Hg 3) as [b3 ->]; [lia|]. by eexists.
Qed.

Lemma store_bytes_splice bs : forall mem pa, 0 <= pa -> pa + Z.of_nat (length bs) <= Z.of_nat (length mem) ->
  store_bytes mem pa bs = Ok (splice mem (Z.to_nat pa) bs).
Proof.
  induction bs as [|b bs IH]; intros mem pa Hpa Hl; simpl in *; [by rewrite splice_nil|].
  rewrite arr_set_in by lia. cbn [mbind outcome_bind]. rewrite IH by (rewrite ?length_insert; lia). f_equal.
  apply list_eq. intros x. rewrite !splice_lookup by (simpl; rewrite ?length_insert; lia). simpl.
  replace (Z.to_nat (pa + 1)) with (S (Z.to_nat pa)) by lia.
  destruct (decide (S (Z.to_nat pa) <= x < S (Z.to_nat pa) + length bs)%nat).
  - rewrite decide_True by lia. replace (x - Z.to_nat pa)%nat with (S (x - S (Z.to_nat pa))) by lia. done.
  - destruct (decide (x = Z.to_nat pa)) as [->|Hne].
    + rewrite list_lookup_insert_eq by lia. rewrite decide_True by lia. by rewrite Nat.sub_diag.
    + rewrite list_lookup_insert_ne by done. by rewrite decide_False by lia.
Qed.

Lemma store_value_splice mem pa size value :
  access_size size -> 0 <= pa -> pa + size <= Z.of_nat (length mem) ->
  store_value mem pa size value = Ok (splice mem (Z.to_nat pa) (value_bytes size value)).
Proof.
  intros Hsz Hpa Hl. destruct (value_bytes_ok size value Hsz) as [_ Hvl].
  rewrite <- store_bytes_splice by lia. unfold store_value, value_bytes. by destruct Hsz as [-> |[-> | ->]].
Qed.

(** The page of an address, and the place within it. *)
Lemma page_of v sp ss addr : vm_ok v -> maps v sp ss -> 0 <= addr < 128 * Z.of_nat (length ss) ->
  u32 addr = addr /\ exists p e s, vs_table sp !! Z.to_nat (addr `div` 128) = Some p /\ entries v !! p = Some e /\
    ss !! Z.to_nat (addr `div` 128) = Some s /\ physicalPage e = s /\
    (128 * Z.to_nat (addr `div` 128) + Z.to_nat (addr `mod` 128) = Z.to_nat addr)%nat.
Proof.
  intros Hv Hm Ha. pose proof (maps_small v sp ss Hv Hm). split; [apply u32_small; unfold is_u32, two32; lia|].
  destruct (lookup_lt_is_Some_2 ss (Z.to_nat (addr `div` 128))) as [s Hs]; [dlia|].
  destruct (maps_at _ _ _ _ _ Hm Hs) as (p & e & Hp & He & Heq). exists p, e, s. split_and!; try done. dlia.
Qed.

(** What an access of the program leaves as it was. *)
Record unmoved v v' : Prop := {
  um_ok : vm_ok v';
  um_lazy : lazy_ok v -> lazy_ok v';
  um_entries : physicalPage <$> entries v' = physicalPage <$> entries v;
  um_swapMap : swapMap v' = swapMap v;
  um_on s : on_swap v s -> on_swap v' s }.

Lemma unmoved_maps v v' sp ss : unmoved v v' -> maps v sp ss -> maps v' sp ss.
Proof. intros [_ _ He _ _]. by apply maps_mapping. Qed.

Section access.
Context v (sp : VmSpace) (ss : list Z) (addr size : Z).
Hypothesis Hv : vm_ok v.
Hypothesis Hm : maps v sp ss.
Hypothesis Hsz : access_size size.
Hypothesis Hal : misaligned addr size = false.
Hypothesis Ha : 0 <= addr < 128 * Z.of_nat (length ss).

(** The page of the address is valid. *)
Definition page_valid (w : vm M P) : Prop :=
  exists p e, vs_table sp !! Z.to_nat (addr `div` 128) = Some p /\ entries w !! p = Some e /\ valid e = true.

Lemma translate_valid writing : page_valid v ->
  exists i v' p e s, VM_Translate v sp addr size writing = Ok (v', inr (128 * Z.of_nat i + addr `mod` 128)) /\
    addr `mod` 128 + size <= 128 /\ translates v v' p e i writing /\ unmoved v v' /\
    entries v !! p = Some e /\ physicalPage e = s /\ ss !! Z.to_nat (addr `div` 128) = Some s.
Proof.
  intros (p & e & Ht & He & Hval). destruct (page_of v sp ss addr Hv Hm Ha) as (Hu & p' & e' & s & Ht' & He' & Hs & Heq & _).
  assert (p' = p) as -> by congruence. assert (e' = e) as -> by congruence.
  destruct (VM_Translate_ok v sp addr size writing p e) as (i & v' & Htr & Hoff & Hts); try done;
    [apply (mp_size _ _ _ Hm)|by rewrite Hu|].
  rewrite Hu in Htr, Hoff. exists i, v', p, e, s. split_and!; try done.
  pose proof Hts as [T1 _ _ _ _ T6 T7 T8 T9]. split; try done; [by intros ?; apply T7|by apply mapping_physical|].
  intros s' Hs'. by apply T9.
Qed.

Lemma frame_at v' i s x : vm_ok v' -> activePageMap v' !! i = Some s -> s <> -1 -> (x < 128)%nat ->
  mainMemory v' !! (128 * i + x)%nat = contents v' s !! x.
Proof.
  intros Hv' Hi Hs Hx. rewrite (contents_frame v' i s (vo_core _ Hv') Hi Hs). unfold frame. by rewrite page_lookup.
Qed.

Lemma ReadMem_valid : page_valid v ->
  exists v' x, VM_ReadMem v sp addr size = Ok (v', inr x) /\ load_value (memory_of v ss) addr size = Ok x /\
    unmoved v v' /\ forall s, on_swap v s -> contents v' s = contents v s.
Proof.
  intros Hpv. destruct (translate_valid false Hpv) as (i & v' & p & e & s & Htr & Hoff & Hts & Hum & He & Heq & Hs).
  destruct (vo_entry _ Hv p e He) as (R1 & R2 & _). pose proof Hts as [T1 T2 T3 _ _ _ _ _ T9].
  destruct (load_value_ok (memory_of v ss) addr size) as [x Hx]; [lia|done|rewrite (memory_length v sp) by done; dlia|].
  exists v', x. split; [|split; [done|split; [done|intros s' Hs'; by apply T9]]].
  unfold VM_ReadMem. rewrite Htr. cbn [mbind outcome_bind].
  rewrite (load_value_same _ (memory_of v ss) _ addr size), Hx; [done|dlia|lia|done|].
  intros y Hy. replace (Z.to_nat (128 * Z.of_nat i + addr `mod` 128) + y)%nat with (128 * i + (Z.to_nat (addr `mod` 128) + y))%nat by dlia.
  replace (Z.to_nat addr + y)%nat with (128 * Z.to_nat (addr `div` 128) + (Z.to_nat (addr `mod` 128) + y))%nat by dlia.
  rewrite (memory_lookup v sp ss _ s) by (done || dlia). rewrite (frame_at v' i (physicalPage e)) by (done || dlia).
  rewrite Heq. f_equal. apply T9. by rewrite <- Heq.
Qed.

Lemma WriteMem_valid value : page_valid v ->
  exists v', VM_WriteMem v sp addr size value = Ok (v', inr ()) /\
    store_value (memory_of v ss) addr size value = Ok (memory_of v' ss) /\
    unmoved v v' /\ forall s, on_swap v s -> ~ (s ∈ ss) -> contents v' s = contents v s.
Proof.
  intros Hpv. destruct (translate_valid true Hpv) as (i & v1 & p & e & s & Htr & Hoff & Hts & Hum & He & Heq & Hs).
  destruct (vo_entry _ Hv p e He) as (R1 & R2 & _). pose proof Hts as [T1 T2 T3 T4 (e' & T5 & T5') _ _ _ T9].
  destruct (value_bytes_ok size value Hsz) as [_ Hvl]. set (bs := value_bytes size value) in *. rewrite Heq in *.
  destruct (frame_write v1 i s p e' (Z.to_nat (addr `mod` 128)) bs) as (Hc2 & Hhere & Hother); try done;
    [apply T1|lia|by apply T5'|dlia|].
  set (v2 := with_memory v1 _) in *. pose proof Hum as [U1 U2 U3 U4 U5].
  assert (vm_ok v2) as Hv2 by (destruct T1 as [_ [? ? ? ?] [? ? ?] ? ?]; split; try done).
  assert (maps v2 sp ss) as Hm2 by (by apply (maps_mapping v)).
  exists v2. split; [|split; [|split]].
  - unfold VM_WriteMem. rewrite Htr. cbn [mbind outcome_bind]. rewrite store_value_splice; [|done|dlia|rewrite (co_mem _ (vo_core _ T1)); dlia].
    cbn [mbind outcome_bind]. unfold v2. do 4 f_equal. dlia.
  - rewrite store_value_splice by (done || lia || (rewrite (memory_length v sp) by done; dlia)). fold bs. f_equal. symmetry.
    destruct (T9 s R2) as [_ Hcs]. rewrite (memory_splice v v2 sp ss (Z.to_nat (addr `div` 128)) s (Z.to_nat (addr `mod` 128)) bs);
      try done; [f_equal; dlia|dlia|by rewrite Hhere, Hcs|].
    intros s' Hon Hne. destruct (T9 s' Hon) as [Hon1 Hc1]. by rewrite (Hother s' Hon1 Hne).
  - by split.
  - intros s' Hon Hnin. destruct (T9 s' Hon) as [Hon1 Hc1]. rewrite (Hother s' Hon1); [done|]. intros ->.
    apply Hnin. by eapply list_elem_of_lookup_2.
Qed.

(** A page that is not valid: the handler makes it valid. *)
Lemma fault_then_valid writing : lazy_ok v ->
  page_valid v \/
  VM_Translate v sp addr size writing = Ok (v, inl PageFaultException) /\
  exists v1, VM_PageFaultHandler v sp addr = Ok v1 /\ unmoved v v1 /\ page_valid v1 /\
    forall s, on_swap v s -> contents v1 s = contents v s.
Proof.
  intros Hlz. destruct (page_of v sp ss addr Hv Hm Ha) as (Hu & p & e & s & Ht & He & Hs & Heq & _).
  destruct (valid e) eqn:Hval; [left; by exists p, e|right]. split.
  - unfold VM_Translate. rewrite Hal, Hu. change PageSize with 128. pose proof (maps_length v sp ss Hm).
    rewrite (mp_size _ _ _ Hm). destruct (Z.leb_spec (Z.of_nat (length (vs_table sp))) (addr `div` 128)); [dlia|].
    unfold entry_at. rewrite (proj2 (arr_get_ok _ _ p)) by (split; [dlia|done]). cbn [mbind outcome_bind].
    rewrite He. cbn [mbind outcome_bind deref]. by rewrite Hval.
  - destruct (VM_PageFaultHandler_ok v sp ss addr p e Hv Hlz Hm) as (v1 & e1 & Hh & K1 & K2 & K3 & K4 & K5 & K6 & K7 & K8 & K9); try done; [lia|].
    exists v1. split; [done|]. split; [|split; [by exists p, e1|intros s' Hs'; by apply K9]].
    split; try done. intros s' Hs'. by apply K9.
Qed.

Lemma unmoved_trans v1 v2 v3 : unmoved v1 v2 -> unmoved v2 v3 -> unmoved v1 v3.
Proof. intros [A1 A2 A3 A4 A5] [B1 B2 B3 B4 B5]. split; try congruence; auto. Qed.
End access.

(** An access outside the space, or not aligned. *)
Lemma translate_outside v sp ss size writing a : vm_ok v -> maps v sp ss -> is_s32 a ->
  misaligned a size = true \/ a < 0 \/ 128 * Z.of_nat (length ss) <= a ->
  VM_Translate v sp a size writing = Ok (v, inl AddressErrorException).
Proof.
  intros Hv Hm Hs Hbad. unfold VM_Translate. destruct (misaligned a size) eqn:Hma; [done|]. change PageSize with 128.
  pose proof (maps_small v sp ss Hv Hm) as Hsm. pose proof (maps_length v sp ss Hm) as Hl. rewrite (mp_size _ _ _ Hm).
  assert (Z.of_nat (length (vs_table sp)) <= u32 a `div` 128) as Hle.
  { unfold is_s32, two31 in Hs. destruct Hbad as [?|[Hneg|Hbig]]; [done|..].
    - replace (u32 a) with (a + two32); [unfold two32; dlia|]. unfold u32, two32. rewrite <- (Z.mod_add a 1) by lia.
      rewrite Z.mod_small by lia. lia.
    - rewrite u32_small by (unfold is_u32, two32; lia). dlia. }
  destruct (Z.leb_spec (Z.of_nat (length (vs_table sp))) (u32 a `div` 128)); [done|lia].
Qed.

(** A load of the program, with at most one page fault. *)
Lemma VM_load_ok v sp ss addr size :
  vm_ok v -> lazy_ok v -> maps v sp ss -> access_size size -> misaligned addr size = false ->
  0 <= addr < 128 * Z.of_nat (length ss) ->
  exists v' x, VM_load v sp addr size = Ok (v', inr x) /\ load_value (memory_of v ss) addr size = Ok x /\
    unmoved v v' /\ forall s, on_swap v s -> contents v' s = contents v s.
Proof.
  intros Hv Hlz Hm Hsz Hal Ha. unfold VM_load, VM_access.
  destruct (fault_then_valid v sp ss addr size Hv Hm Hal Ha false Hlz) as [Hpv|(Htr & v1 & Hh & Hum & Hpv & Hcs)].
  - destruct (ReadMem_valid v sp ss addr size Hv Hm Hsz Hal Ha Hpv) as (v' & x & -> & Hrest). cbn [mbind outcome_bind]. by exists v', x.
  - assert (VM_ReadMem v sp addr size = Ok (v, inl PageFaultException)) as -> by (unfold VM_ReadMem; by rewrite Htr).
    cbn [mbind outcome_bind]. rewrite Hh. cbn [mbind outcome_bind].
    destruct (ReadMem_valid v1 sp ss addr size (um_ok _ _ Hum) (unmoved_maps _ _ _ _ Hum Hm) Hsz Hal Ha Hpv)
      as (v' & x & -> & Hx & Hum' & Hcs'). exists v', x. split; [done|].
    rewrite (memory_ext v v1 ss) in Hx by (intros s Hs; by apply Hcs, (maps_on_swap v sp ss s Hv Hm)).
    split; [done|]. split; [by eapply unmoved_trans|]. intros s Hs. rewrite Hcs'; [by apply Hcs|]. by apply Hum.
Qed.

Lemma VM_store_ok v sp ss addr size value :
  vm_ok v -> lazy_ok v -> maps v sp ss -> access_size size -> misaligned addr size = false ->
  0 <= addr < 128 * Z.of_nat (length ss) ->
  exists v', VM_store v sp addr size value = Ok (v', inr ()) /\
    store_value (memory_of v ss) addr size value = Ok (memory_of v' ss) /\
    unmoved v v' /\ forall s, on_swap v s -> ~ (s ∈ ss) -> contents v' s = contents v s.
Proof.
  intros Hv Hlz Hm Hsz Hal Ha. unfold VM_store, VM_access.
  destruct (fault_then_valid v sp ss addr size Hv Hm Hal Ha true Hlz) as [Hpv|(Htr & v1 & Hh & Hum & Hpv & Hcs)].
  - destruct (WriteMem_valid v sp ss addr size Hv Hm Hsz Hal Ha value Hpv) as (v' & -> & Hrest). cbn [mbind outcome_bind]. by exists v'.
  - assert (VM_WriteMem v sp addr size value = Ok (v, inl PageFaultException)) as -> by (unfold VM_WriteMem; by rewrite Htr).
    cbn [mbind outcome_bind]. rewrite Hh. cbn [mbind outcome_bind].
    destruct (WriteMem_valid v1 sp ss addr size (um_ok _ _ Hum) (unmoved_maps _ _ _ _ Hum Hm) Hsz Hal Ha value Hpv)
      as (v' & -> & Hx & Hum' & Hcs'). exists v'. split; [done|].
    rewrite (memory_ext v v1 ss) in Hx by (intros s Hs; by apply Hcs, (maps_on_swap v sp ss s Hv Hm)).
    split; [done|]. split; [by eapply unmoved_trans|]. intros s Hs Hn. rewrite Hcs'; [by apply Hcs|by apply Hum|done].
Qed.
End refinement.

(** ** Programs and their memories *)

(** An access of program number [n]. *)
Inductive access :=
| Load (n : nat) (addr size : Z)
| Store (n : nat) (addr size value : Z).

Definition access_ok (programs : nat) (a : access) : Prop :=
  match a with
  | Load n addr size | Store n addr size _ => (n < programs)%nat /\ is_s32 addr /\ access_size size
  end.

(** The specification: every program has an array of bytes of its own. *)
Definition flat_step (mems : list (list Z)) (a : access) : outcome (list (list Z) * (ExceptionType + option Z)) :=
  match a with
  | Load n addr size =>
      V ← deref (mems !! n);
      if misaligned addr size || (addr <? 0) || (Z.of_nat (length V) <=? addr) then Ok (mems, inl AddressErrorException)
      else x ← load_value V addr size; Ok (mems, inr (Some x))
  | Store n addr size value =>
      V ← deref (mems !! n);
      if misaligned addr size || (addr <? 0) || (Z.of_nat (length V) <=? addr) then Ok (mems, inl AddressErrorException)
      else V ← store_value V addr size value; Ok (<[n := V]> mems, inr None)
  end.

Section programs.
Context {M P : Type} `{BitAllocatorLaws M} `{ReplacementLaws P}.
Implicit Types v : vm M P.

(** The implementation: all programs share main memory and swap. *)
Definition vm_step (sps : list VmSpace) v (a : access) : outcome (vm M P * (ExceptionType + option Z)) :=
  match a with
  | Load n addr size =>
      sp ← deref (sps !! n);
      '(v, r) ← VM_load v sp addr size;
      Ok (v, match r with inl e => inl e | inr x => inr (Some x) end)
  | Store n addr size value =>
      sp ← deref (sps !! n);
      '(v, r) ← VM_store v sp addr size value;
      Ok (v, match r with inl e => inl e | inr _ => inr None end)
  end.

Fixpoint run {S A} (step : S -> access -> outcome (S * A)) (st : S) (l : list access) : outcome (S * list A) :=
  match l with
  | [] => Ok (st, [])
  | a :: l => '(st, r) ← step st a; '(st, rs) ← run step st l; Ok (st, r :: rs)
  end.

(** The spaces [sps] have the pages [sss], which are all different. *)
Record programs_ok v (sps : list VmSpace) (sss : list (list Z)) : Prop := {
  po_ok : vm_ok v;
  po_lazy : lazy_ok v;
  po_maps : Forall2 (maps v) sps sss;
  po_apart i j ss ss' s : sss !! i = Some ss -> sss !! j = Some ss' -> i <> j -> s ∈ ss -> ~ (s ∈ ss') }.

Lemma programs_unmoved v v' sps sss : unmoved v v' -> programs_ok v sps sss -> programs_ok v' sps sss.
Proof.
  intros Hum [Hv Hl Hm Hap]. split; [apply Hum|by apply Hum| |done].
  eapply Forall2_impl; [exact Hm|]. intros sp ss. by apply unmoved_maps.
Qed.

Lemma memories_same v v' sps sss : programs_ok v sps sss -> (forall s, on_swap v s -> contents v' s = contents v s) ->
  memory_of v' <$> sss = memory_of v <$> sss.
Proof.
  intros [Hv Hl Hm Hap] Hs. apply list_fmap_ext. intros i ss Hi. destruct (Forall2_lookup_r _ _ _ _ _ Hm Hi) as (sp & _ & Hms).
  apply memory_ext. intros s Hin. by apply Hs, (maps_on_swap v sp ss s Hv Hms).
Qed.

Lemma outside_flat addr size n : misaligned addr size || (addr <? 0) || (Z.of_nat (128 * n) <=? addr) = false ->
  misaligned addr size = false /\ 0 <= addr < 128 * Z.of_nat n.
Proof. destruct (misaligned addr size); [done|]. cbn [orb]. intros [Hb1%Z.ltb_ge Hb2%Z.leb_gt]%orb_false_iff. split; [done|]. lia. Qed.

Lemma outside_flat_true addr size n : misaligned addr size || (addr <? 0) || (Z.of_nat (128 * n) <=? addr) = true ->
  misaligned addr size = true \/ addr < 0 \/ 128 * Z.of_nat n <= addr.
Proof. rewrite !orb_true_iff. intros [[Hb|Hb%Z.ltb_lt]|Hb%Z.leb_le]; [by left|right; left; lia|right; right; lia]. Qed.

Lemma step_refines v sps sss a : programs_ok v sps sss -> access_ok (length sps) a ->
  exists v' r, vm_step sps v a = Ok (v', r) /\ flat_step (memory_of v <$> sss) a = Ok (memory_of v' <$> sss, r) /\
    programs_ok v' sps sss.
Proof.
  intros Hp Ha. pose proof Hp as [Hv Hl Hm Hap].
  destruct a as [n addr size|n addr size value]; destruct Ha as (Hn & Hs32 & Hsz);
    destruct (lookup_lt_is_Some_2 sps n Hn) as [sp Hsp]; destruct (Forall2_lookup_l _ _ _ _ _ Hm Hsp) as (ss & Hss & Hms);
    simpl; rewrite Hsp, list_lookup_fmap, Hss; cbn [mbind outcome_bind deref fmap option_fmap option_map];
    rewrite (memory_length v sp ss Hv Hms);
    destruct (misaligned addr size || (addr <? 0) || (Z.of_nat (128 * length ss) <=? addr)) eqn:Hb.
  - exists v, (inl AddressErrorException). split; [|done]. unfold VM_load, VM_access, VM_ReadMem.
    rewrite (translate_outside v sp ss size false addr Hv Hms Hs32); [done|by apply outside_flat_true].
  - apply outside_flat in Hb as [Hal Ha]. destruct (VM_load_ok v sp ss addr size Hv Hl Hms Hsz Hal Ha) as (v' & x & -> & Hx & Hum & Hc).
    exists v', (inr (Some x)). split; [done|]. rewrite Hx. cbn [mbind outcome_bind].
    rewrite (memories_same v v' sps sss Hp Hc). split; [done|by eapply programs_unmoved].
  - exists v, (inl AddressErrorException). split; [|done]. unfold VM_store, VM_access, VM_WriteMem.
    rewrite (translate_outside v sp ss size true addr Hv Hms Hs32); [done|by apply outside_flat_true].
  - apply outside_flat in Hb as [Hal Ha].
    destruct (VM_store_ok v sp ss addr size value Hv Hl Hms Hsz Hal Ha) as (v' & -> & Hx & Hum & Hc).
    exists v', (inr None). split; [done|]. rewrite Hx. cbn [mbind outcome_bind]. split; [|by eapply programs_unmoved].
    do 2 f_equal. apply list_eq. intros i. rewrite list_lookup_fmap. destruct (decide (i = n)) as [->|Hne].
    + rewrite list_lookup_insert_eq by (rewrite length_fmap; by eapply lookup_lt_Some). by rewrite Hss.
    + rewrite list_lookup_insert_ne, list_lookup_fmap by done. destruct (sss !! i) as [ss'|] eqn:Hi; [|done]. simpl. f_equal.
      destruct (Forall2_lookup_r _ _ _ _ _ Hm Hi) as (sp' & _ & Hms'). symmetry. apply memory_ext. intros s Hs. apply Hc.
      * by apply (maps_on_swap v sp' ss' s Hv Hms').
      * by apply (Hap i n ss' ss s).
Qed.

Lemma run_refines l : forall v sps sss, programs_ok v sps sss -> Forall (access_ok (length sps)) l ->
  exists v' rs, run (vm_step sps) v l = Ok (v', rs) /\ run flat_step (memory_of v <$> sss) l = Ok (memory_of v' <$> sss, rs) /\
    programs_ok v' sps sss.
Proof.
  induction l as [|a l IH]; intros v sps sss Hp Hl; [by exists v, []|]. apply Forall_cons in Hl as [Ha Hl]. cbn [run].
  destruct (step_refines v sps sss a Hp Ha) as (v1 & r & -> & -> & Hp1). cbn [mbind outcome_bind].
  destruct (IH v1 sps sss Hp1 Hl) as (v' & rs & -> & -> & Hp'). cbn [mbind outcome_bind]. by exists v', (r :: rs).
Qed.
End programs.
