(* ===== verification/VmCreate.v ===== *)
(** * The build with virtual memory: creating, copying and deleting address spaces

    The constructor takes pages of swap and fills them from the executable, without main
    memory; [CopyAddrSpace] copies pages within swap; the destructor brings every page into main memory
    before it clears it. The definitions are in VmSpace.v. *)

From stdpp Require Import prelude numbers gmap list.
From S2P Require Import Prelude Params BitMap Mips Machine Replacement Pager FileHdr OpenFile AddrSpace VmSpace.

Open Scope Z_scope.

Section creation.
Context {M P : Type} `{BitAllocatorLaws M} `{ReplacementLaws P} `{FreshLaws}.
Implicit Types v : vm M P.

(** ** New pages *)

(** A page of swap with the bytes [data] and an entry for it; [m] is the bitmap with the page
    taken. *)
Definition with_page v (m : M) (s : Z) (data : list Z) (p : positive) (e : TranslationEntry) : vm M P :=
  let v1 := swap_written v m s data in with_entries v1 (<[p := e]> (entries v1)).

Lemma getPage_takes m0 got v : core_ok v -> swap_ok v -> allocated m0 (swapMap v) got -> 0 < ba_free (swapMap v) ->
  exists s m, VMManager_getPage v = Ok (s, swap_written v m s zero_page) /\ allocated m0 m (got ++ [s]) /\
    0 <= s < SWAP_SIZE /\ ba_used (swapMap v) s = false /\ ~ (s ∈ activePageMap v) /\
    ba_inv m /\ ba_size m = SWAP_SIZE /\ (forall j, 0 <= j -> ba_used m j = bool_decide (s = j) || ba_used (swapMap v) j).
Proof.
  intros Hc [Hinv Hsz Hres] Hal Hfree. destruct (ba_find_free (swapMap v) Hinv Hfree) as (s & m & Hf & Hinv' & Hsz' & Hs & Hfs & _ & _ & Hu).
  destruct (allocated_find m0 (swapMap v) got Hal Hfree) as (s' & m' & Hf' & Hal' & _).
  rewrite Hf in Hf'. injection Hf' as <- <-. unfold VMManager_getPage, SwapManager_allocPage. rewrite Hf. cbn [mbind outcome_bind].
  rewrite ASSERT_true by lia. cbn [mbind outcome_bind swapFile diskBuffer with_diskBuffer with_swapMap].
  rewrite file_WriteAt_any by (done || lia). cbn [mbind outcome_bind]. exists s, m. rewrite Hsz in *. split_and!; try done; try lia.
  intros Hin. destruct (Hres s Hin) as [_ Hus]; [lia|]. congruence.
Qed.

(** What a new page leaves as it was. *)
Record page_added v v' (s : Z) (data : list Z) (p : positive) (e : TranslationEntry) : Prop := {
  pa_ok : vm_ok v';
  pa_lazy : lazy_ok v -> lazy_ok v';
  pa_entries : entries v !! p = None /\ entries v' = <[p := e]> (entries v);
  pa_active : activePageMap v' = activePageMap v;
  pa_contents : on_swap v' s /\ contents v' s = data;
  pa_others s' : on_swap v s' -> s' <> s -> on_swap v' s' /\ contents v' s' = contents v s';
  pa_swapped s' : on_swap v s' -> s' <> s -> swapped v' s' = swapped v s' }.

Lemma with_page_ok v m s data p e :
  vm_ok v -> length data = 128%nat -> 0 <= s < SWAP_SIZE -> ba_used (swapMap v) s = false -> ~ (s ∈ activePageMap v) -> ba_inv m -> ba_size m = SWAP_SIZE ->
  (forall j, 0 <= j -> ba_used m j = bool_decide (s = j) || ba_used (swapMap v) j) ->
  entries v !! p = None -> physicalPage e = s -> readOnly e = false -> page_added v (with_page v m s data p e) s data p e.
Proof.
  intros [Hc [A1 A2 A3 A4] [S1 S2 S3] Hinj Hent] Hz Hs Hfs Hnin Hm1 Hm2 Hm3 Hp He Hr.
  set (v1 := swap_written v m s data).
  pose proof (swap_written_core v m s data Hc ltac:(lia) Hz Hnin) as Hc1. fold v1 in Hc1.
  destruct (swap_written_contents v m s data Hc ltac:(lia) Hz Hnin) as [Hcs Hco]. fold v1 in Hcs, Hco.
  destruct (swap_written_length v m s data ltac:(lia) Hz) as [Hsl Hon]. fold v1 in Hsl, Hon.
  assert (forall q f, entries v !! q = Some f -> physicalPage f <> s) as Hold.
  { intros q f Hq Heq. destruct (Hent q f Hq) as (_ & _ & Hu & _). congruence. }
  split; try done.
  - split; [split; try apply Hc1|by split|split; try done|..].
    + intros i t Hi Ht. destruct (co_active _ Hc1 i t Hi Ht) as (Ho & q & f & Hq & Hf & Hrest). split; [done|]. exists q, f.
      split; [done|]. split; [|done]. simpl in *. rewrite lookup_insert_ne; [done|]. intros ->. congruence.
    + intros t Hin Ht. destruct (S3 t Hin Ht) as [Hlt Hu]. split; [done|]. simpl. apply list_elem_of_lookup in Hin as [i Hi].
      destruct (co_active _ Hc i t Hi Ht) as [[? _] _]. rewrite Hm3 by done. by rewrite Hu, orb_true_r.
    + simpl. intros p1 p2 e1 e2 [[<- <-]|[_ L1]]%lookup_insert_Some [[<- <-]|[_ L2]]%lookup_insert_Some Heq; try done.
      * by destruct (Hold p2 e2 L2); congruence.
      * by destruct (Hold p1 e1 L1); congruence.
      * by apply (Hinj p1 p2 e1 e2).
    + simpl. intros p1 e1 [[<- <-]|[_ L1]]%lookup_insert_Some.
      * rewrite He, Hm3 by lia. rewrite bool_decide_eq_true_2 by done. by split; [|split; [exact Hon|]].
      * destruct (Hent p1 e1 L1) as (R1 & [R2 R2'] & R3 & R4). rewrite Hm3 by lia. rewrite R3, orb_true_r.
        split; [done|]. split; [|done]. split; [done|]. change (swapFile (with_page v m s data p e)) with (swapFile v1). lia.
  - intros Hl q f. simpl. intros [[<- <-]|[_ L1]]%lookup_insert_Some Hv; [by rewrite He|by apply (Hl q f)].
  - intros s' Hon' Hne. split; [|by apply Hco]. destruct Hon' as [? ?]. split; [done|].
    change (swapFile (with_page v m s data p e)) with (swapFile v1). lia.
  - intros s' Hon' Hne. apply (swap_written_other v m s data); (done || lia).
Qed.

(** [getPage] and a new entry. *)
Lemma new_page_ok m0 got v i : vm_ok v -> allocated m0 (swapMap v) got -> 0 < ba_free (swapMap v) ->
  exists s v1 p v', VMManager_getPage v = Ok (s, v1) /\ add_entry v1 (mkEntry i s false false false false) = (p, v') /\
    allocated m0 (swapMap v') (got ++ [s]) /\ page_added v v' s zero_page p (mkEntry i s false false false false).
Proof.
  intros Hv Hal Hfree. destruct (getPage_takes m0 got v (vo_core _ Hv) (vo_swap _ Hv) Hal Hfree)
    as (s & m & Hg & Hal' & Hs & Hfs & Hnin & Hm1 & Hm2 & Hm3).
  exists s, (swap_written v m s zero_page), (fresh (dom (entries v))). eexists. split; [done|]. split; [done|]. split; [done|].
  apply (with_page_ok v m s); try done. apply not_elem_of_dom, is_fresh.
Qed.

(** New pages [ss] with the entries [ps] and the contents [ds]. *)
Record pages_added v v' (ps : list positive) (ss : list Z) (ds : list (list Z)) : Prop := {
  ga_ok : vm_ok v';
  ga_lazy : lazy_ok v -> lazy_ok v';
  ga_pages : Forall2 (fun p s => exists e, entries v' !! p = Some e /\ physicalPage e = s) ps ss;
  ga_nodup : NoDup ps;
  ga_new p : p ∈ ps -> entries v !! p = None;
  ga_old p e : entries v !! p = Some e -> entries v' !! p = Some e;
  ga_active : activePageMap v' = activePageMap v;
  ga_contents : Forall2 (fun s d => on_swap v' s /\ contents v' s = d) ss ds;
  ga_others s' : on_swap v s' -> ~ (s' ∈ ss) -> on_swap v' s' /\ contents v' s' = contents v s';
  ga_swapped s' : on_swap v s' -> ~ (s' ∈ ss) -> swapped v' s' = swapped v s' }.

Lemma pages_added_nil v : vm_ok v -> pages_added v v [] [] [].
Proof. intros Hv. split; try done; try (by constructor). by intros p ?%elem_of_nil. Qed.

Lemma pages_added_cons v v1 v' p e s d ps ss ds :
  vm_ok v -> page_added v v1 s d p e -> physicalPage e = s -> pages_added v1 v' ps ss ds -> ~ (s ∈ ss) ->
  pages_added v v' (p :: ps) (s :: ss) (d :: ds).
Proof.
  intros Hv [A1 A2 [A3 A3'] A4 [A5 A5'] A6 A7] He [B1 B2 B3 B4 B5 B6 B7 B8 B9 B10] Hnin.
  assert (entries v1 !! p = Some e) as Hp by (rewrite A3'; apply lookup_insert_eq). split; try done.
  - auto.
  - constructor; [|done]. exists e. split; [by apply B6|done].
  - constructor; [|done]. intros Hin. specialize (B5 p Hin). congruence.
  - intros q [->|Hq]%elem_of_cons; [done|]. specialize (B5 q Hq). rewrite A3' in B5. by apply lookup_insert_None in B5 as [? _].
  - intros q f Hq. apply B6. rewrite A3'. rewrite lookup_insert_ne; [done|]. congruence.
  - congruence.
  - constructor; [|done]. destruct (B9 s A5 Hnin) as [? ->]. by split.
  - intros s' Hon Hn. apply not_elem_of_cons in Hn as [Hne Hn]. destruct (A6 s' Hon Hne) as [Hon1 <-]. by apply B9.
  - intros s' Hon Hn. apply not_elem_of_cons in Hn as [Hne Hn]. destruct (A6 s' Hon Hne) as [Hon1 _]. by rewrite B10, A7.
Qed.

Lemma allocated_last (m0 m : M) got l s : allocated m0 m (got ++ s :: l) -> ~ (s ∈ l).
Proof. intros Hal. pose proof (al_nodup _ _ _ Hal) as Hnd. apply NoDup_app in Hnd as (_ & _ & Hnd). by apply NoDup_cons in Hnd as [? _]. Qed.

Lemma VM_new_pages_ok m0 n : forall i v got,
  vm_ok v -> allocated m0 (swapMap v) got -> Z.of_nat n <= ba_free (swapMap v) ->
  exists ps v' ss, VM_new_pages n i v = Ok (ps, v') /\ length ss = n /\ allocated m0 (swapMap v') (got ++ ss) /\
    pages_added v v' ps ss (replicate n zero_page).
Proof.
  induction n as [|n IH]; intros i v got Hv Hal Hfree; cbn [VM_new_pages].
  { exists [], v, []. rewrite app_nil_r. split_and!; try done. by apply pages_added_nil. }
  destruct (new_page_ok m0 got v i Hv Hal) as (s & v1 & p & v2 & Hg & Hadd & Hal2 & Hpa); [lia|].
  rewrite Hg. cbn [mbind outcome_bind]. rewrite Hadd.
  pose proof (al_free _ _ _ Hal) as F0. pose proof (al_free _ _ _ Hal2) as F1. rewrite length_app in F1. simpl in F1.
  destruct (IH (i + 1) v2 (got ++ [s])) as (ps & v' & ss & -> & Hl & Hal' & Hga); [apply Hpa|done|lia|].
  cbn [mbind outcome_bind]. rewrite <- app_assoc in Hal'. exists (p :: ps), v', (s :: ss). split; [done|]. split; [simpl; lia|]. split; [done|].
  eapply pages_added_cons; try done. by eapply allocated_last.
Qed.

(** ** Writing to pages on swap *)

Lemma file_WriteAt_within f data pos : 0 <= pos -> pos + Z.of_nat (length data) <= Z.of_nat (length f) ->
  file_WriteAt f data pos = Ok (splice f (Z.to_nat pos) data).
Proof.
  intros Hp Hl. unfold file_WriteAt. rewrite ASSERT_true by lia. cbn [mbind outcome_bind].
  replace (Z.to_nat pos - length f)%nat with 0%nat by lia. done.
Qed.

Lemma page_splice (l data : list Z) s o : (128 * s + 128 <= length l)%nat -> (o + length data <= 128)%nat ->
  page (splice l (128 * s + o) data) s = splice (page l s) o data /\
  forall j, j <> s -> page (splice l (128 * s + o) data) j = page l j.
Proof.
  intros Hl Ho. split; [|intros j Hne]; apply list_eq; intros x.
  - rewrite splice_lookup by (rewrite page_length; lia). destruct (decide (x < 128)%nat) as [Hx|Hx].
    + rewrite !page_lookup, splice_lookup by lia.
      destruct (decide (o <= x < o + length data)%nat); [rewrite decide_True by lia; f_equal; lia|by rewrite decide_False by lia].
    + rewrite decide_False by lia. unfold page. by rewrite !lookup_take_ge by lia.
  - destruct (decide (x < 128)%nat) as [Hx|Hx]; [|unfold page; by rewrite !lookup_take_ge by lia].
    rewrite !page_lookup, splice_lookup by lia. by rewrite decide_False by lia.
Qed.

(** Part of a page that is not in main memory. *)
Lemma writePage_ok v s data o : vm_ok v -> on_swap v s -> ~ (s ∈ activePageMap v) -> (o + length data <= 128)%nat ->
  exists v', VMManager_writePage v s data (Z.of_nat o) = Ok v' /\ unmoved v v' /\ activePageMap v' = activePageMap v /\
    diskBuffer v' = diskBuffer v /\ entries v' = entries v /\ contents v' s = splice (contents v s) o data /\
    forall s', on_swap v s' -> s' <> s -> contents v' s' = contents v s'.
Proof.
  intros Hv [Hs0 Hs1] Hnin Ho. unfold VMManager_writePage, SwapManager_writePage. change PageSize with 128.
  rewrite file_WriteAt_within by lia. cbn [mbind outcome_bind].
  replace (Z.to_nat (s * 128 + Z.of_nat o)) with (128 * Z.to_nat s + o)%nat by lia.
  set (v' := with_swapFile v _). destruct (page_splice (swapFile v) data (Z.to_nat s) o) as [Phere Pother]; [lia|done|].
  assert (length (swapFile v') = length (swapFile v)) as Hl by (simpl; rewrite splice_length; lia).
  assert (forall t, 0 <= t -> t <> s -> swapped v' t = swapped v t) as Hsw by (intros t Ht Hne; apply Pother; lia).
  assert (core_ok v') as Hc'.
  { destruct (vo_core _ Hv) as [C1 C2 C3 C4 C5 C6]. split; try done. intros i t Hi Ht.
    destruct (C6 i t Hi Ht) as ([Ho1 Ho2] & q & f & Hq & Hf & Hfs & Hcl). split; [split; [done|lia]|]. exists q, f. split_and!; try done.
    intros Hd. rewrite Hsw; [by apply Hcl|done|]. intros ->. apply Hnin. by eapply list_elem_of_lookup_2. }
  exists v'. split; [done|]. split_and!; try done.
  - split; try done.
    + destruct Hv as [_ [? ? ? ?] [? ? ?] Hinj Hent]. split; try done. intros p e Hp. destruct (Hent p e Hp) as (R1 & [R2 R2'] & R3).
      split; [done|]. split; [|done]. split; [done|]. by rewrite Hl.
    + intros t [? ?]. split; [done|lia].
  - rewrite (contents_swapped v s Hnin), (contents_swapped v' s Hnin). exact Phere.
  - intros t [Ht0 _] Hne. destruct (decide (t ∈ activePageMap v)) as [[j Hj]%list_elem_of_lookup|Hn].
    + rewrite (contents_frame v j t (vo_core _ Hv) Hj) by lia. by rewrite (contents_frame v' j t Hc' Hj) by lia.
    + rewrite (contents_swapped v t Hn), (contents_swapped v' t Hn). by apply Hsw.
Qed.

(** ** Loading *)

(** The pages of a space that has not run yet. *)
Definition unloaded v (ss : list Z) : Prop := forall s, s ∈ ss -> ~ (s ∈ activePageMap v).

Lemma buffer_unmoved v b : vm_ok v -> length b = 128%nat -> unmoved v (with_diskBuffer v b).
Proof.
  intros [[C1 C2 C3 C4 C5 C6] [? ? ? ?] [? ? ?] Hinj Hent] Hb. by split.
Qed.

Lemma file_ReadAt_within f buffer n pos : 0 <= pos -> 0 <= n -> pos + n <= Z.of_nat (length f) -> n <= Z.of_nat (length buffer) ->
  exists b, file_ReadAt f buffer n pos = Ok b /\ length b = length buffer /\
    get_bytes b 0 n = Ok (take (Z.to_nat n) (drop (Z.to_nat pos) f)).
Proof.
  intros Hp Hn Hl Hb. unfold file_ReadAt. rewrite ASSERT_true by lia. cbn [mbind outcome_bind].
  destruct (Z.ltb_spec (Z.of_nat (length buffer)) n); [lia|]. set (data := take (Z.to_nat n) (drop (Z.to_nat pos) f)).
  assert (length data = Z.to_nat n) as Hd by (unfold data; rewrite length_take, length_drop; lia).
  eexists. split; [done|]. assert (length (data ++ drop (length data) buffer) = length buffer) as Hlb
    by (rewrite length_app, length_drop; lia).
  split; [done|]. rewrite get_bytes_in by lia. change (drop (Z.to_nat 0) ?l) with l. by rewrite take_app_length'.
Qed.

Section load.
Context (sp : VmSpace) (ss : list Z) (file : list Z).
Hypothesis Hfile : Z.of_nat (length file) < two31.

(** What loading changes: the memory of the space only. *)
Record loads v v' (va : Z) (data : list Z) : Prop := {
  ld_unmoved : unmoved v v';
  ld_active : activePageMap v' = activePageMap v;
  ld_memory : memory_of v' ss = splice (memory_of v ss) (Z.to_nat va) data;
  ld_others s : on_swap v s -> ~ (s ∈ ss) -> contents v' s = contents v s }.

(** One piece, within a page. *)
Lemma load_piece v va c fa : vm_ok v -> maps v sp ss -> unloaded v ss -> 0 <= va < 128 * Z.of_nat (length ss) -> 0 <= fa ->
  0 <= c -> fa + c <= Z.of_nat (length file) -> va `mod` 128 + c <= 128 ->
  exists b e data v', file_ReadAt file (diskBuffer v) c fa = Ok b /\
    (exists p, entry_at (with_diskBuffer v b) sp (cdiv va 128) = Ok (p, e)) /\ get_bytes b 0 c = Ok data /\
    data = take (Z.to_nat c) (drop (Z.to_nat fa) file) /\
    VMManager_writePage (with_diskBuffer v b) (physicalPage e) data (cmod va 128) = Ok v' /\ loads v v' va data.
Proof.
  intros Hv Hm Hun Hva Hfa Hc Hlen Hpg. pose proof (co_buf _ (vo_core _ Hv)) as Hbuf.
  assert (0 <= va `mod` 128 < 128) as Hmod by (apply Z.mod_pos_bound; lia).
  destruct (file_ReadAt_within file (diskBuffer v) c fa) as (b & Hrd & Hbl & Hget); [lia|lia|lia|lia|].
  destruct (page_of v sp ss va Hv Hm Hva) as (_ & p & e & s & Ht & He & Hs & Heq & Hplace).
  set (data := take (Z.to_nat c) (drop (Z.to_nat fa) file)) in *.
  assert (length data = Z.to_nat c) as Hdl by (unfold data; rewrite length_take, length_drop; lia).
  set (v1 := with_diskBuffer v b). assert (unmoved v v1) as Hu1 by (apply buffer_unmoved; [done|congruence]).
  assert (s ∈ ss) as Hin by (by eapply list_elem_of_lookup_2). destruct (maps_on_swap v sp ss s Hv Hm Hin) as (Hr & Hon & _).
  destruct (writePage_ok v1 s data (Z.to_nat (va `mod` 128))) as (v' & Hw & Hu2 & Ha2 & _ & _ & Hhere & Hother);
    [apply Hu1|by apply Hu1|by apply Hun|lia|].
  exists b, e, data, v'. split; [done|]. split.
  { exists p. unfold entry_at. rewrite cdiv_nonneg by lia. rewrite (proj2 (arr_get_ok _ _ p)) by (split; [dlia|done]). cbn [mbind outcome_bind].
    simpl. by rewrite He. }
  split; [done|]. split; [done|]. split; [rewrite cmod_nonneg, Heq by lia; rewrite Z2Nat.id in Hw by lia; exact Hw|].
  pose proof (unmoved_trans _ _ _ Hu1 Hu2) as Hu. split; try done.
  - rewrite <- Hplace. apply (memory_splice v v' sp ss _ s); try done; [apply Hu|by eapply unmoved_maps|lia].
  - intros s' Hon' Hn. apply Hother; [by apply Hu1|]. congruence.
Qed.

Lemma VM_ReadFile_loop_ok fuel : forall v copySize va size fa,
  vm_ok v -> maps v sp ss -> unloaded v ss -> 0 <= fa -> 0 <= size < Z.of_nat fuel -> fa + size <= Z.of_nat (length file) ->
  0 <= va -> va + size <= 128 * Z.of_nat (length ss) -> 1 <= copySize <= 128 ->
  exists v', VM_ReadFile_loop fuel sp file v copySize va size fa = Ok (1, v') /\
    loads v v' va (take (Z.to_nat size) (drop (Z.to_nat fa) file)).
Proof.
  induction fuel as [|fuel IH]; intros v copySize va size fa Hv Hm Hun Hfa Hsz Hlen Hva Hin Hcs; [lia|].
  cbn [VM_ReadFile_loop]. destruct (Z.leb_spec size 0) as [Hz|Hpos].
  { exists v. split; [done|]. replace size with 0 by lia. change (take (Z.to_nat 0) ?l) with (@nil Z).
    split; try done. by rewrite splice_nil. }
  change PageSize with 128. cbv zeta. rewrite cmod_nonneg by lia.
  set (c1 := if size <? 128 then size else copySize).
  set (c := if 128 <=? c1 + va `mod` 128 then 128 - va `mod` 128 else c1).
  assert (0 <= va `mod` 128 < 128) as Hmod by (apply Z.mod_pos_bound; lia).
  assert (1 <= c1 <= size /\ c1 <= 128) as Hc1 by (unfold c1; destruct (Z.ltb_spec size 128); lia).
  assert (1 <= c <= size /\ va `mod` 128 + c <= 128) as Hc.
  { unfold c. destruct (Z.leb_spec 128 (c1 + va `mod` 128)); lia. }
  destruct (load_piece v va c fa Hv Hm Hun) as (b & e & data & v1 & Hrd & (p & Hent) & Hget & Hdata & Hw & Hld); [lia..|].
  rewrite Hrd. cbn [mbind outcome_bind]. rewrite Hent. cbn [mbind outcome_bind]. cbn [diskBuffer with_diskBuffer]. rewrite Hget.
  cbn [mbind outcome_bind]. rewrite cmod_nonneg in Hw by lia. rewrite Hw. cbn [mbind outcome_bind].
  pose proof Hld as [Lu La Lm Lo]. pose proof (maps_small v sp ss Hv Hm) as Hsm. unfold two31 in Hfile.
  rewrite !s32_small by (unfold is_s32, two31; lia).
  destruct (IH v1 c (va + c) (size - c) (fa + c)) as (v' & -> & [Lu' La' Lm' Lo']);
    [apply Lu|by eapply unmoved_maps|intros s Hs; rewrite La; by apply Hun|lia..|].
  exists v'. split; [done|]. pose proof (memory_length v sp ss Hv Hm) as Hml. split.
  - by eapply unmoved_trans.
  - congruence.
  - rewrite Lm', Lm, Hdata. apply splice_pieces; lia.
  - intros s Hon Hn. rewrite Lo', Lo; [done|done|done|by apply Lu|done].
Qed.

(** A segment of a program file; an empty one can have any addresses. *)
Definition VM_loadable (s : Segment) : Prop :=
  0 <= seg_size s /\
  (0 < seg_size s -> 0 <= seg_virtualAddr s /\ seg_virtualAddr s + seg_size s <= 128 * Z.of_nat (length ss) /\
   0 <= seg_inFileAddr s /\ seg_inFileAddr s + seg_size s <= Z.of_nat (length file)).

Lemma VM_load_segment_ok v s : vm_ok v -> maps v sp ss -> unloaded v ss -> VM_loadable s ->
  exists v', VM_load_segment sp file v s = Ok v' /\ loads v v' (seg_virtualAddr s) (segment_bytes s file).
Proof.
  intros Hv Hm Hun (H1' & Hpos). unfold VM_load_segment. destruct (Z.ltb_spec 0 (seg_size s)) as [Hlt|].
  - destruct (Hpos Hlt) as (H2' & H3' & H4' & H5'). unfold VM_ReadFile. destruct (VM_ReadFile_loop_ok (S (Z.to_nat (seg_size s))) v PageSize (seg_virtualAddr s) (seg_size s) (seg_inFileAddr s))
      as (v' & -> & Hld); try done; try lia. by exists v'.
  - exists v. split; [done|]. unfold segment_bytes. replace (seg_size s) with 0 by lia. change (take (Z.to_nat 0) ?l) with (@nil Z).
    split; try done. by rewrite splice_nil.
Qed.
End load.

(** ** The constructor *)

(** The UNIX file [file] holds a program of [np] pages with the header [n]. *)
Record VM_program (file ws : list Z) (n : NoffHeader) (np : nat) : Prop := {
  vp_length : 40 <= Z.of_nat (length file) < two31;
  vp_words : Forall is_s32 ws;
  vp_header : noff_of_words ws = Some n;
  vp_bytes : take 40 file = words_to_bytes ws;
  vp_magic : noffMagic n = NOFFMAGIC;
  vp_pages : Z.of_nat np = divRoundUp (u32 (seg_size (noff_code n) + seg_size (noff_initData n) + seg_size (noff_uninitData n)
                                            + UserStackSize)) PageSize;
  vp_code : VM_loadable (replicate np 0) file (noff_code n);
  vp_data : VM_loadable (replicate np 0) file (noff_initData n) }.

Lemma header_back ws n : Forall is_s32 ws -> noff_of_words ws = Some n ->
  length (words_to_bytes ws) = 40%nat /\ noff_of_words (map s32 (bytes_to_words 10 (words_to_bytes ws))) = Some n.
Proof.
  intros Hr Hn. assert (length ws = 10%nat) as Hl by (unfold noff_of_words in Hn; repeat (destruct ws as [|? ws]; try done)).
  split; [rewrite words_to_bytes_length; lia|]. rewrite <- Hl, <- (app_nil_r (words_to_bytes ws)), bytes_words_round_trip, map_map.
  assert (map (fun x => s32 (u32 x)) ws = ws) as ->; [|done].
  clear -Hr. induction Hr as [|w ws Hw _ IH]; simpl; [done|]. by rewrite IH, s32_u32, s32_small.
Qed.

Lemma loadable_length ss file np s : length ss = np -> VM_loadable (replicate np 0) file s -> VM_loadable ss file s.
Proof. intros Hl. unfold VM_loadable. by rewrite length_replicate, Hl. Qed.

Lemma added_maps v v' ps ss ds : pages_added v v' ps ss ds -> maps v' (mkVmSpace (Z.of_nat (length ps)) ps) ss.
Proof. intros [B1 B2 B3 B4 B5 B6 B7 B8 B9 B10]. by split. Qed.

Lemma added_keeps v v' ps ss ds sp ss' : pages_added v v' ps ss ds -> maps v sp ss' -> maps v' sp ss'.
Proof.
  intros [B1 B2 B3 B4 B5 B6 B7 B8 B9 B10] [M1 M2 M3]. split; try done. eapply Forall2_impl; [exact M2|].
  intros p s (e & He & Hs). exists e. split; [by apply B6|done].
Qed.

(** New pages are not in main memory. *)
Lemma added_unloaded v v' ps ss ds : swap_ok v -> pages_added v v' ps ss ds ->
  allocated (swapMap v) (swapMap v') ss -> unloaded v' ss.
Proof.
  intros [S1 S2 S3] Hga Hal s Hs Hin. rewrite (ga_active _ _ _ _ _ Hga) in Hin. destruct (al_got _ _ _ Hal s Hs) as [Hr Hf].
  destruct (S3 s Hin) as [_ Hu]; [lia|congruence].
Qed.

Lemma added_memory v v' ps ss n : pages_added v v' ps ss (replicate n zero_page) -> memory_of v' ss = replicate (128 * n) 0.
Proof.
  intros Hga. pose proof (ga_contents _ _ _ _ _ Hga) as Hc. unfold memory_of. clear Hga. revert n Hc.
  induction ss as [|s ss IH]; intros [|n] Hc; [done|by apply Forall2_nil_cons_inv in Hc|by apply Forall2_cons_nil_inv in Hc|].
  simpl in Hc. apply Forall2_cons in Hc as [[_ Hs] Hc]. rewrite fmap_cons. simpl concat. rewrite Hs, (IH n) by done.
  replace (128 * S n)%nat with (128 + 128 * n)%nat by lia. by rewrite replicate_add.
Qed.

(** A space has been created with the pages [ss]; the other ones are as they were. *)
Record created v v' (sp : VmSpace) (ss : list Z) : Prop := {
  cr_ok : vm_ok v';
  cr_lazy : lazy_ok v -> lazy_ok v';
  cr_maps : maps v' sp ss;
  cr_pages : allocated (swapMap v) (swapMap v') ss;
  cr_keeps sp0 ss0 : maps v sp0 ss0 -> maps v' sp0 ss0;
  cr_others s : on_swap v s -> ~ (s ∈ ss) -> contents v' s = contents v s }.

(** Loading the segments of a new space. *)
Lemma load_program v v1 ps ss file n np :
  vm_ok v -> pages_added v v1 ps ss (replicate np zero_page) -> allocated (swapMap v) (swapMap v1) ss -> length ss = np ->
  Z.of_nat (length file) < two31 -> VM_loadable ss file (noff_code n) -> VM_loadable ss file (noff_initData n) ->
  let sp := mkVmSpace (Z.of_nat np) ps in
  exists v2 v3, VM_load_segment sp file v1 (noff_code n) = Ok v2 /\ VM_load_segment sp file v2 (noff_initData n) = Ok v3 /\
    created v v3 sp ss /\
    memory_of v3 ss = splice (splice (replicate (128 * np) 0) (Z.to_nat (seg_virtualAddr (noff_code n))) (segment_bytes (noff_code n) file))
                        (Z.to_nat (seg_virtualAddr (noff_initData n))) (segment_bytes (noff_initData n) file).
Proof.
  intros Hv Hga Hal Hl Hf Hlc Hld sp.
  assert (length ps = np) as Hps by (rewrite <- Hl; eapply Forall2_length, Hga).
  assert (maps v1 sp ss) as Hm1 by (unfold sp; rewrite <- Hps; by eapply added_maps).
  pose proof (added_unloaded _ _ _ _ _ (vo_swap _ Hv) Hga Hal) as Hun1.
  destruct (VM_load_segment_ok sp ss file Hf v1 (noff_code n)) as (v2 & Hs2 & [Lu2 La2 Lm2 Lo2]); [apply Hga|done|done|done|].
  destruct (VM_load_segment_ok sp ss file Hf v2 (noff_initData n)) as (v3 & Hs3 & [Lu3 La3 Lm3 Lo3]);
    [apply Lu2|by eapply unmoved_maps|intros s Hs; rewrite La2; by apply Hun1|done|].
  pose proof (unmoved_trans _ _ _ Lu2 Lu3) as Lu. exists v2, v3. split; [done|]. split; [done|]. split.
  - split.
    + apply Lu.
    + intros Hlz. by apply Lu, Hga.
    + by eapply unmoved_maps.
    + by rewrite (um_swapMap _ _ Lu).
    + intros sp0 ss0 Hm0. eapply unmoved_maps; [exact Lu|]. by eapply added_keeps.
    + intros s Hon Hn. destruct (ga_others _ _ _ _ _ Hga s Hon Hn) as [Hon1 Hc1]. rewrite Lo3; [|by apply Lu2|done].
      by rewrite Lo2, Hc1.
  - rewrite Lm3, Lm2. by rewrite (added_memory v v1 ps ss np Hga).
Qed.

(** The constructor after the header was read. *)
Lemma VM_AddrSpace_new_run v file ws n np : vm_ok v -> VM_program file ws n np ->
  VM_AddrSpace_new file v =
  (ASSERT (Z.of_nat np <=? ba_free (swapMap v));;
   '(t, v) ← VM_new_pages np 0 v;
   let sp := mkVmSpace (Z.of_nat np) t in
   v ← VM_load_segment sp file v (noff_code n);
   v ← VM_load_segment sp file v (noff_initData n);
   Ok (sp, v)).
Proof.
  intros Hv [[V1 V1'] V2 V3 V4 V5 V6 V7 V8]. destruct (header_back ws n V2 V3) as [Hwl Hback].
  pose proof (vo_swap _ Hv) as [S1 S2 S3]. pose proof (ba_free_nonneg (swapMap v)).
  assert (ba_free (swapMap v) <= 512) as Hmax.
  { unfold ba_free. rewrite S2. apply (count_clear_bounds _ 512). }
  unfold VM_AddrSpace_new, file_ReadAt. simpl (ASSERT (0 <=? 0)). cbn [mbind outcome_bind].
  change (drop (Z.to_nat 0) file) with file. change (Z.to_nat 40) with 40%nat. rewrite V4, Hwl, fresh_bytes_length.
  change (Z.of_nat 40 <? 40) with false. cbv iota. cbn [mbind outcome_bind].
  rewrite (drop_ge (fresh_bytes 40)) by (rewrite fresh_bytes_length; lia). rewrite app_nil_r, Hback. cbn [deref mbind outcome_bind].
  rewrite V5, Z.eqb_refl. cbn [negb andb]. rewrite V5, Z.eqb_refl. cbn [ASSERT mbind outcome_bind].
  unfold VMManager_getFreePageCount, SwapManager_getFreePageCount. rewrite ba_numClear_ok by done. cbn [mbind outcome_bind].
  rewrite <- V6. rewrite (u32_small (ba_free _)) by (unfold is_u32, two32; lia). by rewrite Nat2Z.id.
Qed.

Lemma VM_AddrSpace_new_ok v file ws n np :
  vm_ok v -> VM_program file ws n np -> Z.of_nat np <= ba_free (swapMap v) ->
  exists sp v' ss, VM_AddrSpace_new file v = Ok (sp, v') /\ length ss = np /\ created v v' sp ss /\
    memory_of v' ss = splice (splice (replicate (128 * np) 0) (Z.to_nat (seg_virtualAddr (noff_code n))) (segment_bytes (noff_code n) file))
                        (Z.to_nat (seg_virtualAddr (noff_initData n))) (segment_bytes (noff_initData n) file).
Proof.
  intros Hv Hprog Hfree. pose proof Hprog as [[V1 V1'] V2 V3 V4 V5 V6 V7 V8]. pose proof (vo_swap _ Hv) as [S1 S2 S3].
  destruct (VM_new_pages_ok (swapMap v) np 0 v []) as (ps & v1 & ss & Hnp & Hl & Hal & Hga); [done|by apply allocated_nil|done|].
  destruct (load_program v v1 ps ss file n np Hv Hga Hal Hl V1') as (v2 & v3 & Hs2 & Hs3 & Hcr & Hmem);
    [by eapply loadable_length|by eapply loadable_length|].
  exists (mkVmSpace (Z.of_nat np) ps), v3, ss. split; [|done]. rewrite (VM_AddrSpace_new_run v file ws n np) by done.
  rewrite ASSERT_true by lia. cbn [mbind outcome_bind]. rewrite Hnp. cbn [mbind outcome_bind]. rewrite Hs2. cbn [mbind outcome_bind].
  by rewrite Hs3.
Qed.

(** ** The copy *)

Lemma put_page_twice (l a b : list Z) i : length a = 128%nat -> length b = 128%nat -> (128 * i + 128 <= length l)%nat ->
  put_page (put_page l i a) i b = put_page l i b.
Proof.
  intros Ha Hb Hl. unfold put_page. f_equal; [rewrite take_app_le by (rewrite length_take; lia); rewrite take_take; f_equal; lia|].
  f_equal. rewrite app_assoc, drop_app_length' by (rewrite length_app, length_take; lia). done.
Qed.

Lemma swap_written_twice v m s a b : 0 <= s -> length a = 128%nat -> length b = 128%nat ->
  swap_written (swap_written v m s a) m s b = swap_written v m s b.
Proof.
  intros Hs Ha Hb. unfold swap_written, with_swapFile, with_diskBuffer, with_swapMap. simpl. f_equal.
  set (f := Pager.padded (swapFile v) (Z.to_nat s)).
  assert (length f = Nat.max (length (swapFile v)) (128 * Z.to_nat s + 128)) as Hf by apply padded_length.
  rewrite <- (put_page_twice f a b) by (done || lia). f_equal. unfold Pager.padded.
  rewrite put_page_length by (done || lia). replace (_ - length f)%nat with 0%nat by lia. by rewrite app_nil_r.
Qed.

(** A page for the copy of the page [from]. *)
Lemma copy_page_ok m0 got v from i : vm_ok v -> allocated m0 (swapMap v) got -> 0 < ba_free (swapMap v) ->
  on_swap v from -> ba_used (swapMap v) from = true ->
  exists s v1 v2 p v', VMManager_getPage v = Ok (s, v1) /\ 0 <= s /\ entries v1 = entries v /\ VMManager_copy v1 from s = Ok v2 /\
    add_entry v2 (mkEntry i s false false false false) = (p, v') /\
    allocated m0 (swapMap v') (got ++ [s]) /\ ba_used (swapMap v) s = false /\
    page_added v v' s (swapped v from) p (mkEntry i s false false false false).
Proof.
  intros Hv Hal Hfree Hon Hu. destruct (getPage_takes m0 got v (vo_core _ Hv) (vo_swap _ Hv) Hal Hfree)
    as (s & m & Hg & Hal' & Hs & Hfs & Hnin & Hm1 & Hm2 & Hm3).
  assert (from <> s) as Hne by congruence. set (v1 := swap_written v m s zero_page).
  assert (swapped v1 from = swapped v from) as Hsw by (apply (swap_written_other v m s zero_page); (done || lia)).
  destruct (swap_written_length v m s zero_page) as [Hlen _]; [lia|done|].
  assert (length (swapped v from) = 128%nat) as Hl by (destruct Hon; apply page_length; lia).
  exists s, v1, (swap_written v m s (swapped v from)), (fresh (dom (entries v))). eexists.
  split; [done|]. split; [lia|]. split; [done|]. split; [|split; [done|split; [done|split; [done|]]]].
  - unfold VMManager_copy, SwapManager_copy. assert (core_ok v1) as Hc1 by (apply swap_written_core; (done || apply Hv || lia)).
    destruct Hon as [Ho1 Ho2]. rewrite file_ReadAt_page by (apply Hc1 || (fold v1 in Hlen; lia)). cbn [mbind outcome_bind swapFile diskBuffer with_diskBuffer].
    change (page (swapFile v1) (Z.to_nat from)) with (swapped v1 from). rewrite Hsw. rewrite file_WriteAt_any by (done || lia).
    cbn [mbind outcome_bind]. f_equal. rewrite <- (swap_written_twice v m s zero_page (swapped v from)) by (done || lia). done.
  - apply (with_page_ok v m s (swapped v from)); try done. apply not_elem_of_dom, is_fresh.
Qed.

(** One step of the copy. *)
Lemma copy_step sp ss0 m0 got v i : vm_ok v -> maps v sp ss0 -> allocated m0 (swapMap v) got -> 0 < ba_free (swapMap v) ->
  (i < length ss0)%nat ->
  exists from p0 e0 s v1 v2 p v3, VMManager_getPage v = Ok (s, v1) /\ 0 <= s /\ entry_at v1 sp (Z.of_nat i) = Ok (p0, e0) /\
    VMManager_copy v1 (physicalPage e0) s = Ok v2 /\ add_entry v2 (mkEntry (Z.of_nat i) s false false false false) = (p, v3) /\
    allocated m0 (swapMap v3) (got ++ [s]) /\
    page_added v v3 s (swapped v from) p (mkEntry (Z.of_nat i) s false false false false) /\
    maps v3 sp ss0 /\ ba_free (swapMap v3) = ba_free (swapMap v) - 1 /\ ss0 !! i = Some from /\
    (swapped v3 <$> ss0 = swapped v <$> ss0).
Proof.
  intros Hv Hm Hal Hfree Hi. destruct (lookup_lt_is_Some_2 ss0 i Hi) as [from Hfrom].
  assert (from ∈ ss0) as Hin by (by eapply list_elem_of_lookup_2). destruct (maps_on_swap v sp ss0 from Hv Hm Hin) as (_ & Hon & Hu).
  destruct (maps_at _ _ _ _ _ Hm Hfrom) as (p0 & e0 & Hp0 & He0 & Heq).
  destruct (copy_page_ok m0 got v from (Z.of_nat i) Hv Hal Hfree Hon Hu) as (s & v1 & v2 & p & v3 & Hg & Hs & Hent & Hcp & Hadd & Hal3 & Hfs & Hpa).
  exists from, p0, e0, s, v1, v2, p, v3. split; [done|]. split; [done|]. split.
  { unfold entry_at. rewrite (proj2 (arr_get_ok _ _ p0)) by (rewrite Nat2Z.id; split; [lia|done]). cbn [mbind outcome_bind].
    by rewrite Hent, He0. }
  split; [by rewrite Heq|]. split; [done|]. split; [done|]. split; [done|].
  pose proof (al_free _ _ _ Hal) as F0. pose proof (al_free _ _ _ Hal3) as F1. rewrite length_app in F1. simpl in F1. split_and!.
  - destruct Hm as [M1 M2 M3]. destruct (pa_entries _ _ _ _ _ _ Hpa) as [Hn Hnew]. split; try done. eapply Forall2_impl; [exact M2|].
    intros q t (f & Hf & Ht). exists f. rewrite Hnew, lookup_insert_ne by congruence. done.
  - lia.
  - done.
  - apply list_fmap_ext. intros j t Hj. assert (t ∈ ss0) as Htin by (by eapply list_elem_of_lookup_2).
    destruct (maps_on_swap v sp ss0 t Hv Hm Htin) as (_ & Hont & Hut). apply (pa_swapped _ _ _ _ _ _ Hpa); [done|]. congruence.
Qed.

Lemma VM_copy_pages_ok sp ss0 m0 n : forall i v got,
  vm_ok v -> maps v sp ss0 -> allocated m0 (swapMap v) got -> Z.of_nat n <= ba_free (swapMap v) -> (i + n = length ss0)%nat ->
  exists ps v' ss, VM_copy_pages n (Z.of_nat i) sp v = Ok (ps, v') /\ length ss = n /\ allocated m0 (swapMap v') (got ++ ss) /\
    pages_added v v' ps ss (drop i (swapped v <$> ss0)).
Proof.
  induction n as [|n IH]; intros i v got Hv Hm Hal Hfree Hi; cbn [VM_copy_pages].
  { exists [], v, []. rewrite app_nil_r, drop_ge by (rewrite length_fmap; lia). split_and!; try done. by apply pages_added_nil. }
  destruct (copy_step sp ss0 m0 got v i Hv Hm Hal) as (from & p0 & e0 & s & v1 & v2 & p & v3 & Hg & Hs & Hent & Hcp & Hadd & Hal3 & Hpa & Hm3 & Hfr & Hfrom & Hsw); [lia|lia|].
  rewrite Hg. cbn [mbind outcome_bind]. rewrite ASSERT_true by lia. cbn [mbind outcome_bind]. rewrite Hent.
  cbn [mbind outcome_bind]. rewrite Hcp. cbn [mbind outcome_bind]. rewrite Hadd.
  destruct (IH (S i) v3 (got ++ [s])) as (ps & v' & ss & Hrun & Hl & Hal' & Hga); [apply Hpa|done|done|lia|lia|].
  replace (Z.of_nat i + 1) with (Z.of_nat (S i)) by lia. rewrite Hrun. cbn [mbind outcome_bind].
  rewrite <- app_assoc in Hal'. exists (p :: ps), v', (s :: ss). split; [done|]. split; [simpl; lia|]. split; [done|].
  rewrite (drop_S _ (swapped v from) i) by (by rewrite list_lookup_fmap, Hfrom). rewrite Hsw in Hga.
  eapply pages_added_cons; try done. by eapply allocated_last.
Qed.

Lemma added_contents v v' ps ss ds : pages_added v v' ps ss ds -> memory_of v' ss = concat ds.
Proof.
  intros Hga. pose proof (ga_contents _ _ _ _ _ Hga) as Hc. unfold memory_of. clear Hga. f_equal.
  induction Hc as [|s d ss ds [_ Hs] _ IH]; [done|]. by rewrite fmap_cons, Hs, IH.
Qed.

Lemma VM_CopyAddrSpace_ok v sp ss : vm_ok v -> maps v sp ss -> vs_numPages sp <= ba_free (swapMap v) ->
  exists sp' v' ss', VM_CopyAddrSpace sp v = Ok (sp', v') /\ created v v' sp' ss' /\ length ss' = length ss /\
    memory_of v' ss' = concat (swapped v <$> ss).
Proof.
  intros Hv Hm Hfree. pose proof (vo_swap _ Hv) as [S1 S2 S3]. pose proof (maps_length v sp ss Hm) as Hl.
  rewrite (mp_size _ _ _ Hm), <- Hl in Hfree.
  destruct (VM_copy_pages_ok sp ss (swapMap v) (length ss) 0 v []) as (ps & v' & ss' & Hrun & Hl' & Hal & Hga);
    [done|done|by apply allocated_nil|done|done|].
  exists (mkVmSpace (vs_numPages sp) ps), v', ss'. unfold VM_CopyAddrSpace.
  rewrite (mp_size _ _ _ Hm), <- Hl, Nat2Z.id. change (Z.of_nat 0) with 0 in Hrun. rewrite Hrun. split; [done|]. split; [|split; [done|by rewrite (added_contents _ _ _ _ _ Hga)]].
  assert (length ps = length ss) as Hps by (rewrite <- Hl'; eapply Forall2_length, Hga). split; try done.
  - apply Hga.
  - apply Hga.
  - rewrite <- Hps. by eapply added_maps.
  - intros sp0 ss0. by eapply added_keeps.
  - intros s Hon Hn. by apply (ga_others _ _ _ _ _ Hga).
Qed.

(** Without room for all pages the copy fails. *)
Lemma VM_copy_pages_full sp ss0 m0 n : forall i v got,
  vm_ok v -> maps v sp ss0 -> allocated m0 (swapMap v) got -> ba_free (swapMap v) < Z.of_nat n -> (i + n = length ss0)%nat ->
  VM_copy_pages n (Z.of_nat i) sp v = AssertFail.
Proof.
  induction n as [|n IH]; intros i v got Hv Hm Hal Hfull Hi; pose proof (ba_free_nonneg (swapMap v)); [lia|]. cbn [VM_copy_pages].
  destruct (decide (ba_free (swapMap v) = 0)) as [Hz|Hfree].
  { unfold VMManager_getPage, SwapManager_allocPage. by rewrite ba_find_none by (done || apply Hv). }
  destruct (copy_step sp ss0 m0 got v i Hv Hm Hal) as (from & p0 & e0 & s & v1 & v2 & p & v3 & Hg & Hs & Hent & Hcp & Hadd & Hal3 & Hpa & Hm3 & Hfr & _); [lia|lia|].
  rewrite Hg. cbn [mbind outcome_bind]. rewrite ASSERT_true by lia. cbn [mbind outcome_bind]. rewrite Hent.
  cbn [mbind outcome_bind]. rewrite Hcp. cbn [mbind outcome_bind]. rewrite Hadd.
  replace (Z.of_nat i + 1) with (Z.of_nat (S i)) by lia. rewrite (IH (S i) v3 (got ++ [s])); [done|apply Hpa|done|done|lia|lia].
Qed.

End creation.

(** ** The destructor *)

Section deletion.
Context {M P : Type} `{BitAllocatorLaws M} `{ReplacementLaws P}.
Implicit Types v : vm M P.

(** The pages of the entries [dead] have been cleared. *)
Record clearing v (dead : list positive) : Prop := {
  ci_core : core_ok v;
  ci_alloc : alloc_ok v;
  ci_swap : swap_ok v;
  ci_inj p p' e e' : entries v !! p = Some e -> entries v !! p' = Some e' -> physicalPage e = physicalPage e' -> p = p';
  ci_entry p e : entries v !! p = Some e -> 0 <= physicalPage e < SWAP_SIZE /\ on_swap v (physicalPage e) /\ readOnly e = false;
  ci_live p e : entries v !! p = Some e -> ~ (p ∈ dead) -> ba_used (swapMap v) (physicalPage e) = true;
  ci_dead p e : entries v !! p = Some e -> p ∈ dead -> ~ (physicalPage e ∈ activePageMap v) }.

Lemma clearing_start v : vm_ok v -> clearing v [].
Proof.
  intros [V1 V2 V3 V4 V5]. split; try done.
  - intros p e Hp. by destruct (V5 p e Hp) as (? & ? & _ & ?).
  - intros p e Hp _. by destruct (V5 p e Hp) as (_ & _ & ? & _).
  - intros p e _ Hin. by apply elem_of_nil in Hin.
Qed.

Lemma clearing_served v v' dead p e i : clearing v dead -> entries v !! p = Some e -> ~ (p ∈ dead) ->
  served v v' (physicalPage e) i -> clearing v' dead.
Proof.
  intros [C1 C2 [S1 S2 S3] C4 C5 C6 C7] He Hnd [T1 T2 T3 T4 T5 T6 T7 T8 T9].
  assert (forall q f, entries v' !! q = Some f -> exists g, entries v !! q = Some g /\ physicalPage f = physicalPage g /\ readOnly f = readOnly g) as Hold.
  { intros q f Hq. destruct (mapping_at _ _ _ _ T7 Hq) as (g & Hg & G). injection G as _ G1 _ G2. by exists g. }
  split; try done.
  - split; rewrite T6; try done. intros s [->|Hin]%T8 Hne; [|by apply S3]. split; [apply (C5 p e He)|by apply (C6 p e He)].
  - intros q1 q2 f1 f2 L1 L2. destruct (Hold q1 f1 L1) as (g1 & G1 & -> & _), (Hold q2 f2 L2) as (g2 & G2 & -> & _). exact (C4 q1 q2 g1 g2 G1 G2).
  - intros q f Hq. destruct (Hold q f Hq) as (g & G & -> & ->). unfold on_swap. rewrite T5. exact (C5 q g G).
  - intros q f Hq. destruct (Hold q f Hq) as (g & G & -> & _). rewrite T6. exact (C6 q g G).
  - intros q f Hq Hd. destruct (Hold q f Hq) as (g & G & -> & _). intros [Heq|Hin]%T8; [|by apply (C7 q g G Hd)].
    apply Hnd. by rewrite <- (C4 q p g e G He Heq).
Qed.

Lemma clearing_cleared v v' dead p e i : clearing v dead -> entries v !! p = Some e -> activePageMap v !! i = Some (physicalPage e) ->
  cleared v v' (physicalPage e) i -> clearing v' (p :: dead).
Proof.
  intros [C1 C2 C3 C4 C5 C6 C7] He Hi [D1 D2 D3 D4 D5 D6 D7 D8 D9 D10 D11]. split; try done; rewrite ?D4; try done.
  - intros q f Hq. destruct (C5 q f Hq) as (R1 & R2 & R3). split; [done|]. split; [by apply D9|done].
  - intros q f Hq Hn. apply not_elem_of_cons in Hn as [Hne Hn]. destruct (C5 q f Hq) as (R1 & _). rewrite D7 by lia.
    rewrite (C6 q f Hq Hn), bool_decide_eq_false_2; [done|]. intros Heq. by apply Hne, (C4 q p f e Hq He).
  - intros q f Hq Hin. rewrite D5. destruct (C5 q f Hq) as (R1 & _).
    intros [j Hj]%list_elem_of_lookup. apply list_lookup_insert_Some in Hj as [(_ & ? & _)|[Hne Hj]]; [lia|].
    apply elem_of_cons in Hin as [->|Hin]; [|by eapply (C7 q f Hq Hin), list_elem_of_lookup_2].
    assert (f = e) as -> by congruence. apply Hne. apply (co_inj _ C1 i j (physicalPage e) Hi Hj). lia.
Qed.

(** Pages that are not valid are not in main memory, but for the entries [l]. *)
Definition lazy_but v (l : list positive) : Prop :=
  forall p e, entries v !! p = Some e -> ~ (p ∈ l) -> valid e = false -> ~ (physicalPage e ∈ activePageMap v).

Lemma lazy_cleared v v1 v2 dead p e i s : clearing v dead -> entries v !! p = Some e -> served v v1 (physicalPage e) i ->
  cleared v1 v2 s i -> lazy_but v dead -> lazy_but v2 (p :: dead).
Proof.
  intros Hci He [T1 T2 T3 T4 T5 T6 T7 T8 T9] [D1 D2 D3 D4 D5 D6 D7 D8 D9 D10 D11] Hl q f Hq Hn Hv.
  apply not_elem_of_cons in Hn as [Hne Hn]. rewrite D4 in Hq. destruct (mapping_at _ _ _ _ T7 Hq) as (g & Hg & G). injection G as _ G1 G2 _.
  destruct (ci_entry _ _ Hci q g Hg) as (R1 & _). rewrite D5. intros [?|Hin]%elem_of_insert; [lia|].
  destruct (T8 _ Hin) as [Heq|Hin']; [|apply (Hl q g Hg Hn); congruence]. apply Hne. apply (ci_inj _ _ Hci q p g e Hg He). congruence.
Qed.

Lemma VM_clear_pages_ok t : forall v dead ss, clearing v dead -> Forall2 (fun p s => exists e, entries v !! p = Some e /\ physicalPage e = s) t ss ->
  NoDup (t ++ dead) ->
  exists v', VM_clear_pages t v = Ok v' /\ clearing v' (rev t ++ dead) /\
    (mapping <$> entries v' = mapping <$> entries v) /\ (lazy_but v dead -> lazy_but v' (rev t ++ dead)) /\
    (forall j, 0 <= j -> ba_used (swapMap v') j = negb (bool_decide (j ∈ ss)) && ba_used (swapMap v) j) /\
    forall s, on_swap v s -> ~ (s ∈ ss) -> on_swap v' s /\ contents v' s = contents v s.
Proof.
  induction t as [|p t IH]; intros v dead ss Hci Hpg Hnd; cbn [VM_clear_pages rev app].
  { apply Forall2_nil_inv_l in Hpg as ->. exists v. split_and!; done. }
  destruct ss as [|s ss]; [by apply Forall2_cons_nil_inv in Hpg|]. apply Forall2_cons in Hpg as [(e & He & Heq) Hpg].
  simpl in Hnd. apply NoDup_cons in Hnd as [Hnp Hnd]. apply not_elem_of_app in Hnp as [Hnt Hndead].
  destruct (ci_entry _ _ Hci p e He) as (R1 & R2 & R3).
  destruct (getPhysicalPage_serves v p e (ci_core _ _ Hci) (ci_alloc _ _ Hci) He R2) as (i & v1 & Hg & Hi & Hsv). rewrite Hg. cbn [mbind outcome_bind].
  pose proof (clearing_served v v1 dead p e i Hci He Hndead Hsv) as Hci1. pose proof Hsv as [T1 T2 T3 T4 T5 T6 T7 T8 T9].
  destruct (mapping_at _ _ p e (eq_sym T7) He) as (e1 & He1 & Hmap). injection Hmap as _ Hphys _ _. rewrite He1. cbn [mbind outcome_bind deref].
  rewrite <- Hphys. destruct (clearPage_drops v1 (physicalPage e) i T1 T2 (ci_swap _ _ Hci1) R1 T3) as (v2 & Hcl & Hcleared).
  rewrite Hcl. cbn [mbind outcome_bind]. rewrite Hphys in Hcleared, T3.
  pose proof (clearing_cleared v1 v2 dead p e1 i Hci1 He1 T3 Hcleared) as Hci2. pose proof Hcleared as [D1 D2 D3 D4 D5 D6 D7 D8 D9 D10 D11].
  destruct (IH v2 (p :: dead) ss Hci2) as (v' & -> & Hci' & Hmap' & Hlz & Hbits & Hcont).
  { eapply Forall2_impl; [exact Hpg|]. intros q t' (f & Hf & Hft). rewrite D4.
    destruct (mapping_at _ _ q f (eq_sym T7) Hf) as (g & Hg' & G). injection G as _ G _ _. exists g. split; [done|congruence]. }
  { apply NoDup_app in Hnd as (N1 & N2 & N3). apply NoDup_app. split; [done|]. split; [|by constructor].
    intros q Hq [->|Hq']%elem_of_cons; [done|by apply (N2 q)]. }
  exists v'. split; [done|]. rewrite <- app_assoc. split; [done|]. rewrite Hmap', D4, T7. split; [done|].
  split; [intros Hl; apply Hlz; exact (lazy_cleared v v1 v2 dead p e i _ Hci He Hsv Hcleared Hl)|]. rewrite <- Hphys, Heq in *. split.
  - intros j Hj. rewrite Hbits by done. rewrite D7, T6 by done.
    destruct (decide (s = j)) as [->|Hne]; [rewrite (bool_decide_eq_true_2 (j = j)) by done|rewrite (bool_decide_eq_false_2 (s = j)) by done].
    + rewrite (bool_decide_eq_true_2 (j ∈ j :: ss)) by set_solver. simpl. by rewrite andb_false_r.
    + simpl. f_equal. f_equal. apply bool_decide_ext. set_solver.
  - intros s' Hon Hn. apply not_elem_of_cons in Hn as [Hne Hn]. assert (on_swap v1 s') as Hon1 by (unfold on_swap; rewrite T5; exact Hon).
    destruct (Hcont s' (D9 s' Hon1) Hn) as [Hon' ->]. split; [done|]. rewrite D11 by done. by apply T9.
Qed.

Lemma lookup_delete_all (m : gmap positive TranslationEntry) l p :
  foldr delete m l !! p = if decide (p ∈ l) then None else m !! p.
Proof.
  induction l as [|q l IH]; cbn [foldr]; [by rewrite decide_False by apply not_elem_of_nil|].
  destruct (decide (p = q)) as [->|Hne]; [rewrite lookup_delete_eq, decide_True by set_solver; done|].
  rewrite lookup_delete_ne by done. rewrite IH. destruct (decide (p ∈ l)); [by rewrite decide_True by set_solver|].
  by rewrite decide_False by set_solver.
Qed.

Lemma clearing_end v dead l : clearing v dead -> (forall p, p ∈ l <-> p ∈ dead) ->
  let v' := with_entries v (foldr delete (entries v) l) in
  vm_ok v' /\ (lazy_but v dead -> lazy_ok v').
Proof.
  intros [C1 C2 C3 C4 C5 C6 C7] Hl v'.
  assert (forall p e, entries v' !! p = Some e -> entries v !! p = Some e /\ ~ (p ∈ dead)) as Hsub.
  { intros p e. simpl. rewrite lookup_delete_all. destruct (decide (p ∈ l)); [done|]. by rewrite <- Hl. }
  split.
  - split; [|by destruct C2; split|by destruct C3; split|..].
    + destruct C1 as [K1 K2 K3 K4 K5 K6]. split; try done. intros i s Hi Hs. destruct (K6 i s Hi Hs) as (Ho & p & e & Hp & He & Hes & Hcl).
      split; [done|]. exists p, e. split_and!; try done. simpl. rewrite lookup_delete_all, decide_False; [done|].
      rewrite Hl. intros Hd. apply (C7 p e He Hd). rewrite Hes. by eapply list_elem_of_lookup_2.
    + intros p1 p2 e1 e2 [L1 _]%Hsub [L2 _]%Hsub. exact (C4 p1 p2 e1 e2 L1 L2).
    + intros p e [L1 Ln]%Hsub. destruct (C5 p e L1) as (R1 & R2 & R3). split; [done|]. split; [done|]. split; [by apply (C6 p e)|done].
  - intros Hlz p e Hp. destruct (Hsub p e Hp) as [L1 Ln]. exact (Hlz p e L1 Ln).
Qed.

Lemma VM_AddrSpace_delete_ok v sp ss : vm_ok v -> maps v sp ss ->
  exists v', VM_AddrSpace_delete sp v = Ok v' /\ vm_ok v' /\ (lazy_ok v -> lazy_ok v') /\ freed (swapMap v) (swapMap v') ss /\
    (forall s, on_swap v s -> ~ (s ∈ ss) -> on_swap v' s /\ contents v' s = contents v s) /\
    (forall sp0 ss0, maps v sp0 ss0 -> (forall s, s ∈ ss0 -> ~ (s ∈ ss)) -> maps v' sp0 ss0).
Proof.
  intros Hv Hm. pose proof Hm as [M1 M2 M3].
  destruct (VM_clear_pages_ok (vs_table sp) v [] ss (clearing_start v Hv) M2) as (v1 & Hrun & Hci & Hmap & Hlz & Hbits & Hcont);
    [by rewrite app_nil_r|]. rewrite app_nil_r in Hci, Hlz.
  assert (forall p, p ∈ vs_table sp <-> p ∈ rev (vs_table sp)) as Hsame.
  { intros p. rewrite !list_elem_of_In. by rewrite <- in_rev. }
  destruct (clearing_end v1 (rev (vs_table sp)) (vs_table sp) Hci Hsame) as [Hok Hlazy]. eexists.
  split; [unfold VM_AddrSpace_delete; rewrite M1, Nat2Z.id, take_ge by done; by rewrite Hrun|]. split; [done|]. split_and!.
  - intros Hl. apply Hlazy, Hlz. intros p e Hp _. exact (Hl p e Hp).
  - destruct (ci_swap _ _ Hci) as [S1 S2 _]. split; [done|]. split; [|done]. rewrite (so_size _ (vo_swap _ Hv)). done.
  - done.
  - intros sp0 ss0 Hm0 Hdis. pose proof Hm0 as [N1 N2 N3]. split; try done. apply Forall2_same_length_lookup_2; [by eapply Forall2_length|].
    intros k p s Hp Hs. destruct (Forall2_lookup_lr _ _ _ _ _ _ N2 Hp Hs) as (e & He & Heq).
    destruct (mapping_at _ _ p e (eq_sym Hmap) He) as (f & Hf & G). injection G as _ G _ _. exists f. simpl. rewrite lookup_delete_all, decide_False; [split; [done|congruence]|].
    intros Hin. apply (Hdis s); [by eapply list_elem_of_lookup_2|]. apply list_elem_of_lookup in Hin as [j Hj].
    destruct (Forall2_lookup_l _ _ _ _ _ M2 Hj) as (s' & Hs' & e' & He' & Heq'). assert (e' = e) as -> by congruence.
    rewrite <- Heq, Heq'. by eapply list_elem_of_lookup_2.
Qed.
End deletion.

(** ** Programs come and go *)

Section programs.
Context {M P : Type} `{BitAllocatorLaws M} `{ReplacementLaws P}.
Implicit Types v : vm M P.

Lemma programs_page v sps sss ss s : programs_ok v sps sss -> ss ∈ sss -> s ∈ ss ->
  0 <= s < SWAP_SIZE /\ on_swap v s /\ ba_used (swapMap v) s = true.
Proof.
  intros [Hv _ Hm _] [i Hi]%list_elem_of_lookup Hs. destruct (Forall2_lookup_r _ _ _ _ _ Hm Hi) as (sp & _ & Hms).
  by apply (maps_on_swap v sp ss s Hv Hms).
Qed.

Lemma created_programs v v' sps sss sp ss : programs_ok v sps sss -> created v v' sp ss ->
  programs_ok v' (sp :: sps) (ss :: sss) /\ memory_of v' <$> sss = memory_of v <$> sss.
Proof.
  intros Hp [K1 K2 K3 K4 K5 K6]. pose proof Hp as [Hv Hl Hm Hap].
  assert (forall ss0 s, ss0 ∈ sss -> s ∈ ss0 -> ~ (s ∈ ss)) as Hdis.
  { intros ss0 s Hin Hs Hs'. destruct (programs_page v sps sss ss0 s Hp Hin Hs) as (_ & _ & Hu).
    destruct (al_got _ _ _ K4 s Hs') as [_ Hf]. congruence. }
  split.
  - split; [done|by apply K2|constructor; [done|]; eapply Forall2_impl; [exact Hm|]; intros ? ?; apply K5|].
    intros [|i] [|j] ss1 ss2 s; simpl; try done.
    + intros [= <-] Hj _ Hs Hs2. by apply (Hdis ss2 s); [by eapply list_elem_of_lookup_2|..].
    + intros Hi [= <-] _ Hs. by apply (Hdis ss1 s); [by eapply list_elem_of_lookup_2|].
    + intros Hi Hj Hne. apply (Hap i j); [done|done|congruence].
  - apply list_fmap_ext. intros i ss0 Hi. assert (ss0 ∈ sss) as Hin by (by eapply list_elem_of_lookup_2). apply memory_ext.
    intros s Hs. destruct (programs_page v sps sss ss0 s Hp Hin Hs) as (_ & Hon & _). apply K6; [done|]. by apply (Hdis ss0).
Qed.

Lemma deleted_programs v sps sss sp ss : programs_ok v (sp :: sps) (ss :: sss) ->
  exists v', VM_AddrSpace_delete sp v = Ok v' /\ programs_ok v' sps sss /\ freed (swapMap v) (swapMap v') ss /\
    memory_of v' <$> sss = memory_of v <$> sss.
Proof.
  intros Hp. pose proof Hp as [Hv Hl Hm Hap]. apply Forall2_cons in Hm as [Hms Hm].
  assert (forall i ss0 s, sss !! i = Some ss0 -> s ∈ ss0 -> ~ (s ∈ ss)) as Hdis.
  { intros i ss0 s Hi Hs. by apply (Hap (S i) 0%nat ss0 ss s). }
  destruct (VM_AddrSpace_delete_ok v sp ss Hv Hms) as (v' & Hrun & Hok & Hlz & Hfr & Hc & Hmaps). exists v'. split; [done|]. split; [|split; [done|]].
  - split; [done|by apply Hlz| |].
    + apply Forall2_same_length_lookup_2; [by eapply Forall2_length|]. intros i sp0 ss0 Hsp0 Hss0. apply Hmaps.
      * exact (Forall2_lookup_lr _ _ _ _ _ _ Hm Hsp0 Hss0).
      * intros s Hs. by apply (Hdis i ss0).
    + intros i j ss1 ss2 s Hi Hj Hne. apply (Hap (S i) (S j)); [done|done|congruence].
  - apply list_fmap_ext. intros i ss0 Hi. apply memory_ext. intros s Hs.
    assert (ss0 ∈ ss :: sss) as Hin by (apply elem_of_cons; right; by eapply list_elem_of_lookup_2).
    destruct (programs_page v _ _ ss0 s Hp Hin Hs) as (_ & Hon & _). apply Hc; [done|]. by apply (Hdis i ss0).
Qed.
End programs.

(** The copy has the parent's memory when swap has the parent's pages. *)
Lemma copied_memory {M P} (v : vm M P) ss :
  (forall s, s ∈ ss -> length (contents v s) = 128%nat /\ length (swapped v s) = 128%nat) ->
  concat (swapped v <$> ss) = memory_of v ss <-> forall s, s ∈ ss -> swapped v s = contents v s.
Proof.
  unfold memory_of. induction ss as [|s ss IH]; intros Hl; [split; [by intros _ s ?%elem_of_nil|done]|].
  rewrite !fmap_cons. simpl concat. destruct (Hl s) as [L1 L2]; [by left|]. split.
  - intros [Hh Ht]%app_inj_1; [|congruence]. intros t [->|Hin]%elem_of_cons; [done|]. apply IH; [|done|done]. intros u Hu. apply Hl. by right.
  - intros Heq. f_equal; [apply Heq; by left|]. apply IH; intros u Hu; [apply Hl|apply Heq]; by right.
Qed.

(** ** The kernel's accesses *)

Section kernel_access.
Context {M P : Type} `{BitAllocatorLaws M} `{ReplacementLaws P}.
Implicit Types v : vm M P.

(** A page in main memory is served as it is. *)
Lemma page_resident v p e i : core_ok v -> entries v !! p = Some e -> 0 <= physicalPage e -> activePageMap v !! i = Some (physicalPage e) ->
  VMManager_getPhysicalPage v p = Ok (Z.of_nat i, v).
Proof.
  intros Hc He H0s Hi. unfold VMManager_getPhysicalPage. rewrite He. cbn [mbind outcome_bind deref].
  pose proof (co_map _ Hc) as Hmap. destruct (first_place (physicalPage e) (activePageMap v)) as (pre & post & Hq & Hsr);
    [by eapply list_elem_of_lookup_2|done|].
  assert (length pre = i) as Hpre by (apply (co_inj _ Hc _ _ (physicalPage e)); [rewrite Hq; by apply list_lookup_middle|done|lia]).
  apply lookup_lt_Some in Hi. rewrite Hsr, Hpre. cbn [mbind outcome_bind]. change NumPhysPages with 32.
  destruct (Z.ltb_spec (Z.of_nat i) 32); [done|lia].
Qed.

(** The kernel's translation serves the page as the hardware does, but leaves the entry alone. *)
Lemma VM_AddrSpace_Translate_ok v sp ss va : vm_ok v -> maps v sp ss -> 0 <= va < 128 * Z.of_nat (length ss) ->
  exists i v' p e, VM_AddrSpace_Translate v sp va = Ok (Some (128 * Z.of_nat i + va `mod` 128), v') /\ (i < 32)%nat /\
    vs_table sp !! Z.to_nat (va `div` 128) = Some p /\ entries v !! p = Some e /\ ss !! Z.to_nat (va `div` 128) = Some (physicalPage e) /\
    VMManager_getPhysicalPage v p = Ok (Z.of_nat i, v') /\ served v v' (physicalPage e) i.
Proof.
  intros Hv Hm Hva. destruct (page_of v sp ss va Hv Hm Hva) as (_ & p & e & s & Ht & He & Hs & Heq & _).
  pose proof (maps_length v sp ss Hm) as Hl. pose proof (maps_small v sp ss Hv Hm) as Hsm.
  destruct (vo_entry _ Hv p e He) as (R1 & R2 & _).
  destruct (getPhysicalPage_serves v p e (vo_core _ Hv) (vo_alloc _ Hv) He R2) as (i & v' & Hg & Hi & Hsv).
  exists i, v', p, e. subst s. split; [|by split_and!]. unfold VM_AddrSpace_Translate. change PageSize with 128.
  rewrite cdiv_nonneg, cmod_nonneg by lia. rewrite (u32_small (va `div` 128)) by (unfold is_u32, two32; dlia).
  rewrite (mp_size _ _ _ Hm). destruct (Z.leb_spec (Z.of_nat (length (vs_table sp))) (va `div` 128)); [dlia|].
  rewrite (proj2 (arr_get_ok _ _ p)) by (split; [dlia|done]). cbn [mbind outcome_bind]. rewrite Hg. cbn [mbind outcome_bind].
  rewrite s32_small by (unfold is_s32, two31; dlia). do 4 f_equal. lia.
Qed.
End kernel_access.

(** ** Two small programs *)

(** Two spaces of a page each; neither page is in main memory. *)
Definition demo_vms : vm BitMap RandomReplacement :=
  with_entries demo_vm (<[2%positive := mkEntry 0 0 false false false false]> (entries demo_vm)).
Definition demo_sps : list VmSpace := [mkVmSpace 1 [1%positive]; mkVmSpace 1 [2%positive]].

Lemma demo_vms_entry p e : entries demo_vms !! p = Some e ->
  p = 2%positive /\ e = mkEntry 0 0 false false false false \/ p = 1%positive /\ e = demo_entry.
Proof.
  unfold demo_vms, demo_vm. cbn [entries with_entries].
  intros [[<- <-]|[_ [[<- <-]|[_ Hn]]%lookup_insert_Some]]%lookup_insert_Some; [by left|by right|]. by rewrite lookup_empty in Hn.
Qed.

Lemma demo_vms_ok : vm_ok demo_vms.
Proof.
  split; [|by destruct demo_alloc; split|by destruct demo_swap_ok; split|..].
  - constructor; try done; intros i; [intros j|]; intros s Hi%empty_queue_lookup; by intros.
  - by intros p p' e e' [[-> ->]|[-> ->]]%demo_vms_entry [[-> ->]|[-> ->]]%demo_vms_entry.
  - intros p e [[-> ->]|[-> ->]]%demo_vms_entry; (split; [done|]); (split; [by split|]); done.
Qed.

Lemma demo_programs : programs_ok demo_vms demo_sps [[1]; [0]].
Proof.
  split; [exact demo_vms_ok| | |].
  - by intros p e [[-> ->]|[-> ->]]%demo_vms_entry _ [i Hi%empty_queue_lookup]%list_elem_of_lookup.
  - apply Forall2_cons. split; [|apply Forall2_cons; split; [|done]]; (split; [done| |apply NoDup_singleton]);
      apply Forall2_cons; (split; [by eexists|done]).
  - intros [|[|[]]] [|[|[]]] ss ss' s; try done; intros [= <-] [= <-] _ ->%list_elem_of_singleton; by intros ?%list_elem_of_singleton.
Qed.

(** ** Properties *)

(** C10. Virtual memory refines memory. Several programs share main memory and the swap file. For
    every sequence of their loads and stores, interleaved in any order, each access with a page
    fault where the page is not valid: every access returns, and returns the value or the
    exception that it returns when every program has an array of bytes of its own; the memories of the
    programs at the end are these arrays. This holds for every replacement policy. *)
Theorem paging_refines_memory {M P} `{BitAllocatorLaws M} `{ReplacementLaws P} (v : vm M P) sps sss l :
  programs_ok v sps sss -> Forall (access_ok (length sps)) l ->
  exists v' rs, run (vm_step sps) v l = Ok (v', rs) /\
    run flat_step (memory_of v <$> sss) l = Ok (memory_of v' <$> sss, rs) /\ programs_ok v' sps sss.
Proof. apply run_refines. Qed.

Lemma paging_refines_memory_witness :
  exists v' rs, run (vm_step demo_sps) demo_vms [Store 0 4 4 99; Store 1 4 4 7; Load 0 4 4; Load 1 6 4] = Ok (v', rs) /\
    rs = [inr None; inr None; inr (Some 99); inl AddressErrorException].
Proof.
  destruct (paging_refines_memory demo_vms demo_sps [[1]; [0]] [Store 0 4 4 99; Store 1 4 4 7; Load 0 4 4; Load 1 6 4])
    as (v' & rs & Hrun & Hflat & _).
  - exact demo_programs.
  - repeat constructor; vm_compute; (discriminate || tauto || lia).
  - exists v', rs. split; [exact Hrun|]. vm_compute in Hflat. congruence.
Defined.

(** C11. Creating a program. The constructor of an address space from an executable whose segments
    lie in the file and in the space, at any address, with enough free pages of swap: the space has pages of swap that were free;
    its memory is zero but for the code and then the initialized data of the file at their virtual
    addresses; the other programs and their memories are as before, and accesses of all of
    them can follow. With too few free pages the assertion fails. *)
Theorem VM_AddrSpace_loads {M P} `{BitAllocatorLaws M} `{ReplacementLaws P} `{FreshLaws} (v : vm M P) sps sss file ws n np :
  programs_ok v sps sss -> VM_program file ws n np ->
  (Z.of_nat np <= ba_free (swapMap v) ->
   exists sp v' ss, VM_AddrSpace_new file v = Ok (sp, v') /\ length ss = np /\ allocated (swapMap v) (swapMap v') ss /\
     programs_ok v' (sp :: sps) (ss :: sss) /\
     memory_of v' ss = splice (splice (replicate (128 * np) 0) (Z.to_nat (seg_virtualAddr (noff_code n))) (segment_bytes (noff_code n) file))
                         (Z.to_nat (seg_virtualAddr (noff_initData n))) (segment_bytes (noff_initData n) file) /\
     memory_of v' <$> sss = memory_of v <$> sss) /\
  (ba_free (swapMap v) < Z.of_nat np -> VM_AddrSpace_new file v = AssertFail).
Proof.
  intros Hp Hprog. pose proof (po_ok _ _ _ Hp) as Hv. split; intros Hfree.
  - destruct (VM_AddrSpace_new_ok v file ws n np Hv Hprog Hfree) as (sp & v' & ss & Hrun & Hl & Hcr & Hmem).
    destruct (created_programs v v' sps sss sp ss Hp Hcr) as [Hp' Hms]. exists sp, v', ss. by pose proof (cr_pages _ _ _ _ Hcr).
  - rewrite (VM_AddrSpace_new_run v file ws n np Hv Hprog). by replace (Z.of_nat np <=? ba_free (swapMap v)) with false by lia.
Qed.

(** The executable of AddrSpace.v as a UNIX file. *)
Definition demo_unix_exe : list Z := words_to_bytes demo_noff ++ [11; 12; 13; 14; 15; 16; 17; 18].

Lemma VM_AddrSpace_loads_witness :
  exists sp v' ss, VM_AddrSpace_new (H1 := zero_fresh) demo_unix_exe demo_vms = Ok (sp, v') /\
    programs_ok v' (sp :: demo_sps) (ss :: [[1]; [0]]) /\ take 8 (memory_of v' ss) = [11; 12; 13; 14; 15; 16; 17; 18].
Proof.
  destruct (VM_AddrSpace_loads (H3 := zero_fresh) (H4 := zero_fresh_laws) demo_vms demo_sps [[1]; [0]] demo_unix_exe demo_noff
    (mkNoff NOFFMAGIC (mkSegment 0 40 8) (mkSegment 0 0 0) (mkSegment 0 0 0)) 9) as [Hok _].
  - exact demo_programs.
  - split.
    + vm_compute. split; [discriminate|reflexivity].
    + apply (bool_decide_unpack _). vm_compute. exact I.
    + reflexivity.
    + vm_compute. reflexivity.
    + reflexivity.
    + vm_compute. reflexivity.
    + vm_compute. repeat split; discriminate.
    + vm_compute. repeat split; discriminate.
  - destruct Hok as (sp & v' & ss & Hrun & _ & _ & Hp & Hmem & _); [vm_compute; discriminate|].
    exists sp, v', ss. split; [exact Hrun|]. split; [exact Hp|]. rewrite Hmem. vm_compute. reflexivity.
Defined.

(** C12. Fork in this build, for a program [sp] of the programs: the child gets as many pages of swap, which were
    free, with what swap holds of the parent's pages. This is the parent's memory if and only if swap is up to date
    for every page of the parent: writes to pages that are dirty in main memory are not in
    the child. All other memories are as before. With too few free pages the assertion fails. *)
Theorem VM_fork_copies {M P} `{BitAllocatorLaws M} `{ReplacementLaws P} (v : vm M P) sps sss k sp ss :
  programs_ok v sps sss -> sps !! k = Some sp -> sss !! k = Some ss ->
  (vs_numPages sp <= ba_free (swapMap v) ->
   exists sp' v' ss', VM_CopyAddrSpace sp v = Ok (sp', v') /\ length ss' = length ss /\ allocated (swapMap v) (swapMap v') ss' /\
     programs_ok v' (sp' :: sps) (ss' :: sss) /\ memory_of v' <$> sss = memory_of v <$> sss /\
     memory_of v' ss' = concat (swapped v <$> ss) /\
     (memory_of v' ss' = memory_of v ss <-> forall s, s ∈ ss -> swapped v s = contents v s)) /\
  (ba_free (swapMap v) < vs_numPages sp -> VM_CopyAddrSpace sp v = AssertFail).
Proof.
  intros Hp Hk Hks. pose proof Hp as [Hv Hlz Hms Hap]. pose proof (Forall2_lookup_lr _ _ _ _ _ _ Hms Hk Hks) as Hm.
  pose proof (maps_length v sp ss Hm) as Hl. split; intros Hfree.
  - destruct (VM_CopyAddrSpace_ok v sp ss Hv Hm Hfree) as (sp' & v' & ss' & Hrun & Hcr & Hl' & Hmem).
    destruct (created_programs v v' sps sss sp' ss' Hp Hcr) as [Hp' Hms']. exists sp', v', ss'. pose proof (cr_pages _ _ _ _ Hcr).
    split_and!; try done. rewrite Hmem. apply copied_memory. intros s Hs. destruct (maps_on_swap v sp ss s Hv Hm Hs) as (_ & Hon & _).
    split; [by apply contents_length, Hon; apply Hv|]. destruct Hon. apply page_length. lia.
  - unfold VM_CopyAddrSpace. rewrite (mp_size _ _ _ Hm), <- Hl, Nat2Z.id in *. change 0 with (Z.of_nat 0).
    by rewrite (VM_copy_pages_full sp ss (swapMap v) (length ss) 0 v []) by (done || apply allocated_nil; apply Hv).
Qed.

Lemma VM_fork_copies_witness :
  exists sp' v' ss', VM_CopyAddrSpace (mkVmSpace 1 [1%positive]) demo_vms = Ok (sp', v') /\
    memory_of v' ss' = memory_of demo_vms [1].
Proof.
  destruct (VM_fork_copies demo_vms demo_sps [[1]; [0]] 0 (mkVmSpace 1 [1%positive]) [1]) as [Hok _].
  - exact demo_programs.
  - reflexivity.
  - reflexivity.
  - destruct Hok as (sp' & v' & ss' & Hrun & _ & _ & _ & _ & Hmem & _); [vm_compute; discriminate|].
    exists sp', v', ss'. split; [exact Hrun|]. rewrite Hmem. vm_compute. reflexivity.
Defined.

(** C29. The end of a program: its pages are free and its entries are gone; the other programs go on with the memories they had. *)
Theorem VM_delete_frees {M P} `{BitAllocatorLaws M} `{ReplacementLaws P} (v : vm M P) sps sss sp ss :
  programs_ok v (sp :: sps) (ss :: sss) ->
  exists v', VM_AddrSpace_delete sp v = Ok v' /\ programs_ok v' sps sss /\ freed (swapMap v) (swapMap v') ss /\
    memory_of v' <$> sss = memory_of v <$> sss.
Proof. apply deleted_programs. Qed.

Lemma VM_delete_frees_witness :
  exists v', VM_AddrSpace_delete (mkVmSpace 1 [1%positive]) demo_vms = Ok v' /\
    programs_ok v' [mkVmSpace 1 [2%positive]] [[0]] /\ freed (swapMap demo_vms) (swapMap v') [1].
Proof.
  destruct (VM_delete_frees demo_vms [mkVmSpace 1 [2%positive]] [[0]] (mkVmSpace 1 [1%positive]) [1]) as (v' & Hrun & Hp & Hf & _).
  - exact demo_programs.
  - exists v'. split; [exact Hrun|]. split; [exact Hp|exact Hf].
Defined.

(** The kernel's writes do not mark the page. The page at [va] is in frame [i] and clean; the kernel translates
    [va] and writes there, as [putMemIntoVAddr] does. When the frame is taken for another page
    the swap page still has the old contents: the data are lost. *)
Theorem kernel_write_lost {M P} `{BitAllocatorLaws M} `{ReplacementLaws P} (v : vm M P) sp ss va p e i data :
  vm_ok v -> maps v sp ss -> 0 <= va < 128 * Z.of_nat (length ss) -> va `mod` 128 + Z.of_nat (length data) <= 128 ->
  vs_table sp !! Z.to_nat (va `div` 128) = Some p -> entries v !! p = Some e -> dirty e = false ->
  activePageMap v !! i = Some (physicalPage e) ->
  exists pa mem v', VM_AddrSpace_Translate v sp va = Ok (Some pa, v) /\ put_bytes (mainMemory v) pa data = Ok mem /\
    evict (with_memory v mem) (Z.of_nat i) = Ok v' /\ swapped v' (physicalPage e) = contents v (physicalPage e).
Proof.
  intros Hv Hm Hva Hlen Ht He Hd Hi.
  destruct (VM_AddrSpace_Translate_ok v sp ss va Hv Hm Hva) as (j & v1 & p' & e' & Htr & Hj & Ht' & He' & _ & Hg & Hsv).
  assert (p' = p) as -> by congruence. assert (e' = e) as -> by congruence. destruct (vo_entry _ Hv p e He) as (R1 & R2 & _).
  pose proof (page_resident v p e i (vo_core _ Hv) He ltac:(lia) Hi) as Hg'. rewrite Hg in Hg'. injection Hg' as Hji ->. apply Nat2Z.inj in Hji as ->.
  destruct (co_active _ (vo_core _ Hv) i _ Hi ltac:(lia)) as (_ & q & f & Hq & Hf & Hfe & Hclean).
  assert (q = p) as -> by (by apply (vo_inj _ Hv q p f e)). assert (f = e) as -> by congruence.
  set (pa := 128 * Z.of_nat i + va `mod` 128). pose proof (co_mem _ (vo_core _ Hv)) as Hml.
  exists pa, (splice (mainMemory v) (Z.to_nat pa) data). eexists. split; [done|].
  split; [apply put_bytes_in; unfold pa; dlia|]. split.
  - unfold evict. cbn [activePages with_memory]. rewrite (proj2 (arr_get_ok _ _ (Some p))) by (rewrite Nat2Z.id; split; [lia|done]).
    cbn [mbind outcome_bind deref entries with_memory]. rewrite He. cbn [mbind outcome_bind deref dirty]. by rewrite Hd.
  - rewrite (contents_frame v i) by (done || apply Hv || lia). by rewrite Hclean.
Qed.

(** The kernel's translation brings a page into main memory and leaves its entry invalid. When the program then
    touches a page like that, the page fault loads it again: with a free frame the page is in two frames. *)
Theorem fault_duplicates {M P} `{BitAllocatorLaws M} `{ReplacementLaws P} (v : vm M P) sp ss va p e i :
  vm_ok v -> maps v sp ss -> 0 <= va < 128 * Z.of_nat (length ss) ->
  vs_table sp !! Z.to_nat (va `div` 128) = Some p -> entries v !! p = Some e ->
  activePageMap v !! i = Some (physicalPage e) -> 0 < ba_free (memMgr v) ->
  exists j v', VM_PageFaultHandler v sp va = Ok v' /\ j <> i /\
    activePageMap v' !! i = Some (physicalPage e) /\ activePageMap v' !! j = Some (physicalPage e).
Proof.
  intros Hv Hm Hva Ht He Hi Hfree. destruct (vo_entry _ Hv p e He) as (R1 & R2 & _).
  pose proof Hv as [Hc Ha _ _ _]. pose proof (co_map _ Hc) as Hmap. unfold VM_PageFaultHandler, entry_at. change PageSize with 128.
  rewrite cdiv_nonneg by lia. rewrite (proj2 (arr_get_ok _ _ p)) by (split; [dlia|done]). cbn [mbind outcome_bind]. rewrite He.
  cbn [mbind outcome_bind deref]. unfold VMManager_swap, MemoryManager_getFreePageCount, MemoryManager_getPage. rewrite He.
  cbn [mbind outcome_bind deref]. rewrite ba_numClear_ok by apply Ha. cbn [mbind outcome_bind].
  destruct (Z.ltb_spec 0 (ba_free (memMgr v))) as [_|]; [|lia].
  destruct (ba_find_free (memMgr v)) as (k & m & -> & _ & _ & Hk & Hku & _); [apply Ha|done|]. rewrite (ao_size _ Ha) in Hk.
  assert (exists j, k = Z.of_nat j) as [j ->] by (exists (Z.to_nat k); lia). cbn [mbind outcome_bind policy with_memMgr].
  destruct (lookup_lt_is_Some_2 (activePageMap v) j) as [s0 Hs0]; [lia|].
  pose proof (ao_used _ Ha j s0 Hs0) as Huj. rewrite Hku in Huj. symmetry in Huj. apply bool_decide_eq_false, dec_stable in Huj as ->.
  destruct (rp_used (policy v) (used_frames (activePageMap v)) (Z.of_nat j)) as (q & -> & _);
    [apply Ha|rewrite elem_of_used_frames, Nat2Z.id; tauto|change NumPhysPages with 32; lia|by apply (used_frames_short _ j); [lia|]|].
  cbn [mbind outcome_bind]. rewrite swap_finish; [|by apply core_ok_ext|lia|done]. cbn [mbind outcome_bind entries loaded with_policy with_memMgr].
  rewrite He. cbn [mbind outcome_bind deref]. exists j. eexists. split; [done|].
  assert (j <> i) as Hne by (intros ->; rewrite Hs0 in Hi; injection Hi as Hi; lia).
  split; [done|]. cbn [activePageMap with_entries loaded with_policy with_memMgr]. rewrite list_lookup_insert_ne by done.
  split; [done|]. by apply list_lookup_insert_eq; lia.
Qed.

(** The kernel reads byte 4 of the first program; then the program does. *)
Example kernel_then_program :
  (let sp := mkVmSpace 1 [1%positive] in
   '(_, v) ← VM_AddrSpace_Translate demo_vms sp 4; '(v, r) ← VM_load v sp 4 1; Ok (r, take 3 (activePageMap v))) =
  Ok (inr 5, [1; 1; -1]).
Proof. vm_compute. reflexivity. Qed.
