(* ===== verification/Coff.v ===== *)
(** * bin/coff2noff.c and bin/coff2flat.c: the tools that make Nachos executables

    [coff2noff] reads the COFF file that the linker wrote and writes the NOFF file that the
    constructor of [AddrSpace] loads. Files are byte sequences. A [read] past the end of the
    input is short; [limit] is the size the host lets the output have, past which a [write] is
    short. The tools are built with [gcc -m32]: [long] has four bytes, so that [struct filehdr]
    has 20 bytes, [struct aouthdr] 56 and [struct scnhdr] 40.

    A tool that gives up prints a message and exits with 1 ([coff2noff] removes its output): its result is
    [None]. *)

From Stdlib Require Import String Ascii.
From stdpp Require Import prelude numbers gmap list.
From S2P Require Import Prelude Params BitMap Mips Machine Replacement Pager FileHdr OpenFile AddrSpace VmSpace VmCreate.

Open Scope Z_scope.

(** ** bin/coff.h *)

Definition byte_at (bs : list Z) (i : nat) : Z := default 0 (bs !! i).
Definition ushort_at (bs : list Z) (i : nat) : Z := byte_at bs i + 256 * byte_at bs (i + 1).
Definition short_at (bs : list Z) (i : nat) : Z := let w := ushort_at bs i in if 32768 <=? w then w - 65536 else w.
Definition long_at (bs : list Z) (i : nat) : Z :=
  s32 (bytes_word (byte_at bs i) (byte_at bs (i + 1)) (byte_at bs (i + 2)) (byte_at bs (i + 3))).

Record filehdr := mkFilehdr {
  f_magic : Z; f_nscns : Z; f_timdat : Z; f_symptr : Z; f_nsyms : Z; f_opthdr : Z; f_flags : Z }.
Record aouthdr := mkAouthdr {
  magic : Z; vstamp : Z; tsize : Z; dsize : Z; bsize : Z; entry : Z; text_start : Z; data_start : Z; bss_start : Z;
  gprmask : Z; cprmask : list Z; gp_value : Z }.
Record scnhdr := mkScnhdr {
  s_name : list Z; s_paddr : Z; s_vaddr : Z; s_size : Z; s_scnptr : Z; s_relptr : Z; s_lnnoptr : Z; s_nreloc : Z; s_nlnno : Z;
  s_flags : Z }.

Definition filehdr_of (bs : list Z) : filehdr :=
  mkFilehdr (ushort_at bs 0) (ushort_at bs 2) (long_at bs 4) (long_at bs 8) (long_at bs 12) (ushort_at bs 16) (ushort_at bs 18).
Definition aouthdr_of (bs : list Z) : aouthdr :=
  mkAouthdr (short_at bs 0) (short_at bs 2) (long_at bs 4) (long_at bs 8) (long_at bs 12) (long_at bs 16) (long_at bs 20)
    (long_at bs 24) (long_at bs 28) (long_at bs 32) (map (long_at bs) [36%nat; 40%nat; 44%nat; 48%nat]) (long_at bs 52).
Definition scnhdr_of (bs : list Z) : scnhdr :=
  mkScnhdr (take 8 bs) (long_at bs 8) (long_at bs 12) (long_at bs 16) (long_at bs 20) (long_at bs 24) (long_at bs 28)
    (ushort_at bs 32) (ushort_at bs 34) (long_at bs 36).

Fixpoint scnhdrs_of (n : nat) (bs : list Z) : list scnhdr :=
  match n with O => [] | S n => scnhdr_of bs :: scnhdrs_of n (drop 40 bs) end.

Definition MIPSELMAGIC : Z := 0x162.
Definition OMAGIC : Z := 263. (* 0407 *)

(** ** The host *)

Definition tool (A : Type) : Type := outcome (option A).
Definition tbind {A B} (m : tool A) (k : A -> tool B) : tool B :=
  match m with Ok (Some a) => k a | Ok None => Ok None | AssertFail => AssertFail | Undef => Undef | NoFuel => NoFuel end.
Notation "'let!' x := e 'in' k" := (tbind e (fun x => k)) (at level 10, x pattern, e at level 100, k at level 200).
Definition stop_if (b : bool) : tool unit := if b then Ok None else Ok (Some tt).

(** [read(fd, buf, nBytes) != nBytes] with the input at [pos]. A negative number is a huge
    one for [malloc] and [read]. *)
Definition tool_Read (file : list Z) (pos nBytes : Z) : tool (list Z * Z) :=
  if nBytes <? 0 then Undef
  else
    let data := take (Z.to_nat nBytes) (drop (Z.to_nat pos) file) in
    if Z.of_nat (length data) =? nBytes then Ok (Some (data, pos + nBytes)) else Ok None.

Definition tool_Write (limit : Z) (out : list Z) (pos : Z) (data : list Z) : tool (list Z * Z) :=
  if limit <? pos + Z.of_nat (length data) then Ok None
  else out ← file_WriteAt out data pos; Ok (Some (out, pos + Z.of_nat (length data))).

(** [lseek(fd, offset, 0)] leaves the position alone when the offset is negative. *)
Definition lseek (pos offset : Z) : Z := if offset <? 0 then pos else offset.

(** [!strcmp(s, literal)], which looks at no more than one character after the literal. *)
Definition chars (s : string) : list Z := map (fun a => Z.of_nat (nat_of_ascii a)) (list_ascii_of_string s).
Definition named (s : scnhdr) (literal : string) : bool :=
  bool_decide (take (S (String.length literal)) (s_name s) = chars literal ++ [0]).

(** ** coff2noff.c *)

Record conv := mkConv { in_pos : Z; out_file : list Z; out_pos : Z; noffH : NoffHeader; inNoffFile : Z }.

Definition set_code (n : NoffHeader) (s : Segment) : NoffHeader := mkNoff (noffMagic n) s (noff_initData n) (noff_uninitData n).
Definition set_initData (n : NoffHeader) (s : Segment) : NoffHeader := mkNoff (noffMagic n) (noff_code n) s (noff_uninitData n).
Definition set_uninitData (n : NoffHeader) (s : Segment) : NoffHeader := mkNoff (noffMagic n) (noff_code n) (noff_initData n) s.

(** The contents of a section, and [inNoffFile += sections[i].s_size]. *)
Definition copy_contents (limit : Z) (file : list Z) (c : conv) (n : NoffHeader) (s : scnhdr) : tool conv :=
  let! (buffer, ip) := tool_Read file (lseek (in_pos c) (s_scnptr s)) (s_size s) in
  let! (out, op) := tool_Write limit (out_file c) (out_pos c) buffer in
  Ok (Some (mkConv ip out op n (s32 (inNoffFile c + s_size s)))).

(** One iteration of the loop over the sections. *)
Definition copy_section (limit : Z) (file : list Z) (c : conv) (s : scnhdr) : tool conv :=
  let n := noffH c in
  if s_size s =? 0 then Ok (Some c)
  else if named s ".text" then
    copy_contents limit file c (set_code n (mkSegment (s_paddr s) (inNoffFile c) (s_size s))) s
  else if named s ".data" || named s ".rdata" then
    let! _ := stop_if (negb (seg_size (noff_initData n) =? 0)) in
    copy_contents limit file c (set_initData n (mkSegment (s_paddr s) (inNoffFile c) (s_size s))) s
  else if named s ".bss" || named s ".sbss" then
    let u := noff_uninitData n in
    if negb (seg_size u =? 0) then
      let! _ := stop_if (s_paddr s =? s32 (seg_virtualAddr u + seg_size u)) in
      Ok (Some (mkConv (in_pos c) (out_file c) (out_pos c)
        (set_uninitData n (mkSegment (seg_virtualAddr u) (seg_inFileAddr u) (s32 (seg_size u + s_size s)))) (inNoffFile c)))
    else
      Ok (Some (mkConv (in_pos c) (out_file c) (out_pos c)
        (set_uninitData n (mkSegment (s_paddr s) (seg_inFileAddr u) (s_size s))) (inNoffFile c)))
  else Ok None.

Fixpoint copy_sections (limit : Z) (file : list Z) (c : conv) (l : list scnhdr) : tool conv :=
  match l with
  | [] => Ok (Some c)
  | s :: l => let! c := copy_section limit file c s in copy_sections limit file c l
  end.

(** [ReadStruct] of the three headers and their checks: the sections and the position. *)
Definition read_headers (file : list Z) : tool (list scnhdr * Z) :=
  let! (b, pos) := tool_Read file 0 20 in
  let fileh := filehdr_of b in
  let! _ := stop_if (negb (f_magic fileh =? MIPSELMAGIC)) in
  let! (b, pos) := tool_Read file pos 56 in
  let! _ := stop_if (negb (magic (aouthdr_of b) =? OMAGIC)) in
  let! (b, pos) := tool_Read file pos (f_nscns fileh * 40) in
  Ok (Some (scnhdrs_of (Z.to_nat (f_nscns fileh)) b, pos)).

Definition noff_words (n : NoffHeader) : list Z :=
  let seg (s : Segment) := [seg_virtualAddr s; seg_inFileAddr s; seg_size s] in
  noffMagic n :: seg (noff_code n) ++ seg (noff_initData n) ++ seg (noff_uninitData n).

(** [noffH] before the segments are read: only the sizes and the magic number are set. *)
Definition empty_noff (garbage : NoffHeader) : NoffHeader :=
  let empty (s : Segment) := mkSegment (seg_virtualAddr s) (seg_inFileAddr s) 0 in
  mkNoff NOFFMAGIC (empty (noff_code garbage)) (empty (noff_initData garbage)) (empty (noff_uninitData garbage)).

(** [main]; [garbage] is what [noffH] holds at first. The result is the NOFF file. *)
Definition coff2noff (limit : Z) (garbage : NoffHeader) (file : list Z) : tool (list Z) :=
  let! (sections, pos) := read_headers file in
  let! c := copy_sections limit file (mkConv pos [] (lseek 0 40) (empty_noff garbage) 40) sections in
  let! (out, _) := tool_Write limit (out_file c) 0 (words_to_bytes (noff_words (noffH c))) in
  Ok (Some out).

(** ** coff2flat.c *)

(** The loop over the sections; [top] is the end of the highest one. *)
Fixpoint flat_sections (limit : Z) (file : list Z) (ip : Z) (out : list Z) (op top : Z) (l : list scnhdr)
    : tool (list Z * Z * Z) :=
  match l with
  | [] => Ok (Some (out, op, top))
  | s :: l =>
      let end_ := s32 (s_paddr s + s_size s) in
      let top := if top <? end_ then end_ else top in
      if negb (named s ".bss") && negb (named s ".sbss") then
        let! (buffer, ip) := tool_Read file (lseek ip (s_scnptr s)) (s_size s) in
        let! (out, op) := tool_Write limit out op buffer in
        flat_sections limit file ip out op top l
      else flat_sections limit file ip out op top l
  end.

Definition FlatStackSize : Z := 1024.

Definition coff2flat (limit : Z) (file : list Z) : tool (list Z) :=
  let! (sections, pos) := read_headers file in
  let! (out, op, top) := flat_sections limit file pos [] 0 0 sections in
  let! (out, _) := tool_Write limit out (lseek op (s32 (top + FlatStackSize - 4))) (word_bytes 0) in
  Ok (Some out).

(** ** What the tools are for *)

(** The contents of a section. *)
Definition section_bytes (file : list Z) (s : scnhdr) : list Z := take (Z.to_nat (s_size s)) (drop (Z.to_nat (s_scnptr s)) file).

(** What [coff2noff] does with a section; empty sections are left out. *)
Inductive kind := Text | Data | Bss | Other.
#[export] Instance kind_eq : EqDecision kind.
Proof. solve_decision. Defined.

Definition kind_of (s : scnhdr) : option kind :=
  if s_size s =? 0 then None
  else if named s ".text" then Some Text
  else if named s ".data" || named s ".rdata" then Some Data
  else if named s ".bss" || named s ".sbss" then Some Bss
  else Some Other.

Definition of_kind (k : kind) (l : list scnhdr) : list scnhdr := filter (fun s => kind_of s = Some k) l.

(** The file [file] has a COFF header with the sections [l], and their contents. *)
Record coff_file (file : list Z) (l : list scnhdr) : Prop := {
  cf_length : 76 + 40 * Z.of_nat (length l) <= Z.of_nat (length file) < two31;
  cf_magic : f_magic (filehdr_of (take 20 file)) = MIPSELMAGIC;
  cf_nscns : f_nscns (filehdr_of (take 20 file)) = Z.of_nat (length l);
  cf_omagic : magic (aouthdr_of (take 56 (drop 20 file))) = OMAGIC;
  cf_sections : scnhdrs_of (length l) (take (40 * length l) (drop 76 file)) = l;
  cf_contents s : s ∈ l -> kind_of s = Some Text \/ kind_of s = Some Data ->
    0 <= s_scnptr s /\ 0 <= s_size s /\ s_scnptr s + s_size s <= Z.of_nat (length file) }.

(** At most one section of each kind, and no other ones. *)
Record linked (l : list scnhdr) : Prop := {
  lk_known s : s ∈ l -> kind_of s <> Some Other;
  lk_sole k : (length (of_kind k l) <= 1)%nat }.

(** The bytes that go to the NOFF file. *)
Definition copied (s : scnhdr) : Z :=
  match kind_of s with Some Text | Some Data => s_size s | _ => 0 end.
Definition copied_all (l : list scnhdr) : Z := foldr (fun s z => copied s + z) 0 l.

(** The segment of the sections [l] of a kind. *)
Definition placed (file out : list Z) (l : list scnhdr) (seg : Segment) : Prop :=
  match l with
  | [] => seg_size seg = 0
  | s :: _ => seg_virtualAddr seg = s_paddr s /\ seg_size seg = s_size s /\ 40 <= seg_inFileAddr seg /\
      seg_inFileAddr seg + seg_size seg <= Z.of_nat (length out) /\ segment_bytes seg out = section_bytes file s
  end.
Definition reserved (l : list scnhdr) (seg : Segment) : Prop :=
  match l with
  | [] => seg_size seg = 0
  | s :: _ => seg_virtualAddr seg = s_paddr s /\ seg_size seg = s_size s
  end.

(** The NOFF header [n] of the file [out] describes the sections [l] of [file]. *)
Record describes (file : list Z) (l : list scnhdr) (out : list Z) (n : NoffHeader) : Prop := {
  ds_magic : noffMagic n = NOFFMAGIC;
  ds_code : placed file out (of_kind Text l) (noff_code n);
  ds_data : placed file out (of_kind Data l) (noff_initData n);
  ds_bss : reserved (of_kind Bss l) (noff_uninitData n);
  ds_range : Forall is_s32 (noff_words n) }.

(** ** The loop over the sections *)

Lemma of_kind_app k l l' : of_kind k (l ++ l') = of_kind k l ++ of_kind k l'.
Proof. apply filter_app. Qed.
Lemma of_kind_one k s : of_kind k [s] = if decide (kind_of s = Some k) then [s] else [].
Proof. unfold of_kind. by rewrite filter_cons, filter_nil. Qed.

(** A section of a kind is the only one. *)
Lemma sole_first k l s l' : linked (l ++ s :: l') -> kind_of s = Some k -> of_kind k l = [].
Proof.
  intros [_ Hs] Hk. specialize (Hs k). rewrite of_kind_app in Hs. change (s :: l') with ([s] ++ l') in Hs.
  rewrite of_kind_app, of_kind_one, decide_True, !length_app in Hs by done. simpl in Hs.
  destruct (of_kind k l); [done|simpl in Hs; lia].
Qed.

Lemma scnhdr_range bs : is_s32 (s_paddr (scnhdr_of bs)) /\ is_s32 (s_size (scnhdr_of bs)).
Proof. split; apply s32_range. Qed.

Lemma scnhdrs_range n : forall bs s, s ∈ scnhdrs_of n bs -> is_s32 (s_paddr s) /\ is_s32 (s_size s).
Proof.
  induction n as [|n IH]; intros bs s; simpl; [by intros ?%elem_of_nil|]. intros [->|Hs]%elem_of_cons; [apply scnhdr_range|by eapply IH].
Qed.

(** Segments stay in place when the output grows. *)
Lemma placed_grows file out data l seg : placed file out l seg -> placed file (out ++ data) l seg.
Proof.
  destruct l as [|s l]; [done|]. intros (H1 & H2 & H3 & H4 & H5). cbn [placed]. split_and!; try done.
  - rewrite length_app. lia.
  - rewrite <- H5. unfold segment_bytes. destruct (decide (seg_size seg <= 0)); [by replace (Z.to_nat (seg_size seg)) with 0%nat by lia|].
    rewrite drop_app_le by lia. apply take_app_le. rewrite length_drop. lia.
Qed.

(** The output so far: a header that is not written yet, then the contents. *)
Record conv_ok (limit : Z) (file : list Z) (l : list scnhdr) (c : conv) : Prop := {
  cv_pos : out_pos c = 40 + copied_all l;
  cv_place : inNoffFile c = out_pos c;
  cv_out : out_file c = [] /\ copied_all l = 0 \/ Z.of_nat (length (out_file c)) = out_pos c;
  cv_noff : describes file l (out_file c) (noffH c) }.

Lemma copied_all_app l l' : copied_all (l ++ l') = copied_all l + copied_all l'.
Proof. unfold copied_all. induction l as [|s l IH]; simpl; [done|]. rewrite IH. lia. Qed.

Lemma describes_grows file l out data n : describes file l out n -> describes file l (out ++ data) n.
Proof. intros [D1 D2 D3 D4 D5]. split; try done; by apply placed_grows. Qed.

(** A section that [describes] does not speak of. *)
Lemma describes_skip file l out n s : kind_of s = None -> describes file l out n -> describes file (l ++ [s]) out n.
Proof.
  intros Hk [D1 D2 D3 D4 D5]. split; try done; rewrite of_kind_app, of_kind_one, decide_False by congruence; by rewrite app_nil_r.
Qed.

Lemma file_WriteAt_end out data pos : Z.of_nat (length out) <= pos ->
  file_WriteAt out data pos = Ok ((out ++ replicate (Z.to_nat pos - length out) 0) ++ data).
Proof.
  intros Hp. unfold file_WriteAt. rewrite ASSERT_true by lia. cbn [mbind outcome_bind]. rewrite take_ge, (drop_ge out) by lia.
  by rewrite app_nil_r, app_assoc.
Qed.

(** Copying a section appends its contents at [out_pos]. *)
Lemma copy_contents_ok limit file l c n s : conv_ok limit file l c -> 0 <= copied_all l -> 0 <= s_scnptr s -> 0 <= s_size s ->
  s_scnptr s + s_size s <= Z.of_nat (length file) -> out_pos c + s_size s <= limit -> limit < two31 ->
  exists base c', copy_contents limit file c n s = Ok (Some c') /\ (exists pad, base = out_file c ++ pad) /\ Z.of_nat (length base) = out_pos c /\
    out_file c' = base ++ section_bytes file s /\ out_pos c' = out_pos c + s_size s /\ inNoffFile c' = out_pos c' /\ noffH c' = n /\
    Z.of_nat (length (section_bytes file s)) = s_size s.
Proof.
  intros [C1 C2 C3 C4] Hl H1 H2 H3 Hlim H31. set (data := section_bytes file s).
  assert (Z.of_nat (length data) = s_size s) as Hd by (unfold data, section_bytes; rewrite length_take, length_drop; lia).
  assert (Z.of_nat (length (out_file c)) <= out_pos c) as Ho by (destruct C3 as [[-> ?]|?]; simpl; lia).
  exists (out_file c ++ replicate (Z.to_nat (out_pos c) - length (out_file c)) 0). eexists. split.
  - unfold copy_contents, tool_Read, lseek. destruct (Z.ltb_spec (s_scnptr s) 0); [lia|]. destruct (Z.ltb_spec (s_size s) 0); [lia|].
    fold (section_bytes file s). fold data. rewrite Hd, Z.eqb_refl. cbn [tbind]. unfold tool_Write. rewrite Hd.
    destruct (Z.ltb_spec limit (out_pos c + s_size s)); [lia|]. rewrite file_WriteAt_end by done. cbn [mbind outcome_bind tbind].
    rewrite C2. done.
  - cbn [out_file out_pos inNoffFile noffH]. split; [by eexists|]. split; [rewrite length_app, length_replicate; lia|]. split_and!; try done.
    apply s32_small. unfold is_s32, two31 in *. lia.
Qed.

(** The new segment. *)
Lemma placed_new file base s place l : Z.of_nat (length base) = place -> 40 <= place ->
  Z.of_nat (length (section_bytes file s)) = s_size s ->
  placed file (base ++ section_bytes file s) (s :: l) (mkSegment (s_paddr s) place (s_size s)).
Proof.
  intros Hb Hp Hd. cbn [placed seg_virtualAddr seg_size seg_inFileAddr]. split_and!; try done.
  - rewrite length_app. lia.
  - unfold segment_bytes. simpl. rewrite drop_app_length' by lia. apply take_ge. lia.
Qed.

Definition contents_ok (file : list Z) (s : scnhdr) : Prop :=
  is_s32 (s_paddr s) /\ is_s32 (s_size s) /\
  (kind_of s = Some Text \/ kind_of s = Some Data ->
   0 <= s_scnptr s /\ 0 <= s_size s /\ s_scnptr s + s_size s <= Z.of_nat (length file)).

(** A new header after a section of the kind [k]. *)
Lemma describes_kind file l s k out n n' : kind_of s = Some k -> of_kind k l = [] -> describes file l out n ->
  noffMagic n' = noffMagic n -> Forall is_s32 (noff_words n') ->
  (if decide (k = Text) then placed file out [s] (noff_code n') else noff_code n' = noff_code n) ->
  (if decide (k = Data) then placed file out [s] (noff_initData n') else noff_initData n' = noff_initData n) ->
  (if decide (k = Bss) then reserved [s] (noff_uninitData n') else noff_uninitData n' = noff_uninitData n) ->
  describes file (l ++ [s]) out n'.
Proof.
  intros Hk Hnil [D1 D2 D3 D4 D5] Hm Hr HT HD HB. split; try congruence; rewrite of_kind_app, of_kind_one, Hk.
  - destruct (decide (k = Text)) as [->|]; [by rewrite Hnil, decide_True|]. rewrite decide_False by congruence. by rewrite app_nil_r, HT.
  - destruct (decide (k = Data)) as [->|]; [by rewrite Hnil, decide_True|]. rewrite decide_False by congruence. by rewrite app_nil_r, HD.
  - destruct (decide (k = Bss)) as [->|]; [by rewrite Hnil, decide_True|]. rewrite decide_False by congruence. by rewrite app_nil_r, HB.
Qed.

Lemma copy_section_run limit file c s : copy_section limit file c s =
  let n := noffH c in
  let u := noff_uninitData n in
  match kind_of s with
  | None => Ok (Some c)
  | Some Text => copy_contents limit file c (set_code n (mkSegment (s_paddr s) (inNoffFile c) (s_size s))) s
  | Some Data =>
      if seg_size (noff_initData n) =? 0
      then copy_contents limit file c (set_initData n (mkSegment (s_paddr s) (inNoffFile c) (s_size s))) s else Ok None
  | Some Bss =>
      let with_bss seg := mkConv (in_pos c) (out_file c) (out_pos c) (set_uninitData n seg) (inNoffFile c) in
      if seg_size u =? 0 then Ok (Some (with_bss (mkSegment (s_paddr s) (seg_inFileAddr u) (s_size s))))
      else if s_paddr s =? s32 (seg_virtualAddr u + seg_size u) then Ok None
      else Ok (Some (with_bss (mkSegment (seg_virtualAddr u) (seg_inFileAddr u) (s32 (seg_size u + s_size s)))))
  | Some Other => Ok None
  end.
Proof.
  unfold copy_section, kind_of. cbv zeta. destruct (s_size s =? 0); [done|]. destruct (named s ".text"); [done|].
  destruct (named s ".data" || named s ".rdata"); [by destruct (seg_size (noff_initData (noffH c)) =? 0)|].
  destruct (named s ".bss" || named s ".sbss"); [|done]. destruct (seg_size (noff_uninitData (noffH c)) =? 0); [done|].
  by destruct (s_paddr s =? _).
Qed.

Lemma placed_none file out l k seg : of_kind k l = [] -> placed file out (of_kind k l) seg -> seg_size seg = 0.
Proof. by intros ->. Qed.

Lemma noff_words_range n : Forall is_s32 (noff_words n) <->
  is_s32 (noffMagic n) /\ Forall (fun s => is_s32 (seg_virtualAddr s) /\ is_s32 (seg_inFileAddr s) /\ is_s32 (seg_size s))
    [noff_code n; noff_initData n; noff_uninitData n].
Proof. unfold noff_words. cbn [app]. rewrite !Forall_cons, !Forall_nil. tauto. Qed.

(** The contents of a section of the kind [k] have been copied, and [n] is the new header. *)
Lemma section_copied limit file l l' c s k n : conv_ok limit file l c -> linked (l ++ s :: l') -> contents_ok file s -> 0 <= copied_all l ->
  40 + copied_all (l ++ [s]) <= limit -> limit < two31 -> kind_of s = Some k -> k = Text \/ k = Data ->
  let seg := mkSegment (s_paddr s) (inNoffFile c) (s_size s) in
  n = (if decide (k = Text) then set_code (noffH c) seg else set_initData (noffH c) seg) ->
  exists c', copy_contents limit file c n s = Ok (Some c') /\ conv_ok limit file (l ++ [s]) c'.
Proof.
  intros Hcv Hlk (Hr1 & Hr2 & Hin) Hl Hlim H31 Hk Htd seg Hn. pose proof Hcv as [C1 C2 C3 C4]. pose proof C4 as [D1 D2 D3 D4 D5].
  assert (copied s = s_size s) as Hcp by (unfold copied; rewrite Hk; by destruct Htd as [-> | ->]).
  assert (copied_all (l ++ [s]) = copied_all l + s_size s) as Hall by (rewrite copied_all_app; unfold copied_all at 2; simpl; lia).
  destruct Hin as (I1 & I2 & I3); [rewrite Hk; destruct Htd as [-> | ->]; [by left|by right]|].
  destruct (copy_contents_ok limit file l c n s) as (base & c' & Hrun & [pad Hpad] & Hb & Ho & Hp & Hpl & Hn' & Hd); [done|lia..|].
  exists c'. split; [done|]. split; [lia|done|right; rewrite Ho, length_app; lia|]. rewrite Ho, Hn'.
  assert (placed file (base ++ section_bytes file s) [s] seg) as Hpd by (apply placed_new; [congruence|lia|done]).
  assert (is_s32 (inNoffFile c)) as Hs32 by (unfold is_s32, two31 in *; lia).
  apply noff_words_range in D5 as (R1 & [R2 [R3 [R4 _]%Forall_cons]%Forall_cons]%Forall_cons).
  apply (describes_kind file l s k _ (noffH c)); try done;
    [by eapply sole_first|rewrite Hpad, <- app_assoc; by apply describes_grows|..];
    rewrite Hn; destruct Htd as [-> | ->]; try done; apply noff_words_range; (split; [done|]); repeat (apply Forall_cons; split; [done|]); done.
Qed.

(** Nothing has been copied. *)
Lemma section_kept limit file l c s n : conv_ok limit file l c -> copied s = 0 -> describes file (l ++ [s]) (out_file c) n ->
  conv_ok limit file (l ++ [s]) (mkConv (in_pos c) (out_file c) (out_pos c) n (inNoffFile c)).
Proof.
  intros [C1 C2 C3 C4] Hc Hd. assert (copied_all (l ++ [s]) = copied_all l) as Hall by (rewrite copied_all_app; unfold copied_all at 2; simpl; lia).
  split; try done; rewrite Hall; done.
Qed.

(** One section. *)
Lemma copy_section_ok limit file l l' c s : conv_ok limit file l c -> linked (l ++ s :: l') -> contents_ok file s -> 0 <= copied_all l ->
  40 + copied_all (l ++ [s]) <= limit -> limit < two31 ->
  exists c', copy_section limit file c s = Ok (Some c') /\ conv_ok limit file (l ++ [s]) c'.
Proof.
  intros Hcv Hlk Hcs Hl Hlim H31. pose proof Hcv as [C1 C2 C3 C4]. pose proof C4 as [D1 D2 D3 D4 D5].
  rewrite copy_section_run. cbv zeta. destruct (kind_of s) as [[]|] eqn:Hk.
  - by apply (section_copied limit file l l' c s Text); try done; left.
  - rewrite (placed_none _ _ l Data _ (sole_first Data l s l' Hlk Hk) D3). cbn [Z.eqb].
    by apply (section_copied limit file l l' c s Data); try done; right.
  - pose proof (sole_first Bss l s l' Hlk Hk) as Hnil. rewrite Hnil in D4. cbn [reserved] in D4. rewrite D4. cbn [Z.eqb].
    eexists. split; [done|]. apply section_kept; [done|by unfold copied; rewrite Hk|].
    apply (describes_kind file l s Bss _ (noffH c)); try done. destruct Hcs as (Hr1 & Hr2 & _).
    apply noff_words_range in D5 as (R1 & [R2 [R3 [R4 _]%Forall_cons]%Forall_cons]%Forall_cons).
    apply noff_words_range. split; [done|]. repeat (apply Forall_cons; split; [done || tauto|]). done.
  - exfalso. apply (lk_known _ Hlk s); [|done]. apply elem_of_app. right. by left.
  - exists c. split; [done|]. destruct c as [ip out op n place]. apply (section_kept limit file l (mkConv ip out op n place)); [done|by unfold copied; rewrite Hk|].
    by apply describes_skip.
Qed.

Lemma copied_all_nonneg file l : Forall (contents_ok file) l -> 0 <= copied_all l.
Proof.
  induction 1 as [|s l (_ & _ & Hs) _ IH]; [done|]. change (copied_all (s :: l)) with (copied s + copied_all l). unfold copied.
  destruct (kind_of s) as [[]|]; try lia; destruct Hs as (? & ? & ?); (tauto || lia).
Qed.

Lemma copy_sections_ok limit file l' : forall l c, conv_ok limit file l c -> linked (l ++ l') -> Forall (contents_ok file) (l ++ l') ->
  40 + copied_all (l ++ l') <= limit -> limit < two31 ->
  exists c', copy_sections limit file c l' = Ok (Some c') /\ conv_ok limit file (l ++ l') c'.
Proof.
  induction l' as [|s l' IH]; intros l c Hcv Hlk Hcs Hlim H31; cbn [copy_sections]; [exists c; by rewrite app_nil_r|].
  pose proof Hcs as [Hcl Hcs']%Forall_app. pose proof Hcs' as [Hs Hcs'']%Forall_cons.
  pose proof (copied_all_nonneg file l' Hcs'') as Hn'. replace (l ++ s :: l') with ((l ++ [s]) ++ l') in * by (by rewrite <- app_assoc).
  rewrite copied_all_app in Hlim.
  destruct (copy_section_ok limit file l l' c s) as (c1 & -> & Hcv1);
    [done|by rewrite <- app_assoc in Hlk|done|by eapply copied_all_nonneg|lia|done|].
  cbn [tbind]. apply IH; try done. rewrite copied_all_app. lia.
Qed.

(** ** The headers *)

Lemma tool_Read_ok file pos n : 0 <= pos -> 0 <= n -> pos + n <= Z.of_nat (length file) ->
  tool_Read file pos n = Ok (Some (take (Z.to_nat n) (drop (Z.to_nat pos) file), pos + n)).
Proof.
  intros Hp Hn Hl. unfold tool_Read. destruct (Z.ltb_spec n 0); [lia|]. rewrite length_take, length_drop.
  destruct (Z.eqb_spec (Z.of_nat (Z.to_nat n `min` (length file - Z.to_nat pos))) n); [done|lia].
Qed.

Lemma tool_Read_short file pos n : 0 <= pos -> 0 <= n -> Z.of_nat (length file) < pos + n -> 0 < n -> tool_Read file pos n = Ok None.
Proof.
  intros Hp Hn Hl H0. unfold tool_Read. destruct (Z.ltb_spec n 0); [lia|]. rewrite length_take, length_drop.
  destruct (Z.eqb_spec (Z.of_nat (Z.to_nat n `min` (length file - Z.to_nat pos))) n); [lia|done].
Qed.

Lemma read_headers_ok file l : coff_file file l -> read_headers file = Ok (Some (l, 76 + 40 * Z.of_nat (length l))).
Proof.
  intros [F1 F2 F3 F4 F5 F6]. unfold read_headers. rewrite tool_Read_ok by lia. cbn [tbind]. change (drop (Z.to_nat 0) file) with file.
  change (Z.to_nat 20) with 20%nat. rewrite F2. cbn [tbind stop_if negb Z.eqb Pos.eqb MIPSELMAGIC]. rewrite tool_Read_ok by lia. cbn [tbind].
  change (Z.to_nat (0 + 20)) with 20%nat. change (Z.to_nat 56) with 56%nat. rewrite F4. cbn [tbind stop_if negb Z.eqb Pos.eqb OMAGIC].
  rewrite F3, tool_Read_ok by lia. cbn [tbind]. change (Z.to_nat (0 + 20 + 56)) with 76%nat.
  replace (Z.to_nat (Z.of_nat (length l) * 40)) with (40 * length l)%nat by lia. rewrite Nat2Z.id, F5. do 3 f_equal. lia.
Qed.

Lemma coff_contents file l : coff_file file l -> Forall (contents_ok file) l.
Proof.
  intros [F1 F2 F3 F4 F5 F6]. apply Forall_forall. intros s Hs. unfold contents_ok. rewrite <- F5 in Hs.
  destruct (scnhdrs_range _ _ _ Hs) as [? ?]. rewrite F5 in Hs. split; [done|]. split; [done|]. by apply F6.
Qed.

(** ** The whole tool *)

(** Writing the header leaves the segments in place. *)
Lemma placed_header file out hdr l seg : length hdr = 40%nat -> placed file out l seg -> placed file (hdr ++ drop 40 out) l seg.
Proof.
  intros Hh. destruct l as [|s l]; [done|]. cbn [placed]. intros (P1 & P2 & P3 & P4 & P5). split_and!; try done.
  - rewrite length_app, length_drop. lia.
  - rewrite <- P5. unfold segment_bytes. rewrite drop_app_ge, drop_drop by lia. do 2 f_equal. lia.
Qed.

Lemma noff_words_back n : noff_of_words (noff_words n) = Some n.
Proof. by destruct n as [m [] [] []]. Qed.

Lemma coff2noff_ok limit garbage file l : coff_file file l -> linked l -> Forall is_s32 (noff_words garbage) ->
  40 + copied_all l <= limit -> limit < two31 ->
  exists out n, coff2noff limit garbage file = Ok (Some out) /\ take 40 out = words_to_bytes (noff_words n) /\
    Z.of_nat (length out) = 40 + copied_all l /\ describes file l out n.
Proof.
  intros Hf Hlk Hg Hlim H31. pose proof (coff_contents file l Hf) as Hcs. pose proof (copied_all_nonneg file l Hcs) as Hnn.
  unfold coff2noff. rewrite (read_headers_ok file l Hf). cbn [tbind]. set (c0 := mkConv _ _ _ _ _).
  destruct (copy_sections_ok limit file l [] c0) as (c & -> & [C1 C2 C3 C4]); try done.
  { split; [done|done|by left|]. split; try done. apply noff_words_range in Hg as (R1 & [R2 [R3 [R4 _]%Forall_cons]%Forall_cons]%Forall_cons).
    apply noff_words_range. split; [by split|]. repeat (apply Forall_cons; split; [by split_and!; try tauto|]). done. }
  cbn [tbind app] in *. unfold tool_Write. set (hdr := words_to_bytes (noff_words (noffH c))).
  assert (length hdr = 40%nat) as Hh by (unfold hdr; by rewrite words_to_bytes_length). rewrite Hh.
  destruct (Z.ltb_spec limit (0 + Z.of_nat 40)); [lia|]. unfold file_WriteAt. simpl (ASSERT (0 <=? 0)). cbn [mbind outcome_bind tbind].
  change (take (Z.to_nat 0) (out_file c)) with (@nil Z). change (Z.to_nat 0 - length (out_file c))%nat with 0%nat. cbn [replicate app].
  rewrite Hh. exists (hdr ++ drop 40 (out_file c)), (noffH c). split; [done|]. split; [by rewrite take_app_length'|]. split.
  - rewrite length_app, length_drop. destruct C3 as [[-> Hz]|Hlen]; simpl; lia.
  - destruct C4 as [D1 D2 D3 D4 D5]. split; try done; by apply placed_header.
Qed.

(** ** Loading the converted program *)

(** The size of the sections of a kind, and their contents in memory. *)
Definition size_of (l : list scnhdr) : Z := match l with [] => 0 | s :: _ => s_size s end.
Definition lay (file : list Z) (l : list scnhdr) (mem : list Z) : list Z :=
  match l with [] => mem | s :: _ => splice mem (Z.to_nat (s_paddr s)) (section_bytes file s) end.

Lemma placed_size file out l seg : placed file out l seg -> seg_size seg = size_of l.
Proof. destruct l; simpl; tauto. Qed.
Lemma reserved_size l seg : reserved l seg -> seg_size seg = size_of l.
Proof. destruct l; simpl; tauto. Qed.

Lemma placed_lay file out l seg mem : placed file out l seg ->
  splice mem (Z.to_nat (seg_virtualAddr seg)) (segment_bytes seg out) = lay file l mem.
Proof.
  destruct l as [|s l]; cbn [placed lay].
  - intros Hz. unfold segment_bytes. rewrite Hz. apply splice_nil.
  - by intros (-> & _ & _ & _ & ->).
Qed.

(** The sections [l] of a kind lie in a space of [np] pages. *)
Definition in_space (np : nat) (l : list scnhdr) : Prop :=
  match l with [] => True | s :: _ => 0 <= s_paddr s /\ 0 <= s_size s /\ s_paddr s + s_size s <= 128 * Z.of_nat np end.

Lemma placed_loadable file out l seg np : placed file out l seg -> in_space np l -> VM_loadable (replicate np 0) out seg.
Proof.
  unfold VM_loadable. rewrite length_replicate. destruct l as [|s l]; cbn [placed in_space]; [intros ->; lia|].
  intros (-> & -> & P3 & P4 & _) (I1 & I2 & I3). split; [done|]. intros _. split_and!; lia.
Qed.

Lemma converted_program file l out n np : describes file l out n -> take 40 out = words_to_bytes (noff_words n) ->
  40 <= Z.of_nat (length out) < two31 ->
  Z.of_nat np = divRoundUp (u32 (size_of (of_kind Text l) + size_of (of_kind Data l) + size_of (of_kind Bss l) + UserStackSize)) PageSize ->
  in_space np (of_kind Text l) -> in_space np (of_kind Data l) -> VM_program out (noff_words n) n np.
Proof.
  intros [D1 D2 D3 D4 D5] Hh Hlen Hnp HT HD. split; try done.
  - apply noff_words_back.
  - by rewrite (placed_size _ _ _ _ D2), (placed_size _ _ _ _ D3), (reserved_size _ _ D4).
  - by apply (placed_loadable file out (of_kind Text l)).
  - by apply (placed_loadable file out (of_kind Data l)).
Qed.

(** ** coff2flat *)

Definition is_bss (s : scnhdr) : bool := named s ".bss" || named s ".sbss".

(** The sections with contents follow each other from address [a] on, in the order of the file. *)
Fixpoint laid_from (a : Z) (l : list scnhdr) : Prop :=
  match l with
  | [] => True
  | s :: l => if is_bss s then laid_from a l else s_paddr s = a /\ laid_from (a + s_size s) l
  end.

Definition flat_top (top : Z) (l : list scnhdr) : Z := foldl (fun top s => Z.max top (s_paddr s + s_size s)) top l.
Definition flat_bytes (file : list Z) (l : list scnhdr) : list Z := concat (section_bytes file <$> filter (fun s => is_bss s = false) l).

Record flat_section (file : list Z) (s : scnhdr) : Prop := {
  fl_addr : 0 <= s_paddr s /\ 0 <= s_size s /\ s_paddr s + s_size s < two31 - FlatStackSize;
  fl_contents : is_bss s = false -> 0 <= s_scnptr s /\ s_scnptr s + s_size s <= Z.of_nat (length file) }.

Lemma section_length file s : 0 <= s_scnptr s -> 0 <= s_size s -> s_scnptr s + s_size s <= Z.of_nat (length file) ->
  Z.of_nat (length (section_bytes file s)) = s_size s.
Proof. intros H1 H2 H3. unfold section_bytes. rewrite length_take, length_drop. lia. Qed.

Lemma flat_bytes_cons file s l : flat_bytes file (s :: l) = if is_bss s then flat_bytes file l else section_bytes file s ++ flat_bytes file l.
Proof. unfold flat_bytes. rewrite filter_cons. destruct (is_bss s) eqn:Hb; [by rewrite decide_False|by rewrite decide_True]. Qed.

Lemma flat_sections_ok limit file l : forall ip out top, Forall (flat_section file) l -> 0 <= top ->
  Z.of_nat (length out) + Z.of_nat (length (flat_bytes file l)) <= limit ->
  flat_sections limit file ip out (Z.of_nat (length out)) top l =
  Ok (Some (out ++ flat_bytes file l, Z.of_nat (length out) + Z.of_nat (length (flat_bytes file l)), flat_top top l)).
Proof.
  induction l as [|s l IH]; intros ip out top Hl Htop Hlim; cbn [flat_sections].
  { rewrite app_nil_r. do 4 f_equal. simpl. lia. }
  apply Forall_cons in Hl as [[(Ha & Hsz & Hend) Hc] Hl]. rewrite flat_bytes_cons in *. unfold two31, FlatStackSize in Hend.
  change (flat_top top (s :: l)) with (flat_top (Z.max top (s_paddr s + s_size s)) l).
  rewrite s32_small by (unfold is_s32, two31; lia).
  assert ((if top <? s_paddr s + s_size s then s_paddr s + s_size s else top) = Z.max top (s_paddr s + s_size s)) as ->
    by (destruct (Z.ltb_spec top (s_paddr s + s_size s)); lia).
  rewrite <- negb_orb. fold (is_bss s). destruct (is_bss s) eqn:Hb; cbn [negb]; [apply IH; (done || lia)|].
  destruct Hc as (C1 & C2); [done|]. pose proof (section_length file s C1 Hsz C2) as Hsl. rewrite length_app in Hlim.
  unfold lseek. destruct (Z.ltb_spec (s_scnptr s) 0); [lia|]. rewrite tool_Read_ok by lia. cbn [tbind]. fold (section_bytes file s).
  unfold tool_Write. destruct (Z.ltb_spec limit (Z.of_nat (length out) + Z.of_nat (length (section_bytes file s)))); [lia|].
  rewrite file_WriteAt_end by lia. cbn [mbind outcome_bind tbind]. replace (Z.to_nat (Z.of_nat (length out)) - length out)%nat with 0%nat by lia.
  cbn [replicate]. rewrite app_nil_r. replace (Z.of_nat (length out) + Z.of_nat (length (section_bytes file s)))
    with (Z.of_nat (length (out ++ section_bytes file s))) by (rewrite length_app; lia).
  rewrite IH; [|done|lia|rewrite length_app; lia]. rewrite <- app_assoc, !length_app. do 4 f_equal. lia.
Qed.

Lemma flat_top_ge l : forall top, top <= flat_top top l /\ forall s, s ∈ l -> s_paddr s + s_size s <= flat_top top l.
Proof.
  induction l as [|s l IH]; intros top; [split; [done|by intros s ?%elem_of_nil]|].
  change (flat_top top (s :: l)) with (flat_top (Z.max top (s_paddr s + s_size s)) l). destruct (IH (Z.max top (s_paddr s + s_size s))) as [I1 I2].
  split; [lia|]. intros t [->|Ht]%elem_of_cons; [lia|by apply I2].
Qed.

Lemma flat_top_lt l : forall top b, top < b -> (forall s, s ∈ l -> s_paddr s + s_size s < b) -> flat_top top l < b.
Proof.
  induction l as [|s l IH]; intros top b Ht Hs; [done|]. change (flat_top top (s :: l)) with (flat_top (Z.max top (s_paddr s + s_size s)) l).
  apply IH; [|intros t Hin; apply Hs; by right]. assert (s_paddr s + s_size s < b) by (apply Hs; by left). lia.
Qed.

(** Sections that follow each other are at their addresses. *)
Lemma laid_flat file l s : forall a, laid_from a l -> Forall (flat_section file) l -> s ∈ l -> is_bss s = false ->
  a <= s_paddr s /\ exists before after, flat_bytes file l = before ++ section_bytes file s ++ after /\ a + Z.of_nat (length before) = s_paddr s.
Proof.
  induction l as [|t l IH]; intros a Hl Hf Hin Hb; [by apply elem_of_nil in Hin|]. apply Forall_cons in Hf as [[(Ha & Hsz & _) Hc] Hf].
  rewrite flat_bytes_cons. cbn [laid_from] in Hl. apply elem_of_cons in Hin as [->|Hin].
  - rewrite Hb in *. destruct Hl as [<- _]. split; [done|]. exists [], (flat_bytes file l). split; [done|]. simpl. lia.
  - destruct (is_bss t) eqn:Ht; [by apply IH|]. destruct Hl as [<- Hl]. destruct (Hc eq_refl) as (C1 & C2).
    pose proof (section_length file t C1 Hsz C2) as Hsl. destruct (IH _ Hl Hf Hin Hb) as (Hle & before & after & Heq & Hlen). split; [lia|].
    exists (section_bytes file t ++ before), after. split; [by rewrite Heq, <- app_assoc|]. rewrite length_app. lia.
Qed.

Lemma flat_top_mono l : forall a b, a <= b -> flat_top a l <= flat_top b l.
Proof. induction l as [|s l IH]; intros a b Hab; [done|]. apply IH. lia. Qed.

(** The bytes of all sections end at the top. *)
Lemma laid_length file l : forall a, laid_from a l -> Forall (flat_section file) l ->
  a + Z.of_nat (length (flat_bytes file l)) <= Z.max a (flat_top a l).
Proof.
  induction l as [|t l IH]; intros a Hl Hf; [simpl; lia|]. apply Forall_cons in Hf as [[(Ha & Hsz & _) Hc] Hf].
  rewrite flat_bytes_cons. cbn [laid_from] in Hl. change (flat_top a (t :: l)) with (flat_top (Z.max a (s_paddr t + s_size t)) l).
  destruct (flat_top_ge l (Z.max a (s_paddr t + s_size t))) as [Hge _]. destruct (is_bss t) eqn:Ht.
  - specialize (IH a Hl Hf). assert (flat_top a l <= flat_top (Z.max a (s_paddr t + s_size t)) l) by (apply flat_top_mono; lia). lia.
  - destruct Hl as [<- Hl]. destruct (Hc eq_refl) as (C1 & C2). pose proof (section_length file t C1 Hsz C2) as Hsl. specialize (IH _ Hl Hf).
    rewrite length_app. replace (Z.max (s_paddr t) (s_paddr t + s_size t)) with (s_paddr t + s_size t) in * by lia. lia.
Qed.

(** ** A small object file *)

Definition section_header (name : string) (paddr size scnptr : Z) : list Z :=
  chars name ++ replicate (8 - String.length name) 0 ++ words_to_bytes [paddr; paddr; size; scnptr; 0; 0; 0; 0].
Definition coff_header (nscns : Z) : list Z := [0x62; 1; nscns; 0] ++ replicate 16 0 ++ [7; 1] ++ replicate 54 0.

(** Eight bytes of code, four of data and sixteen of bss. *)
Definition demo_coff : list Z :=
  coff_header 3 ++ section_header ".text" 0 8 196 ++ section_header ".data" 8 4 204 ++ section_header ".bss" 12 16 0 ++
  [11; 12; 13; 14; 15; 16; 17; 18] ++ [21; 22; 23; 24].
Definition demo_sections : list scnhdr := scnhdrs_of 3 (drop 76 demo_coff).
Definition demo_garbage : NoffHeader := mkNoff 5 (mkSegment 6 7 8) (mkSegment 9 10 11) (mkSegment 12 13 14).

Lemma demo_coff_file : coff_file demo_coff demo_sections.
Proof.
  split; try (vm_compute; done). intros s. let d := eval vm_compute in demo_sections in change demo_sections with d.
  rewrite !elem_of_cons, elem_of_nil. intros [-> |[-> |[-> |[]]]] _; vm_compute; by split_and!.
Qed.

Lemma demo_linked : linked demo_sections.
Proof.
  split; [|intros []; vm_compute; lia]. intros s. let d := eval vm_compute in demo_sections in change demo_sections with d.
  rewrite !elem_of_cons, elem_of_nil. by intros [-> |[-> |[-> |[]]]].
Qed.

(** ** Properties *)

(** [coff2noff] on the object file of a program, with at most one section for code, one for initialized data and one for data that
    is not initialized: the tool ends and writes a NOFF file. Its header has the magic number, the
    addresses and sizes of the sections, and places in the file that hold exactly the
    contents of the sections; the fields of [noffH] that the tool does not set do not matter. *)
Theorem coff2noff_correct limit garbage file l :
  coff_file file l -> linked l -> Forall is_s32 (noff_words garbage) -> 40 + copied_all l <= limit -> limit < two31 ->
  exists out n, coff2noff limit garbage file = Ok (Some out) /\ take 40 out = words_to_bytes (noff_words n) /\
    Z.of_nat (length out) = 40 + copied_all l /\ describes file l out n.
Proof. apply coff2noff_ok. Qed.

Lemma coff2noff_correct_witness :
  exists out n, coff2noff 1000 demo_garbage demo_coff = Ok (Some out) /\ Z.of_nat (length out) = 52 /\
    describes demo_coff demo_sections out n.
Proof.
  destruct (coff2noff_correct 1000 demo_garbage demo_coff demo_sections) as (out & n & Hrun & _ & Hlen & Hd).
  - exact demo_coff_file.
  - exact demo_linked.
  - apply (bool_decide_unpack _). vm_compute. exact I.
  - vm_compute. discriminate.
  - reflexivity.
  - exists out, n. split; [exact Hrun|]. split; [exact Hlen|exact Hd].
Defined.



(** What [coff2noff] refuses: a file that is shorter than the headers, a file without the two magic
    numbers, a section it does not know, and a second section of initialized data. The result is
    never a NOFF file. *)
Theorem coff2noff_rejects limit garbage file :
  (Z.of_nat (length file) < 76 -> coff2noff limit garbage file = Ok None) /\
  (20 <= Z.of_nat (length file) -> f_magic (filehdr_of (take 20 file)) <> MIPSELMAGIC -> coff2noff limit garbage file = Ok None) /\
  (76 <= Z.of_nat (length file) -> magic (aouthdr_of (take 56 (drop 20 file))) <> OMAGIC -> coff2noff limit garbage file = Ok None) /\
  (forall c s, kind_of s = Some Other -> copy_section limit file c s = Ok None) /\
  (forall c s, kind_of s = Some Data -> seg_size (noff_initData (noffH c)) <> 0 -> copy_section limit file c s = Ok None).
Proof.
  assert (20 <= Z.of_nat (length file) -> f_magic (filehdr_of (take 20 file)) <> MIPSELMAGIC -> coff2noff limit garbage file = Ok None) as Hm.
  { intros Hl Hmg. unfold coff2noff, read_headers. rewrite tool_Read_ok by lia. cbn [tbind]. change (drop (Z.to_nat 0) file) with file.
    change (Z.to_nat 20) with 20%nat. by rewrite (proj2 (Z.eqb_neq _ _) Hmg). }
  split_and!.
  - intros Hl. destruct (decide (Z.of_nat (length file) < 20)); [unfold coff2noff, read_headers; by rewrite tool_Read_short by lia|].
    destruct (decide (f_magic (filehdr_of (take 20 file)) = MIPSELMAGIC)) as [Heq|]; [|by apply Hm; [lia|]].
    unfold coff2noff, read_headers. rewrite tool_Read_ok by lia. cbn [tbind]. change (drop (Z.to_nat 0) file) with file.
    change (Z.to_nat 20) with 20%nat. rewrite Heq. cbn [tbind stop_if negb Z.eqb Pos.eqb MIPSELMAGIC]. by rewrite tool_Read_short by lia.
  - exact Hm.
  - intros Hl Hom. destruct (decide (f_magic (filehdr_of (take 20 file)) = MIPSELMAGIC)) as [Heq|]; [|by apply Hm; [lia|]].
    unfold coff2noff, read_headers. rewrite tool_Read_ok by lia. cbn [tbind]. change (drop (Z.to_nat 0) file) with file.
    change (Z.to_nat 20) with 20%nat. rewrite Heq. cbn [tbind stop_if negb Z.eqb Pos.eqb MIPSELMAGIC]. rewrite tool_Read_ok by lia. cbn [tbind].
    change (Z.to_nat (0 + 20)) with 20%nat. change (Z.to_nat 56) with 56%nat. by rewrite (proj2 (Z.eqb_neq _ _) Hom).
  - intros c s Hk. rewrite copy_section_run. cbv zeta. by rewrite Hk.
  - intros c s Hk Hz. rewrite copy_section_run. cbv zeta. rewrite Hk. by rewrite (proj2 (Z.eqb_neq _ _) Hz).
Qed.

Lemma coff2noff_rejects_witness : coff2noff 1000 demo_garbage (take 75 demo_coff) = Ok None.
Proof. destruct (coff2noff_rejects 1000 demo_garbage (take 75 demo_coff)) as [Hshort _]. apply Hshort. vm_compute. reflexivity. Defined.

(** The test for a second section of data that is not initialized is the wrong way round: the comment in the code
    wants [.bss] and [.sbss] to be contiguous. Contiguous ones are refused; other ones are
    taken for one segment of the sum of their sizes at the first address. *)
Theorem sbss_test_inverted limit file c s : kind_of s = Some Bss -> seg_size (noff_uninitData (noffH c)) <> 0 ->
  let u := noff_uninitData (noffH c) in
  (s_paddr s = s32 (seg_virtualAddr u + seg_size u) -> copy_section limit file c s = Ok None) /\
  (s_paddr s <> s32 (seg_virtualAddr u + seg_size u) ->
   exists c', copy_section limit file c s = Ok (Some c') /\
     noff_uninitData (noffH c') = mkSegment (seg_virtualAddr u) (seg_inFileAddr u) (s32 (seg_size u + s_size s))).
Proof.
  intros Hk Hz u. rewrite copy_section_run. cbv zeta. rewrite Hk, (proj2 (Z.eqb_neq _ _) Hz). fold u. split; intros Hp.
  - by rewrite (proj2 (Z.eqb_eq _ _) Hp).
  - rewrite (proj2 (Z.eqb_neq _ _) Hp). by eexists.
Qed.

(** [coff2flat] writes the sections one after the other, wherever they belong. When their
    addresses follow each other from 0 on, the file is the memory of the program: every section is
    at its address, there are zeros after the last one, and the stack is at the end. *)
Theorem coff2flat_correct limit file l :
  coff_file file l -> Forall (flat_section file) l -> laid_from 0 l -> flat_top 0 l + FlatStackSize <= limit ->
  exists out, coff2flat limit file = Ok (Some out) /\ Z.of_nat (length out) = flat_top 0 l + FlatStackSize /\
    (forall s, s ∈ l -> is_bss s = false -> take (Z.to_nat (s_size s)) (drop (Z.to_nat (s_paddr s)) out) = section_bytes file s) /\
    drop (length (flat_bytes file l)) out = replicate (length out - length (flat_bytes file l)) 0.
Proof.
  intros Hf Hl Hlaid Hlim. unfold FlatStackSize in *. destruct (flat_top_ge l 0) as [Ht0 Ht]. pose proof (laid_length file l 0 Hlaid Hl) as Hlen.
  assert (flat_top 0 l < two31 - 1024) as Htop.
  { apply flat_top_lt; [done|]. intros s Hs. rewrite Forall_forall in Hl. by destruct (Hl s Hs) as [(_ & _ & ?) _]. }
  unfold coff2flat. rewrite (read_headers_ok file l Hf). cbn [tbind]. change 0 with (Z.of_nat (length (@nil Z))) at 1.
  rewrite flat_sections_ok by (done || simpl; lia). cbn [tbind app length]. unfold FlatStackSize.
  rewrite s32_small by (unfold is_s32, two31 in *; lia). unfold lseek. destruct (Z.ltb_spec (flat_top 0 l + 1024 - 4) 0); [lia|].
  unfold tool_Write. change (Z.of_nat (length (word_bytes 0))) with 4. destruct (Z.ltb_spec limit (flat_top 0 l + 1024 - 4 + 4)); [lia|].
  rewrite file_WriteAt_end by lia. cbn [mbind outcome_bind tbind]. eexists. split; [done|].
  rewrite !length_app, length_replicate. change (length (word_bytes 0)) with 4%nat. rewrite <- app_assoc. split_and!.
  - lia.
  - intros s Hs Hb. destruct (laid_flat file l s 0 Hlaid Hl Hs Hb) as (_ & before & after & -> & Hpl).
    rewrite Forall_forall in Hl. destruct (Hl s Hs) as [(_ & Hsz & _) Hc]. destruct (Hc Hb) as [C1 C2].
    pose proof (section_length file s C1 Hsz C2). rewrite <- !app_assoc. rewrite drop_app_length' by lia. by rewrite take_app_length' by lia.
  - rewrite drop_app_length. change (word_bytes 0) with (replicate 4 0). rewrite <- replicate_add. f_equal. lia.
Qed.

Lemma coff2flat_correct_witness :
  exists out, coff2flat 2000 demo_coff = Ok (Some out) /\ Z.of_nat (length out) = 1052.
Proof.
  destruct (coff2flat_correct 2000 demo_coff demo_sections) as (out & Hrun & Hlen & _).
  - exact demo_coff_file.
  - repeat (apply Forall_cons; split; [split; vm_compute; [repeat split; discriminate|intros _; repeat split; discriminate]|]). apply Forall_nil. exact I.
  - vm_compute. repeat split.
  - vm_compute. discriminate.
  - exists out. split; [exact Hrun|exact Hlen].
Defined.
