(* ===== verification/FsTest.v ===== *)
(** * filesys/fstest.cc: copying files in, printing them, and the performance test

    These are the callers of the file system that the command line of the kernel has. A UNIX file is a
    sequence of bytes, [None] when it cannot be opened. What a routine prints with [printf]
    besides the contents of a file is left out. *)

From Stdlib Require Import String Ascii.
From stdpp Require Import prelude numbers list.
From S2P Require Import Prelude Params BitMap Mips FileHdr Directory OpenFile FileSys AddrSpace.

Open Scope Z_scope.

Definition TransferSize : Z := 10.

Section fstest.
Context `{Fresh}.

(** [while ((amountRead = fread(buffer, sizeof(char), TransferSize, fp)) > 0)]: [rest] is what
    is left of the UNIX file. *)
Fixpoint Copy_loop (fuel wfuel : nat) (openFile : OpenFile) (disk : list (list Z)) (rest : list Z)
    : outcome (OpenFile * list (list Z)) :=
  match fuel with
  | O => NoFuel
  | S fuel =>
      let buffer := take (Z.to_nat TransferSize) rest in
      let amountRead := Z.of_nat (length buffer) in
      if 0 <? amountRead then
        '(_, openFile, disk) ← Write wfuel openFile disk buffer amountRead;
        Copy_loop fuel wfuel openFile disk (drop (Z.to_nat TransferSize) rest)
      else Ok (openFile, disk)
  end.

(** TRUE when the file was copied. *)
Definition Copy (wfuel : nat) (fs : FileSystem) (disk : list (list Z)) (from : option (list Z)) (to : list Z)
    : outcome (bool * FileSystem * list (list Z)) :=
  match from with
  | None => Ok (false, fs, disk)
  | Some fp =>
      let fileLength := s32 (Z.of_nat (length fp)) in
      '(ok, fs, disk) ← Create wfuel fs disk to fileLength;
      if negb ok then Ok (false, fs, disk)
      else
        openFile ← Open fs disk to;
        openFile ← match openFile with Some f => Ok f | None => AssertFail end;
        '(_, disk) ← Copy_loop (S (length fp)) wfuel openFile disk fp;
        Ok (true, fs, disk)
  end.

(** The characters that are printed; [fuel] bounds the number of reads. *)
Fixpoint Print_loop (fuel : nat) (openFile : OpenFile) (disk : list (list Z)) : outcome (list Z) :=
  match fuel with
  | O => NoFuel
  | S fuel =>
      '(amountRead, buffer, openFile) ← Read openFile disk TransferSize;
      if 0 <? amountRead then
        rest ← Print_loop fuel openFile disk;
        Ok (take (Z.to_nat amountRead) buffer ++ rest)
      else Ok []
  end.

(** [None]: the file cannot be opened. *)
Definition Print (fs : FileSystem) (disk : list (list Z)) (name : list Z) : outcome (option (list Z)) :=
  o ← Open fs disk name;
  match o with
  | None => Ok None
  | Some openFile => out ← Print_loop (S (Z.to_nat (Length openFile))) openFile disk; Ok (Some out)
  end.

(** ** The performance test *)

Definition TestFile : list Z := [84; 101; 115; 116; 70; 105; 108; 101].
Definition Contents : list Z := [49; 50; 51; 52; 53; 54; 55; 56; 57; 48].
Definition ContentSize : Z := 10.
Definition FileSize : Z := ContentSize * 5000.

(** The [n] iterations that are left; FALSE when a write is too short. *)
Fixpoint FileWrite_loop (n wfuel : nat) (openFile : OpenFile) (disk : list (list Z)) : outcome (bool * list (list Z)) :=
  match n with
  | O => Ok (true, disk)
  | S n =>
      '(numBytes, openFile, disk) ← Write wfuel openFile disk Contents ContentSize;
      if numBytes <? 10 then Ok (false, disk) else FileWrite_loop n wfuel openFile disk
  end.

Definition FileWrite (wfuel : nat) (fs : FileSystem) (disk : list (list Z)) : outcome (bool * FileSystem * list (list Z)) :=
  '(ok, fs, disk) ← Create wfuel fs disk TestFile 0;
  if negb ok then Ok (false, fs, disk)
  else
    o ← Open fs disk TestFile;
    match o with
    | None => Ok (false, fs, disk)
    | Some openFile =>
        '(ok, disk) ← FileWrite_loop (Z.to_nat (cdiv FileSize ContentSize)) wfuel openFile disk;
        Ok (ok, fs, disk)
    end.

Fixpoint FileRead_loop (n : nat) (openFile : OpenFile) (disk : list (list Z)) : outcome bool :=
  match n with
  | O => Ok true
  | S n =>
      '(numBytes, buffer, openFile) ← Read openFile disk ContentSize;
      if (numBytes <? 10) || negb (bool_decide (take 10 buffer = Contents)) then Ok false
      else FileRead_loop n openFile disk
  end.

Definition FileRead (fs : FileSystem) (disk : list (list Z)) : outcome bool :=
  o ← Open fs disk TestFile;
  match o with
  | None => Ok false
  | Some openFile => FileRead_loop (Z.to_nat (cdiv FileSize ContentSize)) openFile disk
  end.

(** What [FileWrite], [FileRead] and [Remove] report. *)
Definition PerformanceTest (wfuel : nat) (fs : FileSystem) (disk : list (list Z))
    : outcome (bool * bool * bool * FileSystem * list (list Z)) :=
  '(written, fs, disk) ← FileWrite wfuel fs disk;
  read ← FileRead fs disk;
  '(removed, fs, disk) ← Remove wfuel fs disk TestFile;
  Ok (written, read, removed, fs, disk).
End fstest.

(** ** The loops *)

Section loops.
Context `{FreshLaws}.

(** One [Write] inside the sectors of the file. *)
Lemma Write_inside wfuel f disk ss from p : file_on f disk ss -> disk_ok disk -> seekPosition f = p -> 0 <= p -> (0 < length from)%nat ->
  p + Z.of_nat (length from) <= 128 * Z.of_nat (length ss) ->
  exists f' disk', Write (S wfuel) f disk from (Z.of_nat (length from)) = Ok (Z.of_nat (length from), f', disk') /\
    hdr f' = hdr f /\ seekPosition f' = p + Z.of_nat (length from) /\ changes disk disk' ss /\
    file_bytes disk' ss = splice (file_bytes disk ss) (Z.to_nat p) from.
Proof.
  intros Hf Hd Hp H0p Hl Hin. pose proof (fo_bounds _ _ _ Hf) as [_ Hsz]. unfold two31 in Hsz.
  destruct (WriteAt_inside wfuel f disk ss from (Z.of_nat (length from)) p) as (disk' & Hw & Hch & Hfb); [done|done|lia|lia|lia|].
  unfold Write. rewrite Hp, Hw. cbn [mbind outcome_bind]. eexists _, disk'. split; [done|]. cbn [hdr seekPosition].
  rewrite Hp, s32_small by (unfold is_s32, two31; lia). rewrite Nat2Z.id, take_ge in Hfb by lia. by split_and!.
Qed.

Lemma Copy_loop_ok wfuel ss fuel : forall f disk rest p, file_on f disk ss -> disk_ok disk -> seekPosition f = p -> 0 <= p ->
  p + Z.of_nat (length rest) <= 128 * Z.of_nat (length ss) -> (length rest < fuel)%nat ->
  exists f' disk', Copy_loop fuel (S wfuel) f disk rest = Ok (f', disk') /\ changes disk disk' ss /\
    file_bytes disk' ss = splice (file_bytes disk ss) (Z.to_nat p) rest.
Proof.
  induction fuel as [|fuel IH]; intros f disk rest p Hf Hd Hp H0p Hin Hfuel; [lia|]. cbn [Copy_loop]. change (Z.to_nat TransferSize) with 10%nat.
  destruct (Z.ltb_spec 0 (Z.of_nat (length (take 10 rest)))) as [Hpos|Hz]; rewrite length_take in *.
  - destruct (Write_inside wfuel f disk ss (take 10 rest) p) as (f1 & disk1 & Hw & Hh & Hs1 & Hch & Hfb);
      [done|done|done|done|rewrite length_take; lia|rewrite length_take; lia|].
    rewrite length_take in Hw, Hs1. rewrite Hw. cbn [mbind outcome_bind].
    assert (file_on f1 disk1 ss) as Hf1 by (apply (file_on_same_header f); [done|]; by apply (file_on_changes _ disk _ _ ss)).
    destruct (IH f1 disk1 (drop 10 rest) (p + Z.of_nat (10 `min` length rest))) as (f' & disk' & -> & Hch' & Hfb');
      [done|apply Hch|done|lia|rewrite length_drop; lia|rewrite length_drop; lia|].
    exists f', disk'. split; [done|]. split; [by eapply changes_trans|]. rewrite Hfb', Hfb.
    pose proof (file_bytes_length (hdr f) disk ss (fo_mapped _ _ _ Hf) Hd) as Hfl.
    replace (Z.to_nat (p + Z.of_nat (10 `min` length rest))) with (Z.to_nat p + length (take 10 rest))%nat by (rewrite length_take; lia).
    rewrite splice_app by (rewrite length_take, length_drop; lia). by rewrite take_drop.
  - assert (rest = []) as -> by (destruct rest; [done|simpl in Hz; lia]). exists f, disk. split; [done|]. split; [by split|]. by rewrite splice_nil.
Qed.

(** The reads are ten bytes each, the last one of which may pass the end of the file. *)
Lemma Print_loop_ok disk ss fuel : forall n f p, mapped (hdr f) disk ss -> disk_ok disk -> seekPosition f = p -> 0 <= p ->
  FileLength (hdr f) <= p + 10 * Z.of_nat n -> n = 0%nat \/ p + 10 * (Z.of_nat n - 1) < FileLength (hdr f) ->
  p + 10 * Z.of_nat n <= 128 * Z.of_nat (length ss) -> (n < fuel)%nat ->
  Print_loop fuel f disk = Ok (take (10 * n) (drop (Z.to_nat p) (file_bytes disk ss))).
Proof.
  induction fuel as [|fuel IH]; intros n f p Hm Hd Hp H0p Hlen Hn Hin Hfuel; [lia|]. cbn [Print_loop]. unfold Read.
  change TransferSize with 10. rewrite Hp. destruct n as [|n].
  - rewrite ReadAt_nothing by lia. done.
  - rewrite (ReadAt_ok f disk ss) by (done || lia). cbn [mbind outcome_bind]. change (0 <? 10) with true. cbv iota.
    pose proof (mp_size _ _ _ Hm) as Hsz. unfold two31 in Hsz.
    rewrite (IH n _ (p + 10)); try done; cbn [hdr seekPosition]; try lia; [|rewrite s32_small by (unfold is_s32, two31; lia); done].
    cbn [mbind outcome_bind]. change (Z.to_nat 10) with 10%nat. rewrite take_take. f_equal.
    replace (10 * S n)%nat with (10 + 10 * n)%nat by lia. replace (Z.to_nat (p + 10)) with (Z.to_nat p + 10)%nat by lia.
    by rewrite <- drop_drop, take_take_drop.
Qed.
End loops.

(** ** A disk with the test file *)

(** The first [n] writes of the performance test on a new disk. *)
Definition test_writes (n : nat) : outcome (bool * list (list Z)) :=
  '(fs, disk) ← FileSystem_new (H := zero_fresh) 3 true (demo_disk 1024 []);
  '(_, fs, disk) ← Create (H := zero_fresh) 3 fs disk TestFile 0;
  o ← Open (H := zero_fresh) fs disk TestFile;
  f ← deref o;
  FileWrite_loop (H := zero_fresh) n 3 f disk.

(** ** Properties *)

(** C32. [Copy] of a UNIX file of at most 34 sectors into the file system, and [Print] of the copy. Copying takes ten
    bytes at a time; it succeeds, and the file system is in order. When the last read of [Print] stays in the
    last sector, the characters printed are the bytes of the UNIX file, followed by what fills the last ten
    bytes up: nothing if the length is a multiple of ten. A file that cannot be opened
    copies nothing. *)
Theorem Copy_Print `{FreshLaws} fuel fs disk fms ds bm d name contents :
  fs_ok fs disk fms ds bm d -> Forall (fun c => c <> 0) name ->
  Exists (fun e => inUse e = false) (table d) \/ tableSize d <= 4 -> dir_map d !! take FileNameMaxLen name = None ->
  let size := Z.of_nat (length contents) in
  size <= 34 * 128 -> 1 + sectors_needed (divRoundUp size SectorSize) <= ba_free bm ->
  divRoundUp size TransferSize * TransferSize <= divRoundUp size SectorSize * SectorSize ->
  Copy (S fuel) fs disk None name = Ok (false, fs, disk) /\
  exists disk' bm' d' padding, Copy (S fuel) fs disk (Some contents) name = Ok (true, fs, disk') /\
    fs_ok fs disk' fms ds bm' d' /\ Print fs disk' name = Ok (Some (contents ++ padding)) /\
    size + Z.of_nat (length padding) = divRoundUp size TransferSize * TransferSize.
Proof.
  intros Hfs Hname Hroom Hk size Hsz Hfree Hpad. split; [done|].
  destruct (create_open fuel fs disk fms ds bm d name size) as (disk1 & f1 & ss & bm' & d' & Hrun & Hfs1 & Hop1 & Hlen1 & Hf1 & Hlater); try done; [lia|].
  pose proof (fo_bounds _ _ _ Hf1) as [Hb1 _]. rewrite Hlen1 in Hb1. pose proof (Open_start _ _ _ _ Hop1) as Hst1.
  destruct (Copy_loop_ok fuel ss (S (length contents)) f1 disk1 contents 0) as (f1' & disk2 & Hcopy & Hch & Hfb);
    [done|apply Hfs1|done|lia|lia|lia|].
  destruct (Hlater disk2 Hch) as (Hfs2 & f2 & Hop2 & Hlen2 & Hf2). pose proof (Open_start _ _ _ _ Hop2) as Hst2.
  pose proof (divRoundUp_bounds size 10 ltac:(lia) ltac:(lia)) as Hdr. change TransferSize with 10 in *. set (n := Z.to_nat (divRoundUp size 10)).
  assert (0 <= divRoundUp size 10) by (apply divRoundUp_nonneg; lia).
  pose proof (fo_sectors _ _ _ Hf2) as Hsec. rewrite Hlen2 in Hsec. change SectorSize with 128 in *.
  pose proof (file_bytes_length (hdr f1) disk1 ss (fo_mapped _ _ _ Hf1) (fk_disk _ _ _ _ _ _ Hfs1)) as Hfl.
  assert (Print_loop (S (Z.to_nat (Length f2))) f2 disk2 = Ok (take (10 * n) (file_bytes disk2 ss))) as Hprint.
  { rewrite (Print_loop_ok disk2 ss _ n f2 0); try done; [apply Hf2|apply Hch|rewrite Hlen2; lia|rewrite Hlen2; lia|lia|].
    unfold Length. rewrite Hlen2. lia. }
  exists disk2, bm', d', (drop (length contents) (take (10 * n) (file_bytes disk2 ss))). split_and!.
  - unfold Copy. rewrite s32_small by (unfold is_s32, two31; lia). fold size. rewrite Hrun. cbn [mbind outcome_bind negb].
    rewrite Hop1. cbn [mbind outcome_bind]. by rewrite Hcopy.
  - done.
  - unfold Print. rewrite Hop2. cbn [mbind outcome_bind]. rewrite Hprint. cbn [mbind outcome_bind]. do 2 f_equal.
    rewrite <- (take_drop (length contents) (take (10 * n) _)) at 1. f_equal. rewrite take_take, Nat.min_l by lia. rewrite Hfb.
    apply (splice_read _ 0). lia.
  - rewrite length_drop, length_take, Hfb, splice_length by lia. lia.
Qed.

Lemma Copy_Print_witness :
  exists fs disk disk' padding, Copy (H := zero_fresh) 1 fs disk (Some (replicate 95 7)) [97] = Ok (true, fs, disk') /\
    Print (H := zero_fresh) fs disk' [97] = Ok (Some (replicate 95 7 ++ padding)) /\ 95 + Z.of_nat (length padding) = 100.
Proof.
  destruct formatted as (fs & disk & fms & ds & bm & d & _ & Hok & He & Ht & Hf).
  destruct (Copy_Print (H := zero_fresh) (H0 := zero_fresh_laws) 0 fs disk fms ds bm d [97] (replicate 95 7))
    as (_ & disk' & bm' & d' & padding & Hc & _ & Hp & Hl).
  - exact Hok.
  - repeat constructor. lia.
  - right. rewrite Ht. lia.
  - rewrite He. reflexivity.
  - vm_compute. discriminate.
  - rewrite Hf. vm_compute. discriminate.
  - vm_compute. discriminate.
  - exists fs, disk, disk', padding. split; [exact Hc|]. split; [exact Hp|exact Hl].
Defined.

(** The performance test on a new disk: every write of the first 27 reports that all bytes were written, and
    after them sector 0, the header of the free map, holds characters of the test file. *)
Theorem performance_test_overwrites :
  match test_writes 27 with
  | Ok (written, disk) => written = true /\ take 10 (default [] (disk !! 0%nat)) = [55; 56; 57; 48; 49; 50; 51; 52; 53; 54]
  | _ => False
  end.
Proof. vm_compute. split; reflexivity. Qed.
