(* ===== verification/ThreadTest.v ===== *)
(** * threads/threadtest.cc: threads that share a variable

    [SimpleThread] of the builds with locks and with semaphores: five times, every thread takes the lock (or calls
    [P]), reads [SharedVariable], yields, stores the value plus one, and releases the lock (or
    calls [V]). [Mutex] is what the thread uses of a lock or of a semaphore with the value
    1, and the theorem on the threads is proved from the laws of this interface; Synch.v gives the
    two instances. *)

From stdpp Require Import prelude numbers gmap list sets relations.
From S2P Require Import Prelude Params CList Interrupt Threads Synch.

Open Scope Z_scope.

(** ** Two objects on one kernel *)

(** [wake] of a thread that waits for one object is a step of the kernel for the threads inside another one. *)
Lemma wake_env k q i j k' : waiters_ok k q i -> dom i ## dom j -> wake k (q_remove q).1 = Ok k' -> rtc (env_step j) k k'.
Proof.
  intros Hw Hd. destruct q as [|[z t] q]; simpl; [intros [= <-]; apply rtc_refl|]. intros Hr. apply rtc_once.
  destruct (wo_queued _ _ _ Hw t) as [Hb Hin]; [simpl; set_solver|]. apply (env_wake j k t); [|set_solver|done].
  split; [by right|by apply Hw].
Qed.

(** So is the whole of [V] and of [Release]: the kernel's part of both. *)
Lemma wake_off_env k q i j k' : waiters_ok k q i -> dom i ## dom j -> status_of k (currentThread k) = Some RUNNING ->
  currentThread k ∉ dom j -> kernel_ok k -> idle_off k ->
  wake (with_klevel k IntOff) (q_remove q).1 = Ok k' -> rtc (env_step j) k (with_klevel k' (k_level k)).
Proof.
  intros Hw Hd Hr Hn Hk Hi Hwk. destruct (wake_ok k q i Hk Hi Hw) as (k1 & Hwk' & _ & _ & Hw1 & Hc). rewrite Hwk in Hwk'. injection Hwk' as <-.
  eapply rtc_l; [by apply (env_level j k IntOff)|]. etrans; [eapply wake_env; [by apply waiters_level|done|done]|].
  apply rtc_once, env_level; rewrite ?Hc; [|done]. destruct q as [|[z t] q]; simpl in Hwk; [by injection Hwk as <-|].
  destruct (waiters_wake (with_klevel k IntOff) z t q i) as (k2 & Hr2 & _ & _ & _ & _ & _ & Hst); [done..|by apply waiters_level|].
  rewrite Hr2 in Hwk. injection Hwk as <-. by apply Hst.
Qed.

(** ** Mutual exclusion as an interface *)

(** [mx_try] is one iteration of the loop of [Acquire] or [P]: TRUE when it returns. *)
Class Mutex (O : Type) := {
  mx_new : O;
  mx_try : kstate -> O -> outcome (bool * kstate * O);
  mx_leave : kstate -> O -> outcome (kstate * O) }.

(** The kernel with one object; [g_in] are the threads that wait for it, with the interrupt
    level they have to restore. *)
Record guarded (O : Type) := mkGuarded { g_k : kstate; g_o : O; g_in : gmap positive IntStatus }.
Arguments mkGuarded {O}. Arguments g_k {O}. Arguments g_o {O}. Arguments g_in {O}.

Definition running (k : kstate) : Prop := status_of k (currentThread k) = Some RUNNING.

(** [mx_inv g C]: the threads [C] are inside. *)
Class MutexLaws (O : Type) `{Mutex O} := {
  mx_inv : guarded O -> gset positive -> Prop;
  mx_start k : kernel_ok k -> idle_off k -> mx_inv (mkGuarded k mx_new ∅) ∅;
  mx_enter k o i C k' o' : mx_inv (mkGuarded k o i) C -> running k -> currentThread k ∉ dom i ->
    mx_try (with_klevel k IntOff) o = Ok (true, k', o') ->
    mx_inv (mkGuarded (with_klevel k' (k_level k)) o' i) ({[currentThread k]} ∪ C);
  mx_block k o i C k' o' : mx_inv (mkGuarded k o i) C -> running k -> currentThread k ∉ dom i ->
    mx_try (with_klevel k IntOff) o = Ok (false, k', o') ->
    mx_inv (mkGuarded k' o' (<[currentThread k := k_level k]> i)) C;
  mx_enter_late k o i C k' o' old : mx_inv (mkGuarded k o i) C -> running k -> i !! currentThread k = Some old ->
    mx_try k o = Ok (true, k', o') ->
    mx_inv (mkGuarded (with_klevel k' old) o' (delete (currentThread k) i)) ({[currentThread k]} ∪ C);
  mx_block_again k o i C k' o' old : mx_inv (mkGuarded k o i) C -> running k -> i !! currentThread k = Some old ->
    mx_try k o = Ok (false, k', o') -> mx_inv (mkGuarded k' o' i) C;
  mx_exit k o i C k' o' : mx_inv (mkGuarded k o i) C -> running k -> currentThread k ∉ dom i -> currentThread k ∈ C ->
    mx_leave k o = Ok (k', o') -> mx_inv (mkGuarded k' o' i) (C ∖ {[currentThread k]});
  mx_env k o i C k' : mx_inv (mkGuarded k o i) C -> env_step i k k' -> mx_inv (mkGuarded k' o i) C;
  mx_kernel g C : mx_inv g C -> kernel_ok (g_k g) /\ idle_off (g_k g);
  mx_level g C : mx_inv g C -> currentThread (g_k g) ∈ dom (g_in g) -> k_level (g_k g) = IntOff;
  mx_try_done k o k' o' : mx_try k o = Ok (true, k', o') -> k' = k;
  mx_try_env k o j b k' o' : running k -> k_level k = IntOff -> currentThread k ∉ dom j ->
    mx_try k o = Ok (b, k', o') -> rtc (env_step j) k k';
  mx_leave_env k o i C j k' o' : mx_inv (mkGuarded k o i) C -> running k -> currentThread k ∉ dom j -> dom i ## dom j ->
    mx_leave k o = Ok (k', o') -> rtc (env_step j) k k';
  mx_excl g C t1 t2 : mx_inv g C -> t1 ∈ C -> t2 ∈ C -> t1 = t2 }.

(** ** Locks *)

(** [garbage] is the owner of a new lock. *)
#[export] Instance lock_mutex (garbage : option positive) : Mutex Lock :=
  {| mx_new := Lock_new garbage; mx_try := Lock_Acquire_loop; mx_leave := Lock_Release |}.

Definition guarded_lock (g : guarded Lock) (C : gset positive) : lock_sys := mkLockSys (g_k g) (g_o g) (g_in g) C.

#[export] Instance lock_mutex_laws garbage : @MutexLaws Lock (lock_mutex garbage).
Proof.
  refine {| mx_inv := fun g C => lock_inv (guarded_lock g C) |}; unfold guarded_lock; simpl.
  - intros k Hk Hi. apply (lock_reachable k garbage _ Hk Hi). apply rtc_refl.
  - intros k o i C k' o' Hinv Hr Hn Ht. eapply lock_step_ok; [exact Hinv|]. by apply lock_acquired.
  - intros k o i C k' o' Hinv Hr Hn Ht. eapply lock_step_ok; [exact Hinv|]. by apply lock_wait.
  - intros k o i C k' o' old Hinv Hr Hn Ht. eapply lock_step_ok; [exact Hinv|]. by eapply lock_again_acquired.
  - intros k o i C k' o' old Hinv Hr Hn Ht. eapply lock_step_ok; [exact Hinv|]. by eapply lock_again_wait.
  - intros k o i C k' o' Hinv Hr Hn _ Ht. eapply lock_step_ok; [exact Hinv|]. by apply lock_release.
  - intros k o i C k' Hinv He. eapply lock_step_ok; [exact Hinv|]. by apply lock_env.
  - intros g C [Hk Hi _ _ _ _]. by split.
  - intros g C [_ _ Hw _ _ _]. apply Hw.
  - intros k o k' o'. unfold Lock_Acquire_loop. destruct (locked o && _); [|by intros [= <- _]]. by destruct (Sleep k) as [[]| | |].
  - intros k o j b k' o' Hr Hl Hn. unfold Lock_Acquire_loop. destruct (locked o && _); [|intros [= _ <- _]; apply rtc_refl].
    destruct (Sleep k) as [[b' k1]| | |] eqn:Hs; simpl; try done. intros [= _ <- _]. apply rtc_once. by apply (env_sleep j k b').
  - intros k o i C j k' o' [Hk Hi Hw _ _ _] Hr Hn Hd. unfold Lock_Release. destruct (negb _); [intros [= <- _]; apply rtc_refl|].
    simpl in *. pose proof (fun k1 => wake_off_env k (lk_queue o) i j k1 Hw Hd Hr Hn Hk Hi) as Hwk.
    destruct (q_remove (lk_queue o)) as [x q]. simpl in *. destruct (wake _ x) as [k1| | |]; simpl; try done. intros [= <- _]. by apply Hwk.
  - intros g C t1 t2 [_ _ _ Hl Hf _] H1 H2. simpl in *. destruct (locked (g_o g)); [|rewrite Hf in H1 by done; set_solver].
    destruct (Hl eq_refl) as (t & _ & ->). set_solver.
Defined.

(** ** Semaphores *)

#[export] Instance semaphore_mutex : Mutex Semaphore :=
  {| mx_new := Semaphore_new 1; mx_try := Semaphore_P_loop; mx_leave := Semaphore_V |}.

(** The threads inside are the calls of [P] that were not followed by [V] yet. *)
Definition guarded_sem (g : guarded Semaphore) (C : gset positive) : sem_sys :=
  mkSemSys (g_k g) (g_o g) (g_in g) (Z.of_nat (size C)) 0.

(** Only the difference of the counts matters. *)
Lemma sem_inv_shift k s i p v p' v' : sem_inv 1 (mkSemSys k s i p v) -> p - v = p' - v' -> 0 <= p' ->
  sem_inv 1 (mkSemSys k s i p' v').
Proof. intros [V1 V2 V3 V4 V5 V6 V7] Hd Hp. split; try done. simpl in *. lia. Qed.

Lemma sem_enters k s i C t : sem_inv 1 (mkSemSys k s i (Z.of_nat (size C) + 1) 0) -> sem_inv 1 (guarded_sem (mkGuarded k s i) ({[t]} ∪ C)).
Proof.
  intros Hinv. pose proof Hinv as [_ _ _ V4 V5 _ _]. simpl in *. assert (C = ∅) as -> by (apply leibniz_equiv, size_empty_iff; lia).
  unfold guarded_sem. rewrite union_empty_r_L, size_singleton. rewrite size_empty in Hinv. exact Hinv.
Qed.

Lemma sem_leaves k s i (C : gset positive) t : t ∈ C -> sem_inv 1 (mkSemSys k s i (Z.of_nat (size C)) 1) ->
  sem_inv 1 (guarded_sem (mkGuarded k s i) (C ∖ {[t]})).
Proof.
  intros Hin Hinv. assert (size C = S (size (C ∖ {[t]}))) as Hs.
  { rewrite size_difference by set_solver. rewrite size_singleton. assert (size C <> 0%nat); [|lia]. intros Hz%size_empty_iff. set_solver. }
  eapply sem_inv_shift; [exact Hinv| |]; simpl; lia.
Qed.

#[export] Instance semaphore_mutex_laws : MutexLaws Semaphore.
Proof.
  refine {| mx_inv := fun g C => sem_inv 1 (guarded_sem g C) |}; simpl.
  - intros k Hk Hi. apply (sem_reachable k 1 (guarded_sem (mkGuarded k (Semaphore_new 1) ∅) ∅) Hk Hi); [lia| |done]. unfold guarded_sem. rewrite size_empty. apply rtc_refl.
  - intros k o i C k' o' Hinv Hr Hn Ht. apply sem_enters. eapply sem_step_ok; [exact Hinv|by apply sem_P_done|done|done].
  - intros k o i C k' o' Hinv Hr Hn Ht. eapply sem_step_ok; [exact Hinv|by apply sem_P_wait|done|done].
  - intros k o i C k' o' old Hinv Hr Hn Ht. apply sem_enters. eapply sem_step_ok; [exact Hinv|by eapply sem_P_again_done|done|done].
  - intros k o i C k' o' old Hinv Hr Hn Ht. eapply sem_step_ok; [exact Hinv|by eapply sem_P_again_wait|done|done].
  - intros k o i C k' o' Hinv Hr Hn Hin Ht. apply sem_leaves; [done|]. eapply sem_step_ok; [exact Hinv|by apply sem_V|done|done].
  - intros k o i C k' Hinv He. eapply sem_step_ok; [exact Hinv|by apply sem_env|done|done].
  - intros g C [Hk Hi _ _ _ _ _]. by split.
  - intros g C [_ _ Hw _ _ _ _]. apply Hw.
  - intros k o k' o'. unfold Semaphore_P_loop. destruct (_ =? 0); [|by intros [= <- _]]. by destruct (Sleep k) as [[]| | |].
  - intros k o j b k' o' Hr Hl Hn. unfold Semaphore_P_loop. destruct (_ =? 0); [|intros [= _ <- _]; apply rtc_refl].
    destruct (Sleep k) as [[b' k1]| | |] eqn:Hs; simpl; try done. intros [= _ <- _]. apply rtc_once. by apply (env_sleep j k b').
  - intros k o i C j k' o' [Hk Hi Hw _ _ _ _] Hr Hn Hd. unfold Semaphore_V.
    simpl in *. pose proof (fun k1 => wake_off_env k (s_queue o) i j k1 Hw Hd Hr Hn Hk Hi) as Hwk.
    destruct (q_remove (s_queue o)) as [x q]. simpl in *. destruct (wake _ x) as [k1| | |]; simpl; try done. intros [= <- _]. by apply Hwk.
  - intros [k o i] C t1 t2 [_ _ _ V4 V5 _ _] H1 H2. simpl in *. destruct (decide (t1 = t2)) as [|Hne]; [done|].
    assert (2 <= size C)%nat; [|lia]. replace 2%nat with (size ({[t1]} ∪ {[t2]} : gset positive)) by (rewrite size_union, !size_singleton; [done|set_solver]).
    apply subseteq_size. set_solver.
Defined.

(** ** SimpleThread *)

(** Where a thread is in its loop; [n] iterations are done. *)
Inductive tpc :=
| Before (n : nat)        (* about to test [num < 5] and to call [Acquire] or [P] *)
| Waiting (n : nat)       (* inside it *)
| Sees (n : nat)          (* [val = SharedVariable] *)
| Saw (n : nat) (val : Z) (* the first [Yield] *)
| Writes (n : nat) (val : Z) (* [SharedVariable = val+1] *)
| Leaves (n : nat)        (* [Release] or [V] *)
| Left (n : nat).         (* the second [Yield] *)

Record test_state (O : Type) := mkTest { t_g : guarded O; SharedVariable : Z; t_pc : positive -> tpc }.
Arguments mkTest {O}. Arguments t_g {O}. Arguments SharedVariable {O}. Arguments t_pc {O}.

Definition goto (pc : positive -> tpc) (t : positive) (p : tpc) : positive -> tpc := fun u => if decide (u = t) then p else pc u.

(** What the running thread does in its loop, when it is one of the [threads] of the test. *)
Inductive simple_step {O} `{Mutex O} (threads : list positive) : test_state O -> test_state O -> Prop :=
| test_acquired k o i sh pc n k' o' :
    running k -> currentThread k ∈ threads -> pc (currentThread k) = Before n -> (n < 5)%nat ->
    mx_try (with_klevel k IntOff) o = Ok (true, k', o') ->
    simple_step threads (mkTest (mkGuarded k o i) sh pc)
      (mkTest (mkGuarded (with_klevel k' (k_level k)) o' i) sh (goto pc (currentThread k) (Sees n)))
| test_waits k o i sh pc n k' o' :
    running k -> currentThread k ∈ threads -> pc (currentThread k) = Before n -> (n < 5)%nat ->
    mx_try (with_klevel k IntOff) o = Ok (false, k', o') ->
    simple_step threads (mkTest (mkGuarded k o i) sh pc)
      (mkTest (mkGuarded k' o' (<[currentThread k := k_level k]> i)) sh (goto pc (currentThread k) (Waiting n)))
| test_again_acquired k o i sh pc n k' o' old :
    running k -> currentThread k ∈ threads -> pc (currentThread k) = Waiting n -> i !! currentThread k = Some old ->
    mx_try k o = Ok (true, k', o') ->
    simple_step threads (mkTest (mkGuarded k o i) sh pc)
      (mkTest (mkGuarded (with_klevel k' old) o' (delete (currentThread k) i)) sh (goto pc (currentThread k) (Sees n)))
| test_again_waits k o i sh pc n k' o' old :
    running k -> currentThread k ∈ threads -> pc (currentThread k) = Waiting n -> i !! currentThread k = Some old ->
    mx_try k o = Ok (false, k', o') ->
    simple_step threads (mkTest (mkGuarded k o i) sh pc) (mkTest (mkGuarded k' o' i) sh pc)
| test_sees k o i sh pc n :
    running k -> currentThread k ∈ threads -> pc (currentThread k) = Sees n ->
    simple_step threads (mkTest (mkGuarded k o i) sh pc) (mkTest (mkGuarded k o i) sh (goto pc (currentThread k) (Saw n sh)))
| test_yields k o i sh pc n val k' :
    running k -> currentThread k ∈ threads -> pc (currentThread k) = Saw n val -> Yield k = Ok k' ->
    simple_step threads (mkTest (mkGuarded k o i) sh pc) (mkTest (mkGuarded k' o i) sh (goto pc (currentThread k) (Writes n val)))
| test_stores k o i sh pc n val :
    running k -> currentThread k ∈ threads -> pc (currentThread k) = Writes n val ->
    simple_step threads (mkTest (mkGuarded k o i) sh pc) (mkTest (mkGuarded k o i) (s32 (val + 1)) (goto pc (currentThread k) (Leaves n)))
| test_leaves k o i sh pc n k' o' :
    running k -> currentThread k ∈ threads -> pc (currentThread k) = Leaves n -> mx_leave k o = Ok (k', o') ->
    simple_step threads (mkTest (mkGuarded k o i) sh pc) (mkTest (mkGuarded k' o' i) sh (goto pc (currentThread k) (Left n)))
| test_yields_again k o i sh pc n k' :
    running k -> currentThread k ∈ threads -> pc (currentThread k) = Left n -> Yield k = Ok k' ->
    simple_step threads (mkTest (mkGuarded k o i) sh pc) (mkTest (mkGuarded k' o i) sh (goto pc (currentThread k) (Before (S n)))).

(** The [threads] run [SimpleThread]; in between the kernel and all other threads do what they
    like, and a thread can lose the CPU at any time. *)
Inductive test_step {O} `{Mutex O} (threads : list positive) : test_state O -> test_state O -> Prop :=
| test_simple st st' : simple_step threads st st' -> test_step threads st st'
| test_env k o i sh pc k' :
    env_step i k k' -> test_step threads (mkTest (mkGuarded k o i) sh pc) (mkTest (mkGuarded k' o i) sh pc).

Definition test_start {O} `{Mutex O} (k : kstate) : test_state O := mkTest (mkGuarded k mx_new ∅) 0 (fun _ => Before 0).

(** ** The invariant *)

Definition count (p : tpc) : Z :=
  match p with
  | Before n | Waiting n | Sees n | Saw n _ | Writes n _ => Z.of_nat n
  | Leaves n | Left n => Z.of_nat n + 1
  end.
Definition inside (p : tpc) : bool := match p with Sees _ | Saw _ _ | Writes _ _ | Leaves _ => true | _ => false end.
Definition waiting (p : tpc) : bool := match p with Waiting _ => true | _ => false end.
Definition seen (p : tpc) : option Z := match p with Saw _ v | Writes _ v => Some v | _ => None end.
Definition in_loop (p : tpc) : Prop :=
  match p with
  | Before n => (n <= 5)%nat
  | Waiting n | Sees n | Saw n _ | Writes n _ | Leaves n | Left n => (n < 5)%nat
  end.

(** The increments that are done. *)
Definition total (threads : list positive) (pc : positive -> tpc) : Z := foldr (fun t z => count (pc t) + z) 0 threads.

Lemma goto_here pc t p : goto pc t p t = p.
Proof. unfold goto. by rewrite decide_True. Qed.
Lemma goto_other pc t p u : u <> t -> goto pc t p u = pc u.
Proof. intros Hn. unfold goto. by rewrite decide_False. Qed.

Lemma total_other threads pc t p : ~ (t ∈ threads) -> total threads (goto pc t p) = total threads pc.
Proof.
  induction threads as [|u threads IH]; intros Hn; [done|]. apply not_elem_of_cons in Hn as [Hne Hn].
  change (total (u :: threads) (goto pc t p)) with (count (goto pc t p u) + total threads (goto pc t p)).
  by rewrite goto_other, IH.
Qed.

Lemma total_goto threads pc t p : NoDup threads -> t ∈ threads ->
  total threads (goto pc t p) = total threads pc - count (pc t) + count p.
Proof.
  induction 1 as [|u threads Hn Hnd IH]; intros Hin; [by apply elem_of_nil in Hin|].
  change (total (u :: threads) ?f) with (count (f u) + total threads f).
  apply elem_of_cons in Hin as [->|Hin]; [rewrite goto_here, total_other by done; lia|].
  rewrite goto_other by (intros ->; done). rewrite IH by done. lia.
Qed.

Lemma total_bound threads pc : (forall t, t ∈ threads -> in_loop (pc t)) -> 0 <= total threads pc <= 5 * Z.of_nat (length threads).
Proof.
  induction threads as [|t threads IH]; intros Hl; [simpl; lia|].
  change (total (t :: threads) pc) with (count (pc t) + total threads pc).
  destruct IH as [I1 I2]; [intros u Hu; apply Hl; by right|]. assert (in_loop (pc t)) as Ht by (apply Hl; by left).
  rewrite length_cons. destruct (pc t); simpl in *; lia.
Qed.

Section simple.
Context {O : Type} `{MutexLaws O} (threads : list positive).
Hypothesis Hnd : NoDup threads.
Hypothesis Hmany : 5 * Z.of_nat (length threads) < two31.

Record test_inv (st : test_state O) : Prop := {
  ti_mutex : exists C, mx_inv (t_g st) C /\ forall t, t ∈ C <-> t ∈ threads /\ inside (t_pc st t) = true;
  ti_waiting t : t ∈ dom (g_in (t_g st)) <-> t ∈ threads /\ waiting (t_pc st t) = true;
  ti_total : SharedVariable st = total threads (t_pc st);
  ti_seen t v : t ∈ threads -> seen (t_pc st t) = Some v -> v = SharedVariable st;
  ti_loop t : t ∈ threads -> in_loop (t_pc st t) }.

(** The thread [t] goes to [p]. *)
Lemma test_goto g g' sh sh' pc t p C : test_inv (mkTest g sh pc) -> t ∈ threads -> mx_inv g' C ->
  (forall u, u ∈ C <-> if decide (u = t) then inside p = true else u ∈ threads /\ inside (pc u) = true) ->
  (forall u, u ∈ dom (g_in g') <-> if decide (u = t) then waiting p = true else u ∈ dom (g_in g)) ->
  sh' = sh - count (pc t) + count p -> (forall v, seen p = Some v -> v = sh') ->
  (sh' = sh \/ forall u, u ∈ threads -> u <> t -> seen (pc u) = None) -> in_loop p ->
  test_inv (mkTest g' sh' (goto pc t p)).
Proof.
  intros [_ I2 I3 I4 I5] Ht HC Hin Hwait Hsh Hseen Hold Hl. simpl in *. split; simpl.
  - exists C. split; [done|]. intros u. rewrite Hin. destruct (decide (u = t)) as [->|Hne]; [rewrite goto_here; tauto|by rewrite goto_other].
  - intros u. rewrite Hwait. destruct (decide (u = t)) as [->|Hne]; [rewrite goto_here; tauto|]. rewrite goto_other by done. apply I2.
  - rewrite total_goto by done. lia.
  - intros u v Hu. destruct (decide (u = t)) as [->|Hne]; [rewrite goto_here; apply Hseen|]. rewrite goto_other by done. intros Hs.
    destruct Hold as [-> |Hnone]; [by apply (I4 u)|]. by rewrite Hnone in Hs.
  - intros u Hu. destruct (decide (u = t)) as [->|Hne]; [by rewrite goto_here|]. rewrite goto_other by done. by apply I5.
Qed.

(** Going from one place inside, or outside, to another one. *)
Lemma test_moves g g' sh pc t p C : test_inv (mkTest g sh pc) -> t ∈ threads -> g_in g' = g_in g -> mx_inv g' C ->
  (forall u, u ∈ C <-> u ∈ threads /\ inside (pc u) = true) -> inside p = inside (pc t) -> waiting p = waiting (pc t) ->
  count p = count (pc t) -> (forall v, seen p = Some v -> v = sh) -> in_loop p -> test_inv (mkTest g' sh (goto pc t p)).
Proof.
  intros Hinv Ht Hg HC Hin Hi Hw Hc Hs Hl. apply (test_goto g g' sh sh pc t p C); try done; [| |lia|by left].
  - intros u. rewrite Hin. destruct (decide (u = t)) as [->|]; [rewrite Hi; tauto|done].
  - intros u. rewrite Hg. destruct (decide (u = t)) as [->|]; [|done]. rewrite (ti_waiting _ Hinv t). simpl. rewrite Hw. tauto.
Qed.

Lemma seen_inside p v : seen p = Some v -> inside p = true.
Proof. by destruct p. Qed.

(** A thread that is not waiting can give up the CPU. *)
Lemma test_yield_ok k o i sh pc k' C : test_inv (mkTest (mkGuarded k o i) sh pc) -> running k -> waiting (pc (currentThread k)) = false ->
  Yield k = Ok k' -> mx_inv (mkGuarded k o i) C -> mx_inv (mkGuarded k' o i) C.
Proof.
  intros Hinv Hr Hw Hy HC. apply (mx_env k); [done|]. apply env_yield; [done| |done]. rewrite (ti_waiting _ Hinv). simpl. by intros [_ ?]; congruence.
Qed.

(** Nobody else is inside. *)
Lemma alone st C t u : mx_inv (t_g st) C -> (forall t, t ∈ C <-> t ∈ threads /\ inside (t_pc st t) = true) ->
  t ∈ threads -> inside (t_pc st t) = true -> u ∈ threads -> u <> t -> seen (t_pc st u) = None.
Proof.
  intros HC Hin Ht Hi Hu Hne. destruct (seen (t_pc st u)) as [v|] eqn:Hs; [|done]. exfalso. apply Hne.
  apply (mx_excl (t_g st) C); [done|..]; apply Hin; (split; [done|]); [by eapply seen_inside|done].
Qed.

(** The store of a thread that has seen the variable. *)
Lemma test_store_ok k o i sh pc n val C : test_inv (mkTest (mkGuarded k o i) sh pc) -> mx_inv (mkGuarded k o i) C ->
  (forall t, t ∈ C <-> t ∈ threads /\ inside (pc t) = true) -> currentThread k ∈ threads -> pc (currentThread k) = Writes n val ->
  test_inv (mkTest (mkGuarded k o i) (s32 (val + 1)) (goto pc (currentThread k) (Leaves n))).
Proof.
  intros Hinv HC Hin Ht Hpc. pose proof Hinv as [_ I2 I3 I4 I5]. simpl in *.
  pose proof (I5 _ Ht) as Hloop. pose proof (I2 (currentThread k)) as Hcur. rewrite Hpc in Hloop, Hcur. simpl in Hloop, Hcur.
  assert (val = sh) as -> by (apply (I4 (currentThread k)); [done|by rewrite Hpc]).
  destruct (total_bound threads (goto pc (currentThread k) (Leaves n))) as [_ Hb].
  { intros u Hu. destruct (decide (u = currentThread k)) as [->|]; [by rewrite goto_here|rewrite goto_other by done; by apply I5]. }
  rewrite total_goto, <- I3, Hpc in Hb by done. simpl in Hb. destruct (total_bound threads pc I5) as [Hb0 _]. rewrite <- I3 in Hb0.
  rewrite s32_small by (unfold is_s32, two31 in *; lia).
  apply (test_goto (mkGuarded k o i) _ sh (sh + 1) pc _ _ C); try done.
  - intros u. rewrite Hin. destruct (decide (u = currentThread k)) as [->|]; [rewrite Hpc; simpl; tauto|done].
  - intros u. destruct (decide (u = currentThread k)) as [->|]; [|done]. split; [by intros [_ ?]%Hcur|done].
  - rewrite Hpc. simpl. lia.
  - right. intros u Hu Hne. apply (alone (mkTest (mkGuarded k o i) sh pc) C (currentThread k) u); try done. simpl. by rewrite Hpc.
Qed.

Lemma simple_step_ok st st' : test_inv st -> simple_step threads st st' -> test_inv st'.
Proof.
  intros Hinv Hstep. pose proof Hinv as [(C & HC & Hin) I2 I3 I4 I5].
  destruct Hstep as [k o i sh pc n k' o' Hr Ht Hpc Hn Htry|k o i sh pc n k' o' Hr Ht Hpc Hn Htry|k o i sh pc n k' o' old Hr Ht Hpc Hold Htry
    |k o i sh pc n k' o' old Hr Ht Hpc Hold Htry|k o i sh pc n Hr Ht Hpc|k o i sh pc n val k' Hr Ht Hpc Hy|k o i sh pc n val Hr Ht Hpc
    |k o i sh pc n k' o' Hr Ht Hpc Hl|k o i sh pc n k' Hr Ht Hpc Hy]; simpl in *;
    pose proof (I5 _ Ht) as Hloop; pose proof (I2 (currentThread k)) as Hcur; rewrite Hpc in Hloop, Hcur; simpl in Hloop, Hcur.
  - apply (test_goto (mkGuarded k o i) _ sh sh pc _ _ ({[currentThread k]} ∪ C)); try done; try (by left).
    + apply (mx_enter k o); [done|done|by intros [_ ?]%Hcur|done].
    + intros u. rewrite elem_of_union, elem_of_singleton, Hin. destruct (decide (u = currentThread k)); tauto.
    + intros u. simpl. destruct (decide (u = currentThread k)) as [->|]; [|done]. split; [by intros [_ ?]%Hcur|done].
    + rewrite Hpc. simpl. lia.
  - apply (test_goto (mkGuarded k o i) _ sh sh pc _ _ C); try done; try (by left).
    + apply (mx_block k o); [done|done|by intros [_ ?]%Hcur|done].
    + intros u. rewrite Hin. destruct (decide (u = currentThread k)) as [->|]; [rewrite Hpc; simpl; split; [tauto|done]|done].
    + intros u. simpl. rewrite dom_insert_L, elem_of_union, elem_of_singleton. destruct (decide (u = currentThread k)); tauto.
    + rewrite Hpc. simpl. lia.
  - apply (test_goto (mkGuarded k o i) _ sh sh pc _ _ ({[currentThread k]} ∪ C)); try done; try (by left).
    + by apply (mx_enter_late k o).
    + intros u. rewrite elem_of_union, elem_of_singleton, Hin. destruct (decide (u = currentThread k)); tauto.
    + intros u. simpl. rewrite dom_delete_L, elem_of_difference, elem_of_singleton. destruct (decide (u = currentThread k)); [split; [tauto|done]|tauto].
    + rewrite Hpc. simpl. lia.
  - split; try done. exists C. split; [by apply (mx_block_again k o i C k' o' old)|done].
  - apply (test_moves (mkGuarded k o i) _ sh pc _ _ C); try done; try (by rewrite Hpc). simpl. congruence.
  - apply (test_moves (mkGuarded k o i) _ sh pc _ _ C); try done; try (by rewrite Hpc).
    + by eapply test_yield_ok; [exact Hinv|done|rewrite Hpc|done|].
    + intros v [= <-]. apply (I4 (currentThread k)); [done|by rewrite Hpc].
  - by apply (test_store_ok k o i sh pc n val C).
  - apply (test_goto (mkGuarded k o i) _ sh sh pc _ _ (C ∖ {[currentThread k]})); try done; try (by left).
    + apply (mx_exit k o); [done|done|by intros [_ ?]%Hcur|apply Hin; by rewrite Hpc|done].
    + intros u. rewrite elem_of_difference, elem_of_singleton, Hin. destruct (decide (u = currentThread k)); [split; [tauto|done]|tauto].
    + intros u. destruct (decide (u = currentThread k)) as [->|]; [|done]. split; [by intros [_ ?]%Hcur|done].
    + rewrite Hpc. simpl. lia.
  - apply (test_moves (mkGuarded k o i) _ sh pc _ _ C); try done; try (by rewrite Hpc).
    + by eapply test_yield_ok; [exact Hinv|done|rewrite Hpc|done|].
    + rewrite Hpc. simpl. lia.
Qed.

(** The rest of the kernel. *)
Lemma test_env_ok k k' o i sh pc : test_inv (mkTest (mkGuarded k o i) sh pc) -> rtc (env_step i) k k' ->
  test_inv (mkTest (mkGuarded k' o i) sh pc).
Proof.
  intros Hinv Hr. revert Hinv. induction Hr as [|k k1 k2 He _ IH]; [done|]. intros [(C & HC & Hin) I2 I3 I4 I5]. apply IH.
  split; try done. exists C. split; [by eapply mx_env|done].
Qed.

Lemma test_step_ok st st' : test_inv st -> test_step threads st st' -> test_inv st'.
Proof. intros Hinv Hstep. destruct Hstep as [st st' Hs|k o i sh pc k' He]; [by eapply simple_step_ok|]. eapply test_env_ok; [done|by apply rtc_once]. Qed.

Lemma test_reachable k st : kernel_ok k -> idle_off k -> rtc (test_step threads) (test_start k) st -> test_inv st.
Proof.
  intros Hk Hi Hr. apply (rtc_ind_r (R := test_step threads) test_inv (test_start k)); [| |exact Hr].
  - split; simpl; try done.
    + exists ∅. split; [by apply mx_start|]. intros t. split; [set_solver|]. by intros [_ ?].
    + intros t. rewrite dom_empty_L. split; [set_solver|]. by intros [_ ?].
    + clear. induction threads as [|t l IH]; [done|]. simpl. rewrite <- IH. done.
    + intros t _. lia.
  - intros y1 y2 _ Hs IH. by eapply test_step_ok.
Qed.
End simple.

(** ** Without synchronization *)

(** [SimpleThread] of the build with neither locks nor semaphores: [val = SharedVariable; Yield(); SharedVariable = val+1; Yield();].
    A step is what the running thread does up to a [Yield]. *)
Inductive plain := Reads (n : nat) | Stores (n : nat) (val : Z).
Record plain_state := mkPlain { p_k : kstate; p_sh : Z; p_pc : positive -> plain }.

Definition plain_step (st : plain_state) : outcome plain_state :=
  let t := currentThread (p_k st) in
  let jump p := fun u => if decide (u = t) then p else p_pc st u in
  match p_pc st t with
  | Reads n => if (n <? 5)%nat then k ← Yield (p_k st); Ok (mkPlain k (p_sh st) (jump (Stores n (p_sh st)))) else Ok st
  | Stores n val => k ← Yield (p_k st); Ok (mkPlain k (s32 (val + 1)) (jump (Reads (S n))))
  end.

Fixpoint plain_run (fuel : nat) (st : plain_state) : outcome plain_state :=
  match fuel with O => Ok st | S fuel => st ← plain_step st; plain_run fuel st end.

(** ** Properties *)

(** The threads of the test never lose an increment. [threads] run [SimpleThread] with a lock or with a semaphore of value 1,
    on the same kernel as other threads, and the kernel switches between them in any way, at any point: in every
    state that can be reached the shared variable is the number of increments that were done, no two
    threads are between [Acquire] and [Release], a value that a thread has read and not
    stored back yet is current, and when all have done their five iterations the variable is five
    times their number. *)
Theorem simple_threads_total {O} `{MutexLaws O} threads k (st : test_state O) :
  NoDup threads -> 5 * Z.of_nat (length threads) < two31 -> kernel_ok k -> idle_off k ->
  rtc (test_step threads) (test_start k) st ->
  SharedVariable st = total threads (t_pc st) /\
  (forall t u, t ∈ threads -> u ∈ threads -> inside (t_pc st t) = true -> inside (t_pc st u) = true -> t = u) /\
  (forall t val, t ∈ threads -> seen (t_pc st t) = Some val -> val = SharedVariable st) /\
  ((forall t, t ∈ threads -> t_pc st t = Before 5) -> SharedVariable st = 5 * Z.of_nat (length threads)).
Proof.
  intros Hnd Hmany Hk Hi Hr. destruct (test_reachable threads Hnd Hmany k st Hk Hi Hr) as [(C & HC & Hin) I2 I3 I4 I5].
  split; [done|]. split; [|split; [done|]].
  - intros t u Ht Hu Hit Hiu. apply (mx_excl (t_g st) C); [done|by apply Hin..].
  - intros Hall. rewrite I3. clear -Hall. induction threads as [|t l IH]; [done|].
    change (total (t :: l) (t_pc st)) with (count (t_pc st t) + total l (t_pc st)). rewrite IH by (intros u Hu; apply Hall; by right).
    rewrite Hall by (by left). rewrite length_cons. simpl count. lia.
Qed.

Lemma simple_threads_total_witness :
  exists st : test_state Lock, rtc (@test_step _ (lock_mutex None) [1%positive; 2%positive; 3%positive]) (@test_start _ (lock_mutex None) demo_kernel) st /\
    t_pc st 1%positive = Saw 0 0 /\ SharedVariable st = 0.
Proof.
  set (st := mkTest (mkGuarded (with_klevel demo_held.1 IntOff) demo_held.2 ∅) 0 (goto (goto (fun _ => Before 0) 1%positive (Sees 0)) 1%positive (Saw 0 0))).
  assert (rtc (@test_step _ (lock_mutex None) [1%positive; 2%positive; 3%positive]) (@test_start _ (lock_mutex None) demo_kernel) st) as Hr.
  { eapply rtc_l.
    - apply test_simple, (test_acquired _ demo_kernel (Lock_new None) ∅ 0 (fun _ => Before 0) 0 demo_held.1 demo_held.2);
        [reflexivity|left|reflexivity|lia|vm_compute; reflexivity].
    - apply rtc_once, test_simple. apply (test_sees _ (with_klevel demo_held.1 IntOff)); [vm_compute; reflexivity|left|reflexivity]. }
  exists st. split; [exact Hr|]. split; [reflexivity|].
  destruct (@simple_threads_total Lock (lock_mutex None) (lock_mutex_laws None) [1%positive; 2%positive; 3%positive] demo_kernel st) as (Ht & _).
  - apply (bool_decide_unpack _). vm_compute. exact I.
  - reflexivity.
  - exact demo_kernel_ok.
  - intros _. reflexivity.
  - exact Hr.
  - rewrite Ht. reflexivity.
Defined.

(** Three threads without synchronization, which take turns at every [Yield]: all have done their five
    iterations, and the variable is 5, not 15. *)
Theorem lost_updates :
  match plain_run 30 (mkPlain demo_kernel 0 (fun _ => Reads 0)) with
  | Ok st => p_sh st = 5 /\ Forall (fun t => p_pc st t = Reads 5) [1%positive; 2%positive; 3%positive]
  | _ => False
  end.
Proof. vm_compute. split; [reflexivity|repeat constructor]. Qed.
