(* ===== verification/BarrierTest.v ===== *)
(** * threads/threadtest.cc: the barrier at the end of SimpleThread, and the test of conditions

    After its loop (ThreadTest.v) every thread of the test calls [barrier->block()], prints the shared
    variable and calls [block] again, so that each sees the final value. [block_step] composes the lock or the
    semaphore of the loop with the barrier of Synch.v on one kernel: what a thread does with one object is,
    for the threads that wait for the other one, a step of the rest of the kernel. The last part runs
    [ThreadTest1] of the build with condition variables. *)

From stdpp Require Import prelude numbers gmap list sets relations.
From S2P Require Import Prelude Params CList Interrupt Threads Synch ThreadTest.

Open Scope Z_scope.

(** ** The end of SimpleThread *)

(** Where a thread is: in the loop, inside call [n] (0 or 1) of [block], or between the calls. *)
Inductive phase :=
| Loops
| Blocked (n : nat)
| Reads_final          (* [val = SharedVariable] *)
| Prints (val : Z)     (* [printf] *)
| Printed              (* about to call [block] again *)
| Ends.

(** The place after call [n]. *)
Definition after_block (n : nat) : phase := match n with O => Reads_final | _ => Ends end.

(** [bt_in] are the threads inside [block], with the interrupt level they have to restore; [bt_out] are the
    lines "sees final value". *)
Record barrier_test (O : Type) := mkBT {
  bt_t : test_state O; bt_b : Barrier; bt_in : gmap positive IntStatus; bt_ph : positive -> phase; bt_out : list (positive * Z) }.
Arguments mkBT {O}. Arguments bt_t {O}. Arguments bt_b {O}. Arguments bt_in {O}. Arguments bt_ph {O}. Arguments bt_out {O}.

Definition bt_k {O} (st : barrier_test O) : kstate := g_k (t_g (bt_t st)).
Definition turn (ph : positive -> phase) (t : positive) (p : phase) : positive -> phase := fun u => if decide (u = t) then p else ph u.

(** The thread is about to make call [n]: the loop is over, or the value is printed. *)
Definition calls_block (ph : phase) (pc : tpc) (n : nat) : Prop :=
  match n with O => ph = Loops /\ pc = Before 5 | S O => ph = Printed | _ => False end.

Inductive block_step {O} `{Mutex O} (threads : list positive) : barrier_test O -> barrier_test O -> Prop :=
| bt_loop t t' b bin ph out :
    ph (currentThread (g_k (t_g t))) = Loops -> simple_step threads t t' ->
    block_step threads (mkBT t b bin ph out) (mkBT t' b bin ph out)
| bt_last k o i sh pc b bin ph out n k' b' :
    running k -> currentThread k ∈ threads -> calls_block (ph (currentThread k)) (pc (currentThread k)) n ->
    Barrier_block k b = Ok (true, k', b') ->
    block_step threads (mkBT (mkTest (mkGuarded k o i) sh pc) b bin ph out)
      (mkBT (mkTest (mkGuarded k' o i) sh pc) b' bin (turn ph (currentThread k) (after_block n)) out)
| bt_sleep k o i sh pc b bin ph out n k' b' :
    running k -> currentThread k ∈ threads -> calls_block (ph (currentThread k)) (pc (currentThread k)) n ->
    Barrier_block k b = Ok (false, k', b') ->
    block_step threads (mkBT (mkTest (mkGuarded k o i) sh pc) b bin ph out)
      (mkBT (mkTest (mkGuarded k' o i) sh pc) b' (<[currentThread k := k_level k]> bin) (turn ph (currentThread k) (Blocked n)) out)
| bt_wakes k o i sh pc b bin ph out n old :
    (* [Sleep] returns, and [SetLevel(oldLevel)] is all that is left of [block] *)
    running k -> currentThread k ∈ threads -> ph (currentThread k) = Blocked n -> bin !! currentThread k = Some old ->
    block_step threads (mkBT (mkTest (mkGuarded k o i) sh pc) b bin ph out)
      (mkBT (mkTest (mkGuarded (with_klevel k old) o i) sh pc) b (delete (currentThread k) bin) (turn ph (currentThread k) (after_block n)) out)
| bt_reads k o i sh pc b bin ph out :
    running k -> currentThread k ∈ threads -> ph (currentThread k) = Reads_final ->
    block_step threads (mkBT (mkTest (mkGuarded k o i) sh pc) b bin ph out)
      (mkBT (mkTest (mkGuarded k o i) sh pc) b bin (turn ph (currentThread k) (Prints sh)) out)
| bt_prints k o i sh pc b bin ph out val :
    running k -> currentThread k ∈ threads -> ph (currentThread k) = Prints val ->
    block_step threads (mkBT (mkTest (mkGuarded k o i) sh pc) b bin ph out)
      (mkBT (mkTest (mkGuarded k o i) sh pc) b bin (turn ph (currentThread k) Printed) (out ++ [(currentThread k, val)]))
| bt_env k o i sh pc b bin ph out k' :
    env_step (i ∪ bin) k k' ->
    block_step threads (mkBT (mkTest (mkGuarded k o i) sh pc) b bin ph out) (mkBT (mkTest (mkGuarded k' o i) sh pc) b bin ph out).

(** [barrier = new Barrier("b", n+1)], for [n] forked threads and the one that forks them. *)
Definition block_start {O} `{Mutex O} (threads : list positive) (k : kstate) : barrier_test O :=
  mkBT (test_start k) (Barrier_new (Z.of_nat (length threads))) ∅ (fun _ => Loops) [].

(** ** Several objects on one kernel *)

Lemma env_fewer i j k k' : dom j ⊆ dom i -> env_step i k k' -> env_step j k k'.
Proof.
  intros Hd Hs. destruct Hs as [k' Hr Hn Hy|b k' Hr Hn Hl Hs|t k' Hw Hn Hr|b k' Hr Hn Hf|g|t k' Ht Hf|b k' Hr Hs|l Hr Hn|regs pt].
  - apply env_yield; [done|set_solver|done].
  - eapply env_sleep; [done|set_solver|done|done].
  - eapply env_wake; [done|set_solver|done].
  - eapply env_finish; [done|set_solver|done].
  - apply env_new.
  - by eapply env_fork.
  - by eapply env_idle.
  - apply env_level; [done|set_solver].
  - apply env_cpu.
Qed.

Lemma env_steps_ok i k k' q : kernel_ok k -> idle_off k -> waiters_ok k q i -> rtc (env_step i) k k' -> waiters_ok k' q i.
Proof.
  intros Hk Hi Hw Hr. induction Hr as [|k k1 k2 He _ IH]; [done|]. destruct (env_step_ok i k k1 q Hk Hi Hw He) as (? & ? & ?). auto.
Qed.

(** The releases of [block], as the threads of the barrier and those of another object see them. *)
Lemma release_waiters q j i : dom j ## dom i -> forall k, kernel_ok k -> idle_off k -> waiters_ok k q j -> running k ->
  exists k', release_loop (S (length q)) k q = Ok (k', []) /\ waiters_ok k' [] j /\ running k' /\
    currentThread k' = currentThread k /\ k_level k' = k_level k /\ rtc (env_step i) k k'.
Proof.
  intros Hd. induction q as [|[z t] q IH]; intros k Hk Hi Hw Hr; cbn [release_loop length q_remove wake].
  { exists k. by split_and!. }
  pose proof (wake_env k ((z, t) :: q) j i) as He.
  destruct (waiters_wake k z t q j Hk Hi Hw) as (k1 & Hr1 & Hk1 & Hw1 & Hi1 & Hc & Hl & Hst). simpl in He. rewrite Hr1 in *.
  destruct (IH k1 Hk1 Hi1 Hw1) as (k' & Hw' & ? & ? & Hc' & Hl' & Hs); [unfold running; rewrite Hc; by apply Hst|].
  exists k'. cbn [release_loop] in Hw'. cbn [mbind outcome_bind]. rewrite Hw'. split_and!; try done; [congruence..|].
  etrans; [by apply He|done].
Qed.

(** [block] for the threads of the barrier ([j]) and for those of another object ([i]). *)
Lemma block_waiters k b j i : kernel_ok k -> idle_off k -> waiters_ok k (b_queue b) j -> running k ->
  blockCount b = Z.of_nat (length (b_queue b)) -> blockCount b < blockUntil b -> blockUntil b < two31 ->
  currentThread k ∉ dom j -> currentThread k ∉ dom i -> dom j ## dom i ->
  if blockCount b + 1 =? blockUntil b then
    exists k', Barrier_block k b = Ok (true, k', mkBarrier [] (blockUntil b) 0) /\ waiters_ok k' [] j /\ rtc (env_step i) k k'
  else
    exists k', Barrier_block k b = Ok (false, k', mkBarrier (q_append (currentThread k) (b_queue b)) (blockUntil b) (blockCount b + 1)) /\
      waiters_ok k' (q_append (currentThread k) (b_queue b)) (<[currentThread k := k_level k]> j) /\ rtc (env_step i) k k'.
Proof.
  intros Hk Hi Hw Hr Hc Hb Hu Hnj Hni Hd. unfold Barrier_block. rewrite s32_small by (unfold is_s32, two31 in *; lia).
  assert (env_step i k (with_klevel k IntOff)) as He by (by apply env_level).
  destruct (Z.eqb_spec (blockCount b + 1) (blockUntil b)) as [Heq|Hne].
  - destruct (Z.leb_spec (blockUntil b) (blockCount b + 1)); [|lia]. replace (Z.to_nat (blockCount b + 1)) with (S (length (b_queue b))) by lia.
    destruct (release_waiters (b_queue b) j i Hd (with_klevel k IntOff)) as (k' & Hl & Hw' & Hr' & Hcur & Hlev & Hs);
      [done|done|by apply waiters_level|done|]. rewrite Hl. simpl. rewrite Z.min_r by lia. eexists. split; [done|]. split.
    + apply waiters_level; [done|]. rewrite Hcur. by intros ?%Hnj.
    + eapply rtc_l; [exact He|]. eapply rtc_r; [exact Hs|]. apply env_level; [done|by rewrite Hcur].
  - destruct (Z.leb_spec (blockUntil b) (blockCount b + 1)); [lia|].
    destruct (waiters_sleep (with_klevel k IntOff) (b_queue b) j (k_level k)) as (b0 & k' & Hs & _ & _ & Hw'); [done|by apply waiters_level|done|done|].
    simpl in Hs, Hw'. simpl. rewrite Hs. simpl. eexists. split; [done|]. split; [done|].
    eapply rtc_l; [exact He|]. apply rtc_once. by eapply env_sleep.
Qed.

(** ** The invariant *)

(** The calls of [block] that are over, for a thread that is not asleep at the barrier. *)
Definition stage (p : phase) : nat :=
  match p with Loops => 0 | Blocked n => S n | Reads_final | Prints _ | Printed => 1 | Ends => 2 end.
Definition blocking (p : phase) : bool := match p with Blocked _ => true | _ => false end.
Definition has_printed (p : phase) : bool := match p with Printed | Blocked 1 | Ends => true | _ => false end.

(** Past the first barrier. *)
Definition passed (p : phase) : bool := match p with Loops | Blocked 0 => false | _ => true end.

Lemma turn_here ph t p : turn ph t p t = p.
Proof. unfold turn. by rewrite decide_True. Qed.
Lemma turn_other ph t p u : u <> t -> turn ph t p u = ph u.
Proof. intros Hn. unfold turn. by rewrite decide_False. Qed.

Lemma total_done threads pc : (forall t, t ∈ threads -> pc t = Before 5) -> total threads pc = 5 * Z.of_nat (length threads).
Proof.
  intros Hall. induction threads as [|t l IH]; [done|].
  change (total (t :: l) pc) with (count (pc t) + total l pc). rewrite IH by (intros u Hu; apply Hall; by right).
  rewrite Hall by (by left). rewrite length_cons. simpl count. lia.
Qed.

(** A list of [n - 1] of the [n] threads, and the one that is left. *)
Lemma last_thread (q threads : list positive) t u : NoDup q -> (forall x, x ∈ q -> x ∈ threads) -> ~ (t ∈ q) -> t ∈ threads ->
  length threads = S (length q) -> u ∈ threads -> u ∈ q \/ u = t.
Proof.
  intros Hnd Hsub Hnt Ht Hlen Hu. destruct (decide (u = t)) as [|Hne]; [by right|]. destruct (decide (u ∈ q)) as [|Hnu]; [by left|].
  assert (NoDup (u :: t :: q)) as Hnd' by (repeat constructor; set_solver).
  assert (length (u :: t :: q) <= length threads)%nat as Hle; [|simpl in Hle; lia].
  apply submseteq_length, NoDup_submseteq; [done|]. intros x. set_solver.
Qed.

Section barrier.
Context {O : Type} `{MutexLaws O} (threads : list positive).
Hypothesis Hnd : NoDup threads.
Hypothesis Hmany : 5 * Z.of_nat (length threads) < two31.
Abbreviation finalv := (5 * Z.of_nat (length threads)).

(** All threads are at the same side of a barrier: in round [r] those asleep are inside call [r], and for the
    others [r] calls are over. *)
Record block_inv (st : barrier_test O) : Prop := {
  bi_test : test_inv threads (bt_t st);
  bi_waiters : waiters_ok (bt_k st) (b_queue (bt_b st)) (bt_in st);
  bi_until : blockUntil (bt_b st) = Z.of_nat (length threads);
  bi_count : blockCount (bt_b st) = Z.of_nat (length (b_queue (bt_b st)));
  bi_below : blockCount (bt_b st) < blockUntil (bt_b st);
  bi_in t : t ∈ dom (bt_in st) <-> t ∈ threads /\ blocking (bt_ph st t) = true;
  bi_loop t : t ∈ threads -> bt_ph st t <> Loops -> t_pc (bt_t st) t = Before 5;
  bi_round : exists r, (r <= 2)%nat /\ forall t, t ∈ threads ->
    (t ∈ (b_queue (bt_b st)).*2 -> bt_ph st t = Blocked r /\ (r < 2)%nat) /\
    (~ (t ∈ (b_queue (bt_b st)).*2) -> stage (bt_ph st t) = r);
  bi_prints t val : t ∈ threads -> bt_ph st t = Prints val -> val = finalv;
  bi_out t val : (t, val) ∈ bt_out st -> val = finalv;
  bi_once : NoDup (bt_out st).*1;
  bi_printed t : t ∈ (bt_out st).*1 <-> t ∈ threads /\ has_printed (bt_ph st t) = true }.

(** Nobody is past the loop before all are: then the variable has its final value. *)
Lemma final_value st t : block_inv st -> t ∈ threads -> bt_ph st t <> Loops -> bt_ph st t <> Blocked 0 \/ ~ (t ∈ (b_queue (bt_b st)).*2) ->
  (forall u, u ∈ threads -> t_pc (bt_t st) u = Before 5) /\ SharedVariable (bt_t st) = finalv.
Proof.
  intros Hinv Ht Hnl Hnq. assert (forall u, u ∈ threads -> t_pc (bt_t st) u = Before 5) as Hall.
  { intros u Hu. apply (bi_loop _ Hinv u Hu). intros Hl. destruct (bi_round _ Hinv) as (r & _ & Hr).
    destruct (Hr t Ht) as [Hq1 Hq2], (Hr u Hu) as [Hu1 Hu2].
    assert (r = 0%nat) as ->.
    { destruct (decide (u ∈ (b_queue (bt_b st)).*2)) as [Hin|Hin]; [destruct (Hu1 Hin); congruence|]. by rewrite <- (Hu2 Hin), Hl. }
    destruct (decide (t ∈ (b_queue (bt_b st)).*2)) as [Hin|Hin]; [destruct (Hq1 Hin); tauto|]. specialize (Hq2 Hin). by destruct (bt_ph st t). }
  split; [done|]. rewrite (ti_total _ _ (bi_test _ Hinv)). by apply total_done.
Qed.

Lemma apart st : block_inv st -> dom (bt_in st) ## dom (g_in (t_g (bt_t st))).
Proof.
  intros Hinv t Hb Hi. apply (bi_in _ Hinv) in Hb as [Ht Hb]. apply (ti_waiting _ _ (bi_test _ Hinv)) in Hi as [_ Hi].
  assert (t_pc (bt_t st) t = Before 5) as He by (apply (bi_loop _ Hinv); [done|by destruct (bt_ph st t)]). by rewrite He in Hi.
Qed.

Lemma block_kernel st : block_inv st -> kernel_ok (bt_k st) /\ idle_off (bt_k st).
Proof. intros Hinv. destruct (ti_mutex _ _ (bi_test _ Hinv)) as (C & HC & _). by apply (mx_kernel _ C). Qed.

(** What a thread does in its loop is, for those that wait at the barrier, a step of the rest of the kernel. *)
Lemma simple_step_env t t' j : test_inv threads t -> simple_step threads t t' -> currentThread (g_k (t_g t)) ∉ dom j ->
  dom j ## dom (g_in (t_g t)) -> rtc (env_step j) (g_k (t_g t)) (g_k (t_g t')).
Proof.
  intros [(C & HC & Hin) I2 _ _ _] Hstep Hn Hd.
  destruct Hstep as [k o i sh pc n k' o' Hr Ht Hpc Hlt Htry|k o i sh pc n k' o' Hr Ht Hpc Hlt Htry|k o i sh pc n k' o' old Hr Ht Hpc Hold Htry
    |k o i sh pc n k' o' old Hr Ht Hpc Hold Htry|k o i sh pc n Hr Ht Hpc|k o i sh pc n val k' Hr Ht Hpc Hy|k o i sh pc n val Hr Ht Hpc
    |k o i sh pc n k' o' Hr Ht Hpc Hl|k o i sh pc n k' Hr Ht Hpc Hy]; simpl in *.
  - rewrite (mx_try_done _ _ _ _ Htry). eapply rtc_l; [by apply (env_level j k IntOff)|]. apply rtc_once. by apply env_level.
  - eapply rtc_l; [by apply (env_level j k IntOff)|]. by eapply mx_try_env.
  - rewrite (mx_try_done _ _ _ _ Htry). apply rtc_once. by apply env_level.
  - eapply mx_try_env; [done| |done|done]. apply (mx_level (mkGuarded k o i) C HC). by eapply elem_of_dom_2.
  - apply rtc_refl.
  - apply rtc_once. by apply env_yield.
  - apply rtc_refl.
  - by eapply mx_leave_env.
  - apply rtc_once. by apply env_yield.
Qed.

(** A step of the loop changes the place of the running thread only. *)
Lemma simple_step_pc t t' u : simple_step threads t t' -> u <> currentThread (g_k (t_g t)) -> t_pc t' u = t_pc t u.
Proof. intros Hs Hu. destruct Hs; simpl in *; rewrite ?goto_other by done; done. Qed.

(** The kernel runs, and the phases stay. *)
Lemma block_env_ok k k' o i sh pc b bin ph out : block_inv (mkBT (mkTest (mkGuarded k o i) sh pc) b bin ph out) ->
  rtc (env_step i) k k' -> waiters_ok k' (b_queue b) bin -> block_inv (mkBT (mkTest (mkGuarded k' o i) sh pc) b bin ph out).
Proof. intros [B1 B2 B3 B4 B5 B6 B7 B8 B9 B10 B11 B12] Hr Hw. split; try done. by eapply test_env_ok. Qed.

Lemma block_loop_ok t t' b bin ph out : block_inv (mkBT t b bin ph out) -> ph (currentThread (g_k (t_g t))) = Loops ->
  simple_step threads t t' -> block_inv (mkBT t' b bin ph out).
Proof.
  intros Hinv Hph Hs. pose proof Hinv as [B1 B2 B3 B4 B5 B6 B7 B8 B9 B10 B11 B12]. simpl in *.
  destruct (block_kernel _ Hinv) as [Hk Hi]. split; try done; simpl.
  - by eapply simple_step_ok.
  - eapply env_steps_ok; [exact Hk|exact Hi|exact B2|]. apply (simple_step_env t t'); [done|done| |by apply (apart _ Hinv)].
    rewrite B6, Hph. by intros [_ ?].
  - intros u Hu Hn. rewrite (simple_step_pc t t' u Hs) by congruence. by apply B7.
Qed.

(** The running thread goes to phase [p], which is in the same round, or begins the next one. *)
Lemma block_turn t t' b b' bin bin' ph out out' u p : block_inv (mkBT t b bin ph out) -> u ∈ threads ->
  test_inv threads t' -> t_pc t' = t_pc t -> t_pc t u = Before 5 ->
  waiters_ok (g_k (t_g t')) (b_queue b') bin' -> blockUntil b' = blockUntil b -> blockCount b' = Z.of_nat (length (b_queue b')) -> blockCount b' < blockUntil b' ->
  (forall v, v ∈ dom bin' <-> if decide (v = u) then blocking p = true else v ∈ dom bin) ->
  (exists r, (r <= 2)%nat /\ forall v, v ∈ threads ->
    (v ∈ (b_queue b').*2 -> turn ph u p v = Blocked r /\ (r < 2)%nat) /\ (~ (v ∈ (b_queue b').*2) -> stage (turn ph u p v) = r)) ->
  (forall val, p = Prints val -> val = finalv) -> (forall v val, (v, val) ∈ out' -> val = finalv) -> NoDup out'.*1 ->
  (forall v, v ∈ out'.*1 <-> if decide (v = u) then has_printed p = true else v ∈ out.*1) ->
  block_inv (mkBT t' b' bin' (turn ph u p) out').
Proof.
  intros [B1 B2 B3 B4 B5 B6 B7 B8 B9 B10 B11 B12] Hu Ht' Hpc Hu5 Hw Hbu Hbc Hbl Hin Hround Hval Hout Hno Hpr. simpl in *.
  split; simpl; try done.
  - congruence.
  - intros v. rewrite Hin. destruct (decide (v = u)) as [->|]; [rewrite turn_here; tauto|]. by rewrite turn_other.
  - intros v Hv. rewrite Hpc. destruct (decide (v = u)) as [->|]; [done|]. rewrite turn_other by done. by apply B7.
  - intros v val Hv. destruct (decide (v = u)) as [->|]; [rewrite turn_here; apply Hval|]. rewrite turn_other by done. by apply B9.
  - intros v. rewrite Hpr. destruct (decide (v = u)) as [->|]; [rewrite turn_here; tauto|]. by rewrite turn_other.
Qed.

(** A thread at call [n]: everybody is in round [n]. *)
Lemma caller k o i sh pc b bin ph out n : block_inv (mkBT (mkTest (mkGuarded k o i) sh pc) b bin ph out) -> currentThread k ∈ threads ->
  calls_block (ph (currentThread k)) (pc (currentThread k)) n ->
  pc (currentThread k) = Before 5 /\ (currentThread k ∉ dom bin) /\ (currentThread k ∉ dom i) /\ ~ (currentThread k ∈ (b_queue b).*2) /\ (n < 2)%nat /\
  has_printed (ph (currentThread k)) = (n =? 1)%nat /\
  forall t, t ∈ threads -> (t ∈ (b_queue b).*2 -> ph t = Blocked n) /\ (~ (t ∈ (b_queue b).*2) -> stage (ph t) = n).
Proof.
  intros Hinv Ht Hc. pose proof Hinv as [B1 B2 _ _ _ B6 B7 (r & Hr2 & Hr) _ _ _ _]. simpl in *.
  assert (pc (currentThread k) = Before 5) as Hpc by (destruct n as [|[|]]; simpl in Hc; [tauto|apply B7; [done|by rewrite Hc]|done]).
  assert (blocking (ph (currentThread k)) = false /\ stage (ph (currentThread k)) = n /\ has_printed (ph (currentThread k)) = (n =? 1)%nat /\ (n < 2)%nat)
    as (Hb & Hs & Hp & Hn) by (destruct n as [|[|]]; simpl in Hc; [destruct Hc as [-> _]|rewrite Hc|done]; simpl; split_and!; (done || lia)).
  assert (currentThread k ∉ dom bin) as Hnb by (rewrite B6, Hb; by intros [_ ?]).
  assert (~ (currentThread k ∈ (b_queue b).*2)) as Hnq by (intros Hq; apply Hnb; by apply (wo_queued _ _ _ B2)).
  destruct (Hr _ Ht) as [_ Hr']. rewrite Hs in Hr'. rewrite <- (Hr' Hnq) in Hr. split_and!; try done.
  - rewrite (ti_waiting _ _ B1). simpl. rewrite Hpc. by intros [_ ?].
  - intros t Htt. destruct (Hr t Htt) as [H1 H2]. split; [|done]. intros Hq. by apply H1.
Qed.

Lemma block_call_ok k o i sh pc b bin ph out n flag k' b' : block_inv (mkBT (mkTest (mkGuarded k o i) sh pc) b bin ph out) ->
  running k -> currentThread k ∈ threads -> calls_block (ph (currentThread k)) (pc (currentThread k)) n -> Barrier_block k b = Ok (flag, k', b') ->
  block_inv (mkBT (mkTest (mkGuarded k' o i) sh pc) b' (if flag then bin else <[currentThread k := k_level k]> bin)
    (turn ph (currentThread k) (if flag then after_block n else Blocked n)) out).
Proof.
  intros Hinv Hr Ht Hc Hblk. destruct (caller _ _ _ _ _ _ _ _ _ _ Hinv Ht Hc) as (Hpc & Hnb & Hni & Hnq & Hn & Hp & Hround).
  pose proof Hinv as [B1 B2 B3 B4 B5 B6 B7 _ B9 B10 B11 B12]. simpl in *. destruct (block_kernel _ Hinv) as [Hk Hi]. unfold bt_k in *. simpl in *.
  pose proof (block_waiters k b bin i Hk Hi B2 Hr B4 B5 ltac:(lia) Hnb Hni (apart _ Hinv)) as Hw.
  assert (forall v p, has_printed p = (n =? 1)%nat -> v ∈ out.*1 <-> if decide (v = currentThread k) then has_printed p = true else v ∈ out.*1) as Hout.
  { intros v p Hpp. destruct (decide _) as [->|]; [|done]. rewrite B12, Hp, Hpp. tauto. }
  destruct (Z.eqb_spec (blockCount b + 1) (blockUntil b)) as [He|Hne]; destruct Hw as (k1 & Hblk' & Hw & Hs);
    rewrite Hblk in Hblk'; injection Hblk' as -> -> ->;
    (eapply block_turn; [exact Hinv|exact Ht|by eapply test_env_ok|done|exact Hpc|exact Hw|done|simpl|simpl; lia|..]; try done).
  - intros v. destruct (decide _) as [->|]; [|done]. rewrite B6. destruct n as [|[|]]; simpl; [destruct Hc as [-> _]|rewrite Hc|lia]; simpl; split; try done; tauto.
  - exists (S n). split; [lia|]. intros v Hv. split; [set_solver|]. intros _. destruct (decide (v = currentThread k)) as [->|Hvn].
    { rewrite turn_here. by destruct n as [|[|]]; simpl; try lia. }
    rewrite turn_other by done. destruct (last_thread (b_queue b).*2 threads (currentThread k) v) as [Hq| ->]; try done.
    + apply B2.
    + intros x Hx. apply B6. by apply (wo_queued _ _ _ B2).
    + rewrite length_fmap. lia.
    + destruct (Hround v Hv) as [Hq' _]. by rewrite (Hq' Hq).
  - by destruct n as [|[|]].
  - intros v. apply Hout. by destruct n as [|[|]]; simpl; try lia.
  - rewrite q_append_length. lia.
  - intros v. rewrite dom_insert_L, elem_of_union, elem_of_singleton. destruct (decide (v = currentThread k)); tauto.
  - exists n. split; [lia|]. intros v Hv. cbn [b_queue]. rewrite q_append_snd, elem_of_app, list_elem_of_singleton. destruct (decide (v = currentThread k)) as [->|Hvn].
    { rewrite turn_here. tauto. }
    rewrite turn_other by done. destruct (Hround v Hv). tauto.
  - intros v. apply Hout. by destruct n as [|[|]]; simpl; try lia.
Qed.

Lemma block_wakes_ok k o i sh pc b bin ph out n old : block_inv (mkBT (mkTest (mkGuarded k o i) sh pc) b bin ph out) ->
  running k -> currentThread k ∈ threads -> ph (currentThread k) = Blocked n -> bin !! currentThread k = Some old ->
  block_inv (mkBT (mkTest (mkGuarded (with_klevel k old) o i) sh pc) b (delete (currentThread k) bin) (turn ph (currentThread k) (after_block n)) out).
Proof.
  intros Hinv Hr Ht Hph Hold. pose proof Hinv as [B1 B2 B3 B4 B5 B6 B7 (r & Hr2 & Hround) B9 B10 B11 B12]. simpl in *.
  destruct (block_kernel _ Hinv) as [Hk Hi]. unfold bt_k in *. simpl in *.
  assert (pc (currentThread k) = Before 5) as Hpc by (apply B7; [done|by rewrite Hph]).
  assert (currentThread k ∉ dom i) as Hni by (rewrite (ti_waiting _ _ B1); simpl; rewrite Hpc; by intros [_ ?]).
  assert (~ (currentThread k ∈ (b_queue b).*2)) as Hnq.
  { intros Hq. destruct (wo_queued _ _ _ B2 _ Hq) as [Hb _]. unfold running in Hr. congruence. }
  assert (r = S n) as -> by (rewrite <- (proj2 (Hround _ Ht) Hnq), Hph; done).
  eapply block_turn; [exact Hinv|exact Ht| |done|exact Hpc|by apply (waiters_leave k _ bin old)|done|done|done|..]; try done.
  - eapply test_env_ok; [exact B1|]. apply rtc_once. by apply env_level.
  - intros v. rewrite dom_delete_L, elem_of_difference, elem_of_singleton.
    destruct (decide (v = currentThread k)); [|tauto]. destruct n as [|[|]]; simpl; [..|lia]; (split; [tauto|done]).
  - exists (S n). split; [done|]. intros v Hv. destruct (decide (v = currentThread k)) as [->|Hvn].
    { rewrite turn_here. split; [done|]. by destruct n as [|[|]]; simpl; try lia. }
    rewrite turn_other by done. by apply Hround.
  - by destruct n as [|[|]].
  - intros v. destruct (decide (v = currentThread k)) as [->|]; [|done]. rewrite B12, Hph. destruct n as [|[|]]; simpl; [..|lia]; tauto.
Qed.

Lemma block_reads_ok k o i sh pc b bin ph out : block_inv (mkBT (mkTest (mkGuarded k o i) sh pc) b bin ph out) ->
  currentThread k ∈ threads -> ph (currentThread k) = Reads_final ->
  block_inv (mkBT (mkTest (mkGuarded k o i) sh pc) b bin (turn ph (currentThread k) (Prints sh)) out).
Proof.
  intros Hinv Ht Hph. pose proof Hinv as [B1 B2 B3 B4 B5 B6 B7 (r & Hr2 & Hround) B9 B10 B11 B12]. simpl in *.
  destruct (final_value _ (currentThread k) Hinv) as [_ Hsh]; simpl; [done|by rewrite Hph|left; by rewrite Hph|]. simpl in Hsh.
  eapply block_turn; [exact Hinv|exact Ht|done|done|apply B7; [done|by rewrite Hph]|exact B2|done|done|done|..]; try done.
  - intros v. destruct (decide _) as [->|]; [|done]. rewrite B6, Hph. simpl. tauto.
  - exists r. split; [done|]. intros v Hv. destruct (decide (v = currentThread k)) as [->|]; [|rewrite turn_other by done; by apply Hround].
    destruct (Hround _ Ht) as [H1 H2]. rewrite turn_here. rewrite Hph in H1, H2. split; [by intros [? _]%H1|done].
  - intros val [= <-]. done.
  - intros v. destruct (decide _) as [->|]; [|done]. rewrite B12, Hph. simpl. tauto.
Qed.

Lemma block_prints_ok k o i sh pc b bin ph out val : block_inv (mkBT (mkTest (mkGuarded k o i) sh pc) b bin ph out) ->
  currentThread k ∈ threads -> ph (currentThread k) = Prints val ->
  block_inv (mkBT (mkTest (mkGuarded k o i) sh pc) b bin (turn ph (currentThread k) Printed) (out ++ [(currentThread k, val)])).
Proof.
  intros Hinv Ht Hph. pose proof Hinv as [B1 B2 B3 B4 B5 B6 B7 (r & Hr2 & Hround) B9 B10 B11 B12]. simpl in *.
  assert (~ (currentThread k ∈ out.*1)) as Hno by (rewrite B12, Hph; by intros [_ ?]).
  eapply block_turn; [exact Hinv|exact Ht|done|done|apply B7; [done|by rewrite Hph]|exact B2|done|done|done|..]; try done.
  - intros v. destruct (decide _) as [->|]; [|done]. rewrite B6, Hph. simpl. tauto.
  - exists r. split; [done|]. intros v Hv. destruct (decide (v = currentThread k)) as [->|]; [|rewrite turn_other by done; by apply Hround].
    destruct (Hround _ Ht) as [H1 H2]. rewrite turn_here. rewrite Hph in H1, H2. split; [by intros [? _]%H1|done].
  - intros v w [Hin|[= -> ->]%list_elem_of_singleton]%elem_of_app; [by eapply B10|]. by apply (B9 (currentThread k)).
  - rewrite fmap_app. apply NoDup_app. split; [done|]. split; [|apply NoDup_singleton]. intros v Hv Hs%list_elem_of_singleton. by subst.
  - intros v. rewrite fmap_app, elem_of_app. simpl. rewrite list_elem_of_singleton. destruct (decide (v = currentThread k)); tauto.
Qed.

Lemma block_step_ok st st' : block_inv st -> block_step threads st st' -> block_inv st'.
Proof.
  intros Hinv Hstep. destruct Hstep as [t t' b bin ph out Hph Hs|k o i sh pc b bin ph out n k' b' Hr Ht Hc Hb|k o i sh pc b bin ph out n k' b' Hr Ht Hc Hb
    |k o i sh pc b bin ph out n old Hr Ht Hph Hold|k o i sh pc b bin ph out Hr Ht Hph|k o i sh pc b bin ph out val Hr Ht Hph
    |k o i sh pc b bin ph out k' He].
  - by eapply block_loop_ok.
  - by apply (block_call_ok k o i sh pc b bin ph out n true).
  - by apply (block_call_ok k o i sh pc b bin ph out n false).
  - by apply block_wakes_ok.
  - by apply block_reads_ok.
  - by apply block_prints_ok.
  - destruct (block_kernel _ Hinv) as [Hk Hi]. assert (dom (i ∪ bin) = dom i ∪ dom bin) as Hd by apply dom_union_L.
    eapply block_env_ok; [exact Hinv|apply rtc_once; eapply env_fewer; [|done]; set_solver|].
    eapply env_step_ok; [exact Hk|exact Hi|apply Hinv|]. eapply env_fewer; [|done]. simpl. set_solver.
Qed.

Lemma block_reachable k st : threads <> [] -> kernel_ok k -> idle_off k -> rtc (block_step threads) (block_start threads k) st -> block_inv st.
Proof.
  intros Hne Hk Hi Hr. apply (rtc_ind_r (R := block_step threads) block_inv (block_start threads k)); [| |exact Hr].
  - split; simpl; try done.
    + apply (test_reachable threads Hnd Hmany k); [done|done|apply rtc_refl].
    + apply waiters_start.
    + destruct threads; [done|]. simpl. lia.
    + intros t. rewrite dom_empty_L. split; [set_solver|]. by intros [_ ?].
    + exists 0%nat. split; [lia|]. intros t _. split; [set_solver|done].
    + intros t val. set_solver.
    + constructor.
    + intros t. split; [set_solver|]. by intros [_ ?].
  - intros y1 y2 _ Hs IH. by eapply block_step_ok.
Qed.
End barrier.

(** ** Properties of the test *)

(** C14. What [ThreadTest1] shows. Any number of [threads] run the whole of [SimpleThread] with a lock or a semaphore,
    and a barrier for as many, on a kernel that switches between them and all others in any way. Whatever has
    been printed as a final value is five times the number of threads, and no thread prints
    twice; a thread is past the first barrier only when all have done their five iterations, and
    returns only when all have printed; and never do all of them sleep at the barrier. *)
Theorem final_values {O} `{MutexLaws O} threads k (st : barrier_test O) :
  NoDup threads -> threads <> [] -> 5 * Z.of_nat (length threads) < two31 -> kernel_ok k -> idle_off k ->
  rtc (block_step threads) (block_start threads k) st ->
  (forall t val, (t, val) ∈ bt_out st -> t ∈ threads /\ val = 5 * Z.of_nat (length threads)) /\
  NoDup (bt_out st).*1 /\
  (forall t, t ∈ threads -> passed (bt_ph st t) = true -> forall u, u ∈ threads -> t_pc (bt_t st) u = Before 5) /\
  (forall t, t ∈ threads -> bt_ph st t = Ends -> (bt_out st).*1 ≡ₚ threads) /\
  (exists t, t ∈ threads /\ ~ (t ∈ (b_queue (bt_b st)).*2)).
Proof.
  intros Hnd Hne Hmany Hk Hi Hr. pose proof (block_reachable threads Hnd Hmany k st Hne Hk Hi Hr) as Hinv.
  pose proof Hinv as [B1 B2 B3 B4 B5 B6 B7 (r & Hr2 & Hround) B9 B10 B11 B12]. split_and!; try done.
  - intros t val Hin. split; [|by eapply B10]. apply B12. apply list_elem_of_fmap. by exists (t, val).
  - intros t Ht Hph u Hu. apply (final_value threads st t Hinv); [done|..|done].
    + intros He. by rewrite He in Hph.
    + left. intros He. by rewrite He in Hph.
  - intros t Ht Hph. apply NoDup_Permutation; [done|done|]. intros u. rewrite B12. split; [tauto|]. intros Hu. split; [done|].
    destruct (Hround t Ht) as [H1 H2], (Hround u Hu) as [Hu1 Hu2]. rewrite Hph in H1, H2.
    destruct (decide (t ∈ (b_queue (bt_b st)).*2)) as [Hq|Hq]; [by destruct (H1 Hq)|]. specialize (H2 Hq). simpl in H2. subst r.
    destruct (decide (u ∈ (b_queue (bt_b st)).*2)) as [Hq'|Hq']; [destruct (Hu1 Hq'); lia|]. specialize (Hu2 Hq').
    destruct (bt_ph st u) as [|[|[|]]| | | |]; simpl in *; (done || lia).
  - destruct (decide (Exists (fun t => ~ (t ∈ (b_queue (bt_b st)).*2)) threads)) as [He|He]; [by apply Exists_exists in He|].
    apply not_Exists_Forall in He; [|apply _]. exfalso. assert (length threads <= length (b_queue (bt_b st)).*2)%nat as Hle.
    { apply submseteq_length, NoDup_submseteq; [done|]. intros t Ht. rewrite Forall_forall in He. specialize (He t Ht). simpl in He.
      destruct (decide (t ∈ (b_queue (bt_b st)).*2)); [done|]. by destruct He. }
    rewrite length_fmap in Hle. lia.
Qed.

(** One thread alone, [n] iterations done. *)
Definition demo_at (sh : Z) (pc : positive -> tpc) : barrier_test Lock :=
  mkBT (mkTest (mkGuarded boot (Lock_new None) ∅) sh pc) (Barrier_new 1) ∅ (fun _ => Loops) [].

Lemma demo_iteration n sh pc : pc 1%positive = Before n -> (n < 5)%nat ->
  exists pc', pc' 1%positive = Before (S n) /\ rtc (@block_step _ (lock_mutex None) [1%positive]) (demo_at sh pc) (demo_at (s32 (sh + 1)) pc').
Proof.
  intros Hpc Hn. eexists. split; [|unfold demo_at].
  2:{ eapply rtc_l; [apply bt_loop; [done|]; apply (test_acquired _ boot (Lock_new None) ∅ sh pc n (with_klevel boot IntOff) (mkLock true (Some 1%positive) [])); [done|left|done|done|reflexivity]|].
      eapply rtc_l; [apply bt_loop; [done|]; eapply test_sees; [done|left|apply goto_here]|].
      eapply rtc_l; [apply bt_loop; [done|]; eapply (test_yields _ boot); [done|left|apply goto_here|reflexivity]|].
      eapply rtc_l; [apply bt_loop; [done|]; eapply test_stores; [done|left|apply goto_here]|].
      eapply rtc_l; [apply bt_loop; [done|]; eapply (test_leaves _ boot); [done|left|apply goto_here|reflexivity]|].
      eapply rtc_l; [apply bt_loop; [done|]; eapply (test_yields_again _ boot); [done|left|apply goto_here|reflexivity]|]. apply rtc_refl. }
  apply goto_here.
Qed.

(** The whole of the test with no forked thread. *)
Lemma demo_alone : exists pc ph, ph 1%positive = Ends /\
  rtc (@block_step _ (lock_mutex None) [1%positive]) (@block_start _ (lock_mutex None) [1%positive] boot)
    (mkBT (mkTest (mkGuarded boot (Lock_new None) ∅) 5 pc) (Barrier_new 1) ∅ ph [(1%positive, 5)]).
Proof.
  destruct (demo_iteration 0 0 (fun _ => Before 0)) as (p1 & H1 & R1); [done|lia|].
  destruct (demo_iteration 1 1 p1 H1) as (p2 & H2 & R2); [lia|]. destruct (demo_iteration 2 2 p2 H2) as (p3 & H3 & R3); [lia|].
  destruct (demo_iteration 3 3 p3 H3) as (p4 & H4 & R4); [lia|]. destruct (demo_iteration 4 4 p4 H4) as (p5 & H5 & R5); [lia|].
  exists p5. eexists. split; [|etrans; [exact R1|]; etrans; [exact R2|]; etrans; [exact R3|]; etrans; [exact R4|]; etrans; [exact R5|]].
  2:{ eapply rtc_l; [apply (bt_last _ boot _ _ _ _ _ _ _ _ 0); [done|left|by split|reflexivity]|].
      eapply rtc_l; [eapply bt_reads; [done|left|apply turn_here]|]. eapply rtc_l; [eapply bt_prints; [done|left|apply turn_here]|].
      eapply rtc_l; [apply (bt_last _ boot _ _ _ _ _ _ _ _ 1); [done|left|apply turn_here|reflexivity]|]. apply rtc_refl. }
  apply turn_here.
Qed.

Lemma final_values_witness : exists st : barrier_test Lock,
  rtc (@block_step _ (lock_mutex None) [1%positive]) (@block_start _ (lock_mutex None) [1%positive] boot) st /\ bt_out st = [(1%positive, 5)] /\ (bt_out st).*1 ≡ₚ [1%positive].
Proof.
  destruct demo_alone as (pc & ph & Hph & Hr). eexists. split; [exact Hr|]. split; [reflexivity|].
  destruct (@final_values Lock (lock_mutex None) (lock_mutex_laws None) [1%positive] boot _ ltac:(apply NoDup_singleton) ltac:(discriminate)
    eq_refl boot_ok ltac:(intros Hn; by destruct Hn) Hr) as (_ & _ & _ & He & _).
  apply (He 1%positive); [left|exact Hph].
Defined.

(** ** The test of condition variables *)

(** What the threads of the build with HW1_CV do, one call or one use of the variable at a time; the last two are what is left
    of a call after [Sleep] has returned. *)
Inductive op :=
| Acquires | Releases | Waits | Signals | Blocks | Yields
| Bumps         (* [val = SharedVariable; printf(...); SharedVariable = val+1] *)
| Prints_final  (* [val = SharedVariable; printf(...)] *)
| Tries_again (old : IntStatus)  (* the loop of [Acquire] *)
| Restores (old : IntStatus).    (* [SetLevel(oldLevel)] *)

Definition CondThread : list op :=
  [Acquires; Waits; Releases] ++ concat (replicate 5 [Yields; Acquires; Bumps; Releases; Yields]) ++
  [Acquires; Signals; Releases; Blocks; Prints_final; Blocks].
Definition SignalThread : list op := concat (replicate 3 [Yields; Bumps; Yields]) ++ [Acquires; Signals; Releases].

Record cv_state := mkCV {
  cv_k : kstate; cv_l : Lock; cv_c : Condition; cv_b : Barrier; cv_sh : Z;
  cv_code : gmap positive (list op);   (* what each thread still has to do *)
  cv_out : list (positive * Z) }.      (* the lines "sees final value" *)

(** The threads that [ThreadTest1] forks. *)
Fixpoint fork_threads (n : nat) (k : kstate) (code : gmap positive (list op)) : outcome (kstate * gmap positive (list op)) :=
  match n with
  | O => Ok (k, code)
  | S n =>
      let '(t, k) := Thread_new k [] in
      k ← Fork k t;
      fork_threads n k (<[t := CondThread]> code)
  end.

(** The body of [ThreadTest1] and the call of [SignalThread], up to the return to [main]. *)
Definition CV_ThreadTest1 (n : nat) (k : kstate) : outcome cv_state :=
  '(k, code) ← fork_threads n k ∅;
  Ok (mkCV k (Lock_new None) Condition_new (Barrier_new (Z.of_nat n + 1)) 0
        (<[currentThread k := [Yields; Acquires] ++ SignalThread]> code) []).

(** The running thread does its next operation; a thread that has done all finishes. *)
Definition cv_step (st : cv_state) : outcome cv_state :=
  let '(mkCV k l c b sh code out) := st in
  let t := currentThread k in
  match code !! t with
  | None => Undef
  | Some [] => '(_, k) ← Finish k; Ok (mkCV k l c b sh code out)
  | Some (o :: rest) =>
      let next k l c b sh rest out := Ok (mkCV k l c b sh (<[t := rest]> code) out) in
      match o with
      | Acquires =>
          '(r, k', l) ← Lock_Acquire_loop (with_klevel k IntOff) l;
          if r : bool then next (with_klevel k' (k_level k)) l c b sh rest out else next k' l c b sh (Tries_again (k_level k) :: rest) out
      | Tries_again old =>
          '(r, k, l) ← Lock_Acquire_loop k l;
          if r : bool then next (with_klevel k old) l c b sh rest out else next k l c b sh (Tries_again old :: rest) out
      | Releases => '(k, l) ← Lock_Release k l; next k l c b sh rest out
      | Waits =>
          r ← Condition_Wait k c l;
          match r with
          | None => next k l c b sh rest out
          | Some (k', c, l) => next k' l c b sh (Restores (k_level k) :: Acquires :: rest) out
          end
      | Restores old => next (with_klevel k old) l c b sh rest out
      | Signals => '(k, c) ← Condition_Signal k c l; next k l c b sh rest out
      | Blocks =>
          '(r, k', b) ← Barrier_block k b;
          next k' l c b sh (if r : bool then rest else Restores (k_level k) :: rest) out
      | Yields => k ← Yield k; next k l c b sh rest out
      | Bumps => next k l c b (s32 (sh + 1)) rest out
      | Prints_final => next k l c b sh rest (out ++ [(t, sh)])
      end
  end.

(** Until no thread is left to run: the machine idles. *)
Fixpoint cv_run (fuel : nat) (st : cv_state) : outcome cv_state :=
  match fuel with
  | O => NoFuel
  | S fuel =>
      if decide (status_of (cv_k st) (currentThread (cv_k st)) = Some RUNNING) then st ← cv_step st; cv_run fuel st else Ok st
  end.

(** [ThreadTest1] of the build with HW1_CV does not reach the final values. The barrier is for the [n] forked threads and the one
    that forks them, but [SignalThread] does not call [block]: every forked thread is signalled and does its five increments, and then
    all of them sleep at the barrier, one call short, and nothing is printed; for up to eight threads. *)
Theorem conditions_test_stuck :
  Forall (fun n => match (st ← CV_ThreadTest1 n boot; cv_run 1000 st) with
    | Ok st => cv_sh st = 3 + 5 * Z.of_nat n /\ cv_c st = [] /\ length (b_queue (cv_b st)) = n /\
        blockCount (cv_b st) + 1 = blockUntil (cv_b st) /\ cv_out st = [] /\ readyList (cv_k st) = []
    | _ => False
    end) (seq 1 8).
Proof. cbn [seq]. repeat (apply Forall_cons_2; [vm_compute; split_and!; reflexivity|]). apply Forall_nil_2. Qed.
