(* ===== verification/Interp.v ===== *)
(** * bin/execute.c and bin/system.c: the stand-alone MIPS interpreter

    A second simulator of the same processor, for object files that run directly on
    the host: the field macros of instr.h, the opcode numbers of encode.h, the memory
    macros of int.h, [runprogram] with the set-up of the arguments and one definition
    per part of its [switch], the system calls of system.c and the helper [ilog2].

    The memory is the array [mem] of [MEMSIZE] bytes, zero where nothing was stored;
    an access outside the array or, through a pointer to a wider type, at an address
    of the wrong alignment is undefined. The calls that [system_trap] passes to the
    host, and their numbers in the host's <syscall.h>, are parameters. *)

From stdpp Require Import prelude list numbers gmap strings.
From S2P Require Import Prelude Mips Machine.

Open Scope Z_scope.

(** ** Instruction formats (instr.h) *)

Definition rd (i : Z) : Z := Z.land (Z.shiftr i 11) 0x1f.
Definition rt (i : Z) : Z := Z.land (Z.shiftr i 16) 0x1f.
Definition rs (i : Z) : Z := Z.land (Z.shiftr i 21) 0x1f.
Definition shamt (i : Z) : Z := Z.land (Z.shiftr i 6) 0x1f.
Definition immed (i : Z) : Z :=
  if negb (Z.land i 0x8000 =? 0) then Z.lor i (- 0x8000) else Z.land i 0x7fff.

(** ** Opcode numbers (encode.h) *)

Definition I_SPECIAL : Z := 0.
Definition I_BCOND : Z := 1.
Definition I_J : Z := 2.
Definition I_JAL : Z := 3.
Definition I_BEQ : Z := 4.
Definition I_BNE : Z := 5.
Definition I_BLEZ : Z := 6.
Definition I_BGTZ : Z := 7.
Definition I_ADDI : Z := 8.
Definition I_ADDIU : Z := 9.
Definition I_SLTI : Z := 10.
Definition I_SLTIU : Z := 11.
Definition I_ANDI : Z := 12.
Definition I_ORI : Z := 13.
Definition I_XORI : Z := 14.
Definition I_LUI : Z := 15.
Definition I_COP0 : Z := 16.
Definition I_COP1 : Z := 17.
Definition I_COP2 : Z := 18.
Definition I_COP3 : Z := 19.
Definition I_LB : Z := 32.
Definition I_LH : Z := 33.
Definition I_LWL : Z := 34.
Definition I_LW : Z := 35.
Definition I_LBU : Z := 36.
Definition I_LHU : Z := 37.
Definition I_LWR : Z := 38.
Definition I_SB : Z := 40.
Definition I_SH : Z := 41.
Definition I_SWL : Z := 42.
Definition I_SW : Z := 43.
Definition I_SWR : Z := 46.
Definition I_LWC0 : Z := 48.
Definition I_LWC1 : Z := 49.
Definition I_LWC2 : Z := 50.
Definition I_LWC3 : Z := 51.
Definition I_SWC0 : Z := 56.
Definition I_SWC1 : Z := 57.
Definition I_SWC2 : Z := 58.
Definition I_SWC3 : Z := 59.

Definition I_SLL : Z := 0.
Definition I_SRL : Z := 2.
Definition I_SRA : Z := 3.
Definition I_SLLV : Z := 4.
Definition I_SRLV : Z := 6.
Definition I_SRAV : Z := 7.
Definition I_JR : Z := 8.
Definition I_JALR : Z := 9.
Definition I_SYSCALL : Z := 12.
Definition I_BREAK : Z := 13.
Definition I_MFHI : Z := 16.
Definition I_MTHI : Z := 17.
Definition I_MFLO : Z := 18.
Definition I_MTLO : Z := 19.
Definition I_MULT : Z := 24.
Definition I_MULTU : Z := 25.
Definition I_DIV : Z := 26.
Definition I_DIVU : Z := 27.
Definition I_ADD : Z := 32.
Definition I_ADDU : Z := 33.
Definition I_SUB : Z := 34.
Definition I_SUBU : Z := 35.
Definition I_AND : Z := 36.
Definition I_OR : Z := 37.
Definition I_XOR : Z := 38.
Definition I_NOR : Z := 39.
Definition I_SLT : Z := 42.
Definition I_SLTU : Z := 43.

Definition I_BLTZ : Z := 0.
Definition I_BGEZ : Z := 1.
Definition I_BLTZAL : Z := 16.
Definition I_BGEZAL : Z := 17.

Definition I_NOP : Z := 0.

(** ** Memory (int.h) *)

Definition MEMSIZE : Z := Z.shiftl 1 24.
Definition memoffset : Z := 0x10000000.

(** The array [mem]: the bytes that were stored, by index. *)
Abbreviation memory := (gmap Z Z).

(** Is [addr] the address of a byte of [mem]? *)
Definition in_mem (addr : Z) : bool := (memoffset <=? addr) && (addr <? memoffset + MEMSIZE).

Definition get_byte (mem : memory) (addr : Z) : outcome Z :=
  if in_mem addr then Ok (default 0 (mem !! (addr - memoffset))) else Undef.
Definition put_byte (mem : memory) (addr b : Z) : outcome memory :=
  if in_mem addr then Ok (<[addr - memoffset := b]> mem) else Undef.

Definition get_half (mem : memory) (addr : Z) : outcome Z :=
  if misaligned addr 2 then Undef
  else b0 ← get_byte mem addr; b1 ← get_byte mem (addr + 1); Ok (bytes_word b0 b1 0 0).

Definition fetch (mem : memory) (addr : Z) : outcome Z :=
  if misaligned addr 4 then Undef
  else
    b0 ← get_byte mem addr; b1 ← get_byte mem (addr + 1);
    b2 ← get_byte mem (addr + 2); b3 ← get_byte mem (addr + 3);
    Ok (s32 (bytes_word b0 b1 b2 b3)).
Definition ifetch (mem : memory) (addr : Z) : outcome Z := fetch mem addr.
Definition sfetch (mem : memory) (addr : Z) : outcome Z :=
  h ← get_half mem addr; Ok (if 32768 <=? h then h - 65536 else h).
Definition usfetch (mem : memory) (addr : Z) : outcome Z := get_half mem addr.
Definition cfetch (mem : memory) (addr : Z) : outcome Z := b ← get_byte mem addr; Ok (s8 b).
Definition ucfetch (mem : memory) (addr : Z) : outcome Z := get_byte mem addr.

(** Bytes at consecutive addresses. *)
Fixpoint put_all (mem : memory) (addr : Z) (bs : list Z) : outcome memory :=
  match bs with
  | [] => Ok mem
  | b :: bs => mem ← put_byte mem addr b; put_all mem (addr + 1) bs
  end.

Definition store (mem : memory) (addr i : Z) : outcome memory :=
  if misaligned addr 4 then Undef else put_all mem addr (word_bytes (u32 i)).
Definition sstore (mem : memory) (addr i : Z) : outcome memory :=
  if misaligned addr 2 then Undef else put_all mem addr (take 2 (word_bytes (u32 i))).
Definition cstore (mem : memory) (addr i : Z) : outcome memory := put_byte mem addr (i `mod` 256).

(** ** The interpreter's state *)

(** The host system calls that [system_trap] makes, with the state of the host. An
    address is one of the simulated program; [open] and [write] read the memory there,
    [read] and [ioctl] may change it. The numbers are those of the host's header; as labels
    of one [switch] they differ from each other and from 17. *)
Class HostOS (H : Type) := {
  SYS_exit : Z; SYS_read : Z; SYS_write : Z; SYS_open : Z; SYS_close : Z; SYS_lseek : Z; SYS_ioctl : Z; SYS_fstat : Z;
  SYS_getpagesize : Z;
  SYS_labels : NoDup [SYS_exit; SYS_read; SYS_write; SYS_open; SYS_close; 17; SYS_lseek; SYS_ioctl; SYS_fstat; SYS_getpagesize];
  host_read : H -> Z -> memory -> Z -> Z -> Z * memory * H;
  host_write : H -> Z -> memory -> Z -> Z -> Z * H;
  host_open : H -> memory -> Z -> Z -> Z -> Z * H;
  host_lseek : H -> Z -> Z -> Z -> Z * H;
  host_ioctl : H -> Z -> Z -> memory -> Z -> Z * memory * H;
  host_fstat : H -> Z -> Z -> outcome (Z * H);
  host_getpagesize : H -> Z }.

Section interpreter.
Context {H : Type} `{HostOS H}.

(** The globals of execute.c and the locals [pc], [npc] and [icount] of [runprogram]. *)
Record Interp := mkInterp {
  Reg : list Z;
  HI : Z;
  LO : Z;
  mem : memory;
  pc : Z;
  npc : Z;
  icount : Z;
  host : H }.

(** The program goes on, or [exit] is called. *)
Inductive stepped :=
| Goes (s : Interp)
| Exits (code : Z) (text : string).

Definition with_Reg (s : Interp) (r : list Z) : Interp :=
  mkInterp r (HI s) (LO s) (mem s) (pc s) (npc s) (icount s) (host s).
Definition with_HILO (s : Interp) (hi lo : Z) : Interp :=
  mkInterp (Reg s) hi lo (mem s) (pc s) (npc s) (icount s) (host s).
Definition with_mem (s : Interp) (b : memory) : Interp :=
  mkInterp (Reg s) (HI s) (LO s) b (pc s) (npc s) (icount s) (host s).
Definition with_npc (s : Interp) (a : Z) : Interp :=
  mkInterp (Reg s) (HI s) (LO s) (mem s) (pc s) a (icount s) (host s).
Definition with_host (s : Interp) (h : H) : Interp :=
  mkInterp (Reg s) (HI s) (LO s) (mem s) (pc s) (npc s) (icount s) h.

Definition reg (s : Interp) (i : Z) : outcome Z := arr_get (Reg s) i.

(** [Reg[i] = v]. *)
Definition set_reg (s : Interp) (i v : Z) : outcome stepped :=
  r ← arr_set (Reg s) i v; Ok (Goes (with_Reg s r)).

(** [if (c) npc = target]. *)
Definition goto_if (s : Interp) (c : bool) (target : Z) : outcome stepped :=
  Ok (Goes (if c then with_npc s target else s)).

(** [u()]. *)
Definition unimplemented : outcome stepped := Ok (Exits 2 "Unimplemented Instruction").

(** ** system.c *)

(** The request of an [ioctl], rewritten for group 't' and parameters of 8 bytes. *)
Definition ioctl_request (o1 : Z) : Z :=
  let IOCPARM_MASK := 0x7f in
  let size := Z.land (Z.shiftr o1 16) IOCPARM_MASK in
  let ioctl_group := s8 (Z.land (Z.shiftr o1 8) 0xff) in
  if (ioctl_group =? 116) && (size =? 8)
  then s32 (Z.lor (Z.land o1 (Z.lnot (Z.shiftl IOCPARM_MASK 16))) (Z.shiftl 6 16))
  else o1.

(** Every descriptor is handed on; the branch for those above 2 is empty. *)
Definition u_to_int_fd (fd : Z) : Z := fd.

Definition system_trap (s : Interp) : outcome stepped :=
  syscallno ← reg s 2;
  o0 ← reg s 4;
  o1 ← reg s 5;
  o2 ← reg s 6;
  if syscallno =? SYS_exit then Ok (Exits 0 "")
  else if syscallno =? SYS_read then
    let '(n, b, h) := host_read (host s) (u_to_int_fd o0) (mem s) o1 o2 in
    set_reg (with_host (with_mem s b) h) 1 n
  else if syscallno =? SYS_write then
    let '(n, h) := host_write (host s) (u_to_int_fd o0) (mem s) o1 o2 in
    set_reg (with_host s h) 1 n
  else if syscallno =? SYS_open then
    let '(fd, h) := host_open (host s) (mem s) o0 o1 o2 in
    set_reg (with_host s h) 1 fd
  else if syscallno =? SYS_close then set_reg s 1 0
  else if syscallno =? 17 then set_reg s 1 (s32 ((cdiv o0 8192 + 1) * 8192))
  else if syscallno =? SYS_lseek then
    let '(n, h) := host_lseek (host s) (u_to_int_fd o0) o1 o2 in
    set_reg (with_host s h) 1 n
  else if syscallno =? SYS_ioctl then
    let '(_, b, h) := host_ioctl (host s) (u_to_int_fd o0) (ioctl_request o1) (mem s) o2 in
    set_reg (with_host (with_mem s b) h) 1 0
  else if syscallno =? SYS_fstat then
    '(n, h) ← host_fstat (host s) o1 o2;
    set_reg (with_host s h) 1 n
  else if syscallno =? SYS_getpagesize then set_reg s 1 (host_getpagesize (host s))
  else Ok (Exits 2 "Unknown System call").

Definition system_break (s : Interp) : outcome stepped := system_trap s.

(** ** runprogram: the switch *)

(** The halves that [I_MULT] and [I_MULTU] multiply: the value left in [HI]. *)
Definition high_product (t1 t2 : Z) : Z :=
  let t1l := Z.land t1 0xffff in
  let t1h := Z.land (Z.shiftr t1 16) 0xffff in
  let t2l := Z.land t2 0xffff in
  let t2h := Z.land (Z.shiftr t2 16) 0xffff in
  s32 (s32 (t1h * t2h) + Z.shiftr (s32 (t1h * t2l)) 16 + Z.shiftr (s32 (t2h * t1l)) 16).

(** [I_MULT]: the values of [HI] and [LO]. *)
Definition mult_signed (a b : Z) : Z * Z :=
  let neg := xorb (a <? 0) (b <? 0) in
  let t1 := if a <? 0 then s32 (- a) else a in
  let t2 := if b <? 0 then s32 (- b) else b in
  let lo := s32 (t1 * t2) in
  let hi := high_product t1 t2 in
  if neg then
    let lo := Z.lnot lo in
    let hi := Z.lnot hi in
    let lo := s32 (lo + 1) in
    (if lo =? 0 then s32 (hi + 1) else hi, lo)
  else (hi, lo).

(** A shift by an amount outside the word is undefined. *)
Definition shift_ok (n : Z) : bool := (0 <=? n) && (n <? 32).

(** [case I_SPECIAL], up to the moves from and to [HI] and [LO]. *)
Definition exec_SLL_to_MTLO (s : Interp) (instr xpc : Z) : outcome stepped :=
  let f := Z.land instr 0x3f in
  if f =? I_SLL then a ← reg s (rt instr); set_reg s (rd instr) (s32 (Z.shiftl a (shamt instr)))
  else if f =? I_SRL then a ← reg s (rt instr); set_reg s (rd instr) (s32 (Z.shiftr (u32 a) (shamt instr)))
  else if f =? I_SRA then a ← reg s (rt instr); set_reg s (rd instr) (Z.shiftr a (shamt instr))
  else if f =? I_SLLV then
    a ← reg s (rt instr); n ← reg s (rs instr);
    if shift_ok n then set_reg s (rd instr) (s32 (Z.shiftl a n)) else Undef
  else if f =? I_SRLV then
    a ← reg s (rt instr); n ← reg s (rs instr);
    if shift_ok n then set_reg s (rd instr) (s32 (Z.shiftr (u32 a) n)) else Undef
  else if f =? I_SRAV then
    a ← reg s (rt instr); n ← reg s (rs instr);
    if shift_ok n then set_reg s (rd instr) (Z.shiftr a n) else Undef
  else if f =? I_JR then a ← reg s (rs instr); Ok (Goes (with_npc s a))
  else if f =? I_JALR then a ← reg s (rs instr); set_reg (with_npc s a) (rd instr) (s32 (xpc + 8))
  else if f =? I_SYSCALL then system_trap s
  else if f =? I_BREAK then system_break s
  else if f =? I_MFHI then set_reg s (rd instr) (HI s)
  else if f =? I_MTHI then a ← reg s (rs instr); Ok (Goes (with_HILO s a (LO s)))
  else if f =? I_MFLO then set_reg s (rd instr) (LO s)
  else if f =? I_MTLO then a ← reg s (rs instr); Ok (Goes (with_HILO s (HI s) a))
  else unimplemented.

(** [case I_SPECIAL], from the multiplications on. *)
Definition exec_MULT_to_SLTU (s : Interp) (instr : Z) : outcome stepped :=
  let f := Z.land instr 0x3f in
  a ← reg s (rs instr);
  b ← reg s (rt instr);
  if f =? I_MULT then let '(hi, lo) := mult_signed a b in Ok (Goes (with_HILO s hi lo))
  else if f =? I_MULTU then Ok (Goes (with_HILO s (high_product a b) (s32 (a * b))))
  else if f =? I_DIV then
    if (b =? 0) || ((a =? - two31) && (b =? -1)) then Undef
    else Ok (Goes (with_HILO s (cmod a b) (cdiv a b)))
  else if f =? I_DIVU then
    if u32 b =? 0 then Undef
    else Ok (Goes (with_HILO s (s32 (u32 a `mod` u32 b)) (s32 (u32 a `div` u32 b))))
  else if (f =? I_ADD) || (f =? I_ADDU) then set_reg s (rd instr) (s32 (a + b))
  else if (f =? I_SUB) || (f =? I_SUBU) then set_reg s (rd instr) (s32 (a - b))
  else if f =? I_AND then set_reg s (rd instr) (Z.land a b)
  else if f =? I_OR then set_reg s (rd instr) (Z.lor a b)
  else if f =? I_XOR then set_reg s (rd instr) (Z.lxor a b)
  else if f =? I_NOR then set_reg s (rd instr) (Z.lnot (Z.lor a b))
  else if f =? I_SLT then set_reg s (rd instr) (if a <? b then 1 else 0)
  else if f =? I_SLTU then set_reg s (rd instr) (if u32 a <? u32 b then 1 else 0)
  else unimplemented.

(** [case I_SPECIAL]. *)
Definition exec_special (s : Interp) (instr xpc : Z) : outcome stepped :=
  if Z.land instr 0x3f <? I_MULT then exec_SLL_to_MTLO s instr xpc else exec_MULT_to_SLTU s instr.

(** [case I_BCOND]. *)
Definition exec_bcond (s : Interp) (instr xpc : Z) : outcome stepped :=
  let target := s32 (xpc + 4 + Z.shiftl (immed instr) 2) in
  if rt instr =? I_BLTZ then a ← reg s (rs instr); goto_if s (a <? 0) target
  else if rt instr =? I_BGEZ then a ← reg s (rs instr); goto_if s (0 <=? a) target
  else if rt instr =? I_BLTZAL then
    r ← arr_set (Reg s) 31 (s32 (xpc + 8));
    let s := with_Reg s r in
    a ← reg s (rs instr); goto_if s (a <? 0) target
  else if rt instr =? I_BGEZAL then
    r ← arr_set (Reg s) 31 (s32 (xpc + 8));
    let s := with_Reg s r in
    a ← reg s (rs instr); goto_if s (0 <=? a) target
  else unimplemented.

(** [(xpc & 0xf0000000) | ((instr & 0x03ffffff) << 2)]. *)
Definition jump_target (instr xpc : Z) : Z :=
  s32 (Z.lor (Z.land (u32 xpc) 0xf0000000) (Z.shiftl (Z.land instr 0x03ffffff) 2)).

(** The jumps, the branches and the operations with an immediate operand. *)
Definition exec_J_to_LUI (s : Interp) (instr xpc : Z) : outcome stepped :=
  let op := Z.land (Z.shiftr instr 26) 0x3f in
  let imm := immed instr in
  let target := s32 (xpc + 4 + Z.shiftl imm 2) in
  if op =? I_J then Ok (Goes (with_npc s (jump_target instr xpc)))
  else if op =? I_JAL then
    r ← arr_set (Reg s) 31 (s32 (xpc + 8));
    Ok (Goes (with_npc (with_Reg s r) (jump_target instr xpc)))
  else
    a ← reg s (rs instr);
    b ← reg s (rt instr);
    if op =? I_BEQ then goto_if s (a =? b) target
    else if op =? I_BNE then goto_if s (negb (a =? b)) target
    else if op =? I_BLEZ then goto_if s (a <=? 0) target
    else if op =? I_BGTZ then goto_if s (0 <? a) target
    else if op =? I_ADDI then set_reg s (rt instr) (s32 (a + imm))
    else if op =? I_ADDIU then set_reg s (rt instr) (s32 (a + imm))
    else if op =? I_SLTI then set_reg s (rt instr) (if a <? imm then 1 else 0)
    else if op =? I_SLTIU then set_reg s (rt instr) (if u32 a <? u32 imm then 1 else 0)
    else if op =? I_ANDI then set_reg s (rt instr) (Z.land a imm)
    else if op =? I_ORI then set_reg s (rt instr) (Z.lor a imm)
    else if op =? I_XORI then set_reg s (rt instr) (Z.lxor a imm)
    else if op =? I_LUI then set_reg s (rt instr) (s32 (Z.shiftl instr 16))
    else unimplemented.

Definition is_coprocessor (op : Z) : bool :=
  ((I_COP0 <=? op) && (op <=? I_COP3)) || ((I_LWC0 <=? op) && (op <=? I_LWC3)) ||
  ((I_SWC0 <=? op) && (op <=? I_SWC3)).

(** The loads, the stores and what is left of the [switch]. *)
Definition exec_LB_to_end (s : Interp) (instr : Z) : outcome stepped :=
  let op := Z.land (Z.shiftr instr 26) 0x3f in
  a ← reg s (rs instr);
  b ← reg s (rt instr);
  let i := s32 (a + immed instr) in
  if op =? I_LB then v ← cfetch (mem s) i; set_reg s (rt instr) v
  else if op =? I_LH then v ← sfetch (mem s) i; set_reg s (rt instr) v
  else if op =? I_LWL then
    let b := Z.land b (Z.shiftr (-1) (8 * Z.land (- i) 0x03)) in
    v ← fetch (mem s) (s32 (Z.land (u32 i) 0xfffffffc));
    set_reg s (rt instr) (Z.lor b (s32 (Z.shiftl v (8 * Z.land i 0x03))))
  else if op =? I_LW then v ← fetch (mem s) i; set_reg s (rt instr) v
  else if op =? I_LBU then v ← ucfetch (mem s) i; set_reg s (rt instr) v
  else if op =? I_LHU then v ← usfetch (mem s) i; set_reg s (rt instr) v
  else if op =? I_LWR then
    let b := if Z.land i 0x03 =? 0 then 0 else Z.land b (s32 (Z.shiftl (-1) (8 * Z.land i 0x03))) in
    v ← fetch (mem s) (s32 (Z.land (u32 i) 0xfffffffc));
    set_reg s (rt instr) (Z.lor b (Z.shiftr v (8 * Z.land (- i) 0x03)))
  else if op =? I_SB then m ← cstore (mem s) i b; Ok (Goes (with_mem s m))
  else if op =? I_SH then m ← sstore (mem s) i b; Ok (Goes (with_mem s m))
  else if op =? I_SW then m ← store (mem s) i b; Ok (Goes (with_mem s m))
  else if is_coprocessor op then Ok (Exits 2 "Sorry, no coprocessors.")
  else unimplemented.

(** The whole [switch]. *)
Definition exec_op (s : Interp) (instr xpc : Z) : outcome stepped :=
  let op := Z.land (Z.shiftr instr 26) 0x3f in
  if op =? I_SPECIAL then exec_special s instr xpc
  else if op =? I_BCOND then exec_bcond s instr xpc
  else if op <=? I_LUI then exec_J_to_LUI s instr xpc
  else exec_LB_to_end s instr.

(** The body of the [for] loop of [runprogram]. *)
Definition step (s : Interp) : outcome stepped :=
  let xpc := pc s in
  let pc := npc s in
  let s := mkInterp (Reg s) (HI s) (LO s) (mem s) pc (s32 (pc + 4)) (s32 (icount s + 1)) (host s) in
  instr ← ifetch (mem s) xpc;
  r ← arr_set (Reg s) 0 0;
  let s := with_Reg s r in
  if instr =? 0 then Ok (Goes s) else exec_op s instr xpc.

(** [n] times round the loop. *)
Fixpoint steps (n : nat) (s : Interp) : outcome stepped :=
  match n with
  | O => Ok (Goes s)
  | S n =>
      r ← step s;
      match r with
      | Goes s => steps n s
      | Exits code text => Ok (Exits code text)
      end
  end.

(** ** runprogram: the arguments *)

(** The loop over [argv]; a string is the list of its bytes, which [strcpy] stores
    with a final 0. *)
Fixpoint setup_args (b : memory) (aci ai : Z) (argv : list (list Z)) : outcome memory :=
  match argv with
  | [] => Ok b
  | arg :: argv =>
      b ← put_all b ai (arg ++ [0]);
      b ← store b aci ai;
      setup_args b (aci + 4) (ai + Z.of_nat (length arg) + 1) argv
  end.

(** The state in which the loop starts; the memory holds the program. *)
Definition start_program (s : Interp) (startpc : Z) (argv : list (list Z)) : outcome Interp :=
  let i := MEMSIZE - 1024 + memoffset in
  r ← arr_set (Reg s) 29 i;
  b ← store (mem s) i (Z.of_nat (length argv));
  b ← setup_args b (i + 4) (i + 4 + 32) argv;
  Ok (mkInterp r (HI s) (LO s) b startpc (startpc + 4) 0 (host s)).

Definition runprogram (n : nat) (s : Interp) (startpc : Z) (argv : list (list Z)) : outcome stepped :=
  s ← start_program s startpc argv; steps n s.
End interpreter.

Arguments Interp : clear implicits.
Arguments stepped : clear implicits.

(** ** ilog2 *)

(** [if ((j = (i & mask)) != 0) { i = j; l += n; }] *)
Definition cut (il : Z * Z) (mask n : Z) : Z * Z :=
  let j := Z.land il.1 mask in
  if negb (j =? 0) then (j, il.2 + n) else il.

Definition ilog2 (i : Z) : Z :=
  if i =? 0 then 0
  else
    let r := cut (i, 1) 0xffff0000 16 in
    let r := cut r 0xff00ff00 8 in
    let r := cut r 0xf0f0f0f0 4 in
    let r := cut r 0xcccccccc 2 in
    let r := cut r 0xaaaaaaaa 1 in
    r.2.

(** ** The memory after a store *)

Lemma put_all_ok bs : forall b addr, (forall j, 0 <= j < Z.of_nat (length bs) -> in_mem (addr + j) = true) ->
  exists b', put_all b addr bs = Ok b' /\
    forall k, b' !! k = if decide (addr - memoffset <= k < addr - memoffset + Z.of_nat (length bs))
                        then bs !! Z.to_nat (k - (addr - memoffset)) else b !! k.
Proof.
  induction bs as [|x bs IH]; intros b addr Hin.
  - exists b. split; [done|]. intros k. simpl. rewrite decide_False by lia. done.
  - simpl. unfold put_byte. pose proof (Hin 0 ltac:(simpl; lia)) as H0. rewrite Z.add_0_r in H0. rewrite H0. simpl.
    destruct (IH (<[addr - memoffset := x]> b) (addr + 1)) as (b' & -> & Hb').
    { intros j Hj. rewrite <- Z.add_assoc. apply Hin. simpl. lia. }
    exists b'. split; [done|]. intros k. rewrite Hb'. cbn [length]. rewrite lookup_insert.
    destruct (decide (addr - memoffset = k)) as [<-|Hne].
    + rewrite decide_False, decide_True by lia. by rewrite Z.sub_diag.
    + destruct (decide (addr + 1 - memoffset <= k < _)).
      * rewrite decide_True by lia. replace (Z.to_nat (k - (addr - memoffset))) with (S (Z.to_nat (k - (addr + 1 - memoffset)))) by lia. done.
      * rewrite decide_False by lia. done.
Qed.


Lemma get_byte_lookup b addr x : in_mem addr = true -> b !! (addr - memoffset) = Some x -> get_byte b addr = Ok x.
Proof. intros Hin Hb. unfold get_byte. by rewrite Hin, Hb. Qed.

(** Four stored bytes are fetched as the word. *)
Lemma fetch_word b addr v : misaligned addr 4 = false ->
  (forall j x, word_bytes (u32 v) !! j = Some x -> in_mem (addr + Z.of_nat j) = true /\ b !! (addr + Z.of_nat j - memoffset) = Some x) ->
  fetch b addr = Ok (s32 v).
Proof.
  intros Hal Hb. unfold fetch. rewrite Hal.
  assert (forall j x, word_bytes (u32 v) !! j = Some x -> get_byte b (addr + Z.of_nat j) = Ok x) as Hg.
  { intros j x Hx. destruct (Hb j x Hx). by apply get_byte_lookup. }
  pose proof (Hg 0%nat _ eq_refl) as H0. rewrite Z.add_0_r in H0.
  pose proof (Hg 1%nat _ eq_refl) as H1. change (Z.of_nat 1) with 1 in H1.
  pose proof (Hg 2%nat _ eq_refl) as H2. change (Z.of_nat 2) with 2 in H2.
  pose proof (Hg 3%nat _ eq_refl) as H3. change (Z.of_nat 3) with 3 in H3.
  rewrite H0, H1, H2, H3. cbn [mbind outcome_bind]. by rewrite word_bytes_word, u32_small, s32_u32 by apply u32_range.
Qed.

(** ** The arguments *)

(** The bytes that the strings take, and where string [j] starts. *)
Definition args_size (argv : list (list Z)) : Z := foldr (fun arg n => Z.of_nat (length arg) + 1 + n) 0 argv.

(** The string of the given bytes, with its final 0, is at [p]. *)
Definition string_at (b : memory) (p : Z) (arg : list Z) : Prop :=
  forall k c, (arg ++ [0]) !! k = Some c -> in_mem (p + Z.of_nat k) = true /\ b !! (p + Z.of_nat k - memoffset) = Some c.

Lemma args_size_nonneg argv : 0 <= args_size argv.
Proof. induction argv; simpl; lia. Qed.

Lemma in_mem_range a : memoffset <= a < memoffset + MEMSIZE <-> in_mem a = true.
Proof. unfold in_mem. lia. Qed.

(** Pointers from [aci] on, strings from [ai] on, nothing else touched. *)
Record args_stored (b b' : memory) (aci ai : Z) (argv : list (list Z)) : Prop := {
  as_frame k : ~ (aci - memoffset <= k < aci - memoffset + 4 * Z.of_nat (length argv)) ->
    ~ (ai - memoffset <= k < ai - memoffset + args_size argv) -> b' !! k = b !! k;
  as_args j arg : argv !! j = Some arg ->
    exists p, fetch b' (aci + 4 * Z.of_nat j) = Ok p /\ string_at b' p arg }.

Lemma misaligned_4 a : misaligned a 4 = false <-> a `mod` 4 = 0.
Proof.
  unfold misaligned. simpl. change 0x3 with (Z.ones 2). rewrite Z.land_ones by lia. change (2 ^ 2) with 4.
  rewrite orb_false_r, negb_false_iff. apply Z.eqb_eq.
Qed.

Lemma setup_args_ok argv : forall b aci ai,
  aci `mod` 4 = 0 -> memoffset <= aci -> aci + 4 * Z.of_nat (length argv) <= ai ->
  ai + args_size argv <= memoffset + MEMSIZE ->
  exists b', setup_args b aci ai argv = Ok b' /\ args_stored b b' aci ai argv.
Proof.
  induction argv as [|arg argv IH]; intros b aci ai Hal Hlo Hmid Hhi.
  { exists b. split; [done|]. by split. }
  cbn [setup_args length args_size foldr] in *. fold (args_size argv) in *. pose proof (args_size_nonneg argv) as Hn.
  destruct (put_all_ok (arg ++ [0]) b ai) as (b1 & E1 & Hb1).
  { intros j Hj. apply in_mem_range. rewrite length_app in Hj. simpl in Hj. lia. }
  rewrite E1. cbn [mbind outcome_bind]. unfold store. rewrite (proj2 (misaligned_4 aci) Hal).
  destruct (put_all_ok (word_bytes (u32 ai)) b1 aci) as (b2 & E2 & Hb2).
  { intros j Hj. apply in_mem_range. simpl in Hj. lia. }
  rewrite E2. cbn [mbind outcome_bind].
  destruct (IH b2 (aci + 4) (ai + Z.of_nat (length arg) + 1)) as (b' & E' & [Hframe Hargs]); [dlia|lia..|].
  exists b'. split; [done|]. rewrite length_app in Hb1. simpl in Hb1, Hb2.
  assert (forall k, ~ (aci + 4 - memoffset <= k < aci + 4 - memoffset + 4 * Z.of_nat (length argv)) ->
    ~ (ai + Z.of_nat (length arg) + 1 - memoffset <= k < ai + Z.of_nat (length arg) + 1 - memoffset + args_size argv) ->
    ~ (aci - memoffset <= k < aci - memoffset + 4) -> b' !! k = b1 !! k) as Hold.
  { intros k H1 H2 H3. rewrite Hframe by done. rewrite Hb2, decide_False by done. done. }
  split.
  - intros k H1 H2. cbn [length args_size foldr] in H1, H2. fold (args_size argv) in H2.
    rewrite Hold by lia. rewrite Hb1, decide_False by lia. done.
  - intros [|j] arg' Hj; simpl in Hj.
    + injection Hj as <-. exists ai. rewrite Z.mul_0_r, Z.add_0_r. split.
      * rewrite <- (s32_small ai) by (unfold is_s32, two31, memoffset, MEMSIZE in *; rewrite Z.shiftl_mul_pow2 in Hhi by lia; lia).
        apply fetch_word; [by apply misaligned_4|]. intros j x Hx. pose proof (lookup_lt_Some _ _ _ Hx) as Hl. simpl in Hl.
        split; [apply in_mem_range; lia|]. rewrite Hframe by lia. rewrite Hb2, decide_True by lia. rewrite <- Hx. f_equal. lia.
      * intros k c Hk. pose proof (lookup_lt_Some _ _ _ Hk) as Hl. rewrite length_app in Hl. simpl in Hl.
        split; [apply in_mem_range; lia|]. rewrite Hold by lia. rewrite Hb1, decide_True by lia. rewrite <- Hk. f_equal. lia.
    + destruct (Hargs j arg' Hj) as (p & Hp & Hs). exists p. split; [|done]. rewrite <- Hp. f_equal. lia.
Qed.

(** C37. The program finds its arguments: with at most eight of them, in at most 988 bytes
    with their final zeros, [runprogram] starts with the stack pointer at the word that
    holds [argc], and the words after it point to copies of the argument strings, in
    order. Of the memory nothing changes but these words and the bytes from 36 behind the
    stack pointer on that the copies take up, and of the registers nothing but the stack
    pointer. *)
Theorem arguments_passed {H} (s : Interp H) startpc argv :
  length (Reg s) = 32%nat -> (length argv <= 8)%nat -> args_size argv <= 988 ->
  exists s' sp, start_program s startpc argv = Ok s' /\ pc s' = startpc /\ npc s' = startpc + 4 /\
    reg s' 29 = Ok sp /\ fetch (mem s') sp = Ok (Z.of_nat (length argv)) /\
    (forall j arg, argv !! j = Some arg -> exists p, fetch (mem s') (sp + 4 + 4 * Z.of_nat j) = Ok p /\ string_at (mem s') p arg) /\
    (forall a, ~ (sp <= a < sp + 4 + 4 * Z.of_nat (length argv)) -> ~ (sp + 36 <= a < sp + 36 + args_size argv) ->
       mem s' !! (a - memoffset) = mem s !! (a - memoffset)) /\
    Reg s' = <[29%nat := sp]> (Reg s) /\ HI s' = HI s /\ LO s' = LO s /\ host s' = host s.
Proof.
  intros Hlen Hargc Hsize. unfold start_program. change (MEMSIZE - 1024 + memoffset) with 285211648.
  rewrite arr_set_in by lia. cbn [mbind outcome_bind]. unfold store. change (misaligned 285211648 4) with false. cbv iota.
  destruct (put_all_ok (word_bytes (u32 (Z.of_nat (length argv)))) (mem s) 285211648) as (b1 & E1 & Hb1).
  { intros j Hj. simpl in Hj. apply in_mem_range. change (memoffset + MEMSIZE) with 285212672. unfold memoffset. lia. }
  rewrite E1. cbn [mbind outcome_bind].
  destruct (setup_args_ok argv b1 (285211648 + 4) (285211648 + 4 + 32)) as (b2 & E2 & [Hframe Hargs]);
    [done|unfold memoffset; lia|lia|change (memoffset + MEMSIZE) with 285212672; lia|].
  rewrite E2. cbn [mbind outcome_bind]. eexists _, 285211648. split; [done|]. cbn [pc npc mem].
  split_and!; try done.
  - unfold reg. cbn [Reg]. apply arr_get_ok. split; [lia|]. apply list_lookup_insert_eq. simpl. lia.
  - rewrite <- (s32_small (Z.of_nat (length argv))) at 1 by (unfold is_s32, two31; lia).
    apply fetch_word; [done|]. intros j x Hx. pose proof (lookup_lt_Some _ _ _ Hx) as Hl. simpl in Hl.
    split; [apply in_mem_range; change (memoffset + MEMSIZE) with 285212672; unfold memoffset; lia|].
    rewrite Hframe by (unfold memoffset; lia). rewrite Hb1. simpl length. rewrite decide_True by (unfold memoffset; lia).
    rewrite <- Hx. f_equal. lia.
  - intros a Hw Hs. rewrite Hframe by lia. rewrite Hb1, decide_False by (simpl; lia). done.
Qed.

Lemma arguments_passed_witness :
  exists s' sp, start_program (mkInterp (replicate 32 0) 0 0 ∅ 0 0 0 tt) memoffset [[99; 97; 116]; [120]] = Ok s' /\
    reg s' 29 = Ok sp /\ fetch (mem s') sp = Ok 2 /\
    (exists p, fetch (mem s') (sp + 4) = Ok p /\ string_at (mem s') p [99; 97; 116]) /\
    (exists p, fetch (mem s') (sp + 8) = Ok p /\ string_at (mem s') p [120]).
Proof.
  destruct (arguments_passed (mkInterp (replicate 32 0) 0 0 ∅ 0 0 0 tt) memoffset [[99; 97; 116]; [120]])
    as (s' & sp & E & _ & _ & Hsp & Hc & Ha & _); [reflexivity|simpl; lia|simpl; lia|].
  exists s', sp. split; [exact E|]. split; [exact Hsp|]. split; [exact Hc|]. split.
  - destruct (Ha 0%nat _ eq_refl) as (p & Hp & Hs). exists p. split; [|exact Hs]. rewrite <- Hp. f_equal. lia.
  - destruct (Ha 1%nat _ eq_refl) as (p & Hp & Hs). exists p. split; [|exact Hs]. rewrite <- Hp. f_equal. lia.
Defined.

(** A ninth argument does not fit: the word for its address lies where the first string
    starts, and overwrites it. *)
Lemma ninth_argument :
  let args := replicate 9 [97] in
  exists s' p, start_program (mkInterp (replicate 32 0) 0 0 ∅ 0 0 0 tt) memoffset args = Ok s' /\
    fetch (mem s') (MEMSIZE - 1024 + memoffset + 4) = Ok p /\ get_byte (mem s') p = Ok 52.
Proof.
  cbv zeta.
  assert (match start_program (mkInterp (replicate 32 0) 0 0 ∅ 0 0 0 tt) memoffset (replicate 9 [97]) with
          | Ok s' => fetch (mem s') (MEMSIZE - 1024 + memoffset + 4) = Ok 285211684 /\ get_byte (mem s') 285211684 = Ok 52
          | _ => False end) as Hrun by (vm_compute; done).
  destruct (start_program _ _ _) as [s'| | |]; try done. destruct Hrun. eauto.
Qed.

(** ** ilog2 *)

(** All bits of [i] are in one block of [w] bits, number [q], together with the highest bit of the
    argument; [l] counts the bits below the block. *)
Definition narrowed (i0 w : Z) (il : Z * Z) : Prop :=
  exists q, 0 <= q /\ w * (q + 1) <= 32 /\ il.2 = 1 + w * q /\ 0 < il.1 /\ Z.log2 il.1 = Z.log2 i0 /\
    forall n, 0 <= n -> Z.testbit il.1 n = true -> w * q <= n < w * (q + 1).

(** The mask selects every other block of [w] bits. *)
Definition selects (mask w : Z) : bool :=
  (0 <? w) && forallb (fun n => eqb (Z.testbit mask n) ((n `div` w) `mod` 2 =? 1)) (seqZ 0 32).

Lemma selects_bit mask w n : selects mask w = true -> 0 <= n < 32 -> Z.testbit mask n = ((n `div` w) `mod` 2 =? 1).
Proof.
  intros [_ Hs]%andb_true_iff Hn. rewrite forallb_forall in Hs. specialize (Hs n).
  rewrite <- list_elem_of_In, elem_of_seqZ in Hs. apply eqb_prop, Hs. lia.
Qed.

Lemma upper_half w q n : 0 < w -> 2 * w * q <= n < 2 * w * (q + 1) -> ((n `div` w) `mod` 2 =? 1) = (w * (2 * q + 1) <=? n).
Proof.
  intros Hw Hn. destruct (Z.leb_spec (w * (2 * q + 1)) n).
  - rewrite <- (Z.div_unique n w (2 * q + 1) (n - w * (2 * q + 1))) by nia. apply Z.eqb_eq. symmetry. apply (Z.mod_unique _ _ q); lia.
  - rewrite <- (Z.div_unique n w (2 * q) (n - w * (2 * q))) by nia. apply Z.eqb_neq. rewrite <- (Z.mod_unique (2 * q) 2 q 0); lia.
Qed.

Lemma testbit_log2 x n : 0 <= x -> Z.testbit x n = true -> n <= Z.log2 x.
Proof. intros Hx Hb. destruct (Z.le_gt_cases n (Z.log2 x)); [done|]. by rewrite Z.bits_above_log2 in Hb by lia. Qed.

Lemma cut_narrows i0 w mask il : selects mask w = true -> narrowed i0 (2 * w) il -> narrowed i0 w (cut il mask w).
Proof.
  destruct il as [i l]. intros Hsel (q & Hq & H32 & Hl & Hi & Hlog & Hbits). unfold narrowed, cut. cbn [fst snd] in *.
  assert (0 < w) as Hw by (apply andb_true_iff in Hsel as [Hw _]; lia).
  assert (forall n, 0 <= n -> Z.testbit (Z.land i mask) n = Z.testbit i n && (w * (2 * q + 1) <=? n)) as Hland.
  { intros n Hn. rewrite Z.land_spec. destruct (Z.testbit i n) eqn:Hb; [|done]. pose proof (Hbits n Hn Hb).
    rewrite (selects_bit mask w n Hsel) by nia. rewrite (upper_half w q n) by done. done. }
  destruct (Z.eqb_spec (Z.land i mask) 0) as [Hz|Hnz]; cbn [negb fst snd].
  - exists (2 * q). split_and!; try done; try nia. intros n Hn Hb. pose proof (Hbits n Hn Hb).
    pose proof (Hland n Hn) as Hx. rewrite Hz, Z.bits_0, Hb in Hx. destruct (Z.leb_spec (w * (2 * q + 1)) n); [done|]. nia.
  - assert (0 <= Z.land i mask) as Hj0 by (apply Z.land_nonneg; lia).
    pose proof (Z.bit_log2 i Hi) as Htop. pose proof (Z.bit_log2 (Z.land i mask) ltac:(lia)) as Htop'.
    pose proof (Z.log2_nonneg (Z.land i mask)) as Hn'. pose proof (Z.log2_nonneg i) as Hn.
    rewrite Hland in Htop' by done. apply andb_true_iff in Htop' as [Hb' Hle%Z.leb_le].
    pose proof (testbit_log2 i _ ltac:(lia) Hb') as Hup.
    assert (Z.testbit (Z.land i mask) (Z.log2 i) = true) as Hdown%testbit_log2 by (rewrite Hland, Htop by done; lia); [|done].
    exists (2 * q + 1). split_and!; try nia. intros n Hn0 Hb. rewrite Hland in Hb by done.
    apply andb_true_iff in Hb as [Hb Hle'%Z.leb_le]. pose proof (Hbits n Hn0 Hb). nia.
Qed.

(** [ilog2] is the number of bits of its argument, read as an unsigned number: 0 for 0,
    and one more than the index of the highest bit otherwise. *)
Theorem ilog2_bits i : is_s32 i -> ilog2 i = if decide (i = 0) then 0 else Z.log2 (u32 i) + 1.
Proof.
  intros Hi. unfold ilog2. destruct (Z.eqb_spec i 0) as [->|Hne]; [done|]. rewrite decide_False by done. cbv zeta.
  assert (cut (i, 1) 0xffff0000 16 = cut (u32 i, 1) 0xffff0000 16) as ->.
  { destruct (Z.le_gt_cases 0 i) as [Hpos|Hneg]; [by rewrite u32_small by (unfold is_s32, is_u32, two31, two32 in *; lia)|].
    assert (Z.land (u32 i) 0xffff0000 = Z.land i 0xffff0000) as E.
    { unfold u32. change two32 with (2 ^ 32). rewrite <- Z.land_ones by lia. by rewrite <- Z.land_assoc. }
    assert (Z.testbit i 31 = true) as Hb.
    { apply Z.bits_above_log2_neg; [lia|]. destruct (Z.eq_dec (Z.pred (- i)) 0) as [-> |]; [done|].
      apply Z.log2_lt_pow2; unfold is_s32, two31 in Hi; lia. }
    unfold cut. cbn [fst snd]. rewrite E. destruct (Z.eqb_spec (Z.land i 0xffff0000) 0) as [Hz|]; [exfalso|done].
    apply (f_equal (fun z => Z.testbit z 31)) in Hz. rewrite Z.land_spec, Hb, Z.bits_0 in Hz. discriminate Hz. }
  assert (narrowed (u32 i) 32 (u32 i, 1)) as Hn.
  { pose proof (u32_range i) as Hr. assert (u32 i <> 0).
    { intros E. apply Hne. rewrite <- (s32_small i) by done. by apply (s32_cong i 0). }
    exists 0. split_and!; cbn [fst snd]; try (unfold is_u32, two32 in *; lia); try done.
    intros n Hn Hb. apply testbit_log2 in Hb; [|apply Hr]. assert (Z.log2 (u32 i) < 32); [|lia].
    apply Z.log2_lt_pow2; unfold is_u32, two32 in *; lia. }
  apply (cut_narrows _ 16 0xffff0000) in Hn; [|done]. apply (cut_narrows _ 8 0xff00ff00) in Hn; [|done].
  apply (cut_narrows _ 4 0xf0f0f0f0) in Hn; [|done]. apply (cut_narrows _ 2 0xcccccccc) in Hn; [|done].
  apply (cut_narrows _ 1 0xaaaaaaaa) in Hn; [|done]. destruct Hn as (q & Hq & H32 & Hl & Hpos & Hlog & Hbits).
  rewrite Hl. pose proof (Hbits _ (Z.log2_nonneg _) (Z.bit_log2 _ Hpos)). lia.
Qed.

Lemma ilog2_bits_witness : ilog2 0x12345 = 17.
Proof. rewrite (ilog2_bits 0x12345); [reflexivity|]. unfold is_s32, two31. lia. Defined.

(** The table in the comment before [ilog2] lists 1 for 2 and 2 for 4. *)
Lemma ilog2_comment : ilog2 2 = 2 /\ ilog2 4 = 3.
Proof. done. Qed.

(** ** Machine words *)

(** The host returns ints, and stores bytes. *)
Class HostTyped (H : Type) `{HostOS H} : Prop := {
  read_typed h fd b a n : map_Forall (fun _ => is_byte) b ->
    is_s32 (host_read h fd b a n).1.1 /\ map_Forall (fun _ => is_byte) (host_read h fd b a n).1.2;
  write_typed h fd b a n : is_s32 (host_write h fd b a n).1;
  open_typed h b a f md : is_s32 (host_open h b a f md).1;
  lseek_typed h fd o w : is_s32 (host_lseek h fd o w).1;
  ioctl_typed h fd r b a : map_Forall (fun _ => is_byte) b -> map_Forall (fun _ => is_byte) (host_ioctl h fd r b a).1.2;
  fstat_typed h a b n h' : host_fstat h a b = Ok (n, h') -> is_s32 n;
  getpagesize_typed h : is_s32 (host_getpagesize h) }.

Section typing.
Context {H : Type} `{HostTyped H}.
Implicit Types s : Interp H.

(** Thirty-two registers of 32 bits, memory of bytes. *)
Record typed s : Prop := {
  ty_len : length (Reg s) = 32%nat;
  ty_regs : Forall is_s32 (Reg s);
  ty_hi : is_s32 (HI s);
  ty_lo : is_s32 (LO s);
  ty_pc : is_s32 (pc s);
  ty_npc : is_s32 (npc s);
  ty_mem : map_Forall (fun _ => is_byte) (mem s) }.

Definition goes_typed (o : outcome (stepped H)) : Prop := forall s', o = Ok (Goes s') -> typed s'.

Lemma typed_bind {A} (o : outcome A) f : (forall a, o = Ok a -> goes_typed (f a)) -> goes_typed (o ≫= f).
Proof. intros Hf s' Hb. apply bind_ok in Hb as (a & Ho & Hb). by apply (Hf a Ho). Qed.

Lemma typed_if (c : bool) a b : (c = true -> goes_typed a) -> (c = false -> goes_typed b) -> goes_typed (if c then a else b).
Proof. destruct c; auto. Qed.

Lemma typed_reg s i f : typed s -> (forall a, is_s32 a -> goes_typed (f a)) -> goes_typed (reg s i ≫= f).
Proof.
  intros Hs Hf. apply typed_bind. intros a Ha. apply Hf. apply arr_get_ok in Ha as [_ Ha]. by eapply Forall_lookup_1; [apply Hs|].
Qed.

Lemma typed_set_reg s i v : typed s -> is_s32 v -> goes_typed (set_reg s i v).
Proof.
  intros [Hl Hr Hh Ho Hp Hn Hm] Hv s' Hs. apply bind_ok in Hs as (r & Hs & E). injection E as <-.
  apply arr_set_ok in Hs as [_ ->]. split; simpl; try done; [by rewrite length_insert|by apply Forall_insert].
Qed.

Lemma typed_link s i v f : typed s -> is_s32 v -> (forall r, typed (with_Reg s r) -> goes_typed (f r)) ->
  goes_typed (arr_set (Reg s) i v ≫= f).
Proof.
  intros Hs Hv Hf. apply typed_bind. intros r Hr. apply Hf.
  pose proof (typed_set_reg s i v Hs Hv (with_Reg s r)) as Ht. unfold set_reg in Ht. rewrite Hr in Ht. by apply Ht.
Qed.

Lemma typed_npc s a : typed s -> is_s32 a -> goes_typed (Ok (Goes (with_npc s a))).
Proof. intros [] Ha s' [= <-]. by split. Qed.

Lemma typed_goto s c a : typed s -> is_s32 a -> goes_typed (goto_if s c a).
Proof. intros Hs Ha s' [= <-]. destruct c; [|done]. by apply (typed_npc s a). Qed.

Lemma typed_hilo s hi lo : typed s -> is_s32 hi -> is_s32 lo -> goes_typed (Ok (Goes (with_HILO s hi lo))).
Proof. intros [] Hh Hl s' [= <-]. by split. Qed.

Lemma typed_exit code text : goes_typed (Ok (Exits code text)).
Proof. by intros s'. Qed.

Lemma typed_undef : goes_typed Undef.
Proof. by intros s'. Qed.

Lemma typed_host s b h : typed s -> map_Forall (fun _ => is_byte) b -> typed (with_host (with_mem s b) h).
Proof. intros [] Hb. by split. Qed.

Lemma typed_host_only s h : typed s -> typed (with_host s h).
Proof. intros []. by split. Qed.

Lemma get_byte_typed b a x : map_Forall (fun _ => is_byte) b -> get_byte b a = Ok x -> is_byte x.
Proof.
  unfold get_byte. intros Hb. destruct (in_mem a); [|done]. intros [= <-]. destruct (b !! _) as [y|] eqn:E; [|by split]. by eapply Hb.
Qed.

Lemma fetches_typed b a x : map_Forall (fun _ => is_byte) b ->
  fetch b a = Ok x \/ cfetch b a = Ok x \/ ucfetch b a = Ok x \/ sfetch b a = Ok x \/ usfetch b a = Ok x -> is_s32 x.
Proof.
  intros Hb. assert (forall y, get_half b a = Ok y -> 0 <= y < 65536) as Hh.
  { intros y. unfold get_half. destruct (misaligned a 2); [done|]. intros Hy. apply bind_ok in Hy as (b0 & Hb0 & Hy).
    apply bind_ok in Hy as (b1 & Hb1 & Hy). injection Hy as <-. apply get_byte_typed in Hb0, Hb1; [|done..].
    unfold bytes_word, is_byte in *. lia. }
  intros [Hx|[Hx|[Hx|[Hx|Hx]]]].
  - unfold fetch in Hx. destruct (misaligned a 4); [done|]. repeat (apply bind_ok in Hx as (? & _ & Hx)). injection Hx as <-. apply s32_range.
  - apply bind_ok in Hx as (y & Hy & Hx). injection Hx as <-. apply get_byte_typed in Hy; [|done].
    unfold s8, is_byte, is_s32, two31 in *. destruct (Z.leb_spec 128 y); lia.
  - apply get_byte_typed in Hx; [|done]. unfold is_byte, is_s32, two31 in *. lia.
  - apply bind_ok in Hx as (y & Hy & Hx). injection Hx as <-. apply Hh in Hy. unfold is_s32, two31. destruct (Z.leb_spec 32768 y); lia.
  - apply Hh in Hx. unfold is_s32, two31. lia.
Qed.

Lemma put_all_typed bs : forall b a b', map_Forall (fun _ => is_byte) b -> Forall is_byte bs -> put_all b a bs = Ok b' ->
  map_Forall (fun _ => is_byte) b'.
Proof.
  induction bs as [|x bs IH]; intros b a b' Hb Hbs Hp; [by injection Hp as <-|]. inversion_clear Hbs.
  apply bind_ok in Hp as (b1 & Hb1 & Hp). apply (IH b1 (a + 1)); [|done|done]. unfold put_byte in Hb1. destruct (in_mem a); [|done].
  injection Hb1 as <-. by apply map_Forall_insert_2.
Qed.

Lemma stores_typed b a v b' : map_Forall (fun _ => is_byte) b ->
  store b a v = Ok b' \/ sstore b a v = Ok b' \/ cstore b a v = Ok b' -> map_Forall (fun _ => is_byte) b'.
Proof.
  intros Hb [Hs|[Hs|Hs]].
  - unfold store in Hs. destruct (misaligned a 4); [done|]. eapply put_all_typed; [done| |done]. apply word_bytes_byte.
  - unfold sstore in Hs. destruct (misaligned a 2); [done|]. eapply put_all_typed; [done| |done]. apply Forall_take, word_bytes_byte.
  - apply (put_all_typed [v `mod` 256] b a); [done| |].
    + apply Forall_singleton. unfold is_byte. dlia.
    + simpl. unfold cstore in Hs. by rewrite Hs.
Qed.

Lemma typed_stored s a v (o : outcome memory) : typed s ->
  (forall b', o = Ok b' -> store (mem s) a v = Ok b' \/ sstore (mem s) a v = Ok b' \/ cstore (mem s) a v = Ok b') ->
  goes_typed (m ← o; Ok (Goes (with_mem s m))).
Proof.
  intros Hs Ho. apply typed_bind. intros b' Hb s' [= <-]. pose proof (stores_typed _ _ _ _ (ty_mem _ Hs) (Ho b' Hb)). destruct Hs. by split.
Qed.

(** A value that an instruction computes is a word. *)
Ltac word :=
  first [done | apply s32_range | solve [auto with nachos]
        | apply is_s32_srl; [lia|done]
        | apply is_s32_if; first [done|by split]
        | apply is_s32_lor; [|apply is_s32_srl; [lia|done]]; apply is_s32_if; [by split|]; auto using s32_range with nachos
        | apply is_s32_lor; [auto using s32_range with nachos|apply s32_range]].

Lemma with_npc_typed s a : typed s -> is_s32 a -> typed (with_npc s a).
Proof. intros Hs Ha. by apply (typed_npc s a). Qed.

Ltac word_step :=
  repeat match goal with
  | |- goes_typed (if _ then _ else _) => apply typed_if; intros ?
  | |- goes_typed (reg _ _ ≫= _) => apply typed_reg; [done|]; intros ? ?
  | |- goes_typed (arr_set _ _ _ ≫= _) => apply typed_link; [done|apply s32_range|]; intros ? ?
  | |- goes_typed (set_reg _ _ _) => apply typed_set_reg; [first [done|by apply with_npc_typed]|]
  | |- goes_typed (goto_if _ _ _) => apply typed_goto; [done|apply s32_range]
  | |- goes_typed (Ok (Goes (with_npc _ _))) => apply typed_npc; [done|]
  | |- goes_typed (Ok (Goes (with_HILO _ _ _))) => apply typed_hilo; [done| |]
  | |- goes_typed (Ok (Exits _ _)) => apply typed_exit
  | |- goes_typed unimplemented => apply typed_exit
  | |- goes_typed Undef => apply typed_undef
  | Hs : typed ?s |- is_s32 (HI ?s) => apply (ty_hi _ Hs)
  | Hs : typed ?s |- is_s32 (LO ?s) => apply (ty_lo _ Hs)
  end.

Lemma shamt_bits i : 0 <= shamt i < 32.
Proof. by apply (land_mask_range _ _ 5). Qed.

Lemma immed_range i : is_s32 i -> is_s32 (immed i).
Proof.
  intros Hi. unfold immed. apply is_s32_if; [apply is_s32_lor; [done|by split]|]. by apply (is_s32_low _ _ 15).
Qed.

Lemma system_trap_typed s : typed s -> goes_typed (system_trap s).
Proof.
  intros Hs. unfold system_trap, u_to_int_fd. word_step; try word.
  - destruct (read_typed (host s) a0 (mem s) a1 a2 (ty_mem _ Hs)) as [Hn Hb]. destruct (host_read _ _ _ _ _) as [[n b] h].
    apply typed_set_reg; [by apply typed_host|done].
  - pose proof (write_typed (host s) a0 (mem s) a1 a2) as Hn. destruct (host_write _ _ _ _ _) as [n h].
    apply typed_set_reg; [by apply typed_host_only|done].
  - pose proof (open_typed (host s) (mem s) a0 a1 a2) as Hn. destruct (host_open _ _ _ _ _) as [n h].
    apply typed_set_reg; [by apply typed_host_only|done].
  - pose proof (lseek_typed (host s) a0 a1 a2) as Hn. destruct (host_lseek _ _ _ _) as [n h].
    apply typed_set_reg; [by apply typed_host_only|done].
  - pose proof (ioctl_typed (host s) a0 (ioctl_request a1) (mem s) a2 (ty_mem _ Hs)) as Hb. destruct (host_ioctl _ _ _ _ _) as [[n b] h].
    apply typed_set_reg; [by apply typed_host|by split].
  - apply typed_bind. intros [n h] Hf. apply fstat_typed in Hf. apply typed_set_reg; [by apply typed_host_only|done].
  - apply getpagesize_typed.
Qed.

Lemma exec_special_typed s i xpc : typed s -> goes_typed (exec_special s i xpc).
Proof.
  intros Hs. pose proof (shamt_bits i). unfold exec_special. apply typed_if; intros _.
  - unfold exec_SLL_to_MTLO, system_break. cbv zeta.
    word_step; try (by apply system_trap_typed); try word. all: try (apply is_s32_srl; [unfold shift_ok in *; lia|done]).
  - unfold exec_MULT_to_SLTU. cbv zeta. word_step; try word.
    + destruct (mult_signed a a0) as [hi lo] eqn:E. unfold mult_signed in E. apply typed_hilo; [done| |];
        destruct (xorb _ _); injection E as <- <-; try apply s32_range; repeat apply is_s32_if; try apply s32_range; apply is_s32_lnot, s32_range.
    + by apply cmod_range.
    + match goal with Hc : _ || _ = false |- _ => apply orb_false_iff in Hc as [Hz%Z.eqb_neq Hov] end.
      apply cdiv_range; [done| |done]. intros [-> ->]. by rewrite !Z.eqb_refl in Hov.
Qed.

Lemma exec_op_typed s i xpc : typed s -> is_s32 i -> goes_typed (exec_op s i xpc).
Proof.
  intros Hs Hi. pose proof (immed_range i Hi) as Himm. unfold exec_op. cbv zeta.
  repeat (match goal with |- goes_typed (if _ then _ else _) => apply typed_if; intros _ end).
  - by apply exec_special_typed.
  - unfold exec_bcond. cbv zeta. word_step.
  - unfold exec_J_to_LUI. cbv zeta. word_step; try word.
  - unfold exec_LB_to_end. cbv zeta. word_step.
    all: try (by eapply typed_stored; [done|]; eauto).
    all: apply typed_bind; intros v Hv; apply typed_set_reg; [done|].
    all: assert (is_s32 v) as Hw by (eapply (fetches_typed (mem s)); [apply (ty_mem _ Hs)|eauto 6]).
    all: try done.
    + apply is_s32_lor; [|apply s32_range]. apply is_s32_land; [done|]. apply is_s32_srl; [|by split].
      pose proof (land_mask_range (- s32 (a + immed i)) 0x03 2 ltac:(lia) eq_refl). lia.
    + apply is_s32_lor; [apply is_s32_if; [by split|apply is_s32_land; [done|apply s32_range]]|].
      apply is_s32_srl; [|done]. pose proof (land_mask_range (- s32 (a + immed i)) 0x03 2 ltac:(lia) eq_refl). lia.
Qed.

(** The definitions wrap wherever the program computes with ints: registers, [HI], [LO] and the
    program counters stay in the range of an int and the memory holds bytes. *)
Lemma step_typed s s' : typed s -> step s = Ok (Goes s') -> typed s'.
Proof.
  intros Hs Hstep. unfold step in Hstep. cbv zeta in Hstep. apply bind_ok in Hstep as (i & Hi & Hstep).
  apply bind_ok in Hstep as (r & Hr & Hstep). apply arr_set_ok in Hr as [_ ->]. cbn [Reg mem] in *.
  assert (is_s32 i) as Hri by (eapply (fetches_typed (mem s)); [apply (ty_mem _ Hs)|by left]).
  set (s1 := with_Reg _ _) in Hstep.
  assert (typed s1) as Hs1.
  { destruct Hs. split; simpl; try done; [by rewrite length_insert|by apply Forall_insert|apply s32_range]. }
  destruct (i =? 0); [by injection Hstep as <-|]. by eapply exec_op_typed.
Qed.
End typing.

(** A host without files. *)
#[export, refine] Instance no_host : HostOS unit := {|
  SYS_exit := 1; SYS_read := 3; SYS_write := 4; SYS_open := 5; SYS_close := 6; SYS_lseek := 19; SYS_ioctl := 54; SYS_fstat := 62;
  SYS_getpagesize := 64;
  host_read h _ b _ _ := (-1, b, h); host_write h _ _ _ _ := (-1, h); host_open h _ _ _ _ := (-1, h);
  host_lseek h _ _ _ := (-1, h); host_ioctl h _ _ b _ := (-1, b, h); host_fstat _ _ _ := Undef;
  host_getpagesize _ := 4096 |}.
Proof. apply (bool_decide_unpack _). vm_compute. exact I. Defined.

#[export] Instance no_host_typed : HostTyped unit.
Proof. by split. Qed.

(** [addiu r3,0,5]. *)
Definition small_program : Interp unit :=
  mkInterp (replicate 32 0) 0 0 (list_to_map (imap (fun k b => (Z.of_nat k, b)) (word_bytes 0x24030005))) memoffset (memoffset + 4) 0 tt.

(** ** Where the interpreter departs from the processor *)

(** The high word of a product lacks the carries of the partial products. *)
Lemma mult_high_wrong : mult_signed 0x7fffffff 0x7fffffff = (0x3ffffffd, 1) /\ 0x7fffffff * 0x7fffffff = 0x3fffffff * two32 + 1.
Proof. done. Qed.

(** The immediate operand of [ORI] is extended with its sign: [ori r3,0,0x8000] sets the high half too. *)
Lemma ori_extends :
  exec_op small_program 0x34038000 memoffset = Ok (Goes (with_Reg small_program (<[3%nat := -32768]> (replicate 32 0)))).
Proof. vm_compute. reflexivity. Qed.

(** [LWL] clears nothing: the shift of -1 that makes its mask is arithmetic. *)
Lemma lwl_mask i : Z.shiftr (-1) (8 * Z.land (- i) 0x03) = -1.
Proof.
  assert (0 <= Z.land (- i) 0x03) by (apply Z.land_nonneg; lia). rewrite Z.shiftr_div_pow2 by lia.
  symmetry. apply (Z.div_unique _ _ (-1) (2 ^ (8 * Z.land (- i) 3) - 1)); [left|];
    pose proof (Z.pow_pos_nonneg 2 (8 * Z.land (- i) 3)); lia.
Qed.

(** [fstat] is called with the second and the third argument of the system call. *)
Lemma fstat_arguments {H} `{HostOS H} (s : Interp H) o0 o1 o2 :
  reg s 2 = Ok SYS_fstat -> reg s 4 = Ok o0 -> reg s 5 = Ok o1 -> reg s 6 = Ok o2 ->
  system_trap s = ('(n, h) ← host_fstat (host s) o1 o2; set_reg (with_host s h) 1 n).
Proof.
  intros E2 E4 E5 E6. pose proof SYS_labels as Hnd. rewrite !NoDup_cons, !not_elem_of_cons in Hnd. destruct_and! Hnd.
  unfold system_trap. rewrite E2, E4, E5, E6. cbn [mbind outcome_bind]. rewrite !(proj2 (Z.eqb_neq SYS_fstat _)) by congruence.
  by rewrite Z.eqb_refl.
Qed.
