(* ===== verification/InterpMachine.v ===== *)
(** * The two simulators of the processor

    bin/execute.c and machine/mipssim.cc interpret the same instructions over different
    state: the first writes a loaded register at once and has a flat memory, the second
    has a load delay slot and a translated memory. This file relates the two states and
    shows that, on the instructions where the two programs mean the same, the
    interpreter of bin/ follows the simulated machine step by step; where they differ,
    it says how. *)

From stdpp Require Import prelude list numbers gmap strings.
From S2P Require Import Prelude Params Mips Machine Interp.

Open Scope Z_scope.

(** ** Fields of an instruction *)

Lemma u32_low_bit v n : 0 <= n < 32 -> Z.testbit (u32 v) n = Z.testbit v n.
Proof. intros Hn. unfold u32. change two32 with (2 ^ 32). apply Z.mod_pow2_bits_low. lia. Qed.

Lemma field_u32 v k w m : 0 <= k -> 0 <= w -> k + w <= 32 -> m = Z.ones w ->
  Z.land (Z.shiftr (u32 v) k) m = Z.land (Z.shiftr v k) m.
Proof.
  intros Hk Hw Hkw ->. apply Z.bits_inj'. intros n Hn. rewrite !Z.land_spec, !Z.shiftr_spec by lia.
  destruct (Z.ltb_spec n w) as [Hl|Hl].
  - rewrite u32_low_bit by lia. done.
  - rewrite Z.ones_spec_high by lia. by rewrite !andb_false_r.
Qed.

Lemma low_u32 v w m : 0 <= w <= 32 -> m = Z.ones w -> Z.land (u32 v) m = Z.land v m.
Proof. intros Hw ->. pose proof (field_u32 v 0 w (Z.ones w)) as Hf. rewrite !Z.shiftr_0_r in Hf. apply Hf; lia || done. Qed.

(** Bit 15, and the sign extension of the low half. *)
Lemma bit15 v : (Z.land v 0x8000 =? 0) = (v `mod` 65536 <? 32768).
Proof.
  rewrite Z.land_comm.
  assert (Z.land 0x8000 v = if Z.testbit v 15 then 32768 else 0) as ->.
  { change 0x8000 with (2 ^ 15). apply Z.bits_inj'. intros n Hn. rewrite Z.land_spec, Z.pow2_bits_eqb by lia.
    destruct (Z.eqb_spec 15 n) as [<-|Hne].
    - rewrite andb_true_l. by destruct (Z.testbit v 15).
    - destruct (Z.testbit v 15); [|by rewrite Z.bits_0]. change 32768 with (2 ^ 15). rewrite Z.pow2_bits_eqb by lia.
      by destruct (Z.eqb_spec 15 n). }
  pose proof (Z.testbit_spec' v 15 ltac:(lia)) as Hb. change (2 ^ 15) with 32768 in Hb.
  destruct (Z.testbit v 15); cbn [Z.b2z] in Hb; (destruct (Z.ltb_spec (v `mod` 65536) 32768)); try done; dlia.
Qed.

Definition sign16 (v : Z) : Z := let e := v `mod` 65536 in if e <? 32768 then e else e - 65536.

Lemma immed_sign16 v : immed v = sign16 v.
Proof.
  unfold immed, sign16. rewrite bit15. destruct (Z.ltb_spec (v `mod` 65536) 32768) as [Hl|Hl]; simpl.
  - change 0x7fff with (Z.ones 15). rewrite Z.land_ones by lia. change (2 ^ 15) with 32768. dlia.
  - assert (Z.lor v (- 32768) = Z.lor (v `mod` 32768) (- 32768)) as ->.
    { change (-32768) with (Z.lnot (Z.ones 15)). change 32768 with (2 ^ 15). apply Z.bits_inj'. intros n Hn. rewrite !Z.lor_spec.
      destruct (Z.ltb_spec n 15); [by rewrite Z.mod_pow2_bits_low|].
      rewrite Z.lnot_spec by lia.
      rewrite Z.ones_spec_high by lia. by rewrite !orb_true_r. }
    assert (Z.land (v `mod` 32768) (- 32768) = 0) as Hz.
    { change (- 32768) with (Z.lnot (Z.ones 15)). change 32768 with (2 ^ 15). rewrite <- Z.land_ones by lia.
      rewrite <- Z.land_assoc, Z.land_lnot_diag. apply Z.land_0_r. }
    pose proof (Z.add_lor_land (v `mod` 32768) (- 32768)). dlia.
Qed.

Lemma extra_sign16 v : is_u32 v ->
  (let e := Z.land v 0xffff in if Z.land e 0x8000 =? 0 then e else s32 (Z.lor e 0xffff0000)) = sign16 v.
Proof.
  intros Hv. cbv zeta. change 0xffff with (Z.ones 16). rewrite Z.land_ones by lia. change (2 ^ 16) with 65536.
  rewrite bit15. unfold sign16. rewrite Z.mod_mod by lia. destruct (Z.ltb_spec (v `mod` 65536) 32768) as [Hl|Hl]; [done|].
  assert (Z.land (v `mod` 65536) 0xffff0000 = 0) as Hz.
  { change 65536 with (2 ^ 16). rewrite <- Z.land_ones by lia. rewrite <- Z.land_assoc.
    change (Z.land (Z.ones 16) 0xffff0000) with 0. apply Z.land_0_r. }
  pose proof (Z.add_lor_land (v `mod` 65536) 0xffff0000). unfold s32, two31, two32. dlia.
Qed.

Lemma sign16_u32 v : sign16 (u32 v) = sign16 v.
Proof. unfold sign16, u32, two32. replace ((v `mod` 4294967296) `mod` 65536) with (v `mod` 65536) by dlia. done. Qed.

(** ** Decoding and the numbers of encode.h *)

(** The opcode field of an instruction of the main table. *)
Definition op_number (op : opcode) : option Z :=
  match op with
  | OP_J => Some I_J | OP_JAL => Some I_JAL | OP_BEQ => Some I_BEQ | OP_BNE => Some I_BNE
  | OP_BLEZ => Some I_BLEZ | OP_BGTZ => Some I_BGTZ | OP_ADDI => Some I_ADDI | OP_ADDIU => Some I_ADDIU
  | OP_SLTI => Some I_SLTI | OP_SLTIU => Some I_SLTIU | OP_ANDI => Some I_ANDI | OP_ORI => Some I_ORI
  | OP_XORI => Some I_XORI | OP_LUI => Some I_LUI | OP_LB => Some I_LB | OP_LH => Some I_LH
  | OP_LWL => Some I_LWL | OP_LW => Some I_LW | OP_LBU => Some I_LBU | OP_LHU => Some I_LHU
  | OP_LWR => Some I_LWR | OP_SB => Some I_SB | OP_SH => Some I_SH | OP_SWL => Some I_SWL
  | OP_SW => Some I_SW | OP_SWR => Some I_SWR
  | _ => None
  end.

(** The function field of an instruction of the second table. *)
Definition special_number (op : opcode) : option Z :=
  match op with
  | OP_SLL => Some I_SLL | OP_SRL => Some I_SRL | OP_SRA => Some I_SRA | OP_SLLV => Some I_SLLV
  | OP_SRLV => Some I_SRLV | OP_SRAV => Some I_SRAV | OP_JR => Some I_JR | OP_JALR => Some I_JALR
  | OP_SYSCALL => Some I_SYSCALL | OP_MFHI => Some I_MFHI | OP_MTHI => Some I_MTHI
  | OP_MFLO => Some I_MFLO | OP_MTLO => Some I_MTLO | OP_MULT => Some I_MULT | OP_MULTU => Some I_MULTU
  | OP_DIV => Some I_DIV | OP_DIVU => Some I_DIVU | OP_ADD => Some I_ADD | OP_ADDU => Some I_ADDU
  | OP_SUB => Some I_SUB | OP_SUBU => Some I_SUBU | OP_AND => Some I_AND | OP_OR => Some I_OR
  | OP_XOR => Some I_XOR | OP_NOR => Some I_NOR | OP_SLT => Some I_SLT | OP_SLTU => Some I_SLTU
  | _ => None
  end.

(** The register field of a branch of [BCOND]. *)
Definition bcond_number (op : opcode) : option Z :=
  match op with
  | OP_BLTZ => Some I_BLTZ | OP_BGEZ => Some I_BGEZ | OP_BLTZAL => Some I_BLTZAL | OP_BGEZAL => Some I_BGEZAL
  | _ => None
  end.

(** The entry at index [n] of a table of mipssim.h has the number [n] in encode.h. *)
Definition numbered (number : opcode -> option Z) (n : nat) (op : opcode) : bool :=
  match number op with Some k => k =? Z.of_nat n | None => true end.

Lemma opTable_numbered :
  forallb (fun '(n, e) => numbered op_number n e.1 && bool_decide (special_number e.1 = None) &&
    bool_decide (bcond_number e.1 = None) && bool_decide (e.1 = SPECIAL -> n = 0%nat) && bool_decide (e.1 = BCOND -> n = 1%nat) &&
    match e.1, e.2 with OP_J, f | OP_JAL, f => match f with JFMT => true | _ => false end
                      | SPECIAL, f => match f with RFMT => true | _ => false end
                      | _, f => match f with IFMT => true | _ => false end end)
    (imap pair opTable) = true.
Proof. reflexivity. Qed.

Lemma specialTable_numbered :
  forallb (fun '(n, op) => numbered special_number n op && bool_decide (op_number op = None) &&
    bool_decide (bcond_number op = None)) (imap pair specialTable) = true.
Proof. reflexivity. Qed.

Lemma forallb_imap {A} (P : nat * A -> bool) (l : list A) n x :
  forallb P (imap pair l) = true -> l !! n = Some x -> P (n, x) = true.
Proof.
  rewrite forallb_forall. intros Hall Hx. apply Hall, list_elem_of_In, list_elem_of_lookup.
  exists n. by rewrite list_lookup_imap, Hx.
Qed.

(** What the fields of a decoded instruction are in the interpreter's terms. *)
Record decoded (raw : Z) (i : Instruction) : Prop := {
  de_rs : i_rs i = rs raw;
  de_rt : i_rt i = rt raw;
  de_rd : i_rd i = rd raw;
  de_op n : op_number (opCode i) = Some n ->
    Z.land (Z.shiftr raw 26) 0x3f = n /\
    i_extra i = if bool_decide (opCode i = OP_J \/ opCode i = OP_JAL) then Z.land raw 0x3ffffff else immed raw;
  de_special n : special_number (opCode i) = Some n ->
    Z.land (Z.shiftr raw 26) 0x3f = 0 /\ Z.land raw 0x3f = n /\ i_extra i = shamt raw;
  de_bcond n : bcond_number (opCode i) = Some n ->
    Z.land (Z.shiftr raw 26) 0x3f = 1 /\ rt raw = n /\ i_extra i = immed raw }.

Lemma bcond_field v n : 0 <= n < 32 -> Z.land v 0x1f0000 = n * 65536 -> Z.land (Z.shiftr v 16) 0x1f = n.
Proof.
  intros Hn Hv. assert (Z.shiftr (Z.land v 0x1f0000) 16 = n) as Hs.
  { rewrite Hv, Z.shiftr_div_pow2 by lia. change (2 ^ 16) with 65536. by apply Z.div_mul. }
  by rewrite Z.shiftr_land in Hs.
Qed.

Lemma Decode_decoded raw i : Decode (u32 raw) = Ok i -> decoded raw i.
Proof.
  unfold Decode. rewrite !(field_u32 raw _ 5), (field_u32 raw 26 6) by (lia || done).
  set (op6 := Z.land (Z.shiftr raw 26) 0x3f). intros Hd.
  apply bind_ok in Hd as ([op fmt] & He & Hd). apply bind_ok in Hd as (op' & Hop & Hd). injection Hd as <-.
  apply arr_get_ok in He as [Hr He]. pose proof (forallb_imap _ _ _ _ opTable_numbered He) as Ht. cbn [fst snd] in Ht.
  repeat (apply andb_true_iff in Ht as [Ht ?]). unfold numbered in Ht.
  pose proof (low_u32 raw 26 0x3ffffff ltac:(lia) eq_refl) as H26. rewrite H26. clear H26.
  rewrite (low_u32 raw 6 0x3f) in Hop by (lia || done).
  pose proof (extra_sign16 (u32 raw) (u32_range raw)) as Hex. cbv zeta in Hex. rewrite Hex, sign16_u32, <- immed_sign16.
  assert (forall n, op_number op' = Some n -> op' = op) as Hsame1.
  { intros n Hn. destruct op; simpl in Hop; try (injection Hop as <-; by repeat case_match).
    apply arr_get_ok in Hop as [_ Hop]. pose proof (forallb_imap _ _ _ _ specialTable_numbered Hop) as Hs. simpl in Hs.
    rewrite Hn in Hs. by rewrite andb_false_r in Hs. }
  split; try done; cbn [i_extra opCode]; intros n Hn.
  - rewrite (Hsame1 n Hn) in Hn |- *. rewrite Hn in Ht. apply Z.eqb_eq in Ht. split; [lia|].
    destruct op; try discriminate Hn; destruct fmt; try done.
  - destruct op; try (simpl in Hop; injection Hop as <-; by repeat case_match).
    apply bool_decide_eq_true in H1. specialize (H1 eq_refl). destruct fmt; try done.
    apply arr_get_ok in Hop as [Hf Hop]. pose proof (forallb_imap _ _ _ _ specialTable_numbered Hop) as Hs. cbn in Hs.
    apply andb_true_iff in Hs as [[Hs _]%andb_true_iff _]. unfold numbered in Hs. rewrite Hn in Hs. apply Z.eqb_eq in Hs.
    split; [lia|]. split; [lia|done].
  - destruct op; try (simpl in Hop; injection Hop as <-; by repeat case_match).
    + apply arr_get_ok in Hop as [_ Hop]. pose proof (forallb_imap _ _ _ _ specialTable_numbered Hop) as Hs. simpl in Hs.
      rewrite Hn in Hs. by rewrite andb_false_r in Hs.
    + apply bool_decide_eq_true in H0. specialize (H0 eq_refl). destruct fmt; try done.
      split; [lia|]. split; [|done]. unfold rt. rewrite <- (field_u32 raw 16 5) by (lia || done).
      injection Hop as <-. revert Hn. clear.
      repeat (match goal with |- context [?x =? ?y] => destruct (Z.eqb_spec x y) as [Hx|_] end;
        [intros [= <-]; by apply bcond_field|]). done.
Qed.

(** ** Products *)

Lemma high_product_small t1 t2 : 0 <= t1 < 65536 -> 0 <= t2 < 65536 -> high_product t1 t2 = 0.
Proof.
  intros H1 H2. unfold high_product. rewrite !Z.shiftr_div_pow2 by lia. change (2 ^ 16) with 65536.
  rewrite (Z.div_small t1), (Z.div_small t2) by done. by rewrite Z.land_0_l, !Z.mul_0_l.
Qed.

(** The low word is that of the product, whatever the operands. *)
Lemma mult_signed_lo a b : is_s32 a -> is_s32 b -> (mult_signed a b).2 = s32 (a * b).
Proof.
  intros Ha Hb. assert (forall x y, s32 (s32 x * s32 y) = s32 (x * y)) as Hs.
  { intros x y. apply s32_cong. unfold u32. rewrite Z.mul_mod by done.
    change (s32 x `mod` two32) with (u32 (s32 x)). change (s32 y `mod` two32) with (u32 (s32 y)).
    rewrite !u32_s32. unfold u32. by rewrite <- Z.mul_mod by done. }
  assert (forall x, s32 (Z.lnot (s32 x) + 1) = s32 (- x)) as Hn.
  { intros x. unfold Z.lnot. unfold s32, two31, two32. dlia. }
  pose proof (Hs (- a) b) as E1. pose proof (Hs a (- b)) as E2. pose proof (Hs (- a) (- b)) as E3.
  rewrite (s32_small b), ?(s32_small a) in * by done.
  unfold mult_signed. destruct (Z.ltb_spec a 0), (Z.ltb_spec b 0); simpl.
  - rewrite E3. f_equal. lia.
  - rewrite E1, Hn. f_equal. lia.
  - rewrite E2, Hn. f_equal. lia.
  - done.
Qed.

(** A 64-bit product from its words. *)
Lemma dword_words hi lo p : is_s32 hi -> is_s32 lo -> dword hi (u32 lo) = p -> hi = p `div` two32 /\ lo = s32 p.
Proof.
  unfold dword. intros Hh Hl <-. pose proof (u32_range lo) as Hr. unfold is_u32, two32 in *. split; [dlia|].
  rewrite <- (s32_small lo) at 1 by done. apply s32_cong. unfold u32, two32. dlia.
Qed.

(** Both compute the product of half words. *)
Lemma mult_signed_small a b : Z.abs a < 65536 -> Z.abs b < 65536 -> mult_signed a b = Mult a b true.
Proof.
  intros Ha Hb. assert (is_s32 a /\ is_s32 b) as [Hra Hrb] by (unfold is_s32, two31; lia).
  pose proof (Mult_product a b true Hra Hrb) as Hc. destruct (Mult a b true) as [hi lo]. destruct Hc as (Hh & Hl & Hp).
  destruct (dword_words _ _ _ Hh Hl Hp) as [-> ->]. rewrite <- (mult_signed_lo a b) by done.
  assert (Z.abs (a * b) < two32) as Hab by (unfold two32; rewrite Z.abs_mul; nia).
  assert (s32 (a * b) = 0 <-> a * b = 0) as Hz.
  { unfold s32, two31, two32 in *. split; [|intros ->; done]. intros Hs. dlia. }
  pose proof (mult_signed_lo a b Hra Hrb) as Hlo. unfold mult_signed in Hlo |- *.
  set (t1 := if a <? 0 then s32 (- a) else a) in *. set (t2 := if b <? 0 then s32 (- b) else b) in *.
  assert (t1 = Z.abs a /\ t2 = Z.abs b) as [E1 E2].
  { unfold t1, t2. split; [destruct (Z.ltb_spec a 0)|destruct (Z.ltb_spec b 0)];
      rewrite ?s32_small by (unfold is_s32, two31 in *; lia); lia. }
  rewrite (high_product_small t1 t2) in Hlo |- * by lia.
  destruct (Z.ltb_spec a 0), (Z.ltb_spec b 0); simpl in Hlo |- *; rewrite ?Hlo; f_equal.
  - symmetry. apply Z.div_small. nia.
  - destruct (Z.eqb_spec (s32 (a * b)) 0) as [E|E].
    + apply Hz in E. by rewrite E.
    + assert (a * b < 0) by (rewrite Hz in E; nia). apply (Z.div_unique _ _ _ (a * b + two32)); unfold two32 in *; [left|change (Z.lnot 0) with (-1)]; lia.
  - destruct (Z.eqb_spec (s32 (a * b)) 0) as [E|E].
    + apply Hz in E. by rewrite E.
    + assert (a * b < 0) by (rewrite Hz in E; nia). apply (Z.div_unique _ _ _ (a * b + two32)); unfold two32 in *; [left|change (Z.lnot 0) with (-1)]; lia.
  - symmetry. apply Z.div_small. nia.
Qed.

Lemma mult_unsigned_small a b : 0 <= a < 65536 -> 0 <= b < 65536 -> (high_product a b, s32 (a * b)) = Mult a b false.
Proof.
  intros Ha Hb. assert (is_s32 a /\ is_s32 b) as [Hra Hrb] by (unfold is_s32, two31; lia).
  pose proof (Mult_product a b false Hra Hrb) as Hc. destruct (Mult a b false) as [hi lo]. destruct Hc as (Hh & Hl & Hp).
  rewrite !(u32_small a), !(u32_small b) in Hp by (unfold is_u32, two32; lia). rewrite high_product_small by done.
  pose proof (u32_range hi) as Hr1. pose proof (u32_range lo) as Hr2. unfold dword, is_u32 in *.
  assert (u32 hi = 0 /\ u32 lo = a * b) as [E1 E2] by (unfold two32 in *; nia).
  f_equal.
  - rewrite <- (s32_small hi) by done. by apply (s32_cong 0).
  - rewrite <- (s32_small lo) by done. apply s32_cong. rewrite E2. apply u32_small. unfold is_u32, two32. nia.
Qed.

(** ** The two memories *)

(** The machine's tables send the virtual address [a] to the physical address [pa]. *)
Definition maps_to (m : Machine) (a pa : Z) : Prop :=
  exists i e, find_entry m (u32 a `div` PageSize) = Ok (inr (i, e)) /\
    u32 (physicalPage e) < NumPhysPages /\
    pa = u32 (physicalPage e) * PageSize + u32 a `mod` PageSize.

(** Every mapped address is one of [mem], holds the same byte in both memories, and no
    physical byte has two addresses. *)
Record same_memory (m : Machine) (b : memory) : Prop := {
  sm_bytes a pa : is_s32 a -> maps_to m a pa ->
    in_mem a = true /\ mainMemory m !! Z.to_nat pa = Some (default 0 (b !! (a - memoffset)));
  sm_one a a' pa : is_s32 a -> is_s32 a' -> maps_to m a pa -> maps_to m a' pa -> a = a' }.

Lemma maps_to_fun m a pa pa' : maps_to m a pa -> maps_to m a pa' -> pa = pa'.
Proof. intros (i & e & Hf & _ & ->) (i' & e' & Hf' & _ & ->). rewrite Hf in Hf'. by injection Hf' as <- <-. Qed.

Lemma maps_to_nonneg m a pa : maps_to m a pa -> 0 <= pa.
Proof.
  intros (i & e & _ & _ & ->). pose proof (u32_range (physicalPage e)) as Hr.
  unfold is_u32, PageSize, SectorSize in *. dlia.
Qed.

Lemma tlb_find_insert t n e0 e' v : forall k,
  t !! n = Some e0 -> valid e' = valid e0 -> virtualPage e' = virtualPage e0 ->
  tlb_find (<[n := e']> t) v k =
    match tlb_find t v k with
    | Some (i, e) => Some (i, if i =? k + Z.of_nat n then e' else e)
    | None => None
    end.
Proof.
  revert n. induction t as [|e t IH]; intros n k Hn Hv Hp; [done|]. destruct n as [|n]; simpl in Hn |- *.
  - injection Hn as ->. rewrite Hv, Hp. change (Z.of_nat 0) with 0. rewrite Z.add_0_r. destruct (valid e0 && _); [by rewrite Z.eqb_refl|].
    destruct (tlb_find t v (k + 1)) as [[i e]|] eqn:Hf; [|done].
    destruct (tlb_find_some _ _ _ _ _ Hf) as (n & -> & _). destruct (Z.eqb_spec (k + 1 + Z.of_nat n) k); [lia|done].
  - destruct (valid e && _). { destruct (Z.eqb_spec k (k + Z.of_nat (S n))); [lia|done]. }
    rewrite (IH n (k + 1)) by done. by replace (k + 1 + Z.of_nat n) with (k + Z.of_nat (S n)) by lia.
Qed.

(** Setting the use and dirty bits of an entry moves nothing. *)
Lemma find_entry_touch m vpn i e w m' vpn' :
  0 <= vpn' -> find_entry m vpn = Ok (inr (i, e)) -> store_entry m i (touch e w) = Ok m' ->
  match find_entry m vpn', find_entry m' vpn' with
  | Ok (inr (_, e1)), Ok (inr (_, e2)) => physicalPage e2 = physicalPage e1
  | r1, r2 => r2 = r1
  end.
Proof.
  unfold find_entry, store_entry. destruct (tlb m) as [t|] eqn:Et, (pageTable m) as [pt|] eqn:Ept; try done; intros Hv' Hf Hs.
  - destruct (tlb_find t vpn 0) as [[i' e1]|] eqn:Hfind; [|done]. injection Hf as -> ->.
    destruct (tlb_find_some _ _ _ _ _ Hfind) as (n & Hi & Hn & _). apply bind_ok in Hs as (t' & Hs0 & Hs). injection Hs as <-. simpl. rewrite Ept.
    apply arr_set_ok in Hs0 as [_ ->]. replace (Z.to_nat i) with n by lia.
    rewrite (tlb_find_insert t n e) by done. destruct (tlb_find t vpn' 0) as [[j f]|] eqn:Hj; [|done].
    destruct (Z.eqb_spec j (0 + Z.of_nat n)) as [->|]; [|done]. destruct (tlb_find_some _ _ _ _ _ Hj) as (n' & Hn' & Hf & _).
    assert (n' = n) as -> by lia. by simplify_eq.
  - destruct (Z.leb_spec (pageTableSize m) vpn); [done|]. apply bind_ok in Hs as (t' & Hs0 & Hs). injection Hs as <-. apply bind_ok in Hf as (e0 & Hf0 & Hf).
    destruct (valid e0) eqn:Hval; [|done]. simpl in Hf. injection Hf as <- <-.
    apply arr_set_ok in Hs0 as [Hr ->]. apply arr_get_ok in Hf0 as [_ Hg]. simpl. rewrite Et.
    destruct (Z.leb_spec (pageTableSize m) vpn'); [done|].
    unfold arr_get. destruct (Z.ltb_spec vpn' 0); [lia|].
    destruct (decide (vpn' = vpn)) as [->|Hne].
    + rewrite list_lookup_insert_eq by lia. rewrite Hg. simpl. by rewrite Hval.
    + rewrite list_lookup_insert_ne by lia. destruct (pt !! Z.to_nat vpn') as [f|]; [|done]. simpl. by destruct (valid f).
Qed.

Lemma translated_maps m va size w m' pa : translated m va size w m' pa ->
  forall a p, maps_to m' a p <-> maps_to m a p.
Proof.
  intros Ht a p. destruct (tr_entry _ _ _ _ _ _ Ht) as (i & e & Hf & _ & Hs & _).
  assert (0 <= u32 a `div` PageSize) as Hv by (unfold PageSize, SectorSize, u32, two32; dlia).
  pose proof (find_entry_touch m _ i e w m' _ Hv Hf Hs) as Hx. unfold maps_to.
  destruct (find_entry m (u32 a `div` PageSize)) as [[|[i1 e1]]| | |];
    destruct (find_entry m' (u32 a `div` PageSize)) as [[|[i2 e2]]| | |]; try discriminate Hx;
    split; intros (j & f & Hj & Hrest); try discriminate Hj; injection Hj as <- <-;
    [exists i1, e1|exists i2, e2]; (split; [done|]); congruence.
Qed.

(** The bytes of an access are at consecutive addresses on both sides. *)
Lemma translated_bytes m va size w m' pa j : access_size size -> is_s32 va -> translated m va size w m' pa ->
  0 <= j < size -> is_s32 (va + j) /\ maps_to m (va + j) (pa + j).
Proof.
  intros Hsize Hva Ht Hj. destruct (tr_entry _ _ _ _ _ _ Ht) as (i & e & Hf & _ & _ & _ & Hfr & ->).
  destruct (aligned_offset va size Hsize (tr_aligned _ _ _ _ _ _ Ht)) as (k & Hk & Hb).
  unfold PageSize, SectorSize, is_s32, u32, two31, two32 in *.
  assert ((va + j) `mod` 4294967296 = va `mod` 4294967296 + j) as Hu by dlia.
  split; [dlia|]. exists i, e. unfold PageSize, SectorSize, u32, two32. rewrite Hu. split_and!; [|done|dlia].
  rewrite <- Hf. f_equal. dlia.
Qed.

Lemma same_memory_byte m b a pa : same_memory m b -> is_s32 a -> maps_to m a pa ->
  get_byte b a = arr_get (mainMemory m) pa.
Proof.
  intros Hs Ha Hm. destruct (sm_bytes _ _ Hs a pa Ha Hm) as [Hin Hb]. unfold get_byte. rewrite Hin. symmetry.
  apply arr_get_ok. split; [by eapply maps_to_nonneg|done].
Qed.

Lemma same_memory_translated m b va size w m' pa : translated m va size w m' pa -> same_memory m b -> same_memory m' b.
Proof.
  intros Ht Hs. pose proof (translated_maps _ _ _ _ _ _ Ht) as Hm. split.
  - intros a p Ha Hp. rewrite (tr_mem _ _ _ _ _ _ Ht). by apply Hs; [|apply Hm].
  - intros a a' p Ha Ha' Hp Hp'. eapply (sm_one _ _ Hs); [done|done|by apply Hm|by apply Hm].
Qed.

Lemma same_memory_regs m r b : same_memory m b -> same_memory (with_registers m r) b.
Proof. intros [Hb Ho]. split; [exact Hb|exact Ho]. Qed.

(** What a memory access of the interpreter gives for the size. *)
Definition fetched_value (b : memory) (addr size : Z) : outcome Z :=
  if size =? 1 then cfetch b addr else if size =? 2 then usfetch b addr else fetch b addr.

(** A read that does not trap returns what the interpreter fetches. *)
Lemma read_agrees m b addr size m1 v : machine_wf m -> access_size size -> is_s32 addr -> same_memory m b ->
  ReadMem m addr size = Ok (Done m1 v) ->
  machine_wf m1 /\ registers m1 = registers m /\ same_memory m1 b /\ fetched_value b addr size = Ok v /\
  (size = 1 -> ucfetch b addr = Ok (v `mod` 256)).
Proof.
  intros Hm Hsize Ha Hs Hr. unfold ReadMem in Hr.
  pose proof (Translate_ensures m addr size false Hm Hsize) as Ht.
  apply ensures_total in Ht as ([m2 [exc|pa]] & Heq & Ht); rewrite Heq in Hr; simpl in Hr, Ht.
  { by ok_inv. }
  assert (forall j, 0 <= j < size -> get_byte b (addr + j) = arr_get (mainMemory m2) (pa + j)) as Hget.
  { intros j Hj. destruct (translated_bytes _ _ _ _ _ _ j Hsize Ha Ht Hj) as [Hj1 Hj2].
    rewrite (tr_mem _ _ _ _ _ _ Ht). by apply same_memory_byte. }
  pose proof (Hget 0) as H0. rewrite !Z.add_0_r in H0.
  assert (m2 = m1 /\ fetched_value b addr size = Ok v /\ (size = 1 -> ucfetch b addr = Ok (v `mod` 256))) as (-> & ? & ?).
  { unfold ucfetch, fetched_value, cfetch, usfetch, get_half, fetch. pose proof (tr_aligned _ _ _ _ _ _ Ht) as Hal.
    destruct Hsize as [-> | [-> | ->]]; simpl in Hr |- *; rewrite ?Hal, ?H0, ?Hget by lia; ok_inv;
      simplify_eq; (split; [done|]); (split; [by rewrite ?Hok, ?Hok0, ?Hok1, ?Hok2|]); try done.
    intros _. rewrite Hok. f_equal. apply arr_get_ok in Hok as [_ Hok].
    assert (is_byte v0) as Hv0 by (eapply Forall_lookup_1; [|exact Hok]; apply (tr_wf _ _ _ _ _ _ Ht)).
    unfold s8, is_byte in *. destruct (Z.leb_spec 128 v0); [apply (Z.mod_unique _ _ (-1)); lia|symmetry; by apply Z.mod_small]. }
  split; [apply Ht|]. split; [apply Ht|]. split; [by eapply same_memory_translated|done].
Qed.

Lemma narrow_range size v : access_size size -> narrow size v = v -> is_s32 v.
Proof.
  intros [-> | [-> | ->]] <-; unfold narrow; simpl; [| |apply s32_range].
  - unfold s8, is_s32, two31. destruct (Z.leb_spec 128 (v `mod` 256)); dlia.
  - unfold is_s32, two31. dlia.
Qed.

Lemma read_range m addr size m1 v : machine_wf m -> access_size size ->
  ReadMem m addr size = Ok (Done m1 v) -> narrow size v = v.
Proof.
  intros Hm Hsize Hr. unfold ReadMem in Hr.
  pose proof (Translate_ensures m addr size false Hm Hsize) as Ht.
  apply ensures_total in Ht as ([m2 [exc|pa]] & Heq & Ht); rewrite Heq in Hr; simpl in Hr, Ht.
  { by ok_inv. }
  assert (forall j x, arr_get (mainMemory m2) j = Ok x -> is_byte x) as Hby.
  { intros j x Hx. apply arr_get_ok in Hx as [_ Hx]. eapply Forall_lookup_1; [|exact Hx]. apply (tr_wf _ _ _ _ _ _ Ht). }
  unfold narrow. destruct Hsize as [-> | [-> | ->]]; simpl in Hr |- *; ok_inv; simplify_eq.
  - apply Hby in Hok. unfold s8, is_byte in *.
    destruct (Z.leb_spec 128 v0); [rewrite <- (Z.mod_unique (v0 - 256) 256 (-1) v0) by lia|rewrite Z.mod_small by lia];
      destruct (Z.leb_spec 128 v0); lia.
  - apply Hby in Hok, Hok0. unfold bytes_word, is_byte in *. apply Z.mod_small. lia.
  - apply s32_small, s32_range.
Qed.

(** The extensions of a loaded byte or half word: both programs extend alike. *)
Lemma extend_byte v : narrow 1 v = v ->
  (if negb (Z.land v 0x80 =? 0) && true then s32 (Z.lor (u32 v) 0xffffff00) else Z.land v 0xff) = v /\
  (if negb (Z.land v 0x80 =? 0) && false then s32 (Z.lor (u32 v) 0xffffff00) else Z.land v 0xff) = v `mod` 256.
Proof.
  intros Hn. assert (-128 <= v < 128) as Hv.
  { rewrite <- Hn. unfold narrow, s8. simpl. destruct (Z.leb_spec 128 (v `mod` 256)); dlia. }
  assert (forallb (fun v => ((if negb (Z.land v 0x80 =? 0) && true then s32 (Z.lor (u32 v) 0xffffff00) else Z.land v 0xff) =? v) &&
    ((if negb (Z.land v 0x80 =? 0) && false then s32 (Z.lor (u32 v) 0xffffff00) else Z.land v 0xff) =? v `mod` 256)) (seqZ (-128) 256) = true)
    as Hall by (vm_compute; done).
  rewrite forallb_forall in Hall. specialize (Hall v). rewrite <- list_elem_of_In, elem_of_seqZ in Hall.
  apply andb_true_iff in Hall as [H1%Z.eqb_eq H2%Z.eqb_eq]; [done|lia].
Qed.

Lemma extend_half v : narrow 2 v = v ->
  (if negb (Z.land v 0x8000 =? 0) && true then s32 (Z.lor (u32 v) 0xffff0000) else Z.land v 0xffff) =
    (if 32768 <=? v then v - 65536 else v) /\
  (if negb (Z.land v 0x8000 =? 0) && false then s32 (Z.lor (u32 v) 0xffff0000) else Z.land v 0xffff) = v.
Proof.
  unfold narrow. simpl. intros Hn. assert (0 <= v < 65536) as Hv by dlia.
  assert (is_u32 v) as Hu by (unfold is_u32, two32; lia).
  assert (Z.land v 0xffff = v) as Hl by (change 0xffff with (Z.ones 16); by rewrite Z.land_ones by lia).
  pose proof (extra_sign16 v Hu) as Hx. cbv zeta in Hx. rewrite Hl in Hx. unfold sign16 in Hx. rewrite bit15, Hn in Hx |- *.
  rewrite andb_true_r, andb_false_r, Hl, u32_small by done. split; [|done].
  destruct (Z.ltb_spec v 32768), (Z.leb_spec 32768 v); simpl in Hx |- *; try lia; congruence.
Qed.

(** A write that does not trap stores what the interpreter stores. *)
Lemma write_agrees m b addr size value m1 u : machine_wf m -> access_size size -> is_s32 addr -> same_memory m b ->
  WriteMem m addr size value = Ok (Done m1 u) ->
  machine_wf m1 /\ registers m1 = registers m /\ misaligned addr size = false /\
  exists b', put_all b addr (value_bytes size value) = Ok b' /\ same_memory m1 b'.
Proof.
  intros Hm Hsize Ha Hs Hw. pose proof (Translate_ensures m addr size true Hm Hsize) as Ht.
  apply ensures_total in Ht as ([m2 [exc|pa]] & Heq & Ht); simpl in Ht.
  { unfold WriteMem in Hw. rewrite Heq in Hw. simpl in Hw. by ok_inv. }
  destruct (WriteMem_translated m addr size value m2 pa Hsize Heq Ht) as (mem' & Hw' & _ & Hlen & Hby & Hput & Hkeep).
  rewrite Hw' in Hw. injection Hw as <- <-. destruct (value_bytes_ok size value Hsize) as [_ Hvl].
  split. { destruct (tr_wf _ _ _ _ _ _ Ht). constructor; simpl; try done. congruence. }
  split; [apply Ht|]. split; [apply Ht|].
  pose proof (translated_bytes _ _ _ _ _ _ 0 Hsize Ha Ht) as Hz.
  pose proof (fun j => translated_bytes _ _ _ _ _ _ j Hsize Ha Ht) as Hj.
  destruct (put_all_ok (value_bytes size value) b addr) as (b' & Hp & Hb').
  { intros j Hjr. destruct (Hj j ltac:(lia)) as [H1 H2]. by eapply (sm_bytes _ _ Hs). }
  exists b'. split; [done|]. pose proof (same_memory_translated _ _ _ _ _ _ _ Ht Hs) as Hs2.
  pose proof (translated_maps _ _ _ _ _ _ Ht) as Hmap. pose proof (tr_low _ _ _ _ _ _ Ht) as Hlow.
  split; [|apply Hs2]. intros a p Ha' Hmp. change (maps_to m2 a p) in Hmp.
  destruct (sm_bytes _ _ Hs2 a p Ha' Hmp) as [Hin Hold]. split; [done|]. simpl. rewrite Hb', Hvl.
  pose proof (maps_to_nonneg _ _ _ Hmp) as Hp0.
  destruct (decide (addr - memoffset <= a - memoffset < addr - memoffset + size)) as [Hr|Hr].
  - destruct (Hj (a - addr) ltac:(lia)) as [H1 H2]. replace (addr + (a - addr)) with a in H2 by lia.
    assert (p = pa + (a - addr)) as -> by (eapply maps_to_fun; [done|by apply Hmap]).
    replace (Z.to_nat (a - memoffset - (addr - memoffset))) with (Z.to_nat (a - addr)) by lia.
    destruct (lookup_lt_is_Some_2 (value_bytes size value) (Z.to_nat (a - addr))) as [x Hx]; [lia|].
    rewrite Hx. simpl. apply Hput in Hx. rewrite <- Hx. f_equal. lia.
  - rewrite <- Hold. apply Hkeep. destruct (Z.ltb_spec p pa) as [|Hge]; [left; lia|]. right.
    destruct (Z.ltb_spec p (pa + size)) as [Hlt|]; [exfalso|lia].
    destruct (Hj (p - pa) ltac:(lia)) as [H1 H2]. replace (pa + (p - pa)) with p in H2 by lia.
    apply Hmap in H2. pose proof (sm_one _ _ Hs2 _ _ _ Ha' H1 Hmp H2). lia.
Qed.

(** ** The two register files *)

(** Register [i] as the next but one instruction will read it: a pending load has
    reached its register. *)
Definition visible (r : list Z) (i : nat) : option Z :=
  if decide (r !! Z.to_nat LoadReg = Some (Z.of_nat i)) then r !! Z.to_nat LoadValueReg else r !! i.

(** Register [x] is not the target of the load that is pending. *)
Definition settled (m : Machine) (x : Z) : Prop :=
  forall p, registers m !! Z.to_nat LoadReg = Some p -> p = 0 \/ p <> x.

Section agreement.
Context {H : Type} `{HostOS H}.
Implicit Types (m : Machine) (s : Interp H).

(** The states in the middle of an instruction ... *)
Record mid m s : Prop := {
  md_wf : machine_wf m;
  md_len : length (Reg s) = 32%nat;
  md_regs i : (1 <= i < 32)%nat -> Reg s !! i = visible (registers m) i;
  md_hi : registers m !! Z.to_nat HiReg = Some (HI s);
  md_lo : registers m !! Z.to_nat LoReg = Some (LO s);
  md_mem : same_memory m (mem s) }.

(** ... and between two instructions. *)
Record agrees s m : Prop := {
  ag_mid : mid m s;
  ag_zero : registers m !! 0%nat = Some 0;
  ag_pc : registers m !! Z.to_nat PCReg = Some (pc s);
  ag_npc : registers m !! Z.to_nat NextPCReg = Some (npc s) }.

Lemma arr_set_32 {A} (l : list A) x v : length l = 32%nat -> 0 <= x < 32 -> arr_set l x v = Ok (<[Z.to_nat x := v]> l).
Proof. intros Hl Hx. apply arr_set_in. lia. Qed.

Lemma mid_read m s x a : mid m s -> registers m !! 0%nat = Some 0 -> Reg s !! 0%nat = Some 0 ->
  0 <= x < 32 -> settled m x -> getR m x = Ok a -> reg s x = Ok a.
Proof.
  intros Hm Hz Hz' Hx Hst Hg. apply arr_get_ok in Hg as [_ Hg]. apply arr_get_ok. split; [lia|].
  destruct (decide (x = 0)) as [->|Hne]; [change (Z.to_nat 0) with 0%nat in *; congruence|].
  rewrite (md_regs m s Hm) by lia. unfold visible. rewrite Z2Nat.id by lia.
  destruct (decide (_ = Some x)) as [Hp|]; [|done]. destruct (Hst _ Hp); lia.
Qed.

(** A write of a register by both. *)
Lemma mid_write m s x v m' : mid m s -> 0 <= x < 32 -> settled m x -> is_s32 v -> setR m x v = Ok m' ->
  m' = with_registers m (<[Z.to_nat x := v]> (registers m)) /\
  mid m' (with_Reg s (<[Z.to_nat x := v]> (Reg s))).
Proof.
  intros [Hwf Hlen Hregs Hhi Hlo Hmem] Hx Hst Hv Hs.
  destruct (setR_wf m x v Hwf) as [Hs' Hwf']; [lia|done|unfold LoadReg; lia|]. rewrite Hs' in Hs. injection Hs as <-.
  split; [done|]. split; simpl; try done.
  - by rewrite length_insert.
  - intros i Hi. unfold visible. rewrite (list_lookup_insert_ne _ (Z.to_nat x) (Z.to_nat LoadReg)), (list_lookup_insert_ne _ (Z.to_nat x) (Z.to_nat LoadValueReg))
      by (unfold LoadReg, LoadValueReg; lia).
    destruct (decide (i = Z.to_nat x)) as [->|Hne].
    + rewrite Z2Nat.id by lia. rewrite list_lookup_insert_eq by lia.
      destruct (decide (_ = Some x)) as [Hp|]; [destruct (Hst _ Hp); lia|].
      rewrite list_lookup_insert_eq; [done|]. rewrite (wf_reg_length m Hwf). unfold NumTotalRegs. lia.
    + rewrite !(list_lookup_insert_ne _ (Z.to_nat x) i) by lia. rewrite Hregs by lia. done.
  - rewrite list_lookup_insert_ne by (unfold HiReg; lia). done.
  - rewrite list_lookup_insert_ne by (unfold LoReg; lia). done.
  - by apply same_memory_regs.
Qed.

(** The registers after the end of [OneInstruction]. *)
Lemma finish_registers m a m' : finish_instruction m a = Ok m' ->
  exists p pv pc nx, registers m !! 37%nat = Some p /\ registers m !! 38%nat = Some pv /\
    m' = with_registers m (<[35%nat := pcAfter a]> (<[34%nat := nx]> (<[36%nat := pc]> (<[0%nat := 0]>
      (<[38%nat := nextLoadValue a]> (<[37%nat := nextLoadReg a]> (<[Z.to_nat p := pv]> (registers m)))))))).
Proof.
  unfold finish_instruction, DelayedLoad, setR. intros Hf.
  repeat (apply bind_ok in Hf as (? & ?Hs & Hf)). 
  repeat match goal with Hs : _ ≫= _ = Ok _ |- _ => apply bind_ok in Hs as (? & ?Hs & Hs) end.
  repeat match goal with
  | Hs : arr_set _ _ _ = Ok _ |- _ => apply arr_set_ok in Hs as [_ ->]
  | Hs : Ok _ = Ok _ |- _ => injection Hs as <-
  | Hs : getR _ LoadReg = Ok _ |- _ => apply arr_get_ok in Hs as [_ Hs]
  | Hs : getR _ LoadValueReg = Ok _ |- _ => apply arr_get_ok in Hs as [_ Hs]
  end.
  do 4 eexists. split; [eassumption|]. split; [eassumption|]. unfold with_registers. simpl. reflexivity.
Qed.

(** The end of an instruction: the old load reaches its register, the new one, of
    [lv] into [lr], becomes pending on one side and is done on the other. *)
Lemma finish_agrees m s s' a m' next : mid m s -> finish_instruction m a = Ok m' -> after_ok m a ->
  registers m !! Z.to_nat NextPCReg = Some next -> is_Some (registers m !! Z.to_nat PCReg) ->
  length (Reg s') = 32%nat ->
  (forall i, (1 <= i < 32)%nat -> Reg s' !! i = if decide (nextLoadReg a = Z.of_nat i) then Some (nextLoadValue a) else Reg s !! i) ->
  HI s' = HI s -> LO s' = LO s -> mem s' = mem s -> pc s' = next -> npc s' = pcAfter a -> agrees s' m'.
Proof.
  intros [Hwf Hlen Hregs Hhi Hlo Hmem] Hf Ha Hnext [pc0 Hpc] Hlen' Hregs' EH EL EM EP EN.
  pose proof (ensures_ok True True _ _ _ (finish_instruction_ok True True m a pc0 next Hwf Ha Hpc Hnext) Hf)
    as ([Hwf' Hz] & _ & Hpc' & Hn').
  destruct (finish_registers _ _ _ Hf) as (p & pv & pc1 & nx & Hp & Hpv & ->).
  destruct (wf_load m Hwf) as (p0 & Hp0 & Hpr). change (Z.to_nat LoadReg) with 37%nat in Hp0. rewrite Hp0 in Hp. injection Hp as ->.
  pose proof (wf_reg_length m Hwf) as Hl. change (Z.to_nat NumTotalRegs) with 40%nat in Hl.
  destruct Ha as (_ & Hlr & _).
  split; [|done|congruence|congruence]. split; [done|done| | | |].
  - intros i Hi. rewrite Hregs' by done. unfold visible. simpl.
    change (Z.to_nat LoadReg) with 37%nat. change (Z.to_nat LoadValueReg) with 38%nat.
    assert (forall l : list Z, (<[35%nat:=pcAfter a]> (<[34%nat:=nx]> (<[36%nat:=pc1]> (<[0%nat:=0]> l)))) !! i = l !! i) as E1.
    { intros l. rewrite !list_lookup_insert_ne by lia. done. }
    rewrite (list_lookup_insert_ne _ 35 37), (list_lookup_insert_ne _ 34 37), (list_lookup_insert_ne _ 36 37),
      (list_lookup_insert_ne _ 0 37), (list_lookup_insert_ne _ 38 37), (list_lookup_insert_ne _ 35 38),
      (list_lookup_insert_ne _ 34 38), (list_lookup_insert_ne _ 36 38), (list_lookup_insert_ne _ 0 38), E1 by lia.
    rewrite (list_lookup_insert_ne _ 38 i), (list_lookup_insert_ne _ 37 i) by lia.
    rewrite !list_lookup_insert_eq by (rewrite ?length_insert; lia).
    destruct (decide (nextLoadReg a = Z.of_nat i)) as [->|Hne]; [by rewrite decide_True|].
    rewrite (decide_False (P := Some _ = _)) by congruence. rewrite Hregs by done. unfold visible.
    change (Z.to_nat LoadReg) with 37%nat. change (Z.to_nat LoadValueReg) with 38%nat. rewrite Hp0, Hpv.
    destruct (decide (Some p = Some (Z.of_nat i))) as [[= ->]|Hne'].
    + rewrite Nat2Z.id, list_lookup_insert_eq by lia. done.
    + rewrite list_lookup_insert_ne; [done|]. intros <-. apply Hne'. f_equal. lia.
  - rewrite EH. simpl. rewrite <- Hhi. unfold HiReg. rewrite !list_lookup_insert_ne by lia. done.
  - rewrite EL. simpl. rewrite <- Hlo. unfold LoReg. rewrite !list_lookup_insert_ne by lia. done.
  - rewrite EM. by apply same_memory_regs.
Qed.

(** The interpreter's state at the start of the [switch], and the machine's. *)
Record ready m s : Prop := {
  rd_mid : mid m s;
  rd_zero : registers m !! 0%nat = Some 0;
  rd_zero' : Reg s !! 0%nat = Some 0;
  rd_pc : is_Some (registers m !! Z.to_nat PCReg);
  rd_next : registers m !! Z.to_nat NextPCReg = Some (pc s);
  rd_npc : npc s = s32 (pc s + 4) }.

(** [exec_op] goes on to a state that agrees with [m']. *)
Definition follows (o : outcome (stepped H)) m' : Prop := exists s', o = Ok (Goes s') /\ agrees s' m'.

Lemma ready_range m s x a : ready m s -> getR m x = Ok a -> is_s32 a.
Proof.
  intros Hr Hg. apply arr_get_ok in Hg as [_ Hg]. eapply Forall_lookup_1; [|exact Hg]. apply (rd_mid _ _ Hr).
Qed.

Lemma ready_read m s x a : ready m s -> 0 <= x < 32 -> settled m x -> getR m x = Ok a -> reg s x = Ok a /\ is_s32 a.
Proof. intros Hr Hx Hst Hg. split; [|by eapply ready_range]. destruct Hr. by eapply mid_read. Qed.

Lemma follows_finish m s m' t : mid m s -> finish_instruction m (mkAfter t 0 0) = Ok m' -> is_s32 t ->
  registers m !! Z.to_nat NextPCReg = Some (pc s) -> is_Some (registers m !! Z.to_nat PCReg) ->
  agrees (with_npc s t) m'.
Proof.
  intros Hm Hf Ht Hn Hp. eapply (finish_agrees m s); try done.
  - exact (md_len _ _ Hm).
  - intros i Hi. rewrite decide_False by (simpl; lia). done.
Qed.

(** The instruction writes a register and goes to the next. *)
Lemma follows_write m s d v m' : ready m s -> 0 <= d < 32 -> settled m d -> is_s32 v ->
  on_done (set_and_go m d v (s32 (pc s + 4))) (fun m a => m ← finish_instruction m a; Ok (Done m ())) = Ok (Done m' ()) ->
  follows (set_reg s d v) m'.
Proof.
  intros [Hm Hz Hz' Hp Hn Hnpc] Hd Hst Hv Hf. unfold set_and_go in Hf. unfold on_done in Hf.
  apply bind_ok in Hf as (r & Hr & Hf). apply bind_ok in Hr as (m1 & Hs & Hr). injection Hr as <-.
  apply bind_ok in Hf as (m2 & Hf & Hr). injection Hr as <-.
  destruct (mid_write m s d v m1) as [-> Hm1]; [done..|].
  eexists. split. { unfold set_reg. rewrite arr_set_32 by (apply (md_len _ _ Hm) || done). done. }
  assert (with_Reg s (<[Z.to_nat d := v]> (Reg s)) = with_npc (with_Reg s (<[Z.to_nat d := v]> (Reg s))) (s32 (pc s + 4))) as ->.
  { unfold with_npc, with_Reg. simpl. by rewrite <- Hnpc. }
  eapply follows_finish; [exact Hm1|exact Hf|apply s32_range| |]; simpl;
    rewrite list_lookup_insert_ne by (unfold NextPCReg, PCReg; lia); done.
Qed.

(** The instruction only sets the program counter. *)
Lemma follows_jump m s t m' : ready m s -> is_s32 t -> finish_instruction m (mkAfter t 0 0) = Ok m' ->
  follows (Ok (Goes (with_npc s t))) m'.
Proof. intros [Hm Hz Hz' Hp Hn Hnpc] Ht Hf. eexists. split; [done|]. by eapply follows_finish. Qed.

Lemma follows_goto m s c extra target m' : ready m s -> (c = true -> target = s32 (pc s + IndexToAddr extra)) ->
  on_done (branch_if c m (pc s) extra (s32 (pc s + 4))) (fun m a => m ← finish_instruction m a; Ok (Done m ())) = Ok (Done m' ()) ->
  follows (goto_if s c target) m'.
Proof.
  intros Hr Ht Hf. unfold branch_if, on_done in Hf. simpl in Hf. apply bind_ok in Hf as (m2 & Hf & Hx). injection Hx as <-.
  unfold goto_if. destruct c.
  - rewrite (Ht eq_refl). apply (follows_jump m); [done|apply s32_range|done].
  - assert (s = with_npc s (s32 (pc s + 4))) as -> by (destruct s; unfold with_npc; simpl; f_equal; apply (rd_npc _ _ Hr)).
    apply (follows_jump m); [done|apply s32_range|done].
Qed.

(** The instruction loads a register. *)
Lemma follows_load m s r v m' : ready m s -> 0 <= r < 32 -> is_s32 v ->
  finish_instruction m (mkAfter (s32 (pc s + 4)) r v) = Ok m' -> follows (set_reg s r v) m'.
Proof.
  intros [Hm Hz Hz' Hp Hn Hnpc] Hd Hv Hf. pose proof (md_len _ _ Hm) as Hl.
  eexists. split. { unfold set_reg. rewrite arr_set_32 by done. done. }
  eapply (finish_agrees m s); try done; simpl.
  - split; [apply s32_range|done].
  - by rewrite length_insert.
  - intros i Hi. destruct (decide (r = Z.of_nat i)) as [->|Hne].
    + rewrite Nat2Z.id. apply list_lookup_insert_eq. lia.
    + apply list_lookup_insert_ne. lia.
Qed.

(** The program counters of [m'] and [s'] are those of [m] and [s]. *)
Definition same_pcs m s m' s' : Prop :=
  registers m' !! Z.to_nat NextPCReg = registers m !! Z.to_nat NextPCReg /\
  registers m' !! Z.to_nat PCReg = registers m !! Z.to_nat PCReg /\ pc s' = pc s /\ npc s' = npc s.

Lemma follows_step m s m1 s1 m' : ready m s -> mid m1 s1 -> same_pcs m s m1 s1 ->
  finish_instruction m1 (mkAfter (s32 (pc s + 4)) 0 0) = Ok m' -> follows (Ok (Goes s1)) m'.
Proof.
  intros [_ _ _ Hp Hn Hnpc] Hm (E1 & E2 & E3 & E4) Hf. exists s1. split; [done|].
  assert (s1 = with_npc s1 (s32 (pc s + 4))) as -> by (destruct s1; unfold with_npc; simpl in *; congruence).
  apply (follows_finish m1); [done|done|apply s32_range|congruence|congruence].
Qed.

Lemma mid_hilo m s x v m' : mid m s -> x = HiReg \/ x = LoReg -> is_s32 v -> setR m x v = Ok m' ->
  let s' := if x =? HiReg then with_HILO s v (LO s) else with_HILO s (HI s) v in
  mid m' s' /\ same_pcs m s m' s'.
Proof.
  intros [Hwf Hlen Hregs Hhi Hlo Hmem] Hx Hv Hs.
  assert (32 <= x <= 33) as Hr by (unfold HiReg, LoReg in Hx; lia).
  destruct (setR_wf m x v Hwf) as [Hs' Hwf']; [lia|done|unfold LoadReg; lia|]. rewrite Hs' in Hs. injection Hs as <-.
  pose proof (wf_reg_length m Hwf) as Hl. change (Z.to_nat NumTotalRegs) with 40%nat in Hl.
  cbv zeta. split.
  2: { unfold same_pcs. simpl. rewrite !list_lookup_insert_ne by (unfold NextPCReg, PCReg; lia). by destruct (x =? HiReg). }
  split; simpl; try done; try (by destruct (x =? HiReg)).
  - intros j Hj. transitivity (visible (registers m) j); [by destruct (x =? HiReg); apply Hregs|]. unfold visible.
    rewrite !list_lookup_insert_ne by (unfold LoadReg, LoadValueReg; lia). done.
  - destruct Hx as [-> | ->]; simpl; [apply list_lookup_insert_eq|rewrite list_lookup_insert_ne; [done|]]; unfold HiReg, LoReg; lia.
  - destruct Hx as [-> | ->]; simpl; [rewrite list_lookup_insert_ne; [done|]|apply list_lookup_insert_eq]; unfold HiReg, LoReg; lia.
  - destruct (x =? HiReg); by apply same_memory_regs.
Qed.

Lemma follows_hilo m s x v y w m' : ready m s -> is_s32 v -> is_s32 w ->
  x = HiReg /\ y = LoReg \/ x = LoReg /\ y = HiReg ->
  on_done (m ← setR m x v; m ← setR m y w; Ok (Done m (mkAfter (s32 (pc s + 4)) 0 0)))
    (fun m a => m ← finish_instruction m a; Ok (Done m ())) = Ok (Done m' ()) ->
  follows (Ok (Goes (if x =? HiReg then with_HILO s v w else with_HILO s w v))) m'.
Proof.
  intros Hr Hv Hw Hxy Hf. pose proof (rd_mid _ _ Hr) as Hm. unfold on_done in Hf.
  apply bind_ok in Hf as (r & H1 & Hf). apply bind_ok in H1 as (m1 & H1 & H2). apply bind_ok in H2 as (m2 & H2 & E). injection E as <-.
  apply bind_ok in Hf as (m3 & Hf & E). injection E as <-.
  assert (x = HiReg \/ x = LoReg) as Hx by tauto. assert (y = HiReg \/ y = LoReg) as Hy by tauto.
  destruct (mid_hilo _ _ _ _ _ Hm Hx Hv H1) as [Hm1 P1]. destruct (mid_hilo _ _ _ _ _ Hm1 Hy Hw H2) as [Hm2 P2].
  destruct Hxy as [[-> ->]|[-> ->]]; simpl in Hm1, P1, Hm2, P2 |- *;
    (eapply (follows_step m s m2); [done|exact Hm2| |done]; unfold same_pcs in *; simpl in *; intuition congruence).
Qed.

Lemma follows_move m s x v m' : ready m s -> is_s32 v -> x = HiReg \/ x = LoReg ->
  on_done (set_and_go m x v (s32 (pc s + 4))) (fun m a => m ← finish_instruction m a; Ok (Done m ())) = Ok (Done m' ()) ->
  follows (Ok (Goes (if x =? HiReg then with_HILO s v (LO s) else with_HILO s (HI s) v))) m'.
Proof.
  intros Hr Hv Hx Hf. unfold on_done, set_and_go in Hf. apply bind_ok in Hf as (r & H1 & Hf).
  apply bind_ok in H1 as (m1 & H1 & E). injection E as <-. apply bind_ok in Hf as (m3 & Hf & E). injection E as <-.
  destruct (mid_hilo _ _ _ _ _ (rd_mid _ _ Hr) Hx Hv H1) as [Hm1 P1]. by eapply (follows_step m s m1).
Qed.

(** ** Instructions that mean the same *)

(** The register that the instruction writes or stores. *)
Definition dest (i : Instruction) : Z :=
  match opCode i with
  | OP_JAL | OP_BLTZAL | OP_BGEZAL => 31
  | OP_ADDI | OP_ADDIU | OP_ANDI | OP_ORI | OP_XORI | OP_SLTI | OP_SLTIU | OP_LUI
  | OP_LB | OP_LBU | OP_LH | OP_LHU | OP_LW | OP_SB | OP_SH | OP_SW
  | OP_BEQ | OP_BNE | OP_BLEZ | OP_BGTZ | OP_BLTZ | OP_BGEZ | OP_J => i_rt i
  | _ => i_rd i
  end.

(** The operands and the program counters for which the two programs agree; [a] and
    [b] are the values of registers [rs] and [rt]. *)
Definition same_meaning (i : Instruction) (a b pc next : Z) : bool :=
  match opCode i with
  | OP_ANDI | OP_ORI | OP_XORI => 0 <=? i_extra i
  | OP_OR => Z.lor a b =? a
  | OP_SRL => 0 <=? b
  | OP_SRLV => (0 <=? b) && shift_ok a
  | OP_SLLV | OP_SRAV => shift_ok a
  | OP_MULT => (Z.abs a <? 65536) && (Z.abs b <? 65536)
  | OP_MULTU => (0 <=? a) && (a <? 65536) && (0 <=? b) && (b <? 65536)
  | OP_DIV | OP_DIVU => negb (b =? 0)
  | OP_BEQ | OP_BNE | OP_BLEZ | OP_BGTZ | OP_BLTZ | OP_BGEZ | OP_BLTZAL | OP_BGEZAL => next =? s32 (pc + 4)
  | OP_JALR => (next =? s32 (pc + 4)) && negb (i_rd i =? i_rs i)
  | OP_JAL => (next =? s32 (pc + 4)) && (Z.land (u32 pc) 0xf0000000 =? Z.land (u32 (next + 4)) 0xf0000000)
  | OP_J => Z.land (u32 pc) 0xf0000000 =? Z.land (u32 (next + 4)) 0xf0000000
  | OP_LWL | OP_LWR | OP_SWL | OP_SWR => false
  | _ => true
  end.

Lemma trap_not_done {A B} m which bad (k : Machine -> A -> outcome (result B)) m' u :
  on_done (trap m which bad) k = Ok (Done m' u) -> False.
Proof. unfold on_done, trap. intros Hf. apply bind_ok in Hf as (r & Hr & Hf). apply bind_ok in Hr as (m1 & _ & Hr). by simplify_eq. Qed.

(** One instruction: the state of its proof. *)
Record at_instruction m s (i : Instruction) (raw xpc a b : Z) : Prop := {
  ai_ready : ready m s;
  ai_dec : decoded raw i;
  ai_ok : instr_ok i;
  ai_rs : settled m (i_rs i);
  ai_rt : settled m (i_rt i);
  ai_dest : settled m (dest i);
  ai_a : getR m (i_rs i) = Ok a;
  ai_b : getR m (i_rt i) = Ok b;
  ai_pc : registers m !! Z.to_nat PCReg = Some xpc;
  ai_same : same_meaning i a b xpc (pc s) = true }.

Definition machine_goes m i next m' : Prop :=
  on_done (exec_instr m i next) (fun m a => m ← finish_instruction m a; Ok (Done m ())) = Ok (Done m' ()).

Lemma with_mem_same s : with_mem s (mem s) = s.
Proof. by destruct s. Qed.

Lemma ai_reads m s i raw xpc a b : at_instruction m s i raw xpc a b ->
  reg s (rs raw) = Ok a /\ is_s32 a /\ reg s (rt raw) = Ok b /\ is_s32 b /\
  0 <= rs raw < 32 /\ 0 <= rt raw < 32 /\ 0 <= rd raw < 32 /\ is_s32 (i_extra i).
Proof.
  intros [Hr Hd (Hs & Ht & Hdd & He & _) Hst1 Hst2 _ Ha Hb _ _].
  destruct (ready_read m s (i_rs i) a) as [Ha1 Ha2]; try done.
  destruct (ready_read m s (i_rt i) b) as [Hb1 Hb2]; try done.
  rewrite (de_rs _ _ Hd) in *. rewrite (de_rt _ _ Hd) in *. rewrite (de_rd _ _ Hd) in *. do 7 (split; [done|]). done.
Qed.
End agreement.

(** Evaluates the tests of a [switch] on a known opcode. *)
Ltac eval_switch :=
  repeat match goal with
  | |- context [if ?c then _ else _] =>
      let b := eval vm_compute in c in
      match b with
      | true => change c with true
      | false => change c with false
      end; cbv iota
  end.

(** Opens an instruction of one of the tables: [Hat], the opcode [Eo], the machine's
    run [Hgo] and the interpreter's [switch] in the goal. *)
Ltac open_instruction Hat Eo Hgo :=
  destruct (ai_reads _ _ _ _ _ _ _ Hat) as (Ha & Hra & Hb & Hrb & Hrs & Hrt & Hrd & Hre);
  pose proof (ai_dec _ _ _ _ _ _ _ Hat) as Hdec;
  pose proof (ai_ready _ _ _ _ _ _ _ Hat) as Hready;
  pose proof (ai_same _ _ _ _ _ _ _ Hat) as Hsame;
  pose proof (ai_dest _ _ _ _ _ _ _ Hat) as Hdest;
  pose proof (de_op _ _ Hdec) as Hop; pose proof (de_special _ _ Hdec) as Hsp; pose proof (de_bcond _ _ Hdec) as Hbc;
  unfold dest in Hdest; unfold same_meaning in Hsame; unfold machine_goes, exec_instr in Hgo;
  rewrite Eo in Hop, Hsp, Hbc, Hdest, Hsame, Hgo;
  unfold exec_ADD_to_DIVU, exec_JAL_to_LWR, exec_MFHI_to_SLTU, exec_SRA_to_end in Hgo; rewrite Eo in Hgo;
  rewrite ?(ai_a _ _ _ _ _ _ _ Hat), ?(ai_b _ _ _ _ _ _ _ Hat) in Hgo;
  rewrite ?(de_rs _ _ Hdec), ?(de_rt _ _ Hdec), ?(de_rd _ _ Hdec) in *;
  cbn [mbind outcome_bind] in Hgo;
  unfold exec_op;
  let open_switch E X :=
    cbv zeta; eval_switch;
    unfold exec_special, exec_bcond, exec_J_to_LUI, exec_LB_to_end, exec_SLL_to_MTLO, exec_MULT_to_SLTU; cbv zeta;
    rewrite ?E; eval_switch; rewrite ?Ha, ?Hb; cbn [mbind outcome_bind];
    first [rewrite bool_decide_eq_false_2 in X by (by intros [|]) | rewrite bool_decide_eq_true_2 in X by auto | idtac]; rewrite ?X in Hgo; rewrite ?X in Hsame; rewrite X in Hre in
  first [destruct (Hsp _ eq_refl) as (-> & Hnum & Hextra); open_switch Hnum Hextra |
         destruct (Hbc _ eq_refl) as (-> & Hnum & Hextra); open_switch Hnum Hextra |
         destruct (Hop _ eq_refl) as [Hnum Hextra]; rewrite Hnum; open_switch Hnum Hextra];
  clear Hop Hsp Hbc.

Section instructions.
Context {H : Type} `{HostOS H}.
Implicit Types (m : Machine) (s : Interp H).
Context m s i raw xpc a b (Hat : at_instruction m s i raw xpc a b) m' (Hgo : machine_goes m i (pc s) m').

(** A register is written with the same value. *)
Ltac same_write :=
  apply (follows_write m);
  [done|done|done|first [apply s32_range|solve [auto with nachos]|apply is_s32_if; by split]|exact Hgo].

Definition plain_write (op : opcode) : bool :=
  match op with
  | OP_ADDU | OP_SUBU | OP_AND | OP_XOR | OP_NOR | OP_SLT | OP_SLTU | OP_SLL | OP_ADDIU | OP_SLTI | OP_SLTIU => true
  | _ => false
  end.

Lemma follows_plain : plain_write (opCode i) = true -> follows (exec_op s raw xpc) m'.
Proof.
  intros Hp. destruct (opCode i) eqn:Eo; try discriminate Hp; open_instruction Hat Eo Hgo; same_write.
Qed.

(** The additions that may overflow: the machine does not trap. *)
Lemma follows_checked : opCode i = OP_ADD \/ opCode i = OP_ADDI \/ opCode i = OP_SUB -> follows (exec_op s raw xpc) m'.
Proof.
  intros [Eo|[Eo|Eo]]; open_instruction Hat Eo Hgo;
    (match type of Hgo with context [if ?c then _ else _] => destruct c end; [by apply trap_not_done in Hgo|same_write]).
Qed.

Lemma shamt_range : 0 <= shamt raw < 32.
Proof. by apply (land_mask_range _ _ 5). Qed.

(** The shifts. *)
Lemma follows_shift :
  opCode i = OP_SRA \/ opCode i = OP_SRL \/ opCode i = OP_SLLV \/ opCode i = OP_SRAV \/ opCode i = OP_SRLV ->
  follows (exec_op s raw xpc) m'.
Proof.
  pose proof shamt_range as Hsh.
  assert (forall n, 0 <= n < 32 -> is_s32 (Z.shiftr b n)) as Hshr.
  { intros n Hn. apply is_s32_srl; [lia|]. apply (ai_reads _ _ _ _ _ _ _ Hat). }
  assert (forall n, shift_ok n = true -> 0 <= n < 32 /\ Z.land n 0x1f = n) as Hok.
  { unfold shift_ok. intros n Hn. assert (0 <= n < 32) as Hr by lia. split; [done|].
    change 0x1f with (Z.ones 5). rewrite Z.land_ones by lia. by apply Z.mod_small. }
  assert (forall n, 0 <= n < 32 -> 0 <= b -> is_s32 b -> s32 (Z.shiftr (u32 b) n) = Z.shiftr b n) as Hpos.
  { intros n Hn Hb0 Hbr. rewrite u32_small by (unfold is_u32, is_s32, two32, two31 in *; lia). apply s32_small. auto. }
  intros [Eo|[Eo|[Eo|[Eo|Eo]]]]; open_instruction Hat Eo Hgo.
  - apply (follows_write m); [done..|by apply Hshr|exact Hgo].
  - rewrite Hpos by (done || lia). apply (follows_write m); [done..|by apply Hshr|exact Hgo].
  - rewrite Hsame. destruct (Hok a Hsame) as [_ E]. rewrite E in Hgo. same_write.
  - rewrite Hsame. destruct (Hok a Hsame) as [Hr E]. rewrite E in Hgo. apply (follows_write m); [done..|by apply Hshr|exact Hgo].
  - apply andb_true_iff in Hsame as [Hpb Hsame]. rewrite Hsame. destruct (Hok a Hsame) as [Hr E]. rewrite E in Hgo.
    rewrite Hpos by (done || lia). apply (follows_write m); [done..|by apply Hshr|exact Hgo].
Qed.

(** The operations on the low half, with a nonnegative immediate operand. *)
Lemma follows_immediate : opCode i = OP_ANDI \/ opCode i = OP_ORI \/ opCode i = OP_XORI -> follows (exec_op s raw xpc) m'.
Proof.
  assert (0 <= immed raw -> Z.land (immed raw) 0xffff = immed raw) as Hlow.
  { rewrite immed_sign16. unfold sign16. intros Hpos. change 0xffff with (Z.ones 16). rewrite Z.land_ones by lia.
    apply Z.mod_small. change (2 ^ 16) with 65536. destruct (Z.ltb_spec (raw `mod` 65536) 32768); dlia. }
  intros [Eo|[Eo|Eo]]; open_instruction Hat Eo Hgo; rewrite Hlow in Hgo by lia; same_write.
Qed.

Lemma follows_LUI : opCode i = OP_LUI -> follows (exec_op s raw xpc) m'.
Proof.
  intros Eo. open_instruction Hat Eo Hgo.
  assert (s32 (Z.shiftl raw 16) = s32 (Z.shiftl (immed raw) 16)) as ->; [|same_write].
  rewrite !Z.shiftl_mul_pow2, immed_sign16 by lia. unfold sign16, s32, two31, two32. change (2 ^ 16) with 65536.
  destruct (Z.ltb_spec (raw `mod` 65536) 32768); dlia.
Qed.

Lemma follows_OR : opCode i = OP_OR -> follows (exec_op s raw xpc) m'.
Proof. intros Eo. open_instruction Hat Eo Hgo. apply Z.eqb_eq in Hsame. rewrite Z.lor_diag in Hgo. rewrite Hsame. same_write. Qed.

Lemma hi_lo : getR m HiReg = Ok (HI s) /\ getR m LoReg = Ok (LO s) /\ is_s32 (HI s) /\ is_s32 (LO s).
Proof.
  pose proof (ai_ready _ _ _ _ _ _ _ Hat) as Hr. pose proof (rd_mid _ _ Hr) as Hm.
  assert (getR m HiReg = Ok (HI s)) as H1 by (apply arr_get_ok; split; [done|apply (md_hi _ _ Hm)]).
  assert (getR m LoReg = Ok (LO s)) as H2 by (apply arr_get_ok; split; [done|apply (md_lo _ _ Hm)]).
  split_and!; try done; by eapply ready_range.
Qed.

Lemma follows_moves :
  opCode i = OP_MFHI \/ opCode i = OP_MFLO \/ opCode i = OP_MTHI \/ opCode i = OP_MTLO -> follows (exec_op s raw xpc) m'.
Proof.
  destruct hi_lo as (Ehi & Elo & Rhi & Rlo).
  intros [Eo|[Eo|[Eo|Eo]]]; open_instruction Hat Eo Hgo.
  - rewrite Ehi in Hgo. simpl in Hgo. same_write.
  - rewrite Elo in Hgo. simpl in Hgo. same_write.
  - apply (follows_move m s HiReg a); auto.
  - apply (follows_move m s LoReg a); auto.
Qed.

(** Products of half words and divisions. *)
Lemma follows_product : opCode i = OP_MULT \/ opCode i = OP_MULTU -> follows (exec_op s raw xpc) m'.
Proof.
  intros [Eo|Eo]; open_instruction Hat Eo Hgo.
  - apply andb_true_iff in Hsame as [S1 S2]. rewrite (mult_signed_small a b) by lia.
    pose proof (Mult_range a b true) as [R1 R2]. destruct (Mult a b true) as [hi lo]. apply (follows_hilo m s HiReg hi LoReg lo); auto.
  - rewrite <- (mult_unsigned_small a b) in Hgo by lia. 
    assert (is_s32 (high_product a b)) as R by apply s32_range.
    apply (follows_hilo m s HiReg _ LoReg _); auto using s32_range.
Qed.

Lemma follows_division : opCode i = OP_DIV \/ opCode i = OP_DIVU -> follows (exec_op s raw xpc) m'.
Proof.
  intros [Eo|Eo]; open_instruction Hat Eo Hgo; apply negb_true_iff in Hsame.
  - rewrite Hsame in Hgo |- *. rewrite orb_false_l. destruct ((a =? - two31) && (b =? -1)) eqn:Eov; [done|].
    apply Z.eqb_neq in Hsame.
    apply (follows_hilo m s LoReg (cdiv a b) HiReg (cmod a b)); auto using cmod_range.
    apply cdiv_range; [done| |done]. intros [-> ->]. by rewrite !Z.eqb_refl in Eov.
  - apply Z.eqb_neq in Hsame. destruct (Z.eqb_spec (u32 b) 0) as [E|E].
    { exfalso. apply Hsame. rewrite <- (s32_small b) by done. by apply (s32_cong b 0). }
    apply (follows_hilo m s LoReg _ HiReg _); auto using s32_range.
Qed.

(** The target of a branch that is not in a delay slot. *)
Lemma branch_target : pc s = s32 (xpc + 4) -> s32 (xpc + 4 + Z.shiftl (immed raw) 2) = s32 (pc s + IndexToAddr (immed raw)).
Proof. intros ->. apply s32_cong. unfold IndexToAddr, u32, s32, two31, two32. dlia. Qed.

Definition plain_branch (op : opcode) : bool :=
  match op with OP_BEQ | OP_BNE | OP_BLEZ | OP_BGTZ | OP_BLTZ | OP_BGEZ => true | _ => false end.

Lemma follows_branch : plain_branch (opCode i) = true -> follows (exec_op s raw xpc) m'.
Proof.
  intros Hp. destruct (opCode i) eqn:Eo; try discriminate Hp; open_instruction Hat Eo Hgo;
    apply Z.eqb_eq, branch_target in Hsame; rewrite ?sign_bit_neg in Hgo by done; rewrite ?Z.leb_antisym in Hgo; rewrite ?Z.leb_antisym;
    by apply (follows_goto m s _ (immed raw)).
Qed.

Lemma ready_write x v m1 : ready m s -> 0 < x < 32 -> settled m x -> is_s32 v -> setR m x v = Ok m1 ->
  ready m1 (with_Reg s (<[Z.to_nat x := v]> (Reg s))) /\ (forall y, settled m y -> settled m1 y) /\ machine_wf m1.
Proof.
  intros [Hm Hz Hz' Hp Hn Hnpc] Hx Hst Hv Hs. destruct (mid_write m s x v m1 Hm) as [-> Hm1]; [lia|done..|].
  split_and!; [|intros y Hy p; simpl; rewrite list_lookup_insert_ne by (unfold LoadReg; lia); apply Hy|apply (md_wf _ _ Hm1)].
  split; simpl; try done; rewrite list_lookup_insert_ne; try done; unfold PCReg, NextPCReg; lia.
Qed.

Lemma link_value : pc s = s32 (xpc + 4) -> s32 (xpc + 8) = s32 (pc s + 4).
Proof. intros ->. apply s32_cong. unfold u32, s32, two31, two32. dlia. Qed.

Lemma follows_branch_link : opCode i = OP_BLTZAL \/ opCode i = OP_BGEZAL -> follows (exec_op s raw xpc) m'.
Proof.
  pose proof (md_len _ _ (rd_mid _ _ (ai_ready _ _ _ _ _ _ _ Hat))) as Hlen.
  intros [Eo|Eo]; open_instruction Hat Eo Hgo; apply Z.eqb_eq in Hsame; pose proof (branch_target Hsame) as Htarget;
    rewrite (link_value Hsame), arr_set_32 by done; cbn [mbind outcome_bind];
    unfold on_done, RetAddrReg in Hgo; apply bind_ok in Hgo as (r & Hr & Hgo); apply bind_ok in Hr as (m1 & Hset & Hr);
    (destruct (ready_write 31 (s32 (pc s + 4)) m1) as (Hr1 & Hst1 & Hw1); [done|done|done|apply s32_range|done|]);
    apply bind_ok in Hr as (v & Hv & Hr);
    (destruct (ready_read m1 _ (rs raw) v Hr1) as [Hv' Hrv]; [done|apply Hst1; rewrite <- (de_rs _ _ Hdec); apply Hat|done|]);
    rewrite Hv'; cbn [mbind outcome_bind]; rewrite sign_bit_neg in Hr by done; rewrite ?Z.leb_antisym;
    (apply (follows_goto m1 _ _ (immed raw)); [done|done|]; unfold on_done; cbn [pc with_Reg]; rewrite Hr; exact Hgo).
Qed.

Lemma jump_same next : Z.land (u32 xpc) 0xf0000000 = Z.land (u32 (next + 4)) 0xf0000000 ->
  s32 (Z.lor (Z.land (u32 (s32 (next + 4))) 0xf0000000) (u32 (IndexToAddr (Z.land raw 0x3ffffff)))) = jump_target raw xpc.
Proof.
  intros E. unfold jump_target, IndexToAddr. rewrite !u32_s32, E. f_equal. f_equal.
  pose proof (land_mask_range raw 0x3ffffff 26 ltac:(lia) eq_refl) as Hr. apply u32_small.
  rewrite Z.shiftl_mul_pow2 by lia. unfold is_u32, two32. lia.
Qed.

Lemma follows_jumps : opCode i = OP_J \/ opCode i = OP_JAL \/ opCode i = OP_JR \/ opCode i = OP_JALR ->
  follows (exec_op s raw xpc) m'.
Proof.
  pose proof (rd_mid _ _ (ai_ready _ _ _ _ _ _ _ Hat)) as Hm. pose proof (md_len _ _ Hm) as Hlen.
  assert (forall t, finish_instruction m (mkAfter t 0 0) ≫= (fun m => Ok (Done m ())) = Ok (Done m' ()) -> finish_instruction m (mkAfter t 0 0) = Ok m') as Hfin.
  { intros t Hf. apply bind_ok in Hf as (m2 & Hf & E). by injection E as <-. }
  intros [Eo|[Eo|[Eo|Eo]]]; open_instruction Hat Eo Hgo.
  - apply Z.eqb_eq in Hsame. rewrite jump_same in Hgo by done. apply (follows_jump m); [done|apply s32_range|by apply Hfin].
  - apply andb_true_iff in Hsame as [E%Z.eqb_eq Hsame%Z.eqb_eq]. rewrite jump_same in Hgo by done.
    rewrite (link_value E), arr_set_32 by done. cbn [mbind outcome_bind]. unfold on_done in Hgo.
    apply bind_ok in Hgo as (r & Hr & Hgo). apply bind_ok in Hr as (m1 & Hset & Hr). injection Hr as <-.
    destruct (ready_write 31 (s32 (pc s + 4)) m1) as (Hr1 & _ & _); [done|done|done|apply s32_range|done|].
    apply bind_ok in Hgo as (m2 & Hf & E2). injection E2 as <-. apply (follows_jump m1); [done|apply s32_range|done].
  - apply (follows_jump m); [done|done|by apply Hfin].
  - apply andb_true_iff in Hsame as [E%Z.eqb_eq Hne%negb_true_iff%Z.eqb_neq]. unfold set_reg. cbn [Reg with_npc].
    rewrite (link_value E), arr_set_32 by done. cbn [mbind outcome_bind]. unfold on_done in Hgo.
    apply bind_ok in Hgo as (r & Hr & Hgo). apply bind_ok in Hr as (m1 & Hset & Hr). apply bind_ok in Hr as (v & Hv & Hr). injection Hr as <-.
    destruct (mid_write m s (rd raw) (s32 (pc s + 4)) m1) as [-> Hm1]; [done|done|done|apply s32_range|done|].
    assert (v = a) as ->.
    { pose proof (ai_a _ _ _ _ _ _ _ Hat) as Ea. rewrite (de_rs _ _ Hdec) in Ea.
      apply arr_get_ok in Ea as [_ Ea]. apply arr_get_ok in Hv as [_ Hv]. cbn [registers with_registers] in Hv.
      rewrite list_lookup_insert_ne in Hv by lia. congruence. }
    apply bind_ok in Hgo as (m2 & Hf & E2). injection E2 as <-. eexists. split; [done|].
    change (agrees (with_npc (with_Reg s (<[Z.to_nat (rd raw) := s32 (pc s + 4)]> (Reg s))) a) m2).
    eapply follows_finish; [exact Hm1|exact Hf|done| |]; simpl;
      rewrite list_lookup_insert_ne by (unfold NextPCReg, PCReg; lia); apply Hready.
Qed.

Lemma ready_mem m1 b1 : ready m s -> machine_wf m1 -> registers m1 = registers m -> same_memory m1 b1 ->
  ready m1 (with_mem s b1).
Proof.
  intros [[Hwf Hlen Hregs Hhi Hlo Hmem] Hz Hz' Hp Hn Hnpc] Hw Hr Hb. split; try rewrite Hr; try done.
  split; try rewrite Hr; done.
Qed.

(** A read in an instruction: its value is the one the interpreter fetches. *)
Lemma load_agrees addr size m1 v : is_s32 addr -> access_size size -> ReadMem m addr size = Ok (Done m1 v) ->
  ready m1 s /\ fetched_value (mem s) addr size = Ok v /\ narrow size v = v /\ is_s32 v /\
  (size = 1 -> ucfetch (mem s) addr = Ok (v `mod` 256)).
Proof.
  intros Ha Hsize Hr. pose proof (ai_ready _ _ _ _ _ _ _ Hat) as Hready. pose proof (rd_mid _ _ Hready) as Hm.
  destruct (read_agrees m (mem s) addr size m1 v (md_wf _ _ Hm) Hsize Ha (md_mem _ _ Hm) Hr) as (Hw & Hreg & Hs & Hv & Hub).
  assert (narrow size v = v) as Hn by (eapply read_range; [apply (md_wf _ _ Hm)|done..]).
  split; [|split_and!; [done|done|by eapply narrow_range|done]].
  rewrite <- (with_mem_same s). by apply ready_mem.
Qed.

Lemma on_done_done {A B} (o : outcome (result A)) (k : Machine -> A -> outcome (result B)) m2 x :
  on_done o k = Ok (Done m2 x) -> exists m1 y, o = Ok (Done m1 y) /\ k m1 y = Ok (Done m2 x).
Proof. unfold on_done. intros Hf. apply bind_ok in Hf as ([m1 y|m1 w bad] & Ho & Hk); [eauto|discriminate Hk]. Qed.

Lemma follows_loads :
  opCode i = OP_LB \/ opCode i = OP_LBU \/ opCode i = OP_LH \/ opCode i = OP_LHU \/ opCode i = OP_LW ->
  follows (exec_op s raw xpc) m'.
Proof.
  intros [Eo|[Eo|[Eo|[Eo|Eo]]]]; open_instruction Hat Eo Hgo;
    try (match type of Hgo with context [if ?c then trap _ _ _ else _] => destruct c end; [by apply trap_not_done in Hgo|]);
    apply on_done_done in Hgo as (m2 & x & Hgo & Hfin); apply on_done_done in Hgo as (m1 & v & Hread & E);
    injection E as <- <-; apply bind_ok in Hfin as (m3 & Hfin & E); injection E as <-;
    (apply load_agrees in Hread as (Hr1 & Hv & Hnarrow & Hrange & Hub); [|apply s32_range|unfold access_size; auto]).
  - destruct (extend_byte v Hnarrow) as [E _]. change (cfetch (mem s) (s32 (a + immed raw)) = Ok v) in Hv. rewrite Hv.
    simpl in Hfin. rewrite E in Hfin. by apply (follows_load m1).
  - destruct (extend_byte v Hnarrow) as [_ E]. rewrite (Hub eq_refl). simpl in Hfin. rewrite E in Hfin.
    apply (follows_load m1); try done. unfold is_s32, two31. dlia.
  - destruct (extend_half v Hnarrow) as [E _]. change (get_half (mem s) (s32 (a + immed raw)) = Ok v) in Hv. unfold sfetch. rewrite Hv.
    simpl in Hfin. rewrite E in Hfin. apply (follows_load m1); try done.
    apply is_s32_if; [|done]. clear E. unfold narrow in Hnarrow. simpl in Hnarrow. unfold is_s32, two31. dlia.
  - destruct (extend_half v Hnarrow) as [_ E]. change (usfetch (mem s) (s32 (a + immed raw)) = Ok v) in Hv. rewrite Hv.
    simpl in Hfin. rewrite E in Hfin. by apply (follows_load m1).
  - change (fetch (mem s) (s32 (a + immed raw)) = Ok v) in Hv. rewrite Hv. by apply (follows_load m1).
Qed.

(** The stores. *)
Lemma follows_store size (st : outcome memory) mf :
  access_size size ->
  (forall b', put_all (mem s) (s32 (a + i_extra i)) (value_bytes size b) = Ok b' ->
     misaligned (s32 (a + i_extra i)) size = false -> st = Ok b') ->
  on_done (on_done (WriteMem m (s32 (a + i_extra i)) size b) (fun m _ => Ok (Done m (mkAfter (s32 (pc s + 4)) 0 0))))
    (fun m a => m ← finish_instruction m a; Ok (Done m ())) = Ok (Done mf ()) ->
  follows (m1 ← st; Ok (Goes (with_mem s m1))) mf.
Proof.
  intros Hsize Hst Hgo'. pose proof (ai_ready _ _ _ _ _ _ _ Hat) as Hready. pose proof (rd_mid _ _ Hready) as Hm.
  apply on_done_done in Hgo' as (m2 & x & Hgo' & Hfin). apply on_done_done in Hgo' as (m1 & v & Hwrite & E).
  injection E as <- <-. apply bind_ok in Hfin as (m3 & Hfin & E). injection E as <-.
  destruct (write_agrees _ _ _ _ _ _ _ (md_wf _ _ Hm) Hsize (s32_range _) (md_mem _ _ Hm) Hwrite) as (Hw & Hreg & Hal & b' & Hput & Hs).
  rewrite (Hst b' Hput Hal). simpl. pose proof (ready_mem m1 b' Hready Hw Hreg Hs) as Hr1.
  apply (follows_step m1 (with_mem s b') m1); [done|apply (rd_mid _ _ Hr1)|done|done].
Qed.

Lemma follows_stores : opCode i = OP_SB \/ opCode i = OP_SH \/ opCode i = OP_SW -> follows (exec_op s raw xpc) m'.
Proof.
  intros [Eo|[Eo|Eo]]; open_instruction Hat Eo Hgo; rewrite <- Hextra in Hgo |- *.
  - apply (follows_store 1); [by left| |done]. intros b' Hp _. unfold cstore.
    change (value_bytes 1 b) with [Z.land b 0xff] in Hp. simpl in Hp.
    change 0xff with (Z.ones 8) in Hp. rewrite Z.land_ones in Hp by lia. change (2 ^ 8) with 256 in Hp.
    by apply bind_ok in Hp as (b1 & -> & [= ->]).
  - apply (follows_store 2); [by right; left| |done]. intros b' Hp Hal. unfold sstore. rewrite Hal, <- Hp. f_equal.
    change (value_bytes 2 b) with (take 2 (word_bytes (Z.land b 0xffff))). change 0xffff with (Z.ones 16).
    rewrite Z.land_ones by lia. change (2 ^ 16) with 65536. unfold word_bytes, u32, two32. cbn [take].
    assert (forall x y x' y' : Z, x = x' -> y = y' -> [x; y] = [x'; y']) as Hl by congruence. apply Hl; dlia.
  - apply (follows_store 4); [by right; right| |done]. intros b' Hp Hal. unfold store. by rewrite Hal.
Qed.

(** Any instruction that the machine completes and that means the same. *)
Lemma exec_follows : follows (exec_op s raw xpc) m'.
Proof.
  pose proof (ai_ok _ _ _ _ _ _ _ Hat) as (_ & _ & _ & _ & Hdecodable & _).
  destruct (opCode i) eqn:Eo; try discriminate Hdecodable;
    first [apply follows_plain; by rewrite Eo | apply follows_branch; by rewrite Eo
          | apply follows_checked; by rewrite Eo; auto | apply follows_shift; by rewrite Eo; auto 6
          | apply follows_immediate; by rewrite Eo; auto | by apply follows_LUI | by apply follows_OR
          | apply follows_moves; by rewrite Eo; auto | apply follows_product; by rewrite Eo; auto
          | apply follows_division; by rewrite Eo; auto | apply follows_branch_link; by rewrite Eo; auto
          | apply follows_jumps; by rewrite Eo; auto | apply follows_loads; by rewrite Eo; auto 6
          | apply follows_stores; by rewrite Eo; auto | idtac].
  all: pose proof (ai_same _ _ _ _ _ _ _ Hat) as Hsame; unfold same_meaning in Hsame; rewrite Eo in Hsame; try discriminate Hsame.
  all: unfold machine_goes, exec_instr, exec_SRA_to_end in Hgo; rewrite !Eo in Hgo; by apply trap_not_done in Hgo.
Qed.
End instructions.

(** ** Runs *)

(** The register [x] is not the target [p] of a pending load. *)
Definition no_hazard (p x : Z) : bool := (p =? 0) || negb (p =? x).

(** The next instruction of [m] means the same in both programs, and does not name the
    register of the load before it. *)
Definition comparable (m : Machine) : outcome bool :=
  pc ← getR m PCReg;
  r ← ReadMem m pc 4;
  match r with
  | Trap _ _ _ => Ok false
  | Done _ raw =>
      i ← Decode (u32 raw);
      a ← getR m (i_rs i);
      b ← getR m (i_rt i);
      next ← getR m NextPCReg;
      p ← getR m LoadReg;
      Ok (no_hazard p (i_rs i) && no_hazard p (i_rt i) && no_hazard p (dest i) && same_meaning i a b pc next)
  end.

Lemma no_hazard_settled m p x : getR m LoadReg = Ok p -> no_hazard p x = true -> settled m x.
Proof.
  intros Hp Hh q Hq. apply arr_get_ok in Hp as [_ Hp]. rewrite Hp in Hq. injection Hq as <-.
  unfold no_hazard in Hh. apply orb_true_iff in Hh as [E%Z.eqb_eq|E%negb_true_iff%Z.eqb_neq]; auto.
Qed.

Lemma settled_regs m m1 x : registers m1 = registers m -> settled m x -> settled m1 x.
Proof. intros E Hs p Hp. rewrite E in Hp. by apply Hs. Qed.

Section runs.
Context {H : Type} `{HostOS H}.
Implicit Types (m : Machine) (s : Interp H).

Lemma zero_register (r : list Z) i : (1 <= i)%nat -> <[0%nat := 0]> r !! i = r !! i.
Proof. intros Hi. apply list_lookup_insert_ne. lia. Qed.

(** The state in which the [switch] starts. *)
Definition entered s : Interp H :=
  mkInterp (<[0%nat := 0]> (Reg s)) (HI s) (LO s) (mem s) (npc s) (s32 (npc s + 4)) (s32 (icount s + 1)) (host s).

Lemma entered_ready s m m1 : agrees s m -> machine_wf m1 -> registers m1 = registers m -> same_memory m1 (mem s) ->
  ready m1 (entered s).
Proof.
  intros [[Hwf Hlen Hregs Hhi Hlo Hmem] Hz Hpc Hn] Hw Hr Hb. split; simpl; try rewrite Hr; try done.
  - split; simpl; try rewrite Hr; try done; [by rewrite length_insert|].
    intros i Hi. rewrite zero_register by lia. by apply Hregs.
  - apply list_lookup_insert_eq. lia.
Qed.

Lemma exec_nop s xpc : length (Reg s) = 32%nat -> Reg s !! 0%nat = Some 0 -> exec_op s 0 xpc = Ok (Goes s).
Proof.
  intros Hl Hz. unfold exec_op, exec_special, exec_SLL_to_MTLO. simpl. unfold reg, set_reg. change (rt 0) with 0. change (rd 0) with 0.
  rewrite (arr_get_nat (Reg s) 0 0) by done. simpl. rewrite arr_set_32 by done. simpl.
  change (Z.to_nat 0) with 0%nat. change (s32 (Z.shiftl 0 (shamt 0))) with 0.
  rewrite list_insert_id by done. by destruct s.
Qed.

(** One instruction. *)
Lemma step_agrees s m m' : agrees s m -> comparable m = Ok true -> OneInstruction m = Ok (Done m' ()) ->
  follows (step s) m'.
Proof.
  intros Hag Hc Ho. pose proof (ag_mid _ _ Hag) as Hm. unfold OneInstruction in Ho. unfold comparable in Hc.
  apply bind_ok in Ho as (xpc & Hpc & Ho). rewrite Hpc in Hc. cbn [mbind outcome_bind] in Hc.
  assert (xpc = pc s) as ->. { apply arr_get_ok in Hpc as [_ Hpc]. pose proof (ag_pc _ _ Hag). congruence. }
  apply on_done_done in Ho as (m1 & raw & Hread & Ho). rewrite Hread in Hc. cbn [mbind outcome_bind] in Hc.
  apply bind_ok in Ho as (i & Hdec & Ho). rewrite Hdec in Hc. cbn [mbind outcome_bind] in Hc.
  assert (is_s32 (pc s)) as Hrpc. { eapply Forall_lookup_1; [apply (md_wf _ _ Hm)|apply (ag_pc _ _ Hag)]. }
  destruct (read_agrees m (mem s) (pc s) 4 m1 raw) as (Hw & Hr & Hs & Hf & _);
    [apply (md_wf _ _ Hm)|by right; right|done|apply (md_mem _ _ Hm)|done|].
  pose proof (entered_ready _ _ _ Hag Hw Hr Hs) as Hready.
  apply bind_ok in Ho as (next & Hnext & Ho).
  assert (next = npc s) as ->. { apply arr_get_ok in Hnext as [_ Hnext]. rewrite Hr in Hnext. pose proof (ag_npc _ _ Hag). congruence. }
  apply bind_ok in Hc as (a & Ha & Hc). apply bind_ok in Hc as (b & Hb & Hc). apply bind_ok in Hc as (nx & Hnx & Hc).
  apply bind_ok in Hc as (p & Hp & Hc). injection Hc as Hc. repeat (apply andb_true_iff in Hc as [Hc ?]).
  assert (nx = npc s) as ->. { apply arr_get_ok in Hnx as [_ Hnx]. pose proof (ag_npc _ _ Hag). congruence. }
  assert (is_u32 (u32 raw)) as Hu by apply u32_range. destruct (Decode_ok _ Hu) as (i' & Hi' & Hok). rewrite Hdec in Hi'. injection Hi' as <-.
  assert (at_instruction m1 (entered s) i raw (pc s) a b) as Hat.
  { split; try done.
    - by apply Decode_decoded.
    - eapply settled_regs; [exact Hr|]. by eapply no_hazard_settled.
    - eapply settled_regs; [exact Hr|]. by eapply no_hazard_settled.
    - eapply settled_regs; [exact Hr|]. by eapply no_hazard_settled.
    - unfold getR in *. by rewrite Hr.
    - unfold getR in *. by rewrite Hr.
    - rewrite Hr. apply (ag_pc _ _ Hag). }
  pose proof (exec_follows _ _ _ _ _ _ _ Hat m' Ho) as Hex. unfold step. cbv zeta. cbn [Interp.mem Interp.Reg].
  change (fetch (mem s) (pc s) = Ok raw) in Hf. unfold ifetch. rewrite Hf. cbn [mbind outcome_bind].
  rewrite arr_set_32 by (apply (md_len _ _ Hm) || done). cbn [mbind outcome_bind].
  change (with_Reg _ _) with (entered s). destruct (Z.eqb_spec raw 0) as [->|]; [|exact Hex].
  by rewrite (exec_nop _ _ (md_len _ _ (rd_mid _ _ Hready)) (rd_zero' _ _ Hready)) in Hex.
Qed.

(** The machine after [n] instructions, if all of them are comparable and none traps. *)
Fixpoint comparable_run (n : nat) (m : Machine) : option Machine :=
  match n with
  | O => Some m
  | S n =>
      match comparable m, OneInstruction m with
      | Ok true, Ok (Done m1 _) => comparable_run n m1
      | _, _ => None
      end
  end.

(** C16. Two programs simulate the processor: machine/mipssim.cc and bin/execute.c. Take a
    run of the machine in which no instruction traps and each one means the same in both
    programs (it does not use the result of a load in the slot after it, and is not one of
    those where one of them departs from the processor). From a state that agrees with
    the machine's, in every register, in [HI] and [LO], in the two program counters and
    in every byte of mapped memory, the interpreter makes the same number of steps,
    stops nowhere on the way, and ends in a state that agrees again. *)
Theorem interpreter_follows_machine n s m m' :
  agrees s m -> comparable_run n m = Some m' -> exists s', steps n s = Ok (Goes s') /\ agrees s' m'.
Proof.
  revert m s. induction n as [|n IH]; intros m s Hag Hrun; [injection Hrun as <-; by exists s|]. simpl in Hrun.
  destruct (comparable m) as [[|]| | |] eqn:Hc; try done. destruct (OneInstruction m) as [[m1 []|]| | |] eqn:Ho; try done.
  destruct (step_agrees s m m1 Hag Hc Ho) as (s1 & Hs & Hag1). destruct (IH m1 s1 Hag1 Hrun) as (s' & Hs' & Hag').
  exists s'. split; [|done]. simpl. by rewrite Hs.
Qed.
End runs.

(** *** A program in both *)

(** [lui r1,0x1000; lw r2,64(r1); addiu r3,0,5; addu r4,r2,r3; sw r4,68(r1); bne r4,0,.+12; nop; nop; lb r5,68(r1)],
    and the word 37 at offset 64. *)
Definition demo_bytes : list Z :=
  words_to_bytes [0x3c011000; 0x8c220040; 0x24030005; 0x00432021; 0xac240044; 0x14800002; 0; 0; 0x80250044] ++
  replicate 28 0 ++ words_to_bytes [37] ++ replicate 60 0.

(** One page at [memoffset], mapped by the TLB. *)
Definition linked_machine : Machine :=
  mkMachine (demo_bytes ++ replicate (Z.to_nat MemorySize - 128) 0)
    (<[Z.to_nat PCReg := memoffset]> (<[Z.to_nat NextPCReg := memoffset + 4]> (replicate 40 0)))
    (Some [mkEntry 2097152 0 true false false false]) None 0.

Definition demo_interp : Interp unit :=
  mkInterp (replicate 32 0) 0 0 (list_to_map (imap (fun k b => (Z.of_nat k, b)) demo_bytes)) memoffset (memoffset + 4) 0 tt.

Lemma linked_page a pa : is_s32 a -> maps_to linked_machine a pa -> 0 <= pa < 128 /\ a = memoffset + pa.
Proof.
  intros Ha (i & e & Hf & _ & ->). unfold find_entry in Hf. cbn [linked_machine tlb pageTable tlb_find valid virtualPage andb] in Hf.
  change (u32 2097152) with 2097152 in Hf. destruct (Z.eqb_spec 2097152 (u32 a `div` PageSize)) as [E|]; [|done].
  injection Hf as <- <-. cbn [physicalPage]. change (u32 0) with 0.
  unfold PageSize, SectorSize, memoffset, is_s32, u32, two31, two32 in *. dlia.
Qed.

Lemma linked_bytes :
  forallb (fun k => bool_decide (mainMemory linked_machine !! Z.to_nat k = Some (default 0 (mem demo_interp !! k)))) (seqZ 0 128) = true.
Proof. vm_compute. reflexivity. Qed.

Lemma linked_agrees : agrees demo_interp linked_machine.
Proof.
  split; [|done|done|done]. split; [|done| |done|done|].
  - constructor; cbn [mainMemory registers linked_machine]; try done.
    + apply Forall_app_2; [|apply Forall_replicate; by split]. unfold demo_bytes.
      apply Forall_app_2; [apply words_to_bytes_byte|]. apply Forall_app_2; [apply Forall_replicate; by split|].
      apply Forall_app_2; [apply words_to_bytes_byte|apply Forall_replicate; by split].
    + repeat apply Forall_insert; [apply Forall_replicate| |]; by split.
    + exists 0. split; [done|lia].
  - intros i Hi. destruct i as [|i]; [lia|]. do 31 (destruct i as [|i]; [reflexivity|]). lia.
  - split.
    + intros a pa Ha Hm. destruct (linked_page a pa Ha Hm) as [Hp ->]. split.
      * unfold in_mem, memoffset, MEMSIZE. rewrite Z.shiftl_mul_pow2 by lia. lia.
      * replace (memoffset + pa - memoffset) with pa by lia. pose proof linked_bytes as Hall. rewrite forallb_forall in Hall.
        specialize (Hall pa). rewrite <- list_elem_of_In, elem_of_seqZ in Hall. apply bool_decide_eq_true in Hall; [exact Hall|lia].
    + intros a a' pa Ha Ha' Hm Hm'. destruct (linked_page a pa Ha Hm), (linked_page a' pa Ha' Hm'). lia.
Qed.

Lemma interpreter_follows_machine_witness :
  exists m' s', comparable_run 8 linked_machine = Some m' /\ getR m' 4 = Ok 42 /\
    steps 8 demo_interp = Ok (Goes s') /\ agrees s' m'.
Proof.
  assert (option_map (fun m => getR m 4) (comparable_run 8 linked_machine) = Some (Ok 42)) as Hrun by (vm_compute; reflexivity).
  destruct (comparable_run 8 linked_machine) as [m'|] eqn:E; [|discriminate Hrun]. injection Hrun as Hr4.
  destruct (interpreter_follows_machine 8 demo_interp linked_machine m' linked_agrees E) as (s' & Hs & Ha).
  exists m', s'. split; [reflexivity|]. split; [exact Hr4|]. split; [exact Hs|exact Ha].
Defined.
