(* ===== verification/Disasm.v ===== *)
(** * bin/d.c and bin/opstrings.c: the disassembler

    [dump_ascii], which prints one instruction, with its tables of names, and, next to it,
    the instruction printing of machine/mipssim.cc and mipssim.h that the debug flag 'm'
    turns on. [printf] is modelled for the conversions that the sources use. *)

From stdpp Require Import prelude list numbers strings pretty.
From S2P Require Import Prelude Params Mips Machine Interp InterpMachine.

From Stdlib Require Import Ascii.

Open Scope Z_scope.

(** ** printf *)

Definition TAB : string := String (Ascii.ascii_of_nat 9) EmptyString.
Definition NEWLINE : string := String (Ascii.ascii_of_nat 10) EmptyString.
Definition QUOTE : string := String (Ascii.ascii_of_nat 34) EmptyString.

Definition hex_digit (d : Z) : Ascii.ascii :=
  Ascii.ascii_of_nat (Z.to_nat (if d <? 10 then 48 + d else 87 + d)).

(** The last [n] hexadecimal digits of [z]. *)
Fixpoint hex_digits (n : nat) (z : Z) (after : string) : string :=
  match n with
  | O => after
  | S n => hex_digits n (z `div` 16) (String (hex_digit (z `mod` 16)) after)
  end.

(** [%08x] *)
Definition hex8 (z : Z) : string := hex_digits 8 (u32 z) "".

Fixpoint strip_zeros (s : string) : string :=
  match s with
  | String "0"%char ((String _ _) as rest) => strip_zeros rest
  | _ => s
  end.

(** [%x] *)
Definition hex (z : Z) : string := strip_zeros (hex8 z).

Inductive parg := PInt (z : Z) | PStr (s : string).

(** The text that [printf(fmt, args)] writes; too few arguments, arguments of another type
    and other conversions are undefined, arguments that are left over are ignored. *)
Fixpoint printf (fmt : string) (args : list parg) : outcome string :=
  match fmt with
  | EmptyString => Ok ""%string
  | String "%"%char (String "d"%char rest) =>
      match args with PInt z :: args => s ← printf rest args; Ok (pretty z +:+ s) | _ => Undef end
  | String "%"%char (String "x"%char rest) =>
      match args with PInt z :: args => s ← printf rest args; Ok (hex z +:+ s) | _ => Undef end
  | String "%"%char (String "s"%char rest) =>
      match args with PStr t :: args => s ← printf rest args; Ok (t +:+ s) | _ => Undef end
  | String "%"%char (String "c"%char rest) =>
      match args with PInt z :: args => s ← printf rest args; Ok (String (Ascii.ascii_of_nat (Z.to_nat (u32 z `mod` 256))) s) | _ => Undef end
  | String "%"%char (String "0"%char (String "8"%char (String "x"%char rest))) =>
      match args with PInt z :: args => s ← printf rest args; Ok (hex8 z +:+ s) | _ => Undef end
  | String "%"%char _ => Undef
  | String c rest => s ← printf rest args; Ok (String c s)
  end.

(** ** Tables (opstrings.c, d.c) *)

Definition normalops : list string :=
  ["special"; "bcond"; "j"; "jal"; "beq"; "bne"; "blez"; "bgtz"; "addi"; "addiu"; "slti"; "sltiu";
   "andi"; "ori"; "xori"; "lui"; "cop0"; "cop1"; "cop2"; "cop3"; "024"; "025"; "026"; "027"; "030";
   "031"; "032"; "033"; "034"; "035"; "036"; "037"; "lb"; "lh"; "lwl"; "lw"; "lbu"; "lhu"; "lwr";
   "047"; "sb"; "sh"; "swl"; "sw"; "054"; "055"; "swr"; "057"; "lwc0"; "lwc1"; "lwc2"; "lwc3";
   "064"; "065"; "066"; "067"; "swc0"; "swc1"; "swc2"; "swc3"; "074"; "075"; "076"; "077"]%string.

Definition specialops : list string :=
  ["sll"; "001"; "srl"; "sra"; "sllv"; "005"; "srlv"; "srav"; "jr"; "jalr"; "012"; "013"; "syscall";
   "break"; "016"; "017"; "mfhi"; "mthi"; "mflo"; "mtlo"; "024"; "025"; "026"; "027"; "mult";
   "multu"; "div"; "divu"; "034"; "035"; "036"; "037"; "add"; "addu"; "sub"; "subu"; "and"; "or";
   "xor"; "nor"; "050"; "051"; "slt"; "sltu"; "054"; "055"; "056"; "057"; "060"; "061"; "062";
   "063"; "064"; "065"; "066"; "067"; "070"; "071"; "072"; "073"; "074"; "075"; "076"; "077"]%string.

Definition regstrings : list string :=
  ["0"; "r1"; "r2"; "r3"; "r4"; "r5"; "r6"; "r7"; "r8"; "r9"; "r10"; "r11"; "r12"; "r13"; "r14";
   "r15"; "r16"; "r17"; "r18"; "r19"; "r20"; "r21"; "r22"; "r23"; "r24"; "r25"; "r26"; "r27"; "gp";
   "sp"; "r30"; "r31"]%string.

(** ** dump_ascii (d.c) *)

Definition longdis : bool := true.

Definition off26 (i : Z) : Z := Z.shiftl (Z.land i (Z.shiftl 1 26 - 1)) 2.
Definition top4 (i : Z) : Z := Z.land i (Z.lnot (Z.shiftl 1 28 - 1)).
Definition off16 (i : Z) : Z := Z.shiftl (immed i) 2.

(** [printf] of the names of registers. *)
Definition print_regs (fmt : string) (regs : list Z) (args : list parg) : outcome string :=
  (fix names (regs : list Z) (before : list parg) : outcome string :=
     match regs with
     | [] => printf fmt (before ++ args)
     | r :: regs => name ← arr_get regstrings r; names regs (before ++ [PStr name])
     end) regs [].

(** What follows the name of a [SPECIAL] instruction. *)
Definition special_operands (i : Z) : outcome string :=
  let opcode := Z.land i 0x3f in
  if (opcode =? I_SLL) || (opcode =? I_SRL) || (opcode =? I_SRA)
  then print_regs "%s,%s,0x%x" [rd i; rt i] [PInt (shamt i)]
  else if (opcode =? I_SLLV) || (opcode =? I_SRLV) || (opcode =? I_SRAV)
  then print_regs "%s,%s,%s" [rd i; rt i; rs i] []
  else if (opcode =? I_JR) || (opcode =? I_JALR) || (opcode =? I_MFLO) || (opcode =? I_MTLO)
  then print_regs "%s" [rs i] []
  else if (opcode =? I_SYSCALL) || (opcode =? I_BREAK) then Ok ""%string
  else if (opcode =? I_MFHI) || (opcode =? I_MTHI) then print_regs "%s" [rd i] []
  else if (opcode =? I_MULT) || (opcode =? I_MULTU) || (opcode =? I_DIV) || (opcode =? I_DIVU)
  then print_regs "%s,%s" [rs i; rt i] []
  else if (opcode =? I_ADD) || (opcode =? I_ADDU) || (opcode =? I_SUB) || (opcode =? I_SUBU) ||
          (opcode =? I_AND) || (opcode =? I_OR) || (opcode =? I_XOR) || (opcode =? I_NOR) ||
          (opcode =? I_SLT) || (opcode =? I_SLTU)
  then print_regs "%s,%s,%s" [rd i; rs i; rt i] []
  else Ok ""%string.

(** The branches of [BCOND]. *)
Definition print_bcond (i pc : Z) : outcome string :=
  let name :=
    if rt i =? I_BLTZ then "bltz"%string
    else if rt i =? I_BGEZ then "bgez"%string
    else if rt i =? I_BLTZAL then "bltzal"%string
    else if rt i =? I_BGEZAL then "bgezal"%string
    else "BCOND"%string in
  operands ← print_regs (TAB +:+ "%s,%08x") [rs i] [PInt (s32 (off16 i + pc + 4))];
  Ok (name +:+ operands).

(** What follows the name of any other instruction. *)
Definition normal_operands (i pc : Z) : outcome string :=
  let opcode := Z.shiftr (u32 i) 26 in
  if (opcode =? I_J) || (opcode =? I_JAL) then printf "%08x" [PInt (Z.lor (top4 pc) (off26 i))]
  else if (opcode =? I_BEQ) || (opcode =? I_BNE)
  then print_regs "%s,%s,%08x" [rt i; rs i] [PInt (s32 (off16 i + pc + 4))]
  else if (opcode =? I_ADDI) || (opcode =? I_ADDIU) || (opcode =? I_SLTI) || (opcode =? I_SLTIU) ||
          (opcode =? I_ANDI) || (opcode =? I_ORI) || (opcode =? I_XORI)
  then print_regs "%s,%s,0x%x" [rt i; rs i] [PInt (immed i)]
  else if opcode =? I_LUI then print_regs "%s,0x%x" [rt i] [PInt (immed i)]
  else if (I_COP0 <=? opcode) && (opcode <=? I_COP3) then Ok ""%string
  else if (I_LB <=? opcode) && (opcode <=? I_LWR) || (I_SB <=? opcode) && (opcode <=? I_SW) || (opcode =? I_SWR) ||
          (I_LWC0 <=? opcode) && (opcode <=? I_LWC3) || (I_SWC0 <=? opcode) && (opcode <=? I_SWC3)
  then
    base ← arr_get regstrings (rs i);
    print_regs "%s,0x%x(%s)" [rt i] [PInt (immed i); PStr base]
  else Ok ""%string.

(** The part of the line before the name. *)
Definition heading (i pc : Z) : outcome string :=
  addresses ← (if longdis then printf "%08x: %08x  " [PInt pc; PInt i] else Ok ""%string);
  Ok (addresses +:+ TAB).

(** The part after it. *)
Definition instruction_text (i pc : Z) : outcome string :=
  let opcode := Z.shiftr (u32 i) 26 in
  if i =? I_NOP then Ok "nop"%string
  else if opcode =? I_SPECIAL then
    name ← arr_get specialops (Z.land i 0x3f);
    operands ← special_operands i;
    Ok (name +:+ TAB +:+ operands)
  else if opcode =? I_BCOND then print_bcond i pc
  else
    name ← arr_get normalops opcode;
    operands ← normal_operands i pc;
    Ok (name +:+ TAB +:+ operands).

Definition dump_ascii (i pc : Z) : outcome string :=
  front ← heading i pc;
  text ← instruction_text i pc;
  Ok (front +:+ text).

(** ** The debug output of the simulated machine (mipssim.h, mipssim.cc) *)

Inductive RegType := REG_NONE | REG_RS | REG_RT | REG_RD | REG_EXTRA.

Definition opStrings : list (string * list RegType) :=
  [("Shouldn't happen", [REG_NONE; REG_NONE; REG_NONE]);
   ("ADD r%d,r%d,r%d", [REG_RD; REG_RS; REG_RT]);
   ("ADDI r%d,r%d,%d", [REG_RT; REG_RS; REG_EXTRA]);
   ("ADDIU r%d,r%d,%d", [REG_RT; REG_RS; REG_EXTRA]);
   ("ADDU r%d,r%d,r%d", [REG_RD; REG_RS; REG_RT]);
   ("AND r%d,r%d,r%d", [REG_RD; REG_RS; REG_RT]);
   ("ANDI r%d,r%d,%d", [REG_RT; REG_RS; REG_EXTRA]);
   ("BEQ r%d,r%d,%d", [REG_RS; REG_RT; REG_EXTRA]);
   ("BGEZ r%d,%d", [REG_RS; REG_EXTRA; REG_NONE]);
   ("BGEZAL r%d,%d", [REG_RS; REG_EXTRA; REG_NONE]);
   ("BGTZ r%d,%d", [REG_RS; REG_EXTRA; REG_NONE]);
   ("BLEZ r%d,%d", [REG_RS; REG_EXTRA; REG_NONE]);
   ("BLTZ r%d,%d", [REG_RS; REG_EXTRA; REG_NONE]);
   ("BLTZAL r%d,%d", [REG_RS; REG_EXTRA; REG_NONE]);
   ("BNE r%d,r%d,%d", [REG_RS; REG_RT; REG_EXTRA]);
   ("Shouldn't happen", [REG_NONE; REG_NONE; REG_NONE]);
   ("DIV r%d,r%d", [REG_RS; REG_RT; REG_NONE]);
   ("DIVU r%d,r%d", [REG_RS; REG_RT; REG_NONE]);
   ("J %d", [REG_EXTRA; REG_NONE; REG_NONE]);
   ("JAL %d", [REG_EXTRA; REG_NONE; REG_NONE]);
   ("JALR r%d,r%d", [REG_RD; REG_RS; REG_NONE]);
   ("JR r%d,r%d", [REG_RD; REG_RS; REG_NONE]);
   ("LB r%d,%d(r%d)", [REG_RT; REG_EXTRA; REG_RS]);
   ("LBU r%d,%d(r%d)", [REG_RT; REG_EXTRA; REG_RS]);
   ("LH r%d,%d(r%d)", [REG_RT; REG_EXTRA; REG_RS]);
   ("LHU r%d,%d(r%d)", [REG_RT; REG_EXTRA; REG_RS]);
   ("LUI r%d,%d", [REG_RT; REG_EXTRA; REG_NONE]);
   ("LW r%d,%d(r%d)", [REG_RT; REG_EXTRA; REG_RS]);
   ("LWL r%d,%d(r%d)", [REG_RT; REG_EXTRA; REG_RS]);
   ("LWR r%d,%d(r%d)", [REG_RT; REG_EXTRA; REG_RS]);
   ("Shouldn't happen", [REG_NONE; REG_NONE; REG_NONE]);
   ("MFHI r%d", [REG_RD; REG_NONE; REG_NONE]);
   ("MFLO r%d", [REG_RD; REG_NONE; REG_NONE]);
   ("Shouldn't happen", [REG_NONE; REG_NONE; REG_NONE]);
   ("MTHI r%d", [REG_RS; REG_NONE; REG_NONE]);
   ("MTLO r%d", [REG_RS; REG_NONE; REG_NONE]);
   ("MULT r%d,r%d", [REG_RS; REG_RT; REG_NONE]);
   ("MULTU r%d,r%d", [REG_RS; REG_RT; REG_NONE]);
   ("NOR r%d,r%d,r%d", [REG_RD; REG_RS; REG_RT]);
   ("OR r%d,r%d,r%d", [REG_RD; REG_RS; REG_RT]);
   ("ORI r%d,r%d,%d", [REG_RT; REG_RS; REG_EXTRA]);
   ("RFE", [REG_NONE; REG_NONE; REG_NONE]);
   ("SB r%d,%d(r%d)", [REG_RT; REG_EXTRA; REG_RS]);
   ("SH r%d,%d(r%d)", [REG_RT; REG_EXTRA; REG_RS]);
   ("SLL r%d,r%d,%d", [REG_RD; REG_RT; REG_EXTRA]);
   ("SLLV r%d,r%d,r%d", [REG_RD; REG_RT; REG_RS]);
   ("SLT r%d,r%d,r%d", [REG_RD; REG_RS; REG_RT]);
   ("SLTI r%d,r%d,%d", [REG_RT; REG_RS; REG_EXTRA]);
   ("SLTIU r%d,r%d,%d", [REG_RT; REG_RS; REG_EXTRA]);
   ("SLTU r%d,r%d,r%d", [REG_RD; REG_RS; REG_RT]);
   ("SRA r%d,r%d,%d", [REG_RD; REG_RT; REG_EXTRA]);
   ("SRAV r%d,r%d,r%d", [REG_RD; REG_RT; REG_RS]);
   ("SRL r%d,r%d,%d", [REG_RD; REG_RT; REG_EXTRA]);
   ("SRLV r%d,r%d,r%d", [REG_RD; REG_RT; REG_RS]);
   ("SUB r%d,r%d,r%d", [REG_RD; REG_RS; REG_RT]);
   ("SUBU r%d,r%d,r%d", [REG_RD; REG_RS; REG_RT]);
   ("SW r%d,%d(r%d)", [REG_RT; REG_EXTRA; REG_RS]);
   ("SWL r%d,%d(r%d)", [REG_RT; REG_EXTRA; REG_RS]);
   ("SWR r%d,%d(r%d)", [REG_RT; REG_EXTRA; REG_RS]);
   ("XOR r%d,r%d,r%d", [REG_RD; REG_RS; REG_RT]);
   ("XORI r%d,r%d,%d", [REG_RT; REG_RS; REG_EXTRA]);
   ("SYSCALL", [REG_NONE; REG_NONE; REG_NONE]);
   ("Unimplemented", [REG_NONE; REG_NONE; REG_NONE]);
   ("Reserved", [REG_NONE; REG_NONE; REG_NONE])]%string.

(** The number of an opcode in mipssim.h. *)
Definition opcode_index (op : opcode) : Z :=
  match op with
  | OP_ADD => 1 | OP_ADDI => 2 | OP_ADDIU => 3 | OP_ADDU => 4 | OP_AND => 5 | OP_ANDI => 6
  | OP_BEQ => 7 | OP_BGEZ => 8 | OP_BGEZAL => 9 | OP_BGTZ => 10 | OP_BLEZ => 11 | OP_BLTZ => 12
  | OP_BLTZAL => 13 | OP_BNE => 14 | OP_DIV => 16 | OP_DIVU => 17 | OP_J => 18 | OP_JAL => 19
  | OP_JALR => 20 | OP_JR => 21 | OP_LB => 22 | OP_LBU => 23 | OP_LH => 24 | OP_LHU => 25
  | OP_LUI => 26 | OP_LW => 27 | OP_LWL => 28 | OP_LWR => 29 | OP_MFHI => 31 | OP_MFLO => 32
  | OP_MTHI => 34 | OP_MTLO => 35 | OP_MULT => 36 | OP_MULTU => 37 | OP_NOR => 38 | OP_OR => 39
  | OP_ORI => 40 | OP_RFE => 41 | OP_SB => 42 | OP_SH => 43 | OP_SLL => 44 | OP_SLLV => 45
  | OP_SLT => 46 | OP_SLTI => 47 | OP_SLTIU => 48 | OP_SLTU => 49 | OP_SRA => 50 | OP_SRAV => 51
  | OP_SRL => 52 | OP_SRLV => 53 | OP_SUB => 54 | OP_SUBU => 55 | OP_SW => 56 | OP_SWL => 57
  | OP_SWR => 58 | OP_XOR => 59 | OP_XORI => 60 | OP_SYSCALL => 61 | OP_UNIMP => 62 | OP_RES => 63
  | SPECIAL => 100 | BCOND => 101
  end.

Definition TypeToReg (reg : RegType) (instr : Instruction) : Z :=
  match reg with
  | REG_RS => i_rs instr
  | REG_RT => i_rt instr
  | REG_RD => i_rd instr
  | REG_EXTRA => i_extra instr
  | REG_NONE => -1
  end.

(** The line that [OneInstruction] prints. *)
Definition debug_line (instr : Instruction) (pc : Z) : outcome string :=
  '(fmt, args) ← arr_get opStrings (opcode_index (opCode instr));
  ASSERT (opcode_index (opCode instr) <=? 63);;
  front ← printf "At PC = 0x%x: " [PInt pc];
  text ← printf fmt (map (fun a => PInt (TypeToReg a instr)) args);
  Ok (front +:+ text +:+ NEWLINE).

(** ** Lengths *)

Abbreviation slen := String.length.

Lemma slen_app a b : slen (a +:+ b) = (slen a + slen b)%nat.
Proof. induction a; simpl; auto. Qed.

Lemma hex_digits_length n : forall z s, slen (hex_digits n z s) = (n + slen s)%nat.
Proof. induction n as [|n IH]; intros z s; simpl; [done|]. rewrite IH. simpl. lia. Qed.

Lemma hex8_length z : slen (hex8 z) = 8%nat.
Proof. unfold hex8. by rewrite hex_digits_length. Qed.

Lemma strip_zeros_length s : (slen (strip_zeros s) <= slen s)%nat.
Proof.
  induction s as [|c s IH]; [done|]. cbn [strip_zeros].
  assert (forall b : bool, (slen (if b then strip_zeros s else String c s) <= S (slen s))%nat) as Hb.
  { intros []; simpl; lia. }
  destruct c as [[] [] [] [] [] [] [] []]; try (simpl; lia). destruct s as [|c' s]; [simpl; lia|]. cbn [slen] in *. lia.
Qed.

Lemma hex_length z : (slen (hex z) <= 8)%nat.
Proof. unfold hex. pose proof (strip_zeros_length (hex8 z)). rewrite hex8_length in *. done. Qed.

(** The name of a register. *)
Lemma reg_name r : 0 <= r < 32 -> exists name, arr_get regstrings r = Ok name /\ (slen name <= 3)%nat.
Proof.
  intros Hr. destruct (arr_get_forall (fun s => slen s <= 3)%nat regstrings r) as (s & Hs & Hl); [|done|eauto].
  repeat constructor; simpl; lia.
Qed.

Lemma field_range z m : m = 0x1f -> 0 <= Z.land z m < 32.
Proof. intros ->. by apply (land_mask_range _ _ 5). Qed.

Lemma rd_name i : exists name, arr_get regstrings (rd i) = Ok name /\ (slen name <= 3)%nat.
Proof. apply reg_name. by apply field_range. Qed.
Lemma rt_name i : exists name, arr_get regstrings (rt i) = Ok name /\ (slen name <= 3)%nat.
Proof. apply reg_name. by apply field_range. Qed.
Lemma rs_name i : exists name, arr_get regstrings (rs i) = Ok name /\ (slen name <= 3)%nat.
Proof. apply reg_name. by apply field_range. Qed.

(** Fewer than [n] characters are printed, and nothing is undefined. *)
Definition prints (n : nat) (o : outcome string) : Prop := exists s, o = Ok s /\ (slen s < n)%nat.

(** The registers of an instruction printed. *)
Ltac print_names :=
  unfold print_regs;
  repeat match goal with
  | |- context [arr_get regstrings (rd ?i)] => let n := fresh "n" in destruct (rd_name i) as (n & -> & ?)
  | |- context [arr_get regstrings (rt ?i)] => let n := fresh "n" in destruct (rt_name i) as (n & -> & ?)
  | |- context [arr_get regstrings (rs ?i)] => let n := fresh "n" in destruct (rs_name i) as (n & -> & ?)
  end; cbn [mbind outcome_bind app printf].

Ltac print_length :=
  eexists; split; [reflexivity|];
  rewrite ?slen_app; cbn [slen]; rewrite ?slen_app; cbn [slen]; rewrite ?slen_app; cbn [slen];
  repeat match goal with
  | |- context [slen (hex ?z)] => pose proof (hex_length z); generalize dependent (slen (hex z)); intros
  | |- context [slen (hex8 ?z)] => rewrite (hex8_length z)
  end; lia.

Lemma prints_if n (c : bool) a b : prints n a -> prints n b -> prints n (if c then a else b).
Proof. by destruct c. Qed.

Lemma prints_ok n s : (slen s < n)%nat -> prints n (Ok s).
Proof. intros Hs. by exists s. Qed.

Ltac fits := cbv zeta; repeat apply prints_if; first [by apply prints_ok; simpl; lia|print_names; print_length].

Lemma special_operands_fit i : prints 32 (special_operands i).
Proof. unfold special_operands. fits. Qed.

Lemma print_bcond_fit i pc : prints 32 (print_bcond i pc).
Proof.
  unfold print_bcond. cbv zeta. print_names. eexists. split; [reflexivity|]. rewrite slen_app. cbn [slen String.append]. rewrite slen_app. cbn [slen].
  rewrite slen_app, hex8_length. cbn [slen].
  assert (forall (b : bool) x y, (slen x <= 6)%nat -> (slen y <= 6)%nat -> (slen (if b then x else y) <= 6)%nat) as Hif by (by intros []).
  match goal with |- (slen ?x + _ < _)%nat => assert (slen x <= 6)%nat by (repeat apply Hif; simpl; lia) end. lia.
Qed.

Lemma normal_operands_fit i pc : prints 32 (normal_operands i pc).
Proof. unfold normal_operands. fits. Qed.

Lemma heading_fit i pc : exists front, heading i pc = Ok front /\ slen front = 21%nat.
Proof.
  unfold heading, longdis. cbn [printf mbind outcome_bind]. eexists. split; [reflexivity|].
  rewrite !slen_app, !hex8_length. cbn [slen]. rewrite !slen_app, !hex8_length. cbn [slen]. done.
Qed.

Lemma op_name (table : list string) k : length table = 64%nat -> Forall (fun s => slen s <= 7)%nat table -> 0 <= k < 64 ->
  exists name, arr_get table k = Ok name /\ (slen name <= 7)%nat.
Proof. intros Hl Ht Hk. destruct (arr_get_forall _ table k Ht) as (s & Hs & Hn); [lia|eauto]. Qed.

Lemma names_short : Forall (fun s => slen s <= 7)%nat normalops /\ Forall (fun s => slen s <= 7)%nat specialops.
Proof. split; repeat constructor; simpl; lia. Qed.

Lemma opcode_field i : is_s32 i -> 0 <= Z.shiftr (u32 i) 26 < 64 /\ Z.land (Z.shiftr i 26) 0x3f = Z.shiftr (u32 i) 26.
Proof.
  intros Hi. pose proof (u32_range i) as Hu. rewrite <- (field_u32 i 26 6) by (lia || done).
  change 0x3f with (Z.ones 6). rewrite Z.land_ones by lia. rewrite Z.shiftr_div_pow2 by lia.
  unfold is_u32, two32 in Hu. change (2 ^ 26) with 67108864. change (2 ^ 6) with 64. split; dlia.
Qed.

Lemma dump_ascii_line i pc : is_s32 i -> exists line, dump_ascii i pc = Ok line /\ (slen line < 64)%nat.
Proof.
  intros Hi. destruct (heading_fit i pc) as (front & Hf & Hfl). destruct (opcode_field i Hi) as [Hop _]. destruct names_short as [Hn Hs].
  assert (prints 42 (instruction_text i pc)) as (text & Ht & Htl).
  { unfold instruction_text. cbv zeta. apply prints_if; [by apply prints_ok; simpl; lia|]. apply prints_if.
    - destruct (op_name specialops (Z.land i 0x3f)) as (name & -> & Hl); [done|done|by apply (land_mask_range _ _ 6)|].
      destruct (special_operands_fit i) as (o & -> & Ho). simpl. eexists. split; [done|]. rewrite !slen_app. simpl. lia.
    - apply prints_if; [destruct (print_bcond_fit i pc) as (s & -> & Hl); apply prints_ok; lia|].
      destruct (op_name normalops (Z.shiftr (u32 i) 26)) as (name & -> & Hl); [done|done|done|].
      destruct (normal_operands_fit i pc) as (o & -> & Ho). simpl. eexists. split; [done|]. rewrite !slen_app. simpl. lia. }
  exists (front +:+ text). split; [unfold dump_ascii; by rewrite Hf, Ht|]. rewrite slen_app. lia.
Qed.

(** ** Reading a line back *)

Definition digit_value (c : Ascii.ascii) : option Z :=
  let n := Z.of_nat (Ascii.nat_of_ascii c) in
  if (48 <=? n) && (n <? 58) then Some (n - 48) else if (97 <=? n) && (n <? 103) then Some (n - 87) else None.

(** The value of the next [n] hexadecimal digits, and what follows them. *)
Fixpoint read_hex (n : nat) (acc : Z) (s : string) : option (Z * string) :=
  match n, s with
  | O, _ => Some (acc, s)
  | S n, String c s => d ← digit_value c; read_hex n (acc * 16 + d) s
  | S _, EmptyString => None
  end.

(** The address and the word at the start of a line. *)
Definition read_heading (line : string) : option (Z * Z) :=
  '(pc, rest) ← read_hex 8 0 line;
  match rest with
  | String ":"%char (String " "%char rest) => '(i, _) ← read_hex 8 0 rest; Some (pc, i)
  | _ => None
  end.

Lemma digit_round_trip d : 0 <= d < 16 -> digit_value (hex_digit d) = Some d.
Proof.
  intros Hd. assert (forallb (fun d => bool_decide (digit_value (hex_digit d) = Some d)) (seqZ 0 16) = true) as Hall by done.
  rewrite forallb_forall in Hall. specialize (Hall d). rewrite <- list_elem_of_In, elem_of_seqZ in Hall.
  apply bool_decide_eq_true in Hall; [done|lia].
Qed.

Lemma read_hex_digits n : forall z k acc s, 0 <= z < 16 ^ Z.of_nat n ->
  read_hex (n + k) acc (hex_digits n z s) = read_hex k (acc * 16 ^ Z.of_nat n + z) s.
Proof.
  induction n as [|n IH]; intros z k acc s Hz.
  - simpl in *. f_equal. lia.
  - rewrite Nat2Z.inj_succ, Z.pow_succ_r in Hz |- * by lia. cbn [hex_digits].
    replace (S n + k)%nat with (n + S k)%nat by lia. rewrite IH by dlia. cbn [read_hex].
    rewrite digit_round_trip by dlia. simpl. f_equal. dlia.
Qed.

Lemma hex_digits_app n : forall z s t, hex_digits n z s +:+ t = hex_digits n z (s +:+ t).
Proof. induction n as [|n IH]; intros z s t; simpl; [done|]. by rewrite IH. Qed.

Lemma read_hex8 z s : read_hex 8 0 (hex8 z +:+ s) = Some (u32 z, s).
Proof.
  unfold hex8. rewrite hex_digits_app. pose proof (u32_range z) as Hz. 
  pose proof (read_hex_digits 8 (u32 z) 0 0 s) as E. rewrite Z.mul_0_l, Z.add_0_l in E. apply E.
  unfold is_u32, two32 in Hz. change (16 ^ Z.of_nat 8) with 4294967296. lia.
Qed.

Lemma sapp_assoc a b c : (a +:+ b) +:+ c = a +:+ (b +:+ c).
Proof. induction a as [|x a IH]; [done|]. exact (f_equal (String x) IH). Qed.

Lemma listing_reads_back i pc line : dump_ascii i pc = Ok line -> read_heading line = Some (u32 pc, u32 i).
Proof.
  unfold dump_ascii, heading, longdis. cbn [printf mbind outcome_bind]. intros Hd.
  apply bind_ok in Hd as (text & _ & Hd). injection Hd as <-.
  unfold read_heading. rewrite !sapp_assoc. rewrite read_hex8. cbn [mbind option_bind].
  change (String ":" (String " " (hex8 i +:+ "  ")) +:+ TAB +:+ text) with (String ":" (String " " ((hex8 i +:+ "  ") +:+ TAB +:+ text))).
  cbv iota. rewrite sapp_assoc. by rewrite read_hex8.
Qed.

(** C38. One line of the listing. For every word and address [dump_ascii] stays inside its tables of
    names, gives every conversion of its formats an argument and prints fewer than 64
    characters, less than the buffer of 100 through which bin/out.c prints; and the line shows
    what it stands for: the address and the word are read back from it. *)
Theorem listing_line i pc : is_s32 i ->
  exists line, dump_ascii i pc = Ok line /\ (slen line < 64)%nat /\ read_heading line = Some (u32 pc, u32 i).
Proof.
  intros Hi. destruct (dump_ascii_line i pc Hi) as (line & Hd & Hl). exists line. split; [done|]. split; [done|].
  by apply listing_reads_back.
Qed.

Lemma listing_line_witness :
  exists line, dump_ascii (s32 0x8c220040) 0x10000004 = Ok line /\ read_heading line = Some (0x10000004, 0x8c220040).
Proof.
  destruct (listing_line (s32 0x8c220040) 0x10000004) as (line & Hd & _ & Hr); [apply s32_range|].
  exists line. split; [exact Hd|exact Hr].
Defined.

(** ** Branch targets *)

(** The instructions whose text ends with an address. *)
Definition shows_target (i : Z) : bool :=
  let op := Z.shiftr (u32 i) 26 in
  (op =? I_BCOND) || (op =? I_J) || (op =? I_JAL) || (op =? I_BEQ) || (op =? I_BNE).

(** The address in the text. *)
Definition shown_target (i pc : Z) : Z :=
  let op := Z.shiftr (u32 i) 26 in
  if (op =? I_J) || (op =? I_JAL) then Z.lor (top4 pc) (off26 i) else s32 (off16 i + pc + 4).

Definition ends_with (o : outcome string) (t : string) : Prop := exists front, o = Ok (front +:+ t).

Lemma ends_with_app o t a : ends_with o t -> ends_with (s ← o; Ok (a +:+ s)) t.
Proof. intros [f ->]. exists (a +:+ f). simpl. by rewrite sapp_assoc. Qed.

Lemma sapp_nil a : a +:+ "" = a.
Proof. induction a as [|x a IH]; [done|]. exact (f_equal (String x) IH). Qed.

Lemma text_ends i pc : is_s32 i -> shows_target i = true -> ends_with (instruction_text i pc) (hex8 (shown_target i pc)).
Proof.
  intros Hi Ht. destruct (opcode_field i Hi) as [Hop _]. unfold shows_target in Ht. unfold instruction_text, shown_target. cbv zeta in Ht |- *.
  destruct (Z.eqb_spec i I_NOP) as [->|_]; [done|].
  set (op := Z.shiftr (u32 i) 26) in *.
  assert (op = 1 \/ op = 2 \/ op = 3 \/ op = 4 \/ op = 5) as Hcases.
  { unfold I_BCOND, I_J, I_JAL, I_BEQ, I_BNE in Ht. lia. }
  destruct Hcases as [E|Hcases].
  { rewrite E. eval_switch. unfold print_bcond. apply ends_with_app. print_names. exists (TAB +:+ n +:+ ",").
    transitivity (Ok (TAB +:+ n +:+ "," +:+ hex8 (s32 (off16 i + pc + 4)) +:+ "")); [reflexivity|]. by rewrite sapp_nil, !sapp_assoc. }
  assert (forall o t, ends_with o t -> ends_with (n ← arr_get normalops op; o ← o; Ok (n +:+ TAB +:+ o)) t) as Hname.
  { intros o t [f ->]. destruct (op_name normalops op) as (n & -> & _); [done|apply names_short|done|].
    exists (n +:+ TAB +:+ f). rewrite !sapp_assoc. reflexivity. }
  unfold normal_operands. cbv zeta. change (Z.shiftr (u32 i) 26) with op.
  destruct Hcases as [E|[E|[E|E]]]; rewrite E in Hname |- *; eval_switch; apply Hname; print_names.
  1,2: rewrite sapp_nil; by exists EmptyString.
  all: exists (n +:+ "," +:+ n0 +:+ ","); rewrite sapp_nil, !sapp_assoc; reflexivity.
Qed.

Lemma shown_jump i pc : u32 (jump_target i pc) = u32 (Z.lor (top4 pc) (off26 i)).
Proof.
  unfold jump_target, top4, off26. rewrite u32_s32. change (Z.shiftl 1 26 - 1) with 0x3ffffff.
  apply Z.bits_inj'. intros n Hn. destruct (Z.ltb_spec n 32) as [Hl|Hl].
  - rewrite !u32_low_bit by lia. rewrite !Z.lor_spec. f_equal. rewrite !Z.land_spec, u32_low_bit by lia. f_equal.
    assert (forallb (fun n => Bool.eqb (Z.testbit 0xf0000000 n) (Z.testbit (Z.lnot (Z.shiftl 1 28 - 1)) n)) (seqZ 0 32) = true) as Hall by done.
    rewrite forallb_forall in Hall. specialize (Hall n). rewrite <- list_elem_of_In, elem_of_seqZ in Hall. apply Bool.eqb_prop, Hall. lia.
  - unfold u32. change two32 with (2 ^ 32). rewrite !Z.mod_pow2_bits_high by lia. done.
Qed.

Lemma goto_npc {H} (s s' : Interp H) c t : goto_if s c t = Ok (Goes s') -> npc s' <> npc s -> npc s' = t.
Proof. unfold goto_if. intros [= <-] Hne. by destruct c. Qed.

(** C39. A branch or a jump whose target the listing prints, that is every one to a fixed address
    but [blez] and [bgtz]: if the interpreter takes it, and goes elsewhere than to the next
    instruction, the address it goes to is the one that ends the line of the listing. *)
Theorem listing_shows_target {H} `{HostOS H} (s s' : Interp H) i pc :
  is_s32 i -> shows_target i = true -> exec_op s i pc = Ok (Goes s') -> npc s' <> npc s ->
  ends_with (dump_ascii i pc) (hex8 (npc s')).
Proof.
  intros Hi Ht He Hne. assert (hex8 (npc s') = hex8 (shown_target i pc)) as ->.
  { unfold hex8. f_equal. destruct (opcode_field i Hi) as [Hop Eop]. unfold shows_target in Ht. unfold exec_op in He. unfold shown_target.
    cbv zeta in *. rewrite Eop in He. set (op := Z.shiftr (u32 i) 26) in *.
    assert (op = 1 \/ op = 2 \/ op = 3 \/ op = 4 \/ op = 5) as Hcases by (unfold I_BCOND, I_J, I_JAL, I_BEQ, I_BNE in Ht; lia).
    assert (s32 (pc + 4 + Z.shiftl (immed i) 2) = s32 (off16 i + pc + 4)) as Et by (f_equal; unfold off16; lia).
    destruct Hcases as [E|[E|[E|[E|E]]]]; rewrite E in Eop |- *; rewrite E in He; clear Ht; eval_switch; revert He; eval_switch;
      unfold exec_bcond, exec_J_to_LUI; cbv zeta; rewrite ?Eop; eval_switch; intros He.
    - rewrite <- Et. destruct (rt i =? I_BLTZ); [|destruct (rt i =? I_BGEZ); [|destruct (rt i =? I_BLTZAL); [|destruct (rt i =? I_BGEZAL); [|done]]]];
        repeat (apply bind_ok in He as (? & _ & He)); by apply goto_npc in He as ->.
    - injection He as <-. apply shown_jump.
    - apply bind_ok in He as (r & _ & He). injection He as <-. apply shown_jump.
    - rewrite <- Et. repeat (apply bind_ok in He as (? & _ & He)). by apply goto_npc in He as ->.
    - rewrite <- Et. repeat (apply bind_ok in He as (? & _ & He)). by apply goto_npc in He as ->. }
  unfold dump_ascii. destruct (heading_fit i pc) as (front & -> & _). apply ends_with_app. by apply text_ends.
Qed.

(** [beq 0,0,.+16] in a fresh interpreter. *)
Definition branching : Interp unit := mkInterp (replicate 32 0) 0 0 ∅ 0x10000004 0x10000008 1 tt.

Lemma listing_shows_target_witness :
  exec_op branching 0x10000003 0x10000000 = Ok (Goes (with_npc branching 0x10000010)) /\
    ends_with (dump_ascii 0x10000003 0x10000000) (hex8 0x10000010).
Proof.
  assert (exec_op branching 0x10000003 0x10000000 = Ok (Goes (with_npc branching 0x10000010))) as E by (vm_compute; reflexivity).
  split; [exact E|].
  apply (listing_shows_target branching (with_npc branching 0x10000010) 0x10000003 0x10000000);
    [unfold is_s32, two31; lia|vm_compute; reflexivity|exact E|discriminate].
Defined.

(** ** The two names of an instruction *)

Definition upper_char (c : Ascii.ascii) : Ascii.ascii :=
  let n := Ascii.nat_of_ascii c in
  if (97 <=? n)%nat && (n <? 123)%nat then Ascii.ascii_of_nat (n - 32) else c.

Fixpoint upper (s : string) : string :=
  match s with EmptyString => EmptyString | String c s => String (upper_char c) (upper s) end.

(** The name that the disassembler has for an opcode of the simulated machine. *)
Definition listed_name (op : opcode) : outcome string :=
  match special_number op, op_number op, bcond_number op with
  | Some n, _, _ => arr_get specialops n
  | None, Some n, _ => arr_get normalops n
  | None, None, Some n => 
      Ok (if n =? I_BLTZ then "bltz"%string else if n =? I_BGEZ then "bgez"%string
          else if n =? I_BLTZAL then "bltzal"%string else "bgezal"%string)
  | None, None, None => Undef
  end.

Lemma listed_text i pc instr : is_s32 i -> i <> 0 -> Decode (u32 i) = Ok instr ->
  opCode instr <> OP_RES -> opCode instr <> OP_UNIMP ->
  exists name operands, listed_name (opCode instr) = Ok name /\ instruction_text i pc = Ok (name +:+ TAB +:+ operands).
Proof.
  intros Hi Hz Hd Hres Hun. pose proof (Decode_decoded i instr Hd) as Hdec. destruct (opcode_field i Hi) as [Hop Eop].
  destruct (Decode_ok (u32 i) (u32_range i)) as (i' & Hd' & Hok). rewrite Hd in Hd'. injection Hd' as <-.
  destruct Hok as (_ & _ & _ & _ & Hdecodable & _). destruct names_short as [Hn Hs].
  unfold instruction_text. cbv zeta. rewrite (proj2 (Z.eqb_neq i I_NOP)) by done. unfold listed_name.
  destruct (special_number (opCode instr)) as [n|] eqn:Esp.
  { destruct (de_special _ _ Hdec n Esp) as (E0 & E1 & _). rewrite Eop in E0. rewrite E0, E1. eval_switch.
    destruct (op_name specialops n) as (name & -> & _); [done|done|rewrite <- E1; by apply (land_mask_range _ _ 6)|].
    destruct (special_operands_fit i) as (o & -> & _). by exists name, o. }
  destruct (op_number (opCode instr)) as [n|] eqn:Enum.
  { destruct (de_op _ _ Hdec n Enum) as [E0 _]. rewrite Eop in E0. rewrite E0 in Hop |- *.
    destruct (op_name normalops n) as (name & -> & _); [done|done|done|]. destruct (normal_operands_fit i pc) as (o & -> & _).
    exists name, o. split; [done|]. destruct (opCode instr); try discriminate Enum; injection Enum as <-; reflexivity. }
  destruct (bcond_number (opCode instr)) as [n|] eqn:Ebc.
  { destruct (de_bcond _ _ Hdec n Ebc) as (E0 & E1 & _). rewrite Eop in E0. rewrite E0. eval_switch. unfold print_bcond. cbv zeta. rewrite E1.
    print_names. destruct (opCode instr); try discriminate Ebc; injection Ebc as <-; eval_switch; eexists _, _; (split; [reflexivity|reflexivity]). }
  exfalso. by destruct (opCode instr).
Qed.

(** The rest of a debug line after the name: nothing or operands after a blank. *)
Definition after_name (s : string) : bool :=
  match s with String c _ => bool_decide (c = " "%char \/ String c "" = NEWLINE) | EmptyString => false end.

Lemma debug_name instr pc name : listed_name (opCode instr) = Ok name ->
  exists front rest, debug_line instr pc = Ok (front +:+ upper name +:+ rest) /\ after_name rest = true.
Proof.
  intros Hn. unfold debug_line. destruct (opCode instr) eqn:Eo; try discriminate Hn; vm_compute in Hn; injection Hn as <-.
  all: cbn [opcode_index];
    match goal with |- context [arr_get opStrings ?k] => let v := eval vm_compute in (arr_get opStrings k) in change (arr_get opStrings k) with v end;
    cbn [mbind outcome_bind printf map TypeToReg]; eexists _, _; (split; [reflexivity|reflexivity]).
Qed.

(** The two programs that print instructions call them by the same names: for every word that
    the machine decodes to an implemented instruction, other than the no-operation, the name in
    the listing of [dump_ascii] is, in capitals, the one in the debug output of
    [OneInstruction]. *)
Theorem same_names i pc instr : is_s32 i -> i <> 0 -> Decode (u32 i) = Ok instr ->
  opCode instr <> OP_RES -> opCode instr <> OP_UNIMP ->
  exists name front operands front' rest, dump_ascii i pc = Ok (front +:+ name +:+ TAB +:+ operands) /\
    heading i pc = Ok front /\ debug_line instr pc = Ok (front' +:+ upper name +:+ rest) /\ after_name rest = true.
Proof.
  intros Hi Hz Hd Hres Hun. destruct (listed_text i pc instr) as (name & operands & Hn & Ht); [done..|].
  destruct (debug_name instr pc name Hn) as (front' & rest & Hd' & Ha). destruct (heading_fit i pc) as (front & Hf & _).
  exists name, front, operands, front', rest. split; [|done]. unfold dump_ascii. by rewrite Hf, Ht.
Qed.

Lemma same_names_witness :
  exists instr name front operands front' rest, Decode (u32 0x24030005) = Ok instr /\
    dump_ascii 0x24030005 0 = Ok (front +:+ name +:+ TAB +:+ operands) /\
    debug_line instr 0 = Ok (front' +:+ upper name +:+ rest) /\ after_name rest = true.
Proof.
  assert (exists instr, Decode (u32 0x24030005) = Ok instr /\ opCode instr = OP_ADDIU) as (instr & Hd & Ho)
    by (eexists; split; [vm_compute; reflexivity|reflexivity]).
  destruct (same_names 0x24030005 0 instr) as (name & front & operands & front' & rest & H1 & _ & H2 & H3);
    [unfold is_s32, two31; lia|lia|exact Hd|rewrite Ho; discriminate|rewrite Ho; discriminate|].
  exists instr, name, front, operands, front', rest. split; [exact Hd|]. split; [exact H1|]. split; [exact H2|exact H3].
Defined.

(** The operands are not always those of the instruction: [mflo r5] is listed with its
    field [rs], and [blez] without operands. *)
Lemma listed_operands :
  instruction_text 0x00002812 0 = Ok ("mflo" +:+ TAB +:+ "0") /\ rd 0x00002812 = 5 /\
  instruction_text 0x18a00003 0 = Ok ("blez" +:+ TAB).
Proof. by vm_compute. Qed.
