(* ===== verification/Listing.v ===== *)
(** * bin/out.c: the listing of an object file

    The output routines with the column they keep, the limits that [main] tests before it
    stores the sections, and the printing of sections, relocations and symbols. The
    structures of the COFF headers that out.c takes from the system (<reloc.h>, <syms.h>)
    are records of the fields it uses. The program text it prints comes from [dump_ascii],
    which out.c includes with [printf] renamed to [myprintf]. *)

From stdpp Require Import prelude gmap list numbers strings pretty.
From S2P Require Import Prelude Params Mips Machine Interp InterpMachine Disasm Coff.

Open Scope Z_scope.

(** ** Limits and tables *)

Definition MAXRELOCS : Z := 1000.
Definition MAXDATA : Z := 10000.
Definition MAXSCNS : Z := 10.
Definition MAXSYMS : Z := 300.
Definition MAXSSPACE : Z := 20000.

Definition symbol_type : list string :=
  ["Nil"; "Global"; "Static"; "Param"; "Local"; "Label"; "Proc"; "Block"; "End"; "Member"; "Type";
   "File"; "Register"; "Forward"; "StaticProc"; "Constant"]%string.

Definition storage_class : list string :=
  ["Nil"; "Text"; "Data"; "Bss"; "Register"; "Abs"; "Undefined"; "CdbLocal"; "Bits"; "CdbSystem";
   "RegImage"; "Info"; "UserStruct"; "SData"; "SBss"; "RData"; "Var"; "Common"; "SCommon";
   "VarRegister"; "Variant"; "SUndefined"; "Init"]%string.

Definition section_name : list string :=
  ["(null)"; ".text"; ".rdata"; ".data"; ".sdata"; ".sbss"; ".bss"; ".init"; ".lit8"; ".lit4"]%string.

Definition reloc_type : list string :=
  ["abs"; "16"; "32"; "26"; "hi16"; "lo16"; "gpdata"; "gplit"]%string.

(** ** myprintf and mytab *)

(** What was written to [outfile], and the static [column]. *)
Record out := mkOut { written : string; column : Z }.

(** The column after the characters of [s]. *)
Fixpoint advance (column : Z) (s : string) : Z :=
  match s with
  | EmptyString => column
  | String c s =>
      advance
        (if bool_decide (String c "" = NEWLINE) then 1
         else if bool_decide (String c "" = TAB) then Z.land (column + 7) (Z.lnot 7) + 1
         else column + 1) s
  end.

Definition emit (o : out) (text : string) : out := mkOut (written o +:+ text) (advance (column o) text).

(** [myprintf]: the text goes through a buffer of 100 bytes. *)
Definition myprintf (o : out) (fmt : string) (args : list parg) : outcome out :=
  text ← printf fmt args;
  if 100 <=? Z.of_nat (slen text) then Undef else Ok (emit o text).

(** The loop of [mytab], at most [fuel] times. *)
Fixpoint mytab_loop (fuel : nat) (o : out) (n : Z) : out :=
  match fuel with
  | O => o
  | S fuel => if column o <? n then mytab_loop fuel (mkOut (written o +:+ " ") (column o + 1)) n else o
  end.

Definition mytab (o : out) (n : Z) : out * bool :=
  let o := mytab_loop (Z.to_nat (n - column o)) o n in (o, column o =? n).

(** ** The object file *)

Record reloc := mkReloc { r_vaddr : Z; r_symndx : Z; r_type : Z; r_extern : bool }.

(** [scnhdr[i]] and [section[i]]. *)
Record osection := mkSection { o_hdr : scnhdr; o_data : list Z; o_reloc : list reloc }.

(** The external symbols, an array of [MAXSYMS] entries: index into [sspace], value, type and storage class. *)
Record symr := mkSymr { iss : Z; sym_value : Z; sym_st : Z; sym_sc : Z }.
Definition scUndefined : Z := 6. (* the index of Undefined in storage_class *)

(** The string at index [k] of [sspace]: up to the next 0. *)
Fixpoint cstring (bytes : list Z) : outcome string :=
  match bytes with
  | [] => Undef
  | b :: bytes => if b =? 0 then Ok ""%string else s ← cstring bytes; Ok (String (Ascii.ascii_of_nat (Z.to_nat b)) s)
  end.
Definition string_of (sspace : list Z) (k : Z) : outcome string :=
  if (0 <=? k) && (k <? Z.of_nat (length sspace)) then cstring (drop (Z.to_nat k) sspace) else Undef.

(** The test of [main] on a section header. *)
Definition section_fits (s : scnhdr) : bool :=
  negb ((MAXDATA * 4 <? u32 (s_size s)) && negb (s_scnptr s =? 0) || (MAXRELOCS <? s_nreloc s)).

(** [section[i].length]. *)
Definition data_length (s : scnhdr) : Z := if s_scnptr s =? 0 then 0 else cdiv (s_size s) 4.

(** ** Printing *)

Section print.
Context (symbols : list symr) (sspace : list Z).

Definition print_reloc (o : out) (vaddr : Z) (relocs : list reloc) : outcome out :=
  o ← match List.find (fun rp => vaddr =? r_vaddr rp) relocs with
      | None => Ok o
      | Some rp =>
          let '(o, _) := mytab o 57 in
          o ← (if r_extern rp then
                 if MAXSYMS <=? r_symndx rp then myprintf o "sym $%d" [PInt (r_symndx rp)]
                 else
                   s ← arr_get symbols (r_symndx rp);
                   name ← string_of sspace (iss s);
                   myprintf o (QUOTE +:+ "%s" +:+ QUOTE) [PStr name]
               else
                 name ← arr_get section_name (r_symndx rp);
                 myprintf o "%s" [PStr name]);
          type ← arr_get reloc_type (r_type rp);
          myprintf o " %s" [PStr type]
      end;
  myprintf o NEWLINE [].

(** The four bytes of a word as characters. *)
Fixpoint print_chars (o : out) (bytes : list Z) : outcome out :=
  match bytes with
  | [] => Ok o
  | b :: bytes =>
      o ← (if (32 <=? s8 b) && (s8 b <? 127) then myprintf o "%c" [PInt b] else myprintf o "." []);
      print_chars o bytes
  end.

(** The loop over the words of a section, from word [j] on. *)
Fixpoint print_words (o : out) (is_text : bool) (vaddr j : Z) (words : list Z) (relocs : list reloc) : outcome out :=
  match words with
  | [] => Ok o
  | word :: words =>
      let pc := s32 (vaddr + j * 4) in
      o ← (if is_text then line ← dump_ascii word pc; Ok (emit o line)
           else
             o ← myprintf o "%08x: %08x  " [PInt pc; PInt word];
             o ← print_chars o (word_bytes (u32 word));
             myprintf o (TAB +:+ "%d") [PInt word]);
      o ← print_reloc o pc relocs;
      print_words o is_text vaddr (j + 1) words relocs
  end.

Definition print_section (o : out) (s : osection) : outcome out :=
  name ← cstring (s_name (o_hdr s));
  o ← myprintf o ("Section: %s" +:+ TAB +:+ "%d/%d" +:+ NEWLINE)
        [PStr name; PInt (s_size (o_hdr s)); PInt (Z.of_nat (length (o_reloc s)))];
  let is_text := bool_decide (take 5 (s_name (o_hdr s)) = [46; 116; 101; 120; 116]) in
  print_words o is_text (s_vaddr (o_hdr s)) 0 (o_data s) (o_reloc s).

(** One line of the table of external symbols. *)
Definition print_symbol (o : out) (sym : symr) : outcome out :=
  o ← (if sym_sc sym =? scUndefined then myprintf o (TAB +:+ " ") []
       else myprintf o "%08x " [PInt (sym_value sym)]);
  st ← arr_get symbol_type (sym_st sym);
  o ← myprintf o "%s" [PStr st];
  let '(o, _) := mytab o 25 in
  sc ← arr_get storage_class (sym_sc sym);
  o ← myprintf o "%s" [PStr sc];
  let '(o, _) := mytab o 41 in
  name ← string_of sspace (iss sym);
  myprintf o ("%s" +:+ NEWLINE) [PStr name].
End print.

(** ** The column *)

Lemma advance_app a : forall c b, advance c (a +:+ b) = advance (advance c a) b.
Proof. induction a as [|x a IH]; intros c b; [done|]. apply (IH _ b). Qed.

(** The column is that of the last line written. *)
Definition tracked (o : out) : Prop := column o = advance 1 (written o).

Lemma emit_tracked o s : tracked o -> tracked (emit o s).
Proof. unfold tracked, emit. simpl. intros ->. by rewrite advance_app. Qed.

Lemma myprintf_tracked o fmt args o' : tracked o -> myprintf o fmt args = Ok o' -> tracked o'.
Proof.
  intros Ht Hm. apply bind_ok in Hm as (s & _ & Hm). destruct (100 <=? _); [done|]. injection Hm as <-. by apply emit_tracked.
Qed.

Fixpoint spaces (n : nat) : string := match n with O => EmptyString | S n => " " +:+ spaces n end.

Lemma mytab_spaces fuel : forall o n, (Z.to_nat (n - column o) <= fuel)%nat ->
  mytab_loop fuel o n = mkOut (written o +:+ spaces (Z.to_nat (n - column o))) (Z.max (column o) n).
Proof.
  induction fuel as [|fuel IH]; intros o n Hf; cbn [mytab_loop].
  - replace (Z.to_nat (n - column o)) with 0%nat by lia. cbn [spaces]. rewrite sapp_nil. destruct o; simpl in *. f_equal. lia.
  - destruct (Z.ltb_spec (column o) n) as [Hl|Hl].
    + rewrite IH by (cbn [column]; lia). cbn [column written]. replace (Z.to_nat (n - column o)) with (S (Z.to_nat (n - (column o + 1)))) by lia.
      rewrite sapp_assoc. f_equal. lia.
    + replace (Z.to_nat (n - column o)) with 0%nat by lia. cbn [spaces]. rewrite sapp_nil. destruct o; simpl in *. f_equal. lia.
Qed.

Lemma advance_spaces n : forall c, advance c (spaces n) = c + Z.of_nat n.
Proof. induction n as [|n IH]; intros c; [simpl; lia|]. cbn [spaces]. rewrite advance_app, IH. change (advance c " ") with (c + 1). lia. Qed.

Lemma mytab_tracked o n : tracked o -> tracked (mytab o n).1.
Proof.
  intros Ht. unfold mytab. cbn [fst]. rewrite mytab_spaces by done. unfold tracked in *. cbn [column written].
  rewrite advance_app, <- Ht, advance_spaces. lia.
Qed.

(** The tab stops are every eight columns. *)
Lemma tab_stop c : 1 <= c -> c < advance c TAB <= c + 8 /\ (advance c TAB - 1) `mod` 8 = 0.
Proof.
  intros Hc. change (advance c TAB) with (Z.land (c + 7) (Z.lnot 7) + 1).
  assert (Z.land (c + 7) (Z.lnot 7) = (c + 7) `div` 8 * 8) as ->; [|dlia].
  change 7 with (Z.ones 3) at 2. rewrite <- Z.ldiff_land, Z.ldiff_ones_r by lia.
  rewrite Z.shiftr_div_pow2, Z.shiftl_mul_pow2 by lia. done.
Qed.

(** A printing step keeps the column right. *)
Ltac track :=
  repeat match goal with
  | Hm : myprintf _ _ _ = Ok _ |- _ => apply myprintf_tracked in Hm; [|done]
  | Hm : _ ≫= _ = Ok _ |- _ => apply bind_ok in Hm as (? & ? & Hm)
  end.

Section tracking.
Context (symbols : list symr) (sspace : list Z).

Lemma print_reloc_tracked o vaddr relocs o' : tracked o -> print_reloc symbols sspace o vaddr relocs = Ok o' -> tracked o'.
Proof.
  intros Ht Hp. apply bind_ok in Hp as (o1 & H1 & Hp). eapply myprintf_tracked; [|exact Hp]. clear Hp.
  destruct (List.find _ _) as [rp|]; [|injection H1 as <-; done].
  pose proof (mytab_tracked o 57 Ht) as Ht1. destruct (mytab o 57) as [o2 b]. simpl in Ht1.
  apply bind_ok in H1 as (o3 & H3 & H1). assert (tracked o3); [|by track].
  destruct (r_extern rp); [destruct (MAXSYMS <=? _)|]; track; done.
Qed.

Lemma print_chars_tracked bytes : forall o o', tracked o -> print_chars o bytes = Ok o' -> tracked o'.
Proof.
  induction bytes as [|b bytes IH]; intros o o' Ht Hp; [by injection Hp as <-|]. cbn [print_chars] in Hp.
  apply bind_ok in Hp as (o1 & H1 & Hp). apply (IH o1); [|done]. destruct (_ && _); by track.
Qed.

Lemma print_words_tracked is_text vaddr relocs words : forall o j o',
  tracked o -> print_words symbols sspace o is_text vaddr j words relocs = Ok o' -> tracked o'.
Proof.
  induction words as [|w words IH]; intros o j o' Ht Hp; [by injection Hp as <-|]. cbn [print_words] in Hp.
  apply bind_ok in Hp as (o1 & H1 & Hp). apply bind_ok in Hp as (o2 & H2 & Hp). apply (IH o2 (j + 1)); [|done].
  eapply print_reloc_tracked; [|exact H2]. destruct is_text.
  - apply bind_ok in H1 as (line & _ & H1). injection H1 as <-. by apply emit_tracked.
  - apply bind_ok in H1 as (o3 & H3 & H1). apply bind_ok in H1 as (o4 & H4 & H1). track. apply print_chars_tracked in H4; [|done]. by track.
Qed.
End tracking.

(** The column that [mytab] aligns to is the real one: whatever is printed of a section, words
    of program or of data, characters, relocations, [column] stays the column after the last
    character of the last line, with tab stops every eight columns; and [mytab] fills with
    blanks up to the column it is given, and reports whether it could. *)
Theorem column_right symbols sspace o s o' :
  tracked o -> print_section symbols sspace o s = Ok o' ->
  tracked o' /\ forall n, tracked (mytab o' n).1 /\ column (mytab o' n).1 = Z.max (column o') n /\
    written (mytab o' n).1 = written o' +:+ spaces (Z.to_nat (n - column o')) /\ (mytab o' n).2 = (column o' <=? n).
Proof.
  intros Ht Hp. assert (tracked o') as Ht'.
  { apply bind_ok in Hp as (name & _ & Hp). apply bind_ok in Hp as (o1 & H1 & Hp).
    eapply print_words_tracked; [|exact Hp]. by eapply myprintf_tracked. }
  split; [done|]. intros n. split; [by apply mytab_tracked|]. unfold mytab. cbn [fst snd]. rewrite mytab_spaces by done.
  cbn [column written]. split_and!; [done|done|]. destruct (Z.leb_spec (column o') n); [apply Z.eqb_eq|apply Z.eqb_neq]; lia.
Qed.

(** ** The listing of a program *)

(** The lines of [dump_ascii] for the words from [vaddr] on. *)
Fixpoint text_lines (vaddr j : Z) (words : list Z) : outcome string :=
  match words with
  | [] => Ok ""%string
  | w :: words =>
      line ← dump_ascii w (s32 (vaddr + j * 4));
      rest ← text_lines vaddr (j + 1) words;
      Ok (line +:+ NEWLINE +:+ rest)
  end.

Definition section_header (name : string) (size relocs : Z) : string :=
  "Section: " +:+ name +:+ TAB +:+ pretty size +:+ "/" +:+ pretty relocs +:+ NEWLINE.

Lemma print_header name size relocs :
  printf ("Section: %s" +:+ TAB +:+ "%d/%d" +:+ NEWLINE) [PStr name; PInt size; PInt relocs] = Ok (section_header name size relocs).
Proof. unfold section_header. by rewrite <- (sapp_nil NEWLINE). Qed.

Lemma advance_newline c s : advance c (s +:+ NEWLINE) = 1.
Proof. by rewrite advance_app. Qed.

Lemma print_text symbols sspace vaddr words : forall o j, Forall is_s32 words -> column o = 1 ->
  exists o' lines, print_words symbols sspace o true vaddr j words [] = Ok o' /\ text_lines vaddr j words = Ok lines /\
    written o' = written o +:+ lines /\ column o' = 1.
Proof.
  induction words as [|w words IH]; intros o j Hw Hc.
  { exists o, EmptyString. by rewrite sapp_nil. }
  inversion_clear Hw as [|? ? Hw1 Hw2]. cbn [print_words text_lines].
  destruct (dump_ascii_line w (s32 (vaddr + j * 4)) Hw1) as (line & -> & _). cbn [mbind outcome_bind].
  unfold print_reloc. cbn [List.find mbind outcome_bind]. change (myprintf (emit o line) NEWLINE []) with (Ok (emit (emit o line) NEWLINE)).
  cbn [mbind outcome_bind].
  destruct (IH (emit (emit o line) NEWLINE) (j + 1) Hw2) as (o' & lines & -> & -> & E1 & E2).
  { unfold emit. cbn [column]. by rewrite <- advance_app, advance_newline. }
  eexists _, _. split; [done|]. split; [done|]. split; [|done]. rewrite E1. unfold emit. cbn [written]. by rewrite !sapp_assoc.
Qed.

(** The listing of a program section without relocations: a header with the section's name,
    its size and the number of relocations, and then for every word, at its address, the line
    that [dump_ascii] prints for it; nothing is cut or missing and the output is at the start
    of a line again. *)
Theorem program_listed symbols sspace o s name :
  cstring (s_name (o_hdr s)) = Ok name -> take 5 (s_name (o_hdr s)) = [46; 116; 101; 120; 116] -> o_reloc s = [] ->
  Forall is_s32 (o_data s) -> (slen (section_header name (s_size (o_hdr s)) 0) < 100)%nat ->
  exists o' lines, print_section symbols sspace o s = Ok o' /\ text_lines (s_vaddr (o_hdr s)) 0 (o_data s) = Ok lines /\
    written o' = written o +:+ section_header name (s_size (o_hdr s)) 0 +:+ lines /\ column o' = 1.
Proof.
  intros Hname Htext Hrel Hw Hl. unfold print_section. rewrite Hname, Hrel. cbn [mbind outcome_bind length]. change (Z.of_nat 0) with 0.
  unfold myprintf. rewrite print_header. cbn [mbind outcome_bind]. destruct (Z.leb_spec 100 (Z.of_nat (slen (section_header name (s_size (o_hdr s)) 0)))); [lia|].
  cbn [mbind outcome_bind]. rewrite bool_decide_eq_true_2 by done.
  destruct (print_text symbols sspace (s_vaddr (o_hdr s)) (o_data s) (emit o (section_header name (s_size (o_hdr s)) 0)) 0 Hw)
    as (o' & lines & -> & -> & E1 & E2).
  { unfold emit, section_header. cbn [column]. rewrite <- !sapp_assoc. apply advance_newline. }
  eexists _, _. split; [done|]. split; [done|]. split; [|done]. rewrite E1. unfold emit. cbn [written]. by rewrite !sapp_assoc.
Qed.

(** ** The arrays *)

Lemma section_fits_bounds s : section_fits s = true -> is_s32 (s_size s) ->
  0 <= data_length s <= MAXDATA /\ s_nreloc s <= MAXRELOCS.
Proof.
  unfold section_fits. intros [Hd Hr%Z.ltb_ge]%negb_true_iff%orb_false_iff Hs. split; [|done]. unfold data_length, MAXDATA in *.
  destruct (Z.eqb_spec (s_scnptr s) 0) as [_|_]; [lia|]. rewrite andb_true_r in Hd. apply Z.ltb_ge in Hd.
  assert (0 <= s_size s <= 40000) as Hr' by (unfold u32, is_s32, two31, two32 in *; dlia).
  rewrite cdiv_nonneg by lia. dlia.
Qed.

(** [.text] with the two instructions [addiu r3,0,5] and [jr r31] at 0x10000000. *)
Definition demo_text : osection :=
  mkSection (mkScnhdr [46; 116; 101; 120; 116; 0; 0; 0] 0x10000000 0x10000000 8 100 0 0 0 0 0) [0x24030005; 0x03e00008] [].

Lemma column_right_witness :
  exists o', print_section [] [] (mkOut "" 1) demo_text = Ok o' /\ tracked o' /\ (mytab o' 57).2 = true.
Proof.
  assert (match print_section [] [] (mkOut "" 1) demo_text with Ok o' => column o' =? 1 | _ => false end = true) as Hrun by (vm_compute; reflexivity).
  destruct (print_section [] [] (mkOut "" 1) demo_text) as [o'| | |] eqn:E; try discriminate Hrun. apply Z.eqb_eq in Hrun.
  destruct (column_right [] [] (mkOut "" 1) demo_text o' eq_refl E) as [Ht Hm]. exists o'. split; [reflexivity|]. split; [exact Ht|].
  destruct (Hm 57) as (_ & _ & _ & ->). rewrite Hrun. reflexivity.
Defined.

Lemma program_listed_witness :
  exists o' lines, print_section [] [] (mkOut "" 1) demo_text = Ok o' /\ text_lines 0x10000000 0 (o_data demo_text) = Ok lines /\
    written o' = section_header ".text" 8 0 +:+ lines.
Proof.
  destruct (program_listed [] [] (mkOut "" 1) demo_text ".text") as (o' & lines & E1 & E2 & E3 & _);
    [reflexivity|reflexivity|reflexivity|repeat constructor; unfold is_s32, two31; lia|vm_compute; lia|].
  exists o', lines. split; [exact E1|]. split; [exact E2|exact E3].
Defined.

(** ** disasm.c: the listing of the loaded program *)

Definition dis1 (m : gmap Z Z) (pc : Z) : outcome string :=
  instr ← fetch m pc;
  line ← dump_ascii instr pc;
  Ok (line +:+ NEWLINE).

(** The loop of [disasm] from [i] on. *)
Fixpoint disasm_loop (fuel : nat) (m : gmap Z Z) (s_size i pc : Z) : outcome string :=
  match fuel with
  | O => NoFuel
  | S fuel =>
      if i <? s_size then
        line ← dis1 m pc;
        rest ← disasm_loop fuel m s_size (i + 4) (pc + 4);
        Ok (line +:+ rest)
      else Ok ""%string
  end.

Definition disasm (fuel : nat) (m : gmap Z Z) (s_size : Z) : outcome string := disasm_loop fuel m s_size 0 memoffset.

(** The words of the program text in memory. *)
Definition holds_words (m : gmap Z Z) (addr : Z) (words : list Z) : Prop :=
  forall j w, words !! j = Some w -> fetch m (addr + 4 * Z.of_nat j) = Ok w.

Lemma disasm_loop_lines m words : forall fuel j, (length words < fuel)%nat -> 0 <= j -> memoffset + 4 * (j + Z.of_nat (length words)) < two31 ->
  holds_words m (memoffset + 4 * j) words ->
  disasm_loop fuel m (4 * (j + Z.of_nat (length words))) (4 * j) (memoffset + 4 * j) = text_lines memoffset j words.
Proof.
  induction words as [|w words IH]; intros fuel j Hf Hj Hlim Hw; (destruct fuel as [|fuel]; [simpl in Hf; lia|]); cbn [disasm_loop text_lines].
  { simpl. by rewrite (proj2 (Z.ltb_ge _ _)) by lia. }
  cbn [length] in *. rewrite (proj2 (Z.ltb_lt _ _)) by lia. unfold dis1.
  pose proof (Hw 0%nat w eq_refl) as E. rewrite Z.add_0_r in E. rewrite E. cbn [mbind outcome_bind].
  rewrite (s32_small (memoffset + j * 4)) by (unfold is_s32, memoffset, two31 in *; lia). replace (memoffset + j * 4) with (memoffset + 4 * j) by lia.
  destruct (dump_ascii w (memoffset + 4 * j)) as [line| | |]; cbn [mbind outcome_bind]; try done.
  replace (4 * j + 4) with (4 * (j + 1)) by lia. replace (memoffset + 4 * j + 4) with (memoffset + 4 * (j + 1)) by lia.
  replace (j + Z.of_nat (S (length words))) with (j + 1 + Z.of_nat (length words)) by lia.
  rewrite IH; [|lia|lia|lia|].
  - destruct (text_lines memoffset (j + 1) words); cbn [mbind outcome_bind]; try done. by rewrite sapp_assoc.
  - intros k v Hk. replace (memoffset + 4 * (j + 1) + 4 * Z.of_nat k) with (memoffset + 4 * j + 4 * Z.of_nat (S k)) by lia. by apply Hw.
Qed.

(** The disassembler prints the same lines as the listing: one for every word of the text that
    is loaded at [memoffset]. *)
Lemma disasm_lines m words fuel : holds_words m memoffset words -> (length words < fuel)%nat ->
  memoffset + 4 * Z.of_nat (length words) < two31 ->
  disasm fuel m (4 * Z.of_nat (length words)) = text_lines memoffset 0 words.
Proof. intros Hw Hf Hl. apply (disasm_loop_lines m words fuel 0); [done|lia|lia|by rewrite Z.mul_0_r, Z.add_0_r]. Qed.
