(* ===== verification/OutMain.v ===== *)
(** * bin/out.c: [main], which reads an object file and prints the listing

    The file is a byte sequence and [stdio] a position in it. A read that comes to the end
    of the file stores what there is; the arrays of out.c are static, so that the rest
    stays zero. A read that has more to store than its array has room for is undefined.
    [struct reloc], [HDRR] and [EXTR] come from the system's headers: their sizes and the
    fields that out.c uses are a parameter. *)

From stdpp Require Import prelude list numbers strings pretty.
From S2P Require Import Prelude Params Mips Machine Interp InterpMachine Disasm Coff Listing.

Open Scope Z_scope.

(** ** The symbolic header and the formats of the system *)

(** Number of external symbols and where they are, size of their strings and where they are. *)
Record hdrr := mkHdrr { iextMax : Z; cbExtOffset : Z; issExtMax : Z; cbSsExtOffset : Z }.

Class ObjFormat := {
  sizeof_reloc : nat;
  reloc_of : list Z -> reloc;
  sizeof_HDRR : nat;
  HDRR_of : list Z -> hdrr;
  sizeof_EXTR : nat;
  asym_of : list Z -> symr }.

(** ** Reading *)

(** The bytes that [fread] stores, of [n] asked for; there is room for [room]. *)
Definition fread (file : list Z) (pos n room : Z) : outcome (list Z) :=
  let data := take (Z.to_nat (Z.min n (Z.of_nat (length file)))) (drop (Z.to_nat pos) file) in
  if room <? Z.of_nat (length data) then Undef else Ok data.

(** [read_struct]: the bytes of a structure and whether all of it was there. *)
Definition read_struct (file : list Z) (pos : Z) (size : nat) : list Z * bool :=
  let data := take size (drop (Z.to_nat pos) file) in (data, bool_decide (length data = size)).

(** Element [k] of an array of structures of [size] bytes. *)
Definition element (size k : nat) (data : list Z) : list Z := take size (drop (k * size) data).
Definition elements {A} (f : list Z -> A) (size n : nat) (data : list Z) : list A :=
  map (fun k => f (element size k data)) (seq 0 n).

(** The loop that reads the section headers and gives up when one is too big: the headers,
    or the name of that section. *)
Fixpoint read_scnhdrs (file : list Z) (n : nat) (pos : Z) : list scnhdr + list Z :=
  match n with
  | O => inl []
  | S n =>
      let h := scnhdr_of (read_struct file pos 40).1 in
      if section_fits h then
        match read_scnhdrs file n (Z.min (pos + 40) (Z.of_nat (length file))) with
        | inl l => inl (h :: l)
        | inr name => inr name
        end
      else inr (s_name h)
  end.

Section main.
Context `{ObjFormat}.

(** One round of the loop that reads the sections. [pos] is where the file stands. *)
Definition load_section (file : list Z) (pos : Z) (h : scnhdr) : outcome (osection * Z) :=
  if negb (s_scnptr h =? 0) then
    let pos := lseek pos (s_scnptr h) in
    data ← fread file pos (4 * data_length h) (4 * MAXDATA);
    let pos := lseek (pos + Z.of_nat (length data)) (s_relptr h) in
    relocs ← fread file pos (Z.of_nat sizeof_reloc * s_nreloc h) (Z.of_nat sizeof_reloc * MAXRELOCS);
    Ok (mkSection h (elements (fun bs => long_at bs 0) 4 (Z.to_nat (data_length h)) data)
          (elements reloc_of sizeof_reloc (Z.to_nat (s_nreloc h)) relocs), pos + Z.of_nat (length relocs))
  else Ok (mkSection h [] [], pos).

Fixpoint load_sections (file : list Z) (pos : Z) (l : list scnhdr) : outcome (list osection * Z) :=
  match l with
  | [] => Ok ([], pos)
  | h :: l => '(s, pos) ← load_section file pos h; '(rest, pos) ← load_sections file pos l; Ok (s :: rest, pos)
  end.

(** [section], [symbols] with the number of symbols in the file, and [sspace]. *)
Record object := mkObject { section : list osection; ob_iextMax : Z; symbols : list symr; sspace : list Z }.

(** The number of symbols that are stored and listed. *)
Definition listed_symbols (n : Z) : nat := Z.to_nat (Z.min MAXSYMS n).

Definition pad (n : Z) (l : list Z) : list Z := l ++ replicate (Z.to_nat n - length l) 0.

(** [i < MAXSYMS && i < symhdr.iextMax]: the symbols, the others stay zero. *)
Definition load_symbols (file : list Z) (pos n : Z) : list symr :=
  elements asym_of sizeof_EXTR (listed_symbols n) (take (listed_symbols n * sizeof_EXTR) (drop (Z.to_nat pos) file)) ++
  replicate (Z.to_nat MAXSYMS - listed_symbols n) (asym_of (replicate sizeof_EXTR 0)).

(** [read_struct(f, symhdr)]. *)
Definition read_symhdr (file : list Z) (pos : Z) : hdrr * Z :=
  let '(b, _) := read_struct file pos sizeof_HDRR in (HDRR_of b, pos + Z.of_nat (length b)).

(** After the symbolic header; [None] after the message that the strings are too large. *)
Definition load_strings (file : list Z) (s : list osection) (sym : hdrr) (pos : Z) : outcome (option object) :=
  let ext := lseek pos (cbExtOffset sym) in
  let l := load_symbols file ext (iextMax sym) in
  if MAXSSPACE <? issExtMax sym then Ok None
  else
    let pos := lseek (Z.min (ext + Z.of_nat (listed_symbols (iextMax sym) * sizeof_EXTR)) (Z.of_nat (length file)))
                 (cbSsExtOffset sym) in
    data ← fread file pos (u32 (issExtMax sym)) MAXSSPACE;
    Ok (Some (mkObject s (iextMax sym) l (pad MAXSSPACE data))).

(** The text that [printf] writes to [stdout], past [myprintf] and its column. *)
Definition put (o : out) (text : string) : out := mkOut (written o +:+ text) (column o).

Fixpoint print_sections (ob : object) (o : out) (l : list osection) : outcome out :=
  match l with
  | [] => Ok o
  | s :: l => o ← print_section (symbols ob) (sspace ob) o s; print_sections ob o l
  end.

Fixpoint print_symbols (ob : object) (o : out) (l : list symr) : outcome out :=
  match l with
  | [] => Ok o
  | s :: l => o ← print_symbol (sspace ob) o s; print_symbols ob o l
  end.

(** The listing of what was read. *)
Definition print_object (ob : object) (o : out) : outcome out :=
  o ← print_sections ob o (section ob);
  let o := put o ("External Symbols:" +:+ NEWLINE +:+ "Value" +:+ TAB +:+ " Type" +:+ TAB +:+ TAB +:+ "Storage Class" +:+ TAB +:+
                  "Name" +:+ NEWLINE) in
  print_symbols ob o (take (listed_symbols (ob_iextMax ob)) (symbols ob)).

(** What is printed when there are more symbols than entries of [symbols]. *)
Definition symbols_warning (n : Z) : string := if MAXSYMS <? n then "too many symbols to store." +:+ NEWLINE else "".

(** The first part of [main]: what was read, or the text with which it gives up. *)
Definition load (filename : string) (file : list Z) : outcome (string + object) :=
  let '(fh, ok1) := read_struct file 0 20 in
  let '(_, ok2) := read_struct file 20 56 in
  if negb ok1 || negb ok2 || negb (f_magic (filehdr_of fh) =? MIPSELMAGIC)
  then Ok (inl ("out: " +:+ filename +:+ " is not a MIPS Little-Endian COFF object file" +:+ NEWLINE))
  else if MAXSCNS <? f_nscns (filehdr_of fh) then Ok (inl ("out: Too many COFF sections." +:+ NEWLINE))
  else
    match read_scnhdrs file (Z.to_nat (f_nscns (filehdr_of fh))) 76 with
    | inr name => s ← cstring name; Ok (inl ("section " +:+ s +:+ " is too big." +:+ NEWLINE))
    | inl l =>
        '(s, pos) ← load_sections file (Z.min (76 + 40 * f_nscns (filehdr_of fh)) (Z.of_nat (length file))) l;
        let '(sym, pos) := read_symhdr file (lseek pos (f_symptr (filehdr_of fh))) in
        ob ← load_strings file s sym pos;
        match ob with
        | None => Ok (inl (symbols_warning (iextMax sym) +:+ "too large a string space." +:+ NEWLINE))
        | Some ob => Ok (inr ob)
        end
    end.

(** [main] with the contents of the file, [None] when it cannot be opened: what is printed,
    and the exit code. *)
Definition main (filename : string) (contents : option (list Z)) : outcome (out * Z) :=
  let o := mkOut "" 1 in
  match contents with
  | None => Ok (put o ("out: could not open " +:+ filename +:+ NEWLINE), 1)
  | Some file =>
      r ← load filename file;
      match r with
      | inl text => Ok (put o text, 1)
      | inr ob => o ← print_object ob (put o (symbols_warning (ob_iextMax ob))); Ok (o, 0)
      end
  end.

(** ** The arrays *)

Lemma fread_fits file pos n room : n <= room -> 0 <= room -> exists data, fread file pos n room = Ok data.
Proof.
  intros Hn Hr. unfold fread. rewrite length_take.
  match goal with |- context [room <? ?k] => destruct (Z.ltb_spec room k); [lia|eauto] end.
Qed.

Lemma read_scnhdrs_fit file n : forall pos l, read_scnhdrs file n pos = inl l ->
  length l = n /\ Forall (fun h => section_fits h = true /\ is_s32 (s_size h)) l.
Proof.
  induction n as [|n IH]; intros pos l; cbn [read_scnhdrs]; [intros [= <-]; split; [done|constructor]|].
  destruct (section_fits _) eqn:Hf; [|discriminate]. destruct (read_scnhdrs file n _) as [rest|] eqn:Hr; [|discriminate].
  intros [= <-]. apply IH in Hr as [Hlen Hall]. split; [simpl; by f_equal|]. constructor; [|done]. split; [done|].
  unfold scnhdr_of, long_at. simpl. apply s32_range.
Qed.

(** What the arrays of one entry of [section] hold. *)
Definition stored (s : osection) : Prop :=
  Z.of_nat (length (o_data s)) <= MAXDATA /\ Z.of_nat (length (o_reloc s)) <= MAXRELOCS.

Lemma elements_length {A} (f : list Z -> A) size n data : length (elements f size n data) = n.
Proof. unfold elements. by rewrite length_map, length_seq. Qed.

Lemma load_section_stored file pos h : section_fits h = true -> is_s32 (s_size h) ->
  exists s pos', load_section file pos h = Ok (s, pos') /\ stored s.
Proof.
  intros Hf Hs. destruct (section_fits_bounds h Hf Hs) as [Hd Hr]. unfold load_section. case_match; [|by eexists _, _].
  destruct (fread_fits file (lseek pos (s_scnptr h)) (4 * data_length h) (4 * MAXDATA)) as [data ->]; [lia|done|]. cbn [mbind outcome_bind].
  destruct (fread_fits file (lseek (lseek pos (s_scnptr h) + Z.of_nat (length data)) (s_relptr h))
    (Z.of_nat sizeof_reloc * s_nreloc h) (Z.of_nat sizeof_reloc * MAXRELOCS)) as [relocs ->]; [nia|unfold MAXRELOCS; lia|].
  eexists _, _. split; [done|]. unfold stored. cbn [o_data o_reloc]. rewrite !elements_length. unfold MAXRELOCS, MAXDATA in *. lia.
Qed.

Lemma load_sections_stored file l : Forall (fun h => section_fits h = true /\ is_s32 (s_size h)) l -> forall pos,
  exists s pos', load_sections file pos l = Ok (s, pos') /\ length s = length l /\ Forall stored s.
Proof.
  induction 1 as [|h l [Hf Hs] _ IH]; intros pos; cbn [load_sections]; [by eexists _, _|].
  destruct (load_section_stored file pos h Hf Hs) as (s & p1 & -> & H1). cbn [mbind outcome_bind].
  destruct (IH p1) as (rest & p2 & -> & H2 & H3). eexists _, _. split; [done|]. simpl. auto.
Qed.

Lemma load_symbols_length file pos n : Z.of_nat (length (load_symbols file pos n)) = MAXSYMS.
Proof. unfold load_symbols. rewrite length_app, elements_length, length_replicate. unfold listed_symbols, MAXSYMS. lia. Qed.

Lemma load_strings_stored file s sym pos :
  match load_strings file s sym pos with
  | Ok (Some ob) => section ob = s /\ Z.of_nat (length (symbols ob)) = MAXSYMS /\ Z.of_nat (length (sspace ob)) = MAXSSPACE
  | Ok None => True
  | Undef => issExtMax sym < 0
  | AssertFail | NoFuel => False
  end.
Proof.
  unfold load_strings. destruct (Z.ltb_spec MAXSSPACE (issExtMax sym)) as [|Hle]; [done|].
  unfold fread. match goal with |- context [MAXSSPACE <? ?n] => destruct (Z.ltb_spec MAXSSPACE n) as [Hlt|Hfit] end; cbn [mbind outcome_bind section symbols sspace].
  - rewrite length_take in Hlt. destruct (Z.ltb_spec (issExtMax sym) 0) as [|Hnn]; [done|].
    unfold u32, two32, MAXSSPACE in *. rewrite Z.mod_small in Hlt by lia. lia.
  - split_and!; [done|apply load_symbols_length|]. unfold pad. rewrite length_app, length_replicate. unfold MAXSSPACE in *. lia.
Qed.

Lemma cstring_ends l : (exists s, cstring l = Ok s) \/ cstring l = Undef.
Proof. induction l as [|b l [[s IH]|IH]]; cbn [cstring]; [by right|..]; rewrite ?IH; destruct (b =? 0); eauto. Qed.

(** A file that gets the loading out of its arrays: it has a section that is too big and whose name
    of eight characters has no final 0, or its symbolic header gives a negative size of the strings. *)
Definition overruns (file : list Z) : Prop :=
  let fh := filehdr_of (take 20 file) in
  match read_scnhdrs file (Z.to_nat (f_nscns fh)) 76 with
  | inr name => cstring name = Undef
  | inl l => exists s pos, load_sections file (Z.min (76 + 40 * f_nscns fh) (Z.of_nat (length file))) l = Ok (s, pos) /\
                issExtMax (read_symhdr file (lseek pos (f_symptr fh))).1 < 0
  end.

(** C36. The part of [main] that loads the file stores within its arrays: whatever the file
    contains, either it gives up with a message, or at most [MAXSCNS] sections, [MAXDATA] words
    and [MAXRELOCS] relocations of each, [MAXSYMS] symbols and [MAXSSPACE] bytes of strings are
    stored; the only other files are those that [overruns] describes. Printing what was loaded
    has a limit of its own ([long_symbol]). *)
Theorem load_in_bounds filename file :
  match load filename file with
  | Ok (inl _) => True
  | Ok (inr ob) => Z.of_nat (length (section ob)) <= MAXSCNS /\ Forall stored (section ob) /\
      Z.of_nat (length (symbols ob)) = MAXSYMS /\ Z.of_nat (length (sspace ob)) = MAXSSPACE
  | Undef => overruns file
  | AssertFail | NoFuel => False
  end.
Proof.
  unfold load, overruns, read_struct. change (drop (Z.to_nat 0) file) with file.
  match goal with |- context [if ?b then _ else _] => destruct b; [exact I|] end.
  destruct (Z.ltb_spec MAXSCNS (f_nscns (filehdr_of (take 20 file)))) as [|Hn]; [exact I|].
  set (fh := filehdr_of (take 20 file)) in *. destruct (read_scnhdrs file _ 76) as [l|name] eqn:Hr.
  - apply read_scnhdrs_fit in Hr as [Hlen Hfit].
    destruct (load_sections_stored file l Hfit (Z.min (76 + 40 * f_nscns fh) (Z.of_nat (length file)))) as (s & pos & Hs & Hl & Hst).
    rewrite Hs. cbn [mbind outcome_bind]. destruct (read_symhdr file _) as [sym pos'] eqn:Hsym.
    pose proof (load_strings_stored file s sym pos') as Hload. destruct (load_strings file s sym pos') as [[ob|]| | |]; cbn [mbind outcome_bind];
      try done; [|exists s, pos; by rewrite Hsym].
    destruct Hload as (-> & ? & ?). split_and!; [unfold MAXSCNS in *; lia|done..].
  - destruct (cstring_ends name) as [[s ->]| ->]; done.
Qed.
End main.

(** ** An object file *)

(** A format with relocations of 8 bytes, a symbolic header of 16 and symbols of 16. *)
#[export] Instance demo_format : ObjFormat := {|
  sizeof_reloc := 8;
  reloc_of bs := mkReloc (long_at bs 0) (ushort_at bs 4) (byte_at bs 6) (byte_at bs 7 =? 1);
  sizeof_HDRR := 16;
  HDRR_of bs := mkHdrr (long_at bs 0) (long_at bs 4) (long_at bs 8) (long_at bs 12);
  sizeof_EXTR := 16;
  asym_of bs := mkSymr (long_at bs 0) (long_at bs 4) (long_at bs 8) (long_at bs 12) |}.

(** [jal 0x10000000] in the section [.text] at 0x10000000, with a relocation for the symbol
    [f], a procedure of this file. *)
Definition demo_object (strings : Z) : list Z :=
  [0x62; 1; 1; 0] ++ words_to_bytes [0; 136; 16] ++ [56; 0; 0; 0] ++ replicate 56 0 ++
  [46; 116; 101; 120; 116; 0; 0; 0] ++ words_to_bytes [0x10000000; 0x10000000; 4; 116; 120; 0] ++ [1; 0; 0; 0; 0; 0; 0; 0] ++
  words_to_bytes [0x0c000000] ++ words_to_bytes [0x10000000] ++ [0; 0; 3; 1] ++ replicate 8 0 ++
  words_to_bytes [1; 152; strings; 168] ++ words_to_bytes [0; 0x10000000; 6; 1] ++ [102; 0].

Example demo_listing : exists o, main "a.out" (Some (demo_object 2)) = Ok (o, 0) /\ written o =
  "Section: .text" +:+ TAB +:+ "4/1" +:+ NEWLINE +:+
  "10000000: 0c000000  " +:+ TAB +:+ "jal" +:+ TAB +:+ "10000000" +:+ spaces 16 +:+ QUOTE +:+ "f" +:+ QUOTE +:+ " 26" +:+ NEWLINE +:+
  "External Symbols:" +:+ NEWLINE +:+ "Value" +:+ TAB +:+ " Type" +:+ TAB +:+ TAB +:+ "Storage Class" +:+ TAB +:+ "Name" +:+ NEWLINE +:+
  "10000000 Proc" +:+ spaces 11 +:+ "Text" +:+ spaces 12 +:+ "f" +:+ NEWLINE.
Proof. eexists. split; vm_compute; reflexivity. Qed.

(** A negative size of the strings passes the test [issExtMax > MAXSSPACE], and [fread] takes it
    for a huge one: a file that goes on long enough is read past the end of [sspace]. *)
Lemma strings_overrun : load "a.out" (demo_object (2 ^ 32 - 1) ++ replicate (Z.to_nat 20000) 65) = Undef.
Proof. vm_compute. reflexivity. Qed.

(** A long name of a symbol does not fit into the buffer of [myprintf]. *)
Lemma long_symbol : print_symbol (replicate 100 97 ++ [0]) (mkOut "" 1) (mkSymr 0 0 6 1) = Undef.
Proof. vm_compute. reflexivity. Qed.
