(* ===== verification/Startup.v ===== *)
(** * threads/system.cc, threads/main.cc and threads/utility.cc: the command line

    [Initialize] and [main] go through the arguments one after the other, each in a loop of
    its own with its own options. The preprocessor symbols that select the parts of the
    loops are the fields of [build]. The debug flags of utility.cc are what [Initialize]
    leaves in [enableFlags]. Creating the global objects is the list of them in order, and
    so is deleting them in [Cleanup]. *)

From stdpp Require Import prelude list numbers strings.
From S2P Require Import Prelude.

From Stdlib Require Import Ascii.

Open Scope Z_scope.

(** ** Options of the build (Makefile) *)

Record build := mkBuild {
  THREADS : bool; USER_PROGRAM : bool; FILESYS_NEEDED : bool; FILESYS : bool; NETWORK : bool; VM : bool;
  CHANGED : bool; HW1_TIME : bool }.

(** ** Debug flags (utility.cc) *)

(** [strchr(s, c) != 0]; the final 0 belongs to the string. *)
Fixpoint strchr (s : string) (c : ascii) : bool :=
  match s with
  | EmptyString => bool_decide (c = zero)
  | String a s => bool_decide (a = c) || strchr s c
  end.

(** [enableFlags] is [NULL] before [DebugInit]. *)
Definition DebugIsEnabled (enableFlags : option string) (flag : ascii) : bool :=
  match enableFlags with
  | Some flags => strchr flags flag || strchr flags "+"%char
  | None => false
  end.

Definition DebugInit (flagList : string) : option string := Some flagList.

(** The text that [DEBUG] writes. *)
Definition DEBUG (enableFlags : option string) (flag : ascii) (text : string) : string :=
  if DebugIsEnabled enableFlags flag then text else "".

(** ** Loops over the arguments *)

(** [for (argc--, argv++; argc > 0; argc -= argCount, argv += argCount)]: the body gets the
    argument and those after it, and gives the state and [argCount], or [None] if it calls a function
    that does not return. [k] arguments are still to be passed over. *)
Fixpoint arg_loop {S} (body : S -> string -> list string -> outcome (S * option nat)) (k : nat) (st : S) (argv : list string) : outcome S :=
  match argv, k with
  | [], _ => Ok st
  | _ :: rest, Datatypes.S k => arg_loop body k st rest
  | a :: rest, O =>
      '(st, argCount) ← body st a rest;
      match argCount with
      | Some n => arg_loop body (n - 1) st rest
      | None => Ok st
      end
  end.

(** [*(argv + n)], which an assertion on [argc] has checked. *)
Definition arg (rest : list string) (n : nat) : outcome string :=
  match rest !! (n - 1)%nat with Some s => Ok s | None => Undef end.

(** ** atoi *)

Definition is_space (c : ascii) : bool := bool_decide (c = " "%char) || (9 <=? Z.of_nat (nat_of_ascii c)) && (Z.of_nat (nat_of_ascii c) <=? 13).

Fixpoint digits (acc : Z) (s : string) : Z :=
  match s with
  | EmptyString => acc
  | String c s =>
      let d := Z.of_nat (nat_of_ascii c) - 48 in
      if (0 <=? d) && (d <=? 9) then digits (acc * 10 + d) s else acc
  end.

(** The number at the start of a string, 0 if there is none; one out of range is undefined. *)
Fixpoint atoi (s : string) : outcome Z :=
  let checked (n : Z) := if bool_decide (is_s32 n) then Ok n else Undef in
  match s with
  | String c rest =>
      if is_space c then atoi rest
      else if bool_decide (c = "-"%char) then checked (- digits 0 rest)
      else if bool_decide (c = "+"%char) then checked (digits 0 rest)
      else checked (digits 0 s)
  | EmptyString => Ok 0
  end.

(** ** Initialize (system.cc) *)

(** The locals of [Initialize]; [seed] is the argument of the last call of [RandomInit], and
    [rely] the text of which [atof] takes the number, [None] for the initial 1. *)
Record flags := mkFlags {
  debugArgs : string; seed : option Z; randomYield : bool; debugUserProg : bool; format : bool; rely : option string; netname : Z }.

Definition no_flags : flags := mkFlags "" None false false false None 0.

Definition with_debug (f : flags) (s : string) : flags := mkFlags s (seed f) (randomYield f) (debugUserProg f) (format f) (rely f) (netname f).
Definition with_seed (f : flags) (n : Z) : flags := mkFlags (debugArgs f) (Some n) true (debugUserProg f) (format f) (rely f) (netname f).
Definition with_step (f : flags) : flags := mkFlags (debugArgs f) (seed f) (randomYield f) true (format f) (rely f) (netname f).
Definition with_format (f : flags) : flags := mkFlags (debugArgs f) (seed f) (randomYield f) (debugUserProg f) true (rely f) (netname f).
Definition with_rely (f : flags) (s : string) : flags := mkFlags (debugArgs f) (seed f) (randomYield f) (debugUserProg f) (format f) (Some s) (netname f).
Definition with_netname (f : flags) (n : Z) : flags := mkFlags (debugArgs f) (seed f) (randomYield f) (debugUserProg f) (format f) (rely f) n.

(** [!strcmp(a, s)]. *)
Definition same (a s : string) : bool := bool_decide (a = s).

(** The body of the loop. [argc] is the number of arguments from this one on. *)
Definition Initialize_arg (b : build) (f : flags) (a : string) (rest : list string) : outcome (flags * option nat) :=
  let argc := S (length rest) in
  '(f, argCount) ←
    (if same a "-d" then
       if (argc =? 1)%nat then Ok (with_debug f "+", 1%nat)
       else s ← arg rest 1; Ok (with_debug f s, 2%nat)
     else if same a "-rs" then
       ASSERT (1 <? argc)%nat;;
       s ← arg rest 1; n ← atoi s; Ok (with_seed f n, 2%nat)
     else Ok (f, 1%nat));
  let f := if USER_PROGRAM b && same a "-s" then with_step f else f in
  let f := if FILESYS_NEEDED b && same a "-f" then with_format f else f in
  if NETWORK b then
    if same a "-l" then
      ASSERT (1 <? argc)%nat;;
      s ← arg rest 1; Ok (with_rely f s, Some 2%nat)
    else if same a "-m" then
      ASSERT (1 <? argc)%nat;;
      s ← arg rest 1; n ← atoi s; Ok (with_netname f n, Some 2%nat)
    else Ok (f, Some argCount)
  else Ok (f, Some argCount).

(** [argv] without the name of the program. *)
Definition Initialize_flags (b : build) (argv : list string) : outcome flags := arg_loop (Initialize_arg b) 0 no_flags argv.

(** ** main (main.cc) *)

(** The calls that [main] makes. *)
Inductive command :=
| CallPrintCopyright
| CallStartProcess (file : string)
| CallConsoleTest (files : option (string * string))
| CallHalt
| CallCopy (unixFile nachosFile : string)
| CallPrint (file : string)
| CallRemove (file : string)
| CallList
| CallPrintFileSystem
| CallPerformanceTest
| CallMailTest (farAddr : Z)
| CallThreadTest (n : Z)
| CallFinish.

#[export] Instance command_eq_dec : EqDecision command.
Proof. solve_decision. Defined.

(** The body of the second loop; [l] is the calls so far. *)
Definition main_arg (b : build) (l : list command) (a : string) (rest : list string) : outcome (list command * option nat) :=
  let argc := S (length rest) in
  let l := if same a "-z" then l ++ [CallPrintCopyright] else l in
  '(l, argCount) ←
    (if USER_PROGRAM b then
       if same a "-x" then
         ASSERT (1 <? argc)%nat;;
         s ← arg rest 1; Ok (l ++ [CallStartProcess s], Some 2%nat)
       else if same a "-c" then
         if (argc =? 1)%nat then Ok (l ++ [CallConsoleTest None; CallHalt], None)
         else
           ASSERT (2 <? argc)%nat;;
           s ← arg rest 1; t ← arg rest 2; Ok (l ++ [CallConsoleTest (Some (s, t)); CallHalt], None)
       else Ok (l, Some 1%nat)
     else Ok (l, Some 1%nat));
  '(l, argCount) ←
    (if FILESYS b then
       if same a "-cp" then
         ASSERT (2 <? argc)%nat;;
         s ← arg rest 1; t ← arg rest 2; Ok (l ++ [CallCopy s t], Some 3%nat)
       else if same a "-p" then
         ASSERT (1 <? argc)%nat;;
         s ← arg rest 1; Ok (l ++ [CallPrint s], Some 2%nat)
       else if same a "-r" then
         ASSERT (1 <? argc)%nat;;
         s ← arg rest 1; Ok (l ++ [CallRemove s], Some 2%nat)
       else if same a "-l" then Ok (l ++ [CallList], argCount)
       else if same a "-D" then Ok (l ++ [CallPrintFileSystem], argCount)
       else if same a "-t" then Ok (l ++ [CallPerformanceTest], argCount)
       else Ok (l, argCount)
     else Ok (l, argCount));
  if NETWORK b && same a "-o" then
    ASSERT (1 <? argc)%nat;;
    s ← arg rest 1; n ← atoi s; Ok (l ++ [CallMailTest n], Some 2%nat)
  else Ok (l, argCount).

(** The body of the first loop, in a build with THREADS: the second character of the
    argument, and [testnum]. *)
Definition testnum_arg (testnum : Z) (a : string) (rest : list string) : outcome (Z * option nat) :=
  match a with
  | EmptyString => Undef
  | String _ (String "q"%char _) => s ← arg rest 1; n ← atoi s; Ok (n, Some 2%nat)
  | String _ _ => Ok (1, Some 1%nat)
  end.

(** The calls of [ThreadTest], in a build with THREADS. *)
Definition thread_tests (b : build) : list command :=
  if CHANGED b && HW1_TIME b then [CallThreadTest 0]
  else if CHANGED b && negb (FILESYS b) then CallThreadTest <$> seqZ 0 5
  else [].

(** The calls of [main] after [Initialize], in order, as long as they return; [Halt] and [Finish]
    do not. The first loop uses up the arguments: the second one of such a build has none. *)
Definition main_calls (b : build) (argv : list string) : outcome (list command) :=
  '(argv, l) ← (if THREADS b then _ ← arg_loop testnum_arg 0 1 argv; Ok ([], thread_tests b) else Ok (argv, []));
  l ← arg_loop (main_arg b) 0 l argv;
  Ok (if bool_decide (last l = Some CallHalt) then l else l ++ [CallFinish]).

(** ** What a command line means *)

(** An option with its arguments; [n] is the number that the text [s] stands for. *)
Inductive item :=
| IDebug (s : string)
| ISeed (s : string) (n : Z)
| IStep
| IFormat
| IRely (s : string)
| INetname (s : string) (n : Z)
| ICopyright
| IRun (s : string)
| IConsole (s t : string)
| ICopy (s t : string)
| IPrint (s : string)
| IRemove (s : string)
| IList
| IDump
| IPerformance
| IMail (s : string) (n : Z).

Definition spell (i : item) : list string :=
  match i with
  | IDebug s => ["-d"; s]
  | ISeed s _ => ["-rs"; s]
  | IStep => ["-s"]
  | IFormat => ["-f"]
  | IRely s => ["-l"; s]
  | INetname s _ => ["-m"; s]
  | ICopyright => ["-z"]
  | IRun s => ["-x"; s]
  | IConsole s t => ["-c"; s; t]
  | ICopy s t => ["-cp"; s; t]
  | IPrint s => ["-p"; s]
  | IRemove s => ["-r"; s]
  | IList => ["-l"]
  | IDump => ["-D"]
  | IPerformance => ["-t"]
  | IMail s _ => ["-o"; s]
  end%string.

Definition option_words : list string :=
  ["-d"; "-rs"; "-s"; "-f"; "-l"; "-m"; "-z"; "-x"; "-c"; "-cp"; "-p"; "-r"; "-D"; "-t"; "-o"]%string.

(** The last option, when it stands without its arguments. *)
Inductive ending := ENone | EDebug | EConsole.
Definition spell_end (e : ending) : list string := match e with ENone => [] | EDebug => ["-d"] | EConsole => ["-c"] end%string.

(** No argument looks like an option, numbers are numbers, and [-l] has one meaning: the
    reliability, with its argument, in a build with NETWORK and without FILESYS, and the
    listing in one without NETWORK. *)
Definition plain (s : string) : bool := forallb (fun w => negb (same s w)) option_words.
Definition numeral (s : string) (n : Z) : Prop := plain s = true /\ atoi s = Ok n.
Definition valid (b : build) (i : item) : Prop :=
  match i with
  | IDebug s | IRun s | IPrint s | IRemove s => plain s = true
  | ISeed s n | INetname s n | IMail s n => numeral s n
  | IRely s => plain s = true /\ NETWORK b = true /\ FILESYS b = false
  | ICopy s t | IConsole s t => plain s = true /\ plain t = true
  | IList => NETWORK b = false
  | _ => True
  end.

Definition effect (b : build) (f : flags) (i : item) : flags :=
  match i with
  | IDebug s => with_debug f s
  | ISeed _ n => with_seed f n
  | IStep => if USER_PROGRAM b then with_step f else f
  | IFormat => if FILESYS_NEEDED b then with_format f else f
  | IRely s => with_rely f s
  | INetname _ n => if NETWORK b then with_netname f n else f
  | _ => f
  end.
Definition effect_end (f : flags) (e : ending) : flags := match e with EDebug => with_debug f "+" | _ => f end.

Definition calls (b : build) (i : item) : list command :=
  match i with
  | ICopyright => [CallPrintCopyright]
  | IRun s => if USER_PROGRAM b then [CallStartProcess s] else []
  | IConsole s t => if USER_PROGRAM b then [CallConsoleTest (Some (s, t)); CallHalt] else []
  | ICopy s t => if FILESYS b then [CallCopy s t] else []
  | IPrint s => if FILESYS b then [CallPrint s] else []
  | IRemove s => if FILESYS b then [CallRemove s] else []
  | IList => if FILESYS b then [CallList] else []
  | IDump => if FILESYS b then [CallPrintFileSystem] else []
  | IPerformance => if FILESYS b then [CallPerformanceTest] else []
  | IMail _ n => if NETWORK b then [CallMailTest n] else []
  | _ => []
  end.
Definition calls_end (b : build) (e : ending) : list command :=
  match e with EConsole => if USER_PROGRAM b then [CallConsoleTest None; CallHalt] else [] | _ => [] end.

(** Nothing comes after [Halt], and without it the thread finishes. *)
Fixpoint until_halt (l : list command) : list command :=
  match l with
  | [] => [CallFinish]
  | CallHalt :: _ => [CallHalt]
  | c :: l => c :: until_halt l
  end.

(** Comparisons of option words, and of plain arguments with them. *)
Lemma plain_same s w : plain s = true -> w ∈ option_words -> same s w = false.
Proof.
  unfold plain. rewrite forallb_forall. intros Hall Hw. apply list_elem_of_In, Hall in Hw. by apply negb_true_iff.
Qed.

Ltac words :=
  repeat match goal with
  | |- context [same ?a ?s] =>
      let r := eval vm_compute in (same a s) in
      first [constr_eq r true | constr_eq r false]; change (same a s) with r
  | H : plain ?s = true |- context [same ?s ?w] => rewrite (plain_same s w H) by (apply list_elem_of_In; vm_compute; tauto)
  | |- context [arg (?x :: ?l) 1] => change (arg (x :: l) 1) with (Ok x)
  | |- context [arg (?x :: ?y :: ?l) 2] => change (arg (x :: y :: l) 2) with (Ok y)
  | |- context [(1 <? S (length (?x :: ?l)))%nat] => change (1 <? S (length (x :: l)))%nat with true
  | |- context [(2 <? S (length (?x :: ?y :: ?l)))%nat] => change (2 <? S (length (x :: y :: l)))%nat with true
  end;
  cbn [andb orb negb ASSERT mbind outcome_bind Nat.sub length Nat.eqb USER_PROGRAM FILESYS_NEEDED FILESYS NETWORK].

Lemma Initialize_plain b f s rest : plain s = true -> Initialize_arg b f s rest = Ok (f, Some 1%nat).
Proof. intros Hs. unfold Initialize_arg. words. rewrite !andb_false_r. by destruct (NETWORK b). Qed.

Lemma main_plain b l s rest : plain s = true -> main_arg b l s rest = Ok (l, Some 1%nat).
Proof. intros Hs. unfold main_arg. words. destruct (USER_PROGRAM b), (FILESYS b); words; by rewrite andb_false_r. Qed.

Lemma arg_loop_step {S} body (st st' : S) a rest n : body st a rest = Ok (st', Some n) ->
  arg_loop body 0 st (a :: rest) = arg_loop body (n - 1) st' rest.
Proof. intros E. cbn [arg_loop]. by rewrite E. Qed.

Lemma arg_loop_skip {S} body k (st : S) a rest : arg_loop body (Datatypes.S k) st (a :: rest) = arg_loop body k st rest.
Proof. done. Qed.

(** One option: its body is evaluated, and its arguments are passed over or are plain. *)
Ltac run_item body plain_lemma :=
  repeat (first [rewrite arg_loop_skip | erewrite arg_loop_step by (apply plain_lemma; assumption) |
    erewrite arg_loop_step; [|unfold body; words; repeat (match goal with E : atoi _ = _ |- _ => rewrite E end; words); reflexivity]];
    cbn [Nat.sub]).

Lemma Initialize_item b f i rest : valid b i ->
  arg_loop (Initialize_arg b) 0 f (spell i ++ rest) = arg_loop (Initialize_arg b) 0 (effect b f i) rest.
Proof.
  destruct b as [? user needed filesys network ? ? ?].
  destruct i, user, needed, filesys, network; cbn [valid spell app effect NETWORK USER_PROGRAM FILESYS_NEEDED FILESYS]; intros Hv;
    unfold numeral in *; destruct_and?; try discriminate.
  all: run_item Initialize_arg Initialize_plain; reflexivity.
Qed.

Lemma Initialize_ending b f e : arg_loop (Initialize_arg b) 0 f (spell_end e) = Ok (effect_end f e).
Proof. destruct b as [? [] [] ? [] ? ? ?], e; reflexivity. Qed.

(** [-c] ends the loop in a build with USER_PROGRAM; the other options do not. *)
Definition ends (b : build) (i : item) : bool := match i with IConsole _ _ => USER_PROGRAM b | _ => false end.

Lemma main_item b l i rest : valid b i ->
  arg_loop (main_arg b) 0 l (spell i ++ rest) =
    if ends b i then Ok (l ++ calls b i) else arg_loop (main_arg b) 0 (l ++ calls b i) rest.
Proof.
  destruct b as [? user needed filesys network ? ? ?].
  destruct i, user, filesys, network; cbn [valid spell app calls ends NETWORK USER_PROGRAM FILESYS]; intros Hv; unfold numeral in *;
    destruct_and?; try discriminate; rewrite ?app_nil_r.
  all: first [run_item main_arg main_plain; reflexivity | cbn [arg_loop]; unfold main_arg; words; reflexivity].
Qed.

Lemma main_ending b l e : arg_loop (main_arg b) 0 l (spell_end e) = Ok (l ++ calls_end b e).
Proof. destruct b as [? [] ? [] [] ? ? ?], e; cbn; by rewrite ?app_nil_r. Qed.

Lemma Initialize_items b items e : Forall (valid b) items -> forall f,
  arg_loop (Initialize_arg b) 0 f (concat (map spell items) ++ spell_end e) = Ok (effect_end (fold_left (effect b) items f) e).
Proof.
  induction 1 as [|i items Hi _ IH]; intros f; [apply Initialize_ending|]. cbn [map concat fold_left].
  by rewrite <- app_assoc, Initialize_item.
Qed.

Lemma until_halt_app l l' : CallHalt ∉ l -> until_halt (l ++ l') = l ++ until_halt l'.
Proof.
  induction l as [|c l IH]; [done|]. rewrite not_elem_of_cons. intros [Hc Hl]. simpl. rewrite IH by done. by destruct c.
Qed.

(** The result of [main_calls] for the list [r] that its loop leaves. *)
Definition finished (r : list command) : list command := if bool_decide (last r = Some CallHalt) then r else r ++ [CallFinish].

Lemma finished_calls l c : CallHalt ∉ l -> c = [] \/ (exists x, x <> CallHalt /\ c = [x]) \/ (exists x, x <> CallHalt /\ c = [x; CallHalt]) ->
  finished (l ++ c) = l ++ until_halt c.
Proof.
  intros Hl Hc. unfold finished. destruct Hc as [->|[(x & Hx & ->)|(x & Hx & ->)]].
  - rewrite app_nil_r, bool_decide_eq_false_2; [done|]. by intros ?%last_Some_elem_of.
  - rewrite last_snoc, bool_decide_eq_false_2 by congruence. rewrite <- app_assoc. by destruct x.
  - assert (last (l ++ [x; CallHalt]) = Some CallHalt) as -> by (by rewrite last_app).
    rewrite bool_decide_eq_true_2 by done. by destruct x.
Qed.

Lemma calls_halt b i : if ends b i then exists x, x <> CallHalt /\ calls b i = [x; CallHalt] else CallHalt ∉ calls b i.
Proof.
  destruct b as [? [] ? [] [] ? ? ?], i; cbn [ends calls USER_PROGRAM FILESYS NETWORK];
    first [by eexists; split; [|reflexivity] | by apply (bool_decide_unpack _)].
Qed.

Lemma main_items b items e : Forall (valid b) items -> forall l, CallHalt ∉ l ->
  exists r, arg_loop (main_arg b) 0 l (concat (map spell items) ++ spell_end e) = Ok r /\
    finished r = l ++ until_halt (concat (map (calls b) items) ++ calls_end b e).
Proof.
  induction 1 as [|i items Hi _ IH]; intros l Hl; cbn [map concat].
  - eexists. split; [apply main_ending|]. apply finished_calls; [done|].
    destruct e, (USER_PROGRAM b) eqn:E; cbn; rewrite ?E; eauto. right. right. by eexists; split; [|reflexivity].
  - rewrite <- app_assoc, main_item by done. pose proof (calls_halt b i) as Hc. destruct (ends b i).
    + destruct Hc as (x & Hx & ->). eexists. split; [done|]. rewrite finished_calls by eauto 6. by destruct x.
    + destruct (IH (l ++ calls b i)) as (r & Hr & Hf); [by rewrite not_elem_of_app|]. exists r. split; [done|].
      by rewrite Hf, <- !app_assoc, (until_halt_app (calls b i)).
Qed.

(** C35. What a command line does in a build without THREADS, when no argument of an option looks
    like an option and [-l] has one meaning in that build: for options in any order and
    number, the last of which may be [-d] or [-c] without arguments, [Initialize] sets exactly
    the flags of the options of this build (the last one counts when an option is repeated).
    As long as each returns, [main] calls exactly the test routines asked for, in order and
    each once, up to the first test of the console, after which it halts the machine, and
    without one it finishes the thread at the end; options of other builds are ignored
    together with their arguments. *)
Theorem command_line b items e :
  THREADS b = false -> Forall (valid b) items ->
  let argv := concat (map spell items) ++ spell_end e in
  Initialize_flags b argv = Ok (effect_end (fold_left (effect b) items no_flags) e) /\
  main_calls b argv = Ok (until_halt (concat (map (calls b) items) ++ calls_end b e)).
Proof.
  intros Ht Hv argv. split; [by apply Initialize_items|]. unfold main_calls. rewrite Ht. cbn [mbind outcome_bind].
  destruct (main_items b items e Hv []) as (r & Hr & Hf); [by apply not_elem_of_nil|]. unfold argv. rewrite Hr. cbn [mbind outcome_bind].
  f_equal. exact Hf.
Qed.

(** The builds of userprog/Makefile and network/Makefile, and
    [nachos -f -cp halt h -d t -rs 7 -x h -c in out -x h -d]. *)
Definition userprog_build : build := mkBuild false true true true false false true false.
Definition network_build : build := mkBuild false true true true true true true false.

Lemma command_line_witness :
  let argv := ["-f"; "-cp"; "halt"; "h"; "-d"; "t"; "-rs"; "7"; "-x"; "h"; "-c"; "in"; "out"; "-x"; "h"; "-d"]%string in
  Initialize_flags userprog_build argv = Ok (mkFlags "+" (Some 7) true false true None 0) /\
  main_calls userprog_build argv =
    Ok [CallCopy "halt" "h"; CallStartProcess "h"; CallConsoleTest (Some ("in", "out")%string); CallHalt].
Proof.
  apply (command_line userprog_build
    [IFormat; ICopy "halt" "h"; IDebug "t"; ISeed "7" 7; IRun "h"; IConsole "in" "out"; IRun "h"] EDebug); [reflexivity|].
  repeat constructor; vm_compute; reflexivity.
Defined.

(** In a build with NETWORK and FILESYS, [-l] is the reliability of the network for [Initialize] and
    the listing for [main]: [nachos -l] fails the assertion, [nachos -l -f] does not
    format the disk, and [nachos -l 0.5] lists the directory. The usage message in main.cc
    calls the option of the network [-n]. *)
Lemma list_option_clash :
  Initialize_flags network_build ["-l"]%string = AssertFail /\
  (f ← Initialize_flags network_build ["-l"; "-f"]%string; Ok (format f)) = Ok false /\
  main_calls network_build ["-l"; "0.5"]%string = Ok [CallList; CallFinish] /\
  (f ← Initialize_flags network_build ["-n"; "0.5"]%string; Ok (rely f)) = Ok None.
Proof. vm_compute. auto. Qed.

(** A build with THREADS carries out none of the commands: its loop for [testnum] uses up the
    arguments. It calls [ThreadTest], with 0 to 4 in the build of threads/Makefile. *)
Lemma threads_no_commands b argv l : THREADS b = true -> main_calls b argv = Ok l -> l = thread_tests b ++ [CallFinish].
Proof.
  unfold main_calls. intros -> Hl. apply bind_ok in Hl as ([rest l0] & H1 & Hl). apply bind_ok in H1 as (n & _ & [= <- <-]).
  cbn [mbind outcome_bind arg_loop] in Hl. injection Hl as <-. rewrite bool_decide_eq_false_2; [done|].
  unfold thread_tests. by destruct (_ && _), (CHANGED b && negb (FILESYS b)).
Qed.

Definition threads_build : build := mkBuild true false false false false false true false.

Lemma threads_calls : main_calls threads_build ["-q"; "2"; "-z"]%string =
  Ok [CallThreadTest 0; CallThreadTest 1; CallThreadTest 2; CallThreadTest 3; CallThreadTest 4; CallFinish].
Proof. vm_compute. reflexivity. Qed.

(** Before [DebugInit], no message is printed; after [nachos -d +] all are. *)
Lemma debug_all flag text : DEBUG (DebugInit "+") flag text = text /\ DEBUG None flag text = ""%string.
Proof. unfold DEBUG, DebugIsEnabled, DebugInit. cbn [strchr]. by rewrite orb_true_r. Qed.

(** ** The global objects *)

Inductive global :=
| g_stats | g_interrupt | g_scheduler | g_timer | g_currentThread | g_machine | g_memMgr | g_procMgr | g_diskBuffer
| g_synchDisk | g_fileSystem | g_postOffice | g_vmMgr.

#[export] Instance global_eq_dec : EqDecision global.
Proof. solve_decision. Defined.

(** The objects that the second half of [Initialize] creates, in order; the timer only
    with [-rs]. *)
Definition Initialize_objects (b : build) (randomYield : bool) : list global :=
  [g_stats; g_interrupt; g_scheduler] ++
  (if randomYield then [g_timer] else []) ++
  [g_currentThread] ++
  (if USER_PROGRAM b then [g_machine; g_memMgr; g_procMgr; g_diskBuffer] else []) ++
  (if FILESYS b then [g_synchDisk] else []) ++
  (if FILESYS_NEEDED b then [g_fileSystem] else []) ++
  (if NETWORK b then [g_postOffice] else []) ++
  (if VM b then [g_vmMgr] else []).

(** The objects that [Cleanup] deletes, in order. *)
Definition Cleanup_objects (b : build) : list global :=
  (if NETWORK b then [g_postOffice] else []) ++
  (if USER_PROGRAM b then [g_machine; g_memMgr; g_procMgr] else []) ++
  (if FILESYS_NEEDED b then [g_fileSystem] else []) ++
  (if FILESYS b then [g_synchDisk] else []) ++
  (if VM b then [g_vmMgr] else []) ++
  [g_timer; g_scheduler; g_interrupt].

(** [Initialize] creates every object once. [Cleanup] deletes each of them once (the timer of a
    run without [-rs] is a null pointer) but the statistics, the current thread and the
    buffer of the disk. *)
Lemma objects_deleted b randomYield g :
  NoDup (Initialize_objects b randomYield) /\ NoDup (Cleanup_objects b) /\
  (g ∈ Cleanup_objects b -> g ∈ Initialize_objects b randomYield \/ g = g_timer /\ randomYield = false) /\
  (g ∈ Initialize_objects b randomYield -> ~ (g ∈ Cleanup_objects b) -> g = g_stats \/ g = g_currentThread \/ g = g_diskBuffer).
Proof.
  destruct b as [? [] [] [] [] [] ? ?], randomYield; (split; [apply (bool_decide_unpack _); vm_compute; exact I|]);
    (split; [apply (bool_decide_unpack _); vm_compute; exact I|]); unfold Initialize_objects, Cleanup_objects; simpl;
    rewrite ?elem_of_cons, ?elem_of_nil; tauto.
Qed.

(** With VM the file system is gone when [vmMgr] is deleted, whose swap manager removes its
    file through it. *)
Lemma vm_after_filesystem b : VM b = true -> FILESYS_NEEDED b = true ->
  exists l1 l2 l3, Cleanup_objects b = l1 ++ g_fileSystem :: l2 ++ g_vmMgr :: l3.
Proof.
  unfold Cleanup_objects. intros -> ->. rewrite app_assoc. eexists _, (if FILESYS b then [g_synchDisk] else []), _. reflexivity.
Qed.
