(* ===== verification/SysDep.v ===== *)
(** * machine/sysdep.cc, and the stubs of filesys/filesys.h and filesys/openfile.h

    The interface to the UNIX host and the file system that FILESYS_STUB builds on it. The
    system calls are a parameter ([Unix]); what the stubs rely on is their documented
    behaviour on regular files ([UnixFiles]), in terms of an abstract state with names,
    inodes and descriptors. [posix] itself, with the calls written out, is an instance. *)

From stdpp Require Import prelude gmap list numbers strings.
From S2P Require Import Prelude Params BitMap Mips Machine Replacement Pager.

Open Scope Z_scope.

Create HintDb unix.

(** ** The host *)

(** A call returns its result and the next state of the host; [read] and [recvfrom] also
    the bytes they store. The flag of [sys_open] is O_CREAT|O_TRUNC. *)
Class Unix (U : Type) := {
  sys_open : U -> string -> bool -> Z * U;
  sys_read : U -> Z -> Z -> Z * list Z * U;
  sys_write : U -> Z -> list Z -> Z * U;
  sys_lseek : U -> Z -> Z -> Z -> Z * U;
  sys_close : U -> Z -> Z * U;
  sys_unlink : U -> string -> Z * U;
  sys_select : U -> Z -> Z -> Z * U;
  sys_socket : U -> Z * U;
  sys_bind : U -> Z -> string -> Z * U;
  sys_recvfrom : U -> Z -> Z -> Z * list Z * U;
  sys_sendto : U -> Z -> list Z -> string -> Z * U }.

Definition SEEK_SET : Z := 0.
Definition SEEK_CUR : Z := 1.
Definition SEEK_END : Z := 2.

(** ** sysdep.cc *)

Section sysdep.
Context {U : Type} `{Unix U}.

Definition OpenForWrite (u : U) (name : string) : outcome (Z * U) :=
  let '(fd, u) := sys_open u name true in
  ASSERT (0 <=? fd);; Ok (fd, u).

Definition OpenForReadWrite (u : U) (name : string) (crashOnError : bool) : outcome (Z * U) :=
  let '(fd, u) := sys_open u name false in
  ASSERT (negb crashOnError || (0 <=? fd));; Ok (fd, u).

(** [Read]. *)
Definition ReadAll (u : U) (fd nBytes : Z) : outcome (list Z * U) :=
  let '(retVal, data, u) := sys_read u fd nBytes in
  ASSERT (retVal =? nBytes);; Ok (data, u).

Definition ReadPartial (u : U) (fd nBytes : Z) : Z * list Z * U := sys_read u fd nBytes.

(** [nBytes] is the length of the buffer. *)
Definition WriteFile (u : U) (fd : Z) (buffer : list Z) : outcome U :=
  let '(retVal, u) := sys_write u fd buffer in
  ASSERT (retVal =? Z.of_nat (length buffer));; Ok u.

Definition Lseek (u : U) (fd offset whence : Z) : outcome U :=
  let '(retVal, u) := sys_lseek u fd offset whence in
  ASSERT (0 <=? retVal);; Ok u.

Definition Tell (u : U) (fd : Z) : Z * U := sys_lseek u fd 0 SEEK_CUR.

(** [Close]. *)
Definition CloseFile (u : U) (fd : Z) : outcome U :=
  let '(retVal, u) := sys_close u fd in
  ASSERT (0 <=? retVal);; Ok u.

(** The result is a [bool]: true when the call fails. *)
Definition Unlink (u : U) (name : string) : bool * U :=
  let '(retVal, u) := sys_unlink u name in (negb (retVal =? 0), u).

(** [1 << fd] is undefined for a descriptor of 32 or more; [idle] is whether the machine is in idle mode. *)
Definition PollFile (u : U) (fd : Z) (idle : bool) : outcome (bool * U) :=
  if (fd <? 0) || (32 <=? fd) then Undef
  else
    let '(retVal, u) := sys_select u (s32 (Z.shiftl 1 fd)) (if idle then 20000 else 0) in
    ASSERT ((retVal =? 0) || (retVal =? 1));;
    Ok (negb (retVal =? 0), u).

Definition OpenSocket (u : U) : outcome (Z * U) :=
  let '(sockID, u) := sys_socket u in
  ASSERT (0 <=? sockID);; Ok (sockID, u).

Definition CloseSocket (u : U) (sockID : Z) : U := (sys_close u sockID).2.

Definition AssignNameToSocket (u : U) (socketName : string) (sockID : Z) : outcome U :=
  let '(_, u) := sys_unlink u socketName in
  let '(retVal, u) := sys_bind u sockID socketName in
  ASSERT (0 <=? retVal);; Ok u.

Definition DeAssignNameToSocket (u : U) (socketName : string) : U := (sys_unlink u socketName).2.

Definition PollSocket (u : U) (sockID : Z) (idle : bool) : outcome (bool * U) := PollFile u sockID idle.

Definition ReadFromSocket (u : U) (sockID packetSize : Z) : outcome (list Z * U) :=
  let '(retVal, data, u) := sys_recvfrom u sockID packetSize in
  ASSERT (retVal =? packetSize);; Ok (data, u).

Definition SendToSocket (u : U) (sockID : Z) (buffer : list Z) (toName : string) : outcome U :=
  let '(retVal, u) := sys_sendto u sockID buffer toName in
  ASSERT (retVal =? Z.of_nat (length buffer));; Ok u.

(** [AllocBoundedArray]: [base] is what [new char[pgSize * 2 + size]] returns; and the pointer
    that [DeallocBoundedArray] deletes. *)
Definition AllocBoundedArray (pgSize base : Z) : Z := base + pgSize.
Definition DeallocBoundedArray (pgSize ptr : Z) : Z := ptr - pgSize.

(** ** OpenFile of the stub (openfile.h) *)

Record StubFile := mkStub { file : Z; currentOffset : Z }.

Definition StubFile_new (f : Z) : StubFile := mkStub f 0.
Definition StubFile_delete (u : U) (o : StubFile) : outcome U := CloseFile u (file o).

(** The number of bytes that [read] reports and the bytes. *)
Definition stub_ReadAt (u : U) (o : StubFile) (numBytes position : Z) : outcome (Z * list Z * U) :=
  u ← Lseek u (file o) position SEEK_SET;
  Ok (ReadPartial u (file o) numBytes).

Definition stub_WriteAt (u : U) (o : StubFile) (from : list Z) (position : Z) : outcome (Z * U) :=
  u ← Lseek u (file o) position SEEK_SET;
  u ← WriteFile u (file o) from;
  Ok (Z.of_nat (length from), u).

Definition stub_Read (u : U) (o : StubFile) (numBytes : Z) : outcome (Z * list Z * (U * StubFile)) :=
  '(numRead, data, u) ← stub_ReadAt u o numBytes (currentOffset o);
  Ok (numRead, data, (u, mkStub (file o) (s32 (currentOffset o + numRead)))).

Definition stub_Write (u : U) (o : StubFile) (from : list Z) : outcome (Z * (U * StubFile)) :=
  '(numWritten, u) ← stub_WriteAt u o from (currentOffset o);
  Ok (numWritten, (u, mkStub (file o) (s32 (currentOffset o + numWritten)))).

Definition stub_Length (u : U) (o : StubFile) : outcome (Z * U) :=
  u ← Lseek u (file o) 0 SEEK_END;
  Ok (Tell u (file o)).

(** ** FileSystem of the stub (filesys.h) *)

Definition stub_Create (u : U) (name : string) (initialSize : Z) : outcome (bool * U) :=
  '(fileDescriptor, u) ← OpenForWrite u name;
  if fileDescriptor =? -1 then Ok (false, u)
  else u ← CloseFile u fileDescriptor; Ok (true, u).

Definition stub_Open (u : U) (name : string) : outcome (option StubFile * U) :=
  '(fileDescriptor, u) ← OpenForReadWrite u name false;
  if fileDescriptor =? -1 then Ok (None, u) else Ok (Some (StubFile_new fileDescriptor), u).

Definition stub_Remove (u : U) (name : string) : bool * U :=
  let '(failed, u) := Unlink u name in (negb failed, u).
End sysdep.

(** ** Regular files of UNIX *)

(** Names of inodes, contents of inodes, and the inode and the offset of a descriptor. *)
Record posix := mkPosix { names : gmap string positive; inodes : gmap positive (list Z); fds : gmap Z (positive * Z) }.

Definition set_offset (p : posix) (fd : Z) (i : positive) (off : Z) : posix := mkPosix (names p) (inodes p) (<[fd := (i, off)]> (fds p)).
Definition set_contents (p : posix) (i : positive) (f : list Z) : posix := mkPosix (names p) (<[i := f]> (inodes p)) (fds p).
Definition add_name (p : posix) (s : string) (i : positive) : posix := mkPosix (<[s := i]> (names p)) (inodes p) (fds p).
Definition drop_name (p : posix) (s : string) : posix := mkPosix (delete s (names p)) (inodes p) (fds p).
Definition drop_fd (p : posix) (fd : Z) : posix := mkPosix (names p) (inodes p) (delete fd (fds p)).

(** The contents and the offset behind a descriptor. *)
Definition at_fd (p : posix) (fd : Z) (i : positive) (f : list Z) (off : Z) : Prop :=
  fds p !! fd = Some (i, off) /\ inodes p !! i = Some f.

(** Bytes written at an offset; a gap before it reads as zeros. *)
Definition written_at (f : list Z) (off : Z) (data : list Z) : list Z :=
  let pos := Z.to_nat off in take pos f ++ replicate (pos - length f) 0 ++ data ++ drop (pos + length data) f.

(** The documented behaviour of the calls on regular files, as long as files stay below
    [file_limit] bytes and fewer than [fd_limit] descriptors are open. *)
Class UnixFiles (U : Type) `{Unix U} := {
  view : U -> posix;
  file_limit : Z;
  fd_limit : nat;
  limit_range : file_limit < two31;
  law_seek_set u fd i f off n : at_fd (view u) fd i f off -> 0 <= n <= file_limit ->
    exists u', sys_lseek u fd n SEEK_SET = (n, u') /\ view u' = set_offset (view u) fd i n;
  law_seek_negative u fd n : n < 0 -> (sys_lseek u fd n SEEK_SET).1 < 0;
  law_seek_end u fd i f off : at_fd (view u) fd i f off ->
    exists u', sys_lseek u fd 0 SEEK_END = (Z.of_nat (length f), u') /\ view u' = set_offset (view u) fd i (Z.of_nat (length f));
  law_seek_cur u fd i f off : at_fd (view u) fd i f off -> 0 <= off ->
    exists u', sys_lseek u fd 0 SEEK_CUR = (off, u') /\ view u' = view u;
  law_read u fd i f off n : at_fd (view u) fd i f off -> 0 <= off -> 0 <= n ->
    let data := take (Z.to_nat n) (drop (Z.to_nat off) f) in
    exists u', sys_read u fd n = (Z.of_nat (length data), data, u') /\
      view u' = set_offset (view u) fd i (off + Z.of_nat (length data));
  law_write u fd i f off data : at_fd (view u) fd i f off -> data <> [] -> 0 <= off -> off + Z.of_nat (length data) <= file_limit ->
    exists u', sys_write u fd data = (Z.of_nat (length data), u') /\
      view u' = set_contents (set_offset (view u) fd i (off + Z.of_nat (length data))) i (written_at f off data);
  law_open u s i : names (view u) !! s = Some i -> (size (fds (view u)) < fd_limit)%nat ->
    exists fd u', sys_open u s false = (fd, u') /\ 0 <= fd /\ fds (view u) !! fd = None /\ view u' = set_offset (view u) fd i 0;
  law_open_missing u s : names (view u) !! s = None -> exists u', sys_open u s false = (-1, u') /\ view u' = view u;
  law_truncate u s i : names (view u) !! s = Some i -> (size (fds (view u)) < fd_limit)%nat ->
    exists fd u', sys_open u s true = (fd, u') /\ 0 <= fd /\ fds (view u) !! fd = None /\
      view u' = set_contents (set_offset (view u) fd i 0) i [];
  law_create u s : names (view u) !! s = None -> (size (fds (view u)) < fd_limit)%nat ->
    exists fd i u', sys_open u s true = (fd, u') /\ 0 <= fd /\ fds (view u) !! fd = None /\ inodes (view u) !! i = None /\
      view u' = add_name (set_contents (set_offset (view u) fd i 0) i []) s i;
  law_close u fd x : fds (view u) !! fd = Some x -> exists u', sys_close u fd = (0, u') /\ view u' = drop_fd (view u) fd;
  law_unlink u s i : names (view u) !! s = Some i -> exists u', sys_unlink u s = (0, u') /\ view u' = drop_name (view u) s;
  law_unlink_missing u s : names (view u) !! s = None -> exists u', sys_unlink u s = (-1, u') /\ view u' = view u }.

(** ** The stub as an array of bytes *)

Section stub.
Context {U : Type} `{UnixFiles U}.

Lemma at_fd_offset p fd i f off n : at_fd p fd i f off -> at_fd (set_offset p fd i n) fd i f n.
Proof. intros [Hfd Hi]. split; [apply lookup_insert_eq|done]. Qed.

Lemma at_fd_contents p fd i f off g : at_fd p fd i f off -> at_fd (set_contents p i g) fd i g off.
Proof. intros [Hfd Hi]. split; [done|apply lookup_insert_eq]. Qed.

(** Everything but the contents of inode [i] and the offset of [fd] is the same. *)
Definition same_but (i : positive) (fd : Z) (p q : posix) : Prop :=
  names q = names p /\ (forall j, j <> i -> inodes q !! j = inodes p !! j) /\ (forall d, d <> fd -> fds q !! d = fds p !! d).

Lemma same_but_refl i fd p : same_but i fd p p.
Proof. done. Qed.

Lemma same_but_trans i fd p q r : same_but i fd p q -> same_but i fd q r -> same_but i fd p r.
Proof. intros (N1 & I1 & F1) (N2 & I2 & F2). split_and!; [congruence|intros; rewrite I2, I1..|intros; rewrite F2, F1]; done. Qed.

Lemma same_but_offset i fd p n : same_but i fd p (set_offset p fd i n).
Proof. split_and!; [done|done|]. intros d Hd. simpl. by apply lookup_insert_ne. Qed.

Lemma same_but_contents i fd p f : same_but i fd p (set_contents p i f).
Proof. split_and!; [done| |done]. intros j Hj. simpl. by apply lookup_insert_ne. Qed.

#[local] Hint Resolve same_but_refl same_but_offset same_but_contents same_but_trans : unix.

Lemma stub_ReadAt_ok u o i f off n position : at_fd (view u) (file o) i f off -> 0 <= n -> 0 <= position <= file_limit ->
  let data := take (Z.to_nat n) (drop (Z.to_nat position) f) in
  exists u', stub_ReadAt u o n position = Ok (Z.of_nat (length data), data, u') /\
    at_fd (view u') (file o) i f (position + Z.of_nat (length data)) /\ same_but i (file o) (view u) (view u').
Proof.
  intros Hat Hn Hp data. unfold stub_ReadAt, Lseek, ReadPartial.
  destruct (law_seek_set u (file o) i f off position Hat Hp) as (u1 & -> & V1). rewrite (proj2 (Z.leb_le 0 position)) by lia.
  cbn [ASSERT mbind outcome_bind]. apply (at_fd_offset _ _ _ _ _ position) in Hat. rewrite <- V1 in Hat.
  destruct (law_read u1 (file o) i f position n Hat ltac:(lia) Hn) as (u2 & E & V2). exists u2. rewrite E. split; [done|].
  rewrite V2. split; [by eapply at_fd_offset|]. rewrite V1. eauto with unix.
Qed.

Lemma stub_WriteAt_ok u o i f off data position : at_fd (view u) (file o) i f off -> data <> [] ->
  0 <= position -> position + Z.of_nat (length data) <= file_limit ->
  exists u', stub_WriteAt u o data position = Ok (Z.of_nat (length data), u') /\
    at_fd (view u') (file o) i (written_at f position data) (position + Z.of_nat (length data)) /\
    same_but i (file o) (view u) (view u').
Proof.
  intros Hat Hd Hp Hl. unfold stub_WriteAt, Lseek, WriteFile.
  destruct (law_seek_set u (file o) i f off position Hat ltac:(lia)) as (u1 & -> & V1). rewrite (proj2 (Z.leb_le 0 position)) by lia.
  cbn [ASSERT mbind outcome_bind]. apply (at_fd_offset _ _ _ _ _ position) in Hat. rewrite <- V1 in Hat.
  destruct (law_write u1 (file o) i f position data Hat Hd Hp Hl) as (u2 & -> & V2). rewrite Z.eqb_refl.
  cbn [ASSERT mbind outcome_bind]. exists u2. split; [done|]. rewrite V2.
  split; [by eapply at_fd_contents, at_fd_offset|]. rewrite V1. eauto with unix.
Qed.

Lemma stub_Length_ok u o i f off : at_fd (view u) (file o) i f off ->
  exists u', stub_Length u o = Ok (Z.of_nat (length f), u') /\ at_fd (view u') (file o) i f (Z.of_nat (length f)) /\
    same_but i (file o) (view u) (view u').
Proof.
  intros Hat. unfold stub_Length, Lseek, Tell. destruct (law_seek_end u (file o) i f off Hat) as (u1 & -> & V1).
  rewrite (proj2 (Z.leb_le 0 _)) by lia. cbn [ASSERT mbind outcome_bind].
  apply (at_fd_offset _ _ _ _ _ (Z.of_nat (length f))) in Hat. rewrite <- V1 in Hat.
  destruct (law_seek_cur u1 (file o) i f _ Hat ltac:(lia)) as (u2 & -> & V2). exists u2. split; [done|]. rewrite V2. split; [done|]. rewrite V1. eauto with unix.
Qed.

(** A negative position fails the assertion. *)
Lemma stub_negative u o n position data : position < 0 ->
  stub_ReadAt u o n position = AssertFail /\ stub_WriteAt u o data position = AssertFail.
Proof.
  intros Hp. unfold stub_ReadAt, stub_WriteAt, Lseek. pose proof (law_seek_negative u (file o) position Hp) as Hneg.
  destruct (sys_lseek u (file o) position SEEK_SET) as [r u1]. simpl in Hneg. by rewrite (proj2 (Z.leb_gt 0 r)) by lia.
Qed.

(** The operations on an open file, and their results. *)
Inductive fop := FReadAt (n position : Z) | FWriteAt (data : list Z) (position : Z) | FRead (n : Z) | FWrite (data : list Z) | FLength.
Inductive fres := RBytes (n : Z) (l : list Z) | RCount (n : Z).

Definition run_op (u : U) (o : StubFile) (op : fop) : outcome (fres * (U * StubFile)) :=
  match op with
  | FReadAt n position => '(k, l, u) ← stub_ReadAt u o n position; Ok (RBytes k l, (u, o))
  | FWriteAt data position => '(k, u) ← stub_WriteAt u o data position; Ok (RCount k, (u, o))
  | FRead n => '(k, l, s) ← stub_Read u o n; Ok (RBytes k l, s)
  | FWrite data => '(k, s) ← stub_Write u o data; Ok (RCount k, s)
  | FLength => '(k, u) ← stub_Length u o; Ok (RCount k, (u, o))
  end.

Fixpoint run_ops (u : U) (o : StubFile) (ops : list fop) : outcome (list fres * (U * StubFile)) :=
  match ops with
  | [] => Ok ([], (u, o))
  | op :: ops => '(r, (u, o)) ← run_op u o op; '(rs, s) ← run_ops u o ops; Ok (r :: rs, s)
  end.

(** The specification: an array of bytes and a position. *)
Definition slice (f : list Z) (position n : Z) : list Z := take (Z.to_nat n) (drop (Z.to_nat position) f).
Definition spec_op (s : list Z * Z) (op : fop) : fres * (list Z * Z) :=
  let '(f, off) := s in
  match op with
  | FReadAt n position => let l := slice f position n in (RBytes (Z.of_nat (length l)) l, (f, off))
  | FWriteAt data position => (RCount (Z.of_nat (length data)), (written_at f position data, off))
  | FRead n => let l := slice f off n in (RBytes (Z.of_nat (length l)) l, (f, off + Z.of_nat (length l)))
  | FWrite data => (RCount (Z.of_nat (length data)), (written_at f off data, off + Z.of_nat (length data)))
  | FLength => (RCount (Z.of_nat (length f)), (f, off))
  end.

Fixpoint spec_ops (s : list Z * Z) (ops : list fop) : list fres * (list Z * Z) :=
  match ops with
  | [] => ([], s)
  | op :: ops => let '(r, s) := spec_op s op in let '(rs, s) := spec_ops s ops in (r :: rs, s)
  end.

(** Sizes and positions are not negative and files stay below the limit. *)
Definition legal (s : list Z * Z) (op : fop) : Prop :=
  match op with
  | FReadAt n position => 0 <= n /\ 0 <= position <= file_limit
  | FWriteAt data position => data <> [] /\ 0 <= position /\ position + Z.of_nat (length data) <= file_limit
  | FRead n => 0 <= n
  | FWrite data => data <> [] /\ s.2 + Z.of_nat (length data) <= file_limit
  | FLength => True
  end.

Fixpoint legal_ops (s : list Z * Z) (ops : list fop) : Prop :=
  match ops with [] => True | op :: ops => legal s op /\ legal_ops (spec_op s op).2 ops end.

(** The open file [o] on the host stands for the array [f] at position [off]. *)
Record stands_for (u : U) (o : StubFile) (i : positive) (s : list Z * Z) : Prop := {
  st_fd : exists k, at_fd (view u) (file o) i s.1 k;
  st_offset : currentOffset o = s.2;
  st_range : 0 <= s.2 <= file_limit;
  st_length : Z.of_nat (length s.1) <= file_limit }.

Lemma slice_length f position n : 0 <= position -> Z.of_nat (length (slice f position n)) <= Z.max 0 (Z.of_nat (length f) - position).
Proof. intros Hp. unfold slice. rewrite length_take, length_drop. lia. Qed.

Lemma written_at_length f position data : 0 <= position ->
  Z.of_nat (length (written_at f position data)) = Z.max (Z.of_nat (length f)) (position + Z.of_nat (length data)).
Proof. intros Hp. unfold written_at. rewrite !length_app, length_take, length_replicate, length_drop. lia. Qed.

Lemma run_op_ok u o i s op : stands_for u o i s -> legal s op ->
  exists u' o', run_op u o op = Ok ((spec_op s op).1, (u', o')) /\ stands_for u' o' i (spec_op s op).2 /\
    file o' = file o /\ same_but i (file o) (view u) (view u').
Proof.
  destruct s as [f off]. intros [[k Hat] Hoff Hr Hl] Hlegal. cbn [fst snd] in *. pose proof limit_range as Hlim.
  destruct op as [n position|data position|n|data|]; cbn [legal run_op spec_op fst snd] in *; unfold stub_Read, stub_Write; rewrite ?Hoff.
  - destruct (stub_ReadAt_ok u o i f k n position Hat) as (u' & -> & Hat' & Hs); [lia|lia|].
    eexists _, _. split; [done|]. split; [|done]. by split; [eexists| | |].
  - destruct Hlegal as (Hd & Hp & Hpl). destruct (stub_WriteAt_ok u o i f k data position Hat) as (u' & -> & Hat' & Hs); [done..|].
    eexists _, _. split; [done|]. split; [|done]. split; [by eexists|done|done|]. cbn [fst]. rewrite written_at_length; lia.
  - destruct (stub_ReadAt_ok u o i f k n off Hat) as (u' & -> & Hat' & Hs); [lia|lia|]. fold (slice f off n) in *. cbn [mbind outcome_bind].
    pose proof (slice_length f off n ltac:(lia)). rewrite s32_small by (unfold is_s32, two31 in *; lia).
    eexists _, _. split; [done|]. split; [|done]. split; cbn [fst snd file currentOffset]; [by eexists|done|lia|done].
  - destruct Hlegal as (Hd & Hpl). destruct (stub_WriteAt_ok u o i f k data off Hat) as (u' & -> & Hat' & Hs); [done|lia|done|].
    cbn [mbind outcome_bind]. rewrite s32_small by (unfold is_s32, two31 in *; lia). eexists _, _. split; [done|]. split; [|done].
    split; cbn [fst snd file currentOffset]; [by eexists|done|lia|]. rewrite written_at_length; lia.
  - destruct (stub_Length_ok u o i f k Hat) as (u' & -> & Hat' & Hs). eexists _, _. split; [done|]. split; [|done]. by split; [eexists| | |].
Qed.

(** C33. The open file of the stub is an array of bytes with a position: any sequence of [ReadAt],
    [WriteAt], [Read], [Write] and [Length] within the limits of the host returns what the
    array returns and leaves it as the array is, and every other file, name and descriptor of
    the host stays as it was. *)
Theorem stub_file_refines ops : forall u o i s, stands_for u o i s -> legal_ops s ops ->
  exists u' o', run_ops u o ops = Ok ((spec_ops s ops).1, (u', o')) /\ stands_for u' o' i (spec_ops s ops).2 /\
    same_but i (file o) (view u) (view u').
Proof.
  induction ops as [|op ops IH]; intros u o i s Hst Hlegal; cbn [run_ops spec_ops]; [by eexists _, _|].
  destruct Hlegal as [H1 H2]. destruct (run_op_ok u o i s op Hst H1) as (u1 & o1 & -> & Hst1 & Hf & Hs1). cbn [mbind outcome_bind].
  destruct (IH u1 o1 i _ Hst1 H2) as (u2 & o2 & -> & Hst2 & Hs2). cbn [mbind outcome_bind].
  destruct (spec_op s op) as [r s1]. cbn [fst snd] in *. destruct (spec_ops s1 ops) as [rs s2]. cbn [fst snd] in *.
  eexists _, _. split; [done|]. split; [done|]. rewrite Hf in Hs2. eauto with unix.
Qed.

(** ** Files by name *)

Lemma at_fd_fresh p fd i f : at_fd (set_contents (set_offset p fd i 0) i f) fd i f 0.
Proof. split; simpl; apply lookup_insert_eq. Qed.

(** [Create], new or not: the name has an empty file, the descriptors are as before. *)
Lemma stub_Create_ok u name n : (size (fds (view u)) < fd_limit)%nat ->
  exists u' i, stub_Create u name n = Ok (true, u') /\ names (view u') = <[name := i]> (names (view u)) /\
    inodes (view u') = <[i := []]> (inodes (view u)) /\ fds (view u') = fds (view u).
Proof.
  intros Hfd. unfold stub_Create, OpenForWrite, CloseFile.
  assert (exists fd i u1, sys_open u name true = (fd, u1) /\ 0 <= fd /\ fds (view u) !! fd = None /\
    names (view u1) = <[name := i]> (names (view u)) /\ inodes (view u1) = <[i := []]> (inodes (view u)) /\
    fds (view u1) = <[fd := (i, 0)]> (fds (view u))) as (fd & i & u1 & -> & Hpos & Hnone & V1 & V2 & V3).
  { destruct (names (view u) !! name) as [i|] eqn:Hn.
    - destruct (law_truncate u name i Hn Hfd) as (fd & u1 & E & ? & ? & V). exists fd, i, u1. rewrite V. split_and!; try done. simpl. by rewrite insert_id.
    - destruct (law_create u name Hn Hfd) as (fd & i & u1 & E & ? & ? & ? & V). exists fd, i, u1. by rewrite V. }
  rewrite (proj2 (Z.leb_le 0 fd)) by done. cbn [ASSERT mbind outcome_bind]. destruct (Z.eqb_spec fd (-1)); [lia|].
  destruct (law_close u1 fd (i, 0)) as (u2 & -> & V4); [rewrite V3; apply lookup_insert_eq|]. cbn.
  exists u2, i. rewrite V4. simpl. split_and!; [done..|]. rewrite V3. by apply delete_insert_id.
Qed.

Lemma stub_Open_ok u name i f : names (view u) !! name = Some i -> inodes (view u) !! i = Some f -> (size (fds (view u)) < fd_limit)%nat ->
  exists u' o, stub_Open u name = Ok (Some o, u') /\ currentOffset o = 0 /\ at_fd (view u') (file o) i f 0 /\
    fds (view u) !! file o = None /\ view u' = set_offset (view u) (file o) i 0.
Proof.
  intros Hn Hi Hfd. unfold stub_Open, OpenForReadWrite. destruct (law_open u name i Hn Hfd) as (fd & u1 & -> & Hpos & Hnone & V).
  cbn [negb orb ASSERT mbind outcome_bind]. destruct (Z.eqb_spec fd (-1)); [lia|]. exists u1, (StubFile_new fd).
  split_and!; [done..| |done|done]. rewrite V. split; [apply lookup_insert_eq|done].
Qed.

Lemma stub_delete_ok u o x : fds (view u) !! file o = Some x ->
  exists u', StubFile_delete u o = Ok u' /\ view u' = drop_fd (view u) (file o).
Proof. intros Hx. unfold StubFile_delete, CloseFile. destruct (law_close u (file o) x Hx) as (u' & -> & V). by exists u'. Qed.

(** Opened, used and closed: the descriptors are as before. *)
Lemma closed_again p fd i r : fds p !! fd = None -> same_but i fd (set_offset p fd i 0) r -> fds (drop_fd r fd) = fds p.
Proof.
  intros Hnone (_ & _ & F). apply map_eq. intros d. simpl. destruct (decide (d = fd)) as [->|Hd]; [by rewrite lookup_delete_eq|].
  rewrite lookup_delete_ne by done. rewrite F by done. simpl. by apply lookup_insert_ne.
Qed.

(** A program's use of the stub: create a file, open it, write it and close it; open it again
    and read it; remove it and try to open it. *)
Definition save_and_load (u : U) (name : string) (data : list Z) : outcome (Z * list Z * bool * option StubFile * U) :=
  '(_, u) ← stub_Create u name 0;
  '(o, u) ← stub_Open u name;
  match o with
  | None => Undef
  | Some o =>
      '(_, (u, o)) ← stub_Write u o data;
      u ← StubFile_delete u o;
      '(o, u) ← stub_Open u name;
      match o with
      | None => Undef
      | Some o =>
          '(n, l, (u, o)) ← stub_Read u o (Z.of_nat (length data));
          u ← StubFile_delete u o;
          let '(removed, u) := stub_Remove u name in
          '(o, u) ← stub_Open u name;
          Ok (n, l, removed, o, u)
      end
  end.

Lemma written_at_empty data : written_at [] 0 data = data.
Proof. unfold written_at. simpl. by rewrite drop_nil, app_nil_r. Qed.

(** What is written to a file of the stub file system is read back after the file is opened
    again, a removed file cannot be opened, and at the end the same descriptors are open
    as at the start. *)
Theorem stub_roundtrip u name data :
  (size (fds (view u)) < fd_limit)%nat -> data <> [] -> Z.of_nat (length data) <= file_limit ->
  exists u', save_and_load u name data = Ok (Z.of_nat (length data), data, true, None, u') /\ fds (view u') = fds (view u).
Proof.
  intros Hfd Hd Hl. pose proof limit_range as Hlim. unfold save_and_load.
  destruct (stub_Create_ok u name 0 Hfd) as (u1 & i & -> & N1 & I1 & F1). cbn [mbind outcome_bind].
  destruct (stub_Open_ok u1 name i []) as (u2 & o & -> & O2 & A2 & Fr2 & V2); [by rewrite N1, lookup_insert_eq|by rewrite I1, lookup_insert_eq|by rewrite F1|].
  cbn [mbind outcome_bind]. unfold stub_Write. rewrite O2.
  destruct (stub_WriteAt_ok u2 o i [] 0 data 0 A2 Hd) as (u3 & -> & A3 & S3); [lia|lia|]. cbn [mbind outcome_bind].
  rewrite written_at_empty in A3. destruct (stub_delete_ok u3 (mkStub (file o) (s32 (0 + Z.of_nat (length data)))) _ (proj1 A3)) as (u4 & -> & V4).
  cbn [mbind outcome_bind]. cbn [file] in V4.
  assert (fds (view u4) = fds (view u)) as F4 by (rewrite V4, V2 in *; rewrite <- F1; by eapply closed_again).
  assert (names (view u4) !! name = Some i) as N4 by (rewrite V4; simpl; rewrite (proj1 S3), V2; simpl; by rewrite N1, lookup_insert_eq).
  destruct (stub_Open_ok u4 name i data N4) as (u5 & o5 & -> & O5 & A5 & Fr5 & V5); [by rewrite V4; apply A3|by rewrite F4|].
  cbn [mbind outcome_bind]. unfold stub_Read. rewrite O5.
  destruct (stub_ReadAt_ok u5 o5 i data 0 (Z.of_nat (length data)) 0 A5) as (u6 & -> & A6 & S6); [lia|lia|]. cbn [mbind outcome_bind].
  rewrite Nat2Z.id, drop_0, firstn_all in *.
  destruct (stub_delete_ok u6 (mkStub (file o5) (s32 (0 + Z.of_nat (length data)))) _ (proj1 A6)) as (u7 & -> & V7). cbn [mbind outcome_bind file] in *.
  assert (fds (view u7) = fds (view u)) as F7 by (rewrite V7, V5 in *; rewrite <- F4; by eapply closed_again).
  assert (names (view u7) !! name = Some i) as N7 by (rewrite V7; simpl; rewrite (proj1 S6), V5; done).
  unfold stub_Remove, Unlink, stub_Open, OpenForReadWrite. destruct (law_unlink u7 name i N7) as (u8 & -> & V8).
  destruct (law_open_missing u8 name) as (u9 & -> & V9); [rewrite V8; apply lookup_delete_eq|].
  exists u9. split; [done|]. by rewrite V9, V8.
Qed.
End stub.

(** The stack of a thread has a page of its block before it and one after it, and the block is given back. *)
Lemma bounded_array pgSize base size i : 0 <= pgSize -> 0 <= i < size ->
  base + pgSize <= AllocBoundedArray pgSize base + i < base + (pgSize * 2 + size) - pgSize /\
  DeallocBoundedArray pgSize (AllocBoundedArray pgSize base) = base.
Proof. unfold AllocBoundedArray, DeallocBoundedArray. lia. Qed.

(** The swap file of Pager.v is such an array. *)
Lemma pager_file f buffer data n position : 0 <= position -> n <= Z.of_nat (length buffer) ->
  file_WriteAt f data position = Ok (written_at f position data) /\
  file_ReadAt f buffer n position = Ok (slice f position n ++ drop (length (slice f position n)) buffer).
Proof.
  intros Hp Hn. unfold file_WriteAt, file_ReadAt. rewrite (proj2 (Z.leb_le 0 position)) by done. cbn [ASSERT mbind outcome_bind].
  by rewrite (proj2 (Z.ltb_ge _ _)) by done.
Qed.

(** ** An instance: the calls on [posix] *)

Definition next_fd (p : posix) : Z := map_fold (fun fd _ n => Z.max (fd + 1) n) 0 (fds p).

Lemma next_fd_fresh p : 0 <= next_fd p /\ fds p !! next_fd p = None.
Proof.
  assert (0 <= next_fd p /\ forall fd x, fds p !! fd = Some x -> fd < next_fd p) as [Hp Hall].
  { unfold next_fd. apply (map_fold_weak_ind (fun n (m : gmap Z (positive * Z)) => 0 <= n /\ forall fd x, m !! fd = Some x -> fd < n)).
    - split; [done|]. intros fd x. by rewrite lookup_empty.
    - intros fd x m n _ [Hn IH]. split; [lia|]. intros d y. rewrite lookup_insert_Some. intros [[-> _]|[_ Hd]]; [lia|]. apply IH in Hd. lia. }
  split; [done|]. destruct (fds p !! next_fd p) as [x|] eqn:E; [|done]. apply Hall in E. lia.
Qed.

Definition posix_open (p : posix) (s : string) (create : bool) : Z * posix :=
  let fd := next_fd p in
  match names p !! s, create with
  | Some i, true => (fd, set_contents (set_offset p fd i 0) i [])
  | Some i, false => (fd, set_offset p fd i 0)
  | None, true => let i := fresh (dom (inodes p)) in (fd, add_name (set_contents (set_offset p fd i 0) i []) s i)
  | None, false => (-1, p)
  end.

Definition posix_lseek (p : posix) (fd offset whence : Z) : Z * posix :=
  match fds p !! fd with
  | Some (i, off) =>
      let target := if whence =? SEEK_SET then offset
                    else if whence =? SEEK_CUR then off + offset
                    else Z.of_nat (length (default [] (inodes p !! i))) + offset in
      if target <? 0 then (-1, p) else (target, set_offset p fd i target)
  | None => (-1, p)
  end.

Definition posix_read (p : posix) (fd n : Z) : Z * list Z * posix :=
  match fds p !! fd with
  | Some (i, off) =>
      let data := slice (default [] (inodes p !! i)) off n in
      (Z.of_nat (length data), data, set_offset p fd i (off + Z.of_nat (length data)))
  | None => (-1, [], p)
  end.

Definition posix_write (p : posix) (fd : Z) (data : list Z) : Z * posix :=
  match fds p !! fd with
  | Some (i, off) =>
      (Z.of_nat (length data),
       set_contents (set_offset p fd i (off + Z.of_nat (length data))) i (written_at (default [] (inodes p !! i)) off data))
  | None => (-1, p)
  end.

Definition posix_close (p : posix) (fd : Z) : Z * posix := if decide (is_Some (fds p !! fd)) then (0, drop_fd p fd) else (-1, p).
Definition posix_unlink (p : posix) (s : string) : Z * posix := if decide (is_Some (names p !! s)) then (0, drop_name p s) else (-1, p).

(** Without sockets. *)
#[export] Instance posix_unix : Unix posix := {|
  sys_open := posix_open; sys_read := posix_read; sys_write := posix_write; sys_lseek := posix_lseek;
  sys_close := posix_close; sys_unlink := posix_unlink;
  sys_select p _ _ := (0, p); sys_socket p := (-1, p); sys_bind p _ _ := (-1, p); sys_recvfrom p _ _ := (-1, [], p); sys_sendto p _ _ _ := (-1, p) |}.

#[export] Program Instance posix_files : UnixFiles posix := {| view p := p; file_limit := 1000000; fd_limit := 20 |}.
Next Obligation. done. Qed.
Next Obligation.
  intros p fd i f off n [Hfd Hi] Hn. cbn. unfold posix_lseek. rewrite Hfd. cbn. rewrite (proj2 (Z.ltb_ge _ _)) by lia. eauto.
Qed.
Next Obligation.
  intros p fd n Hn. cbn. unfold posix_lseek. destruct (fds p !! fd) as [[i off]|]; [|done]. cbn. by rewrite (proj2 (Z.ltb_lt _ _)).
Qed.
Next Obligation.
  intros p fd i f off [Hfd Hi]. cbn. unfold posix_lseek. rewrite Hfd. cbn. rewrite Hi. cbn. rewrite Z.add_0_r, (proj2 (Z.ltb_ge _ _)) by lia. eauto.
Qed.
Next Obligation.
  intros p fd i f off [Hfd Hi] Hoff. cbn. unfold posix_lseek. rewrite Hfd. cbn. rewrite Z.add_0_r, (proj2 (Z.ltb_ge _ _)) by lia.
  eexists. split; [done|]. destruct p. unfold set_offset. cbn in *. by rewrite insert_id.
Qed.
Next Obligation. intros p fd i f off n [Hfd Hi] Hoff Hn data. cbn. unfold posix_read. rewrite Hfd, Hi. eauto. Qed.
Next Obligation. intros p fd i f off data [Hfd Hi] Hd Hoff Hl. cbn. unfold posix_write. rewrite Hfd, Hi. eauto. Qed.
Next Obligation. intros p s i Hs _. cbn. unfold posix_open. rewrite Hs. destruct (next_fd_fresh p). eauto 6. Qed.
Next Obligation. intros p s Hs. cbn. unfold posix_open. rewrite Hs. eauto. Qed.
Next Obligation. intros p s i Hs _. cbn. unfold posix_open. rewrite Hs. destruct (next_fd_fresh p). eauto 6. Qed.
Next Obligation.
  intros p s Hs _. cbn. unfold posix_open. rewrite Hs. destruct (next_fd_fresh p).
  assert (inodes p !! fresh (dom (inodes p)) = None) by (apply not_elem_of_dom, is_fresh). eauto 10.
Qed.
Next Obligation. intros p fd x Hx. cbn. unfold posix_close. rewrite decide_True by eauto. eauto. Qed.
Next Obligation. intros p s i Hs. cbn. unfold posix_unlink. rewrite decide_True by eauto. eauto. Qed.
Next Obligation. intros p s Hs. cbn. unfold posix_unlink. rewrite Hs, decide_False by (by intros []). eauto. Qed.

(** One open file of five bytes. *)
Definition demo_host : posix := mkPosix {["data" := 1%positive]} {[1%positive := [1; 2; 3; 4; 5]]} {[3 := (1%positive, 0)]}.

Lemma demo_stands : stands_for demo_host (mkStub 3 0) 1 ([1; 2; 3; 4; 5], 0).
Proof. split; [exists 0; by split|done|simpl; lia|simpl; lia]. Qed.

Lemma stub_file_refines_witness :
  exists u o, run_ops demo_host (mkStub 3 0) [FRead 3; FWrite [9]; FWriteAt [7] 6; FReadAt 100 2; FLength] =
    Ok ([RBytes 3 [1; 2; 3]; RCount 1; RCount 1; RBytes 5 [3; 9; 5; 0; 7]; RCount 7], (u, o)) /\ currentOffset o = 4.
Proof.
  destruct (stub_file_refines [FRead 3; FWrite [9]; FWriteAt [7] 6; FReadAt 100 2; FLength] demo_host (mkStub 3 0) 1 _ demo_stands)
    as (u & o & E & Hst & _); [simpl; repeat split; (lia || discriminate)|]. exists u, o. split; [exact E|exact (st_offset _ _ _ _ Hst)].
Defined.

Lemma stub_roundtrip_witness : exists u', save_and_load demo_host "new" [5; 6; 7] = Ok (3, [5; 6; 7], true, None, u').
Proof.
  destruct (stub_roundtrip demo_host "new" [5; 6; 7]) as (u' & E & _); [vm_compute; lia|discriminate|simpl; lia|]. exists u'. exact E.
Defined.
