(* ===== verification/TimingTest.v ===== *)
(** * threads/threadtest.cc: the measurements

    The loops of [SwitchingOnNumber] and its relatives, of [Baseline] and of [ThreadTest] in the build with
    HW1_TIME. What a loop does is counted: the calls of [Yield], each with its increment of
    [switchCount], and the reads of the array. The clock is the host's; [long] has 32 bits. *)

From stdpp Require Import prelude list numbers.
From S2P Require Import Prelude.

Open Scope Z_scope.

Definition EIGHT : Z := 8388608.
Definition GB : Z := 1073741824.

(** [temp[num % EIGHT]]. *)
Definition read_temp (num : Z) : outcome unit :=
  let k := cmod num EIGHT in if (0 <=? k) && (k <? EIGHT) then Ok () else Undef.

(** [n += k] on an [int], without overflow. *)
Definition incr (n k : Z) : outcome Z := if n + k <? two31 then Ok (n + k) else Undef.

(** [a % b]; a remainder by 0 is undefined. *)
Definition rem (a b : Z) : outcome Z := if b =? 0 then Undef else Ok (cmod a b).

(** What a thread has done: calls of [Yield] (and increments of [switchCount]), reads of the array. *)
Record work := mkWork { yields : Z; reads : Z }.

(** The loop of [SwitchingOnNumber]. *)
Fixpoint OnNumber_loop (fuel : nat) (size num counter : Z) (w : work) : outcome work :=
  match fuel with
  | O => NoFuel
  | S fuel =>
      if counter <? 100 then
        read_temp num;;
        r ← rem num size;
        let w := mkWork (yields w) (reads w + 1) in
        let '(w, counter) := if r =? 0 then (mkWork (yields w + 1) (reads w), counter + 1) else (w, counter) in
        num ← incr num 1;
        OnNumber_loop fuel size num counter w
      else Ok w
  end.

(** ... and the last [Yield]. *)
Definition SwitchingOnNumber (fuel : nat) (size : Z) : outcome work :=
  w ← OnNumber_loop fuel size 0 0 (mkWork 0 0); Ok (mkWork (yields w + 1) (reads w)).

(** The loop of [SwitchingOffNumber], in which [num] is incremented at the end of the body too. *)
Fixpoint OffNumber_loop (fuel : nat) (size num counter : Z) (w : work) : outcome work :=
  match fuel with
  | O => NoFuel
  | S fuel =>
      if counter <? 100 then
        read_temp num;;
        r ← rem num size;
        let w := mkWork (yields w) (reads w + 1) in
        let counter := if r =? 0 then counter + 1 else counter in
        num ← incr num 1;
        num ← incr num 1;
        OffNumber_loop fuel size num counter w
      else Ok w
  end.

Definition SwitchingOffNumber (fuel : nat) (size : Z) : outcome work :=
  w ← OffNumber_loop fuel size 0 0 (mkWork 0 0); Ok (mkWork (yields w + 1) (reads w)).

(** The loops of [SwitchingOnSize] and [SwitchingOffSize]: [on] tells them apart. *)
Fixpoint Size_loop (on : bool) (fuel : nat) (size num : Z) (w : work) : outcome work :=
  match fuel with
  | O => NoFuel
  | S fuel =>
      if num <? 10000000 then
        read_temp num;;
        r ← rem num size;
        let w := mkWork (if on && (r =? 0) then yields w + 1 else yields w) (reads w + 1) in
        num ← incr num 1;
        Size_loop on fuel size num w
      else Ok w
  end.

Definition SwitchingOnSize (fuel : nat) (size : Z) : outcome work :=
  w ← Size_loop true fuel size 0 (mkWork 0 0); Ok (mkWork (yields w + 1) (reads w)).
Definition SwitchingOffSize (fuel : nat) (size : Z) : outcome work :=
  w ← Size_loop false fuel size 0 (mkWork 0 0); Ok (mkWork (yields w + 1) (reads w)).

(** The loop of [Baseline]: [arr[i]] with [i] below [to_alloc]. *)
Fixpoint Baseline_loop (fuel : nat) (step_size to_alloc i j : Z) : outcome Z :=
  match fuel with
  | O => NoFuel
  | S fuel =>
      if j <? 10000000 then
        if (0 <=? i) && (i <? to_alloc) then
          i ← incr i step_size;
          i ← rem i to_alloc;
          j ← incr j 1;
          Baseline_loop fuel step_size to_alloc i j
        else Undef
      else Ok j
  end.

(** [ThreadTest] for [testnum] 1: the calls [Baseline(j, i)]. *)
Fixpoint inner_calls (fuel : nat) (i j : Z) : outcome (list (Z * Z)) :=
  match fuel with
  | O => NoFuel
  | S fuel =>
      if j <? cdiv i 2 then j2 ← incr j j; l ← inner_calls fuel i j2; Ok ((j, i) :: l)
      else Ok []
  end.

Fixpoint outer_calls (fuel : nat) (i : Z) : outcome (list (Z * Z)) :=
  match fuel with
  | O => NoFuel
  | S fuel =>
      if i <? GB then l ← inner_calls fuel i 1; i ← incr i i; r ← outer_calls fuel i; Ok (l ++ r)
      else Ok []
  end.

Definition elapsedTime (start_sec start_usec end_sec end_usec : Z) : Z :=
  let tS := s32 (s32 (start_sec * 1000000) + start_usec) in
  let tE := s32 (s32 (end_sec * 1000000) + end_usec) in
  s32 (tE - tS).

(** ** What the loops do *)

Lemma read_temp_ok num : 0 <= num -> read_temp num = Ok ().
Proof.
  intros Hn. unfold read_temp. rewrite cmod_nonneg by (unfold EIGHT; lia).
  pose proof (Z.mod_pos_bound num EIGHT ltac:(unfold EIGHT; lia)). by rewrite (proj2 (Z.leb_le _ _)), (proj2 (Z.ltb_lt _ _)) by lia.
Qed.

Lemma incr_ok n k : n + k < two31 -> incr n k = Ok (n + k).
Proof. intros Hn. unfold incr. by rewrite (proj2 (Z.ltb_lt _ _)). Qed.

Lemma rem_ok a b : 0 <= a -> 0 < b -> rem a b = Ok (a `mod` b).
Proof. intros Ha Hb. unfold rem. rewrite (proj2 (Z.eqb_neq b 0)) by lia. by rewrite cmod_nonneg. Qed.

(** The multiples of [size] below [num]. *)
Definition multiples (num size : Z) : Z := (num + size - 1) `div` size.

Lemma multiples_step num size : 0 <= num -> 0 < size ->
  multiples (num + 1) size = multiples num size + (if num `mod` size =? 0 then 1 else 0).
Proof.
  intros Hn Hs. unfold multiples. pose proof (Z.div_mod num size ltac:(lia)) as Hd. pose proof (Z.mod_pos_bound num size Hs) as Hm.
  set (q := num `div` size) in *. set (r := num `mod` size) in *.
  destruct (Z.eqb_spec r 0) as [Hr|Hr].
  - replace (num + 1 + size - 1) with (0 + (q + 1) * size) by nia. replace (num + size - 1) with (size - 1 + q * size) by nia.
    rewrite !Z.div_add by lia. rewrite (Z.div_small (size - 1)) by lia. rewrite (Z.div_small 0) by lia. lia.
  - replace (num + 1 + size - 1) with (r + (q + 1) * size) by nia. replace (num + size - 1) with (r - 1 + (q + 1) * size) by nia.
    rewrite !Z.div_add by lia. rewrite (Z.div_small r), (Z.div_small (r - 1)) by lia. lia.
Qed.

Lemma multiples_100 num size : 0 <= num -> 0 < size -> (multiples num size <? 100) = (num <=? 99 * size).
Proof.
  intros Hn Hs. unfold multiples. destruct (Z.leb_spec num (99 * size)) as [Hle|Hgt]; [apply Z.ltb_lt|apply Z.ltb_ge].
  - apply Z.div_lt_upper_bound; lia.
  - apply Z.div_le_lower_bound; lia.
Qed.

Lemma OnNumber_loop_ok size : 0 < size -> 99 * size + 1 < two31 -> forall fuel num w, 0 <= num <= 99 * size + 1 ->
  (Z.to_nat (99 * size + 1 - num) < fuel)%nat ->
  OnNumber_loop fuel size num (multiples num size) w =
    Ok (mkWork (yields w + (100 - multiples num size)) (reads w + (99 * size + 1 - num))).
Proof.
  intros Hs Hlim. induction fuel as [|fuel IH]; intros num w Hn Hf; [lia|]. cbn [OnNumber_loop]. rewrite multiples_100 by lia.
  destruct (Z.leb_spec num (99 * size)) as [Hle|Hgt].
  - rewrite read_temp_ok, rem_ok, incr_ok by lia. cbn [mbind outcome_bind].
    pose proof (multiples_step num size ltac:(lia) Hs) as Hm. destruct (num `mod` size =? 0); cbn [mbind outcome_bind yields reads].
    + rewrite <- Hm, IH by lia. cbn [yields reads]. do 2 f_equal; lia.
    + rewrite Z.add_0_r in Hm. rewrite <- Hm, IH by lia. cbn [yields reads]. do 2 f_equal; lia.
  - assert (num = 99 * size + 1) as -> by lia. assert (multiples (99 * size + 1) size = 100) as ->.
    { unfold multiples. replace (99 * size + 1 + size - 1) with (100 * size) by lia. apply Z.div_mul. lia. }
    destruct w. cbn [yields reads]. do 2 f_equal; lia.
Qed.

(** [size] divides [2 * k] exactly when [g] divides [k]. *)
Definition halved (size g : Z) : Prop := 0 < g /\ forall k, 0 <= k -> ((2 * k) `mod` size =? 0) = (k `mod` g =? 0).

Lemma halved_even h : 0 < h -> halved (2 * h) h.
Proof.
  intros Hh. split; [done|]. intros k Hk. rewrite Z.mul_mod_distr_l by lia.
  destruct (Z.eqb_spec (k `mod` h) 0) as [->|]; [done|]. apply Z.eqb_neq. lia.
Qed.

Lemma halved_odd size : 0 < size -> Z.odd size = true -> halved size size.
Proof.
  intros Hs Ho. split; [done|]. intros k Hk. destruct (Z.eqb_spec (k `mod` size) 0) as [E|E].
  - apply Z.eqb_eq. rewrite Z.mul_mod, E, Z.mul_0_r by lia. by apply Z.mod_0_l; lia.
  - apply Z.eqb_neq. intros E2. apply E. apply Z.mod_divide in E2; [|lia]. apply Z.mod_divide; [lia|].
    destruct E2 as [q E2]. apply Z.odd_spec in Ho as [m ->]. exists ((m + 1) * q - k). nia.
Qed.

Lemma OffNumber_loop_ok size g : 0 < size -> halved size g -> 2 * (99 * g + 1) < two31 -> forall fuel k w, 0 <= k <= 99 * g + 1 ->
  (Z.to_nat (99 * g + 1 - k) < fuel)%nat ->
  OffNumber_loop fuel size (2 * k) (multiples k g) w = Ok (mkWork (yields w) (reads w + (99 * g + 1 - k))).
Proof.
  intros Hs [Hg Hh] Hlim. induction fuel as [|fuel IH]; intros k w Hk Hf; [lia|]. cbn [OffNumber_loop]. rewrite multiples_100 by lia.
  destruct (Z.leb_spec k (99 * g)) as [Hle|Hgt].
  - rewrite read_temp_ok, rem_ok by lia. cbn [mbind outcome_bind]. rewrite Hh by lia. rewrite !incr_ok by lia. cbn [mbind outcome_bind]. rewrite incr_ok by lia.
    cbn [mbind outcome_bind]. pose proof (multiples_step k g ltac:(lia) Hg) as Hm. replace (2 * k + 1 + 1) with (2 * (k + 1)) by lia.
    replace (if k `mod` g =? 0 then multiples k g + 1 else multiples k g) with (multiples (k + 1) g) by (rewrite Hm; destruct (_ =? 0); lia).
    rewrite IH by lia. cbn [yields reads]. do 2 f_equal; lia.
  - assert (k = 99 * g + 1) as -> by lia. destruct w. cbn [yields reads]. do 2 f_equal; lia.
Qed.

Lemma multiples_0 size : 0 < size -> multiples 0 size = 0.
Proof. intros Hs. unfold multiples. apply Z.div_small. lia. Qed.

Lemma Size_loop_ok on size : 0 < size -> forall fuel num w, 0 <= num <= 10000000 -> (Z.to_nat (10000000 - num) < fuel)%nat ->
  Size_loop on fuel size num w =
    Ok (mkWork (yields w + if on then multiples 10000000 size - multiples num size else 0) (reads w + (10000000 - num))).
Proof.
  intros Hs. induction fuel as [|fuel IH]; intros num w Hn Hf; [lia|]. cbn [Size_loop]. destruct (Z.ltb_spec num 10000000) as [Hlt|Hge].
  - rewrite read_temp_ok, rem_ok, incr_ok by (unfold two31; lia). cbn [mbind outcome_bind]. rewrite IH by lia. cbn [yields reads].
    pose proof (multiples_step num size ltac:(lia) Hs) as Hm. destruct on, (num `mod` size =? 0); cbn [andb]; do 2 f_equal; lia.
  - assert (num = 10000000) as -> by lia. destruct w, on; cbn [yields reads]; do 2 f_equal; lia.
Qed.

(** The loops that measure thread switches end, without overflow and within the array: with
    switches by number, a thread yields 101 times and reads the array [99 * size + 1] times; the
    loop without switches, whose variable is incremented twice per round, yields once
    and reads it only about half as often when [size] is even, so that the difference of the two times is not
    the time of the switches. With switches by size both loops read it ten million times, and
    yield once for every multiple of [size] and once at the end, or once. *)
Theorem measured_work h fuel : 0 < h -> 99 * (2 * h) + 1 < two31 - 1 -> (Z.to_nat 10000000 < fuel)%nat -> (Z.to_nat (99 * (2 * h) + 1) < fuel)%nat ->
  SwitchingOnNumber fuel (2 * h) = Ok (mkWork 101 (99 * (2 * h) + 1)) /\
  SwitchingOffNumber fuel (2 * h) = Ok (mkWork 1 (99 * h + 1)) /\
  SwitchingOnSize fuel (2 * h) = Ok (mkWork (multiples 10000000 (2 * h) + 1) 10000000) /\
  SwitchingOffSize fuel (2 * h) = Ok (mkWork 1 10000000).
Proof.
  intros Hh Hlim Hf1 Hf2. unfold SwitchingOnNumber, SwitchingOffNumber, SwitchingOnSize, SwitchingOffSize.
  pose proof (OnNumber_loop_ok (2 * h) ltac:(lia) ltac:(lia) fuel 0 (mkWork 0 0) ltac:(lia) ltac:(lia)) as E1.
  pose proof (OffNumber_loop_ok (2 * h) h ltac:(lia) (halved_even h Hh) ltac:(lia) fuel 0 (mkWork 0 0) ltac:(lia) ltac:(lia)) as E2.
  rewrite multiples_0 in E1, E2 by lia. change (2 * 0) with 0 in E2. rewrite E1, E2, !Size_loop_ok by lia.
  cbn [mbind outcome_bind yields reads]. rewrite multiples_0 by lia. split_and!; do 2 f_equal; lia.
Qed.

Lemma measured_work_witness : SwitchingOffNumber (Z.to_nat 20000000) 1024 = Ok (mkWork 1 50689).
Proof. apply (measured_work 512 (Z.to_nat 20000000)); [lia|unfold two31; lia|lia|lia]. Defined.

(** ** Baseline *)

(** The loop reads [arr] ten million times and only inside. *)
Lemma Baseline_loop_ok step_size to_alloc : 0 < step_size < to_alloc -> to_alloc <= GB -> forall fuel i j,
  0 <= i < to_alloc -> 0 <= j <= 10000000 -> (Z.to_nat (10000000 - j) < fuel)%nat ->
  Baseline_loop fuel step_size to_alloc i j = Ok 10000000.
Proof.
  intros Hs Ha. induction fuel as [|fuel IH]; intros i j Hi Hj Hf; [lia|]. cbn [Baseline_loop].
  destruct (Z.ltb_spec j 10000000) as [Hlt|Hge]; [|f_equal; lia].
  rewrite (proj2 (Z.leb_le _ _)), (proj2 (Z.ltb_lt _ _)) by lia. cbn [andb]. unfold GB in Ha.
  rewrite (incr_ok i), (incr_ok j) by (unfold two31; lia). cbn [mbind outcome_bind]. rewrite rem_ok by lia. cbn [mbind outcome_bind].
  apply IH; [apply Z.mod_pos_bound; lia|lia|lia].
Qed.

(** The calls of [ThreadTest]: every power of two below a gigabyte with every smaller one but
    its half; all of them within the bounds above. *)
Lemma ThreadTest_calls :
  exists l, outer_calls 100 1 = Ok l /\ length l = 406%nat /\ forallb (fun '(j, i) => (0 <? j) && (j <? i) && (i <? GB)) l = true.
Proof. eexists. split; [vm_compute; reflexivity|]. by split; vm_compute. Qed.

(** The seconds do not fit into a [long] of 32 bits, but the difference does. *)
Lemma elapsedTime_ok ss su es eu : is_s32 ((es * 1000000 + eu) - (ss * 1000000 + su)) ->
  elapsedTime ss su es eu = (es * 1000000 + eu) - (ss * 1000000 + su).
Proof.
  intros Hd. unfold elapsedTime. unfold is_s32, s32, u32, two31, two32 in *. dlia.
Qed.
