(* ===== verification/Debugger.v ===== *)
(** * The debugger of the simulator (machine.cc), DumpState of interrupt.cc and Print of stats.cc

    What these routines print, as text, and what the commands of the debugger do to the
    loop of [Machine::Run]. The lines that the user types are an argument; [None] is the end of
    the input. *)

From stdpp Require Import prelude gmap list numbers strings pretty.
From S2P Require Import Prelude Params Mips Machine CList Interrupt Interp InterpMachine Disasm.

From Stdlib Require Import Ascii.

Open Scope Z_scope.

(** ** Printing *)

Definition NumGPRegs : Z := 32.

(** The body of the loop of [Machine::DumpState]. *)
Definition dump_register (m : Machine) (i : Z) : outcome string :=
  v ← getR m i;
  let nl := if cmod i 4 =? 3 then NEWLINE else ""%string in
  if i =? StackReg then printf (TAB +:+ "SP(%d):" +:+ TAB +:+ "0x%x%s") [PInt i; PInt v; PStr nl]
  else if i =? RetAddrReg then printf (TAB +:+ "RA(%d):" +:+ TAB +:+ "0x%x%s") [PInt i; PInt v; PStr nl]
  else printf (TAB +:+ "%d:" +:+ TAB +:+ "0x%x%s") [PInt i; PInt v; PStr nl].

Fixpoint dump_registers (m : Machine) (l : list Z) : outcome string :=
  match l with
  | [] => Ok ""%string
  | i :: l => s ← dump_register m i; rest ← dump_registers m l; Ok (s +:+ rest)
  end.

(** A [printf] of one special register. *)
Definition dump_special (m : Machine) (fmt : string) (r : Z) : outcome string := v ← getR m r; printf fmt [PInt v].

Fixpoint dump_specials (m : Machine) (l : list (string * Z)) : outcome string :=
  match l with
  | [] => Ok ""%string
  | (fmt, r) :: l => s ← dump_special m fmt r; rest ← dump_specials m l; Ok (s +:+ rest)
  end.

Definition specials : list (string * Z) :=
  [(TAB +:+ "Hi:" +:+ TAB +:+ "0x%x", HiReg); (TAB +:+ "Lo:" +:+ TAB +:+ "0x%x" +:+ NEWLINE, LoReg);
   (TAB +:+ "PC:" +:+ TAB +:+ "0x%x", PCReg); (TAB +:+ "NextPC:" +:+ TAB +:+ "0x%x", NextPCReg);
   (TAB +:+ "PrevPC:" +:+ TAB +:+ "0x%x" +:+ NEWLINE, PrevPCReg);
   (TAB +:+ "Load:" +:+ TAB +:+ "0x%x", LoadReg); (TAB +:+ "LoadV:" +:+ TAB +:+ "0x%x" +:+ NEWLINE, LoadValueReg)].

Definition Machine_DumpState (m : Machine) : outcome string :=
  regs ← dump_registers m (seqZ 0 NumGPRegs);
  special ← dump_specials m specials;
  Ok ("Machine registers:" +:+ NEWLINE +:+ regs +:+ special +:+ NEWLINE).

Definition intLevelNames (l : IntStatus) : string := match l with IntOff => "off" | IntOn => "on" end.
Definition intTypeNames (t : IntType) : string :=
  match t with
  | TimerInt => "timer" | DiskInt => "disk" | ConsoleWriteInt => "console write"
  | ConsoleReadInt => "console read" | NetworkSendInt => "network send" | NetworkRecvInt => "network recv"
  end.

Definition PrintPending (p : PendingInterrupt) : outcome string :=
  printf ("Interrupt handler %s, scheduled at %d" +:+ NEWLINE) [PStr (intTypeNames (p_type p)); PInt (p_when p)].

(** [pending->Mapcar(PrintPending)]. *)
Fixpoint print_pending (l : queue PendingInterrupt) : outcome string :=
  match l with
  | [] => Ok ""%string
  | (_, p) :: l => s ← PrintPending p; rest ← print_pending l; Ok (s +:+ rest)
  end.

Definition Interrupt_DumpState (s : Statistics) (i : Interrupt) : outcome string :=
  time ← printf ("Time: %d, interrupts %s" +:+ NEWLINE) [PInt (totalTicks s); PStr (intLevelNames (level i))];
  l ← print_pending (pending i);
  Ok (time +:+ "Pending interrupts:" +:+ NEWLINE +:+ l +:+ "End of pending interrupts" +:+ NEWLINE).

Definition Statistics_Print (s : Statistics) : outcome string :=
  a ← printf ("Ticks: total %d, idle %d, system %d, user %d" +:+ NEWLINE)
        [PInt (totalTicks s); PInt (idleTicks s); PInt (systemTicks s); PInt (userTicks s)];
  b ← printf ("Disk I/O: reads %d, writes %d" +:+ NEWLINE) [PInt (numDiskReads s); PInt (numDiskWrites s)];
  c ← printf ("Console I/O: reads %d, writes %d" +:+ NEWLINE) [PInt (numConsoleCharsRead s); PInt (numConsoleCharsWritten s)];
  d ← printf ("Paging: faults %d" +:+ NEWLINE) [PInt (numPageFaults s)];
  e ← printf ("Network I/O: packets received %d, sent %d" +:+ NEWLINE) [PInt (numPacketsRecvd s); PInt (numPacketsSent s)];
  Ok (a +:+ b +:+ c +:+ d +:+ e).

(** [Interrupt::Halt], up to [Cleanup]. *)
Definition Halt_text (s : Statistics) : outcome string :=
  l ← Statistics_Print s; Ok ("Machine halting!" +:+ NEWLINE +:+ NEWLINE +:+ l).

(** [CheckEndian] on the host that the model assumes: the bytes 1, 2, 3 and 4 as a word. *)
Definition CheckEndian : outcome unit := ASSERT (bytes_word 1 2 3 4 =? 0x04030201).

Lemma CheckEndian_ok : CheckEndian = Ok ().
Proof. reflexivity. Qed.

(** ** The debugger *)

(** [singleStep] and [runUntilTime]. *)
Record debug := mkDebug { singleStep : bool; runUntilTime : Z }.

Definition is_digit (c : ascii) : bool := (48 <=? Z.of_nat (nat_of_ascii c)) && (Z.of_nat (nat_of_ascii c) <=? 57).
Definition is_blank (c : ascii) : bool :=
  bool_decide (c = " "%char) || (9 <=? Z.of_nat (nat_of_ascii c)) && (Z.of_nat (nat_of_ascii c) <=? 13).

Fixpoint digits_value (acc : Z) (s : string) : Z :=
  match s with
  | String c s => if is_digit c then digits_value (acc * 10 + (Z.of_nat (nat_of_ascii c) - 48)) s else acc
  | EmptyString => acc
  end.

(** The digits at the start of a string, at least one. *)
Definition digits_of (s : string) : option Z :=
  match s with String c _ => if is_digit c then Some (digits_value 0 s) else None | EmptyString => None end.

(** [sscanf(buf, "%d", &num)]: the number, or [None] when there is none. *)
Fixpoint scan_int (s : string) : option Z :=
  match s with
  | String c rest =>
      if is_blank c then scan_int rest
      else if bool_decide (c = "-"%char) then n ← digits_of rest; Some (- n)
      else if bool_decide (c = "+"%char) then digits_of rest
      else digits_of s
  | EmptyString => None
  end.

Definition help : string :=
  "Machine commands:" +:+ NEWLINE +:+
  "    <return>  execute one instruction" +:+ NEWLINE +:+
  "    <number>  run until the given timer tick" +:+ NEWLINE +:+
  "    c         run until completion" +:+ NEWLINE +:+
  "    ?         print help message" +:+ NEWLINE.

(** What [Debugger] does with the line in [buf]; at the end of the input nothing was stored there, and
    a number that is no [int] is undefined. *)
Definition Debugger_command (d : debug) (line : option string) : outcome (debug * string) :=
  match line with
  | None => Undef
  | Some buf =>
      match scan_int buf with
      | Some num => if bool_decide (is_s32 num) then Ok (mkDebug (singleStep d) num, ""%string) else Undef
      | None =>
          match buf with
          | EmptyString => Ok (mkDebug (singleStep d) 0, ""%string)
          | String c _ =>
              if bool_decide (c = "c"%char) then Ok (mkDebug false 0, ""%string)
              else if bool_decide (c = "?"%char) then Ok (mkDebug (singleStep d) 0, help)
              else Ok (mkDebug (singleStep d) 0, ""%string)
          end
      end
  end.

Definition Debugger (d : debug) (m : Machine) (s : Statistics) (i : Interrupt) (line : option string) : outcome (debug * string) :=
  a ← Interrupt_DumpState s i;
  b ← Machine_DumpState m;
  prompt ← printf "%d> " [PInt (totalTicks s)];
  '(d, text) ← Debugger_command d line;
  Ok (d, a +:+ b +:+ prompt +:+ text).

(** The loop of [Machine::Run]: [times] is the clock after each instruction, [input] the
    lines typed. The times at which the debugger is entered, and its state after the last instruction. *)
Fixpoint Run_debugged (d : debug) (times : list Z) (input : list string) : outcome (list Z * debug) :=
  match times with
  | [] => Ok ([], d)
  | t :: times =>
      if singleStep d && (runUntilTime d <=? t) then
        '(d, _) ← Debugger_command d (head input);
        '(l, d) ← Run_debugged d times (tail input);
        Ok (t :: l, d)
      else Run_debugged d times input
  end.

(** ** What the commands do *)

(** The clock from tick [n] on. *)
Fixpoint from_tick (n : Z) (times : list Z) : list Z :=
  match times with
  | [] => []
  | t :: rest => if t <? n then from_tick n rest else times
  end.

Lemma Run_until n times input : Run_debugged (mkDebug true n) times input = Run_debugged (mkDebug true n) (from_tick n times) input.
Proof.
  induction times as [|t times IH]; [done|]. cbn [from_tick]. destruct (Z.ltb_spec t n) as [Hlt|Hge]; [|done].
  cbn [Run_debugged singleStep runUntilTime andb]. by rewrite (proj2 (Z.leb_gt n t)) by done.
Qed.

Lemma Run_free r times input : Run_debugged (mkDebug false r) times input = Ok ([], mkDebug false r).
Proof. induction times as [|t times IH]; [done|]. apply IH. Qed.

(** The result of the rest of the loop after an entry at time [t]. *)
Definition entered (t : Z) (r : outcome (list Z * debug)) : outcome (list Z * debug) := '(l, d) ← r; Ok (t :: l, d).

(** The commands of the debugger: after a number the program runs on, and the debugger is entered
    next at the first instruction that ends at that tick or later; after [c] it is not
    entered any more; after [?], an empty line or anything else it is entered after the
    next instruction. *)
Theorem debugger_commands d t times line input :
  singleStep d = true -> runUntilTime d <= t -> Forall (fun u => 0 <= u) times ->
  Run_debugged d (t :: times) (line :: input) =
    match scan_int line with
    | Some n => if bool_decide (is_s32 n) then entered t (Run_debugged (mkDebug true n) (from_tick n times) input) else Undef
    | None =>
        if bool_decide (String.get 0 line = Some "c"%char) then Ok ([t], mkDebug false 0)
        else match times with
             | [] => Ok ([t], mkDebug true 0)
             | u :: rest => entered t ('(d', _) ← Debugger_command (mkDebug true 0) (head input); entered u (Run_debugged d' rest (tail input)))
             end
    end.
Proof.
  intros Hs Ht Hnn. cbn [Run_debugged head tail]. rewrite Hs, (proj2 (Z.leb_le _ _)) by done. cbn [andb]. unfold Debugger_command at 1. rewrite Hs.
  assert (Run_debugged (mkDebug true 0) times input = match times with
    | [] => Ok ([], mkDebug true 0)
    | u :: rest => '(d', _) ← Debugger_command (mkDebug true 0) (head input); entered u (Run_debugged d' rest (tail input)) end) as Hnext.
  { destruct times as [|u rest]; [done|]. apply Forall_cons in Hnn as [Hu _]. cbn [Run_debugged singleStep runUntilTime andb].
    by rewrite (proj2 (Z.leb_le 0 u)) by done. }
  destruct (scan_int line) as [n|]; [destruct (bool_decide (is_s32 n)); [|done]; cbn [mbind outcome_bind]; by rewrite Run_until|].
  destruct line as [|c line]; cbn [mbind outcome_bind String.get].
  { rewrite Hnext. by destruct times. }
  destruct (decide (c = "c"%char)) as [->|Hc].
  { rewrite !bool_decide_eq_true_2 by done. cbn [mbind outcome_bind]. by rewrite Run_free. }
  rewrite (bool_decide_eq_false_2 (c = "c"%char)), (bool_decide_eq_false_2 (Some c = _)) by congruence.
  destruct (bool_decide (c = "?"%char)); cbn [mbind outcome_bind]; rewrite Hnext; by destruct times.
Qed.

Lemma debugger_commands_witness :
  Run_debugged (mkDebug true 0) [1; 2; 3; 4; 5; 6] ["4"; ""; "c"]%string = Ok ([1; 4; 5], mkDebug false 0).
Proof.
  rewrite (debugger_commands (mkDebug true 0) 1 [2; 3; 4; 5; 6] "4" [""; "c"]%string); [|reflexivity|simpl; lia|repeat constructor; lia].
  vm_compute. reflexivity.
Defined.

(** ** The dump shows the registers *)

(** All characters of a string satisfy [ok]; the first one does not. *)
Fixpoint all_chars (ok : ascii -> bool) (s : string) : bool :=
  match s with String c s => ok c && all_chars ok s | EmptyString => true end.
Definition stops (ok : ascii -> bool) (s : string) : bool := match s with String c _ => negb (ok c) | EmptyString => true end.

Lemma token_unique ok a : forall b x y, all_chars ok a = true -> all_chars ok b = true -> stops ok x = true -> stops ok y = true ->
  a +:+ x = b +:+ y -> a = b /\ x = y.
Proof.
  induction a as [|c a IH]; intros [|e b] x y Ha Hb Hx Hy E; simpl in *.
  - done.
  - change ("" +:+ x) with x in E. rewrite E in Hx. simpl in Hx. destruct (ok e); discriminate.
  - change ("" +:+ y) with y in E. rewrite <- E in Hy. simpl in Hy. destruct (ok c); discriminate.
  - injection E as -> E. apply andb_true_iff in Ha as [_ Ha], Hb as [_ Hb]. by destruct (IH b x y Ha Hb Hx Hy E) as [-> ->].
Qed.

Definition hex_char (c : ascii) : bool := match digit_value c with Some _ => true | None => false end.

Lemma hex_digits_chars n : forall z s, 0 <= z -> all_chars hex_char s = true -> all_chars hex_char (hex_digits n z s) = true.
Proof.
  induction n as [|n IH]; intros z s Hz Hs; [done|]. cbn [hex_digits]. apply IH; [dlia|]. simpl. unfold hex_char.
  rewrite digit_round_trip by dlia. done.
Qed.

Lemma strip_zeros_suffix s : exists n, s = Nat.iter n (String "0"%char) (strip_zeros s).
Proof.
  induction s as [|c s [n IH]]; [by exists 0%nat|].
  destruct s as [|e s]; [by exists 0%nat; destruct c as [[] [] [] [] [] [] [] []]|].
  destruct (decide (c = "0"%char)) as [->|Hc]; [exists (S n); exact (f_equal (String "0"%char) IH)|].
  exists 0%nat. simpl. by destruct c as [[] [] [] [] [] [] [] []].
Qed.

(** The number that all digits of a string stand for. *)
Fixpoint hex_number (acc : Z) (s : string) : Z :=
  match s with String c s => hex_number (acc * 16 + default 0 (digit_value c)) s | EmptyString => acc end.

Lemma hex_number_zeros n s : hex_number 0 (Nat.iter n (String "0"%char) s) = hex_number 0 s.
Proof. induction n as [|n IH]; [done|]. cbn [Nat.iter hex_number]. exact IH. Qed.

Lemma hex_number_digits n : forall z acc s, 0 <= z < 16 ^ Z.of_nat n ->
  hex_number acc (hex_digits n z s) = hex_number (acc * 16 ^ Z.of_nat n + z) s.
Proof.
  induction n as [|n IH]; intros z acc s Hz.
  - simpl in *. f_equal. lia.
  - rewrite Nat2Z.inj_succ, Z.pow_succ_r in Hz |- * by lia. cbn [hex_digits]. rewrite IH by dlia. cbn [hex_number].
    rewrite digit_round_trip by dlia. simpl. f_equal. dlia.
Qed.

Lemma hex_value z : hex_number 0 (hex z) = u32 z.
Proof.
  unfold hex. destruct (strip_zeros_suffix (hex8 z)) as [n E]. rewrite <- (hex_number_zeros n), <- E. unfold hex8.
  pose proof (u32_range z) as Hz. unfold is_u32, two32 in Hz. rewrite hex_number_digits by (change (16 ^ Z.of_nat 8) with 4294967296; lia). simpl. lia.
Qed.

Lemma hex_chars z : all_chars hex_char (hex z) = true.
Proof.
  unfold hex. destruct (strip_zeros_suffix (hex8 z)) as [n E].
  assert (all_chars hex_char (hex8 z) = true) as H8 by (apply hex_digits_chars; [apply u32_range|done]). rewrite E in H8.
  clear E. induction n as [|n IH]; [done|]. apply IH. exact H8.
Qed.

Lemma hex_unique a b x y : stops hex_char x = true -> stops hex_char y = true -> hex a +:+ x = hex b +:+ y -> u32 a = u32 b /\ x = y.
Proof.
  intros Hx Hy E. destruct (token_unique hex_char (hex a) (hex b) x y (hex_chars a) (hex_chars b) Hx Hy E) as [Eh ->].
  split; [|done]. by rewrite <- (hex_value a), <- (hex_value b), Eh.
Qed.

Lemma sapp_cancel a x y : a +:+ x = a +:+ y -> x = y.
Proof. induction a as [|c a IH]; [done|]. intros [= E]. by apply IH. Qed.

(** The text around the value of a register. *)
Definition before_value (i : Z) : string :=
  TAB +:+ (if i =? StackReg then "SP(" else if i =? RetAddrReg then "RA(" else "") +:+ pretty i +:+
  (if i =? StackReg then "):" else if i =? RetAddrReg then "):" else ":") +:+ TAB +:+ "0x".
Definition after_value (i : Z) : string := if cmod i 4 =? 3 then NEWLINE else "".

Lemma dump_register_text m i : dump_register m i = (v ← getR m i; Ok (before_value i +:+ hex v +:+ after_value i)).
Proof.
  unfold dump_register, before_value. fold (after_value i). destruct (getR m i) as [v| | |]; try done. cbn [mbind outcome_bind].
  replace (hex v +:+ after_value i) with (hex v +:+ after_value i +:+ "") by (by rewrite sapp_nil).
  destruct (i =? StackReg); [|destruct (i =? RetAddrReg)]; rewrite !sapp_assoc; reflexivity.
Qed.

Lemma after_value_stops i t : stops hex_char t = true -> stops hex_char (after_value i +:+ t) = true.
Proof. unfold after_value. by destruct (_ =? 3). Qed.

(** The same value, as the 32 bits that are printed, in both machines. *)
Definition same_register (m m' : Machine) (i : Z) : Prop := exists v v', getR m i = Ok v /\ getR m' i = Ok v' /\ u32 v = u32 v'.

Lemma before_value_stops i s : stops hex_char (before_value i +:+ s) = true.
Proof. done. Qed.

Lemma dump_registers_unique m m' l : forall x x' t t', dump_registers m l = Ok x -> dump_registers m' l = Ok x' ->
  stops hex_char t = true -> stops hex_char t' = true -> x +:+ t = x' +:+ t' -> Forall (same_register m m') l /\ t = t'.
Proof.
  induction l as [|i l IH]; cbn [dump_registers]; intros x x' t t' Hx Hx' Ht Ht' E.
  { injection Hx as <-. injection Hx' as <-. by split; [constructor|]. }
  rewrite dump_register_text in Hx, Hx'. destruct (getR m i) as [v| | |] eqn:Hv; try discriminate. destruct (getR m' i) as [v'| | |] eqn:Hv'; try discriminate.
  cbn [mbind outcome_bind] in *. destruct (dump_registers m l) as [r| | |] eqn:Hr; try discriminate. destruct (dump_registers m' l) as [r'| | |] eqn:Hr'; try discriminate.
  injection Hx as <-. injection Hx' as <-. rewrite !sapp_assoc in E. apply sapp_cancel in E.
  assert (forall k r t, dump_registers k l = Ok r -> stops hex_char t = true -> stops hex_char (r +:+ t) = true) as Hrest.
  { clear. destruct l as [|j l]; cbn [dump_registers]; intros k r t Hk Ht; [by injection Hk as <-|].
    rewrite dump_register_text in Hk. destruct (getR k j); try discriminate. cbn [mbind outcome_bind] in Hk. destruct (dump_registers k l); try discriminate.
    by injection Hk as <-. }
  apply hex_unique in E as [Eu E]; [|apply after_value_stops; eauto..]. apply sapp_cancel in E.
  destruct (IH r r' t t' eq_refl eq_refl Ht Ht' E) as [Hall ->]. split; [|done]. constructor; [by exists v, v'|done].
Qed.

Lemma dump_special_text m fmt r pre post : (forall v, printf fmt [PInt v] = Ok (pre +:+ hex v +:+ post)) ->
  dump_special m fmt r = (v ← getR m r; Ok (pre +:+ hex v +:+ post)).
Proof. intros E. unfold dump_special. destruct (getR m r) as [v| | |]; try done. apply E. Qed.

(** A format with the text before and after its only value. *)
Definition one_value (fmt : string) : Prop :=
  exists pre post, (forall v, printf fmt [PInt v] = Ok (pre +:+ hex v +:+ post)) /\ stops hex_char pre = true /\ pre <> ""%string /\
    stops hex_char post = true.

Lemma dump_specials_unique m m' l : Forall (fun p => one_value p.1) l -> forall x x' t t', dump_specials m l = Ok x -> dump_specials m' l = Ok x' ->
  stops hex_char t = true -> stops hex_char t' = true -> x +:+ t = x' +:+ t' -> Forall (fun p => same_register m m' p.2) l /\ t = t'.
Proof.
  induction 1 as [|[fmt i] l (pre & post & Hf & Hpre & Hne & Hpost) Hl IH]; cbn [dump_specials fst] in *; intros x x' t t' Hx Hx' Ht Ht' E.
  { injection Hx as <-. injection Hx' as <-. by split; [constructor|]. }
  rewrite (dump_special_text m fmt i _ _ Hf) in Hx. rewrite (dump_special_text m' fmt i _ _ Hf) in Hx'.
  destruct (getR m i) as [v| | |] eqn:Hv; try discriminate. destruct (getR m' i) as [v'| | |] eqn:Hv'; try discriminate.
  cbn [mbind outcome_bind] in *. destruct (dump_specials m l) as [r| | |] eqn:Hr; try discriminate. destruct (dump_specials m' l) as [r'| | |] eqn:Hr'; try discriminate.
  injection Hx as <-. injection Hx' as <-. rewrite !sapp_assoc in E. apply sapp_cancel in E.
  assert (forall k r t, dump_specials k l = Ok r -> stops hex_char t = true -> stops hex_char (r +:+ t) = true) as Hrest.
  { clear -Hl. destruct Hl as [|[fmt j] l (pre & post & Hf & Hpre & Hne & _) Hl]; cbn [dump_specials]; intros k r t Hk Ht; [by injection Hk as <-|].
    cbn [fst] in Hf. rewrite (dump_special_text _ fmt j _ _ Hf) in Hk. destruct (getR k j); try discriminate. cbn [mbind outcome_bind] in Hk.
    destruct (dump_specials k l); try discriminate. injection Hk as <-. by destruct pre. }
  assert (forall s, stops hex_char s = true -> stops hex_char (post +:+ s) = true) as Hps by (intros s Hs; by destruct post).
  apply hex_unique in E as [Eu E]; [|apply Hps; eauto..]. apply sapp_cancel in E.
  destruct (IH r r' t t' eq_refl eq_refl Ht Ht' E) as [Hall ->]. split; [|done]. constructor; [by exists v, v'|done].
Qed.

Lemma specials_one_value : Forall (fun p => one_value p.1) specials.
Proof.
  assert (forall name nl, (forall v, printf (TAB +:+ name +:+ TAB +:+ "0x%x" +:+ nl) [PInt v] = Ok ((TAB +:+ name +:+ TAB +:+ "0x") +:+ hex v +:+ nl)) ->
    stops hex_char nl = true -> one_value (TAB +:+ name +:+ TAB +:+ "0x%x" +:+ nl)) as H1.
  { intros name nl Hp Hnl. by exists (TAB +:+ name +:+ TAB +:+ "0x"), nl. }
  unfold specials. repeat apply Forall_cons_2; [..|apply Forall_nil_2]; cbn [fst].
  1: apply (H1 "Hi:" ""). 3: apply (H1 "Lo:" NEWLINE). 5: apply (H1 "PC:" ""). 7: apply (H1 "NextPC:" "").
  9: apply (H1 "PrevPC:" NEWLINE). 11: apply (H1 "Load:" ""). 13: apply (H1 "LoadV:" NEWLINE).
  all: reflexivity.
Qed.

Definition shown_registers : list Z := seqZ 0 NumGPRegs ++ map snd specials.

(** The dump of the machine shows it completely: two machines whose dumps are the same text have the
    same values in all general registers, in Hi and Lo, in the three program counters and in the
    delayed load. *)
Theorem dump_unambiguous m m' text :
  Machine_DumpState m = Ok text -> Machine_DumpState m' = Ok text -> Forall (same_register m m') shown_registers.
Proof.
  unfold Machine_DumpState. intros H1 H2.
  apply bind_ok in H1 as (r & Hr & H1). apply bind_ok in H1 as (x & Hx & H1). apply bind_ok in H2 as (r' & Hr' & H2). apply bind_ok in H2 as (x' & Hx' & H2).
  injection H1 as <-. injection H2 as E.
  assert (forall k y, dump_specials k specials = Ok y -> stops hex_char (y +:+ NEWLINE) = true) as Hst.
  { intros k y Hy. pose proof specials_one_value as Hs. unfold specials in *. inversion_clear Hs as [|? ? (pre & post & Hf & Hp & Hne & _) _].
    cbn [dump_specials fst] in Hy, Hf. rewrite (dump_special_text k _ HiReg _ _ Hf) in Hy. apply bind_ok in Hy as (z & Hz & Hy). apply bind_ok in Hz as (v & _ & [= <-]).
    apply bind_ok in Hy as (w & _ & [= <-]). by destruct pre. }
  destruct (dump_registers_unique m m' _ r r' (x +:+ NEWLINE) (x' +:+ NEWLINE) Hr Hr') as [Hall Es]; [by eapply Hst..|by symmetry|].
  destruct (dump_specials_unique m m' _ specials_one_value x x' NEWLINE NEWLINE Hx Hx') as [Hsp _]; [done..|].
  unfold shown_registers. apply Forall_app. split; [done|]. by apply Forall_map.
Qed.

Lemma dump_unambiguous_witness : Forall (same_register Machine_new Machine_new) shown_registers.
Proof.
  assert (match Machine_DumpState Machine_new with Ok _ => True | _ => False end) as Hd by (vm_compute; exact I).
  destruct (Machine_DumpState Machine_new) as [text| | |] eqn:E; try contradiction.
  exact (dump_unambiguous Machine_new Machine_new text E E).
Defined.

Example statistics_text : Statistics_Print Statistics_new = Ok (
  "Ticks: total 0, idle 0, system 0, user 0" +:+ NEWLINE +:+ "Disk I/O: reads 0, writes 0" +:+ NEWLINE +:+
  "Console I/O: reads 0, writes 0" +:+ NEWLINE +:+ "Paging: faults 0" +:+ NEWLINE +:+ "Network I/O: packets received 0, sent 0" +:+ NEWLINE).
Proof. vm_compute. reflexivity. Qed.
