(* ===== verification/NetTest.v ===== *)
(** * network/nettest.cc: MailTest on two machines

    Each machine sends a message to the other one, waits for the other's message,
    acknowledges it and waits for the acknowledgement. The two machines run in any order:
    a step is a step of the test on one of them, the interrupt after a packet was sent, a poll
    of its socket, or the postal worker. A step of the test comes with the number that
    [Random] returns; the device loses the packet when its remainder by 100 is not below
    [chance], the percentage of packets that arrive. What it does give to the sockets of the
    host these keep, in order. *)

From Stdlib Require Import String Ascii.
From stdpp Require Import prelude numbers list gmap.
From S2P Require Import Prelude Params CList Interrupt FileHdr Directory OpenFile Network.

Open Scope Z_scope.

(** The characters of a string with the final 0. *)
Definition text (s : string) : list Z := map (fun c => Z.of_nat (nat_of_ascii c)) (list_ascii_of_string s) ++ [0].

Definition hello : list Z := text "Hello there!".
Definition ack : list Z := text "Got it!".

(** The place in [MailTest], the headers of the last message received, and the lines printed: the message,
    the sender and the box for the answer. *)
Record test := mkTest { t_pc : nat; t_inPktHdr : PacketHeader; t_inMailHdr : MailHeader; t_printed : list (list Z * Z * Z) }.

Definition at_pc (t : test) (pc : nat) : test := mkTest pc (t_inPktHdr t) (t_inMailHdr t) (t_printed t).

Section nettest.
Context `{Fresh}.
Context (NetworkReadPoll NetworkSendDone this : Z) (garbage : PacketHeader).
(** [chanceToWork * 100], rounded up: 100 for a network that loses nothing. *)
Context (chance : Z).

(** [Random() % 100 >= chanceToWork * 100]; [r] is the number that [Random] returns. *)
Definition loses (r : Z) : bool := chance <=? cmod r 100.

(** [Send] up to the wait for the interrupt; a packet was handed to the device, which may have
    lost it ([Some None]). And [Receive] with the line that is printed. *)
Definition send_step (r : Z) (t : test) (w : world station) (to : Z) (mailHdr : MailHeader) (data : list Z)
    : outcome (answer (test * option (option (Z * list Z)) * world station)) :=
  a ← PostOffice_Send NetworkSendDone this w (loses r) (mkPacket to (pk_from garbage) (pk_length garbage)) mailHdr data;
  match a with
  | Blocks => Ok Blocks
  | Returns (out, w) => Ok (Returns (at_pc t (S (t_pc t)), Some out, w))
  end.

Definition receive_step (t : test) (w : world station) (box : Z) : outcome (answer (test * option (option (Z * list Z)) * world station)) :=
  a ← PostOffice_Receive w box;
  match a with
  | Blocks => Ok Blocks
  | Returns (pktHdr, mailHdr, data, w) =>
      Ok (Returns (mkTest (S (t_pc t)) pktHdr mailHdr (t_printed t ++ [(data, pk_from pktHdr, mh_from mailHdr)]), None, w))
  end.

Definition send_end_step (t : test) (w : world station) : outcome (answer (test * option (option (Z * list Z)) * world station)) :=
  match PostOffice_Send_end w with
  | Blocks => Ok Blocks
  | Returns w => Ok (Returns (at_pc t (S (t_pc t)), None, w))
  end.

(** A step of [MailTest]; after the last one the machine halts. *)
Definition MailTest (farAddr r : Z) (t : test) (w : world station) : outcome (answer (test * option (option (Z * list Z)) * world station)) :=
  match t_pc t with
  | 0%nat => send_step r t w farAddr (mkMailHdr 0 1 (Z.of_nat (length hello))) hello
  | 1%nat => send_end_step t w
  | 2%nat => receive_step t w 0
  | 3%nat => send_step r t w (pk_from (t_inPktHdr t)) (mkMailHdr (mh_from (t_inMailHdr t)) 1 (Z.of_nat (length ack))) ack
  | 4%nat => send_end_step t w
  | 5%nat => receive_step t w 1
  | _ => Ok Blocks
  end.

(** ** Two machines *)

(** A machine: its test, device and post office, the buffer of the postal worker, the datagrams in
    its socket and the interrupts of the sender that have not occurred yet. *)
Record side := mkSide { s_test : test; s_world : world station; s_buffer : list Z; s_socket : list (list Z); s_pending : nat }.

Definition system : Type := side * side.
Definition get (who : bool) (s : system) : side := if who then s.1 else s.2.
Definition set (who : bool) (x : side) (s : system) : system := if who then (x, s.2) else (s.1, x).

Inductive action := Program (r : Z) | SendInterrupt | PollInterrupt | Postman.

Context (adr : bool -> Z).

(** The datagram arrives in the socket with its address; without one the assertion of [SendToSocket] fails. *)
Definition post_datagram (who : bool) (out : option (option (Z * list Z))) (s : system) : outcome system :=
  match out with
  | None | Some None => Ok s
  | Some (Some (to, wire)) =>
      ASSERT (to =? adr (negb who));;
      let y := get (negb who) s in
      Ok (set (negb who) (mkSide (s_test y) (s_world y) (s_buffer y) (s_socket y ++ [wire]) (s_pending y)) s)
  end.

(** A step of a machine; [None] when there is nothing to do for it. *)
Definition act (who : bool) (a : action) (s : system) : outcome (option system) :=
  let x := get who s in
  match a with
  | Program r =>
      a ← MailTest (adr (negb who)) r (s_test x) (s_world x);
      match a with
      | Blocks => Ok None
      | Returns (t, out, w) =>
          let pending := match out with Some _ => S (s_pending x) | None => s_pending x end in
          s ← post_datagram who out (set who (mkSide t w (s_buffer x) (s_socket x) pending) s);
          Ok (Some s)
      end
  | SendInterrupt =>
      match s_pending x with
      | O => Ok None
      | S k =>
          w ← SendDone PacketSent (s_world x);
          Ok (Some (set who (mkSide (s_test x) w (s_buffer x) (s_socket x) k) s))
      end
  | PollInterrupt =>
      match s_socket x with
      | [] => Ok None
      | wire :: rest =>
          '(taken, w) ← CheckPktAvail NetworkReadPoll this IncomingPacket (s_world x) (Some wire);
          Ok (if (taken : bool) then Some (set who (mkSide (s_test x) w (s_buffer x) rest (s_pending x)) s) else None)
      end
  | Postman =>
      r ← PostalDelivery_iter (s_world x) (s_buffer x);
      match r with
      | Blocks => Ok None
      | Returns (buffer, w) => Ok (Some (set who (mkSide (s_test x) w buffer (s_socket x) (s_pending x)) s))
      end
  end.

(** The systems that steps in any order lead to. *)
Inductive reachable (s : system) : system -> Prop :=
| reach_start : reachable s s
| reach_step who a s1 s2 : reachable s s1 -> act who a s1 = Ok (Some s2) -> reachable s s2.
End nettest.

(** ** The invariant *)

Section proof.
Context `{FreshLaws}.
Context (poll sdone this : Z) (garbage : PacketHeader) (chance : Z) (adr : bool -> Z) (n : Z).
Context (Hn : 2 <= n < two31) (Hadr : forall b, is_s32 (adr b)).

(** Message [k] of a machine: first its own, then the acknowledgement. *)
Definition hdr (k : nat) : MailHeader := match k with O => mkMailHdr 0 1 (Z.of_nat (length hello)) | S _ => mkMailHdr 1 1 (Z.of_nat (length ack)) end.
Definition dat (k : nat) : list Z := match k with O => hello | S _ => ack end.
Definition pkt (who : bool) : PacketHeader := mkPacket (adr (negb who)) (pk_from garbage) (pk_length garbage).
Definition head_of (who : bool) (k : nat) : PacketHeader := sent_header (pkt who) (hdr k) (adr who).

Lemma message_sendable who k : sendable (pkt who) (hdr k) (dat k) (adr who) n.
Proof.
  split; [split; apply Hadr| |destruct k; split; vm_compute; congruence|].
  - destruct k; simpl; lia.
  - destruct k; simpl; lia.
Qed.

Lemma message_payload k : payload (hdr k) (dat k) = dat k.
Proof. by destruct k. Qed.

Lemma hdr_box k : (k < 2)%nat -> mh_to (hdr k) = Z.of_nat k.
Proof. intros Hk. destruct k as [|[|k]]; [done|done|lia]. Qed.

(** What the place in the test says: messages sent, messages received, and whether it is inside [Send]. *)
Definition sent (pc : nat) : nat := if (pc <? 1)%nat then 0 else if (pc <? 4)%nat then 1 else 2.
Definition received (pc : nat) : nat := if (pc <? 3)%nat then 0 else if (pc <? 6)%nat then 1 else 2.
Definition in_send (pc : nat) : bool := (pc =? 1)%nat || (pc =? 4)%nat.

(** The lines that a machine prints. *)
Definition line (who : bool) (k : nat) : list Z * Z * Z := (dat k, adr (negb who), 1).

Record side_ok (who : bool) (x : side) : Prop := {
  so_pc : (t_pc (s_test x) <= 6)%nat;
  so_addr : netAddr (post (s_world x)) = adr who /\ ident (net (s_world x)) = adr who;
  so_boxes : numBoxes (post (s_world x)) = n;
  so_busy : sendBusy (net (s_world x)) = false;
  so_lock : sendLock (post (s_world x)) = in_send (t_pc (s_test x));
  so_sent : 0 <= messageSent (post (s_world x)) /\
    Z.of_nat (s_pending x) + messageSent (post (s_world x)) = if in_send (t_pc (s_test x)) then 1 else 0;
  so_inbox : length (inbox (net (s_world x))) = 52%nat;
  so_buffer : length (s_buffer x) = 52%nat;
  so_last : t_pc (s_test x) = 3%nat -> t_inPktHdr (s_test x) = head_of (negb who) 0 /\ t_inMailHdr (s_test x) = hdr 0;
  so_printed : t_printed (s_test x) = map (line who) (seq 0 (received (t_pc (s_test x)))) }.

Definition mail_is (who : bool) (k : nat) (mail : Mail) : Prop :=
  m_pktHdr mail = head_of who k /\ m_mailHdr mail = hdr k /\ length (m_data mail) = 40%nat /\
  take (Z.to_nat (mh_length (hdr k))) (m_data mail) = dat k.

(** The contents of box [k] when the messages [D] were delivered and the first [r] received. *)
Definition box_is (who : bool) (r : nat) (D : list nat) (k : nat) (q : queue Mail) : Prop :=
  if (r <=? k)%nat && bool_decide (k ∈ D) then exists mail, q = [(0, mail)] /\ mail_is who k mail else q = [].

(** Of the [m] messages that [who] sent to [y], [D] were delivered to the boxes, [V] is in the
    device, those of [S] are in the socket and the others were lost. *)
Record link_at (who : bool) (m : nat) (y : side) (D : list nat) (V : option nat) (S : list nat) : Prop := {
  li_once : NoDup (D ++ option_list V ++ S);
  li_sent k : k ∈ D ++ option_list V ++ S -> (k < m)%nat;
  li_reliable k : 100 <= chance -> (k < m)%nat -> k ∈ D ++ option_list V ++ S;
  li_two : (m <= 2)%nat;
  li_received k : (k < received (t_pc (s_test y)))%nat -> k ∈ D;
  li_socket : Forall2 (fun k => carries (pkt who) (hdr k) (dat k) (adr who)) S (s_socket y);
  li_available : messageAvailable (post (s_world y)) = if V is Some _ then 1 else 0;
  li_free : V = None -> pk_length (inHdr (net (s_world y))) = 0;
  li_device k : V = Some k -> buffered (pkt who) (hdr k) (dat k) (adr who) (s_world y);
  li_boxes k : (k < 2)%nat -> exists q, boxes (post (s_world y)) !! k = Some q /\ box_is who (received (t_pc (s_test y))) D k q }.
Definition link (who : bool) (m : nat) (y : side) : Prop := exists D V S, link_at who m y D V S.

Definition invariant (s : system) : Prop :=
  forall who, side_ok who (get who s) /\ link who (sent (t_pc (s_test (get who s)))) (get (negb who) s).

(** The receiver's side of a link does not depend on anything else. *)
Lemma link_frame who m y y' : s_socket y' = s_socket y -> received (t_pc (s_test y')) = received (t_pc (s_test y)) ->
  inHdr (net (s_world y')) = inHdr (net (s_world y)) -> inbox (net (s_world y')) = inbox (net (s_world y)) ->
  messageAvailable (post (s_world y')) = messageAvailable (post (s_world y)) -> boxes (post (s_world y')) = boxes (post (s_world y)) ->
  link who m y -> link who m y'.
Proof.
  intros Es Er Eh Ei Ea Eb (D & V & S & []). exists D, V, S. split; rewrite ?Es, ?Er, ?Eh, ?Ea, ?Eb; try done.
  intros k Hv. destruct (li_device0 k Hv) as [B1 B2 B3]. split; by rewrite ?Eh, ?Ei.
Qed.

(** Another message: its datagram is in the socket, or it was lost. *)
Lemma link_append who m y t w b k wire : (m < 2)%nat -> carries (pkt who) (hdr m) (dat m) (adr who) wire ->
  link who m y -> s_test y = t -> s_world y = w -> link who (S m) (mkSide t w b (s_socket y ++ [wire]) k).
Proof.
  intros Hm Hw (D & V & S & []) <- <-. exists D, V, (S ++ [m]). rewrite !app_assoc in *.
  split; cbn [s_test s_world s_socket]; try done; rewrite ?app_assoc.
  - apply NoDup_app. split; [done|]. split; [|apply NoDup_singleton]. intros j Hj ->%list_elem_of_singleton. apply li_sent0 in Hj. lia.
  - intros j. rewrite elem_of_app, list_elem_of_singleton. intros [Hj| ->]; [apply li_sent0 in Hj; lia|lia].
  - intros j Hc Hj. rewrite elem_of_app, list_elem_of_singleton. destruct (decide (j = m)); [by right|left; apply li_reliable0; [done|lia]].
  - apply Forall2_app; [done|]. by repeat constructor.
Qed.

Lemma link_lost who m y : chance < 100 -> (m < 2)%nat -> link who m y -> link who (S m) y.
Proof.
  intros Hc Hm (D & V & S & []). exists D, V, S. split; try done; intros k; [intros Hk%li_sent0; lia|lia].
Qed.

Lemma get_set who x s : get who (set who x s) = x.
Proof. by destruct who. Qed.
Lemma get_set_other who x s : get (negb who) (set who x s) = get (negb who) s.
Proof. by destruct who. Qed.
Lemma get_set_self who x s : get who (set (negb who) x s) = get who s.
Proof. by destruct who. Qed.

(** The invariant from the two sides of the machine that moved. *)
Lemma invariant_two who s : side_ok who (get who s) -> side_ok (negb who) (get (negb who) s) ->
  link who (sent (t_pc (s_test (get who s)))) (get (negb who) s) ->
  link (negb who) (sent (t_pc (s_test (get (negb who) s)))) (get who s) -> invariant s.
Proof. intros H1 H2 H3 H4 who'. by destruct who, who'. Qed.

Definition weight (x : side) : nat :=
  (7 * (6 - t_pc (s_test x)) + s_pending x + 2 * length (s_socket x) + Z.to_nat (messageAvailable (post (s_world x))))%nat.
Definition measure (s : system) : nat := (weight s.1 + weight s.2)%nat.

Lemma measure_sides who s : measure s = (weight (get who s) + weight (get (negb who) s))%nat.
Proof. destruct who; [done|]. unfold measure. simpl. lia. Qed.

(** ** The steps *)

(** The parts of [side_ok] that do not change when the device and the counters of the post office do. *)
Lemma send_step_ok who r x : side_ok who x -> t_pc (s_test x) = 0%nat \/ t_pc (s_test x) = 3%nat ->
  exists wire w', MailTest sdone this garbage chance (adr (negb who)) r (s_test x) (s_world x) =
      Ok (Returns (at_pc (s_test x) (S (t_pc (s_test x))), Some (if loses chance r then None else Some (adr (negb who), wire)), w')) /\
    carries (pkt who) (hdr (sent (t_pc (s_test x)))) (dat (sent (t_pc (s_test x)))) (adr who) wire /\ net w' = net (s_world x) /\
    post w' = set_synch (post (s_world x)) (messageAvailable (post (s_world x))) (messageSent (post (s_world x))) true.
Proof.
  intros Hok Hpc. destruct (so_addr _ _ Hok) as [Ha Hi]. pose proof (so_lock _ _ Hok) as Hl.
  assert (exists k, MailTest sdone this garbage chance (adr (negb who)) r (s_test x) (s_world x) =
    send_step sdone this garbage chance r (s_test x) (s_world x) (adr (negb who)) (hdr k) (dat k) /\ sent (t_pc (s_test x)) = k /\
    in_send (t_pc (s_test x)) = false) as (k & -> & Hk & Hin).
  { unfold MailTest. destruct Hpc as [E|E]; [exists 0%nat; by rewrite E|]. destruct (so_last _ _ Hok E) as [E1 E2]. exists 1%nat. rewrite E, E1, E2.
    unfold head_of, sent_header. cbn [pk_from]. by destruct who. }
  rewrite Hk. rewrite Hin in Hl. unfold send_step.
  destruct (send_ok (pkt who) (hdr k) (dat k) (adr who) sdone this (s_world x) n (loses chance r) (message_sendable who k)) as (wire & w' & Hs & Hc & Hnet & Hpost);
    [apply Hok|done|done|apply Hok|done|].
  unfold pkt in Hs. cbn [pk_to] in Hs. rewrite Hs. cbn [mbind outcome_bind]. by exists wire, w'.
Qed.

Lemma send_side_ok who x w' : side_ok who x -> t_pc (s_test x) = 0%nat \/ t_pc (s_test x) = 3%nat -> net w' = net (s_world x) ->
  post w' = set_synch (post (s_world x)) (messageAvailable (post (s_world x))) (messageSent (post (s_world x))) true ->
  side_ok who (mkSide (at_pc (s_test x) (S (t_pc (s_test x)))) w' (s_buffer x) (s_socket x) (S (s_pending x))).
Proof.
  intros [] Hpc En Ep. split; cbn [s_test s_world s_buffer s_pending at_pc t_pc t_inPktHdr t_inMailHdr t_printed];
    rewrite ?En, ?Ep; cbn [set_synch netAddr numBoxes sendLock messageSent]; try done.
  - lia.
  - destruct Hpc as [E|E]; by rewrite E.
  - destruct Hpc as [E|E]; rewrite E in *; cbn in so_sent0 |- *; lia.
  - destruct Hpc as [E|E]; rewrite E; lia.
  - rewrite so_printed0. destruct Hpc as [E|E]; by rewrite E.
Qed.

(** What a step has to show. *)
Definition moves (who : bool) (a : action) (s : system) : Prop :=
  exists s', act poll sdone this garbage chance adr who a s = Ok (Some s') /\ invariant s' /\ (measure s' < measure s)%nat.
Definition rests (who : bool) (a : action) (s : system) : Prop := act poll sdone this garbage chance adr who a s = Ok None.

Lemma sent_next pc : pc = 0%nat \/ pc = 3%nat -> sent (S pc) = S (sent pc) /\ received (S pc) = received pc /\ (sent pc < 2)%nat.
Proof. intros [-> | ->]; by split_and!; vm_compute; lia. Qed.

Lemma loses_chance r : loses chance r = true -> chance < 100.
Proof. unfold loses, cmod. intros Hl%Z.leb_le. pose proof (Z.rem_bound_abs r 100 ltac:(lia)). lia. Qed.

Lemma program_sends who r s : invariant s -> t_pc (s_test (get who s)) = 0%nat \/ t_pc (s_test (get who s)) = 3%nat -> moves who (Program r) s.
Proof.
  intros Hinv Hpc. destruct (Hinv who) as [Hx Lx]. destruct (Hinv (negb who)) as [Hy Ly]. rewrite negb_involutive in Ly.
  set (x := get who s) in *. set (y := get (negb who) s) in *.
  destruct (send_step_ok who r x Hx Hpc) as (wire & w' & Hm & Hc & En & Ep). destruct (sent_next _ Hpc) as (Hs & Hr & Hlt).
  unfold moves, act. fold x. rewrite Hm. cbn [mbind outcome_bind]. set (x' := mkSide _ w' _ _ _).
  set (y' := if loses chance r then y else mkSide (s_test y) (s_world y) (s_buffer y) (s_socket y ++ [wire]) (s_pending y)).
  exists (set (negb who) y' (set who x' s)).
  assert (get who (set (negb who) y' (set who x' s)) = x') as Gx by (by rewrite get_set_self, get_set).
  assert (get (negb who) (set (negb who) y' (set who x' s)) = y') as Gy by apply get_set.
  assert (s_test y' = s_test y /\ s_world y' = s_world y /\ s_pending y' = s_pending y /\ (length (s_socket y') <= S (length (s_socket y)))%nat)
    as (Et & Ew & Epe & Els) by (unfold y'; destruct (loses chance r); cbn; rewrite ?length_app; simpl; split_and!; done || lia).
  split; [|split].
  - unfold post_datagram. destruct (loses chance r); cbn [mbind outcome_bind]; unfold y', y; [by destruct who, s|].
    rewrite Z.eqb_refl. cbn [ASSERT mbind outcome_bind]. by rewrite get_set_other.
  - apply (invariant_two who); rewrite ?Gx, ?Gy.
    + by apply send_side_ok.
    + unfold y'. destruct (loses chance r); [done|]. by destruct Hy; split.
    + cbn [x' s_test at_pc t_pc]. rewrite Hs. unfold y'. destruct (loses chance r) eqn:El; [|by eapply link_append].
      apply link_lost; [by eapply loses_chance|done|done].
    + rewrite Et. eapply (link_frame _ _ x); try done; cbn [x' s_test s_world at_pc t_pc]; rewrite ?En, ?Ep; done.
  - rewrite !(measure_sides who), Gx, Gy. fold x y. unfold weight. rewrite Et, Ew, Epe. cbn [x' s_test s_world s_socket s_pending at_pc t_pc]. rewrite Ep.
    cbn [set_synch messageAvailable]. pose proof (so_pc _ _ Hx). destruct Hpc as [E|E]; rewrite E in *; lia.
Qed.

(** After the interrupt, [Send] returns. *)
Lemma program_sent who r s : invariant s -> t_pc (s_test (get who s)) = 1%nat \/ t_pc (s_test (get who s)) = 4%nat ->
  messageSent (post (s_world (get who s))) <> 0 -> moves who (Program r) s.
Proof.
  intros Hinv Hpc Hsent. destruct (Hinv who) as [Hx Lx]. destruct (Hinv (negb who)) as [Hy Ly]. rewrite negb_involutive in Ly.
  set (x := get who s) in *. set (y := get (negb who) s) in *.
  assert (in_send (t_pc (s_test x)) = true) as Hin by (destruct Hpc as [-> | ->]; done).
  assert (MailTest sdone this garbage chance (adr (negb who)) r (s_test x) (s_world x) = send_end_step (s_test x) (s_world x)) as Hm
    by (unfold MailTest; destruct Hpc as [-> | ->]; done).
  unfold moves, act. fold x. rewrite Hm. unfold send_end_step, PostOffice_Send_end. rewrite (proj2 (Z.eqb_neq _ _)) by done.
  cbn [mbind outcome_bind post_datagram]. eexists. split; [done|]. set (x' := mkSide _ _ _ _ _).
  pose proof (so_sent _ _ Hx) as Hms. rewrite Hin in Hms. split.
  - apply (invariant_two who); rewrite ?get_set, ?get_set_other; fold y.
    + destruct Hx. split; cbn; try done.
      * lia.
      * destruct Hpc as [-> | ->]; done.
      * destruct Hpc as [-> | ->]; cbn; lia.
      * destruct Hpc as [-> | ->]; lia.
      * rewrite so_printed0. destruct Hpc as [-> | ->]; done.
    + done.
    + replace (sent (t_pc (s_test x'))) with (sent (t_pc (s_test x))) by (simpl; destruct Hpc as [-> | ->]; done). done.
    + eapply (link_frame _ _ x); try done. simpl. destruct Hpc as [-> | ->]; done.
  - rewrite !(measure_sides who), get_set, get_set_other. fold x y. unfold weight. cbn. destruct Hpc as [-> | ->]; lia.
Qed.

Definition waits_for (pc k : nat) : Prop := pc = 2%nat /\ k = 0%nat \/ pc = 5%nat /\ k = 1%nat.

Lemma waits_received pc k : waits_for pc k ->
  received pc = k /\ received (S pc) = S k /\ sent (S pc) = sent pc /\ in_send pc = false /\ in_send (S pc) = false /\ (k < 2)%nat.
Proof. intros [[-> ->]|[-> ->]]; by split_and!; vm_compute; lia. Qed.

Lemma waits_step who r x k : waits_for (t_pc (s_test x)) k ->
  MailTest sdone this garbage chance (adr (negb who)) r (s_test x) (s_world x) = receive_step (s_test x) (s_world x) (Z.of_nat k).
Proof. unfold MailTest. intros [[-> ->]|[-> ->]]; done. Qed.

(** The box after its message was received. *)
Lemma box_received who r D k q : (k < 2)%nat -> k <> r -> box_is who r D k q -> box_is who (S r) D k q.
Proof.
  unfold box_is. intros Hk Hne. replace (S r <=? k)%nat with (r <=? k)%nat; [done|].
  destruct (Nat.leb_spec r k), (Nat.leb_spec (S r) k); try done; lia.
Qed.

Lemma link_received who m x D V S k t w' b : link_at who m x D V S -> received (t_pc (s_test x)) = k -> received (t_pc t) = Datatypes.S k -> k ∈ D ->
  net w' = net (s_world x) -> messageAvailable (post w') = messageAvailable (post (s_world x)) ->
  boxes (post w') = <[k := []]> (boxes (post (s_world x))) -> link who m (mkSide t w' b (s_socket x) (s_pending x)).
Proof.
  intros [] Hk Hk' Hd En Ea Eb. exists D, V, S. split; cbn [s_test s_world s_socket]; rewrite ?En, ?Ea, ?Hk'; try done.
  - intros j Hj. destruct (decide (j = k)) as [->|]; [done|]. apply li_received0. lia.
  - intros j Hv. destruct (li_device0 j Hv) as [B1 B2 B3]. split; by rewrite En.
  - intros j Hj. destruct (li_boxes0 j Hj) as (q & Hq & Hb). rewrite Eb. destruct (decide (j = k)) as [->|Hne].
    + exists []. split; [by apply list_lookup_insert_eq; eapply lookup_lt_Some|]. unfold box_is. by rewrite (proj2 (Nat.leb_gt _ _)) by lia.
    + exists q. split; [by rewrite list_lookup_insert_ne|]. rewrite Hk in Hb. by apply box_received.
Qed.

Lemma program_receives who r s k D V S : invariant s -> waits_for (t_pc (s_test (get who s))) k ->
  link_at (negb who) (sent (t_pc (s_test (get (negb who) s)))) (get who s) D V S -> k ∈ D -> moves who (Program r) s.
Proof.
  intros Hinv Hpc L Hd. destruct (Hinv who) as [Hx Lx]. destruct (Hinv (negb who)) as [Hy _].
  set (x := get who s) in *. set (y := get (negb who) s) in *. destruct (waits_received _ _ Hpc) as (Hr & Hr' & Hs & Hi & Hi' & Hk2).
  destruct (li_boxes _ _ _ _ _ _ L k Hk2) as (q & Hq & Hb). unfold box_is in Hb. rewrite Hr, Nat.leb_refl, bool_decide_eq_true_2 in Hb by done.
  destruct Hb as (mail & -> & M1 & M2 & M3 & M4). pose proof (hdr_box k Hk2) as Hbox.
  destruct (receive_ok (pkt (negb who)) (hdr k) (dat k) (adr (negb who)) (s_world x) n mail []) as (w' & Hrec & Eb & En & Ep);
    [apply message_sendable|apply Hx|by rewrite Hbox, Nat2Z.id|done|done|done|by rewrite message_payload|].
  rewrite Hbox in Hrec, Eb. rewrite Nat2Z.id in Eb.
  unfold moves, act. fold x. rewrite (waits_step who r x k Hpc). unfold receive_step. rewrite Hrec. cbn [mbind outcome_bind post_datagram].
  eexists. split; [done|]. set (x' := mkSide _ w' _ _ _).
  assert (messageAvailable (post w') = messageAvailable (post (s_world x)) /\ messageSent (post w') = messageSent (post (s_world x)) /\
    sendLock (post w') = sendLock (post (s_world x)) /\ netAddr (post w') = netAddr (post (s_world x)) /\ numBoxes (post w') = numBoxes (post (s_world x)))
    as (Ea & Es & El & Ena & Enb) by (rewrite Ep; done).
  split.
  - apply (invariant_two who); rewrite ?get_set, ?get_set_other; fold y.
    + destruct Hx. split; cbn [x' s_test s_world s_buffer s_pending t_pc t_inPktHdr t_inMailHdr t_printed]; rewrite ?En, ?Es, ?El, ?Ena, ?Enb, ?Hi'; try done.
      * destruct Hpc as [[-> _]|[-> _]]; lia.
      * by rewrite so_lock0.
      * by rewrite Hi in so_sent0.
      * destruct Hpc as [[-> ->]|[-> ->]]; [by intros _; destruct who|done].
      * rewrite so_printed0, Hr, Hr', seq_S, map_app, message_payload. f_equal. simpl. by destruct Hpc as [[_ ->]|[_ ->]].
    + done.
    + cbn [x' s_test t_pc]. by rewrite Hs.
    + eapply link_received; try done.
  - rewrite !(measure_sides who), get_set, get_set_other. fold x y. unfold weight. cbn [x' s_test s_world s_socket s_pending t_pc]. rewrite Ea.
    destruct Hpc as [[-> _]|[-> _]]; lia.
Qed.

Lemma interrupt_moves who s : invariant s -> s_pending (get who s) <> 0%nat -> moves who SendInterrupt s.
Proof.
  intros Hinv Hp. destruct (Hinv who) as [Hx Lx]. destruct (Hinv (negb who)) as [Hy Ly]. rewrite negb_involutive in Ly.
  set (x := get who s) in *. set (y := get (negb who) s) in *. unfold moves, act. fold x.
  destruct (s_pending x) as [|k] eqn:Ek; [done|]. unfold SendDone, PacketSent. cbn [mbind outcome_bind]. eexists. split; [done|]. set (x' := mkSide _ _ _ _ _).
  split.
  - apply (invariant_two who); rewrite ?get_set, ?get_set_other; fold y; try done.
    + destruct Hx. split; cbn; try done. rewrite Ek in so_sent0. lia.
    + by eapply (link_frame _ _ x).
  - rewrite !(measure_sides who), get_set, get_set_other. fold x y. unfold weight. cbn. rewrite Ek. lia.
Qed.

(** The device takes the next packet over when it is free. *)
Lemma poll_moves who s D S : invariant s -> link_at (negb who) (sent (t_pc (s_test (get (negb who) s)))) (get who s) D None S ->
  s_socket (get who s) <> [] -> moves who PollInterrupt s.
Proof.
  intros Hinv L Hne. destruct (Hinv who) as [Hx Lx]. destruct (Hinv (negb who)) as [Hy _].
  set (x := get who s) in *. set (y := get (negb who) s) in *. unfold moves, act. fold x.
  destruct (s_socket x) as [|wire rest] eqn:Es; [done|]. destruct L. rewrite Es in li_socket0.
  apply Forall2_cons_inv_r in li_socket0 as (k & S' & Hw & Hrest & ->).
  destruct (poll_ok (pkt (negb who)) (hdr k) (dat k) (adr (negb who)) poll this (s_world x) wire n (message_sendable _ _) Hw) as
    (w' & -> & Hbf & Ei & Ebusy & Ep); [by rewrite (proj2 (so_addr _ _ Hx)); destruct who|by apply li_free0|apply Hx|].
  cbn [mbind outcome_bind]. eexists. split; [done|]. set (x' := mkSide _ w' _ _ _). split.
  - apply (invariant_two who); rewrite ?get_set, ?get_set_other; fold y; try done.
    + destruct Hx. split; cbn [x' s_test s_world s_buffer s_pending]; rewrite ?Ei, ?Ebusy, ?Ep; try done. apply Hbf.
    + exists D, (Some k), S'. split; cbn [x' s_test s_world s_socket]; rewrite ?Ep; try done.
      * cbn [set_synch messageAvailable]. by rewrite li_available0.
      * by intros ? [= <-].
  - rewrite !(measure_sides who), get_set, get_set_other. fold x y. unfold weight. cbn [x' s_test s_world s_socket s_pending].
    rewrite Ep, Es. cbn [set_synch messageAvailable length]. rewrite li_available0. lia.
Qed.

(** Box [k] after message [d], which was in the device, was delivered. *)
Lemma box_delivered who r D d k q mail : (r <= d)%nat -> d ∉ D -> mail_is who d mail -> box_is who r D k q ->
  box_is who r (D ++ [d]) k (if decide (k = d) then q_append mail q else q).
Proof.
  unfold box_is. intros Hr Hd Hm Hb. destruct (decide (k = d)) as [->|Hne].
  - rewrite (bool_decide_eq_false_2 (d ∈ D)), andb_false_r in Hb by done. subst q.
    rewrite (proj2 (Nat.leb_le _ _)), bool_decide_eq_true_2 by (lia || set_solver). by exists mail.
  - by replace (bool_decide (k ∈ D ++ [d])) with (bool_decide (k ∈ D)) by (apply bool_decide_ext; set_solver).
Qed.

Lemma postman_moves who s D d S : invariant s -> link_at (negb who) (sent (t_pc (s_test (get (negb who) s)))) (get who s) D (Some d) S ->
  moves who Postman s.
Proof.
  intros Hinv L. destruct (Hinv who) as [Hx Lx]. destruct (Hinv (negb who)) as [Hy _].
  set (x := get who s) in *. set (y := get (negb who) s) in *. unfold moves, act. fold x. destruct L. cbn [option_list] in *.
  assert (d < sent (t_pc (s_test y)))%nat as Hdm by (apply li_sent0, elem_of_app; right; left).
  assert (d < 2)%nat as Hd by lia.
  assert (d ∉ D) as HnD by (intros Hin; apply NoDup_app in li_once0 as (_ & Hdis & _); apply (Hdis d Hin); left).
  assert (received (t_pc (s_test x)) <= d)%nat as Hrd by (destruct (Nat.le_gt_cases (received (t_pc (s_test x))) d); [done|]; by apply li_received0 in H1).
  destruct (li_boxes0 d Hd) as (q & Hq & Hb). pose proof (hdr_box d Hd) as Hbox.
  destruct (deliver_ok (pkt (negb who)) (hdr d) (dat d) (adr (negb who)) (s_world x) (s_buffer x) n q) as
    (buffer' & w' & mail & -> & Hbl & M1 & M2 & M3 & M4 & Eb & En & Ea & El & Ep & Enet);
    [apply message_sendable|by apply li_device0|apply Hx|by rewrite li_available0|apply Hx|by rewrite Hbox, Nat2Z.id|].
  rewrite Hbox, Nat2Z.id in Eb. rewrite message_payload in M4. cbn [mbind outcome_bind]. eexists. split; [done|]. set (x' := mkSide _ w' _ _ _).
  assert (netAddr (post w') = netAddr (post (s_world x)) /\ messageSent (post w') = messageSent (post (s_world x)) /\
    sendLock (post w') = sendLock (post (s_world x))) as (Ena & Es & Elk) by (rewrite Ep; done).
  assert (ident (net w') = ident (net (s_world x)) /\ sendBusy (net w') = sendBusy (net (s_world x)) /\ inbox (net w') = inbox (net (s_world x)))
    as (Eid & Eby & Ein) by (rewrite Enet; done).
  split.
  - apply (invariant_two who); rewrite ?get_set, ?get_set_other; fold y; try done.
    + destruct Hx. split; cbn [x' s_test s_world s_buffer s_pending]; rewrite ?Ena, ?Es, ?Elk, ?Eid, ?Eby, ?Ein; done.
    + exists (D ++ [d]), None, S. split; cbn [x' s_test s_world s_socket option_list app]; rewrite <- ?app_assoc; try done.
      * intros j Hj. apply elem_of_app. left. by apply li_received0.
      * by rewrite Ea, li_available0.
      * intros k Hk. destruct (li_boxes0 k Hk) as (qk & Hqk & Hbk). exists (if decide (k = d) then q_append mail qk else qk).
        split; [|by apply box_delivered]. rewrite Eb. destruct (decide (k = d)) as [->|Hne].
        -- assert (qk = q) as -> by congruence. apply list_lookup_insert_eq. by eapply lookup_lt_Some.
        -- by rewrite list_lookup_insert_ne.
  - rewrite !(measure_sides who), get_set, get_set_other. fold x y. unfold weight. cbn [x' s_test s_world s_socket s_pending].
    rewrite Ea, li_available0. lia.
Qed.

(** ** Nothing to do *)

Lemma finished_rests who r s : invariant s -> t_pc (s_test (get who s)) = 6%nat -> rests who (Program r) s.
Proof. intros Hinv E. unfold rests, act, MailTest. by rewrite E. Qed.

Lemma sending_rests who r s : t_pc (s_test (get who s)) = 1%nat \/ t_pc (s_test (get who s)) = 4%nat ->
  messageSent (post (s_world (get who s))) = 0 -> rests who (Program r) s.
Proof.
  intros Hpc Hz. unfold rests, act, MailTest, send_end_step, PostOffice_Send_end. destruct Hpc as [-> | ->]; by rewrite Hz.
Qed.

Lemma waiting_rests who r s k D V S : invariant s -> waits_for (t_pc (s_test (get who s))) k ->
  link_at (negb who) (sent (t_pc (s_test (get (negb who) s)))) (get who s) D V S -> k ∉ D -> rests who (Program r) s.
Proof.
  intros Hinv Hpc L Hd. destruct (Hinv who) as [Hx _]. destruct (waits_received _ _ Hpc) as (Hr & _ & _ & _ & _ & Hk2).
  destruct (li_boxes _ _ _ _ _ _ L k Hk2) as (q & Hq & Hb). unfold box_is in Hb. rewrite bool_decide_eq_false_2, andb_false_r in Hb by done. subst q.
  unfold rests, act. rewrite (waits_step who r _ k Hpc). unfold receive_step, PostOffice_Receive. rewrite (so_boxes _ _ Hx), ASSERT_true by lia.
  cbn [mbind outcome_bind]. rewrite (proj2 (arr_get_ok _ (Z.of_nat k) [])) by (rewrite Nat2Z.id; split; [lia|done]). done.
Qed.

Lemma poll_rests who s m D d S : link_at (negb who) m (get who s) D (Some d) S -> s_socket (get who s) <> [] -> rests who PollInterrupt s.
Proof.
  intros L Hne. unfold rests, act. destruct (s_socket (get who s)) as [|wire rest]; [done|].
  unfold CheckPktAvail, Schedule. rewrite ASSERT_true by done. cbn [mbind outcome_bind with_pending w_dev].
  rewrite (bf_header _ _ _ _ _ (li_device _ _ _ _ _ _ L d eq_refl)). unfold sent_header. cbn [pk_length].
  rewrite (proj2 (Z.eqb_neq _ 0)) by (destruct d; vm_compute; congruence). done.
Qed.

Lemma postman_rests who s m D S : link_at (negb who) m (get who s) D None S -> rests who Postman s.
Proof. intros L. unfold rests, act, PostalDelivery_iter. by rewrite (li_available _ _ _ _ _ _ L). Qed.

(** Every step either moves or rests. *)
Lemma act_total who a s : invariant s -> moves who a s \/ rests who a s.
Proof.
  intros Hinv. destruct (Hinv who) as [Hx _]. destruct (Hinv (negb who)) as [_ (D & V & S & L)]. rewrite negb_involutive in L. destruct a as [r| | |].
  - pose proof (so_pc _ _ Hx) as Hpc. destruct (t_pc (s_test (get who s))) as [|[|[|[|[|[|[|pc]]]]]]] eqn:E; try lia.
    + left. apply program_sends; auto.
    + destruct (decide (messageSent (post (s_world (get who s))) = 0)); [right; apply sending_rests; auto|left; apply program_sent; auto].
    + destruct (decide (0%nat ∈ D)); [left; eapply (program_receives who r s 0)|right; eapply (waiting_rests who r s 0)];
        try done; rewrite ?E; unfold waits_for; auto; lia.
    + left. apply program_sends; auto.
    + destruct (decide (messageSent (post (s_world (get who s))) = 0)); [right; apply sending_rests; auto|left; apply program_sent; auto].
    + destruct (decide (1%nat ∈ D)); [left; eapply (program_receives who r s 1)|right; eapply (waiting_rests who r s 1)];
        try done; rewrite ?E; unfold waits_for; auto; lia.
    + right. by apply finished_rests.
  - destruct (decide (s_pending (get who s) = 0%nat)) as [E|]; [right; unfold rests, act; by rewrite E|left; by apply interrupt_moves].
  - destruct (decide (s_socket (get who s) = [])) as [E|Hne]; [right; unfold rests, act; by rewrite E|].
    destruct V as [d|]; [right; by eapply poll_rests|left; by eapply poll_moves].
  - destruct V as [d|]; [left; by eapply postman_moves|right; by eapply postman_rests].
Qed.

Lemma moves_not_rests who a s : moves who a s -> rests who a s -> False.
Proof. intros (s' & E & _) Hr. unfold rests in Hr. congruence. Qed.

(** When nothing moves and nothing was lost, a machine has finished or waits for a message that
    was not sent. *)
Lemma quiet_side who s : 100 <= chance -> invariant s -> (forall who a, rests who a s) ->
  t_pc (s_test (get who s)) = 6%nat \/
  exists k, waits_for (t_pc (s_test (get who s))) k /\ (sent (t_pc (s_test (get (negb who) s))) <= k)%nat.
Proof.
  intros Hch Hinv Hq. destruct (Hinv who) as [Hx _]. destruct (Hinv (negb who)) as [_ (D & V & S & L)]. rewrite negb_involutive in L.
  assert (forall a, ~ moves who a s) as Hno by (intros a Hm; by eapply moves_not_rests).
  assert (V = None) as -> by (destruct V as [d|]; [|done]; exfalso; eapply (Hno Postman); by eapply postman_moves).
  assert (s_socket (get who s) = []) as Hs.
  { destruct (decide (s_socket (get who s) = [])); [done|]. exfalso. eapply (Hno PollInterrupt). by eapply poll_moves. }
  assert (s_pending (get who s) = 0%nat) as Hp.
  { destruct (decide (s_pending (get who s) = 0%nat)); [done|]. exfalso. eapply (Hno SendInterrupt). by apply interrupt_moves. }
  pose proof (li_socket _ _ _ _ _ _ L) as HS. rewrite Hs in HS. apply Forall2_nil_inv_r in HS as ->.
  pose proof (so_sent _ _ Hx) as [_ Hms]. rewrite Hp in Hms. pose proof (so_pc _ _ Hx) as Hpc.
  assert (forall k, waits_for (t_pc (s_test (get who s))) k -> (sent (t_pc (s_test (get (negb who) s))) <= k)%nat) as Hw.
  { intros k Hk. destruct (Nat.le_gt_cases (sent (t_pc (s_test (get (negb who) s)))) k) as [|Hlt]; [done|]. exfalso.
    eapply (Hno (Program 0)), program_receives; [done|done|exact L|]. pose proof (li_reliable _ _ _ _ _ _ L k Hch Hlt) as Hin.
    by rewrite !app_nil_r in Hin. }
  destruct (t_pc (s_test (get who s))) as [|[|[|[|[|[|[|pc]]]]]]] eqn:E; try lia; auto.
  - exfalso. apply (Hno (Program 0)), program_sends; auto.
  - exfalso. apply (Hno (Program 0)), program_sent; auto. cbn in Hms. lia.
  - right. exists 0%nat. unfold waits_for in *. auto.
  - exfalso. apply (Hno (Program 0)), program_sends; auto.
  - exfalso. apply (Hno (Program 0)), program_sent; auto. cbn in Hms. lia.
  - right. exists 1%nat. unfold waits_for in *. auto.
Qed.

Lemma quiet_done s : 100 <= chance -> invariant s -> (forall who a, rests who a s) -> forall who, t_pc (s_test (get who s)) = 6%nat.
Proof.
  intros Hch Hinv Hq who. pose proof (quiet_side who s Hch Hinv Hq) as H1. pose proof (quiet_side (negb who) s Hch Hinv Hq) as H2. rewrite negb_involutive in H2.
  destruct H1 as [H1|(k & [[E ->]|[E ->]] & H1)]; [done| |]; destruct H2 as [E2|(k2 & [[E2 ->]|[E2 ->]] & H2)]; rewrite E, E2 in *; cbn in *; lia.
Qed.

Lemma reachable_invariant s0 s : invariant s0 -> reachable poll sdone this garbage chance adr s0 s -> invariant s.
Proof.
  intros Hs0 Hr. induction Hr as [|who a s1 s2 Hr IH Ha]; [done|]. destruct (act_total who a s1 IH) as [(s' & E & Hi & _)|E]; [|unfold rests in E; congruence].
  rewrite Ha in E. by injection E as ->.
Qed.

(** A machine before the test: nothing sent, nothing received. *)
Record fresh_side (who : bool) (x : side) : Prop := {
  fr_test : t_pc (s_test x) = 0%nat /\ t_printed (s_test x) = [];
  fr_post : post (s_world x) = PostOffice_new (adr who) n;
  fr_net : ident (net (s_world x)) = adr who /\ sendBusy (net (s_world x)) = false /\ pk_length (inHdr (net (s_world x))) = 0 /\
    length (inbox (net (s_world x))) = 52%nat;
  fr_rest : length (s_buffer x) = 52%nat /\ s_socket x = [] /\ s_pending x = 0%nat }.

Lemma fresh_invariant s : (forall who, fresh_side who (get who s)) -> invariant s.
Proof.
  intros Hf who. destruct (Hf who) as [[T1 T2] P (N1 & N2 & N3 & N4) (R1 & R2 & R3)]. split.
  - split; rewrite ?T1, ?T2, ?P, ?R3; cbn; try done; lia.
  - destruct (Hf (negb who)) as [[T1' _] P' (_ & _ & N3' & _) (_ & R2' & _)]. exists [], None, [].
    split; rewrite ?T1, ?T1', ?P', ?R2'; cbn; try done; try (intros; lia); [constructor|by intros k ?%elem_of_nil|].
    intros k Hk. exists []. split; [|done]. apply lookup_replicate. split; [done|lia].
Qed.

(** C30. [MailTest] on two machines that run the test against each other, however their steps
    are scheduled and whichever packets the network loses: no assertion fails and nothing is
    undefined in any reachable state, every step brings the two closer to a state in which
    none is possible, and what a machine has printed is the message of the other one and its
    acknowledgement, each once and in this order, or the beginning of that. On a network of
    reliability 1, when no step is possible any more, both tests have finished and printed
    both lines; on others the two may wait for a lost message for ever. *)
Theorem mail_test s0 s :
  (forall who, fresh_side who (get who s0)) -> reachable poll sdone this garbage chance adr s0 s ->
  (forall who a, act poll sdone this garbage chance adr who a s = Ok None \/
     exists s', act poll sdone this garbage chance adr who a s = Ok (Some s') /\ (measure s' < measure s)%nat) /\
  (forall who, t_printed (s_test (get who s)) `prefix_of` [(hello, adr (negb who), 1); (ack, adr (negb who), 1)]) /\
  (100 <= chance -> (forall who a, act poll sdone this garbage chance adr who a s = Ok None) ->
   forall who, t_pc (s_test (get who s)) = 6%nat /\ t_printed (s_test (get who s)) = [(hello, adr (negb who), 1); (ack, adr (negb who), 1)]).
Proof.
  intros Hf Hr. assert (invariant s) as Hinv by (eapply reachable_invariant; [by apply fresh_invariant|done]). split; [|split].
  - intros who a. destruct (act_total who a s Hinv) as [(s' & E & _ & Hm)|E]; [right; by exists s'|by left].
  - intros who. destruct (Hinv who) as [Hx _]. rewrite (so_printed _ _ Hx). unfold received.
    destruct (_ <? 3)%nat; [apply prefix_nil|]. destruct (_ <? 6)%nat; [by eexists|done].
  - intros Hch Hq who. pose proof (quiet_done s Hch Hinv Hq who) as E. split; [done|]. destruct (Hinv who) as [Hx _]. by rewrite (so_printed _ _ Hx), E.
Qed.
End proof.

(** ** Two machines with the addresses 0 and 1 and ten mail boxes *)

Definition demo_side (a : Z) : side :=
  mkSide (mkTest 0 (mkPacket 0 0 0) (mkMailHdr 0 0 0) [])
    (mkWorld Interrupt_new Statistics_new None (mkStation (mkNetwork a false (mkPacket 0 0 0) (replicate 52 9)) (PostOffice_new a 10)))
    (replicate 52 0) [] 0.
Definition demo_adr (who : bool) : Z := if who then 0 else 1.
Definition demo_system : system := (demo_side 0, demo_side 1).

(** The steps [l], as far as they are possible. *)
Definition run_demo (chance : Z) (l : list (bool * action)) (s : system) : outcome system :=
  foldl (fun o '(who, a) => s ← o; r ← act (H := zero_fresh) 2 1 0 (mkPacket 0 0 0) chance demo_adr who a s; Ok (default s r)) (Ok s) l.

Definition demo_round (r : Z) : list (bool * action) :=
  who ← [true; false]; a ← [Program r; SendInterrupt; PollInterrupt; Postman]; [(who, a)].

(** With the reliability 1 both finish; with 0.5 and a draw of 70 the first messages are lost
    and both wait in [Receive], however long they go on. *)
Lemma mail_test_runs :
  (s ← run_demo 100 (concat (replicate 7 (demo_round 70))) demo_system; Ok (t_pc (s_test s.1), t_pc (s_test s.2))) = Ok (6%nat, 6%nat) /\
  (s ← run_demo 50 (concat (replicate 3 (demo_round 70))) demo_system;
   Ok (t_pc (s_test s.1), t_pc (s_test s.2),
       forallb (fun '(who, a) => match act (H := zero_fresh) 2 1 0 (mkPacket 0 0 0) 50 demo_adr who a s with Ok None => true | _ => false end)
         (demo_round 0))) = Ok (2%nat, 2%nat, true).
Proof. vm_compute. auto. Qed.

Lemma mail_test_witness :
  exists s1, act (H := zero_fresh) 2 1 0 (mkPacket 0 0 0) 50 demo_adr true (Program 70) demo_system = Ok (Some s1) /\
    forall who a, act (H := zero_fresh) 2 1 0 (mkPacket 0 0 0) 50 demo_adr who a s1 = Ok None \/
      exists s', act (H := zero_fresh) 2 1 0 (mkPacket 0 0 0) 50 demo_adr who a s1 = Ok (Some s') /\ (measure s' < measure s1)%nat.
Proof.
  assert (forall who, fresh_side demo_adr 10 who (get who demo_system)) as Hf by (intros []; split; simpl; auto).
  destruct (act (H := zero_fresh) 2 1 0 (mkPacket 0 0 0) 50 demo_adr true (Program 70) demo_system) as [[s1|]| | |] eqn:E;
    try (vm_compute in E; discriminate E).
  exists s1. split; [reflexivity|].
  apply (mail_test (H := zero_fresh) (H0 := zero_fresh_laws) 2 1 0 (mkPacket 0 0 0) 50 demo_adr 10 ltac:(unfold two31; lia)
    ltac:(intros []; unfold is_s32, two31; simpl; lia) demo_system s1 Hf).
  eapply reach_step; [apply reach_start|exact E].
Defined.
